(* ===== verification/_CoqProject ===== *)
-Q . S2P
Prelude.v
Mem.v
Io.v
Ring.v
Irq.v
Tty.v
Pci.v
Ata.v
Pmm.v
Vmm.v
Heap.v
BlockHeap.v
Boot.v
Smp.v
Proc.v
ProcSpec.v
Elf.v
ElfSpec.v
Fork.v
Fs.v
FsSpec.v
Packet.v
NetState.v
E1000.v
Ether.v
Ipv4.v
Udp.v
Tcp.v
TcpSpec.v
TcpStream.v
TcpProto.v
Socket.v
TcpWire.v
SocketSpec.v
Syscall.v
SyscallSpec.v
Trap.v
Launch.v
Modules.v
Libc.v
Programs.v
