(* ===== verification/Prelude.v ===== *)
(** * NamelessOS: a verification development

    NamelessOS is an x86-64 kernel in C with a little assembly (src/), a small C library
    and three user programs (userspace/).  This library models the kernel from its entry
    code to the first user process: memory management, processes, traps, files, drivers and
    network stack, the way system calls pass into it, and the user library and programs, and
    proves what they promise.

    ** The parts and how they interact

    The entry code builds the first page tables and calls [kernel_main], which runs the
    initialisers of the modules.  The physical memory manager gives 4 KB frames; the virtual memory manager builds page
    tables in them and the heap cuts them into objects.  Processes have a kernel stack from the heap and an
    address space from the virtual memory manager; the scheduler keeps them in a circular
    queue.  The loader fills an address space from an ELF image.  tmpfs keeps
    file contents in heap blocks behind the virtual file system.  The network card's driver
    feeds ethernet, which dispatches to ARP and IPv4, and IPv4 to ICMP, UDP (and DHCP over it) and
    TCP; sockets sit on UDP and TCP.  User programs reach all of it by system calls; interrupts
    drive the timer, the terminal and preemption, page faults the copy-on-write pages of fork.

    ** Files (in order)

    - Prelude: machine integers with their wrap-around, the notation scope, tactics, generic lemmas.
    - Mem: byte memory, src/lib/string.c.  Io: ports, src/lib/printf.c, src/serial.
      Ring: byte rings shared by the keyboard, terminal, TCP and UDP sockets.
    - Irq: src/gdt, src/idt, src/pic, src/timer, src/keyboard.  Tty: src/vga, src/tty.
      Pci: src/pci.  Ata: src/ata.
    - Pmm: src/pmm, and the interface [FrameAlloc].  Vmm: src/vmm over that interface.
      Heap: src/heap.  BlockHeap: the interface of the heap towards its clients, with its instance.
    - Boot: boot/entry.asm and the start of src/core/kernel.c.  Smp: src/smp.
    - Proc, ProcSpec: src/process, src/scheduler.  Elf, ElfSpec: src/elf and
      [sys_mmap] of src/dynlink.  Fork: the copy-on-write clone of an address space.  Fs, FsSpec: src/vfs, src/tmpfs, src/devfs.
    - Packet, NetState: byte order, checksums and the state of src/net.  E1000, Ether, Ipv4, Udp: the
      layers up to UDP, with ARP in Ether, ICMP in Ipv4 and DHCP in Udp.  Tcp, TcpSpec,
      TcpStream, TcpProto: src/net/tcp.  Socket: src/net/socket and the composition of the receive
      path.  TcpWire: the handshake through all layers.  SocketSpec: what sockets promise.
    - Syscall, SyscallSpec: src/syscall.  Trap: the entry stubs of interrupts, page faults and exceptions
      (src/pic/irq_stubs.asm, src/vmm, src/idt).  Launch: src/init_launch.
      Modules: src/core, the module table over all of the above.  Libc: userspace/libc.  Programs: userspace/programs.

    One definition stands for one function of the source and has its name; the loop of
    a function is a definition of its own (its name ends in [_loop] or names its step).  A file whose name ends in Spec,
    Fork, TcpStream, TcpProto and TcpWire hold theorems and what they are stated with; the others hold definitions
    followed by the theorems about them.

    ** How state is modelled

    Machine words are [Z], wrapped where the source's type wraps ([u8] to [u64],
    [i32], [i64]).  The kernel's memory is a total map from addresses to bytes; page tables,
    slabs, ELF images and file contents are in it at the offsets of the C structures.
    Static variables are records passed from step to step: [pmm_state], [kst] (memory,
    frames, CR3), [hst] (with the heap's caches), [pst] (processes), [fs_st], [nst]
    (network), [kernel] (what a system call sees).  Function pointers are inductive types
    with the functions the program registers as constructors.  Hardware is a class ([Bus], [NicHw]): a port
    read or a register access is an arbitrary function of the device's
    state, and a theorem that needs documented behaviour of a device names it as a class of laws,
    which an instance shows can hold.  A NULL return is 0, a negative return an error, as in the source; [None]
    means that fuel ran out, or, in a format ending after a lone per cent sign, that
    the code reads past its end.

    ** What the theorems show

    - Start-up: the entry code leaves well-formed tables that map what the kernel relies on, the first
      initialisers establish the invariants of frames, paging and heap, the module table wires vectors, ticks,
      system calls, protocols and devices together, and the first process is launched
      so that its first turn enters the program in user mode.
    - Memory: the frame allocator is first-fit and counts what is free; the multiboot walk frees exactly
      the frames that end in available memory and are not reserved; paging stays well-formed under every operation, mapping,
      unmapping, copy-on-write and address-space creation change exactly the pages they name; a fork gives the
      child the parent's memory, and writes of one are not seen by the other;
      [kmalloc] gives fresh disjoint blocks of up to 2048 bytes, and NULL only when no frame is left, and [kfree]
      returns exactly its block.
    - Programs and processes: the run queue refines a list, yielding is round robin, registers survive
      switches, fork, exit and wait have their life cycle, a system call returns the
      user's context, an interrupt returns to what it interrupted (at once, or after a switch away and back through
      [context_switch]), the timer preempts, a copy-on-write fault resumes; [elf_load], [sys_execve] and [sys_mmap] produce address spaces whose user-visible
      bytes are those of the file and zeros.
    - Files: descriptors on tmpfs refine byte strings of up to 2048 bytes with positions, next to descriptors of
      the terminal; names created are found.
    - Network: what IPv4 and UDP send is received intact, exactly the well-formed datagrams for the host reach a
      handler, TCP follows its state diagram, completes its handshake with the frames in the cards' rings, delivers a prefix of the peer's stream under
      loss, duplication and reordering (an in-order receiver refines it), and gives up after bounded retries.
    - Console and buses: the line discipline of the terminal, PCI enumeration, interrupt vectors, the report of
      an exception.
    - Locks: on processors with store buffers the spinlock gives its clients one sequentially consistent memory.
    - User side: [vsnprintf] equals a reference rendering, a shell session acts line by line, the web
      server answers a request whose headers end, and nothing else.
    - Some theorems describe defects: the write that wraps in tmpfs, the 4096-byte size class of the heap,
      the byte order of the TCP checksum, the frame that multiprocessor start-up overwrites.

    ** Fuel and bounds

    Loops that follow pointers, wait for hardware or run until a NUL byte take fuel;
    the theorems state how much is enough (the length of a queue or list, the pages of a segment, the length
    of a line) and that the result is then reached.  Polling loops with a bound in the source
    have that bound.  Table sizes are the source's.

    ** Not modelled

    - The embedded program images (src/init_launch/*_elf.c), which are generated; the instructions of the
      trampoline for further processors, which are data to the model and never run.
    - The dump functions and log lines of the modules.
    - Interleaving: a system call runs to its end; interrupts and received packets are explicit steps of
      their own.  The kernel uses one processor; only Smp.v has several.  What happens while a process waits is a parameter.
    - User memory seen by file and socket calls is the low half of the memory map; it is not
      linked to the page tables of the calling process.
    - In userspace: the system-call stubs, crt0 and the accept loop of the web server. *)

From Stdlib Require Export ZArith Lia.
From Stdlib Require Import Btauto.
From stdpp Require Export base list numbers option sets relations.
Export stdpp.list_relations.list.
Open Scope Z_scope.

(** ** Fixed-width integers ([src/lib/types.h])

    A [w]-bit unsigned C value is a [Z] in [0 .. 2^w - 1]; the conversions
    below are the C casts, written out as reductions modulo [2^w]. *)

Definition u8 (x : Z) : Z := x mod 2 ^ 8.
Definition u16 (x : Z) : Z := x mod 2 ^ 16.
Definition u32 (x : Z) : Z := x mod 2 ^ 32.
Definition u64 (x : Z) : Z := x mod 2 ^ 64.

(** Two's complement reinterpretation of the low [w] bits as a signed value. *)
Definition sint (w x : Z) : Z :=
  let r := x mod 2 ^ w in if r <? 2 ^ (w - 1) then r else r - 2 ^ w.
Definition i32 (x : Z) : Z := sint 32 x.
Definition i64 (x : Z) : Z := sint 64 x.

(** Bitwise complement at a width ([~x] on an unsigned operand). *)
Definition not16 (x : Z) : Z := u16 (Z.lnot x).
Definition not32 (x : Z) : Z := u32 (Z.lnot x).
Definition not64 (x : Z) : Z := u64 (Z.lnot x).

(** [x & m] used as a C condition. *)
Definition has (x m : Z) : bool := negb (Z.land x m =? 0).

Declare Scope c_scope.
Delimit Scope c_scope with c.
Notation "x &b y" := (Z.land x y) (at level 35, right associativity) : c_scope.
Notation "x |b y" := (Z.lor x y) (at level 37, right associativity) : c_scope.
Notation "x <<b n" := (Z.shiftl x n) (at level 34, left associativity) : c_scope.
Notation "x >>b n" := (Z.shiftr x n) (at level 34, left associativity) : c_scope.
Open Scope c_scope.

(** ** Tactics and hint databases *)

Create HintDb kernel.
Create Rewrite HintDb bits.

#[export] Hint Rewrite Z.lor_spec Z.land_spec Z.lxor_spec Z.ldiff_spec
  Z.bits_0 : bits.

(** Linear arithmetic with division and remainder by literals. *)
Ltac zlia := Z.to_euclidean_division_equations; lia.

(** Case analysis on the boolean comparisons of [Z] in the goal. *)
Ltac case_ltb :=
  match goal with
  | |- context [?a <? ?b] => destruct (Z.ltb_spec a b)
  | |- context [?a <=? ?b] => destruct (Z.leb_spec a b)
  | |- context [?a =? ?b] => destruct (Z.eqb_spec a b)
  | |- context [?a >? ?b] => rewrite (Z.gtb_ltb a b)
  | |- context [?a >=? ?b] => rewrite (Z.geb_leb a b)
  end.

(** Split a conjunction, keeping ranges [a <= x < b] whole. *)
Ltac splits :=
  repeat match goal with
  | |- ?P /\ ?Q =>
      lazymatch P with
      | (_ <= _) => fail
      | (_ < _) => fail
      | _ => split
      end
  end.

(** Turn boolean tests in hypotheses into propositions. *)
Ltac bool_hyps :=
  repeat match goal with
  | H : (_ && _)%bool = true |- _ => apply andb_true_iff in H as [? ?]
  | H : (_ || _)%bool = false |- _ => apply orb_false_iff in H as [? ?]
  | H : negb _ = true |- _ => apply negb_true_iff in H
  | H : negb _ = false |- _ => apply negb_false_iff in H
  | H : (_ <? _) = true |- _ => apply Z.ltb_lt in H
  | H : (_ <? _) = false |- _ => apply Z.ltb_ge in H
  | H : (_ <=? _) = true |- _ => apply Z.leb_le in H
  | H : (_ <=? _) = false |- _ => apply Z.leb_gt in H
  | H : (_ =? _) = true |- _ => apply Z.eqb_eq in H
  | H : (_ =? _) = false |- _ => apply Z.eqb_neq in H
  | H : (_ >=? _) = _ |- _ => rewrite Z.geb_leb in H
  | H : (_ >? _) = _ |- _ => rewrite Z.gtb_ltb in H
  end.

(** ** Lemmas on machine integers *)

Lemma u8_range x : 0 <= u8 x < 2 ^ 8.
Proof. apply Z.mod_pos_bound. lia. Qed.
Lemma u16_range x : 0 <= u16 x < 2 ^ 16.
Proof. apply Z.mod_pos_bound. lia. Qed.
Lemma u32_range x : 0 <= u32 x < 2 ^ 32.
Proof. apply Z.mod_pos_bound. lia. Qed.
Lemma u64_range x : 0 <= u64 x < 2 ^ 64.
Proof. apply Z.mod_pos_bound. lia. Qed.
Lemma u8_small x : 0 <= x < 2 ^ 8 -> u8 x = x.
Proof. apply Z.mod_small. Qed.
Lemma u16_small x : 0 <= x < 2 ^ 16 -> u16 x = x.
Proof. apply Z.mod_small. Qed.
Lemma u32_small x : 0 <= x < 2 ^ 32 -> u32 x = x.
Proof. apply Z.mod_small. Qed.
Lemma u64_small x : 0 <= x < 2 ^ 64 -> u64 x = x.
Proof. apply Z.mod_small. Qed.

Lemma u64_add_l x y : u64 (u64 x + y) = u64 (x + y).
Proof. apply Zplus_mod_idemp_l. Qed.
Lemma u32_add_l x y : u32 (u32 x + y) = u32 (x + y).
Proof. apply Zplus_mod_idemp_l. Qed.
Lemma u64_sub_r x y : u64 (x - u64 y) = u64 (x - y).
Proof. apply Zminus_mod_idemp_r. Qed.

#[export] Hint Resolve u8_range u16_range u32_range u64_range : kernel.

(** A natural number below [2^w] has no bit at [w] or above. *)
Lemma testbit_high w n i : 0 <= n < 2 ^ w -> 0 <= w <= i -> Z.testbit n i = false.
Proof.
  intros Hn Hi. rewrite <- (Z.mod_small n (2 ^ w)) by lia.
  apply Z.mod_pow2_bits_high. lia.
Qed.

Lemma testbit_mod w x i : 0 <= w -> Z.testbit (x mod 2 ^ w) i = (i <? w) && Z.testbit x i.
Proof.
  intros Hw. destruct (Z.ltb_spec i w); simpl.
  - destruct (Z.ltb_spec i 0); [by rewrite !Z.testbit_neg_r by lia|].
    apply Z.mod_pow2_bits_low. lia.
  - apply Z.mod_pow2_bits_high. lia.
Qed.

(** A value whose bits at [w] and above are clear is below [2^w]. *)
Lemma bits_bound w x : 0 <= w -> 0 <= x ->
  (forall i, w <= i -> Z.testbit x i = false) -> x < 2 ^ w.
Proof.
  intros Hw Hx Hb. rewrite <- (Z.mod_small x (2 ^ w)); [apply Z.mod_pos_bound; lia|].
  enough (x = x mod 2 ^ w) as -> by (apply Z.mod_pos_bound; lia).
  apply Z.bits_inj'. intros i Hi. rewrite testbit_mod by lia.
  destruct (Z.ltb_spec i w); simpl; [done|]. apply Hb. lia.
Qed.

Lemma lor_bound w x y : 0 <= w -> 0 <= x < 2 ^ w -> 0 <= y < 2 ^ w -> 0 <= Z.lor x y < 2 ^ w.
Proof.
  intros Hw Hx Hy. split; [apply Z.lor_nonneg; lia|].
  apply bits_bound; [lia|apply Z.lor_nonneg; lia|]. intros i Hi.
  by rewrite Z.lor_spec, !(testbit_high w) by lia.
Qed.

(** Putting a field above the bits of another value is adding it. *)
Lemma lor_add w a x : 0 <= w -> 0 <= a -> 0 <= x < 2 ^ w -> Z.lor (a * 2 ^ w) x = a * 2 ^ w + x.
Proof.
  intros Hw Ha Hx. symmetry. rewrite <- Z.lxor_lor; [apply Z.add_nocarry_lxor|];
    (apply Z.bits_inj'; intros i Hi; rewrite Z.land_spec, Z.bits_0, <- Z.shiftl_mul_pow2 by lia;
     destruct (Z.ltb_spec i w);
     [by rewrite Z.shiftl_spec_low by lia|rewrite (testbit_high w x) by lia; apply andb_false_r]).
Qed.

Lemma land_bound w x y : 0 <= w -> 0 <= x < 2 ^ w -> 0 <= Z.land x y < 2 ^ w.
Proof.
  intros Hw Hx. assert (0 <= Z.land x y) by (apply Z.land_nonneg; lia).
  split; [done|]. apply bits_bound; [done..|]. intros i Hi.
  by rewrite Z.land_spec, (testbit_high w x) by lia.
Qed.

(** Masking with [~(2^k - 1)] rounds down to a multiple of [2^k]. *)
Lemma land_not64_ones k x : 0 <= k <= 64 -> 0 <= x < 2 ^ 64 ->
  Z.land x (not64 (Z.ones k)) = x / 2 ^ k * 2 ^ k.
Proof.
  intros Hk Hx. rewrite <- Z.shiftl_mul_pow2, <- Z.shiftr_div_pow2 by lia.
  apply Z.bits_inj'. intros i Hi.
  rewrite Z.land_spec. unfold not64, u64. rewrite testbit_mod, Z.lnot_spec by lia.
  destruct (Z.ltb_spec i k).
  - rewrite Z.shiftl_spec_low, Z.ones_spec_low by lia. by rewrite andb_false_r, andb_false_r.
  - rewrite Z.shiftl_spec_high, Z.shiftr_spec, Z.ones_spec_high by lia.
    replace (i - k + k) with i by lia. rewrite andb_true_r.
    destruct (Z.ltb_spec i 64); [by rewrite andb_true_r|].
    rewrite (testbit_high 64 x) by lia. done.
Qed.

(** Testing one bit with a mask. *)
Lemma has_bit x n : 0 <= n -> has x (2 ^ n) = Z.testbit x n.
Proof.
  intros Hn. unfold has. apply eq_true_iff_eq. rewrite negb_true_iff, Z.eqb_neq.
  split.
  - intros Hne. destruct (Z.testbit x n) eqn:E; [done|]. exfalso. apply Hne.
    apply Z.bits_inj'. intros i Hi. rewrite Z.land_spec, Z.bits_0, Z.pow2_bits_eqb by lia.
    destruct (Z.eqb_spec n i) as [->|]; [by rewrite E|apply andb_false_r].
  - intros Hb Heq. apply (f_equal (fun z => Z.testbit z n)) in Heq.
    by rewrite Z.land_spec, Hb, Z.pow2_bits_true, Z.bits_0 in Heq by lia.
Qed.

(** The flag constants of the code are written [1 << n]. *)
Lemma has_shl x n : 0 <= n -> has x (Z.shiftl 1 n) = Z.testbit x n.
Proof. intros Hn. rewrite Z.shiftl_1_l. by apply has_bit. Qed.

(** ** Lists used as arrays *)

(** [first_idx P l]: the loop [for (i = 0; i < n; i++) if (P(a[i])) return i;]. *)
Fixpoint first_idx {A} (P : A -> bool) (l : list A) : option nat :=
  match l with
  | [] => None
  | x :: l => if P x then Some O else S <$> first_idx P l
  end.

Lemma first_idx_Some {A} (P : A -> bool) l i :
  first_idx P l = Some i <->
  (exists x, l !! i = Some x /\ P x = true) /\
  (forall j y, (j < i)%nat -> l !! j = Some y -> P y = false).
Proof.
  revert i. induction l as [|a l IH]; intros i; simpl.
  { split; [done|]. intros [(x & Hx & _) _]. by destruct i. }
  destruct (P a) eqn:Ha.
  - split.
    + intros [= <-]. split; [by exists a|]. intros j y Hj. lia.
    + intros [_ Hmin]. destruct i as [|i]; [done|].
      specialize (Hmin O a ltac:(lia) eq_refl). congruence.
  - rewrite fmap_Some. split.
    + intros (k & Hk & ->). apply IH in Hk as [Hx Hmin]. split; [done|].
      intros [|j] y Hj Hy; simpl in Hy; [congruence|]. apply (Hmin j); [lia|done].
    + intros [(x & Hx & HPx) Hmin]. destruct i as [|i]; simpl in Hx; [congruence|].
      exists i. split; [|done]. apply IH. split; [by exists x|].
      intros j y Hj Hy. apply (Hmin (S j)); [lia|done].
Qed.

Lemma first_idx_None {A} (P : A -> bool) l :
  first_idx P l = None <-> Forall (fun x => P x = false) l.
Proof.
  induction l as [|a l IH]; simpl; [by split|].
  rewrite Forall_cons, <- IH. destruct (P a).
  - split; [done|]. by intros [? _].
  - rewrite fmap_None. tauto.
Qed.

Lemma first_idx_lt {A} (P : A -> bool) l i : first_idx P l = Some i -> (i < length l)%nat.
Proof.
  intros [(x & Hx & _) _]%first_idx_Some. by eapply lookup_lt_Some.
Qed.

Lemma elem_app_l {A} (x : A) l1 l2 : x ∈ l1 -> x ∈ l1 ++ l2.
Proof. intros H. apply elem_of_app. by left. Qed.
Lemma elem_app_r {A} (x : A) l1 l2 : x ∈ l2 -> x ∈ l1 ++ l2.
Proof. intros H. apply elem_of_app. by right. Qed.

(** Membership in an append from membership in a part. *)
Ltac in_app := first [assumption | apply elem_app_l; in_app | apply elem_app_r; in_app].

(** Number of elements satisfying a boolean test. *)
Definition countb {A} (P : A -> bool) (l : list A) : nat :=
  length (List.filter P l).

Lemma countb_app {A} (P : A -> bool) l1 l2 : countb P (l1 ++ l2) = (countb P l1 + countb P l2)%nat.
Proof. unfold countb. by rewrite List.filter_app, length_app. Qed.

Lemma countb_cons {A} (P : A -> bool) x l :
  countb P (x :: l) = ((if P x then 1 else 0) + countb P l)%nat.
Proof. unfold countb. simpl. by destruct (P x). Qed.

Lemma countb_ext {A} (P Q : A -> bool) l :
  (forall x, x ∈ l -> P x = Q x) -> countb P l = countb Q l.
Proof.
  intros Hext. unfold countb. f_equal. apply List.filter_ext_in.
  intros x Hx. apply Hext. by apply list_elem_of_In.
Qed.

(** Turning a test on at one point of a duplicate-free list adds one. *)
Lemma countb_flip {A} (P Q : A -> bool) l a :
  NoDup l -> a ∈ l -> P a = false -> Q a = true ->
  (forall x, x ∈ l -> x <> a -> P x = Q x) -> countb Q l = S (countb P l).
Proof.
  intros Hnd Hin HP HQ Hext.
  apply list_elem_of_split in Hin as (l1 & l2 & ->).
  apply NoDup_app in Hnd as (_ & Hd & Hnd2). apply NoDup_cons in Hnd2 as [Ha2 _].
  assert (a ∉ l1) as Ha1 by (intros ?; eapply Hd; [done|]; left).
  rewrite !countb_app, !countb_cons, HP, HQ.
  rewrite (countb_ext P Q l1), (countb_ext P Q l2).
  - lia.
  - intros x Hx. apply Hext; [set_solver|by intros ->].
  - intros x Hx. apply Hext; [set_solver|by intros ->].
Qed.

Lemma countb_pos {A} (P : A -> bool) l : (0 < countb P l)%nat <-> exists x, x ∈ l /\ P x = true.
Proof.
  unfold countb. split.
  - intros H. destruct (List.filter P l) as [|x k] eqn:E; [simpl in H; lia|].
    exists x. rewrite list_elem_of_In. apply List.filter_In. rewrite E. by left.
  - intros (x & Hx & HP). destruct (List.filter P l) as [|y k] eqn:E; simpl; [|lia].
    assert (List.In x (List.filter P l)) as Hin.
    { apply List.filter_In. split; [by apply list_elem_of_In|done]. }
    rewrite E in Hin. by destruct Hin.
Qed.
