(* ===== verification/Mem.v ===== *)
(** * Kernel memory and [src/lib/string.c]

    The kernel's flat address space is a total byte map [mem : Z -> Z].
    Multi-byte accesses are little-endian, as on x86-64.  On top of it sit the
    routines of [src/lib/string.c], each loop a recursion on its own counter
    (or on fuel where the C loop runs until a NUL byte), and their
    specifications: [memset]/[memcpy]/[memmove] describe the resulting memory
    byte by byte, the string routines are related to the NUL-terminated string
    stored at an address ([cstr]). *)

From Stdlib Require String.
From S2P Require Import Prelude.

(** ** Bytes, loads and stores *)

Definition mem := Z -> Z.

Definition upd (m : mem) (a v : Z) : mem := fun x => if x =? a then v else m x.

Definition bytes_ok (m : mem) : Prop := forall a, 0 <= m a < 2 ^ 8.

Fixpoint load (n : nat) (m : mem) (a : Z) : Z :=
  match n with
  | O => 0
  | S n => m a + 2 ^ 8 * load n m (a + 1)
  end.

Fixpoint store (n : nat) (m : mem) (a v : Z) : mem :=
  match n with
  | O => m
  | S n => store n (upd m a (u8 v)) (a + 1) (v >>b 8)
  end.

Abbreviation load32 := (load 4).
Abbreviation load64 := (load 8).
Abbreviation store32 := (store 4).
Abbreviation store64 := (store 8).

(** [bytes m a n]: the [n] bytes at [a]; [put m a l]: write a byte list. *)
Fixpoint bytes (n : nat) (m : mem) (a : Z) : list Z :=
  match n with O => [] | S n => m a :: bytes n m (a + 1) end.

Fixpoint put (m : mem) (a : Z) (l : list Z) : mem :=
  match l with [] => m | x :: l => put (upd m a x) (a + 1) l end.

(** ** [src/lib/string.c]: memory routines *)

Fixpoint memset_loop (n : nat) (m : mem) (p c : Z) : mem :=
  match n with
  | O => m
  | S n => memset_loop n (upd m p (u8 c)) (p + 1) c
  end.
Definition memset (m : mem) (dst c n : Z) : mem := memset_loop (Z.to_nat n) m dst c.

Fixpoint memcpy_loop (n : nat) (m : mem) (d s : Z) : mem :=
  match n with
  | O => m
  | S n => memcpy_loop n (upd m d (m s)) (d + 1) (s + 1)
  end.
Definition memcpy (m : mem) (dst src n : Z) : mem := memcpy_loop (Z.to_nat n) m dst src.

(** The descending loop of [memmove]: [while (n--) *--d = *--s;]. *)
Fixpoint memmove_down (n : nat) (m : mem) (d s : Z) : mem :=
  match n with
  | O => m
  | S n => memmove_down n (upd m (d - 1) (m (s - 1))) (d - 1) (s - 1)
  end.
Definition memmove (m : mem) (dst src n : Z) : mem :=
  if dst <? src then memcpy_loop (Z.to_nat n) m dst src
  else if dst >? src then memmove_down (Z.to_nat n) m (dst + n) (src + n)
  else m.

Fixpoint memcmp_loop (n : nat) (m : mem) (p q : Z) : Z :=
  match n with
  | O => 0
  | S n => if negb (m p =? m q) then m p - m q else memcmp_loop n m (p + 1) (q + 1)
  end.
Definition memcmp (m : mem) (a b n : Z) : Z := memcmp_loop (Z.to_nat n) m a b.

(** ** [src/lib/string.c]: string routines

    Fuel bounds the loops that stop at a NUL; [None] is "ran out of fuel". *)

Fixpoint strlen_loop (fuel : nat) (m : mem) (s len : Z) : option Z :=
  match fuel with
  | O => None
  | S fuel => if m s =? 0 then Some len else strlen_loop fuel m (s + 1) (len + 1)
  end.
Definition strlen (fuel : nat) (m : mem) (s : Z) : option Z := strlen_loop fuel m s 0.

Fixpoint strcmp (fuel : nat) (m : mem) (a b : Z) : option Z :=
  match fuel with
  | O => None
  | S fuel =>
      if negb (m a =? 0) && (m a =? m b) then strcmp fuel m (a + 1) (b + 1)
      else Some (m a - m b)
  end.

Fixpoint strcpy (fuel : nat) (m : mem) (dst src : Z) : option mem :=
  match fuel with
  | O => None
  | S fuel =>
      let c := m src in
      let m := upd m dst c in
      if c =? 0 then Some m else strcpy fuel m (dst + 1) (src + 1)
  end.

(** [strncpy]: [while (n && ( *dst++ = *src++)) n--;] then
    [while (n--) *dst++ = 0;].  The first loop leaves [n] undecremented when it
    stops on the NUL it has just copied. *)
Fixpoint strncpy_copy (n : nat) (m : mem) (dst src : Z) : mem * Z * nat :=
  match n with
  | O => (m, dst, O)
  | S n' =>
      let c := m src in
      let m := upd m dst c in
      if c =? 0 then (m, dst + 1, n) else strncpy_copy n' m (dst + 1) (src + 1)
  end.
Definition strncpy (m : mem) (dst src n : Z) : mem :=
  let '(m, dst, n) := strncpy_copy (Z.to_nat n) m dst src in
  memset_loop n m dst 0.

Fixpoint strncmp_loop (n : nat) (m : mem) (a b : Z) : Z :=
  match n with
  | O => 0
  | S n =>
      let diff := m a - m b in
      if negb (diff =? 0) || (m a =? 0) then diff else strncmp_loop n m (a + 1) (b + 1)
  end.
Definition strncmp (m : mem) (a b n : Z) : Z := strncmp_loop (Z.to_nat n) m a b.

(** ** Load/store laws *)

Lemma upd_eq m a v : upd m a v a = v.
Proof. unfold upd. by rewrite Z.eqb_refl. Qed.

Lemma upd_ne m a v x : x <> a -> upd m a v x = m x.
Proof. intros H. unfold upd. by destruct (Z.eqb_spec x a). Qed.

Lemma store_other n m a v x : ~ (a <= x < a + Z.of_nat n) -> store n m a v x = m x.
Proof.
  revert m a v. induction n as [|n IH]; intros m a v Hx; [done|].
  cbn [store]. rewrite IH by lia. apply upd_ne. lia.
Qed.

Lemma load_ext n m1 m2 a :
  (forall x, a <= x < a + Z.of_nat n -> m1 x = m2 x) -> load n m1 a = load n m2 a.
Proof.
  revert a. induction n as [|n IH]; intros a H; [done|]. cbn [load].
  rewrite (H a), (IH (a + 1)); [done| |lia]. intros x Hx. apply H. lia.
Qed.

Lemma load_store_eq n m a v : load n (store n m a v) a = v mod 2 ^ (8 * Z.of_nat n).
Proof.
  revert m a v. induction n as [|n IH]; intros m a v.
  { simpl. by rewrite Z.mod_1_r. }
  cbn [load store]. rewrite store_other by lia. rewrite upd_eq, IH.
  replace (8 * Z.of_nat (S n)) with (8 + 8 * Z.of_nat n) by lia.
  rewrite Z.pow_add_r, Z.rem_mul_r by lia. unfold u8.
  by rewrite Z.shiftr_div_pow2 by lia.
Qed.

Lemma load_store_ne n k m a b v :
  a + Z.of_nat n <= b \/ b + Z.of_nat k <= a -> load k (store n m a v) b = load k m b.
Proof. intros H. apply load_ext. intros x Hx. apply store_other. lia. Qed.

Lemma load_zero n a : load n (fun _ => 0) a = 0.
Proof. revert a. induction n as [|n IH]; intros a; cbn [load]; [done|]. by rewrite IH. Qed.

Lemma load_range n m a : bytes_ok m -> 0 <= load n m a < 2 ^ (8 * Z.of_nat n).
Proof.
  intros Hm. revert a. induction n as [|n IH]; intros a; [simpl; lia|].
  cbn [load]. replace (8 * Z.of_nat (S n)) with (8 + 8 * Z.of_nat n) by lia.
  rewrite Z.pow_add_r by lia. specialize (Hm a). specialize (IH (a + 1)). nia.
Qed.

Lemma upd_bytes_ok m a v : bytes_ok m -> 0 <= v < 2 ^ 8 -> bytes_ok (upd m a v).
Proof. intros Hm Hv x. unfold upd. by destruct (x =? a). Qed.

Lemma store_bytes_ok n m a v : bytes_ok m -> bytes_ok (store n m a v).
Proof.
  revert m a v. induction n as [|n IH]; intros m a v Hm; [done|].
  cbn [store]. apply IH, upd_bytes_ok; [done|apply u8_range].
Qed.

#[export] Hint Resolve upd_bytes_ok store_bytes_ok : kernel.

Lemma length_bytes n m a : length (bytes n m a) = n.
Proof. revert a. induction n as [|n IH]; intros a; simpl; congruence. Qed.

Lemma lookup_bytes n m a (i : nat) : (i < n)%nat -> bytes n m a !! i = Some (m (a + Z.of_nat i)).
Proof.
  revert a i. induction n as [|n IH]; intros a i Hi; [lia|].
  destruct i as [|i]; simpl; [by rewrite Z.add_0_r|].
  rewrite IH by lia. do 2 f_equal. lia.
Qed.

Lemma put_other m a l x : ~ (a <= x < a + Z.of_nat (length l)) -> put m a l x = m x.
Proof.
  revert m a. induction l as [|y l IH]; intros m a Hx; [done|].
  cbn [put length] in *. rewrite IH by lia. apply upd_ne. lia.
Qed.

Lemma put_in m a l (i : nat) y : l !! i = Some y -> put m a l (a + Z.of_nat i) = y.
Proof.
  revert m a i. induction l as [|z l IH]; intros m a i Hi; [done|].
  destruct i as [|i]; simpl in *.
  - injection Hi as ->. rewrite put_other by lia. rewrite Z.add_0_r. apply upd_eq.
  - replace (a + Z.of_nat (S i)) with (a + 1 + Z.of_nat i) by lia. by apply IH.
Qed.

Lemma put_bytes_ok m a l : bytes_ok m -> Forall (fun b => 0 <= b < 2 ^ 8) l -> bytes_ok (put m a l).
Proof.
  intros Hm Hl. revert m a Hm. induction Hl as [|y l Hy Hl IH]; intros m a Hm; [done|]. by apply IH, upd_bytes_ok.
Qed.

Lemma bytes_put m buf data : bytes (List.length data) (put m buf data) buf = data.
Proof.
  apply list_eq. intros k. destruct (data !! k) as [y|] eqn:E.
  - pose proof (lookup_lt_Some _ _ _ E). rewrite lookup_bytes by done. by rewrite (put_in _ _ _ _ y E).
  - apply lookup_ge_None_1 in E. apply lookup_ge_None_2. by rewrite length_bytes.
Qed.

(** ** Specifications of the memory routines *)

Lemma memset_loop_spec n m p c x :
  memset_loop n m p c x = if (p <=? x) && (x <? p + Z.of_nat n) then u8 c else m x.
Proof.
  revert m p. induction n as [|n IH]; intros m p; cbn [memset_loop].
  { repeat case_ltb; simpl; try done; lia. }
  rewrite IH. unfold upd. repeat case_ltb; simpl; try done; lia.
Qed.

Lemma memset_spec m dst c n x : 0 <= n ->
  memset m dst c n x = if (dst <=? x) && (x <? dst + n) then u8 c else m x.
Proof. intros Hn. unfold memset. by rewrite memset_loop_spec, Z2Nat.id by lia. Qed.

Lemma memset_bytes_ok m dst c n : bytes_ok m -> bytes_ok (memset m dst c n).
Proof.
  intros Hm x. unfold memset. rewrite memset_loop_spec.
  destruct (_ && _); [apply u8_range|apply Hm].
Qed.

(** Forward copy is right whenever the destination starts at or below the
    source, or the ranges are disjoint. *)
Lemma memcpy_loop_spec n m d s x :
  d <= s \/ s + Z.of_nat n <= d ->
  memcpy_loop n m d s x = if (d <=? x) && (x <? d + Z.of_nat n) then m (s + (x - d)) else m x.
Proof.
  revert m d s. induction n as [|n IH]; intros m d s Hd; cbn [memcpy_loop].
  { repeat case_ltb; simpl; try done; lia. }
  rewrite IH by lia. unfold upd. repeat case_ltb; simpl; try done; try lia; f_equal; lia.
Qed.

Lemma memcpy_spec m dst src n x : 0 <= n -> dst <= src \/ src + n <= dst ->
  memcpy m dst src n x = if (dst <=? x) && (x <? dst + n) then m (src + (x - dst)) else m x.
Proof. intros Hn Hd. unfold memcpy. by rewrite memcpy_loop_spec, Z2Nat.id by lia. Qed.

Lemma memcpy_bytes_ok m dst src n : bytes_ok m -> bytes_ok (memcpy m dst src n).
Proof.
  unfold memcpy. generalize (Z.to_nat n). intros k. revert m dst src.
  induction k as [|k IH]; intros m d s Hm; [done|]. cbn [memcpy_loop].
  apply IH. by apply upd_bytes_ok.
Qed.

Lemma memmove_down_spec n m d s x :
  s <= d ->
  memmove_down n m d s x = if (d - Z.of_nat n <=? x) && (x <? d) then m (s + (x - d)) else m x.
Proof.
  revert m d s. induction n as [|n IH]; intros m d s Hd; cbn [memmove_down].
  { repeat case_ltb; simpl; try done; lia. }
  rewrite IH by lia. unfold upd. repeat case_ltb; simpl; try done; try lia; f_equal; lia.
Qed.

Lemma memmove_spec m dst src n x : 0 <= n ->
  memmove m dst src n x = if (dst <=? x) && (x <? dst + n) then m (src + (x - dst)) else m x.
Proof.
  intros Hn. unfold memmove. rewrite Z.gtb_ltb.
  destruct (Z.ltb_spec dst src); [|destruct (Z.ltb_spec src dst)].
  - rewrite memcpy_loop_spec, Z2Nat.id by lia. done.
  - rewrite memmove_down_spec, Z2Nat.id by lia.
    replace (dst + n - n) with dst by lia.
    destruct (_ && _); [f_equal; lia|done].
  - assert (src = dst) as -> by lia. destruct (_ && _); [f_equal; lia|done].
Qed.

Lemma memcmp_loop_zero n m p q : memcmp_loop n m p q = 0 <-> bytes n m p = bytes n m q.
Proof.
  revert p q. induction n as [|n IH]; intros p q; cbn [memcmp_loop bytes]; [done|].
  destruct (Z.eqb_spec (m p) (m q)) as [E|E]; simpl.
  - rewrite IH, E. split; congruence.
  - split; [lia|congruence].
Qed.

(** ** Specifications of the string routines *)

(** [cstr m p s]: the bytes of [s], none of them NUL, are at [p], then a NUL. *)
Fixpoint cstr (m : mem) (p : Z) (s : list Z) : Prop :=
  match s with
  | [] => m p = 0
  | c :: s => m p = c /\ c <> 0 /\ cstr m (p + 1) s
  end.

Lemma cstr_ext m1 m2 p s :
  (forall x, p <= x <= p + Z.of_nat (length s) -> m1 x = m2 x) -> cstr m1 p s -> cstr m2 p s.
Proof.
  revert p. induction s as [|c s IH]; intros p H; cbn [cstr length] in *.
  - rewrite (H p) by lia. done.
  - rewrite (H p) by lia. intros (? & ? & Hs). split; [done|]. split; [done|].
    apply IH; [|done]. intros x Hx. apply H. lia.
Qed.

Lemma strlen_loop_cstr m p s len fuel : cstr m p s -> (length s < fuel)%nat ->
  strlen_loop fuel m p len = Some (len + Z.of_nat (length s)).
Proof.
  revert p len fuel. induction s as [|c s IH]; intros p len [|fuel] Hs Hf; try lia;
    cbn [cstr strlen_loop length] in *.
  - rewrite Hs. simpl. f_equal. lia.
  - destruct Hs as (-> & Hc & Hs). destruct (Z.eqb_spec c 0); [done|].
    rewrite (IH _ _ fuel) by (done || lia). f_equal. lia.
Qed.

(** [strcmp] on two stored strings is the difference at the first place they
    differ, the terminating NUL included. *)
Fixpoint str_diff (s t : list Z) : Z :=
  match s, t with
  | [], [] => 0
  | [], d :: _ => - d
  | c :: _, [] => c
  | c :: s, d :: t => if c =? d then str_diff s t else c - d
  end.

Lemma strcmp_cstr m a b s t fuel : cstr m a s -> cstr m b t -> (length s < fuel)%nat ->
  strcmp fuel m a b = Some (str_diff s t).
Proof.
  revert a b t fuel. induction s as [|c s IH]; intros a b t [|fuel] Hs Ht Hf; try lia;
    cbn [cstr strcmp length] in *.
  - rewrite Hs. simpl. destruct t as [|d t]; cbn [cstr str_diff] in *;
      [by rewrite Ht|]. destruct Ht as (-> & ? & _). f_equal; lia.
  - destruct Hs as (-> & Hc & Hs). destruct (Z.eqb_spec c 0); [done|]. simpl.
    destruct t as [|d t]; cbn [cstr str_diff] in *.
    + rewrite Ht. destruct (Z.eqb_spec c 0); [done|]. f_equal; lia.
    + destruct Ht as (-> & Hd & Ht). destruct (Z.eqb_spec c d); [|done].
      by apply IH; [..|lia].
Qed.

Lemma str_diff_zero s t :
  Forall (fun c => c <> 0) s -> Forall (fun c => c <> 0) t -> str_diff s t = 0 <-> s = t.
Proof.
  revert t. induction s as [|c s IH]; intros [|d t] Hs Ht; simpl; try done.
  - apply Forall_cons in Ht as [? _]. split; [lia|done].
  - apply Forall_cons in Hs as [? _]. split; [lia|done].
  - apply Forall_cons in Hs as [? Hs]. apply Forall_cons in Ht as [? Ht].
    destruct (Z.eqb_spec c d) as [->|]; [rewrite (IH t) by done; split; congruence|].
    split; [lia|congruence].
Qed.

Lemma strncpy_copy_long n m dst src s : cstr m src s -> (n <= length s)%nat ->
  dst + Z.of_nat n <= src \/ src + Z.of_nat (length s) < dst ->
  strncpy_copy n m dst src = (memcpy_loop n m dst src, dst + Z.of_nat n, O).
Proof.
  revert m dst src s. induction n as [|n IH]; intros m dst src s Hs Hn Hd.
  { cbn [strncpy_copy memcpy_loop]. do 2 f_equal. lia. }
  destruct s as [|c s]; cbn [length cstr] in *; [lia|]. destruct Hs as (Hc & Hc0 & Hs).
  cbn [strncpy_copy memcpy_loop]. rewrite Hc. destruct (Z.eqb_spec c 0); [done|].
  rewrite (IH _ _ _ s); [do 2 f_equal; lia| |lia|lia].
  eapply cstr_ext; [|exact Hs]. intros x Hx. symmetry. apply upd_ne. lia.
Qed.

Lemma strncpy_copy_short n m dst src s : cstr m src s -> (length s < n)%nat ->
  dst + Z.of_nat (S (length s)) <= src \/ src + Z.of_nat (length s) < dst ->
  strncpy_copy n m dst src =
    (memcpy_loop (S (length s)) m dst src, dst + Z.of_nat (S (length s)), (n - length s)%nat).
Proof.
  revert m dst src n. induction s as [|c s IH]; intros m dst src [|n] Hs Hn Hd;
    cbn [length cstr] in *; try lia.
  - cbn [strncpy_copy memcpy_loop]. rewrite Hs. simpl. do 2 f_equal.
  - destruct Hs as (Hc & Hc0 & Hs). cbn [strncpy_copy].
    rewrite Hc. destruct (Z.eqb_spec c 0); [done|].
    rewrite IH; [| |lia|lia].
    + cbn [memcpy_loop]. rewrite Hc. do 2 f_equal. lia.
    + eapply cstr_ext; [|exact Hs]. intros x Hx. symmetry. apply upd_ne. lia.
Qed.

(** The memory [strncpy] leaves behind.  A source shorter than [n] makes it
    write [n + 1] bytes: the last NUL goes one past the [n] bytes of the
    destination. *)
Lemma strncpy_spec m dst src n s x : 0 <= n -> cstr m src s ->
  dst + n < src \/ src + Z.of_nat (length s) < dst ->
  strncpy m dst src n x =
    if Z.of_nat (length s) <? n
    then (if (dst <=? x) && (x <? dst + Z.of_nat (length s)) then m (src + (x - dst))
          else if (dst <=? x) && (x <=? dst + n) then 0 else m x)
    else (if (dst <=? x) && (x <? dst + n) then m (src + (x - dst)) else m x).
Proof.
  intros Hn Hs Hd. unfold strncpy. destruct (Z.ltb_spec (Z.of_nat (length s)) n) as [Hl|Hl].
  - rewrite (strncpy_copy_short _ _ _ _ s) by (done || lia).
    rewrite memset_loop_spec, memcpy_loop_spec by lia.
    assert (m (src + Z.of_nat (length s)) = 0) as Hz.
    { clear -Hs. revert src Hs. induction s as [|c s IH]; intros src Hs; cbn [cstr length] in *.
      - by rewrite Z.add_0_r.
      - destruct Hs as (_ & _ & Hs). apply IH in Hs. rewrite <- Hs. f_equal. lia. }
    repeat case_ltb; simpl; try done; try lia.
    replace (src + (x - dst)) with (src + Z.of_nat (length s)) by lia. done.
  - rewrite (strncpy_copy_long _ _ _ _ s) by (done || lia). cbn [memset_loop].
    rewrite memcpy_loop_spec, Z2Nat.id by lia. done.
Qed.

(** ** [char] arrays held in structures

    A [char name\[N\]] member is a list of [N] bytes; [cstring] is the string it
    holds.  [arr_strncpy] is [strncpy] into such an array from a string. *)

Fixpoint cstring (l : list Z) : list Z :=
  match l with
  | [] => []
  | c :: l => if c =? 0 then [] else c :: cstring l
  end.

Definition arr_strncpy (d s : list Z) (n : nat) : list Z :=
  let w := if (length s <? n)%nat then s ++ replicate (S n - length s) 0 else take n s in
  w ++ drop (length w) d.

Lemma length_arr_strncpy d s n : (n < length d)%nat -> length (arr_strncpy d s n) = length d.
Proof.
  intros Hn. unfold arr_strncpy. rewrite length_app, length_drop.
  destruct (Nat.ltb_spec (length s) n).
  - rewrite length_app, length_replicate. lia.
  - rewrite length_take. lia.
Qed.

Lemma cstr_lookup m p s (i : nat) : cstr m p s -> (i < length s)%nat ->
  s !! i = Some (m (p + Z.of_nat i)).
Proof.
  revert p i. induction s as [|c s IH]; intros p i Hs Hi; cbn [cstr length] in *; [lia|].
  destruct Hs as (Hc & _ & Hs). destruct i as [|i]; simpl; [by rewrite Z.add_0_r, Hc|].
  rewrite (IH (p + 1)) by (done || lia). do 2 f_equal. lia.
Qed.

(** The array view agrees with the memory-level routine. *)
Lemma arr_strncpy_correct m dst src d s n : bytes (length d) m dst = d -> cstr m src s ->
  (n < length d)%nat -> dst + Z.of_nat n < src \/ src + Z.of_nat (length s) < dst ->
  bytes (length d) (strncpy m dst src (Z.of_nat n)) dst = arr_strncpy d s n.
Proof.
  intros Hd Hs Hn Hdisj. apply list_eq_same_length with (length d).
  { by apply length_arr_strncpy. }
  { by rewrite length_bytes. }
  intros i x y Hi Hx Hy. rewrite lookup_bytes in Hx by done.
  injection Hx as <-. rewrite (strncpy_spec _ _ _ _ s) by (done || lia).
  assert (d !! i = Some (m (dst + Z.of_nat i))) as Hdi.
  { rewrite <- Hd. by apply lookup_bytes. }
  unfold arr_strncpy in Hy.
  destruct (Z.ltb_spec (Z.of_nat (length s)) (Z.of_nat n)), (Nat.ltb_spec (length s) n); try lia.
  - repeat case_ltb; simpl; try lia.
    + rewrite lookup_app_l, lookup_app_l in Hy by (rewrite ?length_app; lia).
      rewrite (cstr_lookup m src) in Hy by (done || lia). injection Hy as <-. f_equal. lia.
    + rewrite lookup_app_l in Hy by (rewrite length_app, length_replicate; lia).
      rewrite lookup_app_r in Hy by lia. rewrite lookup_replicate_2 in Hy by lia. congruence.
    + rewrite lookup_app_r in Hy by (rewrite length_app, length_replicate; lia).
      rewrite lookup_drop in Hy. rewrite Nat.add_sub_assoc in Hy
        by (rewrite length_app, length_replicate; lia).
      rewrite Nat.add_comm, Nat.add_sub in Hy. congruence.
  - repeat case_ltb; simpl; try lia.
    + rewrite lookup_app_l in Hy by (rewrite length_take; lia).
      rewrite lookup_take_lt in Hy by lia.
      rewrite (cstr_lookup m src) in Hy by (done || lia). injection Hy as <-. f_equal. lia.
    + rewrite lookup_app_r in Hy by (rewrite length_take; lia).
      rewrite lookup_drop in Hy. rewrite Nat.add_sub_assoc in Hy by (rewrite length_take; lia).
      rewrite Nat.add_comm, Nat.add_sub in Hy. congruence.
Qed.

Lemma cstring_app_nz s t : Forall (fun c => c <> 0) s -> cstring (s ++ 0 :: t) = s.
Proof.
  induction 1 as [|c s Hc _ IH]; simpl; [done|]. destruct (Z.eqb_spec c 0); [done|]. congruence.
Qed.

(** A name shorter than the buffer reads back unchanged. *)
Lemma cstring_arr_strncpy d s n : Forall (fun c => c <> 0) s -> (length s < n)%nat ->
  cstring (arr_strncpy d s n) = s.
Proof.
  intros Hs Hl. unfold arr_strncpy. destruct (Nat.ltb_spec (length s) n); [|lia].
  rewrite <- app_assoc. replace (S n - length s)%nat with (S (n - length s)) by lia.
  cbn [replicate app]. by apply cstring_app_nz.
Qed.

(** Memory operations stay folded under [simpl] from here on. *)
#[global] Arguments load : simpl never.
#[global] Arguments store : simpl never.
#[global] Arguments memset : simpl never.
#[global] Arguments memcpy : simpl never.
#[global] Arguments memmove : simpl never.
#[global] Arguments upd : simpl never.

(** Names as strings: what [strncpy(dst, src, n)] leaves in an array of n + 1 bytes
    whose last byte is 0, as that of every name array of the kernel is. *)
Definition str_trunc (n : nat) (s : String.string) : String.string := String.substring 0 n s.
