(* ===== verification/Io.v ===== *)
(** * Port I/O, [src/lib/printf.c] and [src/serial/serial.c]

    Drivers talk to devices through the [in]/[out] instructions.  The devices
    are not part of the kernel: they are an interface [Bus], a state with what
    an access of a given width at a given port returns and changes.  The formatted
    output of the kernel is a function from a format and its arguments to the
    bytes emitted, whose sink is the function registered with
    [kprintf_set_output]; [klog] sends them to COM1. *)

From Stdlib Require Import String Ascii.
From S2P Require Import Prelude Mem.

(** ** The bus *)

Class Bus (D : Type) := {
  bus_in : Z -> Z -> D -> Z * D;      (** width in bytes, port *)
  bus_out : Z -> Z -> Z -> D -> D     (** width in bytes, port, value *)
}.

Section ports.
Context {D : Type} `{!Bus D}.

Definition inb (port : Z) (d : D) : Z * D := let '(v, d) := bus_in 1 port d in (u8 v, d).
Definition inw (port : Z) (d : D) : Z * D := let '(v, d) := bus_in 2 port d in (u16 v, d).
Definition inl (port : Z) (d : D) : Z * D := let '(v, d) := bus_in 4 port d in (u32 v, d).
Definition outb (port v : Z) (d : D) : D := bus_out 1 port (u8 v) d.
Definition outw (port v : Z) (d : D) : D := bus_out 2 port (u16 v) d.
Definition outl (port v : Z) (d : D) : D := bus_out 4 port (u32 v) d.
Definition io_wait (d : D) : D := outb 0x80 0 d.
End ports.

(** A sequence of byte writes. *)
Definition outs {D} `{!Bus D} (l : list (Z * Z)) (d : D) : D :=
  fold_left (fun d pv => outb (fst pv) (snd pv) d) l d.

(** ** [src/lib/printf.c] *)

(** Arguments of the variadic call, one constructor per [va_arg] type. *)
Inductive va_arg :=
  | A_str (s : option (list Z))   (** [const char *], [None] for NULL *)
  | A_int (x : Z)
  | A_uint (x : Z)
  | A_ptr (p : Z).

Definition chr (c : ascii) : Z := Z.of_nat (nat_of_ascii c).
Fixpoint str (s : string) : list Z :=
  match s with EmptyString => [] | String c s => chr c :: str s end.

Definition emit_str (s : option (list Z)) : list Z :=
  match s with None => str "(nul)" | Some l => l end.

Definition digits_lo : list Z := str "0123456789abcdef".
Definition digits_hi : list Z := str "0123456789ABCDEF".

(** [while (val) { buf[i++] = digits[val % base]; val /= base; }]: the buffer,
    least significant digit first.  A 64-bit value has at most 64 digits. *)
Fixpoint digit_loop (n : nat) (val base : Z) (digits : list Z) : list Z :=
  match n with
  | O => []
  | S n =>
      if val =? 0 then []
      else nth (Z.to_nat (val mod base)) digits 0 :: digit_loop n (val / base) base digits
  end.

Definition emit_uint (val base : Z) (upper : bool) : list Z :=
  let digits := if upper then digits_hi else digits_lo in
  if val =? 0 then str "0" else rev (digit_loop 64 val base digits).

Definition emit_int (val : Z) : list Z :=
  if val <? 0 then str "-" ++ emit_uint (u64 (- val)) 10 false
  else emit_uint (u64 val) 10 false.

(** The conversions take the next argument at the type of the conversion. *)
Definition arg_str (a : va_arg) : option (list Z) := match a with A_str s => s | _ => None end.
Definition arg_num (a : va_arg) : Z :=
  match a with A_int x => x | A_uint x => x | A_ptr p => p | A_str _ => 0 end.

Definition next_arg (ap : list va_arg) : va_arg * list va_arg :=
  match ap with [] => (A_int 0, []) | a :: ap => (a, ap) end.

(** [None]: the format ends after a [%], where the code reads past its NUL. *)
Fixpoint vkprintf (fmt : list Z) (ap : list va_arg) : option (list Z) :=
  match fmt with
  | [] => Some []
  | c :: fmt =>
      if negb (c =? chr "%") then app [c] <$> vkprintf fmt ap
      else
        match fmt with
        | [] => None
        | c :: fmt =>
            let '(a, ap') := next_arg ap in
            if c =? chr "s" then app (emit_str (arg_str a)) <$> vkprintf fmt ap'
            else if c =? chr "d" then app (emit_int (i32 (arg_num a))) <$> vkprintf fmt ap'
            else if c =? chr "u" then app (emit_uint (u32 (arg_num a)) 10 false) <$> vkprintf fmt ap'
            else if c =? chr "x" then app (emit_uint (u32 (arg_num a)) 16 false) <$> vkprintf fmt ap'
            else if c =? chr "X" then app (emit_uint (u32 (arg_num a)) 16 true) <$> vkprintf fmt ap'
            else if c =? chr "p" then app (str "0x" ++ emit_uint (u64 (arg_num a)) 16 false) <$> vkprintf fmt ap'
            else if c =? chr "c" then app [u8 (arg_num a)] <$> vkprintf fmt ap'
            else if c =? chr "%" then app (str "%") <$> vkprintf fmt ap
            else app (str "%" ++ [c]) <$> vkprintf fmt ap
        end
  end.

(** ** [src/serial/serial.c] *)

Definition COM1_BASE : Z := 0x3F8.
Definition COM1_DATA : Z := COM1_BASE + 0.
Definition COM1_IER : Z := COM1_BASE + 1.
Definition COM1_BAUD_LO : Z := COM1_BASE + 0.
Definition COM1_BAUD_HI : Z := COM1_BASE + 1.
Definition COM1_FCR : Z := COM1_BASE + 2.
Definition COM1_LCR : Z := COM1_BASE + 3.
Definition COM1_MCR : Z := COM1_BASE + 4.
Definition COM1_LSR : Z := COM1_BASE + 5.
Definition LCR_8N1 : Z := 0x03.
Definition LCR_DLAB : Z := 0x80.
Definition MCR_DTR_RTS : Z := 0x03.
Definition LSR_THR_EMPTY : Z := 0x20.
Definition BAUD_115200_DIV : Z := 1.

Inductive log_level := LOG_DEBUG | LOG_INFO | LOG_WARN | LOG_ERROR | LOG_PANIC.
Definition level_str (l : log_level) : list Z :=
  match l with
  | LOG_DEBUG => str "DEBUG" | LOG_INFO => str "INFO" | LOG_WARN => str "WARN"
  | LOG_ERROR => str "ERROR" | LOG_PANIC => str "PANIC"
  end.

Section serial.
Context {D : Type} `{!Bus D}.
Implicit Types d : D.

(** [while (!(inb(COM1_LSR) & LSR_THR_EMPTY));]: [None] when it has not ended
    after [fuel] polls. *)
Fixpoint serial_wait (fuel : nat) d : option D :=
  match fuel with
  | O => None
  | S fuel =>
      let '(v, d) := inb COM1_LSR d in
      if has v LSR_THR_EMPTY then Some d else serial_wait fuel d
  end.

Definition serial_putchar (fuel : nat) (c : Z) d : option D :=
  match serial_wait fuel d with Some d => Some (outb COM1_DATA c d) | None => None end.

Fixpoint serial_write (fuel : nat) (s : list Z) d : option D :=
  match s with
  | [] => Some d
  | c :: s => match serial_putchar fuel c d with Some d => serial_write fuel s d | None => None end
  end.

(** [klog]: the level, the formatted message and a newline, through [emit]
    whose sink is [serial_putchar]. *)
Definition klog (fuel : nat) (level : log_level) (fmt : list Z) (ap : list va_arg) d : option D :=
  match vkprintf (str "[%s] ") [A_str (Some (level_str level))], vkprintf fmt ap with
  | Some prefix, Some msg => serial_write fuel (prefix ++ msg ++ [10]) d
  | _, _ => None
  end.

Definition serial_init (fuel : nat) d : option D :=
  let d := outb COM1_IER 0x00 d in
  let d := outb COM1_LCR LCR_DLAB d in
  let d := outb COM1_BAUD_LO BAUD_115200_DIV d in
  let d := outb COM1_BAUD_HI 0x00 d in
  let d := outb COM1_LCR LCR_8N1 d in
  let d := outb COM1_FCR 0xC7 d in
  let d := outb COM1_MCR MCR_DTR_RTS d in
  klog fuel LOG_INFO (str "[serial] COM1 initialized at 115200 baud") [] d.

Definition serial_dump (fuel : nat) d : option D :=
  klog fuel LOG_DEBUG (str "[serial] COM1 @ 0x3F8, 115200 baud, 8N1") [] d.
End serial.
