(* ===== verification/Ring.v ===== *)
(** * Byte rings

    Three parts of the kernel queue bytes in a circular array with a read and a
    write index ([kb_buf] of the keyboard, [rx_buf] of a TCP connection and of a
    UDP socket), one slot always kept free so that equal indices mean empty.
    The abstraction of such a ring is the list of queued bytes; writing at the
    write index appends to it and reading at the read index takes its head. *)

From S2P Require Import Prelude.

(** [k] elements from index [i] on, modulo the size [n]. *)
Fixpoint ring_take (k : nat) (n : Z) (buf : list Z) (i : Z) : list Z :=
  match k with
  | O => []
  | S k => nth (Z.to_nat i) buf 0 :: ring_take k n buf ((i + 1) mod n)
  end.

Definition ring_used (n r w : Z) : Z := (w - r) mod n.
Definition ring_list (n : Z) (buf : list Z) (r w : Z) : list Z :=
  ring_take (Z.to_nat (ring_used n r w)) n buf r.

Record ring_ok (n : Z) (buf : list Z) (r w : Z) : Prop := {
  ro_size : 0 < n;
  ro_len : Z.of_nat (length buf) = n;
  ro_r : 0 <= r < n;
  ro_w : 0 <= w < n
}.

Lemma ring_used_range n r w : 0 < n -> 0 <= ring_used n r w < n.
Proof. intros Hn. by apply Z.mod_pos_bound. Qed.

Lemma ring_list_length n buf r w : 0 < n -> Z.of_nat (length (ring_list n buf r w)) = ring_used n r w.
Proof.
  intros Hn. pose proof (ring_used_range n r w Hn). unfold ring_list.
  enough (forall k i, length (ring_take k n buf i) = k) as -> by lia.
  induction k as [|k IH]; intros i; simpl; [done|]. by rewrite IH.
Qed.

Lemma ring_empty n buf r w : 0 < n -> 0 <= r < n -> 0 <= w < n -> ring_list n buf r w = [] <-> r = w.
Proof.
  intros Hn Hr Hw. rewrite <- length_zero_iff_nil.
  pose proof (ring_list_length n buf r w Hn). unfold ring_used in *. split.
  - intros H0. assert ((w - r) mod n = 0) as E by lia. apply Z.mod_divide in E as [q Hq]; [|lia]. assert (q = 0) by nia. lia.
  - intros ->. rewrite Z.sub_diag, Z.mod_0_l in H by lia. lia.
Qed.

(** Elements read before a written slot is reached are not changed. *)
Lemma ring_take_insert k n buf i w x : 0 < n -> Z.of_nat (length buf) = n -> 0 <= i < n -> 0 <= w < n ->
  Z.of_nat k <= ring_used n i w ->
  ring_take k n (<[Z.to_nat w := x]> buf) i = ring_take k n buf i.
Proof.
  intros Hn Hl. revert i. induction k as [|k IH]; intros i Hi Hw Hk; [done|]. simpl.
  assert (i <> w) as Hne.
  { intros ->. unfold ring_used in Hk. rewrite Z.sub_diag, Z.mod_0_l in Hk by lia. lia. }
  pose proof (Z.mod_pos_bound (i + 1) n Hn). f_equal.
  - rewrite !nth_lookup, list_lookup_insert_ne by lia. done.
  - apply IH; [done..|]. unfold ring_used in *.
    rewrite Zminus_mod_idemp_r. replace (w - (i + 1)) with (w - i - 1) by lia.
    rewrite <- Zminus_mod_idemp_l. rewrite Z.mod_small; [lia|].
    pose proof (Z.mod_pos_bound (w - i) n Hn). lia.
Qed.

Lemma ring_take_snoc k n buf i : 0 < n -> 0 <= i < n ->
  ring_take (S k) n buf i = ring_take k n buf i ++ [nth (Z.to_nat ((i + Z.of_nat k) mod n)) buf 0].
Proof.
  intros Hn. revert i. induction k as [|k IH]; intros i Hi.
  - simpl. rewrite Z.add_0_r, Z.mod_small by lia. done.
  - change (ring_take (S (S k)) n buf i) with (nth (Z.to_nat i) buf 0 :: ring_take (S k) n buf ((i + 1) mod n)).
    rewrite IH by (apply Z.mod_pos_bound; lia). rewrite Zplus_mod_idemp_l.
    replace (i + 1 + Z.of_nat k) with (i + Z.of_nat (S k)) by lia. done.
Qed.

Lemma ring_used_succ n r w : 0 < n -> 0 <= r < n -> ring_used n r w < n - 1 ->
  ring_used n r ((w + 1) mod n) = ring_used n r w + 1.
Proof.
  intros Hn Hr Hroom. unfold ring_used in *. pose proof (Z.mod_pos_bound (w - r) n Hn).
  rewrite Zminus_mod_idemp_l. replace (w + 1 - r) with (w - r + 1) by lia.
  rewrite <- Zplus_mod_idemp_l. apply Z.mod_small. lia.
Qed.

(** Writing at the write index of a ring that is not full appends. *)
Lemma ring_push n buf r w x : ring_ok n buf r w -> ring_used n r w < n - 1 ->
  ring_ok n (<[Z.to_nat w := x]> buf) r ((w + 1) mod n) /\
  ring_list n (<[Z.to_nat w := x]> buf) r ((w + 1) mod n) = ring_list n buf r w ++ [x].
Proof.
  intros [Hn Hl Hr Hw] Hroom. split.
  { split; [done| |done|by apply Z.mod_pos_bound]. by rewrite length_insert. }
  unfold ring_list. rewrite ring_used_succ by done. pose proof (ring_used_range n r w Hn).
  replace (Z.to_nat (ring_used n r w + 1)) with (S (Z.to_nat (ring_used n r w))) by lia.
  rewrite ring_take_snoc, ring_take_insert by lia. f_equal. rewrite Z2Nat.id by lia.
  replace ((r + ring_used n r w) mod n) with w.
  { rewrite nth_lookup, list_lookup_insert_eq by lia. done. }
  unfold ring_used. rewrite Zplus_mod_idemp_r. replace (r + (w - r)) with w by lia.
  by rewrite Z.mod_small.
Qed.

(** Reading at the read index of a ring that is not empty takes the head. *)
Lemma ring_pop n buf r w : ring_ok n buf r w -> r <> w ->
  ring_ok n buf ((r + 1) mod n) w /\
  ring_list n buf r w = nth (Z.to_nat r) buf 0 :: ring_list n buf ((r + 1) mod n) w.
Proof.
  intros [Hn Hl Hr Hw] Hne. split.
  { split; [done|done|by apply Z.mod_pos_bound|done]. }
  unfold ring_list. assert (ring_used n r w <> 0) as H0.
  { intros E. apply Hne. apply (ring_empty n buf r w Hn Hr Hw). unfold ring_list. by rewrite E. }
  pose proof (ring_used_range n r w Hn).
  assert (ring_used n ((r + 1) mod n) w = ring_used n r w - 1) as ->.
  { unfold ring_used in *. rewrite Zminus_mod_idemp_r. replace (w - (r + 1)) with (w - r - 1) by lia.
    rewrite <- Zminus_mod_idemp_l. apply Z.mod_small. lia. }
  replace (Z.to_nat (ring_used n r w)) with (S (Z.to_nat (ring_used n r w - 1))) by lia. done.
Qed.

(** ** Writing and reading several bytes *)

(** [for (j = 0; j < len; j++) { buf[w] = data[j]; w = (w + 1) % n; }] *)
Fixpoint ring_write (n : Z) (buf : list Z) (w : Z) (data : list Z) : list Z * Z :=
  match data with
  | [] => (buf, w)
  | x :: data => ring_write n (<[Z.to_nat w := x]> buf) ((w + 1) mod n) data
  end.

(** [for (i = 0; i < k; i++) { out[i] = buf[r]; r = (r + 1) % n; }] *)
Fixpoint ring_read (k : nat) (n : Z) (buf : list Z) (r : Z) : list Z * Z :=
  match k with
  | O => ([], r)
  | S k => let '(out, r') := ring_read k n buf ((r + 1) mod n) in (nth (Z.to_nat r) buf 0 :: out, r')
  end.

Lemma ring_write_spec n buf r w data : ring_ok n buf r w ->
  ring_used n r w + Z.of_nat (length data) <= n - 1 ->
  let '(buf', w') := ring_write n buf w data in
  ring_ok n buf' r w' /\ ring_list n buf' r w' = ring_list n buf r w ++ data.
Proof.
  revert buf w. induction data as [|x data IH]; intros buf w Hok Hroom; simpl in *.
  { by rewrite app_nil_r. }
  destruct (ring_push n buf r w x Hok ltac:(lia)) as [Hok' Hl'].
  destruct Hok as [Hn Hl Hr Hw].
  specialize (IH _ _ Hok'). rewrite ring_used_succ in IH by lia. specialize (IH ltac:(lia)).
  destruct (ring_write _ _ _ _) as [buf' w']. destruct IH as [H1 H2]. split; [done|].
  by rewrite H2, Hl', <- app_assoc.
Qed.

Lemma ring_read_spec k n buf r w : ring_ok n buf r w -> Z.of_nat k <= ring_used n r w ->
  let '(out, r') := ring_read k n buf r in
  ring_ok n buf r' w /\ length out = k /\ ring_list n buf r w = out ++ ring_list n buf r' w.
Proof.
  revert r. induction k as [|k IH]; intros r Hok Hk; simpl; [done|].
  assert (r <> w) as Hne.
  { intros ->. destruct Hok. unfold ring_used in Hk. rewrite Z.sub_diag, Z.mod_0_l in Hk by lia. lia. }
  destruct (ring_pop n buf r w Hok Hne) as [Hok' Hl]. specialize (IH _ Hok').
  assert (Z.of_nat k <= ring_used n ((r + 1) mod n) w) as Hk'.
  { pose proof (ring_list_length n buf r w ltac:(destruct Hok; lia)) as H1.
    pose proof (ring_list_length n buf ((r + 1) mod n) w ltac:(destruct Hok; lia)) as H2.
    rewrite Hl in H1. simpl in H1. lia. }
  specialize (IH Hk'). destruct (ring_read k n buf _) as [out r'].
  destruct IH as (H1 & H2 & H3). split; [done|]. split; [simpl; lia|]. by rewrite Hl, H3.
Qed.
