(* ===== verification/Irq.v ===== *)
(** * Descriptor tables, interrupts, timer and keyboard

    [Gdt]: src/gdt/gdt.c; [Idt]: src/idt/idt.c; [Pic]: src/pic/pic.c (8259A
    remapping, masks, end-of-interrupt, handler table); [Timer]:
    src/timer/timer.c; [Keyboard]: src/keyboard/keyboard.c.  The devices are
    behind the [Bus] interface of Io.v.

    Theorems: after [idt_init] and [pic_init] the processor finds the exception and
    interrupt stubs at their vectors and nothing at the others; a pushed key goes to
    the end of the keyboard's queue of at most 255 characters. *)

From S2P Require Import Prelude Mem Io Ring.

Module Gdt.
Definition GDT_NULL : Z := 0.
Definition GDT_CODE : Z := 1.
Definition GDT_DATA : Z := 2.
Definition GDT_USER_DATA : Z := 3.
Definition GDT_USER_CODE : Z := 4.
Definition GDT_TSS_LO : Z := 5.
Definition GDT_TSS_HI : Z := 6.
Definition GDT_ENTRY_COUNT : Z := 7.
Definition SEG_KERNEL_CODE : Z := GDT_CODE * 8.
Definition SEG_KERNEL_DATA : Z := GDT_DATA * 8.
Definition SEG_USER_DATA : Z := (GDT_USER_DATA * 8) |b 3.
Definition SEG_USER_CODE : Z := (GDT_USER_CODE * 8) |b 3.
Definition SEG_TSS : Z := GDT_TSS_LO * 8.
Definition STAR_KERNEL_CS : Z := SEG_KERNEL_CODE.
Definition STAR_USER_BASE : Z := SEG_KERNEL_DATA.

Definition DESC_PRESENT : Z := 1 <<b 47.
Definition DESC_DPL0 : Z := 0 <<b 45.
Definition DESC_NON_SYS : Z := 1 <<b 44.
Definition DESC_EXEC : Z := 1 <<b 43.
Definition DESC_RW : Z := 1 <<b 41.
Definition DESC_LONG : Z := 1 <<b 53.
Definition DESC_DPL3 : Z := 3 <<b 45.
Definition DESC_KERNEL_CODE : Z :=
  DESC_PRESENT |b DESC_DPL0 |b DESC_NON_SYS |b DESC_EXEC |b DESC_RW |b DESC_LONG.
Definition DESC_KERNEL_DATA : Z := DESC_PRESENT |b DESC_DPL0 |b DESC_NON_SYS |b DESC_RW.
Definition DESC_USER_DATA : Z := DESC_PRESENT |b DESC_DPL3 |b DESC_NON_SYS |b DESC_RW.
Definition DESC_USER_CODE : Z :=
  DESC_PRESENT |b DESC_DPL3 |b DESC_NON_SYS |b DESC_EXEC |b DESC_RW |b DESC_LONG.

(** The two slots of the TSS descriptor. *)
Definition gdt_set_tss (base limit : Z) : Z * Z :=
  let lo := 0 in
  let lo := lo |b (limit &b 0xFFFF) in
  let lo := lo |b u64 ((base &b 0xFFFFFF) <<b 16) in
  let lo := lo |b (0x9 <<b 40) in
  let lo := lo |b DESC_PRESENT in
  let lo := lo |b u64 (((limit >>b 16) &b 0xF) <<b 48) in
  let lo := lo |b u64 (((base >>b 24) &b 0xFF) <<b 56) in
  (lo, base >>b 32).

(** The fields of [tss64_t] the kernel sets, the table, and the registers
    [gdt_load] loads. *)
Record gdt_st := mk_gdt {
  gdt : list Z; tss_rsp0 : Z; tss_iomap_base : Z;
  gdtr_limit : Z; gdtr_base : Z; seg_cs : Z; seg_ds : Z; seg_tr : Z
}.

Definition sizeof_tss64 : Z := 104.

Definition gdt_load (g : gdt_st) (gdt_addr : Z) : gdt_st :=
  mk_gdt (gdt g) (tss_rsp0 g) (tss_iomap_base g)
    (u16 (GDT_ENTRY_COUNT * 8 - 1)) gdt_addr SEG_KERNEL_CODE SEG_KERNEL_DATA SEG_TSS.

Definition gdt_set_tss_rsp0 (g : gdt_st) (rsp0 : Z) : gdt_st :=
  mk_gdt (gdt g) rsp0 (tss_iomap_base g) (gdtr_limit g) (gdtr_base g) (seg_cs g) (seg_ds g) (seg_tr g).

Definition gdt_init (gdt_addr tss_addr : Z) : Z * gdt_st :=
  let '(lo, hi) := gdt_set_tss tss_addr (u32 (sizeof_tss64 - 1)) in
  let g := mk_gdt [0; DESC_KERNEL_CODE; DESC_KERNEL_DATA; DESC_USER_DATA; DESC_USER_CODE; lo; hi]
             0 (u16 sizeof_tss64) 0 0 0 0 0 in
  (0, gdt_load g gdt_addr).

(** How the processor reads a system descriptor (SDM vol. 3A, 7.2.3). *)
Definition desc_base (lo hi : Z) : Z :=
  ((lo >>b 16) &b 0xFFFFFF) + (((lo >>b 56) &b 0xFF) <<b 24) + (hi <<b 32).
Definition desc_limit (lo : Z) : Z := (lo &b 0xFFFF) + (((lo >>b 48) &b 0xF) <<b 16).
Definition desc_dpl (d : Z) : Z := (d >>b 45) &b 3.
Definition desc_type (d : Z) : Z := (d >>b 40) &b 0xF.
End Gdt.

Module Idt.
Definition IDT_ENTRIES : Z := 256.
Definition IDT_GATE_INTR : Z := 0x8E.
Definition IDT_KERNEL_CS : Z := 0x08.

Record idt_entry := mk_gate {
  offset_lo : Z; selector : Z; ist : Z; type_attr : Z; offset_mid : Z; offset_hi : Z; reserved : Z
}.
Definition gate_zero : idt_entry := mk_gate 0 0 0 0 0 0 0.

Definition idt_set_gate (idt : list idt_entry) (vec handler i : Z) : list idt_entry :=
  <[Z.to_nat vec := mk_gate (u16 (handler &b 0xFFFF)) IDT_KERNEL_CS (i &b 0x7) IDT_GATE_INTR
                      (u16 ((handler >>b 16) &b 0xFFFF)) (u32 (handler >>b 32)) 0]> idt.

(** [for (i = 0; i < n; i++) idt_set_gate(base + i, table[i], 0);] *)
Fixpoint set_gates (idt : list idt_entry) (base : Z) (table : list Z) : list idt_entry :=
  match table with
  | [] => idt
  | h :: table => set_gates (idt_set_gate idt (u8 base) h 0) (base + 1) table
  end.

(** The table, and what [lidt] loads. *)
Record idt_st := mk_idt { idt : list idt_entry; idtr_limit : Z; idtr_base : Z }.

Definition idt_init (isr_table : list Z) (idt_addr : Z) : Z * idt_st :=
  (0, mk_idt (set_gates (replicate 256 gate_zero) 0 isr_table) (u16 (IDT_ENTRIES * 16 - 1)) idt_addr).

(** How the processor reads a gate (SDM vol. 3A, 6.14.1). *)
Definition gate_offset (g : idt_entry) : Z := offset_lo g + (offset_mid g <<b 16) + (offset_hi g <<b 32).
Definition gate_present (g : idt_entry) : bool := has (type_attr g) 0x80.

(** What a vector leads to: the handler's address, [None] when the gate is not present. *)
Definition vector (t : list idt_entry) (v : Z) : option Z :=
  match t !! Z.to_nat v with
  | Some g => if gate_present g then Some (gate_offset g) else None
  | None => None
  end.

Lemma vector_set t v h i w : Z.of_nat (length t) = IDT_ENTRIES -> 0 <= v < IDT_ENTRIES -> 0 <= w -> 0 <= h < 2 ^ 64 ->
  vector (idt_set_gate t v h i) w = if w =? v then Some h else vector t w.
Proof.
  intros Hl Hv Hw Hh. unfold vector, idt_set_gate. destruct (Z.eqb_spec w v) as [->|Hne].
  - rewrite list_lookup_insert_eq by lia. unfold gate_present, gate_offset. cbn [type_attr offset_lo offset_mid offset_hi].
    change (has IDT_GATE_INTR 0x80) with true. cbv iota. f_equal. change 0xFFFF with (Z.ones 16). rewrite !Z.land_ones by lia.
    rewrite !Z.shiftr_div_pow2, !Z.shiftl_mul_pow2 by lia. unfold u16, u32. zlia.
  - rewrite list_lookup_insert_ne by lia. done.
Qed.
Lemma vector_set_gates table : forall t base w, Z.of_nat (length t) = IDT_ENTRIES -> 0 <= base -> base + Z.of_nat (length table) <= IDT_ENTRIES ->
  Forall (fun h => 0 <= h < 2 ^ 64) table -> 0 <= w ->
  vector (set_gates t base table) w =
    if (base <=? w) && (w <? base + Z.of_nat (length table)) then table !! Z.to_nat (w - base) else vector t w.
Proof.
  induction table as [|h table IH]; intros t base w Hl Hb Hn Hh Hw; cbn [set_gates length] in *.
  - destruct (Z.leb_spec base w), (Z.ltb_spec w (base + Z.of_nat 0)); (lia || done).
  - apply Forall_cons in Hh as [Hh Ht]. unfold IDT_ENTRIES in *.
    rewrite IH; [|by unfold idt_set_gate; rewrite length_insert|lia|lia|done|done].
    unfold u8. rewrite Z.mod_small by lia. rewrite vector_set by (done || unfold IDT_ENTRIES; lia).
    destruct (Z.eqb_spec w base) as [->|Hne].
    + rewrite (proj2 (Z.leb_gt (base + 1) base)), (proj2 (Z.leb_le base base)), (proj2 (Z.ltb_lt base (base + Z.of_nat (S (length table))))) by lia.
      cbn [andb]. by rewrite Z.sub_diag.
    + destruct (Z.leb_spec (base + 1) w), (Z.leb_spec base w), (Z.ltb_spec w (base + 1 + Z.of_nat (length table))),
        (Z.ltb_spec w (base + Z.of_nat (S (length table)))); try lia; cbn [andb]; try done.
      replace (Z.to_nat (w - base)) with (S (Z.to_nat (w - (base + 1)))) by lia. done.
Qed.
Lemma length_set_gates table : forall t base, length (set_gates t base table) = length t.
Proof. induction table as [|h table IH]; intros t base; cbn [set_gates]; [done|]. rewrite IH. apply length_insert. Qed.
End Idt.

Module Pic.
Definition PIC1_CMD : Z := 0x20.
Definition PIC1_DATA : Z := 0x21.
Definition PIC2_CMD : Z := 0xA0.
Definition PIC2_DATA : Z := 0xA1.
Definition ICW1_INIT : Z := 0x10.
Definition ICW1_ICW4 : Z := 0x01.
Definition ICW4_8086 : Z := 0x01.
Definition PIC_EOI : Z := 0x20.
Definition PIC1_VECTOR_OFFSET : Z := 0x20.
Definition PIC2_VECTOR_OFFSET : Z := 0x28.
Definition IRQ_COUNT : Z := 16.

(** The functions registered as IRQ handlers. *)
Inductive irq_fn := timer_irq_fn | keyboard_irq_fn.

Section pic.
Context {D : Type} `{!Bus D}.
Implicit Types d : D.

Definition pic_eoi (irq : Z) d : D :=
  let d := if 8 <=? irq then outb PIC2_CMD PIC_EOI d else d in
  outb PIC1_CMD PIC_EOI d.

Definition irq_port (irq : Z) : Z := if irq <? 8 then PIC1_DATA else PIC2_DATA.

Definition irq_enable (irq : Z) d : D :=
  let port := irq_port irq in
  let bit := irq &b 7 in
  let '(v, d) := inb port d in
  outb port (v &b u8 (Z.lnot (1 <<b bit))) d.

Definition irq_disable (irq : Z) d : D :=
  let port := irq_port irq in
  let bit := irq &b 7 in
  let '(v, d) := inb port d in
  outb port (v |b u8 (1 <<b bit)) d.

Definition irq_register (h : list (option irq_fn)) (irq : Z) (f : irq_fn) : list (option irq_fn) :=
  if irq <? IRQ_COUNT then <[Z.to_nat irq := Some f]> h else h.

(** [irq_dispatch]: [run] is what calling a registered handler does to the rest
    of the kernel, of which the devices are a part. *)
Definition irq_dispatch {S : Type} (run : irq_fn -> S * D -> S * D) (h : list (option irq_fn)) (irq : Z)
    (s : S) d : S * D :=
  let d := pic_eoi irq d in
  if irq <? IRQ_COUNT then
    match h !! Z.to_nat irq with
    | Some (Some f) => run f (s, d)
    | _ => (s, d)
    end
  else (s, d).

Definition pic_init (idt : list Idt.idt_entry) (irq_stub_table : list Z) d :
    Z * list (option irq_fn) * list Idt.idt_entry * D :=
  let '(mask1, d) := inb PIC1_DATA d in
  let '(mask2, d) := inb PIC2_DATA d in
  let d := io_wait (outb PIC1_CMD (ICW1_INIT |b ICW1_ICW4) d) in
  let d := io_wait (outb PIC2_CMD (ICW1_INIT |b ICW1_ICW4) d) in
  let d := io_wait (outb PIC1_DATA PIC1_VECTOR_OFFSET d) in
  let d := io_wait (outb PIC2_DATA PIC2_VECTOR_OFFSET d) in
  let d := io_wait (outb PIC1_DATA 0x04 d) in
  let d := io_wait (outb PIC2_DATA 0x02 d) in
  let d := io_wait (outb PIC1_DATA ICW4_8086 d) in
  let d := io_wait (outb PIC2_DATA ICW4_8086 d) in
  let d := outb PIC1_DATA mask1 d in
  let d := outb PIC2_DATA mask2 d in
  let d := outb PIC1_DATA 0xFF d in
  let d := outb PIC2_DATA 0xFF d in
  (0, replicate 16 None, Idt.set_gates idt PIC1_VECTOR_OFFSET irq_stub_table, d).

(** The interrupt vectors: after [idt_init] with its 32 exception stubs and [pic_init] with
    its 16 interrupt stubs, the processor finds at vector [v] the [v]-th exception stub, at
    the vectors the controllers are remapped to (32 to 47) the stub of the interrupt
    line, the same 64-bit addresses, and no present gate at any other vector. *)
Theorem vectors_installed isr stubs addr d v : length isr = 32%nat -> length stubs = 16%nat ->
  Forall (fun h => 0 <= h < 2 ^ 64) isr -> Forall (fun h => 0 <= h < 2 ^ 64) stubs -> 0 <= v < 256 ->
  let t := snd (fst (pic_init (Idt.idt (snd (Idt.idt_init isr addr))) stubs d)) in
  Idt.vector t v =
    if v <? 32 then isr !! Z.to_nat v
    else if v <? PIC1_VECTOR_OFFSET + IRQ_COUNT then stubs !! Z.to_nat (v - PIC1_VECTOR_OFFSET) else None.
Proof.
  intros Hi Hs Fi Fs Hv. unfold pic_init. destruct (inb PIC1_DATA d) as [m1 d1]. destruct (inb PIC2_DATA d1) as [m2 d2].
  cbv zeta. cbn [fst snd Idt.idt_init Idt.idt]. unfold PIC1_VECTOR_OFFSET, IRQ_COUNT.
  rewrite Idt.vector_set_gates by (rewrite ?Idt.length_set_gates, ?Hs, ?length_replicate; unfold Idt.IDT_ENTRIES; done || lia).
  rewrite Idt.vector_set_gates by (rewrite ?Hi, ?length_replicate; unfold Idt.IDT_ENTRIES; done || lia).
  rewrite Hi, Hs, Z.sub_0_r. destruct (Z.ltb_spec v 32), (Z.leb_spec 32 v), (Z.leb_spec 0 v); try lia; cbn [andb].
  - by rewrite (proj2 (Z.ltb_lt v _)) by lia.
  - destruct (Z.ltb_spec v (32 + Z.of_nat 16)), (Z.ltb_spec v (32 + 16)); try lia; [done|].
    rewrite (proj2 (Z.ltb_ge v (0 + _))) by lia. unfold Idt.vector. by rewrite lookup_replicate_2 by lia.
Qed.
End pic.

#[local] Instance quiet_bus : Bus unit := {| bus_in _ _ d := (0, d); bus_out _ _ _ d := d |}.
Lemma vectors_installed_witness :
  let t := snd (fst (pic_init (Idt.idt (snd (Idt.idt_init (map (fun i => 0xFFFFFFFF80100000 + 16 * Z.of_nat i) (seq 0 32)) 0x1000)))
                       (map (fun i => 0xFFFFFFFF80200000 + 16 * Z.of_nat i) (seq 0 16)) tt)) in
  Idt.vector t 14 = Some 0xFFFFFFFF801000E0 /\ Idt.vector t 33 = Some 0xFFFFFFFF80200010 /\ Idt.vector t 128 = None.
Proof.
  assert (forall b n, 0 <= b < 2 ^ 64 - 2 ^ 16 -> (n <= 32)%nat -> Forall (fun h => 0 <= h < 2 ^ 64) (map (fun i => b + 16 * Z.of_nat i) (seq 0 n))) as H.
  { intros b n Hb Hn. apply Forall_forall. intros h Hh. apply list_elem_of_In, in_map_iff in Hh as (i & <- & Hi). apply in_seq in Hi. lia. }
  split; [|split]; (rewrite vectors_installed; [reflexivity|reflexivity|reflexivity|apply H; lia|apply H; lia|lia]).
Defined.
End Pic.

Module Timer.
Definition PIT_CHANNEL0_DATA : Z := 0x40.
Definition PIT_COMMAND : Z := 0x43.
Definition PIT_CMD : Z := 0x00 |b 0x30 |b 0x04 |b 0x00.
Definition PIT_BASE_HZ : Z := 1193182.
Definition TIMER_HZ : Z := 1000.
Definition PIT_DIVISOR : Z := u16 (PIT_BASE_HZ / TIMER_HZ).
Definition TIMER_MAX_CALLBACKS : Z := 8.

(** The functions registered as tick callbacks. *)
Inductive timer_fn := tty_poll_fn | scheduler_tick_fn | net_poll_fn.

(** [callbacks] is the used prefix of the table. *)
Record timer_st := mk_timer { ticks : Z; callbacks : list timer_fn }.

Definition timer_irq_handler {S} (run : timer_fn -> S -> S) (t : timer_st) (s : S) : timer_st * S :=
  (mk_timer (u64 (ticks t + 1)) (callbacks t), fold_left (fun s f => run f s) (callbacks t) s).

Definition timer_get_ticks (t : timer_st) : Z := ticks t.

(** [ksleep]: [seen] are the values of [ticks] the loop observes; the result is
    the number of the poll that ends it. *)
Fixpoint ksleep_loop (seen : list Z) (target : Z) (n : nat) : option nat :=
  match seen with
  | [] => None
  | t :: seen => if t <? target then ksleep_loop seen target (S n) else Some n
  end.
Definition ksleep (t : timer_st) (ms : Z) (seen : list Z) : option nat :=
  ksleep_loop seen (u64 (ticks t + ms)) 0.

Definition timer_register_callback (t : timer_st) (f : timer_fn) : Z * timer_st :=
  if TIMER_MAX_CALLBACKS <=? Z.of_nat (length (callbacks t)) then (-1, t)
  else (0, mk_timer (ticks t) (callbacks t ++ [f])).

Definition timer_init {D} `{!Bus D} (h : list (option Pic.irq_fn)) (d : D) : Z * list (option Pic.irq_fn) * D :=
  let d := outb PIT_COMMAND PIT_CMD d in
  let d := outb PIT_CHANNEL0_DATA (PIT_DIVISOR &b 0xFF) d in
  let d := outb PIT_CHANNEL0_DATA (PIT_DIVISOR >>b 8) d in
  let h := Pic.irq_register h 0 Pic.timer_irq_fn in
  (0, h, Pic.irq_enable 0 d).
End Timer.

Module Keyboard.
Definition KB_DATA_PORT : Z := 0x60.
Definition KB_STATUS_PORT : Z := 0x64.
Definition KB_SC_MAX : Z := 0x58.
Definition KB_BUF_SIZE : Z := 256.
Definition KB_BUF_MASK : Z := KB_BUF_SIZE - 1.

Definition sc_to_ascii : list Z :=
  [0; 27; 49; 50; 51; 52; 53; 54; 55; 56; 57; 48; 45; 61; 8; 9;
   113; 119; 101; 114; 116; 121; 117; 105; 111; 112; 91; 93; 10; 0; 97; 115;
   100; 102; 103; 104; 106; 107; 108; 59; 39; 96; 0; 92; 122; 120; 99; 118;
   98; 110; 109; 44; 46; 47; 0; 42; 0; 32; 0; 0; 0; 0; 0; 0;
   0; 0; 0; 0; 0; 0; 0; 55; 56; 57; 45; 52; 53; 54; 43; 49;
   50; 51; 48; 46; 0; 0; 0; 0].

Record kb_st := mk_kb { kb_buf : list Z; kb_head : Z; kb_tail : Z }.

Definition buf_push (k : kb_st) (ch : Z) : kb_st :=
  let next := (kb_head k + 1) &b KB_BUF_MASK in
  if next =? kb_tail k then k
  else mk_kb (<[Z.to_nat (kb_head k) := ch]> (kb_buf k)) next (kb_tail k).

Definition keyboard_irq_handler {D} `{!Bus D} (k : kb_st) (d : D) : kb_st * D :=
  let '(sc, d) := inb KB_DATA_PORT d in
  if has sc 0x80 then (k, d)
  else if sc =? 0xE0 then (k, d)
  else if sc <? KB_SC_MAX then
    let ch := nth (Z.to_nat sc) sc_to_ascii 0 in
    if negb (ch =? 0) then (buf_push k ch, d) else (k, d)
  else (k, d).

Definition keyboard_getc (k : kb_st) : Z * kb_st :=
  if kb_tail k =? kb_head k then (-1, k)
  else (nth (Z.to_nat (kb_tail k)) (kb_buf k) 0,
        mk_kb (kb_buf k) (kb_head k) ((kb_tail k + 1) &b KB_BUF_MASK)).

Definition keyboard_init {D} `{!Bus D} (h : list (option Pic.irq_fn)) (d : D) : Z * list (option Pic.irq_fn) * D :=
  let '(st, d) := inb KB_STATUS_PORT d in
  let d := if has st 0x01 then snd (inb KB_DATA_PORT d) else d in
  let h := Pic.irq_register h 1 Pic.keyboard_irq_fn in
  (0, h, Pic.irq_enable 1 d).

(** The queued characters. *)
Definition kb_queue (k : kb_st) : list Z := ring_list KB_BUF_SIZE (kb_buf k) (kb_tail k) (kb_head k).
Definition kb_inv (k : kb_st) : Prop := ring_ok KB_BUF_SIZE (kb_buf k) (kb_tail k) (kb_head k).

Lemma mask_mod x : 0 <= x -> x &b KB_BUF_MASK = x mod KB_BUF_SIZE.
Proof. intros _. change KB_BUF_MASK with (Z.ones 8). by rewrite Z.land_ones. Qed.

Lemma buf_push_spec k ch : kb_inv k ->
  kb_inv (buf_push k ch) /\
  kb_queue (buf_push k ch) = if Z.of_nat (length (kb_queue k)) <? 255 then kb_queue k ++ [ch] else kb_queue k.
Proof.
  intros Hk. pose proof Hk as [Hn Hl Hr Hw]. unfold kb_queue at 2. rewrite ring_list_length by done.
  unfold buf_push. rewrite mask_mod by lia.
  assert ((kb_head k + 1) mod KB_BUF_SIZE = kb_tail k <-> ring_used KB_BUF_SIZE (kb_tail k) (kb_head k) = 255) as Hfull.
  { unfold ring_used, KB_BUF_SIZE in *. clear Hl Hk. zlia. }
  pose proof (ring_used_range KB_BUF_SIZE (kb_tail k) (kb_head k) Hn) as Hu.
  destruct (Z.eqb_spec ((kb_head k + 1) mod KB_BUF_SIZE) (kb_tail k)) as [E|E].
  - apply Hfull in E. rewrite E. done.
  - destruct (Z.ltb_spec (ring_used KB_BUF_SIZE (kb_tail k) (kb_head k)) 255) as [Hlt|Hge].
    + exact (ring_push KB_BUF_SIZE _ _ _ ch Hk Hlt).
    + exfalso. apply E, Hfull. unfold KB_BUF_SIZE in *. lia.
Qed.
End Keyboard.
