(* ===== verification/Tty.v ===== *)
(** * The console: src/vga/vga.c, src/tty/tty.c and the output of src/lib/printf.c

    The text screen (a memory-mapped array of 80x25 cells, the cursor set through
    two ports) and the terminal: a line buffer fed from the keyboard queue, whose
    completed lines go to a read ring.

    Theorems: the screen is written only inside its 2000 cells and the cursor
    stays on it, whatever is printed; [tty_poll] terminates, empties the keyboard
    queue and implements the line discipline, a function on character lists;
    [tty_read] returns exactly the next line once it is complete. *)

From S2P Require Import Prelude Io Ring Irq.

(** ** src/vga/vga.c *)

Module Vga.
Definition VGA_COLS : Z := 80.
Definition VGA_ROWS : Z := 25.
Definition VGA_DEFAULT_ATTR : Z := 0x07.
Definition VGA_CTRL_REG : Z := 0x3D4.
Definition VGA_DATA_REG : Z := 0x3D5.
Definition VGA_CURSOR_HI : Z := 0x0E.
Definition VGA_CURSOR_LO : Z := 0x0F.

(** The cells and the cursor. *)
Record vga_st := mk_vga { vga_buf : list Z; vga_col : Z; vga_row : Z }.

Definition blank : Z := u16 ((VGA_DEFAULT_ATTR <<b 8) |b 32).

Definition vga_update_cursor {D} `{!Bus D} (v : vga_st) (d : D) : D :=
  let pos := u16 (vga_row v * VGA_COLS + vga_col v) in
  outs [(VGA_CTRL_REG, VGA_CURSOR_HI); (VGA_DATA_REG, u8 (pos >>b 8));
        (VGA_CTRL_REG, VGA_CURSOR_LO); (VGA_DATA_REG, u8 (pos &b 0xFF))] d.

(** [for (i = 0; i < n; i++) buf[base + i] = f(i)] over the old and new cells. *)
Definition fill (buf : list Z) (base n v : Z) : list Z :=
  fold_left (fun b i => <[Z.to_nat (base + Z.of_nat i) := v]> b) (seq 0 (Z.to_nat n)) buf.

Definition vga_clear {D} `{!Bus D} (v : vga_st) (d : D) : vga_st * D :=
  let v := mk_vga (fill (vga_buf v) 0 (VGA_COLS * VGA_ROWS) blank) 0 0 in
  (v, vga_update_cursor v d).

(** One row of the scroll loop. *)
Definition scroll_row (buf : list Z) (r : Z) : list Z :=
  fold_left (fun b c => <[Z.to_nat ((r - 1) * VGA_COLS + Z.of_nat c) :=
                          nth (Z.to_nat (r * VGA_COLS + Z.of_nat c)) b 0]> b)
    (seq 0 (Z.to_nat VGA_COLS)) buf.
Definition vga_scroll (v : vga_st) : vga_st :=
  let buf := fold_left (fun b r => scroll_row b (Z.of_nat r)) (seq 1 (Z.to_nat (VGA_ROWS - 1))) (vga_buf v) in
  mk_vga (fill buf ((VGA_ROWS - 1) * VGA_COLS) VGA_COLS blank) (vga_col v) (VGA_ROWS - 1).

(** The cursor and cell part of [vga_putchar]; [c] is the character as a byte. *)
Definition put_cell (v : vga_st) (c : Z) : vga_st :=
  let wrap v := if VGA_COLS <=? vga_col v then mk_vga (vga_buf v) 0 (vga_row v + 1) else v in
  if c =? 10 then mk_vga (vga_buf v) 0 (vga_row v + 1)
  else if c =? 13 then mk_vga (vga_buf v) 0 (vga_row v)
  else if c =? 9 then wrap (mk_vga (vga_buf v) ((vga_col v + 8) &b Z.lnot 7) (vga_row v))
  else
    let buf := <[Z.to_nat (vga_row v * VGA_COLS + vga_col v) := u16 ((VGA_DEFAULT_ATTR <<b 8) |b u8 c)]> (vga_buf v) in
    wrap (mk_vga buf (vga_col v + 1) (vga_row v)).

Definition vga_putchar {D} `{!Bus D} (c : Z) (v : vga_st) (d : D) : vga_st * D :=
  let v := put_cell v c in
  let v := if VGA_ROWS <=? vga_row v then vga_scroll v else v in
  (v, vga_update_cursor v d).

Definition vga_write {D} `{!Bus D} (s : list Z) (v : vga_st) (d : D) : vga_st * D :=
  fold_left (fun '(v, d) c => vga_putchar c v d) s (v, d).

Definition vga_init {D} `{!Bus D} (v : vga_st) (d : D) : Z * (vga_st * D) := (0, vga_clear v d).

(** The cursor is on the screen and the screen has its 2000 cells. *)
Record vga_ok (v : vga_st) : Prop := {
  vo_len : length (vga_buf v) = 2000%nat;
  vo_col : 0 <= vga_col v < VGA_COLS;
  vo_row : 0 <= vga_row v < VGA_ROWS
}.

Lemma fold_length {X} (f : list Z -> X -> list Z) l buf : (forall b x, length (f b x) = length b) ->
  length (fold_left f l buf) = length buf.
Proof.
  intros Hf. revert buf. induction l as [|i l IH]; intros buf; cbn [fold_left]; [done|]. by rewrite IH.
Qed.
Lemma fill_length buf base n v : length (fill buf base n v) = length buf.
Proof. apply fold_length. intros. apply length_insert. Qed.
Lemma scroll_row_length buf r : length (scroll_row buf r) = length buf.
Proof. apply fold_length. intros. apply length_insert. Qed.
Lemma scroll_length v : length (vga_buf (vga_scroll v)) = length (vga_buf v).
Proof. etransitivity; [apply fill_length|]. apply fold_length. intros. apply scroll_row_length. Qed.

(** The cell [put_cell] writes is on the screen. *)
Lemma cell_index v : vga_ok v -> 0 <= vga_row v * VGA_COLS + vga_col v < 2000.
Proof. intros [_ Hc Hr]. unfold VGA_COLS, VGA_ROWS in *. lia. Qed.

Lemma tab_col c : 0 <= c < 80 -> 8 <= (c + 8) &b Z.lnot 7 <= 80.
Proof.
  intros Hc. change 7 with (Z.ones 3). rewrite <- Z.ldiff_land, Z.ldiff_ones_r by lia.
  rewrite Z.shiftl_mul_pow2, Z.shiftr_div_pow2 by lia. zlia.
Qed.

Lemma put_cell_ok v c : vga_ok v -> length (vga_buf (put_cell v c)) = 2000%nat /\
  0 <= vga_col (put_cell v c) < VGA_COLS /\ 0 <= vga_row (put_cell v c) <= VGA_ROWS.
Proof.
  intros Hv. pose proof Hv as [Hl Hc Hr]. unfold put_cell. unfold VGA_COLS, VGA_ROWS in *.
  destruct (c =? 10); [cbn; lia|]. destruct (c =? 13); [cbn; lia|]. destruct (c =? 9).
  - pose proof (tab_col (vga_col v) Hc). cbn [vga_col].
    destruct (Z.leb_spec 80 ((vga_col v + 8) &b Z.lnot 7)); cbn [vga_buf vga_col vga_row]; lia.
  - cbn [vga_col]. destruct (Z.leb_spec 80 (vga_col v + 1)); cbn [vga_buf vga_col vga_row]; rewrite length_insert; lia.
Qed.

Lemma vga_putchar_ok {D} `{!Bus D} c v (d : D) : vga_ok v -> vga_ok (fst (vga_putchar c v d)).
Proof.
  intros Hv. destruct (put_cell_ok v c Hv) as (H1 & H2 & H3). unfold vga_putchar. cbn [fst].
  destruct (Z.leb_spec VGA_ROWS (vga_row (put_cell v c))) as [Hs|Hs].
  - split; [by rewrite scroll_length|exact H2|]. cbn [vga_row vga_scroll]. unfold VGA_ROWS. lia.
  - split; [done|done|lia].
Qed.

Lemma vga_write_ok {D} `{!Bus D} s : forall v (d : D), vga_ok v -> vga_ok (fst (vga_write s v d)).
Proof.
  unfold vga_write. induction s as [|c s IH]; intros v d Hv; [exact Hv|]. cbn [fold_left].
  pose proof (vga_putchar_ok c v d Hv) as Hv'. destruct (vga_putchar c v d) as [v' d']. by apply IH.
Qed.

(** The screen stays in bounds: whatever string is written from a cursor on the
    screen, after every prefix of it the cursor is on the screen, so the cell the
    next character goes to is one of the 2000 cells of the text buffer. *)
Theorem vga_write_in_bounds {D} `{!Bus D} s1 s2 v (d : D) : vga_ok v ->
  let v1 := fst (vga_write s1 v d) in
  0 <= vga_row v1 * VGA_COLS + vga_col v1 < Z.of_nat (length (vga_buf v1)) /\
  vga_ok (fst (vga_write (s1 ++ s2) v d)).
Proof.
  intros Hv. pose proof (vga_write_ok s1 v d Hv) as H1. cbv zeta. split; [|by apply vga_write_ok].
  rewrite (vo_len _ H1). by apply cell_index.
Qed.
#[local] Instance null_bus : Bus unit := {| bus_in _ _ d := (0, d); bus_out _ _ _ d := d |}.
Lemma vga_write_in_bounds_witness :
  0 <= vga_row (fst (vga_write [104; 9; 10; 10] (mk_vga (replicate 2000 blank) 79 24) tt)) * VGA_COLS +
    vga_col (fst (vga_write [104; 9; 10; 10] (mk_vga (replicate 2000 blank) 79 24) tt)) <
    Z.of_nat (length (vga_buf (fst (vga_write [104; 9; 10; 10] (mk_vga (replicate 2000 blank) 79 24) tt)))).
Proof.
  exact (proj1 (vga_write_in_bounds [104; 9; 10; 10] [105] (mk_vga (replicate 2000 blank) 79 24) tt
    (Build_vga_ok (mk_vga (replicate 2000 blank) 79 24) ltac:(vm_compute; reflexivity) ltac:(vm_compute; intuition discriminate)
       ltac:(vm_compute; intuition discriminate)))).
Defined.
End Vga.

(** ** The output of [kprintf] (src/lib/printf.c)

    [kprintf_output_fn] is NULL, [serial_putchar] or [vga_putchar]; the fuel bounds the
    wait for the serial transmitter. *)

Module Console.
Inductive output_fn := no_output | serial_output | vga_output.
Record console (D : Type) := mk_console { kprintf_output_fn : output_fn; con_vga : Vga.vga_st; con_dev : D }.
Arguments mk_console {D}. Arguments kprintf_output_fn {D}. Arguments con_vga {D}. Arguments con_dev {D}.

Section console.
Context {D : Type} `{!Bus D}.
Implicit Types c : console D.

Definition kprintf_set_output (fn : output_fn) c : console D := mk_console fn (con_vga c) (con_dev c).

Definition emit (fuel : nat) (ch : Z) c : option (console D) :=
  match kprintf_output_fn c with
  | no_output => Some c
  | serial_output =>
      match serial_putchar fuel ch (con_dev c) with
      | Some d => Some (mk_console serial_output (con_vga c) d)
      | None => None
      end
  | vga_output => let '(v, d) := Vga.vga_putchar ch (con_vga c) (con_dev c) in Some (mk_console vga_output v d)
  end.
Fixpoint emit_all (fuel : nat) (l : list Z) c : option (console D) :=
  match l with
  | [] => Some c
  | ch :: l => match emit fuel ch c with Some c => emit_all fuel l c | None => None end
  end.

Definition kprintf (fuel : nat) (fmt : list Z) (ap : list va_arg) c : option (console D) :=
  match vkprintf fmt ap with Some l => emit_all fuel l c | None => None end.
(** Several calls in a row. *)
Fixpoint kprintfs (fuel : nat) (l : list (list Z * list va_arg)) c : option (console D) :=
  match l with
  | [] => Some c
  | (fmt, ap) :: l => match kprintf fuel fmt ap c with Some c => kprintfs fuel l c | None => None end
  end.

Lemma emit_all_app fuel l1 l2 c : emit_all fuel (l1 ++ l2) c =
  match emit_all fuel l1 c with Some c => emit_all fuel l2 c | None => None end.
Proof. revert c. induction l1 as [|ch l1 IH]; intros c; cbn [emit_all app]; [done|]. destruct (emit fuel ch c); [apply IH|done]. Qed.
Lemma emit_all_vga fuel l c : kprintf_output_fn c = vga_output ->
  emit_all fuel l c = let '(v, d) := Vga.vga_write l (con_vga c) (con_dev c) in Some (mk_console vga_output v d).
Proof.
  revert c. induction l as [|ch l IH]; intros [f v d] Hf; cbn in Hf; subst f; [done|]. cbn [emit_all emit kprintf_output_fn con_vga con_dev].
  unfold Vga.vga_write. cbn [fold_left]. destruct (Vga.vga_putchar ch v d) as [v1 d1]. rewrite IH by done. done.
Qed.
Lemma emit_all_serial fuel l c : kprintf_output_fn c = serial_output ->
  emit_all fuel l c = match serial_write fuel l (con_dev c) with
                      | Some d => Some (mk_console serial_output (con_vga c) d) | None => None end.
Proof.
  revert c. induction l as [|ch l IH]; intros [f v d] Hf; cbn in Hf; subst f; [done|]. cbn [emit_all emit serial_write kprintf_output_fn con_vga con_dev].
  destruct (serial_putchar fuel ch d) as [d1|]; [|done]. by rewrite IH.
Qed.

(** The characters several calls print. *)
Fixpoint texts (l : list (list Z * list va_arg)) : option (list Z) :=
  match l with
  | [] => Some []
  | (fmt, ap) :: l => match vkprintf fmt ap, texts l with Some a, Some b => Some (a ++ b) | _, _ => None end
  end.
Lemma kprintfs_texts fuel l t c : texts l = Some t -> kprintfs fuel l c = emit_all fuel t c.
Proof.
  revert t c. induction l as [|[fmt ap] l IH]; intros t c; cbn [texts kprintfs]; [by intros [= <-]|].
  unfold kprintf. destruct (vkprintf fmt ap) as [a|]; [|done]. destruct (texts l) as [b|] eqn:E; [|done]. intros [= <-].
  rewrite emit_all_app. destruct (emit_all fuel a c); [by apply IH|done].
Qed.
End console.
End Console.

(** ** src/tty/tty.c *)

Module Tty.
Import Vga Keyboard.

Definition TTY_LBUF_SIZE : Z := 256.
Definition TTY_RBUF_SIZE : Z := 1024.

(** The terminal, with the keyboard queue and the screen it works on. *)
Record tty_st := mk_tty {
  lbuf : list Z; lbuf_len : Z;
  rbuf : list Z; rbuf_head : Z; rbuf_tail : Z;
  kb : kb_st; vga : vga_st
}.
Definition ts_lbuf (t : tty_st) b n := mk_tty b n (rbuf t) (rbuf_head t) (rbuf_tail t) (kb t) (vga t).
Definition ts_rbuf (t : tty_st) b h w := mk_tty (lbuf t) (lbuf_len t) b h w (kb t) (vga t).
Definition ts_kb (t : tty_st) k := mk_tty (lbuf t) (lbuf_len t) (rbuf t) (rbuf_head t) (rbuf_tail t) k (vga t).
Definition ts_vga (t : tty_st) v := mk_tty (lbuf t) (lbuf_len t) (rbuf t) (rbuf_head t) (rbuf_tail t) (kb t) v.

Definition rbuf_avail (t : tty_st) : Z := u32 (rbuf_tail t - rbuf_head t) mod TTY_RBUF_SIZE.

Definition rbuf_push (t : tty_st) (c : Z) : tty_st :=
  let next := (rbuf_tail t + 1) mod TTY_RBUF_SIZE in
  if next =? rbuf_head t then t
  else ts_rbuf t (<[Z.to_nat (rbuf_tail t) := c]> (rbuf t)) (rbuf_head t) next.

Definition rbuf_pop (t : tty_st) : Z * tty_st :=
  if rbuf_head t =? rbuf_tail t then (-1, t)
  else (nth (Z.to_nat (rbuf_head t)) (rbuf t) 0,
        ts_rbuf t (rbuf t) ((rbuf_head t + 1) mod TTY_RBUF_SIZE) (rbuf_tail t)).

Section tty.
Context {D : Type} `{!Bus D}.

(** [vga_putchar] on the terminal's screen. *)
Definition echo (c : Z) (t : tty_st) (d : D) : tty_st * D :=
  let '(v, d) := vga_putchar c (vga t) d in (ts_vga t v, d).

(** [for (i = 0; i < lbuf_len; i++) rbuf_push(lbuf[i]); rbuf_push('\n'); lbuf_len = 0;] *)
Definition flush_line (t : tty_st) : tty_st :=
  let t := fold_left (fun t i => rbuf_push t (nth i (lbuf t) 0)) (seq 0 (Z.to_nat (lbuf_len t))) t in
  let t := rbuf_push t 10 in ts_lbuf t (lbuf t) 0.

(** One character of [tty_poll]. *)
Definition tty_char (ch : Z) (t : tty_st) (d : D) : tty_st * D :=
  if (ch =? 13) || (ch =? 10) then echo 10 (flush_line t) d
  else if (ch =? 8) || (ch =? 127) then
    if 0 <? lbuf_len t then
      let t := ts_lbuf t (lbuf t) (lbuf_len t - 1) in
      let '(t, d) := echo 8 t d in
      let '(t, d) := echo 32 t d in
      echo 8 t d
    else (t, d)
  else if (0x20 <=? ch) && (ch <? 0x7F) then
    if lbuf_len t <? TTY_LBUF_SIZE - 1 then
      let t := ts_lbuf t (<[Z.to_nat (lbuf_len t) := ch]> (lbuf t)) (lbuf_len t + 1) in
      echo ch t d
    else (t, d)
  else (t, d).

(** [while ((c = keyboard_getc()) != -1) ...]; the queue holds at most 255
    characters and nothing fills it meanwhile (the caller is an interrupt
    handler). *)
Fixpoint poll_loop (fuel : nat) (t : tty_st) (d : D) : option (tty_st * D) :=
  match fuel with
  | O => None
  | S fuel =>
      let '(c, k) := keyboard_getc (kb t) in
      if c =? -1 then Some (t, d)
      else
        let '(t, d) := tty_char (u8 c) (ts_kb t k) d in
        poll_loop fuel t d
  end.
Definition tty_poll (t : tty_st) (d : D) : option (tty_st * D) := poll_loop 257 t d.

(** [tty_read]: the bytes stored at [buf].  [yield] is what happens while the
    reader waits (ticks, hence [tty_poll]); the fuel bounds the number of turns. *)
Fixpoint read_loop (fuel : nat) (yield : tty_st * D -> tty_st * D) (n size : Z) (t : tty_st) (d : D) :
    option (list Z * (tty_st * D)) :=
  match fuel with
  | O => None
  | S fuel =>
      if n <? size then
        if 0 <? rbuf_avail t then
          let '(ch, t) := rbuf_pop t in
          if ch <? 0 then Some ([], (t, d))
          else if ch =? 10 then Some ([u8 ch], (t, d))
          else match read_loop fuel yield (n + 1) size t d with
               | Some (out, td) => Some (u8 ch :: out, td)
               | None => None
               end
        else let '(t, d) := yield (t, d) in read_loop fuel yield n size t d
      else Some ([], (t, d))
  end.
Definition tty_read (fuel : nat) (yield : tty_st * D -> tty_st * D) (size : Z) (t : tty_st) (d : D) :
    option (list Z * (tty_st * D)) :=
  if size =? 0 then Some ([], (t, d)) else read_loop fuel yield 0 size t d.

Definition tty_write (data : list Z) (t : tty_st) (d : D) : Z * (tty_st * D) :=
  (i32 (Z.of_nat (length data)), fold_left (fun '(t, d) c => echo c t d) data (t, d)).

Definition tty_reset (t : tty_st) : tty_st := ts_rbuf (ts_lbuf t (lbuf t) 0) (rbuf t) 0 0.
End tty.

(** ** The line discipline *)

(** The line being typed and the bytes ready to be read. *)
Record cooked := mk_cooked { c_line : list Z; c_ready : list Z }.

Definition cook (s : cooked) (ch : Z) : cooked :=
  if (ch =? 13) || (ch =? 10) then mk_cooked [] (take 1023 (c_ready s ++ c_line s ++ [10]))
  else if (ch =? 8) || (ch =? 127) then mk_cooked (removelast (c_line s)) (c_ready s)
  else if (0x20 <=? ch) && (ch <? 0x7F) then
    mk_cooked (if Z.of_nat (length (c_line s)) <? 255 then c_line s ++ [ch] else c_line s) (c_ready s)
  else s.

Definition abs (t : tty_st) : cooked :=
  mk_cooked (take (Z.to_nat (lbuf_len t)) (lbuf t)) (ring_list TTY_RBUF_SIZE (rbuf t) (rbuf_head t) (rbuf_tail t)).

Record tty_ok (t : tty_st) : Prop := {
  to_lbuf : length (lbuf t) = 256%nat;
  to_len : 0 <= lbuf_len t <= 255;
  to_ring : ring_ok TTY_RBUF_SIZE (rbuf t) (rbuf_head t) (rbuf_tail t);
  to_kb : kb_inv (kb t);
  to_bytes : Forall (fun c => 0 <= c < 256) (kb_queue (kb t));
  to_vga : vga_ok (vga t)
}.

Lemma rbuf_push_spec t c : ring_ok TTY_RBUF_SIZE (rbuf t) (rbuf_head t) (rbuf_tail t) ->
  let t' := rbuf_push t c in
  ring_ok TTY_RBUF_SIZE (rbuf t') (rbuf_head t') (rbuf_tail t') /\
  c_ready (abs t') = take 1023 (c_ready (abs t) ++ [c]) /\
  lbuf t' = lbuf t /\ lbuf_len t' = lbuf_len t /\ kb t' = kb t /\ vga t' = vga t.
Proof.
  intros Hk. pose proof Hk as [Hn Hl Hr Hw]. unfold rbuf_push. cbv zeta.
  pose proof (ring_used_range TTY_RBUF_SIZE (rbuf_head t) (rbuf_tail t) Hn) as Hu.
  pose proof (ring_list_length TTY_RBUF_SIZE (rbuf t) (rbuf_head t) (rbuf_tail t) Hn) as Hq.
  assert ((rbuf_tail t + 1) mod TTY_RBUF_SIZE = rbuf_head t <-> ring_used TTY_RBUF_SIZE (rbuf_head t) (rbuf_tail t) = 1023) as Hfull.
  { unfold ring_used, TTY_RBUF_SIZE in *. clear Hl Hk Hq. zlia. }
  destruct (Z.eqb_spec ((rbuf_tail t + 1) mod TTY_RBUF_SIZE) (rbuf_head t)) as [E|E].
  - apply Hfull in E. split; [done|]. split; [|done]. cbn [abs c_ready]. rewrite take_app_le by lia.
    symmetry. apply take_ge. lia.
  - assert (ring_used TTY_RBUF_SIZE (rbuf_head t) (rbuf_tail t) < 1023) as Hlt.
    { destruct (decide (ring_used TTY_RBUF_SIZE (rbuf_head t) (rbuf_tail t) = 1023)) as [E'|]; [by destruct E; apply Hfull|].
      unfold TTY_RBUF_SIZE in *. lia. }
    destruct (ring_push TTY_RBUF_SIZE _ _ _ c Hk Hlt) as [H1 H2]. split; [exact H1|]. split; [|done].
    cbn [abs c_ready]. etransitivity; [exact H2|]. symmetry. apply take_ge. rewrite length_app. simpl. lia.
Qed.

Lemma take_take_app {X} n (a b c : list X) : take n (take n (a ++ b) ++ c) = take n (a ++ b ++ c).
Proof.
  rewrite app_assoc. destruct (decide (n <= length (a ++ b))%nat) as [H|H].
  - rewrite (take_app_le (take n (a ++ b)) c) by (rewrite length_take; lia).
    rewrite (take_app_le (a ++ b) c) by lia. rewrite take_take. f_equal. lia.
  - rewrite (take_ge (a ++ b)) by lia. done.
Qed.

(** Moving the line to the ring. *)
Lemma flush_loop l : forall t, ring_ok TTY_RBUF_SIZE (rbuf t) (rbuf_head t) (rbuf_tail t) ->
  let t' := fold_left (fun t i => rbuf_push t (nth i (lbuf t) 0)) l t in
  ring_ok TTY_RBUF_SIZE (rbuf t') (rbuf_head t') (rbuf_tail t') /\
  (c_ready (abs t') = take 1023 (c_ready (abs t) ++ map (fun i => nth i (lbuf t) 0) l)) /\
  lbuf t' = lbuf t /\ lbuf_len t' = lbuf_len t /\ kb t' = kb t /\ vga t' = vga t.
Proof.
  induction l as [|i l IH]; intros t Hk; cbn [fold_left map]; cbv zeta.
  - split; [done|]. split; [|done]. rewrite app_nil_r. symmetry. apply take_ge. cbn [abs c_ready].
    pose proof (ring_list_length TTY_RBUF_SIZE (rbuf t) (rbuf_head t) (rbuf_tail t) ltac:(by destruct Hk)) as Hq.
    pose proof (ring_used_range TTY_RBUF_SIZE (rbuf_head t) (rbuf_tail t) ltac:(by destruct Hk)).
    unfold TTY_RBUF_SIZE in *. lia.
  - destruct (rbuf_push_spec t (nth i (lbuf t) 0) Hk) as (H1 & H2 & H3 & H4 & H5 & H6).
    destruct (IH _ H1) as (G1 & G2 & G3 & G4 & G5 & G6). split; [done|]. split; [|split; [|split; [|split]]]; try congruence.
    rewrite G2, H2, H3. by rewrite take_take_app.
Qed.

Lemma map_nth_take (l : list Z) n : (n <= length l)%nat -> map (fun i => nth i l 0) (seq 0 n) = take n l.
Proof.
  intros Hn. apply list_eq. intros i. rewrite list_lookup_fmap. destruct (decide (i < n)%nat) as [Hi|Hi].
  - rewrite lookup_seq_lt, lookup_take_lt by lia. cbn. rewrite nth_lookup.
    destruct (lookup_lt_is_Some_2 l i) as [x Hx]; [lia|]. by rewrite Hx.
  - rewrite lookup_seq_ge, lookup_take_ge by lia. done.
Qed.

Lemma flush_line_spec t : tty_ok t ->
  abs (flush_line t) = mk_cooked [] (take 1023 (c_ready (abs t) ++ c_line (abs t) ++ [10])) /\
  lbuf (flush_line t) = lbuf t /\ lbuf_len (flush_line t) = 0 /\ kb (flush_line t) = kb t /\ vga (flush_line t) = vga t /\
  ring_ok TTY_RBUF_SIZE (rbuf (flush_line t)) (rbuf_head (flush_line t)) (rbuf_tail (flush_line t)).
Proof.
  intros [Hb Hlen Hring _ _ _]. unfold flush_line. cbv zeta.
  destruct (flush_loop (seq 0 (Z.to_nat (lbuf_len t))) t Hring) as (H1 & H2 & H3 & H4 & H5 & H6). cbv zeta in *.
  revert H1 H2 H3 H4 H5 H6. generalize (fold_left (fun t i => rbuf_push t (nth i (lbuf t) 0)) (seq 0 (Z.to_nat (lbuf_len t))) t).
  intros t1 H1 H2 H3 H4 H5 H6. destruct (rbuf_push_spec t1 10 H1) as (G1 & G2 & G3 & G4 & G5 & G6).
  rewrite map_nth_take in H2 by lia.
  split; [|split; [by cbn; congruence|split; [done|split; [by cbn; congruence|split; [by cbn; congruence|exact G1]]]]].
  unfold abs at 1. cbn [lbuf_len ts_lbuf]. change (Z.to_nat 0) with 0%nat. rewrite take_0. f_equal.
  change (c_ready (abs (rbuf_push t1 10)) = take 1023 (c_ready (abs t) ++ c_line (abs t) ++ [10])).
  rewrite G2, H2, take_take_app. done.
Qed.

(** Taking a character from the keyboard queue. *)
Lemma keyboard_getc_spec k : kb_inv k -> Forall (fun c => 0 <= c < 256) (kb_queue k) ->
  (kb_queue k = [] /\ keyboard_getc k = (-1, k)) \/
  exists c q k', kb_queue k = c :: q /\ keyboard_getc k = (c, k') /\ 0 <= c < 256 /\ kb_inv k' /\ kb_queue k' = q.
Proof.
  intros Hk Hb. pose proof Hk as [Hn Hl Hr Hw]. unfold keyboard_getc.
  destruct (Z.eqb_spec (kb_tail k) (kb_head k)) as [E|E].
  - left. split; [|done]. by apply ring_empty.
  - right. destruct (ring_pop KB_BUF_SIZE _ _ _ Hk E) as [H1 H2]. rewrite mask_mod by lia.
    eexists _, _, _. split; [exact H2|]. split; [reflexivity|]. unfold kb_queue in Hb. rewrite H2 in Hb.
    apply Forall_cons in Hb as [Hc _]. split; [exact Hc|]. split; [exact H1|done].
Qed.

Section proofs.
Context {D : Type} `{!Bus D}.
Implicit Types d : D.

Lemma echo_spec c t d : vga_ok (vga t) ->
  exists v d', echo c t d = (ts_vga t v, d') /\ vga_ok v.
Proof.
  intros Hv. unfold echo. pose proof (vga_putchar_ok c (vga t) d Hv) as H1.
  destruct (vga_putchar c (vga t) d) as [v d']. by exists v, d'.
Qed.

Lemma ok_vga t v : tty_ok t -> vga_ok v -> tty_ok (ts_vga t v) /\ abs (ts_vga t v) = abs t.
Proof. intros [] Hv. split; [by split|done]. Qed.

Lemma tty_char_spec ch t d : tty_ok t -> 0 <= ch < 256 ->
  exists t' d', tty_char ch t d = (t', d') /\ tty_ok t' /\ kb t' = kb t /\ abs t' = cook (abs t) ch.
Proof.
  intros Hok Hch. pose proof Hok as [Hb Hlen Hring Hkb Hby Hv]. unfold tty_char, cook.
  destruct ((ch =? 13) || (ch =? 10)).
  { destruct (flush_line_spec t Hok) as (E & E1 & E2 & E3 & E4 & E5).
    revert E E1 E2 E3 E4 E5. generalize (flush_line t). intros t1 E E1 E2 E3 E4 E5.
    destruct (echo_spec 10 t1 d) as (v & d' & -> & Hv'); [by rewrite E4|].
    exists (ts_vga t1 v), d'. split; [done|]. split; [|split; [exact E3|exact E]].
    split; cbn; rewrite ?E1, ?E2, ?E3; try done; lia. }
  destruct ((ch =? 8) || (ch =? 127)).
  { destruct (Z.ltb_spec 0 (lbuf_len t)) as [Hp|Hp].
    - set (t1 := ts_lbuf t (lbuf t) (lbuf_len t - 1)). assert (tty_ok t1) as Hok1 by (split; cbn; try done; lia).
      destruct (echo_spec 8 t1 d) as (v1 & d1 & -> & Hv1); [done|].
      destruct (echo_spec 32 (ts_vga t1 v1) d1) as (v2 & d2 & -> & Hv2); [done|].
      destruct (echo_spec 8 (ts_vga (ts_vga t1 v1) v2) d2) as (v3 & d3 & -> & Hv3); [done|].
      exists (ts_vga t1 v3), d3. split; [done|]. destruct (ok_vga t1 v3 Hok1 Hv3) as [H1 H2]. split; [done|]. split; [done|].
      rewrite H2. unfold abs at 1. cbn [lbuf lbuf_len t1 ts_lbuf rbuf rbuf_head rbuf_tail]. unfold abs. cbn [c_line c_ready].
      f_equal. rewrite removelast_firstn_len, firstn_firstn, length_firstn. f_equal. lia.
    - exists t, d. split; [done|]. split; [done|]. split; [done|]. unfold abs. cbn [c_line c_ready].
      assert (lbuf_len t = 0) as -> by lia. done. }
  destruct ((0x20 <=? ch) && (ch <? 0x7F)) eqn:Hpr; [|by exists t, d].
  assert (length (take (Z.to_nat (lbuf_len t)) (lbuf t)) = Z.to_nat (lbuf_len t)) as Ht by (rewrite length_take; lia).
  cbn [abs c_line c_ready]. rewrite Ht, Z2Nat.id by lia. change (TTY_LBUF_SIZE - 1) with 255.
  destruct (Z.ltb_spec (lbuf_len t) 255) as [Hp|Hp]; [|by exists t, d].
  set (t1 := ts_lbuf t _ _). assert (tty_ok t1) as Hok1.
  { split; cbn; try done; [by rewrite length_insert|lia]. }
  destruct (echo_spec ch t1 d) as (v1 & d1 & -> & Hv1); [done|]. exists (ts_vga t1 v1), d1. split; [done|].
  destruct (ok_vga t1 v1 Hok1 Hv1) as [H1 H2]. split; [done|]. split; [done|]. rewrite H2.
  unfold abs. cbn [lbuf lbuf_len t1 ts_lbuf rbuf rbuf_head rbuf_tail]. f_equal.
  replace (Z.to_nat (lbuf_len t + 1)) with (S (Z.to_nat (lbuf_len t))) by lia.
  rewrite (take_S_r _ _ ch) by (apply list_lookup_insert_eq; lia). by rewrite take_insert_ge by lia.
Qed.

Lemma poll_loop_spec fuel : forall t d, tty_ok t -> (length (kb_queue (kb t)) < fuel)%nat ->
  exists t' d', poll_loop fuel t d = Some (t', d') /\ tty_ok t' /\ kb_queue (kb t') = [] /\
    abs t' = fold_left cook (kb_queue (kb t)) (abs t).
Proof.
  induction fuel as [|fuel IH]; intros t d Hok Hf; [lia|]. cbn [poll_loop].
  destruct (keyboard_getc_spec (kb t) (to_kb t Hok) (to_bytes t Hok)) as [[Hq ->]|(c & q & k' & Hq & -> & Hc & Hk' & Hq')].
  - cbn. exists t, d. rewrite Hq. done.
  - destruct (Z.eqb_spec c (-1)); [lia|]. rewrite (u8_small c) by lia.
    assert (tty_ok (ts_kb t k')) as Hok1.
    { destruct Hok as [H1 H2 H3 H4 H5 H6]. split; try done. cbn. rewrite Hq'. rewrite Hq in H5.
      by apply Forall_cons in H5 as [_ ?]. }
    destruct (tty_char_spec c (ts_kb t k') d Hok1 ltac:(lia)) as (t1 & d1 & -> & Hok2 & Hkb & Habs).
    destruct (IH t1 d1 Hok2) as (t' & d' & E & H1 & H2 & H3).
    { rewrite Hkb. cbn. rewrite Hq', Hq in *. cbn in Hf. lia. }
    exists t', d'. split; [done|]. split; [done|]. split; [done|]. rewrite H3, Habs, Hkb, Hq. cbn. by rewrite Hq'.
Qed.

(** The fuel of [tty_poll] is enough for a full queue. *)
Lemma tty_poll_ok t d : tty_ok t ->
  exists t' d', tty_poll t d = Some (t', d') /\ tty_ok t' /\ kb_queue (kb t') = [] /\
    abs t' = fold_left cook (kb_queue (kb t)) (abs t).
Proof.
  intros Hok. apply poll_loop_spec; [done|]. destruct (to_kb t Hok) as [Hn _ _ _].
  pose proof (ring_list_length KB_BUF_SIZE (kb_buf (kb t)) (kb_tail (kb t)) (kb_head (kb t)) Hn) as Hq.
  pose proof (ring_used_range KB_BUF_SIZE (kb_tail (kb t)) (kb_head (kb t)) Hn). unfold kb_queue, KB_BUF_SIZE in *. lia.
Qed.

(** C35. The terminal is a line discipline: [tty_poll] always returns, empties the
    keyboard queue and turns the queued characters, in order, into edits of the
    line being typed (backspace removes the last character, at most 255 are
    kept) and completed lines appended to the read ring, keeping ring, line
    buffer and screen well-formed. *)
Theorem tty_poll_cooks t d : tty_ok t ->
  exists t' d', tty_poll t d = Some (t', d') /\ tty_ok t' /\ kb_queue (kb t') = [] /\
    abs t' = fold_left cook (kb_queue (kb t)) (abs t).
Proof. apply tty_poll_ok. Qed.

(** Taking a byte from a ring that is not empty. *)
Lemma rbuf_pop_spec t c q : tty_ok t -> c_ready (abs t) = c :: q ->
  0 < rbuf_avail t /\ exists t', rbuf_pop t = (c, t') /\ tty_ok t' /\ abs t' = mk_cooked (c_line (abs t)) q.
Proof.
  intros Hok Hr. pose proof Hok as [Hb Hlen Hring Hkb Hby Hv]. pose proof Hring as [Hn Hbl Hh Ht].
  pose proof (ring_list_length TTY_RBUF_SIZE (rbuf t) (rbuf_head t) (rbuf_tail t) Hn) as Hq. cbn [abs c_ready] in Hr.
  rewrite Hr in Hq. cbn [length] in Hq.
  assert (rbuf_avail t = ring_used TTY_RBUF_SIZE (rbuf_head t) (rbuf_tail t)) as Ha
    by (unfold rbuf_avail, ring_used, u32, TTY_RBUF_SIZE in *; clear - Hh Ht; zlia).
  split; [lia|]. unfold rbuf_pop. destruct (Z.eqb_spec (rbuf_head t) (rbuf_tail t)) as [E|E].
  { apply (ring_empty TTY_RBUF_SIZE (rbuf t)) in E; [|done..]. congruence. }
  destruct (ring_pop TTY_RBUF_SIZE _ _ _ Hring E) as [H1 H2]. rewrite Hr in H2. injection H2 as <- H2.
  eexists. split; [reflexivity|]. split; [by split|]. unfold abs. cbn [c_line]. f_equal. by symmetry.
Qed.

(** Reading a complete line. *)
Lemma read_loop_line l : forall fuel yield n size t d rest, tty_ok t ->
  c_ready (abs t) = l ++ 10 :: rest -> Forall (fun c => 0 <= c < 256 /\ c <> 10) l ->
  (length l < fuel)%nat -> n + Z.of_nat (length l) < size ->
  exists t', read_loop fuel yield n size t d = Some (l ++ [10], (t', d)) /\ tty_ok t' /\
    abs t' = mk_cooked (c_line (abs t)) rest.
Proof.
  induction l as [|c l IH]; intros [|fuel] yield n size t d rest Hok Hr Hl Hf Hs; cbn [length app] in *; try lia;
    cbn [read_loop]; (destruct (Z.ltb_spec n size); [|lia]);
    (destruct (rbuf_pop_spec t _ _ Hok Hr) as (Ha & t1 & -> & Hok1 & Habs));
    (destruct (Z.ltb_spec 0 (rbuf_avail t)); [|lia]).
  - cbn. by exists t1.
  - apply Forall_cons in Hl as [[Hc Hc10] Hl]. destruct (Z.ltb_spec c 0); [lia|].
    destruct (Z.eqb_spec c 10); [done|].
    destruct (IH fuel yield (n + 1) size t1 d rest Hok1) as (t' & -> & Hok' & Habs'); [by rewrite Habs|done|lia|lia|].
    exists t'. rewrite (u8_small c) by lia. split; [done|]. split; [done|]. by rewrite Habs', Habs.
Qed.

(** Reading a line: when a complete line is ready and the buffer can hold it,
    [tty_read] returns without waiting, with exactly that line including its
    newline, and removes exactly it from the ring. *)
Theorem tty_read_line l rest fuel yield size t d : tty_ok t ->
  c_ready (abs t) = l ++ 10 :: rest -> Forall (fun c => 0 <= c < 256 /\ c <> 10) l ->
  (length l < fuel)%nat -> Z.of_nat (length l) < size ->
  exists t', tty_read fuel yield size t d = Some (l ++ [10], (t', d)) /\ tty_ok t' /\
    abs t' = mk_cooked (c_line (abs t)) rest.
Proof.
  intros Hok Hr Hl Hf Hs. unfold tty_read. destruct (Z.eqb_spec size 0); [lia|]. by apply read_loop_line.
Qed.
End proofs.

(** ** Witnesses *)

#[local] Instance null_bus : Bus unit := {| bus_in _ _ d := (0, d); bus_out _ _ _ d := d |}.
Definition type_keys (l : list Z) (k : kb_st) : kb_st := fold_left buf_push l k.
Definition demo_tty : tty_st :=
  mk_tty (replicate 256 0) 0 (replicate 1024 0) 1023 1023 (type_keys [108; 115; 120; 8; 10; 112] (mk_kb (replicate 256 0) 0 0))
    (mk_vga (replicate 2000 blank) 0 24).
Lemma demo_tty_ok : tty_ok demo_tty.
Proof.
  split; try (vm_compute; intuition discriminate).
  - split; vm_compute; intuition discriminate.
  - split; vm_compute; intuition discriminate.
  - vm_compute. repeat (apply Forall_cons; split; [split; [intros E; discriminate E|reflexivity]|]). by apply Forall_nil.
  - split; vm_compute; intuition discriminate.
Qed.

(** "lsx", backspace, newline, "p". *)
Lemma tty_poll_cooks_witness :
  exists t' d', tty_poll demo_tty tt = Some (t', d') /\ tty_ok t' /\ kb_queue (kb t') = [] /\
    abs t' = mk_cooked [112] [108; 115; 10].
Proof.
  destruct (tty_poll_cooks demo_tty tt demo_tty_ok) as (t' & d' & E & Hok & Hq & Habs).
  exists t', d'. split; [exact E|]. split; [exact Hok|]. split; [exact Hq|].
  etransitivity; [exact Habs|]. vm_compute. reflexivity.
Defined.

Definition demo_ready : tty_st :=
  mk_tty (replicate 256 0) 0 ([108; 115; 10; 112] ++ replicate 1020 0) 0 4 (mk_kb (replicate 256 0) 0 0)
    (mk_vga (replicate 2000 blank) 0 24).
Lemma demo_ready_ok : tty_ok demo_ready.
Proof.
  split; try (vm_compute; intuition discriminate).
  - split; vm_compute; intuition discriminate.
  - split; vm_compute; intuition discriminate.
  - vm_compute. by apply Forall_nil.
  - split; vm_compute; intuition discriminate.
Qed.
Lemma tty_read_line_witness :
  exists t', tty_read 10 (fun td => td) 80 demo_ready tt = Some ([108; 115] ++ [10], (t', tt)) /\ tty_ok t' /\
    abs t' = mk_cooked (c_line (abs demo_ready)) [112].
Proof.
  apply (tty_read_line [108; 115] [112] 10 (fun td => td) 80 demo_ready tt demo_ready_ok).
  - vm_compute. reflexivity.
  - repeat (apply Forall_cons; split; [lia|]). by apply Forall_nil.
  - cbn. lia.
  - cbn. lia.
Defined.
End Tty.
