(* ===== verification/Pci.v ===== *)
(** * PCI bus enumeration: src/pci/pci.c

    Configuration space is reached through the address and data ports; the
    device table is the list of the functions found, in probing order.  The
    proofs about enumeration assume of the hardware what the PCI specification
    says of configuration mechanism #1 ([PciSpace]): a read of the data port
    returns the dword of configuration space selected by the last write of the
    address port, and reads change nothing. *)

From S2P Require Import Prelude Mem Io.

Definition PCI_CONFIG_ADDRESS : Z := 0xCF8.
Definition PCI_CONFIG_DATA : Z := 0xCFC.
Definition PCI_ADDR_ENABLE : Z := 1 <<b 31.
Definition PCI_ADDR (bus slot func off : Z) : Z :=
  PCI_ADDR_ENABLE |b (bus <<b 16) |b (slot <<b 11) |b (func <<b 8) |b (off &b 0xFC).
Definition PCI_OFF_VENDOR : Z := 0x00.
Definition PCI_OFF_DEVICE : Z := 0x02.
Definition PCI_OFF_PROG_IF : Z := 0x09.
Definition PCI_OFF_SUBCLASS : Z := 0x0A.
Definition PCI_OFF_CLASS : Z := 0x0B.
Definition PCI_OFF_HEADER_TYPE : Z := 0x0E.
Definition PCI_OFF_BAR0 : Z := 0x10.
Definition PCI_OFF_INT_LINE : Z := 0x3C.
Definition PCI_HTYPE_MULTI : Z := 0x80.
Definition PCI_MAX_BUS : Z := 256.
Definition PCI_MAX_SLOT : Z := 32.
Definition PCI_MAX_FUNC : Z := 8.
Definition PCI_MAX_DEVICES : Z := 64.

(** [pci_device_t] *)
Record pci_device := mk_pci {
  p_bus : Z; p_slot : Z; p_func : Z; vendor_id : Z; device_id : Z;
  class_code : Z; subclass : Z; prog_if : Z; int_line : Z; bar : list Z
}.

Section pci.
Context {D : Type} `{!Bus D}.
Implicit Types d : D.

Definition config_read32 (bus slot func off : Z) d : Z * D :=
  inl PCI_CONFIG_DATA (outl PCI_CONFIG_ADDRESS (PCI_ADDR bus slot func off) d).

Definition config_read16 (bus slot func off : Z) d : Z * D :=
  let '(dword, d) := config_read32 bus slot func (off &b 0xFC) d in
  (u16 (dword >>b ((off &b 2) * 8)), d).

Definition config_read8 (bus slot func off : Z) d : Z * D :=
  let '(dword, d) := config_read32 bus slot func (off &b 0xFC) d in
  (u8 (dword >>b ((off &b 3) * 8)), d).

Definition pci_read32 (dev : pci_device) (off : Z) d : Z * D :=
  config_read32 (p_bus dev) (p_slot dev) (p_func dev) off d.

Definition pci_write32 (dev : pci_device) (off val : Z) d : D :=
  let d := outl PCI_CONFIG_ADDRESS (PCI_ADDR (p_bus dev) (p_slot dev) (p_func dev) off) d in
  outl PCI_CONFIG_DATA val d.

(** [for (i = 0; i < 6; i++) d->bar[i] = config_read32(...)] *)
Fixpoint read_bars (n : nat) (bus slot func i : Z) d : list Z * D :=
  match n with
  | O => ([], d)
  | S n =>
      let '(b, d) := config_read32 bus slot func (u8 (PCI_OFF_BAR0 + i * 4)) d in
      let '(l, d) := read_bars n bus slot func (i + 1) d in
      (b :: l, d)
  end.

Definition probe_function (bus slot func : Z) (devs : list pci_device) d : list pci_device * D :=
  let '(vendor, d) := config_read16 bus slot func PCI_OFF_VENDOR d in
  if vendor =? 0xFFFF then (devs, d)
  else if PCI_MAX_DEVICES <=? Z.of_nat (length devs) then (devs, d)
  else
    let '(dev_id, d) := config_read16 bus slot func PCI_OFF_DEVICE d in
    let '(cls, d) := config_read8 bus slot func PCI_OFF_CLASS d in
    let '(sub, d) := config_read8 bus slot func PCI_OFF_SUBCLASS d in
    let '(pif, d) := config_read8 bus slot func PCI_OFF_PROG_IF d in
    let '(line, d) := config_read8 bus slot func PCI_OFF_INT_LINE d in
    let '(bars, d) := read_bars 6 bus slot func 0 d in
    (devs ++ [mk_pci bus slot func vendor dev_id cls sub pif line bars], d).

(** [for (func = 1; func < PCI_MAX_FUNC; func++) probe_function(...)] *)
Fixpoint probe_functions (n : nat) (bus slot func : Z) (devs : list pci_device) d : list pci_device * D :=
  match n with
  | O => (devs, d)
  | S n =>
      let '(devs, d) := probe_function bus slot func devs d in
      probe_functions n bus slot (func + 1) devs d
  end.

Definition probe_slot (bus slot : Z) (devs : list pci_device) d : list pci_device * D :=
  let '(vendor, d) := config_read16 bus slot 0 PCI_OFF_VENDOR d in
  if vendor =? 0xFFFF then (devs, d)
  else
    let '(devs, d) := probe_function bus slot 0 devs d in
    let '(htype, d) := config_read8 bus slot 0 PCI_OFF_HEADER_TYPE d in
    if has htype PCI_HTYPE_MULTI then probe_functions 7 bus slot 1 devs d else (devs, d).

Fixpoint probe_slots (n : nat) (bus slot : Z) (devs : list pci_device) d : list pci_device * D :=
  match n with
  | O => (devs, d)
  | S n =>
      let '(devs, d) := probe_slot (u8 bus) (u8 slot) devs d in
      probe_slots n bus (slot + 1) devs d
  end.

Fixpoint probe_buses (n : nat) (bus : Z) (devs : list pci_device) d : list pci_device * D :=
  match n with
  | O => (devs, d)
  | S n =>
      let '(devs, d) := probe_slots 32 bus 0 devs d in
      probe_buses n (bus + 1) devs d
  end.

Definition pci_init d : Z * list pci_device * D :=
  let '(devs, d) := probe_buses 256 0 [] d in (0, devs, d).
End pci.

Definition pci_find_device (devs : list pci_device) (vendor device : Z) : option pci_device :=
  match first_idx (fun d => (vendor_id d =? vendor) && (device_id d =? device)) devs with
  | Some i => devs !! i
  | None => None
  end.

(** ** Enumeration of a configuration space *)

(** Configuration mechanism #1 over a configuration space [cfg]: the dword at a
    dword-aligned offset of a function. *)
Class PciSpace (D : Type) `{!Bus D} (cfg : Z -> Z -> Z -> Z -> Z) := {
  ps_dword b s f o : 0 <= cfg b s f o < 2 ^ 32;
  ps_read b s f o d : 0 <= b < 256 -> 0 <= s < 32 -> 0 <= f < 8 -> 0 <= o < 256 ->
    fst (inl PCI_CONFIG_DATA (outl PCI_CONFIG_ADDRESS (PCI_ADDR b s f o) d)) = cfg b s f (o &b 0xFC)
}.

(** The function at an address, as the table records it. *)
Definition cfg16 (cfg : Z -> Z -> Z -> Z -> Z) (b s f o : Z) : Z := u16 (cfg b s f (o &b 0xFC) >>b ((o &b 2) * 8)).
Definition cfg8 (cfg : Z -> Z -> Z -> Z -> Z) (b s f o : Z) : Z := u8 (cfg b s f (o &b 0xFC) >>b ((o &b 3) * 8)).
Definition cfg_device (cfg : Z -> Z -> Z -> Z -> Z) (b s f : Z) : pci_device :=
  mk_pci b s f (cfg16 cfg b s f 0x00) (cfg16 cfg b s f 0x02) (cfg8 cfg b s f 0x0B) (cfg8 cfg b s f 0x0A)
    (cfg8 cfg b s f 0x09) (cfg8 cfg b s f 0x3C)
    [cfg b s f 0x10; cfg b s f 0x14; cfg b s f 0x18; cfg b s f 0x1C; cfg b s f 0x20; cfg b s f 0x24].

(** The functions present in a slot, in probing order. *)
Definition cfg_present (cfg : Z -> Z -> Z -> Z -> Z) (b s f : Z) : bool := negb (cfg16 cfg b s f 0x00 =? 0xFFFF).
Definition slot_funcs (cfg : Z -> Z -> Z -> Z -> Z) (b s : Z) : list Z :=
  if cfg_present cfg b s 0 then
    0 :: (if has (cfg8 cfg b s 0 0x0E) 0x80 then List.filter (cfg_present cfg b s) [1; 2; 3; 4; 5; 6; 7] else [])
  else [].
Definition cfg_slot (cfg : Z -> Z -> Z -> Z -> Z) (b s : Z) : list pci_device :=
  map (cfg_device cfg b s) (slot_funcs cfg b s).
Definition cfg_bus (cfg : Z -> Z -> Z -> Z -> Z) (b : Z) : list pci_device :=
  flat_map (fun s => cfg_slot cfg b (Z.of_nat s)) (seq 0 32).
Definition cfg_all (cfg : Z -> Z -> Z -> Z -> Z) : list pci_device :=
  flat_map (fun b => cfg_bus cfg (Z.of_nat b)) (seq 0 256).

Section enumeration.
Context {D : Type} `{!Bus D} (cfg : Z -> Z -> Z -> Z -> Z) `{!PciSpace D cfg}.
Implicit Types d : D.

Lemma config_read32_spec b s f o d : 0 <= b < 256 -> 0 <= s < 32 -> 0 <= f < 8 -> 0 <= o < 256 ->
  fst (config_read32 b s f o d) = cfg b s f (o &b 0xFC).
Proof. intros. by apply ps_read. Qed.

Lemma config_read16_spec b s f o d : 0 <= b < 256 -> 0 <= s < 32 -> 0 <= f < 8 -> 0 <= o < 256 ->
  fst (config_read16 b s f o d) = cfg16 cfg b s f o.
Proof.
  intros Hb Hs Hf Ho. unfold config_read16, cfg16.
  assert (0 <= o &b 0xFC < 256) as Ho' by (apply (land_bound 8); lia).
  pose proof (config_read32_spec b s f (o &b 0xFC) d Hb Hs Hf Ho') as H.
  destruct (config_read32 _ _ _ _ _) as [v d']. simpl in *. rewrite H, <- Z.land_assoc. done.
Qed.

Lemma config_read8_spec b s f o d : 0 <= b < 256 -> 0 <= s < 32 -> 0 <= f < 8 -> 0 <= o < 256 ->
  fst (config_read8 b s f o d) = cfg8 cfg b s f o.
Proof.
  intros Hb Hs Hf Ho. unfold config_read8, cfg8.
  assert (0 <= o &b 0xFC < 256) as Ho' by (apply (land_bound 8); lia).
  pose proof (config_read32_spec b s f (o &b 0xFC) d Hb Hs Hf Ho') as H.
  destruct (config_read32 _ _ _ _ _) as [v d']. simpl in *. rewrite H, <- Z.land_assoc. done.
Qed.

(** Step over one configuration read in the goal, keeping its value. *)
Ltac cfg_step :=
  match goal with
  | |- context [config_read16 ?b ?s ?f ?o ?d] =>
      pose proof (config_read16_spec b s f o d ltac:(lia) ltac:(lia) ltac:(lia) ltac:(first [done|lia])) as Hrd;
      destruct (config_read16 b s f o d) as [? ?]; cbn [fst] in Hrd; subst
  | |- context [config_read8 ?b ?s ?f ?o ?d] =>
      pose proof (config_read8_spec b s f o d ltac:(lia) ltac:(lia) ltac:(lia) ltac:(first [done|lia])) as Hrd;
      destruct (config_read8 b s f o d) as [? ?]; cbn [fst] in Hrd; subst
  | |- context [config_read32 ?b ?s ?f ?o ?d] =>
      pose proof (config_read32_spec b s f o d ltac:(lia) ltac:(lia) ltac:(lia) ltac:(first [done|lia])) as Hrd;
      destruct (config_read32 b s f o d) as [? ?]; cbn [fst] in Hrd; subst
  end.

Lemma probe_function_spec b s f devs d : 0 <= b < 256 -> 0 <= s < 32 -> 0 <= f < 8 ->
  fst (probe_function b s f devs d) =
    if cfg_present cfg b s f && (Z.of_nat (length devs) <? PCI_MAX_DEVICES)
    then devs ++ [cfg_device cfg b s f] else devs.
Proof.
  intros Hb Hs Hf. unfold probe_function, cfg_present.
  change PCI_OFF_VENDOR with 0x00. cfg_step.
  destruct (cfg16 cfg b s f 0 =? 0xFFFF); [done|]. cbn [negb andb].
  rewrite Z.ltb_antisym. destruct (PCI_MAX_DEVICES <=? Z.of_nat (length devs)); [done|]. cbn [negb].
  change PCI_OFF_DEVICE with 0x02. change PCI_OFF_CLASS with 0x0B. change PCI_OFF_SUBCLASS with 0x0A.
  change PCI_OFF_PROG_IF with 0x09. change PCI_OFF_INT_LINE with 0x3C.
  do 5 cfg_step. cbn [read_bars]. unfold PCI_OFF_BAR0.
  do 6 cfg_step. done.
Qed.

(** Appending to the table up to its capacity. *)
Definition pci_add (devs l : list pci_device) : list pci_device := take 64 (devs ++ l).

Lemma pci_add_app devs a b : pci_add (pci_add devs a) b = pci_add devs (a ++ b).
Proof.
  unfold pci_add. rewrite app_assoc. generalize (devs ++ a). intros l.
  rewrite !take_app. rewrite take_take, Nat.min_id, length_take.
  f_equal. destruct (Nat.le_gt_cases (length l) 64).
  - f_equal. lia.
  - replace (64 - length l)%nat with O by lia. replace (64 - 64 `min` length l)%nat with O by lia. done.
Qed.
Lemma pci_add_nil devs : (length devs <= 64)%nat -> pci_add devs [] = devs.
Proof. intros H. unfold pci_add. rewrite app_nil_r. by apply take_ge. Qed.
Lemma pci_add_length devs l : (length (pci_add devs l) <= 64)%nat.
Proof. unfold pci_add. rewrite length_take. lia. Qed.

Lemma probe_function_add b s f devs d : 0 <= b < 256 -> 0 <= s < 32 -> 0 <= f < 8 -> (length devs <= 64)%nat ->
  fst (probe_function b s f devs d) = pci_add devs (if cfg_present cfg b s f then [cfg_device cfg b s f] else []).
Proof.
  intros Hb Hs Hf Hl. rewrite probe_function_spec by done. destruct (cfg_present cfg b s f); cbn [andb].
  2:{ by rewrite pci_add_nil. }
  unfold pci_add. rewrite take_app. change PCI_MAX_DEVICES with 64.
  destruct (Z.ltb_spec (Z.of_nat (length devs)) 64) as [H|H].
  - rewrite take_ge by lia. f_equal. rewrite take_ge; [done|simpl; lia].
  - replace (64 - length devs)%nat with O by lia. rewrite take_ge by lia. by rewrite app_nil_r.
Qed.

Lemma probe_functions_add n b s f devs d : 0 <= b < 256 -> 0 <= s < 32 -> 0 <= f -> f + Z.of_nat n <= 8 ->
  (length devs <= 64)%nat ->
  fst (probe_functions n b s f devs d) =
    pci_add devs (map (cfg_device cfg b s) (List.filter (cfg_present cfg b s) (map (fun k => f + Z.of_nat k) (seq 0 n)))).
Proof.
  intros Hb Hs. revert f devs d. induction n as [|n IH]; intros f devs d Hf Hn Hl.
  { symmetry. by apply pci_add_nil. }
  cbn [probe_functions].
  pose proof (probe_function_add b s f devs d Hb Hs ltac:(lia) Hl) as Hp.
  destruct (probe_function b s f devs d) as [devs' d']. cbn [fst] in Hp. subst devs'.
  rewrite IH by (try apply pci_add_length; lia). rewrite pci_add_app. f_equal.
  cbn [seq map List.filter]. rewrite Z.add_0_r.
  replace (map (fun k => f + Z.of_nat k) (seq 1 n)) with (map (fun k => f + 1 + Z.of_nat k) (seq 0 n)).
  2:{ rewrite <- seq_shift, map_map. apply map_ext. intros k. lia. }
  by destruct (cfg_present cfg b s f).
Qed.

Lemma probe_slot_add b s devs d : 0 <= b < 256 -> 0 <= s < 32 -> (length devs <= 64)%nat ->
  fst (probe_slot b s devs d) = pci_add devs (cfg_slot cfg b s).
Proof.
  intros Hb Hs Hl. unfold probe_slot, cfg_slot, slot_funcs, cfg_present at 1.
  change PCI_OFF_VENDOR with 0x00. cfg_step.
  destruct (cfg16 cfg b s 0 0 =? 0xFFFF) eqn:E; cbn [negb].
  { symmetry. by apply pci_add_nil. }
  pose proof (probe_function_add b s 0 devs d0 Hb Hs ltac:(lia) Hl) as Hp.
  destruct (probe_function b s 0 devs d0) as [devs' d']. cbn [fst] in Hp. subst devs'.
  assert (cfg_present cfg b s 0 = true) as -> by (unfold cfg_present; by rewrite E).
  change PCI_OFF_HEADER_TYPE with 0x0E. cfg_step.
  change PCI_HTYPE_MULTI with 0x80. destruct (has (cfg8 cfg b s 0 14) 128); [|done].
  rewrite probe_functions_add by (try apply pci_add_length; lia). by rewrite pci_add_app.
Qed.

Lemma probe_slots_add n b s devs d : 0 <= b < 256 -> 0 <= s -> s + Z.of_nat n <= 32 -> (length devs <= 64)%nat ->
  fst (probe_slots n b s devs d) = pci_add devs (flat_map (fun k => cfg_slot cfg b (s + Z.of_nat k)) (seq 0 n)).
Proof.
  intros Hb. revert s devs d. induction n as [|n IH]; intros s devs d Hs Hn Hl.
  { symmetry. by apply pci_add_nil. }
  cbn [probe_slots]. rewrite !u8_small by lia.
  pose proof (probe_slot_add b s devs d Hb ltac:(lia) Hl) as Hp.
  destruct (probe_slot b s devs d) as [devs' d']. cbn [fst] in Hp. subst devs'.
  rewrite IH by (try apply pci_add_length; lia). rewrite pci_add_app. f_equal.
  cbn [seq flat_map]. rewrite Z.add_0_r. f_equal. rewrite <- seq_shift, flat_map_concat_map, flat_map_concat_map, map_map.
  f_equal. apply map_ext. intros k. f_equal. lia.
Qed.

Lemma probe_buses_add n b devs d : 0 <= b -> b + Z.of_nat n <= 256 -> (length devs <= 64)%nat ->
  fst (probe_buses n b devs d) = pci_add devs (flat_map (fun k => cfg_bus cfg (b + Z.of_nat k)) (seq 0 n)).
Proof.
  revert b devs d. induction n as [|n IH]; intros b devs d Hb Hn Hl.
  { symmetry. by apply pci_add_nil. }
  cbn [probe_buses]. pose proof (probe_slots_add 32 b 0 devs d ltac:(lia) ltac:(lia) ltac:(lia) Hl) as Hp.
  destruct (probe_slots 32 b 0 devs d) as [devs' d']. cbn [fst] in Hp. subst devs'.
  rewrite IH by (try apply pci_add_length; lia). rewrite pci_add_app. f_equal.
  change (seq 0 (S n)) with (0%nat :: seq 1 n). cbn [flat_map]. rewrite Z.add_0_r. f_equal.
  rewrite <- seq_shift, flat_map_concat_map, flat_map_concat_map, map_map.
  f_equal. apply map_ext. intros k. f_equal. lia.
Qed.

(** Enumeration is complete up to the table's capacity: over any
    configuration space, [pci_init] records exactly the functions that are
    present (function 0 of every slot, the others of a slot whose header says it
    is multi-function), with their identification and BARs as configuration
    space holds them, in bus/slot/function order, the first 64 of them. *)
Theorem pci_init_complete d : snd (fst (pci_init d)) = take 64 (cfg_all cfg).
Proof.
  unfold pci_init. pose proof (probe_buses_add 256 0 [] d ltac:(lia) ltac:(lia) ltac:(simpl; lia)) as H.
  destruct (probe_buses 256 0 [] d) as [devs d']. exact H.
Qed.
End enumeration.

(** ** A machine with two devices *)

(** A register file for the address port over a fixed space. *)
Definition demo_cfg (b s f o : Z) : Z :=
  if (b =? 0) && (s =? 3) && (f =? 0) then
    if o =? 0 then 0x100E8086 else if o =? 0x10 then 0xFEB80000 else 0
  else if (b =? 0) && (s =? 0) && (f =? 0) then
    if o =? 0 then 0x12378086 else 0
  else 0xFFFFFFFF.

#[export] Instance demo_pci_bus : Bus Z := {|
  bus_in w port d :=
    if port =? PCI_CONFIG_DATA
    then (demo_cfg ((d >>b 16) &b 0xFF) ((d >>b 11) &b 0x1F) ((d >>b 8) &b 7) ((d mod 256) &b 0xFC), d) else (0, d);
  bus_out w port v d := if port =? PCI_CONFIG_ADDRESS then v else d
|}.

(** The address register decodes to what [PCI_ADDR] encodes. *)
Lemma pci_addr_bits b s f o : 0 <= b < 256 -> 0 <= s < 32 -> 0 <= f < 8 -> 0 <= o < 256 ->
  PCI_ADDR b s f o = 2 ^ 31 + b * 2 ^ 16 + s * 2 ^ 11 + f * 2 ^ 8 + (o &b 0xFC).
Proof.
  intros Hb Hs Hf Ho. assert (0 <= o &b 0xFC < 2 ^ 8) as Ho' by (apply (land_bound 8); lia).
  unfold PCI_ADDR, PCI_ADDR_ENABLE. rewrite Z.shiftl_1_l, !Z.shiftl_mul_pow2 by lia.
  revert Ho'. generalize (o &b 0xFC). intros k Hk.
  rewrite (lor_add 8 f k) by lia. rewrite (lor_add 11 s (f * 2 ^ 8 + k)) by lia.
  rewrite (lor_add 16 b (s * 2 ^ 11 + (f * 2 ^ 8 + k))) by lia.
  change (2 ^ 31) with (1 * 2 ^ 31). rewrite (lor_add 31 1) by lia. lia.
Qed.

#[export] Instance demo_pci_space : PciSpace Z demo_cfg.
Proof.
  split.
  - intros b s f o. unfold demo_cfg. repeat case_match; lia.
  - intros b s f o d Hb Hs Hf Ho. assert (0 <= o &b 0xFC < 2 ^ 8) as Ho' by (apply (land_bound 8); lia).
    unfold inl, outl. cbn [bus_in bus_out demo_pci_bus].
    change (PCI_CONFIG_ADDRESS =? PCI_CONFIG_ADDRESS) with true.
    change (PCI_CONFIG_DATA =? PCI_CONFIG_DATA) with true. cbn [fst].
    assert (forall b s f o, 0 <= demo_cfg b s f o < 2 ^ 32) as Hr.
    { intros b' s' f' o'. unfold demo_cfg. repeat case_match; lia. }
    rewrite (u32_small (demo_cfg _ _ _ _)) by apply Hr.
    rewrite pci_addr_bits by done. rewrite u32_small by lia.
    rewrite !Z.shiftr_div_pow2 by lia. change 0xFF with (Z.ones 8). change 0x1F with (Z.ones 5).
    change 7 with (Z.ones 3). rewrite !Z.land_ones by lia. change (Z.ones 5) with 31.
    revert Ho'. assert ((o &b 0xFC) &b 0xFC = o &b 0xFC) as Hi by (by rewrite <- Z.land_assoc).
    revert Hi. generalize (o &b 0xFC). intros k Hi Ho'. f_equal; [zlia..|].
    rewrite <- Hi at 2. f_equal. zlia.
Qed.

Lemma pci_init_complete_witness :
  pci_find_device (snd (fst (pci_init 0))) 0x8086 0x100E =
    Some (mk_pci 0 3 0 0x8086 0x100E 0 0 0 0 [0xFEB80000; 0; 0; 0; 0; 0]).
Proof.
  assert (pci_find_device (take 64 (cfg_all demo_cfg)) 0x8086 0x100E =
    Some (mk_pci 0 3 0 0x8086 0x100E 0 0 0 0 [0xFEB80000; 0; 0; 0; 0; 0])) as E by (vm_compute; reflexivity).
  pose proof (pci_init_complete demo_cfg 0) as H. revert H. generalize (snd (fst (pci_init 0))).
  intros l ->. exact E.
Defined.
