(* ===== verification/Ata.v ===== *)
(** * ATA PIO driver: src/ata/ata.c

    The drive is behind the [Bus] interface.  The buffer of a transfer is the
    list of 16-bit words read or written through the data register; polling
    loops have the bound of the source (0x100000 reads of the status register),
    so every operation terminates whatever the drive does. *)

From S2P Require Import Prelude Mem Io.

Definition ATA_PRIMARY_BASE : Z := 0x1F0.
Definition ATA_PRIMARY_CTRL : Z := 0x3F6.
Definition ATA_SECONDARY_BASE : Z := 0x170.
Definition ATA_SECONDARY_CTRL : Z := 0x376.
Definition ATA_REG_DATA : Z := 0x00.
Definition ATA_REG_SECCOUNT : Z := 0x02.
Definition ATA_REG_LBA_LO : Z := 0x03.
Definition ATA_REG_LBA_MID : Z := 0x04.
Definition ATA_REG_LBA_HI : Z := 0x05.
Definition ATA_REG_DRIVE : Z := 0x06.
Definition ATA_REG_STATUS : Z := 0x07.
Definition ATA_REG_CMD : Z := 0x07.
Definition ATA_SR_ERR : Z := 1 <<b 0.
Definition ATA_SR_DRQ : Z := 1 <<b 3.
Definition ATA_SR_BSY : Z := 1 <<b 7.
Definition ATA_CMD_READ : Z := 0x20.
Definition ATA_CMD_WRITE : Z := 0x30.
Definition ATA_CMD_FLUSH : Z := 0xE7.
Definition ATA_CMD_IDENTIFY : Z := 0xEC.
Definition ATA_DRIVE_MASTER : Z := 0xE0.
Definition ATA_IDENT_SECTORS28 : Z := 60.
Definition ATA_SECTOR_SIZE : Z := 512.
Definition ATA_SECTOR_WORDS : Z := ATA_SECTOR_SIZE / 2.
Definition ATA_POLLS : Z := 0x100000.

(** [ata_total_sectors] and [ata_base]. *)
Record ata_st := mk_ata { ata_total_sectors : Z; ata_base : Z }.

Section ata.
Context {D : Type} `{!Bus D}.
Implicit Types d : D.

(** The polling loops: [n] status reads left. *)
Fixpoint poll_bsy_loop (n : nat) (base : Z) d : Z * D :=
  match n with
  | O => (0xFF, d)
  | S n =>
      let '(s, d) := inb (u16 (base + ATA_REG_STATUS)) d in
      if negb (has s ATA_SR_BSY) then (s, d) else poll_bsy_loop n base d
  end.
Definition poll_bsy (base : Z) d : Z * D := poll_bsy_loop (Z.to_nat ATA_POLLS) base d.

Fixpoint poll_drq_loop (n : nat) (base : Z) d : Z * D :=
  match n with
  | O => (0xFF, d)
  | S n =>
      let '(s, d) := inb (u16 (base + ATA_REG_STATUS)) d in
      if has s ATA_SR_ERR then (s, d)
      else if has s ATA_SR_BSY then poll_drq_loop n base d
      else if has s ATA_SR_DRQ then (s, d) else poll_drq_loop n base d
  end.
Definition poll_drq (base : Z) d : Z * D := poll_drq_loop (Z.to_nat ATA_POLLS) base d.

(** [for (i = 0; i < 4; i++) inb(ctrl);] *)
Definition settle (ctrl : Z) d : D :=
  let d := snd (inb ctrl d) in let d := snd (inb ctrl d) in
  let d := snd (inb ctrl d) in snd (inb ctrl d).

Fixpoint read_words (n : nat) (base : Z) d : list Z * D :=
  match n with
  | O => ([], d)
  | S n =>
      let '(w, d) := inw (u16 (base + ATA_REG_DATA)) d in
      let '(l, d) := read_words n base d in (w :: l, d)
  end.

Fixpoint write_words (base : Z) (l : list Z) d : D :=
  match l with
  | [] => d
  | w :: l => write_words base l (outw (u16 (base + ATA_REG_DATA)) w d)
  end.

Definition try_identify (base ctrl : Z) d : Z * D :=
  let d := outb ctrl 0x04 d in
  let d := settle ctrl d in
  let d := outb ctrl 0x00 d in
  let d := settle ctrl d in
  let d := outb (u16 (base + ATA_REG_DRIVE)) 0xA0 d in
  let d := settle ctrl d in
  let '(st, d) := poll_bsy base d in
  if st =? 0xFF then (0, d)
  else
    let d := outb (u16 (base + ATA_REG_CMD)) ATA_CMD_IDENTIFY d in
    let d := settle ctrl d in
    let '(st, d) := inb (u16 (base + ATA_REG_STATUS)) d in
    if st =? 0x00 then (0, d)
    else
      let '(mid, d) := inb (u16 (base + ATA_REG_LBA_MID)) d in
      let '(hi, d) := inb (u16 (base + ATA_REG_LBA_HI)) d in
      if ((mid =? 0x14) && (hi =? 0xEB)) || ((mid =? 0x69) && (hi =? 0x96)) then (0, d)
      else
        let '(st, d) := poll_drq base d in
        if has st ATA_SR_ERR then (0, d)
        else if st =? 0xFF then (0, d)
        else
          let '(ident, d) := read_words 256 base d in
          let w i := nth (Z.to_nat i) ident 0 in
          (u32 (w (ATA_IDENT_SECTORS28 + 1) <<b 16) |b w ATA_IDENT_SECTORS28, d).

Definition lba_setup (a : ata_st) (lba count : Z) d : D :=
  let d := outb (u16 (ata_base a + ATA_REG_DRIVE)) (u8 (ATA_DRIVE_MASTER |b ((lba >>b 24) &b 0x0F))) d in
  let d := outb (u16 (ata_base a + ATA_REG_SECCOUNT)) count d in
  let d := outb (u16 (ata_base a + ATA_REG_LBA_LO)) (u8 lba) d in
  let d := outb (u16 (ata_base a + ATA_REG_LBA_MID)) (u8 (lba >>b 8)) d in
  outb (u16 (ata_base a + ATA_REG_LBA_HI)) (u8 (lba >>b 16)) d.

(** The sector loop of [ata_read]: the result code and the words stored. *)
Fixpoint read_sectors (n : nat) (a : ata_st) d : Z * list Z * D :=
  match n with
  | O => (0, [], d)
  | S n =>
      let '(st, d) := poll_drq (ata_base a) d in
      if has st ATA_SR_ERR then (-1, [], d)
      else
        let '(l, d) := read_words (Z.to_nat ATA_SECTOR_WORDS) (ata_base a) d in
        let '(r, l', d) := read_sectors n a d in (r, l ++ l', d)
  end.

Definition ata_read (a : ata_st) (lba count : Z) d : Z * list Z * D :=
  if ata_total_sectors a =? 0 then (-1, [], d)
  else
    let '(st, d) := poll_bsy (ata_base a) d in
    if st =? 0xFF then (-1, [], d)
    else
      let d := lba_setup a lba count d in
      let d := outb (u16 (ata_base a + ATA_REG_CMD)) ATA_CMD_READ d in
      read_sectors (Z.to_nat count) a d.

(** The sector loop of [ata_write] over the words still to be written. *)
Fixpoint write_sectors (n : nat) (a : ata_st) (buf : list Z) d : Z * D :=
  match n with
  | O => (0, d)
  | S n =>
      let '(st, d) := poll_drq (ata_base a) d in
      if has st ATA_SR_ERR then (-1, d)
      else
        let d := write_words (ata_base a) (take (Z.to_nat ATA_SECTOR_WORDS) buf) d in
        write_sectors n a (drop (Z.to_nat ATA_SECTOR_WORDS) buf) d
  end.

Definition ata_write (a : ata_st) (lba count : Z) (buf : list Z) d : Z * D :=
  if ata_total_sectors a =? 0 then (-1, d)
  else
    let '(st, d) := poll_bsy (ata_base a) d in
    if st =? 0xFF then (-1, d)
    else
      let d := lba_setup a lba count d in
      let d := outb (u16 (ata_base a + ATA_REG_CMD)) ATA_CMD_WRITE d in
      let '(r, d) := write_sectors (Z.to_nat count) a buf d in
      if r =? -1 then (-1, d)
      else
        let '(_, d) := poll_bsy (ata_base a) d in
        let d := outb (u16 (ata_base a + ATA_REG_CMD)) ATA_CMD_FLUSH d in
        let '(_, d) := poll_bsy (ata_base a) d in
        (0, d).

Definition ata_init (a : ata_st) d : Z * ata_st * D :=
  let '(sectors, d) := try_identify ATA_PRIMARY_BASE ATA_PRIMARY_CTRL d in
  if negb (sectors =? 0) then (0, mk_ata sectors ATA_PRIMARY_BASE, d)
  else
    let '(sectors, d) := try_identify ATA_SECONDARY_BASE ATA_SECONDARY_CTRL d in
    if negb (sectors =? 0) then (0, mk_ata sectors ATA_SECONDARY_BASE, d) else (0, a, d).
End ata.
