(* ===== verification/Pmm.v ===== *)
(** * Physical memory manager ([src/pmm/pmm.c], [src/pmm/pmm_internal.h])

    The bitmap allocator over 4 KB frames: bit = 1 means the frame is used.
    [pmm_state] is [pmm_state_t]; the operations are those of [pmm.c], with the
    multiboot2 structures read from memory at their packed offsets.  The linker
    symbol [__kernel_end] and the address of the bitmap are arguments of
    [pmm_init].

    Shown here: the allocator hands out the lowest free frame and marks exactly
    that frame; freeing clears exactly one bit and guards double frees;
    allocation and freeing invert each other; [free_frames] equals the number of
    clear bits and is preserved by every operation, except that [pmm_init]
    leaves it one short; the range operations mark exactly the frames they
    cover; the multiboot walk terminates when no tag is empty and leaves free exactly the
    frames that end in an available region and are not reserved.  The file ends
    with the interface [FrameAlloc], what the other components rely on. *)

From S2P Require Import Prelude Mem.

(** ** Constants and state *)

Definition FRAME_SIZE : Z := 4096.
Definition BITMAP_WORD_BITS : Z := 64.
Definition PMM_MAX_FRAMES : Z := 4 * 1024 * 1024 * 1024 / FRAME_SIZE.
Definition PMM_BITMAP_WORDS : Z := PMM_MAX_FRAMES / BITMAP_WORD_BITS.
Definition KERNEL_VMA : Z := 0xFFFFFFFF80000000.

Definition MB2_TAG_END : Z := 0.
Definition MB2_TAG_MMAP : Z := 6.
Definition MB2_MMAP_AVAILABLE : Z := 1.

Record pmm_state := mk_pmm {
  bitmap : list Z;
  total_frames : Z;
  free_frames : Z;
  mb2_info_phys : Z
}.

Definition BITMAP_IDX (frame : Z) : Z := frame / BITMAP_WORD_BITS.
Definition BITMAP_BIT (frame : Z) : Z := frame mod BITMAP_WORD_BITS.

(** [bm\[i\]]; the code never leaves the array. *)
Definition bm_word (bm : list Z) (i : Z) : Z := default 0 (bm !! Z.to_nat i).

Definition bitmap_set (bm : list Z) (frame : Z) : list Z :=
  alter (fun w => w |b (1 <<b BITMAP_BIT frame)) (Z.to_nat (BITMAP_IDX frame)) bm.
Definition bitmap_clear (bm : list Z) (frame : Z) : list Z :=
  alter (fun w => w &b not64 (1 <<b BITMAP_BIT frame)) (Z.to_nat (BITMAP_IDX frame)) bm.
Definition bitmap_test (bm : list Z) (frame : Z) : bool :=
  has (bm_word bm (BITMAP_IDX frame) >>b BITMAP_BIT frame) 1.

Definition pmm_set_mb2 (st : pmm_state) (mb2 : Z) : pmm_state :=
  mk_pmm (bitmap st) (total_frames st) (free_frames st) mb2.

(** ** Marking ranges *)

(** One iteration of the loop of [mark_range_used]. *)
Definition mark_used (st : pmm_state) (f : Z) : pmm_state :=
  if bitmap_test (bitmap st) f then st
  else mk_pmm (bitmap_set (bitmap st) f) (total_frames st)
         (if free_frames st >? 0 then free_frames st - 1 else free_frames st)
         (mb2_info_phys st).

Definition mark_free (st : pmm_state) (f : Z) : pmm_state :=
  if bitmap_test (bitmap st) f
  then mk_pmm (bitmap_clear (bitmap st) f) (total_frames st)
         (u64 (free_frames st + 1)) (mb2_info_phys st)
  else st.

(** [for (f = a; f < a + n; f++) st = step(st, f)] *)
Fixpoint for_frames (step : pmm_state -> Z -> pmm_state) (n : nat) (f : Z) (st : pmm_state) :=
  match n with
  | O => st
  | S n => for_frames step n (f + 1) (step st f)
  end.

Definition mark_range_used (st : pmm_state) (base length : Z) : pmm_state :=
  let frame_start := base / FRAME_SIZE in
  let frame_end := u64 (base + length + FRAME_SIZE - 1) / FRAME_SIZE in
  let frame_end := if frame_end >? PMM_MAX_FRAMES then PMM_MAX_FRAMES else frame_end in
  for_frames mark_used (Z.to_nat (frame_end - frame_start)) frame_start st.

Definition mark_range_free (st : pmm_state) (base length : Z) : pmm_state :=
  let frame_start := base / FRAME_SIZE in
  let frame_end := u64 (base + length) / FRAME_SIZE in
  let frame_end := if frame_end >? PMM_MAX_FRAMES then PMM_MAX_FRAMES else frame_end in
  for_frames mark_free (Z.to_nat (frame_end - frame_start)) frame_start st.

(** ** Initialisation from the multiboot2 memory map *)

(** The inner loop over the entries of a memory-map tag.  The accumulator also
    carries [usable_bytes] and [region_count]. *)
Fixpoint mmap_loop (fuel : nat) (m : mem) (entry_size mmap_end entry_addr : Z)
    (acc : pmm_state * Z * Z) : option (pmm_state * Z * Z) :=
  if entry_addr <? mmap_end then
    match fuel with
    | O => None
    | S fuel =>
        let base_addr := load64 m entry_addr in
        let len := load64 m (entry_addr + 8) in
        let mem_type := load32 m (entry_addr + 16) in
        let acc :=
          if (mem_type =? MB2_MMAP_AVAILABLE) && (base_addr >? 0) then
            let '(st, usable, count) := acc in
            (mark_range_free st base_addr len, u64 (usable + len), count + 1)
          else acc in
        mmap_loop fuel m entry_size mmap_end (u64 (entry_addr + entry_size)) acc
    end
  else Some acc.

Fixpoint tag_loop (fuel : nat) (m : mem) (end_addr tag_addr : Z)
    (acc : pmm_state * Z * Z) : option (pmm_state * Z * Z) :=
  if tag_addr <? end_addr then
    match fuel with
    | O => None
    | S fuel' =>
        let type := load32 m tag_addr in
        let size := load32 m (tag_addr + 4) in
        if type =? MB2_TAG_END then Some acc
        else
          let next := u64 (tag_addr + (u32 (size + 7) &b not64 7)) in
          if type =? MB2_TAG_MMAP then
            let entry_size := load32 m (tag_addr + 8) in
            match mmap_loop fuel' m entry_size (u64 (tag_addr + size)) (u64 (tag_addr + 16)) acc with
            | None => None
            | Some acc => tag_loop fuel' m end_addr next acc
            end
          else tag_loop fuel' m end_addr next acc
    end
  else Some acc.

(** [memset(pmm.bitmap, 0xFF, sizeof(pmm.bitmap))]: every frame used. *)
Definition all_used : list Z := replicate (Z.to_nat PMM_BITMAP_WORDS) (2 ^ 64 - 1).

(** [pmm_init]: [None] when the fuel runs out, otherwise the return value and
    the state. *)
Definition pmm_init (fuel : nat) (m : mem) (kernel_end bm_addr : Z) (st : pmm_state)
    : option (Z * pmm_state) :=
  let st := mk_pmm all_used PMM_MAX_FRAMES 0 (mb2_info_phys st) in
  let mb2_phys := mb2_info_phys st in
  if mb2_phys =? 0 then Some (-1, st)
  else
    let total_size := load32 m mb2_phys in
    match tag_loop fuel m (u64 (mb2_phys + total_size)) (u64 (mb2_phys + 8)) (st, 0, 0) with
    | None => None
    | Some (st, _, _) =>
        let st := mk_pmm (bitmap_set (bitmap st) 0) (total_frames st)
                    (if free_frames st >? 0 then free_frames st - 1 else free_frames st)
                    (mb2_info_phys st) in
        let kend_phys := u64 (kernel_end - KERNEL_VMA) in
        let st := mark_range_used st 0x100000 (u64 (kend_phys - 0x100000)) in
        let bm_phys := u64 (bm_addr - KERNEL_VMA) in
        let st := mark_range_used st bm_phys (8 * PMM_BITMAP_WORDS) in
        Some (0, st)
    end.

(** ** Allocation *)

(** The inner loop of [pmm_alloc_frame]: the first clear bit of a word. *)
Fixpoint find_zero_bit (n : nat) (word b : Z) : option Z :=
  match n with
  | O => None
  | S n => if negb (has (word >>b b) 1) then Some b else find_zero_bit n word (b + 1)
  end.

(** The outer loop, over the words from index [w] on: the first frame found. *)
Fixpoint scan_words (ws : list Z) (w : Z) : option Z :=
  match ws with
  | [] => None
  | word :: ws =>
      if word =? 2 ^ 64 - 1 then scan_words ws (w + 1)
      else match find_zero_bit (Z.to_nat BITMAP_WORD_BITS) word 0 with
           | Some b => Some (w * BITMAP_WORD_BITS + b)
           | None => scan_words ws (w + 1)
           end
  end.

Definition pmm_alloc_frame (st : pmm_state) : Z * pmm_state :=
  match scan_words (bitmap st) 0 with
  | None => (0, st)
  | Some frame =>
      if frame >=? PMM_MAX_FRAMES then (0, st)
      else (frame * FRAME_SIZE,
            mk_pmm (bitmap_set (bitmap st) frame) (total_frames st)
              (u64 (free_frames st - 1)) (mb2_info_phys st))
  end.

Definition pmm_free_frame (st : pmm_state) (phys : Z) : pmm_state :=
  let frame := phys / FRAME_SIZE in
  if frame >=? PMM_MAX_FRAMES then st
  else if negb (bitmap_test (bitmap st) frame) then st
  else mk_pmm (bitmap_clear (bitmap st) frame) (total_frames st)
         (u64 (free_frames st + 1)) (mb2_info_phys st).

(** ** The bitmap as a set of used frames *)

Definition frame_used (bm : list Z) (f : Z) : bool :=
  Z.testbit (bm_word bm (BITMAP_IDX f)) (BITMAP_BIT f).

Definition bm_ok (bm : list Z) : Prop :=
  length bm = Z.to_nat PMM_BITMAP_WORDS /\ Forall (fun w => 0 <= w < 2 ^ 64) bm.

(** The number of frames the bitmap has free. *)
Definition nfree (bm : list Z) : Z :=
  Z.of_nat (countb (fun f => negb (frame_used bm f)) (seqZ 0 PMM_MAX_FRAMES)).

Lemma bitmap_test_used bm f : 0 <= f -> bitmap_test bm f = frame_used bm f.
Proof.
  intros Hf. unfold bitmap_test, frame_used, BITMAP_BIT.
  change 1 with (2 ^ 0) at 1. rewrite has_bit by lia.
  rewrite Z.shiftr_spec by lia. f_equal.
Qed.

Lemma bm_word_ok bm i : bm_ok bm -> 0 <= bm_word bm i < 2 ^ 64.
Proof.
  intros [_ Hw]. unfold bm_word. destruct (bm !! Z.to_nat i) as [w|] eqn:E; simpl; [|lia].
  eapply Forall_lookup_1 in Hw; eauto.
Qed.

(** Altering the word of frame [f] leaves the words of other indices alone. *)
Lemma bm_word_alter h bm i j : bm_ok bm -> 0 <= i < PMM_BITMAP_WORDS -> 0 <= j ->
  bm_word (alter h (Z.to_nat i) bm) j = if i =? j then h (bm_word bm j) else bm_word bm j.
Proof.
  intros [Hl _] Hi Hj. unfold bm_word. destruct (Z.eqb_spec i j) as [->|Hne].
  - rewrite list_lookup_alter_eq. destruct (lookup_lt_is_Some_2 bm (Z.to_nat j)) as [w ->]; [lia|done].
  - rewrite list_lookup_alter_ne by lia. done.
Qed.

Lemma frame_idx f : 0 <= f < PMM_MAX_FRAMES ->
  0 <= BITMAP_IDX f < PMM_BITMAP_WORDS /\ 0 <= BITMAP_BIT f < 64.
Proof.
  unfold BITMAP_IDX, BITMAP_BIT, BITMAP_WORD_BITS.
  change PMM_BITMAP_WORDS with 16384. change PMM_MAX_FRAMES with 1048576. intros H. zlia.
Qed.

Lemma frame_idx_inj f g :
  BITMAP_IDX f = BITMAP_IDX g -> BITMAP_BIT f = BITMAP_BIT g -> f = g.
Proof.
  unfold BITMAP_IDX, BITMAP_BIT, BITMAP_WORD_BITS. intros H1 H2.
  rewrite (Z.div_mod f 64), (Z.div_mod g 64) by lia. congruence.
Qed.

Lemma frame_used_set bm f g : bm_ok bm -> 0 <= f < PMM_MAX_FRAMES -> 0 <= g ->
  frame_used (bitmap_set bm f) g = (f =? g) || frame_used bm g.
Proof.
  intros Hok Hf Hg. destruct (frame_idx f Hf) as [Hi Hb].
  unfold frame_used, bitmap_set. rewrite bm_word_alter; [|done..|].
  2: { unfold BITMAP_IDX, BITMAP_WORD_BITS. zlia. }
  assert (0 <= BITMAP_BIT g) by (unfold BITMAP_BIT, BITMAP_WORD_BITS; zlia).
  destruct (Z.eqb_spec (BITMAP_IDX f) (BITMAP_IDX g)) as [E|E].
  - rewrite Z.lor_spec, Z.shiftl_1_l, Z.pow2_bits_eqb by lia.
    destruct (Z.eqb_spec (BITMAP_BIT f) (BITMAP_BIT g)) as [Eb|Eb].
    + rewrite (frame_idx_inj f g E Eb), Z.eqb_refl. apply orb_true_r.
    + destruct (Z.eqb_spec f g) as [->|]; [done|]. by rewrite orb_false_r.
  - destruct (Z.eqb_spec f g) as [->|]; [done|]. done.
Qed.

Lemma frame_used_clear bm f g : bm_ok bm -> 0 <= f < PMM_MAX_FRAMES -> 0 <= g ->
  frame_used (bitmap_clear bm f) g = negb (f =? g) && frame_used bm g.
Proof.
  intros Hok Hf Hg. destruct (frame_idx f Hf) as [Hi Hb].
  unfold frame_used, bitmap_clear. rewrite bm_word_alter; [|done..|].
  2: { unfold BITMAP_IDX, BITMAP_WORD_BITS. zlia. }
  assert (0 <= BITMAP_BIT g < 64) by (unfold BITMAP_BIT, BITMAP_WORD_BITS; zlia).
  destruct (Z.eqb_spec (BITMAP_IDX f) (BITMAP_IDX g)) as [E|E].
  - unfold not64, u64. rewrite Z.land_spec, testbit_mod, Z.lnot_spec by lia.
    rewrite Z.shiftl_1_l, Z.pow2_bits_eqb by lia.
    destruct (Z.ltb_spec (BITMAP_BIT g) 64); [|lia]. simpl.
    destruct (Z.eqb_spec (BITMAP_BIT f) (BITMAP_BIT g)) as [Eb|Eb].
    + rewrite (frame_idx_inj f g E Eb), Z.eqb_refl. apply andb_false_r.
    + destruct (Z.eqb_spec f g) as [->|]; [done|]. by rewrite andb_true_r.
  - destruct (Z.eqb_spec f g) as [->|]; [done|]. done.
Qed.

Lemma alter_bm_ok h bm i : bm_ok bm -> (forall w, 0 <= w < 2 ^ 64 -> 0 <= h w < 2 ^ 64) ->
  bm_ok (alter h i bm).
Proof.
  intros [Hl Hw] Hh. split; [by rewrite length_alter|].
  apply Forall_alter; [done|]. intros w Hi Hok. by apply Hh.
Qed.

Lemma bitmap_set_ok bm f : bm_ok bm -> bm_ok (bitmap_set bm f).
Proof.
  intros Hok. apply alter_bm_ok; [done|]. intros w Hw. apply lor_bound; [lia|done|].
  assert (0 <= BITMAP_BIT f < 64) by (unfold BITMAP_BIT, BITMAP_WORD_BITS; zlia).
  rewrite Z.shiftl_1_l. split; [lia|]. apply Z.pow_lt_mono_r; lia.
Qed.

Lemma bitmap_clear_ok bm f : bm_ok bm -> bm_ok (bitmap_clear bm f).
Proof. intros Hok. apply alter_bm_ok; [done|]. intros w Hw. apply land_bound; lia. Qed.

#[export] Hint Resolve bitmap_set_ok bitmap_clear_ok : kernel.

Lemma seqZ_frame f : f ∈ seqZ 0 PMM_MAX_FRAMES <-> 0 <= f < PMM_MAX_FRAMES.
Proof. rewrite elem_of_seqZ. lia. Qed.

Lemma nfree_set bm f : bm_ok bm -> 0 <= f < PMM_MAX_FRAMES -> frame_used bm f = false ->
  nfree bm = nfree (bitmap_set bm f) + 1.
Proof.
  intros Hok Hf Hu. unfold nfree.
  rewrite (countb_flip (fun g => negb (frame_used (bitmap_set bm f) g)) _ _ f); [lia|..].
  - apply NoDup_seqZ.
  - by apply seqZ_frame.
  - by rewrite frame_used_set, Z.eqb_refl by (done || lia).
  - by rewrite Hu.
  - intros g Hg%seqZ_frame Hne. rewrite frame_used_set by (done || lia).
    by destruct (Z.eqb_spec f g).
Qed.

Lemma nfree_clear bm f : bm_ok bm -> 0 <= f < PMM_MAX_FRAMES -> frame_used bm f = true ->
  nfree (bitmap_clear bm f) = nfree bm + 1.
Proof.
  intros Hok Hf Hu. unfold nfree.
  rewrite (countb_flip (fun g => negb (frame_used bm g)) _ _ f); [lia|..].
  - apply NoDup_seqZ.
  - by apply seqZ_frame.
  - by rewrite Hu.
  - by rewrite frame_used_clear, Z.eqb_refl by (done || lia).
  - intros g Hg%seqZ_frame Hne. rewrite frame_used_clear by (done || lia).
    by destruct (Z.eqb_spec f g).
Qed.

Lemma nfree_bounds bm : 0 <= nfree bm <= PMM_MAX_FRAMES.
Proof.
  unfold nfree, countb. split; [lia|].
  pose proof (List.filter_length_le (fun f => negb (frame_used bm f)) (seqZ 0 PMM_MAX_FRAMES)) as H.
  rewrite length_seqZ in H. change PMM_MAX_FRAMES with 1048576 in *. lia.
Qed.

(** ** The scan of [pmm_alloc_frame] *)

Lemma has_shiftr_1 x n : 0 <= n -> has (Z.shiftr x n) 1 = Z.testbit x n.
Proof.
  intros Hn. change 1 with (2 ^ 0) at 1. rewrite has_bit by lia.
  rewrite Z.shiftr_spec by lia. done.
Qed.

Lemma find_zero_bit_spec n word b : 0 <= b ->
  match find_zero_bit n word b with
  | Some c => b <= c < b + Z.of_nat n /\ Z.testbit word c = false /\
              (forall d, b <= d < c -> Z.testbit word d = true)
  | None => forall d, b <= d < b + Z.of_nat n -> Z.testbit word d = true
  end.
Proof.
  revert b. induction n as [|n IH]; intros b Hb; simpl; [lia|].
  rewrite has_shiftr_1 by lia. destruct (Z.testbit word b) eqn:E; simpl.
  - specialize (IH (b + 1) ltac:(lia)). destruct (find_zero_bit n word (b + 1)) as [c|].
    + destruct IH as (Hc & Hz & Hd). split; [lia|]. split; [done|].
      intros d Hd'. destruct (decide (d = b)) as [->|]; [done|]. apply Hd. lia.
    + intros d Hd. destruct (decide (d = b)) as [->|]; [done|]. apply IH. lia.
  - split; [lia|]. split; [done|]. lia.
Qed.

(** A word of the right width that is not all ones has a clear bit. *)
Lemma find_zero_bit_ones word : 0 <= word < 2 ^ 64 ->
  find_zero_bit 64 word 0 = None -> word = 2 ^ 64 - 1.
Proof.
  intros Hw Hf. pose proof (find_zero_bit_spec 64 word 0 ltac:(lia)) as H. rewrite Hf in H.
  change (2 ^ 64 - 1) with (Z.ones 64). apply Z.bits_inj'. intros i Hi.
  destruct (Z.ltb_spec i 64).
  - rewrite H, Z.ones_spec_low by lia. done.
  - rewrite (testbit_high 64), Z.ones_spec_high by lia. done.
Qed.

Lemma frame_used_cons word ws f : 0 <= f ->
  frame_used (word :: ws) f = if f <? 64 then Z.testbit word f else frame_used ws (f - 64).
Proof.
  intros Hf. unfold frame_used, bm_word, BITMAP_IDX, BITMAP_BIT, BITMAP_WORD_BITS.
  destruct (Z.ltb_spec f 64).
  - rewrite Z.div_small, Z.mod_small by lia. done.
  - replace (f mod 64) with ((f - 64) mod 64) by zlia.
    replace (Z.to_nat (f / 64)) with (S (Z.to_nat ((f - 64) / 64))) by zlia. done.
Qed.

(** The scan returns the lowest frame whose bit is clear. *)
Lemma scan_words_spec ws w : Forall (fun x => 0 <= x < 2 ^ 64) ws ->
  match scan_words ws w with
  | Some fr => exists f, fr = w * 64 + f /\ 0 <= f < 64 * Z.of_nat (length ws) /\
                 frame_used ws f = false /\ (forall g, 0 <= g < f -> frame_used ws g = true)
  | None => forall g, 0 <= g < 64 * Z.of_nat (length ws) -> frame_used ws g = true
  end.
Proof.
  revert w. induction ws as [|word ws IH]; intros w Hok; cbn [scan_words]; [simpl; lia|].
  apply Forall_cons in Hok as [Hword Hok]. specialize (IH (w + 1) Hok).
  change (length (word :: ws)) with (S (length ws)).
  (* a word of ones, then the rest *)
  assert (word = 2 ^ 64 - 1 ->
    match scan_words ws (w + 1) with
    | Some fr => exists f, fr = w * 64 + f /\ 0 <= f < 64 * Z.of_nat (S (length ws)) /\
                   frame_used (word :: ws) f = false /\
                   (forall g, 0 <= g < f -> frame_used (word :: ws) g = true)
    | None => forall g, 0 <= g < 64 * Z.of_nat (S (length ws)) -> frame_used (word :: ws) g = true
    end) as Hfull.
  { intros ->. assert (forall g, 0 <= g < 64 -> Z.testbit (2 ^ 64 - 1) g = true) as Hones.
    { intros g Hg. change (2 ^ 64 - 1) with (Z.ones 64). apply Z.ones_spec_low. lia. }
    destruct (scan_words ws (w + 1)) as [fr|].
    - destruct IH as (f & -> & Hf & Hz & Hlow). exists (f + 64). split; [lia|]. split; [lia|].
      split; [rewrite frame_used_cons by lia; case_ltb; [lia|]; by replace (f + 64 - 64) with f by lia|].
      intros g Hg. rewrite frame_used_cons by lia. case_ltb; [apply Hones; lia|apply Hlow; lia].
    - intros g Hg. rewrite frame_used_cons by lia. case_ltb; [apply Hones; lia|apply IH; lia]. }
  destruct (Z.eqb_spec word (2 ^ 64 - 1)) as [E|E]; [by apply Hfull|].
  pose proof (find_zero_bit_spec 64 word 0 ltac:(lia)) as Hfz.
  change (Z.to_nat BITMAP_WORD_BITS) with 64%nat.
  destruct (find_zero_bit 64 word 0) as [b|] eqn:Hb.
  - destruct Hfz as (Hr & Hz & Hlow). exists b. split; [done|]. split; [lia|].
    split; [rewrite frame_used_cons by lia; case_ltb; [done|lia]|].
    intros g Hg. rewrite frame_used_cons by lia. case_ltb; [apply Hlow; lia|lia].
  - by apply find_zero_bit_ones in Hb.
Qed.

(** ** Specification of allocation and freeing *)

Definition set_bitmap (st : pmm_state) (bm : list Z) (free : Z) : pmm_state :=
  mk_pmm bm (total_frames st) free (mb2_info_phys st).

Lemma pmm_alloc_cases st : bm_ok (bitmap st) ->
  (exists f, 0 <= f < PMM_MAX_FRAMES /\ frame_used (bitmap st) f = false /\
     (forall g, 0 <= g < f -> frame_used (bitmap st) g = true) /\
     pmm_alloc_frame st =
       (f * FRAME_SIZE, set_bitmap st (bitmap_set (bitmap st) f) (u64 (free_frames st - 1)))) \/
  ((forall g, 0 <= g < PMM_MAX_FRAMES -> frame_used (bitmap st) g = true) /\
   pmm_alloc_frame st = (0, st)).
Proof.
  intros [Hl Hw]. pose proof (scan_words_spec (bitmap st) 0 Hw) as Hs.
  rewrite Hl, Z2Nat.id in Hs by done. change (64 * PMM_BITMAP_WORDS) with PMM_MAX_FRAMES in Hs.
  unfold pmm_alloc_frame. destruct (scan_words (bitmap st) 0) as [fr|].
  - left. destruct Hs as (f & -> & Hf & Hz & Hlow). exists f.
    split; [done|]. split; [done|]. split; [done|].
    replace (0 * 64 + f) with f by lia. rewrite Z.geb_leb. case_ltb; [lia|]. done.
  - right. done.
Qed.

Lemma pmm_free_cases st phys : 0 <= phys ->
  pmm_free_frame st phys =
    if (phys / FRAME_SIZE <? PMM_MAX_FRAMES) && frame_used (bitmap st) (phys / FRAME_SIZE)
    then set_bitmap st (bitmap_clear (bitmap st) (phys / FRAME_SIZE)) (u64 (free_frames st + 1))
    else st.
Proof.
  intros Hp. unfold pmm_free_frame. rewrite bitmap_test_used by (unfold FRAME_SIZE; zlia).
  rewrite Z.geb_leb, Z.leb_antisym. destruct (_ <? _); simpl; [|done].
  by destruct (frame_used _ _).
Qed.

(** ** The counting invariant *)

(** [free_frames] is the number of clear bits of a well-formed bitmap. *)
Definition pmm_inv (st : pmm_state) : Prop :=
  bm_ok (bitmap st) /\ free_frames st = nfree (bitmap st).

Lemma mark_used_used st f g : bm_ok (bitmap st) -> 0 <= f < PMM_MAX_FRAMES -> 0 <= g ->
  frame_used (bitmap (mark_used st f)) g = (f =? g) || frame_used (bitmap st) g.
Proof.
  intros Hok Hf Hg. unfold mark_used. rewrite bitmap_test_used by lia.
  destruct (frame_used (bitmap st) f) eqn:E; simpl; [|by apply frame_used_set].
  destruct (Z.eqb_spec f g) as [<-|]; [by rewrite E|done].
Qed.

Lemma mark_free_used st f g : bm_ok (bitmap st) -> 0 <= f < PMM_MAX_FRAMES -> 0 <= g ->
  frame_used (bitmap (mark_free st f)) g = negb (f =? g) && frame_used (bitmap st) g.
Proof.
  intros Hok Hf Hg. unfold mark_free. rewrite bitmap_test_used by lia.
  destruct (frame_used (bitmap st) f) eqn:E; simpl; [by apply frame_used_clear|].
  destruct (Z.eqb_spec f g) as [<-|]; [by rewrite E|done].
Qed.

Lemma mark_used_ok st f : bm_ok (bitmap st) -> bm_ok (bitmap (mark_used st f)).
Proof. unfold mark_used. destruct (bitmap_test _ _); simpl; auto with kernel. Qed.

Lemma mark_free_ok st f : bm_ok (bitmap st) -> bm_ok (bitmap (mark_free st f)).
Proof. unfold mark_free. destruct (bitmap_test _ _); simpl; auto with kernel. Qed.

#[export] Hint Resolve mark_used_ok mark_free_ok : kernel.

(** The counter is exact up to [d] frames: [d = 0] is [pmm_inv], [d = 1] is the
    state [pmm_init] leaves. *)
Definition pmm_off (d : Z) (st : pmm_state) : Prop :=
  bm_ok (bitmap st) /\ 0 <= free_frames st /\ nfree (bitmap st) = free_frames st + d.

Lemma pmm_off_0 st : pmm_inv st <-> pmm_off 0 st.
Proof.
  unfold pmm_inv, pmm_off. pose proof (nfree_bounds (bitmap st)).
  split; intros (Hok & Hn); (split; [done|]); lia.
Qed.

Lemma mark_used_off d st f : 0 <= f < PMM_MAX_FRAMES -> 0 <= d ->
  pmm_off d st -> 0 < free_frames st \/ d = 0 -> pmm_off d (mark_used st f).
Proof.
  intros Hf Hd (Hok & Hp & Hn) Hor. unfold mark_used. rewrite bitmap_test_used by lia.
  destruct (frame_used (bitmap st) f) eqn:E; [done|].
  pose proof (nfree_set _ _ Hok Hf E). pose proof (nfree_bounds (bitmap_set (bitmap st) f)).
  split; simpl; [auto with kernel|]. rewrite Z.gtb_ltb. case_ltb; lia.
Qed.

Lemma mark_free_off d st f : 0 <= f < PMM_MAX_FRAMES -> 0 <= d ->
  pmm_off d st -> pmm_off d (mark_free st f).
Proof.
  intros Hf Hd (Hok & Hp & Hn). unfold mark_free. rewrite bitmap_test_used by lia.
  destruct (frame_used (bitmap st) f) eqn:E; [|done].
  pose proof (nfree_clear _ _ Hok Hf E). pose proof (nfree_bounds (bitmap_clear (bitmap st) f)).
  change PMM_MAX_FRAMES with 1048576 in *.
  split; simpl; [auto with kernel|]. rewrite u64_small by lia. lia.
Qed.

(** ** Range marking *)

(** Invariant rule for the frame loop. *)
Lemma for_frames_inv (P : pmm_state -> Prop) step n f st :
  (forall g s, f <= g < f + Z.of_nat n -> P s -> P (step s g)) -> P st ->
  P (for_frames step n f st).
Proof.
  revert f st. induction n as [|n IH]; intros f st Hs HP; simpl; [done|].
  apply IH; [|apply Hs; [lia|done]]. intros g s Hg. apply Hs. lia.
Qed.

Lemma for_frames_used n f st g : bm_ok (bitmap st) -> 0 <= f -> 0 <= g ->
  f + Z.of_nat n <= PMM_MAX_FRAMES ->
  frame_used (bitmap (for_frames mark_used n f st)) g =
    ((f <=? g) && (g <? f + Z.of_nat n)) || frame_used (bitmap st) g.
Proof.
  revert f st. induction n as [|n IH]; intros f st Hok Hf Hg Hmax; simpl for_frames.
  - replace ((f <=? g) && (g <? f + Z.of_nat 0)) with false; [done|]. repeat case_ltb; lia.
  - rewrite IH by (auto with kernel || lia). rewrite mark_used_used by (done || lia).
    rewrite orb_assoc. f_equal. repeat case_ltb; lia || done.
Qed.

Lemma for_frames_free n f st g : bm_ok (bitmap st) -> 0 <= f -> 0 <= g ->
  f + Z.of_nat n <= PMM_MAX_FRAMES ->
  frame_used (bitmap (for_frames mark_free n f st)) g =
    negb ((f <=? g) && (g <? f + Z.of_nat n)) && frame_used (bitmap st) g.
Proof.
  revert f st. induction n as [|n IH]; intros f st Hok Hf Hg Hmax; simpl for_frames.
  - replace ((f <=? g) && (g <? f + Z.of_nat 0)) with false; [done|]. repeat case_ltb; lia.
  - rewrite IH by (auto with kernel || lia). rewrite mark_free_used by (done || lia).
    rewrite andb_assoc. f_equal. repeat case_ltb; lia || done.
Qed.

(** The first frame past a range, as the code computes it. *)
Definition clamp_frames (e : Z) : Z := Z.min e PMM_MAX_FRAMES.

Lemma mark_range_used_eq st base len :
  mark_range_used st base len =
  for_frames mark_used
    (Z.to_nat (clamp_frames (u64 (base + len + FRAME_SIZE - 1) / FRAME_SIZE) - base / FRAME_SIZE))
    (base / FRAME_SIZE) st.
Proof.
  unfold mark_range_used, clamp_frames. rewrite Z.gtb_ltb.
  do 2 f_equal. case_ltb; f_equal; lia.
Qed.

Lemma mark_range_free_eq st base len :
  mark_range_free st base len =
  for_frames mark_free
    (Z.to_nat (clamp_frames (u64 (base + len) / FRAME_SIZE) - base / FRAME_SIZE))
    (base / FRAME_SIZE) st.
Proof.
  unfold mark_range_free, clamp_frames. rewrite Z.gtb_ltb.
  do 2 f_equal. case_ltb; f_equal; lia.
Qed.

Lemma mark_range_used_used st base len g : bm_ok (bitmap st) -> 0 <= base -> 0 <= g ->
  frame_used (bitmap (mark_range_used st base len)) g =
    ((base / FRAME_SIZE <=? g) &&
     (g <? clamp_frames (u64 (base + len + FRAME_SIZE - 1) / FRAME_SIZE))) ||
    frame_used (bitmap st) g.
Proof.
  intros Hok Hb Hg. rewrite mark_range_used_eq. unfold clamp_frames, FRAME_SIZE in *.
  destruct (Z.le_gt_cases (base / 4096) (Z.min (u64 (base + len + 4096 - 1) / 4096) PMM_MAX_FRAMES)).
  - rewrite for_frames_used by (done || zlia). f_equal. f_equal. f_equal. zlia.
  - replace (Z.to_nat _) with O by lia. simpl.
    replace (_ && _) with false; [done|]. repeat case_ltb; lia.
Qed.

Lemma mark_range_free_used st base len g : bm_ok (bitmap st) -> 0 <= base -> 0 <= g ->
  frame_used (bitmap (mark_range_free st base len)) g =
    negb ((base / FRAME_SIZE <=? g) && (g <? clamp_frames (u64 (base + len) / FRAME_SIZE))) &&
    frame_used (bitmap st) g.
Proof.
  intros Hok Hb Hg. rewrite mark_range_free_eq. unfold clamp_frames, FRAME_SIZE in *.
  destruct (Z.le_gt_cases (base / 4096) (Z.min (u64 (base + len) / 4096) PMM_MAX_FRAMES)).
  - rewrite for_frames_free by (done || zlia). f_equal. f_equal. f_equal. f_equal. zlia.
  - replace (Z.to_nat _) with O by lia. simpl.
    replace ((base / 4096 <=? g) && _) with false; [done|]. repeat case_ltb; lia.
Qed.

(** Any property kept by marking one frame is kept by marking a range. *)
Lemma mark_range_used_inv (P : pmm_state -> Prop) st base len : 0 <= base ->
  (forall s f, 0 <= f < PMM_MAX_FRAMES -> P s -> P (mark_used s f)) ->
  P st -> P (mark_range_used st base len).
Proof.
  intros Hb Hs HP. rewrite mark_range_used_eq. apply for_frames_inv; [|done].
  intros g s Hg. unfold clamp_frames, FRAME_SIZE in Hg. apply Hs. zlia.
Qed.

Lemma mark_range_free_inv (P : pmm_state -> Prop) st base len : 0 <= base ->
  (forall s f, 0 <= f < PMM_MAX_FRAMES -> P s -> P (mark_free s f)) ->
  P st -> P (mark_range_free st base len).
Proof.
  intros Hb Hs HP. rewrite mark_range_free_eq. apply for_frames_inv; [|done].
  intros g s Hg. unfold clamp_frames, FRAME_SIZE in Hg. apply Hs. zlia.
Qed.

Lemma mark_range_used_ok st base len : 0 <= base ->
  bm_ok (bitmap st) -> bm_ok (bitmap (mark_range_used st base len)).
Proof.
  intros Hb. apply (mark_range_used_inv (fun s => bm_ok (bitmap s))); auto with kernel.
Qed.

Lemma mark_range_free_ok st base len : 0 <= base ->
  bm_ok (bitmap st) -> bm_ok (bitmap (mark_range_free st base len)).
Proof.
  intros Hb. apply (mark_range_free_inv (fun s => bm_ok (bitmap s))); auto with kernel.
Qed.

#[export] Hint Resolve mark_range_used_ok mark_range_free_ok : kernel.

(** ** The multiboot2 walk *)

(** The tags the walk of [pmm_init] visits from [start]. *)
Inductive tag_reach (m : mem) (end_addr start : Z) : Z -> Prop :=
| tag_reach_first : tag_reach m end_addr start start
| tag_reach_next t :
    tag_reach m end_addr start t -> t < end_addr -> load32 m t <> MB2_TAG_END ->
    tag_reach m end_addr start (u64 (t + (u32 (load32 m (t + 4) + 7) &b not64 7))).

(** The entries the inner loop visits in the memory-map tag at [t]. *)
Inductive entry_reach (m : mem) (t : Z) : Z -> Prop :=
| entry_reach_first : entry_reach m t (u64 (t + 16))
| entry_reach_next e :
    entry_reach m t e -> e < u64 (t + load32 m (t + 4)) ->
    entry_reach m t (u64 (e + load32 m (t + 8))).

(** A multiboot2 structure as its specification has it: tags and map entries are
    not empty and every tag lies inside the structure. *)
Definition mb2_wf (m : mem) (end_addr start : Z) : Prop :=
  end_addr < 2 ^ 63 /\
  forall t, tag_reach m end_addr start t -> t < end_addr -> load32 m t <> MB2_TAG_END ->
    1 <= load32 m (t + 4) /\ t + load32 m (t + 4) <= end_addr /\
    load32 m (t + 4) < 2 ^ 32 - 8 /\
    (load32 m t = MB2_TAG_MMAP -> 1 <= load32 m (t + 8)).

(** The map has an entry for [len] bytes of available memory at [base].  [pmm_init] skips a region
    at address 0, and one that reaches the end of the 64-bit address space has no frames for it. *)
Definition avail_region (m : mem) (end_addr start base len : Z) : Prop :=
  exists t e, tag_reach m end_addr start t /\ load32 m t = MB2_TAG_MMAP /\ entry_reach m t e /\
    t < end_addr /\ e < u64 (t + load32 m (t + 4)) /\
    load32 m (e + 16) = MB2_MMAP_AVAILABLE /\ base = load64 m e /\ len = load64 m (e + 8) /\
    0 < base /\ base + len < 2 ^ 64.

(** The byte at the physical address [p] is available memory. *)
Definition avail_byte (m : mem) (end_addr start p : Z) : Prop :=
  exists base len, avail_region m end_addr start base len /\ base <= p < base + len.

(** The frame [f] ends in available memory. *)
Definition in_avail (m : mem) (end_addr start f : Z) : Prop :=
  avail_byte m end_addr start (f * FRAME_SIZE + (FRAME_SIZE - 1)).

(** The rounding of a tag size to 8 moves forward and by less than 8 too much. *)
Lemma round8 n : 1 <= n < 2 ^ 32 - 8 ->
  n <= Z.land (u32 (n + 7)) (not64 7) < n + 8.
Proof.
  intros Hn. rewrite u32_small by lia. change (not64 7) with (not64 (Z.ones 3)).
  rewrite (land_not64_ones 3) by lia. change (2 ^ 3) with 8. zlia.
Qed.

Section walk.
Context (m : mem) (Hm : bytes_ok m).

(** Invariant rule for the inner loop: what [mark_range_free] on the visited
    available entries keeps holds of the result, which the loop reaches. *)
Lemma mmap_loop_ok (P : pmm_state -> Prop) t fuel e acc :
  0 <= e -> 1 <= load32 m (t + 8) -> u64 (t + load32 m (t + 4)) < 2 ^ 63 ->
  u64 (t + load32 m (t + 4)) - e <= Z.of_nat fuel -> entry_reach m t e ->
  (forall s b, entry_reach m t b -> b < u64 (t + load32 m (t + 4)) ->
     load32 m (b + 16) = MB2_MMAP_AVAILABLE -> 0 < load64 m b ->
     P s -> P (mark_range_free s (load64 m b) (load64 m (b + 8)))) ->
  P acc.1.1 ->
  exists acc', mmap_loop fuel m (load32 m (t + 8)) (u64 (t + load32 m (t + 4))) e acc = Some acc'
    /\ P acc'.1.1.
Proof.
  intros He Hsz Hend Hfuel Hre Hstep HP. revert e acc He Hfuel Hre HP.
  induction fuel as [|fuel IH]; intros e acc He Hfuel Hre HP; cbn [mmap_loop].
  - case_ltb; [lia|by eexists].
  - case_ltb; [|by eexists].
    assert (load32 m (t + 8) < 2 ^ 32) by (apply (load_range 4 m (t + 8) Hm)).
    assert (u64 (e + load32 m (t + 8)) = e + load32 m (t + 8)) as Hn
      by (apply u64_small; lia).
    apply IH; [rewrite Hn; lia|rewrite Hn; lia|by constructor|].
    destruct (_ && _) eqn:Hc; [|done]. destruct acc as [[st us] cnt]. cbn [fst] in *.
    apply Hstep; bool_hyps; auto.
Qed.

Lemma tag_loop_ok (P : pmm_state -> Prop) end_addr start fuel t acc :
  mb2_wf m end_addr start -> 0 <= t -> end_addr - t <= Z.of_nat fuel ->
  tag_reach m end_addr start t ->
  (forall s t b, tag_reach m end_addr start t -> t < end_addr -> load32 m t = MB2_TAG_MMAP ->
     entry_reach m t b -> b < u64 (t + load32 m (t + 4)) ->
     load32 m (b + 16) = MB2_MMAP_AVAILABLE -> 0 < load64 m b ->
     P s -> P (mark_range_free s (load64 m b) (load64 m (b + 8)))) ->
  P acc.1.1 ->
  exists acc', tag_loop fuel m end_addr t acc = Some acc' /\ P acc'.1.1.
Proof.
  intros [Hend Hwf] Ht Hfuel Hre Hstep HP. revert t acc Ht Hfuel Hre HP.
  induction fuel as [|fuel IH]; intros t acc Ht Hfuel Hre HP; cbn [tag_loop].
  - case_ltb; [lia|by eexists].
  - case_ltb; [|by eexists]. destruct (Z.eqb_spec (load32 m t) MB2_TAG_END) as [|Hne]; [by eexists|].
    destruct (Hwf t Hre ltac:(lia) Hne) as (Hs1 & Hs2 & Hs3 & Hes).
    pose proof (round8 (load32 m (t + 4)) ltac:(lia)) as Hr.
    assert (u64 (t + Z.land (u32 (load32 m (t + 4) + 7)) (not64 7)) =
            t + Z.land (u32 (load32 m (t + 4) + 7)) (not64 7)) as Hn by (apply u64_small; lia).
    assert (tag_reach m end_addr start
              (u64 (t + Z.land (u32 (load32 m (t + 4) + 7)) (not64 7)))) as Hre'
      by (constructor; done || lia).
    destruct (Z.eqb_spec (load32 m t) MB2_TAG_MMAP) as [Hmm|Hmm].
    + assert (u64 (t + load32 m (t + 4)) = t + load32 m (t + 4)) as Ht4 by (apply u64_small; lia).
      edestruct (mmap_loop_ok P t fuel (u64 (t + 16)) acc) as (acc' & -> & HP').
      { apply u64_range. } { by apply Hes. } { rewrite Ht4. lia. }
      { rewrite Ht4, (u64_small (t + 16)) by lia. lia. }
      { constructor. } { intros s b Hb Hlt Hav Hpos. by apply Hstep with t; [|lia| | | | |]. } { done. }
      apply IH; [rewrite Hn; lia|rewrite Hn; lia|done|done].
    + apply IH; [rewrite Hn; lia|rewrite Hn; lia|done|done].
Qed.

(** One step of each loop, forwards. *)
Definition entry_step (t e e' : Z) : Prop := e < u64 (t + load32 m (t + 4)) /\ e' = u64 (e + load32 m (t + 8)).
Definition tag_step (end_addr t t' : Z) : Prop :=
  t < end_addr /\ load32 m t <> MB2_TAG_END /\ t' = u64 (t + (u32 (load32 m (t + 4) + 7) &b not64 7)).
Lemma entry_reach_rtc t e : entry_reach m t e -> rtc (entry_step t) (u64 (t + 16)) e.
Proof. induction 1 as [|e _ IH Hlt]; [done|]. eapply rtc_r; [exact IH|]. by split. Qed.
Lemma tag_reach_rtc end_addr start t : tag_reach m end_addr start t -> rtc (tag_step end_addr) start t.
Proof. induction 1 as [|t _ IH Hlt Hne]; [done|]. eapply rtc_r; [exact IH|]. by split. Qed.

(** A property that marking keeps and that marking the entry [b] establishes holds of the
    result when the loop has [b] before it. *)
Lemma mmap_loop_visits (Q P : pmm_state -> Prop) t fuel e acc b :
  0 <= e -> 1 <= load32 m (t + 8) -> u64 (t + load32 m (t + 4)) < 2 ^ 63 ->
  u64 (t + load32 m (t + 4)) - e <= Z.of_nat fuel -> entry_reach m t e ->
  rtc (entry_step t) e b -> b < u64 (t + load32 m (t + 4)) -> load32 m (b + 16) = MB2_MMAP_AVAILABLE -> 0 < load64 m b ->
  (forall s base len, 0 <= base -> Q s -> Q (mark_range_free s base len)) ->
  (forall s base len, 0 <= base -> P s -> P (mark_range_free s base len)) ->
  (forall s, Q s -> P (mark_range_free s (load64 m b) (load64 m (b + 8)))) -> Q acc.1.1 ->
  exists acc', mmap_loop fuel m (load32 m (t + 8)) (u64 (t + load32 m (t + 4))) e acc = Some acc' /\ P acc'.1.1.
Proof.
  intros He Hsz Hend Hfuel Hre Hb Hlt Hav Hpos HQ HP HQP Hacc. revert e acc He Hfuel Hre Hb Hacc.
  induction fuel as [|fuel IH]; intros e acc He Hfuel Hre Hb Hacc; cbn [mmap_loop]; (destruct (Z.ltb_spec e (u64 (t + load32 m (t + 4)))) as [Hlt'|]; [|exfalso;
    apply rtc_inv in Hb as [->|(e' & [He' _] & _)]; lia]); [lia|].
  assert (load32 m (t + 8) < 2 ^ 32) by (apply (load_range 4 m (t + 8) Hm)).
  assert (u64 (e + load32 m (t + 8)) = e + load32 m (t + 8)) as Hn by (apply u64_small; lia).
  assert (entry_reach m t (u64 (e + load32 m (t + 8)))) as Hre' by by constructor.
  destruct acc as [[st us] cnt]. cbn [fst] in *. apply rtc_inv in Hb as [->|(e' & [_ ->] & Hb)].
  - rewrite Hav, Z.eqb_refl, Z.gtb_ltb, (proj2 (Z.ltb_lt _ _) Hpos). cbn [andb].
    apply mmap_loop_ok; [rewrite Hn; lia|done|done|rewrite Hn; lia|done| |by apply HQP].
    intros s' b' _ _ _ Hp. apply HP. lia.
  - apply IH; [rewrite Hn; lia|rewrite Hn; lia|done|done|]. destruct (_ && _) eqn:Hc; [|done]. cbn [fst]. apply HQ; [bool_hyps; lia|done].
Qed.

Lemma tag_loop_visits (Q P : pmm_state -> Prop) end_addr start fuel t acc t0 b :
  mb2_wf m end_addr start -> 0 <= t -> end_addr - t <= Z.of_nat fuel -> tag_reach m end_addr start t ->
  rtc (tag_step end_addr) t t0 -> t0 < end_addr -> load32 m t0 = MB2_TAG_MMAP ->
  entry_reach m t0 b -> b < u64 (t0 + load32 m (t0 + 4)) -> load32 m (b + 16) = MB2_MMAP_AVAILABLE -> 0 < load64 m b ->
  (forall s base len, 0 <= base -> Q s -> Q (mark_range_free s base len)) ->
  (forall s base len, 0 <= base -> P s -> P (mark_range_free s base len)) ->
  (forall s, Q s -> P (mark_range_free s (load64 m b) (load64 m (b + 8)))) -> Q acc.1.1 ->
  exists acc', tag_loop fuel m end_addr t acc = Some acc' /\ P acc'.1.1.
Proof.
  intros Hwf0 Ht Hfuel Hre Hb Hlt0 Hm0 Hb0 Hlt Hav Hpos HQ HP HQP Hacc. pose proof Hwf0 as [Hend Hwf]. revert t acc Ht Hfuel Hre Hb Hacc.
  induction fuel as [|fuel IH]; intros t acc Ht Hfuel Hre Hb Hacc; cbn [tag_loop]; (destruct (Z.ltb_spec t end_addr) as [Hlt'|]; [|exfalso;
    apply rtc_inv in Hb as [->|(t' & [Ht' _] & _)]; lia]); [lia|].
  destruct (Z.eqb_spec (load32 m t) MB2_TAG_END) as [He|Hne].
  { exfalso. apply rtc_inv in Hb as [->|(t' & (_ & Ht' & _) & _)]; [rewrite Hm0 in He; discriminate|done]. }
  destruct (Hwf t Hre Hlt' Hne) as (Hs1 & Hs2 & Hs3 & Hes).
  pose proof (round8 (load32 m (t + 4)) ltac:(lia)) as Hr.
  assert (u64 (t + Z.land (u32 (load32 m (t + 4) + 7)) (not64 7)) = t + Z.land (u32 (load32 m (t + 4) + 7)) (not64 7)) as Hn by (apply u64_small; lia).
  assert (tag_reach m end_addr start (u64 (t + Z.land (u32 (load32 m (t + 4) + 7)) (not64 7)))) as Hre' by (constructor; done || lia).
  assert (u64 (t + load32 m (t + 4)) = t + load32 m (t + 4)) as Ht4 by (apply u64_small; lia).
  assert (load32 m t = MB2_TAG_MMAP -> u64 (t + load32 m (t + 4)) < 2 ^ 63 /\ u64 (t + load32 m (t + 4)) - u64 (t + 16) <= Z.of_nat fuel) as Hbd.
  { intros _. rewrite Ht4, (u64_small (t + 16)) by lia. lia. }
  apply rtc_inv in Hb as [->|(t' & (_ & _ & ->) & Hb)].
  - rewrite Hm0, Z.eqb_refl. destruct (Hbd Hm0) as [Hb1 Hb2].
    edestruct (mmap_loop_visits Q P t0 fuel (u64 (t0 + 16)) acc b) as (acc' & -> & HP'); try done;
      [apply u64_range|by apply Hes|constructor|by apply entry_reach_rtc|].
    apply (tag_loop_ok P end_addr start); [done|rewrite Hn; lia|rewrite Hn; lia|done| |done].
    intros s t1 b1 _ _ _ _ _ _ Hp. apply HP. lia.
  - destruct (Z.eqb_spec (load32 m t) MB2_TAG_MMAP) as [Hmm|Hmm].
    + destruct (Hbd Hmm) as [Hb1 Hb2].
      edestruct (mmap_loop_ok Q t fuel (u64 (t + 16)) acc) as (acc' & -> & HQ'); try done; [apply u64_range|by apply Hes|constructor| |].
      { intros s b1 _ _ _ Hp. apply HQ. lia. }
      apply IH; [rewrite Hn; lia|rewrite Hn; lia|done|done|done].
    + apply IH; [rewrite Hn; lia|rewrite Hn; lia|done|done|done].
Qed.
End walk.

(** The last byte of a frame, and what [mark_range_free] takes from a region. *)
Lemma last_byte_in base len f : 0 < base -> 0 <= len -> base + len < 2 ^ 64 ->
  base <= f * FRAME_SIZE + (FRAME_SIZE - 1) < base + len <-> base / FRAME_SIZE <= f < u64 (base + len) / FRAME_SIZE.
Proof. intros Hb Hl Hs. rewrite u64_small by lia. unfold FRAME_SIZE. zlia. Qed.
Lemma region_no_wrap base len f : 0 <= base < 2 ^ 64 -> 0 <= len < 2 ^ 64 ->
  base / FRAME_SIZE <= f < u64 (base + len) / FRAME_SIZE -> base + len < 2 ^ 64.
Proof.
  intros Hb Hl Hf. destruct (Z.lt_ge_cases (base + len) (2 ^ 64)) as [|Hge]; [done|exfalso]. revert Hf.
  assert (u64 (base + len) = base + len - 2 ^ 64) as -> by (unfold u64; zlia). unfold FRAME_SIZE. zlia.
Qed.

Lemma nfree_ext bm bm' :
  (forall f, 0 <= f < PMM_MAX_FRAMES -> frame_used bm f = frame_used bm' f) -> nfree bm = nfree bm'.
Proof.
  intros H. unfold nfree. f_equal. apply countb_ext. intros f Hf%seqZ_frame. by rewrite H.
Qed.

Lemma all_used_ok : bm_ok all_used.
Proof.
  split; [apply length_replicate|]. apply Forall_replicate. lia.
Qed.

Lemma all_used_used f : 0 <= f < PMM_MAX_FRAMES -> frame_used all_used f = true.
Proof.
  intros Hf. destruct (frame_idx f Hf). unfold frame_used, bm_word, all_used.
  rewrite lookup_replicate_2 by lia. simpl. change (2 ^ 64 - 1) with (Z.ones 64).
  apply Z.ones_spec_low. lia.
Qed.

Lemma all_used_nfree : nfree all_used = 0.
Proof.
  unfold nfree. destruct (countb _ _) eqn:E; [done|]. exfalso.
  assert (0 < countb (fun f => negb (frame_used all_used f)) (seqZ 0 PMM_MAX_FRAMES))%nat as Hp by lia.
  apply countb_pos in Hp as (f & Hf%seqZ_frame & Hu). by rewrite all_used_used in Hu.
Qed.

Section init.
Context (m : mem) (Hm : bytes_ok m) (kernel_end bm_addr : Z) (st0 : pmm_state).
Let start := u64 (mb2_info_phys st0 + 8).
Let end_addr := u64 (mb2_info_phys st0 + load32 m (mb2_info_phys st0)).
Let init0 := mk_pmm all_used PMM_MAX_FRAMES 0 (mb2_info_phys st0).

(** What the walk leaves: the counter is exact and only available frames are free. *)
Definition walk_post (s : pmm_state) : Prop :=
  pmm_inv s /\ forall f, 0 <= f < PMM_MAX_FRAMES -> frame_used (bitmap s) f = false ->
    in_avail m end_addr start f.

Lemma walk_init0 : walk_post init0.
Proof.
  split; [split; [apply all_used_ok|symmetry; apply all_used_nfree]|].
  intros f Hf. simpl. by rewrite all_used_used.
Qed.

Lemma walk_total fuel : mb2_wf m end_addr start -> end_addr - start <= Z.of_nat fuel ->
  exists s us cnt, tag_loop fuel m end_addr start (init0, 0, 0) = Some (s, us, cnt) /\ walk_post s.
Proof.
  intros Hwf Hfuel.
  destruct (tag_loop_ok m Hm walk_post end_addr start fuel start (init0, 0, 0))
    as ([[s us] cnt] & Heq & HP); [done|apply u64_range|done|constructor| |apply walk_init0|by eauto].
  intros s t b Ht Hte Hmm Hb Hlt Hav Hpos [Hinv Hs]. split.
  - apply pmm_off_0. apply mark_range_free_inv; [lia| |by apply pmm_off_0].
    intros s' f Hf. apply mark_free_off; lia.
  - intros f Hf. rewrite mark_range_free_used by (try apply Hinv; lia).
    rewrite andb_false_iff. intros [Hin|Hin]; [|by apply Hs].
    pose proof (load_range 8 m b Hm). pose proof (load_range 8 m (b + 8) Hm).
    assert (load64 m b / FRAME_SIZE <= f < u64 (load64 m b + load64 m (b + 8)) / FRAME_SIZE) as Hr by (bool_hyps; unfold clamp_frames in *; lia).
    assert (load64 m b + load64 m (b + 8) < 2 ^ 64) as Hw by (apply (region_no_wrap _ _ f); [lia|lia|exact Hr]).
    exists (load64 m b), (load64 m (b + 8)). split; [by exists t, b|]. apply last_byte_in; [lia|lia|lia|exact Hr].
Qed.

(** Every frame that ends in available memory has been marked free by the walk. *)
Lemma walk_frees fuel s us cnt f : mb2_wf m end_addr start -> end_addr - start <= Z.of_nat fuel ->
  tag_loop fuel m end_addr start (init0, 0, 0) = Some (s, us, cnt) -> 0 <= f < PMM_MAX_FRAMES -> in_avail m end_addr start f ->
  frame_used (bitmap s) f = false.
Proof.
  intros Hwf Hfuel E Hf (base & len & (t & e & Ht & Hmm & He & Hte & Hlt & Hav & -> & -> & Hpos & Hsum) & Hin).
  pose proof (load_range 8 m (e + 8) Hm). apply last_byte_in in Hin; [|lia|lia|lia].
  destruct (tag_loop_visits m Hm (fun s => bm_ok (bitmap s)) (fun s => bm_ok (bitmap s) /\ frame_used (bitmap s) f = false)
    end_addr start fuel start (init0, 0, 0) t e) as ([[s' us'] cnt'] & E' & _ & HP); try done.
  - apply u64_range.
  - constructor.
  - by apply tag_reach_rtc.
  - intros s' b l Hb. by apply mark_range_free_ok.
  - intros s' b l Hb [Hok Hu]. split; [by apply mark_range_free_ok|]. rewrite mark_range_free_used by (done || lia). by rewrite Hu, andb_false_r.
  - intros s' Hok. split; [apply mark_range_free_ok; [lia|done]|]. rewrite mark_range_free_used by (done || lia).
    unfold clamp_frames. rewrite (proj2 (Z.leb_le _ _)), (proj2 (Z.ltb_lt _ _)) by lia. done.
  - apply all_used_ok.
  - rewrite E in E'. by injection E' as <- _ _.
Qed.

(** The writes of [pmm_init] after the walk. *)
Definition init_tail (s : pmm_state) : pmm_state :=
  let s := mk_pmm (bitmap_set (bitmap s) 0) (total_frames s)
             (if free_frames s >? 0 then free_frames s - 1 else free_frames s)
             (mb2_info_phys s) in
  let s := mark_range_used s 0x100000 (u64 (u64 (kernel_end - KERNEL_VMA) - 0x100000)) in
  mark_range_used s (u64 (bm_addr - KERNEL_VMA)) (8 * PMM_BITMAP_WORDS).

Lemma pmm_init_eq fuel s us cnt : mb2_info_phys st0 <> 0 ->
  tag_loop fuel m end_addr start (init0, 0, 0) = Some (s, us, cnt) ->
  pmm_init fuel m kernel_end bm_addr st0 = Some (0, init_tail s).
Proof.
  intros Hne Hl. unfold pmm_init. cbn [mb2_info_phys]. apply Z.eqb_neq in Hne. rewrite Hne.
  unfold end_addr, start, init0 in Hl. by rewrite Hl.
Qed.

(** Every frame the initialisation reserves. *)
Definition reserved (f : Z) : Prop :=
  f = 0 \/
  0x100 <= f < clamp_frames (u64 (u64 (kernel_end - KERNEL_VMA) + FRAME_SIZE - 1) / FRAME_SIZE) \/
  u64 (bm_addr - KERNEL_VMA) / FRAME_SIZE <= f <
    clamp_frames (u64 (u64 (bm_addr - KERNEL_VMA) + 8 * PMM_BITMAP_WORDS + FRAME_SIZE - 1) / FRAME_SIZE).

Lemma init_tail_ok s : bm_ok (bitmap s) -> bm_ok (bitmap (init_tail s)).
Proof.
  intros Hok. apply mark_range_used_ok; [apply u64_range|].
  apply mark_range_used_ok; [lia|]. simpl. auto with kernel.
Qed.

Lemma init_tail_free s f : bm_ok (bitmap s) -> 0 <= f < PMM_MAX_FRAMES ->
  frame_used (bitmap (init_tail s)) f = false <->
  frame_used (bitmap s) f = false /\ ~ reserved f.
Proof.
  intros Hok Hf. unfold init_tail.
  set (s1 := mk_pmm _ _ _ _).
  assert (bm_ok (bitmap s1)) by (simpl; auto with kernel).
  rewrite mark_range_used_used;
    [|by apply mark_range_used_ok; [lia|]|apply u64_range|lia].
  rewrite mark_range_used_used by (done || lia). subst s1. cbn [bitmap].
  rewrite frame_used_set by (done || lia).
  change (0x100000 / FRAME_SIZE) with 0x100.
  replace (u64 (0x100000 + u64 (u64 (kernel_end - KERNEL_VMA) - 0x100000) + FRAME_SIZE - 1))
    with (u64 (u64 (kernel_end - KERNEL_VMA) + FRAME_SIZE - 1)).
  2: { set (k := u64 (kernel_end - KERNEL_VMA)).
       replace (0x100000 + u64 (k - 0x100000) + FRAME_SIZE - 1)
         with (u64 (k - 0x100000) + (0x100000 + FRAME_SIZE - 1)) by lia.
       rewrite u64_add_l. f_equal. lia. }
  unfold reserved. rewrite !orb_false_iff, !andb_false_iff, !Z.leb_gt, !Z.ltb_ge, Z.eqb_neq.
  intuition lia.
Qed.
End init.

(** ** Steps of the allocator *)

Inductive pmm_step (st : pmm_state) : pmm_state -> Prop :=
| pmm_step_alloc : pmm_step st (pmm_alloc_frame st).2
| pmm_step_free phys : 0 <= phys -> pmm_step st (pmm_free_frame st phys)
| pmm_step_range_used base len : 0 <= base -> pmm_step st (mark_range_used st base len)
| pmm_step_range_free base len : 0 <= base -> pmm_step st (mark_range_free st base len).

Lemma pmm_alloc_inv st : pmm_inv st -> pmm_inv (pmm_alloc_frame st).2.
Proof.
  intros [Hok Hn]. destruct (pmm_alloc_cases st Hok) as [(f & Hf & Hu & _ & ->)|[_ ->]]; [|done].
  pose proof (nfree_set _ _ Hok Hf Hu). pose proof (nfree_bounds (bitmap_set (bitmap st) f)).
  change PMM_MAX_FRAMES with 1048576 in *.
  split; simpl; [auto with kernel|]. rewrite u64_small by lia. lia.
Qed.

Lemma pmm_free_inv st phys : 0 <= phys -> pmm_inv st -> pmm_inv (pmm_free_frame st phys).
Proof.
  intros Hp [Hok Hn]. rewrite pmm_free_cases by done. destruct (_ && _) eqn:E; [|done].
  bool_hyps. assert (0 <= phys / FRAME_SIZE < PMM_MAX_FRAMES) as Hf by (unfold FRAME_SIZE in *; zlia).
  pose proof (nfree_clear (bitmap st) _ Hok Hf ltac:(done)).
  pose proof (nfree_bounds (bitmap_clear (bitmap st) (phys / FRAME_SIZE))).
  change PMM_MAX_FRAMES with 1048576 in *.
  split; simpl; [auto with kernel|]. rewrite u64_small by lia. lia.
Qed.

Lemma pmm_step_inv st st' : pmm_step st st' -> pmm_inv st -> pmm_inv st'.
Proof.
  intros Hs Hinv. destruct Hs as [|phys Hp|base len Hb|base len Hb].
  - by apply pmm_alloc_inv.
  - by apply pmm_free_inv.
  - apply pmm_off_0, mark_range_used_inv; [done| |by apply pmm_off_0].
    intros s f Hf H. apply mark_used_off; [done|done|done|by right].
  - apply pmm_off_0, mark_range_free_inv; [done| |by apply pmm_off_0].
    intros s f Hf H. by apply mark_free_off.
Qed.

(** A state with one free frame, for the witnesses: frame 7 of an otherwise
    full bitmap. *)
Definition one_free : pmm_state :=
  pmm_free_frame (mk_pmm all_used PMM_MAX_FRAMES 0 0x1000) 0x7000.

Lemma one_free_inv : pmm_inv one_free.
Proof.
  apply pmm_free_inv; [lia|]. split; [apply all_used_ok|symmetry; apply all_used_nfree].
Qed.

(** ** Properties *)

(** C9. [pmm_alloc_frame] is first fit: on a well-formed bitmap it either returns
    the address of the lowest free frame, sets that frame's bit, no other bit,
    and decrements the counter, or returns 0 and changes nothing, the latter
    exactly when every frame is used. *)
Theorem pmm_alloc_first_fit st (Hok : bm_ok (bitmap st)) :
  (exists f, 0 <= f < PMM_MAX_FRAMES /\ frame_used (bitmap st) f = false /\
     (forall g, 0 <= g < f -> frame_used (bitmap st) g = true) /\
     (pmm_alloc_frame st).1 = f * FRAME_SIZE /\
     (forall g, 0 <= g -> frame_used (bitmap (pmm_alloc_frame st).2) g =
                          (f =? g) || frame_used (bitmap st) g) /\
     free_frames (pmm_alloc_frame st).2 = u64 (free_frames st - 1)) \/
  ((forall g, 0 <= g < PMM_MAX_FRAMES -> frame_used (bitmap st) g = true) /\
   pmm_alloc_frame st = (0, st)).
Proof.
  destruct (pmm_alloc_cases st Hok) as [(f & Hf & Hu & Hlow & ->)|?]; [left|by right].
  exists f. split; [done|]. split; [done|]. split; [done|]. split; [done|]. split; [|done].
  intros g Hg. by apply frame_used_set.
Qed.

Lemma pmm_alloc_first_fit_witness :
  pmm_alloc_frame one_free <> (0, one_free) /\
  exists f, 0 <= f < PMM_MAX_FRAMES /\ (pmm_alloc_frame one_free).1 = f * FRAME_SIZE.
Proof.
  assert (pmm_alloc_frame one_free <> (0, one_free)) as Hne.
  { intros H. apply (f_equal fst) in H. vm_compute in H. discriminate H. }
  split; [exact Hne|].
  destruct (pmm_alloc_first_fit one_free (proj1 one_free_inv)) as [(f & Hf & _ & _ & H & _)|[_ H]].
  - exists f. split; [exact Hf|exact H].
  - destruct (Hne H).
Defined.

(** The counter is right in every reachable state: starting from a state in
    which [free_frames] is the number of clear bits, every sequence of
    allocations, frees (double frees and out-of-range frees included) and range
    markings ends in such a state, so the unsigned counter never wraps. *)
Theorem pmm_counter_invariant st st' (Hinv : pmm_inv st) (Hsteps : rtc pmm_step st st') :
  bm_ok (bitmap st') /\ free_frames st' = nfree (bitmap st') /\
  0 <= free_frames st' <= PMM_MAX_FRAMES.
Proof.
  assert (pmm_inv st') as [Hok Hn].
  { induction Hsteps; [done|]. eauto using pmm_step_inv. }
  rewrite Hn. eauto using nfree_bounds.
Qed.

Lemma pmm_counter_invariant_witness :
  let st' := (pmm_alloc_frame (pmm_alloc_frame one_free).2).2 in
  free_frames st' = nfree (bitmap st').
Proof.
  intros st'. apply (pmm_counter_invariant one_free st' one_free_inv).
  eapply rtc_l; [apply pmm_step_alloc|]. eapply rtc_l; [apply pmm_step_alloc|]. apply rtc_refl.
Defined.

(** Freeing an allocated frame undoes the allocation: the set of used frames
    and the counter are those before it, and the next allocation returns the
    same frame again.  A second free of the frame does nothing. *)
Theorem pmm_alloc_free_roundtrip st (Hinv : pmm_inv st)
    (Hsome : (pmm_alloc_frame st).1 <> 0) :
  let '(p, st1) := pmm_alloc_frame st in
  let st2 := pmm_free_frame st1 p in
  (forall g, 0 <= g -> frame_used (bitmap st2) g = frame_used (bitmap st) g) /\
  free_frames st2 = free_frames st /\
  (pmm_alloc_frame st2).1 = p /\
  pmm_free_frame st2 p = st2.
Proof.
  destruct Hinv as [Hok Hn].
  destruct (pmm_alloc_cases st Hok) as [(f & Hf & Hu & Hlow & Heq)|[_ Heq]];
    rewrite Heq in *; [|done].
  assert (f * FRAME_SIZE / FRAME_SIZE = f) as Hdiv by (apply Z.div_mul; done).
  assert (frame_used (bitmap_set (bitmap st) f) f = true) as Hset
    by (rewrite frame_used_set, Z.eqb_refl by (done || lia); done).
  pose proof (nfree_set _ _ Hok Hf Hu) as Hns.
  pose proof (nfree_bounds (bitmap_set (bitmap st) f)). pose proof (nfree_bounds (bitmap st)).
  change PMM_MAX_FRAMES with 1048576 in *.
  assert (0 <= f * FRAME_SIZE) as Hnn by (unfold FRAME_SIZE; lia).
  rewrite (pmm_free_cases _ (f * FRAME_SIZE)) by done. simpl bitmap. rewrite Hdiv, Hset.
  change PMM_MAX_FRAMES with 1048576. destruct (Z.ltb_spec f 1048576); [|lia]. simpl andb.
  set (st2 := set_bitmap _ _ _). simpl in st2.
  assert (bm_ok (bitmap st2)) as Hok2 by (simpl; auto with kernel).
  assert (forall g, 0 <= g -> frame_used (bitmap st2) g = frame_used (bitmap st) g) as Hsame.
  { intros g Hg. simpl. rewrite frame_used_clear, frame_used_set by (auto with kernel || lia).
    destruct (Z.eqb_spec f g) as [<-|]; simpl; [by rewrite Hu|done]. }
  split_and!; [done| | |].
  - simpl. rewrite (u64_small (free_frames st - 1)), u64_small by lia. lia.
  - destruct (pmm_alloc_cases st2 Hok2) as [(f2 & Hf2 & Hu2 & Hlow2 & ->)|[Hall _]]; simpl.
    + f_equal. rewrite Hsame in Hu2 by lia. destruct (Z.lt_trichotomy f f2) as [Hlt|[->|Hlt]]; [|done|].
      * specialize (Hlow2 f ltac:(lia)). rewrite Hsame in Hlow2 by lia. congruence.
      * specialize (Hlow f2 ltac:(lia)). congruence.
    + specialize (Hall f ltac:(done)). rewrite Hsame in Hall by lia. congruence.
  - rewrite pmm_free_cases by done. rewrite Hdiv, Hsame, Hu by lia. by rewrite andb_false_r.
Qed.

Lemma pmm_alloc_free_roundtrip_witness :
  (pmm_alloc_frame (pmm_free_frame (pmm_alloc_frame one_free).2 0x7000)).1 = 0x7000.
Proof.
  assert ((pmm_alloc_frame one_free).1 = 0x7000) as H by (vm_compute; reflexivity).
  pose proof (pmm_alloc_free_roundtrip one_free one_free_inv ltac:(rewrite H; lia)) as Hr.
  destruct (pmm_alloc_frame one_free) as [p st1]. simpl in H. subst p.
  exact (proj1 (proj2 (proj2 Hr))).
Defined.

(** What [pmm_init] leaves, on well-formed multiboot2 data. *)
Section init_frames.
Context (fuel : nat) (m : mem) (kernel_end bm_addr : Z) (st0 : pmm_state).
Let start := u64 (mb2_info_phys st0 + 8).
Let end_addr := u64 (mb2_info_phys st0 + load32 m (mb2_info_phys st0)).

Lemma pmm_init_exact : bytes_ok m -> mb2_info_phys st0 <> 0 -> mb2_wf m end_addr start ->
  load32 m (mb2_info_phys st0) <= Z.of_nat fuel -> 0 <= mb2_info_phys st0 < 2 ^ 63 ->
  exists st, pmm_init fuel m kernel_end bm_addr st0 = Some (0, st) /\ bm_ok (bitmap st) /\
    forall f, 0 <= f < PMM_MAX_FRAMES ->
      frame_used (bitmap st) f = false <-> in_avail m end_addr start f /\ ~ reserved kernel_end bm_addr f.
Proof.
  intros Hm Hptr Hwf Hfuel Hphys.
  assert (end_addr - start <= Z.of_nat fuel) as Hfu.
  { pose proof (load_range 4 m (mb2_info_phys st0) Hm). unfold end_addr, start. rewrite !u64_small by lia. lia. }
  destruct (walk_total m Hm st0 fuel Hwf Hfu) as (s & us & cnt & Hl & [Hok _] & Hav).
  exists (init_tail kernel_end bm_addr s). split; [by eapply pmm_init_eq|]. split; [by apply init_tail_ok|].
  intros f Hf. rewrite init_tail_free by done. split; intros [Hu Hr]; split; try done; [by apply Hav|].
  by eapply (walk_frees m Hm st0).
Qed.

Lemma pmm_init_frames : bytes_ok m -> mb2_info_phys st0 <> 0 -> mb2_wf m end_addr start ->
  load32 m (mb2_info_phys st0) <= Z.of_nat fuel -> 0 <= mb2_info_phys st0 < 2 ^ 63 ->
  exists st, pmm_init fuel m kernel_end bm_addr st0 = Some (0, st) /\
    bm_ok (bitmap st) /\ frame_used (bitmap st) 0 = true /\
    forall f, 0 <= f < PMM_MAX_FRAMES -> frame_used (bitmap st) f = false ->
      in_avail m end_addr start f /\ ~ reserved kernel_end bm_addr f.
Proof.
  intros H1 H2 H3 H4 H5. destruct (pmm_init_exact H1 H2 H3 H4 H5) as (st & E & Hok & Hf). exists st. split_and!; [done|done| |].
  - apply not_false_iff_true. rewrite Hf by done. intros [_ Hr]. apply Hr. by left.
  - intros f Hff. by apply Hf.
Qed.
End init_frames.


(** A multiboot2 structure at [0x1000]: one memory map with one available region
    of three frames at [0x200000], then the end tag. *)
Definition demo_mb2 : mem :=
  foldr (fun '(a, v) m => store32 m a v) (fun _ => 0)
    [(0x1000, 56);
     (0x1008, MB2_TAG_MMAP); (0x100C, 40); (0x1010, 24);
     (0x1018, 0x200000); (0x1020, 0x3000); (0x1028, MB2_MMAP_AVAILABLE);
     (0x1030, MB2_TAG_END); (0x1034, 8)].
Definition demo_st : pmm_state := mk_pmm [] 0 0 0x1000.

Lemma demo_mb2_ok : bytes_ok demo_mb2.
Proof. unfold demo_mb2. cbn [foldr]. repeat apply store_bytes_ok. intros a. lia. Qed.

Lemma demo_tags t : tag_reach demo_mb2 0x1038 0x1008 t -> t = 0x1008 \/ t = 0x1030.
Proof.
  induction 1 as [|t _ [-> | ->] Hlt Hne]; [by left|right; by vm_compute|].
  exfalso. by apply Hne.
Qed.

Lemma demo_mb2_wf : mb2_wf demo_mb2 0x1038 0x1008.
Proof.
  split; [lia|]. intros t [-> | ->]%demo_tags Hlt Hne; [|exfalso; by apply Hne].
  change (load32 demo_mb2 (0x1008 + 4)) with 40. change (load32 demo_mb2 (0x1008 + 8)) with 24.
  split_and!; lia.
Qed.

Lemma demo_entries e : entry_reach demo_mb2 0x1008 e -> e = 0x1018 \/ e = 0x1030.
Proof.
  induction 1 as [|e _ [-> | ->] Hlt]; [by left|right; by vm_compute|].
  by vm_compute in Hlt.
Qed.

(** Only the three frames of the region are available. *)
Lemma demo_region base len : avail_region demo_mb2 0x1038 0x1008 base len <-> base = 0x200000 /\ len = 0x3000.
Proof.
  split.
  - intros (t & e & [-> | ->]%demo_tags & Hmm & He & _ & Hlt & _ & -> & -> & _); [|by vm_compute in Hmm].
    apply demo_entries in He as [-> | ->]; [by vm_compute|by vm_compute in Hlt].
  - intros [-> ->]. exists 0x1008, 0x1018. split; [constructor|]. split; [by vm_compute|]. split; [exact (entry_reach_first demo_mb2 0x1008)|].
    split_and!; by vm_compute.
Qed.
Lemma demo_avail f : in_avail demo_mb2 0x1038 0x1008 f -> 0x200 <= f < 0x203.
Proof. intros (base & len & [-> ->]%demo_region & Hf). unfold FRAME_SIZE in Hf. lia. Qed.


(** The counter after [init_tail] when frame 0 was already used: exact but for
    one frame, or at zero. *)
Lemma init_tail_off kernel_end bm_addr s : pmm_inv s -> frame_used (bitmap s) 0 = true ->
  let s' := init_tail kernel_end bm_addr s in pmm_off 1 s' \/ free_frames s' = 0.
Proof.
  intros Hinv H0. pose proof (proj1 (pmm_off_0 s) Hinv) as (Hok & Hnn & Hn).
  assert (forall s f, 0 <= f < PMM_MAX_FRAMES -> pmm_off 1 s \/ free_frames s = 0 ->
            pmm_off 1 (mark_used s f) \/ free_frames (mark_used s f) = 0) as Hstep.
  { clear. intros s f Hf H. destruct (Z.eq_dec (free_frames s) 0) as [Hz|Hz].
    - right. unfold mark_used. rewrite Hz. by destruct (bitmap_test _ _).
    - left. destruct H as [H|]; [|done]. apply mark_used_off; [done|lia|done|].
      left. destruct H as (_ & ? & _). lia. }
  set (P := fun s => pmm_off 1 s \/ free_frames s = 0).
  apply (mark_range_used_inv P); [apply u64_range|done|].
  apply (mark_range_used_inv P); [lia|done|]. unfold P, pmm_off. cbn [bitmap free_frames].
  rewrite Z.gtb_ltb. case_ltb; [left|right; lia]. split; [auto with kernel|].
  rewrite (nfree_ext (bitmap_set (bitmap s) 0) (bitmap s)); [lia|].
  intros f Hf. rewrite frame_used_set by (done || lia).
  destruct (Z.eqb_spec 0 f) as [<-|]; [by rewrite H0|done].
Qed.

(** [pmm_init] under-reports free memory: it decrements the counter for
    frame 0 without asking whether the frame was free, so on a memory map in
    which no available region reaches frame 0, [free_frames] is one less than
    the number of free frames. *)
Theorem pmm_init_undercount fuel m kernel_end bm_addr st0 st
    (Hm : bytes_ok m) (Hptr : 0 < mb2_info_phys st0 < 2 ^ 63)
    (Hwf : mb2_wf m (u64 (mb2_info_phys st0 + load32 m (mb2_info_phys st0)))
             (u64 (mb2_info_phys st0 + 8)))
    (Hfuel : load32 m (mb2_info_phys st0) <= Z.of_nat fuel)
    (H0 : ~ in_avail m (u64 (mb2_info_phys st0 + load32 m (mb2_info_phys st0)))
              (u64 (mb2_info_phys st0 + 8)) 0)
    (Hinit : pmm_init fuel m kernel_end bm_addr st0 = Some (0, st))
    (Hpos : free_frames st <> 0) :
  nfree (bitmap st) = free_frames st + 1.
Proof.
  destruct (walk_total m Hm st0 fuel Hwf) as (s & us & cnt & Hl & Hinv & Hav).
  { pose proof (load_range 4 m (mb2_info_phys st0) Hm). rewrite !u64_small by lia. lia. }
  erewrite pmm_init_eq in Hinit by (lia || eassumption). injection Hinit as <-.
  assert (frame_used (bitmap s) 0 = true) as Hu.
  { apply not_false_iff_true. intros Hf. by apply H0, Hav. }
  destruct (init_tail_off kernel_end bm_addr s Hinv Hu) as [(_ & _ & H)|H]; [exact H|done].
Qed.

Lemma pmm_init_undercount_witness :
  exists st, pmm_init 56 demo_mb2 (KERNEL_VMA + 0x180000) (KERNEL_VMA + 0x120000) demo_st = Some (0, st) /\
    free_frames st = 2 /\ nfree (bitmap st) = 3.
Proof.
  pose (r := pmm_init 56 demo_mb2 (KERNEL_VMA + 0x180000) (KERNEL_VMA + 0x120000) demo_st).
  assert (free_frames <$> (snd <$> r) = Some 2) as Hf by (vm_compute; reflexivity).
  assert (fst <$> r = Some 0) as Hz by (vm_compute; reflexivity).
  destruct r as [[z st]|] eqn:Hr; [|discriminate Hf].
  injection Hz as ->. injection Hf as Hf. exists st. split; [exact Hr|]. split; [exact Hf|].
  rewrite (pmm_init_undercount 56 demo_mb2 (KERNEL_VMA + 0x180000) (KERNEL_VMA + 0x120000) demo_st st).
  - rewrite Hf. reflexivity.
  - exact demo_mb2_ok.
  - simpl. lia.
  - exact demo_mb2_wf.
  - vm_compute. discriminate.
  - intros H. apply demo_avail in H. lia.
  - exact Hr.
  - rewrite Hf. discriminate.
Defined.

(** ** The interface of the frame allocator

    What the virtual memory manager, the heap and the program loader rely on:
    operations on an abstract allocator state, and laws. [fa_used s f] says
    that frame number [f] is not available. *)

Class FrameAlloc (S : Type) := {
  fa_alloc : S -> Z * S;
  fa_free : S -> Z -> S;
  fa_used : S -> Z -> bool;
  fa_ok : S -> Prop
}.

Class FrameAllocLaws (S : Type) `{!FrameAlloc S} := {
  fa_alloc_ok s : fa_ok s -> fa_ok (fa_alloc s).2;
  fa_alloc_cases s : fa_ok s ->
    ((fa_alloc s).1 = 0 /\ (fa_alloc s).2 = s) \/
    (exists f, 0 < f < PMM_MAX_FRAMES /\ (fa_alloc s).1 = f * FRAME_SIZE /\ fa_used s f = false /\
       forall g, 0 <= g -> fa_used (fa_alloc s).2 g = (f =? g) || fa_used s g);
  fa_alloc_complete s f : fa_ok s -> 0 < f < PMM_MAX_FRAMES -> fa_used s f = false -> (fa_alloc s).1 <> 0;
  fa_free_ok s p : fa_ok s -> FRAME_SIZE <= p -> fa_ok (fa_free s p);
  fa_free_used s p g : fa_ok s -> FRAME_SIZE <= p -> 0 <= g ->
    fa_used (fa_free s p) g =
      negb ((p / FRAME_SIZE =? g) && (p / FRAME_SIZE <? PMM_MAX_FRAMES)) && fa_used s g
}.

#[export] Instance pmm_FrameAlloc : FrameAlloc pmm_state := {
  fa_alloc := pmm_alloc_frame;
  fa_free := pmm_free_frame;
  fa_used s f := frame_used (bitmap s) f;
  fa_ok s := bm_ok (bitmap s) /\ frame_used (bitmap s) 0 = true
}.

#[export] Instance pmm_FrameAllocLaws : FrameAllocLaws pmm_state.
Proof.
  split; simpl.
  - intros s [Hok H0]. destruct (pmm_alloc_cases s Hok) as [(f & Hf & Hu & _ & ->)|[_ ->]]; [|done].
    split; simpl; [auto with kernel|]. rewrite frame_used_set by (done || lia).
    rewrite H0. apply orb_true_r.
  - intros s [Hok H0]. destruct (pmm_alloc_cases s Hok) as [(f & Hf & Hu & _ & ->)|[_ ->]]; [right|by left].
    exists f. split; [destruct (Z.eq_dec f 0); [congruence|lia]|].
    split; [done|]. split; [done|]. intros g Hg. by apply frame_used_set.
  - intros s f [Hok H0] Hf Hu. destruct (pmm_alloc_cases s Hok) as [(g & Hg & Hgu & _ & ->)|[Hall _]].
    + simpl. unfold FRAME_SIZE. destruct (Z.eq_dec g 0); [congruence|lia].
    + rewrite Hall in Hu by lia. done.
  - intros s p [Hok H0] Hp. unfold FRAME_SIZE in Hp. rewrite pmm_free_cases by lia.
    destruct (_ && _) eqn:E; [|done]. bool_hyps. split; simpl; [auto with kernel|].
    unfold FRAME_SIZE in *. rewrite frame_used_clear, H0 by (done || zlia).
    destruct (Z.eqb_spec (p / 4096) 0); [zlia|done].
  - intros s p g [Hok H0] Hp Hg. unfold FRAME_SIZE in *. rewrite pmm_free_cases by lia.
    unfold FRAME_SIZE. destruct (Z.ltb_spec (p / 4096) PMM_MAX_FRAMES); simpl.
    + rewrite andb_true_r. destruct (frame_used (bitmap s) (p / 4096)) eqn:E.
      * apply frame_used_clear; [done|zlia|done].
      * destruct (Z.eqb_spec (p / 4096) g) as [<-|]; [by rewrite E|done].
    + by rewrite andb_false_r.
Qed.
