(* ===== verification/Vmm.v ===== *)
(** * Virtual memory manager ([src/vmm/vmm.c], [src/vmm/vmm_internal.h])

    Four-level page tables in kernel memory, reached through the higher-half
    window [PHYS_TO_VIRT].  [kst] is the machine state the memory components
    share: the memory, the frame allocator, the control register [cr3], the two
    globals of [vmm.c] and the log of privileged operations (TLB, gates).  The allocator is any
    implementation of [FrameAlloc] (the interface of [Pmm.v]); the operations
    are those of [vmm.c], one definition per function.

    Shown here: [vmm_get_phys] is the table walk [walkn]; the invariant
    [vm_inv] (every present non-huge entry of a level-[k] table points to a
    table of level [k-1], with one parent) is preserved by mapping, unmapping,
    address-space creation and copy-on-write resolution; after a map the page
    translates to the frame and every other translation, in this and in every
    other address space, is the one before. *)

From S2P Require Import Prelude Mem Pmm.

(** ** Constants *)

Definition PAGE_SIZE : Z := 4096.
Definition PAGE_MASK : Z := not64 (PAGE_SIZE - 1).
Definition PTE_PRESENT : Z := 1 <<b 0.
Definition PTE_WRITE : Z := 1 <<b 1.
Definition PTE_USER : Z := 1 <<b 2.
Definition PTE_HUGE : Z := 1 <<b 7.
Definition PTE_COW : Z := 1 <<b 9.
Definition PTE_NX : Z := 1 <<b 63.
Definition PTE_ADDR_MASK : Z := 0x000FFFFFFFFFF000.
Definition PT_ENTRIES : Z := 512.

Definition VA_PML4_IDX (va : Z) : Z := (va >>b 39) &b 0x1FF.
Definition VA_PDPT_IDX (va : Z) : Z := (va >>b 30) &b 0x1FF.
Definition VA_PDT_IDX (va : Z) : Z := (va >>b 21) &b 0x1FF.
Definition VA_PT_IDX (va : Z) : Z := (va >>b 12) &b 0x1FF.

Definition PHYS_TO_VIRT (p : Z) : Z := u64 (KERNEL_VMA + p).
Definition VIRT_TO_PHYS (v : Z) : Z := u64 (v - KERNEL_VMA).

(** ** State *)

Inductive cpu_event :=
| Invlpg (va : Z)
| WriteCr3 (pml4 : Z)
| SetGate (vector ist : Z).

Record kst (S : Type) := mk_kst {
  mm : mem;
  fa : S;
  cr3 : Z;
  pml4_phys : Z;
  kernel_pml4_phys : Z;
  cpu_log : list cpu_event
}.
Arguments mk_kst {S}.
Arguments mm {S}.
Arguments fa {S}.
Arguments cr3 {S}.
Arguments pml4_phys {S}.
Arguments kernel_pml4_phys {S}.
Arguments cpu_log {S}.

Section vmm.
Context {S : Type} `{!FrameAlloc S}.
Implicit Types (k : kst S).

Definition set_mm k (m : mem) : kst S :=
  mk_kst m (fa k) (cr3 k) (pml4_phys k) (kernel_pml4_phys k) (cpu_log k).
Definition set_fa k (s : S) : kst S :=
  mk_kst (mm k) s (cr3 k) (pml4_phys k) (kernel_pml4_phys k) (cpu_log k).
Definition invlpg k (virt : Z) : kst S :=
  mk_kst (mm k) (fa k) (cr3 k) (pml4_phys k) (kernel_pml4_phys k) (Invlpg virt :: cpu_log k).
Definition write_cr3 k (v : Z) : kst S :=
  mk_kst (mm k) (fa k) v (pml4_phys k) (kernel_pml4_phys k) (WriteCr3 v :: cpu_log k).
Definition read_cr3 k : Z := cr3 k.

(** [pmm_alloc_frame()] and [pmm_free_frame(p)] on the machine state. *)
Definition alloc_frame k : Z * kst S :=
  let '(frame, s) := fa_alloc (fa k) in (frame, set_fa k s).
Definition free_frame k (p : Z) : kst S := set_fa k (fa_free (fa k) p).

(** [table\[i\]] for a [u64 *table]. *)
Definition ld k (table i : Z) : Z := load64 (mm k) (table + 8 * i).
Definition st k (table i v : Z) : kst S := set_mm k (store64 (mm k) (table + 8 * i) v).

(** ** Mapping *)

(** The entry is passed as table and index; the result is the virtual address of
    the next table, 0 ([NULL]) when no frame is left. *)
Definition get_or_alloc_table k (table i flags : Z) : Z * kst S :=
  if negb (has (ld k table i) PTE_PRESENT) then
    let '(frame, k) := alloc_frame k in
    if frame =? 0 then (0, k)
    else
      let k := set_mm k (memset (mm k) (PHYS_TO_VIRT frame) 0 PAGE_SIZE) in
      let k := st k table i (frame |b flags |b PTE_PRESENT) in
      (PHYS_TO_VIRT (ld k table i &b PTE_ADDR_MASK), k)
  else (PHYS_TO_VIRT (ld k table i &b PTE_ADDR_MASK), k).

(** The three table steps and the leaf write that [vmm_map_page],
    [vmm_map_user_page] and [vmm_map_kernel_in_user_pml4] have in common:
    [false] is the early [return -1]. *)
Definition map_in k (root virt phys flags tflags : Z) : bool * kst S :=
  let pml4 := PHYS_TO_VIRT root in
  let '(pdpt, k) := get_or_alloc_table k pml4 (VA_PML4_IDX virt) tflags in
  if pdpt =? 0 then (false, k)
  else
    let '(pdt, k) := get_or_alloc_table k pdpt (VA_PDPT_IDX virt) tflags in
    if pdt =? 0 then (false, k)
    else
      let '(pt, k) := get_or_alloc_table k pdt (VA_PDT_IDX virt) tflags in
      if pt =? 0 then (false, k)
      else (true, st k pt (VA_PT_IDX virt) ((phys &b PTE_ADDR_MASK) |b flags |b PTE_PRESENT)).

Definition vmm_map_page k (virt phys flags : Z) : Z * kst S :=
  let '(ok, k) := map_in k (pml4_phys k) virt phys flags (PTE_WRITE |b PTE_USER) in
  if ok then (0, invlpg k virt) else (-1, k).

Definition flush_if_current k (target virt : Z) : kst S :=
  if (read_cr3 k &b PTE_ADDR_MASK) =? target then invlpg k virt else k.

Definition vmm_map_user_page k (target virt phys flags : Z) : Z * kst S :=
  let '(ok, k) := map_in k target virt phys flags (PTE_WRITE |b PTE_USER) in
  if ok then (0, flush_if_current k target virt) else (-1, k).

Definition vmm_map_kernel_in_user_pml4 k (target virt phys flags : Z) : Z * kst S :=
  let '(ok, k) := map_in k target virt phys flags PTE_WRITE in
  if ok then (0, flush_if_current k target virt) else (-1, k).

Definition vmm_unmap_page k (virt : Z) : kst S :=
  let pml4 := PHYS_TO_VIRT (pml4_phys k) in
  let e4 := ld k pml4 (VA_PML4_IDX virt) in
  if negb (has e4 PTE_PRESENT) then k
  else
    let pdpt := PHYS_TO_VIRT (e4 &b PTE_ADDR_MASK) in
    let e3 := ld k pdpt (VA_PDPT_IDX virt) in
    if negb (has e3 PTE_PRESENT) then k
    else
      let pdt := PHYS_TO_VIRT (e3 &b PTE_ADDR_MASK) in
      let e2 := ld k pdt (VA_PDT_IDX virt) in
      if negb (has e2 PTE_PRESENT) then k
      else
        let pt := PHYS_TO_VIRT (e2 &b PTE_ADDR_MASK) in
        invlpg (st k pt (VA_PT_IDX virt) 0) virt.

(** ** Translation *)

(** [vmm_get_phys] reads the global [pml4_phys]; the walk itself takes the root. *)
Definition get_phys_in k (root virt : Z) : Z :=
  let pml4 := PHYS_TO_VIRT root in
  let e4 := ld k pml4 (VA_PML4_IDX virt) in
  if negb (has e4 PTE_PRESENT) then 0
  else
    let pdpt := PHYS_TO_VIRT (e4 &b PTE_ADDR_MASK) in
    let e3 := ld k pdpt (VA_PDPT_IDX virt) in
    if negb (has e3 PTE_PRESENT) then 0
    else if has e3 PTE_HUGE then (e3 &b 0x000FFFFFC0000000) |b (virt &b 0x3FFFFFFF)
    else
      let pdt := PHYS_TO_VIRT (e3 &b PTE_ADDR_MASK) in
      let e2 := ld k pdt (VA_PDT_IDX virt) in
      if negb (has e2 PTE_PRESENT) then 0
      else if has e2 PTE_HUGE then (e2 &b 0x000FFFFFFFE00000) |b (virt &b 0x1FFFFF)
      else
        let pt := PHYS_TO_VIRT (e2 &b PTE_ADDR_MASK) in
        let e1 := ld k pt (VA_PT_IDX virt) in
        if negb (has e1 PTE_PRESENT) then 0
        else (e1 &b PTE_ADDR_MASK) |b (virt &b (PAGE_SIZE - 1)).
Definition vmm_get_phys k (virt : Z) : Z := get_phys_in k (pml4_phys k) virt.

Definition vmm_switch_to k (new_pml4 : Z) : kst S :=
  if negb (new_pml4 =? (read_cr3 k &b PTE_ADDR_MASK)) then write_cr3 k new_pml4 else k.

(** ** Address spaces *)

(** [for (i = 0; i < n; i++) dst\[i\] = src\[i\];] from index [i] on. *)
Fixpoint copy_entries (n : nat) k (dst src i : Z) : kst S :=
  match n with
  | O => k
  | Datatypes.S n => copy_entries n (st k dst i (ld k src i)) dst src (i + 1)
  end.

Definition vmm_create_user_pml4 k : Z * kst S :=
  let '(frame, k) := alloc_frame k in
  if frame =? 0 then (0, k)
  else
    let new_pml4 := PHYS_TO_VIRT frame in
    let boot_pml4 := PHYS_TO_VIRT (pml4_phys k) in
    let k := set_mm k (memset (mm k) new_pml4 0 (PAGE_SIZE / 2)) in
    (frame, copy_entries 256 k (new_pml4 + 8 * 256) (boot_pml4 + 8 * 256) 0).

(** ** Copy-on-write cloning *)

Definition cow_entry (e : Z) : Z :=
  if has e PTE_WRITE then (e &b not64 PTE_WRITE) |b PTE_COW else e.

(** The loop of [cow_clone_pt] from entry [i] on. *)
Fixpoint clone_pt_loop (n : nat) k (src_pt dst_pt i : Z) : kst S :=
  match n with
  | O => k
  | Datatypes.S n =>
      let e := ld k src_pt i in
      let k :=
        if negb (has e PTE_PRESENT) then st k dst_pt i 0
        else
          let k := if has e PTE_WRITE then st k src_pt i (cow_entry e) else k in
          st k dst_pt i (cow_entry e) in
      clone_pt_loop n k src_pt dst_pt (i + 1)
  end.

Definition cow_clone_pt k (src_pt : Z) : Z * kst S :=
  let '(frame, k) := alloc_frame k in
  if frame =? 0 then (0, k)
  else (frame, clone_pt_loop 512 k src_pt (PHYS_TO_VIRT frame) 0).

(** The loops of [cow_clone_pdt] and [cow_clone_pdpt] are the same up to the
    function that clones the next level: [false] is the failure branch, taken
    before [pmm_free_frame(frame)]. *)
Fixpoint clone_dir_loop (clone : kst S -> Z -> Z * kst S) (n : nat) k (src dst i : Z)
    : bool * kst S :=
  match n with
  | O => (true, k)
  | Datatypes.S n =>
      let e := ld k src i in
      if negb (has e PTE_PRESENT) then clone_dir_loop clone n (st k dst i 0) src dst (i + 1)
      else if has e PTE_HUGE then clone_dir_loop clone n (st k dst i e) src dst (i + 1)
      else
        let '(sub, k) := clone k (PHYS_TO_VIRT (e &b PTE_ADDR_MASK)) in
        if sub =? 0 then (false, k)
        else clone_dir_loop clone n (st k dst i ((e &b not64 PTE_ADDR_MASK) |b sub)) src dst (i + 1)
  end.

Definition cow_clone_pdt k (src_pdt : Z) : Z * kst S :=
  let '(frame, k) := alloc_frame k in
  if frame =? 0 then (0, k)
  else
    let '(ok, k) := clone_dir_loop cow_clone_pt 512 k src_pdt (PHYS_TO_VIRT frame) 0 in
    if ok then (frame, k) else (0, free_frame k frame).

Definition cow_clone_pdpt k (src_pdpt : Z) : Z * kst S :=
  let '(frame, k) := alloc_frame k in
  if frame =? 0 then (0, k)
  else
    let '(ok, k) := clone_dir_loop cow_clone_pdt 512 k src_pdpt (PHYS_TO_VIRT frame) 0 in
    if ok then (frame, k) else (0, free_frame k frame).

(** ** Destruction *)

Fixpoint free_pdt_loop (n : nat) k (pdt j : Z) : kst S :=
  match n with
  | O => k
  | Datatypes.S n =>
      let e1 := ld k pdt j in
      let k := if negb (has e1 PTE_PRESENT) || has e1 PTE_HUGE then k
               else free_frame k (e1 &b PTE_ADDR_MASK) in
      free_pdt_loop n k pdt (j + 1)
  end.

Fixpoint free_pdpt_loop (n : nat) k (pdpt i : Z) : kst S :=
  match n with
  | O => k
  | Datatypes.S n =>
      let e2 := ld k pdpt i in
      let k := if negb (has e2 PTE_PRESENT) || has e2 PTE_HUGE then k
               else
                 let k := free_pdt_loop 512 k (PHYS_TO_VIRT (e2 &b PTE_ADDR_MASK)) 0 in
                 free_frame k (e2 &b PTE_ADDR_MASK) in
      free_pdpt_loop n k pdpt (i + 1)
  end.

Definition free_user_pdpt k (pdpt_phys : Z) : kst S :=
  free_frame (free_pdpt_loop 512 k (PHYS_TO_VIRT pdpt_phys) 0) pdpt_phys.

Fixpoint free_pml4_loop (n : nat) k (pml4 i : Z) : kst S :=
  match n with
  | O => k
  | Datatypes.S n =>
      let e := ld k pml4 i in
      let k := if negb (has e PTE_PRESENT) then k else free_user_pdpt k (e &b PTE_ADDR_MASK) in
      free_pml4_loop n k pml4 (i + 1)
  end.

Definition vmm_destroy_user_pml4 k (target : Z) : kst S :=
  free_frame (free_pml4_loop 256 k (PHYS_TO_VIRT target) 0) target.

(** The second loop of [vmm_fork_pml4]: [false] is the early [return 0]. *)
Fixpoint fork_loop (n : nat) k (src_pml4 dst_pml4 i : Z) : bool * kst S :=
  match n with
  | O => (true, k)
  | Datatypes.S n =>
      let e := ld k src_pml4 i in
      if negb (has e PTE_PRESENT) then fork_loop n (st k dst_pml4 i 0) src_pml4 dst_pml4 (i + 1)
      else
        let '(new_pdpt, k) := cow_clone_pdpt k (PHYS_TO_VIRT (e &b PTE_ADDR_MASK)) in
        if new_pdpt =? 0 then (false, k)
        else fork_loop n (st k dst_pml4 i ((e &b not64 PTE_ADDR_MASK) |b new_pdpt))
               src_pml4 dst_pml4 (i + 1)
  end.

Definition vmm_fork_pml4 k (src_pml4_phys : Z) : Z * kst S :=
  let '(frame, k) := alloc_frame k in
  if frame =? 0 then (0, k)
  else
    let src_pml4 := PHYS_TO_VIRT src_pml4_phys in
    let dst_pml4 := PHYS_TO_VIRT frame in
    let k := set_mm k (memset (mm k) dst_pml4 0 (PAGE_SIZE / 2)) in
    let k := copy_entries 256 k (dst_pml4 + 8 * 256) (src_pml4 + 8 * 256) 0 in
    let '(ok, k) := fork_loop 256 k src_pml4 dst_pml4 0 in
    if ok then (frame, write_cr3 k src_pml4_phys)
    else (0, vmm_destroy_user_pml4 k frame).

(** ** Page faults *)

Definition cow_handle k (cr2 : Z) : Z * kst S :=
  let cur_pml4 := read_cr3 k &b PTE_ADDR_MASK in
  let pml4 := PHYS_TO_VIRT cur_pml4 in
  let e4 := ld k pml4 (VA_PML4_IDX cr2) in
  if negb (has e4 PTE_PRESENT) then (0, k)
  else
    let pdpt := PHYS_TO_VIRT (e4 &b PTE_ADDR_MASK) in
    let e3 := ld k pdpt (VA_PDPT_IDX cr2) in
    if negb (has e3 PTE_PRESENT) || has e3 PTE_HUGE then (0, k)
    else
      let pdt := PHYS_TO_VIRT (e3 &b PTE_ADDR_MASK) in
      let e2 := ld k pdt (VA_PDT_IDX cr2) in
      if negb (has e2 PTE_PRESENT) || has e2 PTE_HUGE then (0, k)
      else
        let pt := PHYS_TO_VIRT (e2 &b PTE_ADDR_MASK) in
        let pte := ld k pt (VA_PT_IDX cr2) in
        if negb (has pte PTE_PRESENT) || negb (has pte PTE_COW) then (0, k)
        else
          let old_phys := pte &b PTE_ADDR_MASK in
          let '(new_phys, k) := alloc_frame k in
          if new_phys =? 0 then (0, k)
          else
            let k := set_mm k (memcpy (mm k) (PHYS_TO_VIRT new_phys) (PHYS_TO_VIRT old_phys) PAGE_SIZE) in
            let pte := ld k pt (VA_PT_IDX cr2) in
            let k := st k pt (VA_PT_IDX cr2)
                       ((pte &b not64 (PTE_ADDR_MASK |b PTE_COW)) |b new_phys |b PTE_WRITE) in
            (1, invlpg k (cr2 &b PAGE_MASK)).

(** [page_fault_handler_c]: [None] is the halt loop after the diagnostics. *)
Definition page_fault_handler_c k (err cr2 : Z) : option (kst S) :=
  if (err &b 3) =? 3 then
    let '(handled, k) := cow_handle k cr2 in
    if negb (handled =? 0) then Some k else None
  else None.

Definition vmm_init k : Z * kst S :=
  let p := read_cr3 k &b PTE_ADDR_MASK in
  (0, mk_kst (mm k) (fa k) (cr3 k) p p (SetGate 14 0 :: cpu_log k)).
End vmm.

(** ** Page-table entries *)

Definition present (e : Z) : bool := has e PTE_PRESENT.
Definition huge (e : Z) : bool := has e PTE_HUGE.

Lemma has_present e : has e PTE_PRESENT = present e.
Proof. done. Qed.
Lemma has_huge e : has e PTE_HUGE = huge e.
Proof. done. Qed.

(** The frame number an entry points to. *)
Definition nxt (e : Z) : Z := (e >>b 12) &b Z.ones 40.

Lemma addr_mask e : Z.land e PTE_ADDR_MASK = nxt e * PAGE_SIZE.
Proof.
  unfold nxt, PAGE_SIZE. change 4096 with (2 ^ 12). rewrite <- Z.shiftl_mul_pow2 by lia.
  change PTE_ADDR_MASK with (Z.shiftl (Z.ones 40) 12).
  apply Z.bits_inj'. intros i Hi. rewrite Z.land_spec.
  destruct (Z.ltb_spec i 12).
  - rewrite !Z.shiftl_spec_low by lia. apply andb_false_r.
  - rewrite !Z.shiftl_spec_high by lia. rewrite Z.land_spec, Z.shiftr_spec by lia.
    by replace (i - 12 + 12) with i by lia.
Qed.

Lemma nxt_range e : 0 <= nxt e < 2 ^ 40.
Proof. unfold nxt. rewrite Z.land_ones by lia. apply Z.mod_pos_bound. lia. Qed.

Lemma nxt_lor a b : nxt (Z.lor a b) = Z.lor (nxt a) (nxt b).
Proof. unfold nxt. by rewrite Z.shiftr_lor, Z.land_lor_distr_l. Qed.

Lemma nxt_frame f : 0 <= f < 2 ^ 40 -> nxt (f * PAGE_SIZE) = f.
Proof.
  intros Hf. unfold nxt, PAGE_SIZE. change 4096 with (2 ^ 12).
  rewrite Z.shiftr_div_pow2, Z.div_mul, Z.land_ones by lia. by apply Z.mod_small.
Qed.

Lemma nxt_flags x : Z.land x PTE_ADDR_MASK = 0 -> nxt x = 0.
Proof. rewrite addr_mask. unfold PAGE_SIZE. lia. Qed.

Lemma present_bit e : present e = Z.testbit e 0.
Proof. apply has_shl. lia. Qed.
Lemma huge_bit e : huge e = Z.testbit e 7.
Proof. apply has_shl. lia. Qed.

(** The low twelve bits of a frame address are clear. *)
Lemma frame_low_bits f n : 0 <= n < 12 -> Z.testbit (f * PAGE_SIZE) n = false.
Proof.
  intros Hn. unfold PAGE_SIZE. change 4096 with (2 ^ 12).
  apply Z.mul_pow2_bits_low. lia.
Qed.

(** ** Tables as frames

    [ent m f i] is entry [i] of the table in frame [f]; frames of the window lie
    below 2 GB. *)

Definition WINDOW : Z := 0x80000.
Definition frame_va (f : Z) : Z := KERNEL_VMA + f * PAGE_SIZE.
Definition ent (m : mem) (f i : Z) : Z := load64 m (frame_va f + 8 * i).

Lemma phys_to_virt f : 0 <= f < WINDOW -> PHYS_TO_VIRT (f * PAGE_SIZE) = frame_va f.
Proof.
  intros Hf. unfold PHYS_TO_VIRT. apply u64_small.
  unfold frame_va, KERNEL_VMA, PAGE_SIZE, WINDOW in *. lia.
Qed.

Lemma frame_va_pos f : 0 <= f -> frame_va f <> 0.
Proof. unfold frame_va, KERNEL_VMA, PAGE_SIZE. lia. Qed.

Lemma ent_range m f i : bytes_ok m -> 0 <= ent m f i < 2 ^ 64.
Proof. intros Hm. apply (load_range 8 m _ Hm). Qed.

Lemma ent_store m f i v g j : 0 <= i < 512 -> 0 <= j < 512 ->
  ent (store64 m (frame_va f + 8 * i) v) g j =
    if (f =? g) && (i =? j) then u64 v else ent m g j.
Proof.
  intros Hi Hj. unfold ent. destruct (Z.eqb_spec f g) as [->|]; [destruct (Z.eqb_spec i j) as [->|]|].
  - apply load_store_eq.
  - apply load_store_ne. lia.
  - apply load_store_ne. unfold frame_va, PAGE_SIZE. lia.
Qed.

Lemma ent_memset m f n g j : 0 <= j < 512 -> 0 <= n <= 512 ->
  ent (memset m (frame_va f) 0 (8 * n)) g j =
    if (f =? g) && (j <? n) then 0 else ent m g j.
Proof.
  intros Hj Hn. unfold ent. destruct ((f =? g) && (j <? n)) eqn:E.
  - bool_hyps. subst g. erewrite load_ext; [apply (load_zero 8)|].
    intros x Hx. rewrite memset_spec by lia. repeat case_ltb; simpl; lia || done.
  - apply load_ext. intros x Hx. rewrite memset_spec by lia.
    replace (_ && _) with false; [done|]. symmetry.
    apply andb_false_iff in E. rewrite andb_false_iff, Z.leb_gt, Z.ltb_ge.
    rewrite Z.eqb_neq, Z.ltb_ge in E. unfold frame_va, PAGE_SIZE in *. lia.
Qed.

(** ** The reference walk *)

Definition idx (l : nat) (va : Z) : Z := (va >>b (3 + 9 * Z.of_nat l)) &b 0x1FF.

Lemma idx_range l va : 0 <= idx l va < 512.
Proof.
  unfold idx. change 0x1FF with (Z.ones 9). rewrite Z.land_ones by lia.
  apply Z.mod_pos_bound. lia.
Qed.

Lemma va_idx4 va : VA_PML4_IDX va = idx 4 va.
Proof. done. Qed.
Lemma va_idx3 va : VA_PDPT_IDX va = idx 3 va.
Proof. done. Qed.
Lemma va_idx2 va : VA_PDT_IDX va = idx 2 va.
Proof. done. Qed.
Lemma va_idx1 va : VA_PT_IDX va = idx 1 va.
Proof. done. Qed.

(** An entry of a level-[l] table that leads to a further table.  The code looks
    at the huge bit below level 4 only. *)
Definition link (l : nat) (e : Z) : bool := present e && ((l =? 4)%nat || negb (huge e)).

(** The slot a walk from the level-[l] table [f] ends in: a page-table slot, or
    the slot of a huge page; [None] when a table is missing on the way. *)
Fixpoint walkn (l : nat) (m : mem) (f va : Z) : option (nat * Z * Z) :=
  match l with
  | O => None
  | 1%nat => Some (1%nat, f, idx 1 va)
  | S l' =>
      let e := ent m f (idx l va) in
      if negb (present e) then None
      else if link l e then walkn l' m (nxt e) va
      else Some (l, f, idx l va)
  end.

(** The physical address a slot gives. *)
Definition slot_phys (m : mem) (va : Z) (w : option (nat * Z * Z)) : Z :=
  match w with
  | None => 0
  | Some (l, f, i) =>
      let e := ent m f i in
      if negb (present e) then 0
      else match l with
           | 1%nat => (e &b PTE_ADDR_MASK) |b (va &b (PAGE_SIZE - 1))
           | 2%nat => (e &b 0x000FFFFFFFE00000) |b (va &b 0x1FFFFF)
           | _ => (e &b 0x000FFFFFC0000000) |b (va &b 0x3FFFFFFF)
           end
  end.

Definition xlate (m : mem) (root va : Z) : Z := slot_phys m va (walkn 4 m root va).

(** No huge page on the way. *)
Definition nohuge (l : nat) (m : mem) (f va : Z) : Prop :=
  match walkn l m f va with Some (j, _, _) => j = 1%nat | None => True end.

(** ** Well-formed page tables

    [L f] is the level of the table in frame [f], 0 for a frame that is no
    table.  A linked table has one level less than its parent and only one
    parent, except that address spaces share the kernel half. *)

Definition levels := Z -> nat.

Record pt_wf (m : mem) (L : levels) : Prop := {
  pw_bytes : bytes_ok m;
  pw_range f : L f <> O -> 0 < f < WINDOW /\ (L f <= 4)%nat;
  pw_child f i : (2 <= L f)%nat -> 0 <= i < 512 -> link (L f) (ent m f i) = true ->
    S (L (nxt (ent m f i))) = L f;
  pw_parent f i g j : (2 <= L f)%nat -> L g = L f -> 0 <= i < 512 -> 0 <= j < 512 ->
    link (L f) (ent m f i) = true -> link (L f) (ent m g j) = true ->
    nxt (ent m f i) = nxt (ent m g j) ->
    i = j /\ (f = g \/ (L f = 4%nat /\ 256 <= i))
}.

Lemma walkn_S l m f va : walkn (S (S l)) m f va =
  let e := ent m f (idx (S (S l)) va) in
  if negb (present e) then None
  else if link (S (S l)) e then walkn (S l) m (nxt e) va
  else Some (S (S l), f, idx (S (S l)) va).
Proof. done. Qed.

Lemma walkn_inv l m f va w : walkn (S (S l)) m f va = Some w ->
  let e := ent m f (idx (S (S l)) va) in
  (link (S (S l)) e = true /\ walkn (S l) m (nxt e) va = Some w) \/
  (link (S (S l)) e = false /\ w = (S (S l), f, idx (S (S l)) va)).
Proof.
  rewrite walkn_S. cbn zeta. destruct (present _); simpl; [|done].
  destruct (link _ _); [by left|right]. by injection H as <-.
Qed.

Lemma walkn_link l m f va : link (S (S l)) (ent m f (idx (S (S l)) va)) = true ->
  walkn (S (S l)) m f va = walkn (S l) m (nxt (ent m f (idx (S (S l)) va))) va.
Proof.
  intros H. rewrite walkn_S. cbv zeta. rewrite H. unfold link in H.
  apply andb_true_iff in H as [-> _]. done.
Qed.

(** A huge slot is present, and no walk ends at level 4. *)
Lemma walkn_slot l m f va j g i : walkn l m f va = Some (S (S j), g, i) ->
  present (ent m g (idx (S (S j)) va)) = true.
Proof.
  revert f. induction l as [|[|l] IH]; intros f Hw; [done..|].
  rewrite walkn_S in Hw. cbv zeta in Hw.
  destruct (present (ent m f (idx (S (S l)) va))) eqn:Hp; [|done]. cbn [negb] in Hw.
  destruct (link _ _); [by apply (IH (nxt (ent m f (idx (S (S l)) va))))|].
  by injection Hw as <- <- <-.
Qed.

Lemma walkn_le l m f va j g i : walkn l m f va = Some (j, g, i) -> (j <= l)%nat.
Proof.
  revert f. induction l as [|[|l] IH]; intros f Hw; [done|simpl in Hw; injection Hw; lia|].
  apply walkn_inv in Hw as [[_ Hw]|[_ Hw]]; [apply IH in Hw; lia|injection Hw; lia].
Qed.

Lemma walkn_not4 m f va g i : walkn 4 m f va = Some (4%nat, g, i) -> False.
Proof.
  rewrite walkn_S. cbv zeta. unfold link.
  destruct (present (ent m f (idx 4 va))) eqn:Hp; [|done]. simpl.
  intros Hw. by apply (walkn_le 3) in Hw; lia.
Qed.

Section wf.
Context (m : mem) (L : levels) (Hwf : pt_wf m L).

Lemma child_level l f i : L f = S (S l) -> 0 <= i < 512 -> link (S (S l)) (ent m f i) = true ->
  L (nxt (ent m f i)) = S l.
Proof.
  intros Hl Hi Hlk. pose proof (pw_child m L Hwf f i) as Hc. rewrite Hl in Hc.
  specialize (Hc ltac:(lia) Hi Hlk). lia.
Qed.

(** A walk ends in a slot of a table of the level it reports. *)
Lemma walkn_typed l f va j g i : L f = l -> (1 <= l)%nat ->
  walkn l m f va = Some (j, g, i) -> L g = j /\ (1 <= j)%nat /\ i = idx j va.
Proof.
  revert f. induction l as [|[|l] IH]; intros f Hl Hpos Hw; [lia|simpl in Hw; injection Hw as <- <- <-; auto|].
  apply walkn_inv in Hw as [[Hlk Hw]|[_ Hw]]; [|simplify_eq; split_and!; done || lia].
  apply (IH (nxt (ent m f (idx (S (S l)) va)))); [|lia|done].
  apply child_level; [done|apply idx_range|done].
Qed.

(** Two walks that end in the same slot took the same turns; the roots agree
    unless they met in the shared kernel half. *)
Lemma walkn_inj l f f' va va' j g i : L f = l -> L f' = l -> (1 <= l)%nat ->
  walkn l m f va = Some (j, g, i) -> walkn l m f' va' = Some (j, g, i) ->
  (forall n, (j <= n <= l)%nat -> idx n va = idx n va') /\
  (f = f' \/ (l = 4%nat /\ 256 <= idx 4 va)).
Proof.
  revert f f'. induction l as [|[|l] IH]; intros f f' Hl Hl' Hpos Hw Hw'; [lia| |].
  { simpl in Hw, Hw'. simplify_eq. split; [|by left]. intros n Hn. by replace n with 1%nat by lia. }
  apply walkn_inv in Hw as [[Hlk Hw]|[_ Hw]]; apply walkn_inv in Hw' as [[Hlk' Hw']|[_ Hw']].
  - assert (j <> S (S l)) by (apply walkn_le in Hw; lia).
    pose proof (child_level _ _ _ Hl (idx_range _ _) Hlk) as Hc.
    pose proof (child_level _ _ _ Hl' (idx_range _ _) Hlk') as Hc'.
    destruct (IH _ _ Hc Hc' ltac:(lia) Hw Hw') as [Hix [Hroot|[Hr4 _]]].
    2: { pose proof (pw_range m L Hwf f). lia. }
    destruct (pw_parent m L Hwf f (idx (S (S l)) va) f' (idx (S (S l)) va')) as [Hidx Hff];
      rewrite ?Hl, ?Hl'; try (done || lia || apply idx_range).
    split.
    + intros n Hn. destruct (decide (n = S (S l))) as [->|]; [done|]. apply Hix. lia.
    + destruct Hff as [->|[H4 Hge]]; [by left|right]. rewrite Hl in H4.
      split; [done|]. by rewrite H4 in Hge.
  - apply walkn_le in Hw. injection Hw' as -> _ _. lia.
  - apply walkn_le in Hw'. injection Hw as -> _ _. lia.
  - simplify_eq. split; [|by left]. intros n Hn. by replace n with (S (S l)) by lia.
Qed.
End wf.

(** ** Writing table entries *)

(** Walks look at tables of level 2 and above only. *)
Lemma walkn_ext m m' L l f va : pt_wf m L -> L f = l -> (1 <= l)%nat ->
  (forall g i, (2 <= L g)%nat -> 0 <= i < 512 -> ent m' g i = ent m g i) ->
  walkn l m' f va = walkn l m f va.
Proof.
  intros Hwf Hl Hpos Hext. revert f Hl. induction l as [|[|l] IH]; intros f Hl; [done..|].
  rewrite !walkn_S. cbn zeta. rewrite Hext by (apply idx_range || lia).
  destruct (negb _); [done|]. destruct (link _ _) eqn:Hlk; [|done].
  apply IH; [lia|]. by apply (child_level m L Hwf); [|apply idx_range|].
Qed.

Lemma pt_wf_ext m m' L : pt_wf m L -> bytes_ok m' ->
  (forall g i, (2 <= L g)%nat -> 0 <= i < 512 -> ent m' g i = ent m g i) -> pt_wf m' L.
Proof.
  intros Hwf Hb Hext. split.
  - done.
  - apply (pw_range m L Hwf).
  - intros f i Hl Hi. rewrite Hext by done. by apply (pw_child m L Hwf).
  - intros f i g j Hl Hlg Hi Hj. rewrite !Hext by (done || congruence).
    by apply (pw_parent m L Hwf).
Qed.

Section leaf.
Context (m : mem) (L : levels) (Hwf : pt_wf m L) (f i v : Z).
Context (Hf : L f = 1%nat) (Hi : 0 <= i < 512).
Let m' := store64 m (frame_va f + 8 * i) v.

Lemma leaf_ext g j : (2 <= L g)%nat -> 0 <= j < 512 -> ent m' g j = ent m g j.
Proof.
  intros Hg Hj. unfold m'. rewrite ent_store by done.
  destruct (Z.eqb_spec f g) as [<-|]; [lia|done].
Qed.

Lemma leaf_wf : pt_wf m' L.
Proof. apply (pt_wf_ext m); [done|apply store_bytes_ok, Hwf|apply leaf_ext]. Qed.

(** A leaf write changes the translations that end in the slot, no others. *)
Lemma leaf_xlate r va : L r = 4%nat ->
  xlate m' r va =
    if decide (walkn 4 m r va = Some (1%nat, f, i))
    then (if present (u64 v) then (u64 v &b PTE_ADDR_MASK) |b (va &b (PAGE_SIZE - 1)) else 0)
    else xlate m r va.
Proof.
  intros Hr. unfold xlate. rewrite (walkn_ext m m' L) by (done || lia || apply leaf_ext).
  destruct (walkn 4 m r va) as [[[j g] n]|] eqn:Hw; [|by rewrite decide_False by done].
  destruct (walkn_typed m L Hwf _ _ _ _ _ _ Hr ltac:(lia) Hw) as (Hg & Hj & ->).
  cbn [slot_phys]. unfold m'. rewrite ent_store by (done || apply idx_range).
  destruct (decide _) as [E|E].
  - injection E as -> -> Hn. rewrite Hn, !Z.eqb_refl. simpl. by destruct (present (u64 v)).
  - destruct (Z.eqb_spec f g) as [<-|]; [|done].
    destruct (Z.eqb_spec i (idx j va)) as [->|]; [|done]. destruct E. by rewrite <- Hg, Hf.
Qed.
End leaf.

(** [m'] is [m] with the cleared frame [c] linked at entry [i] of table [f]. *)
Record fresh_link (m : mem) (L : levels) (l : nat) (f i c e : Z) (m' : mem) : Prop := {
  fl_wf : pt_wf m L;
  fl_level : L f = S (S l);
  fl_idx : 0 <= i < 512;
  fl_absent : present (ent m f i) = false;
  fl_window : 0 < c < WINDOW;
  fl_fresh : L c = O;
  fl_entry : 0 <= e < 2 ^ 64 /\ present e = true /\ huge e = false /\ nxt e = c;
  fl_mem : m' = store64 (memset m (frame_va c) 0 PAGE_SIZE) (frame_va f + 8 * i) e
}.

Section linking.
Context (m : mem) (L : levels) (l : nat) (f i c e : Z) (m' : mem).
Context (Hlink : fresh_link m L l f i c e m').
Let L' : levels := fun g => if g =? c then S l else L g.

Lemma link_ent g j : 0 <= j < 512 ->
  ent m' g j = if g =? c then 0 else if (f =? g) && (i =? j) then e else ent m g j.
Proof.
  destruct Hlink as [Hwf Hf Hi Hnp Hc HLc (He & Hp & Hh & Hn) Hm'].
  intros Hj. rewrite Hm', ent_store by done. change PAGE_SIZE with (8 * 512).
  rewrite ent_memset by lia. rewrite u64_small by done.
  rewrite (Z.eqb_sym g c). destruct (Z.eqb_spec c g) as [<-|]; simpl.
  - destruct (Z.eqb_spec f c) as [->|]; [lia|]. simpl. destruct (Z.ltb_spec j 512); [done|lia].
  - done.
Qed.

Lemma link_level g : L g <> O -> L' g = L g /\ (g =? c) = false.
Proof. pose proof (fl_fresh _ _ _ _ _ _ _ _ Hlink). unfold L'. destruct (Z.eqb_spec g c) as [->|]; [lia|done]. Qed.

(** The child of a link of the old tables is an old table. *)
Lemma link_old g j : (2 <= L g)%nat -> 0 <= j < 512 -> link (L g) (ent m g j) = true ->
  L (nxt (ent m g j)) <> O.
Proof.
  intros Hg Hj Hlk. pose proof (pw_child m L (fl_wf _ _ _ _ _ _ _ _ Hlink) g j Hg Hj Hlk). lia.
Qed.

Lemma link_wf : pt_wf m' L'.
Proof.
  destruct Hlink as [Hwf Hf Hi Hnp Hc HLc (He & Hp & Hh & Hn) Hm'].
  assert (link (S (S l)) e = true) as Hle by (unfold link; rewrite Hp, Hh; apply orb_true_r).
  assert (forall g j, (2 <= L' g)%nat -> 0 <= j < 512 -> link (L' g) (ent m' g j) = true ->
    (L g = L' g /\ f = g /\ i = j /\ nxt (ent m' g j) = c) \/
    (L g = L' g /\ ent m' g j = ent m g j /\ link (L g) (ent m g j) = true)) as Hcases.
  { intros g j Hg Hj. rewrite link_ent by done. unfold L' in *.
    destruct (Z.eqb_spec g c) as [->|]; [by unfold link, present, has|].
    destruct (Z.eqb_spec f g) as [<-|]; [destruct (Z.eqb_spec i j) as [<-|]|]; simpl; auto. }
  split.
  - rewrite Hm'. apply store_bytes_ok, memset_bytes_ok, Hwf.
  - intros g. unfold L'. destruct (Z.eqb_spec g c) as [->|]; [|apply (pw_range m L Hwf)].
    intros _. split; [done|]. pose proof (pw_range m L Hwf f). lia.
  - intros g j Hg Hj Hlk. destruct (Hcases g j Hg Hj Hlk) as [(HL & <- & <- & ->)|(HL & -> & Hlk')].
    + unfold L' at 1. rewrite Z.eqb_refl. lia.
    + rewrite <- HL in *. rewrite (proj1 (link_level _ (link_old g j Hg Hj Hlk'))).
      by apply (pw_child m L Hwf).
  - intros g j h n Hg Hh' Hj Hn' Hlk Hlk' Heq.
    assert (2 <= L' h)%nat as Hh2 by lia. rewrite <- Hh' in Hlk'.
    destruct (Hcases g j Hg Hj Hlk) as [(HL & <- & <- & E)|(HL & E & Hl1)];
      destruct (Hcases h n Hh2 Hn' Hlk') as [(HL2 & <- & <- & E2)|(HL2 & E2 & Hl2)].
    + split; [done|by left].
    + exfalso. apply (link_old h n); [lia|done|done|]. by rewrite <- E2, <- Heq, E.
    + exfalso. apply (link_old g j); [lia|done|done|]. by rewrite <- E, Heq, E2.
    + rewrite <- HL in *. apply (pw_parent m L Hwf); try done; congruence.
Qed.

(** A table that was just cleared translates nothing. *)
Lemma link_zero n va : slot_phys m' va (walkn (S n) m' c va) = 0 /\
  (walkn (S n) m' c va = None \/ walkn (S n) m' c va = Some (1%nat, c, idx 1 va)).
Proof.
  destruct n as [|n].
  - simpl. rewrite link_ent by apply idx_range. rewrite Z.eqb_refl. split; [done|by right].
  - rewrite walkn_S. cbn zeta. rewrite link_ent by apply idx_range. rewrite Z.eqb_refl. auto.
Qed.

(** Linking an empty table changes no translation. *)
Lemma link_slot n g va : L g = n -> (1 <= n)%nat ->
  slot_phys m' va (walkn n m' g va) = slot_phys m va (walkn n m g va).
Proof.
  destruct Hlink as [Hwf Hf Hi Hnp Hc HLc (He & Hp & Hh & Hn) Hm'].
  revert g. induction n as [|[|n] IH]; intros g Hg Hpos; [lia| |].
  - simpl. rewrite link_ent by apply idx_range.
    destruct (link_level g) as [_ ->]; [lia|].
    destruct (Z.eqb_spec f g) as [<-|]; [lia|done].
  - rewrite !walkn_S. cbn zeta. rewrite link_ent by apply idx_range.
    destruct (link_level g) as [_ Hgc]; [lia|]. rewrite Hgc.
    destruct ((f =? g) && (i =? _)) eqn:E.
    + bool_hyps. subst g. assert (n = l) as -> by congruence.
      replace (idx (S (S l)) va) with i by done. rewrite Hnp, Hp.
      unfold link. rewrite Hp, Hh, orb_true_r. simpl. rewrite Hn. apply link_zero.
    + cbv iota. destruct (present (ent m g (idx (S (S n)) va))); [|done]. simpl negb. cbv iota.
      destruct (link (S (S n)) (ent m g (idx (S (S n)) va))) eqn:Hlk.
      * apply IH; [|lia]. by apply (child_level m L Hwf); [|apply idx_range|].
      * cbn [slot_phys]. rewrite link_ent by apply idx_range. by rewrite Hgc, E.
Qed.

(** Nor does it bring in a huge page. *)
Lemma link_nohuge n g va : L g = n -> (1 <= n)%nat -> nohuge n m g va -> nohuge n m' g va.
Proof.
  destruct Hlink as [Hwf Hf Hi Hnp Hc HLc (He & Hp & Hh & Hn) Hm']. unfold nohuge.
  revert g. induction n as [|[|n] IH]; intros g Hg Hpos; [lia|done|].
  rewrite !walkn_S. cbn zeta. rewrite link_ent by apply idx_range.
  destruct (link_level g) as [_ Hgc]; [lia|]. rewrite Hgc.
  destruct ((f =? g) && (i =? _)) eqn:E.
  - bool_hyps. subst g. assert (n = l) as -> by congruence. intros _. rewrite Hp.
    unfold link. rewrite Hp, Hh, orb_true_r. cbn [andb negb]. cbv iota. rewrite Hn. by destruct (link_zero l va) as [_ [-> | ->]].
  - cbv iota. destruct (present (ent m g (idx (S (S n)) va))); [|done]. simpl negb. cbv iota.
    destruct (link (S (S n)) (ent m g (idx (S (S n)) va))) eqn:Hlk; [|done].
    apply IH; [|lia]. by apply (child_level m L Hwf); [|apply idx_range|].
Qed.
End linking.

(** ** The operations *)

Section ops.
Context {A : Type} `{!FrameAlloc A} `{!FrameAllocLaws A}.
Implicit Types (k : kst A).

Lemma table_va m L f i : pt_wf m L -> (2 <= L f)%nat -> 0 <= i < 512 -> link (L f) (ent m f i) = true ->
  PHYS_TO_VIRT (Z.land (ent m f i) PTE_ADDR_MASK) = frame_va (nxt (ent m f i)).
Proof.
  intros Hwf Hf Hi Hlk. rewrite addr_mask. apply phys_to_virt.
  pose proof (pw_child m L Hwf f i Hf Hi Hlk). pose proof (pw_range m L Hwf (nxt (ent m f i))). lia.
Qed.

Lemma root_va m L r : pt_wf m L -> L r = 4%nat -> PHYS_TO_VIRT (r * PAGE_SIZE) = frame_va r.
Proof. intros Hwf Hr. apply phys_to_virt. pose proof (pw_range m L Hwf r). lia. Qed.

(** The level-4 entries are links whenever they are present. *)
Lemma link4 e : link 4 e = present e.
Proof. unfold link. simpl. apply andb_true_r. Qed.

Lemma link_low l e : (l < 4)%nat -> link l e = present e && negb (huge e).
Proof. intros Hl. unfold link. by rewrite (proj2 (Nat.eqb_neq l 4)) by lia. Qed.

(** The shape of the table walks of [vmm.c]: [n] at an entry that is not
    present, [h] at a huge entry, [c] on the page table. *)
Definition walk_case {B} k (root va : Z) (n : B) (h : nat -> Z -> B) (c : Z -> B) : B :=
  let e4 := ld k (PHYS_TO_VIRT root) (idx 4 va) in
  if negb (present e4) then n
  else
    let e3 := ld k (PHYS_TO_VIRT (e4 &b PTE_ADDR_MASK)) (idx 3 va) in
    if negb (present e3) then n
    else if huge e3 then h 3%nat e3
    else
      let e2 := ld k (PHYS_TO_VIRT (e3 &b PTE_ADDR_MASK)) (idx 2 va) in
      if negb (present e2) then n
      else if huge e2 then h 2%nat e2
      else c (PHYS_TO_VIRT (e2 &b PTE_ADDR_MASK)).

Lemma walk_step {B} k L l f va (n : B) h c :
  pt_wf (mm k) L -> L f = S (S l) -> (l < 2)%nat ->
  (let e := ld k (frame_va f) (idx (S (S l)) va) in
   if negb (present e) then n else if huge e then h (S (S l)) e
   else c (PHYS_TO_VIRT (e &b PTE_ADDR_MASK))) =
  (let e := ent (mm k) f (idx (S (S l)) va) in
   if negb (present e) then n else if link (S (S l)) e then c (frame_va (nxt e)) else h (S (S l)) e).
Proof.
  intros Hwf Hf Hl. unfold ld. fold (ent (mm k) f (idx (S (S l)) va)). cbv zeta.
  destruct (present (ent (mm k) f (idx (S (S l)) va))) eqn:Hp; [|done]. cbn [negb]. cbv iota.
  rewrite link_low, Hp by lia. destruct (huge _) eqn:Hh; [done|]. cbn [negb andb]. cbv iota. f_equal.
  apply (table_va (mm k) L); [done|lia|apply idx_range|]. rewrite Hf, link_low, Hp, Hh by lia. done.
Qed.

Lemma walk_case_eq {B} k L r va (n : B) h c : pt_wf (mm k) L -> L r = 4%nat ->
  walk_case k (r * PAGE_SIZE) va n h c =
    match walkn 4 (mm k) r va with
    | None => n
    | Some (1%nat, f, _) => c (frame_va f)
    | Some (l, f, i) => h l (ent (mm k) f i)
    end.
Proof.
  intros Hwf Hr. unfold walk_case. rewrite (root_va (mm k) L) by done.
  rewrite walkn_S. cbv zeta. change (ld k (frame_va r) (idx 4 va)) with (ent (mm k) r (idx 4 va)).
  rewrite link4.
  destruct (present (ent (mm k) r (idx 4 va))) eqn:Hp4; [|done]. cbn [negb]. cbv iota.
  rewrite (table_va (mm k) L) by (try rewrite Hr; try rewrite link4; (done || lia || apply idx_range)).
  set (f3 := nxt (ent (mm k) r (idx 4 va))).
  assert (L f3 = 3%nat) as H3 by (apply (child_level (mm k) L Hwf); [done|apply idx_range|by rewrite link4]).
  pose proof (walk_step k L 1 f3 va n h
    (fun pdt => let e2 := ld k pdt (idx 2 va) in
      if negb (present e2) then n else if huge e2 then h 2%nat e2
      else c (PHYS_TO_VIRT (e2 &b PTE_ADDR_MASK))) Hwf H3 ltac:(lia)) as Hs.
  cbv zeta in Hs. rewrite Hs. clear Hs. rewrite walkn_S. cbv zeta.
  destruct (present (ent (mm k) f3 (idx 3 va))) eqn:Hp3; [|done]. cbn [negb]. cbv iota.
  destruct (link 3 (ent (mm k) f3 (idx 3 va))) eqn:Hlk3; [|done].
  pose proof (walk_step k L 0 (nxt (ent (mm k) f3 (idx 3 va))) va n h c Hwf
    (child_level (mm k) L Hwf _ _ _ H3 (idx_range _ _) Hlk3) ltac:(lia)) as Hs.
  cbv zeta in Hs. rewrite Hs, walkn_S. cbv zeta.
  destruct (present (ent (mm k) (nxt _) (idx 2 va))); [|done]. cbn [negb]. cbv iota.
  by destruct (link 2 _).
Qed.

(** [vmm_get_phys] computes the reference walk. *)
Lemma get_phys_xlate k L r va : pt_wf (mm k) L -> L r = 4%nat ->
  get_phys_in k (r * PAGE_SIZE) va = xlate (mm k) r va.
Proof.
  intros Hwf Hr.
  transitivity (walk_case k (r * PAGE_SIZE) va 0
    (fun l e => if (l =? 3)%nat then (e &b 0x000FFFFFC0000000) |b (va &b 0x3FFFFFFF)
                else (e &b 0x000FFFFFFFE00000) |b (va &b 0x1FFFFF))
    (fun pt => let e1 := ld k pt (idx 1 va) in
       if negb (present e1) then 0 else (e1 &b PTE_ADDR_MASK) |b (va &b (PAGE_SIZE - 1)))).
  { unfold get_phys_in, walk_case. by rewrite !va_idx4, !va_idx3, !va_idx2, !va_idx1. }
  rewrite (walk_case_eq k L) by done. unfold xlate.
  destruct (walkn 4 (mm k) r va) as [[[l f] i]|] eqn:Hw; [|done].
  destruct (walkn_typed _ L Hwf _ _ _ _ _ _ Hr ltac:(lia) Hw) as (Hf & Hl & ->).
  pose proof (walkn_le _ _ _ _ _ _ _ Hw).
  cbn [slot_phys]. destruct l as [|[|l]]; [lia|done|].
  assert (present (ent (mm k) f (idx (S (S l)) va)) = true) as ->; [by apply walkn_slot in Hw|].
  destruct l as [|[|[|l]]]; [done..| |lia]. by apply walkn_not4 in Hw.
Qed.

Lemma get_phys_root k L r va : pt_wf (mm k) L -> L r = 4%nat -> pml4_phys k = r * PAGE_SIZE ->
  vmm_get_phys k va = xlate (mm k) r va.
Proof. intros Hwf Hr Hroot. unfold vmm_get_phys. rewrite Hroot. by apply (get_phys_xlate k L). Qed.

(** The invariant of the memory manager: well-formed tables, in frames the
    allocator does not hand out; all memory lies in the window. *)
Record vm_inv k (L : levels) : Prop := {
  vi_wf : pt_wf (mm k) L;
  vi_fa : fa_ok (fa k);
  vi_used f : L f <> O -> fa_used (fa k) f = true;
  vi_window f : WINDOW <= f < PMM_MAX_FRAMES -> fa_used (fa k) f = true
}.

(** The invariant is kept when tables are added in frames taken meanwhile. *)
Lemma vm_inv_grow k k' L L' : vm_inv k L -> pt_wf (mm k') L' -> fa_ok (fa k') ->
  (forall g, 0 <= g -> fa_used (fa k) g = true -> fa_used (fa k') g = true) ->
  (forall g, L' g <> O -> L g <> O \/ fa_used (fa k') g = true) -> vm_inv k' L'.
Proof.
  intros Hinv Hwf Hok Hgrow HL. split; [done|done| |].
  - intros g Hg. destruct (HL g Hg) as [Hg'|]; [|done].
    pose proof (pw_range _ _ Hwf g Hg). apply Hgrow; [lia|]. by apply (vi_used k L Hinv).
  - intros g Hg. unfold WINDOW in Hg. apply Hgrow; [lia|]. by apply (vi_window k L Hinv).
Qed.

Lemma vm_inv_invlpg k L va : vm_inv k L -> vm_inv (invlpg k va) L.
Proof. by intros [? ? ? ?]. Qed.

(** [L'] has the tables of [L] and possibly more. *)
Definition extends (L L' : levels) : Prop := forall f, L f <> O -> L' f = L f.

(** Frames in use that are no tables keep their contents and stay so; no huge page
    appears. *)
Definition framed k (L : levels) k' (L' : levels) : Prop :=
  (forall d, L d = O -> 0 <= d -> fa_used (fa k) d = true ->
     L' d = O /\ fa_used (fa k') d = true /\
     forall o, 0 <= o < PAGE_SIZE -> mm k' (frame_va d + o) = mm k (frame_va d + o)) /\
  (forall r va, L r = 4%nat -> nohuge 4 (mm k) r va -> nohuge 4 (mm k') r va).

Lemma framed_refl k L : framed k L k L.
Proof. done. Qed.
Lemma framed_trans k1 L1 k2 L2 k3 L3 : extends L1 L2 -> framed k1 L1 k2 L2 -> framed k2 L2 k3 L3 -> framed k1 L1 k3 L3.
Proof.
  intros He [Ha1 Hb1] [Ha2 Hb2]. split.
  - intros d H1 H2 H3. destruct (Ha1 d H1 H2 H3) as (H4 & H5 & H6). destruct (Ha2 d H4 H2 H5) as (H7 & H8 & H9).
    split; [done|]. split; [done|]. intros o Ho. by rewrite H9, H6.
  - intros r va Hr Hn. apply Hb2; [rewrite He; lia|]. by apply Hb1.
Qed.

(** Same registers and globals. *)
Definition same_regs k k' : Prop :=
  cr3 k' = cr3 k /\ pml4_phys k' = pml4_phys k /\ kernel_pml4_phys k' = kernel_pml4_phys k.

Lemma extends_trans L1 L2 L3 : extends L1 L2 -> extends L2 L3 -> extends L1 L3.
Proof. intros H1 H2 f Hf. rewrite <- (H1 f Hf). apply H2. rewrite (H1 f Hf). done. Qed.

Lemma same_regs_trans k1 k2 k3 : same_regs k1 k2 -> same_regs k2 k3 -> same_regs k1 k3.
Proof. unfold same_regs. intuition congruence. Qed.

(** An allocated frame is a frame of the window that is no table. *)
Lemma alloc_frame_fresh k L : vm_inv k L ->
  alloc_frame k = (0, k) \/
  exists c, 0 < c < WINDOW /\ L c = O /\ (alloc_frame k).1 = c * PAGE_SIZE /\
    mm (alloc_frame k).2 = mm k /\ same_regs k (alloc_frame k).2 /\
    cpu_log (alloc_frame k).2 = cpu_log k /\ fa_ok (fa (alloc_frame k).2) /\
    fa_used (fa k) c = false /\
    forall g, 0 <= g -> fa_used (fa (alloc_frame k).2) g = (c =? g) || fa_used (fa k) g.
Proof.
  intros Hinv. unfold alloc_frame. pose proof (fa_alloc_ok (fa k) (vi_fa k L Hinv)) as Hok.
  destruct (fa_alloc_cases (fa k) (vi_fa k L Hinv)) as [[H1 H2]|(c & Hc & H1 & Hu & H2)];
    destruct (fa_alloc (fa k)) as [p s]; simpl in *; subst.
  - left. by destruct k.
  - right. exists c. split; [|split; [|done]].
    + destruct (Z.ltb_spec c WINDOW); [lia|]. rewrite (vi_window k L Hinv c) in Hu by lia. done.
    + destruct (decide (L c = O)) as [|Hne]; [done|]. rewrite (vi_used k L Hinv c Hne) in Hu. done.
Qed.

(** No frame is free. *)
Definition no_frame k : Prop := forall f, 0 < f < PMM_MAX_FRAMES -> fa_used (fa k) f = true.
Lemma alloc_none_fa k : fa_ok (fa k) -> alloc_frame k = (0, k) -> no_frame k.
Proof.
  intros Hok E f Hf. destruct (fa_used (fa k) f) eqn:Hu; [done|exfalso].
  apply (fa_alloc_complete (fa k) f Hok Hf Hu). unfold alloc_frame in E. destruct (fa_alloc (fa k)). by injection E.
Qed.
Lemma alloc_none k L : vm_inv k L -> alloc_frame k = (0, k) -> no_frame k.
Proof. intros Hinv. by apply alloc_none_fa, (vi_fa k L). Qed.

Lemma nohuge_link l m f va : nohuge (S (S l)) m f va ->
  present (ent m f (idx (S (S l)) va)) = true ->
  link (S (S l)) (ent m f (idx (S (S l)) va)) = true /\
  nohuge (S l) m (nxt (ent m f (idx (S (S l)) va))) va.
Proof.
  unfold nohuge. rewrite walkn_S. cbv zeta. intros H Hp. rewrite Hp in H. cbn [negb] in H.
  destruct (link _ _); [done|lia].
Qed.

(** The flags tables are linked with. *)
Definition tflags_ok (flags : Z) : Prop :=
  0 <= flags < 2 ^ 64 /\ nxt flags = 0 /\ huge flags = false.

Lemma link_entry c flags : 0 < c < WINDOW -> tflags_ok flags ->
  let e := Z.lor (c * PAGE_SIZE) (Z.lor flags PTE_PRESENT) in
  0 <= e < 2 ^ 64 /\ present e = true /\ huge e = false /\ nxt e = c.
Proof.
  intros Hc (Hr & Hn & Hh) e. unfold WINDOW in Hc. split; [|split; [|split]].
  - apply lor_bound; [lia|unfold PAGE_SIZE; lia|]. apply lor_bound; [lia|done|by vm_compute].
  - rewrite present_bit. unfold e. rewrite !Z.lor_spec. change (Z.testbit PTE_PRESENT 0) with true.
    by rewrite !orb_true_r.
  - rewrite huge_bit in *. unfold e. rewrite !Z.lor_spec, frame_low_bits, Hh by lia. done.
  - unfold e. rewrite !nxt_lor, nxt_frame, Hn by lia. change (nxt PTE_PRESENT) with 0.
    by rewrite !Z.lor_0_r.
Qed.

(** One step of a mapping: it fails without effect, or the walk goes on in a
    table of the next level, every translation kept. *)
Lemma get_or_alloc_table_spec k L l f va flags :
  vm_inv k L -> L f = S (S l) -> nohuge (S (S l)) (mm k) f va -> tflags_ok flags ->
  let '(r, k') := get_or_alloc_table k (frame_va f) (idx (S (S l)) va) flags in
  (r = 0 /\ k' = k /\ alloc_frame k = (0, k)) \/
  exists c L', r = frame_va c /\ vm_inv k' L' /\ L' c = S l /\ extends L L' /\ same_regs k k' /\
    cpu_log k' = cpu_log k /\
    (let e := ent (mm k') f (idx (S (S l)) va) in link (S (S l)) e = true /\ nxt e = c) /\
    nohuge (S l) (mm k') c va /\
    (forall r va', L r = 4%nat -> xlate (mm k') r va' = xlate (mm k) r va') /\
    (forall g j, L g <> O -> g <> f -> 0 <= j < 512 -> ent (mm k') g j = ent (mm k) g j) /\
    framed k L k' L'.
Proof.
  intros Hinv Hf Hnh Hfl. pose proof (vi_wf k L Hinv) as Hwf.
  unfold get_or_alloc_table, ld. fold (ent (mm k) f (idx (S (S l)) va)). rewrite has_present.
  destruct (present (ent (mm k) f (idx (S (S l)) va))) eqn:Hp; cbn [negb]; cbv iota.
  - right. destruct (nohuge_link _ _ _ _ Hnh Hp) as [Hlk Hnh'].
    exists (nxt (ent (mm k) f (idx (S (S l)) va))), L.
    split; [apply (table_va (mm k) L); [done|lia|apply idx_range|by rewrite Hf]|].
    split; [done|]. split; [by apply (child_level (mm k) L Hwf); [|apply idx_range|]|].
    done.
  - destruct (alloc_frame_fresh k L Hinv) as [E|(c & Hc & HLc & Hr & Hm & Hregs & Hlog & Hok & Hu & Hu')];
      [rewrite E; by left|].
    destruct (alloc_frame k) as [p k1]. cbn [fst snd] in *. subst p.
    destruct (Z.eqb_spec (c * PAGE_SIZE) 0); [unfold PAGE_SIZE in *; lia|].
    destruct (link_entry c flags Hc Hfl) as (He & Hpe & Hhe & Hne).
    rewrite (phys_to_virt c) by lia. rewrite Hm.
    set (e := Z.lor (c * PAGE_SIZE) (Z.lor flags PTE_PRESENT)) in *.
    set (m' := store64 (memset (mm k) (frame_va c) 0 PAGE_SIZE)
                 (frame_va f + 8 * idx (S (S l)) va) e).
    assert (fresh_link (mm k) L l f (idx (S (S l)) va) c e m') as Hlink
      by (split; done || apply idx_range).
    pose proof (link_ent _ _ _ _ _ _ _ _ Hlink) as Hent.
    right. exists c, (fun g => if g =? c then S l else L g).
    assert (f <> c) as Hfc by (intros ->; lia).
    assert (ent m' f (idx (S (S l)) va) = e) as Hef.
    { rewrite Hent by apply idx_range. destruct (Z.eqb_spec f c); [done|]. by rewrite !Z.eqb_refl. }
    split.
    { cbn [mm set_mm st]. fold m'. fold (ent m' f (idx (S (S l)) va)).
      rewrite Hef, addr_mask, Hne. apply phys_to_virt. lia. }
    split.
    { apply (vm_inv_grow k _ L); [done|exact (link_wf _ _ _ _ _ _ _ _ Hlink)|exact Hok| |].
      - intros g Hg Hgu. simpl. by rewrite Hu', Hgu, orb_true_r.
      - intros g Hg. cbn beta in Hg. destruct (Z.eqb_spec g c) as [Egc|]; [right|by left].
        simpl. rewrite Hu' by lia. by rewrite Egc, Z.eqb_refl. }
    split; [by rewrite Z.eqb_refl|].
    split; [intros g Hg; destruct (Z.eqb_spec g c) as [Egc|]; [by rewrite Egc in Hg|done]|].
    split; [exact Hregs|]. split; [exact Hlog|]. cbn [mm set_mm st]. fold m'.
    split.
    { cbv zeta. rewrite Hef. unfold link. by rewrite Hpe, Hhe, orb_true_r. }
    split.
    { unfold nohuge.
      by destruct (link_zero _ _ _ _ _ _ _ _ Hlink l va) as [_ [-> | ->]]. }
    split.
    { intros r va' Hr. unfold xlate. by apply (link_slot _ _ _ _ _ _ _ _ Hlink); [|lia]. }
    split.
    { intros g j Hg Hgf Hj. rewrite Hent by done. destruct (Z.eqb_spec g c) as [->|]; [done|].
      by rewrite (proj2 (Z.eqb_neq f g)) by done. }
    split; [|intros r va' Hr; by apply (link_nohuge _ _ _ _ _ _ _ _ Hlink); [|lia]].
    intros d Hd Hd0 Hdu. assert (d <> c) as Hdc by (intros ->; congruence). assert (d <> f) as Hdf by (intros ->; lia).
    split; [by rewrite (proj2 (Z.eqb_neq d c))|]. cbn [fa set_mm st mm]. rewrite Hu' by lia. rewrite Hdu, orb_true_r.
    split; [done|]. intros o Ho. unfold m'. pose proof (idx_range (S (S l)) va) as Hix.
    rewrite store_other by (unfold frame_va, PAGE_SIZE in *; lia). rewrite memset_spec by done.
    replace (_ && _) with false; [done|]. symmetry. rewrite andb_false_iff, Z.leb_gt, Z.ltb_ge.
    unfold frame_va, PAGE_SIZE in *. lia.
Qed.

(** Virtual addresses of the same 4 KB page (of the 48 translated bits). *)
Definition same_page (va va' : Z) : Prop := (va / 4096) mod 2 ^ 36 = (va' / 4096) mod 2 ^ 36.

Lemma idx_div l va : idx l va = (va / 2 ^ (3 + 9 * Z.of_nat l)) mod 512.
Proof.
  unfold idx. change 0x1FF with (Z.ones 9). rewrite Z.land_ones, Z.shiftr_div_pow2 by lia. done.
Qed.

Lemma idx_same_page va va' : (forall n, (1 <= n <= 4)%nat -> idx n va = idx n va') -> same_page va va'.
Proof.
  intros H. pose proof (H 1%nat ltac:(lia)) as H1. pose proof (H 2%nat ltac:(lia)) as H2.
  pose proof (H 3%nat ltac:(lia)) as H3. pose proof (H 4%nat ltac:(lia)) as H4.
  rewrite !idx_div in *.
  change (2 ^ (3 + 9 * Z.of_nat 1)) with 4096 in H1.
  change (2 ^ (3 + 9 * Z.of_nat 2)) with (4096 * 512) in H2.
  change (2 ^ (3 + 9 * Z.of_nat 3)) with (4096 * 512 * 512) in H3.
  change (2 ^ (3 + 9 * Z.of_nat 4)) with (4096 * 512 * 512 * 512) in H4.
  unfold same_page. change (2 ^ 36) with (512 * (512 * (512 * 512))).
  rewrite !Z.rem_mul_r, !Z.div_div by lia. congruence.
Qed.

(** The table steps of a mapping as a recursion on the level. *)
Fixpoint descend (l : nat) k (table va tflags : Z) : Z * kst A :=
  match l with
  | O => (table, k)
  | S l' =>
      let '(p, k) := get_or_alloc_table k table (idx (S l) va) tflags in
      if p =? 0 then (0, k) else descend l' k p va tflags
  end.

Lemma map_in_descend k root va phys flags tflags :
  map_in k root va phys flags tflags =
    let '(p, k) := descend 3 k (PHYS_TO_VIRT root) va tflags in
    if p =? 0 then (false, k)
    else (true, st k p (idx 1 va) ((phys &b PTE_ADDR_MASK) |b flags |b PTE_PRESENT)).
Proof.
  unfold map_in. cbn [descend].
  change (VA_PML4_IDX va) with (idx 4 va). change (VA_PDPT_IDX va) with (idx 3 va).
  change (VA_PDT_IDX va) with (idx 2 va). change (VA_PT_IDX va) with (idx 1 va).
  destruct (get_or_alloc_table k _ (idx 4 va) tflags) as [p3 k3]. destruct (p3 =? 0); [done|].
  destruct (get_or_alloc_table k3 _ (idx 3 va) tflags) as [p2 k2]. destruct (p2 =? 0); [done|].
  destruct (get_or_alloc_table k2 _ (idx 2 va) tflags) as [p1 k1].
  destruct (p1 =? 0) eqn:E; simpl; by rewrite ?E.
Qed.

(** What descending keeps: the invariant, the registers, the translations and
    the tables above the level it starts from. *)
Definition kept (n : nat) k (L : levels) k' (L' : levels) : Prop :=
  vm_inv k' L' /\ extends L L' /\ same_regs k k' /\ cpu_log k' = cpu_log k /\
  (forall r va, L r = 4%nat -> xlate (mm k') r va = xlate (mm k) r va) /\
  (forall g j, (n < L g)%nat -> 0 <= j < 512 -> ent (mm k') g j = ent (mm k) g j) /\
  framed k L k' L'.

Lemma kept_refl n k L : vm_inv k L -> kept n k L k L.
Proof. intros H. split; [exact H|]. by repeat split. Qed.

Lemma kept_trans n n' k1 L1 k2 L2 k3 L3 : (n' <= n)%nat ->
  kept n k1 L1 k2 L2 -> kept n' k2 L2 k3 L3 -> kept n k1 L1 k3 L3.
Proof.
  intros Hn (Hi1 & He1 & Hs1 & Hl1 & Hx1 & Ht1 & Hf1) (Hi2 & He2 & Hs2 & Hl2 & Hx2 & Ht2 & Hf2).
  split; [done|]. split; [by eapply extends_trans|]. split; [by eapply same_regs_trans|].
  split; [congruence|]. split; [|split; [|by eapply framed_trans]].
  - intros r va Hr. rewrite Hx2 by (rewrite He1; lia). by apply Hx1.
  - intros g j Hg Hj. rewrite Ht2 by (done || rewrite He1; lia). by apply Ht1.
Qed.

Lemma descend_spec l k L f va tflags :
  vm_inv k L -> L f = S l -> nohuge (S l) (mm k) f va -> tflags_ok tflags ->
  let '(p, k') := descend l k (frame_va f) va tflags in
  exists L', kept (S l) k L k' L' /\
    (p = 0 \/ exists c, p = frame_va c /\ 0 < c /\ L' c = 1%nat /\
       walkn (S l) (mm k') f va = Some (1%nat, c, idx 1 va)).
Proof.
  intros Hinv Hf Hnh Htf. revert k L f Hinv Hf Hnh.
  induction l as [|l IH]; intros k L f Hinv Hf Hnh; cbn [descend].
  { exists L. split; [by apply kept_refl|]. right. exists f.
    pose proof (pw_range _ _ (vi_wf _ _ Hinv) f). split_and!; done || lia. }
  pose proof (get_or_alloc_table_spec k L l f va tflags Hinv Hf Hnh Htf) as H.
  destruct (get_or_alloc_table k (frame_va f) (idx (S (S l)) va) tflags) as [p1 k1].
  destruct H as [(-> & -> & _)|(c & L1 & -> & Hi & Hl & He & Hs & Hg & Hw & Hn & Hx & Hent & Hfr)].
  { exists L. split; [by apply kept_refl|]. by left. }
  pose proof (pw_range _ _ (vi_wf _ _ Hi) c ltac:(lia)) as [Hc _].
  destruct (Z.eqb_spec (frame_va c) 0) as [E|_]; [by apply frame_va_pos in E; [|lia]|].
  assert (kept (S (S l)) k L k1 L1) as Hk1.
  { split_and!; try done. intros g j Hgl Hj. apply Hent; [lia| |done]. intros ->. lia. }
  specialize (IH k1 L1 c Hi Hl Hn). destruct (descend l k1 (frame_va c) va tflags) as [p k'].
  destruct IH as (L' & Hk' & Hp). exists L'.
  split; [eapply kept_trans; [|done|done]; lia|].
  destruct Hp as [->|(c' & -> & Hc' & Hl' & Hw')]; [by left|right].
  exists c'. split; [done|]. split; [done|]. split; [done|]. rewrite <- Hw'.
  assert (L1 f = S (S l)) as HL1f by (rewrite He; lia).
  destruct Hk' as (_ & _ & _ & _ & _ & Htab & _).
  rewrite walkn_link; rewrite (Htab f) by (apply idx_range || lia); [|apply Hw].
  by rewrite (proj2 Hw).
Qed.

(** A leaf entry: the frame of [phys] with flags outside the address field. *)
Definition leaf_entry (phys flags : Z) : Z := (phys &b PTE_ADDR_MASK) |b flags |b PTE_PRESENT.

Lemma leaf_entry_ok phys flags : 0 <= flags < 2 ^ 64 -> nxt flags = 0 ->
  u64 (leaf_entry phys flags) = leaf_entry phys flags /\
  present (leaf_entry phys flags) = true /\
  leaf_entry phys flags &b PTE_ADDR_MASK = phys &b PTE_ADDR_MASK.
Proof.
  intros Hfl Hn. unfold leaf_entry. split_and!.
  - apply u64_small. pose proof (nxt_range phys). apply lor_bound; [lia| |].
    + rewrite addr_mask. unfold PAGE_SIZE. lia.
    + apply lor_bound; [lia|done|by vm_compute].
  - rewrite present_bit, !Z.lor_spec. change (Z.testbit PTE_PRESENT 0) with true.
    by rewrite !orb_true_r.
  - rewrite !addr_mask, !nxt_lor, Hn. change (nxt PTE_PRESENT) with 0.
    rewrite !Z.lor_0_r, nxt_frame by apply nxt_range. done.
Qed.

(** Replacing the leaf that the walk of [va] in [r] ends in. *)
Lemma leaf_write k L r va pt v k' :
  vm_inv k L -> L r = 4%nat -> walkn 4 (mm k) r va = Some (1%nat, pt, idx 1 va) ->
  0 <= v < 2 ^ 64 -> mm k' = store64 (mm k) (frame_va pt + 8 * idx 1 va) v -> fa k' = fa k ->
  vm_inv k' L /\
  xlate (mm k') r va =
    (if present v then (v &b PTE_ADDR_MASK) |b (va &b (PAGE_SIZE - 1)) else 0) /\
  forall r' va', L r' = 4%nat -> ~ (same_page va va' /\ (r' = r \/ 256 <= idx 4 va)) ->
    xlate (mm k') r' va' = xlate (mm k) r' va'.
Proof.
  intros Hinv Hr Hw Hv Hm Hfa. pose proof (vi_wf _ _ Hinv) as Hwf.
  destruct (walkn_typed _ L Hwf _ _ _ _ _ _ Hr ltac:(lia) Hw) as (Hpt & _ & _).
  rewrite Hm. split; [|split].
  - apply (vm_inv_grow k _ L); rewrite ?Hm, ?Hfa; [done| |apply (vi_fa _ _ Hinv)|done|by left].
    by apply (leaf_wf (mm k) L Hwf pt (idx 1 va) v Hpt (idx_range _ _)).
  - rewrite (leaf_xlate (mm k) L Hwf) by (done || apply idx_range).
    rewrite decide_True, u64_small by done. done.
  - intros r' va' Hr' Hne. rewrite (leaf_xlate (mm k) L Hwf) by (done || apply idx_range).
    rewrite decide_False; [done|]. intros Hw'. apply Hne.
    destruct (walkn_inj _ L Hwf _ _ _ _ _ _ _ _ Hr Hr' ltac:(lia) Hw Hw') as [Hix Hrr].
    split; [by apply idx_same_page|]. destruct Hrr as [->|[_ ?]]; [by left|by right].
Qed.

Lemma leaf_framed k L c i v : pt_wf (mm k) L -> L c = 1%nat -> 0 <= i < 512 -> framed k L (st k (frame_va c) i v) L.
Proof.
  intros Hwf Hc Hi. split.
  - intros d Hd Hd0 Hu. split; [done|]. split; [done|]. intros o Ho. cbn [mm set_mm st]. apply store_other.
    assert (d <> c) by (intros ->; lia). unfold frame_va, PAGE_SIZE in *. lia.
  - intros r va Hr. unfold nohuge. cbn [mm set_mm st].
    rewrite (walkn_ext (mm k) (store64 (mm k) (frame_va c + 8 * i) v) L 4 r va Hwf Hr ltac:(lia)); [done|].
    intros g j Hg Hj. by apply (leaf_ext (mm k) L c i v Hc Hi).
Qed.

(** The whole mapping: [None]-like failure keeps every translation; success maps
    the page and keeps every other translation, here and in the other spaces. *)
Lemma map_in_spec k L r va phys flags tflags :
  vm_inv k L -> L r = 4%nat -> nohuge 4 (mm k) r va -> tflags_ok tflags ->
  0 <= flags < 2 ^ 64 -> nxt flags = 0 ->
  let '(ok, k') := map_in k (r * PAGE_SIZE) va phys flags tflags in
  exists L', vm_inv k' L' /\ extends L L' /\ same_regs k k' /\ cpu_log k' = cpu_log k /\
    (forall r' va', L r' = 4%nat ->
       ok = false \/ ~ (same_page va va' /\ (r' = r \/ 256 <= idx 4 va)) ->
       xlate (mm k') r' va' = xlate (mm k) r' va') /\
    (ok = true -> xlate (mm k') r va = (phys &b PTE_ADDR_MASK) |b (va &b (PAGE_SIZE - 1))) /\
    framed k L k' L'.
Proof.
  intros Hinv Hr Hnh Htf Hfl Hnf. rewrite map_in_descend, (root_va (mm k) L) by (done || apply Hinv).
  pose proof (descend_spec 3 k L r va tflags Hinv Hr Hnh Htf) as H.
  destruct (descend 3 k (frame_va r) va tflags) as [p k1].
  destruct H as (L1 & (Hi & He & Hs & Hl & Hx & _ & Hfr) & [->|(c & -> & Hc & HLc & Hw)]).
  { exists L1. split_and!; try done. intros r' va' Hr' _. by apply Hx. }
  destruct (Z.eqb_spec (frame_va c) 0) as [E|_]; [by apply frame_va_pos in E; [|lia]|].
  fold (leaf_entry phys flags). destruct (leaf_entry_ok phys flags Hfl Hnf) as (Hu & Hp & Ha).
  assert (L1 r = 4%nat) as Hr1 by (rewrite He; lia).
  destruct (leaf_write k1 L1 r va c (leaf_entry phys flags)
              (st k1 (frame_va c) (idx 1 va) (leaf_entry phys flags))) as (Hi' & Hxr & Hxo);
    try done; [rewrite <- Hu; apply u64_range|].
  exists L1. split; [done|]. split; [done|]. split; [done|]. split; [done|]. split.
  - intros r' va' Hr' [?|Hne]; [done|]. rewrite <- Hx by done. apply Hxo; [|done]. rewrite He; lia.
  - split; [intros _; by rewrite Hxr, Hp, Ha|]. eapply framed_trans; [exact He|exact Hfr|].
    apply leaf_framed; [apply Hi|done|apply idx_range].
Qed.

(** A mapping fails only when a table is missing and no frame is free. *)
Lemma descend_oom l k L f va tflags : vm_inv k L -> L f = S l -> nohuge (S l) (mm k) f va -> tflags_ok tflags ->
  let '(p, k') := descend l k (frame_va f) va tflags in p = 0 -> no_frame k'.
Proof.
  intros Hinv Hf Hnh Htf. revert k L f Hinv Hf Hnh. induction l as [|l IH]; intros k L f Hinv Hf Hnh; cbn [descend].
  { intros E. pose proof (pw_range _ _ (vi_wf _ _ Hinv) f). by apply frame_va_pos in E; [|lia]. }
  pose proof (get_or_alloc_table_spec k L l f va tflags Hinv Hf Hnh Htf) as Hg.
  destruct (get_or_alloc_table k (frame_va f) (idx (S (S l)) va) tflags) as [p1 k1].
  destruct Hg as [(-> & -> & E)|(c & L1 & -> & Hi & Hl & _ & _ & _ & _ & Hn & _)]; [intros _; by apply (alloc_none k L)|].
  pose proof (pw_range _ _ (vi_wf _ _ Hi) c ltac:(lia)) as [Hc _].
  destruct (Z.eqb_spec (frame_va c) 0) as [E|_]; [by apply frame_va_pos in E; [|lia]|]. by apply (IH k1 L1 c).
Qed.
Lemma map_in_oom k L r va phys flags tflags : vm_inv k L -> L r = 4%nat -> nohuge 4 (mm k) r va -> tflags_ok tflags ->
  let '(ok, k') := map_in k (r * PAGE_SIZE) va phys flags tflags in ok = false -> no_frame k'.
Proof.
  intros Hinv Hr Hnh Htf. rewrite map_in_descend, (root_va (mm k) L) by (done || apply Hinv).
  pose proof (descend_oom 3 k L r va tflags Hinv Hr Hnh Htf) as H. destruct (descend 3 k (frame_va r) va tflags) as [p k1].
  destruct (Z.eqb_spec p 0) as [E|]; [intros _; by apply H|done].
Qed.

(** The entry a mapping leaves. *)
Lemma map_in_entry k L r va phys flags tflags : vm_inv k L -> L r = 4%nat -> nohuge 4 (mm k) r va -> tflags_ok tflags ->
  0 <= flags < 2 ^ 64 -> nxt flags = 0 ->
  let '(ok, k') := map_in k (r * PAGE_SIZE) va phys flags tflags in
  ok = true -> exists pt, walkn 4 (mm k') r va = Some (1%nat, pt, idx 1 va) /\ ent (mm k') pt (idx 1 va) = leaf_entry phys flags.
Proof.
  intros Hinv Hr Hnh Htf Hfl Hnf. rewrite map_in_descend, (root_va (mm k) L) by (done || apply Hinv).
  pose proof (descend_spec 3 k L r va tflags Hinv Hr Hnh Htf) as H. destruct (descend 3 k (frame_va r) va tflags) as [p k1].
  destruct H as (L1 & (Hi & He & _) & [->|(c & -> & Hc & HLc & Hw)]); [done|]. destruct (frame_va c =? 0); [done|]. intros _.
  exists c. cbn [mm st set_mm]. fold (leaf_entry phys flags). destruct (leaf_entry_ok phys flags Hfl Hnf) as (Hu & _ & _). split.
  - rewrite (walkn_ext (mm k1) _ L1 4 r va (vi_wf _ _ Hi)); [done|rewrite He; lia|lia|].
    intros g j Hg Hj. by apply (leaf_ext (mm k1) L1 c (idx 1 va) _ HLc (idx_range _ _)).
  - rewrite ent_store by apply idx_range. by rewrite !Z.eqb_refl.
Qed.

(** [vmm_unmap_page] clears the slot the walk ends in. *)
Lemma unmap_eq k L r va : pt_wf (mm k) L -> L r = 4%nat -> pml4_phys k = r * PAGE_SIZE ->
  nohuge 4 (mm k) r va ->
  vmm_unmap_page k va =
    match walkn 4 (mm k) r va with
    | Some (_, pt, _) => invlpg (st k (frame_va pt) (idx 1 va) 0) va
    | None => k
    end.
Proof.
  intros Hwf Hr Hroot Hnh. unfold vmm_unmap_page. rewrite Hroot, (root_va (mm k) L) by done.
  rewrite va_idx4, va_idx3, va_idx2, va_idx1, walkn_S. cbv zeta. rewrite !has_present.
  change (ld k (frame_va r) (idx 4 va)) with (ent (mm k) r (idx 4 va)).
  destruct (present (ent (mm k) r (idx 4 va))) eqn:Hp4; [|done]. cbn [negb]. cbv iota.
  destruct (nohuge_link 2 _ _ _ Hnh Hp4) as [Hlk4 Hnh3]. rewrite Hlk4.
  rewrite (table_va (mm k) L) by (rewrite ?Hr; (done || lia || apply idx_range)).
  pose proof (child_level _ L Hwf _ _ _ Hr (idx_range _ _) Hlk4) as H3.
  set (f3 := nxt (ent (mm k) r (idx 4 va))) in *. rewrite walkn_S. cbv zeta.
  change (ld k (frame_va f3) (idx 3 va)) with (ent (mm k) f3 (idx 3 va)).
  destruct (present (ent (mm k) f3 (idx 3 va))) eqn:Hp3; [|done]. cbn [negb]. cbv iota.
  destruct (nohuge_link 1 _ _ _ Hnh3 Hp3) as [Hlk3 Hnh2]. rewrite Hlk3.
  rewrite (table_va (mm k) L) by (rewrite ?H3; (done || lia || apply idx_range)).
  pose proof (child_level _ L Hwf _ _ _ H3 (idx_range _ _) Hlk3) as H2.
  set (f2 := nxt (ent (mm k) f3 (idx 3 va))) in *. rewrite walkn_S. cbv zeta.
  change (ld k (frame_va f2) (idx 2 va)) with (ent (mm k) f2 (idx 2 va)).
  destruct (present (ent (mm k) f2 (idx 2 va))) eqn:Hp2; [|done]. cbn [negb]. cbv iota.
  destruct (nohuge_link 0 _ _ _ Hnh2 Hp2) as [Hlk2 _]. rewrite Hlk2.
  rewrite (table_va (mm k) L) by (rewrite ?H2; (done || lia || apply idx_range)). done.
Qed.

(** Memory that agrees on the tables gives the same translations. *)
Lemma slot_ext m m' L l f va : pt_wf m L -> L f = l -> (1 <= l)%nat ->
  (forall g i, L g <> O -> 0 <= i < 512 -> ent m' g i = ent m g i) ->
  slot_phys m' va (walkn l m' f va) = slot_phys m va (walkn l m f va).
Proof.
  intros Hwf Hl Hpos Hext.
  rewrite (walkn_ext m m' L) by (done || (intros g i Hg; apply Hext; lia)).
  destruct (walkn l m f va) as [[[j g] i]|] eqn:Hw; [|done].
  destruct (walkn_typed m L Hwf _ _ _ _ _ _ Hl Hpos Hw) as (Hg & Hj & ->).
  cbn [slot_phys]. by rewrite Hext by (lia || apply idx_range).
Qed.

(** Frames are disjoint. *)
Lemma ent_frame_ext m m' c g i : g <> c -> 0 <= i < 512 ->
  (forall x, ~ (frame_va c <= x < frame_va c + PAGE_SIZE) -> m' x = m x) -> ent m' g i = ent m g i.
Proof.
  intros Hg Hi Hx. apply load_ext. intros x Hin. apply Hx. unfold frame_va, PAGE_SIZE in *. lia.
Qed.

(** ** Copy-on-write *)

(** Pages marked copy-on-write lie in allocated frames of the window that are no
    tables. *)
Definition cow_pages_ok k (L : levels) : Prop :=
  forall f i, L f = 1%nat -> 0 <= i < 512 -> present (ent (mm k) f i) = true ->
    has (ent (mm k) f i) PTE_COW = true ->
    0 <= nxt (ent (mm k) f i) < WINDOW /\ fa_used (fa k) (nxt (ent (mm k) f i)) = true /\
    L (nxt (ent (mm k) f i)) = O.

Definition cow_resolved (pte new_phys : Z) : Z :=
  (pte &b not64 (PTE_ADDR_MASK |b PTE_COW)) |b new_phys |b PTE_WRITE.

Lemma cow_resolved_ok pte c : 0 <= pte < 2 ^ 64 -> present pte = true -> 0 < c < WINDOW ->
  let e := cow_resolved pte (c * PAGE_SIZE) in
  0 <= e < 2 ^ 64 /\ present e = true /\ nxt e = c /\ has e PTE_WRITE = true /\ has e PTE_COW = false.
Proof.
  intros Hpte Hp Hc e. unfold WINDOW in Hc. unfold e, cow_resolved. clear e.
  rewrite present_bit in *. unfold PTE_WRITE, PTE_COW. rewrite !has_shl by lia.
  set (keep := not64 (PTE_ADDR_MASK |b (1 <<b 9))).
  splits.
  - apply lor_bound; [lia|by apply land_bound|]. apply lor_bound; [lia|unfold PAGE_SIZE; lia|by vm_compute].
  - rewrite Z.lor_spec, Z.land_spec, Hp. change (Z.testbit keep 0) with true. done.
  - rewrite !nxt_lor, nxt_frame by lia. change (nxt (1 <<b 1)) with 0. rewrite Z.lor_0_r.
    rewrite nxt_flags; [apply Z.lor_0_l|]. rewrite <- Z.land_assoc.
    change (keep &b PTE_ADDR_MASK) with 0. apply Z.land_0_r.
  - rewrite !Z.lor_spec. change (Z.testbit (1 <<b 1) 1) with true. by rewrite !orb_true_r.
  - rewrite !Z.lor_spec, Z.land_spec, frame_low_bits by lia.
    change (Z.testbit keep 9) with false. change (Z.testbit (1 <<b 1) 9) with false.
    by rewrite andb_false_r.
Qed.

(** [cow_handle] as a case analysis on the walk. *)
Lemma cow_handle_eq k L r va : pt_wf (mm k) L -> L r = 4%nat ->
  Z.land (read_cr3 k) PTE_ADDR_MASK = r * PAGE_SIZE ->
  cow_handle k va =
    match walkn 4 (mm k) r va with
    | Some (1%nat, f, _) =>
        let pte := ent (mm k) f (idx 1 va) in
        if negb (present pte) || negb (has pte PTE_COW) then (0, k)
        else
          let '(new_phys, k) := alloc_frame k in
          if new_phys =? 0 then (0, k)
          else
            let m := memcpy (mm k) (PHYS_TO_VIRT new_phys)
                       (PHYS_TO_VIRT (pte &b PTE_ADDR_MASK)) PAGE_SIZE in
            (1, invlpg (st (set_mm k m) (frame_va f) (idx 1 va)
                   (cow_resolved (ent m f (idx 1 va)) new_phys)) (va &b PAGE_MASK))
    | _ => (0, k)
    end.
Proof.
  intros Hwf Hr Hcr. unfold cow_handle. rewrite Hcr, va_idx4, va_idx3, va_idx2, va_idx1. cbv zeta.
  set (leaf := fun pt => let pte := ld k pt (idx 1 va) in
        if negb (present pte) || negb (has pte PTE_COW) then (0, k)
        else
          let '(new_phys, k) := alloc_frame k in
          if new_phys =? 0 then (0, k)
          else
            let k := set_mm k (memcpy (mm k) (PHYS_TO_VIRT new_phys)
                       (PHYS_TO_VIRT (pte &b PTE_ADDR_MASK)) PAGE_SIZE) in
            (1, invlpg (st k pt (idx 1 va)
                   (cow_resolved (ld k pt (idx 1 va)) new_phys)) (va &b PAGE_MASK))).
  transitivity (walk_case k (r * PAGE_SIZE) va (0, k) (fun _ _ => (0, k)) leaf).
  - unfold walk_case, leaf, cow_resolved. cbv zeta. rewrite !has_present, !has_huge.
    repeat match goal with
    | |- context [negb (present ?e) || huge ?e] =>
        destruct (present e); cbn [negb orb]; cbv iota; [destruct (huge e); cbv iota|]; try reflexivity
    end.
  - rewrite (walk_case_eq k L) by done.
    destruct (walkn 4 (mm k) r va) as [[[[|[|l]] f] i]|]; [reflexivity| |reflexivity..].
    unfold leaf, ld, ent. cbn [mm set_mm]. reflexivity.
Qed.

(** Copying a page into a fresh frame: the tables keep their entries, the frame
    gets the bytes of the old page. *)
Lemma page_copy m L o c : 0 <= o < WINDOW -> 0 < c < WINDOW -> o <> c -> L c = O ->
  let m' := memcpy m (frame_va c) (frame_va o) PAGE_SIZE in
  (forall g i, L g <> O -> 0 <= i < 512 -> ent m' g i = ent m g i) /\
  (forall n, 0 <= n < PAGE_SIZE -> m' (frame_va c + n) = m (frame_va o + n)) /\
  (forall x, ~ (frame_va c <= x < frame_va c + PAGE_SIZE) -> m' x = m x).
Proof.
  intros Ho Hc Hne HLc m'.
  assert (forall x, m' x = if (frame_va c <=? x) && (x <? frame_va c + PAGE_SIZE)
                           then m (frame_va o + (x - frame_va c)) else m x) as Hm'.
  { intros x. apply memcpy_spec; [done|]. unfold frame_va, PAGE_SIZE. lia. }
  assert (forall x, ~ (frame_va c <= x < frame_va c + PAGE_SIZE) -> m' x = m x) as Hout.
  { intros x Hx. rewrite Hm'. repeat case_ltb; simpl; done || lia. }
  splits; [| |done].
  - intros g i Hg Hi. apply (ent_frame_ext _ _ c); [|done|done]. intros ->. done.
  - intros n Hn. rewrite Hm'. repeat case_ltb; simpl; try lia. f_equal. lia.
Qed.

(** What resolving the fault on [va] has done, with [c] the new frame. *)
Definition cow_done k L r va k' (pt o c : Z) : Prop :=
  vm_inv k' L /\ same_regs k k' /\ cpu_log k' = Invlpg (va &b PAGE_MASK) :: cpu_log k /\
  xlate (mm k') r va = (c * PAGE_SIZE) |b (va &b (PAGE_SIZE - 1)) /\
  (has (ent (mm k') pt (idx 1 va)) PTE_WRITE = true /\ has (ent (mm k') pt (idx 1 va)) PTE_COW = false) /\
  (forall n, 0 <= n < PAGE_SIZE -> mm k' (frame_va c + n) = mm k (frame_va o + n)) /\
  (forall r' va', L r' = 4%nat -> ~ (same_page va va' /\ (r' = r \/ 256 <= idx 4 va)) ->
     xlate (mm k') r' va' = xlate (mm k) r' va').

Lemma cow_commit k k1 L r va pt c m' :
  let pte := ent (mm k) pt (idx 1 va) in
  vm_inv k L -> L r = 4%nat -> walkn 4 (mm k) r va = Some (1%nat, pt, idx 1 va) ->
  present pte = true -> 0 < c < WINDOW -> L c = O ->
  same_regs k k1 -> cpu_log k1 = cpu_log k -> fa_ok (fa k1) ->
  (forall g, 0 <= g -> fa_used (fa k1) g = (c =? g) || fa_used (fa k) g) -> bytes_ok m' ->
  (forall g i, L g <> O -> 0 <= i < 512 -> ent m' g i = ent (mm k) g i) ->
  (forall n, 0 <= n < PAGE_SIZE -> m' (frame_va c + n) = mm k (frame_va (nxt pte) + n)) ->
  cow_done k L r va
    (invlpg (st (set_mm k1 m') (frame_va pt) (idx 1 va) (cow_resolved pte (c * PAGE_SIZE)))
       (va &b PAGE_MASK)) pt (nxt pte) c.
Proof.
  intros pte Hinv Hr Hw Hp Hcw HLc Hregs Hlog Hok Hu' Hbm Hent Hcopy.
  pose proof (vi_wf _ _ Hinv) as Hwf.
  destruct (walkn_typed _ L Hwf _ _ _ _ _ _ Hr ltac:(lia) Hw) as (Hpt & _ & _).
  destruct (cow_resolved_ok pte c (ent_range _ _ _ (pw_bytes _ _ Hwf)) Hp Hcw) as (Hb & Hpe & Hn & Hwr & Hnc).
  set (e := cow_resolved pte (c * PAGE_SIZE)) in *. clearbody e.
  assert (vm_inv (set_mm k1 m') L) as Hinv1.
  { apply (vm_inv_grow k _ L); [done| |exact Hok| |by left].
    - apply (pt_wf_ext (mm k)); [done|done|]. intros g i Hg. apply Hent. lia.
    - intros g Hg Hgu. simpl. by rewrite Hu', Hgu, orb_true_r. }
  assert (walkn 4 m' r va = Some (1%nat, pt, idx 1 va)) as Hw'.
  { rewrite (walkn_ext (mm k) m' L); [done|done|done|lia|]. intros g i Hg. apply Hent. lia. }
  destruct (leaf_write (set_mm k1 m') L r va pt e (st (set_mm k1 m') (frame_va pt) (idx 1 va) e))
    as (Hi' & Hx & Hxo); try done.
  assert (ent (store64 m' (frame_va pt + 8 * idx 1 va) e) pt (idx 1 va) = e) as Hee.
  { rewrite ent_store by apply idx_range. rewrite !Z.eqb_refl. by apply u64_small. }
  split; [by apply vm_inv_invlpg|]. cbn [mm invlpg]. splits; try done.
  - simpl. by rewrite Hlog.
  - rewrite Hx, Hpe, addr_mask, Hn. done.
  - cbn [mm st set_mm]. by rewrite Hee.
  - cbn [mm st set_mm]. by rewrite Hee.
  - intros n' Hn'. cbn [mm st set_mm]. rewrite store_other; [by apply Hcopy|].
    assert (pt <> c) by (intros ->; lia). pose proof (idx_range 1 va).
    unfold frame_va, PAGE_SIZE in *. lia.
  - intros r' va' Hr' Hd. rewrite Hxo by done. unfold xlate.
    apply (slot_ext _ _ L); [done|done|lia|done].
Qed.

Lemma cow_handle_cases k L r va : vm_inv k L -> L r = 4%nat ->
  Z.land (read_cr3 k) PTE_ADDR_MASK = r * PAGE_SIZE -> cow_pages_ok k L ->
  let '(h, k') := cow_handle k va in
  (h = 0 /\ k' = k) \/
  (h = 1 /\ exists pt c, walkn 4 (mm k) r va = Some (1%nat, pt, idx 1 va) /\
     has (ent (mm k) pt (idx 1 va)) PTE_COW = true /\ fa_used (fa k) c = false /\ 0 < c < WINDOW /\ L c = O /\
     cow_done k L r va k' pt (nxt (ent (mm k) pt (idx 1 va))) c).
Proof.
  intros Hinv Hr Hcr Hcow. pose proof (vi_wf _ _ Hinv) as Hwf. rewrite (cow_handle_eq k L r) by done.
  destruct (walkn 4 (mm k) r va) as [[[[|[|l]] pt] i]|] eqn:Hw; try (by left).
  destruct (walkn_typed _ L Hwf _ _ _ _ _ _ Hr ltac:(lia) Hw) as (Hpt & _ & ->). cbv zeta.
  destruct (present (ent (mm k) pt (idx 1 va))) eqn:Hp; [|by left].
  destruct (has (ent (mm k) pt (idx 1 va)) PTE_COW) eqn:Hc; [|by left].
  destruct (Hcow pt (idx 1 va) Hpt (idx_range _ _) Hp Hc) as (Ho & Hou & HoL).
  destruct (alloc_frame_fresh k L Hinv) as [->|(c & Hcw & HLc & Hr1 & Hm1 & Hregs & Hlog & Hok & Hcu & Hu')];
    [by left|]. cbn [negb orb]. cbv iota.
  destruct (alloc_frame k) as [p k1]. cbn [fst snd] in *. subst p.
  destruct (Z.eqb_spec (c * PAGE_SIZE) 0); [unfold PAGE_SIZE in *; lia|]. right. split; [done|].
  assert (nxt (ent (mm k) pt (idx 1 va)) <> c) as Hne by congruence.
  rewrite addr_mask, !phys_to_virt, Hm1 by (unfold WINDOW in *; lia).
  destruct (page_copy (mm k) L _ c Ho Hcw Hne HLc) as (Hent & Hcopy & _).
  assert (bytes_ok (memcpy (mm k) (frame_va c) (frame_va (nxt (ent (mm k) pt (idx 1 va)))) PAGE_SIZE)) as Hbm
    by apply memcpy_bytes_ok, Hwf.
  rewrite (Hent pt) by (lia || apply idx_range).
  revert Hent Hcopy Hbm. generalize (memcpy (mm k) (frame_va c) (frame_va (nxt (ent (mm k) pt (idx 1 va)))) PAGE_SIZE).
  intros m' Hent Hcopy Hbm. exists pt, c. split; [done|]. split; [done|]. split; [done|]. split; [done|]. split; [done|].
  by apply cow_commit.
Qed.

(** Frames in use that are no tables keep their bytes. *)
Lemma cow_handle_frame k L r va d n : vm_inv k L -> L r = 4%nat ->
  Z.land (read_cr3 k) PTE_ADDR_MASK = r * PAGE_SIZE -> cow_pages_ok k L ->
  L d = O -> 0 <= d -> fa_used (fa k) d = true -> 0 <= n < PAGE_SIZE ->
  mm (snd (cow_handle k va)) (frame_va d + n) = mm k (frame_va d + n).
Proof.
  intros Hinv Hr Hcr Hcow Hd Hd0 Hdu Hn. pose proof (vi_wf _ _ Hinv) as Hwf. rewrite (cow_handle_eq k L r) by done.
  destruct (walkn 4 (mm k) r va) as [[[[|[|l]] pt] i]|] eqn:Hw; try done.
  destruct (walkn_typed _ L Hwf _ _ _ _ _ _ Hr ltac:(lia) Hw) as (Hpt & _ & ->). cbv zeta.
  destruct (present (ent (mm k) pt (idx 1 va))) eqn:Hp; [|done].
  destruct (has (ent (mm k) pt (idx 1 va)) PTE_COW) eqn:Hc; [|done].
  destruct (Hcow pt (idx 1 va) Hpt (idx_range _ _) Hp Hc) as (Ho & Hou & HoL).
  destruct (alloc_frame_fresh k L Hinv) as [->|(c & Hcw & HLc & Hr1 & Hm1 & _ & _ & _ & Hcu & _)]; [done|].
  cbn [negb orb]. cbv iota. destruct (alloc_frame k) as [p k1]. cbn [fst snd] in *. subst p.
  destruct (Z.eqb_spec (c * PAGE_SIZE) 0); [unfold PAGE_SIZE in *; lia|]. rewrite addr_mask, !phys_to_virt, Hm1 by (unfold WINDOW in *; lia).
  assert (nxt (ent (mm k) pt (idx 1 va)) <> c) as Hne by congruence.
  destruct (page_copy (mm k) L _ c Ho Hcw Hne HLc) as (_ & _ & Hout).
  assert (d <> pt) by (intros ->; lia). assert (d <> c) by (intros ->; congruence). pose proof (idx_range 1 va).
  cbn [mm invlpg st set_mm snd]. rewrite store_other by (unfold frame_va, PAGE_SIZE in *; lia).
  apply Hout. unfold frame_va, PAGE_SIZE in *. lia.
Qed.

(** The tables on the way stay. *)
Lemma cow_handle_walk k L r va r' va' : vm_inv k L -> L r = 4%nat ->
  Z.land (read_cr3 k) PTE_ADDR_MASK = r * PAGE_SIZE -> cow_pages_ok k L -> L r' = 4%nat ->
  walkn 4 (mm (snd (cow_handle k va))) r' va' = walkn 4 (mm k) r' va'.
Proof.
  intros Hinv Hr Hcr Hcow Hr'. pose proof (vi_wf _ _ Hinv) as Hwf. rewrite (cow_handle_eq k L r) by done.
  destruct (walkn 4 (mm k) r va) as [[[[|[|l]] pt] i]|] eqn:Hw; try done.
  destruct (walkn_typed _ L Hwf _ _ _ _ _ _ Hr ltac:(lia) Hw) as (Hpt & _ & ->). cbv zeta.
  destruct (present (ent (mm k) pt (idx 1 va))) eqn:Hp; [|done].
  destruct (has (ent (mm k) pt (idx 1 va)) PTE_COW) eqn:Hc; [|done].
  destruct (Hcow pt (idx 1 va) Hpt (idx_range _ _) Hp Hc) as (Ho & Hou & HoL).
  destruct (alloc_frame_fresh k L Hinv) as [->|(c & Hcw & HLc & Hr1 & Hm1 & _ & _ & _ & Hcu & _)]; [done|].
  cbn [negb orb]. cbv iota. destruct (alloc_frame k) as [p k1]. cbn [fst snd] in *. subst p.
  destruct (Z.eqb_spec (c * PAGE_SIZE) 0); [unfold PAGE_SIZE in *; lia|]. rewrite addr_mask, !phys_to_virt, Hm1 by (unfold WINDOW in *; lia).
  assert (nxt (ent (mm k) pt (idx 1 va)) <> c) as Hne by congruence.
  destruct (page_copy (mm k) L _ c Ho Hcw Hne HLc) as (Hent & _ & _).
  apply (walkn_ext (mm k) _ L); [done|done|lia|]. intros g j Hg Hj. cbn [mm invlpg st set_mm snd].
  rewrite ent_store by (done || apply idx_range). destruct (Z.eqb_spec pt g) as [<-|]; [lia|]. apply Hent; [lia|done].
Qed.

Lemma alloc_fst k m : fst (alloc_frame (set_mm k m)) = fst (alloc_frame k).
Proof. unfold alloc_frame. cbn [fa set_mm]. by destruct (fa_alloc (fa k)). Qed.
Lemma cow_handle_one k L r va pt : pt_wf (mm k) L -> L r = 4%nat -> read_cr3 k &b PTE_ADDR_MASK = r * PAGE_SIZE ->
  walkn 4 (mm k) r va = Some (1%nat, pt, idx 1 va) -> present (ent (mm k) pt (idx 1 va)) = true ->
  has (ent (mm k) pt (idx 1 va)) PTE_COW = true -> fst (alloc_frame k) <> 0 -> fst (cow_handle k va) = 1.
Proof.
  intros Hwf Hr Hcr Hw Hp Hc Ha. rewrite (cow_handle_eq k L r), Hw by done. cbv zeta. rewrite Hp, Hc. cbn [negb orb].
  destruct (alloc_frame k) as [p k1]. cbn [fst] in Ha. by rewrite (proj2 (Z.eqb_neq p 0)).
Qed.

(** A present page marked copy-on-write is at [va]. *)
Definition cow_at k (r va : Z) : Prop := exists pt, walkn 4 (mm k) r va = Some (1%nat, pt, idx 1 va) /\
  present (ent (mm k) pt (idx 1 va)) = true /\ has (ent (mm k) pt (idx 1 va)) PTE_COW = true.
Lemma cow_handle_refuses k L r va : vm_inv k L -> L r = 4%nat -> read_cr3 k &b PTE_ADDR_MASK = r * PAGE_SIZE ->
  fst (cow_handle k va) = 0 <-> ~ cow_at k r va \/ no_frame k.
Proof.
  intros Hinv Hr Hcr. pose proof (vi_wf _ _ Hinv) as Hwf. split.
  - intros Hz. destruct (alloc_frame_fresh k L Hinv) as [E|(c & Hc & _ & Hf & _)]; [right; by apply (alloc_none k L)|left].
    intros (pt & Hw & Hp & Hco). rewrite (cow_handle_one k L r va pt) in Hz by (done || rewrite Hf; unfold PAGE_SIZE; lia). done.
  - intros Hno. rewrite (cow_handle_eq k L r) by done.
    destruct (walkn 4 (mm k) r va) as [[[[|[|l]] pt] i]|] eqn:Hw; try done.
    destruct (walkn_typed _ L Hwf _ _ _ _ _ _ Hr ltac:(lia) Hw) as (_ & _ & ->). cbv zeta.
    destruct (present (ent (mm k) pt (idx 1 va))) eqn:Hp; [|done].
    destruct (has (ent (mm k) pt (idx 1 va)) PTE_COW) eqn:Hc; [|done]. cbn [negb orb].
    destruct Hno as [Hn|Hn]; [exfalso; apply Hn; by exists pt|].
    destruct (alloc_frame_fresh k L Hinv) as [->|(c & Hcw & _ & _ & _ & _ & _ & _ & Hu & _)]; [done|].
    rewrite Hn in Hu by (unfold WINDOW in Hcw; change PMM_MAX_FRAMES with 1048576; lia). done.
Qed.

(** ** Address-space creation *)

(** The entries after copying [n] entries from index [256 + i] on. *)
Lemma copy_entries_ent n k c b i g j : b <> c -> 0 <= i -> i + Z.of_nat n <= 256 -> 0 <= j < 512 ->
  bytes_ok (mm k) ->
  ent (mm (copy_entries n k (frame_va c + 8 * 256) (frame_va b + 8 * 256) i)) g j =
    if (g =? c) && (256 + i <=? j) && (j <? 256 + i + Z.of_nat n) then ent (mm k) b j else ent (mm k) g j.
Proof.
  intros Hbc. revert k i. induction n as [|n IH]; intros k i Hi Hn Hj Hb; cbn [copy_entries].
  { replace (_ && _) with false; [done|]. symmetry. rewrite !andb_false_iff, Z.leb_gt, Z.ltb_ge. lia. }
  assert (ld k (frame_va b + 8 * 256) i = ent (mm k) b (256 + i)) as Hld.
  { unfold ld, ent. f_equal. lia. }
  assert (forall g' j', 0 <= j' < 512 ->
    ent (mm (st k (frame_va c + 8 * 256) i (ld k (frame_va b + 8 * 256) i))) g' j' =
      if (c =? g') && (256 + i =? j') then ent (mm k) b (256 + i) else ent (mm k) g' j') as Hst.
  { intros g' j' Hj'. rewrite Hld. cbn [mm st set_mm].
    replace (frame_va c + 8 * 256 + 8 * i) with (frame_va c + 8 * (256 + i)) by lia.
    rewrite ent_store by lia. rewrite u64_small; [done|]. by apply ent_range. }
  rewrite IH by (done || lia || (apply store_bytes_ok; done)). rewrite !Hst by done.
  destruct (Z.eqb_spec c b); [done|]. rewrite (Z.eqb_sym c g). simpl andb.
  destruct (Z.eqb_spec g c) as [->|]; simpl; [|done].
  repeat case_ltb; simpl; try lia; try done. by subst j.
Qed.

Lemma copy_entries_frame n k dst src i x : ~ (dst + 8 * i <= x < dst + 8 * (i + Z.of_nat n)) ->
  mm (copy_entries n k dst src i) x = mm k x.
Proof.
  revert k i. induction n as [|n IH]; intros k i Hx; cbn [copy_entries]; [done|].
  rewrite IH by lia. cbn [mm st set_mm]. apply store_other. lia.
Qed.

Lemma copy_entries_state n k dst src i :
  let k' := copy_entries n k dst src i in
  fa k' = fa k /\ same_regs k k' /\ cpu_log k' = cpu_log k /\ (bytes_ok (mm k) -> bytes_ok (mm k')).
Proof.
  revert k i. induction n as [|n IH]; intros k i; cbn [copy_entries]; [done|].
  destruct (IH (st k dst i (ld k src i)) (i + 1)) as (Hf & Hs & Hl & Hb).
  splits; [done|done|done|]. intros H. apply Hb. by apply store_bytes_ok.
Qed.

(** Adding a fresh root [c] whose user half is empty and whose kernel half is
    that of [b]. *)
Lemma add_root m m' L b c : pt_wf m L -> L b = 4%nat -> L c = O -> 0 < c < WINDOW -> bytes_ok m' ->
  (forall g j, 0 <= j < 512 ->
     ent m' g j = if g =? c then (if j <? 256 then 0 else ent m b j) else ent m g j) ->
  let L' := fun g => if g =? c then 4%nat else L g in
  pt_wf m' L' /\
  (forall va, idx 4 va < 256 -> xlate m' c va = 0) /\
  (forall va, 256 <= idx 4 va -> xlate m' c va = xlate m b va) /\
  (forall r va, L r = 4%nat -> xlate m' r va = xlate m r va).
Proof.
  intros Hwf Hb Hc Hcw Hbm Hent L'.
  assert (forall g, L g <> O -> (g =? c) = false /\ L' g = L g) as Hold.
  { intros g Hg. unfold L'. destruct (Z.eqb_spec g c) as [->|]; done. }
  assert (forall g i, L g <> O -> 0 <= i < 512 -> ent m' g i = ent m g i) as Hsame.
  { intros g i Hg Hi. rewrite Hent by done. by rewrite (proj1 (Hold g Hg)). }
  (* an entry of the new memory that links is one of the old memory *)
  assert (forall g j, (2 <= L' g)%nat -> 0 <= j < 512 -> link (L' g) (ent m' g j) = true ->
    exists g', L g' = L' g /\ ent m' g j = ent m g' j /\ (g' = g \/ (g = c /\ g' = b /\ 256 <= j))) as Hsrc.
  { intros g j Hg Hj. rewrite Hent by done. unfold L' in *. destruct (Z.eqb_spec g c) as [->|].
    - destruct (Z.ltb_spec j 256); [done|]. intros _. exists b. split; [done|]. split; [done|by right].
    - intros _. exists g. split; [done|]. split; [done|by left]. }
  splits.
  - split; [done| | |].
    + intros g Hg. unfold L' in *. destruct (Z.eqb_spec g c) as [Egc|]; [lia|]. by apply (pw_range m L Hwf).
    + intros g j Hg Hj Hlk. destruct (Hsrc g j Hg Hj Hlk) as (g' & HL & He & _). rewrite He in *.
      rewrite <- HL in *. pose proof (pw_child m L Hwf g' j Hg Hj Hlk) as Hch.
      rewrite (proj2 (Hold (nxt (ent m g' j)) ltac:(lia))). lia.
    + intros g j h n Hg Hh Hj Hn Hlk Hlk' Heq. rewrite <- Hh in Hlk'.
      destruct (Hsrc g j Hg Hj Hlk) as (g' & HL & He & Hor).
      destruct (Hsrc h n ltac:(lia) Hn Hlk') as (h' & HL' & He' & Hor').
      rewrite He, He' in *. rewrite <- HL in *. rewrite <- HL' in *.
      destruct (pw_parent m L Hwf g' j h' n Hg Hh Hj Hn) as [-> Hgh]; [done|by rewrite <- Hh|done|].
      split; [done|]. destruct Hor as [<-|(-> & -> & Hj')]; destruct Hor' as [<-|(-> & -> & Hn')];
        [done|right; split; [congruence|lia]..|by left].
  - intros va Hva. unfold xlate. rewrite walkn_S. cbv zeta. rewrite Hent, Z.eqb_refl by apply idx_range.
    destruct (Z.ltb_spec (idx 4 va) 256); [done|lia].
  - intros va Hva. unfold xlate. rewrite !walkn_S. cbv zeta. rewrite Hent, Z.eqb_refl by apply idx_range.
    destruct (Z.ltb_spec (idx 4 va) 256); [lia|]. rewrite link4.
    destruct (present (ent m b (idx 4 va))) eqn:Hp; [|done]. cbn [negb]. cbv iota.
    apply (slot_ext m m' L); [done| |lia|done].
    apply (child_level m L Hwf); [done|apply idx_range|by rewrite link4].
  - intros r va Hr. apply (slot_ext m m' L); done || lia.
Qed.

(** The memory of [vmm_create_user_pml4] and of the first half of
    [vmm_fork_pml4]: a root with an empty user half and the kernel half of [b]. *)
Lemma new_root_mem k b c : b <> c -> bytes_ok (mm k) ->
  let k' := copy_entries 256 (set_mm k (memset (mm k) (frame_va c) 0 (PAGE_SIZE / 2)))
              (frame_va c + 8 * 256) (frame_va b + 8 * 256) 0 in
  bytes_ok (mm k') /\ fa k' = fa k /\ same_regs k k' /\ cpu_log k' = cpu_log k /\
  (forall g j, 0 <= j < 512 ->
     ent (mm k') g j = if g =? c then (if j <? 256 then 0 else ent (mm k) b j) else ent (mm k) g j) /\
  (forall x, ~ (frame_va c <= x < frame_va c + PAGE_SIZE) -> mm k' x = mm k x).
Proof.
  intros Hbc Hb k'. set (k1 := set_mm k _) in k'.
  assert (bytes_ok (mm k1)) as Hb1 by apply memset_bytes_ok, Hb.
  assert (forall g j, 0 <= j < 512 -> ent (mm k1) g j = if (c =? g) && (j <? 256) then 0 else ent (mm k) g j) as H1.
  { intros g j Hj. unfold k1. cbn [mm set_mm]. change (PAGE_SIZE / 2) with (8 * 256). apply ent_memset; lia. }
  destruct (copy_entries_state 256 k1 (frame_va c + 8 * 256) (frame_va b + 8 * 256) 0) as (Hf & Hs & Hl & Hbk).
  fold k' in Hf, Hs, Hl, Hbk.
  split; [exact (Hbk Hb1)|]. split; [exact Hf|]. split; [exact Hs|]. split; [exact Hl|]. split.
  - intros g j Hj. subst k'. clear Hf Hs Hl Hbk. clearbody k1.
    rewrite (copy_entries_ent 256) by (done || lia). rewrite !H1 by done.
    rewrite (proj2 (Z.eqb_neq c b)) by done. rewrite (Z.eqb_sym c g). simpl.
    destruct (g =? c); simpl; [|done]. repeat case_ltb; simpl; done || lia.
  - intros x Hx. unfold k'. rewrite copy_entries_frame by (unfold PAGE_SIZE in *; lia).
    unfold k1. cbn [mm set_mm]. rewrite memset_spec by done.
    replace (_ && _) with false; [done|]. symmetry. rewrite andb_false_iff, Z.leb_gt, Z.ltb_ge.
    unfold PAGE_SIZE in *. change (4096 / 2) with 2048. lia.
Qed.

Lemma create_cases k L r : vm_inv k L -> L r = 4%nat -> pml4_phys k = r * PAGE_SIZE ->
  let '(p, k') := vmm_create_user_pml4 k in
  (p = 0 /\ k' = k /\ alloc_frame k = (0, k)) \/
  exists c L', p = c * PAGE_SIZE /\ L c = O /\ L' c = 4%nat /\ vm_inv k' L' /\ extends L L' /\
    same_regs k k' /\
    (forall va, idx 4 va < 256 -> xlate (mm k') c va = 0) /\
    (forall va, 256 <= idx 4 va -> xlate (mm k') c va = xlate (mm k) r va) /\
    (forall r' va, L r' = 4%nat -> xlate (mm k') r' va = xlate (mm k) r' va) /\
    framed k L k' L' /\ (forall va, idx 4 va < 256 -> nohuge 4 (mm k') c va) /\ fa k' = fa (snd (alloc_frame k)).
Proof.
  intros Hinv Hr Hroot. pose proof (vi_wf _ _ Hinv) as Hwf. unfold vmm_create_user_pml4.
  destruct (alloc_frame_fresh k L Hinv) as [->|(c & Hcw & HLc & Hr1 & Hm1 & Hregs & Hlog & Hok & Hcu & Hu')];
    [by left|].
  destruct (alloc_frame k) as [p k1]. cbn [fst snd] in *. subst p.
  destruct (Z.eqb_spec (c * PAGE_SIZE) 0); [unfold PAGE_SIZE in *; lia|]. right.
  assert (pml4_phys k1 = r * PAGE_SIZE) as -> by (destruct Hregs as (_ & -> & _); done).
  rewrite (root_va (mm k) L r), (phys_to_virt c) by (done || lia).
  assert (r <> c) as Hrc by (intros ->; lia).
  assert (bytes_ok (mm k1)) as Hb1 by (rewrite Hm1; apply Hwf).
  destruct (new_root_mem k1 r c Hrc Hb1) as (Hb & Hf & Hs & Hl & Hent & Hout).
  revert Hb Hf Hs Hl Hent Hout. generalize (copy_entries 256
    (set_mm k1 (memset (mm k1) (frame_va c) 0 (PAGE_SIZE / 2))) (frame_va c + 8 * 256) (frame_va r + 8 * 256) 0).
  intros k' Hb Hf Hs Hl Hent Hout. rewrite Hm1 in Hent, Hout.
  destruct (add_root (mm k) (mm k') L r c Hwf Hr HLc Hcw Hb Hent) as (Hwf' & Hu & Hk & Ho).
  exists c, (fun g => if g =? c then 4%nat else L g). splits; try done.
  - by rewrite Z.eqb_refl.
  - apply (vm_inv_grow k _ L); [done|done|by rewrite Hf| |].
    + intros g Hg Hgu. by rewrite Hf, Hu', Hgu, orb_true_r.
    + intros g Hg. cbn beta in Hg. destruct (Z.eqb_spec g c) as [Egc|]; [right|by left].
      by rewrite Hf, Hu', Egc, Z.eqb_refl by lia.
  - intros g Hg. destruct (Z.eqb_spec g c) as [Egc|]; [by rewrite Egc in Hg|done].
  - by eapply same_regs_trans.
  - split.
    + intros d Hd Hd0 Hdu. assert (d <> c) as Hdc by (intros ->; congruence). rewrite (proj2 (Z.eqb_neq d c)) by done. split; [done|].
      split; [by rewrite Hf, Hu', Hdu, orb_true_r by lia|]. intros o Hoo. apply Hout. unfold frame_va, PAGE_SIZE in *. lia.
    + intros r' va Hr' Hn. unfold nohuge in *. rewrite (walkn_ext (mm k) (mm k') L 4 r' va Hwf Hr' ltac:(lia)); [done|].
      intros g j Hg Hj. rewrite Hent by done. destruct (Z.eqb_spec g c) as [->|]; [lia|done].
  - intros va Hva. unfold nohuge. rewrite walkn_S. cbv zeta. rewrite Hent, Z.eqb_refl by apply idx_range.
    destruct (Z.ltb_spec (idx 4 va) 256); [done|lia].
Qed.

(** ** Properties *)

Lemma tflags_rw_user : tflags_ok (PTE_WRITE |b PTE_USER).
Proof. by repeat split. Qed.

(** C7. [vmm_map_page] maps what it says and nothing else, where the tables on the way to the page hold no huge page
    ([nohuge]; the code does not look at the huge bit) and the flags lie outside the address
    field: on well-formed tables
    it returns 0, or -1 with no frame left; after 0, [vmm_get_phys] translates every address of the
    page to the given frame, keeping the page offset, the entry the walk ends in
    is the frame with the given flags and the present bit, and the TLB entry has been
    flushed; every address of another page, and every address at all after -1,
    translates as before; the tables stay well-formed. *)
Theorem vmm_map_page_correct k L r va phys flags
    (Hinv : vm_inv k L) (Hr : L r = 4%nat) (Hroot : pml4_phys k = r * PAGE_SIZE)
    (Hnh : nohuge 4 (mm k) r va) (Hfl : 0 <= flags < 2 ^ 64) (Hna : flags &b PTE_ADDR_MASK = 0) :
  let '(rc, k') := vmm_map_page k va phys flags in
  (rc = 0 \/ rc = -1 /\ no_frame k') /\ (exists L', vm_inv k' L' /\ extends L L') /\
  (rc = 0 -> vmm_get_phys k' va = (phys &b PTE_ADDR_MASK) |b (va &b (PAGE_SIZE - 1)) /\
             (exists pt, walkn 4 (mm k') r va = Some (1%nat, pt, idx 1 va) /\
                ent (mm k') pt (idx 1 va) = (phys &b PTE_ADDR_MASK) |b flags |b PTE_PRESENT) /\
             cpu_log k' = Invlpg va :: cpu_log k) /\
  (forall va', rc = -1 \/ ~ same_page va va' -> vmm_get_phys k' va' = vmm_get_phys k va').
Proof.
  unfold vmm_map_page. rewrite Hroot. pose proof tflags_rw_user as Htf.
  pose proof (map_in_spec k L r va phys flags _ Hinv Hr Hnh Htf Hfl (nxt_flags _ Hna)) as H.
  pose proof (map_in_oom k L r va phys flags _ Hinv Hr Hnh Htf) as Hoom.
  pose proof (map_in_entry k L r va phys flags _ Hinv Hr Hnh Htf Hfl (nxt_flags _ Hna)) as Hent.
  destruct (map_in k (r * PAGE_SIZE) va phys flags (PTE_WRITE |b PTE_USER)) as [ok k'].
  destruct H as (L' & Hi & He & Hs & Hl & Ho & Hx & _).
  assert (L' r = 4%nat) as Hr' by (rewrite He; lia).
  pose proof (vi_wf _ _ Hi) as Hwf'. assert (pml4_phys k' = r * PAGE_SIZE) as Hroot' by (destruct Hs as (_ & -> & _); done).
  destruct ok; (split; [auto|]); (split; [exists L'; split; [try apply vm_inv_invlpg; done|done]|]); split.
  - intros _. split; [|split; [by apply Hent|simpl; by rewrite Hl]]. rewrite (get_phys_root (invlpg k' va) L' r) by done. by apply Hx.
  - intros va' [|Hne]; [done|]. rewrite (get_phys_root (invlpg k' va) L' r), (get_phys_root k L r)
      by (done || apply Hinv). apply Ho; [done|]. right. tauto.
  - done.
  - intros va' _. rewrite (get_phys_root k' L' r), (get_phys_root k L r) by (done || apply Hinv).
    apply Ho; [done|by left].
Qed.

(** Address spaces are isolated: mapping a user-half page into one address
    space (a PML4 other than [r']) changes no translation of the address space
    [r'], of user or kernel addresses, whether the call succeeds or runs out of
    frames; in the target the page translates to the frame after success. *)
Theorem vmm_map_user_page_isolated k L r r' va phys flags
    (Hinv : vm_inv k L) (Hr : L r = 4%nat) (Hr' : L r' = 4%nat) (Hne : r' <> r)
    (Huser : VA_PML4_IDX va < 256)
    (Hnh : nohuge 4 (mm k) r va) (Hfl : 0 <= flags < 2 ^ 64) (Hna : flags &b PTE_ADDR_MASK = 0) :
  let '(rc, k') := vmm_map_user_page k (r * PAGE_SIZE) va phys flags in
  (exists L', vm_inv k' L' /\ extends L L') /\
  (forall va', get_phys_in k' (r' * PAGE_SIZE) va' = get_phys_in k (r' * PAGE_SIZE) va') /\
  (rc = 0 -> get_phys_in k' (r * PAGE_SIZE) va = (phys &b PTE_ADDR_MASK) |b (va &b (PAGE_SIZE - 1))).
Proof.
  unfold vmm_map_user_page.
  pose proof (map_in_spec k L r va phys flags (PTE_WRITE |b PTE_USER) Hinv Hr Hnh tflags_rw_user Hfl
    (nxt_flags _ Hna)) as H.
  destruct (map_in k (r * PAGE_SIZE) va phys flags (PTE_WRITE |b PTE_USER)) as [ok k'].
  destruct H as (L' & Hi & He & Hs & Hl & Ho & Hx & _).
  set (k'' := if ok then flush_if_current k' (r * PAGE_SIZE) va else k').
  assert (mm k'' = mm k' /\ vm_inv k'' L') as [Hm Hi''].
  { unfold k'', flush_if_current. destruct ok; [destruct (_ =? _)|]; auto using vm_inv_invlpg. }
  rewrite va_idx4 in Huser.
  assert ((exists L', vm_inv k'' L' /\ extends L L') /\
    (forall va', get_phys_in k'' (r' * PAGE_SIZE) va' = get_phys_in k (r' * PAGE_SIZE) va') /\
    (ok = true -> get_phys_in k'' (r * PAGE_SIZE) va = (phys &b PTE_ADDR_MASK) |b (va &b (PAGE_SIZE - 1))))
    as (H1 & H2 & H3).
  { split; [by exists L'|]. split.
    - intros va'. rewrite (get_phys_xlate k'' L'), (get_phys_xlate k L), Hm
        by (apply Hi'' || apply Hinv || done || rewrite He; lia).
      apply Ho; [done|]. right. intros [_ [?|?]]; [done|lia].
    - intros Hok. rewrite (get_phys_xlate k'' L'), Hm by (apply Hi'' || rewrite He; lia). by apply Hx. }
  subst k''. by destruct ok; (split; [done|split; [done|]]); intros ?; [apply H3|].
Qed.

(** [vmm_unmap_page] removes the translation of its page and of no other:
    afterwards [vmm_get_phys] gives 0 on the page and its former value on every
    other page, whether or not the page was mapped. *)
Theorem vmm_unmap_page_correct k L r va
    (Hinv : vm_inv k L) (Hr : L r = 4%nat) (Hroot : pml4_phys k = r * PAGE_SIZE)
    (Hnh : nohuge 4 (mm k) r va) :
  let k' := vmm_unmap_page k va in
  vm_inv k' L /\ vmm_get_phys k' va = 0 /\
  forall va', ~ same_page va va' -> vmm_get_phys k' va' = vmm_get_phys k va'.
Proof.
  intros k'. pose proof (vi_wf _ _ Hinv) as Hwf.
  unfold k'. rewrite (unmap_eq k L r) by done. clear k'.
  destruct (walkn 4 (mm k) r va) as [[[l pt] i]|] eqn:Hw.
  - destruct (walkn_typed _ L Hwf _ _ _ _ _ _ Hr ltac:(lia) Hw) as (Hpt & Hl & ->).
    assert (l = 1%nat) as -> by (unfold nohuge in Hnh; by rewrite Hw in Hnh).
    destruct (leaf_write k L r va pt 0 (invlpg (st k (frame_va pt) (idx 1 va) 0) va)) as (Hi & Hx & Ho);
      try done.
    split; [done|]. rewrite (get_phys_root _ L r) by (done || apply Hi). split; [exact Hx|].
    intros va' Hne. rewrite (get_phys_root _ L r), (get_phys_root k L r) by (done || apply Hi).
    apply Ho; [done|]. tauto.
  - split; [done|]. rewrite (get_phys_root k L r) by done. unfold xlate. by rewrite Hw.
Qed.

(** C10. Resolving a copy-on-write fault at a user address.  When no present page marked copy-on-write is there, or no
    frame is free, the handler reports failure and nothing changes.  Otherwise it reports
    success: the page is given a frame
    that was free, holding the same 4096 bytes; the page table entry becomes
    writable and loses the copy-on-write mark, the TLB entry is flushed, and no
    other page translates differently in any address space. *)
Theorem cow_handle_correct k L r va
    (Hinv : vm_inv k L) (Hr : L r = 4%nat) (Hcr : read_cr3 k &b PTE_ADDR_MASK = r * PAGE_SIZE)
    (Huser : VA_PML4_IDX va < 256) (Hcow : cow_pages_ok k L) :
  let '(handled, k') := cow_handle k va in
  (handled = 0 <-> ~ cow_at k r va \/ no_frame k) /\ (handled = 0 -> k' = k) /\
  (handled <> 0 -> handled = 1 /\ vm_inv k' L /\ cpu_log k' = Invlpg (va &b PAGE_MASK) :: cpu_log k /\
   exists pt o c, walkn 4 (mm k) r va = Some (1%nat, pt, idx 1 va) /\
     o = nxt (ent (mm k) pt (idx 1 va)) /\ fa_used (fa k) c = false /\
     get_phys_in k' (r * PAGE_SIZE) va = (c * PAGE_SIZE) |b (va &b (PAGE_SIZE - 1)) /\
     has (ent (mm k') pt (idx 1 va)) PTE_WRITE = true /\
     has (ent (mm k') pt (idx 1 va)) PTE_COW = false /\
     (forall n, 0 <= n < PAGE_SIZE -> mm k' (frame_va c + n) = mm k (frame_va o + n)) /\
     (forall r' va', L r' = 4%nat -> ~ (same_page va va' /\ r' = r) ->
        get_phys_in k' (r' * PAGE_SIZE) va' = get_phys_in k (r' * PAGE_SIZE) va')).
Proof.
  pose proof (cow_handle_cases k L r va Hinv Hr Hcr Hcow) as H. pose proof (cow_handle_refuses k L r va Hinv Hr Hcr) as Hz.
  rewrite va_idx4 in Huser. destruct (cow_handle k va) as [h k']. cbn [fst] in Hz.
  destruct H as [[-> ->]|(-> & pt & c & Hw & Hc & Hfree & _ & _ & Hi & _ & Hl & Hx & [H1 H2] & Hcopy & Ho)]; (split; [exact Hz|]); (split; [done|]); [done|].
  intros _. split; [done|]. split; [done|]. split; [done|].
  exists pt, (nxt (ent (mm k) pt (idx 1 va))), c. splits; try done.
  - rewrite (get_phys_xlate k' L) by (done || apply Hi). done.
  - intros r' va' Hr' Hne. rewrite (get_phys_xlate k' L), (get_phys_xlate k L) by (done || apply Hi || apply Hinv).
    apply Ho; [done|]. intros [? [?|?]]; [tauto|lia].
Qed.

(** C32. [vmm_create_user_pml4] returns 0 without effect when no frame is left;
    otherwise the new address space translates no user address, translates every
    kernel-half address as the boot space does, and no existing address space
    changes. *)
Theorem vmm_create_user_pml4_correct k L r
    (Hinv : vm_inv k L) (Hr : L r = 4%nat) (Hroot : pml4_phys k = r * PAGE_SIZE) :
  let '(p, k') := vmm_create_user_pml4 k in
  (p = 0 /\ k' = k) \/
  exists c L', p = c * PAGE_SIZE /\ L c = O /\ L' c = 4%nat /\ vm_inv k' L' /\ extends L L' /\
    (forall va, VA_PML4_IDX va < 256 -> get_phys_in k' p va = 0) /\
    (forall va, 256 <= VA_PML4_IDX va -> get_phys_in k' p va = get_phys_in k (r * PAGE_SIZE) va) /\
    (forall r' va, L r' = 4%nat ->
       get_phys_in k' (r' * PAGE_SIZE) va = get_phys_in k (r' * PAGE_SIZE) va).
Proof.
  pose proof (create_cases k L r Hinv Hr Hroot) as H. destruct (vmm_create_user_pml4 k) as [p k'].
  destruct H as [(-> & -> & _)|(c & L' & -> & Hc & Hc' & Hi & He & _ & Hu & Hk & Ho & _)]; [by left|right].
  exists c, L'. splits; try done.
  - intros va Hva. rewrite (get_phys_xlate k' L') by (done || apply Hi). by apply Hu.
  - intros va Hva. rewrite (get_phys_xlate k' L'), (get_phys_xlate k L) by (done || apply Hi || apply Hinv).
    by apply Hk.
  - intros r' va Hr'. rewrite (get_phys_xlate k' L'), (get_phys_xlate k L)
      by (done || apply Hi || apply Hinv || rewrite He; lia). by apply Ho.
Qed.
End ops.

(** ** A concrete address space

    Frame 1 is the PML4, frames 2, 3 and 4 the tables of the first page, which
    is copy-on-write in frame 5; frame 6 is the empty PML4 of a second address
    space; frames 7 to 9 are free. *)

Definition demo_mem : mem :=
  store64 (store64 (store64 (store64 (fun _ => 0)
    (frame_va 1 + 8 * 0) 0x2007) (frame_va 2 + 8 * 0) 0x3007) (frame_va 3 + 8 * 0) 0x4007)
    (frame_va 4 + 8 * 0) 0x5205.
Definition demo_pmm : pmm_state :=
  fa_free (fa_free (fa_free (mk_pmm all_used PMM_MAX_FRAMES 0 0) 0x7000) 0x8000) 0x9000.
Definition demo_vm : kst pmm_state := mk_kst demo_mem demo_pmm 0x1000 0x1000 0x1000 [].
Definition demo_levels : levels := fun f =>
  if f =? 1 then 4%nat else if f =? 2 then 3%nat else if f =? 3 then 2%nat
  else if f =? 4 then 1%nat else if f =? 6 then 4%nat else O.

Lemma demo_ent f i : 0 <= i < 512 ->
  ent demo_mem f i =
    if i =? 0 then
      if f =? 4 then 0x5205 else if f =? 3 then 0x4007 else if f =? 2 then 0x3007
      else if f =? 1 then 0x2007 else 0
    else 0.
Proof.
  intros Hi. unfold demo_mem. rewrite !ent_store by lia.
  replace (ent (fun _ => 0) f i) with 0 by (symmetry; apply (load_zero 8)).
  rewrite (Z.eqb_sym i 0), !(Z.eqb_sym f). destruct (Z.eqb_spec 0 i); rewrite ?andb_true_r, ?andb_false_r; done.
Qed.

Lemma demo_wf : pt_wf demo_mem demo_levels.
Proof.
  assert (forall f i, (2 <= demo_levels f)%nat -> 0 <= i < 512 ->
    link (demo_levels f) (ent demo_mem f i) = true -> i = 0 /\ (f = 1 \/ f = 2 \/ f = 3)) as Hlinks.
  { intros f i Hf Hi. rewrite demo_ent by done. revert Hf. unfold demo_levels.
    destruct (Z.eqb_spec i 0); [|by unfold link].
    repeat case_ltb; subst; intros Hf Hlk; try done; try lia; (split; [done|]); auto. }
  split.
  - repeat apply store_bytes_ok. intros a. lia.
  - intros f. unfold demo_levels, WINDOW. repeat case_ltb; lia.
  - intros f i Hf Hi Hlk. destruct (Hlinks f i Hf Hi Hlk) as [-> [-> |[-> | ->]]]; by vm_compute.
  - intros f i g j Hf Hg Hi Hj Hlk Hlk'. rewrite <- Hg in Hlk'.
    destruct (Hlinks f i Hf Hi Hlk) as [-> Hf']. destruct (Hlinks g j ltac:(lia) Hj Hlk') as [-> Hg'].
    intros _. split; [done|]. left.
    destruct Hf' as [-> |[-> | ->]]; destruct Hg' as [-> |[-> | ->]]; done.
Qed.

Lemma demo_pmm_spec : fa_ok demo_pmm /\
  forall f, 0 <= f < PMM_MAX_FRAMES -> fa_used demo_pmm f = negb (f =? 7) && negb (f =? 8) && negb (f =? 9).
Proof.
  set (p0 := mk_pmm all_used PMM_MAX_FRAMES 0 0).
  assert (fa_ok p0) as H0 by (split; [apply all_used_ok|by apply all_used_used]).
  assert (fa_ok (fa_free p0 0x7000)) as H1 by by apply fa_free_ok.
  assert (fa_ok (fa_free (fa_free p0 0x7000) 0x8000)) as H2 by by apply fa_free_ok.
  split; [by apply fa_free_ok|]. intros f Hf. unfold demo_pmm. fold p0.
  rewrite !fa_free_used by (done || lia).
  change (fa_used p0 f) with (frame_used all_used f). rewrite all_used_used by done.
  change (0x9000 / FRAME_SIZE) with 9. change (0x8000 / FRAME_SIZE) with 8. change (0x7000 / FRAME_SIZE) with 7.
  rewrite !(Z.eqb_sym _ f). change (7 <? PMM_MAX_FRAMES) with true. change (8 <? PMM_MAX_FRAMES) with true.
  change (9 <? PMM_MAX_FRAMES) with true. by destruct (f =? 7), (f =? 8), (f =? 9).
Qed.

Lemma demo_inv : vm_inv demo_vm demo_levels.
Proof.
  destruct demo_pmm_spec as [Hok Hu]. split; [apply demo_wf|done| |].
  - intros f Hf. pose proof (pw_range _ _ demo_wf f Hf) as [Hr _]. unfold WINDOW in Hr.
    change (fa_used demo_pmm f = true).
    rewrite Hu by (change PMM_MAX_FRAMES with 1048576; lia). revert Hf. unfold demo_levels.
    repeat case_ltb; subst; try done; lia.
  - intros f Hf. unfold WINDOW in Hf. change (fa_used demo_pmm f = true). rewrite Hu by lia.
    repeat case_ltb; done || lia.
Qed.

Lemma demo_cow_pages : cow_pages_ok demo_vm demo_levels.
Proof.
  intros f i Hf Hi. change (mm demo_vm) with demo_mem. rewrite demo_ent by done.
  assert (f = 4) as -> by (revert Hf; unfold demo_levels; repeat case_ltb; done || lia).
  destruct (Z.eqb_spec i 0); [|done]. intros _ _. split; [by vm_compute|]. split; [|done].
  change (fa_used demo_pmm 5 = true). rewrite (proj2 demo_pmm_spec); done.
Qed.

Lemma vmm_map_page_correct_witness :
  (vmm_map_page demo_vm 0x1234 0xABC000 3).1 = 0 /\
  vmm_get_phys (vmm_map_page demo_vm 0x1234 0xABC000 3).2 0x1234 = 0xABC234.
Proof.
  assert ((vmm_map_page demo_vm 0x1234 0xABC000 3).1 = 0) as Hrc by (vm_compute; reflexivity).
  split; [exact Hrc|].
  pose proof (vmm_map_page_correct demo_vm demo_levels 1 0x1234 0xABC000 3 demo_inv eq_refl eq_refl
    ltac:(vm_compute; reflexivity) ltac:(lia) eq_refl) as H.
  destruct (vmm_map_page demo_vm 0x1234 0xABC000 3) as [rc k'].
  exact (proj1 (proj1 (proj2 (proj2 H)) Hrc)).
Defined.

Lemma vmm_map_user_page_isolated_witness :
  get_phys_in (vmm_map_user_page demo_vm (6 * PAGE_SIZE) 0x10 0xABC000 7).2 (1 * PAGE_SIZE) 0x10 = 0x5010.
Proof.
  pose proof (vmm_map_user_page_isolated demo_vm demo_levels 6 1 0x10 0xABC000 7 demo_inv eq_refl eq_refl
    ltac:(lia) eq_refl ltac:(vm_compute; exact I) ltac:(lia) eq_refl) as H.
  assert (get_phys_in demo_vm (1 * PAGE_SIZE) 0x10 = 0x5010) as H0 by (vm_compute; reflexivity).
  destruct (vmm_map_user_page demo_vm (6 * PAGE_SIZE) 0x10 0xABC000 7) as [rc k'].
  rewrite <- H0. exact (proj1 (proj2 H) 0x10).
Defined.

Lemma vmm_unmap_page_correct_witness :
  vmm_get_phys demo_vm 0 = 0x5000 /\ vmm_get_phys (vmm_unmap_page demo_vm 0) 0 = 0.
Proof.
  split; [vm_compute; reflexivity|].
  exact (proj1 (proj2 (vmm_unmap_page_correct demo_vm demo_levels 1 0 demo_inv eq_refl eq_refl
    ltac:(vm_compute; reflexivity)))).
Defined.

(** The copy-on-write page is copied; the page after it is not mapped and refused. *)
Lemma cow_handle_correct_witness :
  (cow_handle demo_vm 0x10).1 = 1 /\ vm_inv (cow_handle demo_vm 0x10).2 demo_levels /\ (cow_handle demo_vm 0x1010).1 = 0.
Proof.
  assert ((cow_handle demo_vm 0x10).1 = 1) as Hh by (vm_compute; reflexivity).
  split; [exact Hh|]. split.
  - pose proof (cow_handle_correct demo_vm demo_levels 1 0x10 demo_inv eq_refl eq_refl eq_refl demo_cow_pages) as H.
    destruct (cow_handle demo_vm 0x10) as [h k']. cbn [fst snd] in *. subst h.
    exact (proj1 (proj2 (proj2 (proj2 H) ltac:(discriminate)))).
  - pose proof (cow_handle_correct demo_vm demo_levels 1 0x1010 demo_inv eq_refl eq_refl eq_refl demo_cow_pages) as H.
    destruct (cow_handle demo_vm 0x1010) as [h k']. cbn [fst snd] in *. apply H. left. intros (pt & Hw & Hp & _).
    vm_compute in Hw. injection Hw as <-. vm_compute in Hp. discriminate Hp.
Defined.

Lemma vmm_create_user_pml4_correct_witness :
  (vmm_create_user_pml4 demo_vm).1 = 0x7000 /\
  get_phys_in (vmm_create_user_pml4 demo_vm).2 0x7000 0 = 0.
Proof.
  assert ((vmm_create_user_pml4 demo_vm).1 = 0x7000) as Hp by (vm_compute; reflexivity).
  split; [exact Hp|].
  pose proof (vmm_create_user_pml4_correct demo_vm demo_levels 1 demo_inv eq_refl eq_refl) as H.
  destruct (vmm_create_user_pml4 demo_vm) as [p k']. cbn [fst snd] in *. subst p.
  destruct H as [[H _]|(c & L' & _ & _ & _ & _ & _ & H & _)]; [discriminate H|exact (H 0 eq_refl)].
Defined.
