(* ===== verification/Heap.v ===== *)
(** * Kernel heap ([src/heap/heap.c], [src/heap/heap_internal.h])

    The slab allocator over the frame allocator.  A slab descriptor sits at the
    start of its page in kernel memory, its fields at the offsets of [slab_t];
    the cache table is part of the state.  List walks that follow pointers in
    memory take fuel and give [None] when it runs out.

    Shown here: a slab refines a set of free objects ([slab_inv]): creation
    yields all objects of the page, allocation takes the head, freeing puts an
    object back, each touching only the page of the slab; the size class of a
    request is the least power of two that fits; unlinking a slab from a cache
    list removes it and keeps the others in order; on a well-formed heap (the classes up to
    2048 bytes) [kmalloc] hands out memory that is in no other live slab block and in
    no frame in use, and [kfree] takes exactly its block back; the class of 4096-byte
    objects hands out an address past the end of its page. *)

From S2P Require Import Prelude Mem Pmm Vmm.

(** ** Constants and layout *)

Definition HEAP_MIN_ORDER : Z := 3.
Definition HEAP_MAX_ORDER : Z := 12.
Definition HEAP_NUM_CACHES : Z := HEAP_MAX_ORDER - HEAP_MIN_ORDER + 1.
Definition SLAB_SIZE : Z := 4096.

(** Offsets of the fields of [slab_t], and its size. *)
Definition slab_next : Z := 0.
Definition slab_freelist : Z := 8.
Definition slab_obj_size : Z := 16.
Definition slab_free_count : Z := 20.
Definition slab_total : Z := 24.
Definition sizeof_slab : Z := 32.
Definition sizeof_large_hdr : Z := 8.

Record slab_cache := mk_cache { obj_size : Z; partial : Z; full : Z }.

Record hst (S : Type) := mk_hst { hk : kst S; caches : list slab_cache }.
Arguments mk_hst {S}.
Arguments hk {S}.
Arguments caches {S}.

(** ** Size classes *)

(** The loop of [cache_index]; its order counter bounds it by
    [HEAP_NUM_CACHES] iterations. *)
Fixpoint cache_index_loop (n : nat) (s order size : Z) : Z :=
  match n with
  | O => order
  | S n => if (s <? size) && (order <? HEAP_MAX_ORDER)
           then cache_index_loop n (u64 (s <<b 1)) (order + 1) size else order
  end.
Definition cache_index (size : Z) : Z :=
  cache_index_loop (Z.to_nat HEAP_NUM_CACHES) (1 <<b HEAP_MIN_ORDER) HEAP_MIN_ORDER size
  - HEAP_MIN_ORDER.

(** The loop of [round_up_pow2]: 60 doublings take 8 to [2^63]; [kmalloc] calls
    it with at most 4096. *)
Fixpoint round_up_loop (n : nat) (s size : Z) : Z :=
  match n with
  | O => s
  | S n => if s <? size then round_up_loop n (u64 (s <<b 1)) size else s
  end.
Definition round_up_pow2 (size : Z) : Z := round_up_loop 60 (1 <<b HEAP_MIN_ORDER) size.

Section heap.
Context {A : Type} `{!FrameAlloc A}.
Implicit Types (k : kst A) (h : hst A).

Definition set_hk h k : hst A := mk_hst k (caches h).
Definition set_cache h (i : Z) (c : slab_cache) : hst A :=
  mk_hst (hk h) (<[Z.to_nat i := c]> (caches h)).
Definition get_cache h (i : Z) : slab_cache :=
  default (mk_cache 0 0 0) (caches h !! Z.to_nat i).

(** ** Slabs *)

(** The header rounded up to the object size. *)
Definition slab_hdr_size (osz : Z) : Z :=
  if negb (sizeof_slab mod osz =? 0) then sizeof_slab + (osz - sizeof_slab mod osz) else sizeof_slab.

Definition slab_capacity (osz : Z) : Z :=
  u32 (u64 (SLAB_SIZE - slab_hdr_size osz) / osz).

(** The loop that links the objects, from object [i] on. *)
Fixpoint link_objs (n : nat) (m : mem) (base osz total i : Z) : mem :=
  match n with
  | O => m
  | S n =>
      let next := if u32 (i + 1) <? total then base + (i + 1) * osz else 0 in
      link_objs n (store64 m (base + i * osz) next) base osz total (i + 1)
  end.

Definition slab_init_mem (m : mem) (slab osz : Z) : mem :=
  let m := memset m slab 0 SLAB_SIZE in
  let hdr_size := slab_hdr_size osz in
  let total := slab_capacity osz in
  let m := store32 m (slab + slab_obj_size) osz in
  let m := store32 m (slab + slab_total) total in
  let m := store32 m (slab + slab_free_count) total in
  let m := store64 m (slab + slab_next) 0 in
  let base := slab + hdr_size in
  let m := store64 m (slab + slab_freelist) base in
  link_objs (Z.to_nat total) m base osz total 0.

Definition slab_create k (osz : Z) : Z * kst A :=
  let '(frame, k) := alloc_frame k in
  if frame =? 0 then (0, k)
  else
    let slab := PHYS_TO_VIRT frame in
    (slab, set_mm k (slab_init_mem (mm k) slab osz)).

Definition slab_alloc_from (m : mem) (slab : Z) : Z * mem :=
  let obj := load64 m (slab + slab_freelist) in
  let m := store64 m (slab + slab_freelist) (load64 m obj) in
  let m := store32 m (slab + slab_free_count) (u32 (load32 m (slab + slab_free_count) - 1)) in
  (obj, m).

Definition slab_of (ptr : Z) : Z := ptr &b not64 (SLAB_SIZE - 1).

(** The part of [cache_free] before the lists: push the object. *)
Definition slab_push (m : mem) (slab ptr : Z) : mem :=
  let m := store64 m ptr (load64 m (slab + slab_freelist)) in
  let m := store64 m (slab + slab_freelist) ptr in
  store32 m (slab + slab_free_count) (u32 (load32 m (slab + slab_free_count) + 1)).

(** ** Caches *)

(** The second half of [cache_alloc]: take an object of the first partial slab,
    moving the slab to the full list when it was the last one. *)
Definition cache_pop h (ci : Z) : Z * hst A :=
  let c := get_cache h ci in
  let slab := partial c in
  let '(ptr, m) := slab_alloc_from (mm (hk h)) slab in
  let h := set_hk h (set_mm (hk h) m) in
  if load32 m (slab + slab_free_count) =? 0 then
    let p := load64 m (slab + slab_next) in
    let m := store64 m (slab + slab_next) (full c) in
    (ptr, set_cache (set_hk h (set_mm (hk h) m)) ci (mk_cache (obj_size c) p slab))
  else (ptr, h).

Definition cache_alloc h (ci : Z) : Z * hst A :=
  let c := get_cache h ci in
  if partial c =? 0 then
    let '(s, k) := slab_create (hk h) (obj_size c) in
    let h := set_hk h k in
    if s =? 0 then (0, h)
    else cache_pop (set_cache h ci (mk_cache (obj_size c) s (full c))) ci
  else cache_pop h ci.

(** [while ( *p && *p != slab) p = &( *p)->next; if ( *p) *p = slab->next;] where
    [p] is the [next] field of [prev]. *)
Fixpoint unlink_after (fuel : nat) (m : mem) (prev slab : Z) : option mem :=
  match fuel with
  | O => None
  | S fuel =>
      let cur := load64 m (prev + slab_next) in
      if cur =? 0 then Some m
      else if cur =? slab then Some (store64 m (prev + slab_next) (load64 m (slab + slab_next)))
      else unlink_after fuel m cur slab
  end.

(** The same loop started at the list head: the new head and the memory. *)
Definition unlink (fuel : nat) (m : mem) (head slab : Z) : option (Z * mem) :=
  if head =? 0 then Some (head, m)
  else if head =? slab then Some (load64 m (slab + slab_next), m)
  else match unlink_after fuel m head slab with
       | Some m => Some (head, m)
       | None => None
       end.

(** [cache_free] on a slab that was full: off the full list, onto the partial. *)
Definition full_to_partial (fuel : nat) h (ci slab : Z) : option (hst A) :=
  let c := get_cache h ci in
  match unlink fuel (mm (hk h)) (full c) slab with
  | None => None
  | Some (full', m) =>
      let m := store64 m (slab + slab_next) (partial c) in
      Some (set_cache (set_hk h (set_mm (hk h) m)) ci (mk_cache (obj_size c) slab full'))
  end.

(** [cache_free] on a slab that became empty: off the partial list, its frame
    back to the frame allocator. *)
Definition release_slab (fuel : nat) h (ci slab : Z) : option (hst A) :=
  let c := get_cache h ci in
  match unlink fuel (mm (hk h)) (partial c) slab with
  | None => None
  | Some (partial', m) =>
      let h := set_cache (set_hk h (set_mm (hk h) m)) ci (mk_cache (obj_size c) partial' (full c)) in
      Some (set_hk h (free_frame (hk h) (VIRT_TO_PHYS slab)))
  end.

Definition cache_free (fuel : nat) h (ci ptr : Z) : option (hst A) :=
  let slab := slab_of ptr in
  let was_full := load32 (mm (hk h)) (slab + slab_free_count) =? 0 in
  let h := set_hk h (set_mm (hk h) (slab_push (mm (hk h)) slab ptr)) in
  match (if was_full then full_to_partial fuel h ci slab else Some h) with
  | None => None
  | Some h =>
      if load32 (mm (hk h)) (slab + slab_free_count) =? load32 (mm (hk h)) (slab + slab_total)
      then release_slab fuel h ci slab
      else Some h
  end.

(** ** Large allocations *)

(** The loop of [large_alloc]: [None] is the early [return NULL]. *)
Fixpoint large_loop (n : nat) k (i first : Z) : option Z * kst A :=
  match n with
  | O => (Some first, k)
  | S n =>
      let '(frame, k) := alloc_frame k in
      if frame =? 0 then (None, k)
      else large_loop n k (i + 1) (if i =? 0 then frame else first)
  end.

Definition large_alloc k (size : Z) : Z * kst A :=
  let total := u64 (size + sizeof_large_hdr) in
  let num_pages := u64 (total + SLAB_SIZE - 1) / SLAB_SIZE in
  match large_loop (Z.to_nat num_pages) k 0 0 with
  | (None, k) => (0, k)
  | (Some first, k) =>
      let hdr := PHYS_TO_VIRT first in
      (u64 (hdr + sizeof_large_hdr), set_mm k (store64 (mm k) hdr num_pages))
  end.

Definition large_free k (ptr : Z) : kst A :=
  free_frame k (VIRT_TO_PHYS (u64 (ptr - sizeof_large_hdr))).

(** ** Public interface *)

Definition kmalloc h (size : Z) : Z * hst A :=
  if size =? 0 then (0, h)
  else if size >? (1 <<b HEAP_MAX_ORDER) then
    let '(p, k) := large_alloc (hk h) size in (p, set_hk h k)
  else
    let osz := round_up_pow2 (if size <? (1 <<b HEAP_MIN_ORDER) then 1 <<b HEAP_MIN_ORDER else size) in
    cache_alloc h (cache_index osz).

Definition kzalloc h (size : Z) : Z * hst A :=
  let '(p, h) := kmalloc h size in
  if negb (p =? 0) then (p, set_hk h (set_mm (hk h) (memset (mm (hk h)) p 0 size))) else (p, h).

(** The test that tells slab objects from large blocks. *)
Definition slab_like (m : mem) (slab : Z) : bool :=
  ((1 <<b HEAP_MIN_ORDER) <=? load32 m (slab + slab_obj_size)) &&
  (load32 m (slab + slab_obj_size) <=? (1 <<b HEAP_MAX_ORDER)).

Definition kfree (fuel : nat) h (ptr : Z) : option (hst A) :=
  if ptr =? 0 then Some h
  else
    let slab := slab_of ptr in
    if slab_like (mm (hk h)) slab then
      cache_free fuel h (cache_index (load32 (mm (hk h)) (slab + slab_obj_size))) ptr
    else Some (set_hk h (large_free (hk h) ptr)).

Definition krealloc (fuel : nat) h (ptr size : Z) : option (Z * hst A) :=
  if ptr =? 0 then Some (kmalloc h size)
  else if size =? 0 then
    match kfree fuel h ptr with Some h => Some (0, h) | None => None end
  else
    let m := mm (hk h) in
    let slab := slab_of ptr in
    let old_size :=
      if slab_like m slab then load32 m (slab + slab_obj_size)
      else u64 (load64 m (u64 (ptr - sizeof_large_hdr)) * SLAB_SIZE - sizeof_large_hdr) in
    if size <=? old_size then Some (ptr, h)
    else
      let '(newp, h) := kmalloc h size in
      if newp =? 0 then Some (0, h)
      else
        let h := set_hk h (set_mm (hk h) (memcpy (mm (hk h)) newp ptr old_size)) in
        match kfree fuel h ptr with Some h => Some (newp, h) | None => None end.

Definition heap_init h : Z * hst A :=
  (0, mk_hst (hk h)
        (map (fun i => mk_cache (u32 (1 <<b (HEAP_MIN_ORDER + Z.of_nat i))) 0 0)
           (seq 0 (Z.to_nat HEAP_NUM_CACHES)))).
End heap.

(** ** Pointer chains

    [chain m a l]: following the [next] pointers (offset 0) from [a] visits
    exactly the addresses [l] and ends in NULL. *)

Fixpoint chain (m : mem) (a : Z) (l : list Z) : Prop :=
  match l with
  | [] => a = 0
  | x :: l => a = x /\ x <> 0 /\ chain m (load64 m x) l
  end.

Lemma chain_ext m m' a l : (forall x, x ∈ l -> load64 m' x = load64 m x) -> chain m a l -> chain m' a l.
Proof.
  revert a. induction l as [|x l IH]; intros a Hext; [done|]. intros (-> & Hx & Hc).
  split; [done|]. split; [done|]. rewrite Hext by left. apply IH; [|done]. intros y Hy. apply Hext. by right.
Qed.

(** ** Slabs as sets of free objects *)

(** The object sizes that fit beside the descriptor. *)
Definition slab_class (osz : Z) : Prop := exists o, 3 <= o <= 11 /\ osz = 2 ^ o.

Definition obj_at (slab osz i : Z) : Z := slab + slab_hdr_size osz + i * osz.
Definition objs (slab osz : Z) : list Z :=
  map (fun i => obj_at slab osz (Z.of_nat i)) (seq 0 (Z.to_nat (slab_capacity osz))).

Record slab_inv (m : mem) (slab osz : Z) (fl : list Z) : Prop := {
  si_size : load32 m (slab + slab_obj_size) = osz;
  si_total : load32 m (slab + slab_total) = slab_capacity osz;
  si_count : load32 m (slab + slab_free_count) = Z.of_nat (length fl);
  si_chain : chain m (load64 m (slab + slab_freelist)) fl;
  si_nodup : NoDup fl;
  si_objs : Forall (fun x => x ∈ objs slab osz) fl
}.

(** The nine classes, evaluated. *)
Lemma slab_class_facts osz : slab_class osz ->
  8 <= osz <= 2048 /\ 32 <= slab_hdr_size osz /\ slab_hdr_size osz mod osz = 0 /\ 1 <= slab_capacity osz < 512 /\
  slab_hdr_size osz + slab_capacity osz * osz = SLAB_SIZE.
Proof.
  intros (o & Ho & ->).
  assert (o = 3 \/ o = 4 \/ o = 5 \/ o = 6 \/ o = 7 \/ o = 8 \/ o = 9 \/ o = 10 \/ o = 11) as Hc by lia.
  destruct_or! Hc; subst o; vm_compute; repeat split; discriminate.
Qed.

Lemma elem_of_objs slab osz x : x ∈ objs slab osz <->
  exists i, 0 <= i < slab_capacity osz /\ x = obj_at slab osz i.
Proof.
  unfold objs. rewrite list_elem_of_fmap. split.
  - intros (n & -> & Hn%elem_of_seq). exists (Z.of_nat n). split; [lia|done].
  - intros (i & Hi & ->). exists (Z.to_nat i). rewrite Z2Nat.id by lia. split; [done|].
    apply elem_of_seq. lia.
Qed.

(** Objects lie behind the descriptor, inside the page, and do not overlap. *)
Lemma objs_bounds slab osz x : slab_class osz -> x ∈ objs slab osz ->
  slab + 32 <= x /\ x + osz <= slab + SLAB_SIZE.
Proof.
  intros Hc (i & Hi & ->)%elem_of_objs. destruct (slab_class_facts osz Hc) as (H1 & H2 & _ & H3 & H4).
  unfold obj_at. nia.
Qed.

Lemma objs_disjoint slab osz x y : slab_class osz -> x ∈ objs slab osz -> y ∈ objs slab osz -> x <> y ->
  x + osz <= y \/ y + osz <= x.
Proof.
  intros Hc (i & Hi & ->)%elem_of_objs (j & Hj & ->)%elem_of_objs Hne.
  destruct (slab_class_facts osz Hc) as (H1 & _). unfold obj_at in *.
  destruct (Z.lt_trichotomy i j) as [Hlt|[->|Hlt]]; [left; nia|done|right; nia].
Qed.

Lemma obj_aligned {A} `{!FrameAlloc A} (a : A) s osz x : slab_class osz ->
  (exists f, s = frame_va f /\ 0 < f < WINDOW /\ fa_used a f = true) -> x ∈ objs s osz -> x mod 8 = 0.
Proof.
  intros Hc (f & -> & Hf & _) (i & Hi & ->)%elem_of_objs.
  destruct (slab_class_facts osz Hc) as (_ & _ & Hmod & _). destruct Hc as (o & Ho & ->).
  apply Z.mod_divide in Hmod as [q Hq]; [|lia]. unfold obj_at, frame_va, KERNEL_VMA, PAGE_SIZE. rewrite Hq.
  replace (2 ^ o) with (8 * 2 ^ (o - 3)); [|change 8 with (2 ^ 3); rewrite <- Z.pow_add_r by lia; f_equal; lia].
  apply Z.mod_divide; [lia|].
  exists (0x1FFFFFFFF0000000 + f * 512 + q * 2 ^ (o - 3) + i * 2 ^ (o - 3)). lia.
Qed.

(** The linking loop builds the chain of the objects from [i] on and writes only
    there. *)
Lemma link_objs_spec n m base osz total i : 8 <= osz -> 0 < base -> 0 <= i -> i + Z.of_nat n = total ->
  total < 2 ^ 32 -> base + total * osz <= 2 ^ 64 ->
  let m' := link_objs n m base osz total i in
  (n <> O -> chain m' (base + i * osz) (map (fun j => base + (i + Z.of_nat j) * osz) (seq 0 n))) /\
  (forall x, ~ (base + i * osz <= x < base + total * osz) -> m' x = m x).
Proof.
  intros Hosz Hbase. revert m i. induction n as [|n IH]; intros m i Hi Hn Ht Hb; cbn [link_objs].
  { split; [done|]. done. }
  set (next := if _ <? _ then _ else _).
  destruct (IH (store64 m (base + i * osz) next) (i + 1)) as [Hch Hfr]; [lia..|].
  split.
  - intros _. cbn [seq map chain]. replace (base + (i + Z.of_nat 0) * osz) with (base + i * osz) by lia.
    split; [done|]. split; [nia|].
    rewrite (load_ext 8 _ (store64 m (base + i * osz) next)) by (intros x Hx; apply Hfr; nia).
    rewrite load_store_eq. change (8 * Z.of_nat 8) with 64. fold (u64 next).
    assert (u64 next = if i + 1 <? total then base + (i + 1) * osz else 0) as ->.
    { unfold next. rewrite u32_small by lia. case_ltb; [apply u64_small; nia|done]. }
    rewrite <- seq_shift, map_map. clearbody next.
    destruct (Z.ltb_spec (i + 1) total).
    + destruct n as [|n]; [lia|].
      rewrite (map_ext _ (fun j => base + (i + 1 + Z.of_nat j) * osz)); [apply Hch; lia|].
      intros j. f_equal. f_equal. lia.
    + destruct n as [|n]; [done|lia].
  - intros x Hx. rewrite Hfr by nia. apply store_other. nia.
Qed.

Lemma slab_init_inv m slab osz : slab_class osz -> 0 < slab -> slab + SLAB_SIZE <= 2 ^ 64 -> bytes_ok m ->
  let m' := slab_init_mem m slab osz in
  slab_inv m' slab osz (objs slab osz) /\ load64 m' (slab + slab_next) = 0 /\
  (forall x, ~ (slab <= x < slab + SLAB_SIZE) -> m' x = m x).
Proof.
  intros Hc Hs Hmax Hm m'. destruct (slab_class_facts osz Hc) as (H1 & H2 & _ & H3 & H4).
  unfold m', slab_init_mem. cbv zeta.
  set (m0 := memset m slab 0 SLAB_SIZE).
  set (m1 := store64 _ (slab + slab_freelist) _).
  destruct (link_objs_spec (Z.to_nat (slab_capacity osz)) m1 (slab + slab_hdr_size osz) osz
    (slab_capacity osz) 0) as [Hch Hfr]; [lia..|].
  set (m2 := link_objs _ _ _ _ _ _) in *.
  assert (forall n a, slab <= a -> a + Z.of_nat n <= slab + 32 -> load n m2 a = load n m1 a) as Hhdr.
  { intros n a Ha1 Ha2. apply load_ext. intros x Hx. apply Hfr. lia. }
  unfold slab_obj_size, slab_total, slab_free_count, slab_next, slab_freelist in *.
  split; [split|split].
  - rewrite Hhdr by (unfold slab_obj_size; lia). unfold m1, slab_obj_size. rewrite !load_store_ne by lia.
    rewrite load_store_eq. apply Z.mod_small. lia.
  - rewrite Hhdr by (unfold slab_total; lia). unfold m1, slab_total. rewrite !load_store_ne by lia.
    rewrite load_store_eq. apply Z.mod_small. lia.
  - rewrite Hhdr by (unfold slab_free_count; lia). unfold m1, slab_free_count. rewrite !load_store_ne by lia.
    rewrite load_store_eq. unfold objs. rewrite length_map, length_seq, Z2Nat.id by lia. apply Z.mod_small. lia.
  - rewrite Hhdr by (unfold slab_freelist; lia). unfold m1 at 1, slab_freelist. rewrite load_store_eq.
    rewrite Z.mod_small by (change (8 * Z.of_nat 8) with 64; lia).
    replace (slab + slab_hdr_size osz) with (slab + slab_hdr_size osz + 0 * osz) by lia.
    apply Hch. lia.
  - unfold objs. apply NoDup_fmap_2; [|apply NoDup_seq].
    intros x y. unfold obj_at. nia.
  - by apply Forall_forall.
  - rewrite Hhdr by (unfold slab_next; lia). unfold m1, slab_next. rewrite load_store_ne by lia.
    by rewrite load_store_eq.
  - intros x Hx. rewrite Hfr by nia. unfold m1. rewrite !store_other by lia.
    unfold m0. rewrite memset_spec by done. repeat case_ltb; simpl; done || lia.
Qed.

Lemma link_objs_bytes n m base osz total i : bytes_ok m -> bytes_ok (link_objs n m base osz total i).
Proof.
  revert m i. induction n as [|n IH]; intros m i Hm; cbn [link_objs]; [done|]. auto with kernel.
Qed.

Lemma slab_init_bytes m slab osz : bytes_ok m -> bytes_ok (slab_init_mem m slab osz).
Proof.
  intros Hm. unfold slab_init_mem. cbv zeta. apply link_objs_bytes.
  do 5 apply store_bytes_ok. by apply memset_bytes_ok.
Qed.

(** Writes to the descriptor of a slab do not disturb its objects. *)
Lemma objs_hdr_ext m m' slab osz fl : slab_class osz -> Forall (fun x => x ∈ objs slab osz) fl ->
  (forall x, slab + 32 <= x -> m' x = m x) -> forall x, x ∈ fl -> load64 m' x = load64 m x.
Proof.
  intros Hc Hall Hext x Hx. apply load_ext. intros y Hy. apply Hext.
  rewrite Forall_forall in Hall. pose proof (objs_bounds slab osz x Hc (Hall x Hx)). lia.
Qed.

Lemma objs_length slab osz fl : slab_class osz -> NoDup fl -> Forall (fun x => x ∈ objs slab osz) fl ->
  Z.of_nat (length fl) <= slab_capacity osz.
Proof.
  intros Hc Hnd Hall. destruct (slab_class_facts osz Hc) as (_ & _ & _ & H3 & _).
  assert (length fl <= length (objs slab osz))%nat as Hle.
  { apply submseteq_length, NoDup_submseteq; [done|]. by apply Forall_forall. }
  unfold objs in Hle. rewrite length_map, length_seq in Hle. lia.
Qed.

Lemma slab_alloc_inv m slab osz x fl : slab_class osz -> 0 < slab -> bytes_ok m ->
  slab_inv m slab osz (x :: fl) ->
  let '(p, m') := slab_alloc_from m slab in
  p = x /\ slab_inv m' slab osz fl /\ load64 m' (slab + slab_next) = load64 m (slab + slab_next) /\
  (forall a, ~ (slab <= a < slab + 32) -> m' a = m a).
Proof.
  intros Hc Hs Hm [Hsz Htot Hcnt Hch Hnd Hob]. unfold slab_alloc_from. cbv zeta.
  destruct Hch as (Hhead & Hx0 & Hch).
  pose proof (objs_length slab osz (x :: fl) Hc Hnd Hob) as Hlen.
  destruct (slab_class_facts osz Hc) as (_ & _ & _ & H3 & _).
  apply NoDup_cons in Hnd as [Hnin Hnd]. apply Forall_cons in Hob as [Hxo Hob].
  unfold slab_obj_size, slab_total, slab_free_count, slab_next, slab_freelist in *.
  rewrite Hhead. set (m1 := store64 m (slab + 8) (load64 m x)).
  assert (load32 m1 (slab + 20) = load32 m (slab + 20)) as -> by (apply load_store_ne; lia).
  rewrite Hcnt. set (m2 := store32 m1 _ _).
  assert (forall a, ~ (slab <= a < slab + 32) -> m2 a = m a) as Hfr.
  { intros a Ha. unfold m2, m1. rewrite !store_other by lia. done. }
  assert (load64 m2 (slab + 8) = load64 m x) as Hfl.
  { unfold m2. rewrite load_store_ne by lia. unfold m1. rewrite load_store_eq.
    apply Z.mod_small. apply (load_range 8 m x Hm). }
  split; [done|]. split; [split|split; [|done]].
  - unfold slab_obj_size, m2, m1. by rewrite !load_store_ne by lia.
  - unfold slab_total, m2, m1. by rewrite !load_store_ne by lia.
  - unfold slab_free_count, m2. rewrite load_store_eq. change (8 * Z.of_nat 4) with 32. fold (u32 (u32 (Z.of_nat (length (x :: fl)) - 1))).
    cbn [length] in *. rewrite !u32_small by (rewrite ?u32_small; lia). lia.
  - unfold slab_freelist. rewrite Hfl. apply (chain_ext m); [|done].
    apply (objs_hdr_ext m m2 slab osz); [done|done|]. intros a Ha. apply Hfr. lia.
  - done.
  - done.
  - unfold slab_next, m2, m1. by rewrite !load_store_ne by lia.
Qed.

Lemma slab_push_inv m slab osz x fl : slab_class osz -> 0 < slab -> slab + SLAB_SIZE <= 2 ^ 64 -> bytes_ok m ->
  slab_inv m slab osz fl -> x ∈ objs slab osz -> x ∉ fl ->
  let m' := slab_push m slab x in
  slab_inv m' slab osz (x :: fl) /\ load64 m' (slab + slab_next) = load64 m (slab + slab_next) /\
  (forall a, ~ (slab <= a < slab + 32) -> ~ (x <= a < x + 8) -> m' a = m a).
Proof.
  intros Hc Hs Hmax Hm [Hsz Htot Hcnt Hch Hnd Hob] Hx Hnin m'. unfold m', slab_push. cbv zeta.
  destruct (objs_bounds slab osz x Hc Hx) as [Hx1 Hx2].
  destruct (slab_class_facts osz Hc) as (Ho & _ & _ & H3 & _).
  pose proof (objs_length slab osz fl Hc Hnd Hob) as Hlen.
  unfold slab_obj_size, slab_total, slab_free_count, slab_next, slab_freelist in *.
  set (f := load64 m (slab + 8)) in *.
  set (m1 := store64 m x f). set (m2 := store64 m1 (slab + 8) x).
  assert (load32 m2 (slab + 20) = Z.of_nat (length fl)) as ->.
  { unfold m2, m1. by rewrite !load_store_ne by lia. }
  set (m3 := store32 m2 _ _).
  assert (forall a, ~ (slab <= a < slab + 32) -> ~ (x <= a < x + 8) -> m3 a = m a) as Hfr.
  { intros a Ha Ha'. unfold m3, m2, m1. rewrite !store_other by lia. done. }
  split; [split|split; [|done]].
  - unfold slab_obj_size, m3, m2, m1. by rewrite !load_store_ne by lia.
  - unfold slab_total, m3, m2, m1. by rewrite !load_store_ne by lia.
  - unfold slab_free_count, m3. rewrite load_store_eq. cbn [length].
    rewrite Z.mod_small by (rewrite u32_small; lia). rewrite u32_small by lia. lia.
  - unfold slab_freelist. assert (load64 m3 (slab + 8) = x) as ->.
    { unfold m3. rewrite load_store_ne by lia. unfold m2. rewrite load_store_eq. apply Z.mod_small.
      change (8 * Z.of_nat 8) with 64. lia. }
    cbn [chain]. split; [done|]. split; [lia|].
    assert (load64 m3 x = f) as ->.
    { unfold m3, m2. rewrite !load_store_ne by lia. unfold m1. rewrite load_store_eq. apply Z.mod_small.
      apply (load_range 8 m _ Hm). }
    apply (chain_ext m); [|done]. intros y Hy. apply load_ext. intros a Ha.
    rewrite Forall_forall in Hob. specialize (Hob y Hy).
    destruct (objs_disjoint slab osz x y Hc Hx Hob) as [Hd|Hd]; [by intros ->|..];
      destruct (objs_bounds slab osz y Hc Hob); apply Hfr; lia.
  - by constructor.
  - by constructor.
  - unfold slab_next, m3, m2, m1. by rewrite !load_store_ne by lia.
Qed.

(** ** The heap invariant

    Ghost state: the slabs on the partial and full lists of each cache ([P], [F])
    and the free list of each slab ([FL]).  The class of 4096-byte objects
    (cache 9) is outside the invariant. *)

Definition class_size (i : Z) : Z := 2 ^ (3 + i).

Lemma class_size_class i : 0 <= i <= 8 -> slab_class (class_size i).
Proof. intros Hi. exists (3 + i). split; [lia|done]. Qed.

(** A page of the window that the frame allocator has handed out. *)
Definition slab_page {A} `{!FrameAlloc A} (s : A) (slab : Z) : Prop :=
  exists f, slab = frame_va f /\ 0 < f < WINDOW /\ fa_used s f = true.

Record heap_inv {A} `{!FrameAlloc A} (h : hst A) (P F : Z -> list Z) (FL : Z -> list Z) : Prop := {
  hi_bytes : bytes_ok (mm (hk h));
  hi_fa : fa_ok (fa (hk h));
  hi_window f : WINDOW <= f < PMM_MAX_FRAMES -> fa_used (fa (hk h)) f = true;
  hi_caches i : 0 <= i <= 8 -> exists c, caches h !! Z.to_nat i = Some c /\
    obj_size c = class_size i /\ chain (mm (hk h)) (partial c) (P i) /\ chain (mm (hk h)) (full c) (F i);
  hi_slab i s : 0 <= i <= 8 -> s ∈ P i ++ F i ->
    slab_page (fa (hk h)) s /\ slab_inv (mm (hk h)) s (class_size i) (FL s);
  hi_partial i s : 0 <= i <= 8 -> s ∈ P i -> FL s <> [];
  hi_full i s : 0 <= i <= 8 -> s ∈ F i -> FL s = [];
  hi_nodup i : 0 <= i <= 8 -> NoDup (P i ++ F i);
  hi_disj i j s : 0 <= i <= 8 -> 0 <= j <= 8 -> s ∈ P i ++ F i -> s ∈ P j ++ F j -> i = j
}.

(** Object [x] of slab [s] of cache [i] is handed out. *)
Definition live (P F FL : Z -> list Z) (i s x : Z) : Prop :=
  0 <= i <= 8 /\ s ∈ P i ++ F i /\ x ∈ objs s (class_size i) /\ x ∉ FL s.

(** The bytes of the blocks handed out. *)
Definition owned (P F FL : Z -> list Z) (a : Z) : Prop :=
  exists j t x, live P F FL j t x /\ x <= a < x + class_size j.

Lemma slab_inv_ext m m' slab osz fl : slab_class osz ->
  (forall x, slab + 8 <= x < slab + SLAB_SIZE -> m' x = m x) -> slab_inv m slab osz fl -> slab_inv m' slab osz fl.
Proof.
  intros Hc Hext [H1 H2 H3 H4 H5 H6].
  assert (forall n a, slab + 8 <= a -> a + Z.of_nat n <= slab + SLAB_SIZE -> load n m' a = load n m a) as Hl.
  { intros n a Ha1 Ha2. apply load_ext. intros x Hx. apply Hext. lia. }
  unfold slab_obj_size, slab_total, slab_free_count, slab_freelist, SLAB_SIZE in *.
  split; unfold slab_obj_size, slab_total, slab_free_count, slab_freelist; rewrite ?Hl by lia; try done.
  apply (chain_ext m); [|done]. intros x Hx. rewrite Forall_forall in H6.
  pose proof (objs_bounds slab osz x Hc (H6 x Hx)). destruct (slab_class_facts osz Hc).
  unfold SLAB_SIZE in *. apply Hl; lia.
Qed.

(** Distinct pages do not overlap. *)
Lemma slab_page_disj {A} `{!FrameAlloc A} (a : A) s t : slab_page a s -> slab_page a t -> s <> t ->
  s + SLAB_SIZE <= t \/ t + SLAB_SIZE <= s.
Proof.
  intros (f & -> & Hf & _) (g & -> & Hg & _) Hne. unfold frame_va, PAGE_SIZE, SLAB_SIZE in *. lia.
Qed.

Lemma slab_page_pos {A} `{!FrameAlloc A} (a : A) s : slab_page a s -> 0 < s /\ s + SLAB_SIZE <= 2 ^ 64.
Proof.
  intros (f & -> & Hf & _). unfold frame_va, PAGE_SIZE, SLAB_SIZE, WINDOW, KERNEL_VMA in *. lia.
Qed.

(** A chain of slabs is kept by memory that agrees on their first words. *)
Lemma chain_slabs_ext m m' a l : (forall s x, s ∈ l -> s <= x < s + 8 -> m' x = m x) ->
  chain m a l -> chain m' a l.
Proof.
  intros Hext. apply chain_ext. intros s Hs. apply load_ext. intros x Hx. by apply (Hext s).
Qed.

(** Finite-map update of the ghost functions. *)
Definition upd_at {B} (f : Z -> B) (i : Z) (b : B) : Z -> B := fun j => if j =? i then b else f j.

Lemma upd_at_eq {B} (f : Z -> B) i b : upd_at f i b i = b.
Proof. unfold upd_at. by rewrite Z.eqb_refl. Qed.
Lemma upd_at_ne {B} (f : Z -> B) i b j : j <> i -> upd_at f i b j = f j.
Proof. intros H. unfold upd_at. by rewrite (proj2 (Z.eqb_neq j i)). Qed.

Lemma chain_head_range m a l : chain m a l -> (forall x, x ∈ l -> 0 <= x < 2 ^ 64) -> 0 <= a < 2 ^ 64.
Proof. destruct l as [|x l]; simpl; [lia|]. intros (-> & _ & _) H. apply H. left. Qed.

Section heap_proofs.
Context {A : Type} `{!FrameAlloc A} `{!FrameAllocLaws A}.
Implicit Types (h : hst A) (P F FL : Z -> list Z).

(** The invariant after the slab [s] of cache [i] changed: its page, the list
    links of the cache, its place on the lists and its free list; the allocator
    kept. *)
Lemma heap_inv_update h P F FL h' i s p' f' fl' c' :
  heap_inv h P F FL -> 0 <= i <= 8 -> s ∈ P i ++ F i ->
  bytes_ok (mm (hk h')) -> fa (hk h') = fa (hk h) ->
  caches h' = <[Z.to_nat i := c']> (caches h) -> obj_size c' = class_size i ->
  (forall x, ~ (s <= x < s + SLAB_SIZE) -> (forall t, t ∈ P i ++ F i -> ~ (t <= x < t + 8)) ->
     mm (hk h') x = mm (hk h) x) ->
  slab_inv (mm (hk h')) s (class_size i) fl' ->
  chain (mm (hk h')) (partial c') p' -> chain (mm (hk h')) (full c') f' ->
  p' ++ f' ≡ₚ P i ++ F i ->
  (forall t, t ∈ p' -> t <> s -> t ∈ P i) -> (forall t, t ∈ f' -> t <> s -> t ∈ F i) ->
  (s ∈ p' -> fl' <> []) -> (s ∈ f' -> fl' = []) ->
  heap_inv h' (upd_at P i p') (upd_at F i f') (upd_at FL s fl').
Proof.
  intros [Hb Hfa Hw Hca Hsl Hpa Hfu Hnd Hdi] Hi Hs Hb' Hfa' Hcs Hc' Hmem Hsi Hp Hf Hperm Hpin Hfin Hpne Hfe.
  assert (forall j t, t ∈ upd_at P i p' j ++ upd_at F i f' j <-> t ∈ P j ++ F j) as Hin.
  { intros j t. destruct (decide (j = i)) as [->|]; [rewrite !upd_at_eq|by rewrite !upd_at_ne].
    by rewrite Hperm. }
  destruct (Hsl i s Hi Hs) as [Hspage _].
  assert (forall j t, 0 <= j <= 8 -> t ∈ P j ++ F j -> t <> s -> forall x, t <= x < t + SLAB_SIZE ->
    j <> i \/ t + 8 <= x -> mm (hk h') x = mm (hk h) x) as Hother.
  { intros j t Hj Ht Hne x Hx Hor. apply Hmem.
    { destruct (slab_page_disj _ t s (proj1 (Hsl j t Hj Ht)) Hspage Hne); lia. }
    intros u Hu Hxu. destruct (decide (t = u)) as [<-|Htu].
    { destruct Hor as [Hji|]; [|lia]. apply Hji. by apply (Hdi j i t). }
    unfold SLAB_SIZE in *.
    destruct (slab_page_disj _ t u (proj1 (Hsl j t Hj Ht)) (proj1 (Hsl i u Hi Hu)) Htu) as [Hd|Hd];
      unfold SLAB_SIZE in Hd; lia. }
  split; try done; [by rewrite Hfa'|by rewrite Hfa'|..].
  - intros j Hj. destruct (decide (j = i)) as [->|Hne].
    + exists c'. rewrite !upd_at_eq, Hcs. split; [|done]. apply list_lookup_insert_eq.
      destruct (Hca i Hi) as (c & Hc & _). by eapply lookup_lt_Some.
    + destruct (Hca j Hj) as (c & Hc & Ho & H1 & H2). exists c. rewrite !upd_at_ne, Hcs by done.
      rewrite list_lookup_insert_ne by lia. split; [done|]. split; [done|].
      split; (eapply chain_slabs_ext; [|done]); intros t x Ht Hx;
        (apply (Hother j t Hj); [in_app| |unfold SLAB_SIZE; lia|by left]); intros ->; apply Hne;
        (apply (Hdi j i s Hj Hi); [in_app|done]).
  - intros j t Hj Ht%Hin. rewrite Hfa'. destruct (Hsl j t Hj Ht) as [Hpg Hinv]. split; [done|].
    destruct (decide (t = s)) as [->|Hne].
    + rewrite upd_at_eq. by rewrite (Hdi j i s Hj Hi Ht Hs).
    + rewrite upd_at_ne by done. eapply slab_inv_ext; [by apply class_size_class| |done].
      intros x Hx. apply (Hother j t Hj Ht Hne); [lia|right; lia].
  - intros j t Hj Ht. destruct (decide (t = s)) as [->|Hne].
    + rewrite upd_at_eq. destruct (decide (j = i)) as [->|Hji]; [rewrite upd_at_eq in Ht; auto|].
      rewrite upd_at_ne in Ht by done. destruct Hji. apply (Hdi j i s Hj Hi); [in_app|done].
    + rewrite upd_at_ne by done. destruct (decide (j = i)) as [->|Hji].
      * rewrite upd_at_eq in Ht. apply (Hpa i); auto.
      * rewrite upd_at_ne in Ht by done. by apply (Hpa j).
  - intros j t Hj Ht. destruct (decide (t = s)) as [->|Hne].
    + rewrite upd_at_eq. destruct (decide (j = i)) as [->|Hji]; [rewrite upd_at_eq in Ht; auto|].
      rewrite upd_at_ne in Ht by done. destruct Hji. apply (Hdi j i s Hj Hi); [in_app|done].
    + rewrite upd_at_ne by done. destruct (decide (j = i)) as [->|Hji].
      * rewrite upd_at_eq in Ht. apply (Hfu i); auto.
      * rewrite upd_at_ne in Ht by done. by apply (Hfu j).
  - intros j Hj. destruct (decide (j = i)) as [->|]; [rewrite !upd_at_eq|rewrite !upd_at_ne by done; by apply Hnd].
    rewrite Hperm. by apply Hnd.
  - intros j j' t Hj Hj' H1%Hin H2%Hin. by apply (Hdi j j' t).
Qed.

(** A fresh slab becomes the partial list of cache [i]; no object is live in it. *)
Lemma heap_inv_new h P F FL i c k1 m1 cc :
  heap_inv h P F FL -> 0 <= i <= 8 -> caches h !! Z.to_nat i = Some cc -> P i = [] ->
  0 < c < WINDOW -> fa_used (fa (hk h)) c = false -> fa_ok (fa k1) ->
  (forall g, 0 <= g -> fa_used (fa k1) g = (c =? g) || fa_used (fa (hk h)) g) ->
  bytes_ok m1 -> slab_inv m1 (frame_va c) (class_size i) (objs (frame_va c) (class_size i)) ->
  load64 m1 (frame_va c) = 0 ->
  (forall x, ~ (frame_va c <= x < frame_va c + SLAB_SIZE) -> m1 x = mm (hk h) x) ->
  let h' := set_cache (set_hk h (set_mm k1 m1)) i (mk_cache (obj_size cc) (frame_va c) (full cc)) in
  let P' := upd_at P i [frame_va c] in
  let FL' := upd_at FL (frame_va c) (objs (frame_va c) (class_size i)) in
  heap_inv h' P' F FL' /\ (forall j t x, live P' F FL' j t x <-> live P F FL j t x).
Proof.
  intros [Hb Hfa Hw Hca Hsl Hpa Hfu Hnd Hdi] Hi Hcc HPi Hc Hcu Hok Hu Hb1 Hsi Hnext Hmem h' P' FL'.
  set (s := frame_va c) in *.
  assert (forall j t, 0 <= j <= 8 -> t ∈ P j ++ F j -> t <> s) as Hold.
  { intros j t Hj Ht ->. destruct (Hsl j s Hj Ht) as [(f & Hf & Hfw & Hfu') _].
    assert (f = c) as -> by (unfold s, frame_va, PAGE_SIZE in Hf; lia). congruence. }
  assert (slab_page (fa k1) s) as Hspg.
  { exists c. split; [done|]. split; [done|]. rewrite Hu by lia. by rewrite Z.eqb_refl. }
  assert (forall t, slab_page (fa (hk h)) t -> slab_page (fa k1) t) as Hpgs.
  { intros t (f & -> & Hf & Hfu'). exists f. split; [done|]. split; [done|].
    rewrite Hu, Hfu' by lia. apply orb_true_r. }
  assert (forall j t, 0 <= j <= 8 -> t ∈ P j ++ F j -> forall x, t <= x < t + SLAB_SIZE -> m1 x = mm (hk h) x) as Hother.
  { intros j t Hj Ht x Hx. apply Hmem.
    destruct (slab_page_disj _ t s (Hpgs _ (proj1 (Hsl j t Hj Ht))) Hspg (Hold j t Hj Ht)); lia. }
  assert (forall j t, 0 <= j <= 8 -> t ∈ P' j ++ F j <-> (j = i /\ t = s) \/ t ∈ P j ++ F j) as Hin.
  { intros j t Hj. unfold P'. destruct (decide (j = i)) as [->|].
    - rewrite upd_at_eq, HPi. simpl. rewrite elem_of_cons. tauto.
    - rewrite upd_at_ne by done. tauto. }
  destruct (slab_class_facts _ (class_size_class i Hi)) as (_ & _ & _ & Hcap & _).
  split.
  - split; try done.
    + intros f Hf. simpl. rewrite Hu by (unfold WINDOW in Hf; lia). rewrite (Hw f Hf). apply orb_true_r.
    + intros j Hj. simpl. destruct (Hca j Hj) as (cj & Hcj & Ho & H1 & H2).
      assert (chain m1 (full cj) (F j)) as Hful.
      { eapply chain_slabs_ext; [|exact H2]. intros t x Ht Hx. apply (Hother j t Hj); [in_app|].
        unfold SLAB_SIZE; lia. }
      destruct (decide (j = i)) as [->|Hne].
      * rewrite Hcc in Hcj. injection Hcj as ->. eexists. split.
        { apply list_lookup_insert_eq. by eapply lookup_lt_Some. }
        unfold P'. rewrite upd_at_eq. simpl. split; [done|]. split; [|done].
        split; [done|]. split; [by apply frame_va_pos; lia|done].
      * exists cj. rewrite list_lookup_insert_ne by lia. unfold P'. rewrite upd_at_ne by done.
        split; [done|]. split; [done|]. split; [|done].
        eapply chain_slabs_ext; [|exact H1]. intros t x Ht Hx. apply (Hother j t Hj); [in_app|].
        unfold SLAB_SIZE; lia.
    + intros j t Hj Ht. apply Hin in Ht as [[-> ->]|Ht]; [..|done].
      * simpl. split; [done|]. unfold FL'. by rewrite upd_at_eq.
      * destruct (Hsl j t Hj Ht) as [Hpg Hinv]. simpl. split; [by apply Hpgs|].
        unfold FL'. rewrite upd_at_ne by (by apply (Hold j)).
        eapply slab_inv_ext; [by apply class_size_class| |done]. intros x Hx. apply (Hother j t); done || lia.
    + intros j t Hj Ht. unfold P' in Ht. destruct (decide (j = i)) as [->|].
      * rewrite upd_at_eq in Ht. apply list_elem_of_singleton in Ht as ->. unfold FL'. rewrite upd_at_eq.
        unfold objs. destruct (Z.to_nat (slab_capacity (class_size i))) eqn:E; [lia|done].
      * rewrite upd_at_ne in Ht by done. unfold FL'. rewrite upd_at_ne; [by apply (Hpa j)|].
        apply (Hold j); [done|in_app].
    + intros j t Hj Ht. unfold FL'. rewrite upd_at_ne; [by apply (Hfu j)|].
      apply (Hold j); [done|in_app].
    + intros j Hj. unfold P'. destruct (decide (j = i)) as [->|]; [|rewrite upd_at_ne by done; by apply Hnd].
      rewrite upd_at_eq. specialize (Hnd i Hi). rewrite HPi in Hnd. simpl. constructor; [|done].
      intros Hsf. apply (Hold i s Hi); [in_app|done].
    + intros j j' t Hj Hj' H1 H2. apply Hin in H1; [|done]. apply Hin in H2; [|done].
      destruct H1 as [[-> ->]|H1], H2 as [[-> H2]|H2]; try done.
      * by destruct (Hold j' s Hj' H2).
      * subst t. by destruct (Hold j s Hj H1).
      * by apply (Hdi j j' t).
  - intros j t x. unfold live. split.
    + intros (Hj & Ht & Hx & Hn). apply Hin in Ht as [[-> ->]|Ht]; [..|done].
      * unfold FL' in Hn. by rewrite upd_at_eq in Hn.
      * unfold FL' in Hn. rewrite upd_at_ne in Hn by (by apply (Hold j)). done.
    + intros (Hj & Ht & Hx & Hn). split; [done|]. split; [apply Hin; [done|by right]|]. split; [done|].
      unfold FL'. rewrite upd_at_ne by (by apply (Hold j)). done.
Qed.

(** A byte of a live block lies in the page of its slab, behind the descriptor,
    and in no other slab's page. *)
Lemma owned_page h P F FL a : heap_inv h P F FL -> owned P F FL a ->
  exists j t, 0 <= j <= 8 /\ t ∈ P j ++ F j /\ slab_page (fa (hk h)) t /\ t + 32 <= a < t + SLAB_SIZE.
Proof.
  intros Hinv (j & t & x & (Hj & Ht & Hx & _) & Ha). exists j, t.
  destruct (hi_slab _ _ _ _ Hinv j t Hj Ht) as [Hpg _]. pose proof (class_size_class j Hj) as Hcl.
  pose proof (objs_bounds t _ x Hcl Hx) as Hb. destruct (slab_class_facts _ Hcl) as (_ & Hh & _).
  split; [done|]. split; [done|]. split; [done|]. lia.
Qed.

Lemma owned_hdr h P F FL a i s : heap_inv h P F FL -> owned P F FL a -> 0 <= i <= 8 -> s ∈ P i ++ F i ->
  ~ (s <= a < s + 32).
Proof.
  intros Hinv Ho Hi Hs Ha. destruct (owned_page h P F FL a Hinv Ho) as (j & t & Hj & Ht & Hpg & Hb).
  destruct (decide (t = s)) as [->|Hne]; [lia|].
  destruct (slab_page_disj _ t s Hpg (proj1 (hi_slab _ _ _ _ Hinv i s Hi Hs)) Hne); unfold SLAB_SIZE in *; lia.
Qed.

(** Bytes the heap never writes by itself: in no slab descriptor and in no page
    it may still allocate. *)
Definition quiet h P F (a : Z) : Prop :=
  (forall i s, 0 <= i <= 8 -> s ∈ P i ++ F i -> ~ (s <= a < s + 32)) /\
  (forall c, 0 < c < WINDOW -> fa_used (fa (hk h)) c = false -> ~ (frame_va c <= a < frame_va c + SLAB_SIZE)).

Lemma owned_quiet h P F FL a : heap_inv h P F FL -> owned P F FL a -> quiet h P F a.
Proof.
  intros Hinv Ho. split; [intros i s Hi Hs; by apply (owned_hdr h P F FL a i s)|].
  intros c Hc Hu Ha. destruct (owned_page h P F FL a Hinv Ho) as (j & t & Hj & Ht & (f & -> & Hf & Hfu) & Hb).
  assert (f <> c) by congruence. unfold frame_va, SLAB_SIZE, PAGE_SIZE in *. lia.
Qed.

Lemma low_quiet h P F FL a : heap_inv h P F FL -> a < KERNEL_VMA -> quiet h P F a.
Proof.
  intros Hinv Ha. split.
  - intros i s Hi Hs. destruct (proj1 (hi_slab _ _ _ _ Hinv i s Hi Hs)) as (f & -> & Hf & _).
    unfold frame_va, PAGE_SIZE. lia.
  - intros c Hc _. unfold frame_va, PAGE_SIZE. lia.
Qed.

Lemma owned_live P F FL P' F' FL' a : (forall j t x, live P F FL j t x -> live P' F' FL' j t x) ->
  owned P F FL a -> owned P' F' FL' a.
Proof. intros Hl (j & t & x & Hx & Ha). exists j, t, x. auto. Qed.

Lemma get_cache_eq h i c : caches h !! Z.to_nat i = Some c -> get_cache h i = c.
Proof. intros H. unfold get_cache. by rewrite H. Qed.

(** Taking the head object of the first partial slab of cache [i]. *)
Lemma cache_take h P F FL i cc s ps :
  heap_inv h P F FL -> 0 <= i <= 8 -> caches h !! Z.to_nat i = Some cc -> P i = s :: ps ->
  let '(p, h') := cache_pop h i in
  exists P' F' FL', heap_inv h' P' F' FL' /\ p ∈ objs s (class_size i) /\
    slab_page (fa (hk h')) s /\ ~ live P F FL i s p /\
    (forall j t x, live P' F' FL' j t x <-> live P F FL j t x \/ (j = i /\ t = s /\ x = p)) /\
    (forall a, quiet h P F a -> mm (hk h') a = mm (hk h) a).
Proof.
  intros Hinv Hi Hcc HPi. unfold cache_pop. rewrite (get_cache_eq _ _ _ Hcc).
  pose proof Hinv as [Hb Hfa Hw Hca Hsl Hpa Hfu Hnd Hdi].
  assert (s ∈ P i) as HsP by (rewrite HPi; left).
  assert (s ∈ P i ++ F i) as Hs by in_app.
  destruct (Hsl i s Hi Hs) as [Hpg Hsi]. pose proof (class_size_class i Hi) as Hcl.
  destruct (FL s) as [|p fl] eqn:HFL; [by destruct (Hpa i s Hi HsP)|].
  destruct (slab_page_pos _ s Hpg) as [Hspos _].
  pose proof (slab_alloc_inv (mm (hk h)) s (class_size i) p fl Hcl Hspos Hb Hsi) as Ha.
  pose proof (si_objs _ _ _ _ Hsi) as Hobj. apply Forall_cons in Hobj as [Hpo _].
  pose proof (si_nodup _ _ _ _ Hsi) as Hfnd. apply NoDup_cons in Hfnd as [Hpn _].
  destruct (Hca i Hi) as (c0 & Hc0 & Ho & Hcp & Hcf). rewrite Hcc in Hc0. injection Hc0 as <-.
  rewrite HPi in Hcp. destruct Hcp as (Hhd & Hs0 & Hcp). rewrite Hhd.
  assert (bytes_ok (slab_alloc_from (mm (hk h)) s).2) as Hb'.
  { unfold slab_alloc_from. simpl. auto with kernel. }
  destruct (slab_alloc_from (mm (hk h)) s) as [q m]. destruct Ha as (-> & Hsi' & Hnx & Hmem).
  specialize (Hnd i Hi). rewrite HPi in Hnd. simpl in Hnd. apply NoDup_cons in Hnd as [Hsn Hnd].
  (* the rest of the lists lies in other pages *)
  assert (forall t x, t ∈ ps ++ F i -> t <= x < t + 8 -> m x = mm (hk h) x /\ ~ (s <= x < s + 8)) as Hrest.
  { intros t x Ht Hx. assert (t <> s) by (by intros ->).
    assert (t ∈ P i ++ F i) as Ht' by (rewrite HPi; simpl; by right).
    destruct (slab_page_disj _ t s (proj1 (Hsl i t Hi Ht')) Hpg) as [Hd|Hd]; [done|..];
      unfold SLAB_SIZE in Hd; (split; [apply Hmem|]); lia. }
  rewrite (si_count _ _ _ _ Hsi'). unfold slab_next in *. rewrite Z.add_0_r in *.
  assert (forall P' F' FL', (forall j t, t ∈ P' j ++ F' j <-> t ∈ P j ++ F j) -> FL' = upd_at FL s fl ->
    forall j t x, live P' F' FL' j t x <-> live P F FL j t x \/ (j = i /\ t = s /\ x = p)) as Hlive.
  { intros P' F' FL' Hin -> j t x. unfold live. rewrite Hin. destruct (decide (t = s)) as [->|Hne].
    - rewrite upd_at_eq, HFL, not_elem_of_cons. split.
      + intros (Hj & Ht & Hx & Hn). destruct (decide (x = p)) as [->|]; [right|left; tauto].
        split; [by apply (Hdi j i s)|done].
      + intros [(Hj & Ht & Hx & _ & Hn)|(-> & _ & ->)]; done.
    - rewrite upd_at_ne by done. intuition. }
  assert (~ live P F FL i s p) as Hdead by (intros (_ & _ & _ & Hn); apply Hn; rewrite HFL; left).
  assert (forall a, quiet h P F a -> ~ (s <= a < s + 32)) as Hohdr by (intros a [Ha0 _]; by apply (Ha0 i s)).
  destruct (Z.eqb_spec (Z.of_nat (length fl)) 0) as [Hz|Hz].
  - assert (fl = []) as -> by (by destruct fl).
    exists (upd_at P i ps), (upd_at F i (s :: F i)), (upd_at FL s []).
    assert (load64 m s = load64 (mm (hk h)) s) as Hnx' by done.
    split; [|split; [done|split; [done|split; [done|split; [apply Hlive; [|done]|]]]]].
    3: { intros a Ha0%Hohdr. simpl. rewrite store_other by lia. by apply Hmem. }
    + eapply (heap_inv_update h P F FL _ i s ps (s :: F i) []); try done.
      * simpl. auto with kernel.
      * intros x Hx _. simpl. unfold SLAB_SIZE in Hx. rewrite store_other by lia. apply Hmem. lia.
      * simpl. eapply slab_inv_ext; [done| |exact Hsi']. intros x Hx. apply store_other. lia.
      * simpl. rewrite Hnx'. eapply chain_slabs_ext; [|exact Hcp]. intros t x Ht Hx.
        destruct (Hrest t x) as [Hr1 Hr2]; [in_app|done|]. rewrite store_other by lia. done.
      * simpl. split; [done|]. split; [done|]. rewrite load_store_eq.
        rewrite Z.mod_small.
        { eapply chain_slabs_ext; [|exact Hcf]. intros t x Ht Hx.
          destruct (Hrest t x) as [Hr1 Hr2]; [in_app|done|]. rewrite store_other by lia. done. }
        change (8 * Z.of_nat 8) with 64. eapply chain_head_range; [exact Hcf|].
        intros t Ht. destruct (slab_page_pos _ t (proj1 (Hsl i t Hi (elem_app_r _ _ _ Ht)))).
        destruct (proj1 (Hsl i t Hi (elem_app_r _ _ _ Ht))) as (f & -> & Hf & _).
        unfold frame_va, PAGE_SIZE, KERNEL_VMA, WINDOW in *. lia.
      * rewrite HPi. simpl. symmetry. apply Permutation_middle.
      * intros t Ht _. rewrite HPi. by right.
      * intros t Ht Hne. by apply elem_of_cons in Ht as [->|Ht].
      * intros Hsp. destruct Hsn. in_app.
    + intros j t. destruct (decide (j = i)) as [->|]; [rewrite !upd_at_eq, HPi|by rewrite !upd_at_ne].
      rewrite <- (Permutation_middle ps (F i) s). done.
  - exists (upd_at P i (s :: ps)), (upd_at F i (F i)), (upd_at FL s fl).
    split; [|split; [done|split; [done|split; [done|split; [apply Hlive; [|done]|]]]]].
    3: { intros a Ha0%Hohdr. simpl. by apply Hmem. }
    + eapply (heap_inv_update h P F FL _ i s (s :: ps) (F i) fl cc); try done.
      * simpl. by rewrite list_insert_id.
      * intros x Hx _. simpl. apply Hmem. unfold SLAB_SIZE in Hx. lia.
      * simpl. split; [done|]. split; [done|]. rewrite Hnx.
        eapply chain_slabs_ext; [|exact Hcp]. intros t x Ht Hx. apply (Hrest t x); [in_app|done].
      * simpl. eapply chain_slabs_ext; [|exact Hcf]. intros t x Ht Hx. apply (Hrest t x); [in_app|done].
      * by rewrite HPi.
      * intros t Ht _. by rewrite HPi.
      * intros _ ->. by destruct Hz.
      * intros Hsf. destruct Hsn. in_app.
    + intros j t. destruct (decide (j = i)) as [->|]; [by rewrite !upd_at_eq, HPi|by rewrite !upd_at_ne].
Qed.

(** [alloc_frame] in the terms of the heap: nothing, or a free frame of the
    window. *)
Lemma heap_alloc_frame h P F FL : heap_inv h P F FL ->
  alloc_frame (hk h) = (0, hk h) \/
  exists c, 0 < c < WINDOW /\ (alloc_frame (hk h)).1 = c * PAGE_SIZE /\
    mm (alloc_frame (hk h)).2 = mm (hk h) /\ fa_ok (fa (alloc_frame (hk h)).2) /\
    fa_used (fa (hk h)) c = false /\
    forall g, 0 <= g -> fa_used (fa (alloc_frame (hk h)).2) g = (c =? g) || fa_used (fa (hk h)) g.
Proof.
  intros Hinv. unfold alloc_frame. pose proof (fa_alloc_ok _ (hi_fa _ _ _ _ Hinv)) as Hok.
  destruct (fa_alloc_cases _ (hi_fa _ _ _ _ Hinv)) as [[H1 H2]|(c & Hc & H1 & Hu & H2)];
    destruct (fa_alloc (fa (hk h))) as [p a]; simpl in *; subst.
  - left. by destruct (hk h).
  - right. exists c. split; [|done].
    destruct (Z.ltb_spec c WINDOW); [lia|]. rewrite (hi_window _ _ _ _ Hinv c) in Hu by lia. done.
Qed.

Lemma cache_alloc_spec h P F FL i : heap_inv h P F FL -> 0 <= i <= 8 ->
  let '(p, h') := cache_alloc h i in
  (p = 0 /\ h' = h /\ no_frame (hk h)) \/
  exists P' F' FL' s, heap_inv h' P' F' FL' /\ p ∈ objs s (class_size i) /\
    slab_page (fa (hk h')) s /\ ~ live P F FL i s p /\
    (forall j t x, live P' F' FL' j t x <-> live P F FL j t x \/ (j = i /\ t = s /\ x = p)) /\
    (forall a, quiet h P F a -> mm (hk h') a = mm (hk h) a) /\
    (s ∈ P i ++ F i \/ exists c, s = frame_va c /\ 0 < c < WINDOW /\ fa_used (fa (hk h)) c = false).
Proof.
  intros Hinv Hi. destruct (hi_caches _ _ _ _ Hinv i Hi) as (cc & Hcc & Hos & Hcp & Hcf).
  unfold cache_alloc. rewrite (get_cache_eq _ _ _ Hcc).
  destruct (P i) as [|s ps] eqn:HPi.
  - simpl in Hcp. rewrite Hcp, Z.eqb_refl. unfold slab_create.
    destruct (heap_alloc_frame h P F FL Hinv) as [E0|(c & Hc & Hr & Hm & Hok & Hcu & Hu)].
    { rewrite E0, Z.eqb_refl. left. split; [done|]. split; [by destruct h|]. by apply alloc_none_fa; [apply Hinv|]. }
    destruct (alloc_frame (hk h)) as [fr k1]. cbn [fst snd] in *. subst fr.
    destruct (Z.eqb_spec (c * PAGE_SIZE) 0); [unfold PAGE_SIZE in *; lia|].
    rewrite phys_to_virt, Hm, Hos by lia.
    destruct (Z.eqb_spec (frame_va c) 0) as [E|_]; [by apply frame_va_pos in E; [|lia]|].
    assert (0 < frame_va c /\ frame_va c + SLAB_SIZE <= 2 ^ 64) as [Hpos Hmax]
      by (unfold frame_va, PAGE_SIZE, SLAB_SIZE, WINDOW, KERNEL_VMA in *; lia).
    destruct (slab_init_inv (mm (hk h)) (frame_va c) (class_size i) (class_size_class i Hi) Hpos Hmax
      (hi_bytes _ _ _ _ Hinv)) as (Hsi & Hnx & Hmem).
    assert (bytes_ok (slab_init_mem (mm (hk h)) (frame_va c) (class_size i))) as Hb1
      by (apply slab_init_bytes, Hinv).
    revert Hsi Hnx Hmem Hb1. generalize (slab_init_mem (mm (hk h)) (frame_va c) (class_size i)).
    intros m1 Hsi Hnx Hmem Hb1. unfold slab_next in Hnx. rewrite Z.add_0_r in Hnx.
    destruct (heap_inv_new h P F FL i c k1 m1 cc Hinv Hi Hcc HPi Hc Hcu Hok Hu Hb1 Hsi Hnx Hmem)
      as [Hinv1 Hlive1]. rewrite Hos in Hinv1.
    assert (caches (set_cache (set_hk h (set_mm k1 m1)) i (mk_cache (class_size i) (frame_va c) (full cc)))
              !! Z.to_nat i = Some (mk_cache (class_size i) (frame_va c) (full cc))) as Hcc1.
    { simpl. apply list_lookup_insert_eq. by eapply lookup_lt_Some. }
    pose proof (cache_take _ _ _ _ i _ (frame_va c) [] Hinv1 Hi Hcc1 (upd_at_eq _ _ _)) as Ht.
    destruct (cache_pop _ i) as [p h'].
    destruct Ht as (P' & F' & FL' & Hinv' & Hp & Hpg & Hd & Hl & Hfm).
    right. exists P', F', FL', (frame_va c). split; [done|]. split; [done|]. split; [done|].
    split; [by rewrite <- Hlive1|]. split; [intros j t x; by rewrite Hl, Hlive1|]. split; [|right; by exists c].
    intros a [Ha1 Ha2]. pose proof (Ha2 c Hc Hcu) as Hac. rewrite Hfm; [simpl; by apply Hmem|]. split.
    + intros j t Hj Ht. destruct (decide (j = i)) as [->|Hji]; [rewrite upd_at_eq in Ht|rewrite upd_at_ne in Ht by done; by apply (Ha1 j)].
      apply elem_of_app in Ht as [->%list_elem_of_singleton|Ht]; [unfold SLAB_SIZE in Hac; lia|].
      apply (Ha1 i t Hi). in_app.
    + intros c' Hc' Hu'. apply Ha2; [done|]. simpl in Hu'. rewrite Hu in Hu' by lia.
      by apply orb_false_elim in Hu' as [_ ?].
  - pose proof Hcp as (Hhd & Hs0 & _). destruct (Z.eqb_spec (partial cc) 0); [congruence|].
    pose proof (cache_take h P F FL i cc s ps Hinv Hi Hcc HPi) as Ht.
    destruct (cache_pop h i) as [p h']. destruct Ht as (P' & F' & FL' & H1 & H2 & H3 & H4 & H5 & H6).
    right. exists P', F', FL', s. splits; try done. left. by left.
Qed.

(** The size class of a request: the least of the powers of two from 8 on that
    is at least the request. *)
Lemma size_class size : 1 <= size <= 2048 ->
  let i := cache_index (round_up_pow2 (if size <? 8 then 8 else size)) in
  0 <= i <= 8 /\ size <= class_size i /\ (i = 0 \/ class_size i < 2 * size).
Proof.
  assert (forallb (fun n => let size := Z.of_nat n in
    let i := cache_index (round_up_pow2 (if size <? 8 then 8 else size)) in
    (0 <=? i) && (i <=? 8) && (size <=? class_size i) && ((i =? 0) || (class_size i <? 2 * size)))
    (seq 1 2048) = true) as H by (vm_compute; reflexivity).
  intros Hs i. rewrite forallb_forall in H. specialize (H (Z.to_nat size)).
  rewrite in_seq, Z2Nat.id in H by lia. specialize (H ltac:(lia)). cbv zeta in H. fold i in H.
  bool_hyps. apply orb_true_iff in H0 as [H0|H0]; bool_hyps; lia.
Qed.
End heap_proofs.

(** ** Unlinking from a list *)

(** Words of the list nodes do not overlap. *)
Definition spaced (l : list Z) : Prop := forall x y, x ∈ l -> y ∈ l -> x <> y -> x + 8 <= y \/ y + 8 <= x.

Lemma spaced_sub l l' : (forall x, x ∈ l' -> x ∈ l) -> spaced l -> spaced l'.
Proof. intros Hs H x y Hx Hy. apply H; auto. Qed.

Lemma unlink_after_spec m prev s l1 l2 fuel : bytes_ok m ->
  chain m (load64 m prev) (l1 ++ s :: l2) -> NoDup (prev :: l1 ++ s :: l2) -> spaced (prev :: l1 ++ s :: l2) ->
  (length l1 < fuel)%nat ->
  exists m', unlink_after fuel m prev s = Some m' /\ bytes_ok m' /\
    chain m' (load64 m' prev) (l1 ++ l2) /\
    (forall x, (forall t, t ∈ prev :: l1 -> ~ (t <= x < t + 8)) -> m' x = m x).
Proof.
  intros Hb. revert prev fuel. induction l1 as [|t l1 IH]; intros prev [|fuel] Hch Hnd Hsp Hf;
    simpl in Hf; try lia; cbn [unlink_after]; unfold slab_next; rewrite Z.add_0_r.
  - simpl in Hch. destruct Hch as (Hc & Hs0 & Hch). rewrite Hc.
    destruct (Z.eqb_spec s 0); [done|]. rewrite Z.eqb_refl, Z.add_0_r. eexists. split; [done|].
    split; [by apply store_bytes_ok|]. simpl in Hnd, Hsp.
    rewrite load_store_eq, Z.mod_small by (apply (load_range 8 m s Hb)). simpl. split.
    + apply (chain_ext m); [|done]. intros y Hy. apply load_store_ne.
      apply NoDup_cons in Hnd as [Hn _].
      destruct (Hsp prev y); [left|by right; right| |lia|lia]. intros ->. apply Hn. by right.
    + intros x Hx. apply store_other. apply (Hx prev). left.
  - simpl in Hch. destruct Hch as (Hc & Ht0 & Hch). rewrite Hc.
    destruct (Z.eqb_spec t 0); [done|]. simpl in Hnd, Hsp.
    apply NoDup_cons in Hnd as [Hn Hnd].
    destruct (Z.eqb_spec t s) as [->|Hts].
    { apply NoDup_cons in Hnd as [Hsn _]. destruct Hsn. apply elem_of_app. right. left. }
    destruct (IH t fuel Hch Hnd) as (m' & Hun & Hb' & Hch' & Hfr); [|lia|].
    { eapply spaced_sub; [|exact Hsp]. intros x Hx. by right. }
    exists m'. split; [done|]. split; [done|].
    assert (load64 m' prev = t) as ->.
    { rewrite <- Hc. apply load_ext. intros x Hx. apply Hfr. intros u Hu.
      destruct (Hsp prev u) as [H|H]; [left| |..|lia|lia].
      - right. simpl. apply elem_of_cons in Hu as [->|Hu]; [left|]. right. apply elem_of_app. by left.
      - intros ->. apply Hn. simpl. apply elem_of_cons in Hu as [->|Hu]; [left|]. right. apply elem_of_app. by left. }
    split; [done|]. intros x Hx. apply Hfr. intros u Hu. apply Hx. by right.
Qed.

Lemma unlink_spec m head s l1 l2 fuel : bytes_ok m ->
  chain m head (l1 ++ s :: l2) -> NoDup (l1 ++ s :: l2) -> spaced (l1 ++ s :: l2) -> (length l1 < fuel)%nat ->
  exists head' m', unlink fuel m head s = Some (head', m') /\ bytes_ok m' /\ chain m' head' (l1 ++ l2) /\
    (forall x, (forall t, t ∈ l1 -> ~ (t <= x < t + 8)) -> m' x = m x).
Proof.
  intros Hb Hch Hnd Hsp Hf. unfold unlink. destruct l1 as [|t l1]; simpl in Hch.
  - destruct Hch as (-> & Hs0 & Hch). destruct (Z.eqb_spec s 0); [done|]. rewrite Z.eqb_refl.
    unfold slab_next. rewrite Z.add_0_r. eauto 10.
  - destruct Hch as (-> & Ht0 & Hch). destruct (Z.eqb_spec t 0); [done|].
    pose proof Hnd as Hnd'. simpl in Hnd'. apply NoDup_cons in Hnd' as [Hn _].
    destruct (Z.eqb_spec t s) as [->|Hts]; [destruct Hn; apply elem_of_app; right; left|].
    simpl in Hf. destruct (unlink_after_spec m t s l1 l2 fuel) as (m' & -> & Hb' & Hch' & Hfr); try done; [lia|].
    exists t, m'. split; [done|]. split; [done|]. split; [|done]. simpl. done.
Qed.

Section heap_free.
Context {A : Type} `{!FrameAlloc A} `{!FrameAllocLaws A}.
Implicit Types (h : hst A) (P F FL : Z -> list Z).

Lemma slabs_spaced h P F FL i l : heap_inv h P F FL -> 0 <= i <= 8 ->
  (forall x, x ∈ l -> x ∈ P i ++ F i) -> spaced l.
Proof.
  intros Hinv Hi Hl x y Hx Hy Hne.
  destruct (slab_page_disj _ x y (proj1 (hi_slab _ _ _ _ Hinv i x Hi (Hl x Hx)))
    (proj1 (hi_slab _ _ _ _ Hinv i y Hi (Hl y Hy))) Hne) as [H|H]; unfold SLAB_SIZE in H; lia.
Qed.

(** What is live after object [x] of slab [s] went onto the free list of [s]. *)
Lemma live_push P F FL P' F' i s x :
  (forall j t, t ∈ P' j ++ F' j <-> t ∈ P j ++ F j) ->
  (forall j, 0 <= j <= 8 -> s ∈ P j ++ F j -> j = i) ->
  forall j t y, live P' F' (upd_at FL s (x :: FL s)) j t y <->
    live P F FL j t y /\ ~ (j = i /\ t = s /\ y = x).
Proof.
  intros Hin Huniq j t y. unfold live. rewrite Hin. destruct (decide (t = s)) as [->|Hne].
  - rewrite upd_at_eq, not_elem_of_cons. split.
    + intros (Hj & Ht & Hy & Hyx & Hn). split; [done|]. intros (_ & _ & ?). done.
    + intros [(Hj & Ht & Hy & Hn) Hno]. split; [done|]. split; [done|]. split; [done|]. split; [|done].
      intros ->. apply Hno. split; [by apply Huniq|done].
  - rewrite upd_at_ne by done. split; [|tauto]. intros H. split; [done|]. by intros (_ & ? & _).
Qed.

(** The first two steps of [cache_free]. *)
Lemma cache_free_push h P F FL i s x fuel :
  heap_inv h P F FL -> live P F FL i s x -> (length (F i) <= fuel)%nat ->
  let h1 := set_hk h (set_mm (hk h) (slab_push (mm (hk h)) s x)) in
  exists h2 P2 F2,
    (if load32 (mm (hk h)) (s + slab_free_count) =? 0 then full_to_partial fuel h1 i s else Some h1) = Some h2 /\
    heap_inv h2 P2 F2 (upd_at FL s (x :: FL s)) /\ s ∈ P2 i /\
    (length (P2 i) <= S (length (P i)))%nat /\
    (forall j t, t ∈ P2 j ++ F2 j <-> t ∈ P j ++ F j) /\
    (forall a, quiet h P F a -> ~ (x <= a < x + 8) -> mm (hk h2) a = mm (hk h) a) /\ fa (hk h2) = fa (hk h).
Proof.
  intros Hinv (Hi & Hs & Hx & Hxn) Hfuel h1. pose proof Hinv as [Hb Hfa Hw Hca Hsl Hpa Hfu Hnd Hdi].
  destruct (Hsl i s Hi Hs) as [Hpg Hsi]. pose proof (class_size_class i Hi) as Hcl.
  destruct (slab_page_pos _ s Hpg) as [Hspos Hsmax].
  destruct (slab_push_inv (mm (hk h)) s (class_size i) x (FL s) Hcl Hspos Hsmax Hb Hsi Hx Hxn)
    as (Hsi1 & Hnx & Hmem).
  destruct (objs_bounds s (class_size i) x Hcl Hx) as [Hx1 Hx2].
  destruct (slab_class_facts _ Hcl) as (Hosz & _).
  assert (forall a, ~ (s <= a < s + SLAB_SIZE) -> slab_push (mm (hk h)) s x a = mm (hk h) a) as Hpage.
  { intros a Ha. apply Hmem; unfold SLAB_SIZE in *; lia. }
  assert (bytes_ok (slab_push (mm (hk h)) s x)) as Hb1 by (unfold slab_push; auto with kernel).
  destruct (Hca i Hi) as (cc & Hcc & Ho & Hcp & Hcf).
  assert (forall t y, t ∈ P i ++ F i -> t <> s -> t <= y < t + 8 -> ~ (s <= y < s + SLAB_SIZE)) as Hapart.
  { intros t y Ht Hne Hy. destruct (slab_page_disj _ t s (proj1 (Hsl i t Hi Ht)) Hpg Hne) as [H|H];
      unfold SLAB_SIZE in *; lia. }
  assert (forall l a, (forall t, t ∈ l -> t ∈ P i ++ F i) -> chain (mm (hk h)) a l ->
    chain (slab_push (mm (hk h)) s x) a l) as Hkeep.
  { intros l a Hl. apply chain_ext. intros t Ht. destruct (decide (t = s)) as [->|Hne].
    - unfold slab_next in Hnx. by rewrite Z.add_0_r in Hnx.
    - apply load_ext. intros y Hy. apply Hpage. by apply (Hapart t); auto. }
  assert (forall a t, quiet h P F a -> t ∈ P i ++ F i -> ~ (t <= a < t + 32)) as Hohdr
    by (intros a t [Ha0 _] Ht; by apply (Ha0 i t)).
  rewrite (si_count _ _ _ _ Hsi). unfold h1. clear h1.
  destruct (FL s) as [|z fl] eqn:HFL.
  - (* the slab was full *)
    assert (s ∈ F i) as HsF.
    { apply elem_of_app in Hs as [Hs|Hs]; [|done]. by destruct (Hpa i s Hi Hs). }
    destruct (list_elem_of_split _ _ HsF) as (l1 & l2 & HFi).
    simpl (_ =? 0). cbv iota. unfold full_to_partial.
    rewrite (get_cache_eq _ i cc) by exact Hcc. cbn [hk set_hk mm set_mm].
    specialize (Hnd i Hi). pose proof Hnd as Hnd0. rewrite HFi in Hnd.
    pose proof Hnd as HndF. apply NoDup_app in HndF as (_ & Hd & HndF).
    destruct (unlink_spec (slab_push (mm (hk h)) s x) (full cc) s l1 l2 fuel) as (f' & m2 & -> & Hb2 & Hch2 & Hfr2).
    { done. } { rewrite <- HFi. apply Hkeep; [|done]. intros t Ht. in_app. } { done. }
    { rewrite <- HFi. apply (slabs_spaced h P F FL i); [done|done|]. intros t Ht. in_app. }
    { rewrite HFi, length_app in Hfuel. simpl in Hfuel. lia. }
    eexists _, (upd_at P i (s :: P i)), (upd_at F i (l1 ++ l2)). split; [reflexivity|].
    apply NoDup_app in HndF as (Hnd1 & Hd1 & Hnd2). apply NoDup_cons in Hnd2 as [Hsn2 Hnd2].
    assert (s ∉ l1) as Hsn1 by (intros H; apply (Hd1 s H); left).
    assert (forall t y, t ∈ P i ++ l1 ++ l2 -> t <= y < t + 8 ->
       store64 m2 (s + slab_next) (partial cc) y = m2 y) as Hst.
    { intros t y Ht Hy. apply store_other. unfold slab_next. rewrite Z.add_0_r. intros Hys.
      assert (t <> s) as Hts.
      { intros ->. apply elem_of_app in Ht as [Ht|Ht].
        - apply (Hd s Ht). apply elem_of_app. right. left.
        - by apply elem_of_app in Ht as [Ht|Ht]. }
      apply (Hapart t y); [|done|done|unfold SLAB_SIZE; lia].
      rewrite HFi. rewrite !elem_of_app in *. rewrite elem_of_cons. tauto. }
    splits.
    + eapply (heap_inv_update h P F FL _ i s (s :: P i) (l1 ++ l2) [x]); try done.
      * by apply store_bytes_ok.
      * intros y Hy1 Hy2. simpl. unfold slab_next. rewrite Z.add_0_r.
        rewrite store_other by (apply (Hy2 s); done).
        rewrite Hfr2; [by apply Hpage|]. intros t Ht. apply Hy2. rewrite HFi. in_app.
      * simpl. eapply slab_inv_ext; [done| |exact Hsi1]. intros y Hy. unfold slab_next. rewrite Z.add_0_r.
        rewrite store_other by lia. apply Hfr2. intros t Ht Hyt.
        apply (Hapart t y); [rewrite HFi; in_app|by intros ->|done|unfold SLAB_SIZE in *; lia].
      * simpl. split; [done|]. split; [lia|]. unfold slab_next. rewrite Z.add_0_r, load_store_eq.
        assert (chain (slab_push (mm (hk h)) s x) (partial cc) (P i)) as HchP
          by (apply Hkeep; [intros t Ht; in_app|done]).
        rewrite Z.mod_small.
        { eapply chain_slabs_ext; [|exact HchP]. intros t y Ht Hy.
          pose proof (Hst t y ltac:(in_app) Hy) as Hst'. unfold slab_next in Hst'. rewrite Z.add_0_r in Hst'.
          rewrite Hst'. apply Hfr2. intros u Hu Hyu.
          assert (t <> u) by (intros ->; apply (Hd u Ht); apply elem_of_app; by left).
          destruct (slabs_spaced h P F FL i (P i ++ F i) Hinv Hi (fun _ H => H) t u); try lia; try done;
            [in_app|rewrite HFi; in_app]. }
        change (8 * Z.of_nat 8) with 64. eapply chain_head_range; [exact HchP|].
        intros t Ht. destruct (slab_page_pos _ t (proj1 (Hsl i t Hi (elem_app_l _ _ _ Ht)))).
        unfold SLAB_SIZE in *. lia.
      * simpl. eapply chain_slabs_ext; [|exact Hch2]. intros t y Ht Hy. apply (Hst t); [in_app|done].
      * rewrite HFi. simpl. rewrite app_assoc, (app_assoc (P i) l1 (s :: l2)). apply Permutation_middle.
      * intros t Ht Hne. by apply elem_of_cons in Ht as [->|Ht].
      * intros t Ht _. rewrite HFi. rewrite elem_of_app in Ht. rewrite elem_of_app, elem_of_cons. tauto.
      * intros Hin. exfalso. apply elem_of_app in Hin as [?|?]; done.
    + rewrite upd_at_eq. left.
    + rewrite upd_at_eq. simpl. lia.
    + intros j t. destruct (decide (j = i)) as [->|]; [rewrite !upd_at_eq|by rewrite !upd_at_ne].
      rewrite HFi. simpl. rewrite !elem_of_cons, !elem_of_app, elem_of_cons. tauto.
    + intros a Ha Hax. simpl. unfold slab_next. rewrite Z.add_0_r.
      pose proof (Hohdr a s Ha Hs). rewrite store_other by lia. rewrite Hfr2; [by apply Hmem|].
      intros t Ht Hat. apply (Hohdr a t Ha); [rewrite HFi; in_app|lia].
    + done.
  - (* it had free objects already *)
    assert (s ∈ P i) as HsP.
    { apply elem_of_app in Hs as [?|Hs']; [done|]. by rewrite (Hfu i s Hi Hs') in HFL. }
    assert ((Z.of_nat (length (z :: fl)) =? 0) = false) as -> by (apply Z.eqb_neq; simpl; lia).
    eexists _, (upd_at P i (P i)), (upd_at F i (F i)). split; [reflexivity|]. splits.
    + eapply (heap_inv_update h P F FL _ i s (P i) (F i) (x :: z :: fl) cc); try done.
      * simpl. by rewrite list_insert_id.
      * intros y Hy _. simpl. by apply Hpage.
      * simpl. apply Hkeep; [intros t Ht; in_app|done].
      * simpl. apply Hkeep; [intros t Ht; in_app|done].
      * intros HsF. by rewrite (Hfu i s Hi HsF) in HFL.
    + by rewrite upd_at_eq.
    + rewrite upd_at_eq. lia.
    + intros j t. destruct (decide (j = i)) as [->|]; [by rewrite !upd_at_eq|by rewrite !upd_at_ne].
    + intros a Ha Hax. simpl. apply Hmem; [by apply Hohdr|done].
    + done.
Qed.

(** Giving back a slab all of whose objects are free. *)
Lemma release_slab_spec h P F FL i s fuel :
  heap_inv h P F FL -> 0 <= i <= 8 -> s ∈ P i -> (length (P i) <= fuel)%nat ->
  Z.of_nat (length (FL s)) = slab_capacity (class_size i) ->
  exists h' P', release_slab fuel h i s = Some h' /\ heap_inv h' P' F FL /\
    (forall j t y, live P' F FL j t y <-> live P F FL j t y) /\
    (forall a, quiet h P F a -> mm (hk h') a = mm (hk h) a).
Proof.
  intros Hinv Hi HsP Hfuel Hall. pose proof Hinv as [Hb Hfa Hw Hca Hsl Hpa Hfu Hnd Hdi].
  destruct (Hca i Hi) as (cc & Hcc & Ho & Hcp & Hcf).
  destruct (list_elem_of_split _ _ HsP) as (l1 & l2 & HPi).
  assert (s ∈ P i ++ F i) as Hs by in_app. destruct (Hsl i s Hi Hs) as [Hpg Hsi].
  pose proof (Hnd i Hi) as Hndi. rewrite HPi in Hndi.
  pose proof Hndi as HndP. apply NoDup_app in HndP as (HndP & HdF & _).
  unfold release_slab. rewrite (get_cache_eq _ i cc) by exact Hcc.
  destruct (unlink_spec (mm (hk h)) (partial cc) s l1 l2 fuel) as (p' & m' & -> & Hb' & Hch' & Hfr).
  { done. } { by rewrite <- HPi. } { done. }
  { rewrite <- HPi. apply (slabs_spaced h P F FL i); [done|done|]. intros t Ht. in_app. }
  { rewrite HPi, length_app in Hfuel. simpl in Hfuel. lia. }
  eexists _, (upd_at P i (l1 ++ l2)). split; [reflexivity|].
  apply NoDup_app in HndP as (Hnd1 & Hd1 & Hnd2). apply NoDup_cons in Hnd2 as [Hsn2 Hnd2].
  assert (s ∉ l1 ++ l2) as Hsn.
  { intros [H|H]%elem_of_app; [by apply (Hd1 s H); left|done]. }
  assert (forall j t, 0 <= j <= 8 -> t ∈ upd_at P i (l1 ++ l2) j ++ F j <-> t ∈ P j ++ F j /\ t <> s) as Hin.
  { intros j t Hj. destruct (decide (j = i)) as [->|Hji].
    - rewrite upd_at_eq, HPi. rewrite !elem_of_app, elem_of_cons.
      split.
      + intros [[H|H]|H]; (split; [tauto|]); intros ->; [by apply Hsn; in_app..|].
        apply (HdF s); [|done]. apply elem_of_app. right. left.
      + tauto.
    - rewrite upd_at_ne by done. split; [|tauto]. intros Ht. split; [done|]. intros ->.
      apply Hji. by apply (Hdi j i s). }
  assert (forall j t x, 0 <= j <= 8 -> t ∈ P j ++ F j -> t <> s -> t + 8 <= x < t + SLAB_SIZE \/ (j <> i /\ t <= x < t + 8) \/ (t ∈ F j /\ t <= x < t + 8) -> m' x = mm (hk h) x) as Hother.
  { intros j t x Hj Ht Hts Hx. apply Hfr. intros u Hu Hxu.
    assert (u ∈ P i ++ F i) as HuP by (rewrite HPi; in_app).
    destruct (decide (t = u)) as [->|Htu].
    - destruct Hx as [?|[[Hji _]|[HuF _]]]; [lia|apply Hji; by apply (Hdi j i u)|].
      assert (j = i) as -> by (by apply (Hdi j i u)). apply (HdF u); [in_app|done].
    - destruct (slab_page_disj _ t u (proj1 (Hsl j t Hj Ht)) (proj1 (Hsl i u Hi HuP)) Htu) as [Hd|Hd];
        unfold SLAB_SIZE in *; lia. }
  destruct Hpg as (f & Hsf & Hf & Hfused).
  assert (VIRT_TO_PHYS s = f * PAGE_SIZE) as ->.
  { unfold VIRT_TO_PHYS. rewrite Hsf. unfold frame_va.
    replace (KERNEL_VMA + f * PAGE_SIZE - KERNEL_VMA) with (f * PAGE_SIZE) by lia.
    apply u64_small. unfold PAGE_SIZE, WINDOW in *. lia. }
  assert (FRAME_SIZE <= f * PAGE_SIZE) as Hfge by (unfold FRAME_SIZE, PAGE_SIZE; lia).
  assert (forall g, 0 <= g -> fa_used (fa_free (fa (hk h)) (f * PAGE_SIZE)) g =
            negb (f =? g) && fa_used (fa (hk h)) g) as Hfree.
  { intros g Hg. rewrite fa_free_used by done. change PAGE_SIZE with FRAME_SIZE.
    rewrite Z.div_mul by done. destruct (Z.ltb_spec f PMM_MAX_FRAMES) as [_|Hlt].
    - by rewrite andb_true_r.
    - unfold WINDOW in Hf. change PMM_MAX_FRAMES with 1048576 in Hlt. lia. }
  assert (forall t, slab_page (fa (hk h)) t -> t <> s -> slab_page (fa_free (fa (hk h)) (f * PAGE_SIZE)) t) as Hpgs.
  { intros t (g & -> & Hg & Hgu) Hne. exists g. split; [done|]. split; [done|]. rewrite Hfree, Hgu by lia.
    destruct (Z.eqb_spec f g) as [->|]; [by destruct Hne|done]. }
  split; [split; simpl|split].
  - done.
  - by apply fa_free_ok.
  - intros g Hg. rewrite Hfree by (unfold WINDOW in Hg; lia). rewrite (Hw g Hg), andb_true_r.
    destruct (Z.eqb_spec f g); [lia|done].
  - intros j Hj. destruct (decide (j = i)) as [->|Hji].
    + eexists. split; [apply list_lookup_insert_eq; by eapply lookup_lt_Some|]. rewrite upd_at_eq. simpl.
      split; [done|]. split; [done|]. eapply chain_slabs_ext; [|exact Hcf]. intros t x Ht Hx.
      apply (Hother i t x Hi); [in_app| |by right; right]. intros ->.
      apply (HdF s); [apply elem_of_app; right; left|done].
    + destruct (Hca j Hj) as (cj & Hcj & Hoj & H1 & H2). exists cj. rewrite list_lookup_insert_ne by lia.
      rewrite upd_at_ne by done. split; [done|]. split; [done|].
      split; (eapply chain_slabs_ext; [|done]); intros t x Ht Hx;
        (apply (Hother j t x Hj); [in_app| |right; left; lia]); intros ->; apply Hji;
        (apply (Hdi j i s Hj Hi); [in_app|done]).
  - intros j t Hj Ht. apply Hin in Ht as [Ht Hts]; [|done]. destruct (Hsl j t Hj Ht) as [Hpg Hsij].
    split; [by apply Hpgs|]. eapply slab_inv_ext; [by apply class_size_class| |done].
    intros x Hx. apply (Hother j t x Hj Ht Hts). by left.
  - intros j t Hj Ht. apply (Hpa j); [done|]. destruct (decide (j = i)) as [->|]; [|by rewrite upd_at_ne in Ht].
    rewrite upd_at_eq in Ht. rewrite HPi. rewrite elem_of_app in *. rewrite elem_of_cons. tauto.
  - done.
  - intros j Hj. destruct (decide (j = i)) as [->|]; [|rewrite upd_at_ne by done; by apply Hnd].
    rewrite upd_at_eq. rewrite <- app_assoc in Hndi. simpl in Hndi. rewrite <- app_assoc.
    eapply NoDup_cons_1_2. by rewrite Permutation_middle.
  - intros j j' t Hj Hj' H1 H2. apply Hin in H1 as [H1 _]; [|done]. apply Hin in H2 as [H2 _]; [|done].
    by apply (Hdi j j' t).
  - intros j t y. unfold live. split.
    + intros (Hj & Ht & Hy & Hn). apply Hin in Ht as [Ht _]; done.
    + intros (Hj & Ht & Hy & Hn). split; [done|]. split; [|done]. apply Hin; [done|]. split; [done|].
      intros ->. apply Hn. assert (j = i) as -> by (by apply (Hdi j i s)).
      assert (objs s (class_size i) ≡ₚ FL s) as <-; [|done]. symmetry. apply submseteq_length_Permutation.
      * apply NoDup_submseteq; [apply Hsi|]. by apply Forall_forall, Hsi.
      * unfold objs. rewrite length_map, length_seq. lia.
  - intros a [Ha _]. simpl. apply Hfr. intros t Ht Hat. apply (Ha i t Hi); [rewrite HPi; in_app|lia].
Qed.

(** The page of an object. *)
Lemma slab_of_obj (a : A) s x osz : slab_class osz -> slab_page a s -> x ∈ objs s osz -> slab_of x = s.
Proof.
  intros Hc (f & -> & Hf & _) Hx. pose proof (objs_bounds _ _ _ Hc Hx) as Hb.
  destruct (slab_class_facts _ Hc) as (Ho & _). unfold slab_of.
  change (not64 (SLAB_SIZE - 1)) with (not64 (Z.ones 12)).
  unfold frame_va, PAGE_SIZE, SLAB_SIZE, WINDOW, KERNEL_VMA in *.
  rewrite land_not64_ones by lia. change (2 ^ 12) with 4096. zlia.
Qed.

Lemma cache_index_class i : 0 <= i <= 8 -> cache_index (class_size i) = i.
Proof.
  intros Hi. assert (i = 0 \/ i = 1 \/ i = 2 \/ i = 3 \/ i = 4 \/ i = 5 \/ i = 6 \/ i = 7 \/ i = 8) as H by lia.
  destruct_or! H; subst i; by vm_compute.
Qed.

(** After [heap_init] the heap is well-formed and nothing is live. *)
Lemma heap_init_inv h : bytes_ok (mm (hk h)) -> fa_ok (fa (hk h)) ->
  (forall f, WINDOW <= f < PMM_MAX_FRAMES -> fa_used (fa (hk h)) f = true) ->
  heap_inv (snd (heap_init h)) (fun _ => []) (fun _ => []) (fun _ => []).
Proof.
  intros Hb Hfa Hw. split; try done; simpl.
  - intros i Hi. exists (mk_cache (class_size i) 0 0). split; [|done].
    assert (i = 0 \/ i = 1 \/ i = 2 \/ i = 3 \/ i = 4 \/ i = 5 \/ i = 6 \/ i = 7 \/ i = 8) as H by lia.
    destruct_or! H; by subst i.
  - intros i s Hi Hs. by apply elem_of_nil in Hs.
  - intros i s Hi Hs. by apply elem_of_nil in Hs.
  - intros i Hi. constructor.
  - intros i j s Hi Hj Hs. by apply elem_of_nil in Hs.
Qed.

Lemma cache_pop_fst h i : fst (cache_pop h i) = load64 (mm (hk h)) (partial (get_cache h i) + slab_freelist).
Proof. unfold cache_pop, slab_alloc_from. cbv zeta. by destruct (_ =? 0). Qed.

Lemma top_class size : 2049 <= size <= 4096 ->
  cache_index (round_up_pow2 (if size <? 8 then 8 else size)) = 9.
Proof.
  assert (forallb (fun n => let size := Z.of_nat n in
    cache_index (round_up_pow2 (if size <? 8 then 8 else size)) =? 9) (seq 2049 2048) = true) as H
    by (vm_compute; reflexivity).
  intros Hs. rewrite forallb_forall in H. specialize (H (Z.to_nat size)).
  rewrite in_seq, Z2Nat.id in H by lia. specialize (H ltac:(lia)). cbv zeta in H. lia.
Qed.

(** Distinct live blocks do not overlap. *)
Lemma live_disj h P F FL i s x j t y : heap_inv h P F FL -> live P F FL i s x -> live P F FL j t y ->
  ~ (i = j /\ s = t /\ x = y) -> x + class_size i <= y \/ y + class_size j <= x.
Proof.
  intros Hinv (Hi & Hs & Hx & _) (Hj & Ht & Hy & _) Hne.
  pose proof (objs_bounds s _ x (class_size_class i Hi) Hx). pose proof (objs_bounds t _ y (class_size_class j Hj) Hy).
  destruct (decide (s = t)) as [->|Hst].
  - assert (i = j) as -> by (by apply (hi_disj _ _ _ _ Hinv i j t)).
    apply (objs_disjoint t); [by apply class_size_class|done|done|]. intros ->. tauto.
  - destruct (slab_page_disj _ s t (proj1 (hi_slab _ _ _ _ Hinv i s Hi Hs)) (proj1 (hi_slab _ _ _ _ Hinv j t Hj Ht)) Hst); lia.
Qed.

(** [kmalloc] of a request that has a working size class. *)
(** Memory the heap may hand out: a page of one of its slabs, or a frame nobody uses. *)
Definition slab_or_free h P F (a : Z) : Prop :=
  (exists i s, (0 <= i <= 8 /\ s ∈ P i ++ F i) /\ s <= a < s + SLAB_SIZE) \/
  (exists c, 0 < c < WINDOW /\ fa_used (fa (hk h)) c = false /\ frame_va c <= a < frame_va c + SLAB_SIZE).

Lemma kmalloc_spec h P F FL size : heap_inv h P F FL -> 1 <= size <= 2048 ->
  let '(p, h') := kmalloc h size in
  (p = 0 /\ h' = h /\ no_frame (hk h)) \/
  exists P' F' FL' i s, heap_inv h' P' F' FL' /\
    size <= class_size i /\ (class_size i = 8 \/ class_size i < 2 * size) /\ p mod 8 = 0 /\
    (forall j t x, live P' F' FL' j t x <-> live P F FL j t x \/ (j = i /\ t = s /\ x = p)) /\
    (forall j t x, live P F FL j t x -> p + class_size i <= x \/ x + class_size j <= p) /\
    (forall a, quiet h P F a -> mm (hk h') a = mm (hk h) a) /\
    (forall a, p <= a < p + class_size i -> slab_or_free h P F a).
Proof.
  intros Hinv Hsize. unfold kmalloc. destruct (Z.eqb_spec size 0); [lia|]. rewrite Z.gtb_ltb.
  change (1 <<b HEAP_MAX_ORDER) with 4096. destruct (Z.ltb_spec 4096 size); [lia|].
  change (1 <<b HEAP_MIN_ORDER) with 8.
  destruct (size_class size Hsize) as (Hi & Hfit & Hwaste).
  set (i := cache_index (round_up_pow2 (if size <? 8 then 8 else size))) in *.
  pose proof (cache_alloc_spec h P F FL i Hinv Hi) as HA. destruct (cache_alloc h i) as [p h'].
  destruct HA as [HA|(P' & F' & FL' & s & Hinv' & Hp & Hpg & Hdead & Hl & Hfm & Hwhere)]; [by left|right].
  exists P', F', FL', i, s. pose proof (class_size_class i Hi) as Hcl.
  split; [done|]. split; [done|]. split; [by destruct Hwaste as [->|]; [left|right]|].
  split; [by eapply obj_aligned|]. split; [done|]. split; [|split; [done|]].
  2: { intros a Ha. pose proof (objs_bounds s _ p Hcl Hp). destruct Hwhere as [Hs|(c & -> & Hc & Hcf)]; [left; exists i, s; split; [done|]; lia|].
       right. exists c. split; [done|]. split; [done|]. unfold SLAB_SIZE in *. lia. }
  intros j t x Hlx. assert (live P' F' FL' j t x) as (Hj & Ht & Hx & _) by (apply Hl; by left).
  destruct (decide (t = s)) as [->|Hts].
  - assert (live P' F' FL' i s p) as (_ & Hs & _) by (apply Hl; right; done).
    assert (j = i) as -> by (by apply (hi_disj _ _ _ _ Hinv' j i s)).
    apply (objs_disjoint s); try done. intros ->. done.
  - pose proof (objs_bounds s _ p Hcl Hp). pose proof (objs_bounds t _ x (class_size_class j Hj) Hx).
    destruct (slab_page_disj _ s t Hpg (proj1 (hi_slab _ _ _ _ Hinv' j t Hj Ht))); [done|lia..].
Qed.

(** [kfree] of a live block. *)
Lemma kfree_spec h P F FL i s x fuel : heap_inv h P F FL -> live P F FL i s x ->
  (length (P i) < fuel)%nat -> (length (F i) <= fuel)%nat ->
  exists h' P' F' FL', kfree fuel h x = Some h' /\ heap_inv h' P' F' FL' /\
    (forall j t y, live P' F' FL' j t y <-> live P F FL j t y /\ ~ (j = i /\ t = s /\ y = x)) /\
    (forall a, quiet h P F a -> ~ (x <= a < x + 8) -> mm (hk h') a = mm (hk h) a).
Proof.
  intros Hinv Hx HfP HfF.
  pose proof Hx as (Hi & Hs & Hxo & Hxn). pose proof (class_size_class i Hi) as Hcl.
  destruct (hi_slab _ _ _ _ Hinv i s Hi Hs) as [Hpg Hsi]. destruct (slab_page_pos _ s Hpg) as [Hspos _].
  pose proof (objs_bounds s _ x Hcl Hxo) as Hxb. destruct (slab_class_facts _ Hcl) as (Ho & _).
  unfold kfree. destruct (Z.eqb_spec x 0) as [|_]; [lia|]. rewrite (slab_of_obj _ s x _ Hcl Hpg Hxo).
  unfold slab_like. rewrite (si_size _ _ _ _ Hsi).
  change (1 <<b HEAP_MIN_ORDER) with 8. change (1 <<b HEAP_MAX_ORDER) with 4096.
  destruct (Z.leb_spec 8 (class_size i)); [|lia]. destruct (Z.leb_spec (class_size i) 4096); [|lia].
  cbn [andb]. rewrite cache_index_class by done. unfold cache_free.
  rewrite (slab_of_obj _ s x _ Hcl Hpg Hxo).
  destruct (cache_free_push h P F FL i s x fuel Hinv Hx HfF) as (h2 & P2 & F2 & E & Hinv2 & Hs2 & Hlen & Hin & Hfm & Hfa2).
  cbv zeta in E |- *. rewrite E.
  assert (forall j t y, live P2 F2 (upd_at FL s (x :: FL s)) j t y <-> live P F FL j t y /\ ~ (j = i /\ t = s /\ y = x)) as Hl.
  { apply live_push; [done|]. intros j Hj Hsj. by apply (hi_disj _ _ _ _ Hinv j i s). }
  assert (slab_inv (mm (hk h2)) s (class_size i) (x :: FL s)) as Hsi2.
  { rewrite <- (upd_at_eq FL s (x :: FL s)). apply (hi_slab _ _ _ _ Hinv2 i s Hi). in_app. }
  rewrite (si_count _ _ _ _ Hsi2), (si_total _ _ _ _ Hsi2).
  destruct (Z.eqb_spec (Z.of_nat (length (x :: FL s))) (slab_capacity (class_size i))) as [Hall|_].
  - destruct (release_slab_spec h2 P2 F2 _ i s fuel Hinv2 Hi Hs2) as (h3 & P3 & -> & Hinv3 & Hl3 & Hfm3);
      [lia|by rewrite upd_at_eq|].
    exists h3, P3, F2, (upd_at FL s (x :: FL s)). split; [done|]. split; [done|].
    split; [intros j t y; by rewrite Hl3, Hl|].
    intros a Ha Hax. rewrite Hfm3; [by apply Hfm|]. destruct Ha as [Ha1 Ha2]. split; [|by rewrite Hfa2].
    intros j t Hj Ht. apply (Ha1 j t Hj). by apply Hin.
  - exists h2, P2, F2, (upd_at FL s (x :: FL s)). done.
Qed.

(** ** Properties *)

(** C6. [kmalloc] hands out fresh memory, for the slab classes that work: for a request of
    1 to 2048 bytes on a well-formed heap it returns NULL without effect, and then no
    frame is free, or a block of a size class that holds the request with less than half
    of it wasted.  The block overlaps no slab block of at most 2048 bytes handed out before and
    not freed since, and lies in a page of a slab of these classes or in a frame that
    was free, hence in no frame in use for anything else.  Exactly this block becomes live, the
    contents of every other live slab block are kept, and the heap stays well-formed.
    Blocks of more than 2048 bytes are outside the invariant: the 4096-byte class
    returns an address past its page ([kmalloc_top_class]), so such a block may share
    memory with one of these. *)
Theorem kmalloc_fresh h P F FL size (Hinv : heap_inv h P F FL) (Hsize : 1 <= size <= 2048) :
  let '(p, h') := kmalloc h size in
  (p = 0 /\ h' = h /\ no_frame (hk h)) \/
  exists P' F' FL' i s, heap_inv h' P' F' FL' /\
    size <= class_size i /\ (class_size i = 8 \/ class_size i < 2 * size) /\ p mod 8 = 0 /\
    (forall j t x, live P' F' FL' j t x <-> live P F FL j t x \/ (j = i /\ t = s /\ x = p)) /\
    (forall j t x, live P F FL j t x -> p + class_size i <= x \/ x + class_size j <= p) /\
    (forall a, p <= a < p + class_size i -> slab_or_free h P F a) /\
    (forall a, owned P F FL a -> mm (hk h') a = mm (hk h) a).
Proof.
  pose proof (kmalloc_spec h P F FL size Hinv Hsize) as Hk. destruct (kmalloc h size) as [p h'].
  destruct Hk as [?|(P' & F' & FL' & i & s & H1 & H2 & H3 & H4 & H5 & H6 & H7 & H8)]; [by left|right].
  exists P', F', FL', i, s. repeat (split; [done|]). intros a Ha. apply H7. by apply (owned_quiet h P F FL).
Qed.

(** C23. [kfree] of a slab block of at most 2048 bytes releases exactly the block it is
    given: for such a live block of a well-formed heap it terminates (the list walks stay
    within the lengths of the cache's lists), the block and no other stops being live, the
    contents of the remaining slab blocks are kept, and the heap stays well-formed, also
    when the slab becomes empty and its frame goes back to the frame allocator.  (Larger
    blocks are not live blocks in this sense; [large_free] gives back only the
    first page of a large block.) *)
Theorem kfree_releases h P F FL i s x fuel (Hinv : heap_inv h P F FL) (Hx : live P F FL i s x)
  (HfP : (length (P i) < fuel)%nat) (HfF : (length (F i) <= fuel)%nat) :
  exists h' P' F' FL', kfree fuel h x = Some h' /\ heap_inv h' P' F' FL' /\
    (forall j t y, live P' F' FL' j t y <-> live P F FL j t y /\ ~ (j = i /\ t = s /\ y = x)) /\
    (forall a, owned P' F' FL' a -> mm (hk h') a = mm (hk h) a).
Proof.
  destruct (kfree_spec h P F FL i s x fuel Hinv Hx HfP HfF) as (h' & P' & F' & FL' & H1 & H2 & H3 & H4).
  exists h', P', F', FL'. split; [done|]. split; [done|]. split; [done|].
  intros a (j & t & y & Hy & Ha). apply H3 in Hy as [Hy Hne].
  apply H4; [apply (owned_quiet h P F FL); [done|by exists j, t, y]|].
  pose proof (live_disj h P F FL j t y i s x Hinv Hy Hx ltac:(tauto)). destruct Hx as (Hi & _).
  destruct (slab_class_facts _ (class_size_class i Hi)) as (? & _). lia.
Qed.

(** The largest slab class does not work: the header of a slab of 4096-byte
    objects is rounded up to the whole page, so the slab holds no object and its
    free list starts right after the page.  A request of 2049 to 4096 bytes on a
    heap with no such slab gets the address of the page after the one allocated
    for it, memory the heap does not own. *)
Theorem kmalloc_top_class h size c k1 cc (Hsize : 2049 <= size <= 4096)
  (Hcc : caches h !! 9%nat = Some cc) (Hos : obj_size cc = 4096) (Hemp : partial cc = 0)
  (Hfr : alloc_frame (hk h) = (c * PAGE_SIZE, k1)) (Hc : 0 < c < WINDOW - 1) :
  slab_capacity 4096 = 0 /\ fst (kmalloc h size) = frame_va (c + 1).
Proof.
  split; [by vm_compute|]. unfold kmalloc. destruct (Z.eqb_spec size 0); [lia|]. rewrite Z.gtb_ltb.
  change (1 <<b HEAP_MAX_ORDER) with 4096. destruct (Z.ltb_spec 4096 size); [lia|].
  change (1 <<b HEAP_MIN_ORDER) with 8. rewrite top_class by done.
  unfold cache_alloc. rewrite (get_cache_eq h 9 cc Hcc), Hemp, Z.eqb_refl, Hos. unfold slab_create.
  rewrite Hfr. destruct (Z.eqb_spec (c * PAGE_SIZE) 0); [unfold PAGE_SIZE in *; lia|].
  rewrite phys_to_virt by lia.
  destruct (Z.eqb_spec (frame_va c) 0) as [E|_]; [by apply frame_va_pos in E; [|lia]|].
  assert (load64 (slab_init_mem (mm k1) (frame_va c) 4096) (frame_va c + slab_freelist) = frame_va (c + 1)) as Hfl.
  { unfold slab_init_mem. change (slab_capacity 4096) with 0. cbv zeta. change (Z.to_nat 0) with O. cbn [link_objs].
    rewrite load_store_eq. change (slab_hdr_size 4096) with 4096.
    change (2 ^ (8 * Z.of_nat 8)) with (2 ^ 64).
    unfold frame_va, PAGE_SIZE, KERNEL_VMA, WINDOW in *. rewrite Z.mod_small; lia. }
  revert Hfl. generalize (slab_init_mem (mm k1) (frame_va c) 4096). intros m1 Hfl.
  rewrite cache_pop_fst. rewrite (get_cache_eq _ 9 (mk_cache 4096 (frame_va c) (full cc))); [exact Hfl|].
  apply list_lookup_insert_eq. by eapply lookup_lt_Some.
Qed.
End heap_free.

(** ** Witnesses: a heap just initialised on the machine of Vmm.v *)

Definition demo_heap : hst pmm_state := snd (heap_init (mk_hst demo_vm [])).

Lemma demo_heap_inv : heap_inv demo_heap (fun _ => []) (fun _ => []) (fun _ => []).
Proof.
  destruct demo_inv as [Hwf Hok _ Hw]. apply heap_init_inv; [|exact Hok|exact Hw].
  apply Hwf.
Qed.

Lemma demo_kmalloc : kmalloc demo_heap 100 = cache_alloc demo_heap 4.
Proof. reflexivity. Qed.

Lemma kmalloc_fresh_witness :
  exists h' P F FL i s, kmalloc demo_heap 100 = (frame_va 7 + 128, h') /\ heap_inv h' P F FL /\
    live P F FL i s (frame_va 7 + 128).
Proof.
  pose proof (kmalloc_fresh demo_heap _ _ _ 100 demo_heap_inv ltac:(lia)) as H.
  assert (fst (kmalloc demo_heap 100) = frame_va 7 + 128) as E by (vm_compute; reflexivity).
  destruct (kmalloc demo_heap 100) as [p h']. cbn [fst] in E. subst p.
  destruct H as [[H _]|(P & F & FL & i & s & Hinv & _ & _ & _ & Hl & _ & _)]; [discriminate H|].
  exists h', P, F, FL, i, s. split; [done|]. split; [done|]. apply Hl. by right.
Defined.

(** The only live block is freed: none is left. *)
Lemma kfree_releases_witness :
  exists fuel h' P F FL, kfree fuel (snd (kmalloc demo_heap 100)) (fst (kmalloc demo_heap 100)) = Some h' /\
    fst (kmalloc demo_heap 100) = frame_va 7 + 128 /\ heap_inv h' P F FL /\ forall j t y, ~ live P F FL j t y.
Proof.
  pose proof (cache_alloc_spec demo_heap _ _ _ 4 demo_heap_inv ltac:(lia)) as H.
  rewrite <- demo_kmalloc in H.
  assert (fst (kmalloc demo_heap 100) = frame_va 7 + 128) as E by (vm_compute; reflexivity).
  destruct (kmalloc demo_heap 100) as [p h']. cbn [fst snd] in *.
  destruct H as [[H _]|(P & F & FL & s & Hinv & _ & _ & _ & Hl & _)]; [rewrite E in H; discriminate H|].
  exists (S (length (P 4%Z) + length (F 4%Z)))%nat.
  destruct (kfree_releases h' P F FL 4 s p (S (length (P 4%Z) + length (F 4%Z))) Hinv) as (h2 & P2 & F2 & FL2 & E2 & Hinv2 & Hl2 & _);
    [apply Hl; by right|lia|lia|]. exists h2, P2, F2, FL2. split; [exact E2|]. split; [exact E|]. split; [exact Hinv2|].
  intros j t y [Hy Hne]%Hl2. apply Hl in Hy as [(_ & Hin & _)|Hy]; [by apply not_elem_of_nil in Hin|exact (Hne Hy)].
Defined.

Lemma kmalloc_top_class_witness : fst (kmalloc demo_heap 3000) = frame_va 8.
Proof.
  assert (alloc_frame demo_vm = (7 * PAGE_SIZE, snd (alloc_frame demo_vm))) as E.
  { rewrite (surjective_pairing (alloc_frame demo_vm)) at 1. by f_equal. }
  exact (proj2 (kmalloc_top_class demo_heap 3000 7 (snd (alloc_frame demo_vm)) (mk_cache 4096 0 0)
    ltac:(lia) eq_refl eq_refl eq_refl E ltac:(unfold WINDOW; lia))).
Defined.
