(* ===== verification/BlockHeap.v ===== *)
(** * The heap as its clients see it

    [BlockHeap] is the interface between the kernel heap (src/heap/heap.c) and
    the code that keeps data in heap blocks: a set of blocks, each an address and
    a capacity, with [krealloc] and plain memory accesses.  Its laws are what
    src/tmpfs/tmpfs.c relies on; the instance at the end of the file proves
    them of the slab allocator of Heap.v. *)

From S2P Require Import Prelude Mem Pmm Vmm Heap.

Class BlockHeap (H : Type) := {
  bh_mem : H -> mem;
  bh_set_mem : H -> mem -> H;
  bh_realloc : nat -> H -> Z -> Z -> option (Z * H);
  (** [bh_ok h B]: a well-formed heap whose blocks are the [(p, n)] with [B p n]. *)
  bh_ok : H -> (Z -> Z -> Prop) -> Prop;
  (** There is no memory left to take. *)
  bh_full : H -> Prop
}.

(** Address [a] belongs to a block. *)
Definition in_block (B : Z -> Z -> Prop) (a : Z) : Prop := exists p n, B p n /\ p <= a < p + n.

(** What [krealloc p size] did: nothing, because there is no memory, or the block [p] (if any)
    became a block [q] that holds [size] bytes, with the old contents, and every
    other block, and memory below the kernel's half, is as before. *)
Definition realloc_post {H} `{!BlockHeap H} (h : H) (B : Z -> Z -> Prop) (p size q : Z) (h' : H) : Prop :=
  (q = 0 /\ h' = h /\ bh_full h) \/
  exists B' n', bh_ok h' B' /\ B' q n' /\ size <= n' /\ q <> 0 /\
    (forall r k, r <> q -> B' r k <-> B r k /\ r <> p) /\ (forall k, B q k -> q = p) /\
    (forall n d, B p n -> 0 <= d < n -> bh_mem h' (q + d) = bh_mem h (p + d)) /\
    (forall r k d, B r k -> r <> p -> 0 <= d < k -> bh_mem h' (r + d) = bh_mem h (r + d)) /\
    (forall a, a < KERNEL_VMA -> bh_mem h' a = bh_mem h a).

Class BlockHeapLaws (H : Type) `{!BlockHeap H} := {
  bh_bytes h B : bh_ok h B -> bytes_ok (bh_mem h);
  bh_pos h B p n : bh_ok h B -> B p n -> KERNEL_VMA <= p /\ 0 < n /\ p + n <= 2 ^ 64;
  bh_fun h B p n k : bh_ok h B -> B p n -> B p k -> n = k;
  bh_disj h B p n q k : bh_ok h B -> B p n -> B q k -> p <> q -> p + n <= q \/ q + k <= p;
  bh_write h B m : bh_ok h B -> bytes_ok m -> (forall a, KERNEL_VMA <= a -> ~ in_block B a -> m a = bh_mem h a) ->
    bh_ok (bh_set_mem h m) B;
  bh_mem_set h m : bh_mem (bh_set_mem h m) = m;
  bh_full_set h m : bh_full (bh_set_mem h m) -> bh_full h;
  bh_realloc_ok h B p size : bh_ok h B -> p = 0 \/ (exists n, B p n) -> 1 <= size <= 2048 ->
    exists f0, forall f, (f0 <= f)%nat -> exists q h', bh_realloc f h p size = Some (q, h') /\
      realloc_post h B p size q h'
}.

(** ** The slab allocator implements it *)

Section slab.
Context {A : Type} `{!FrameAlloc A} `{!FrameAllocLaws A}.
Implicit Types (h : hst A) (P F FL : Z -> list Z).

(** The blocks of the ghost state. *)
Definition blocks P F FL (p n : Z) : Prop := exists i s, live P F FL i s p /\ n = class_size i.

#[global] Instance slab_block_heap : BlockHeap (hst A) := {|
  bh_mem h := mm (hk h);
  bh_set_mem h m := set_hk h (set_mm (hk h) m);
  bh_realloc := krealloc;
  bh_ok h B := exists P F FL, heap_inv h P F FL /\ forall p n, B p n <-> blocks P F FL p n;
  bh_full h := no_frame (hk h)
|}.

Lemma live_fun h P F FL i s x j t : heap_inv h P F FL -> live P F FL i s x -> live P F FL j t x -> i = j /\ s = t.
Proof.
  intros Hinv Hx Hy. destruct (decide (i = j /\ s = t)) as [?|Hne]; [done|].
  pose proof (live_disj h P F FL i s x j t x Hinv Hx Hy ltac:(tauto)) as Hd.
  destruct Hx as (Hi & _), Hy as (Hj & _).
  destruct (slab_class_facts _ (class_size_class i Hi)) as (? & _).
  destruct (slab_class_facts _ (class_size_class j Hj)) as (? & _). lia.
Qed.

(** Blocks lie in the kernel's half of the address space. *)
Lemma low_of_live h P F FL i s x : heap_inv h P F FL -> live P F FL i s x -> KERNEL_VMA <= x.
Proof.
  intros Hinv (Hi & Hs & Hx & _). pose proof (objs_bounds s _ x (class_size_class i Hi) Hx).
  destruct (proj1 (hi_slab _ _ _ _ Hinv i s Hi Hs)) as (f & -> & Hf & _). unfold frame_va, PAGE_SIZE in *. lia.
Qed.

Lemma owned_in_block P F FL B a : (forall p n, B p n <-> blocks P F FL p n) -> in_block B a <-> owned P F FL a.
Proof.
  intros HB. split.
  - intros (p & n & (i & s & Hl & ->)%HB & Ha). by exists i, s, p.
  - intros (i & s & x & Hl & Ha). exists x, (class_size i). split; [|done]. apply HB. by exists i, s.
Qed.

(** Writing into live blocks, or below the kernel's half, keeps the heap well-formed. *)
Lemma heap_inv_write h P F FL m : heap_inv h P F FL -> bytes_ok m ->
  (forall a, KERNEL_VMA <= a -> ~ owned P F FL a -> m a = mm (hk h) a) -> heap_inv (set_hk h (set_mm (hk h) m)) P F FL.
Proof.
  intros Hinv Hm Hout. pose proof Hinv as [Hb Hfa Hw Hca Hsl Hpa Hfu Hnd Hdi].
  assert (forall i s a, 0 <= i <= 8 -> s ∈ P i ++ F i -> s <= a < s + 32 -> m a = mm (hk h) a) as Hhdr.
  { intros i s a Hi Hs Ha. apply Hout; [|intros Ho; by apply (owned_hdr h P F FL a i s)].
    destruct (proj1 (Hsl i s Hi Hs)) as (f & -> & Hf & _). unfold frame_va, PAGE_SIZE in *. lia. }
  split; try done.
  - intros i Hi. destruct (Hca i Hi) as (c & Hc & Ho & H1 & H2). exists c. split; [done|]. split; [done|].
    split; (eapply chain_slabs_ext; [|done]); intros s x Hs Hx; apply (Hhdr i s); (done || in_app || lia).
  - intros i s Hi Hs. destruct (Hsl i s Hi Hs) as [Hpg Hsi]. split; [done|]. simpl.
    pose proof (class_size_class i Hi) as Hcl. destruct (slab_class_facts _ Hcl) as (Ho & _).
    assert (forall n a, s <= a -> a + Z.of_nat n <= s + 32 -> load n m a = load n (mm (hk h)) a) as Hl.
    { intros n a H1 H2. apply load_ext. intros x Hx. apply (Hhdr i s); done || lia. }
    destruct Hsi as [S1 S2 S3 S4 S5 S6].
    unfold slab_obj_size, slab_total, slab_free_count, slab_freelist in *.
    split; unfold slab_obj_size, slab_total, slab_free_count, slab_freelist; rewrite ?Hl by lia; try done.
    eapply chain_ext; [|exact S4]. intros x Hx. apply load_ext. intros a Ha. rewrite Forall_forall in S6. apply Hout.
    { pose proof (objs_bounds s _ x Hcl (S6 x Hx)).
      destruct Hpg as (f & -> & Hf & _). unfold frame_va, PAGE_SIZE in *. lia. } intros (j & t & y & Hy & Hay). pose proof Hy as (Hj & Ht & Hyo & Hyn).
    pose proof (objs_bounds s _ x Hcl (S6 x Hx)). pose proof (objs_bounds t _ y (class_size_class j Hj) Hyo).
    destruct (decide (t = s)) as [->|Hts].
    + assert (j = i) as -> by (by apply (Hdi j i s)).
      destruct (objs_disjoint s _ x y Hcl (S6 x Hx) Hyo); [by intros ->|lia..].
    + destruct (slab_page_disj _ t s (proj1 (Hsl j t Hj Ht)) Hpg Hts); unfold SLAB_SIZE in *; lia.
Qed.

(** [krealloc] of NULL. *)
Lemma kmalloc_post h P F FL B size q h' : (forall p n, B p n <-> blocks P F FL p n) -> heap_inv h P F FL ->
  1 <= size <= 2048 -> kmalloc h size = (q, h') -> realloc_post h B 0 size q h'.
Proof.
  intros HB Hinv Hs E. pose proof (kmalloc_spec h P F FL size Hinv Hs) as Hk. rewrite E in Hk.
  destruct Hk as [(-> & -> & Hnone)|(P' & F' & FL' & i & s & Hinv' & Hfit & _ & _ & Hl & Hd & Hm & _)]; [by left|right].
  assert (live P' F' FL' i s q) as Hq by (apply Hl; by right).
  assert (forall r k, B r k -> 0 < r) as Hpos.
  { intros r k (j & t & Hj & _)%HB. pose proof Hj as (Hj8 & Ht & Hro & _).
    pose proof (objs_bounds t _ r (class_size_class j Hj8) Hro).
    pose proof (slab_page_pos _ t (proj1 (hi_slab _ _ _ _ Hinv j t Hj8 Ht))). lia. }
  exists (blocks P' F' FL'), (class_size i).
  split; [exists P', F', FL'; done|]. split; [by exists i, s|]. split; [done|]. split.
  { pose proof Hq as (Hj8 & Ht & Hro & _). pose proof (objs_bounds s _ q (class_size_class i Hj8) Hro).
    pose proof (slab_page_pos _ s (proj1 (hi_slab _ _ _ _ Hinv' i s Hj8 Ht))). lia. }
  split; [|split; [|split; [|split]]].
  5: { intros a Ha. apply Hm. by apply (low_quiet h P F FL). }
  2: { intros k (j & t & Hj & ->)%HB. pose proof (Hd j t q Hj) as Hdq. pose proof Hj as (Hj8 & _).
       destruct (slab_class_facts _ (class_size_class j Hj8)) as (? & _).
       destruct (slab_class_facts _ (class_size_class i (proj1 Hq))) as (? & _). lia. }
  - intros r k Hr. rewrite HB. split.
    + intros (j & t & [Hj|(-> & -> & ->)]%Hl & ->); [|done].
      assert (B r (class_size j)) as Hb by (apply HB; by exists j, t).
      split; [by exists j, t|]. apply Hpos in Hb. lia.
    + intros [(j & t & Hj & ->) _]. exists j, t. split; [|done]. apply Hl. by left.
  - intros n d Hn. apply Hpos in Hn. lia.
  - intros r k d (j & t & Hj & ->)%HB _ Hd'. apply Hm, (owned_quiet h P F FL); [done|]. exists j, t, r. split; [done|]. lia.
Qed.

(** The size [krealloc] finds for a live block. *)
Lemma old_size_live h P F FL i s p : heap_inv h P F FL -> live P F FL i s p ->
  slab_of p = s /\ slab_like (mm (hk h)) s = true /\ load32 (mm (hk h)) (s + slab_obj_size) = class_size i /\ p <> 0.
Proof.
  intros Hinv (Hi & Hs & Hpo & _). pose proof (class_size_class i Hi) as Hcl.
  destruct (hi_slab _ _ _ _ Hinv i s Hi Hs) as [Hpg Hsi]. destruct (slab_class_facts _ Hcl) as (Ho & Hh & _).
  pose proof (objs_bounds s _ p Hcl Hpo). destruct (slab_page_pos _ s Hpg) as [Hspos _].
  split; [by eapply slab_of_obj|]. unfold slab_like. rewrite (si_size _ _ _ _ Hsi).
  change (1 <<b HEAP_MIN_ORDER) with 8. change (1 <<b HEAP_MAX_ORDER) with 4096.
  split; [|split; [done|lia]]. apply andb_true_intro. split; apply Z.leb_le; lia.
Qed.

(** The move to a larger block: [q] is fresh, the old contents are copied, the
    old block [p] is freed. *)
Lemma realloc_move h P F FL B i s p size q h1 : (forall r n, B r n <-> blocks P F FL r n) -> heap_inv h P F FL ->
  live P F FL i s p -> class_size i < size <= 2048 -> kmalloc h size = (q, h1) -> q <> 0 ->
  exists f0, forall f, (f0 <= f)%nat -> exists h',
    kfree f (set_hk h1 (set_mm (hk h1) (memcpy (mm (hk h1)) q p (class_size i)))) p = Some h' /\
    realloc_post h B p size q h'.
Proof.
  intros HB Hinv Hp Hsz E Hq0. pose proof Hp as (Hi & _).
  destruct (slab_class_facts _ (class_size_class i Hi)) as (Hci & _).
  pose proof (kmalloc_spec h P F FL size Hinv ltac:(lia)) as Hk. rewrite E in Hk.
  destruct Hk as [[-> _]|(P1 & F1 & FL1 & j & t & Hinv1 & Hfit & _ & _ & Hl1 & Hd1 & Hm1 & _)]; [done|].
  assert (live P1 F1 FL1 j t q) as Hq by (apply Hl1; by right).
  assert (live P1 F1 FL1 i s p) as Hp1 by (apply Hl1; by left).
  pose proof (Hd1 i s p Hp) as Hpq.
  set (m2 := memcpy (mm (hk h1)) q p (class_size i)).
  assert (forall a, m2 a = if (q <=? a) && (a <? q + class_size i) then mm (hk h1) (p + (a - q)) else mm (hk h1) a) as Hm2.
  { intros a. unfold m2. apply memcpy_spec; [lia|]. lia. }
  assert (heap_inv (set_hk h1 (set_mm (hk h1) m2)) P1 F1 FL1) as Hinv2.
  { apply heap_inv_write; [done|apply memcpy_bytes_ok, Hinv1|]. intros a _ Ha. rewrite Hm2.
    destruct (Z.leb_spec q a); [|done]. destruct (Z.ltb_spec a (q + class_size i)); [|done]. cbn [andb].
    destruct Ha. exists j, t, q. split; [done|]. lia. }
  exists (S (length (P1 i) + length (F1 i)))%nat. intros f Hf.
  destruct (kfree_spec _ P1 F1 FL1 i s p f Hinv2 Hp1 ltac:(lia) ltac:(lia))
    as (h' & P' & F' & FL' & E' & Hinv' & Hl' & Hm').
  exists h'. split; [exact E'|]. right.
  assert (q <> p) as Hqp by lia.
  assert (live P' F' FL' j t q) as Hq' by (apply Hl'; split; [done|]; intros (_ & _ & ?); done).
  exists (blocks P' F' FL'), (class_size j). split; [by exists P', F', FL'|]. split; [by exists j, t|].
  split; [lia|]. split; [done|].
  assert (forall a, quiet h P F a -> mm (hk h1) a = mm (hk h) a) as Hm1q by done.
  assert (forall a, owned P F FL a -> mm (hk h1) a = mm (hk h) a) as Hm1o
    by (intros a Ha; apply Hm1; by apply (owned_quiet h P F FL)).
  assert (forall jj tt r d, live P1 F1 FL1 jj tt r -> r <> p -> 0 <= d < class_size jj -> mm (hk h') (r + d) = m2 (r + d)) as Hk2.
  { intros jj tt r d Hx Hrp Hd. apply Hm'.
    - apply (owned_quiet _ P1 F1 FL1); [done|]. exists jj, tt, r. split; [done|lia].
    - pose proof (live_disj _ P1 F1 FL1 jj tt r i s p Hinv1 Hx Hp1 ltac:(intros (_ & _ & ?); done)). lia. }
  split; [|split; [|split; [|split]]].
  2: { intros k (jj & tt & Hx & ->)%HB. pose proof (Hd1 jj tt q Hx) as Hdq. pose proof Hx as (Hj8 & _).
       destruct (slab_class_facts _ (class_size_class jj Hj8)) as (? & _).
       destruct (slab_class_facts _ (class_size_class j (proj1 Hq))) as (? & _). lia. }
  4: { intros a Ha. simpl. rewrite Hm'.
       - simpl. rewrite Hm2. pose proof (low_of_live h1 P1 F1 FL1 j t q Hinv1 Hq).
         destruct (Z.leb_spec q a); [lia|]. apply Hm1. by apply (low_quiet h P F FL).
       - by apply (low_quiet _ P1 F1 FL1).
       - pose proof (low_of_live h P F FL i s p Hinv Hp). lia. }
  - intros r k Hr. rewrite HB. split.
    + intros (jj & tt & [[Hx|(-> & -> & ->)]%Hl1 Hne]%Hl' & ->); [|done]. split; [by exists jj, tt|].
      intros ->. apply Hne. destruct (live_fun h P F FL jj tt p i s Hinv Hx Hp) as [-> ->]. done.
    + intros [(jj & tt & Hx & ->) Hrp]. exists jj, tt. split; [|done]. apply Hl'. split; [apply Hl1; by left|].
      intros (_ & _ & ?). done.
  - intros n d (jj & tt & Hx & ->)%HB Hd. destruct (live_fun h P F FL jj tt p i s Hinv Hx Hp) as [-> ->].
    simpl. rewrite (Hk2 j t q) by (done || lia). rewrite Hm2.
    destruct (Z.leb_spec q (q + d)); [|lia]. destruct (Z.ltb_spec (q + d) (q + class_size i)); [|lia]. cbn [andb].
    replace (p + (q + d - q)) with (p + d) by lia. apply Hm1o. exists i, s, p. split; [done|lia].
  - intros r k d (jj & tt & Hx & ->)%HB Hrp Hd. simpl. pose proof (Hd1 jj tt r Hx) as Hdis.
    rewrite (Hk2 jj tt r) by (try done; apply Hl1; by left). rewrite Hm2.
    assert (mm (hk h1) (r + d) = mm (hk h) (r + d)) as Er by (apply Hm1o; exists jj, tt, r; split; [done|lia]).
    destruct (Z.leb_spec q (r + d)); [|exact Er]. destruct (Z.ltb_spec (r + d) (q + class_size i)); [lia|exact Er].
Qed.

Lemma krealloc_spec h P F FL B p size : (forall r n, B r n <-> blocks P F FL r n) -> heap_inv h P F FL ->
  p = 0 \/ (exists n, B p n) -> 1 <= size <= 2048 ->
  exists f0, forall f, (f0 <= f)%nat -> exists q h', krealloc f h p size = Some (q, h') /\
    realloc_post h B p size q h'.
Proof.
  intros HB Hinv Hp Hs. unfold krealloc. destruct (Z.eqb_spec p 0) as [->|Hp0].
  { exists O. intros f _. exists (fst (kmalloc h size)), (snd (kmalloc h size)).
    split; [f_equal; apply surjective_pairing|]. apply (kmalloc_post h P F FL); [done|done|done|apply surjective_pairing]. }
  destruct Hp as [?|(n & (i & s & Hl & ->)%HB)]; [done|]. destruct (Z.eqb_spec size 0); [lia|].
  destruct (old_size_live h P F FL i s p Hinv Hl) as (-> & -> & -> & _). pose proof Hl as (Hi & _).
  destruct (Z.leb_spec size (class_size i)) as [Hle|Hgt].
  { exists O. intros f _. exists p, h. split; [done|]. right. exists B, (class_size i).
    split; [by exists P, F, FL|]. split; [apply HB; by exists i, s|]. split; [done|]. split; [done|].
    split; [intros r k Hr; tauto|done]. }
  destruct (kmalloc h size) as [q h1] eqn:E. destruct (Z.eqb_spec q 0) as [->|Hq0].
  { exists O. intros f _. exists 0, h1. split; [done|].
    pose proof (kmalloc_spec h P F FL size Hinv Hs) as Hk. rewrite E in Hk.
    destruct Hk as [(_ & -> & Hnone)|(P1 & F1 & FL1 & j & t & Hinv1 & _ & _ & _ & Hl1 & _)]; [by left|].
    assert (live P1 F1 FL1 j t 0) as H0 by (apply Hl1; by right).
    by destruct (old_size_live h1 P1 F1 FL1 j t 0 Hinv1 H0) as (_ & _ & _ & ?). }
  destruct (realloc_move h P F FL B i s p size q h1 HB Hinv Hl ltac:(lia) E Hq0) as [f0 Hf0].
  exists f0. intros f Hf. destruct (Hf0 f Hf) as (h' & E' & Hpost). exists q, h'. by rewrite E'.
Qed.

#[global] Instance slab_block_heap_laws : BlockHeapLaws (hst A).
Proof.
  split.
  - intros h B (P & F & FL & Hinv & _). apply Hinv.
  - intros h B p n (P & F & FL & Hinv & HB) (i & s & Hl & ->)%HB. pose proof Hl as (Hi & Hs & Hp & _).
    pose proof (class_size_class i Hi) as Hcl. pose proof (objs_bounds s _ p Hcl Hp).
    destruct (slab_class_facts _ Hcl) as (? & ? & _).
    destruct (slab_page_pos _ s (proj1 (hi_slab _ _ _ _ Hinv i s Hi Hs))).
    assert (KERNEL_VMA <= p) by (apply (low_of_live h P F FL i s); done). lia.
  - intros h B p n k (P & F & FL & Hinv & HB) (i & s & H1 & ->)%HB (j & t & H2 & ->)%HB.
    by destruct (live_fun h P F FL i s p j t Hinv H1 H2) as [-> _].
  - intros h B p n q k (P & F & FL & Hinv & HB) (i & s & H1 & ->)%HB (j & t & H2 & ->)%HB Hne.
    apply (live_disj h P F FL i s p j t q Hinv H1 H2). intros (_ & _ & ?). done.
  - intros h B m (P & F & FL & Hinv & HB) Hm Hout. exists P, F, FL. split; [|done].
    apply heap_inv_write; [done|done|]. intros a Hk Ha. apply Hout; [done|]. by rewrite (owned_in_block P F FL).
  - done.
  - done.
  - intros h B p size (P & F & FL & Hinv & HB) Hp Hs. by apply (krealloc_spec h P F FL).
Qed.
End slab.
