(* ===== verification/Boot.v ===== *)
(** * From the boot loader to the first invariant: boot/entry.asm

    The 32-bit entry code writes three page tables into physical memory ([mem], here
    indexed by physical addresses), sets the control registers and calls
    [kernel_main]; [pmm_init], [vmm_init] and [heap_init] run from there.  The kernel
    sees physical memory through the window at [KERNEL_VMA] ([window]).

    Theorems: what every virtual address is mapped to once paging is on, by the walk
    of Vmm.v; and that the three initialisers, run on what the entry code leaves,
    establish the invariants on which the theorems about paging and the heap
    rest. *)

From S2P Require Import Prelude Mem Pmm Vmm Heap.

Definition PDPE_PRESENT : Z := 0x1.
Definition PDPE_WRITE : Z := 0x2.
Definition PDPE_1G : Z := 1 <<b 7.
Definition CR4_PAE : Z := 1 <<b 5.
Definition CR0_PG : Z := 1 <<b 31.
Definition CR0_PE : Z := 1 <<b 0.
Definition EFER_LME : Z := 1 <<b 8.
Definition EFER_NXE : Z := 1 <<b 11.

(** The multiboot2 header, as 32-bit words; the end tag is two half words and its size. *)
Definition MB2_MAGIC : Z := 0xE85250D6.
Definition mb2_len : Z := 24.
Definition mb2_header : list Z := [MB2_MAGIC; 0; mb2_len; u32 (- (MB2_MAGIC + 0 + mb2_len)); 0; 8].

(** [rep stosd] with [ecx = n]. *)
Fixpoint rep_stosd (n : nat) (m : mem) (edi eax : Z) : mem :=
  match n with
  | O => m
  | S n => rep_stosd n (store32 m edi eax) (edi + 4) eax
  end.

(** The loop [.fill_id]. *)
Fixpoint fill_id (ecx : nat) (m : mem) (edi eax : Z) : mem :=
  match ecx with
  | O => m
  | S ecx => fill_id ecx (store32 (store32 m edi eax) (edi + 4) 0) (edi + 8) (u32 (eax + 0x40000000))
  end.

(** The page tables; [pml4], [pdpt_id] and [pdpt_hh] are consecutive pages. *)
Definition boot_tables (pml4 : Z) (m : mem) : mem :=
  let pdpt_id := pml4 + 4096 in
  let pdpt_hh := pml4 + 8192 in
  let m := rep_stosd (Z.to_nat (4096 * 3 / 4)) m pml4 0 in
  let m := store32 m pml4 (pdpt_id |b (PDPE_PRESENT |b PDPE_WRITE)) in
  let m := store32 m (pml4 + 511 * 8) (pdpt_hh |b (PDPE_PRESENT |b PDPE_WRITE)) in
  let m := fill_id 4 m pdpt_id (PDPE_PRESENT |b PDPE_WRITE |b PDPE_1G) in
  let edi := pdpt_hh + 508 * 8 in
  let m := store32 m edi (PDPE_PRESENT |b PDPE_WRITE |b PDPE_1G |b 0x80000000) in
  let m := store32 m (edi + 4) 0 in
  let m := store32 m (edi + 8) (PDPE_PRESENT |b PDPE_WRITE |b PDPE_1G |b 0xC0000000) in
  let m := store32 m (edi + 12) 0 in
  let m := store32 m (edi + 16) (PDPE_PRESENT |b PDPE_WRITE |b PDPE_1G |b 0x00000000) in
  let m := store32 m (edi + 20) 0 in
  let m := store32 m (edi + 24) (PDPE_PRESENT |b PDPE_WRITE |b PDPE_1G |b 0x40000000) in
  store32 m (edi + 28) 0.

(** The registers the entry code sets, and physical memory. *)
Record boot_cpu := mk_boot { b_cr0 : Z; b_cr3 : Z; b_cr4 : Z; b_efer : Z; b_rsp : Z; b_rdi : Z; b_mem : mem }.

(** [start] up to the call of [kernel_main], whose argument is in RDI; [mb2_var] is the
    address of [mb2_info_phys], [ebx] what the boot loader left there. *)
Definition start (pml4 mb2_var stack_top ebx : Z) (c : boot_cpu) : boot_cpu :=
  let m := store32 (b_mem c) mb2_var ebx in
  let m := boot_tables pml4 m in
  let cr4 := b_cr4 c |b CR4_PAE in
  let efer := b_efer c |b (EFER_LME |b EFER_NXE) in
  let cr0 := b_cr0 c |b (CR0_PG |b CR0_PE) in
  mk_boot cr0 pml4 cr4 efer stack_top (load32 m mb2_var) m.

(** The descriptors of the boot GDT. *)
Definition gdt64 : list Z := [0; (1 <<b 43) |b (1 <<b 44) |b (1 <<b 47) |b (1 <<b 53); (1 <<b 41) |b (1 <<b 44) |b (1 <<b 47)].

(** Four-level paging is in use (SDM vol. 3A, 4.1.1). *)
Definition paging (c : boot_cpu) : bool :=
  has (b_cr0 c) CR0_PG && has (b_cr0 c) CR0_PE && has (b_cr4 c) CR4_PAE && has (b_efer c) EFER_LME.

(** Physical memory seen through the window. *)
Definition window (pm : mem) : mem := fun v => pm (v - KERNEL_VMA).

(** ** What the tables hold *)

Lemma load_S n m a : load (S n) m a = m a + 2 ^ 8 * load n m (a + 1).
Proof. reflexivity. Qed.
Lemma load_0 m a : load 0 m a = 0.
Proof. reflexivity. Qed.
Lemma load_shift n pm a : load n (window pm) (KERNEL_VMA + a) = load n pm a.
Proof.
  revert a. induction n as [|n IH]; intros a; [done|]. rewrite !load_S. replace (KERNEL_VMA + a + 1) with (KERNEL_VMA + (a + 1)) by lia.
  rewrite IH. unfold window. by replace (KERNEL_VMA + a - KERNEL_VMA) with a by lia.
Qed.
Lemma ent_window pm f i : ent (window pm) f i = load64 pm (f * PAGE_SIZE + 8 * i).
Proof. unfold ent, frame_va. rewrite <-Z.add_assoc. apply load_shift. Qed.
Lemma load64_split m a : load64 m a = load32 m a + 2 ^ 32 * load32 m (a + 4).
Proof. rewrite !load_S. replace (a + 1 + 1 + 1 + 1) with (a + 4) by lia. rewrite !load_0. lia. Qed.

Lemma store_zero n m a x : a <= x < a + Z.of_nat n -> store n m a 0 x = 0.
Proof.
  revert m a. induction n as [|n IH]; intros m a Hx; [lia|]. change (store (S n) m a 0 x) with (store n (upd m a 0) (a + 1) 0 x).
  destruct (decide (x = a)) as [->|Hne]; [rewrite store_other by lia; apply upd_eq|]. apply IH. lia.
Qed.
Lemma rep_stosd_out n : forall m a v x, ~ (a <= x < a + 4 * Z.of_nat n) -> rep_stosd n m a v x = m x.
Proof.
  induction n as [|n IH]; intros m a v x Hx; cbn [rep_stosd]; [done|]. rewrite IH by lia. apply store_other. lia.
Qed.
Lemma rep_stosd_zero n : forall m a x, a <= x < a + 4 * Z.of_nat n -> rep_stosd n m a 0 x = 0.
Proof.
  induction n as [|n IH]; intros m a x Hx; [lia|]. cbn [rep_stosd]. destruct (decide (x < a + 4)) as [H|H].
  - rewrite rep_stosd_out by lia. apply store_zero. lia.
  - apply IH. lia.
Qed.
Lemma rep_stosd_ok n : forall m a v, bytes_ok m -> bytes_ok (rep_stosd n m a v).
Proof. induction n as [|n IH]; intros m a v Hm; cbn [rep_stosd]; [done|]. by apply IH, store_bytes_ok. Qed.

(** The entry [i] of table [t] (0: PML4, 1: the identity map, 2: the higher half). *)
Definition boot_entry (pml4 t i : Z) : Z :=
  if t =? 0 then
    if i =? 0 then pml4 + 4096 + 3 else if i =? 511 then pml4 + 8192 + 3 else 0
  else if t =? 1 then if i <? 4 then i * 0x40000000 + 0x83 else 0
  else if i =? 508 then 0x80000083 else if i =? 509 then 0xC0000083
  else if i =? 510 then 0x83 else if i =? 511 then 0x40000083 else 0.

Lemma load32_cell m a v x : (x - a) mod 4 = 0 -> 0 <= v < 2 ^ 32 -> load32 (store32 m a v) x = if x =? a then v else load32 m x.
Proof.
  intros Hal Hv. destruct (Z.eqb_spec x a) as [->|Hne].
  - rewrite load_store_eq. by apply Z.mod_small.
  - apply load_store_ne. zlia.
Qed.

Section tables.
Context (b : Z) (m0 : mem).
Hypothesis Hb : 0 < b /\ (b + 3) * 4096 <= 2 ^ 31.

Lemma table_ptr k : 0 <= k -> (b * 4096 + k * 4096) |b (PDPE_PRESENT |b PDPE_WRITE) = b * 4096 + k * 4096 + 3.
Proof.
  intros Hk. replace (b * 4096 + k * 4096) with ((b + k) * 2 ^ 12) by lia. apply lor_add; [lia|lia|by vm_compute].
Qed.

(** A 32-bit word of the tables. *)
Lemma tables_word j : 0 <= j < 3072 -> load32 (boot_tables (b * 4096) m0) (b * 4096 + 4 * j) =
  if j =? 0 then b * 4096 + 4096 + 3 else if j =? 1022 then b * 4096 + 8192 + 3
  else if j =? 1024 then 0x83 else if j =? 1026 then 0x40000083
  else if j =? 1028 then 0x80000083 else if j =? 1030 then 0xC0000083
  else if j =? 3064 then 0x80000083 else if j =? 3066 then 0xC0000083
  else if j =? 3068 then 0x83 else if j =? 3070 then 0x40000083 else 0.
Proof.
  intros Hj. unfold boot_tables. cbv zeta. cbn [fill_id].
  assert (load32 (rep_stosd (Z.to_nat (4096 * 3 / 4)) m0 (b * 4096) 0) (b * 4096 + 4 * j) = 0) as H0.
  { rewrite (load_ext 4 _ (fun _ => 0)); [apply load_zero|]. intros x Hx. apply rep_stosd_zero.
    change (4 * Z.of_nat (Z.to_nat (4096 * 3 / 4))) with 12288. lia. }
  set (z := rep_stosd _ _ _ _) in *. clearbody z.
  pose proof (table_ptr 1 ltac:(lia)) as H1. pose proof (table_ptr 2 ltac:(lia)) as H2.
  change (1 * 4096) with 4096 in H1. change (2 * 4096) with 8192 in H2. rewrite H1, H2.
  repeat (rewrite load32_cell; [|zlia|lia || by vm_compute]). rewrite H0.
  clear H0 H1 H2.
  repeat match goal with |- context [if ?x =? ?y then _ else _] => destruct (Z.eqb_spec x y); try lia end; by vm_compute.
Qed.

Definition boot_levels : levels := fun f => if f =? b then 4%nat else if f =? b + 1 then 3%nat else if f =? b + 2 then 3%nat else O.

Lemma boot_ent t i : 0 <= t <= 2 -> 0 <= i < 512 -> ent (window (boot_tables (b * 4096) m0)) (b + t) i = boot_entry (b * 4096) t i.
Proof.
  intros Ht Hi. rewrite ent_window, load64_split. unfold PAGE_SIZE.
  replace ((b + t) * 4096 + 8 * i) with (b * 4096 + 4 * (1024 * t + 2 * i)) by lia.
  replace (b * 4096 + 4 * (1024 * t + 2 * i) + 4) with (b * 4096 + 4 * (1024 * t + 2 * i + 1)) by lia.
  rewrite !tables_word by lia. unfold boot_entry.
  assert (t = 0 \/ t = 1 \/ t = 2) as [->|[->| ->]] by lia; cbn [Z.eqb Pos.eqb];
    repeat match goal with
    | |- context [if ?x =? ?y then _ else _] => destruct (Z.eqb_spec x y); try lia
    | |- context [if ?x <? ?y then _ else _] => destruct (Z.ltb_spec x y); try lia
    end.
Qed.

Lemma ptr_facts f : 0 <= f < 2 ^ 40 -> present (f * 4096 + 3) = true /\ nxt (f * 4096 + 3) = f.
Proof.
  intros Hf. change 4096 with (2 ^ 12). rewrite <-(lor_add 12 f 3) by lia. split.
  - rewrite present_bit, Z.lor_spec. apply orb_true_r.
  - rewrite nxt_lor. change (2 ^ 12) with PAGE_SIZE. rewrite nxt_frame by lia. apply Z.lor_0_r.
Qed.

(** The links of the PML4, and that the other tables hold only large pages. *)
Lemma boot_link4 i : 0 <= i < 512 -> let e := boot_entry (b * 4096) 0 i in
  (i = 0 /\ present e = true /\ nxt e = b + 1) \/ (i = 511 /\ present e = true /\ nxt e = b + 2) \/
  (i <> 0 /\ i <> 511 /\ present e = false).
Proof.
  intros Hi e. unfold e, boot_entry. cbn [Z.eqb Pos.eqb]. destruct (Z.eqb_spec i 0); [left|right; destruct (Z.eqb_spec i 511); [left|right]].
  - replace (b * 4096 + 4096 + 3) with ((b + 1) * 4096 + 3) by lia. split; [done|]. apply ptr_facts. lia.
  - replace (b * 4096 + 8192 + 3) with ((b + 2) * 4096 + 3) by lia. split; [done|]. apply ptr_facts. lia.
  - done.
Qed.
Lemma boot_link3 t i : t = 1 \/ t = 2 -> 0 <= i -> link 3 (boot_entry (b * 4096) t i) = false.
Proof.
  intros [->| ->] Hi; unfold boot_entry; cbn [Z.eqb Pos.eqb].
  - destruct (Z.ltb_spec i 4); [|done]. by assert (i = 0 \/ i = 1 \/ i = 2 \/ i = 3) as [->|[->|[->| ->]]] by lia.
  - by destruct (i =? 508), (i =? 509), (i =? 510), (i =? 511).
Qed.

Lemma boot_links f i : let m := window (boot_tables (b * 4096) m0) in
  (2 <= boot_levels f)%nat -> 0 <= i < 512 -> link (boot_levels f) (ent m f i) = true ->
  f = b /\ ((i = 0 /\ nxt (ent m f i) = b + 1) \/ (i = 511 /\ nxt (ent m f i) = b + 2)).
Proof.
  intros m. unfold boot_levels. destruct (Z.eqb_spec f b) as [->|Hne]; intros Hf Hi.
  - pose proof (boot_ent 0 i ltac:(lia) Hi) as E. rewrite Z.add_0_r in E. fold m in E. rewrite E.
    destruct (boot_link4 i Hi) as [(-> & _ & ->)|[(-> & _ & ->)|(_ & _ & Hp)]]; [by auto|by auto|].
    unfold link. by rewrite Hp.
  - assert (f = b + 1 \/ f = b + 2) as [->| ->] by (revert Hf; repeat case_ltb; lia); revert Hf; repeat case_ltb; try lia; intros _; unfold m; by rewrite boot_ent, boot_link3 by lia.
Qed.

Lemma boot_tables_ok : bytes_ok m0 -> bytes_ok (boot_tables (b * 4096) m0).
Proof.
  intros Hm. unfold boot_tables. cbv zeta. cbn [fill_id]. pose proof (rep_stosd_ok (Z.to_nat (4096 * 3 / 4)) m0 (b * 4096) 0 Hm) as Hz.
  set (z := rep_stosd _ _ _ _) in *. clearbody z. by repeat apply store_bytes_ok.
Qed.

Lemma boot_wf : bytes_ok m0 -> pt_wf (window (boot_tables (b * 4096) m0)) boot_levels.
Proof.
  intros Hm. split.
  - intros a. by apply boot_tables_ok.
  - intros f. unfold boot_levels, WINDOW. repeat case_ltb; lia.
  - intros f i Hf Hi Hl. destruct (boot_links f i Hf Hi Hl) as [-> [[-> ->]|[-> ->]]]; unfold boot_levels; repeat case_ltb; lia.
  - intros f i g j Hf Hg Hi Hj Hl Hl'. rewrite <-Hg in Hl'. destruct (boot_links f i Hf Hi Hl) as [-> Hi'].
    destruct (boot_links g j ltac:(lia) Hj Hl') as [-> Hj']. intros E. split; [lia|by left].
Qed.

(** *** The translation *)

Lemma boot_walk va : 0 <= va < 2 ^ 64 -> let m := window (boot_tables (b * 4096) m0) in
  walkn 4 m b va =
    if idx 4 va =? 0 then if idx 3 va <? 4 then Some (3%nat, b + 1, idx 3 va) else None
    else if idx 4 va =? 511 then if 508 <=? idx 3 va then Some (3%nat, b + 2, idx 3 va) else None
    else None.
Proof.
  intros Hva m. rewrite walkn_S. cbv zeta. pose proof (idx_range 4 va) as H4. pose proof (idx_range 3 va) as H3.
  pose proof (boot_ent 0 (idx 4 va) ltac:(lia) H4) as E. rewrite Z.add_0_r in E. fold m in E. rewrite E.
  assert (forall t, t = 1 \/ t = 2 -> walkn 3 m (b + t) va = if present (boot_entry (b * 4096) t (idx 3 va)) then Some (3%nat, b + t, idx 3 va) else None) as Hw.
  { intros t Ht. rewrite walkn_S. cbv zeta. unfold m. rewrite boot_ent, boot_link3 by lia. by destruct (present _). }
  destruct (boot_link4 (idx 4 va) H4) as [(E4 & Hp & Hn)|[(E4 & Hp & Hn)|(Hn0 & Hn5 & Hp)]].
  - rewrite E4 in *. unfold link. rewrite Hp, Hn. cbn [negb andb orb Nat.eqb]. rewrite Hw by auto. unfold boot_entry. cbn [Z.eqb Pos.eqb].
    destruct (Z.ltb_spec (idx 3 va) 4); [|done]. by assert (idx 3 va = 0 \/ idx 3 va = 1 \/ idx 3 va = 2 \/ idx 3 va = 3) as [->|[->|[->| ->]]] by lia.
  - rewrite E4 in *. unfold link. rewrite Hp, Hn. cbn [negb andb orb Nat.eqb]. rewrite Hw by auto. unfold boot_entry. cbn [Z.eqb Pos.eqb].
    destruct (Z.leb_spec 508 (idx 3 va)).
    + by assert (idx 3 va = 508 \/ idx 3 va = 509 \/ idx 3 va = 510 \/ idx 3 va = 511) as [->|[->|[->| ->]]] by lia.
    + by rewrite !(proj2 (Z.eqb_neq (idx 3 va) _)) by lia.
  - rewrite Hp. by rewrite !(proj2 (Z.eqb_neq (idx 4 va) _)) by lia.
Qed.
End tables.

(** What an address is mapped to: the walk ends in a present entry. *)
Definition translate (m : mem) (root va : Z) : option Z :=
  match walkn 4 m root va with
  | Some (l, f, i) => if present (ent m f i) then Some (slot_phys m va (Some (l, f, i))) else None
  | None => None
  end.
Definition canonical (va : Z) : Prop := 0 <= va < 2 ^ 47 \/ 2 ^ 64 - 2 ^ 47 <= va < 2 ^ 64.
(** The map the entry code means to set up: the first 4 GB at their own addresses, and
    again in the last 4 GB, rotated so that physical address 0 is at [KERNEL_VMA]. *)
Definition boot_map (va : Z) : option Z :=
  if va <? 2 ^ 32 then Some va
  else if 2 ^ 64 - 2 ^ 32 <=? va then Some ((va - KERNEL_VMA) mod 2 ^ 32)
  else None.

Lemma idx_eq l va : idx l va = (va / 2 ^ (3 + 9 * Z.of_nat l)) mod 512.
Proof. unfold idx. change 0x1FF with (Z.ones 9). rewrite Z.land_ones, Z.shiftr_div_pow2 by lia. done. Qed.

(** A 1 GB page. *)
Lemma slot_1g m va f i c : ent m f i = c * 2 ^ 30 + 0x83 -> 0 <= c < 4 -> 0 <= va ->
  present (ent m f i) = true /\ slot_phys m va (Some (3%nat, f, i)) = c * 2 ^ 30 + va mod 2 ^ 30.
Proof.
  intros E Hc Hva. assert (present (ent m f i) = true /\ ent m f i &b 0x000FFFFFC0000000 = c * 2 ^ 30) as [Hp He].
  { rewrite E. by assert (c = 0 \/ c = 1 \/ c = 2 \/ c = 3) as [->|[->|[->| ->]]] by lia. }
  split; [done|]. unfold slot_phys. rewrite Hp, He. cbn [negb]. change 0x3FFFFFFF with (Z.ones 30). rewrite Z.land_ones by lia.
  apply lor_add; [lia|lia|]. apply Z.mod_pos_bound. lia.
Qed.

Lemma boot_translate b m0 va : 0 < b /\ (b + 3) * 4096 <= 2 ^ 31 -> canonical va ->
  translate (window (boot_tables (b * 4096) m0)) b va = boot_map va.
Proof.
  intros Hb Hva. assert (0 <= va < 2 ^ 64) as Hr by (unfold canonical in Hva; lia).
  unfold translate. rewrite (boot_walk b m0 Hb va Hr). pose proof (idx_range 3 va) as H3. pose proof (idx_range 4 va) as H4.
  assert (forall t c, t = 1 \/ t = 2 -> 0 <= c < 4 -> boot_entry (b * 4096) t (idx 3 va) = c * 2 ^ 30 + 0x83 ->
    (if present (ent (window (boot_tables (b * 4096) m0)) (b + t) (idx 3 va)) then
       Some (slot_phys (window (boot_tables (b * 4096) m0)) va (Some (3%nat, b + t, idx 3 va))) else None) = Some (c * 2 ^ 30 + va mod 2 ^ 30)) as Hs.
  { intros t c Ht Hc E. rewrite <-(boot_ent b m0 Hb t) in E by lia. destruct (slot_1g _ va _ _ c E Hc ltac:(lia)) as [-> ->]. done. }
  assert (idx 4 va = (va / 2 ^ 39) mod 512) as E4 by apply (idx_eq 4). assert (idx 3 va = (va / 2 ^ 30) mod 512) as E3 by apply (idx_eq 3).
  unfold boot_map. destruct (Z.eqb_spec (idx 4 va) 0) as [Z4|N4].
  - assert (va < 2 ^ 39) as Hlow by (unfold canonical in Hva; zlia).
    destruct (Z.ltb_spec (idx 3 va) 4), (Z.ltb_spec va (2 ^ 32)); try zlia.
    + rewrite (Hs 1 (idx 3 va)); [f_equal; zlia|auto|lia|]. unfold boot_entry. cbn [Z.eqb Pos.eqb]. by rewrite (proj2 (Z.ltb_lt _ _)).
    + by rewrite (proj2 (Z.leb_gt _ _)) by lia.
  - destruct (Z.ltb_spec va (2 ^ 32)); [exfalso; zlia|]. destruct (Z.eqb_spec (idx 4 va) 511) as [Z5|N5].
    + assert (2 ^ 64 - 2 ^ 39 <= va) as Hhi by (unfold canonical in Hva; zlia).
      destruct (Z.leb_spec 508 (idx 3 va)), (Z.leb_spec (2 ^ 64 - 2 ^ 32) va); try zlia; [|done].
      rewrite (Hs 2 ((idx 3 va - 510) mod 4)); [unfold KERNEL_VMA; f_equal; zlia|auto|zlia|].
      unfold boot_entry. by assert (idx 3 va = 508 \/ idx 3 va = 509 \/ idx 3 va = 510 \/ idx 3 va = 511) as [->|[->|[->| ->]]] by lia.
    + destruct (Z.leb_spec (2 ^ 64 - 2 ^ 32) va); [exfalso; zlia|done].
Qed.

Lemma paging_start pml4 mb2_var top ebx c : paging (start pml4 mb2_var top ebx c) = true.
Proof.
  unfold paging, start. cbn [b_cr0 b_cr3 b_cr4 b_efer].
  assert (forall x y n, 0 <= n -> has y (1 <<b n) = true -> has (x |b y) (1 <<b n) = true) as H.
  { intros x y n Hn Hy. rewrite has_shl in * by done. rewrite Z.lor_spec, Hy. apply orb_true_r. }
  unfold CR0_PG, CR0_PE, CR4_PAE, EFER_LME, EFER_NXE. rewrite !H; done || lia || by vm_compute.
Qed.

(** The state the entry code leaves. *)
Lemma start_facts b mb2_var top ebx c : 0 < b /\ (b + 3) * 4096 <= 2 ^ 31 -> bytes_ok (b_mem c) -> 0 <= ebx < 2 ^ 32 ->
  mb2_var + 4 <= b * 4096 \/ (b + 3) * 4096 <= mb2_var ->
  let r := start (b * 4096) mb2_var top ebx c in
  paging r = true /\ b_cr3 r = b * 4096 /\ b_rdi r = ebx /\ b_rsp r = top /\ pt_wf (window (b_mem r)) (boot_levels b) /\
  (forall va, canonical va -> translate (window (b_mem r)) b va = boot_map va) /\
  (forall p, 0 <= p < 2 ^ 31 -> boot_map (PHYS_TO_VIRT p) = Some p) /\
  (forall a, ~ (b * 4096 <= a < (b + 3) * 4096) -> ~ (mb2_var <= a < mb2_var + 4) -> b_mem r a = b_mem c a).
Proof.
  intros Hb Hm He Hv r. split; [apply paging_start|]. split; [done|].
  assert (forall m a, ~ (b * 4096 <= a < (b + 3) * 4096) -> boot_tables (b * 4096) m a = m a) as Hout.
  { intros m a Ha. unfold boot_tables. cbv zeta. cbn [fill_id]. rewrite !store_other by lia. apply rep_stosd_out.
    change (4 * Z.of_nat (Z.to_nat (4096 * 3 / 4))) with 12288. lia. }
  split.
  { change (load32 (boot_tables (b * 4096) (store32 (b_mem c) mb2_var ebx)) mb2_var = ebx).
    rewrite (load_ext 4 _ (store32 (b_mem c) mb2_var ebx)) by (intros x Hx; apply Hout; lia).
    rewrite load_store_eq. by apply Z.mod_small. }
  split; [done|]. split; [apply boot_wf; [done|by apply store_bytes_ok]|]. split; [intros va Hva; by apply boot_translate|]. split.
  - intros p Hp. unfold PHYS_TO_VIRT, boot_map, KERNEL_VMA. rewrite u64_small by lia.
    rewrite (proj2 (Z.ltb_ge _ _)), (proj2 (Z.leb_le _ _)) by lia. f_equal. zlia.
  - intros a Ha Ha'. change (boot_tables (b * 4096) (store32 (b_mem c) mb2_var ebx) a = b_mem c a).
    rewrite Hout by done. apply store_other. lia.
Qed.
(** C21. The entry code turns on four-level paging with tables that are well-formed, are
    the ones the virtual memory manager walks, and map the first 4 GB of physical memory
    at their own addresses and again at the top of the address space, so that every
    physical address below 2 GB is at [PHYS_TO_VIRT] of it; nothing else is mapped. It passes the
    boot loader's pointer to [kernel_main] and touches only its page tables and the
    variable that holds the pointer. *)
Theorem boot_paging b mb2_var top ebx c : 0 < b /\ (b + 3) * 4096 <= 2 ^ 31 -> bytes_ok (b_mem c) -> 0 <= ebx < 2 ^ 32 ->
  mb2_var + 4 <= b * 4096 \/ (b + 3) * 4096 <= mb2_var ->
  let r := start (b * 4096) mb2_var top ebx c in
  paging r = true /\ b_cr3 r = b * 4096 /\ b_rdi r = ebx /\ b_rsp r = top /\ pt_wf (window (b_mem r)) (boot_levels b) /\
  (forall va, canonical va -> translate (window (b_mem r)) b va = boot_map va) /\
  (forall p, 0 <= p < 2 ^ 31 -> boot_map (PHYS_TO_VIRT p) = Some p) /\
  (forall a, ~ (b * 4096 <= a < (b + 3) * 4096) -> ~ (mb2_var <= a < mb2_var + 4) -> b_mem r a = b_mem c a).
Proof. apply start_facts. Qed.
Lemma boot_paging_witness : let r := start (0x110 * 4096) 0x10F000 0xFFFFFFFF80204000 0x9500 (mk_boot 0x11 0 0 0 0 0 (fun _ => 0)) in
  paging r = true /\ b_rdi r = 0x9500 /\ translate (window (b_mem r)) 0x110 0xFFFFFFFF80123456 = Some 0x123456.
Proof.
  destruct (boot_paging 0x110 0x10F000 0xFFFFFFFF80204000 0x9500 (mk_boot 0x11 0 0 0 0 0 (fun _ => 0)) ltac:(lia)
    ltac:(intros a; cbn; lia) ltac:(lia) ltac:(lia)) as (H1 & _ & H3 & _ & _ & H6 & _).
  split; [exact H1|]. split; [exact H3|]. rewrite H6; [reflexivity|]. right. lia.
Defined.

(** ** The first kernel state *)

(** [kernel_main] up to the heap: [pmm_set_mb2], then [pmm_init], [vmm_init] and
    [heap_init] in the order of the module table; the initialisers between them do not
    touch this state. *)
Definition kernel_setup (fuel : nat) (kernel_end bm_addr : Z) (c : boot_cpu) (st0 : pmm_state) : option (hst pmm_state) :=
  let st := pmm_set_mb2 st0 (b_rdi c) in
  match pmm_init fuel (b_mem c) kernel_end bm_addr st with
  | None => None
  | Some (_, st) =>
      let '(_, k) := vmm_init (mk_kst (window (b_mem c)) st (b_cr3 c) 0 0 []) in
      let '(_, h) := heap_init (mk_hst k []) in
      Some h
  end.

(** A well-formed multiboot2 structure at [p] whose available memory is below 2 GB. *)
Record mb2_ok (m : mem) (p : Z) : Prop := {
  mo_ptr : 0 < p < 2 ^ 32;
  mo_wf : mb2_wf m (u64 (p + load32 m p)) (u64 (p + 8));
  mo_low f : in_avail m (u64 (p + load32 m p)) (u64 (p + 8)) f -> f < WINDOW
}.
(** The linker places the page tables inside the kernel image, the image below 2 GB. *)
Record image_ok (b kernel_end : Z) : Prop := {
  io_start : 0x100 <= b;
  io_end : KERNEL_VMA + (b + 3) * 4096 <= kernel_end;
  io_low : kernel_end <= KERNEL_VMA + 2 ^ 31
}.

(** C16. The kernel starts in a state that satisfies its invariants: when the entry code has
    run, the memory map is well-formed and names only memory below 2 GB, and
    the page tables lie in the kernel image, the initialisers of the frame allocator, paging and the
    heap return and leave well-formed page tables in frames that are never handed
    out, an empty well-formed heap, and free only frames that end in available
    memory, outside the kernel image. *)
Theorem kernel_setup_inv b mb2_var top ebx c kernel_end bm_addr st0 fuel :
  0 < b /\ (b + 3) * 4096 <= 2 ^ 31 -> bytes_ok (b_mem c) -> mb2_var + 4 <= b * 4096 \/ (b + 3) * 4096 <= mb2_var ->
  image_ok b kernel_end -> let r := start (b * 4096) mb2_var top ebx c in mb2_ok (b_mem r) ebx -> load32 (b_mem r) ebx <= Z.of_nat fuel ->
  exists h, kernel_setup fuel kernel_end bm_addr r st0 = Some h /\ vm_inv (hk h) (boot_levels b) /\
    pml4_phys (hk h) = b * PAGE_SIZE /\ cr3 (hk h) = b * PAGE_SIZE /\ heap_inv h (fun _ => []) (fun _ => []) (fun _ => []) /\
    forall f, 0 <= f < PMM_MAX_FRAMES -> fa_used (fa (hk h)) f = false -> ~ reserved kernel_end bm_addr f /\
      in_avail (b_mem r) (u64 (ebx + load32 (b_mem r) ebx)) (u64 (ebx + 8)) f.
Proof.
  intros Hb Hm Hv [Hi1 Hi2 Hi3] r [Hp Hwf Hlow] Hfuel.
  destruct (start_facts b mb2_var top ebx c Hb Hm ltac:(lia) Hv) as (_ & Hcr3 & Hrdi & _ & Hpt & _ & _ & _). fold r in Hcr3, Hrdi, Hpt.
  assert (bytes_ok (b_mem r)) as Hr by (apply boot_tables_ok; by apply store_bytes_ok).
  destruct (pmm_init_frames fuel (b_mem r) kernel_end bm_addr (pmm_set_mb2 st0 ebx)) as (st & E & Hok & H0 & Hfree); cbn [pmm_set_mb2 mb2_info_phys]; try done; [lia|lia|].
  cbn [pmm_set_mb2 mb2_info_phys] in Hfree.
  assert (forall f, WINDOW <= f < PMM_MAX_FRAMES -> fa_used st f = true) as Hwin.
  { intros f Hf. unfold WINDOW in Hf. destruct (fa_used st f) eqn:Hu; [done|].
    destruct (Hfree f ltac:(lia) Hu) as [Hav _]. apply Hlow in Hav. unfold WINDOW in Hav. lia. }
  eexists. split; [unfold kernel_setup; rewrite Hrdi, E; reflexivity|]. cbn [hk pml4_phys cr3 fa read_cr3].
  rewrite Hcr3. change (b * 4096) with (b * PAGE_SIZE). split; [|split; [|split; [|split]]].
  - split; [done|done| |done]. intros f Hf. destruct (fa_used st f) eqn:Hu; [exact Hu|]. exfalso.
    assert (b <= f <= b + 2) as Hfb by (revert Hf; unfold boot_levels; repeat case_ltb; lia).
    destruct (Hfree f ltac:(change PMM_MAX_FRAMES with 1048576; lia) Hu) as [_ Hres]. apply Hres. right. left.
    unfold clamp_frames, FRAME_SIZE. change PMM_MAX_FRAMES with 1048576. unfold KERNEL_VMA in *. rewrite (u64_small (kernel_end - _)) by lia. rewrite u64_small by lia. zlia.
  - rewrite addr_mask, nxt_frame by lia. done.
  - done.
  - refine (heap_init_inv (mk_hst _ []) _ _ _); [intros a; apply Hr|done|exact Hwin].
  - intros f Hf Hu. destruct (Hfree f Hf Hu). done.
Qed.

(** The memory map of Pmm.v, and a kernel image from 1 MB to 2 MB. *)
Definition demo_boot_cpu : boot_cpu := mk_boot 0x11 0 0 0 0 0 demo_mb2.

Section demo.
Context (m : mem).
Hypothesis Hm : forall a, 0x1000 <= a < 0x2000 -> m a = demo_mb2 a.
Lemma demo_load n a : 0x1000 <= a -> a + Z.of_nat n <= 0x2000 -> load n m a = load n demo_mb2 a.
Proof. intros H1 H2. apply load_ext. intros x Hx. apply Hm. lia. Qed.
Lemma demo_reach t : tag_reach m 0x1038 0x1008 t -> t = 0x1008 \/ t = 0x1030.
Proof.
  induction 1 as [|t _ [->| ->] Hlt Hne]; [by left|right; rewrite demo_load by lia; by vm_compute|].
  exfalso. apply Hne. rewrite demo_load by lia. by vm_compute.
Qed.
Lemma demo_entry e : entry_reach m 0x1008 e -> e = 0x1018 \/ e = 0x1030.
Proof.
  induction 1 as [|e _ [->| ->] Hlt]; [by left|right; rewrite demo_load by lia; by vm_compute|].
  rewrite demo_load in Hlt by lia. by vm_compute in Hlt.
Qed.
Lemma demo_map_ok : mb2_ok m 0x1000.
Proof.
  split; [lia| |]; rewrite demo_load by lia; change (u64 (4096 + load32 demo_mb2 4096)) with 0x1038; change (u64 (4096 + 8)) with 0x1008.
  - split; [lia|]. intros t [->| ->]%demo_reach Hlt; rewrite !demo_load by lia; [|intros Hne; exfalso; by apply Hne].
    intros _. change (load32 demo_mb2 (0x1008 + 4)) with 40. change (load32 demo_mb2 (0x1008 + 8)) with 24. split_and!; lia.
  - intros f (base & len & (t & e & [->| ->]%demo_reach & Hmm & He & _ & Hlt & _ & -> & -> & _) & Hf);
      rewrite demo_load in Hmm by lia; [|by vm_compute in Hmm].
    apply demo_entry in He as [->| ->]; [|rewrite demo_load in Hlt by lia; by vm_compute in Hlt].
    rewrite !(demo_load 8) in Hf by lia. change (load64 demo_mb2 0x1018) with 0x200000 in Hf. change (load64 demo_mb2 (0x1018 + 8)) with 0x3000 in Hf.
    unfold WINDOW, FRAME_SIZE in *. lia.
Qed.
End demo.

Lemma kernel_setup_inv_witness : exists h,
  kernel_setup 100 (KERNEL_VMA + 0x200000) (KERNEL_VMA + 0x120000) (start (0x110 * 4096) 0x10F000 0xFFFFFFFF80204000 0x1000 demo_boot_cpu) demo_st = Some h /\
  vm_inv (hk h) (boot_levels 0x110) /\ pml4_phys (hk h) = 0x110000.
Proof.
  destruct (start_facts 0x110 0x10F000 0xFFFFFFFF80204000 0x1000 demo_boot_cpu ltac:(lia) demo_mb2_ok ltac:(lia) ltac:(lia)) as (_ & _ & _ & _ & _ & _ & _ & Hout).
  destruct (kernel_setup_inv 0x110 0x10F000 0xFFFFFFFF80204000 0x1000 demo_boot_cpu (KERNEL_VMA + 0x200000) (KERNEL_VMA + 0x120000) demo_st 100)
    as (h & E & Hv & Hp & _); [lia|exact demo_mb2_ok|lia|split; unfold KERNEL_VMA; lia| | |].
  - apply demo_map_ok. intros a Ha. apply Hout; lia.
  - rewrite (demo_load _ (fun a Ha => Hout a ltac:(lia) ltac:(lia))) by lia. by vm_compute.
  - exists h. split; [exact E|]. split; [exact Hv|exact Hp].
Defined.
