(* ===== verification/Smp.v ===== *)
(** * Spinlocks and multiprocessor start-up

    [Spinlock] models src/smp/spinlock.h on the memory model of the processor: each
    processor has a first-in first-out store buffer, a load sees the own buffer first,
    and a locked instruction waits for the own buffer to drain (x86-TSO, SDM vol. 3A,
    9.2).  The theorems show that clients of the lock see a sequentially consistent
    memory.

    [Smp] models src/smp/smp.c: the start-up code of the boot processor, and the code for
    further processors, which the kernel contains and does not run.  The trampoline is
    copied to physical address 0x8000 through the identity map of the entry code
    (Boot.v), which is frame 8 of the memory the other components use.  [klog] lines
    are left out. *)

From S2P Require Import Prelude Mem Pmm Vmm.

Module Spinlock.
(** ** The machine *)

(** Shared memory by location, and the store buffer of each processor, oldest first. *)
Record tso := mk_tso { t_mem : Z -> Z; t_buf : nat -> list (Z * Z) }.

Definition upd_loc (m : Z -> Z) (x v : Z) : Z -> Z := fun y => if y =? x then v else m y.
Definition upd_buf (t : tso) (c : nat) (b : list (Z * Z)) : tso :=
  mk_tso (t_mem t) (fun d => if (d =? c)%nat then b else t_buf t d).

(** Memory after the stores of a buffer. *)
Definition flush (b : list (Z * Z)) (m : Z -> Z) : Z -> Z := fold_left (fun m '(x, v) => upd_loc m x v) b m.

(** [mov]: a load sees the newest buffered store of the own processor. *)
Definition load (t : tso) (c : nat) (x : Z) : Z := flush (t_buf t c) (t_mem t) x.
Definition store (t : tso) (c : nat) (x v : Z) : tso := upd_buf t c (t_buf t c ++ [(x, v)]).

(** The oldest buffered store reaches memory. *)
Definition drain (t : tso) (c : nat) : option tso :=
  match t_buf t c with
  | [] => None
  | (x, v) :: b => Some (upd_buf (mk_tso (upd_loc (t_mem t) x v) (t_buf t)) c b)
  end.

(** [xchgl]: implicitly locked, so the own buffer is empty; the old value of memory. *)
Definition xchgl (t : tso) (c : nat) (x v : Z) : option (Z * tso) :=
  match t_buf t c with
  | [] => Some (t_mem t x, mk_tso (upd_loc (t_mem t) x v) (t_buf t))
  | _ => None
  end.

(** ** The lock *)

(** One round of the loop of [spin_lock], and [spin_trylock]: [true] when the lock was
    taken. *)
Definition spin_trylock (l : Z) (t : tso) (c : nat) : option (bool * tso) :=
  match xchgl t c l 1 with
  | Some (old, t) => Some (old =? 0, t)
  | None => None
  end.

Definition spin_unlock (l : Z) (t : tso) (c : nat) : tso := store t c l 0.

(** ** Its clients

    A processor is outside, in the loop of [spin_lock], or holds the lock; it touches
    the protected locations only while it holds it. *)

Inductive place := Outside | Spinning | Inside.
#[global] Instance place_eq_dec : EqDecision place.
Proof. solve_decision. Defined.

Record state := mk_state { s_tso : tso; s_at : nat -> place }.
Definition at_set (s : state) (t : tso) (c : nat) (p : place) : state :=
  mk_state t (fun d => if (d =? c)%nat then p else s_at s d).

Inductive event :=
  | Acquire (c : nat) | Release (c : nat) | Read (c : nat) (x v : Z) | Write (c : nat) (x v : Z).

(** A step, with the event the client sees if there is one. *)
Inductive step (l : Z) : state -> option event -> state -> Prop :=
  | s_spin s c : s_at s c = Outside -> step l s None (at_set s (s_tso s) c Spinning)
  | s_lock s c t : s_at s c = Spinning -> spin_trylock l (s_tso s) c = Some (true, t) ->
      step l s (Some (Acquire c)) (at_set s t c Inside)
  | s_retry s c t : s_at s c = Spinning -> spin_trylock l (s_tso s) c = Some (false, t) ->
      step l s None (at_set s t c Spinning)
  | s_try s c t b : s_at s c = Outside -> spin_trylock l (s_tso s) c = Some (b, t) ->
      step l s (if b then Some (Acquire c) else None) (at_set s t c (if b then Inside else Outside))
  | s_read s c x : s_at s c = Inside -> x <> l -> step l s (Some (Read c x (load (s_tso s) c x))) s
  | s_write s c x v : s_at s c = Inside -> x <> l ->
      step l s (Some (Write c x v)) (at_set s (store (s_tso s) c x v) c Inside)
  | s_unlock s c : s_at s c = Inside ->
      step l s (Some (Release c)) (at_set s (spin_unlock l (s_tso s) c) c Outside)
  | s_drain s c t : drain (s_tso s) c = Some t -> step l s None (mk_state t (s_at s)).

Inductive run (l : Z) : state -> list event -> state -> Prop :=
  | run_nil s : run l s [] s
  | run_tau s s1 s2 tr : run l s tr s1 -> step l s1 None s2 -> run l s tr s2
  | run_event s s1 s2 tr e : run l s tr s1 -> step l s1 (Some e) s2 -> run l s (tr ++ [e]) s2.

(** The lock is free ([SPINLOCK_INIT]), nobody is inside, the buffers are empty. *)
Definition start (m : Z -> Z) : state := mk_state (mk_tso m (fun _ => [])) (fun _ => Outside).

(** ** The specification

    One owner at a time, one memory, every access acts on it at once. *)
Record spec := mk_spec { owner : option nat; sp_mem : Z -> Z }.

Inductive spec_step : spec -> event -> spec -> Prop :=
  | sp_acquire m c : spec_step (mk_spec None m) (Acquire c) (mk_spec (Some c) m)
  | sp_release m c : spec_step (mk_spec (Some c) m) (Release c) (mk_spec None m)
  | sp_read m c x : spec_step (mk_spec (Some c) m) (Read c x (m x)) (mk_spec (Some c) m)
  | sp_write m c x v : spec_step (mk_spec (Some c) m) (Write c x v) (mk_spec (Some c) (upd_loc m x v)).

Inductive spec_run : spec -> list event -> spec -> Prop :=
  | sr_nil p : spec_run p [] p
  | sr_event p p1 p2 tr e : spec_run p tr p1 -> spec_step p1 e p2 -> spec_run p (tr ++ [e]) p2.

(** ** Simulation *)

Definition no_lock (l : Z) (b : list (Z * Z)) : Prop := Forall (fun '(x, _) => x <> l) b.

Lemma flush_app b b' m : flush (b ++ b') m = flush b' (flush b m).
Proof. apply fold_left_app. Qed.

Lemma flush_lock l b m : no_lock l b -> flush b m l = m l.
Proof.
  unfold flush. revert m. induction b as [|[x v] b IH]; intros m H; [done|]. apply Forall_cons in H as [Hx H].
  cbn. rewrite IH by done. unfold upd_loc. by rewrite (proj2 (Z.eqb_neq l x)).
Qed.

(** The lock is free; held by [c]; or [c] has released it and the store has not reached
    memory yet. *)
Inductive phase (l : Z) (s : state) : option nat -> (Z -> Z) -> Prop :=
  | ph_free : t_mem (s_tso s) l = 0 -> (forall c, s_at s c <> Inside) -> (forall c, t_buf (s_tso s) c = []) ->
      phase l s None (t_mem (s_tso s))
  | ph_held c : t_mem (s_tso s) l = 1 -> (forall d, s_at s d = Inside <-> d = c) ->
      (forall d, d <> c -> t_buf (s_tso s) d = []) -> no_lock l (t_buf (s_tso s) c) ->
      phase l s (Some c) (flush (t_buf (s_tso s) c) (t_mem (s_tso s)))
  | ph_leaving c b : t_mem (s_tso s) l = 1 -> (forall d, s_at s d <> Inside) ->
      (forall d, d <> c -> t_buf (s_tso s) d = []) -> t_buf (s_tso s) c = b ++ [(l, 0)] -> no_lock l b ->
      phase l s None (flush b (t_mem (s_tso s))).

(** The specification state: memory agrees outside the lock. *)
Definition sim (l : Z) (s : state) (p : spec) : Prop :=
  exists m, phase l s (owner p) m /\ forall x, x <> l -> sp_mem p x = m x.
Lemma flush_ext b m m' x : (forall y, m' y = m y) -> flush b m' x = flush b m x.
Proof.
  unfold flush. revert m m'. induction b as [|[y v] b IH]; intros m m' H; [apply H|]. cbn. apply IH.
  intros z. unfold upd_loc. by rewrite H.
Qed.

Lemma upd_loc_ne m x v y : y <> x -> upd_loc m x v y = m y.
Proof. intros H. unfold upd_loc. by rewrite (proj2 (Z.eqb_neq y x)). Qed.
Lemma upd_loc_eq m x v : upd_loc m x v x = v.
Proof. unfold upd_loc. by rewrite Z.eqb_refl. Qed.
Lemma upd_loc_same m x y : upd_loc m x (m x) y = m y.
Proof. unfold upd_loc. by destruct (Z.eqb_spec y x) as [->|]. Qed.

Lemma at_set_spec s t c p d : s_at (at_set s t c p) d = if decide (d = c) then p else s_at s d.
Proof. cbn. destruct (Nat.eqb_spec d c); by destruct (decide (d = c)). Qed.
Lemma upd_buf_spec t c b d : t_buf (upd_buf t c b) d = if decide (d = c) then b else t_buf t d.
Proof. cbn. destruct (Nat.eqb_spec d c); by destruct (decide (d = c)). Qed.

Lemma trylock_inv l t c b t' : spin_trylock l t c = Some (b, t') ->
  t_buf t c = [] /\ b = (t_mem t l =? 0) /\ t' = mk_tso (upd_loc (t_mem t) l 1) (t_buf t).
Proof. unfold spin_trylock, xchgl. destruct (t_buf t c); [|done]. by intros [= <- <-]. Qed.

Ltac places := intros; rewrite ?at_set_spec, ?upd_buf_spec in *; repeat case_decide; simplify_eq; try done; naive_solver.

(** Moving about outside the critical section changes nothing. *)
Lemma sim_move l s p c q : sim l s p -> s_at s c <> Inside -> q <> Inside -> sim l (at_set s (s_tso s) c q) p.
Proof.
  intros (m & Hph & Hm) Hc Hq. destruct p as [o pm]. cbn [owner sp_mem] in *. exists m. split; [|done].
  destruct Hph as [H1 H2 H3|c' H1 H2 H3 H4|c' b H1 H2 H3 H4 H5].
  - apply (ph_free l (at_set s (s_tso s) c q)); try done. places.
  - apply (ph_held l (at_set s (s_tso s) c q)); try done. places.
  - by apply (ph_leaving l (at_set s (s_tso s) c q) c' b); try done; places.
Qed.

(** A failed exchange stores the value that was there. *)
Lemma sim_fail l s p c t : sim l s p -> spin_trylock l (s_tso s) c = Some (false, t) -> sim l (mk_state t (s_at s)) p.
Proof.
  intros (m & Hph & Hm) Ht. apply trylock_inv in Ht as (_ & Hb & ->). symmetry in Hb. apply Z.eqb_neq in Hb.
  destruct p as [o pm]. cbn [owner sp_mem] in *. unfold sim. cbn [owner sp_mem].
  assert (forall b x, t_mem (s_tso s) l = 1 -> flush b (upd_loc (t_mem (s_tso s)) l 1) x = flush b (t_mem (s_tso s)) x) as Hfl.
  { intros b x H. apply flush_ext. intros y. rewrite <- H. apply upd_loc_same. }
  destruct Hph as [H1 H2 H3|c' H1 H2 H3 H4|c' b H1 H2 H3 H4 H5]; [done|..].
  - eexists. split; [apply ph_held; [apply upd_loc_eq|exact H2|done|done]|]. intros x Hx. cbn [s_tso t_buf t_mem]. by rewrite Hfl, Hm.
  - eexists. split; [apply (ph_leaving l _ c' b); [apply upd_loc_eq|exact H2|done|done|done]|].
    intros x Hx. cbn [s_tso t_mem]. by rewrite Hfl, Hm.
Qed.

(** A successful one takes the lock. *)
Lemma sim_acquire l s p c t : sim l s p -> s_at s c <> Inside -> spin_trylock l (s_tso s) c = Some (true, t) ->
  exists p', spec_step p (Acquire c) p' /\ sim l (at_set s t c Inside) p'.
Proof.
  intros (m & Hph & Hm) Hc Ht. apply trylock_inv in Ht as (_ & Hb & ->). symmetry in Hb. apply Z.eqb_eq in Hb.
  destruct p as [o pm]. cbn [owner sp_mem] in *.
  destruct Hph as [H1 H2 H3|c' H1 H2 H3 H4|c' b H1 H2 H3 H4 H5]; [|lia..].
  exists (mk_spec (Some c) pm). split; [apply sp_acquire|]. eexists. cbn [owner sp_mem]. split.
  - apply ph_held; [apply upd_loc_eq|places|intros d _; apply H3|]. cbn [s_tso at_set t_buf]. rewrite H3. constructor.
  - intros x Hx. cbn [s_tso at_set t_buf t_mem]. rewrite H3. cbn. rewrite upd_loc_ne by done. by apply Hm.
Qed.

Lemma sim_drain l s p c t : sim l s p -> drain (s_tso s) c = Some t -> sim l (mk_state t (s_at s)) p.
Proof.
  intros (m & Hph & Hm) Hd. unfold drain in Hd. destruct p as [o pm]. cbn [owner sp_mem] in *. unfold sim. cbn [owner sp_mem].
  destruct Hph as [H1 H2 H3|c' H1 H2 H3 H4|c' b H1 H2 H3 H4 H5].
  - by rewrite H3 in Hd.
  - destruct (decide (c = c')) as [->|Hne]; [|by rewrite H3 in Hd].
    destruct (t_buf (s_tso s) c') as [|[x v] b] eqn:Eb; [done|]. injection Hd as <-. apply Forall_cons in H4 as [Hx Hb].
    eexists. split; [apply ph_held with (c := c')|].
    + cbn. by rewrite upd_loc_ne.
    + exact H2.
    + intros d Hd. cbn [s_tso]. rewrite upd_buf_spec. destruct (decide (d = c')); [done|]. by apply H3.
    + cbn [s_tso]. rewrite upd_buf_spec. by rewrite decide_True.
    + intros y Hy. cbn [s_tso]. rewrite upd_buf_spec, decide_True by done. by rewrite Hm.
  - destruct (decide (c = c')) as [->|Hne]; [|by rewrite H3 in Hd]. rewrite H4 in Hd.
    destruct b as [|[x v] b]; cbn [app] in Hd; injection Hd as <-.
    + eexists. split; [apply ph_free|].
      * apply upd_loc_eq.
      * exact H2.
      * intros d. cbn [s_tso]. rewrite upd_buf_spec. destruct (decide (d = c')); [done|]. by apply H3.
      * intros y Hy. cbn. rewrite upd_loc_ne by done. by apply Hm.
    + apply Forall_cons in H5 as [Hx Hb]. eexists. split; [apply (ph_leaving l _ c' b)|].
      * cbn. by rewrite upd_loc_ne.
      * exact H2.
      * intros d Hd. cbn [s_tso]. rewrite upd_buf_spec. destruct (decide (d = c')); [done|]. by apply H3.
      * cbn [s_tso]. rewrite upd_buf_spec. by rewrite decide_True.
      * done.
      * intros y Hy. by rewrite Hm.
Qed.

(** Inside, the phase is [ph_held]. *)
Lemma sim_inside l s p c : sim l s p -> s_at s c = Inside ->
  owner p = Some c /\ t_mem (s_tso s) l = 1 /\ (forall d, s_at s d = Inside <-> d = c) /\
  (forall d, d <> c -> t_buf (s_tso s) d = []) /\ no_lock l (t_buf (s_tso s) c) /\
  (forall x, x <> l -> sp_mem p x = load (s_tso s) c x).
Proof.
  intros (m & Hph & Hm) Hc. destruct p as [o pm]. cbn [owner sp_mem] in *.
  destruct Hph as [H1 H2 H3|c' H1 H2 H3 H4|c' b H1 H2 H3 H4 H5]; [by destruct (H2 c)| |by destruct (H2 c)].
  apply H2 in Hc as ->. done.
Qed.

Lemma step_sim l s p e s' : sim l s p -> step l s e s' ->
  match e with None => sim l s' p | Some e => exists p', spec_step p e p' /\ sim l s' p' end.
Proof.
  intros Hs Hstep. destruct Hstep as [s c Hc|s c t Hc Ht|s c t Hc Ht|s c t b Hc Ht|s c x Hc Hx|s c x v Hc Hx|s c Hc|s c t Ht].
  - apply sim_move; congruence.
  - apply sim_acquire; [done|congruence|done].
  - apply (sim_move l (mk_state t (s_at s))); [by apply (sim_fail l s p c)|cbn; congruence|done].
  - destruct b; [apply sim_acquire; [done|congruence|done]|].
    apply (sim_move l (mk_state t (s_at s))); [by apply (sim_fail l s p c)|cbn; congruence|done].
  - destruct (sim_inside l s p c Hs Hc) as (Ho & _ & _ & _ & _ & Hm). exists p. split; [|done].
    destruct p as [o pm]. cbn in Ho. subst o. rewrite <- Hm by done. apply sp_read.
  - destruct (sim_inside l s p c Hs Hc) as (Ho & H1 & H2 & H3 & H4 & Hm). destruct p as [o pm]. cbn in Ho. subst o.
    eexists. split; [apply sp_write|]. eexists. cbn [owner sp_mem]. split; [apply ph_held|].
    + exact H1.
    + places.
    + intros d Hd. cbn [s_tso at_set]. unfold store. rewrite upd_buf_spec, decide_False by done. by apply H3.
    + cbn [s_tso at_set]. unfold store. rewrite upd_buf_spec, decide_True by done. apply Forall_app. split; [done|]. by apply Forall_singleton.
    + intros y Hy. cbn [s_tso at_set]. unfold store. rewrite upd_buf_spec, decide_True by done.
      rewrite flush_app. cbn. unfold upd_loc. destruct (y =? x); [done|]. by apply Hm.
  - destruct (sim_inside l s p c Hs Hc) as (Ho & H1 & H2 & H3 & H4 & Hm). destruct p as [o pm]. cbn in Ho. subst o.
    exists (mk_spec None pm). split; [apply sp_release|]. eexists. cbn [owner sp_mem].
    split; [apply (ph_leaving l _ c (t_buf (s_tso s) c))|].
    + exact H1.
    + intros d. rewrite at_set_spec. destruct (decide (d = c)); [done|]. rewrite H2. done.
    + intros d Hd. cbn [s_tso at_set]. unfold spin_unlock, store. rewrite upd_buf_spec, decide_False by done. by apply H3.
    + cbn [s_tso at_set]. unfold spin_unlock, store. by rewrite upd_buf_spec, decide_True.
    + done.
    + intros y Hy. by apply Hm.
  - by apply (sim_drain l s p c).
Qed.

Lemma run_sim l m s tr : m l = 0 -> run l (start m) tr s -> exists p, spec_run (mk_spec None m) tr p /\ sim l s p.
Proof.
  intros Hm Hr. remember (start m) as s0 eqn:E. revert E. induction Hr as [s|s s1 s2 tr Hr IH Hst|s s1 s2 tr e Hr IH Hst]; intros ->.
  - eexists. split; [apply sr_nil|]. eexists. split; [by apply ph_free|]. done.
  - destruct (IH eq_refl) as (p & Hp & Hs). exists p. split; [done|]. exact (step_sim l s1 p None s2 Hs Hst).
  - destruct (IH eq_refl) as (p & Hp & Hs). destruct (step_sim l s1 p (Some e) s2 Hs Hst) as (p' & Hp' & Hs').
    exists p'. split; [by eapply sr_event|done].
Qed.

(** Stores reach memory; nothing else happens. *)
Inductive drains : state -> state -> Prop :=
  | dr_refl s : drains s s
  | dr_step s c t s' : drain (s_tso s) c = Some t -> drains (mk_state t (s_at s)) s' -> drains s s'.

Lemma drains_free l c b : no_lock l b -> forall s, t_buf (s_tso s) c = b ++ [(l, 0)] -> (forall d, d <> c -> t_buf (s_tso s) d = []) ->
  exists s', drains s s' /\ s_at s' = s_at s /\ t_mem (s_tso s') l = 0 /\ forall d, t_buf (s_tso s') d = [].
Proof.
  intros Hb. induction b as [|[x v] b IH]; intros s Ec Hd.
  - assert (drain (s_tso s) c = Some (upd_buf (mk_tso (upd_loc (t_mem (s_tso s)) l 0) (t_buf (s_tso s))) c [])) as E by (unfold drain; by rewrite Ec).
    eexists. split; [by eapply dr_step; [exact E|apply dr_refl]|]. split; [done|]. split; [apply upd_loc_eq|].
    intros d. cbn [s_tso]. rewrite upd_buf_spec. destruct (decide (d = c)); [done|]. by apply Hd.
  - apply Forall_cons in Hb as [_ Hb].
    assert (drain (s_tso s) c = Some (upd_buf (mk_tso (upd_loc (t_mem (s_tso s)) x v) (t_buf (s_tso s))) c (b ++ [(l, 0)]))) as E by (unfold drain; by rewrite Ec).
    destruct (IH Hb (mk_state (upd_buf (mk_tso (upd_loc (t_mem (s_tso s)) x v) (t_buf (s_tso s))) c (b ++ [(l, 0)])) (s_at s))) as (s' & H1 & H2 & H3).
    + cbn [s_tso]. by rewrite upd_buf_spec, decide_True.
    + intros d Hdc. cbn [s_tso]. rewrite upd_buf_spec, decide_False by done. by apply Hd.
    + exists s'. split; [by eapply dr_step|done].
Qed.

(** C18. The spinlock on a processor with store buffers: whatever processors do to take the
    lock ([spin_lock] or [spin_trylock]), read and write what it protects, and release
    it, and whenever the stores reach memory, the accesses are those of a machine with one owner at a
    time and one memory, in the same order; a processor is inside exactly when it is the
    owner, so no two are; and when nobody is inside, the lock becomes free by the
    buffers draining, and the next exchange of any waiting processor takes it. *)
Theorem spinlock_sc l m tr s (Hfree : m l = 0) (Hrun : run l (start m) tr s) :
  exists p, spec_run (mk_spec None m) tr p /\
    (forall c, s_at s c = Inside <-> owner p = Some c) /\
    (owner p = None -> exists s', drains s s' /\ s_at s' = s_at s /\
       forall c, exists t, spin_trylock l (s_tso s') c = Some (true, t)).
Proof.
  destruct (run_sim l m s tr Hfree Hrun) as (p & Hp & x & Hph & _). exists p. split; [done|].
  destruct p as [o pm]. cbn [owner] in *.
  assert (forall s', t_mem (s_tso s') l = 0 -> (forall d, t_buf (s_tso s') d = []) ->
    forall c, exists t, spin_trylock l (s_tso s') c = Some (true, t)) as Htake.
  { intros s' Hl Hb c. unfold spin_trylock, xchgl. rewrite Hb, Hl. by eexists. }
  destruct Hph as [H1 H2 H3|c' H1 H2 H3 H4|c' b H1 H2 H3 H4 H5].
  - split; [intros c; split; [intros E; by destruct (H2 c)|done]|]. intros _. exists s. split; [apply dr_refl|]. split; [done|]. by apply Htake.
  - split; [|done]. intros c. rewrite H2. naive_solver.
  - split; [intros c; split; [intros E; by destruct (H2 c)|done]|]. intros _.
    destruct (drains_free l c' b H5 s H4 H3) as (s' & D1 & D2 & D3 & D4). exists s'. split; [done|]. split; [done|]. by apply Htake.
Qed.

(** Two processors: 0 takes the lock, writes and leaves; 1 spins until the stores of 0 have drained,
    then reads the value. *)
Lemma spinlock_sc_witness : exists tr s p, run 8 (start (fun _ => 0)) tr s /\ spec_run (mk_spec None (fun _ => 0)) tr p /\
  tr = [Acquire 0; Write 0 5 7; Release 0; Acquire 1; Read 1 5 7].
Proof.
  pose (s1 := at_set (start (fun _ => 0)) (mk_tso (upd_loc (fun _ => 0) 8 1) (fun _ => [])) 0 Inside).
  pose (s2 := at_set s1 (store (s_tso s1) 0 5 7) 0 Inside).
  pose (s3 := at_set s2 (spin_unlock 8 (s_tso s2) 0) 0 Outside).
  pose (s4 := at_set s3 (s_tso s3) 1 Spinning).
  pose (s5 := at_set s4 (mk_tso (upd_loc (t_mem (s_tso s4)) 8 1) (t_buf (s_tso s4))) 1 Spinning).
  pose (s6 := mk_state (upd_buf (mk_tso (upd_loc (t_mem (s_tso s5)) 5 7) (t_buf (s_tso s5))) 0 [(8, 0)]) (s_at s5)).
  pose (s7 := mk_state (upd_buf (mk_tso (upd_loc (t_mem (s_tso s6)) 8 0) (t_buf (s_tso s6))) 0 []) (s_at s6)).
  pose (s8 := at_set s7 (mk_tso (upd_loc (t_mem (s_tso s7)) 8 1) (t_buf (s_tso s7))) 1 Inside).
  assert (run 8 (start (fun _ => 0)) [Acquire 0; Write 0 5 7; Release 0; Acquire 1; Read 1 5 7] s8) as Hr.
  { apply (run_event 8 _ s8 s8 [Acquire 0; Write 0 5 7; Release 0; Acquire 1]); [|exact (s_read 8 s8 1 5 eq_refl ltac:(lia))].
    apply (run_event 8 _ s7 s8 [Acquire 0; Write 0 5 7; Release 0]); [|by apply s_lock].
    apply (run_tau 8 _ s6 s7); [|by apply (s_drain 8 s6 0)].
    apply (run_tau 8 _ s5 s6); [|by apply (s_drain 8 s5 0)].
    apply (run_tau 8 _ s4 s5); [|by apply s_retry].
    apply (run_tau 8 _ s3 s4); [|by apply s_spin].
    apply (run_event 8 _ s2 s3 [Acquire 0; Write 0 5 7]); [|by apply s_unlock].
    apply (run_event 8 _ s1 s2 [Acquire 0]); [|by apply s_write].
    apply (run_event 8 _ (start (fun _ => 0)) s1 []); [apply run_nil|].
    exact (s_try 8 (start (fun _ => 0)) 0 (mk_tso (upd_loc (fun _ => 0) 8 1) (fun _ => [])) true eq_refl eq_refl). }
  destruct (spinlock_sc 8 (fun _ => 0) _ s8 eq_refl Hr) as (p & Hp & _).
  eexists _, s8, p. split; [exact Hr|]. split; [exact Hp|reflexivity].
Defined.

End Spinlock.

Module Smp.
(** ** The local APIC *)

Definition LAPIC_BASE : Z := 0xFEE00000.
Definition LAPIC_TPR : Z := 0x080.
Definition LAPIC_EOI : Z := 0x0B0.
Definition LAPIC_SVR : Z := 0x0F0.
Definition LAPIC_ICR_LO : Z := 0x300.
Definition LAPIC_ICR_HI : Z := 0x310.
Definition LAPIC_LVT_TIMER : Z := 0x320.
Definition LAPIC_TIMER_INIT : Z := 0x380.
Definition LAPIC_TIMER_DIV : Z := 0x3E0.
Definition LAPIC_SVR_ENABLE : Z := 1 <<b 8.
Definition LAPIC_SPURIOUS_VEC : Z := 0xFF.
Definition LAPIC_ICR_INIT : Z := 0x00000500.
Definition LAPIC_ICR_STARTUP : Z := 0x00000600.
Definition LAPIC_ICR_ASSERT : Z := 0x00004000.
Definition LAPIC_ICR_PENDING : Z := 0x00001000.
Definition LAPIC_TIMER_DIV16 : Z := 0x3.
Definition LAPIC_TIMER_VECTOR : Z := 0x20.
Definition LAPIC_TIMER_PERIODIC : Z := 1 <<b 17.
Definition LAPIC_TIMER_COUNT : Z := 1000000.
Definition SMP_MAX_CPUS : Z := 8.
Definition TRAMPOLINE_PHYS : Z := 0x8000.

(** The memory-mapped registers, by physical address. *)
Class Mmio32 (D : Type) := { mmio_rd : Z -> D -> Z * D; mmio_wr : Z -> Z -> D -> D }.

(** [cpu_t]; the structure takes 40 bytes. *)
Record cpu_t := mk_cpu { c_self : Z; c_id : Z; c_lapic_id : Z; c_kstack : Z; c_current : Z; c_online : Z }.
Definition sizeof_cpu : Z := 40.

(** The statics of smp.c, and the GS base of the processor that runs. *)
Record smp_st := mk_smp { cpus : list cpu_t; cpu_count : Z; gs_base : Z }.

Definition trampoline_bin : list Z :=
  [0xfa; 0xfc; 0xb8; 0x00; 0x08; 0x8e; 0xd8; 0x8e; 0xc0; 0x0f; 0x01; 0x16; 0xa0; 0x80; 0x0f; 0x20; 0xc0; 0x66; 0x83; 0xc8; 0x01; 0x0f; 0x22; 0xc0;
   0x66; 0xea; 0x20; 0x80; 0x00; 0x00; 0x08; 0x00; 0x66; 0xb8; 0x10; 0x00; 0x8e; 0xd8; 0x8e; 0xc0; 0x8e; 0xd0; 0x66; 0x31; 0xc0; 0x8e; 0xe0; 0x8e;
   0xe8; 0x0f; 0x20; 0xe0; 0x83; 0xc8; 0x20; 0x0f; 0x22; 0xe0; 0xa1; 0xe8; 0x8f; 0x00; 0x00; 0x0f; 0x22; 0xd8; 0xb9; 0x80; 0x00; 0x00; 0xc0; 0x0f;
   0x32; 0x0d; 0x00; 0x01; 0x00; 0x00; 0x0f; 0x30; 0x0f; 0x20; 0xc0; 0x0d; 0x01; 0x00; 0x00; 0x80; 0x0f; 0x22; 0xc0; 0xea; 0x62; 0x80; 0x00; 0x00;
   0x08; 0x00; 0x66; 0xb8; 0x10; 0x00; 0x8e; 0xd8; 0x8e; 0xc0; 0x8e; 0xd0; 0x66; 0x31; 0xc0; 0x8e; 0xe0; 0x8e; 0xe8; 0x48; 0x8b; 0x24; 0x25; 0xf8;
   0x8f; 0x00; 0x00; 0xff; 0x14; 0x25; 0xf0; 0x8f; 0x00; 0x00; 0xf4; 0xeb; 0xfd; 0x90; 0x90; 0x90; 0x00; 0x00; 0x00; 0x00; 0x00; 0x00; 0x00; 0x00;
   0xff; 0xff; 0x00; 0x00; 0x00; 0x9a; 0xaf; 0x00; 0xff; 0xff; 0x00; 0x00; 0x00; 0x92; 0xcf; 0x00; 0x17; 0x00; 0x88; 0x80; 0x00; 0x00].

Section smp.
Context {A D : Type} `{!Mmio32 D}.
Implicit Types (k : kst A) (d : D) (s : smp_st).
(** What [cpuid] returns in EAX and EBX for a leaf, and the address of [cpus]. *)
Variable cpuid : Z -> Z * Z.
Variable cpus_addr : Z.

Definition lapic_read (reg : Z) d : Z * D := mmio_rd (LAPIC_BASE + reg) d.
Definition lapic_write (reg val : Z) d : D := mmio_wr (LAPIC_BASE + reg) val d.
Definition lapic_eoi d : D := lapic_write LAPIC_EOI 0 d.

Definition lapic_enable d : D :=
  let d := lapic_write LAPIC_SVR (LAPIC_SVR_ENABLE |b LAPIC_SPURIOUS_VEC) d in
  lapic_write LAPIC_TPR 0 d.

Definition lapic_timer_start d : D :=
  let d := lapic_write LAPIC_TIMER_DIV LAPIC_TIMER_DIV16 d in
  let d := lapic_write LAPIC_LVT_TIMER (LAPIC_TIMER_VECTOR |b LAPIC_TIMER_PERIODIC) d in
  lapic_write LAPIC_TIMER_INIT LAPIC_TIMER_COUNT d.

(** ** Processors *)

Definition cpu_addr (i : Z) : Z := cpus_addr + sizeof_cpu * i.

(** [wrmsr] of the two halves of the address. *)
Definition set_gs_base s (cpu : Z) : smp_st :=
  mk_smp (cpus s) (cpu_count s) ((u32 (cpu >>b 32) <<b 32) |b u32 cpu).

(** [movq %gs:0]: the first field of the structure GS points at, [None] when GS points
    elsewhere. *)
Definition smp_this_cpu s : option Z :=
  match first_idx (fun i => cpu_addr (Z.of_nat i) =? gs_base s) (seq 0 (length (cpus s))) with
  | Some i => c_self <$> (cpus s !! i)
  | None => None
  end.

Definition smp_cpu_count s : Z := cpu_count s.
Definition smp_cpu (id : Z) s : option Z := if cpu_count s <=? id then None else Some (cpu_addr id).

Definition cpuid_max_leaf : Z := fst (cpuid 0).
Definition cpuid_lapic_id : Z := snd (cpuid 1) >>b 24.
Definition cpuid_logical_cpus : Z :=
  let n := (snd (cpuid 1) >>b 16) &b 0xFF in if 0 <? n then n else 1.

(** ** Starting a further processor *)

(** [icr_wait]: [None] when the bit stays set for [fuel] reads. *)
Fixpoint icr_wait (fuel : nat) d : option D :=
  match fuel with
  | O => None
  | S fuel =>
      let '(v, d) := lapic_read LAPIC_ICR_LO d in
      if has v LAPIC_ICR_PENDING then icr_wait fuel d else Some d
  end.

(** One interrupt command to the processor [lapic_id]. *)
Definition icr_send (fuel : nat) (lapic_id cmd : Z) d : option D :=
  let d := lapic_write LAPIC_ICR_HI (lapic_id <<b 24) d in
  let d := lapic_write LAPIC_ICR_LO cmd d in
  icr_wait fuel d.

Definition send_init_sipi (fuel : nat) (lapic_id : Z) d : option D :=
  match icr_send fuel lapic_id (LAPIC_ICR_INIT |b LAPIC_ICR_ASSERT) d with
  | None => None
  | Some d =>
      let vec := u8 (TRAMPOLINE_PHYS >>b 12) in
      match icr_send fuel lapic_id (LAPIC_ICR_STARTUP |b vec) d with
      | None => None
      | Some d => icr_send fuel lapic_id (LAPIC_ICR_STARTUP |b vec) d
      end
  end.

(** The slot from index [i] on whose processor has the given id. *)
Fixpoint find_cpu (n : nat) (i id : Z) s : option Z :=
  match n with
  | O => None
  | S n => if c_lapic_id (nth (Z.to_nat i) (cpus s) (mk_cpu 0 0 0 0 0 0)) =? id then Some i else find_cpu n (i + 1) id s
  end.

(** [ap_entry] up to the halt loop: [None] when the processor is unknown and halts. *)
Definition ap_entry s d : option (smp_st * D) :=
  match find_cpu (Z.to_nat (cpu_count s - 1)) 1 cpuid_lapic_id s with
  | None => None
  | Some i =>
      let s := set_gs_base s (cpu_addr i) in
      let d := lapic_enable d in
      let d := lapic_timer_start d in
      let online c := mk_cpu (c_self c) (c_id c) (c_lapic_id c) (c_kstack c) (c_current c) 1 in
      Some (mk_smp (alter online (Z.to_nat i) (cpus s)) (cpu_count s) (gs_base s), d)
  end.

Definition bsp_pml4_phys k : Z := u32 (cr3 k &b 0xFFFFF000).

Definition trampoline_install k : kst A :=
  set_mm k (put (mm k) (PHYS_TO_VIRT TRAMPOLINE_PHYS) trampoline_bin).

(** [ap_entry_addr] is the address of [ap_entry]. *)
Definition trampoline_prepare (ap_entry_addr stack_top : Z) k : kst A :=
  let slot o := PHYS_TO_VIRT (TRAMPOLINE_PHYS + o) in
  let m := store32 (mm k) (slot 0xFE8) (bsp_pml4_phys k) in
  let m := store64 m (slot 0xFF0) ap_entry_addr in
  set_mm k (store64 m (slot 0xFF8) stack_top).

(** ** The module *)

Definition smp_init_impl s k d : Z * smp_st * kst A * D :=
  let k := trampoline_install k in
  let bsp_lapic_id := cpuid_lapic_id in
  let s := mk_smp (<[0%nat := mk_cpu (cpu_addr 0) 0 bsp_lapic_id 0 0 1]> (cpus s)) (cpu_count s) (gs_base s) in
  let s := set_gs_base s (cpu_addr 0) in
  let d := lapic_enable d in
  let total := if 1 <=? cpuid_max_leaf then cpuid_logical_cpus else 1 in
  let total := if SMP_MAX_CPUS <? total then SMP_MAX_CPUS else total in
  let s := mk_smp (cpus s) total (gs_base s) in
  let s := if 1 <? total then mk_smp (cpus s) 1 (gs_base s) else s in
  (0, s, k, d).
End smp.
(** ** What starting up leaves *)

Section start.
Context {A D : Type} `{!Mmio32 D}.
Implicit Types (k : kst A) (d : D) (s : smp_st).
Context (cpuid : Z -> Z * Z) (cpus_addr : Z).

Lemma gs_base_set s a : 0 <= a < 2 ^ 64 -> gs_base (set_gs_base s a) = a.
Proof.
  intros Ha. unfold set_gs_base. cbn [gs_base]. unfold u32. rewrite Z.shiftr_div_pow2, Z.shiftl_mul_pow2 by lia.
  rewrite Z.mod_small by (split; [apply Z.div_pos|apply Z.div_lt_upper_bound]; lia).
  rewrite lor_add; [|lia|apply Z.div_pos; lia|apply Z.mod_pos_bound; lia]. pose proof (Z.div_mod a (2 ^ 32)). lia.
Qed.

(** However many processors there are, one is used. *)
Lemma one_cpu s k d : cpu_count (snd (fst (fst (smp_init_impl cpuid cpus_addr s k d)))) = 1.
Proof.
  unfold smp_init_impl. cbn [fst snd]. unfold cpuid_logical_cpus. cbv zeta.
  repeat case_ltb; cbn [cpu_count]; unfold SMP_MAX_CPUS in *; try lia; done.
Qed.

(** C40. Multiprocessor start-up uses the boot processor only: whatever [cpuid] says, one
    processor is counted, slot 0 describes it and is what GS-relative access finds, no
    other slot is handed out, and its local APIC has been enabled with the
    spurious vector 0xFF and priority 0.  Memory changes in the first 166 bytes of frame 8 only:
    they are overwritten by the trampoline, although the frame is not taken from the
    frame allocator, so also when it is in use. *)
Theorem smp_start s k d (Hlen : length (cpus s) = Z.to_nat SMP_MAX_CPUS)
    (Haddr : 0 <= cpus_addr /\ cpus_addr + SMP_MAX_CPUS * sizeof_cpu <= 2 ^ 64) :
  let '(rc, s', k', d') := smp_init_impl cpuid cpus_addr s k d in
  rc = 0 /\ smp_cpu_count s' = 1 /\
  cpus s' !! 0%nat = Some (mk_cpu cpus_addr 0 (snd (cpuid 1) >>b 24) 0 0 1) /\
  smp_this_cpu cpus_addr s' = Some cpus_addr /\
  (forall id, 0 <= id -> smp_cpu cpus_addr id s' = if id =? 0 then Some cpus_addr else None) /\
  d' = lapic_write LAPIC_TPR 0 (lapic_write LAPIC_SVR 0x1FF d) /\
  fa k' = fa k /\
  (forall i b, trampoline_bin !! i = Some b -> mm k' (frame_va 8 + Z.of_nat i) = b) /\
  (forall a, ~ (frame_va 8 <= a < frame_va 8 + 166) -> mm k' a = mm k a).
Proof.
  pose proof (one_cpu s k d) as H1. unfold smp_init_impl in *. cbn [fst snd] in H1. cbv zeta in *.
  set (s0 := set_gs_base (mk_smp (<[0%nat := mk_cpu (cpu_addr cpus_addr 0) 0 (cpuid_lapic_id cpuid) 0 0 1]> (cpus s)) (cpu_count s) (gs_base s)) (cpu_addr cpus_addr 0)) in *.
  set (total := if SMP_MAX_CPUS <? _ then _ else _) in *. set (s' := if 1 <? total then _ else _) in *.
  assert (cpu_addr cpus_addr 0 = cpus_addr) as E0 by (unfold cpu_addr, sizeof_cpu; lia).
  assert (cpus s' = cpus s0 /\ gs_base s' = gs_base s0) as [Ec Eg] by (unfold s'; by destruct (1 <? total)).
  assert (gs_base s0 = cpus_addr) as Egs.
  { unfold s0. rewrite E0. apply gs_base_set. unfold SMP_MAX_CPUS, sizeof_cpu in Haddr. lia. }
  assert (cpus s0 !! 0%nat = Some (mk_cpu cpus_addr 0 (snd (cpuid 1) >>b 24) 0 0 1)) as Ecpu.
  { unfold s0. cbn [cpus set_gs_base]. rewrite E0. apply list_lookup_insert_eq. rewrite Hlen. unfold SMP_MAX_CPUS; lia. }
  assert (PHYS_TO_VIRT TRAMPOLINE_PHYS = frame_va 8) as Efr by by vm_compute.
  splits; try done.
  - by rewrite Ec.
  - unfold smp_this_cpu. rewrite Ec, Eg, Egs. destruct (cpus s0) as [|c0 l] eqn:El; [done|]. cbn [length seq first_idx].
    change (Z.of_nat 0) with 0. rewrite E0, Z.eqb_refl. cbn in Ecpu. injection Ecpu as ->. done.
  - intros id Hid. unfold smp_cpu. rewrite H1. destruct (Z.leb_spec 1 id), (Z.eqb_spec id 0) as [->|]; try lia; [done|by rewrite E0].
  - intros i b Hi. cbn [mm trampoline_install set_mm]. rewrite Efr. by apply put_in.
  - intros a Ha. cbn [mm trampoline_install set_mm]. rewrite Efr. by apply put_other.
Qed.
End start.

#[local] Instance silent_mmio : Mmio32 unit := {| mmio_rd _ d := (0, d); mmio_wr _ _ d := d |}.

(** Four processors reported; frame 8 was zero. *)
Lemma smp_start_witness :
  let '(_, s, k, _) := smp_init_impl (fun _ => (1, 0x00040000)) 0x200000 (mk_smp (replicate 8 (mk_cpu 0 0 0 0 0 0)) 0 0)
    (mk_kst (fun _ => 0) tt 0 0 0 []) tt in
  smp_cpu_count s = 1 /\ smp_this_cpu 0x200000 s = Some 0x200000 /\ mm k (frame_va 8) = 0xfa.
Proof.
  pose proof (smp_start (fun _ => (1, 0x00040000)) 0x200000 (mk_smp (replicate 8 (mk_cpu 0 0 0 0 0 0)) 0 0)
    (mk_kst (fun _ => 0) tt 0 0 0 []) tt eq_refl ltac:(unfold SMP_MAX_CPUS, sizeof_cpu; lia)) as H.
  destruct (smp_init_impl _ _ _ _ _) as [[[rc s] k] d]. destruct H as (_ & H1 & _ & H2 & _ & _ & _ & H3 & _).
  split; [exact H1|]. split; [exact H2|]. specialize (H3 0%nat 0xfa eq_refl). rewrite Z.add_0_r in H3. exact H3.
Defined.

End Smp.
