(* ===== verification/Proc.v ===== *)
(** * Processes and scheduling: src/process/process.c, src/scheduler/scheduler.c,
    src/scheduler/scheduler.asm

    The process table is a list of 64 descriptors, pointers to descriptors are
    indices; the run queue is the circular list through [p_next].  The machine
    state is the callee-saved registers of the CPU ([cpu]) and, in the heap's
    state, memory and CR3; [context_switch] is the assembly routine. *)

From Stdlib Require Import String.
From S2P Require Import Prelude Mem Pmm Vmm Heap.
Open Scope string_scope.
Open Scope Z_scope.

Definition PROC_MAX : Z := 64.
Definition KSTACK_SIZE : Z := 8192.
Definition PROC_UNUSED : Z := 0.
Definition PROC_READY : Z := 1.
Definition PROC_RUNNING : Z := 2.
Definition PROC_BLOCKED : Z := 3.
Definition PROC_ZOMBIE : Z := 4.
Definition SCHED_TICKS_PER_SLICE : Z := 10.

(** [cpu_context_t]. *)
Record cpu_context := mk_ctx {
  rbx : Z; rbp : Z; r12 : Z; r13 : Z; r14 : Z; r15 : Z; rsp : Z; rip : Z
}.
#[export] Instance cpu_context_eq : EqDecision cpu_context.
Proof. solve_decision. Defined.

(** [process_t]. *)
Record process := mk_proc {
  p_pid : Z; p_ppid : Z; p_state : Z; p_exit : Z; p_name : string; p_kstack : Z; p_ctx : cpu_context; p_pml4 : Z; user_rip : Z; user_rsp : Z; user_rflags : Z; mmap_next : Z; p_next : option Z
}.
Definition set_p_pid (s : process) (v : Z) : process := mk_proc v (p_ppid s) (p_state s) (p_exit s) (p_name s) (p_kstack s) (p_ctx s) (p_pml4 s) (user_rip s) (user_rsp s) (user_rflags s) (mmap_next s) (p_next s).
Definition set_p_ppid (s : process) (v : Z) : process := mk_proc (p_pid s) v (p_state s) (p_exit s) (p_name s) (p_kstack s) (p_ctx s) (p_pml4 s) (user_rip s) (user_rsp s) (user_rflags s) (mmap_next s) (p_next s).
Definition set_p_state (s : process) (v : Z) : process := mk_proc (p_pid s) (p_ppid s) v (p_exit s) (p_name s) (p_kstack s) (p_ctx s) (p_pml4 s) (user_rip s) (user_rsp s) (user_rflags s) (mmap_next s) (p_next s).
Definition set_p_exit (s : process) (v : Z) : process := mk_proc (p_pid s) (p_ppid s) (p_state s) v (p_name s) (p_kstack s) (p_ctx s) (p_pml4 s) (user_rip s) (user_rsp s) (user_rflags s) (mmap_next s) (p_next s).
Definition set_p_name (s : process) (v : string) : process := mk_proc (p_pid s) (p_ppid s) (p_state s) (p_exit s) v (p_kstack s) (p_ctx s) (p_pml4 s) (user_rip s) (user_rsp s) (user_rflags s) (mmap_next s) (p_next s).
Definition set_p_kstack (s : process) (v : Z) : process := mk_proc (p_pid s) (p_ppid s) (p_state s) (p_exit s) (p_name s) v (p_ctx s) (p_pml4 s) (user_rip s) (user_rsp s) (user_rflags s) (mmap_next s) (p_next s).
Definition set_p_ctx (s : process) (v : cpu_context) : process := mk_proc (p_pid s) (p_ppid s) (p_state s) (p_exit s) (p_name s) (p_kstack s) v (p_pml4 s) (user_rip s) (user_rsp s) (user_rflags s) (mmap_next s) (p_next s).
Definition set_p_pml4 (s : process) (v : Z) : process := mk_proc (p_pid s) (p_ppid s) (p_state s) (p_exit s) (p_name s) (p_kstack s) (p_ctx s) v (user_rip s) (user_rsp s) (user_rflags s) (mmap_next s) (p_next s).
Definition set_user_rip (s : process) (v : Z) : process := mk_proc (p_pid s) (p_ppid s) (p_state s) (p_exit s) (p_name s) (p_kstack s) (p_ctx s) (p_pml4 s) v (user_rsp s) (user_rflags s) (mmap_next s) (p_next s).
Definition set_user_rsp (s : process) (v : Z) : process := mk_proc (p_pid s) (p_ppid s) (p_state s) (p_exit s) (p_name s) (p_kstack s) (p_ctx s) (p_pml4 s) (user_rip s) v (user_rflags s) (mmap_next s) (p_next s).
Definition set_user_rflags (s : process) (v : Z) : process := mk_proc (p_pid s) (p_ppid s) (p_state s) (p_exit s) (p_name s) (p_kstack s) (p_ctx s) (p_pml4 s) (user_rip s) (user_rsp s) v (mmap_next s) (p_next s).
Definition set_mmap_next (s : process) (v : Z) : process := mk_proc (p_pid s) (p_ppid s) (p_state s) (p_exit s) (p_name s) (p_kstack s) (p_ctx s) (p_pml4 s) (user_rip s) (user_rsp s) (user_rflags s) v (p_next s).
Definition set_p_next (s : process) (v : option Z) : process := mk_proc (p_pid s) (p_ppid s) (p_state s) (p_exit s) (p_name s) (p_kstack s) (p_ctx s) (p_pml4 s) (user_rip s) (user_rsp s) (user_rflags s) (mmap_next s) v.

(** The scheduler's and the process table's variables, with the CPU. *)
Record pst := mk_pst {
  proc_table : list process; current_proc : option Z; run_queue : option Z; tick_counter : Z; yield_pending : Z; tss_rsp0 : Z; syscall_kernel_rsp : Z; cpu : cpu_context
}.
Definition ps_proc_table (s : pst) (v : list process) : pst := mk_pst v (current_proc s) (run_queue s) (tick_counter s) (yield_pending s) (tss_rsp0 s) (syscall_kernel_rsp s) (cpu s).
Definition ps_current_proc (s : pst) (v : option Z) : pst := mk_pst (proc_table s) v (run_queue s) (tick_counter s) (yield_pending s) (tss_rsp0 s) (syscall_kernel_rsp s) (cpu s).
Definition ps_run_queue (s : pst) (v : option Z) : pst := mk_pst (proc_table s) (current_proc s) v (tick_counter s) (yield_pending s) (tss_rsp0 s) (syscall_kernel_rsp s) (cpu s).
Definition ps_tick_counter (s : pst) (v : Z) : pst := mk_pst (proc_table s) (current_proc s) (run_queue s) v (yield_pending s) (tss_rsp0 s) (syscall_kernel_rsp s) (cpu s).
Definition ps_yield_pending (s : pst) (v : Z) : pst := mk_pst (proc_table s) (current_proc s) (run_queue s) (tick_counter s) v (tss_rsp0 s) (syscall_kernel_rsp s) (cpu s).
Definition ps_tss_rsp0 (s : pst) (v : Z) : pst := mk_pst (proc_table s) (current_proc s) (run_queue s) (tick_counter s) (yield_pending s) v (syscall_kernel_rsp s) (cpu s).
Definition ps_syscall_kernel_rsp (s : pst) (v : Z) : pst := mk_pst (proc_table s) (current_proc s) (run_queue s) (tick_counter s) (yield_pending s) (tss_rsp0 s) v (cpu s).
Definition ps_cpu (s : pst) (v : cpu_context) : pst := mk_pst (proc_table s) (current_proc s) (run_queue s) (tick_counter s) (yield_pending s) (tss_rsp0 s) (syscall_kernel_rsp s) v.

Definition zero_ctx : cpu_context := mk_ctx 0 0 0 0 0 0 0 0.
Definition proc_default : process := mk_proc 0 0 0 0 "" 0 zero_ctx 0 0 0 0 0 None.
Definition get_proc (s : pst) (i : Z) : process := nth (Z.to_nat i) (proc_table s) proc_default.
Definition set_proc (s : pst) (i : Z) (p : process) : pst := ps_proc_table s (<[Z.to_nat i := p]> (proc_table s)).
(** [proc_table[i].field = v] *)
Definition upd_proc (s : pst) (i : Z) (g : process -> process) : pst := set_proc s i (g (get_proc s i)).

(** ** The run queue (src/scheduler/scheduler.c) *)

Definition scheduler_add (s : pst) (p : Z) : pst :=
  match run_queue s with
  | None => ps_run_queue (upd_proc s p (fun q => set_p_next q (Some p))) (Some p)
  | Some h =>
      let s := upd_proc s p (fun q => set_p_next q (p_next (get_proc s h))) in
      upd_proc s h (fun q => set_p_next q (Some p))
  end.

(** [do ... while (prev != run_queue)] of [scheduler_remove]; [None]: out of fuel or
    a NULL link. *)
Fixpoint remove_loop (fuel : nat) (s : pst) (h p prev : Z) : option pst :=
  match fuel with
  | O => None
  | S fuel =>
      match p_next (get_proc s prev) with
      | None => None
      | Some n =>
          if n =? p then
            let pn := p_next (get_proc s p) in
            let s :=
              if bool_decide (pn = Some p) then ps_run_queue s None
              else
                let s := upd_proc s prev (fun q => set_p_next q pn) in
                if h =? p then ps_run_queue s pn else s in
            Some (upd_proc s p (fun q => set_p_next q None))
          else if n =? h then Some s else remove_loop fuel s h p n
      end
  end.
Definition scheduler_remove (fuel : nat) (s : pst) (p : Z) : option pst :=
  match run_queue s with None => Some s | Some h => remove_loop fuel s h p h end.

Definition scheduler_tick (s : pst) : pst :=
  let s := ps_tick_counter s (u32 (tick_counter s + 1)) in
  if SCHED_TICKS_PER_SLICE <=? tick_counter s then
    let s := ps_tick_counter s 0 in
    match current_proc s with
    | Some c => if negb (p_pid (get_proc s c) =? 0) then ps_yield_pending s 1 else s
    | None => s
    end
  else s.

Definition runnable (p : process) : bool := (p_state p =? PROC_READY) || (p_state p =? PROC_RUNNING).

(** The search loop of [scheduler_yield]. *)
Fixpoint pick_loop (fuel : nat) (s : pst) (start next : Z) : option Z :=
  match fuel with
  | O => None
  | S fuel =>
      match p_next (get_proc s next) with
      | None => None
      | Some n => if runnable (get_proc s n) then Some n else if n =? start then Some n else pick_loop fuel s start n
      end
  end.

Section machine.
Context {A : Type} `{!FrameAlloc A}.
Implicit Types h : hst A.

(** [context_switch]: the registers at its entry are [cpu]; the return address is
    on the stack. *)
Definition saved_ctx (m : mem) (c : cpu_context) : cpu_context :=
  mk_ctx (rbx c) (rbp c) (r12 c) (r13 c) (r14 c) (r15 c) (u64 (rsp c + 8)) (load64 m (rsp c)).
Definition context_switch (old new new_pml4 : Z) (s : pst) (h : hst A) : pst * hst A :=
  let s := upd_proc s old (fun q => set_p_ctx q (saved_ctx (mm (hk h)) (cpu s))) in
  let s := ps_cpu s (p_ctx (get_proc s new)) in
  if (new_pml4 =? 0) || ((read_cr3 (hk h) &b 0xffffffffff000) =? new_pml4) then (s, h)
  else (s, set_hk h (write_cr3 (hk h) new_pml4)).

(** [scheduler_yield], up to the jump into the next process. *)
Definition scheduler_yield (fuel : nat) (s : pst) (h : hst A) : option (pst * hst A) :=
  match run_queue s with
  | None => Some (s, h)
  | Some start =>
      match pick_loop fuel s start start with
      | None => None
      | Some next =>
          if bool_decide (current_proc s = Some next) then Some (s, h)
          else
            let current := current_proc s in
            let s := ps_run_queue s (Some next) in
            let s := match current with
                     | Some c => if p_state (get_proc s c) =? PROC_RUNNING
                                 then upd_proc s c (fun q => set_p_state q PROC_READY) else s
                     | None => s
                     end in
            let s := upd_proc s next (fun q => set_p_state q PROC_RUNNING) in
            let s := ps_current_proc s (Some next) in
            let k := p_kstack (get_proc s next) in
            let s := if k =? 0 then s
                     else ps_syscall_kernel_rsp (ps_tss_rsp0 s (u64 (k + KSTACK_SIZE))) (u64 (k + KSTACK_SIZE)) in
            let old := match current with Some c => c | None => next end in
            Some (context_switch old next (p_pml4 (get_proc s next)) s h)
      end
  end.

(** ** The process table (src/process/process.c) *)

Definition alloc_pid (s : pst) : Z :=
  match first_idx (fun p => p_state p =? PROC_UNUSED) (take 64 (proc_table s)) with
  | Some i => Z.of_nat i
  | None => -1
  end.

Definition process_get (s : pst) (pid : Z) : option Z :=
  if PROC_MAX <=? pid then None
  else if p_state (get_proc s pid) =? PROC_UNUSED then None else Some pid.

Definition kthread_create (name : string) (fn : Z) (s : pst) (h : hst A) : Z * pst * hst A :=
  let pid := alloc_pid s in
  if pid <? 0 then (-1, s, h)
  else
    let s := upd_proc s pid (fun p => set_p_name (set_p_next (set_p_state (set_p_pid p pid) PROC_READY) None) (str_trunc 31 name)) in
    let '(k, h) := kmalloc h KSTACK_SIZE in
    let s := upd_proc s pid (fun p => set_p_kstack p k) in
    if k =? 0 then (-1, upd_proc s pid (fun p => set_p_state p PROC_UNUSED), h)
    else
      let top := u64 (k + KSTACK_SIZE) in
      (pid, upd_proc s pid (fun p => set_p_ctx (set_p_pml4 p 0) (mk_ctx 0 0 0 0 0 0 (u64 (top - 8)) fn)), h).

Definition process_save_user_ctx (rip_ rsp_ rflags : Z) (s : pst) : pst :=
  match current_proc s with
  | Some c => upd_proc s c (fun p => set_user_rflags (set_user_rsp (set_user_rip p rip_) rsp_) rflags)
  | None => s
  end.

(** [process_fork]; [tramp] is the address of [fork_sysret_trampoline].  The fuel is
    [kfree]'s. *)
Definition process_fork (fuel : nat) (tramp : Z) (s : pst) (h : hst A) : option (Z * pst * hst A) :=
  match current_proc s with
  | None => Some (-1, s, h)
  | Some c =>
      let pid := alloc_pid s in
      if pid <? 0 then Some (-1, s, h)
      else
        let s := upd_proc s pid (fun p => set_p_next (set_p_state (set_p_exit (set_p_ppid (set_p_pid p pid)
                   (p_pid (get_proc s c))) 0) PROC_READY) None) in
        let s := upd_proc s pid (fun p => set_p_name p (str_trunc 31 (p_name (get_proc s c)))) in
        let '(k, h) := kmalloc h KSTACK_SIZE in
        let s := upd_proc s pid (fun p => set_p_kstack p k) in
        let fail s h := (-1, upd_proc s pid (fun p => set_p_state p PROC_UNUSED), h) in
        let fail_free s h := match kfree fuel h k with Some h => Some (fail s h) | None => None end in
        if k =? 0 then Some (fail s h)
        else
          let '(src, h) :=
            if p_pml4 (get_proc s c) =? 0
            then let '(r, k) := vmm_create_user_pml4 (hk h) in (r, set_hk h k)
            else (p_pml4 (get_proc s c), h) in
          if src =? 0 then fail_free s h
          else
            let s := upd_proc s c (fun p => set_p_pml4 p src) in
            let '(dst, k2) := vmm_fork_pml4 (hk h) src in
            let h := set_hk h k2 in
            let s := upd_proc s pid (fun p => set_p_pml4 p dst) in
            if dst =? 0 then fail_free s h
            else
              let cur := get_proc s c in
              let s := upd_proc s pid (fun p => set_user_rflags (set_user_rsp (set_user_rip p
                         (user_rip cur)) (user_rsp cur)) (user_rflags cur)) in
              let cur := get_proc s c in
              let top := u64 (k + KSTACK_SIZE) in
              let s := upd_proc s pid (fun p => set_p_ctx p
                         (mk_ctx 0 0 (user_rip cur) (user_rflags cur) (user_rsp cur) 0 (u64 (top - 8)) tramp)) in
              Some (pid, scheduler_add s pid, h)
  end.

(** [fork_sysret_trampoline] of src/syscall/syscall_entry.asm: the user state that
    its SYSRET enters, from the registers [context_switch] restored. *)
Record user_regs := mk_user { u_rip : Z; u_rflags : Z; u_rsp : Z; u_rax : Z }.
Definition fork_sysret_trampoline (c : cpu_context) : user_regs := mk_user (r12 c) (r13 c) (r14 c) 0.

(** [process_exit] up to the switch; [sys_exit] sets the status first. *)
Definition process_exit (fuel : nat) (s : pst) (h : hst A) : option (pst * hst A) :=
  let s := match current_proc s with
           | Some c => upd_proc s c (fun p => set_p_state p PROC_ZOMBIE)
           | None => s
           end in
  scheduler_yield fuel s h.

(** [while (child->state != PROC_ZOMBIE) scheduler_yield();]: [resume] is what has
    happened when the waiting process runs again after its yield. *)
Fixpoint wait_loop (fuel : nat) (resume : pst * hst A -> pst * hst A) (pid : Z) (s : pst) (h : hst A) : option (pst * hst A) :=
  match fuel with
  | O => None
  | S fuel =>
      if p_state (get_proc s pid) =? PROC_ZOMBIE then Some (s, h)
      else let '(s, h) := resume (s, h) in wait_loop fuel resume pid s h
  end.

(** [process_waitpid]: pid or -1, and the status stored.  [None] also when no
    process is current (a NULL dereference). *)
Definition process_waitpid (fuel : nat) (resume : pst * hst A -> pst * hst A) (pid : Z) (s : pst) (h : hst A) :
    option (Z * Z * pst * hst A) :=
  if PROC_MAX <=? pid then Some (-1, 0, s, h)
  else if p_state (get_proc s pid) =? PROC_UNUSED then Some (-1, 0, s, h)
  else match current_proc s with
       | None => None
       | Some c =>
           if negb (p_ppid (get_proc s pid) =? p_pid (get_proc s c)) then Some (-1, 0, s, h)
           else match wait_loop fuel resume pid s h with
                | None => None
                | Some (s, h) =>
                    match scheduler_remove fuel s pid with
                    | None => None
                    | Some s => Some (i32 pid, p_exit (get_proc s pid), upd_proc s pid (fun p => set_p_state p PROC_UNUSED), h)
                    end
                end
       end.

Definition process_init (s : pst) : Z * pst :=
  let s := ps_proc_table s (map (fun p => set_p_state p PROC_UNUSED) (proc_table s)) in
  let s := upd_proc s 0 (fun p => set_p_name (set_p_pml4 (set_p_kstack (set_p_next (set_p_state (set_p_pid p 0) PROC_RUNNING)
             None) 0) 0) "idle") in
  (0, ps_current_proc s (Some 0)).

(** [scheduler_init]; [register] is the result of [timer_register_callback]. *)
Definition scheduler_init (register : Z) (s : pst) : Z * pst :=
  match process_get s 0 with
  | None => (-1, s)
  | Some idle => let s := scheduler_add s idle in if negb (register =? 0) then (-1, s) else (0, s)
  end.
End machine.
