(* ===== verification/ProcSpec.v ===== *)
(** * What the scheduler promises

    The circular run queue of Proc.v implements a list ([sched_inv]): adding,
    removing and yielding are the obvious operations on it.  From that follow
    round-robin fairness, the preservation of each process's registers across
    switches, and the life cycle fork - exit - waitpid. *)

From S2P Require Import Prelude Mem Pmm Vmm Heap Proc.
Open Scope list_scope.
Open Scope Z_scope.

(** ** Reading the table after an update *)

Lemma get_upd s i g j : 0 <= i -> 0 <= j -> i < Z.of_nat (List.length (proc_table s)) ->
  get_proc (upd_proc s i g) j = if decide (j = i) then g (get_proc s i) else get_proc s j.
Proof.
  intros Hi Hj Hl. unfold get_proc, upd_proc, set_proc, ps_proc_table; cbn [proc_table]. rewrite !nth_lookup.
  case_decide as E.
  - subst. rewrite list_lookup_insert_eq by lia. cbn. unfold get_proc. by rewrite nth_lookup.
  - by rewrite list_lookup_insert_ne by lia.
Qed.
Lemma length_upd s i g : List.length (proc_table (upd_proc s i g)) = List.length (proc_table s).
Proof. apply length_insert. Qed.

(** ** Circular lists *)

(** The links lead from [x] through [l] to [y]. *)
Fixpoint path (s : pst) (x : Z) (l : list Z) (y : Z) : Prop :=
  match l with
  | [] => p_next (get_proc s x) = Some y
  | z :: l => p_next (get_proc s x) = Some z /\ path s z l y
  end.

Lemma path_app s x l1 z l2 y : path s x (l1 ++ z :: l2) y <-> path s x l1 z /\ path s z l2 y.
Proof. revert x. induction l1 as [|w l1 IH]; intros x; cbn; [done|]. rewrite IH. tauto. Qed.

Lemma path_ext s s' x l y : (forall z, z ∈ x :: l -> p_next (get_proc s' z) = p_next (get_proc s z)) ->
  path s x l y -> path s' x l y.
Proof.
  revert x. induction l as [|z l IH]; intros x E; cbn; rewrite E by (by left); [done|].
  intros [? ?]. split; [done|]. apply IH; [|done]. intros w Hw. apply E. by right.
Qed.

(** The queue [q], current process first. *)
Record sched_inv (s : pst) (q : list Z) : Prop := {
  sv_len : List.length (proc_table s) = 64%nat;
  sv_range : Forall (fun p => 0 <= p < 64) q;
  sv_nodup : NoDup q;
  sv_ring : exists c t, q = c :: t /\ run_queue s = Some c /\ current_proc s = Some c /\ path s c t c
}.

Lemma sched_inv_length s q : sched_inv s q -> (List.length q <= 64)%nat.
Proof.
  intros [_ Hr Hn _]. assert (q ⊆ seqZ 0 64) as Hs.
  { intros p Hp. rewrite Forall_forall in Hr. apply elem_of_seqZ. specialize (Hr p Hp). lia. }
  pose proof (NoDup_submseteq q (seqZ 0 64) Hn) as Hsub. apply submseteq_length in Hsub; [|intros; by apply Hs].
  by rewrite length_seqZ in Hsub.
Qed.

(** States that agree on links, queue and current process. *)
Lemma sched_inv_ext s s' q : sched_inv s q -> List.length (proc_table s') = 64%nat ->
  run_queue s' = run_queue s -> current_proc s' = current_proc s ->
  (forall p, p ∈ q -> p_next (get_proc s' p) = p_next (get_proc s p)) -> sched_inv s' q.
Proof.
  intros [Hl Hr Hn (c & t & -> & H1 & H2 & H3)] Hl' E1 E2 En. split; try done.
  exists c, t. split; [done|]. rewrite E1, E2. split; [done|]. split; [done|]. by apply (path_ext s).
Qed.

Lemma get_upd_next s q i g p : sched_inv s q -> 0 <= i < 64 -> 0 <= p < 64 -> (forall x, p_next (g x) = p_next x) ->
  p_next (get_proc (upd_proc s i g) p) = p_next (get_proc s p).
Proof. intros Hs Hi Hp Hg. rewrite get_upd by (rewrite ?(sv_len _ _ Hs); lia). case_decide; [by subst|done]. Qed.

(** An update that leaves the links alone. *)
Lemma sched_inv_upd s q i g : sched_inv s q -> 0 <= i < 64 -> (forall p, p_next (g p) = p_next p) -> sched_inv (upd_proc s i g) q.
Proof.
  intros Hs Hi Hg. eapply sched_inv_ext; [done| |done|done|].
  - rewrite length_upd. apply Hs.
  - intros p Hp. eapply get_upd_next; try done. pose proof (sv_range _ _ Hs) as Hr. rewrite Forall_forall in Hr. by apply Hr.
Qed.

(** ** Adding and removing *)

Lemma scheduler_add_spec s c t p : sched_inv s (c :: t) -> 0 <= p < 64 -> p ∉ c :: t -> sched_inv (scheduler_add s p) (c :: p :: t).
Proof.
  intros Hs Hp Hnin. pose proof Hs as [Hl Hr Hn (c' & t' & [= <- <-] & Hq & Hc & Hpath)].
  pose proof (Forall_inv Hr) as Hc64. cbn in Hc64. apply not_elem_of_cons in Hnin as [Hpc Hpt].
  unfold scheduler_add. rewrite Hq. set (s1 := upd_proc s p _).
  assert (forall j, 0 <= j < 64 -> p_next (get_proc (upd_proc s1 c (fun q => set_p_next q (Some p))) j) =
    if decide (j = c) then Some p else if decide (j = p) then p_next (get_proc s c) else p_next (get_proc s j)) as Hg.
  { intros j Hj. unfold s1. rewrite !get_upd by (rewrite ?length_upd, ?Hl; lia). repeat case_decide; by subst. }
  rewrite Forall_forall in Hr.
  assert (forall l x, (forall z, z ∈ x :: l -> z ∈ t /\ z <> c) -> path s x l c -> path (upd_proc s1 c (fun q => set_p_next q (Some p))) x l c) as Hext.
  { intros l x Hz. apply path_ext. intros z Hzin. destruct (Hz z Hzin) as [Hzt Hzc]. rewrite Hg by (apply Hr; by right).
    rewrite decide_False by done. rewrite decide_False by (by intros ->). done. }
  apply NoDup_cons in Hn as [Hct Hnt].
  split.
  - unfold s1. by rewrite !length_upd.
  - rewrite !Forall_cons. split; [done|]. split; [done|]. apply Forall_forall. intros x Hx. apply Hr. by right.
  - apply NoDup_cons. split; [set_solver|]. by apply NoDup_cons.
  - exists c, (p :: t). split; [done|]. split; [exact Hq|]. split; [exact Hc|].
    split; [rewrite Hg by lia; by rewrite decide_True|].
    destruct t as [|z t]; cbn [path] in Hpath |- *.
    + rewrite Hg by lia. by rewrite decide_False, decide_True.
    + destruct Hpath as [Hcz Hpath]. split; [rewrite Hg by lia; by rewrite decide_False, decide_True|].
      apply Hext; [|done]. intros w Hw. split; [done|]. intros ->. done.
Qed.

Lemma remove_path s h p prev l1 l2 : List.length (proc_table s) = 64%nat -> path s prev (l1 ++ p :: l2) h ->
  Forall (fun x => 0 <= x < 64) (prev :: l1 ++ p :: l2) -> NoDup (prev :: l1 ++ p :: l2) -> h ∉ l1 ++ p :: l2 ->
  forall fuel, (List.length l1 < fuel)%nat -> exists w, last (prev :: l1) = Some w /\
    remove_loop fuel s h p prev =
      Some (upd_proc (upd_proc s w (fun q => set_p_next q (p_next (get_proc s p)))) p (fun q => set_p_next q None)).
Proof.
  intros Hl. revert prev. induction l1 as [|z l1 IH]; intros prev Hpath Hr Hn Hh [|fuel] Hf; try (cbn in Hf; lia).
  - exists prev. split; [done|]. cbn [path app] in Hpath. destruct Hpath as [Hnx Hrest]. cbn [remove_loop]. rewrite Hnx, Z.eqb_refl.
    assert (h <> p) as Hhp by (intros ->; apply Hh; by left).
    assert (p_next (get_proc s p) <> Some p) as Hne.
    { destruct l2 as [|y l2]; cbn [path] in Hrest.
      - rewrite Hrest. congruence.
      - destruct Hrest as [-> _]. intros [= ->]. cbn in Hn. apply NoDup_cons in Hn as [_ Hn]. apply NoDup_cons in Hn as [Hn _].
        apply Hn. by left. }
    rewrite bool_decide_eq_false_2 by done. rewrite (proj2 (Z.eqb_neq h p)) by done. done.
  - cbn [path app] in Hpath. destruct Hpath as [Hnx Hrest]. cbn [remove_loop]. rewrite Hnx.
    assert (z <> p) as Hzp.
    { intros ->. apply NoDup_cons in Hn as [_ Hn]. cbn in Hn. apply NoDup_cons in Hn as [Hn _]. apply Hn, elem_of_app. right. by left. }
    assert (z <> h) as Hzh by (intros ->; apply Hh; by left).
    rewrite (proj2 (Z.eqb_neq z p)), (proj2 (Z.eqb_neq z h)) by done.
    destruct (IH z Hrest) with (fuel := fuel) as (w & Hw & E).
    + by apply Forall_cons in Hr as [_ ?].
    + by apply NoDup_cons in Hn as [_ ?].
    + intros Hin. apply Hh. by right.
    + cbn in Hf. lia.
    + exists w. split; [|done]. by rewrite <-Hw.
Qed.

(** Skipping [p]: its predecessor [w] takes over its link. *)
Lemma path_bypass s s' x l1 p l2 y w : last (x :: l1) = Some w -> path s x l1 p -> path s p l2 y ->
  NoDup (x :: l1 ++ l2) -> p ∉ x :: l1 ++ l2 ->
  p_next (get_proc s' w) = p_next (get_proc s p) ->
  (forall j, j ∈ x :: l1 ++ l2 -> j <> w -> p_next (get_proc s' j) = p_next (get_proc s j)) -> path s' x (l1 ++ l2) y.
Proof.
  intros Hlast. revert x Hlast. induction l1 as [|z l1 IH]; intros x Hlast H1 H2 Hn Hp Hw Hj.
  - injection Hlast as ->. cbn [app] in *. apply NoDup_cons in Hn as [Hn _].
    destruct l2 as [|z l2]; cbn [path] in H2 |- *; [by rewrite Hw|]. destruct H2 as [H2 H3]. split; [by rewrite Hw|].
    apply (path_ext s); [|done]. intros j Hjin. apply Hj; [by right|]. by intros ->.
  - cbn [path] in H1. destruct H1 as [Hx H1]. cbn [app] in Hn, Hp, Hj |- *. apply NoDup_cons in Hn as [Hxn Hn].
    assert (x <> w) as Hxw.
    { intros ->. apply Hxn. assert (w ∈ z :: l1) by (apply last_Some_elem_of; by rewrite <-Hlast). set_solver. }
    split; [rewrite Hj; [done|by left|done]|]. apply IH; try done.
    + intros Hin. apply Hp. by right.
    + intros j Hjin. apply Hj. by right.
Qed.

Lemma scheduler_remove_spec s c t1 p t2 fuel : sched_inv s (c :: t1 ++ p :: t2) -> (64 <= fuel)%nat ->
  exists s', scheduler_remove fuel s p = Some s' /\ sched_inv s' (c :: t1 ++ t2) /\
    forall j, 0 <= j < 64 -> exists n, get_proc s' j = set_p_next (get_proc s j) n.
Proof.
  intros Hs Hf. pose proof (sched_inv_length _ _ Hs) as Hlen. cbn in Hlen. rewrite length_app in Hlen. cbn in Hlen.
  pose proof Hs as [Hl Hr Hn (c' & t' & [= <- <-] & Hq & Hc & Hpath)].
  destruct (remove_path s c p c t1 t2 Hl Hpath Hr Hn ltac:(by apply NoDup_cons in Hn as [? _]) fuel ltac:(lia)) as (w & Hw & E).
  unfold scheduler_remove. rewrite Hq, E. eexists. split; [reflexivity|].
  assert (forall x, x ∈ c :: t1 ++ p :: t2 -> 0 <= x < 64) as Hin by (by rewrite <-Forall_forall).
  assert (w ∈ c :: t1) as Hwin by (by apply last_Some_elem_of).
  assert (0 <= p < 64) as Hp64 by (apply Hin; set_solver).
  assert (0 <= w < 64) as Hw64 by (apply Hin; set_solver).
  assert (p ∉ c :: t1 ++ t2) as Hpn.
  { change (c :: t1 ++ p :: t2) with ((c :: t1) ++ p :: t2) in Hn. apply NoDup_app in Hn as (_ & H1 & H2).
    apply NoDup_cons in H2 as [H2 _]. intros [Hx|Hx]%(elem_of_app (c :: t1)); [|done]. apply (H1 p Hx). by left. }
  assert (NoDup (c :: t1 ++ t2)) as Hn2.
  { change (c :: t1 ++ p :: t2) with ((c :: t1) ++ p :: t2) in Hn. apply NoDup_app in Hn as (H1 & H2 & H3).
    apply NoDup_cons in H3 as [_ H3]. apply (NoDup_app (c :: t1)). split; [done|]. split; [|done].
    intros x Hx Hx2. apply (H2 x Hx). by right. }
  set (s' := upd_proc _ _ _).
  assert (forall j, 0 <= j < 64 -> get_proc s' j = if decide (j = p) then set_p_next (get_proc s p) None
     else if decide (j = w) then set_p_next (get_proc s w) (p_next (get_proc s p)) else get_proc s j) as Hg.
  { intros j Hj. unfold s'. rewrite !get_upd by (rewrite ?length_upd, ?Hl; lia).
    assert (p <> w) by (intros ->; apply Hpn; set_solver). repeat case_decide; subst; done. }
  split; [split|].
  - unfold s'. by rewrite !length_upd.
  - rewrite Forall_forall. intros x Hx. apply Hin. set_solver.
  - done.
  - exists c, (t1 ++ t2). split; [done|]. split; [exact Hq|]. split; [exact Hc|].
    apply path_app in Hpath as [Hp1 Hp2]. apply (path_bypass s s' c t1 p t2 c w); try done.
    + rewrite Hg by done. rewrite decide_False by (intros ->; apply Hpn; set_solver). by rewrite decide_True.
    + intros j Hj Hjw. rewrite Hg by (apply Hin; set_solver). rewrite decide_False by (by intros ->). by rewrite decide_False.
  - intros j Hj. rewrite Hg by done. repeat case_decide; subst; [by eexists..|]. exists (p_next (get_proc s j)). by destruct (get_proc s j).
Qed.

(** ** Choosing the next process *)

(** The abstract scheduler: the first runnable process behind the head comes to
    the front, the queue keeps its cyclic order. *)
Definition rotate (run : Z -> bool) (q : list Z) : list Z :=
  match q with
  | [] => []
  | c :: t => match first_idx run t with
              | Some i => drop i t ++ c :: take i t
              | None => q
              end
  end.

Lemma pick_path s h x l fuel : path s x l h -> h ∉ l -> (List.length l < fuel)%nat ->
  pick_loop fuel s h x =
    Some (match first_idx (fun p => runnable (get_proc s p)) l with Some i => nth i l h | None => h end).
Proof.
  revert x fuel. induction l as [|z l IH]; intros x [|fuel] Hp Hh Hf; try (cbn in Hf; lia); cbn [path] in Hp; cbn [pick_loop].
  - rewrite Hp. cbn. rewrite Z.eqb_refl. by destruct (runnable _).
  - destruct Hp as [-> Hp]. cbn [first_idx]. destruct (runnable (get_proc s z)); [done|].
    apply not_elem_of_cons in Hh as [Hhz Hh]. rewrite (proj2 (Z.eqb_neq z h)) by done.
    rewrite (IH z fuel Hp Hh) by (cbn in Hf; lia). by destruct (first_idx _ l).
Qed.

Section machine.
Context {A : Type} `{!FrameAlloc A}.
Implicit Types h : hst A.

(** What a switch from [c] to [n] leaves in the table: the states, and the saved
    registers of [c]. *)
Definition switched (m : mem) (s : pst) (c n : Z) (j : Z) : process :=
  let p := get_proc s j in
  if decide (j = n) then set_p_state p PROC_RUNNING
  else if decide (j = c) then
    set_p_ctx (if p_state p =? PROC_RUNNING then set_p_state p PROC_READY else p) (saved_ctx m (cpu s))
  else p.

(** The outcome of [scheduler_yield] when it switches to [n]. *)
Record yield_post (s : pst) h (c n : Z) (s' : pst) (h' : hst A) : Prop := {
  yp_cur : current_proc s' = Some n;
  yp_rq : run_queue s' = Some n;
  yp_len : List.length (proc_table s') = 64%nat;
  yp_proc j : 0 <= j < 64 -> get_proc s' j = switched (mm (hk h)) s c n j;
  yp_cpu : cpu s' = p_ctx (get_proc s n);
  yp_mem : mm (hk h') = mm (hk h) /\ fa (hk h') = fa (hk h) /\ caches h' = caches h;
  yp_cr3 : p_pml4 (get_proc s n) <> 0 -> p_pml4 (get_proc s n) = p_pml4 (get_proc s n) &b 0xffffffffff000 ->
    read_cr3 (hk h') &b 0xffffffffff000 = p_pml4 (get_proc s n);
  yp_stack : p_kstack (get_proc s n) <> 0 ->
    tss_rsp0 s' = u64 (p_kstack (get_proc s n) + KSTACK_SIZE) /\ syscall_kernel_rsp s' = tss_rsp0 s'
}.

Lemma context_switch_spec c n pml4 s h : 0 <= c < 64 -> 0 <= n < 64 -> n <> c -> List.length (proc_table s) = 64%nat ->
  let r := context_switch c n pml4 s h in
  current_proc (fst r) = current_proc s /\ run_queue (fst r) = run_queue s /\ List.length (proc_table (fst r)) = 64%nat /\
  (forall j, 0 <= j < 64 -> get_proc (fst r) j =
     if decide (j = c) then set_p_ctx (get_proc s c) (saved_ctx (mm (hk h)) (cpu s)) else get_proc s j) /\
  cpu (fst r) = p_ctx (get_proc s n) /\
  (mm (hk (snd r)) = mm (hk h) /\ fa (hk (snd r)) = fa (hk h) /\ caches (snd r) = caches h) /\
  (pml4 <> 0 -> pml4 = pml4 &b 0xffffffffff000 -> read_cr3 (hk (snd r)) &b 0xffffffffff000 = pml4) /\
  (tss_rsp0 (fst r) = tss_rsp0 s /\ syscall_kernel_rsp (fst r) = syscall_kernel_rsp s).
Proof.
  intros Hc Hn Hne Hl. unfold context_switch. set (s1 := upd_proc s c _).
  assert (forall j, 0 <= j < 64 -> get_proc s1 j =
    if decide (j = c) then set_p_ctx (get_proc s c) (saved_ctx (mm (hk h)) (cpu s)) else get_proc s j) as Hg
    by (intros j Hj; unfold s1; by rewrite get_upd by lia).
  assert (List.length (proc_table s1) = 64%nat) as Hl1 by (unfold s1; by rewrite length_upd).
  assert (p_ctx (get_proc s1 n) = p_ctx (get_proc s n)) as Hctx by (rewrite Hg by done; by rewrite decide_False).
  assert (current_proc s1 = current_proc s /\ run_queue s1 = run_queue s /\ tss_rsp0 s1 = tss_rsp0 s /\
    syscall_kernel_rsp s1 = syscall_kernel_rsp s) as (E1 & E2 & E3 & E4) by done. clearbody s1.
  destruct (Z.eqb_spec pml4 0), (Z.eqb_spec (read_cr3 (hk h) &b 0xffffffffff000) pml4); cbn [orb fst snd];
    (do 6 (split; [done|])); (split; [|done]); intros H1 H2; try done; try congruence.
Qed.

Lemma yield_spec s h c t fuel : sched_inv s (c :: t) -> (64 <= fuel)%nat ->
  match first_idx (fun p => runnable (get_proc s p)) t with
  | None => scheduler_yield fuel s h = Some (s, h)
  | Some i => exists n s' h', t !! i = Some n /\ scheduler_yield fuel s h = Some (s', h') /\ yield_post s h c n s' h'
  end.
Proof.
  intros Hs Hf. pose proof (sched_inv_length _ _ Hs) as Hlen. cbn in Hlen.
  pose proof Hs as [Hl Hr Hn (c' & t' & [= <- <-] & Hq & Hc & Hpath)].
  apply NoDup_cons in Hn as [Hct Hnt]. unfold scheduler_yield. rewrite Hq, (pick_path s c c t fuel Hpath Hct) by lia.
  destruct (first_idx _ t) as [i|] eqn:Ei.
  2: { by rewrite bool_decide_eq_true_2. }
  pose proof (first_idx_lt _ _ _ Ei) as Hi. destruct (lookup_lt_is_Some_2 t i Hi) as [n Hni].
  rewrite nth_lookup, Hni. cbn [default from_option id]. exists n.
  assert (n <> c) as Hnc by (intros ->; apply Hct; by eapply list_elem_of_lookup_2).
  rewrite bool_decide_eq_false_2 by (rewrite Hc; congruence). rewrite Hc.
  assert (0 <= n < 64) as Hn64 by (eapply (Forall_lookup_1 _ _ _ _ (Forall_inv_tail Hr)); exact Hni).
  pose proof (Forall_inv Hr) as Hc64. cbn in Hc64.
  set (s1 := ps_run_queue s (Some n)). set (s2 := if p_state (get_proc s1 c) =? _ then _ else _).
  assert (List.length (proc_table s2) = 64%nat) as Hl2 by (unfold s2; destruct (_ =? _); rewrite ?length_upd; done).
  assert (forall j, 0 <= j < 64 -> get_proc s2 j =
    if decide (j = c) then (if p_state (get_proc s c) =? PROC_RUNNING then set_p_state (get_proc s c) PROC_READY else get_proc s c)
    else get_proc s j) as Hg2.
  { intros j Hj. unfold s2. change (get_proc s1 c) with (get_proc s c). destruct (_ =? _).
    - rewrite get_upd by (change (proc_table s1) with (proc_table s); lia). case_decide; by subst.
    - case_decide; by subst. }
  set (s3 := ps_current_proc (upd_proc s2 n (fun q => set_p_state q PROC_RUNNING)) (Some n)).
  assert (forall j, 0 <= j < 64 -> get_proc s3 j = if decide (j = n) then set_p_state (get_proc s n) PROC_RUNNING
     else get_proc s2 j) as Hg3.
  { intros j Hj. unfold s3. change (get_proc (ps_current_proc ?x _) j) with (get_proc x j). rewrite get_upd by lia.
    case_decide; [|done]. rewrite Hg2 by lia. by rewrite decide_False. }
  assert (get_proc s3 n = set_p_state (get_proc s n) PROC_RUNNING) as Hs3n by (rewrite Hg3 by lia; by rewrite decide_True).
  rewrite Hs3n. cbn [p_kstack p_pml4 set_p_state].
  set (k := p_kstack (get_proc s n)). set (s4 := if k =? 0 then s3 else _).
  assert (proc_table s4 = proc_table s3 /\ run_queue s4 = Some n /\ current_proc s4 = Some n /\ cpu s4 = cpu s) as (E1 & E2 & E3 & E4).
  { unfold s4, s3, s2. destruct (k =? 0); [|]; destruct (p_state _ =? _); done. }
  assert (k <> 0 -> tss_rsp0 s4 = u64 (k + KSTACK_SIZE) /\ syscall_kernel_rsp s4 = tss_rsp0 s4) as Hst.
  { intros Hk. unfold s4. by rewrite (proj2 (Z.eqb_neq k 0)). }
  assert (forall j, get_proc s4 j = get_proc s3 j) as Hg4 by (intros j; unfold get_proc; by rewrite E1).
  assert (List.length (proc_table s4) = 64%nat) as Hl4 by (rewrite E1; unfold s3; cbn; by rewrite length_insert).
  clearbody s4 s2.
  exists (fst (context_switch c n (p_pml4 (get_proc s n)) s4 h)), (snd (context_switch c n (p_pml4 (get_proc s n)) s4 h)).
  split; [done|]. split; [rewrite Hg4, Hs3n; f_equal; apply surjective_pairing|].
  destruct (context_switch_spec c n (p_pml4 (get_proc s n)) s4 h) as (C1 & C2 & C3 & C4 & C5 & C6 & C7 & C8); [done..|].
  split.
  - by rewrite C1.
  - by rewrite C2.
  - done.
  - intros j Hj. rewrite C4 by done. rewrite E4, !Hg4, !Hg3 by done. unfold switched. rewrite !Hg2 by done.
    repeat case_decide; subst; try done.
  - rewrite C5, Hg4, Hs3n. done.
  - done.
  - done.
  - intros Hk. by destruct C8 as [-> ->]; apply Hst.
Qed.

(** Links are untouched by a switch. *)
Lemma switched_next m s c n j : p_next (switched m s c n j) = p_next (get_proc s j).
Proof. unfold switched. repeat case_decide; try done. by destruct (_ =? _). Qed.

(** The queue after a switch to the [i]-th process behind the head. *)
Lemma yield_inv s h c t i n s' h' : sched_inv s (c :: t) -> t !! i = Some n -> yield_post s h c n s' h' ->
  sched_inv s' (drop i t ++ c :: take i t).
Proof.
  intros [Hl Hr Hn (c' & t' & [= <- <-] & Hq & Hc & Hpath)] Hi Hy.
  pose proof (take_drop_middle t i n Hi) as Et. pose proof (drop_S t n i Hi) as Ed.
  assert (drop i t ++ c :: take i t ≡ₚ c :: t) as Hperm.
  { rewrite <-Permutation_middle. constructor. rewrite Permutation_app_comm. by rewrite take_drop. }
  split.
  - apply Hy.
  - by rewrite Hperm.
  - by rewrite Hperm.
  - exists n, (drop (S i) t ++ c :: take i t). split; [by rewrite Ed|]. split; [apply Hy|]. split; [apply Hy|].
    apply (path_ext s).
    + intros z Hz. rewrite (yp_proc _ _ _ _ _ _ Hy), switched_next; [done|]. rewrite Forall_forall in Hr. apply Hr.
      rewrite <-Hperm, Ed. exact Hz.
    + rewrite <-Et in Hpath. apply path_app in Hpath as [H1 H2]. by apply path_app.
Qed.

(** C8. The circular run queue implements a list of processes, the current one
    first: [scheduler_add] puts a process behind the head; [scheduler_remove] takes
    a process out of it; [scheduler_yield] switches to the first runnable process
    behind the head and rotates the queue to it (or does nothing when there is
    none).  Each returns, and leaves a well-formed circular list. *)
Theorem run_queue_refines s h c t : sched_inv s (c :: t) ->
  (forall p, 0 <= p < 64 -> p ∉ c :: t -> sched_inv (scheduler_add s p) (c :: p :: t)) /\
  (forall p t1 t2, t = t1 ++ p :: t2 -> exists s', scheduler_remove 64 s p = Some s' /\ sched_inv s' (c :: t1 ++ t2)) /\
  (exists s' h', scheduler_yield 64 s h = Some (s', h') /\
     sched_inv s' (rotate (fun p => runnable (get_proc s p)) (c :: t))).
Proof.
  intros Hs. split; [|split].
  - intros p Hp Hnin. by apply scheduler_add_spec.
  - intros p t1 t2 ->. destruct (scheduler_remove_spec s c t1 p t2 64 Hs ltac:(lia)) as (s' & E & Hs' & _). by exists s'.
  - pose proof (yield_spec s h c t 64 Hs ltac:(lia)) as Hy. unfold rotate. destruct (first_idx _ t) as [i|].
    + destruct Hy as (n & s' & h' & Hi & E & Hp). exists s', h'. split; [done|]. by eapply yield_inv.
    + by exists s, h.
Qed.

(** ** Fairness *)

(** Between two yields the running process does anything that leaves the queue
    alone; [p] stays runnable. *)
Definition turn (p : Z) (x y : pst * hst A) : Prop :=
  exists s1 h1, (forall q, sched_inv (fst x) q -> sched_inv s1 q) /\ runnable (get_proc s1 p) = true /\
    scheduler_yield 64 s1 h1 = Some y.

Lemma turn_progress p x y c t i : turn p x y -> sched_inv (fst x) (c :: t) -> t !! i = Some p ->
  current_proc (fst y) = Some p \/
  exists c' t' j, (j < i)%nat /\ sched_inv (fst y) (c' :: t') /\ t' !! j = Some p.
Proof.
  intros (s1 & h1 & Hinv & Hrun & Hy) Hs Hi. specialize (Hinv _ Hs).
  pose proof (yield_spec s1 h1 c t 64 Hinv ltac:(lia)) as Hspec.
  destruct (first_idx _ t) as [k|] eqn:Ek.
  2: { apply first_idx_None in Ek. pose proof (Forall_lookup_1 _ _ _ _ Ek Hi) as E. cbn in E. congruence. }
  destruct Hspec as (n & s' & h' & Hk & E & Hp). rewrite E in Hy. injection Hy as <-. cbn [fst].
  assert (k <= i)%nat as Hle.
  { destruct (decide (i < k)%nat) as [Hlt|]; [|lia]. apply first_idx_Some in Ek as [_ Hmin].
    pose proof (Hmin i p Hlt Hi) as E'. cbn in E'. congruence. }
  destruct (decide (k = i)) as [->|Hne].
  { left. rewrite Hi in Hk. injection Hk as ->. apply Hp. }
  right. pose proof (yield_inv s1 h1 c t k n s' h' Hinv Hk Hp) as Hs'. rewrite (drop_S t n k Hk) in Hs'.
  exists n, (drop (S k) t ++ c :: take k t), (i - S k)%nat. split; [lia|]. split; [exact Hs'|].
  rewrite lookup_app_l by (rewrite length_drop; apply lookup_lt_Some in Hi; lia). rewrite lookup_drop.
  by replace (S k + (i - S k))%nat with i by lia.
Qed.

(** C33. Round robin: a runnable process that stands at position [i] behind the
    running one is running after at most [i + 1] yields, whatever the processes do
    with their turns short of changing the queue. *)
Theorem round_robin p c t i (x : nat -> pst * hst A) : sched_inv (fst (x O)) (c :: t) -> t !! i = Some p ->
  (forall k, turn p (x k) (x (S k))) -> exists k, (0 < k <= S i)%nat /\ current_proc (fst (x k)) = Some p.
Proof.
  revert c t x. induction i as [i IH] using lt_wf_ind. intros c t x Hs Hi Hx.
  destruct (turn_progress p (x O) (x 1%nat) c t i (Hx O) Hs Hi) as [Hc|(c' & t' & j & Hj & Hs' & Hj')].
  - exists 1%nat. split; [lia|done].
  - destruct (IH j Hj c' t' (fun k => x (S k)) Hs' Hj' (fun k => Hx (S k))) as (k & Hk & Hc). exists (S k). split; [lia|done].
Qed.

(** ** Registers survive *)

(** What happens while [a] is switched out: others run, touching neither the queue's
    shape nor [a]'s saved registers, and yield to others. *)
Inductive away (a : Z) : pst * hst A -> pst * hst A -> Prop :=
  | aw_run s h s' h' q : sched_inv s' q -> current_proc s' = current_proc s ->
      p_ctx (get_proc s' a) = p_ctx (get_proc s a) -> away a (s, h) (s', h')
  | aw_yield s h s' h' : scheduler_yield 64 s h = Some (s', h') -> current_proc s' <> Some a -> away a (s, h) (s', h').

Definition parked (a : Z) (c : cpu_context) (x : pst * hst A) : Prop :=
  (exists q, sched_inv (fst x) q) /\ current_proc (fst x) <> Some a /\ p_ctx (get_proc (fst x) a) = c.

(** A yield by another process: [a] stays parked, or gets its registers. *)
Lemma parked_yield a c s h s' h' : 0 <= a < 64 -> parked a c (s, h) -> scheduler_yield 64 s h = Some (s', h') ->
  parked a c (s', h') \/ (current_proc s' = Some a /\ cpu s' = c).
Proof.
  intros Ha ((q & Hs) & Hcur & Hctx) Hy. cbn [fst] in *.
  pose proof (sv_ring _ _ Hs) as (c0 & t & -> & _ & Hc0 & _).
  pose proof (yield_spec s h c0 t 64 Hs ltac:(lia)) as Hsp. destruct (first_idx _ t) as [i|].
  - destruct Hsp as (n & s1 & h1 & Hi & E & Hp). rewrite E in Hy. injection Hy as <- <-.
    assert (p_ctx (get_proc s1 a) = c) as Hctx1.
    { rewrite (yp_proc _ _ _ _ _ _ Hp) by done. unfold switched. repeat case_decide; try done. congruence. }
    destruct (decide (n = a)) as [->|Hne].
    + right. split; [apply Hp|]. rewrite (yp_cpu _ _ _ _ _ _ Hp). done.
    + left. split; [eexists; by eapply yield_inv|]. split; [|done]. cbn [fst]. rewrite (yp_cur _ _ _ _ _ _ Hp). congruence.
  - rewrite Hsp in Hy. injection Hy as <- <-. left. split; [by eexists|done].
Qed.

Lemma switched_back a t s0 h0 x1 x2 x3 : sched_inv s0 (a :: t) ->
  scheduler_yield 64 s0 h0 = Some x1 -> current_proc (fst x1) <> Some a ->
  rtc (away a) x1 x2 -> scheduler_yield 64 (fst x2) (snd x2) = Some x3 -> current_proc (fst x3) = Some a ->
  cpu (fst x3) = saved_ctx (mm (hk h0)) (cpu s0) /\
  let pml4 := p_pml4 (get_proc (fst x2) a) in
  (pml4 <> 0 -> pml4 = pml4 &b 0xffffffffff000 -> read_cr3 (hk (snd x3)) &b 0xffffffffff000 = pml4).
Proof.
  intros Hs Hy Hc1 Haway Hy3 Hc3. set (c := saved_ctx (mm (hk h0)) (cpu s0)).
  pose proof (Forall_inv (sv_range _ _ Hs)) as Ha. cbn in Ha.
  assert (parked a c x1) as H1.
  { pose proof (yield_spec s0 h0 a t 64 Hs ltac:(lia)) as Hsp. destruct (first_idx _ t) as [i|].
    - destruct Hsp as (n & s' & h' & Hi & E & Hp). rewrite E in Hy. injection Hy as <-.
      split; [eexists; by eapply yield_inv|]. split; [done|]. cbn [fst]. rewrite (yp_proc _ _ _ _ _ _ Hp) by done.
      cbn [fst] in Hc1. unfold switched. rewrite decide_False by (intros <-; by rewrite (yp_cur _ _ _ _ _ _ Hp) in Hc1).
      by rewrite decide_True.
    - rewrite Hsp in Hy. injection Hy as <-. destruct Hc1.
      destruct (sv_ring _ _ Hs) as (c0 & t0 & [= <- <-] & _ & ? & _). done. }
  assert (parked a c x2) as H2.
  { clear Hy Hy3 Hc1. induction Haway as [x|x y z Hxy _ IH]; [done|]. apply IH.
    destruct H1 as (Hq1 & Hcu & Hcx). destruct Hxy as [s h s' h' q Hq Hcur Hctx|s h s' h' Hyy Hcur]; cbn [fst] in *.
    - split; [by exists q|]. cbn [fst]. split; congruence.
    - destruct (parked_yield a c s h s' h' Ha) as [?|[? _]]; done. }
  destruct x2 as [s2 h2], x3 as [s3 h3]. cbn [fst snd] in *.
  destruct (parked_yield a c s2 h2 s3 h3 Ha H2 Hy3) as [(_ & ? & _)|[_ Hcpu]]; [done|]. split; [done|].
  destruct H2 as ((q & Hs2) & Hcur & _). cbn [fst] in *. pose proof (sv_ring _ _ Hs2) as (c0 & t0 & -> & _ & Hc0 & _).
  pose proof (yield_spec s2 h2 c0 t0 64 Hs2 ltac:(lia)) as Hsp. destruct (first_idx _ t0) as [i|].
  - destruct Hsp as (n & s' & h' & _ & E & Hp). rewrite E in Hy3. injection Hy3 as <- <-.
    rewrite (yp_cur _ _ _ _ _ _ Hp) in Hc3. injection Hc3 as ->. apply Hp.
  - rewrite Hsp in Hy3. injection Hy3 as <- <-. congruence.
Qed.

(** C24. Registers survive: when a process yields and is switched out, and other
    processes run and yield for any length of time, then when it is switched in
    again the CPU has the values that [rbx], [rbp] and [r12] to [r15] had at its own
    call of [context_switch], continues at the return address this call pushed, with
    the stack pointer just above it, and (if the process has an address space of its
    own, page aligned) CR3 points to it. *)
Theorem context_preserved a t s0 h0 x1 x2 x3 : sched_inv s0 (a :: t) ->
  scheduler_yield 64 s0 h0 = Some x1 -> current_proc (fst x1) <> Some a ->
  rtc (away a) x1 x2 -> scheduler_yield 64 (fst x2) (snd x2) = Some x3 -> current_proc (fst x3) = Some a ->
  let before := cpu s0 in
  let after := cpu (fst x3) in
  (rbx after = rbx before /\ rbp after = rbp before /\ r12 after = r12 before /\ r13 after = r13 before /\
   r14 after = r14 before /\ r15 after = r15 before) /\
  rip after = load64 (mm (hk h0)) (rsp before) /\ rsp after = u64 (rsp before + 8) /\
  let pml4 := p_pml4 (get_proc (fst x2) a) in
  (pml4 <> 0 -> pml4 = pml4 &b 0xffffffffff000 -> read_cr3 (hk (snd x3)) &b 0xffffffffff000 = pml4).
Proof.
  intros Hs Hy Hc1 Haway Hy3 Hc3. destruct (switched_back a t s0 h0 x1 x2 x3 Hs Hy Hc1 Haway Hy3 Hc3) as [-> Hcr3]. done.
Qed.

(** ** fork, exit, waitpid *)

Lemma wait_loop_spec resume pid k : forall s h s1 h1 fuel, (k < fuel)%nat ->
  Nat.iter k resume (s, h) = (s1, h1) -> p_state (get_proc s1 pid) = PROC_ZOMBIE ->
  (forall j, (j < k)%nat -> p_state (get_proc (fst (Nat.iter j resume (s, h))) pid) <> PROC_ZOMBIE) ->
  wait_loop fuel resume pid s h = Some (s1, h1).
Proof.
  induction k as [|k IH]; intros s h s1 h1 [|fuel] Hf Hk Hz Hn; try lia; cbn [wait_loop].
  - cbn in Hk. injection Hk as -> ->. by rewrite Hz.
  - pose proof (Hn O ltac:(lia)) as H0. cbn in H0. rewrite (proj2 (Z.eqb_neq _ _) H0).
    destruct (resume (s, h)) as [s' h'] eqn:E.
    assert (forall j, Nat.iter j resume (s', h') = Nat.iter (S j) resume (s, h)) as Hit
      by (intros j; rewrite <-E; by rewrite Nat.iter_succ_r).
    apply IH; [lia|by rewrite Hit|done|]. intros j Hj. rewrite Hit. apply Hn. lia.
Qed.

(** C34. [process_waitpid] of a child that becomes a zombie after [k] turns returns
    its pid and the exit status it left, takes it out of the run queue and frees its
    table slot; no other descriptor changes (but for the queue's link). *)
Theorem waitpid_reaps s h c pid s1 h1 t1 t2 resume k fuel :
  0 <= pid < 64 -> p_state (get_proc s pid) <> PROC_UNUSED -> current_proc s = Some c ->
  p_ppid (get_proc s pid) = p_pid (get_proc s c) ->
  Nat.iter k resume (s, h) = (s1, h1) -> p_state (get_proc s1 pid) = PROC_ZOMBIE ->
  (forall j, (j < k)%nat -> p_state (get_proc (fst (Nat.iter j resume (s, h))) pid) <> PROC_ZOMBIE) ->
  sched_inv s1 (c :: t1 ++ pid :: t2) -> (64 <= fuel)%nat -> (k < fuel)%nat ->
  exists s2, process_waitpid fuel resume pid s h = Some (pid, p_exit (get_proc s1 pid), s2, h1) /\
    sched_inv s2 (c :: t1 ++ t2) /\ p_state (get_proc s2 pid) = PROC_UNUSED /\
    forall j, 0 <= j < 64 -> j <> pid -> exists n, get_proc s2 j = set_p_next (get_proc s1 j) n.
Proof.
  intros Hpid Hu Hc Hpp Hk Hz Hn Hs Hf Hkf. unfold process_waitpid.
  destruct (Z.leb_spec PROC_MAX pid) as [Hmax|_]; [unfold PROC_MAX in Hmax; lia|].
  rewrite (proj2 (Z.eqb_neq _ _) Hu), Hc, Hpp, Z.eqb_refl. cbn [negb].
  rewrite (wait_loop_spec resume pid k s h s1 h1 fuel Hkf Hk Hz Hn).
  destruct (scheduler_remove_spec s1 c t1 pid t2 fuel Hs Hf) as (s2 & -> & Hs2 & Hg).
  assert (i32 pid = pid) as ->.
  { unfold i32, sint. rewrite Z.mod_small by lia. destruct (Z.ltb_spec pid (2 ^ (32 - 1))); lia. }
  destruct (Hg pid Hpid) as [np Hnp]. rewrite Hnp.
  eexists. split; [reflexivity|]. split; [by apply sched_inv_upd|].
  pose proof (sv_len _ _ Hs2) as Hl. split.
  - rewrite get_upd by lia. by rewrite decide_True.
  - intros j Hj Hne. rewrite get_upd by lia. rewrite decide_False by done. by apply Hg.
Qed.

(** An update of a descriptor outside the queue. *)
Lemma sched_inv_out s q i g : sched_inv s q -> 0 <= i < 64 -> i ∉ q -> sched_inv (upd_proc s i g) q.
Proof.
  intros Hs Hi Hnin. eapply sched_inv_ext; [done| |done|done|].
  - rewrite length_upd. apply Hs.
  - intros p Hp. pose proof (sv_range _ _ Hs) as Hr. rewrite Forall_forall in Hr. specialize (Hr p Hp).
    rewrite get_upd by (rewrite ?(sv_len _ _ Hs); lia). by rewrite decide_False by (intros ->; done).
Qed.

Lemma alloc_pid_spec s : List.length (proc_table s) = 64%nat -> alloc_pid s <> -1 ->
  0 <= alloc_pid s < 64 /\ p_state (get_proc s (alloc_pid s)) = PROC_UNUSED.
Proof.
  intros Hl. unfold alloc_pid. rewrite take_ge by lia. destruct (first_idx _ _) as [i|] eqn:E; [|done]. intros _.
  pose proof (first_idx_lt _ _ _ E). split; [lia|]. apply first_idx_Some in E as [(p & Hp & Hu) _].
  unfold get_proc. rewrite Nat2Z.id, nth_lookup, Hp. cbn. lia.
Qed.

(** What [process_fork] leaves of the descriptors: the child's, and the parent's
    address space. *)
Record forked (tramp : Z) (s : pst) (c pid : Z) (s' : pst) : Prop := {
  fk_pid : p_pid (get_proc s' pid) = pid;
  fk_ppid : p_ppid (get_proc s' pid) = p_pid (get_proc s c);
  fk_state : p_state (get_proc s' pid) = PROC_READY;
  fk_exit : p_exit (get_proc s' pid) = 0;
  fk_stack : p_kstack (get_proc s' pid) <> 0;
  fk_space : p_pml4 (get_proc s' pid) <> 0;
  fk_mmap : mmap_next (get_proc s' pid) = mmap_next (get_proc s pid);
  fk_ctx : p_ctx (get_proc s' pid) = mk_ctx 0 0 (user_rip (get_proc s c)) (user_rflags (get_proc s c)) (user_rsp (get_proc s c)) 0
      (u64 (u64 (p_kstack (get_proc s' pid) + KSTACK_SIZE) - 8)) tramp;
  fk_parent : exists r n, get_proc s' c = set_p_next (set_p_pml4 (get_proc s c) r) n;
  fk_other j : 0 <= j < 64 -> j <> c -> j <> pid -> get_proc s' j = get_proc s j
}.

(** States on the way through [process_fork]: the child's descriptor is [d], the
    parent's address space [r], nothing else differs from [s]. *)
Record forking (s : pst) (c : Z) (t : list Z) (pid : Z) (d : process) (r : Z) (x : pst) : Prop := {
  fg_inv : sched_inv x (c :: t);
  fg_child : get_proc x pid = d;
  fg_parent : get_proc x c = set_p_pml4 (get_proc s c) r;
  fg_other j : 0 <= j < 64 -> j <> c -> j <> pid -> get_proc x j = get_proc s j
}.

Lemma forking_child s c t pid d r x g : forking s c t pid d r x -> 0 <= pid < 64 -> pid ∉ c :: t -> 0 <= c ->
  forking s c t pid (g d) r (upd_proc x pid g).
Proof.
  intros [Hi Hd Hc Ho] Hp Hn Hc0. pose proof (sv_len _ _ Hi) as Hl. apply not_elem_of_cons in Hn as Hn'. destruct Hn' as [Hpc _].
  split.
  - by apply sched_inv_out.
  - rewrite get_upd by lia. rewrite decide_True by done. by rewrite Hd.
  - rewrite get_upd by lia. by rewrite decide_False by (by intros ->).
  - intros j Hj Hjc Hjp. rewrite get_upd by lia. rewrite decide_False by done. by apply Ho.
Qed.
Lemma forking_parent s c t pid d r x r' : forking s c t pid d r x -> 0 <= c < 64 -> 0 <= pid -> pid <> c ->
  forking s c t pid d r' (upd_proc x c (fun p => set_p_pml4 p r')).
Proof.
  intros [Hi Hd Hc Ho] Hp Hn Hne. pose proof (sv_len _ _ Hi) as Hl. split.
  - by apply sched_inv_upd.
  - rewrite get_upd by lia. by rewrite decide_False.
  - rewrite get_upd by lia. rewrite decide_True by done. by rewrite Hc.
  - intros j Hj Hjc Hjp. rewrite get_upd by lia. rewrite decide_False by done. by apply Ho.
Qed.

(** The descriptors after [scheduler_add] of the child. *)
Lemma forking_add s c t pid d r x tramp : forking s c t pid d r x -> 0 <= pid < 64 -> pid ∉ c :: t -> 0 <= c < 64 ->
  p_pid d = pid -> p_ppid d = p_pid (get_proc s c) -> p_state d = PROC_READY -> p_exit d = 0 -> p_kstack d <> 0 -> p_pml4 d <> 0 ->
  mmap_next d = mmap_next (get_proc s pid) ->
  p_ctx d = mk_ctx 0 0 (user_rip (get_proc s c)) (user_rflags (get_proc s c)) (user_rsp (get_proc s c)) 0
      (u64 (u64 (p_kstack d + KSTACK_SIZE) - 8)) tramp ->
  sched_inv (scheduler_add x pid) (c :: pid :: t) /\ forked tramp s c pid (scheduler_add x pid).
Proof.
  intros [Hi Hd Hc Ho] Hp Hn Hc64 D1 D2 D3 D4 D5 D6 D7 D8. split; [by apply scheduler_add_spec|].
  pose proof (sv_len _ _ Hi) as Hl. apply not_elem_of_cons in Hn as [Hpc _].
  pose proof (sv_ring _ _ Hi) as (c' & t' & [= <- <-] & Hrq & _ & _).
  assert (forall j, 0 <= j < 64 -> exists n, get_proc (scheduler_add x pid) j = set_p_next (get_proc x j) n /\
    (j <> c -> j <> pid -> get_proc (scheduler_add x pid) j = get_proc x j)) as Hg.
  { intros j Hj. unfold scheduler_add. rewrite Hrq.
    rewrite !get_upd by (rewrite ?length_upd; lia). repeat case_decide; subst; try done; try (eexists; split; [reflexivity|done]).
    exists (p_next (get_proc x j)). split; [by destruct (get_proc x j)|done]. }
  destruct (Hg pid Hp) as (n & En & _). destruct (Hg c Hc64) as (n' & Ec & _).
  split; rewrite ?En, ?Hd; try done.
  - rewrite Ec, Hc. by exists r, n'.
  - intros j Hj Hjc Hjp. destruct (Hg j Hj) as (_ & _ & Hsame). rewrite Hsame by done. by apply Ho.
Qed.

(** The address space of the parent [pml4] (0: none of its own), or the child's copy
    of it, cannot be had in [h]. *)
Definition no_space (h : hst A) (pml4 : Z) : Prop :=
  let '(src, h2) := if pml4 =? 0 then let '(r, k) := vmm_create_user_pml4 (hk h) in (r, set_hk h k) else (pml4, h) in
  src = 0 \/ fst (vmm_fork_pml4 (hk h2) src) = 0.

(** C27. [process_fork] of a process in a well-formed queue either returns -1 and
    leaves the queue as it was, or returns the pid of a free table slot, now a READY
    child of the caller right behind it in the queue, with a kernel stack and an
    address space, whose context enters the trampoline, which returns to user mode
    at the instruction, stack and flags of the caller's system call with result 0;
    no third descriptor changes, and the child's mmap cursor is what its table slot
    held before, not the parent's.  It can only fail to return when there is no
    memory for page tables, and then only in releasing the kernel stack. *)
Theorem fork_child fuel tramp s h c t : sched_inv s (c :: t) ->
  Forall (fun p => p_state (get_proc s p) <> PROC_UNUSED) (c :: t) ->
  match process_fork fuel tramp s h with
  | Some (r0, s', _) =>
      (r0 = -1 /\ sched_inv s' (c :: t)) \/
      (0 <= r0 < 64 /\ p_state (get_proc s r0) = PROC_UNUSED /\ sched_inv s' (c :: r0 :: t) /\ forked tramp s c r0 s' /\
       fork_sysret_trampoline (p_ctx (get_proc s' r0)) =
         mk_user (user_rip (get_proc s c)) (user_rflags (get_proc s c)) (user_rsp (get_proc s c)) 0)
  | None => exists k h1 h2, kmalloc h KSTACK_SIZE = (k, h1) /\ k <> 0 /\ no_space h1 (p_pml4 (get_proc s c)) /\ kfree fuel h2 k = None
  end.
Proof.
  intros Hs Hused. pose proof (sv_ring _ _ Hs) as (c' & t' & [= <- <-] & Hrq & Hcur & _).
  pose proof (sv_len _ _ Hs) as Hl. unfold process_fork. rewrite Hcur.
  destruct (Z.ltb_spec (alloc_pid s) 0) as [|Hp0]; [by left|].
  destruct (alloc_pid_spec s Hl ltac:(lia)) as [Hp Hpu]. set (pid := alloc_pid s) in *.
  assert (pid ∉ c :: t) as Hnin by (intros Hin; rewrite Forall_forall in Hused; by apply (Hused pid Hin)).
  assert (pid <> c) as Hpc by (intros E; apply Hnin; rewrite E; by left).
  pose proof (Forall_inv (sv_range _ _ Hs)) as Hc64. cbn in Hc64.
  assert (forking s c t pid (get_proc s pid) (p_pml4 (get_proc s c)) s) as F0 by (split; try done; by destruct (get_proc s c)).
  eapply (forking_child _ _ _ _ _ _ _ (fun p => set_p_next (set_p_state (set_p_exit (set_p_ppid (set_p_pid p pid)
                   (p_pid (get_proc s c))) 0) PROC_READY) None)) in F0; [|done|done|lia].
  set (s1 := upd_proc s pid _) in *.
  eapply (forking_child _ _ _ _ _ _ _ (fun p => set_p_name p (str_trunc 31 (p_name (get_proc s1 c))))) in F0; [|done|done|lia].
  set (s2 := upd_proc s1 pid _) in *. destruct (kmalloc h KSTACK_SIZE) as [k h1] eqn:Ekm.
  eapply (forking_child _ _ _ _ _ _ _ (fun p => set_p_kstack p k)) in F0; [|done|done|lia].
  set (s3 := upd_proc s2 pid _) in *.
  assert (forall d r x, forking s c t pid d r x -> sched_inv (upd_proc x pid (fun p => set_p_state p PROC_UNUSED)) (c :: t)) as Hfail.
  { intros d r1 x Fx. apply sched_inv_out; [apply Fx|done|done]. }
  destruct (Z.eqb_spec k 0) as [->|Hk]; [left; split; [done|by apply (Hfail _ _ s3 F0)]|].
  assert (p_pml4 (get_proc s3 c) = p_pml4 (get_proc s c)) as -> by (rewrite (fg_parent _ _ _ _ _ _ _ F0); done).
  pose proof (eq_refl (no_space h1 (p_pml4 (get_proc s c)))) as Hns. unfold no_space in Hns at 2.
  destruct (if p_pml4 (get_proc s c) =? 0 then _ else _) as [src h2].
  destruct (Z.eqb_spec src 0) as [->|Hsrc].
  { destruct (kfree fuel h2 k) as [h3|] eqn:Ekf; [left; split; [done|by apply (Hfail _ _ s3 F0)]|].
    exists k, h1, h2. rewrite Hns. auto. }
  apply (forking_parent _ _ _ _ _ _ _ src) in F0; [|done|lia|done]. set (s4 := upd_proc s3 c _) in *.
  destruct (vmm_fork_pml4 (hk h2) src) as [dst k2]. cbn [fst] in Hns.
  eapply (forking_child _ _ _ _ _ _ _ (fun p => set_p_pml4 p dst)) in F0; [|done|done|lia].
  set (s5 := upd_proc s4 pid _) in *.
  destruct (Z.eqb_spec dst 0) as [->|Hdst].
  { destruct (kfree fuel (set_hk h2 k2) k) as [h3|] eqn:Ekf; [left; split; [done|by apply (Hfail _ _ s5 F0)]|].
    exists k, h1, (set_hk h2 k2). rewrite Hns. auto. }
  pose proof (fg_parent _ _ _ _ _ _ _ F0) as Hpar5.
  eapply (forking_child _ _ _ _ _ _ _ (fun p => set_user_rflags (set_user_rsp (set_user_rip p
                         (user_rip (get_proc s5 c))) (user_rsp (get_proc s5 c))) (user_rflags (get_proc s5 c)))) in F0; [|done|done|lia].
  set (s6 := upd_proc s5 pid _) in *. pose proof (fg_parent _ _ _ _ _ _ _ F0) as Hpar6.
  eapply (forking_child _ _ _ _ _ _ _ (fun p => set_p_ctx p
                         (mk_ctx 0 0 (user_rip (get_proc s6 c)) (user_rflags (get_proc s6 c)) (user_rsp (get_proc s6 c)) 0
                           (u64 (u64 (k + KSTACK_SIZE) - 8)) tramp))) in F0; [|done|done|lia].
  right. split; [done|]. split; [done|].
  clearbody s1 s2 s3 s4 s5 s6. clear Hfail.
  eapply (forking_add _ _ _ _ _ _ _ tramp) in F0 as [Hi Hf]; [|done..|by cbn; rewrite Hpar6].
  split; [exact Hi|]. split; [exact Hf|]. by rewrite (fk_ctx _ _ _ _ _ Hf).
Qed.
End machine.

(** ** A concrete queue: idle (0) running, process 1 ready *)

Definition demo_blank : pst := mk_pst (replicate 64 proc_default) None None 0 0 0 0 (mk_ctx 1 2 3 4 5 6 0x8000 0).
Definition demo_boot : pst := snd (scheduler_init 0 (snd (process_init demo_blank))).
Definition demo_two : pst := scheduler_add (upd_proc demo_boot 1 (fun p => set_p_state (set_p_pid p 1) PROC_READY)) 1.

Lemma demo_two_inv : sched_inv demo_two [0; 1].
Proof.
  split; [done|repeat constructor; lia|repeat constructor; set_solver|]. exists 0, [1]. by vm_compute.
Qed.

Lemma run_queue_refines_witness : exists s', scheduler_remove 64 demo_two 1 = Some s' /\ sched_inv s' [0].
Proof. exact (proj1 (proj2 (run_queue_refines demo_two demo_heap 0 [1] demo_two_inv)) 1 [] [] eq_refl). Defined.

(** The state after a yield. *)
Definition demo_step (x : pst * hst pmm_state) : pst * hst pmm_state :=
  match scheduler_yield 64 (fst x) (snd x) with Some y => y | None => x end.
Lemma demo_steps x q : sched_inv (fst x) q -> scheduler_yield 64 (fst x) (snd x) = Some (demo_step x).
Proof.
  intros Hs. pose proof (sv_ring _ _ Hs) as (c & t & -> & _).
  pose proof (yield_spec (fst x) (snd x) c t 64 Hs ltac:(lia)) as Hy. unfold demo_step.
  destruct (first_idx _ t) as [i|]; [destruct Hy as (n & s' & h' & _ & -> & _)|rewrite Hy]; done.
Qed.
Lemma demo_switch x c t i : sched_inv (fst x) (c :: t) -> first_idx (fun p => runnable (get_proc (fst x) p)) t = Some i ->
  sched_inv (fst (demo_step x)) (drop i t ++ c :: take i t).
Proof.
  intros Hs E. pose proof (yield_spec (fst x) (snd x) c t 64 Hs ltac:(lia)) as Hy. rewrite E in Hy.
  destruct Hy as (n & s' & h' & Hn & Hy & Hp). unfold demo_step. rewrite Hy. by eapply yield_inv.
Qed.

(** Idle waits from now on. *)
Definition demo_wait : pst * hst pmm_state := (upd_proc demo_two 0 (fun p => set_p_state p PROC_BLOCKED), demo_heap).
Lemma demo_wait_inv : sched_inv (fst demo_wait) [0; 1].
Proof. apply sched_inv_upd; [apply demo_two_inv|lia|done]. Qed.
Lemma demo_one_inv : sched_inv (fst (demo_step demo_wait)) [1; 0].
Proof. exact (demo_switch demo_wait 0 [1] 0 demo_wait_inv eq_refl). Qed.

Definition demo_run (k : nat) : pst * hst pmm_state := match k with O => (demo_two, demo_heap) | S _ => demo_step demo_wait end.

Lemma round_robin_witness : exists k, (0 < k <= 1)%nat /\ current_proc (fst (demo_run k)) = Some 1.
Proof.
  refine (round_robin 1 0 [1] 0 demo_run demo_two_inv eq_refl _).
  intros [|k].
  - exists (fst demo_wait), (snd demo_wait). split; [intros q Hq; apply sched_inv_upd; [exact Hq|lia|reflexivity]|].
    split; [reflexivity|]. exact (demo_steps _ _ demo_wait_inv).
  - unfold turn, demo_run. exists (fst (demo_step demo_wait)), (snd (demo_step demo_wait)). split; [intros q Hq; exact Hq|].
    split; [vm_compute; reflexivity|].
    assert (first_idx (fun p => runnable (get_proc (fst (demo_step demo_wait)) p)) [0] = None) as E by (vm_compute; reflexivity).
    pose proof (yield_spec (fst (demo_step demo_wait)) (snd (demo_step demo_wait)) 1 [0] 64 demo_one_inv ltac:(lia)) as Hy.
    rewrite E in Hy. rewrite Hy. rewrite <-surjective_pairing. exact eq_refl.
Defined.

Definition demo_start : pst * hst pmm_state := (demo_two, demo_heap).
Lemma context_preserved_witness : rbx (cpu demo_two) = 1 /\ r15 (cpu demo_two) = 6 /\
  rbx (cpu (fst (demo_step (demo_step demo_start)))) = 1 /\ r15 (cpu (fst (demo_step (demo_step demo_start)))) = 6 /\
  rsp (cpu (fst (demo_step (demo_step demo_start)))) = 0x8008.
Proof.
  destruct (context_preserved 0 [1] demo_two demo_heap (demo_step demo_start) (demo_step demo_start)
    (demo_step (demo_step demo_start)) demo_two_inv (demo_steps demo_start _ demo_two_inv)) as ((Hb & _ & _ & _ & _ & Hf) & _ & Hsp & _).
  - by vm_compute.
  - exact (rtc_refl _ _).
  - exact (demo_steps _ _ (demo_switch demo_start 0 [1] 0 demo_two_inv eq_refl)).
  - vm_compute; reflexivity.
  - split; [reflexivity|]. split; [reflexivity|]. split; [exact Hb|]. split; [exact Hf|exact Hsp].
Defined.

(** Process 1 exits with status 7 while process 0 waits for it. *)
Definition demo_zombie : pst := upd_proc demo_two 1 (fun p => set_p_exit (set_p_state p PROC_ZOMBIE) 7).
Definition demo_exits (x : pst * hst pmm_state) : pst * hst pmm_state := (demo_zombie, snd x).
Lemma waitpid_reaps_witness : exists s2,
  process_waitpid 64 demo_exits 1 demo_two demo_heap = Some (1, 7, s2, demo_heap) /\ p_state (get_proc s2 1) = PROC_UNUSED.
Proof.
  destruct (waitpid_reaps demo_two demo_heap 0 1 demo_zombie demo_heap [] [] demo_exits 1 64) as (s2 & E & _ & Hu & _).
  - lia.
  - by vm_compute.
  - reflexivity.
  - reflexivity.
  - reflexivity.
  - reflexivity.
  - intros j Hj. replace j with 0%nat by lia. by vm_compute.
  - apply sched_inv_upd; [exact demo_two_inv|lia|reflexivity].
  - lia.
  - lia.
  - exists s2. split; [exact E|exact Hu].
Defined.

(** Enough free frames for a kernel stack and two address spaces. *)
Definition demo_frames : hst pmm_state :=
  snd (heap_init (mk_hst (set_fa demo_vm (fold_left fa_free [0xA000; 0xB000; 0xC000; 0xD000; 0xE000] demo_pmm)) [])).
Definition demo_fork : Z * pst * hst pmm_state :=
  match process_fork 10 0x1234 demo_two demo_frames with Some x => x | None => (0, demo_two, demo_frames) end.

Lemma fork_child_witness : forked 0x1234 demo_two 0 2 (snd (fst demo_fork)).
Proof.
  assert (match process_fork 10 0x1234 demo_two demo_frames with Some (r, _, _) => r | None => -1 end = 2) as Er by (vm_compute; reflexivity).
  unfold demo_fork. destruct (process_fork 10 0x1234 demo_two demo_frames) as [[[r s'] h']|] eqn:E; [|discriminate Er].
  cbn [fst snd]. subst r.
  pose proof (fork_child 10 0x1234 demo_two demo_frames 0 [1] demo_two_inv ltac:(repeat constructor; discriminate)) as H.
  rewrite E in H. destruct H as [[? _]|(_ & _ & _ & Hf & _)]; [discriminate|exact Hf].
Defined.
