(* ===== verification/Elf.v ===== *)
(** * Program loading: src/elf/elf.c, and anonymous memory: src/dynlink/dynlink.c

    The ELF image is a byte range of kernel memory; headers are read from it field
    by field.  Loading allocates frames, fills them through the higher-half window
    and maps them into the target address space (Vmm.v). *)

From S2P Require Import Prelude Mem Pmm Vmm Heap Proc.

Definition ELF_MAX_PHDRS : Z := 16.
Definition PT_LOAD : Z := 1.
Definition PF_X : Z := 1 <<b 0.
Definition PF_W : Z := 1 <<b 1.
Definition sizeof_elf64_hdr : Z := 64.
Definition sizeof_elf64_phdr : Z := 56.

(** [elf64_phdr_t]. *)
Record elf64_phdr := mk_phdr {
  p_type : Z; p_flags : Z; p_offset : Z; p_vaddr : Z; p_filesz : Z; p_memsz : Z
}.
Definition read_phdr (m : mem) (a : Z) : elf64_phdr :=
  mk_phdr (load32 m a) (load32 m (a + 4)) (load64 m (a + 8)) (load64 m (a + 16)) (load64 m (a + 32)) (load64 m (a + 40)).

(** The fields of [elf64_hdr_t] the loader uses. *)
Definition e_ident (m : mem) (hdr i : Z) : Z := m (hdr + i).
Definition e_type (m : mem) (hdr : Z) : Z := load 2 m (hdr + 16).
Definition e_machine (m : mem) (hdr : Z) : Z := load 2 m (hdr + 18).
Definition e_entry (m : mem) (hdr : Z) : Z := load64 m (hdr + 24).
Definition e_phoff (m : mem) (hdr : Z) : Z := load64 m (hdr + 32).
Definition e_phentsize (m : mem) (hdr : Z) : Z := load 2 m (hdr + 54).
Definition e_phnum (m : mem) (hdr : Z) : Z := load 2 m (hdr + 56).

Definition elf_check (m : mem) (hdr buf_size : Z) : Z :=
  if buf_size <? sizeof_elf64_hdr then -1
  else if negb (e_ident m hdr 0 =? 0x7F) then -1
  else if negb (e_ident m hdr 1 =? 69) then -1
  else if negb (e_ident m hdr 2 =? 76) then -1
  else if negb (e_ident m hdr 3 =? 70) then -1
  else if negb (e_ident m hdr 4 =? 2) then -1
  else if negb (e_ident m hdr 5 =? 1) then -1
  else if negb (e_type m hdr =? 2) then -1
  else if negb (e_machine m hdr =? 62) then -1
  else if e_phentsize m hdr <? sizeof_elf64_phdr then -1
  else if e_phnum m hdr =? 0 then -1
  else if ELF_MAX_PHDRS <? e_phnum m hdr then -1
  else if buf_size <? u64 (e_phoff m hdr + e_phnum m hdr * e_phentsize m hdr) then -1
  else 0.

(** The contents given to the page at [vaddr], in the frame at [kva]. *)
Definition seg_page (m : mem) (buf buf_size : Z) (ph : elf64_phdr) (kva vaddr : Z) : mem :=
  let m := memset m kva 0 PAGE_SIZE in
  let page_end := u64 (vaddr + PAGE_SIZE) in
  let copy_va_start := if p_vaddr ph <? vaddr then vaddr else p_vaddr ph in
  let copy_va_end := if page_end <? u64 (p_vaddr ph + p_filesz ph) then page_end else u64 (p_vaddr ph + p_filesz ph) in
  if copy_va_start <? copy_va_end then
    let dst_off := u64 (copy_va_start - vaddr) in
    let src_off := u64 (p_offset ph + (copy_va_start - p_vaddr ph)) in
    let copy_len := u64 (copy_va_end - copy_va_start) in
    if u64 (src_off + copy_len) <=? buf_size then memcpy m (kva + dst_off) (buf + src_off) copy_len else m
  else m.

Section elf.
Context {A : Type} `{!FrameAlloc A}.
Implicit Types k : kst A.

(** [while (vaddr < vaddr_end)]: one page per turn. *)
Fixpoint seg_loop (fuel : nat) k (buf buf_size : Z) (ph : elf64_phdr) (pml4_phys pte_flags vaddr vaddr_end : Z) :
    option (Z * kst A) :=
  match fuel with
  | O => None
  | S fuel =>
      if vaddr <? vaddr_end then
        let '(frame, k) := alloc_frame k in
        if frame =? 0 then Some (-1, k)
        else
          let k := set_mm k (seg_page (mm k) buf buf_size ph (PHYS_TO_VIRT frame) vaddr) in
          let '(rc, k) := vmm_map_user_page k pml4_phys vaddr frame pte_flags in
          if negb (rc =? 0) then Some (-1, free_frame k frame)
          else seg_loop fuel k buf buf_size ph pml4_phys pte_flags (u64 (vaddr + PAGE_SIZE)) vaddr_end
      else Some (0, k)
  end.

Definition elf_load_segment (fuel : nat) k (buf buf_size : Z) (ph : elf64_phdr) (pml4_phys : Z) : option (Z * kst A) :=
  if p_memsz ph =? 0 then Some (0, k)
  else if (0 <? p_filesz ph) && (buf_size <? u64 (p_offset ph + p_filesz ph)) then Some (-1, k)
  else
    let pte_flags := PTE_USER in
    let pte_flags := if has (p_flags ph) PF_W then pte_flags |b PTE_WRITE else pte_flags in
    let pte_flags := if negb (has (p_flags ph) PF_X) then pte_flags |b PTE_NX else pte_flags in
    let vaddr_start := p_vaddr ph &b PAGE_MASK in
    let vaddr_end := u64 (u64 (p_vaddr ph + p_memsz ph) + PAGE_SIZE - 1) &b PAGE_MASK in
    seg_loop fuel k buf buf_size ph pml4_phys pte_flags vaddr_start vaddr_end.

(** The program headers from number [i] on; [loaded] counts the PT_LOAD ones. *)
Fixpoint phdr_loop (fuel n : nat) k (buf buf_size pml4_phys i loaded : Z) : option (Z * Z * kst A) :=
  match n with
  | O => Some (0, loaded, k)
  | S n =>
      let ph := read_phdr (mm k) (buf + e_phoff (mm k) buf + i * e_phentsize (mm k) buf) in
      if negb (p_type ph =? PT_LOAD) then phdr_loop fuel n k buf buf_size pml4_phys (i + 1) loaded
      else match elf_load_segment fuel k buf buf_size ph pml4_phys with
           | None => None
           | Some (rc, k) =>
               if negb (rc =? 0) then Some (-1, loaded, k)
               else phdr_loop fuel n k buf buf_size pml4_phys (i + 1) (u16 (loaded + 1))
           end
  end.

(** [elf_load]: 0 and the entry point, or -1. *)
Definition elf_load (fuel : nat) k (buf buf_size pml4_phys : Z) : option (Z * Z * kst A) :=
  if negb (elf_check (mm k) buf buf_size =? 0) then Some (-1, 0, k)
  else match phdr_loop fuel (Z.to_nat (e_phnum (mm k) buf)) k buf buf_size pml4_phys 0 0 with
       | None => None
       | Some (rc, loaded, k) =>
           if negb (rc =? 0) then Some (-1, 0, k)
           else if loaded =? 0 then Some (-1, 0, k)
           else Some (0, e_entry (mm k) buf, k)
       end.

(** ** sys_mmap *)

Definition MAP_ANONYMOUS : Z := 0x20.
Definition MAP_FAILED : Z := u64 (-1).
Definition MMAP_BASE : Z := 0x10000000.
Definition MMAP_LIMIT : Z := 0x50000000.

(** [for (i = 0; i < pages; i++)] of [sys_mmap]: [false] when a page could not be had. *)
Fixpoint map_anon_loop (n : nat) k (pml4_phys va i : Z) : bool * kst A :=
  match n with
  | O => (true, k)
  | S n =>
      let '(frame, k) := alloc_frame k in
      if frame =? 0 then (false, k)
      else
        let k := set_mm k (memset (mm k) (PHYS_TO_VIRT frame) 0 PAGE_SIZE) in
        let '(rc, k) := vmm_map_user_page k pml4_phys (u64 (va + i * PAGE_SIZE)) frame (PTE_USER |b PTE_WRITE) in
        if negb (rc =? 0) then (false, free_frame k frame) else map_anon_loop n k pml4_phys va (i + 1)
  end.

Definition sys_mmap (length flags : Z) (s : pst) (h : hst A) : Z * pst * hst A :=
  if negb (has flags MAP_ANONYMOUS) then (MAP_FAILED, s, h)
  else if length =? 0 then (MAP_FAILED, s, h)
  else
    let pages := u64 (length + PAGE_SIZE - 1) / PAGE_SIZE in
    match current_proc s with
    | None => (MAP_FAILED, s, h)
    | Some c =>
        if p_pml4 (get_proc s c) =? 0 then (MAP_FAILED, s, h)
        else
          let s := if mmap_next (get_proc s c) =? 0 then upd_proc s c (fun p => set_mmap_next p MMAP_BASE) else s in
          let va := mmap_next (get_proc s c) in
          if MMAP_LIMIT <? u64 (va + u64 (pages * PAGE_SIZE)) then (MAP_FAILED, s, h)
          else
            let '(ok, k) := map_anon_loop (Z.to_nat pages) (hk h) (p_pml4 (get_proc s c)) va 0 in
            if ok then (va, upd_proc s c (fun p => set_mmap_next p (u64 (mmap_next p + pages * PAGE_SIZE))), set_hk h k)
            else (MAP_FAILED, s, set_hk h k)
    end.
Definition sys_munmap : Z := 0.
End elf.
