(* ===== verification/ElfSpec.v ===== *)
(** * What the loader promises

    Theorems about Elf.v over the paging laws of Vmm.v: after a segment has been
    loaded, the bytes a program sees at its addresses, through the page tables, are
    those of the image, followed by zeros. *)

From S2P Require Import Prelude Mem Pmm Vmm Heap Proc ProcSpec Elf.

Section spec.
Context {A : Type} `{!FrameAlloc A} `{!FrameAllocLaws A}.
Implicit Types (k : kst A) (L : levels).

(** Addresses of the user half. *)
Definition user_va (va : Z) : Prop := 0 <= va < 2 ^ 47.

Lemma user_idx va : user_va va -> idx 4 va < 256.
Proof.
  intros Hva. rewrite idx_div. change (3 + 9 * Z.of_nat 4) with 39. rewrite Z.mod_small.
  - apply Z.div_lt_upper_bound; [lia|]. unfold user_va in Hva. lia.
  - split; [apply Z.div_pos; unfold user_va in Hva; lia|]. apply Z.div_lt_upper_bound; unfold user_va in Hva; lia.
Qed.

Lemma user_same_page va va' : user_va va -> user_va va' -> same_page va va' <-> va / 4096 = va' / 4096.
Proof.
  intros Hv Hv'. unfold same_page, user_va in *.
  rewrite !Z.mod_small by (split; [apply Z.div_pos; lia|apply Z.div_lt_upper_bound; lia]). done.
Qed.

(** No huge pages in the user half of the space [r]. *)
Definition user_small k r : Prop := forall va, user_va va -> nohuge 4 (mm k) r va.

(** The page of [va] in the space [r] is the frame [c], which is no table. *)
Record mapped k L r (page c : Z) : Prop := {
  mp_frame : 0 < c < WINDOW /\ L c = O /\ fa_used (fa k) c = true;
  mp_xlate va : user_va va -> va / 4096 = page -> xlate (mm k) r va = c * PAGE_SIZE + va mod 4096
}.

(** What a step of loading keeps: the invariant, the frames in use, the pages other
    than [page]. *)
Definition stepped k L r (page : Z) k' L' : Prop :=
  vm_inv k' L' /\ extends L L' /\ framed k L k' L' /\
  (forall va, user_va va -> va / 4096 <> page -> xlate (mm k') r va = xlate (mm k) r va).

(** Memory changed only in a frame that is no table. *)
Lemma frame_write_inv k L c m : vm_inv k L -> L c = O -> bytes_ok m ->
  (forall x, ~ (frame_va c <= x < frame_va c + PAGE_SIZE) -> m x = mm k x) -> vm_inv (set_mm k m) L.
Proof.
  intros [Hwf Hfa Hu Hw] Hc Hm Hx. split; try done. apply (pt_wf_ext (mm k)); [done|done|].
  intros g i Hg Hi. apply (ent_frame_ext _ _ c); [intros ->; lia|done|done].
Qed.
Lemma frame_write_xlate k L c m r va : vm_inv k L -> L c = O -> L r = 4%nat ->
  (forall x, ~ (frame_va c <= x < frame_va c + PAGE_SIZE) -> m x = mm k x) -> xlate m r va = xlate (mm k) r va.
Proof.
  intros [Hwf _ _ _] Hc Hr Hx. apply (slot_ext (mm k) m L); [done|done|lia|].
  intros g i Hg Hi. apply (ent_frame_ext _ _ c); [intros ->; done|done|done].
Qed.
Lemma frame_write_nohuge k L c m r va : vm_inv k L -> L c = O -> L r = 4%nat ->
  (forall x, ~ (frame_va c <= x < frame_va c + PAGE_SIZE) -> m x = mm k x) -> nohuge 4 (mm k) r va -> nohuge 4 m r va.
Proof.
  intros [Hwf _ _ _] Hc Hr Hx. unfold nohuge. rewrite (walkn_ext (mm k) m L 4 r va Hwf Hr ltac:(lia)); [done|].
  intros g i Hg Hi. apply (ent_frame_ext _ _ c); [intros ->; lia|done|done].
Qed.

Lemma page_lor c va : 0 <= c -> (c * PAGE_SIZE) |b (va &b (PAGE_SIZE - 1)) = c * PAGE_SIZE + va mod 4096.
Proof.
  intros Hc. unfold PAGE_SIZE. change (4096 - 1) with (Z.ones 12). rewrite Z.land_ones by lia.
  change 4096 with (2 ^ 12). apply lor_add; [lia|lia|]. apply Z.mod_pos_bound. lia.
Qed.

Lemma idx_page n va va' : (1 <= n)%nat -> va / 4096 = va' / 4096 -> idx n va = idx n va'.
Proof.
  intros Hn E. rewrite !idx_div. replace (2 ^ (3 + 9 * Z.of_nat n)) with (4096 * 2 ^ (9 * (Z.of_nat n - 1))).
  - rewrite <-!Z.div_div by lia. by rewrite E.
  - change 4096 with (2 ^ 12). rewrite <-Z.pow_add_r by lia. f_equal. lia.
Qed.

(** Mapping depends on the page number only. *)
Lemma map_in_page k root va va' phys flags tflags : va / 4096 = va' / 4096 ->
  map_in k root va phys flags tflags = map_in k root va' phys flags tflags.
Proof.
  intros E. rewrite !map_in_descend. cbn [descend].
  by rewrite (idx_page 4 va va'), (idx_page 3 va va'), (idx_page 2 va va'), (idx_page 1 va va') by (done || lia).
Qed.

(** [vmm_map_user_page] and [vmm_map_kernel_in_user_pml4]: they differ in the flags of the
    tables they add. *)
Definition map_space tf k (target virt phys flags : Z) : Z * kst A :=
  let '(ok, k) := map_in k target virt phys flags tf in
  if ok then (0, flush_if_current k target virt) else (-1, k).

(** Mapping a data frame [c] at the page of [v]. *)
Lemma map_space_ok tf k L r c v flags : tflags_ok tf -> vm_inv k L -> L r = 4%nat -> user_small k r -> user_va v ->
  0 < c < WINDOW -> L c = O -> fa_used (fa k) c = true -> 0 <= flags < 2 ^ 64 -> flags &b PTE_ADDR_MASK = 0 ->
  let r' := map_space tf k (r * PAGE_SIZE) v (c * PAGE_SIZE) flags in
  exists L', stepped k L r (v / 4096) (snd r') L' /\ (fst r' = 0 \/ fst r' = -1) /\
    (fst r' = 0 -> mapped (snd r') L' r (v / 4096) c).
Proof.
  intros Htf Hinv Hr Hsm Hv Hc HLc Hcu Hfl Hna. cbv zeta. unfold map_space.
  pose proof (map_in_spec k L r v (c * PAGE_SIZE) flags tf Hinv Hr (Hsm v Hv) Htf Hfl
    (nxt_flags _ Hna)) as H.
  assert (forall va, user_va va -> va / 4096 = v / 4096 ->
    let '(ok, k') := map_in k (r * PAGE_SIZE) v (c * PAGE_SIZE) flags tf in
    ok = true -> xlate (mm k') r va = c * PAGE_SIZE + va mod 4096) as Hpage.
  { intros va Hva E. rewrite (map_in_page k _ v va) by done.
    pose proof (map_in_spec k L r va (c * PAGE_SIZE) flags tf Hinv Hr (Hsm va Hva) Htf Hfl
      (nxt_flags _ Hna)) as H'. destruct (map_in k _ va _ _ _) as [ok k']. intros Hok.
    destruct H' as (_ & _ & _ & _ & _ & _ & Hx & _). rewrite (Hx Hok). rewrite addr_mask, nxt_frame by (unfold WINDOW in Hc; lia).
    apply page_lor. lia. }
  destruct (map_in k (r * PAGE_SIZE) v (c * PAGE_SIZE) flags tf) as [ok k'].
  destruct H as (L' & Hi & He & Hs & Hl & Ho & Hx & Hfr). exists L'.
  set (k'' := if ok then flush_if_current k' (r * PAGE_SIZE) v else k').
  assert (mm k'' = mm k' /\ fa k'' = fa k' /\ vm_inv k'' L') as (Hm & Hfa & Hi'').
  { unfold k'', flush_if_current. destruct ok; [destruct (_ =? _)|]; auto using vm_inv_invlpg. }
  assert (stepped k L r (v / 4096) k'' L') as Hst.
  { split; [done|]. split; [done|]. split.
    - unfold framed. rewrite Hm, Hfa. exact Hfr.
    - intros va Hva Hne. rewrite Hm. apply Ho; [done|]. right. rewrite user_same_page by done. intros [E _]. by rewrite E in Hne. }
  assert (ok = true -> mapped k'' L' r (v / 4096) c) as Hmp.
  { intros Hok. split.
    - destruct (proj1 Hfr c HLc ltac:(lia) Hcu) as (H1 & H2 & _). by rewrite Hfa.
    - intros va Hva E. rewrite Hm. by apply Hpage. }
  replace (if ok then (0, flush_if_current k' (r * PAGE_SIZE) v) else (-1, k')) with (if ok then 0 else -1, k'')
    by (unfold k''; by destruct ok).
  clearbody k''. destruct ok; cbn [fst snd]; (split; [exact Hst|]); (split; [auto|]); [by intros _; apply Hmp|done].
Qed.

Lemma map_page_ok k L r c v flags : vm_inv k L -> L r = 4%nat -> user_small k r -> user_va v ->
  0 < c < WINDOW -> L c = O -> fa_used (fa k) c = true -> 0 <= flags < 2 ^ 64 -> flags &b PTE_ADDR_MASK = 0 ->
  let r' := vmm_map_user_page k (r * PAGE_SIZE) v (c * PAGE_SIZE) flags in
  exists L', stepped k L r (v / 4096) (snd r') L' /\ (fst r' = 0 \/ fst r' = -1) /\
    (fst r' = 0 -> mapped (snd r') L' r (v / 4096) c).
Proof. apply (map_space_ok (PTE_WRITE |b PTE_USER)), tflags_rw_user. Qed.

Lemma stepped_small k L r page k' L' : stepped k L r page k' L' -> L r = 4%nat -> user_small k r -> user_small k' r.
Proof. intros (_ & _ & Hfr & _) Hr Hsm va Hva. apply (proj2 Hfr); [done|]. by apply Hsm. Qed.

(** A data frame given back. *)
Lemma free_frame_inv k L c : vm_inv k L -> 0 < c < WINDOW -> L c = O -> vm_inv (free_frame k (c * PAGE_SIZE)) L.
Proof.
  intros [Hwf Hfa Hu Hw] Hc HLc.
  assert (FRAME_SIZE <= c * PAGE_SIZE) as Hp by (unfold FRAME_SIZE, PAGE_SIZE; lia).
  assert (forall g, 0 <= g -> g <> c -> fa_used (fa_free (fa k) (c * PAGE_SIZE)) g = fa_used (fa k) g) as Hg.
  { intros g H0 Hne. rewrite fa_free_used by done. unfold PAGE_SIZE, FRAME_SIZE. rewrite Z.div_mul by lia.
    by rewrite (proj2 (Z.eqb_neq c g)) by done. }
  split; cbn [fa free_frame set_fa mm].
  - done.
  - by apply fa_free_ok.
  - intros f Hf. pose proof (pw_range _ _ Hwf f Hf) as [? _]. rewrite Hg; [by apply Hu|lia|]. by intros ->.
  - intros f Hf. rewrite Hg; [by apply Hw|unfold WINDOW in Hf; lia|lia].
Qed.

(** One page of a mapping loop: a fresh frame, filled through the window (memory
    [G c], contents [p]), mapped at [v]. *)
Lemma fill_map k L r v flags (G : Z -> mem) (p : Z -> Z) : vm_inv k L -> L r = 4%nat -> user_small k r -> user_va v ->
  0 <= flags < 2 ^ 64 -> flags &b PTE_ADDR_MASK = 0 ->
  (forall c, 0 < c < WINDOW -> L c = O -> fa_used (fa k) c = false -> bytes_ok (G c) /\
     (forall x, ~ (frame_va c <= x < frame_va c + PAGE_SIZE) -> G c x = mm k x) /\
     forall o, 0 <= o < PAGE_SIZE -> G c (frame_va c + o) = p o) ->
  (fst (alloc_frame k) = 0 /\ snd (alloc_frame k) = k) \/
  exists c, fst (alloc_frame k) = c * PAGE_SIZE /\ 0 < c < WINDOW /\ mm (snd (alloc_frame k)) = mm k /\
    let r' := vmm_map_user_page (set_mm (snd (alloc_frame k)) (G c)) (r * PAGE_SIZE) v (c * PAGE_SIZE) flags in
    (fst r' = -1 /\ exists L', vm_inv (free_frame (snd r') (c * PAGE_SIZE)) L' /\ extends L L') \/
    (fst r' = 0 /\ exists L', stepped k L r (v / 4096) (snd r') L' /\ mapped (snd r') L' r (v / 4096) c /\
       forall o, 0 <= o < PAGE_SIZE -> mm (snd r') (frame_va c + o) = p o).
Proof.
  intros Hinv Hr Hsm Hv Hfl Hna HG.
  destruct (alloc_frame_fresh k L Hinv) as [->|(c & Hc & HLc & Hr1 & Hm1 & Hregs & Hlog & Hok & Hcu & Hu')]; [by left|right].
  destruct (alloc_frame k) as [f k1]. cbn [fst snd] in *. exists c. split; [done|]. split; [done|]. split; [done|].
  destruct (HG c Hc HLc Hcu) as (Hb & Hx & Hp). set (k2 := set_mm k1 (G c)).
  assert (vm_inv k1 L) as Hinv1.
  { apply (vm_inv_grow k _ L); [done|rewrite Hm1; apply Hinv|done| |by left]. intros g Hg Hgu. by rewrite Hu', Hgu, orb_true_r. }
  assert (vm_inv k2 L) as Hinv2 by (apply (frame_write_inv k1 L c); [done|done|done|]; intros x Hxx; rewrite Hm1; by apply Hx).
  assert (user_small k2 r) as Hsm2.
  { intros va Hva. apply (frame_write_nohuge k L c); [done|done|done|done|]. by apply Hsm. }
  assert (fa_used (fa k2) c = true) as Hcu2 by (cbn; rewrite Hu' by lia; by rewrite Z.eqb_refl).
  destruct (map_page_ok k2 L r c v flags Hinv2 Hr Hsm2 Hv Hc HLc Hcu2 Hfl Hna) as (L' & Hst & Hrc & Hmp).
  set (r' := vmm_map_user_page k2 (r * PAGE_SIZE) v (c * PAGE_SIZE) flags) in *. clearbody r'.
  pose proof Hst as (Hi' & He & Hfr & Hxl). destruct (proj1 Hfr c HLc ltac:(lia) Hcu2) as (HLc' & _ & Hdata).
  cbv zeta. destruct Hrc as [Hrc|Hrc]; [right|left]; (split; [done|]).
  - exists L'. split; [|split; [by apply Hmp|intros o Ho; rewrite Hdata by done; by apply Hp]].
    split; [done|]. split; [done|]. split.
    + split.
      * intros d Hd Hd0 Hdu. assert (d <> c) as Hdc by (intros ->; congruence).
        assert (fa_used (fa k2) d = true) as Hdu2 by (cbn; rewrite Hu' by lia; by rewrite Hdu, orb_true_r).
        destruct (proj1 Hfr d Hd Hd0 Hdu2) as (H1 & H2 & H3). split; [done|]. split; [done|]. intros o Ho. rewrite H3 by done.
        cbn. apply Hx. unfold frame_va, PAGE_SIZE in *. lia.
      * intros r1 va Hr1' Hn. apply (proj2 Hfr); [done|]. by apply (frame_write_nohuge k L c).
    + intros va Hva Hne. rewrite Hxl by done. by apply (frame_write_xlate k L c).
  - exists L'. split; [|done]. by apply free_frame_inv.
Qed.

(** ** Loading a segment *)

(** The image lies in frames in use that are no tables. *)
Definition image k L (buf size : Z) : Prop := forall a, buf <= a < buf + size ->
  exists d o, a = frame_va d + o /\ 0 <= o < PAGE_SIZE /\ 0 <= d /\ L d = O /\ fa_used (fa k) d = true.

Lemma image_framed k L k' L' buf size : image k L buf size -> framed k L k' L' ->
  image k' L' buf size /\ forall a, buf <= a < buf + size -> mm k' a = mm k a.
Proof.
  intros Him [Hd _]. split; intros a Ha; destruct (Him a Ha) as (d & o & -> & Ho & H0 & HL & Hu);
    destruct (Hd d HL H0 Hu) as (H1 & H2 & H3); [by exists d, o|by apply H3].
Qed.

Lemma image_not_in k L buf size c a : image k L buf size -> fa_used (fa k) c = false -> 0 <= c ->
  buf <= a < buf + size -> ~ (frame_va c <= a < frame_va c + PAGE_SIZE).
Proof.
  intros Him Hc Hc0 Ha. destruct (Him a Ha) as (d & o & -> & Ho & H0 & _ & Hu).
  assert (d <> c) by (intros ->; congruence). unfold frame_va, PAGE_SIZE in *. lia.
Qed.

(** The byte the program is to see at [va]. *)
Definition seg_byte (m : mem) (buf : Z) (ph : elf64_phdr) (va : Z) : Z :=
  if (p_vaddr ph <=? va) && (va <? p_vaddr ph + p_filesz ph) then m (buf + p_offset ph + (va - p_vaddr ph)) else 0.

(** A segment whose file part is in the image, in the user half. *)
Record seg_ok (buf_size : Z) (ph : elf64_phdr) : Prop := {
  so_size : 0 <= buf_size < 2 ^ 63;
  so_file : 0 <= p_offset ph /\ 0 <= p_filesz ph /\ p_offset ph + p_filesz ph <= buf_size;
  so_mem : p_filesz ph <= p_memsz ph;
  so_user : 0 <= p_vaddr ph /\ p_vaddr ph + p_memsz ph <= 2 ^ 47
}.

Lemma seg_page_spec k L buf buf_size ph c page : vm_inv k L -> seg_ok buf_size ph -> image k L buf buf_size ->
  0 < c < WINDOW -> fa_used (fa k) c = false -> 0 <= page -> page * 4096 < 2 ^ 47 ->
  let m' := seg_page (mm k) buf buf_size ph (frame_va c) (page * 4096) in
  bytes_ok m' /\ (forall x, ~ (frame_va c <= x < frame_va c + PAGE_SIZE) -> m' x = mm k x) /\
  forall o, 0 <= o < PAGE_SIZE -> m' (frame_va c + o) = seg_byte (mm k) buf ph (page * 4096 + o).
Proof.
  intros Hinv [Hsz (Ho & Hf & Hof) Hm (Hv & Hve)] Him Hc Hcu Hp Hp47 m'.
  pose proof (pw_bytes _ _ (vi_wf _ _ Hinv)) as Hb. set (v := page * 4096) in *.
  set (m0 := memset (mm k) (frame_va c) 0 PAGE_SIZE).
  assert (forall x, m0 x = if (frame_va c <=? x) && (x <? frame_va c + PAGE_SIZE) then 0 else mm k x) as H0
    by (intros x; by apply memset_spec).
  assert (forall x, ~ (frame_va c <= x < frame_va c + PAGE_SIZE) -> m0 x = mm k x) as Hout0.
  { intros x Hx. rewrite H0. destruct (Z.leb_spec (frame_va c) x); [|done].
    destruct (Z.ltb_spec x (frame_va c + PAGE_SIZE)); [lia|done]. }
  assert (forall o, 0 <= o < PAGE_SIZE -> m0 (frame_va c + o) = 0) as Hz.
  { intros o Hoo. rewrite H0. destruct (Z.leb_spec (frame_va c) (frame_va c + o)); [|lia].
    by destruct (Z.ltb_spec (frame_va c + o) (frame_va c + PAGE_SIZE)); [|lia]. }
  assert (bytes_ok m0) as Hb0 by (by apply memset_bytes_ok).
  unfold m', seg_page. fold m0.
  assert (forall x, 0 <= x < 2 ^ 64 -> u64 x = x) as Hu by (intros x Hx; by apply u64_small).
  rewrite (Hu (v + PAGE_SIZE)), (Hu (p_vaddr ph + p_filesz ph)) by (unfold PAGE_SIZE; lia).
  set (cs := if p_vaddr ph <? v then v else p_vaddr ph).
  set (ce := if v + PAGE_SIZE <? p_vaddr ph + p_filesz ph then v + PAGE_SIZE else p_vaddr ph + p_filesz ph).
  assert (cs = Z.max v (p_vaddr ph)) as Hcs by (unfold cs; destruct (Z.ltb_spec (p_vaddr ph) v); lia).
  assert (ce = Z.min (v + PAGE_SIZE) (p_vaddr ph + p_filesz ph)) as Hce
    by (unfold ce; destruct (Z.ltb_spec (v + PAGE_SIZE) (p_vaddr ph + p_filesz ph)); lia).
  clearbody cs ce. destruct (Z.ltb_spec cs ce) as [Hlt|Hge].
  2: { split; [done|]. split; [done|]. intros o Hoo. rewrite Hz by done. unfold seg_byte.
       destruct (Z.leb_spec (p_vaddr ph) (v + o)); [|done]. destruct (Z.ltb_spec (v + o) (p_vaddr ph + p_filesz ph)); [|done].
       unfold PAGE_SIZE in *. lia. }
  rewrite (Hu (cs - v)), (Hu (p_offset ph + (cs - p_vaddr ph))), (Hu (ce - cs)), (Hu (_ + (ce - cs))) by (unfold PAGE_SIZE in *; lia).
  destruct (Z.leb_spec (p_offset ph + (cs - p_vaddr ph) + (ce - cs)) buf_size) as [_|?]; [|lia].
  set (dst := frame_va c + (cs - v)). set (src := buf + (p_offset ph + (cs - p_vaddr ph))).
  assert (forall a, src <= a < src + (ce - cs) -> ~ (frame_va c <= a < frame_va c + PAGE_SIZE)) as Hdis.
  { intros a Ha. apply (image_not_in k L buf buf_size); [done|done|lia|unfold src in Ha; lia]. }
  assert (dst <= src \/ src + (ce - cs) <= dst) as Hd.
  { pose proof (Hdis src ltac:(lia)). destruct (Z.le_gt_cases dst src); [by left|right].
    destruct (Z.le_gt_cases (src + (ce - cs)) dst); [done|exfalso]. apply (Hdis dst); unfold dst, PAGE_SIZE in *; lia. }
  assert (forall x, memcpy m0 dst src (ce - cs) x = if (dst <=? x) && (x <? dst + (ce - cs)) then m0 (src + (x - dst)) else m0 x) as Hcp
    by (intros x; apply memcpy_spec; lia).
  split; [by apply memcpy_bytes_ok|]. split.
  - intros x Hx. rewrite Hcp. destruct (Z.leb_spec dst x); [|by apply Hout0]. destruct (Z.ltb_spec x (dst + (ce - cs))); [|by apply Hout0].
    unfold dst, PAGE_SIZE in *. lia.
  - intros o Hoo. rewrite Hcp. unfold seg_byte.
    assert ((dst <=? frame_va c + o) && (frame_va c + o <? dst + (ce - cs)) =
            (p_vaddr ph <=? v + o) && (v + o <? p_vaddr ph + p_filesz ph)) as ->.
    { clear - Hoo Hcs Hce. apply eq_true_iff_eq. rewrite !andb_true_iff, !Z.leb_le, !Z.ltb_lt. unfold dst, PAGE_SIZE in *. lia. }
    destruct ((p_vaddr ph <=? v + o) && (v + o <? p_vaddr ph + p_filesz ph)) eqn:E; [|by apply Hz].
    apply andb_prop in E as [E1%Z.leb_le E2%Z.ltb_lt].
    rewrite Hout0; [|apply Hdis; unfold dst, PAGE_SIZE in *; clear - Hoo Hcs Hce E1 E2; lia].
    f_equal. unfold src, dst. lia.
Qed.

(** ** Enough frames *)

(** At least [n] frames are free. *)
Definition budget k (n : nat) : Prop := exists l : list Z, NoDup l /\ List.length l = n /\
  Forall (fun f => 0 < f < PMM_MAX_FRAMES /\ fa_used (fa k) f = false) l.

Lemma budget_le k n m : budget k n -> (m <= n)%nat -> budget k m.
Proof.
  intros (l & Hn & Hl & Hf) Hm. exists (take m l). split; [eapply sublist_NoDup; [done|apply sublist_take]|].
  split; [rewrite length_take; lia|]. by apply Forall_take.
Qed.

Lemma budget_fa k k' n : fa k' = fa k -> budget k n -> budget k' n.
Proof. unfold budget. by intros ->. Qed.

Lemma alloc_budget k L n : vm_inv k L -> budget k (S n) -> fst (alloc_frame k) <> 0 /\ budget (snd (alloc_frame k)) n.
Proof.
  intros Hinv (l & Hnd & Hl & Hf).
  assert (fst (alloc_frame k) <> 0) as Hne.
  { unfold alloc_frame. destruct l as [|f l]; [done|]. apply Forall_inv in Hf as [Hr Hu].
    pose proof (fa_alloc_complete (fa k) f (vi_fa _ _ Hinv) Hr Hu). by destruct (fa_alloc (fa k)). }
  split; [done|]. destruct (alloc_frame_fresh k L Hinv) as [E|(c & Hc & _ & _ & _ & _ & _ & _ & _ & Hu')]; [by rewrite E in Hne|].
  exists (take n (filter (fun f => f <> c) l)). split; [eapply sublist_NoDup; [|apply sublist_take]; by apply NoDup_filter|]. split.
  - rewrite length_take. apply Nat.min_l.
    assert (l ⊆+ c :: filter (fun f => f <> c) l) as Hsub.
    { apply NoDup_submseteq; [done|]. intros f Hfl. destruct (decide (f = c)) as [->|]; [by left|right].
      by apply list_elem_of_filter. }
    apply submseteq_length in Hsub. cbn in Hsub. lia.
  - apply Forall_take, Forall_forall. intros f [Hfc Hfl]%list_elem_of_filter. rewrite Forall_forall in Hf.
    destruct (Hf f Hfl) as [Hr Hfu]. split; [done|]. rewrite Hu' by lia. by rewrite (proj2 (Z.eqb_neq c f)), Hfu.
Qed.

Lemma table_budget k L l f va flags n : vm_inv k L -> L f = S (S l) -> nohuge (S (S l)) (mm k) f va -> tflags_ok flags ->
  budget k (S n) -> let r := get_or_alloc_table k (frame_va f) (idx (S (S l)) va) flags in fst r <> 0 /\ budget (snd r) n.
Proof.
  intros Hinv Hf Hnh Hfl Hb. cbv zeta.
  pose proof (get_or_alloc_table_spec k L l f va flags Hinv Hf Hnh Hfl) as Hs.
  pose proof (alloc_budget k L n Hinv Hb) as [Ha Hb'].
  assert (fst (get_or_alloc_table k (frame_va f) (idx (S (S l)) va) flags) <> 0 ->
    budget (snd (get_or_alloc_table k (frame_va f) (idx (S (S l)) va) flags)) n) as Hsnd.
  { unfold get_or_alloc_table. destruct (negb _).
    - destruct (alloc_frame k) as [p k1]. cbn [fst snd] in *. by destruct (Z.eqb_spec p 0).
    - intros _. apply (budget_le k (S n)); [done|lia]. }
  assert (fst (get_or_alloc_table k (frame_va f) (idx (S (S l)) va) flags) <> 0) as Hne; [|by split; [|apply Hsnd]].
  destruct (get_or_alloc_table k (frame_va f) (idx (S (S l)) va) flags) as [r k'] eqn:E. cbn [fst snd] in *.
  destruct Hs as [(-> & -> & Hn)|(c & L' & -> & Hi & Hl & _)]; [by rewrite Hn in Ha|].
  pose proof (pw_range _ _ (vi_wf _ _ Hi) c ltac:(lia)) as [Hc0 _]. intros E0. apply frame_va_pos in E0; [done|lia].
Qed.

(** Three frames are enough for the tables of a mapping. *)
Lemma descend_budget l k L f va flags n : vm_inv k L -> L f = S l -> nohuge (S l) (mm k) f va -> tflags_ok flags ->
  budget k (l + n) -> let r := descend l k (frame_va f) va flags in (0 < f -> fst r <> 0) /\ budget (snd r) n.
Proof.
  revert k L f. induction l as [|l IH]; intros k L f Hinv Hf Hnh Hfl Hb; cbv zeta; cbn [descend].
  { split; [|done]. cbn. intros H0 E. by apply frame_va_pos in E; [|lia]. }
  pose proof (table_budget k L l f va flags (l + n) Hinv Hf Hnh Hfl Hb) as [Hne Hb1].
  pose proof (get_or_alloc_table_spec k L l f va flags Hinv Hf Hnh Hfl) as Hs.
  destruct (get_or_alloc_table k (frame_va f) (idx (S (S l)) va) flags) as [p1 k1]. cbn [fst snd] in *.
  destruct Hs as [(-> & _)|(c & L1 & -> & Hi & Hl & _ & _ & _ & _ & Hn & _)]; [done|].
  rewrite (proj2 (Z.eqb_neq _ _) Hne). destruct (IH k1 L1 c Hi Hl Hn Hfl Hb1) as [H1 H2]. split; [|done].
  intros _. apply H1. pose proof (pw_range _ _ (vi_wf _ _ Hi) c ltac:(lia)) as [? _]. lia.
Qed.

Lemma map_space_budget tf k L r v phys flags n : tflags_ok tf -> vm_inv k L -> L r = 4%nat -> nohuge 4 (mm k) r v -> budget k (3 + n) ->
  let x := map_space tf k (r * PAGE_SIZE) v phys flags in fst x = 0 /\ budget (snd x) n.
Proof.
  intros Htf Hinv Hr Hnh Hb. cbv zeta. unfold map_space. rewrite map_in_descend, (root_va (mm k) L) by (done || apply Hinv).
  pose proof (descend_budget 3 k L r v tf n Hinv Hr Hnh Htf Hb) as [Hne Hb1].
  pose proof (pw_range _ _ (vi_wf _ _ Hinv) r ltac:(lia)) as [Hr0 _]. specialize (Hne ltac:(lia)).
  destruct (descend 3 k (frame_va r) v tf) as [p k1]. cbn [fst snd] in *.
  rewrite (proj2 (Z.eqb_neq _ _) Hne). cbn [fst snd]. split; [done|]. eapply budget_fa; [|exact Hb1].
  unfold flush_if_current. by destruct (_ =? _).
Qed.
Lemma map_budget k L r v phys flags n : vm_inv k L -> L r = 4%nat -> nohuge 4 (mm k) r v -> budget k (3 + n) ->
  let x := vmm_map_user_page k (r * PAGE_SIZE) v phys flags in fst x = 0 /\ budget (snd x) n.
Proof. apply (map_space_budget (PTE_WRITE |b PTE_USER)), tflags_rw_user. Qed.

(** With four free frames the page is mapped. *)
Lemma fill_budget k L r v flags (G : Z -> mem) n : vm_inv k L -> L r = 4%nat -> user_small k r -> user_va v -> budget k (4 + n) ->
  (forall c, 0 < c < WINDOW -> L c = O -> fa_used (fa k) c = false -> bytes_ok (G c) /\
     (forall x, ~ (frame_va c <= x < frame_va c + PAGE_SIZE) -> G c x = mm k x)) ->
  fst (alloc_frame k) <> 0 /\ forall c, fst (alloc_frame k) = c * PAGE_SIZE ->
  let x := vmm_map_user_page (set_mm (snd (alloc_frame k)) (G c)) (r * PAGE_SIZE) v (c * PAGE_SIZE) flags in
  fst x = 0 /\ budget (snd x) n.
Proof.
  intros Hinv Hr Hsm Hv Hb HG. pose proof (alloc_budget k L (3 + n) Hinv Hb) as [Hne Hb1]. split; [done|].
  destruct (alloc_frame_fresh k L Hinv) as [E|(c & Hc & HLc & Hr1 & Hm1 & Hregs & Hlog & Hok & Hcu & Hu')]; [by rewrite E in Hne|].
  destruct (alloc_frame k) as [f k1]. cbn [fst snd] in *. intros c' Ec.
  assert (c' = c) as -> by (unfold PAGE_SIZE in *; lia). destruct (HG c Hc HLc Hcu) as [Hm Hx].
  assert (vm_inv k1 L) as Hinv1.
  { apply (vm_inv_grow k _ L); [done|rewrite Hm1; apply Hinv|done| |by left]. intros g Hg Hgu. by rewrite Hu', Hgu, orb_true_r. }
  apply (map_budget _ L); [|done| |done].
  - apply (frame_write_inv k1 L c); [done|done|done|]. intros x Hxx. rewrite Hm1. by apply Hx.
  - apply (frame_write_nohuge k L c); [done|done|done|done|]. by apply Hsm.
Qed.

(** ** The loop over the pages of a segment *)

(** Pages [page], ..., [page + n - 1] of the space [r] hold the bytes [b]. *)
Definition pages_hold k L r (b : Z -> Z) (page : Z) (n : nat) : Prop :=
  forall j, page <= j < page + Z.of_nat n -> exists c, mapped k L r j c /\
    forall o, 0 <= o < PAGE_SIZE -> mm k (frame_va c + o) = b (j * 4096 + o).

(** What the loop has done when it succeeds. *)
Definition loaded k L r (b : Z -> Z) (page : Z) (n : nat) k' L' : Prop :=
  framed k L k' L' /\ pages_hold k' L' r b page n /\
  forall va, user_va va -> ~ (page <= va / 4096 < page + Z.of_nat n) -> xlate (mm k') r va = xlate (mm k) r va.

(** One page, then the rest. *)
Lemma loaded_cons k L r b page n k1 L1 k2 L2 c : stepped k L r page k1 L1 -> mapped k1 L1 r page c ->
  (forall o, 0 <= o < PAGE_SIZE -> mm k1 (frame_va c + o) = b (page * 4096 + o)) ->
  extends L1 L2 -> loaded k1 L1 r b (page + 1) n k2 L2 -> loaded k L r b page (S n) k2 L2.
Proof.
  intros (Hi1 & He1 & Hf1 & Hx1) [(Hc & HLc & Hcu) Hmx] Hb He2 (Hf2 & Hh2 & Hx2).
  destruct (proj1 Hf2 c HLc ltac:(lia) Hcu) as (HLc2 & Hcu2 & Hdata). split; [|split].
  - by eapply framed_trans.
  - intros j Hj. destruct (decide (j = page)) as [->|Hne]; [|apply Hh2; lia].
    exists c. split; [|intros o Ho; rewrite Hdata by done; by apply Hb].
    split; [done|]. intros va Hva Ej. rewrite Hx2 by (done || lia). by apply Hmx.
  - intros va Hva Hout. rewrite Hx2 by (done || lia). apply Hx1; [done|lia].
Qed.

Lemma seg_byte_ext m m' buf buf_size ph va : seg_ok buf_size ph ->
  (forall a, buf <= a < buf + buf_size -> m' a = m a) -> seg_byte m' buf ph va = seg_byte m buf ph va.
Proof.
  intros [_ (Ho & Hf & Hof) _ _] E. unfold seg_byte. destruct (Z.leb_spec (p_vaddr ph) va); [|done].
  destruct (Z.ltb_spec va (p_vaddr ph + p_filesz ph)); [|done]. cbn. apply E. lia.
Qed.

Lemma seg_loop_spec buf buf_size ph r flags n : seg_ok buf_size ph -> 0 <= flags < 2 ^ 64 -> flags &b PTE_ADDR_MASK = 0 ->
  forall fuel k L page, (n < fuel)%nat -> vm_inv k L -> L r = 4%nat -> user_small k r -> image k L buf buf_size ->
  0 <= page -> (page + Z.of_nat n) * 4096 <= 2 ^ 47 ->
  exists rc k' L', seg_loop fuel k buf buf_size ph (r * PAGE_SIZE) flags (page * 4096) ((page + Z.of_nat n) * 4096) = Some (rc, k') /\
    vm_inv k' L' /\ extends L L' /\ (forall m, budget k (4 * n + m) -> rc = 0 /\ budget k' m) /\
    (rc = -1 \/ (rc = 0 /\ loaded k L r (seg_byte (mm k) buf ph) page n k' L')).
Proof.
  intros Hseg Hfl Hna. induction n as [|n IH]; intros fuel k L page Hfu Hinv Hr Hsm Him Hp Hend; (destruct fuel as [|fuel]; [lia|]);
    cbn [seg_loop].
  { destruct (Z.ltb_spec (page * 4096) ((page + Z.of_nat 0) * 4096)); [lia|]. exists 0, k, L. split; [done|]. split; [done|].
    split; [done|]. split; [intros m Hb; split; [done|exact Hb]|]. right. split; [done|]. split; [done|]. split; [|done].
    intros j Hj. lia. }
  destruct (Z.ltb_spec (page * 4096) ((page + Z.of_nat (S n)) * 4096)) as [_|?]; [|lia].
  assert (user_va (page * 4096)) as Hv by (unfold user_va; lia).
  set (G := fun c => seg_page (mm k) buf buf_size ph (frame_va c) (page * 4096)).
  assert (forall c, 0 < c < WINDOW -> L c = O -> fa_used (fa k) c = false -> bytes_ok (G c) /\
     (forall x, ~ (frame_va c <= x < frame_va c + PAGE_SIZE) -> G c x = mm k x) /\
     forall o, 0 <= o < PAGE_SIZE -> G c (frame_va c + o) = seg_byte (mm k) buf ph (page * 4096 + o)) as HG
    by (intros c Hc HLc Hcu; by apply seg_page_spec with (L := L); [..|lia]).
  pose proof (fill_map k L r (page * 4096) flags G _ Hinv Hr Hsm Hv Hfl Hna HG) as Hfm.
  assert (forall m, budget k (4 * S n + m) -> fst (alloc_frame k) <> 0 /\ forall c, fst (alloc_frame k) = c * PAGE_SIZE ->
    let x := vmm_map_user_page (set_mm (snd (alloc_frame k)) (G c)) (r * PAGE_SIZE) (page * 4096) (c * PAGE_SIZE) flags in
    fst x = 0 /\ budget (snd x) (4 * n + m)) as Hbud.
  { intros m Hb. replace (4 * S n + m)%nat with (4 + (4 * n + m))%nat in Hb by lia. apply (fill_budget k L); try done.
    intros c H1 H2 H3. destruct (HG c H1 H2 H3) as (? & ? & _). done. }
  assert (page * 4096 / 4096 = page) as Epg by (apply Z.div_mul; lia). rewrite Epg in Hfm. clear HG.
  destruct Hfm as [[E1 E2]|(c & E1 & Hc & Em & Hcase)].
  { destruct (alloc_frame k) as [f k1]. cbn [fst snd] in *. subst f k1. exists (-1), k, L.
    split; [done|]. split; [done|]. split; [done|]. split; [|by left]. intros m Hb. by destruct (Hbud m Hb). }
  destruct (alloc_frame k) as [f k1]. cbn [fst snd] in *. subst f.
  destruct (Z.eqb_spec (c * PAGE_SIZE) 0) as [E0|_]; [unfold PAGE_SIZE in E0; lia|].
  rewrite Em, phys_to_virt by lia. fold (G c).
  assert (forall m, budget k (4 * S n + m) -> fst (vmm_map_user_page (set_mm k1 (G c)) (r * PAGE_SIZE) (page * 4096) (c * PAGE_SIZE) flags) = 0 /\
    budget (snd (vmm_map_user_page (set_mm k1 (G c)) (r * PAGE_SIZE) (page * 4096) (c * PAGE_SIZE) flags)) (4 * n + m)) as Hbud'
    by (intros m Hb; by apply (Hbud m Hb)). clear Hbud.
  destruct (vmm_map_user_page (set_mm k1 (G c)) (r * PAGE_SIZE) (page * 4096) (c * PAGE_SIZE) flags) as [rc k2].
  cbn [fst snd] in *. destruct Hcase as [(-> & L' & Hi & He)|(-> & L1 & Hst & Hmp & Hdata)]; cbn [Z.eqb negb].
  { exists (-1), (free_frame k2 (c * PAGE_SIZE)), L'. split; [done|]. split; [done|]. split; [done|]. split; [|by left].
    intros m Hb. by destruct (Hbud' m Hb). }
  pose proof Hst as (Hi1 & He1 & Hf1 & _). destruct (image_framed k L k2 L1 buf buf_size Him Hf1) as [Him1 Hmem].
  assert (L1 r = 4%nat) as Hr1 by (rewrite He1; lia).
  destruct (IH fuel k2 L1 (page + 1)) as (rc & k' & L' & E & Hi & He & Hb & Hres); try done; try lia.
  { by eapply stepped_small. }
  replace (u64 (page * 4096 + PAGE_SIZE)) with ((page + 1) * 4096) by (rewrite u64_small; unfold PAGE_SIZE; lia).
  replace ((page + Z.of_nat (S n)) * 4096) with ((page + 1 + Z.of_nat n) * 4096) by lia.
  exists rc, k', L'. split; [exact E|]. split; [done|]. split; [by eapply extends_trans|].
  split; [intros m Hbk; apply Hb; by apply Hbud'|].
  destruct Hres as [->|[-> Hl]]; [by left|right]. split; [done|]. eapply (loaded_cons k L r _ page n k2 L1 k' L' c); try done.
  destruct Hl as (Hf2 & Hh2 & Hx2). split; [done|]. split; [|done]. intros j Hj. destruct (Hh2 j Hj) as (c' & Hm' & Hd').
  exists c'. split; [done|]. intros o Ho. rewrite Hd' by done. by apply (seg_byte_ext _ _ buf buf_size).
Qed.

(** ** Segments and programs *)

Definition first_page (ph : elf64_phdr) : Z := p_vaddr ph / 4096.
Definition seg_pages (ph : elf64_phdr) : nat :=
  if p_memsz ph =? 0 then O else Z.to_nat ((p_vaddr ph + p_memsz ph + 4095) / 4096 - first_page ph).

Lemma page_mask x : 0 <= x < 2 ^ 64 -> x &b PAGE_MASK = x / 4096 * 4096.
Proof.
  intros Hx. change PAGE_MASK with (Z.shiftl (Z.ones 52) 12). change 4096 with (2 ^ 12).
  rewrite <-Z.shiftl_mul_pow2, <-Z.shiftr_div_pow2 by lia.
  apply Z.bits_inj'. intros n Hn. rewrite Z.land_spec, !Z.shiftl_spec by lia.
  destruct (Z.ltb_spec n 12).
  - rewrite !(Z.testbit_neg_r _ (n - 12)) by lia. apply andb_false_r.
  - rewrite Z.shiftr_spec by lia. replace (n - 12 + 12) with n by lia. destruct (Z.ltb_spec n 64).
    + rewrite Z.ones_spec_low by lia. apply andb_true_r.
    + rewrite Z.ones_spec_high by lia. rewrite andb_false_r. symmetry. apply Z.bits_above_log2; [lia|].
      destruct (Z.eq_dec x 0) as [->|]; [cbn; lia|]. apply Z.log2_lt_pow2; [lia|].
      eapply Z.lt_le_trans; [apply Hx|]. apply Z.pow_le_mono_r; lia.
Qed.

Lemma load_segment_spec k L r buf buf_size ph fuel : vm_inv k L -> L r = 4%nat -> user_small k r -> image k L buf buf_size ->
  seg_ok buf_size ph -> (seg_pages ph < fuel)%nat ->
  exists rc k' L', elf_load_segment fuel k buf buf_size ph (r * PAGE_SIZE) = Some (rc, k') /\
    vm_inv k' L' /\ extends L L' /\ (forall m, budget k (4 * seg_pages ph + m) -> rc = 0 /\ budget k' m) /\
    (rc = -1 \/ (rc = 0 /\ loaded k L r (seg_byte (mm k) buf ph) (first_page ph) (seg_pages ph) k' L')).
Proof.
  intros Hinv Hr Hsm Him Hseg Hfu. pose proof Hseg as [Hsz (Ho & Hf & Hof) Hm (Hv & Hve)]. revert Hfu. unfold elf_load_segment, seg_pages.
  destruct (Z.eqb_spec (p_memsz ph) 0) as [E0|Hne]; intros Hfu.
  { exists 0, k, L. split; [done|]. split; [done|]. split; [done|]. split; [intros m Hb; split; [done|exact Hb]|].
    right. split; [done|]. split; [done|]. split; [|done]. intros j Hj. lia. }
  rewrite (u64_small (p_offset ph + p_filesz ph)) by lia. destruct (Z.ltb_spec buf_size (p_offset ph + p_filesz ph)) as [?|_]; [lia|].
  rewrite andb_false_r. rewrite (u64_small (p_vaddr ph + p_memsz ph)) by lia. rewrite u64_small by (unfold PAGE_SIZE; lia).
  rewrite !page_mask by (unfold PAGE_SIZE; lia). replace (p_vaddr ph + p_memsz ph + PAGE_SIZE - 1) with (p_vaddr ph + p_memsz ph + 4095)
    by (unfold PAGE_SIZE; lia). fold (first_page ph).
  set (last := (p_vaddr ph + p_memsz ph + 4095) / 4096).
  assert (0 <= first_page ph) by (unfold first_page; apply Z.div_pos; lia).
  assert (first_page ph < last) as Hlt by (unfold first_page, last; zlia).
  assert (last <= 2 ^ 35) as Hlast by (unfold last; apply Z.lt_succ_r, Z.div_lt_upper_bound; lia).
  set (flags := if negb _ then _ else _).
  assert (0 <= flags < 2 ^ 64 /\ flags &b PTE_ADDR_MASK = 0) as [Hfl Hna].
  { unfold flags. destruct (has _ PF_W), (has _ PF_X); split; (by vm_compute). }
  clearbody flags.
  replace (last * 4096) with ((first_page ph + Z.of_nat (Z.to_nat (last - first_page ph))) * 4096) by lia.
  apply seg_loop_spec; try done; fold last in Hfu; lia.
Qed.

(** The byte a program sees at [va] in the space [r]. *)
Definition user_byte k r (va : Z) : Z := mm k (PHYS_TO_VIRT (get_phys_in k (r * PAGE_SIZE) va)).

Lemma pages_hold_byte k L r b page n va : vm_inv k L -> L r = 4%nat -> pages_hold k L r b page n -> user_va va ->
  page <= va / 4096 < page + Z.of_nat n -> user_byte k r va = b va.
Proof.
  intros Hinv Hr Hh Hva Hpg. destruct (Hh _ Hpg) as (c & [(Hc & _ & _) Hx] & Hb).
  unfold user_byte. rewrite (get_phys_xlate k L) by (done || apply Hinv). rewrite (Hx va Hva eq_refl).
  pose proof (Z.mod_pos_bound va 4096 ltac:(lia)) as Hmod.
  unfold PHYS_TO_VIRT. rewrite u64_small by (unfold KERNEL_VMA, PAGE_SIZE, WINDOW in *; lia).
  replace (KERNEL_VMA + (c * PAGE_SIZE + va mod 4096)) with (frame_va c + va mod 4096) by (unfold frame_va; lia).
  rewrite Hb by (unfold PAGE_SIZE; lia). f_equal. pose proof (Z.div_mod va 4096). lia.
Qed.

(** Pages loaded stay when other pages are loaded. *)
Lemma pages_hold_keep k L r b page n b' page' n' k' L' : pages_hold k L r b page n -> loaded k L r b' page' n' k' L' ->
  page + Z.of_nat n <= page' \/ page' + Z.of_nat n' <= page -> pages_hold k' L' r b page n.
Proof.
  intros Hh (Hf & _ & Hx) Hd j Hj. destruct (Hh j Hj) as (c & [(Hc & HLc & Hcu) Hmx] & Hb).
  destruct (proj1 Hf c HLc ltac:(lia) Hcu) as (H1 & H2 & H3). exists c. split.
  - split; [done|]. intros va Hva E. rewrite Hx by (done || lia). by apply Hmx.
  - intros o Ho. rewrite H3 by done. by apply Hb.
Qed.

Definition phdr_at (m : mem) (buf i : Z) : elf64_phdr := read_phdr m (buf + e_phoff m buf + i * e_phentsize m buf).

(** An image the loader accepts whose program headers are inside it, whose PT_LOAD
    segments lie in the file and in the user half, and share no pages. *)
Record prog_ok (m : mem) (buf buf_size : Z) : Prop := {
  po_check : elf_check m buf buf_size = 0;
  po_table : e_phoff m buf + e_phnum m buf * e_phentsize m buf <= buf_size;
  po_seg i : 0 <= i < e_phnum m buf -> p_type (phdr_at m buf i) = PT_LOAD -> seg_ok buf_size (phdr_at m buf i);
  po_disj i j : 0 <= i < j -> j < e_phnum m buf -> p_type (phdr_at m buf i) = PT_LOAD -> p_type (phdr_at m buf j) = PT_LOAD ->
    let a := phdr_at m buf i in let b := phdr_at m buf j in
    first_page a + Z.of_nat (seg_pages a) <= first_page b \/ first_page b + Z.of_nat (seg_pages b) <= first_page a
}.

(** Frames that loading headers [i], ... takes at most: four per page. *)
Fixpoint frames_needed (m : mem) (buf i : Z) (n : nat) : nat :=
  match n with
  | O => O
  | S n => ((if (p_type (phdr_at m buf i) =? PT_LOAD)%Z then 4 * seg_pages (phdr_at m buf i) else 0) + frames_needed m buf (i + 1)%Z n)%nat
  end.

Lemma check_facts m buf buf_size : bytes_ok m -> elf_check m buf buf_size = 0 ->
  64 <= buf_size /\ 56 <= e_phentsize m buf /\ 1 <= e_phnum m buf <= 16 /\ 0 <= e_phoff m buf.
Proof.
  intros Hb. unfold elf_check, sizeof_elf64_hdr, sizeof_elf64_phdr, ELF_MAX_PHDRS.
  pose proof (load_range 2 m (buf + 56) Hb) as H1. pose proof (load_range 8 m (buf + 32) Hb) as H2.
  fold (e_phnum m buf) in H1. fold (e_phoff m buf) in H2.
  repeat (match goal with |- (if ?c then _ else _) = _ -> _ => destruct c eqn:?; [discriminate|] end). intros _. lia.
Qed.

(** Reading the headers in memory that agrees on the image. *)
Lemma header_ext m m' buf buf_size : bytes_ok m -> prog_ok m buf buf_size -> (forall a, buf <= a < buf + buf_size -> m' a = m a) ->
  e_phoff m' buf = e_phoff m buf /\ e_phentsize m' buf = e_phentsize m buf /\ e_phnum m' buf = e_phnum m buf /\
  e_entry m' buf = e_entry m buf /\
  forall i, 0 <= i < e_phnum m buf -> read_phdr m' (buf + e_phoff m buf + i * e_phentsize m buf) = phdr_at m buf i.
Proof.
  intros Hb [Hc Ht _ _] E. destruct (check_facts m buf buf_size Hb Hc) as (H1 & H2 & H3 & H4).
  assert (forall n a, buf <= a -> a + Z.of_nat n <= buf + buf_size -> load n m' a = load n m a) as Hl.
  { intros n a Ha Hn. apply load_ext. intros x Hx. apply E. lia. }
  split; [apply Hl; lia|]. split; [apply Hl; lia|]. split; [apply Hl; lia|]. split; [apply Hl; lia|].
  intros i Hi. unfold phdr_at, read_phdr.
  assert (0 <= i * e_phentsize m buf /\ i * e_phentsize m buf + e_phentsize m buf <= e_phnum m buf * e_phentsize m buf) by nia.
  by rewrite !Hl by lia.
Qed.

(** The state between program headers: those before [i] are loaded, the image and
    every page of no loaded segment are as at the start. *)
Record loading (k0 : kst A) (L0 : levels) (r buf buf_size i : Z) k L : Prop := {
  ld_inv : vm_inv k L;
  ld_ext : extends L0 L;
  ld_small : user_small k r;
  ld_framed : framed k0 L0 k L;
  ld_held j : 0 <= j < i -> p_type (phdr_at (mm k0) buf j) = PT_LOAD ->
    pages_hold k L r (seg_byte (mm k0) buf (phdr_at (mm k0) buf j)) (first_page (phdr_at (mm k0) buf j)) (seg_pages (phdr_at (mm k0) buf j));
  ld_else va : user_va va ->
    (forall j, 0 <= j < i -> p_type (phdr_at (mm k0) buf j) = PT_LOAD ->
       ~ (first_page (phdr_at (mm k0) buf j) <= va / 4096 < first_page (phdr_at (mm k0) buf j) + Z.of_nat (seg_pages (phdr_at (mm k0) buf j)))) ->
    xlate (mm k) r va = xlate (mm k0) r va
}.

Section load.
Context (k0 : kst A) (L0 : levels) (r buf buf_size : Z) (fuel : nat).
Hypothesis (Hinv0 : vm_inv k0 L0) (Hr : L0 r = 4%nat) (Him : image k0 L0 buf buf_size).
Hypothesis (Hok : prog_ok (mm k0) buf buf_size).
Hypothesis (Hfuel : forall i, 0 <= i < e_phnum (mm k0) buf -> p_type (phdr_at (mm k0) buf i) = PT_LOAD ->
  (seg_pages (phdr_at (mm k0) buf i) < fuel)%nat).
Local Notation hdr := (phdr_at (mm k0) buf).
Local Notation loading := (loading k0 L0 r buf buf_size).

Lemma loading_image i k L : loading i k L -> image k L buf buf_size /\ forall a, buf <= a < buf + buf_size -> mm k a = mm k0 a.
Proof. intros H. apply (image_framed k0 L0); [exact Him|apply H]. Qed.

(** The loader reads the same header in every state of the loop. *)
Lemma loading_hdr i k L : loading i k L -> 0 <= i < e_phnum (mm k0) buf ->
  read_phdr (mm k) (buf + e_phoff (mm k) buf + i * e_phentsize (mm k) buf) = hdr i.
Proof.
  intros H Hi. destruct (loading_image i k L H) as [_ E].
  destruct (header_ext (mm k0) (mm k) buf buf_size (pw_bytes _ _ (vi_wf _ _ Hinv0)) Hok E) as (-> & -> & _ & _ & Hp). by apply Hp.
Qed.

Lemma loading_skip i k L : loading i k L -> p_type (hdr i) <> PT_LOAD -> loading (i + 1) k L.
Proof.
  intros [H1 H2 H3 H4 H5 H6] Hn. split; try done.
  - intros j Hj Hp. apply H5; [|done]. assert (j <> i) by (by intros ->). lia.
  - intros va Hva Ho. apply H6; [done|]. intros j Hj. apply Ho. lia.
Qed.

Lemma loading_seg i k L k' L' : loading i k L -> 0 <= i < e_phnum (mm k0) buf -> p_type (hdr i) = PT_LOAD ->
  vm_inv k' L' -> extends L L' -> loaded k L r (seg_byte (mm k) buf (hdr i)) (first_page (hdr i)) (seg_pages (hdr i)) k' L' ->
  loading (i + 1) k' L'.
Proof.
  intros H Hi Hp Hinv' He Hl. destruct (loading_image i k L H) as [_ E]. destruct H as [H1 H2 H3 H4 H5 H6].
  pose proof Hl as (Hf & Hh & Hx). split.
  - done.
  - intros f Hf'. rewrite <-(H2 f Hf'). apply He. by rewrite (H2 f Hf').
  - intros va Hva. apply (proj2 Hf); [by rewrite H2; [|lia]|]. by apply H3.
  - by eapply framed_trans.
  - intros j Hj Hpj. destruct (decide (j = i)) as [->|Hne].
    + intros q Hq. destruct (Hh q Hq) as (c & Hm & Hb). exists c. split; [done|]. intros o Ho. rewrite Hb by done.
      apply (seg_byte_ext _ _ _ buf_size); [by apply Hok|done].
    + apply (pages_hold_keep k L r _ _ _ _ _ _ k' L' (H5 j ltac:(lia) Hpj) Hl).
      apply (po_disj _ _ _ Hok j i); try done; lia.
  - intros va Hva Ho. rewrite Hx; [|done|apply Ho; [lia|done]]. apply H6; [done|]. intros j Hj. apply Ho. lia.
Qed.

Lemma phdr_loop_spec n : forall i k L cnt, loading i k L -> 0 <= i -> i + Z.of_nat n = e_phnum (mm k0) buf -> 0 <= cnt <= i ->
  exists rc cnt' k' L', phdr_loop fuel n k buf buf_size (r * PAGE_SIZE) i cnt = Some (rc, cnt', k') /\
    vm_inv k' L' /\ extends L0 L' /\
    (forall m, budget k (frames_needed (mm k0) buf i n + m) -> rc = 0 /\ budget k' m) /\
    (rc = 0 -> loading (e_phnum (mm k0) buf) k' L' /\ cnt <= cnt' /\
       (cnt' = 0 -> forall j, i <= j < e_phnum (mm k0) buf -> p_type (hdr j) <> PT_LOAD)).
Proof.
  destruct (check_facts _ _ _ (pw_bytes _ _ (vi_wf _ _ Hinv0)) (po_check _ _ _ Hok)) as (_ & _ & Hn16 & _).
  induction n as [|n IH]; intros i k L cnt H Hi Hin Hcnt; cbn [phdr_loop].
  { assert (i = e_phnum (mm k0) buf) as Ei by lia. exists 0, cnt, k, L. split; [done|]. split; [apply H|]. split; [apply H|].
    split; [done|]. intros _. rewrite <-Ei. split; [done|]. split; [lia|]. intros _ j Hj. lia. }
  rewrite (loading_hdr i k L H ltac:(lia)). cbn [frames_needed]. destruct (Z.eqb_spec (p_type (hdr i)) PT_LOAD) as [Hp|Hp]; cbn [negb].
  - pose proof (ld_ext _ _ _ _ _ _ _ _ H) as Hext. assert (L r = 4%nat) as HLr by (rewrite Hext; lia).
    destruct (load_segment_spec k L r buf buf_size (hdr i) fuel (ld_inv _ _ _ _ _ _ _ _ H) HLr (ld_small _ _ _ _ _ _ _ _ H)
      (proj1 (loading_image i k L H)) (po_seg _ _ _ Hok i ltac:(lia) Hp) (Hfuel i ltac:(lia) Hp))
      as (rc & k1 & L1 & -> & Hinv1 & He1 & Hb1 & [->|[-> Hl]]).
    + exists (-1), cnt, k1, L1. split; [done|]. split; [done|]. split; [|split; [|done]].
      * intros f Hf. rewrite <-(Hext f Hf). apply He1. by rewrite (Hext f Hf).
      * intros m Hb. rewrite <-Nat.add_assoc in Hb. by destruct (Hb1 _ Hb).
    + change (negb (0 =? 0)) with false. cbv iota. pose proof (loading_seg i k L k1 L1 H ltac:(lia) Hp Hinv1 He1 Hl) as H1.
      rewrite u16_small by lia.
      destruct (IH (i + 1) k1 L1 (cnt + 1) H1 ltac:(lia) ltac:(lia) ltac:(lia)) as (rc & cnt' & k' & L' & E & Hi' & He' & Hb & Hrc).
      exists rc, cnt', k', L'. split; [done|]. split; [done|]. split; [done|]. split.
      * intros m Hbud. rewrite <-Nat.add_assoc in Hbud. apply Hb. by apply Hb1.
      * intros H0. destruct (Hrc H0) as (Hlo & Hle & _). split; [done|]. split; [lia|]. intros ->. lia.
  - destruct (IH (i + 1) k L cnt (loading_skip i k L H Hp) ltac:(lia) ltac:(lia) ltac:(lia)) as (rc & cnt' & k' & L' & E & Hi' & He' & Hb & Hrc).
    exists rc, cnt', k', L'. split; [done|]. split; [done|]. split; [done|]. split; [done|].
    intros H0. destruct (Hrc H0) as (Hlo & Hle & Hno). split; [done|]. split; [done|]. intros Hc j Hj.
    destruct (decide (j = i)) as [->|]; [done|]. apply Hno; [done|lia].
Qed.
End load.

Lemma elf_load_spec k L r buf buf_size fuel : vm_inv k L -> L r = 4%nat -> user_small k r -> image k L buf buf_size ->
  prog_ok (mm k) buf buf_size ->
  (forall i, 0 <= i < e_phnum (mm k) buf -> p_type (phdr_at (mm k) buf i) = PT_LOAD -> (seg_pages (phdr_at (mm k) buf i) < fuel)%nat) ->
  exists rc entry k' L', elf_load fuel k buf buf_size (r * PAGE_SIZE) = Some (rc, entry, k') /\
    vm_inv k' L' /\ extends L L' /\ (rc = 0 \/ rc = -1) /\
    (forall m, budget k (frames_needed (mm k) buf 0 (Z.to_nat (e_phnum (mm k) buf)) + m) ->
     (exists i, 0 <= i < e_phnum (mm k) buf /\ p_type (phdr_at (mm k) buf i) = PT_LOAD) -> rc = 0 /\ budget k' m) /\
    (rc = 0 -> entry = e_entry (mm k) buf /\ loading k L r buf buf_size (e_phnum (mm k) buf) k' L').
Proof.
  intros Hinv Hr Hsm Him Hok Hfu. unfold elf_load. rewrite (po_check _ _ _ Hok). change (negb (0 =? 0)) with false. cbv iota.
  destruct (check_facts _ _ _ (pw_bytes _ _ (vi_wf _ _ Hinv)) (po_check _ _ _ Hok)) as (_ & _ & Hn16 & _).
  assert (loading k L r buf buf_size 0 k L) as H0.
  { split; try done; try apply framed_refl. intros j Hj. lia. }
  destruct (phdr_loop_spec k L r buf buf_size fuel Hinv Hr Him Hok Hfu (Z.to_nat (e_phnum (mm k) buf)) 0 k L 0 H0 ltac:(lia) ltac:(lia) ltac:(lia))
    as (rc & cnt & k' & L' & -> & Hi' & He' & Hb & Hrc).
  destruct (Z.eqb_spec rc 0) as [->|Hne]; cbn [negb].
  2: { exists (-1), 0, k', L'. split; [done|]. split; [done|]. split; [done|]. split; [by right|]. split; [|done].
       intros m Hbud _. by destruct (Hne (proj1 (Hb m Hbud))). }
  destruct (Hrc eq_refl) as (Hld & Hcnt & Hno). destruct (Z.eqb_spec cnt 0) as [->|Hc].
  { exists (-1), 0, k', L'. split; [done|]. split; [done|]. split; [done|]. split; [by right|]. split; [|done].
    intros m _ (i & Hi & Hp). by destruct (Hno eq_refl i Hi). }
  exists 0, (e_entry (mm k') buf), k', L'. split; [done|]. split; [done|]. split; [done|]. split; [by left|].
  split; [intros m Hbud _; by apply Hb|]. intros _.
  destruct (header_ext _ (mm k') _ _ (pw_bytes _ _ (vi_wf _ _ Hinv)) Hok (proj2 (loading_image k L r buf buf_size Him _ _ _ Hld)))
    as (_ & _ & _ & Hent & _). done.
Qed.

(** What the program reads of a loaded segment. *)
Lemma loading_bytes k0 L0 r buf buf_size k L i va : prog_ok (mm k0) buf buf_size -> L0 r = 4%nat -> loading k0 L0 r buf buf_size (e_phnum (mm k0) buf) k L ->
  0 <= i < e_phnum (mm k0) buf -> let ph := phdr_at (mm k0) buf i in p_type ph = PT_LOAD -> p_vaddr ph <= va < p_vaddr ph + p_memsz ph ->
  user_byte k r va = if va <? p_vaddr ph + p_filesz ph then mm k0 (buf + p_offset ph + (va - p_vaddr ph)) else 0.
Proof.
  intros Hok Hr Hld Hi ph Hp Hva. pose proof (po_seg _ _ _ Hok i Hi Hp) as [_ (Ho & Hf & _) Hm (Hv & Hve)]. fold ph in Ho, Hf, Hm, Hv, Hve.
  assert (L r = 4%nat) as Hr' by (rewrite (ld_ext _ _ _ _ _ _ _ _ Hld); lia).
  rewrite (pages_hold_byte k L r _ _ _ va (ld_inv _ _ _ _ _ _ _ _ Hld) Hr' (ld_held _ _ _ _ _ _ _ _ Hld i Hi Hp)); fold ph.
  - unfold seg_byte. by rewrite (proj2 (Z.leb_le _ _)) by lia.
  - unfold user_va. lia.
  - unfold first_page, seg_pages. rewrite (proj2 (Z.eqb_neq (p_memsz ph) 0)) by lia. unfold first_page. zlia.
Qed.

(** C4. Loading a program. For an image whose headers and segments lie in the file
    and whose segments are in the user half on pages of their own, [elf_load] returns
    (fuel above the pages of the largest segment is enough) and keeps the invariant of
    paging and allocation, in success and in failure. It succeeds when there is a
    PT_LOAD segment and the allocator has four frames for every page. When it succeeds
    it reports the entry point; a program in the space reads, at every address of
    a segment, the byte of the file, and zero after the file part; and every user page
    of no segment is as it was. *)
Theorem elf_load_correct k L r buf buf_size fuel : vm_inv k L -> L r = 4%nat -> user_small k r -> image k L buf buf_size ->
  prog_ok (mm k) buf buf_size ->
  (forall i, 0 <= i < e_phnum (mm k) buf -> p_type (phdr_at (mm k) buf i) = PT_LOAD -> (seg_pages (phdr_at (mm k) buf i) < fuel)%nat) ->
  exists rc entry k' L', elf_load fuel k buf buf_size (r * PAGE_SIZE) = Some (rc, entry, k') /\
    vm_inv k' L' /\ extends L L' /\ (rc = 0 \/ rc = -1) /\
    (budget k (frames_needed (mm k) buf 0 (Z.to_nat (e_phnum (mm k) buf))) ->
     (exists i, 0 <= i < e_phnum (mm k) buf /\ p_type (phdr_at (mm k) buf i) = PT_LOAD) -> rc = 0) /\
    (rc = 0 -> entry = e_entry (mm k) buf /\
    (forall i va, 0 <= i < e_phnum (mm k) buf -> let ph := phdr_at (mm k) buf i in p_type ph = PT_LOAD ->
         p_vaddr ph <= va < p_vaddr ph + p_memsz ph ->
         user_byte k' r va = if va <? p_vaddr ph + p_filesz ph then mm k (buf + p_offset ph + (va - p_vaddr ph)) else 0) /\
    (forall va, user_va va ->
         (forall i, 0 <= i < e_phnum (mm k) buf -> let ph := phdr_at (mm k) buf i in p_type ph = PT_LOAD ->
            ~ (first_page ph <= va / 4096 < first_page ph + Z.of_nat (seg_pages ph))) ->
         get_phys_in k' (r * PAGE_SIZE) va = get_phys_in k (r * PAGE_SIZE) va)).
Proof.
  intros Hinv Hr Hsm Him Hok Hfu. destruct (elf_load_spec k L r buf buf_size fuel Hinv Hr Hsm Him Hok Hfu) as (rc & entry & k' & L' & E & Hi' & He' & Hrc & Hb & H0).
  exists rc, entry, k', L'. split; [done|]. split; [done|]. split; [done|]. split; [done|]. split.
  { intros Hbud Hex. apply (Hb O); [by rewrite Nat.add_0_r|done]. }
  intros Hz. destruct (H0 Hz) as [Hent Hld]. split; [done|]. split.
  - intros i va Hi Hp Hva. by apply (loading_bytes k L r buf buf_size k' L').
  - intros va Hva Hout. assert (L' r = 4%nat) as Hr' by (rewrite He'; lia).
    rewrite !(get_phys_xlate _ _ r va) by (done || (by eapply vi_wf)). by apply (ld_else _ _ _ _ _ _ _ _ Hld).
Qed.
End spec.

(** ** A program of one segment

    The image is in frame 10 of the demonstration memory: header, one program header
    and four bytes of code, loaded at 0x400000 in the empty space of frame 6, followed
    by four bytes of zeros. *)

Definition demo_image : list Z :=
  [0x7F; 69; 76; 70; 2; 1; 1; 0; 0; 0; 0; 0; 0; 0; 0; 0;
   2; 0; 62; 0; 1; 0; 0; 0; 0; 0; 0x40; 0; 0; 0; 0; 0;
   64; 0; 0; 0; 0; 0; 0; 0; 0; 0; 0; 0; 0; 0; 0; 0;
   0; 0; 0; 0; 64; 0; 56; 0; 1; 0; 0; 0; 0; 0; 0; 0;
   1; 0; 0; 0; 5; 0; 0; 0; 120; 0; 0; 0; 0; 0; 0; 0;
   0; 0; 0x40; 0; 0; 0; 0; 0; 0; 0; 0x40; 0; 0; 0; 0; 0;
   4; 0; 0; 0; 0; 0; 0; 0; 8; 0; 0; 0; 0; 0; 0; 0;
   0; 16; 0; 0; 0; 0; 0; 0; 0x90; 0x90; 0xEB; 0xFE].
Definition demo_elf_mem : mem := put demo_mem (frame_va 10) demo_image.
Definition demo_elf : kst pmm_state := set_mm (free_frame demo_vm (11 * PAGE_SIZE)) demo_elf_mem.

Lemma demo_image_frame x : ~ (frame_va 10 <= x < frame_va 10 + PAGE_SIZE) -> demo_elf_mem x = mm demo_vm x.
Proof. intros Hx. apply put_other. change (Z.of_nat (length demo_image)) with 124. unfold PAGE_SIZE in Hx. lia. Qed.
Lemma demo_elf_inv : vm_inv demo_elf demo_levels.
Proof.
  apply (frame_write_inv _ _ 10); [|done| |exact demo_image_frame].
  - apply free_frame_inv; [apply demo_inv|unfold WINDOW; lia|done].
  - apply put_bytes_ok; [apply demo_wf|]. unfold demo_image. repeat constructor; lia.
Qed.
Lemma demo_elf_small : user_small demo_elf 6.
Proof.
  intros va Hva. apply (frame_write_nohuge demo_vm demo_levels 10); [apply demo_inv|done|done|exact demo_image_frame|].
  unfold nohuge. rewrite walkn_S. cbn zeta. change (mm demo_vm) with demo_mem.
  rewrite demo_ent by apply idx_range. by destruct (_ =? 0).
Qed.
Lemma demo_elf_used f : 0 <= f < PMM_MAX_FRAMES -> f <> 11 -> fa_used (fa demo_elf) f = fa_used demo_pmm f.
Proof.
  intros Hf Hne. change (fa_used (fa_free demo_pmm (11 * PAGE_SIZE)) f = fa_used demo_pmm f).
  rewrite fa_free_used by (done || lia || apply demo_pmm_spec). change (11 * PAGE_SIZE / FRAME_SIZE) with 11.
  by rewrite (proj2 (Z.eqb_neq 11 f)) by lia.
Qed.
Lemma demo_elf_image : image demo_elf demo_levels (frame_va 10) 124.
Proof.
  intros a Ha. exists 10, (a - frame_va 10). split; [lia|]. split; [unfold PAGE_SIZE; lia|]. split; [lia|]. split; [done|].
  rewrite demo_elf_used by (vm_compute; done). by rewrite (proj2 demo_pmm_spec) by (vm_compute; done).
Qed.
Lemma demo_elf_ok : prog_ok (mm demo_elf) (frame_va 10) 124.
Proof.
  assert (e_phnum (mm demo_elf) (frame_va 10) = 1) as En by (vm_compute; reflexivity).
  split; rewrite ?En.
  - vm_compute; reflexivity.
  - vm_compute; discriminate.
  - intros i Hi _. replace i with 0 by lia. split; vm_compute; intuition discriminate.
  - intros i j Hi Hj. lia.
Qed.
Lemma demo_elf_budget : budget demo_elf 4.
Proof.
  exists [7; 8; 9; 11]. split; [|split; [done|]].
  - repeat constructor; set_solver by lia.
  - assert (forall f, 0 < f < PMM_MAX_FRAMES -> f = 11 \/ fa_used demo_pmm f = false -> 0 < f < PMM_MAX_FRAMES /\ fa_used (fa demo_elf) f = false) as H.
    { intros f Hf Hu. split; [done|]. destruct (decide (f = 11)) as [->|Hne].
      - change (fa_used (fa_free demo_pmm (11 * PAGE_SIZE)) 11 = false). by rewrite fa_free_used by (done || apply demo_pmm_spec).
      - rewrite demo_elf_used by lia. by destruct Hu. }
    repeat (apply Forall_cons; split); [..|apply Forall_nil; done]; (apply H; [by vm_compute|]);
      [right|right|right|by left]; by rewrite (proj2 demo_pmm_spec) by by vm_compute.
Qed.

Lemma elf_load_correct_witness : exists entry k',
  elf_load 2 demo_elf (frame_va 10) 124 (6 * PAGE_SIZE) = Some (0, entry, k') /\ entry = 0x400000 /\
  user_byte k' 6 0x400002 = 0xEB /\ user_byte k' 6 0x400006 = 0.
Proof.
  destruct (elf_load_correct demo_elf demo_levels 6 (frame_va 10) 124 2 demo_elf_inv eq_refl demo_elf_small demo_elf_image demo_elf_ok)
    as (rc & entry & k' & L' & E & _ & _ & _ & Hb & Hrc).
  - intros i Hi _. assert (e_phnum (mm demo_elf) (frame_va 10) = 1) as En by (vm_compute; reflexivity).
    replace i with 0 by lia. vm_compute. lia.
  - assert (rc = 0) as -> by (apply Hb; [exact demo_elf_budget|exists 0; split; vm_compute; intuition discriminate]).
    destruct (Hrc eq_refl) as (He & Hby & _). exists entry, k'. split; [exact E|]. split; [|split].
    + rewrite He. vm_compute; reflexivity.
    + rewrite (Hby 0 0x400002); vm_compute; intuition discriminate.
    + rewrite (Hby 0 0x400006); vm_compute; intuition discriminate.
Defined.
