(* ===== verification/Fork.v ===== *)
(** * What [vmm_fork_pml4] promises

    Theorems about the copy-on-write clone of an address space (vmm.c, modelled in
    Vmm.v): the child sees what the parent saw, no page of either is writable
    until it has been copied, and nothing else changes; when frames run out the
    tables built so far are given back and the parent is as before. *)

From S2P Require Import Prelude Mem Pmm Vmm Heap Proc ProcSpec Elf ElfSpec.

(** ** Entries *)

(** What becomes of an entry of the parent's page tables. *)
Definition cowed (e : Z) : Z := if present e then cow_entry e else e.

(** What the clone's page table gets for it. *)
Definition clone_entry (e : Z) : Z := if present e then cow_entry e else 0.

(** The entry [e], led to the table in frame [c]. *)
Definition relink (e c : Z) : Z := (e &b not64 PTE_ADDR_MASK) |b (c * PAGE_SIZE).

Lemma cow_entry_bit e i : 0 <= i < 9 -> i <> 1 -> Z.testbit (cow_entry e) i = Z.testbit e i.
Proof.
  intros Hi H1. unfold cow_entry. destruct (has e PTE_WRITE); [|done].
  unfold PTE_COW. rewrite Z.lor_spec, Z.land_spec, Z.shiftl_1_l, Z.pow2_bits_false by lia.
  rewrite orb_false_r. unfold not64, u64. rewrite <- Z.land_ones by lia. rewrite Z.land_spec, Z.ones_spec_low, Z.lnot_spec by lia.
  unfold PTE_WRITE. rewrite Z.shiftl_1_l, Z.pow2_bits_false by lia. apply andb_true_r.
Qed.

Lemma cow_entry_present e : present (cow_entry e) = present e.
Proof. rewrite !present_bit. by apply cow_entry_bit. Qed.

Lemma cow_entry_nxt e : nxt (cow_entry e) = nxt e.
Proof.
  unfold cow_entry. destruct (has e PTE_WRITE); [|done]. rewrite nxt_lor.
  change (nxt PTE_COW) with 0. rewrite Z.lor_0_r. unfold nxt. rewrite Z.shiftr_land, <- Z.land_assoc.
  by change ((not64 PTE_WRITE >>b 12) &b Z.ones 40) with (Z.ones 40).
Qed.

Lemma cow_entry_ro e : has (cow_entry e) PTE_WRITE = false.
Proof.
  unfold cow_entry. destruct (has e PTE_WRITE) eqn:E; [|done]. unfold PTE_WRITE at 2. rewrite has_shl by lia.
  rewrite Z.lor_spec, Z.land_spec. change (Z.testbit (not64 PTE_WRITE) 1) with false. by rewrite andb_false_r.
Qed.

Lemma cow_entry_cow e : has (cow_entry e) PTE_COW = has e PTE_COW || has e PTE_WRITE.
Proof.
  unfold cow_entry. destruct (has e PTE_WRITE) eqn:E; [|by rewrite orb_false_r]. rewrite orb_true_r.
  unfold PTE_COW at 2. rewrite has_shl by lia. rewrite Z.lor_spec. change (Z.testbit PTE_COW 9) with true. apply orb_true_r.
Qed.

Lemma cow_entry_idem e : cow_entry (cow_entry e) = cow_entry e.
Proof. unfold cow_entry at 1. by rewrite cow_entry_ro. Qed.

Lemma cow_entry_range e : 0 <= e < 2 ^ 64 -> 0 <= cow_entry e < 2 ^ 64.
Proof.
  intros He. unfold cow_entry. destruct (has e PTE_WRITE); [|done].
  apply lor_bound; [lia|by apply land_bound|by vm_compute].
Qed.

Lemma cowed_present e : present (cowed e) = present e.
Proof. unfold cowed. destruct (present e) eqn:E; [by rewrite cow_entry_present|done]. Qed.
Lemma cowed_nxt e : nxt (cowed e) = nxt e.
Proof. unfold cowed. destruct (present e); [apply cow_entry_nxt|done]. Qed.
Lemma cowed_idem e : cowed (cowed e) = cowed e.
Proof. unfold cowed. destruct (present e) eqn:E; [by rewrite cow_entry_present, E, cow_entry_idem|by rewrite E]. Qed.
Lemma clone_cowed e : clone_entry (cowed e) = clone_entry e.
Proof. unfold clone_entry. rewrite cowed_present. unfold cowed. destruct (present e); [apply cow_entry_idem|done]. Qed.
Lemma clone_present e : present (clone_entry e) = present e.
Proof. unfold clone_entry. destruct (present e) eqn:E; [by rewrite cow_entry_present|done]. Qed.

Lemma relink_ok e c : 0 <= e < 2 ^ 64 -> 0 < c < WINDOW ->
  0 <= relink e c < 2 ^ 64 /\ present (relink e c) = present e /\ huge (relink e c) = huge e /\ nxt (relink e c) = c.
Proof.
  intros He Hc. unfold WINDOW in Hc. unfold relink. rewrite !present_bit, !huge_bit.
  set (keep := not64 PTE_ADDR_MASK). splits.
  - apply lor_bound; [lia|by apply land_bound|unfold PAGE_SIZE; lia].
  - rewrite Z.lor_spec, Z.land_spec, frame_low_bits by lia. change (Z.testbit keep 0) with true. by rewrite andb_true_r, orb_false_r.
  - rewrite Z.lor_spec, Z.land_spec, frame_low_bits by lia. change (Z.testbit keep 7) with true. by rewrite andb_true_r, orb_false_r.
  - rewrite nxt_lor, nxt_frame by lia. rewrite nxt_flags; [apply Z.lor_0_l|].
    rewrite <- Z.land_assoc. change (keep &b PTE_ADDR_MASK) with 0. apply Z.land_0_r.
Qed.

Lemma relink_link l e c : 0 <= e < 2 ^ 64 -> 0 < c < WINDOW -> link l (relink e c) = link l e.
Proof. intros He Hc. destruct (relink_ok e c He Hc) as (_ & Hp & Hh & _). unfold link. by rewrite Hp, Hh. Qed.

Section fork.
Context {A : Type} `{!FrameAlloc A} `{!FrameAllocLaws A}.
Implicit Types (k : kst A) (L : levels).

(** ** What cloning does to the tables that exist

    Tables are added in frames that were free; entries of the old tables stay,
    except that leaf entries may become copy-on-write; frames in use that are no
    tables keep their contents.  A new table leads to new tables only, the kernel
    half of a new root excepted, and maps frames that were mapped before. *)
Record grown k L k' L' : Prop := {
  gr_inv : vm_inv k' L';
  gr_ext : extends L L';
  gr_tab g i : (2 <= L g)%nat -> 0 <= i < 512 -> ent (mm k') g i = ent (mm k) g i;
  gr_leaf g i : L g = 1%nat -> 0 <= i < 512 ->
    ent (mm k') g i = ent (mm k) g i \/ ent (mm k') g i = cowed (ent (mm k) g i);
  gr_data d : L d = O -> 0 <= d -> fa_used (fa k) d = true ->
    L' d = O /\ fa_used (fa k') d = true /\
    forall o, 0 <= o < PAGE_SIZE -> mm k' (frame_va d + o) = mm k (frame_va d + o);
  gr_link g i : L g = O -> (2 <= L' g)%nat -> 0 <= i < 512 -> (L' g = 4%nat -> i < 256) ->
    link (L' g) (ent (mm k') g i) = true -> L (nxt (ent (mm k') g i)) = O;
  gr_page g i : L g = O -> L' g = 1%nat -> 0 <= i < 512 -> present (ent (mm k') g i) = true ->
    exists f j, L f = 1%nat /\ 0 <= j < 512 /\ present (ent (mm k) f j) = true /\
      nxt (ent (mm k') g i) = nxt (ent (mm k) f j);
  gr_regs : same_regs k k' /\ cpu_log k' = cpu_log k
}.

Lemma grown_refl k L : vm_inv k L -> grown k L k L.
Proof. intros H. split; try done; auto; intros; lia. Qed.

Lemma grown_same k L k' L' g i : grown k L k' L' -> L g = 1%nat -> 0 <= i < 512 ->
  present (ent (mm k') g i) = present (ent (mm k) g i) /\ nxt (ent (mm k') g i) = nxt (ent (mm k) g i).
Proof.
  intros Hg Hl Hi. destruct (gr_leaf _ _ _ _ Hg g i Hl Hi) as [-> | ->]; [done|].
  by rewrite cowed_present, cowed_nxt.
Qed.

Lemma ext_zero L L' f : extends L L' -> L' f = O -> L f = O.
Proof. intros He Hf. destruct (L f) eqn:E; [done|]. rewrite He in Hf; lia. Qed.

Lemma grown_trans k1 L1 k2 L2 k3 L3 : grown k1 L1 k2 L2 -> grown k2 L2 k3 L3 -> grown k1 L1 k3 L3.
Proof.
  intros H12 H23. pose proof (gr_ext _ _ _ _ H12) as He1. pose proof (gr_ext _ _ _ _ H23) as He2.
  assert (forall g, L1 g <> O -> L2 g = L1 g) as Hl2 by exact He1.
  split.
  - apply H23.
  - by eapply extends_trans.
  - intros g i Hg Hi. rewrite (gr_tab _ _ _ _ H23), (gr_tab _ _ _ _ H12) by (rewrite ?Hl2; done || lia). done.
  - intros g i Hg Hi. assert (L2 g = 1%nat) as Hg2 by (rewrite Hl2; lia).
    destruct (gr_leaf _ _ _ _ H23 g i Hg2 Hi) as [-> | ->]; destruct (gr_leaf _ _ _ _ H12 g i Hg Hi) as [-> | ->];
      rewrite ?cowed_idem; auto.
  - intros d Hd H0 Hu. destruct (gr_data _ _ _ _ H12 d Hd H0 Hu) as (Hd2 & Hu2 & Ho2).
    destruct (gr_data _ _ _ _ H23 d Hd2 H0 Hu2) as (Hd3 & Hu3 & Ho3). splits; [done|done|].
    intros o Ho. by rewrite Ho3, Ho2.
  - intros g i Hg Hg3 Hi H4 Hlk. destruct (decide (L2 g = O)) as [Hg2|Hg2].
    + apply (ext_zero _ _ _ He1). by apply (gr_link _ _ _ _ H23).
    + rewrite (He2 g Hg2) in *. rewrite (gr_tab _ _ _ _ H23) in * by (done || lia). by apply (gr_link _ _ _ _ H12).
  - intros g i Hg Hg3 Hi Hp. destruct (decide (L2 g = O)) as [Hg2|Hg2].
    + destruct (gr_page _ _ _ _ H23 g i Hg2 Hg3 Hi Hp) as (f & j & Hf & Hj & Hpf & ->).
      destruct (decide (L1 f = O)) as [Hf1|Hf1]; [by apply (gr_page _ _ _ _ H12)|].
      rewrite Hl2 in Hf by done. destruct (grown_same _ _ _ _ f j H12 Hf Hj) as [E1 E2]. exists f, j. by rewrite E2, <- E1.
    + rewrite (He2 g Hg2) in Hg3. destruct (grown_same _ _ _ _ g i H23 Hg3 Hi) as [E1 E2]. rewrite E2.
      rewrite E1 in Hp. by apply (gr_page _ _ _ _ H12).
  - destruct (gr_regs _ _ _ _ H12) as [Hr E1], (gr_regs _ _ _ _ H23) as [Hs E2].
    split; [|congruence]. eapply same_regs_trans; [exact Hr|exact Hs].
Qed.
(** Memory and allocator may change outside the tables and the frames that were
    in use. *)
Lemma grown_step k0 L0 k L k' : grown k0 L0 k L -> vm_inv k' L ->
  (forall g i, L g <> O -> 0 <= i < 512 -> ent (mm k') g i = ent (mm k) g i) ->
  (forall d, L0 d = O -> 0 <= d -> fa_used (fa k0) d = true -> fa_used (fa k) d = true -> L d = O -> fa_used (fa k') d = true /\
     forall o, 0 <= o < PAGE_SIZE -> mm k' (frame_va d + o) = mm k (frame_va d + o)) ->
  same_regs k k' -> cpu_log k' = cpu_log k -> grown k0 L0 k' L.
Proof.
  intros Hg Hinv Hent Hd Hr Hlog. pose proof (gr_ext _ _ _ _ Hg) as He.
  assert (forall g, L0 g <> O -> L g <> O) as Hn by (intros g H; by rewrite He).
  split.
  - done.
  - done.
  - intros g i H2 Hi. rewrite Hent by (done || (apply Hn; lia)). by apply Hg.
  - intros g i H1 Hi. rewrite Hent by (done || (apply Hn; lia)). by apply Hg.
  - intros d H0 Hp Hu. destruct (gr_data _ _ _ _ Hg d H0 Hp Hu) as (H1 & H2 & H3).
    destruct (Hd d H0 Hp Hu H2 H1) as [H4 H5]. splits; [done|done|]. intros o Ho. by rewrite H5, H3.
  - intros g i H0 H2 Hi H4. rewrite Hent by (done || lia). by apply Hg.
  - intros g i H0 H1 Hi. rewrite Hent by (done || lia). by apply Hg.
  - destruct (gr_regs _ _ _ _ Hg) as [Hs E]. split; [by eapply same_regs_trans|congruence].
Qed.

(** A write into a frame taken since, that is no table yet. *)
Lemma grown_write k0 L0 k L c i v : grown k0 L0 k L -> L c = O -> fa_used (fa k0) c = false -> 0 <= i < 512 ->
  grown k0 L0 (st k (frame_va c) i v) L.
Proof.
  intros Hg Hc Hu Hi.
  assert (forall x, ~ (frame_va c <= x < frame_va c + PAGE_SIZE) -> mm (st k (frame_va c) i v) x = mm k x) as Hout.
  { intros x Hx. unfold st, PAGE_SIZE in *. cbn [mm set_mm]. rewrite store_other by (cbn; lia). done. }
  pose proof (vi_wf _ _ (gr_inv _ _ _ _ Hg)) as Hwf.
  apply (grown_step k0 L0 k L); try done.
  - apply (frame_write_inv k L c); [apply Hg|done|apply store_bytes_ok, Hwf|exact Hout].
  - intros g j HL Hj. unfold st. cbn [mm set_mm]. rewrite ent_store by done.
    destruct (Z.eqb_spec c g) as [<-|]; [done|done].
  - intros d _ Hd0 Hd Hd1 _. split; [done|]. intros o Ho. apply Hout.
    assert (d <> c) by (intros ->; congruence). unfold frame_va, PAGE_SIZE in *. lia.
Qed.

(** Taking a frame, and giving back a frame taken since. *)
Lemma grown_alloc k L : vm_inv k L ->
  alloc_frame k = (0, k) \/
  exists c k1, alloc_frame k = (c * PAGE_SIZE, k1) /\ 0 < c < WINDOW /\ L c = O /\ fa_used (fa k) c = false /\
    fa_used (fa k1) c = true /\ mm k1 = mm k /\ grown k L k1 L /\ forall n, budget k (S n) -> budget k1 n.
Proof.
  intros Hinv. pose proof (alloc_budget k L) as Hbud. specialize (fun n => Hbud n Hinv).
  destruct (alloc_frame_fresh k L Hinv) as [->|(c & Hcw & HLc & Hr1 & Hm1 & Hregs & Hlog & Hok & Hcu & Hu')]; [by left|].
  right. destruct (alloc_frame k) as [p k1]. cbn [fst snd] in *. subst p. exists c, k1.
  splits; try done.
  - rewrite Hu' by lia. by rewrite Z.eqb_refl.
  - apply (grown_step k L k L); try done; [by apply grown_refl| |by rewrite Hm1|].
    + apply (vm_inv_grow k k1 L L); try done; [rewrite Hm1; apply Hinv| |by left].
      intros g H0 Hg. by rewrite Hu', Hg, orb_true_r.
    + intros d _ H0 Hd _ _. rewrite Hu', Hd, orb_true_r, Hm1 by done. done.
  - intros n Hb. by apply Hbud.
Qed.

Lemma grown_free k0 L0 k L c : grown k0 L0 k L -> L c = O -> 0 < c < WINDOW -> fa_used (fa k0) c = false ->
  grown k0 L0 (free_frame k (c * PAGE_SIZE)) L.
Proof.
  intros Hg Hc Hcw Hu. pose proof (gr_inv _ _ _ _ Hg) as Hinv.
  apply (grown_step k0 L0 k L); try done.
  - by apply free_frame_inv.
  - intros d _ H0 Hd Hd1 _. split; [|done]. cbn [fa free_frame set_fa].
    rewrite fa_free_used; [|apply Hinv|unfold FRAME_SIZE, PAGE_SIZE; lia|done].
    unfold PAGE_SIZE, FRAME_SIZE. rewrite Z.div_mul, Hd1 by lia.
    assert (c <> d) by (intros ->; congruence). by rewrite (proj2 (Z.eqb_neq c d)).
Qed.

(** ** New tables *)

Definition add_level (c : Z) (l : nat) L : levels := fun g => if g =? c then l else L g.

(** No table leads to [c]. *)
Definition unlinked (m : mem) L (c : Z) : Prop :=
  forall g i, (2 <= L g)%nat -> 0 <= i < 512 -> link (L g) (ent m g i) = true -> nxt (ent m g i) <> c.

Lemma add_level_old c l L g : L c = O -> L g <> O -> add_level c l L g = L g.
Proof. intros Hc Hg. unfold add_level. destruct (Z.eqb_spec g c) as [->|]; [lia|done]. Qed.

Lemma add_level_new c l L : add_level c l L c = l.
Proof. unfold add_level. by rewrite Z.eqb_refl. Qed.

(** The links of the frame [c] would be those of a table of level [l]. *)
Record dir_links (m : mem) L (c : Z) (l : nat) : Prop := {
  dl_child i : 0 <= i < 512 -> link l (ent m c i) = true -> S (L (nxt (ent m c i))) = l;
  dl_free i : 0 <= i < 512 -> link l (ent m c i) = true -> unlinked m L (nxt (ent m c i));
  dl_inj i j : 0 <= i < 512 -> 0 <= j < 512 -> link l (ent m c i) = true -> link l (ent m c j) = true ->
    nxt (ent m c i) = nxt (ent m c j) -> i = j
}.

Lemma add_table_wf m L c l : pt_wf m L -> L c = O -> 0 < c < WINDOW -> (l <= 4)%nat ->
  ((2 <= l)%nat -> dir_links m L c l) -> pt_wf m (add_level c l L).
Proof.
  intros Hwf Hc Hcw Hl Hd.
  assert (forall g i, (2 <= L g)%nat -> 0 <= i < 512 -> link (L g) (ent m g i) = true -> L (nxt (ent m g i)) <> O) as Hold.
  { intros g i Hg Hi Hlk. pose proof (pw_child m L Hwf g i Hg Hi Hlk). lia. }
  assert (forall g, g <> c -> add_level c l L g = L g) as Hne.
  { intros g Hg. unfold add_level. by rewrite (proj2 (Z.eqb_neq g c)). }
  split.
  - apply Hwf.
  - intros f. destruct (Z.eq_dec f c) as [->|Hf]; [by rewrite add_level_new|]. rewrite Hne by done. apply (pw_range m L Hwf).
  - intros f i. destruct (Z.eq_dec f c) as [->|Hf].
    + rewrite add_level_new. intros H2 Hi Hlk. pose proof (dl_child _ _ _ _ (Hd H2) i Hi Hlk).
      rewrite add_level_old; [done|done|lia].
    + rewrite Hne by done. intros H2 Hi Hlk. rewrite add_level_old by (done || by apply Hold). by apply (pw_child m L Hwf).
  - intros f i g j. destruct (Z.eq_dec f c) as [->|Hf], (Z.eq_dec g c) as [->|Hg]; rewrite ?add_level_new, ?Hne by done.
    + intros H2 _ Hi Hj Hi1 Hj1 E. split; [|by left]. by apply (dl_inj _ _ _ _ (Hd H2)).
    + intros H2 HL Hi Hj Hi1 Hj1 E. exfalso. apply (dl_free _ _ _ _ (Hd H2) i Hi Hi1 g j); [lia|done|by rewrite HL|done].
    + intros H2 HL Hi Hj Hi1 Hj1 E. exfalso. rewrite HL in Hd. apply (dl_free _ _ _ _ (Hd H2) j Hj Hj1 f i H2 Hi Hi1 E).
    + apply (pw_parent m L Hwf).
Qed.

Lemma add_unlinked m L c l : pt_wf m L -> L c = O -> ((2 <= l)%nat -> dir_links m L c l) -> unlinked m (add_level c l L) c.
Proof.
  intros Hwf Hc Hd g i H2 Hi Hlk E. destruct (Z.eq_dec g c) as [->|Hg].
  - rewrite add_level_new in *. pose proof (dl_child _ _ _ _ (Hd H2) i Hi Hlk). rewrite E in *. lia.
  - unfold add_level in *. rewrite (proj2 (Z.eqb_neq g c)) in * by done.
    pose proof (pw_child m L Hwf g i H2 Hi Hlk). rewrite E in *. lia.
Qed.

(** A frame taken since becomes a table. *)
Lemma grown_table k0 L0 k L c l : grown k0 L0 k L -> L c = O -> 0 < c < WINDOW ->
  fa_used (fa k0) c = false -> fa_used (fa k) c = true -> (1 <= l <= 3)%nat ->
  (l = 1%nat -> forall i, 0 <= i < 512 -> present (ent (mm k) c i) = true ->
    exists f j, L0 f = 1%nat /\ 0 <= j < 512 /\ present (ent (mm k0) f j) = true /\ nxt (ent (mm k) c i) = nxt (ent (mm k0) f j)) ->
  ((2 <= l)%nat -> dir_links (mm k) L c l) ->
  ((2 <= l)%nat -> forall i, 0 <= i < 512 -> link l (ent (mm k) c i) = true -> L0 (nxt (ent (mm k) c i)) = O) ->
  grown k0 L0 k (add_level c l L).
Proof.
  intros Hg Hc Hcw Hu0 Hu Hl Hpage Hd Hnew. pose proof (gr_inv _ _ _ _ Hg) as Hinv. pose proof (gr_ext _ _ _ _ Hg) as He.
  assert (forall g, L0 g <> O -> L g <> O) as Hn by (intros g H; by rewrite He).
  split.
  - apply (vm_inv_grow k k L); [done|apply add_table_wf; [apply Hinv|done|done|lia|done]|apply Hinv|done|].
    intros g Hgl. destruct (Z.eq_dec g c) as [->|]; [by right|left].
    unfold add_level in Hgl. by rewrite (proj2 (Z.eqb_neq g c)) in Hgl.
  - intros f Hf. rewrite add_level_old by auto. by apply He.
  - apply Hg.
  - apply Hg.
  - intros d Hd0 H0 Hdu. destruct (gr_data _ _ _ _ Hg d Hd0 H0 Hdu) as (H1 & H2 & H3). splits; [|done|done].
    unfold add_level. destruct (Z.eqb_spec d c) as [->|]; [congruence|done].
  - intros g i Hg0. destruct (Z.eq_dec g c) as [->|Hgc]; [rewrite add_level_new; auto|].
    unfold add_level. rewrite (proj2 (Z.eqb_neq g c)) by done. by apply Hg.
  - intros g i Hg0. destruct (Z.eq_dec g c) as [->|Hgc]; [rewrite add_level_new; auto|].
    unfold add_level. rewrite (proj2 (Z.eqb_neq g c)) by done. by apply Hg.
  - apply Hg.
Qed.

(** Later growth does not lead to tables that exist. *)
Lemma grown_unlinked k L k' L' c : grown k L k' L' -> (L c = 1 \/ L c = 2 \/ L c = 3)%nat ->
  (forall g, L g = O -> L' g <> 4%nat) -> unlinked (mm k) L c -> unlinked (mm k') L' c.
Proof.
  intros Hg Hc H4 Hun g i H2 Hi Hlk E. pose proof (gr_ext _ _ _ _ Hg) as He.
  destruct (decide (L g = O)) as [H0|H0].
  - pose proof (gr_link _ _ _ _ Hg g i H0 H2 Hi ltac:(intros H; by destruct (H4 g H0)) Hlk) as HO. rewrite E in HO. lia.
  - rewrite (He g H0) in *. rewrite (gr_tab _ _ _ _ Hg) in * by done. by apply (Hun g i).
Qed.

(** ** Clones

    In memory [m] the table [c] of level [l] is a clone of the table [f] as it was
    in [m0]: absent entries are cleared, huge pages copied, links led to clones,
    pages copied as copy-on-write, and the pages of [f] are copy-on-write now. *)
Fixpoint cloned (l : nat) (m0 m : mem) (f c : Z) : Prop :=
  match l with
  | O => False
  | S l' => forall i, 0 <= i < 512 -> let e := ent m0 f i in
      match l' with
      | O => ent m c i = clone_entry e /\ ent m f i = cowed e
      | S _ =>
          (present e = false -> ent m c i = 0) /\
          (present e = true -> link l e = false -> ent m c i = e) /\
          (link l e = true -> exists c', 0 < c' < WINDOW /\ ent m c i = relink e c' /\ cloned l' m0 m (nxt e) c')
      end
  end.

Lemma cloned_stable l m0 L0 m L m' f c : pt_wf m0 L0 -> pt_wf m L -> extends L0 L ->
  (forall g i, (2 <= L g <= 3)%nat -> 0 <= i < 512 -> ent m' g i = ent m g i) ->
  (forall g i, L g = 1%nat -> 0 <= i < 512 -> ent m' g i = ent m g i \/ ent m' g i = cowed (ent m g i)) ->
  L0 f = l -> L c = l -> (l <= 3)%nat -> cloned l m0 m f c -> cloned l m0 m' f c.
Proof.
  intros Hwf0 Hwf He Htab Hleaf. revert f c. induction l as [|[|l] IH]; intros f c Hf Hc Hl H; [done| |].
  - intros i Hi. destruct (H i Hi) as [H1 H2]. cbv zeta. set (e := ent m0 f i) in *.
    assert (L f = 1%nat) as Hf1 by (rewrite He; lia). split.
    + destruct (Hleaf c i Hc Hi) as [-> | ->]; [done|]. rewrite H1. unfold cowed. rewrite clone_present.
      unfold clone_entry. destruct (present e); [apply cow_entry_idem|done].
    + destruct (Hleaf f i Hf1 Hi) as [-> | ->]; rewrite H2, ?cowed_idem; done.
  - intros i Hi. destruct (H i Hi) as (H1 & H2 & H3). cbv zeta. rewrite Htab by (done || lia). splits; [done|done|].
    intros Hlk. destruct (H3 Hlk) as (c' & Hc' & E & Hcl). exists c'. splits; [done|done|].
    assert (0 <= ent m0 f i < 2 ^ 64) as Hr by apply ent_range, Hwf0.
    apply IH; [|..|lia|done].
    + by apply (child_level m0 L0 Hwf0).
    + pose proof (child_level m L Hwf l c i Hc Hi) as Hch. rewrite E, relink_link in Hch by done.
      destruct (relink_ok _ c' Hr Hc') as (_ & _ & _ & En). rewrite En in Hch. auto.
Qed.

Lemma cloned_src k0 L0 k1 L1 l m f c : vm_inv k0 L0 -> grown k0 L0 k1 L1 -> L0 f = l ->
  cloned l (mm k1) m f c -> cloned l (mm k0) m f c.
Proof.
  intros Hinv Hg. pose proof (vi_wf _ _ Hinv) as Hwf. revert f c.
  induction l as [|[|l] IH]; intros f c Hf H; [done| |]; intros i Hi; specialize (H i Hi); cbv zeta in *.
  - destruct (gr_leaf _ _ _ _ Hg f i Hf Hi) as [E|E]; rewrite E, ?clone_cowed, ?cowed_idem in H; exact H.
  - rewrite (gr_tab _ _ _ _ Hg f i) in H by (done || lia). destruct H as (H1 & H2 & H3). splits; [done|done|].
    intros Hlk. destruct (H3 Hlk) as (c' & Hc' & E & Hcl). exists c'. splits; [done|done|].
    apply IH; [|done]. by apply (child_level _ L0 Hwf).
Qed.

(** A clone translates as its original did; where the original had a page, the
    clone has the page-table entry [clone_entry] makes of it. *)
Lemma cloned_walk l m0 m f c va : bytes_ok m0 -> cloned l m0 m f c ->
  slot_phys m va (walkn l m c va) = slot_phys m0 va (walkn l m0 f va) /\
  forall pt, walkn l m0 f va = Some (1%nat, pt, idx 1 va) ->
    (exists pt', walkn l m c va = Some (1%nat, pt', idx 1 va) /\ ent m pt' (idx 1 va) = clone_entry (ent m0 pt (idx 1 va))) /\
    ent m pt (idx 1 va) = cowed (ent m0 pt (idx 1 va)).
Proof.
  intros Hb. revert f c. induction l as [|[|l] IH]; intros f c H; [done| |].
  - destruct (H (idx 1 va) (idx_range _ _)) as [H1 H2]. cbn [walkn]. split.
    + cbn [slot_phys]. rewrite H1, clone_present. unfold clone_entry.
      destruct (present (ent m0 f (idx 1 va))); [|done]. by rewrite !addr_mask, cow_entry_nxt.
    + intros pt [= <-]. split; [by exists c|done].
  - destruct (H (idx (S (S l)) va) (idx_range _ _)) as (H1 & H2 & H3). rewrite !walkn_S. cbv zeta.
    set (e := ent m0 f (idx (S (S l)) va)) in *.
    assert (0 <= e < 2 ^ 64) as Hr by by apply ent_range.
    destruct (link (S (S l)) e) eqn:Hlk.
    + destruct (H3 eq_refl) as (c' & Hc' & E & Hcl). destruct (relink_ok e c' Hr Hc') as (_ & Ep & _ & En).
      rewrite E, Ep, relink_link, En, Hlk by done. unfold link in Hlk.
      destruct (present e); [|done]. cbn [negb]. by apply IH.
    + destruct (present e) eqn:Hp; cbn [negb].
      * specialize (H2 eq_refl eq_refl). rewrite H2, Hp, Hlk. cbn [negb slot_phys]. by rewrite H2.
      * by rewrite H1.
Qed.

(** ** Cloning a page table *)

Lemma st_ent k f i v g j : 0 <= i < 512 -> 0 <= j < 512 -> 0 <= v < 2 ^ 64 ->
  ent (mm (st k (frame_va f) i v)) g j = if (f =? g) && (i =? j) then v else ent (mm k) g j.
Proof. intros Hi Hj Hv. unfold st. cbn [mm set_mm]. rewrite ent_store by done. by rewrite u64_small. Qed.

Lemma leaf_inv k L f i v : vm_inv k L -> L f = 1%nat -> 0 <= i < 512 -> vm_inv (st k (frame_va f) i v) L.
Proof. intros H Hf Hi. split; [|apply H..]. apply leaf_wf; [apply H|done|done]. Qed.

(** One entry of a page table becomes copy-on-write. *)
Lemma grown_cow k L f i : vm_inv k L -> L f = 1%nat -> 0 <= i < 512 ->
  grown k L (st k (frame_va f) i (cow_entry (ent (mm k) f i))) L \/ present (ent (mm k) f i) = false.
Proof.
  intros Hinv Hf Hi. destruct (present (ent (mm k) f i)) eqn:Hp; [left|by right].
  pose proof (vi_wf _ _ Hinv) as Hwf. set (v := cow_entry (ent (mm k) f i)).
  assert (0 <= v < 2 ^ 64) as Hv by apply cow_entry_range, ent_range, Hwf.
  assert (0 < f < WINDOW) as Hfw by (apply (pw_range _ _ Hwf); lia).
  split.
  - by apply leaf_inv.
  - done.
  - intros g j Hg Hj. rewrite st_ent by done. destruct (Z.eqb_spec f g) as [<-|]; [lia|done].
  - intros g j Hg Hj. rewrite st_ent by done. destruct (Z.eqb_spec f g) as [<-|]; [|by left].
    destruct (Z.eqb_spec i j) as [<-|]; [right|by left]. cbn. unfold cowed. by rewrite Hp.
  - intros d Hd H0 Hu. splits; [done|done|]. intros o Ho. unfold st. cbn [mm set_mm].
    apply store_other. assert (d <> f) by (intros ->; lia). cbn. unfold frame_va, PAGE_SIZE in *. lia.
  - intros; lia.
  - intros; lia.
  - done.
Qed.

Lemma clone_pt_loop_spec k0 L0 f c n : vm_inv k0 L0 -> L0 f = 1%nat -> L0 c = O -> 0 < c < WINDOW -> fa_used (fa k0) c = false ->
  forall k i, i + Z.of_nat n = 512 -> 0 <= i -> grown k0 L0 k L0 ->
  (forall j, 0 <= j < i -> ent (mm k) c j = clone_entry (ent (mm k0) f j) /\ ent (mm k) f j = cowed (ent (mm k0) f j)) ->
  (forall j, i <= j < 512 -> ent (mm k) f j = ent (mm k0) f j) ->
  let k' := clone_pt_loop n k (frame_va f) (frame_va c) i in
  grown k0 L0 k' L0 /\ fa k' = fa k /\ cloned 1 (mm k0) (mm k') f c.
Proof.
  intros Hinv Hf Hc Hcw Hcu. pose proof (vi_wf _ _ Hinv) as Hwf0. induction n as [|n IH]; intros k i Hin H0 Hg Hdone Htodo.
  { cbv zeta. splits; [done|done|]. intros j Hj. apply Hdone. lia. }
  assert (0 <= i < 512) as Hi by lia. assert (f <> c) as Hfc by (intros ->; lia).
  assert (ld k (frame_va f) i = ent (mm k0) f i) as Eld by (rewrite <- Htodo by lia; done).
  cbn [clone_pt_loop]. rewrite Eld, has_present. set (e := ent (mm k0) f i) in *.
  assert (0 <= e < 2 ^ 64) as Hr by apply ent_range, Hwf0.
  pose proof (cow_entry_range e Hr) as Hcr.
  (* the source entry is rewritten or keeps its value *)
  set (ks := if present e then if has e PTE_WRITE then st k (frame_va f) i (cow_entry e) else k else k).
  assert (grown k0 L0 ks L0 /\ fa ks = fa k /\ ent (mm ks) f i = cowed e /\
    forall g j, 0 <= j < 512 -> (g <> f \/ j <> i) -> ent (mm ks) g j = ent (mm k) g j) as (Hgs & Hfs & Hes & Hos).
  { unfold ks, cowed. destruct (present e) eqn:Hp; [destruct (has e PTE_WRITE) eqn:Hw|].
    - splits.
      + eapply grown_trans; [exact Hg|]. destruct (grown_cow k L0 f i (gr_inv _ _ _ _ Hg) Hf Hi) as [H|H];
          rewrite Htodo in H by lia; [done|]. by fold e in H; rewrite Hp in H.
      + done.
      + rewrite st_ent by done. by rewrite !Z.eqb_refl.
      + intros g j Hj Hne. rewrite st_ent by done. destruct (Z.eqb_spec f g) as [<-|]; [|done].
        destruct (Z.eqb_spec i j) as [<-|]; [|done]. by destruct Hne.
    - splits; try done. rewrite Htodo by lia. unfold cow_entry. by rewrite Hw.
    - by splits. }
  assert (clone_pt_loop (S n) k (frame_va f) (frame_va c) i =
    clone_pt_loop n (st ks (frame_va c) i (clone_entry e)) (frame_va f) (frame_va c) (i + 1)) as Eq.
  { cbn [clone_pt_loop]. rewrite Eld, has_present. unfold ks, clone_entry.
    destruct (present e); cbn [negb]; [|done]. by destruct (has e PTE_WRITE). }
  cbn [clone_pt_loop] in Eq. rewrite Eld, has_present in Eq. rewrite Eq.
  assert (0 <= clone_entry e < 2 ^ 64) as Hcl by (unfold clone_entry; destruct (present e); lia).
  destruct (IH (st ks (frame_va c) i (clone_entry e)) (i + 1)) as (H1 & H2 & H3); try lia.
  - by apply grown_write.
  - intros j Hj. rewrite !st_ent by lia. rewrite Z.eqb_refl, (proj2 (Z.eqb_neq c f)) by congruence. cbn [andb].
    destruct (Z.eqb_spec i j) as [<-|]; [done|]. rewrite !Hos by (lia || (left; congruence) || (right; congruence)). apply Hdone. lia.
  - intros j Hj. rewrite st_ent by lia. rewrite (proj2 (Z.eqb_neq c f)) by congruence. cbn [andb].
    rewrite Hos by (lia || (right; lia)). apply Htodo. lia.
  - splits; [done|by rewrite H2, <- Hfs|done].
Qed.

(** ** Cloning a directory *)

Fixpoint count (g : Z -> nat) (n : nat) (i : Z) : nat :=
  match n with O => O | S n => (g i + count g n (i + 1))%nat end.

(** The number of tables reachable from a table of level [l], itself included. *)
Fixpoint tables (l : nat) (m : mem) (f : Z) : nat :=
  match l with
  | O => O
  | S O => 1
  | S l' => S (count (fun i => if link l (ent m f i) then tables l' m (nxt (ent m f i)) else O) 512 0)
  end.

(** The tables below entry [i]. *)
Definition below (l : nat) (m : mem) (f i : Z) : nat :=
  if link (S (S l)) (ent m f i) then tables (S l) m (nxt (ent m f i)) else O.

Lemma tables_dir l m f : tables (S (S l)) m f = S (count (below l m f) 512 0).
Proof. done. Qed.

Lemma count_ext g h n i : (forall j, i <= j < i + Z.of_nat n -> g j = h j) -> count g n i = count h n i.
Proof.
  revert i. induction n as [|n IH]; intros i H; [done|]. cbn [count]. rewrite (H i) by lia.
  rewrite (IH (i + 1)); [done|]. intros j Hj. apply H. lia.
Qed.

Lemma tables_grown k0 L0 k1 L1 l f : vm_inv k0 L0 -> grown k0 L0 k1 L1 -> L0 f = l -> tables l (mm k1) f = tables l (mm k0) f.
Proof.
  intros Hinv Hg. pose proof (vi_wf _ _ Hinv) as Hwf. revert f. induction l as [|[|l] IH]; intros f Hf; [done..|].
  rewrite !tables_dir. f_equal. apply count_ext. intros j Hj. unfold below.
  rewrite (gr_tab _ _ _ _ Hg) by lia. destruct (link _ _) eqn:E; [|done].
  apply IH. apply (child_level _ L0 Hwf); [done|lia|done].
Qed.

(** What an entry of the clone of a directory is, while it is being built. *)
Definition entry_ok (l : nat) (m0 : mem) L0 (m : mem) L (e v : Z) : Prop :=
  (present e = false -> v = 0) /\ (present e = true -> link (S (S l)) e = false -> v = e) /\
  (link (S (S l)) e = true -> exists c', 0 < c' < WINDOW /\ v = relink e c' /\ L c' = S l /\ L0 c' = O /\
     unlinked m L c' /\ cloned (S l) m0 m (nxt e) c').

Record dir_inv k0 L0 (l : nat) (f c : Z) k L (i : Z) : Prop := {
  di_grown : grown k0 L0 k L;
  di_low g : L0 g = O -> (L g <= 3)%nat;
  di_frame : L c = O;
  di_used : fa_used (fa k) c = true;
  di_entry j : 0 <= j < i -> entry_ok l (mm k0) L0 (mm k) L (ent (mm k0) f j) (ent (mm k) c j);
  di_inj j j' : 0 <= j < i -> 0 <= j' < i -> link (S (S l)) (ent (mm k0) f j) = true ->
    link (S (S l)) (ent (mm k0) f j') = true -> nxt (ent (mm k) c j) = nxt (ent (mm k) c j') -> j = j'
}.

Section dir.
Context (k0 : kst A) (L0 : levels) (l : nat) (f c : Z).
Context (Hinv : vm_inv k0 L0) (Hf : L0 f = S (S l)) (Hl : (S (S l) <= 3)%nat).
Context (Hcw : 0 < c < WINDOW) (Hcu : fa_used (fa k0) c = false).

Lemma dir_wf : pt_wf (mm k0) L0.
Proof. apply Hinv. Qed.

Lemma dir_child j : 0 <= j < 512 -> link (S (S l)) (ent (mm k0) f j) = true -> L0 (nxt (ent (mm k0) f j)) = S l.
Proof. intros Hj. by apply (child_level _ _ dir_wf). Qed.

Lemma dir_range j : 0 <= ent (mm k0) f j < 2 ^ 64.
Proof. apply ent_range, dir_wf. Qed.

(** Further clones leave the entries as they are. *)
Lemma entry_grown k L k1 L1 j v : grown k0 L0 k L -> grown k L k1 L1 -> (forall g, L g = O -> (L1 g <= 3)%nat) -> 0 <= j < 512 ->
  entry_ok l (mm k0) L0 (mm k) L (ent (mm k0) f j) v -> entry_ok l (mm k0) L0 (mm k1) L1 (ent (mm k0) f j) v.
Proof.
  intros Hg Hg1 Hlow Hj (H1 & H2 & H3). unfold entry_ok. splits; [done|done|]. intros Hlk.
  destruct (H3 Hlk) as (c' & Hc' & E & HL & HL0 & Hun & Hcl). exists c'. splits; [done|done| |done| |].
  - rewrite (gr_ext _ _ _ _ Hg1); lia.
  - apply (grown_unlinked k L); [done|lia| |done]. intros g HO. pose proof (Hlow g HO). lia.
  - apply (cloned_stable (S l) _ L0 (mm k) L); try done.
    + apply Hinv.
    + apply (gr_inv _ _ _ _ Hg).
    + apply Hg.
    + intros g i H23 Hi. apply Hg1; [lia|done].
    + intros g i Hg' Hi. by apply Hg1.
    + by apply dir_child.
    + lia.
Qed.

Lemma dir_grown k L k1 L1 i : 0 <= i <= 512 -> dir_inv k0 L0 l f c k L i -> grown k L k1 L1 -> (forall g, L g = O -> (L1 g <= 3)%nat) ->
  dir_inv k0 L0 l f c k1 L1 i.
Proof.
  intros Hi [Hg Hlow Hc Hu He Hinj] Hg1 Hlow1.
  destruct (gr_data _ _ _ _ Hg1 c Hc ltac:(lia) Hu) as (Hc1 & Hu1 & Hb1).
  assert (forall j, 0 <= j < 512 -> ent (mm k1) c j = ent (mm k) c j) as Hsame.
  { intros j Hj. apply load_ext. intros x Hx. replace x with (frame_va c + (x - frame_va c)) by lia.
    apply Hb1. unfold PAGE_SIZE. lia. }
  split; [by eapply grown_trans| |done|done| |].
  - intros g H0. destruct (decide (L g = O)) as [HO|HO]; [by apply Hlow1|].
    rewrite (gr_ext _ _ _ _ Hg1 g HO). by apply Hlow.
  - intros j Hj. rewrite Hsame by lia. apply (entry_grown k L); try done; [lia|]. by apply He.
  - intros j j' Hj Hj'. rewrite !Hsame by lia. by apply Hinj.
Qed.

(** The next entry is written. *)
Lemma dir_write k L i v : 0 <= i < 512 -> 0 <= v < 2 ^ 64 -> dir_inv k0 L0 l f c k L i ->
  entry_ok l (mm k0) L0 (mm k) L (ent (mm k0) f i) v ->
  (link (S (S l)) (ent (mm k0) f i) = true -> forall j, 0 <= j < i -> link (S (S l)) (ent (mm k0) f j) = true ->
     nxt (ent (mm k) c j) <> nxt v) ->
  dir_inv k0 L0 l f c (st k (frame_va c) i v) L (i + 1).
Proof.
  intros Hi Hv [Hg Hlow Hc Hu He Hinj] Hok Hne.
  set (k1 := st k (frame_va c) i v).
  assert (forall g j, L g <> O -> 0 <= j < 512 -> ent (mm k1) g j = ent (mm k) g j) as Hsame.
  { intros g j HL Hj. unfold k1. rewrite st_ent by done. destruct (Z.eqb_spec c g) as [<-|]; done. }
  assert (forall j, 0 <= j < 512 -> ent (mm k1) c j = if i =? j then v else ent (mm k) c j) as Hcj.
  { intros j Hj. unfold k1. rewrite st_ent by done. by rewrite Z.eqb_refl. }
  assert (forall j u, 0 <= j < 512 -> entry_ok l (mm k0) L0 (mm k) L (ent (mm k0) f j) u ->
    entry_ok l (mm k0) L0 (mm k1) L (ent (mm k0) f j) u) as Hkeep.
  { intros j u Hj (H1 & H2 & H3). unfold entry_ok. splits; [done|done|]. intros Hlk.
    destruct (H3 Hlk) as (c' & Hc' & E & HL & HL0 & Hun & Hcl). exists c'. splits; try done.
    - intros g n H2' Hn. rewrite Hsame by (done || lia). by apply Hun.
    - apply (cloned_stable (S l) _ L0 (mm k) L); try done; [apply Hinv|apply (gr_inv _ _ _ _ Hg)|apply Hg| | |by apply dir_child|lia].
      + intros g n H23 Hn. apply Hsame; [lia|done].
      + intros g n Hg' Hn. left. apply Hsame; [lia|done]. }
  split; try done.
  - by apply grown_write.
  - intros j Hj. rewrite Hcj by lia. apply Hkeep; [lia|]. destruct (Z.eqb_spec i j) as [<-|]; [done|]. apply He. lia.
  - intros j j' Hj Hj' Hlk Hlk'. rewrite !Hcj by lia.
    destruct (Z.eqb_spec i j) as [<-|], (Z.eqb_spec i j') as [<-|]; intros E.
    + done.
    + destruct (Hne Hlk j' ltac:(lia) Hlk' (eq_sym E)).
    + destruct (Hne Hlk' j ltac:(lia) Hlk E).
    + apply Hinj; done || lia.
Qed.

(** The directory is complete. *)
Lemma dir_finish k L : dir_inv k0 L0 l f c k L 512 ->
  grown k0 L0 k (add_level c (S (S l)) L) /\ (forall g, L0 g = O -> (add_level c (S (S l)) L g <= 3)%nat) /\
  unlinked (mm k) (add_level c (S (S l)) L) c /\ cloned (S (S l)) (mm k0) (mm k) f c.
Proof.
  intros [Hg Hlow Hc Hu He Hinj]. pose proof (gr_inv _ _ _ _ Hg) as Hk.
  assert (forall i, 0 <= i < 512 -> link (S (S l)) (ent (mm k) c i) = true ->
    link (S (S l)) (ent (mm k0) f i) = true /\ S (L (nxt (ent (mm k) c i))) = S (S l) /\
    L0 (nxt (ent (mm k) c i)) = O /\ unlinked (mm k) L (nxt (ent (mm k) c i))) as Hlink.
  { intros i Hi Hlk. destruct (He i Hi) as (H1 & H2 & H3). set (e := ent (mm k0) f i) in *.
    destruct (link (S (S l)) e) eqn:El.
    - destruct (H3 eq_refl) as (c' & Hc' & E & HL & HL0 & Hun & _).
      destruct (relink_ok e c' (dir_range i) Hc') as (_ & _ & _ & En). rewrite E, En. splits; try done. lia.
    - destruct (present e) eqn:Ep; [by rewrite H2, El in Hlk|by rewrite H1 in Hlk]. }
  assert (dir_links (mm k) L c (S (S l))) as Hd.
  { split.
    - intros i Hi Hlk. by apply Hlink.
    - intros i Hi Hlk. by apply Hlink.
    - intros i j Hi Hj Hlk Hlk' E. apply Hinj; try done; by apply Hlink. }
  splits.
  - apply grown_table; try done; try lia. intros _ i Hi Hlk. by apply Hlink.
  - intros g H0. unfold add_level. destruct (g =? c); [done|by apply Hlow].
  - apply add_unlinked; [apply Hk|done|done].
  - intros i Hi. destruct (He i Hi) as (H1 & H2 & H3). cbv zeta. splits; [done|done|]. intros Hlk.
    destruct (H3 Hlk) as (c' & Hc' & E & _ & _ & _ & Hcl). by exists c'.
Qed.
End dir.

(** What a function that clones a table of level [l] does: it returns 0, or a new
    table that is a clone; enough frames rule the failure out. *)
Definition clones (l : nat) (clone : kst A -> Z -> Z * kst A) : Prop := forall k L f, vm_inv k L -> L f = l ->
  let '(p, k') := clone k (frame_va f) in
  exists L', grown k L k' L' /\ (forall g, L g = O -> (L' g <= 3)%nat) /\
    (forall n, budget k (tables l (mm k) f + n) -> p <> 0 /\ budget k' n) /\
    (p = 0 \/ exists c, p = c * PAGE_SIZE /\ 0 < c < WINDOW /\ L c = O /\ L' c = l /\
       unlinked (mm k') L' c /\ cloned l (mm k) (mm k') f c).

Lemma page_nz c : 0 < c -> (c * PAGE_SIZE =? 0) = false.
Proof. intros Hc. apply Z.eqb_neq. unfold PAGE_SIZE. lia. Qed.

Lemma cow_clone_pt_clones : clones 1 cow_clone_pt.
Proof.
  intros k L f Hinv Hf. unfold cow_clone_pt.
  destruct (grown_alloc k L Hinv) as [E|(c & k1 & E & Hcw & Hc & Hcu & Hu1 & Hm & Hg & Hb)].
  { rewrite E. cbn. exists L. splits; [by apply grown_refl|lia| |by left].
    intros n Hbud. destruct (alloc_budget k L n Hinv Hbud) as [Hne _]. by rewrite E in Hne. }
  rewrite E, page_nz, phys_to_virt by lia.
  destruct (clone_pt_loop_spec k L f c 512 Hinv Hf Hc Hcw Hcu k1 0) as (Hg2 & Hfa & Hcl); [lia|lia|done|lia|by rewrite Hm|].
  revert Hg2 Hfa Hcl. generalize (clone_pt_loop 512 k1 (frame_va f) (frame_va c) 0). intros k2 Hg2 Hfa Hcl.
  exists (add_level c 1 L). splits.
  - apply grown_table; try done; try lia; [by rewrite Hfa|].
    intros _ i Hi. destruct (Hcl i Hi) as [-> _]. rewrite clone_present. intros Hp. exists f, i. splits; try done.
    unfold clone_entry. rewrite Hp. apply cow_entry_nxt.
  - intros g H0. unfold add_level. destruct (g =? c); lia.
  - intros n Hbud. split; [unfold PAGE_SIZE; lia|]. eapply budget_fa; [exact Hfa|]. by apply Hb.
  - right. exists c. splits; try done; [by apply add_level_new|]. apply add_unlinked; [apply Hg2|done|lia].
Qed.

(** The loop over the entries of a directory. *)
Lemma clone_dir_loop_spec clone k0 L0 l f c n : clones (S l) clone -> vm_inv k0 L0 -> L0 f = S (S l) -> (S (S l) <= 3)%nat ->
  0 < c < WINDOW -> fa_used (fa k0) c = false ->
  forall k L i, i + Z.of_nat n = 512 -> 0 <= i -> dir_inv k0 L0 l f c k L i ->
  let '(ok, k') := clone_dir_loop clone n k (frame_va f) (frame_va c) i in
  exists L', (forall b, budget k (count (below l (mm k0) f) n i + b) -> ok = true /\ budget k' b) /\
    if ok : bool then dir_inv k0 L0 l f c k' L' 512
    else grown k0 L0 k' L' /\ (forall g, L0 g = O -> (L' g <= 3)%nat) /\ L' c = O.
Proof.
  intros Hclone Hinv Hf Hl Hcw Hcu. pose proof (vi_wf _ _ Hinv) as Hwf.
  induction n as [|n IH]; intros k L i Hin H0 HI; cbn [clone_dir_loop].
  { exists L. replace 512 with i by lia. split; [|done]. intros b Hb. done. }
  assert (0 <= i < 512) as Hi by lia.
  assert (ld k (frame_va f) i = ent (mm k0) f i) as -> by (apply (gr_tab _ _ _ _ (di_grown _ _ _ _ _ _ _ _ HI)); lia).
  pose proof (dir_range k0 L0 f Hinv i) as Hr.
  rewrite has_present, has_huge. cbn [count]. unfold below at 1. set (e := ent (mm k0) f i) in *.
  assert (link (S (S l)) e = present e && negb (huge e)) as Elink.
  { unfold link. destruct (Nat.eqb_spec (S (S l)) 4); [lia|]. done. }
  destruct (present e) eqn:Hp; cbn [negb]; cycle 1; [|destruct (huge e) eqn:Hh].
  - rewrite Elink. apply (IH (st k (frame_va c) i 0) L (i + 1)); [lia|lia|]. apply dir_write; try done; [|by fold e; rewrite Elink].
    fold e. unfold entry_ok. splits; [done|congruence|by rewrite Elink].
  - rewrite Elink. apply (IH (st k (frame_va c) i e) L (i + 1)); [lia|lia|]. apply dir_write; try done; [|by fold e; rewrite Elink].
    fold e. unfold entry_ok. splits; [congruence|done|by rewrite Elink].
  - rewrite Elink. cbn [andb negb].
    assert (L0 (nxt e) = S l) as Hn0 by (apply dir_child; try done).
    pose proof (di_grown _ _ _ _ _ _ _ _ HI) as Hg.
    assert (L (nxt e) = S l) as Hn by (rewrite (gr_ext _ _ _ _ Hg); lia).
    rewrite addr_mask, phys_to_virt by (pose proof (pw_range _ _ Hwf (nxt e)); lia).
    specialize (Hclone k L (nxt e) (gr_inv _ _ _ _ Hg) Hn).
    destruct (clone k (frame_va (nxt e))) as [p k1]. destruct Hclone as (L1 & Hg1 & Hlow1 & Hb1 & Hcase).
    rewrite (tables_grown k0 L0 k L) in Hb1 by done.
    destruct Hcase as [->|(c' & -> & Hcw' & HLc' & HL1 & Hun & Hcl)].
    { cbn. exists L1. split.
      - intros b Hb. rewrite <- Nat.add_assoc in Hb. by destruct (Hb1 _ Hb).
      - pose proof (dir_grown k0 L0 l f c Hinv Hf Hl Hcw k L k1 L1 i ltac:(lia) HI Hg1 Hlow1) as HI1.
        by destruct HI1. }
    rewrite page_nz by lia.
    pose proof (dir_grown k0 L0 l f c Hinv Hf Hl Hcw k L k1 L1 i ltac:(lia) HI Hg1 Hlow1) as HI1.
    change ((e &b not64 PTE_ADDR_MASK) |b (c' * PAGE_SIZE)) with (relink e c').
    destruct (relink_ok e c' Hr Hcw') as (Hrr & _ & _ & En).
    assert (dir_inv k0 L0 l f c (st k1 (frame_va c) i (relink e c')) L1 (i + 1)) as HI2.
    { apply dir_write; try done.
      - fold e. unfold entry_ok. splits; [congruence|rewrite Elink; done|]. intros _. exists c'. splits; try done.
        + by apply (ext_zero _ _ _ (gr_ext _ _ _ _ Hg)).
        + by apply (cloned_src k0 L0 k L).
      - intros _ j Hj Hlk. rewrite En. intros E.
        destruct (di_entry _ _ _ _ _ _ _ _ HI j Hj) as (_ & _ & H3). destruct (H3 Hlk) as (c2 & Hc2 & E2 & HL2 & _).
        destruct (di_entry _ _ _ _ _ _ _ _ HI1 j Hj) as (_ & _ & H4). destruct (H4 Hlk) as (c3 & Hc3 & E3 & _).
        destruct (relink_ok _ c3 (dir_range k0 L0 f Hinv j) Hc3) as (_ & _ & _ & En3). rewrite E3, En3 in E. subst c3.
        assert (ent (mm k1) c j = ent (mm k) c j) as Es.
        { destruct (gr_data _ _ _ _ Hg1 c (di_frame _ _ _ _ _ _ _ _ HI) ltac:(lia) (di_used _ _ _ _ _ _ _ _ HI)) as (_ & _ & Hb).
          apply load_ext. intros x Hx. replace x with (frame_va c + (x - frame_va c)) by lia. apply Hb. unfold PAGE_SIZE. lia. }
        destruct (relink_ok _ c2 (dir_range k0 L0 f Hinv j) Hc2) as (_ & _ & _ & En2).
        rewrite E3, E2 in Es. rewrite <- Es, En3 in En2. subst c2. lia. }
    specialize (IH _ L1 (i + 1) ltac:(lia) ltac:(lia) HI2). destruct (clone_dir_loop _ _ _ _ _ _) as [ok k2].
    destruct IH as (L2 & Hb2 & Hres). exists L2. split; [|done].
    intros b Hb. rewrite <- Nat.add_assoc in Hb. destruct (Hb1 _ Hb) as [_ Hb']. by apply Hb2.
Qed.

(** [cow_clone_pdt] and [cow_clone_pdpt]. *)
Lemma clone_dir_clones clone l : clones (S l) clone -> (S (S l) <= 3)%nat ->
  clones (S (S l)) (fun k src =>
    let '(frame, k) := alloc_frame k in
    if frame =? 0 then (0, k)
    else
      let '(ok, k) := clone_dir_loop clone 512 k src (PHYS_TO_VIRT frame) 0 in
      if ok then (frame, k) else (0, free_frame k frame)).
Proof.
  intros Hclone Hl k L f Hinv Hf.
  destruct (grown_alloc k L Hinv) as [E|(c & k1 & E & Hcw & Hc & Hcu & Hu1 & Hm & Hg & Hb)].
  { rewrite E. cbn [Z.eqb]. exists L. splits; [by apply grown_refl|lia| |by left].
    intros n Hbud. rewrite tables_dir in Hbud. destruct (alloc_budget k L _ Hinv Hbud) as [Hne _]. by rewrite E in Hne. }
  rewrite E, page_nz, phys_to_virt by lia.
  assert (dir_inv k L l f c k1 L 0) as HI by (split; try done; lia).
  pose proof (clone_dir_loop_spec clone k L l f c 512 Hclone Hinv Hf Hl Hcw Hcu k1 L 0 ltac:(lia) ltac:(lia) HI) as Hloop.
  destruct (clone_dir_loop _ _ _ _ _ _) as [ok k2]. destruct Hloop as (L2 & Hb2 & Hres).
  assert (forall n, budget k (tables (S (S l)) (mm k) f + n) -> ok = true /\ budget k2 n) as Hbud.
  { intros n Hn. rewrite tables_dir in Hn. apply Hb2, Hb. done. }
  destruct ok.
  - destruct (dir_finish k L l f c Hinv Hf Hl Hcw Hcu k2 L2 Hres) as (Hg2 & Hlow & Hun & Hcl).
    exists (add_level c (S (S l)) L2). splits; [done|done| |].
    + intros n Hn. split; [unfold PAGE_SIZE; lia|by apply Hbud].
    + right. exists c. splits; try done. apply add_level_new.
  - destruct Hres as (Hg2 & Hlow & Hc2). exists L2. splits; [by apply grown_free|done| |by left].
    intros n Hn. by destruct (Hbud n Hn).
Qed.

Lemma cow_clone_pdpt_clones : clones 3 cow_clone_pdpt.
Proof.
  assert (clones 2 cow_clone_pdt) as Hpdt.
  { assert (2 <= 3)%nat as H by lia. exact (clone_dir_clones cow_clone_pt 0 cow_clone_pt_clones H). }
  assert (3 <= 3)%nat as H by lia. exact (clone_dir_clones cow_clone_pdt 1 Hpdt H).
Qed.

(** ** The new root *)

Lemma grown_xlate k L k' L' r va : vm_inv k L -> grown k L k' L' -> L r = 4%nat -> xlate (mm k') r va = xlate (mm k) r va.
Proof.
  intros Hinv Hg Hr. pose proof (vi_wf _ _ Hinv) as Hwf. unfold xlate.
  rewrite (walkn_ext (mm k) (mm k') L 4 r va Hwf Hr ltac:(lia)) by apply Hg.
  destruct (walkn 4 (mm k) r va) as [[[j g] i]|] eqn:Hw; [|done].
  destruct (walkn_typed _ L Hwf _ _ _ _ _ _ Hr ltac:(lia) Hw) as (HL & Hj & ->). cbn [slot_phys].
  destruct j as [|[|j]]; [lia| |by rewrite (gr_tab _ _ _ _ Hg) by (lia || apply idx_range)].
  destruct (grown_same _ _ _ _ g (idx 1 va) Hg HL (idx_range _ _)) as [-> E]. by rewrite !addr_mask, E.
Qed.

(** An absent entry of the user half of the new root is filled. *)
Lemma root_write k0 L0 k L c i v : grown k0 L0 k L -> L0 c = O -> fa_used (fa k0) c = false -> L c = 4%nat -> 0 <= i < 256 ->
  present (ent (mm k) c i) = false -> 0 <= v < 2 ^ 64 ->
  (v = 0 \/ L (nxt v) = 3%nat /\ L0 (nxt v) = O /\ unlinked (mm k) L (nxt v)) ->
  grown k0 L0 (st k (frame_va c) i v) L.
Proof.
  intros Hg H0 Hcu Hc Hi Habs Hv Hcase. pose proof (gr_inv _ _ _ _ Hg) as Hinv. pose proof (vi_wf _ _ Hinv) as Hwf.
  pose proof (gr_ext _ _ _ _ Hg) as He. set (k1 := st k (frame_va c) i v).
  assert (0 < c < WINDOW) as Hcw by (apply (pw_range _ _ Hwf); lia).
  assert (forall g j, 0 <= j < 512 -> ent (mm k1) g j = if (c =? g) && (i =? j) then v else ent (mm k) g j) as Hent.
  { intros g j Hj. unfold k1. apply st_ent; done || lia. }
  assert (forall g j, L0 g <> O -> 0 <= j < 512 -> ent (mm k1) g j = ent (mm k) g j) as Hold.
  { intros g j HL Hj. rewrite Hent by done. by destruct (Z.eqb_spec c g) as [<-|]. }
  (* a link is an old link, or the new one *)
  assert (forall g j, (2 <= L g)%nat -> 0 <= j < 512 -> link (L g) (ent (mm k1) g j) = true ->
    (ent (mm k1) g j = ent (mm k) g j /\ link (L g) (ent (mm k) g j) = true) \/
    (g = c /\ j = i /\ ent (mm k1) g j = v /\ L (nxt v) = 3%nat /\ L0 (nxt v) = O /\ unlinked (mm k) L (nxt v))) as Hcases.
  { intros g j HL Hj. rewrite Hent by done. destruct (Z.eqb_spec c g) as [<-|]; [|by left].
    destruct (Z.eqb_spec i j) as [<-|]; [|by left]. cbn [andb]. intros Hlk. right. destruct Hcase as [->|(H3 & H5 & H6)]; [discriminate|]. by splits. }
  assert (vm_inv k1 L) as Hinv1.
  { split; [|apply Hinv..]. split.
    - apply store_bytes_ok, Hwf.
    - apply (pw_range _ _ Hwf).
    - intros g j HL Hj Hlk. destruct (Hcases g j HL Hj Hlk) as [[-> Hlk']|(-> & -> & -> & HLv & _)]; [by apply (pw_child _ _ Hwf)|lia].
    - intros g j h n HL HLh Hj Hn Hlk Hlk' E. rewrite <- HLh in Hlk'.
      destruct (Hcases g j HL Hj Hlk) as [[E1 Hl1]|(-> & -> & E1 & _ & _ & Hun)];
        destruct (Hcases h n ltac:(lia) Hn Hlk') as [[E2 Hl2]|(-> & -> & E2 & _ & _ & Hun2)]; rewrite E1, ?E2 in E.
      + apply (pw_parent _ _ Hwf); try done. by rewrite <- HLh.
      + by destruct (Hun2 g j HL Hj Hl1).
      + by destruct (Hun h n ltac:(lia) Hn Hl2).
      + split; [done|by left]. }
  split; [done|done| | | | | |].
  - intros g j HL Hj. rewrite Hold by (done || lia). by apply Hg.
  - intros g j HL Hj. rewrite Hold by (done || lia). by apply Hg.
  - intros d Hd Hp Hu. destruct (gr_data _ _ _ _ Hg d Hd Hp Hu) as (H1 & H2 & H3). splits; [done|done|].
    intros o Ho. rewrite <- H3 by done. unfold k1, st. cbn [mm set_mm]. apply store_other.
    assert (d <> c) by (intros ->; congruence). cbn. unfold frame_va, PAGE_SIZE in *. lia.
  - intros g j Hg0 HL Hj H4 Hlk. destruct (Hcases g j HL Hj Hlk) as [[E Hlk']|(_ & _ & E & _ & Hn & _)]; rewrite E; [|done].
    by apply (gr_link _ _ _ _ Hg).
  - intros g j Hg0 HL Hj. rewrite Hent by done. destruct (Z.eqb_spec c g) as [<-|]; [lia|]. by apply Hg.
  - apply (gr_regs _ _ _ _ Hg).
Qed.

Record root_inv k0 L0 (r c : Z) k L (i : Z) : Prop := {
  ri_grown : grown k0 L0 k L;
  ri_level : L c = 4%nat;
  ri_kernel j : 256 <= j < 512 -> ent (mm k) c j = ent (mm k0) r j;
  ri_todo j : i <= j < 256 -> ent (mm k) c j = 0;
  ri_absent j : 0 <= j < i -> present (ent (mm k0) r j) = false -> ent (mm k) c j = 0;
  ri_done j : 0 <= j < i -> present (ent (mm k0) r j) = true ->
    exists c', 0 < c' < WINDOW /\ ent (mm k) c j = relink (ent (mm k0) r j) c' /\ L c' = 3%nat /\
      cloned 3 (mm k0) (mm k) (nxt (ent (mm k0) r j)) c'
}.

Section root.
Context (k0 : kst A) (L0 : levels) (r c : Z).
Context (Hinv : vm_inv k0 L0) (Hr : L0 r = 4%nat) (Hc : L0 c = O) (Hcw : 0 < c < WINDOW) (Hcu : fa_used (fa k0) c = false).

Lemma root_child j : 0 <= j < 512 -> present (ent (mm k0) r j) = true -> L0 (nxt (ent (mm k0) r j)) = 3%nat.
Proof. intros Hj Hp. apply (child_level _ _ (vi_wf _ _ Hinv) 2 r j Hr Hj). by rewrite link4. Qed.

(** Clones that are linked already are not touched. *)
Lemma root_cloned k L k1 j c' : grown k0 L0 k L -> 0 <= j < 512 -> present (ent (mm k0) r j) = true -> L c' = 3%nat ->
  (forall g i, (2 <= L g <= 3)%nat -> 0 <= i < 512 -> ent (mm k1) g i = ent (mm k) g i) ->
  (forall g i, L g = 1%nat -> 0 <= i < 512 -> ent (mm k1) g i = ent (mm k) g i \/ ent (mm k1) g i = cowed (ent (mm k) g i)) ->
  cloned 3 (mm k0) (mm k) (nxt (ent (mm k0) r j)) c' -> cloned 3 (mm k0) (mm k1) (nxt (ent (mm k0) r j)) c'.
Proof.
  intros Hg Hj Hp HL H1 H2. apply (cloned_stable 3 _ L0 _ L); [apply Hinv|apply (gr_inv _ _ _ _ Hg)|apply Hg|done|done| |done|lia].
  by apply root_child.
Qed.

Lemma root_grown k L k1 L1 i : 0 <= i <= 256 -> root_inv k0 L0 r c k L i -> grown k L k1 L1 -> root_inv k0 L0 r c k1 L1 i.
Proof.
  intros Hi [Hg H4 Hk Ht Ha Hd] Hg1. pose proof (gr_ext _ _ _ _ Hg1) as He.
  assert (forall j, 0 <= j < 512 -> ent (mm k1) c j = ent (mm k) c j) as Hs by (intros j Hj; apply Hg1; [lia|done]).
  split.
  - by eapply grown_trans.
  - rewrite He; lia.
  - intros j Hj. rewrite Hs by lia. by apply Hk.
  - intros j Hj. rewrite Hs by lia. by apply Ht.
  - intros j Hj. rewrite Hs by lia. by apply Ha.
  - intros j Hj Hp. destruct (Hd j Hj Hp) as (c' & Hc' & E & HL & Hcl). exists c'. splits; [done|by rewrite Hs by lia|rewrite He; lia|].
    apply (root_cloned k L); try done; [lia| |]; intros g n H Hn; apply Hg1; done || lia.
Qed.

Lemma root_fill k L i v : 0 <= i < 256 -> 0 <= v < 2 ^ 64 -> root_inv k0 L0 r c k L i ->
  (present (ent (mm k0) r i) = false -> v = 0) ->
  (present (ent (mm k0) r i) = true -> exists c', 0 < c' < WINDOW /\ v = relink (ent (mm k0) r i) c' /\ L c' = 3%nat /\ L0 c' = O /\
     unlinked (mm k) L c' /\ cloned 3 (mm k0) (mm k) (nxt (ent (mm k0) r i)) c') ->
  root_inv k0 L0 r c (st k (frame_va c) i v) L (i + 1).
Proof.
  intros Hi Hv [Hg H4 Hk Ht Ha Hd] Hno Hyes. set (k1 := st k (frame_va c) i v).
  assert (forall j, 0 <= j < 512 -> ent (mm k1) c j = if i =? j then v else ent (mm k) c j) as Hs.
  { intros j Hj. unfold k1. rewrite st_ent by (done || lia). by rewrite Z.eqb_refl. }
  assert (forall g j, (1 <= L g <= 3)%nat -> 0 <= j < 512 -> ent (mm k1) g j = ent (mm k) g j) as Ho.
  { intros g j HL Hj. unfold k1. rewrite st_ent by (done || lia). destruct (Z.eqb_spec c g) as [<-|]; [lia|done]. }
  assert (forall j c', 0 <= j < 512 -> present (ent (mm k0) r j) = true -> L c' = 3%nat ->
    cloned 3 (mm k0) (mm k) (nxt (ent (mm k0) r j)) c' -> cloned 3 (mm k0) (mm k1) (nxt (ent (mm k0) r j)) c') as Hcl.
  { intros j c' Hj Hp HL. apply (root_cloned k L); try done; [intros g n H Hn; apply Ho; lia|].
    intros g n H Hn. left. apply Ho; lia. }
  split.
  - apply root_write; try done; [by rewrite Ht by lia|].
    destruct (present (ent (mm k0) r i)) eqn:Hp; [right|by left; apply Hno].
    destruct (Hyes eq_refl) as (c' & Hc' & -> & HL & HL0 & Hun & _).
    destruct (relink_ok (ent (mm k0) r i) c') as (_ & _ & _ & ->); [apply ent_range, Hinv|done|done].
  - done.
  - intros j Hj. rewrite Hs by lia. destruct (Z.eqb_spec i j); [lia|]. by apply Hk.
  - intros j Hj. rewrite Hs by lia. destruct (Z.eqb_spec i j); [lia|]. apply Ht. lia.
  - intros j Hj Hp. rewrite Hs by lia. destruct (Z.eqb_spec i j) as [<-|]; [by apply Hno|]. apply Ha; done || lia.
  - intros j Hj Hp. rewrite Hs by lia. destruct (Z.eqb_spec i j) as [<-|].
    + destruct (Hyes Hp) as (c' & Hc' & E & HL & _ & _ & H). exists c'. splits; try done. apply Hcl; done || lia.
    + destruct (Hd j ltac:(lia) Hp) as (c' & Hc' & E & HL & H). exists c'. splits; try done. apply Hcl; done || lia.
Qed.

Lemma fork_loop_spec n : forall k L i, i + Z.of_nat n = 256 -> 0 <= i -> root_inv k0 L0 r c k L i ->
  let '(ok, k') := fork_loop n k (frame_va r) (frame_va c) i in
  exists L', (forall b, budget k (count (below 2 (mm k0) r) n i + b) -> ok = true /\ budget k' b) /\
    (if ok : bool then root_inv k0 L0 r c k' L' 256 else grown k0 L0 k' L' /\ L' c = 4%nat).
Proof.
  pose proof (vi_wf _ _ Hinv) as Hwf.
  induction n as [|n IH]; intros k L i Hin H0 HI; cbn [fork_loop].
  { exists L. replace 256 with i by lia. split; [|done]. intros b Hb. done. }
  assert (0 <= i < 256) as Hi by lia. pose proof (ri_grown _ _ _ _ _ _ _ HI) as Hg.
  assert (ld k (frame_va r) i = ent (mm k0) r i) as -> by (apply (gr_tab _ _ _ _ Hg); lia).
  assert (0 <= ent (mm k0) r i < 2 ^ 64) as Hre by apply ent_range, Hwf.
  rewrite has_present. cbn [count]. unfold below at 1. rewrite link4.
  destruct (present (ent (mm k0) r i)) eqn:Hp; cbn [negb].
  2: { apply (IH (st k (frame_va c) i 0) L (i + 1)); [lia|lia|]. apply root_fill; try done. by rewrite Hp. }
  set (e := ent (mm k0) r i) in *.
  assert (L0 (nxt e) = 3%nat) as Hn0 by (apply root_child; [lia|done]).
  assert (L (nxt e) = 3%nat) as Hn by (rewrite (gr_ext _ _ _ _ Hg); lia).
  rewrite addr_mask, phys_to_virt by (pose proof (pw_range _ _ Hwf (nxt e)); lia).
  pose proof (cow_clone_pdpt_clones k L (nxt e) (gr_inv _ _ _ _ Hg) Hn) as Hclone.
  destruct (cow_clone_pdpt k (frame_va (nxt e))) as [p k1]. destruct Hclone as (L1 & Hg1 & Hlow1 & Hb1 & Hcase).
  rewrite (tables_grown k0 L0 k L) in Hb1 by done.
  pose proof (root_grown k L k1 L1 i ltac:(lia) HI Hg1) as HI1.
  destruct Hcase as [->|(c' & -> & Hcw' & HLc' & HL1 & Hun & Hcl)].
  { cbn [Z.eqb]. exists L1. split; [|by destruct HI1]. intros b Hb. rewrite <- Nat.add_assoc in Hb. by destruct (Hb1 _ Hb). }
  rewrite page_nz by lia. change ((e &b not64 PTE_ADDR_MASK) |b (c' * PAGE_SIZE)) with (relink e c').
  assert (root_inv k0 L0 r c (st k1 (frame_va c) i (relink e c')) L1 (i + 1)) as HI2.
  { apply root_fill; [done|by apply relink_ok|done|by fold e; rewrite Hp|]. intros _. exists c'. splits; try done.
    - by apply (ext_zero _ _ _ (gr_ext _ _ _ _ Hg)).
    - by apply (cloned_src k0 L0 k L). }
  specialize (IH _ L1 (i + 1) ltac:(lia) ltac:(lia) HI2). destruct (fork_loop _ _ _ _ _) as [ok k2].
  destruct IH as (L2 & Hb2 & Hres). exists L2. split; [|done].
  intros b Hb. rewrite <- Nat.add_assoc in Hb. destruct (Hb1 _ Hb) as [_ Hb']. by apply Hb2.
Qed.
End root.

(** ** Giving the tables back *)

(** Only frames that were free in [k0] are freed; memory stays. *)
Definition released k0 k k' : Prop :=
  mm k' = mm k /\ same_regs k k' /\ cpu_log k' = cpu_log k /\ fa_ok (fa k') /\
  forall g, 0 <= g -> fa_used (fa k0) g = true -> fa_used (fa k) g = true -> fa_used (fa k') g = true.

Lemma released_refl k0 k : fa_ok (fa k) -> released k0 k k.
Proof. done. Qed.

Lemma released_trans k0 k1 k2 k3 : released k0 k1 k2 -> released k0 k2 k3 -> released k0 k1 k3.
Proof.
  intros (H1 & H2 & H3 & _ & H4) (H5 & H6 & H7 & H8 & H9). split; [congruence|]. split; [by eapply same_regs_trans|].
  split; [congruence|]. split; [done|]. auto.
Qed.

Lemma released_free k0 k c : fa_ok (fa k) -> 0 < c < WINDOW -> fa_used (fa k0) c = false -> released k0 k (free_frame k (c * PAGE_SIZE)).
Proof.
  intros Hok Hc Hu. assert (FRAME_SIZE <= c * PAGE_SIZE) as Hp by (unfold FRAME_SIZE, PAGE_SIZE; lia).
  split; [done|]. split; [done|]. split; [done|]. cbn [fa free_frame set_fa]. split; [by apply fa_free_ok|].
  intros g Hg Hg0 Hg1. rewrite fa_free_used by done. unfold PAGE_SIZE, FRAME_SIZE. rewrite Z.div_mul, Hg1 by lia.
  assert (c <> g) by (intros ->; congruence). by rewrite (proj2 (Z.eqb_neq c g)).
Qed.

Section release.
Context (k0 : kst A) (L0 : levels) (kk : kst A) (L : levels) (Hg : grown k0 L0 kk L).

Lemma new_unused g : L0 g = O -> L g <> O -> 0 < g < WINDOW /\ fa_used (fa k0) g = false.
Proof.
  intros H0 HL. pose proof (pw_range _ _ (vi_wf _ _ (gr_inv _ _ _ _ Hg)) g HL) as [Hr _]. split; [done|].
  destruct (fa_used (fa k0) g) eqn:E; [|done]. by destruct (gr_data _ _ _ _ Hg g H0 ltac:(lia) E) as [? _].
Qed.

Lemma new_child g i : L0 g = O -> (2 <= L g)%nat -> 0 <= i < 512 -> (L g = 4%nat -> i < 256) ->
  link (L g) (ent (mm kk) g i) = true ->
  let c := nxt (ent (mm kk) g i) in L0 c = O /\ S (L c) = L g /\ 0 < c < WINDOW /\ fa_used (fa k0) c = false.
Proof.
  intros H0 HL Hi H4 Hlk. pose proof (pw_child _ _ (vi_wf _ _ (gr_inv _ _ _ _ Hg)) g i HL Hi Hlk) as Hch.
  pose proof (gr_link _ _ _ _ Hg g i H0 HL Hi H4 Hlk) as Hc0. cbv zeta. split; [done|]. split; [done|].
  apply new_unused; [done|lia].
Qed.

Lemma link_taken l e : (l < 4)%nat -> link l e = negb (negb (present e) || huge e).
Proof. intros Hl. unfold link. destruct (Nat.eqb_spec l 4); [lia|]. by rewrite negb_orb, negb_involutive. Qed.

Lemma free_pdt_released g n : L0 g = O -> L g = 2%nat -> forall k j, mm k = mm kk -> fa_ok (fa k) -> 0 <= j -> j + Z.of_nat n <= 512 ->
  released k0 k (free_pdt_loop n k (frame_va g) j).
Proof.
  intros H0 HL. induction n as [|n IH]; intros k j Hm Hok Hj Hjn; [by apply released_refl|].
  cbn [free_pdt_loop]. assert (ld k (frame_va g) j = ent (mm kk) g j) as -> by (by rewrite <- Hm).
  rewrite has_present, has_huge. destruct (negb _ || _) eqn:E; [apply IH; done || lia|].
  destruct (new_child g j H0) as (Hc0 & HLc & Hcw & Hcu); [lia|lia|lia|rewrite HL, link_taken by lia; by rewrite E|].
  rewrite addr_mask. pose proof (released_free k0 k _ Hok Hcw Hcu) as Hrel.
  eapply released_trans; [exact Hrel|]. apply IH; [done|apply Hrel|lia|lia].
Qed.

Lemma free_pdpt_released g n : L0 g = O -> L g = 3%nat -> forall k j, mm k = mm kk -> fa_ok (fa k) -> 0 <= j -> j + Z.of_nat n <= 512 ->
  released k0 k (free_pdpt_loop n k (frame_va g) j).
Proof.
  intros H0 HL. induction n as [|n IH]; intros k j Hm Hok Hj Hjn; [by apply released_refl|].
  cbn [free_pdpt_loop]. assert (ld k (frame_va g) j = ent (mm kk) g j) as -> by (by rewrite <- Hm).
  rewrite has_present, has_huge. destruct (negb _ || _) eqn:E; [apply IH; done || lia|].
  destruct (new_child g j H0) as (Hc0 & HLc & Hcw & Hcu); [lia|lia|lia|rewrite HL, link_taken by lia; by rewrite E|].
  rewrite addr_mask, phys_to_virt by lia.
  pose proof (free_pdt_released _ 512 Hc0 ltac:(lia) k 0 Hm Hok ltac:(lia) ltac:(lia)) as Hrel.
  revert Hrel. generalize (free_pdt_loop 512 k (frame_va (nxt (ent (mm kk) g j))) 0). intros k1 Hrel.
  assert (fa_ok (fa k1)) as Hok1 by apply Hrel. pose proof (released_free k0 k1 _ Hok1 Hcw Hcu) as Hrel2.
  eapply released_trans; [exact Hrel|]. eapply released_trans; [exact Hrel2|].
  apply IH; [|apply Hrel2|lia|lia]. destruct Hrel as [E1 _]. cbn [mm free_frame set_fa]. congruence.
Qed.

Lemma free_pml4_released g n : L0 g = O -> L g = 4%nat -> forall k j, mm k = mm kk -> fa_ok (fa k) -> 0 <= j -> j + Z.of_nat n <= 256 ->
  released k0 k (free_pml4_loop n k (frame_va g) j).
Proof.
  intros H0 HL. induction n as [|n IH]; intros k j Hm Hok Hj Hjn; [by apply released_refl|].
  cbn [free_pml4_loop]. assert (ld k (frame_va g) j = ent (mm kk) g j) as -> by (by rewrite <- Hm).
  rewrite has_present. destruct (present (ent (mm kk) g j)) eqn:E; cbn [negb]; [|apply IH; done || lia].
  destruct (new_child g j H0) as (Hc0 & HLc & Hcw & Hcu); [lia|lia|lia|by rewrite HL, link4|].
  unfold free_user_pdpt. rewrite addr_mask, phys_to_virt by lia.
  pose proof (free_pdpt_released _ 512 Hc0 ltac:(lia) k 0 Hm Hok ltac:(lia) ltac:(lia)) as Hrel.
  revert Hrel. generalize (free_pdpt_loop 512 k (frame_va (nxt (ent (mm kk) g j))) 0). intros k1 Hrel.
  assert (fa_ok (fa k1)) as Hok1 by apply Hrel. pose proof (released_free k0 k1 _ Hok1 Hcw Hcu) as Hrel2.
  eapply released_trans; [exact Hrel|]. eapply released_trans; [exact Hrel2|].
  apply IH; [|apply Hrel2|lia|lia]. destruct Hrel as [E1 _]. cbn [mm free_frame set_fa]. congruence.
Qed.

(** Destroying a space that was built since leaves the old ones. *)
Lemma destroy_released c : vm_inv k0 L0 -> L0 c = O -> L c = 4%nat -> grown k0 L0 (vmm_destroy_user_pml4 kk (c * PAGE_SIZE)) L0.
Proof.
  intros Hinv H0 HL. pose proof (gr_inv _ _ _ _ Hg) as Hk. pose proof (gr_ext _ _ _ _ Hg) as He.
  destruct (new_unused c H0 ltac:(lia)) as [Hcw Hcu]. unfold vmm_destroy_user_pml4. rewrite phys_to_virt by lia.
  pose proof (free_pml4_released c 256 H0 HL kk 0 eq_refl (vi_fa _ _ Hk) ltac:(lia) ltac:(lia)) as Hrel.
  revert Hrel. generalize (free_pml4_loop 256 kk (frame_va c) 0). intros k1 Hrel1.
  assert (fa_ok (fa k1)) as Hok1 by apply Hrel1. pose proof (released_free k0 k1 c Hok1 Hcw Hcu) as Hrel2.
  pose proof (released_trans _ _ _ _ Hrel1 Hrel2) as (Em & Hregs & Hlog & Hok & Hused). clear Hrel1 Hrel2.
  revert Em Hregs Hlog Hok Hused. generalize (free_frame k1 (c * PAGE_SIZE)). intros k' Em Hregs Hlog Hok Hused.
  assert (forall g, 0 <= g -> fa_used (fa k0) g = true -> fa_used (fa k') g = true) as Hkeep.
  { intros g Hg0 Hu. apply Hused; [done|done|]. destruct (decide (L0 g = O)) as [E|E]; [by apply (gr_data _ _ _ _ Hg g)|].
    apply (vi_used _ _ Hk). by rewrite He. }
  split.
  - apply (vm_inv_grow k0 k' L0); [done| |done|done|by left]. rewrite Em.
    apply (pt_wf_ext (mm k0)); [apply Hinv|apply Hk|apply Hg].
  - done.
  - rewrite Em. apply Hg.
  - rewrite Em. apply Hg.
  - intros d Hd Hd0 Hu. splits; [done|by apply Hkeep|]. rewrite Em. by apply (gr_data _ _ _ _ Hg).
  - intros; lia.
  - intros; lia.
  - destruct (gr_regs _ _ _ _ Hg) as [Hs E]. split; [by eapply same_regs_trans|congruence].
Qed.
End release.

(** ** The whole clone *)

(** Every mapped page lies in a frame in use that is no table. *)
Definition pages_used k L : Prop :=
  forall f i, L f = 1%nat -> 0 <= i < 512 -> present (ent (mm k) f i) = true ->
    0 <= nxt (ent (mm k) f i) < WINDOW /\ fa_used (fa k) (nxt (ent (mm k) f i)) = true /\ L (nxt (ent (mm k) f i)) = O.

Lemma grown_pages k L k' L' : grown k L k' L' -> pages_used k L -> pages_used k' L'.
Proof.
  intros Hg Hp g i HL Hi Hpr.
  assert (exists f j, L f = 1%nat /\ 0 <= j < 512 /\ present (ent (mm k) f j) = true /\ nxt (ent (mm k') g i) = nxt (ent (mm k) f j))
    as (f & j & Hf & Hj & Hpf & ->).
  { destruct (decide (L g = O)) as [H0|H0]; [by apply (gr_page _ _ _ _ Hg)|].
    rewrite (gr_ext _ _ _ _ Hg g H0) in HL. destruct (grown_same _ _ _ _ g i Hg HL Hi) as [E1 E2].
    exists g, i. by rewrite <- E1. }
  destruct (Hp f j Hf Hj Hpf) as (H1 & H2 & H3). destruct (gr_data _ _ _ _ Hg _ H3 ltac:(lia) H2) as (H4 & H5 & _). done.
Qed.

Lemma pages_cow k L : pages_used k L -> cow_pages_ok k L.
Proof. intros H f i Hf Hi Hp _. by apply H. Qed.

(** The tables a clone of the user half takes. *)
Definition user_tables (m : mem) (r : Z) : nat := S (count (below 2 m r) 256 0).

Lemma new_root_grown k L r c k1 : vm_inv k L -> L r = 4%nat -> L c = O -> 0 < c < WINDOW -> fa_used (fa k) c = false ->
  fa_used (fa k1) c = true -> mm k1 = mm k -> grown k L k1 L ->
  let k2 := copy_entries 256 (set_mm k1 (memset (mm k1) (frame_va c) 0 (PAGE_SIZE / 2))) (frame_va c + 8 * 256) (frame_va r + 8 * 256) 0 in
  root_inv k L r c k2 (add_level c 4 L) 0 /\ fa k2 = fa k1.
Proof.
  intros Hinv Hr Hc Hcw Hcu Hu1 Hm Hg. pose proof (vi_wf _ _ Hinv) as Hwf.
  destruct (new_root_mem k1 r c ltac:(intros ->; lia)) as (Hb & Hf & Hs & Hl & Hent & Hout); [rewrite Hm; apply Hwf|].
  revert Hb Hf Hs Hl Hent Hout. generalize (copy_entries 256
    (set_mm k1 (memset (mm k1) (frame_va c) 0 (PAGE_SIZE / 2))) (frame_va c + 8 * 256) (frame_va r + 8 * 256) 0).
  intros k2 Hb Hf Hs Hl Hent Hout. rewrite Hm in Hent, Hout. split; [|done].
  destruct (add_root (mm k) (mm k2) L r c Hwf Hr Hc Hcw Hb Hent) as (Hwf2 & _).
  assert (forall g j, L g <> O -> 0 <= j < 512 -> ent (mm k2) g j = ent (mm k) g j) as Hold.
  { intros g j HL Hj. rewrite Hent by done. destruct (Z.eqb_spec g c) as [->|]; done. }
  assert (forall j, 0 <= j < 512 -> ent (mm k2) c j = if j <? 256 then 0 else ent (mm k) r j) as Hnew.
  { intros j Hj. rewrite Hent by done. by rewrite Z.eqb_refl. }
  assert (forall g, 0 <= g -> fa_used (fa k) g = true -> fa_used (fa k2) g = true) as Hkeep.
  { intros g Hg0 Hu. rewrite Hf. destruct (decide (L g = O)) as [E|E]; [by apply (gr_data _ _ _ _ Hg g)|].
    by apply (vi_used _ _ (gr_inv _ _ _ _ Hg)). }
  split; [|apply add_level_new| |intros j Hj; rewrite Hnew by lia; by destruct (Z.ltb_spec j 256); [|lia]|lia|lia].
  2: { intros j Hj. rewrite Hnew by lia. destruct (Z.ltb_spec j 256); [lia|done]. }
  split.
  - apply (vm_inv_grow k k2 L); [done|exact Hwf2|rewrite Hf; apply (gr_inv _ _ _ _ Hg)|done|].
    intros g HL. destruct (Z.eq_dec g c) as [->|]; [right; by rewrite Hf|left].
    unfold add_level in HL. by rewrite (proj2 (Z.eqb_neq g c)) in HL.
  - intros g HL. by apply add_level_old.
  - intros g i HL Hi. apply Hold; [lia|done].
  - intros g i HL Hi. left. apply Hold; [lia|done].
  - intros d Hd Hd0 Hu. assert (d <> c) as Hdc by (intros ->; congruence). splits; [|by apply Hkeep|].
    + unfold add_level. by rewrite (proj2 (Z.eqb_neq d c)).
    + intros o Ho. apply Hout. unfold frame_va, PAGE_SIZE in *. lia.
  - intros g i Hg0. destruct (Z.eq_dec g c) as [->|Hgc].
    + rewrite add_level_new. intros _ Hi H4. rewrite Hnew by done. destruct (Z.ltb_spec i 256); [discriminate|lia].
    + unfold add_level. rewrite (proj2 (Z.eqb_neq g c)) by done. lia.
  - intros g i Hg0. destruct (Z.eq_dec g c) as [->|Hgc]; [rewrite add_level_new; lia|].
    unfold add_level. rewrite (proj2 (Z.eqb_neq g c)) by done. lia.
  - destruct (gr_regs _ _ _ _ Hg) as [Hs1 E]. split; [by eapply same_regs_trans|congruence].
Qed.

(** The new root translates as the old one did. *)
Lemma root_xlate k0 L0 r c k L va : vm_inv k0 L0 -> L0 r = 4%nat -> root_inv k0 L0 r c k L 256 ->
  xlate (mm k) c va = xlate (mm k0) r va /\
  (idx 4 va < 256 -> forall pt, walkn 4 (mm k0) r va = Some (1%nat, pt, idx 1 va) ->
    (exists pt', walkn 4 (mm k) c va = Some (1%nat, pt', idx 1 va) /\ ent (mm k) pt' (idx 1 va) = clone_entry (ent (mm k0) pt (idx 1 va))) /\
    ent (mm k) pt (idx 1 va) = cowed (ent (mm k0) pt (idx 1 va))).
Proof.
  intros Hinv Hr [Hg H4 Hk Ht Ha Hd]. pose proof (vi_wf _ _ Hinv) as Hwf. pose proof (idx_range 4 va) as Hi.
  unfold xlate. rewrite !walkn_S. cbv zeta. rewrite !link4.
  destruct (Z.ltb_spec (idx 4 va) 256) as [Hlo|Hhi].
  - destruct (present (ent (mm k0) r (idx 4 va))) eqn:Hp; cbn [negb].
    + destruct (Hd (idx 4 va) ltac:(lia) Hp) as (c' & Hc' & E & HL & Hcl).
      destruct (relink_ok (ent (mm k0) r (idx 4 va)) c' (ent_range _ _ _ (pw_bytes _ _ Hwf)) Hc') as (_ & Ep & _ & En).
      rewrite E, Ep, Hp, En. cbn [negb].
      destruct (cloned_walk 3 (mm k0) (mm k) _ c' va (pw_bytes _ _ Hwf) Hcl) as [H1 H2]. split; [exact H1|]. intros _. exact H2.
    + rewrite (Ha (idx 4 va) ltac:(lia) Hp). done.
  - rewrite (Hk (idx 4 va)) by lia. destruct (present (ent (mm k0) r (idx 4 va))) eqn:Hp; cbn [negb]; [|done].
    split; [|lia].
    pose proof (grown_xlate k0 L0 k L r va Hinv Hg Hr) as Hx. unfold xlate in Hx. rewrite !walkn_S in Hx. cbv zeta in Hx.
    rewrite (gr_tab _ _ _ _ Hg) in Hx by lia. rewrite !link4, Hp in Hx. cbn [negb] in Hx. exact Hx.
Qed.

(** Everything about the result in terms of [grown]. *)
Lemma fork_cases k L r : vm_inv k L -> L r = 4%nat ->
  let '(p, k') := vmm_fork_pml4 k (r * PAGE_SIZE) in
  (forall n, budget k (user_tables (mm k) r + n) -> p <> 0 /\ budget k' n) /\
  ((p = 0 /\ grown k L k' L) \/
   exists c k2 L', p = c * PAGE_SIZE /\ 0 < c < WINDOW /\ L c = O /\ L' c = 4%nat /\ k' = write_cr3 k2 (r * PAGE_SIZE) /\
     root_inv k L r c k2 L' 256).
Proof.
  intros Hinv Hr. pose proof (vi_wf _ _ Hinv) as Hwf. unfold vmm_fork_pml4.
  destruct (grown_alloc k L Hinv) as [E|(c & k1 & E & Hcw & Hc & Hcu & Hu1 & Hm & Hg & Hb)].
  { rewrite E. cbn [Z.eqb]. split; [|by left; split; [|apply grown_refl]].
    intros n Hbud. destruct (alloc_budget k L _ Hinv Hbud) as [Hne _]. by rewrite E in Hne. }
  rewrite E, page_nz, phys_to_virt, (root_va (mm k) L r) by (done || lia).
  destruct (new_root_grown k L r c k1 Hinv Hr Hc Hcw Hcu Hu1 Hm Hg) as [HI Hf].
  revert HI Hf. generalize (copy_entries 256
    (set_mm k1 (memset (mm k1) (frame_va c) 0 (PAGE_SIZE / 2))) (frame_va c + 8 * 256) (frame_va r + 8 * 256) 0).
  intros k2 HI Hf.
  pose proof (fork_loop_spec k L r c Hinv Hr Hc Hcu 256 k2 _ 0 ltac:(lia) ltac:(lia) HI) as Hloop.
  destruct (fork_loop 256 k2 (frame_va r) (frame_va c) 0) as [ok k3]. destruct Hloop as (L3 & Hb3 & Hres).
  assert (forall n, budget k (user_tables (mm k) r + n) -> ok = true /\ budget k3 n) as Hok.
  { intros n Hbud. apply Hb3. eapply budget_fa; [exact Hf|]. by apply Hb. }
  destruct ok.
  - split; [intros n Hbud; split; [unfold PAGE_SIZE; lia|by apply Hok]|]. right. exists c, k3, L3. splits; try done. apply Hres.
  - split; [intros n Hbud; by destruct (Hok n Hbud)|]. left. split; [done|]. destruct Hres as [Hg3 H4]. by apply (destroy_released k L k3 L3).
Qed.

(** ** The bytes of a page *)

Lemma byte_at k L x va f : vm_inv k L -> L x = 4%nat -> 0 <= f < WINDOW -> xlate (mm k) x va = f * PAGE_SIZE + va mod 4096 ->
  user_byte k x va = mm k (frame_va f + va mod 4096).
Proof.
  intros Hinv Hx Hf E. unfold user_byte. rewrite (get_phys_xlate k L), E by (done || apply Hinv).
  pose proof (Z.mod_pos_bound va 4096 ltac:(lia)). unfold PHYS_TO_VIRT.
  rewrite u64_small by (unfold KERNEL_VMA, PAGE_SIZE, WINDOW in *; lia). f_equal. unfold frame_va. lia.
Qed.

(** A mapped user page is a page-table entry, its frame is in use. *)
Lemma user_frame k L r va : vm_inv k L -> L r = 4%nat -> pages_used k L -> nohuge 4 (mm k) r va -> xlate (mm k) r va <> 0 ->
  exists pt f, walkn 4 (mm k) r va = Some (1%nat, pt, idx 1 va) /\ present (ent (mm k) pt (idx 1 va)) = true /\
    f = nxt (ent (mm k) pt (idx 1 va)) /\ 0 <= f < WINDOW /\ L f = O /\ fa_used (fa k) f = true /\
    xlate (mm k) r va = f * PAGE_SIZE + va mod 4096.
Proof.
  intros Hinv Hr Hp Hnh Hx. pose proof (vi_wf _ _ Hinv) as Hwf. unfold xlate, nohuge in *.
  destruct (walkn 4 (mm k) r va) as [[[j pt] i]|] eqn:Hw; [|done]. subst j.
  destruct (walkn_typed _ L Hwf _ _ _ _ _ _ Hr ltac:(lia) Hw) as (HL & _ & ->). cbn [slot_phys] in *.
  destruct (present (ent (mm k) pt (idx 1 va))) eqn:Epr; [|done]. cbn [negb] in *.
  destruct (Hp pt (idx 1 va) HL (idx_range _ _) Epr) as (H1 & H2 & H3).
  exists pt, (nxt (ent (mm k) pt (idx 1 va))). splits; try done. rewrite addr_mask. apply page_lor. lia.
Qed.

Lemma walkn_page l m f va va' : va / 4096 = va' / 4096 -> walkn l m f va = walkn l m f va'.
Proof.
  intros E. revert f. induction l as [|[|l] IH]; intros f; [done| |].
  - cbn [walkn]. by rewrite (idx_page 1 va va').
  - rewrite !walkn_S. cbv zeta. by rewrite (idx_page (S (S l)) va va'), IH by (done || lia).
Qed.

(** A page is mapped as a whole. *)
Lemma xlate_page m x va va' f : va / 4096 = va' / 4096 -> nohuge 4 m x va -> 0 < f -> xlate m x va = f * PAGE_SIZE + va mod 4096 ->
  xlate m x va' = f * PAGE_SIZE + va' mod 4096.
Proof.
  intros E Hnh Hf. unfold xlate, nohuge in *. rewrite (walkn_page 4 m x va va' E) in *.
  pose proof (Z.mod_pos_bound va 4096 ltac:(lia)).
  destruct (walkn 4 m x va') as [[[j g] i]|]; cbn [slot_phys]; [|unfold PAGE_SIZE; lia]. subst j.
  destruct (present (ent m g i)); cbn [negb]; [|unfold PAGE_SIZE; lia].
  pose proof (nxt_range (ent m g i)). rewrite addr_mask, !page_lor by lia. unfold PAGE_SIZE. lia.
Qed.

(** What both processes see after the fork. *)
Record forked k L (r c : Z) k' L' : Prop := {
  fk_inv : vm_inv k' L';
  fk_ext : extends L L' /\ L c = O /\ L' c = 4%nat /\ r <> c;
  fk_pages : pages_used k' L';
  fk_xlate r' va : L r' = 4%nat -> xlate (mm k') r' va = xlate (mm k) r' va;
  fk_child va : xlate (mm k') c va = xlate (mm k) r va;
  fk_entry va pt : idx 4 va < 256 -> walkn 4 (mm k) r va = Some (1%nat, pt, idx 1 va) ->
    present (ent (mm k) pt (idx 1 va)) = true ->
    walkn 4 (mm k') r va = Some (1%nat, pt, idx 1 va) /\
    ent (mm k') pt (idx 1 va) = cow_entry (ent (mm k) pt (idx 1 va)) /\
    exists pt', walkn 4 (mm k') c va = Some (1%nat, pt', idx 1 va) /\
      ent (mm k') pt' (idx 1 va) = cow_entry (ent (mm k) pt (idx 1 va));
  fk_data d : L d = O -> 0 <= d -> fa_used (fa k) d = true ->
    L' d = O /\ fa_used (fa k') d = true /\
    forall o, 0 <= o < PAGE_SIZE -> mm k' (frame_va d + o) = mm k (frame_va d + o)
}.

Lemma fork_forked k L r c k2 L2 : vm_inv k L -> L r = 4%nat -> pages_used k L -> L c = O ->
  root_inv k L r c k2 L2 256 -> forked k L r c (write_cr3 k2 (r * PAGE_SIZE)) L2.
Proof.
  intros Hinv Hr Hp Hc HI. pose proof (ri_grown _ _ _ _ _ _ _ HI) as Hg. pose proof (vi_wf _ _ Hinv) as Hwf.
  split; cbn [mm fa write_cr3].
  - destruct (gr_inv _ _ _ _ Hg). by split.
  - splits; [apply Hg|done|apply HI|congruence].
  - exact (grown_pages _ _ _ _ Hg Hp).
  - intros r' va Hr'. by apply (grown_xlate k L k2 L2).
  - intros va. by apply (root_xlate k L r c k2 L2).
  - intros va pt Hva Hw Hpr. destruct (root_xlate k L r c k2 L2 va Hinv Hr HI) as [_ H].
    destruct (H Hva pt Hw) as [(pt' & Hw' & E') E]. unfold clone_entry, cowed in E, E'. rewrite Hpr in E, E'.
    split; [|split; [done|by exists pt']].
    rewrite (walkn_ext (mm k) (mm k2) L 4 r va Hwf Hr ltac:(lia)); [done|apply Hg].
  - apply Hg.
Qed.

(** The bytes of the parent's pages, in both spaces. *)
Lemma forked_frame k L r c k' L' x va : vm_inv k L -> L r = 4%nat -> pages_used k L -> nohuge 4 (mm k) r va -> xlate (mm k) r va <> 0 ->
  forked k L r c k' L' -> x = r \/ x = c ->
  exists f, 0 <= f < WINDOW /\ L' f = O /\ fa_used (fa k') f = true /\ xlate (mm k') x va = f * PAGE_SIZE + va mod 4096 /\
    mm k' (frame_va f + va mod 4096) = user_byte k r va.
Proof.
  intros Hinv Hr Hp Hnh Hx Hfk Hxr. destruct (user_frame k L r va Hinv Hr Hp Hnh Hx) as (pt & f & _ & _ & _ & Hf & HL & Hu & E).
  destruct (fk_data _ _ _ _ _ _ Hfk f HL ltac:(lia) Hu) as (H1 & H2 & H3). exists f. splits; try done.
  - destruct Hxr as [-> | ->]; [by rewrite (fk_xlate _ _ _ _ _ _ Hfk)|by rewrite (fk_child _ _ _ _ _ _ Hfk)].
  - rewrite H3 by (pose proof (Z.mod_pos_bound va 4096 ltac:(lia)); unfold PAGE_SIZE; lia). symmetry. by apply (byte_at k L).
Qed.

Lemma forked_byte k L r c k' L' x va : vm_inv k L -> L r = 4%nat -> pages_used k L -> nohuge 4 (mm k) r va -> xlate (mm k) r va <> 0 ->
  forked k L r c k' L' -> x = r \/ x = c -> user_byte k' x va = user_byte k r va.
Proof.
  intros Hinv Hr Hp Hnh Hx Hfk Hxr. destruct (forked_frame k L r c k' L' x va Hinv Hr Hp Hnh Hx Hfk Hxr) as (f & Hf & _ & _ & E & <-).
  pose proof (fk_ext _ _ _ _ _ _ Hfk) as (He & _ & H4 & _).
  apply (byte_at k' L'); [apply Hfk| |done|done]. destruct Hxr as [-> | ->]; [rewrite He; lia|done].
Qed.

(** ** Properties *)


(** The page of [va] may be written in the space [r]. *)
Definition writable k r va : Prop := exists pt, walkn 4 (mm k) r va = Some (1%nat, pt, idx 1 va) /\
  present (ent (mm k) pt (idx 1 va)) = true /\ has (ent (mm k) pt (idx 1 va)) PTE_WRITE = true.

(** The write of one byte at [va] in the space [w]. *)
Definition user_write k w va (v : Z) : kst A := set_mm k (upd (mm k) (PHYS_TO_VIRT (get_phys_in k (w * PAGE_SIZE) va)) v).

Lemma cr3_root w : 0 < w < WINDOW -> (w * PAGE_SIZE) &b PTE_ADDR_MASK = w * PAGE_SIZE.
Proof. intros Hw. rewrite addr_mask, nxt_frame; [done|unfold WINDOW in Hw; lia]. Qed.

(** The fault on a page both share, and the write after it. *)
Lemma forked_write k L r c k' L' va v w : vm_inv k L -> L r = 4%nat -> pages_used k L -> user_small k r -> user_va va ->
  writable k r va -> forked k L r c k' L' -> budget k' 1 -> w = r \/ w = c -> 0 <= v < 2 ^ 8 ->
  let '(h, k2) := cow_handle (write_cr3 k' (w * PAGE_SIZE)) va in
  let k3 := user_write k2 w va v in
  h = 1 /\ vm_inv k3 L' /\ user_byte k3 w va = v /\
  (forall x va', x = r \/ x = c -> user_va va' -> xlate (mm k) r va' <> 0 -> (x, va') <> (w, va) ->
     user_byte k3 x va' = user_byte k r va').
Proof.
  intros Hinv Hr Hp Hsm Hva (pt & Hw & Hpr & Hwr) Hfk Hb Hwx Hv. pose proof (fk_inv _ _ _ _ _ _ Hfk) as Hinv'.
  destruct (fk_ext _ _ _ _ _ _ Hfk) as (He & Hc & H4 & Hrc). pose proof (user_idx va Hva) as Hlo.
  assert (forall x, x = r \/ x = c -> L' x = 4%nat) as Hroot by (intros x [-> | ->]; [rewrite He; lia|done]).
  assert (0 < w < WINDOW) as Hww by (apply (pw_range _ _ (vi_wf _ _ Hinv')); rewrite Hroot; lia || done).
  set (ks := write_cr3 k' (w * PAGE_SIZE)).
  assert (vm_inv ks L') as Hs by (destruct Hinv'; by split).
  assert (cow_pages_ok ks L') as Hcow by exact (pages_cow _ _ (fk_pages _ _ _ _ _ _ Hfk)).
  assert (read_cr3 ks &b PTE_ADDR_MASK = w * PAGE_SIZE) as Hcr by by apply cr3_root.
  assert (exists pt', walkn 4 (mm ks) w va = Some (1%nat, pt', idx 1 va) /\ present (ent (mm ks) pt' (idx 1 va)) = true /\
    has (ent (mm ks) pt' (idx 1 va)) PTE_COW = true) as (pt' & Hw' & Hpr' & Hcw').
  { destruct (fk_entry _ _ _ _ _ _ Hfk va pt Hlo Hw Hpr) as (W1 & E1 & pt' & W2 & E2). cbn [mm ks write_cr3].
    destruct Hwx as [-> | ->]; [exists pt|exists pt']; rewrite ?E1, ?E2, cow_entry_present, cow_entry_cow, Hwr, orb_true_r; done. }
  pose proof (cow_handle_one ks L' w va pt' (vi_wf _ _ Hs) (Hroot w Hwx) Hcr Hw' Hpr' Hcw' (proj1 (alloc_budget ks L' 0 Hs Hb))) as H1.
  pose proof (cow_handle_cases ks L' w va Hs (Hroot w Hwx) Hcr Hcow) as H2.
  pose proof (fun d n => cow_handle_frame ks L' w va d n Hs (Hroot w Hwx) Hcr Hcow) as H3.
  pose proof (fun x y => cow_handle_walk ks L' w va x y Hs (Hroot w Hwx) Hcr Hcow) as H5.
  destruct (cow_handle ks va) as [h k2]. cbn [fst snd] in *. subst h.
  destruct H2 as [[? _]|(_ & pt2 & f & Hw2 & _ & Hfree & Hfw & HLf & Hi2 & _ & _ & Hx2 & _ & Hcopy & Hoth)]; [done|].
  rewrite page_lor in Hx2 by lia. rewrite Hw' in Hw2. injection Hw2 as <-.
  pose proof (Z.mod_pos_bound va 4096 ltac:(lia)) as Hoff.
  assert (PHYS_TO_VIRT (get_phys_in k2 (w * PAGE_SIZE) va) = frame_va f + va mod 4096) as Ead.
  { rewrite (get_phys_xlate k2 L'), Hx2 by (apply Hi2 || auto). unfold PHYS_TO_VIRT.
    rewrite u64_small by (unfold KERNEL_VMA, PAGE_SIZE, WINDOW in *; lia). unfold frame_va. lia. }
  set (k3 := user_write k2 w va v).
  assert (forall x, mm k3 x = if x =? frame_va f + va mod 4096 then v else mm k2 x) as Hm3.
  { intros x. unfold k3, user_write. cbn [mm set_mm]. by rewrite Ead. }
  assert (forall x, ~ (frame_va f <= x < frame_va f + PAGE_SIZE) -> mm k3 x = mm k2 x) as Hout.
  { intros x Hx. rewrite Hm3. destruct (Z.eqb_spec x (frame_va f + va mod 4096)) as [->|]; [unfold PAGE_SIZE in *; lia|done]. }
  assert (vm_inv k3 L') as Hinv3.
  { unfold k3, user_write. apply (frame_write_inv k2 L' f); [done|done|apply upd_bytes_ok; [apply Hi2|done]|exact Hout]. }
  assert (forall x y, L' x = 4%nat -> xlate (mm k3) x y = xlate (mm k2) x y) as Hx3.
  { intros x y Hx. by apply (frame_write_xlate k2 L' f (mm k3)). }
  split; [done|]. split; [done|]. split.
  { rewrite (byte_at k3 L' w va f) by (done || lia || (by apply Hroot) || (by rewrite Hx3 by auto)). rewrite Hm3. by rewrite Z.eqb_refl. }
  intros x va' Hx Hva' Hmap Hne. destruct (forked_frame k L r c k' L' x va' Hinv Hr Hp (Hsm va' Hva') Hmap Hfk Hx) as (d & Hd & HLd & Hud & Ed & <-).
  pose proof (Z.mod_pos_bound va' 4096 ltac:(lia)) as Hoff'.
  assert (d <> f) as Hdf by (intros ->; cbn [fa ks write_cr3] in Hfree; congruence).
  destruct (decide (x = w /\ va / 4096 = va' / 4096)) as [[-> Epage]|Hnot].
  - assert (nohuge 4 (mm k2) w va) as Hnh by (unfold nohuge; rewrite H5 by auto; by rewrite Hw').
    rewrite (byte_at k3 L' w va' f) by (done || lia || (by apply Hroot) || (rewrite Hx3 by auto; apply (xlate_page _ _ va); done || lia)).
    rewrite Hm3. destruct (Z.eqb_spec (frame_va f + va' mod 4096) (frame_va f + va mod 4096)) as [E|_].
    { destruct Hne. f_equal. pose proof (Z.div_mod va 4096). pose proof (Z.div_mod va' 4096). lia. }
    rewrite Hcopy by (unfold PAGE_SIZE; lia).
    assert (nxt (ent (mm ks) pt' (idx 1 va)) = d) as ->; [|done].
    assert (xlate (mm ks) w va' = nxt (ent (mm ks) pt' (idx 1 va)) * PAGE_SIZE + va' mod 4096) as E2.
    { unfold xlate. rewrite (walkn_page 4 _ _ va' va), Hw' by done. cbn [slot_phys]. rewrite Hpr'. cbn [negb].
      rewrite addr_mask, page_lor; [done|]. pose proof (nxt_range (ent (mm ks) pt' (idx 1 va))). lia. }
    rewrite (Ed : xlate (mm ks) w va' = _) in E2. unfold PAGE_SIZE in E2. lia.
  - rewrite (byte_at k3 L' x va' d).
    + rewrite Hout by (clear - Hdf Hoff'; unfold frame_va, PAGE_SIZE in *; lia). apply H3; [done|lia|done|unfold PAGE_SIZE; lia].
    + done.
    + by apply Hroot.
    + done.
    + rewrite Hx3 by auto. rewrite Hoth; [done|by apply Hroot|]. rewrite user_same_page by done. intros [E2 [E3|E3]]; [by apply Hnot|lia].
Qed.

(** C2. Fork isolates: after a successful fork, let either process, the parent or the
    child, write a byte to a page that was writable.  Its page fault is resolved (a
    frame being free), and after the write it reads back the byte and what was there
    before the fork everywhere else, while the other process still sees its whole
    memory as it was at the fork. *)
Theorem fork_isolated k L r va v c k' w o (Hinv : vm_inv k L) (Hr : L r = 4%nat) (Hp : pages_used k L)
    (Hsm : user_small k r) (Hva : user_va va) (Hwr : writable k r va)
    (Hfork : vmm_fork_pml4 k (r * PAGE_SIZE) = (c * PAGE_SIZE, k')) (Hc : 0 < c) (Hfree : budget k' 1)
    (Hwo : (w = r /\ o = c) \/ (w = c /\ o = r)) (Hv : 0 <= v < 2 ^ 8) :
  let '(handled, k2) := cow_handle (write_cr3 k' (w * PAGE_SIZE)) va in
  let k3 := user_write k2 w va v in
  handled = 1 /\ user_byte k3 w va = v /\
  forall va', user_va va' -> get_phys_in k (r * PAGE_SIZE) va' <> 0 ->
    (va' <> va -> user_byte k3 w va' = user_byte k r va') /\ user_byte k3 o va' = user_byte k r va'.
Proof.
  pose proof (fork_cases k L r Hinv Hr) as H. rewrite Hfork in H.
  destruct H as [_ [[E _]|(c' & k2 & L' & E & Hcw & HLc & H4 & -> & HI)]]; [unfold PAGE_SIZE in E; lia|].
  assert (c' = c) as -> by (unfold PAGE_SIZE in E; lia).
  pose proof (fork_forked k L r c k2 L' Hinv Hr Hp HLc HI) as Hfk.
  assert (r <> c) as Hrc by congruence.
  pose proof (forked_write k L r c _ L' va v w Hinv Hr Hp Hsm Hva Hwr Hfk Hfree ltac:(tauto) Hv) as H.
  destruct (cow_handle _ va) as [h k3]. destruct H as (Hh & _ & Hbyte & Hrest). split; [done|]. split; [done|].
  intros va' Hva' Hx. rewrite (get_phys_xlate k L) in Hx by (done || apply Hinv). split.
  - intros Hne. apply Hrest; [tauto|done|done|congruence].
  - apply Hrest; [tauto|done|done|]. destruct Hwo as [[-> ->]|[-> ->]]; congruence.
Qed.

End fork.

(** ** A parent with one writable page *)

Definition demo_parent : kst pmm_state :=
  st (free_frame (free_frame demo_vm (11 * PAGE_SIZE)) (12 * PAGE_SIZE)) (frame_va 4) 0 0x5007.

Lemma demo_parent_inv : vm_inv demo_parent demo_levels.
Proof.
  assert (vm_inv (free_frame (free_frame demo_vm (11 * PAGE_SIZE)) (12 * PAGE_SIZE)) demo_levels) as H.
  { apply free_frame_inv; [apply free_frame_inv; [apply demo_inv|done|done]|done|done]. }
  apply (leaf_inv _ demo_levels 4 0 0x5007 H eq_refl). lia.
Qed.

Lemma demo_parent_ent f i : 0 <= i < 512 ->
  ent (mm demo_parent) f i = if (4 =? f) && (0 =? i) then 0x5007 else ent demo_mem f i.
Proof. intros Hi. unfold demo_parent. rewrite st_ent by lia. done. Qed.

Lemma demo_parent_used f : 0 <= f < PMM_MAX_FRAMES ->
  fa_used (fa demo_parent) f = negb ((12 =? f) || (11 =? f)) && fa_used demo_pmm f.
Proof.
  intros Hf. change (fa_used (fa_free (fa_free demo_pmm (11 * PAGE_SIZE)) (12 * PAGE_SIZE)) f = negb ((12 =? f) || (11 =? f)) && fa_used demo_pmm f).
  destruct demo_pmm_spec as [Hok _]. assert (fa_ok (fa_free demo_pmm (11 * PAGE_SIZE))) as Hok1 by by apply fa_free_ok.
  rewrite !fa_free_used by (done || lia). change (12 * PAGE_SIZE / FRAME_SIZE) with 12. change (11 * PAGE_SIZE / FRAME_SIZE) with 11.
  change (12 <? PMM_MAX_FRAMES) with true. change (11 <? PMM_MAX_FRAMES) with true. by destruct (12 =? f), (11 =? f), (fa_used demo_pmm f).
Qed.

Lemma demo_parent_pages : pages_used demo_parent demo_levels.
Proof.
  intros f i Hf Hi. assert (f = 4) as -> by (revert Hf; unfold demo_levels; repeat case_ltb; done || lia).
  rewrite demo_parent_ent, demo_ent by done. rewrite Z.eqb_refl, (Z.eqb_sym 0 i). destruct (Z.eqb_spec i 0); [|done]. intros _.
  change (nxt 0x5007) with 5. split; [by vm_compute|]. split; [|done]. rewrite demo_parent_used by (vm_compute; done).
  by rewrite (proj2 demo_pmm_spec) by (vm_compute; done).
Qed.

Lemma demo_parent_budget : budget demo_parent 5.
Proof.
  exists [7; 8; 9; 11; 12]. split; [|split; [done|]].
  - repeat constructor; set_solver by lia.
  - apply Forall_forall. intros f Hf. assert (0 < f < PMM_MAX_FRAMES) as Hr by (set_unfold in Hf; change PMM_MAX_FRAMES with 1048576; lia).
    split; [done|]. rewrite demo_parent_used, (proj2 demo_pmm_spec) by lia. set_unfold in Hf.
    destruct Hf as [-> |[-> |[-> |[-> |[-> | []]]]]]; done.
Qed.

Lemma demo_parent_tables : user_tables (mm demo_parent) 1 = 4%nat.
Proof. vm_compute. reflexivity. Qed.

Lemma demo_parent_small : user_small demo_parent 1.
Proof.
  intros va Hva. unfold nohuge. rewrite walkn_S. cbv zeta. rewrite demo_parent_ent, demo_ent, link4 by apply idx_range. cbn [Z.eqb andb].
  destruct (Z.eqb_spec (idx 4 va) 0) as [_|]; [|done]. change (negb (present 0x2007)) with false. change (present 0x2007) with true. change (nxt 0x2007) with 2.
  rewrite walkn_S. cbv zeta. rewrite demo_parent_ent, demo_ent by apply idx_range. cbn [Z.eqb andb].
  destruct (Z.eqb_spec (idx 3 va) 0) as [_|]; [|done]. change (negb (present 0x3007)) with false. change (link 3 0x3007) with true. change (nxt 0x3007) with 3.
  rewrite walkn_S. cbv zeta. rewrite demo_parent_ent, demo_ent by apply idx_range. cbn [Z.eqb andb].
  destruct (Z.eqb_spec (idx 2 va) 0) as [_|]; [|done]. by change (link 2 0x4007) with true.
Qed.

Lemma demo_parent_fork : exists c k', 0 < c /\ vmm_fork_pml4 demo_parent (1 * PAGE_SIZE) = (c * PAGE_SIZE, k') /\ budget k' 1.
Proof.
  pose proof (fork_cases demo_parent demo_levels 1 demo_parent_inv eq_refl) as H.
  destruct (vmm_fork_pml4 demo_parent (1 * PAGE_SIZE)) as [p k']. destruct H as [Hb H].
  rewrite demo_parent_tables in Hb. destruct (Hb 1%nat demo_parent_budget) as [Hne Hb1].
  destruct H as [[Hz _]|(c & _ & _ & -> & Hc & _)]; [destruct (Hne Hz)|]. exists c, k'. split; [lia|done].
Qed.


Lemma fork_isolated_witness : exists c k' k2, vmm_fork_pml4 demo_parent (1 * PAGE_SIZE) = (c * PAGE_SIZE, k') /\
  cow_handle (write_cr3 k' (c * PAGE_SIZE)) 0x10 = (1, k2) /\
  user_byte (user_write k2 c 0x10 77) c 0x10 = 77 /\ user_byte (user_write k2 c 0x10 77) 1 0x10 = user_byte demo_parent 1 0x10.
Proof.
  destruct demo_parent_fork as (c & k' & Hc & E & Hb). exists c, k'.
  pose proof (fork_isolated demo_parent demo_levels 1 0x10 77 c k' c 1 demo_parent_inv eq_refl demo_parent_pages demo_parent_small
    ltac:(unfold user_va; lia) ltac:(exists 4; split; [vm_compute; reflexivity|split; vm_compute; reflexivity]) E Hc Hb
    (or_intror (conj eq_refl eq_refl)) ltac:(lia)) as H.
  destruct (cow_handle (write_cr3 k' (c * PAGE_SIZE)) 0x10) as [h k2]. destruct H as (-> & Hv & H).
  exists k2. split; [exact E|]. split; [reflexivity|]. split; [exact Hv|].
  apply H; [unfold user_va; lia|]. assert (get_phys_in demo_parent (1 * PAGE_SIZE) 0x10 = 0x5010) as -> by (vm_compute; reflexivity). discriminate.
Defined.
