(* ===== verification/Fs.v ===== *)
(** * Files: src/vfs/vfs.c, src/tmpfs/tmpfs.c, src/devfs/devfs.c

    Nodes, the vtables (the five operation tables of the kernel are the
    constructors of [fs_ops]), the descriptor table, the in-memory file system
    and the device directory.  File contents live in blocks of the kernel heap
    ([BlockHeap]); buffers are addresses of the same memory.  The terminal behind
    /dev/tty0 is the interface [CharDev]. *)

From Stdlib Require Import Ascii String.
From S2P Require Import Prelude Mem Io Tty BlockHeap.
Open Scope string_scope.
Open Scope Z_scope.

(** ** Constants and data *)

Definition VFS_MAX_FS : Z := 8.
Definition VFS_MAX_FDS : Z := 64.
Definition VFS_FILE : Z := 0x01.
Definition VFS_DIR : Z := 0x02.
Definition VFS_CHARDEV : Z := 0x04.
Definition VFS_MOUNTPOINT : Z := 0x20.
Definition TMPFS_MAX_NODES : Z := 64.
Definition TMPFS_MAX_CHILDREN : Z := 16.
Definition TMPFS_MAX_FILE_SIZE : Z := 65536.
Definition DEVFS_MAX_DEVICES : Z := 16.

(** [fs_ops_t *]: the operation tables the kernel defines. *)
Inductive fs_ops := tmpfs_ops | dev_dir_ops | null_ops | zero_ops | tty_ops.
#[export] Instance fs_ops_eq : EqDecision fs_ops.
Proof. solve_decision. Defined.

(** The [ptr] field: NULL, the root node of a mounted file system ([node_pool[0]]),
    or the operation table devfs stashes there. *)
Inductive node_ptr := p_null | p_node0 | p_ops (o : fs_ops).

Record vfs_node := mk_node {
  n_name : string; n_flags : Z; n_inode : Z; n_size : Z; n_uid : Z; n_gid : Z; n_mask : Z;
  n_ops : option fs_ops; n_ptr : node_ptr
}.

(** An inode; children are indices of the inode pool, [child_count] their number. *)
Record tmpfs_inode := mk_inode {
  i_name : string; i_flags : Z; i_data : Z; i_size : Z; i_children : list Z; i_used : bool
}.

(** [filesystem_t *]: the one backend of the kernel. *)
Inductive filesystem := tmpfs_fs.
Definition fs_name (f : filesystem) : string := match f with tmpfs_fs => "tmpfs" end.

Record fd_entry := mk_fd { fd_node : vfs_node; fd_offset : Z; fd_open : bool }.

(** The terminal driver: read stores at most [size] bytes (or does not return
    within its fuel), write prints bytes. *)
Class CharDev (T : Type) := {
  cd_read : nat -> Z -> T -> option (list Z * T);
  cd_write : list Z -> T -> T
}.

(** The terminal of Tty.v; [yield] is what happens while a reader waits. *)
Definition tty_chardev {D} `{!Bus D} (yield : Tty.tty_st * D -> Tty.tty_st * D) : CharDev (Tty.tty_st * D) := {|
  cd_read fuel size t := Tty.tty_read fuel yield size (fst t) (snd t);
  cd_write data t := snd (Tty.tty_write data (fst t) (snd t))
|}.

Record fs_st (H T : Type) := mk_fs {
  f_heap : H; f_tty : T;
  inode_pool : list tmpfs_inode; node0 : vfs_node;
  vfs_root : bool; fs_table : list filesystem; fd_table : list fd_entry;
  dev_table : list (string * fs_ops); dev_dir : vfs_node
}.
Arguments mk_fs {H T}. Arguments f_heap {H T}. Arguments f_tty {H T}. Arguments inode_pool {H T}. Arguments node0 {H T}.
Arguments vfs_root {H T}. Arguments fs_table {H T}. Arguments fd_table {H T}. Arguments dev_table {H T}. Arguments dev_dir {H T}.

Section fs.
Context {H T : Type} `{!BlockHeap H} `{!CharDev T}.
Implicit Types f : fs_st H T.

Definition fs_heap f h : fs_st H T := mk_fs h (f_tty f) (inode_pool f) (node0 f) (vfs_root f) (fs_table f) (fd_table f) (dev_table f) (dev_dir f).
Definition fs_tty f t : fs_st H T := mk_fs (f_heap f) t (inode_pool f) (node0 f) (vfs_root f) (fs_table f) (fd_table f) (dev_table f) (dev_dir f).
Definition fs_pool f p : fs_st H T := mk_fs (f_heap f) (f_tty f) p (node0 f) (vfs_root f) (fs_table f) (fd_table f) (dev_table f) (dev_dir f).
Definition fs_node0 f n : fs_st H T := mk_fs (f_heap f) (f_tty f) (inode_pool f) n (vfs_root f) (fs_table f) (fd_table f) (dev_table f) (dev_dir f).
Definition fs_root f r : fs_st H T := mk_fs (f_heap f) (f_tty f) (inode_pool f) (node0 f) r (fs_table f) (fd_table f) (dev_table f) (dev_dir f).
Definition fs_fstab f t : fs_st H T := mk_fs (f_heap f) (f_tty f) (inode_pool f) (node0 f) (vfs_root f) t (fd_table f) (dev_table f) (dev_dir f).
Definition fs_fds f t : fs_st H T := mk_fs (f_heap f) (f_tty f) (inode_pool f) (node0 f) (vfs_root f) (fs_table f) t (dev_table f) (dev_dir f).
Definition fs_devs f t : fs_st H T := mk_fs (f_heap f) (f_tty f) (inode_pool f) (node0 f) (vfs_root f) (fs_table f) (fd_table f) t (dev_dir f).
Definition fs_devdir f n : fs_st H T := mk_fs (f_heap f) (f_tty f) (inode_pool f) (node0 f) (vfs_root f) (fs_table f) (fd_table f) (dev_table f) n.

Definition inode_default : tmpfs_inode := mk_inode "" 0 0 0 [] false.
Definition get_inode f (i : Z) : tmpfs_inode := nth (Z.to_nat i) (inode_pool f) inode_default.
Definition set_inode f (i : Z) (n : tmpfs_inode) : fs_st H T := fs_pool f (<[Z.to_nat i := n]> (inode_pool f)).
Definition mem_of f : mem := bh_mem (f_heap f).
Definition set_mem f (m : mem) : fs_st H T := fs_heap f (bh_set_mem (f_heap f) m).

(** ** src/tmpfs/tmpfs.c *)

(** [alloc_inode]: the index of a free inode, now in use and empty. *)
Definition alloc_inode f : option Z * fs_st H T :=
  match first_idx (fun n => negb (i_used n)) (take 64 (inode_pool f)) with
  | Some i =>
      let n := get_inode f (Z.of_nat i) in
      (Some (Z.of_nat i), set_inode f (Z.of_nat i) (mk_inode (i_name n) (i_flags n) 0 0 [] true))
  | None => (None, f)
  end.

Definition inode_to_node f (i : Z) : vfs_node :=
  let n := get_inode f i in
  mk_node (str_trunc 127 (i_name n)) (i_flags n) i (i_size n) 0 0 0x1ED (Some tmpfs_ops) p_null.

Definition node_to_inode (node : vfs_node) : option Z :=
  if TMPFS_MAX_NODES <=? n_inode node then None else Some (n_inode node).

Definition tmpfs_read (node : vfs_node) (offset size buf : Z) f : Z * fs_st H T :=
  match node_to_inode node with
  | None => (-1, f)
  | Some i =>
      let n := get_inode f i in
      if negb (has (i_flags n) VFS_FILE) then (-1, f)
      else if i_size n <=? offset then (0, f)
      else
        let avail := u32 (i_size n - offset) in
        let k := if size <? avail then size else avail in
        (i32 k, set_mem f (memcpy (mem_of f) buf (i_data n + offset) k))
  end.

Definition tmpfs_write (fuel : nat) (node : vfs_node) (offset size buf : Z) f : option (Z * vfs_node * fs_st H T) :=
  match node_to_inode node with
  | None => Some (-1, node, f)
  | Some i =>
      let n := get_inode f i in
      if negb (has (i_flags n) VFS_FILE) then Some (-1, node, f)
      else
        let end_ := u32 (offset + size) in
        if TMPFS_MAX_FILE_SIZE <? end_ then Some (-1, node, f)
        else
          let copy node f :=
            let n := get_inode f i in
            (i32 size, node, set_mem f (memcpy (mem_of f) (i_data n + offset) buf size)) in
          if i_size n <? end_ then
            match bh_realloc fuel (f_heap f) (i_data n) end_ with
            | None => None
            | Some (newdata, h) =>
                let f := fs_heap f h in
                if newdata =? 0 then Some (-1, node, f)
                else
                  let f := if i_size n <? offset
                           then set_mem f (memset (mem_of f) (newdata + i_size n) 0 (u32 (offset - i_size n))) else f in
                  let f := set_inode f i (mk_inode (i_name n) (i_flags n) newdata end_ (i_children n) (i_used n)) in
                  let node := mk_node (n_name node) (n_flags node) (n_inode node) end_ (n_uid node) (n_gid node)
                                (n_mask node) (n_ops node) (n_ptr node) in
                  Some (copy node f)
            end
          else Some (copy node f)
  end.

Definition tmpfs_readdir (node : vfs_node) (index : Z) f : option vfs_node :=
  match node_to_inode node with
  | None => None
  | Some i =>
      let n := get_inode f i in
      if negb (has (i_flags n) VFS_DIR) then None
      else match i_children n !! Z.to_nat index with
           | Some c => Some (inode_to_node f c)
           | None => None
           end
  end.

Definition tmpfs_finddir (node : vfs_node) (name : string) f : option vfs_node :=
  match node_to_inode node with
  | None => None
  | Some i =>
      let n := get_inode f i in
      if negb (has (i_flags n) VFS_DIR) then None
      else match first_idx (fun c => String.eqb (i_name (get_inode f c)) name) (i_children n) with
           | Some k => Some (inode_to_node f (nth k (i_children n) 0))
           | None => None
           end
  end.

(** [tmpfs_mount]: [true] when the root node was set up in [node_pool[0]]. *)
Definition tmpfs_mount f : bool * fs_st H T :=
  match alloc_inode f with
  | (None, f) => (false, f)
  | (Some i, f) =>
      let n := get_inode f i in
      let f := set_inode f i (mk_inode "/" VFS_DIR (i_data n) (i_size n) (i_children n) (i_used n)) in
      (true, fs_node0 f (inode_to_node f i))
  end.

Definition tmpfs_create (parent : vfs_node) (name : string) (flags : Z) f : option Z * fs_st H T :=
  match node_to_inode parent with
  | None => (None, f)
  | Some p =>
      let pin := get_inode f p in
      if negb (has (i_flags pin) VFS_DIR) then (None, f)
      else if TMPFS_MAX_CHILDREN <=? Z.of_nat (length (i_children pin)) then (None, f)
      else match alloc_inode f with
           | (None, f) => (None, f)
           | (Some i, f) =>
               let n := get_inode f i in
               let f := set_inode f i (mk_inode (str_trunc 127 name) flags (i_data n) (i_size n) (i_children n) (i_used n)) in
               let pin := get_inode f p in
               (Some i, set_inode f p (mk_inode (i_name pin) (i_flags pin) (i_data pin) (i_size pin)
                                         (i_children pin ++ [i]) (i_used pin)))
           end
  end.

(** ** src/devfs/devfs.c *)

Definition null_read f : Z * fs_st H T := (0, f).
Definition null_write (size : Z) f : Z * fs_st H T := (i32 size, f).
Definition zero_read (size buf : Z) f : Z * fs_st H T := (i32 size, set_mem f (memset (mem_of f) buf 0 size)).

(** The operations of /dev/tty0: the driver's bytes go to [buf], its output comes
    from there. *)
Definition tty_ops_read (fuel : nat) (size buf : Z) f : option (Z * fs_st H T) :=
  if (buf =? 0) || (size =? 0) then Some (0, f)
  else match cd_read fuel size (f_tty f) with
       | None => None
       | Some (out, t) => Some (i32 (Z.of_nat (List.length out)), set_mem (fs_tty f t) (put (mem_of f) buf out))
       end.
Definition tty_ops_write (size buf : Z) f : Z * fs_st H T :=
  if buf =? 0 then (0, f)
  else (i32 size, fs_tty f (cd_write (bytes (Z.to_nat size) (mem_of f) buf) (f_tty f))).

Definition ops_set (n : vfs_node) (o : fs_ops) : vfs_node :=
  mk_node (n_name n) (n_flags n) (n_inode n) (n_size n) (n_uid n) (n_gid n) (n_mask n) (Some o) (n_ptr n).

(** [dev_finddir]: tmpfs look-up through the stashed table, then the device's table. *)
Definition dev_finddir (node : vfs_node) (name : string) f : option vfs_node :=
  match n_ptr node with
  | p_ops tmpfs_ops =>
      match tmpfs_finddir node name f with
      | None => None
      | Some out =>
          match first_idx (fun e => String.eqb (fst e) name) (dev_table f) with
          | Some k => match dev_table f !! k with Some (_, o) => Some (ops_set out o) | None => Some out end
          | None => Some out
          end
      end
  | _ => None
  end.

Definition devfs_register (name : string) (flags : Z) (ops : fs_ops) f : Z * fs_st H T :=
  if DEVFS_MAX_DEVICES <=? Z.of_nat (List.length (dev_table f)) then (-1, f)
  else match tmpfs_create (dev_dir f) name flags f with
       | (None, f) => (-1, f)
       | (Some _, f) => (0, fs_devs f (dev_table f ++ [(str_trunc 31 name, ops)]))
       end.

Definition devfs_get_node (name : string) f : option vfs_node :=
  match first_idx (fun e => String.eqb (fst e) name) (dev_table f) with
  | Some _ => dev_finddir (dev_dir f) name f
  | None => None
  end.

Definition devfs_init f : Z * fs_st H T :=
  let f := fs_devs f [] in
  if negb (vfs_root f) then (-1, f)
  else match tmpfs_create (node0 f) "dev" VFS_DIR f with
       | (None, f) => (-1, f)
       | (Some i, f) =>
           let n := inode_to_node f i in
           let n := mk_node (n_name n) (n_flags n) (n_inode n) (n_size n) (n_uid n) (n_gid n) (n_mask n)
                      (Some dev_dir_ops) (p_ops tmpfs_ops) in
           let f := fs_devdir f n in
           let '(_, f) := devfs_register "null" VFS_CHARDEV null_ops f in
           let '(_, f) := devfs_register "zero" VFS_CHARDEV zero_ops f in
           (0, f)
       end.

(** ** src/vfs/vfs.c *)

(** Calls through the tables. *)
Definition call_read (fuel : nat) (o : fs_ops) (node : vfs_node) (offset size buf : Z) f : option (Z * fs_st H T) :=
  match o with
  | tmpfs_ops | dev_dir_ops => Some (tmpfs_read node offset size buf f)
  | null_ops => Some (null_read f)
  | zero_ops => Some (zero_read size buf f)
  | tty_ops => tty_ops_read fuel size buf f
  end.
Definition call_write (fuel : nat) (o : fs_ops) (node : vfs_node) (offset size buf : Z) f :
    option (Z * vfs_node * fs_st H T) :=
  let keep r := let '(v, f) := r in Some (v, node, f) in
  match o with
  | tmpfs_ops | dev_dir_ops => tmpfs_write fuel node offset size buf f
  | null_ops | zero_ops => keep (null_write size f)
  | tty_ops => keep (tty_ops_write size buf f)
  end.
Definition call_finddir (o : fs_ops) : option (vfs_node -> string -> fs_st H T -> option vfs_node) :=
  match o with
  | tmpfs_ops => Some tmpfs_finddir
  | dev_dir_ops => Some dev_finddir
  | null_ops | zero_ops | tty_ops => None
  end.
Definition call_readdir (o : fs_ops) : option (vfs_node -> Z -> fs_st H T -> option vfs_node) :=
  match o with
  | tmpfs_ops | dev_dir_ops => Some tmpfs_readdir
  | null_ops | zero_ops | tty_ops => None
  end.

(** [(node->flags & VFS_MOUNTPOINT) ? node->ptr : node]; [None] when the pointer
    is not a node. *)
Definition target (node : vfs_node) f : option vfs_node :=
  if has (n_flags node) VFS_MOUNTPOINT then
    match n_ptr node with p_node0 => Some (node0 f) | _ => None end
  else Some node.

(** [None]: out of fuel, or a NULL dereference. *)
Definition vfs_read (fuel : nat) (node : vfs_node) (offset size buf : Z) f : option (Z * fs_st H T) :=
  match n_ops node with
  | None => Some (-1, f)
  | Some _ =>
      match target node f with
      | Some t => match n_ops t with Some o => call_read fuel o t offset size buf f | None => None end
      | None => None
      end
  end.

(** The node is updated in place: its new value is the second result. *)
Definition vfs_write (fuel : nat) (node : vfs_node) (offset size buf : Z) f : option (Z * vfs_node * fs_st H T) :=
  match n_ops node with
  | None => Some (-1, node, f)
  | Some _ =>
      match target node f with
      | Some t =>
          match n_ops t with
          | Some o =>
              match call_write fuel o t offset size buf f with
              | Some (r, t, f) =>
                  if has (n_flags node) VFS_MOUNTPOINT then Some (r, node, fs_node0 f t) else Some (r, t, f)
              | None => None
              end
          | None => None
          end
      | None => None
      end
  end.

(** [open] and [close] of the tables are NULL or do nothing. *)
Definition vfs_open (node : vfs_node) f : option Z :=
  match target node f with Some _ => Some 0 | None => None end.
Definition vfs_close (node : vfs_node) f : option (fs_st H T) :=
  match target node f with Some _ => Some f | None => None end.

(** [None] is a fault, [Some None] the result -1. *)
Definition vfs_readdir (node : vfs_node) (index : Z) f : option (option vfs_node) :=
  if negb (has (n_flags node) VFS_DIR) then Some None
  else match target node f with
       | Some t =>
           match n_ops t with
           | Some o => match call_readdir o with Some fn => Some (fn t index f) | None => Some None end
           | None => Some None
           end
       | None => None
       end.

Definition vfs_finddir (node : vfs_node) (name : string) f : option (option vfs_node) :=
  if negb (has (n_flags node) VFS_DIR) then Some None
  else match target node f with
       | Some t =>
           match n_ops t with
           | Some o => match call_finddir o with Some fn => Some (fn t name f) | None => Some None end
           | None => Some None
           end
       | None => None
       end.

Definition vfs_register_fs (b : filesystem) f : Z * fs_st H T :=
  if VFS_MAX_FS <=? Z.of_nat (List.length (fs_table f)) then (-1, f) else (0, fs_fstab f (fs_table f ++ [b])).

(** A mount on another path than "/" marks a copy of the directory's node, which
    is then dropped. *)
Definition vfs_mount (name path : string) f : option (Z * fs_st H T) :=
  match first_idx (fun b => String.eqb (fs_name b) name) (fs_table f) with
  | None => Some (-1, f)
  | Some _ =>
      let '(ok, f) := tmpfs_mount f in
      if negb ok then Some (-1, f)
      else if String.eqb path "/" then Some (0, fs_root f true)
      else if negb (vfs_root f) then Some (-1, f)
      else
        let dir := match path with
                   | String c rest => if Ascii.eqb c "/"%char then rest else path
                   | EmptyString => path
                   end in
        match vfs_finddir (node0 f) dir f with
        | None => None
        | Some None => Some (-1, f)
        | Some (Some _) => Some (0, f)
        end
  end.

(** Descriptors. *)
Definition fd_default : fd_entry := mk_fd (mk_node "" 0 0 0 0 0 0 None p_null) 0 false.
Definition get_fd f (fd : Z) : fd_entry := nth (Z.to_nat fd) (fd_table f) fd_default.
Definition set_fd f (fd : Z) (e : fd_entry) : fs_st H T := fs_fds f (<[Z.to_nat fd := e]> (fd_table f)).

Definition vfs_fd_open (node : vfs_node) f : option (Z * fs_st H T) :=
  match first_idx (fun e => negb (fd_open e)) (take 64 (fd_table f)) with
  | Some i =>
      let f := set_fd f (Z.of_nat i) (mk_fd node 0 true) in
      match vfs_open node f with Some _ => Some (Z.of_nat i, f) | None => None end
  | None => Some (-1, f)
  end.

Definition bad_fd f (fd : Z) : bool := (fd <? 0) || (VFS_MAX_FDS <=? fd) || negb (fd_open (get_fd f fd)).

(** [if (ret > 0) e->offset += ret;] *)
Definition advance (ret : Z) (e : fd_entry) : fd_entry :=
  if 0 <? ret then mk_fd (fd_node e) (u32 (fd_offset e + ret)) (fd_open e) else e.

Definition vfs_fd_read (fuel : nat) (fd size buf : Z) f : option (Z * fs_st H T) :=
  if bad_fd f fd then Some (-1, f)
  else
    let e := get_fd f fd in
    match vfs_read fuel (fd_node e) (fd_offset e) size buf f with
    | Some (ret, f) => Some (ret, set_fd f fd (advance ret (get_fd f fd)))
    | None => None
    end.

Definition vfs_fd_write (fuel : nat) (fd size buf : Z) f : option (Z * fs_st H T) :=
  if bad_fd f fd then Some (-1, f)
  else
    let e := get_fd f fd in
    match vfs_write fuel (fd_node e) (fd_offset e) size buf f with
    | Some (ret, node, f) =>
        let f := set_fd f fd (mk_fd node (fd_offset (get_fd f fd)) (fd_open (get_fd f fd))) in
        Some (ret, set_fd f fd (advance ret (get_fd f fd)))
    | None => None
    end.

Definition vfs_fd_close (fd : Z) f : option (fs_st H T) :=
  if bad_fd f fd then Some f
  else
    let e := get_fd f fd in
    match vfs_close (fd_node e) f with
    | Some f => Some (set_fd f fd (mk_fd (fd_node e) 0 false))
    | None => None
    end.

Definition vfs_init f : Z * fs_st H T :=
  (0, fs_fds (fs_root (fs_fstab f []) false) (map (fun e => mk_fd (fd_node e) 0 false) (fd_table f))).

Definition tmpfs_init f : option (Z * fs_st H T) :=
  let f := fs_pool f (map (fun n => mk_inode (i_name n) (i_flags n) (i_data n) (i_size n) (i_children n) false) (inode_pool f)) in
  let '(_, f) := vfs_register_fs tmpfs_fs f in
  match vfs_mount "tmpfs" "/" f with
  | Some (r, f) => if negb (r =? 0) then Some (-1, f) else Some (0, f)
  | None => None
  end.

(** [tty_init_impl] without the reset of the driver's buffers. *)
Definition tty_register f : Z * fs_st H T :=
  let '(r, f) := devfs_register "tty0" VFS_CHARDEV tty_ops f in
  if r <? 0 then (-1, f) else (0, f).
End fs.
