(* ===== verification/FsSpec.v ===== *)
(** * What the file system promises

    Theorems about Fs.v, against the heap interface [BlockHeapLaws]: files are
    byte strings of up to 2048 bytes (the largest block the heap gives correctly), [write]
    splices, unless memory is full, and [read] extracts, each file keeps its own bytes;
    descriptors of the terminal pass their bytes through; names created are found; devices registered are reached. *)

From Stdlib Require Import Ascii String.
From S2P Require Import Prelude Mem Pmm Vmm Heap BlockHeap Fs.
Open Scope Z_scope.

(** ** Abstract files *)

(** The bytes [data] written at position [off] of [c]; a gap is filled with zeros. *)
Definition splice (off : nat) (data c : list Z) : list Z :=
  take off (c ++ replicate (off - List.length c) 0) ++ data ++ drop (off + List.length data) c.

Lemma length_splice off data c : List.length (splice off data c) = Nat.max (List.length c) (off + List.length data).
Proof. unfold splice. rewrite !length_app, length_take, length_drop, length_app, length_replicate. lia. Qed.

Lemma splice_lookup off data c k : (k < Nat.max (List.length c) (off + List.length data))%nat ->
  splice off data c !! k =
    if (k <? off)%nat then (if (k <? List.length c)%nat then c !! k else Some 0)
    else if (k <? off + List.length data)%nat then data !! (k - off)%nat else c !! k.
Proof.
  intros Hk. unfold splice.
  assert (List.length (take off (c ++ replicate (off - List.length c) 0)) = off) as Hlen
    by (rewrite length_take, length_app, length_replicate; lia).
  destruct (Nat.ltb_spec k off).
  - rewrite lookup_app_l by lia. rewrite lookup_take_lt by lia. destruct (Nat.ltb_spec k (List.length c)).
    + by rewrite lookup_app_l.
    + rewrite lookup_app_r by lia. apply lookup_replicate. split; [done|lia].
  - rewrite lookup_app_r, Hlen by lia. destruct (Nat.ltb_spec k (off + List.length data)).
    + rewrite lookup_app_l by lia. done.
    + rewrite lookup_app_r by lia. rewrite lookup_drop. f_equal. lia.
Qed.

(** What a descriptor refers to: a regular file and the position, or the terminal. *)
Inductive adesc := d_file (i off : Z) | d_tty.
(** Files as byte strings, the descriptor table, the terminal. *)
Record afs (T : Type) := mk_afs { a_file : Z -> list Z; a_fd : list (option adesc); a_tty : T }.
Arguments mk_afs {T}. Arguments a_file {T}. Arguments a_fd {T}. Arguments a_tty {T}.

Section spec.
Context {H T : Type} `{!BlockHeap H} `{!BlockHeapLaws H} `{!CharDev T}.
Implicit Types (f : fs_st H T) (B : Z -> Z -> Prop).

(** The bytes of file [i]. *)
Definition content f (i : Z) : list Z := bytes (Z.to_nat (i_size (get_inode f i))) (mem_of f) (i_data (get_inode f i)).

Definition live_inode f (i : Z) : Prop := 0 <= i < 64 /\ i_used (get_inode f i) = true.

(** Well-formed files: every inode in use owns a block of the heap that holds its
    bytes, or is empty and owns none; no two own the same block. *)
Record fs_inv f B : Prop := {
  fi_heap : bh_ok (f_heap f) B;
  fi_pool : List.length (inode_pool f) = 64%nat;
  fi_data i : live_inode f i -> (i_data (get_inode f i) = 0 /\ i_size (get_inode f i) = 0) \/
    exists n, B (i_data (get_inode f i)) n /\ 0 <= i_size (get_inode f i) <= n;
  fi_sep i j : live_inode f i -> live_inode f j -> i <> j -> i_data (get_inode f i) <> 0 ->
    i_data (get_inode f i) <> i_data (get_inode f j)
}.

(** What is not a file's data. *)
Definition rest f := (f_tty f, node0 f, vfs_root f, fs_table f, fd_table f, dev_table f, dev_dir f).
Definition meta (n : tmpfs_inode) := (i_name n, i_flags n, i_children n, i_used n).

(** From [f] to [f'] only the data of file [i] changed (and memory outside the
    user's half). *)
Record only_file (i : Z) f f' : Prop := {
  of_rest : rest f' = rest f;
  of_meta j : 0 <= j -> meta (get_inode f' j) = meta (get_inode f j);
  of_inode j : 0 <= j < 64 -> j <> i -> get_inode f' j = get_inode f j;
  of_content j : live_inode f j -> j <> i -> content f' j = content f j;
  of_low a : a < KERNEL_VMA -> mem_of f' a = mem_of f a
}.

Lemma only_file_refl i f : only_file i f f.
Proof. done. Qed.
Lemma only_file_trans i f1 f2 f3 : only_file i f1 f2 -> only_file i f2 f3 -> only_file i f1 f3.
Proof.
  intros [R1 M1 I1 C1 L1] [R2 M2 I2 C2 L2]. split.
  - congruence.
  - intros j Hj. by rewrite M2, M1.
  - intros j Hj Hi. by rewrite I2, I1.
  - intros j Hj Hi. rewrite C2, C1; try done. destruct Hj as [Hj Hu]. split; [done|]. by rewrite I1.
  - intros a Ha. by rewrite L2, L1.
Qed.

Lemma get_set_inode f i n j : 0 <= i < 64 -> 0 <= j -> List.length (inode_pool f) = 64%nat ->
  get_inode (set_inode f i n) j = if decide (j = i) then n else get_inode f j.
Proof.
  intros Hi Hj Hl. unfold get_inode, set_inode, fs_pool; cbn [inode_pool]. rewrite !nth_lookup.
  case_decide as E.
  - subst. by rewrite list_lookup_insert_eq by lia.
  - by rewrite list_lookup_insert_ne by lia.
Qed.

Lemma fs_heap_id f : fs_heap f (f_heap f) = f.
Proof. by destruct f. Qed.

Lemma bytes_ext_at n m m' a a' : (forall d, 0 <= d < Z.of_nat n -> m' (a' + d) = m (a + d)) -> bytes n m' a' = bytes n m a.
Proof.
  intros E. apply list_eq. intros k. destruct (decide (k < n)%nat).
  - rewrite !lookup_bytes by done. f_equal. apply E. lia.
  - rewrite !lookup_ge_None_2; (done || rewrite length_bytes; lia).
Qed.

(** The bytes of one live inode's file are inside its block. *)
Lemma data_block f B i : fs_inv f B -> live_inode f i -> 0 < i_size (get_inode f i) ->
  exists n, B (i_data (get_inode f i)) n /\ i_size (get_inode f i) <= n.
Proof. intros Hinv Hi Hs. destruct (fi_data _ _ Hinv i Hi) as [[_ ?]|(n & ? & ?)]; [lia|]. exists n. split; [done|lia]. Qed.

(** Storing bytes inside file [i]. *)
Lemma store_ok f B i off size buf : fs_inv f B -> live_inode f i -> 0 <= off -> 0 <= size ->
  off + size <= i_size (get_inode f i) -> buf + size <= KERNEL_VMA ->
  let f' := set_mem f (memcpy (mem_of f) (i_data (get_inode f i) + off) buf size) in
  fs_inv f' B /\ only_file i f f' /\
  forall d, 0 <= d < i_size (get_inode f i) ->
    mem_of f' (i_data (get_inode f i) + d) =
      if (off <=? d) && (d <? off + size) then mem_of f (buf + (d - off)) else mem_of f (i_data (get_inode f i) + d).
Proof.
  intros Hinv Hi Ho Hs He Hb f'. set (p := i_data (get_inode f i)) in *. pose proof Hinv as [Hh Hp Hd Hsep].
  destruct (decide (i_size (get_inode f i) = 0)) as [E0|Hne].
  { assert (f' = set_mem f (mem_of f)) as -> by (unfold f'; replace size with 0 by lia; done).
    unfold set_mem, mem_of.
    split; [|split].
    - split; try done. by apply bh_write; [..|]; eauto using bh_bytes.
    - split; try done; intros; unfold content, mem_of; cbn [f_heap fs_heap]; by rewrite ?bh_mem_set.
    - intros; lia. }
  destruct (data_block f B i Hinv Hi) as (n & Hn & Hle).
  { destruct (Hd i Hi) as [[_ ?]|(? & _ & ?)]; lia. }
  fold p in Hn. destruct (bh_pos _ _ _ _ Hh Hn) as (Hk & _).
  assert (forall a, mem_of f' a = if (p + off <=? a) && (a <? p + off + size) then mem_of f (buf + (a - (p + off))) else mem_of f a) as Hm.
  { intros a. unfold f', mem_of, set_mem, fs_heap; cbn [f_heap]. rewrite bh_mem_set. apply memcpy_spec; lia. }
  assert (forall a, ~ (p <= a < p + n) -> mem_of f' a = mem_of f a) as Hout.
  { intros a Ha. rewrite Hm. destruct (Z.leb_spec (p + off) a); [|done]. destruct (Z.ltb_spec a (p + off + size)); [lia|done]. }
  assert (forall j, live_inode f j -> j <> i -> content f' j = content f j) as Hc.
  { intros j Hj Hji. unfold content. change (get_inode f' j) with (get_inode f j).
    apply bytes_ext_at. intros d Hdd. apply Hout.
    destruct (Hd j Hj) as [[_ ?]|(k & Hkb & Hks)]; [lia|].
    assert (p <> 0) as Hp0 by (unfold KERNEL_VMA in Hk; lia).
    pose proof (bh_disj _ _ _ _ _ _ Hh Hn Hkb (Hsep i j Hi Hj ltac:(done) Hp0)). lia. }
  split; [|split].
  - split; try done. apply bh_write; [done|apply memcpy_bytes_ok; by eapply bh_bytes|].
    intros a _ Ha. pose proof (Hout a) as Ho'. unfold f', mem_of, set_mem, fs_heap in Ho'; cbn [f_heap] in Ho'.
    rewrite bh_mem_set in Ho'. apply Ho'. intros Hin. apply Ha. by exists p, n.
  - split; try done. intros a Ha. apply Hout. lia.
  - intros d Hdr. rewrite Hm. replace (p + d - (p + off)) with (d - off) by lia.
    destruct (Z.leb_spec (p + off) (p + d)), (Z.leb_spec off d), (Z.ltb_spec (p + d) (p + off + size)), (Z.ltb_spec d (off + size));
      (done || lia).
Qed.

(** The state after [krealloc], the zeroing of the gap and the update of the inode. *)
Definition grown f (h : H) (i q off end_ : Z) : fs_st H T :=
  let n := get_inode f i in
  let f := fs_heap f h in
  let f := if i_size n <? off
           then set_mem f (memset (mem_of f) (q + i_size n) 0 (u32 (off - i_size n))) else f in
  set_inode f i (mk_inode (i_name n) (i_flags n) q end_ (i_children n) (i_used n)).

Definition grown_mem f (h : H) (i q off : Z) : mem := fun a =>
  if (q + i_size (get_inode f i) <=? a) && (a <? q + off) then 0 else bh_mem h a.

Lemma mem_of_grown f h i q off end_ : 0 <= i_size (get_inode f i) -> off < 2 ^ 32 ->
  forall a, mem_of (grown f h i q off end_) a = grown_mem f h i q off a.
Proof.
  intros Hz Ho a. unfold grown, grown_mem. set (z := i_size (get_inode f i)) in *.
  destruct (Z.ltb_spec z off) as [Hlt|Hge].
  - unfold set_inode, fs_pool, set_mem, fs_heap, mem_of; cbn [f_heap]. rewrite bh_mem_set.
    unfold u32. rewrite Z.mod_small by lia. rewrite memset_spec by lia.
    replace (q + z + (off - z)) with (q + off) by lia. done.
  - unfold set_inode, fs_pool, fs_heap, mem_of; cbn [f_heap].
    destruct (Z.leb_spec (q + z) a); [|done]. destruct (Z.ltb_spec a (q + off)); [lia|done].
Qed.

Lemma grown_fields f h i q off end_ : rest (grown f h i q off end_) = rest f /\
  inode_pool (grown f h i q off end_) =
    <[Z.to_nat i := mk_inode (i_name (get_inode f i)) (i_flags (get_inode f i)) q end_ (i_children (get_inode f i))
                     (i_used (get_inode f i))]> (inode_pool f).
Proof. unfold grown. by destruct (_ <? _). Qed.

Lemma grown_inode f h i q off end_ j : 0 <= i < 64 -> 0 <= j -> List.length (inode_pool f) = 64%nat ->
  get_inode (grown f h i q off end_) j =
    if decide (j = i) then mk_inode (i_name (get_inode f i)) (i_flags (get_inode f i)) q end_ (i_children (get_inode f i))
                             (i_used (get_inode f i)) else get_inode f j.
Proof.
  intros Hi Hj Hl. rewrite <-(get_set_inode f i _ j Hi Hj Hl). unfold get_inode at 1.
  by rewrite (proj2 (grown_fields f h i q off end_)).
Qed.

Lemma grown_heap_ok f B h i q off end_ : bh_ok h B -> 0 <= i_size (get_inode f i) -> 0 <= off < 2 ^ 32 ->
  (exists n, B q n /\ off <= n) -> bh_ok (f_heap (grown f h i q off end_)) B.
Proof.
  intros Hh Hz Ho (n & Hn & Hle). set (z := i_size (get_inode f i)) in *. unfold grown. fold z.
  destruct (Z.ltb_spec z off); [|done]. unfold set_inode, fs_pool, set_mem, fs_heap, mem_of; cbn [f_heap].
  apply bh_write; [done|apply memset_bytes_ok; by eapply bh_bytes|]. intros a _ Ha.
  unfold u32. rewrite Z.mod_small by lia. rewrite memset_spec by lia.
  destruct (Z.leb_spec (q + z) a); [|done]. destruct (Z.ltb_spec a (q + z + (off - z))); [|done].
  destruct Ha. exists q, n. split; [done|lia].
Qed.

(** Growing file [i] to [end_] bytes when [krealloc] succeeded. *)
Lemma grow_ok f B h i q off end_ : fs_inv f B -> live_inode f i -> 0 <= off <= end_ -> i_size (get_inode f i) < end_ ->
  end_ <= 2048 -> realloc_post (f_heap f) B (i_data (get_inode f i)) end_ q h -> q <> 0 ->
  let f' := grown f h i q off end_ in
  (exists B', fs_inv f' B') /\ only_file i f f' /\ live_inode f' i /\
  get_inode f' i = mk_inode (i_name (get_inode f i)) (i_flags (get_inode f i)) q end_ (i_children (get_inode f i)) true /\
  forall d, 0 <= d < Z.max off (i_size (get_inode f i)) ->
    mem_of f' (q + d) = if d <? i_size (get_inode f i) then mem_of f (i_data (get_inode f i) + d) else 0.
Proof.
  intros Hinv Hi Ho He Hb Hr Hq f'. pose proof Hinv as [Hh Hp Hd Hsep]. pose proof Hi as [Hi64 Hu].
  set (n := get_inode f i) in *. set (p := i_data n) in *. set (z := i_size n) in *.
  destruct Hr as [[? _]|(B' & n' & Hh' & Hq' & Hsz & _ & HB' & Hfresh & Hcp & Hoth & Hlow)]; [done|].
  assert (0 <= z) as Hz by (destruct (Hd i Hi) as [[_ ?]|(? & _ & ?)]; unfold z, n; lia).
  destruct (bh_pos _ _ _ _ Hh' Hq') as (Hk & _ & Hq64).
  assert (forall a, mem_of f' a = if (q + z <=? a) && (a <? q + off) then 0 else bh_mem h a) as Hm
    by (exact (mem_of_grown f h i q off end_ Hz ltac:(lia))).
  assert (forall a, ~ (q <= a < q + n') -> mem_of f' a = bh_mem h a) as Hout.
  { intros a Ha. rewrite Hm. destruct (Z.leb_spec (q + z) a); [|done]. destruct (Z.ltb_spec a (q + off)); [lia|done]. }
  assert (forall j, 0 <= j -> get_inode f' j =
     if decide (j = i) then mk_inode (i_name n) (i_flags n) q end_ (i_children n) (i_used n) else get_inode f j) as Hg
    by (intros; by apply grown_inode).
  assert (forall j, live_inode f' j <-> live_inode f j) as Hlive.
  { intros j. split; intros [Hj Hju]; (split; [done|]); rewrite Hg in * by lia; case_decide; simplify_eq/=; done. }
  (* the block of another live inode survives *)
  assert (forall j k, live_inode f j -> j <> i -> B (i_data (get_inode f j)) k ->
    i_data (get_inode f j) <> p /\ i_data (get_inode f j) <> q /\ B' (i_data (get_inode f j)) k) as Hkeep.
  { intros j k Hj Hji Hk'. destruct (bh_pos _ _ _ _ Hh Hk') as (HkV & _).
    assert (i_data (get_inode f j) <> p) as Hne.
    { apply (Hsep j i Hj Hi Hji). unfold KERNEL_VMA in HkV. lia. }
    assert (i_data (get_inode f j) <> q) as Hneq.
    { intros E. rewrite E in Hk', Hne. by apply Hne, (Hfresh k). }
    split; [done|]. split; [done|]. by apply HB'. }
  assert (forall j, live_inode f j -> j <> i -> content f' j = content f j) as Hc.
  { intros j Hj Hji. unfold content. rewrite Hg by (destruct Hj; lia). rewrite decide_False by done.
    apply bytes_ext_at. intros d Hdd. destruct (Hd j Hj) as [[_ ?]|(k & Hkb & Hks)]; [lia|].
    destruct (Hkeep j k Hj Hji Hkb) as (H1 & H2 & H3).
    pose proof (bh_disj _ _ _ _ _ _ Hh' Hq' H3 ltac:(done)) as Hdis. rewrite Hout by lia.
    by apply (Hoth _ k); [..|lia]. }
  split; [exists B'; split|split; [split|split; [by apply Hlive|split]]].
  - apply grown_heap_ok; fold n z; try done; [lia|]. exists n'. split; [done|lia].
  - unfold f'. rewrite (proj2 (grown_fields f h i q off end_)). by rewrite length_insert.
  - intros j Hj%Hlive. rewrite Hg by (destruct Hj; lia). case_decide as E; cbn.
    + right. exists n'. split; [done|lia].
    + destruct (Hd j Hj) as [?|(k & Hkb & Hks)]; [by left|right]. exists k. by split; [apply (Hkeep j k)|].
  - intros j1 j2 H1%Hlive H2%Hlive Hne. rewrite !Hg by (destruct H1, H2; lia). repeat case_decide; subst; cbn; try done.
    + intros _ E. destruct (Hd j2 H2) as [[? _]|(k & Hkb & Hks)]; [lia|]. by destruct (Hkeep j2 k H2 ltac:(done) Hkb) as (_ & ? & _).
    + intros Hn0 E. destruct (Hd j1 H1) as [[? _]|(k & Hkb & Hks)]; [lia|]. by destruct (Hkeep j1 k H1 ltac:(done) Hkb) as (_ & ? & _).
    + by apply Hsep.
  - apply grown_fields.
  - intros j Hj. rewrite Hg by lia. case_decide; [by subst|done].
  - intros j Hj Hji. rewrite Hg by lia. by rewrite decide_False.
  - done.
  - intros a Ha. rewrite Hout by lia. by apply Hlow.
  - rewrite Hg by lia. rewrite decide_True by done. by rewrite Hu.
  - intros d Hdr. rewrite Hm.
    assert (d < z -> bh_mem h (q + d) = mem_of f (p + d)) as Hold.
    { intros Hdz. destruct (Hd i Hi) as [[_ E]|(k & Hkb & Hks)]; [fold n z in E; lia|].
      apply (Hcp k d); [done|]. fold n z in Hks. lia. }
    destruct (Z.leb_spec (q + z) (q + d)), (Z.ltb_spec d z), (Z.ltb_spec (q + d) (q + off)); (lia || done || by apply Hold).
Qed.

(** A node of a regular file in use. *)
Definition file_node f (node : vfs_node) : Prop :=
  live_inode f (n_inode node) /\ has (i_flags (get_inode f (n_inode node))) VFS_FILE = true.

Definition set_n_size (node : vfs_node) (z : Z) : vfs_node :=
  mk_node (n_name node) (n_flags node) (n_inode node) z (n_uid node) (n_gid node) (n_mask node) (n_ops node) (n_ptr node).

Lemma node_inode f node : live_inode f (n_inode node) -> node_to_inode node = Some (n_inode node).
Proof. intros [? _]. unfold node_to_inode, TMPFS_MAX_NODES. by destruct (Z.leb_spec 64 (n_inode node)); [lia|]. Qed.

Lemma i32_id x : 0 <= x < 2 ^ 31 -> i32 x = x.
Proof. intros Hx. unfold i32, sint. rewrite Z.mod_small by lia. destruct (Z.ltb_spec x (2 ^ (32 - 1))); lia. Qed.

Lemma length_content f i : List.length (content f i) = Z.to_nat (i_size (get_inode f i)).
Proof. apply length_bytes. Qed.
Lemma size_nonneg f B i : fs_inv f B -> live_inode f i -> 0 <= i_size (get_inode f i).
Proof. intros Hinv Hi. destruct (fi_data _ _ Hinv i Hi) as [[_ ->]|(? & _ & ?)]; lia. Qed.

(** [f'] has the file of [f] with [data] spliced in at [off], when its bytes are
    those of the growth and of the store. *)
Lemma content_splice f f' i off size buf : 0 <= off -> 0 <= size -> 0 <= i_size (get_inode f i) ->
  i_size (get_inode f' i) = Z.max (i_size (get_inode f i)) (off + size) ->
  (forall d, 0 <= d < i_size (get_inode f' i) -> mem_of f' (i_data (get_inode f' i) + d) =
     if (off <=? d) && (d <? off + size) then mem_of f (buf + (d - off))
     else if d <? i_size (get_inode f i) then mem_of f (i_data (get_inode f i) + d) else 0) ->
  content f' i = splice (Z.to_nat off) (bytes (Z.to_nat size) (mem_of f) buf) (content f i).
Proof.
  intros Ho Hs Hz Hz' Hm. set (z := i_size (get_inode f i)) in *. apply list_eq. intros k.
  assert (List.length (splice (Z.to_nat off) (bytes (Z.to_nat size) (mem_of f) buf) (content f i)) =
    Z.to_nat (i_size (get_inode f' i))) as Hlen.
  { rewrite length_splice, length_bytes, length_content, Hz'. fold z. lia. }
  destruct (decide (k < Z.to_nat (i_size (get_inode f' i)))%nat) as [Hk|Hk].
  2: { rewrite !lookup_ge_None_2; [done|lia|rewrite length_content; lia]. }
  rewrite splice_lookup by (rewrite length_splice in Hlen; lia).
  unfold content at 1. rewrite lookup_bytes by done. rewrite Hm by lia. rewrite length_content, length_bytes. fold z.
  destruct (Nat.ltb_spec k (Z.to_nat off)); destruct (Z.leb_spec off (Z.of_nat k)); try lia; cbn [andb].
  - destruct (Nat.ltb_spec k (Z.to_nat z)), (Z.ltb_spec (Z.of_nat k) z); try lia; [|done].
    unfold content. rewrite lookup_bytes by lia. done.
  - destruct (Nat.ltb_spec k (Z.to_nat off + Z.to_nat size)), (Z.ltb_spec (Z.of_nat k) (off + size)); try lia.
    + rewrite lookup_bytes by lia. do 2 f_equal. lia.
    + destruct (Z.ltb_spec (Z.of_nat k) z); [|lia]. unfold content. rewrite lookup_bytes by lia. done.
Qed.

(** What a successful write of [size] bytes from [buf] at [off] does to file [i]. *)
Definition written i off size buf f f' : Prop :=
  (exists B', fs_inv f' B') /\ only_file i f f' /\
  content f' i = splice (Z.to_nat off) (bytes (Z.to_nat size) (mem_of f) buf) (content f i).

Lemma write_inplace f B i off size buf : fs_inv f B -> live_inode f i -> 0 <= off -> 0 <= size ->
  off + size <= i_size (get_inode f i) -> buf + size <= KERNEL_VMA ->
  written i off size buf f (set_mem f (memcpy (mem_of f) (i_data (get_inode f i) + off) buf size)).
Proof.
  intros Hinv Hi Ho Hs He Hb. destruct (store_ok f B i off size buf) as (H1 & H2 & H3); try done.
  split; [by exists B|]. split; [done|]. apply content_splice; try done.
  - by eapply size_nonneg.
  - change (get_inode (set_mem _ _) i) with (get_inode f i). lia.
  - intros d Hd. change (get_inode (set_mem _ _) i) with (get_inode f i) in *. rewrite H3 by done.
    destruct (Z.ltb_spec d (i_size (get_inode f i))); [done|lia].
Qed.

Lemma write_grow f B h i q off size buf : fs_inv f B -> live_inode f i -> 0 <= off -> 0 <= size ->
  i_size (get_inode f i) < off + size <= 2048 -> buf + size <= KERNEL_VMA ->
  realloc_post (f_heap f) B (i_data (get_inode f i)) (off + size) q h -> q <> 0 ->
  let g := grown f h i q off (off + size) in
  written i off size buf f (set_mem g (memcpy (mem_of g) (i_data (get_inode g i) + off) buf size)).
Proof.
  intros Hinv Hi Ho Hs He Hb Hr Hq g.
  destruct (grow_ok f B h i q off (off + size)) as ((B' & Hg) & Hof & Hgi & Hgn & Hgm); try done; [lia..|]. fold g in Hg, Hof, Hgi, Hgn, Hgm.
  pose proof (size_nonneg f B i Hinv Hi) as Hz.
  destruct (store_ok g B' i off size buf) as (H1 & H2 & H3); try done; [rewrite Hgn; cbn; lia|].
  split; [by exists B'|]. split; [by eapply only_file_trans|].
  apply content_splice; try done; change (get_inode (set_mem _ _) i) with (get_inode g i).
  - rewrite Hgn. cbn. lia.
  - intros d Hd. rewrite H3 by done. rewrite Hgn in *. cbn in Hd. cbn [i_data].
    destruct (Z.leb_spec off d); [|cbn [andb]; rewrite Hgm by lia; done].
    destruct (Z.ltb_spec d (off + size)); cbn [andb]; [|lia]. apply (of_low _ _ _ Hof). lia.
Qed.

(** [tmpfs_write] returns, with enough fuel, the size written, or -1 when the heap
    is exhausted and nothing changed. *)
Lemma tmpfs_write_spec f B node off size buf : fs_inv f B -> file_node f node -> 0 <= off -> 0 <= size ->
  off + size <= 2048 -> buf + size <= KERNEL_VMA ->
  exists k0, forall fuel, (k0 <= fuel)%nat -> exists r node' f', tmpfs_write fuel node off size buf f = Some (r, node', f') /\
    ((r = -1 /\ node' = node /\ f' = f /\ bh_full (f_heap f)) \/
     (r = size /\ (exists z, node' = set_n_size node z) /\ written (n_inode node) off size buf f f')).
Proof.
  intros Hinv [Hi Hf] Ho Hs He Hb. set (i := n_inode node) in *. pose proof (size_nonneg f B i Hinv Hi) as Hz.
  unfold tmpfs_write. rewrite (node_inode f node Hi). fold i. rewrite Hf. cbn [negb].
  unfold u32. rewrite (Z.mod_small (off + size)) by lia.
  destruct (Z.ltb_spec TMPFS_MAX_FILE_SIZE (off + size)) as [Hmax|_]; [unfold TMPFS_MAX_FILE_SIZE in Hmax; lia|].
  rewrite i32_id by lia.
  destruct (Z.ltb_spec (i_size (get_inode f i)) (off + size)) as [Hg|Hg].
  2: { exists O. intros fuel _. do 3 eexists. split; [reflexivity|]. right. split; [done|]. split; [exists (n_size node); by destruct node|].
       by apply (write_inplace f B). }
  destruct (bh_realloc_ok (f_heap f) B (i_data (get_inode f i)) (off + size)) as [k0 Hk0].
  { apply Hinv. } { destruct (fi_data _ _ Hinv i Hi) as [[? _]|(n & ? & _)]; [by left|right; by exists n]. } { lia. }
  exists k0. intros fuel Hfu. destruct (Hk0 fuel Hfu) as (q & h & -> & Hpost).
  destruct (Z.eqb_spec q 0) as [->|Hq].
  - do 3 eexists. split; [reflexivity|]. left. split; [done|]. split; [done|].
    destruct Hpost as [(_ & -> & Hfull)|(B' & n' & _ & _ & _ & ? & _)]; [by rewrite fs_heap_id|done].
  - do 3 eexists. split; [reflexivity|]. right. split; [done|]. split; [by eexists|]. by eapply write_grow.
Qed.

(** Writing user memory leaves the files alone. *)
Lemma user_write_ok f B m : fs_inv f B -> bytes_ok m -> (forall a, KERNEL_VMA <= a -> m a = mem_of f a) ->
  fs_inv (set_mem f m) B /\ forall j, live_inode f j -> content (set_mem f m) j = content f j.
Proof.
  intros Hinv Hm Ho. pose proof Hinv as [Hh Hp Hd Hsep]. split.
  - split; try done. apply bh_write; [done..|]. intros a Ha _. by apply Ho.
  - intros j Hj. unfold content. change (get_inode (set_mem f m) j) with (get_inode f j). apply bytes_ext_at.
    intros d Hdd. unfold mem_of, set_mem, fs_heap; cbn [f_heap]. rewrite bh_mem_set. apply Ho.
    destruct (Hd j Hj) as [[_ ?]|(n & Hn & _)]; [lia|]. destruct (bh_pos _ _ _ _ Hh Hn). lia.
Qed.

(** What a read of [data] into [buf] does: the bytes are there, no other byte of
    memory and no file changed. *)
Definition delivered (data : list Z) buf f f' : Prop :=
  (exists B, fs_inv f' B) /\ inode_pool f' = inode_pool f /\
  bytes (List.length data) (mem_of f') buf = data /\
  (forall a, ~ (buf <= a < buf + Z.of_nat (List.length data)) -> mem_of f' a = mem_of f a) /\
  forall j, live_inode f j -> content f' j = content f j.

(** [tmpfs_read] stores the bytes of the file from [off], at most [size], at [buf]. *)
Lemma tmpfs_read_spec f B node off size buf : fs_inv f B -> file_node f node -> 0 <= off -> 0 <= size ->
  i_size (get_inode f (n_inode node)) < 2 ^ 31 -> buf + size <= KERNEL_VMA ->
  let data := take (Z.to_nat size) (drop (Z.to_nat off) (content f (n_inode node))) in
  let r := tmpfs_read node off size buf f in
  fst r = Z.of_nat (List.length data) /\ rest (snd r) = rest f /\ delivered data buf f (snd r).
Proof.
  intros Hinv [Hi Hf] Ho Hs Hz Hb data r. set (i := n_inode node) in *. pose proof (size_nonneg f B i Hinv Hi) as Hz0.
  assert (List.length data = Z.to_nat (Z.min size (i_size (get_inode f i) - off))) as Hlen.
  { unfold data. rewrite length_take, length_drop, length_content. lia. }
  unfold r, tmpfs_read. rewrite (node_inode f node Hi). fold i. rewrite Hf. cbn [negb].
  destruct (Z.leb_spec (i_size (get_inode f i)) off) as [Hle|Hlt].
  { cbn [fst snd]. rewrite Hlen. split; [lia|]. split; [done|]. split; [by exists B|]. split; [done|].
    split; [|done]. destruct data; [done|cbn in Hlen; lia]. }
  unfold u32. rewrite (Z.mod_small (_ - off)) by lia. set (avail := i_size (get_inode f i) - off) in *.
  assert ((if size <? avail then size else avail) = Z.min size avail) as -> by (destruct (Z.ltb_spec size avail); lia).
  set (k := Z.min size avail) in *. cbn [fst snd]. rewrite i32_id by lia.
  destruct (data_block f B i Hinv Hi ltac:(lia)) as (n & Hn & Hle). set (p := i_data (get_inode f i)) in *.
  destruct (bh_pos _ _ _ _ (fi_heap _ _ Hinv) Hn) as (Hk & _).
  set (m := memcpy (mem_of f) buf (p + off) k).
  assert (forall a, m a = if (buf <=? a) && (a <? buf + k) then mem_of f (p + off + (a - buf)) else mem_of f a) as Hm
    by (intros a; apply memcpy_spec; lia).
  assert (forall a, ~ (buf <= a < buf + k) -> m a = mem_of f a) as Hout.
  { intros a Ha. rewrite Hm. destruct (Z.leb_spec buf a); [|done]. destruct (Z.ltb_spec a (buf + k)); [lia|done]. }
  destruct (user_write_ok f B m Hinv) as [H1 H2].
  { apply memcpy_bytes_ok, (bh_bytes _ B), Hinv. } { intros a Ha. apply Hout. lia. }
  split; [lia|]. split; [done|]. split; [by exists B|]. split; [done|].
  assert (mem_of (set_mem f m) = m) as Em by (apply bh_mem_set). rewrite Em, Hlen.
  split; [|split; [|done]].
  2: { intros a Ha. apply Hout. lia. }
  apply list_eq. intros j. destruct (decide (j < Z.to_nat k)%nat).
  2: { rewrite !lookup_ge_None_2; [done|lia|rewrite length_bytes; lia]. }
  rewrite lookup_bytes by done. rewrite Hm. unfold data. rewrite lookup_take_lt by lia. rewrite lookup_drop.
  unfold content. rewrite lookup_bytes by lia.
  destruct (Z.leb_spec buf (buf + Z.of_nat j)); [|lia]. destruct (Z.ltb_spec (buf + Z.of_nat j) (buf + k)); [|lia].
  cbn [andb]. do 2 f_equal. fold p. lia.
Qed.

(** ** Requests on descriptors, and their specification *)

Inductive fs_req := rq_open (i : Z) | rq_write (fd : Z) (data : list Z) | rq_read (fd n : Z) | rq_close (fd : Z).
Inductive fs_res := rs_fail | rs_fd (fd : Z) | rs_count (n : Z) | rs_data (data : list Z) | rs_none.

(** A request of a program whose buffer is at [buf]. *)
Definition do_req (fuel : nat) (buf : Z) (r : fs_req) f : option (fs_res * fs_st H T) :=
  match r with
  | rq_open i =>
      match vfs_fd_open (inode_to_node f i) f with
      | Some (fd, f) => Some (if fd <? 0 then rs_fail else rs_fd fd, f)
      | None => None
      end
  | rq_write fd data =>
      let f := set_mem f (put (mem_of f) buf data) in
      match vfs_fd_write fuel fd (Z.of_nat (List.length data)) buf f with
      | Some (n, f) => Some (if n <? 0 then rs_fail else rs_count n, f)
      | None => None
      end
  | rq_read fd n =>
      match vfs_fd_read fuel fd n buf f with
      | Some (n, f) => Some (if n <? 0 then rs_fail else rs_data (bytes (Z.to_nat n) (mem_of f) buf), f)
      | None => None
      end
  | rq_close fd => match vfs_fd_close fd f with Some f => Some (rs_none, f) | None => None end
  end.

Implicit Types a : afs T.
Definition a_desc a (fd : Z) : option adesc := if fd <? 0 then None else mjoin (a_fd a !! Z.to_nat fd).
Definition a_set a (fd : Z) (d : option adesc) : afs T := mk_afs (a_file a) (<[Z.to_nat fd := d]> (a_fd a)) (a_tty a).
Definition a_write a (i : Z) (c : list Z) : afs T :=
  mk_afs (fun j => if decide (j = i) then c else a_file a j) (a_fd a) (a_tty a).
Definition a_term a (t : T) : afs T := mk_afs (a_file a) (a_fd a) t.

(** The specification; [full] says that there is no memory left, the only reason for a
    write to a file to fail. *)
Inductive spec_step (full : Prop) a : fs_req -> fs_res -> afs T -> Prop :=
  | sp_open i fd : first_idx (fun d : option adesc => negb (bool_decide (is_Some d))) (a_fd a) = Some fd ->
      spec_step full a (rq_open i) (rs_fd (Z.of_nat fd)) (a_set a (Z.of_nat fd) (Some (d_file i 0)))
  | sp_open_full i : Forall is_Some (a_fd a) -> spec_step full a (rq_open i) rs_fail a
  | sp_write fd data i off : a_desc a fd = Some (d_file i off) ->
      spec_step full a (rq_write fd data) (rs_count (Z.of_nat (List.length data)))
        (a_set (a_write a i (splice (Z.to_nat off) data (a_file a i))) fd (Some (d_file i (off + Z.of_nat (List.length data)))))
  | sp_write_nomem fd data : full -> a_desc a fd <> None -> spec_step full a (rq_write fd data) rs_fail a
  | sp_write_bad fd data : a_desc a fd = None -> spec_step full a (rq_write fd data) rs_fail a
  | sp_write_tty fd data : a_desc a fd = Some d_tty ->
      spec_step full a (rq_write fd data) (rs_count (Z.of_nat (List.length data))) (a_term a (cd_write data (a_tty a)))
  | sp_read fd n i off data : a_desc a fd = Some (d_file i off) ->
      data = take (Z.to_nat n) (drop (Z.to_nat off) (a_file a i)) ->
      spec_step full a (rq_read fd n) (rs_data data) (a_set a fd (Some (d_file i (off + Z.of_nat (List.length data)))))
  | sp_read_tty fd n fuel out t : a_desc a fd = Some d_tty -> n <> 0 -> cd_read fuel n (a_tty a) = Some (out, t) ->
      spec_step full a (rq_read fd n) (rs_data out) (a_term a t)
  | sp_read_tty_none fd : a_desc a fd = Some d_tty -> spec_step full a (rq_read fd 0) (rs_data []) a
  | sp_read_bad fd n : a_desc a fd = None -> spec_step full a (rq_read fd n) rs_fail a
  | sp_close fd : spec_step full a (rq_close fd) rs_none (if decide (a_desc a fd = None) then a else a_set a fd None).

(** A descriptor entry of a regular tmpfs file at a position of at most 2048, one of the
    terminal, or a closed one. *)
Definition desc_ok f (e : fd_entry) (d : option adesc) : Prop :=
  match d with
  | None => fd_open e = false
  | Some (d_file i off) =>
      fd_open e = true /\ fd_offset e = off /\ 0 <= off <= 2048 /\ n_inode (fd_node e) = i /\ file_node f (fd_node e) /\
      n_ops (fd_node e) = Some tmpfs_ops /\ has (n_flags (fd_node e)) VFS_MOUNTPOINT = false
  | Some d_tty => fd_open e = true /\ n_ops (fd_node e) = Some tty_ops /\ has (n_flags (fd_node e)) VFS_MOUNTPOINT = false
  end.

Record fs_rel f a : Prop := {
  fr_inv : exists B, fs_inv f B;
  fr_file i : live_inode f i -> a_file a i = content f i /\ (List.length (content f i) <= 2048)%nat;
  fr_fds : List.length (fd_table f) = 64%nat;
  fr_desc : Forall2 (desc_ok f) (fd_table f) (a_fd a);
  fr_tty : a_tty a = f_tty f
}.

(** The limits of the theorem: a write does not go beyond byte 2048 of a file
    (TMPFS_MAX_FILE_SIZE is 65536, but [krealloc] is right up to 2048 bytes), the
    program's buffer is in the user half, files opened are regular files in use, and a
    read of the terminal ends (the line comes). *)
Definition req_ok f a (buf : Z) (r : fs_req) : Prop :=
  match r with
  | rq_open i => live_inode f i /\ has (i_flags (get_inode f i)) VFS_FILE = true /\
      has (i_flags (get_inode f i)) VFS_MOUNTPOINT = false
  | rq_write fd data => Forall (fun b => 0 <= b < 2 ^ 8) data /\ buf + Z.of_nat (List.length data) <= KERNEL_VMA /\
      (forall i off, a_desc a fd = Some (d_file i off) -> off + Z.of_nat (List.length data) <= 2048) /\
      (a_desc a fd = Some d_tty -> 0 < buf /\ Z.of_nat (List.length data) < 2 ^ 31)
  | rq_read fd n => 0 <= n < 2 ^ 32 /\ buf + n <= KERNEL_VMA /\
      (a_desc a fd = Some d_tty -> 0 < buf /\ exists k0 out t, (forall fuel, (k0 <= fuel)%nat -> cd_read fuel n (a_tty a) = Some (out, t)) /\
         Forall (fun b => 0 <= b < 2 ^ 8) out /\ Z.of_nat (List.length out) <= Z.min n (2 ^ 31 - 1))
  | rq_close fd => True
  end.

(** *** Frame lemmas *)

Lemma live_ext f f' : inode_pool f' = inode_pool f -> forall i, live_inode f' i <-> live_inode f i.
Proof. intros E i. unfold live_inode, get_inode. by rewrite E. Qed.

Lemma desc_ok_mono f f' e d : (forall j, live_inode f j -> live_inode f' j /\ i_flags (get_inode f' j) = i_flags (get_inode f j)) ->
  desc_ok f e d -> desc_ok f' e d.
Proof.
  intros Hm. destruct d as [[i off|]|]; [|done..]. intros (? & ? & ? & ? & [Hl Hf] & ? & ?).
  destruct (Hm _ Hl) as [? E]. repeat (split; [done|]). split; [|done]. split; [done|]. by rewrite E.
Qed.

Lemma bad_fd_desc f a fd : fs_rel f a -> (bad_fd f fd = true <-> a_desc a fd = None).
Proof.
  intros [_ _ Hl Hd _]. unfold bad_fd, a_desc, VFS_MAX_FDS, get_fd. destruct (Z.ltb_spec fd 0); [done|]. cbn [orb].
  destruct (Z.leb_spec 64 fd) as [Hge|Hlt]; cbn [orb].
  - split; [|done]. intros _. rewrite lookup_ge_None_2; [done|]. rewrite <-(Forall2_length _ _ _ Hd). lia.
  - destruct (lookup_lt_is_Some_2 (fd_table f) (Z.to_nat fd)) as [e He]; [lia|].
    destruct (Forall2_lookup_l _ _ _ _ _ Hd He) as (d & Hd' & Hok). rewrite Hd', nth_lookup, He. cbn.
    destruct d as [[i off|]|]; cbn in Hok.
    + destruct Hok as (-> & _). done.
    + destruct Hok as (-> & _). done.
    + by rewrite Hok.
Qed.

Lemma fd_desc f a fd x : fs_rel f a -> a_desc a fd = Some x ->
  0 <= fd < 64 /\ desc_ok f (get_fd f fd) (Some x) /\ fd_table f !! Z.to_nat fd = Some (get_fd f fd).
Proof.
  intros [_ _ Hl Hd _]. unfold a_desc, get_fd. destruct (Z.ltb_spec fd 0); [done|]. intros E.
  destruct (a_fd a !! Z.to_nat fd) as [d|] eqn:Ed; [|done]. cbn in E. subst d.
  destruct (Forall2_lookup_r _ _ _ _ _ Hd Ed) as (e & He & Hok). rewrite nth_lookup, He. split; [|done].
  apply lookup_lt_Some in He. lia.
Qed.

Lemma bad_fd_some f a fd x : fs_rel f a -> a_desc a fd = Some x -> bad_fd f fd = false.
Proof. intros Hr Ex. destruct (bad_fd f fd) eqn:E; [|done]. apply (bad_fd_desc f a) in E; [congruence|done]. Qed.

(** Replacing descriptor [fd]. *)
Lemma rel_set_fd f a fd e d : fs_rel f a -> 0 <= fd -> desc_ok f e d -> fs_rel (set_fd f fd e) (a_set a fd d).
Proof.
  intros [(B & [? ? ? ?]) Hf Hl Hd Ht] H0 He. split; [| | | |exact Ht].
  - by exists B.
  - done.
  - unfold set_fd, fs_fds; cbn [fd_table]. by rewrite length_insert.
  - unfold set_fd, fs_fds, a_set; cbn [fd_table a_fd]. apply Forall2_insert; [|done]. done.
Qed.

Lemma fs_fds_id f : fs_fds f (fd_table f) = f.
Proof. by destruct f. Qed.
Lemma set_fd_id f fd : set_fd f fd (get_fd f fd) = f.
Proof.
  unfold set_fd, get_fd. destruct (fd_table f !! Z.to_nat fd) as [e|] eqn:E.
  - rewrite nth_lookup, E. cbn. rewrite list_insert_id by done. apply fs_fds_id.
  - rewrite list_insert_ge by (by apply lookup_ge_None_1). apply fs_fds_id.
Qed.
Lemma set_fd_twice f fd e1 e2 : set_fd (set_fd f fd e1) fd e2 = set_fd f fd e2.
Proof. unfold set_fd, fs_fds; cbn. by rewrite list_insert_insert_eq. Qed.

Lemma first_idx_ext {A A'} (P : A -> bool) (Q : A' -> bool) l l' : Forall2 (fun x y => P x = Q y) l l' ->
  first_idx P l = first_idx Q l'.
Proof. induction 1 as [|x y l l' E _ IH]; [done|]. cbn. by rewrite E, IH. Qed.

Lemma first_idx_snoc {A} (P : A -> bool) l x : first_idx P (l ++ [x]) =
  match first_idx P l with Some i => Some i | None => if P x then Some (List.length l) else None end.
Proof.
  induction l as [|y l IH]; [done|]. cbn. destruct (P y); [done|]. rewrite IH.
  destruct (first_idx P l); [done|]. by destruct (P x).
Qed.

Lemma open_refines f a buf i fuel : fs_rel f a -> req_ok f a buf (rq_open i) ->
  exists res f' a', do_req fuel buf (rq_open i) f = Some (res, f') /\ spec_step (bh_full (f_heap f)) a (rq_open i) res a' /\ fs_rel f' a'.
Proof.
  intros Hr (Hi & Hf & Hmp). pose proof Hr as [_ _ Hl Hd _]. cbn. unfold vfs_fd_open.
  rewrite take_ge by lia.
  rewrite (first_idx_ext _ (fun d : option adesc => negb (bool_decide (is_Some d))) _ (a_fd a)).
  2: { eapply Forall2_impl; [exact Hd|]. intros e [[j off|]|]; cbn; [by intros (-> & _)|by intros (-> & _)|by intros ->]. }
  destruct (first_idx _ (a_fd a)) as [fd|] eqn:E.
  - unfold vfs_open, target. cbn [n_flags inode_to_node set_fd]. change (get_inode (set_fd f _ _) i) with (get_inode f i).
    rewrite Hmp. destruct (Z.ltb_spec (Z.of_nat fd) 0); [lia|]. do 3 eexists. split; [reflexivity|]. split; [by apply sp_open|].
    apply rel_set_fd; [done|lia|]. cbn. split; [done|]. split; [done|]. split; [lia|]. split; [done|]. split; [by split|]. by split.
  - do 3 eexists. split; [reflexivity|]. cbn. split; [apply sp_open_full|done].
    apply first_idx_None in E. eapply Forall_impl; [exact E|]. intros d Hdd. cbn in Hdd.
    by apply negb_false_iff, bool_decide_eq_true in Hdd.
Qed.

Lemma close_refines f a buf fd fuel : fs_rel f a ->
  exists res f' a', do_req fuel buf (rq_close fd) f = Some (res, f') /\ spec_step (bh_full (f_heap f)) a (rq_close fd) res a' /\ fs_rel f' a'.
Proof.
  intros Hr. cbn. unfold vfs_fd_close. destruct (bad_fd f fd) eqn:Eb.
  - do 3 eexists. split; [reflexivity|]. split; [apply sp_close|]. apply (bad_fd_desc f a) in Eb; [|done]. by rewrite decide_True.
  - destruct (a_desc a fd) as [x|] eqn:Ed.
    2: { apply (bad_fd_desc f a) in Ed; [|done]. congruence. }
    destruct (fd_desc f a fd x Hr Ed) as (Hfd & Hok & _).
    assert (has (n_flags (fd_node (get_fd f fd))) VFS_MOUNTPOINT = false) as Hmp by (destruct x; apply Hok).
    unfold vfs_close, target. rewrite Hmp. do 3 eexists. split; [reflexivity|]. split; [apply sp_close|].
    rewrite decide_False by (by rewrite Ed). apply rel_set_fd; [done|lia|done].
Qed.

(** The relation after a read. *)
Lemma rel_delivered f f' a data buf : fs_rel f a -> rest f' = rest f -> delivered data buf f f' -> fs_rel f' a.
Proof.
  intros [_ Hf Hl Hd Ht] Hre ((B & Hinv) & Hp & _ & _ & Hc). unfold rest in Hre. simplify_eq.
  pose proof (live_ext f f' Hp) as Hli. split.
  - by exists B.
  - intros i Hi%Hli. rewrite Hc by done. by apply Hf.
  - congruence.
  - match goal with E : fd_table f' = _ |- _ => rewrite E end. eapply Forall2_impl; [exact Hd|]. intros e d. apply desc_ok_mono.
    intros j Hj. split; [by apply Hli|]. unfold get_inode. by rewrite Hp.
  - congruence.
Qed.

Lemma read_file_refines f a buf fd n fuel i off : fs_rel f a -> req_ok f a buf (rq_read fd n) -> a_desc a fd = Some (d_file i off) ->
  exists res f' a', do_req fuel buf (rq_read fd n) f = Some (res, f') /\ spec_step (bh_full (f_heap f)) a (rq_read fd n) res a' /\ fs_rel f' a'.
Proof.
  intros Hr (Hn & Hb & _) Ed. cbn. unfold vfs_fd_read. rewrite (bad_fd_some f a fd _ Hr Ed).
  destruct (fd_desc f a fd _ Hr Ed) as (Hfd & Hok & _). pose proof Hok as (Ho & Hoff & Hrange & Hi & Hnode & Hops & Hmp).
  pose proof Hr as [(B & Hinv) Hfile _ _ _]. pose proof (proj1 Hnode) as Hlive. rewrite Hi in Hlive.
  destruct (Hfile i Hlive) as (Ef & Hlen). pose proof Hlen as Hlen'. rewrite length_content in Hlen'.
  unfold vfs_read, target. rewrite Hops, Hmp, Hops. cbn [call_read]. rewrite Hoff.
  destruct (tmpfs_read_spec f B (fd_node (get_fd f fd)) off n buf Hinv Hnode) as (Hr1 & Hr2 & Hr3); [lia|lia|rewrite Hi; lia|lia|].
  destruct (tmpfs_read _ off n buf f) as [r f1]. cbn [fst snd] in *. rewrite Hi in *.
  set (data := take (Z.to_nat n) (drop (Z.to_nat off) (content f i))) in *.
  assert (Z.of_nat (List.length data) <= 2048 - off) as Hdl.
  { unfold data. rewrite length_take, length_drop. lia. }
  pose proof (rel_delivered f f1 a data buf Hr Hr2 Hr3) as Hrel1.
  destruct (fd_desc f1 a fd _ Hrel1 Ed) as (_ & (Ho1 & Hoff1 & _ & Hi1 & Hn1 & Hops1 & Hmp1) & _).
  do 3 eexists. split; [reflexivity|]. rewrite Hr1. destruct (Z.ltb_spec (Z.of_nat (List.length data)) 0); [lia|].
  split.
  { rewrite Nat2Z.id. change (mem_of (set_fd f1 _ _)) with (mem_of f1). destruct Hr3 as (_ & _ & -> & _).
    eapply sp_read; [done|]. by rewrite Ef. }
  apply rel_set_fd; [done|lia|]. unfold advance. destruct (Z.ltb_spec 0 (Z.of_nat (List.length data))) as [Hpos|Hz].
  - unfold desc_ok. cbn [fd_open fd_offset fd_node]. unfold u32. rewrite Hoff1, Z.mod_small by lia. repeat (split; [done || lia|]). done.
  - replace (off + Z.of_nat (List.length data)) with off by lia. done.
Qed.

(** The relation after the program has filled its buffer. *)
Lemma rel_user_write f a m : fs_rel f a -> bytes_ok m -> (forall x, KERNEL_VMA <= x -> m x = mem_of f x) -> fs_rel (set_mem f m) a.
Proof.
  intros [(B & Hinv) Hf Hl Hd Ht] Hm Ho. destruct (user_write_ok f B m Hinv Hm Ho) as [H1 H2].
  split; try done; [by exists B|]. intros i Hi. rewrite H2 by done. by apply Hf.
Qed.

(** The terminal's state moves on; nothing else. *)
Lemma rel_term f a t : fs_rel f a -> fs_rel (fs_tty f t) (a_term a t).
Proof. by intros [(B & []) Hf Hl Hd Ht]; split; try done; exists B. Qed.
(** The position in the entry of a terminal is of no account. *)
Lemma rel_tty_pos f a fd ret : fs_rel f a -> a_desc a fd = Some d_tty -> fs_rel (set_fd f fd (advance ret (get_fd f fd))) a.
Proof.
  intros Hr Ed. destruct (fd_desc f a fd _ Hr Ed) as (Hfd & (Ho & Hops & Hmp) & _).
  assert (a_set a fd (Some d_tty) = a) as Ea.
  { unfold a_set, a_desc in *. destruct (fd <? 0); [done|]. destruct (a_fd a !! Z.to_nat fd) as [x|] eqn:E; [|done]. cbn in Ed. subst x.
    rewrite list_insert_id by done. by destruct a. }
  rewrite <- Ea. apply rel_set_fd; [exact Hr|lia|].
  unfold advance. by destruct (0 <? ret).
Qed.

Lemma read_tty_refines f a buf fd n : fs_rel f a -> req_ok f a buf (rq_read fd n) -> a_desc a fd = Some d_tty ->
  exists k0, forall fuel, (k0 <= fuel)%nat ->
  exists res f' a', do_req fuel buf (rq_read fd n) f = Some (res, f') /\ spec_step (bh_full (f_heap f)) a (rq_read fd n) res a' /\ fs_rel f' a'.
Proof.
  intros Hr (Hn & Hb & Hin) Ed. destruct (Hin Ed) as (Hb0 & k0 & out & t & Hrd & Hby & Hle). exists k0. intros fuel Hfu.
  destruct (fd_desc f a fd _ Hr Ed) as (Hfd & (Ho & Hops & Hmp) & _). pose proof Hr as [(B & Hinv) _ _ _ Ht].
  cbn [do_req]. unfold vfs_fd_read. rewrite (bad_fd_some f a fd _ Hr Ed). unfold vfs_read, target. rewrite Hops, Hmp, Hops.
  cbn [call_read]. unfold tty_ops_read. rewrite (proj2 (Z.eqb_neq buf 0)) by lia. cbn [orb].
  destruct (Z.eqb_spec n 0) as [->|Hn0].
  - do 3 eexists. split; [reflexivity|]. change (0 <? 0) with false. cbv iota. split; [by apply sp_read_tty_none|]. by apply rel_tty_pos.
  - rewrite <- Ht, Hrd by done. do 3 eexists. split; [reflexivity|]. rewrite i32_id by lia.
    destruct (Z.ltb_spec (Z.of_nat (List.length out)) 0); [lia|]. rewrite Nat2Z.id.
    set (f1 := set_mem (fs_tty f t) (put (mem_of f) buf out)).
    assert (fs_rel f1 (a_term a t)) as Hr1.
    { apply rel_user_write; [by apply rel_term|apply put_bytes_ok; [eapply bh_bytes, Hinv|done]|]. intros x Hx. apply put_other. lia. }
    split; [|by apply rel_tty_pos].
    assert (bytes (List.length out) (mem_of (set_fd f1 fd (advance (Z.of_nat (List.length out)) (get_fd f1 fd)))) buf = out) as ->.
    { change (mem_of (set_fd f1 _ _)) with (mem_of f1). unfold f1, mem_of at 1, set_mem, fs_heap; cbn [f_heap]. rewrite bh_mem_set. apply bytes_put. }
    by apply (sp_read_tty _ _ _ _ fuel); [|..|apply Hrd].
Qed.

Lemma read_refines f a buf fd n : fs_rel f a -> req_ok f a buf (rq_read fd n) ->
  exists k0, forall fuel, (k0 <= fuel)%nat ->
  exists res f' a', do_req fuel buf (rq_read fd n) f = Some (res, f') /\ spec_step (bh_full (f_heap f)) a (rq_read fd n) res a' /\ fs_rel f' a'.
Proof.
  intros Hr Hq. destruct (a_desc a fd) as [[i off|]|] eqn:Ed.
  - exists O. intros fuel _. by apply (read_file_refines f a buf fd n fuel i off).
  - by apply read_tty_refines.
  - exists O. intros fuel _. cbn. unfold vfs_fd_read. rewrite (proj2 (bad_fd_desc f a fd Hr) Ed).
    do 3 eexists. split; [reflexivity|]. split; [by apply sp_read_bad|done].
Qed.

(** The relation after a write, before the descriptor moves. *)
Lemma rel_written f f' a i off size buf : fs_rel f a -> live_inode f i -> 0 <= off -> 0 <= size -> off + size <= 2048 ->
  written i off size buf f f' ->
  fs_rel f' (a_write a i (splice (Z.to_nat off) (bytes (Z.to_nat size) (mem_of f) buf) (a_file a i))).
Proof.
  intros [_ Hf Hl Hd Ht] Hi Ho Hs Hb ((B & Hinv) & [Hre Hme Hin Hco _] & Hc). unfold rest in Hre.
  destruct (Hf i Hi) as [Ef Hlen]. rewrite Ef.
  assert (forall j, 0 <= j -> i_used (get_inode f' j) = i_used (get_inode f j) /\ i_flags (get_inode f' j) = i_flags (get_inode f j)) as Hm.
  { intros j Hj. specialize (Hme j Hj). unfold meta in Hme. by simplify_eq. }
  assert (fd_table f' = fd_table f) as Efd by congruence. split.
  - by exists B.
  - intros j [Hj Hu]. cbn. rewrite (proj1 (Hm j ltac:(lia))) in Hu. case_decide as E.
    + subst j. rewrite Hc. split; [done|]. rewrite length_splice, length_bytes. lia.
    + rewrite Hco by done. apply Hf. done.
  - congruence.
  - rewrite Efd. eapply Forall2_impl; [exact Hd|]. intros e d. apply desc_ok_mono.
    intros j [Hj Hu]. destruct (Hm j ltac:(lia)) as [Hu' Hfl]. split; [|done]. split; [done|]. congruence.
  - cbn. congruence.
Qed.

Lemma write_refines f a buf fd data : fs_rel f a -> req_ok f a buf (rq_write fd data) ->
  exists k0, forall fuel, (k0 <= fuel)%nat ->
  exists res f' a', do_req fuel buf (rq_write fd data) f = Some (res, f') /\ spec_step (bh_full (f_heap f)) a (rq_write fd data) res a' /\ fs_rel f' a'.
Proof.
  intros Hr0 (Hdb & Hb & Hlim & Htt). pose proof Hr0 as [(B0 & Hinv0) _ _ _ _].
  cbn. set (f1 := set_mem f (put (mem_of f) buf data)). set (size := Z.of_nat (List.length data)) in *.
  assert (fs_rel f1 a) as Hr.
  { apply rel_user_write; [done|apply put_bytes_ok; [eapply bh_bytes, Hinv0|done]|]. intros x Hx. apply put_other. lia. }
  assert (bytes (Z.to_nat size) (mem_of f1) buf = data) as Edata.
  { unfold f1, mem_of at 1, set_mem, fs_heap; cbn [f_heap]. rewrite bh_mem_set. unfold size. rewrite Nat2Z.id. apply bytes_put. }
  assert (bh_full (f_heap f1) -> bh_full (f_heap f)) as Hfull by apply bh_full_set.
  clearbody f1. clear Hr0 Hinv0. unfold vfs_fd_write. destruct (a_desc a fd) as [[i off|]|] eqn:Ed.
  3: { rewrite (proj2 (bad_fd_desc f1 a fd Hr) Ed). exists O. intros fuel _. do 3 eexists. split; [reflexivity|]. split; [by apply sp_write_bad|done]. }
  2: { exists O. intros fuel _. rewrite (bad_fd_some f1 a fd _ Hr Ed). destruct (fd_desc f1 a fd _ Hr Ed) as (Hfd & (Ho & Hops & Hmp) & _).
       pose proof Hr as [_ _ _ _ Ht]. destruct (Htt eq_refl) as [Hb0 Hlen]. unfold vfs_write, target. rewrite Hops, Hmp, Hops. cbn [call_write]. unfold tty_ops_write.
       rewrite (proj2 (Z.eqb_neq buf 0)) by lia. rewrite Edata, i32_id by lia. do 3 eexists. split; [reflexivity|].
       destruct (Z.ltb_spec size 0); [lia|]. split; [by apply sp_write_tty|]. rewrite Ht.
       set (f2 := fs_tty f1 _). replace (mk_fd _ _ _) with (get_fd f2 fd) by (by destruct (get_fd f1 fd) eqn:E; unfold f2, get_fd in *; cbn; rewrite E).
       rewrite set_fd_id. apply rel_tty_pos; [by apply rel_term|done]. }
  rewrite (bad_fd_some f1 a fd _ Hr Ed). specialize (Hlim i off eq_refl).
  destruct (fd_desc f1 a fd _ Hr Ed) as (Hfd & Hok & _). pose proof Hok as (Ho & Hoff & Hrange & Hi & Hnode & Hops & Hmp).
  pose proof Hr as [(B & Hinv) _ _ _ _]. unfold vfs_write, target. rewrite Hops, Hmp, Hops. cbn [call_write]. rewrite Hoff.
  destruct (tmpfs_write_spec f1 B (fd_node (get_fd f1 fd)) off size buf Hinv Hnode) as [k0 Hk0]; [lia..|].
  exists k0. intros fuel Hfu. destruct (Hk0 fuel Hfu) as (r & node & f2 & -> & Hcase).
  destruct Hcase as [(-> & -> & -> & Hno)|(-> & (z & ->) & Hw)]; do 3 eexists; (split; [reflexivity|]).
  - split; [apply sp_write_nomem; [by apply Hfull|by rewrite Ed]|]. cbn [advance]. change (0 <? -1) with false. cbn iota.
    rewrite set_fd_id. replace (mk_fd _ _ _) with (get_fd f1 fd) by (by destruct (get_fd f1 fd)). by rewrite set_fd_id.
  - rewrite Hi in Hw. destruct (Z.ltb_spec size 0); [lia|]. split; [by apply sp_write|].
    pose proof (proj1 Hnode) as Hlive. rewrite Hi in Hlive.
    pose proof (rel_written f1 f2 a i off size buf Hr Hlive ltac:(lia) ltac:(lia) Hlim Hw) as Hrel2. rewrite Edata in Hrel2.
    destruct (fd_desc f2 _ fd _ Hrel2 Ed) as (_ & Hok2 & He2).
    rewrite set_fd_twice. apply rel_set_fd; [done|lia|]. pose proof Hok2 as (Ho2 & Hoff2 & _ & Hi2 & Hn2 & Hops2 & Hmp2).
    assert (get_fd (set_fd f2 fd (mk_fd (set_n_size (fd_node (get_fd f1 fd)) z) (fd_offset (get_fd f2 fd)) (fd_open (get_fd f2 fd)))) fd
      = mk_fd (set_n_size (fd_node (get_fd f1 fd)) z) off true) as ->.
    { unfold get_fd at 1, set_fd, fs_fds; cbn [fd_table]. rewrite nth_lookup, list_lookup_insert_eq by (by eapply lookup_lt_Some).
      cbn. by rewrite Hoff2, Ho2. }
    assert (file_node f2 (set_n_size (fd_node (get_fd f1 fd)) z)) as Hfn.
    { unfold file_node in *. cbn [set_n_size n_inode]. rewrite Hi. by rewrite Hi2 in Hn2. }
    unfold advance. destruct (Z.ltb_spec 0 size) as [Hpos|Hz]; cbn [desc_ok fd_open fd_offset fd_node];
      (split; [done|]); (split; [unfold u32; try rewrite Z.mod_small by lia; lia|]); (split; [lia|]); (split; [done|]); (split; [done|]); by split.
Qed.

(** C3. Files behave as byte strings: every open, write, read and close on
    descriptors of regular files or of the terminal returns, given enough fuel for the heap, the
    result that the specification allows - a read yields the bytes at the
    position, a write splices its bytes in at the position (zero-filling a gap), or
    fails leaving the files unchanged, which happens only when the descriptor is not open
    or no frame of memory is left; positions advance by the count, other files
    and descriptors keep their contents, bytes written to the terminal go to its driver
    and bytes read come from it - and leaves the concrete state related to
    the specification's.  Limits ([fs_rel], [req_ok]): files and positions of at
    most 2048 bytes (the code allows 65536, but beyond 2048 [kmalloc] does not return
    memory of its own); open descriptors are of regular files or the terminal. *)
Theorem fs_refines_files f a buf r : fs_rel f a -> req_ok f a buf r ->
  exists k0, forall fuel, (k0 <= fuel)%nat ->
  exists res f' a', do_req fuel buf r f = Some (res, f') /\ spec_step (bh_full (f_heap f)) a r res a' /\ fs_rel f' a'.
Proof.
  intros Hr Hok. destruct r as [i|fd data|fd n|fd].
  - exists O. intros fuel _. by apply open_refines.
  - by apply write_refines.
  - by apply read_refines.
  - exists O. intros fuel _. by apply close_refines.
Qed.

(** ** Directories *)

(** Entries of a directory in use are inodes in use. *)
Definition dirs_ok f : Prop := List.length (inode_pool f) = 64%nat /\
  forall i c, live_inode f i -> c ∈ i_children (get_inode f i) -> live_inode f c.

Definition dir_node f (node : vfs_node) : Prop :=
  live_inode f (n_inode node) /\ has (i_flags (get_inode f (n_inode node))) VFS_DIR = true.

Lemma alloc_inode_spec f i f' : List.length (inode_pool f) = 64%nat -> alloc_inode f = (Some i, f') ->
  0 <= i < 64 /\ i_used (get_inode f i) = false /\
  f' = set_inode f i (mk_inode (i_name (get_inode f i)) (i_flags (get_inode f i)) 0 0 [] true).
Proof.
  intros Hl. unfold alloc_inode. rewrite take_ge by lia. destruct (first_idx _ _) as [k|] eqn:E; [|done].
  intros [= <- <-]. pose proof (first_idx_lt _ _ _ E). split; [lia|]. split; [|done].
  apply first_idx_Some in E as [(x & Hx & Hu) _]. unfold get_inode. rewrite Nat2Z.id, nth_lookup, Hx. cbn.
  by apply negb_true_iff in Hu.
Qed.

(** The pool after [tmpfs_create]. *)
Lemma tmpfs_create_spec f parent name flags i f' : dirs_ok f -> dir_node f parent ->
  tmpfs_create parent name flags f = (Some i, f') ->
  let p := n_inode parent in
  0 <= i < 64 /\ i_used (get_inode f i) = false /\ i <> p /\
  rest f' = rest f /\ f_heap f' = f_heap f /\ List.length (inode_pool f') = 64%nat /\
  forall j, 0 <= j -> get_inode f' j =
    if decide (j = i) then mk_inode (str_trunc 127 name) flags 0 0 [] true
    else if decide (j = p) then
      let n := get_inode f p in mk_inode (i_name n) (i_flags n) (i_data n) (i_size n) (i_children n ++ [i]) (i_used n)
    else get_inode f j.
Proof.
  intros [Hl _] [Hp Hd] E p. unfold tmpfs_create in E. rewrite (node_inode f parent Hp) in E. fold p in E, Hp, Hd. rewrite Hd in E.
  cbn [negb] in E. destruct (_ <=? _); [done|]. destruct (alloc_inode f) as [[k|] f1] eqn:Ea; [|done].
  destruct (alloc_inode_spec f k f1 Hl Ea) as (Hk & Hu & ->). simplify_eq.
  pose proof Hp as [Hp64 Hpu]. assert (i <> p) as Hne by (intros ->; congruence).
  split; [done|]. split; [done|]. split; [done|]. split; [done|]. split; [done|].
  split; [unfold set_inode, fs_pool; cbn [inode_pool]; by rewrite !length_insert|].
  intros j Hj.
  assert (forall f n, List.length (inode_pool f) = 64%nat -> List.length (inode_pool (set_inode f i n)) = 64%nat) as Hli
    by (intros g n Hg; unfold set_inode, fs_pool; cbn [inode_pool]; by rewrite length_insert).
  rewrite !get_set_inode by (try done; try lia; by repeat apply Hli). repeat case_decide; simplify_eq; try done.
Qed.

(** The child found by [tmpfs_finddir]. *)
Definition find_child f (cs : list Z) (name : string) : option Z :=
  (fun k => nth k cs 0) <$> first_idx (fun c => String.eqb (i_name (get_inode f c)) name) cs.

Lemma finddir_child f node name : live_inode f (n_inode node) ->
  n_inode <$> tmpfs_finddir node name f =
    if has (i_flags (get_inode f (n_inode node))) VFS_DIR
    then find_child f (i_children (get_inode f (n_inode node))) name else None.
Proof.
  intros Hl. unfold tmpfs_finddir, find_child. rewrite (node_inode f node Hl). destruct (has _ VFS_DIR); [|done].
  cbn [negb]. by destruct (first_idx _ _).
Qed.

Lemma find_child_ext f f' cs name : (forall c, c ∈ cs -> i_name (get_inode f' c) = i_name (get_inode f c)) ->
  find_child f' cs name = find_child f cs name.
Proof.
  intros E. unfold find_child. f_equal. apply first_idx_ext. apply Forall_Forall2_diag, Forall_forall.
  intros c Hc. by rewrite E.
Qed.

Lemma find_child_snoc f cs i name : find_child f (cs ++ [i]) name =
  match find_child f cs name with
  | Some c => Some c
  | None => if String.eqb (i_name (get_inode f i)) name then Some i else None
  end.
Proof.
  unfold find_child. induction cs as [|c cs IH]; cbn; [by destruct (String.eqb _ _)|].
  destruct (String.eqb (i_name (get_inode f c)) name); [done|].
  destruct (first_idx _ (cs ++ [i])), (first_idx _ cs); cbn in *; try done; by destruct (String.eqb _ _).
Qed.

Lemma trunc_id n s : (String.length s <= n)%nat -> str_trunc n s = s.
Proof.
  unfold str_trunc. revert n. induction s as [|c s IH]; intros [|n] Hn; cbn in *; try done; try lia.
  f_equal. apply IH. lia.
Qed.

(** Look-ups after [tmpfs_create]. *)
Lemma create_lookup f parent name flags i f' : dirs_ok f -> dir_node f parent -> (String.length name <= 127)%nat ->
  tmpfs_finddir parent name f = None -> tmpfs_create parent name flags f = (Some i, f') ->
  dirs_ok f' /\ ~ live_inode f i /\ live_inode f' i /\
  n_inode <$> tmpfs_finddir parent name f' = Some i /\
  forall node other, live_inode f (n_inode node) -> (n_inode node, other) <> (n_inode parent, name) ->
    n_inode <$> tmpfs_finddir node other f' = n_inode <$> tmpfs_finddir node other f.
Proof.
  intros Hok Hp Hname Hnone E. pose proof Hok as [Hl Hch]. pose proof Hp as [Hpl Hpd].
  destruct (tmpfs_create_spec f parent name flags i f' Hok Hp E) as (Hi & Hu & Hne & _ & _ & Hl' & Hg).
  set (p := n_inode parent) in *. pose proof Hpl as [Hp64 Hpu].
  assert (~ live_inode f i) as Hni by (intros [_ ?]; congruence).
  assert (forall j, live_inode f' j <-> live_inode f j \/ j = i) as Hlive.
  { intros j. split.
    - intros [Hj Hju]. rewrite Hg in Hju by lia. case_decide; [by right|left]. split; [done|]. by case_decide; simplify_eq/=.
    - intros [[Hj Hju]| ->]; (split; [done|]); rewrite Hg by lia; repeat case_decide; by simplify_eq/=. }
  assert (forall c, live_inode f c -> i_name (get_inode f' c) = i_name (get_inode f c)) as Hnm.
  { intros c [Hc Hcu]. rewrite Hg by lia. rewrite decide_False by (intros ->; congruence). case_decide; [by subst|done]. }
  assert (forall d other, live_inode f d -> find_child f' (i_children (get_inode f d)) other = find_child f (i_children (get_inode f d)) other) as Hfc.
  { intros d other Hd. apply find_child_ext. intros c Hc. apply Hnm. by apply (Hch d). }
  assert (i_name (get_inode f' i) = name) as Hin.
  { rewrite Hg by lia. rewrite decide_True by done. by apply trunc_id. }
  assert (forall other, n_inode <$> tmpfs_finddir parent other f' =
    match n_inode <$> tmpfs_finddir parent other f with Some c => Some c | None => if String.eqb name other then Some i else None end) as Hpar.
  { intros other. rewrite !finddir_child by (try done; apply Hlive; by left). fold p.
    assert (get_inode f' p = mk_inode (i_name (get_inode f p)) (i_flags (get_inode f p)) (i_data (get_inode f p)) (i_size (get_inode f p))
      (i_children (get_inode f p) ++ [i]) (i_used (get_inode f p))) as -> by (rewrite Hg by lia; by rewrite decide_False, decide_True).
    cbn [i_flags i_children]. rewrite Hpd, find_child_snoc, Hfc, Hin by done. done. }
  split; [split; [done|]|split; [done|split; [apply Hlive; by right|split]]].
  - intros j c [Hj| ->]%Hlive; rewrite Hg by lia || (destruct Hj; lia).
    + rewrite decide_False by (intros ->; done). case_decide as Ejp; cbn [i_children].
      * intros [Hc|Hc]%elem_of_app; apply Hlive; [left; by apply (Hch p)|right; by apply list_elem_of_singleton in Hc].
      * intros Hc. apply Hlive. left. by apply (Hch j).
    + rewrite decide_True by done. cbn. by intros ?%elem_of_nil.
  - rewrite Hpar, Hnone. cbn. by rewrite String.eqb_refl.
  - intros node other Hn Hdiff. destruct (decide (n_inode node = p)) as [Ep|Ep].
    + assert (forall g : fs_st H T, live_inode g p -> n_inode <$> tmpfs_finddir node other g = n_inode <$> tmpfs_finddir parent other g) as Esame.
      { intros g Hgp. rewrite !finddir_child by (fold p; congruence). fold p. by rewrite Ep. }
      rewrite !Esame by (try done; apply Hlive; by left). rewrite Hpar. destruct (_ <$> _); [done|].
      destruct (String.eqb_spec name other) as [->|]; [|done]. by destruct Hdiff; rewrite Ep.
    + rewrite !finddir_child by (try done; apply Hlive; by left). rewrite Hg by (destruct Hn; lia).
      rewrite decide_False by (intros E'; rewrite E' in Hn; done). rewrite decide_False by done. by rewrite Hfc.
Qed.

Lemma finddir_node f node name i : n_inode <$> tmpfs_finddir node name f = Some i ->
  tmpfs_finddir node name f = Some (inode_to_node f i).
Proof.
  unfold tmpfs_finddir. destruct (node_to_inode node); [|done]. destruct (negb _); [done|].
  destruct (first_idx _ _); [|done]. cbn. by intros [= ->].
Qed.

(** Names created are found: [tmpfs_create] in a directory takes an inode that
    was free; afterwards [vfs_finddir] of the name in that directory gives the node
    of that inode, an empty file with the flags asked for (when the directory had no
    entry of the name, of at most 127 characters), and every other look-up in any directory in use gives the entry it gave before; the
    directory structure stays well-formed. *)
Theorem tmpfs_create_find f parent name flags i f' : dirs_ok f -> dir_node f parent ->
  n_ops parent = Some tmpfs_ops -> has (n_flags parent) VFS_DIR = true -> has (n_flags parent) VFS_MOUNTPOINT = false ->
  (String.length name <= 127)%nat ->
  tmpfs_finddir parent name f = None -> tmpfs_create parent name flags f = (Some i, f') ->
  dirs_ok f' /\ ~ live_inode f i /\ live_inode f' i /\
  vfs_finddir parent name f' = Some (Some (mk_node name flags i 0 0 0 0x1ED (Some tmpfs_ops) p_null)) /\
  forall node other, live_inode f (n_inode node) -> (n_inode node, other) <> (n_inode parent, name) ->
    n_inode <$> tmpfs_finddir node other f' = n_inode <$> tmpfs_finddir node other f.
Proof.
  intros Hok Hp Hops Hdir Hmp Hname Hnone E.
  destruct (create_lookup f parent name flags i f' Hok Hp Hname Hnone E) as (H1 & H2 & H3 & H4 & H5).
  destruct (tmpfs_create_spec f parent name flags i f' Hok Hp E) as (Hi & _ & _ & _ & _ & _ & Hg).
  split; [done|]. split; [done|]. split; [done|]. split; [|done].
  unfold vfs_finddir, target. rewrite Hdir, Hmp, Hops. cbn [negb call_finddir]. rewrite (finddir_node _ _ _ _ H4).
  unfold inode_to_node. rewrite Hg by lia. rewrite decide_True by done. cbn. by rewrite !trunc_id by (by rewrite ?trunc_id).
Qed.

(** The bounds check of [tmpfs_write] can be bypassed: [offset + size] wraps at
    32 bits, so a write whose end is past 2^32 by no more than the file's size is
    accepted, the file is not grown, and the bytes go to [data + offset], gigabytes
    past the file's block. *)
Theorem tmpfs_write_wraps f fuel node off size buf : file_node f node -> 0 <= off < 2 ^ 32 -> 0 < size < 2 ^ 32 ->
  let n := get_inode f (n_inode node) in
  0 <= off + size - 2 ^ 32 <= i_size n -> i_size n <= TMPFS_MAX_FILE_SIZE -> i_size n <= off -> buf + size <= i_data n + off ->
  exists f', tmpfs_write fuel node off size buf f = Some (i32 size, node, f') /\
    mem_of f' (i_data n + off) = mem_of f buf.
Proof.
  intros [Hi Hf] Ho Hs n He Hmax Hoff Hb. unfold tmpfs_write. rewrite (node_inode f node Hi), Hf. fold n. cbn [negb].
  assert (u32 (off + size) = off + size - 2 ^ 32) as ->.
  { unfold u32. symmetry. apply (Z.mod_unique_pos _ _ 1); lia. }
  destruct (Z.ltb_spec TMPFS_MAX_FILE_SIZE (off + size - 2 ^ 32)); [lia|].
  destruct (Z.ltb_spec (i_size n) (off + size - 2 ^ 32)); [lia|]. eexists. split; [reflexivity|].
  unfold mem_of at 1, set_mem, fs_heap; cbn [f_heap]. rewrite bh_mem_set. fold n. rewrite memcpy_spec by lia.
  destruct (Z.leb_spec (i_data n + off) (i_data n + off)); [|lia].
  destruct (Z.ltb_spec (i_data n + off) (i_data n + off + size)); [|lia]. cbn. f_equal. lia.
Qed.

(** Devices registered are reached: after a successful [devfs_register] of a
    new name (of at most 31 characters), [devfs_get_node] gives a node that carries
    the operation table registered, and a device found before is still found with
    its own table. *)
Theorem devfs_register_get f name flags ops f' : dirs_ok f -> dir_node f (dev_dir f) -> n_ptr (dev_dir f) = p_ops tmpfs_ops ->
  (String.length name <= 31)%nat -> tmpfs_finddir (dev_dir f) name f = None ->
  Forall (fun e => fst e <> name) (dev_table f) -> devfs_register name flags ops f = (0, f') ->
  (exists node, devfs_get_node name f' = Some node /\ n_ops node = Some ops /\ live_inode f' (n_inode node)) /\
  forall other, other <> name -> (fun d => (n_inode d, n_ops d)) <$> devfs_get_node other f' =
                                 (fun d => (n_inode d, n_ops d)) <$> devfs_get_node other f.
Proof.
  intros Hok Hd Hptr Hname Hnone Hnew E. unfold devfs_register in E. destruct (_ <=? _); [done|].
  destruct (tmpfs_create (dev_dir f) name flags f) as [[i|] f1] eqn:Ec; [|done]. injection E as <-.
  destruct (create_lookup f (dev_dir f) name flags i f1 Hok Hd ltac:(lia) Hnone Ec) as (_ & _ & Hi & Hfind & Hkeep).
  destruct (tmpfs_create_spec f (dev_dir f) name flags i f1 Hok Hd Ec) as (_ & _ & _ & Hrest & _).
  unfold rest in Hrest. assert (dev_dir f1 = dev_dir f /\ dev_table f1 = dev_table f) as [Edir Etab] by (split; congruence).
  rewrite (trunc_id 31) by done. set (f' := fs_devs f1 _).
  assert (forall other, tmpfs_finddir (dev_dir f) other f' = tmpfs_finddir (dev_dir f) other f1) as Ef by done.
  split.
  - exists (ops_set (inode_to_node f1 i) ops). split; [|done].
    unfold devfs_get_node, dev_finddir. change (dev_dir f') with (dev_dir f1). rewrite Edir, Hptr, Ef, (finddir_node _ _ _ _ Hfind).
    cbn [f' dev_table fs_devs]. rewrite Etab, first_idx_snoc.
    rewrite (proj2 (first_idx_None _ _)) by (eapply Forall_impl; [exact Hnew|]; intros e; by apply String.eqb_neq).
    cbn [fst]. rewrite String.eqb_refl. by rewrite list_lookup_middle.
  - intros other Hne. unfold devfs_get_node, dev_finddir. change (dev_dir f') with (dev_dir f1).
    cbn [f' dev_table fs_devs]. rewrite Edir, Etab, Hptr, !Ef, first_idx_snoc.
    assert (n_inode <$> tmpfs_finddir (dev_dir f) other f1 = n_inode <$> tmpfs_finddir (dev_dir f) other f) as Ek
      by (apply Hkeep; [apply Hd|congruence]).
    cbn [fst]. rewrite (proj2 (String.eqb_neq name other)) by done.
    destruct (first_idx _ (dev_table f)) as [k|] eqn:Ei; [|done]. pose proof (first_idx_lt _ _ _ Ei).
    rewrite lookup_app_l by done.
    destruct (tmpfs_finddir (dev_dir f) other f1) as [n1|], (tmpfs_finddir (dev_dir f) other f) as [n2|]; cbn in Ek; try done.
    destruct (lookup_lt_is_Some_2 (dev_table f) k ltac:(done)) as [[? o] ->]. cbn. by injection Ek as ->.
Qed.
End spec.

(** ** A booted file system *)

#[local] Instance silent_tty : CharDev unit := {| cd_read _ _ t := Some ([], t); cd_write _ t := t |}.

Definition demo_node : vfs_node := fd_node fd_default.
Definition demo_fs_blank : fs_st (hst pmm_state) unit :=
  mk_fs demo_heap tt (replicate 64 inode_default) demo_node false [] (replicate 64 fd_default) [] demo_node.
(** After [vfs_init], [tmpfs_init] and [devfs_init]. *)
Definition demo_fs_boot : fs_st (hst pmm_state) unit :=
  match tmpfs_init (snd (vfs_init demo_fs_blank)) with Some (_, f) => snd (devfs_init f) | None => demo_fs_blank end.
(** A file /motd, inode 4, opened as descriptor 0. *)
Definition demo_file : fs_st (hst pmm_state) unit := snd (tmpfs_create (node0 demo_fs_boot) "motd" VFS_FILE demo_fs_boot).
Definition demo_open : fs_st (hst pmm_state) unit :=
  match vfs_fd_open (inode_to_node demo_file 4) demo_file with Some (_, f) => f | None => demo_file end.

Definition empty_inode (n : tmpfs_inode) : bool := (i_data n =? 0) && (i_size n =? 0).

Lemma empty_fs_inv (f : fs_st (hst pmm_state) unit) : f_heap f = demo_heap -> List.length (inode_pool f) = 64%nat ->
  forallb empty_inode (inode_pool f) = true -> fs_inv f (blocks (fun _ => []) (fun _ => []) (fun _ => [])).
Proof.
  intros Hh Hl He.
  assert (forall i, live_inode f i -> i_data (get_inode f i) = 0 /\ i_size (get_inode f i) = 0) as Hz.
  { intros i [Hi _]. unfold get_inode. destruct (lookup_lt_is_Some_2 (inode_pool f) (Z.to_nat i)) as [n Hn]; [lia|].
    rewrite nth_lookup, Hn. cbn. rewrite forallb_forall in He.
    pose proof (He n (proj1 (list_elem_of_In _ _) (list_elem_of_lookup_2 _ _ _ Hn))) as [? ?]%andb_prop. lia. }
  split.
  - rewrite Hh. exists (fun _ => []), (fun _ => []), (fun _ => []). split; [apply demo_heap_inv|done].
  - done.
  - intros i Hi. left. by apply Hz.
  - intros i j Hi _ _ H0. by destruct (Hz i Hi).
Qed.

(** The terminal as descriptor 0, the file as descriptor 1. *)
Definition demo_std : fs_st (hst pmm_state) unit :=
  match devfs_get_node "tty0" (snd (tty_register demo_file)) with
  | Some node =>
      match vfs_fd_open node (snd (tty_register demo_file)) with
      | Some (_, f) => match vfs_fd_open (inode_to_node f 4) f with Some (_, f) => f | None => f end
      | None => demo_file
      end
  | None => demo_file
  end.
Definition demo_afs : afs unit := mk_afs (fun _ => []) (Some d_tty :: Some (d_file 4 0) :: replicate 62 None) tt.

Lemma demo_rel : fs_rel demo_std demo_afs.
Proof.
  assert (fs_inv demo_std (blocks (fun _ => []) (fun _ => []) (fun _ => []))) as Hinv by (by apply empty_fs_inv; vm_compute).
  split.
  - by eexists.
  - intros i Hi. unfold content. pose proof (fi_data _ _ Hinv i Hi) as [[_ ->]|(n & (j & s & (_ & Hs & _) & _) & _)].
    + split; [done|]. rewrite length_bytes. lia.
    + by apply elem_of_nil in Hs.
  - by vm_compute.
  - assert (exists e0 e1, fd_table demo_std = e0 :: e1 :: replicate 62 fd_default /\ desc_ok demo_std e0 (Some d_tty) /\
      desc_ok demo_std e1 (Some (d_file 4 0))) as (e0 & e1 & -> & H0 & H1).
    { eexists _, _. split; [vm_compute; reflexivity|]. split; [by vm_compute|].
      split; [done|]. split; [done|]. split; [cbn; lia|]. split; [done|]. split; [|by vm_compute].
      split; [|by vm_compute]. split; [|by vm_compute]. cbn; lia. }
    constructor; [exact H0|]. constructor; [exact H1|]. by apply Forall2_replicate.
  - done.
Qed.

Lemma fs_refines_files_witness :
  exists fuel res f' a', do_req fuel 4096 (rq_write 1 [104; 105]) demo_std = Some (res, f') /\
    spec_step (bh_full (f_heap demo_std)) demo_afs (rq_write 1 [104; 105]) res a' /\ fs_rel f' a'.
Proof.
  destruct (fs_refines_files demo_std demo_afs 4096 (rq_write 1 [104; 105]) demo_rel) as [k0 Hk].
  { split; [repeat constructor; lia|]. split; [unfold KERNEL_VMA; cbn; lia|]. split; [intros i off [= <- <-]; cbn; lia|]. discriminate. }
  exists k0. exact (Hk k0 (Nat.le_refl _)).
Defined.

Lemma demo_dirs (f : fs_st (hst pmm_state) unit) : List.length (inode_pool f) = 64%nat ->
  forallb (fun n => forallb (fun c => (0 <=? c) && (c <? 64) && i_used (get_inode f c)) (i_children n)) (inode_pool f) = true ->
  dirs_ok f.
Proof.
  intros Hl Hf. split; [done|]. intros i c [Hi _] Hc. unfold get_inode in Hc.
  destruct (lookup_lt_is_Some_2 (inode_pool f) (Z.to_nat i)) as [n Hn]; [lia|].
  rewrite nth_lookup, Hn in Hc. cbn in Hc. rewrite forallb_forall in Hf.
  pose proof (Hf n (proj1 (list_elem_of_In _ _) (list_elem_of_lookup_2 _ _ _ Hn))) as Hn'. rewrite forallb_forall in Hn'.
  apply list_elem_of_In, Hn' in Hc. apply andb_prop in Hc as [[? ?]%andb_prop ?]. split; [lia|done].
Qed.

Lemma demo_dir_node (f : fs_st (hst pmm_state) unit) node : (0 <=? n_inode node) && (n_inode node <? 64) = true ->
  i_used (get_inode f (n_inode node)) = true -> has (i_flags (get_inode f (n_inode node))) VFS_DIR = true -> dir_node f node.
Proof. intros [? ?]%andb_prop Hu Hf. split; [split; [lia|done]|done]. Qed.

Lemma tmpfs_create_find_witness : vfs_finddir (node0 demo_fs_boot) "motd" demo_file =
  Some (Some (mk_node "motd" VFS_FILE 4 0 0 0 0x1ED (Some tmpfs_ops) p_null)).
Proof.
  assert (tmpfs_create (node0 demo_fs_boot) "motd" VFS_FILE demo_fs_boot = (Some 4, demo_file)) as E
    by (rewrite (surjective_pairing (tmpfs_create _ _ _ _)); unfold demo_file; f_equal; vm_compute; reflexivity).
  refine (proj1 (proj2 (proj2 (proj2 (tmpfs_create_find demo_fs_boot (node0 demo_fs_boot) "motd" VFS_FILE 4 demo_file
    _ _ _ _ _ _ _ E))))); try (vm_compute; reflexivity).
  - by apply demo_dirs; vm_compute.
  - by apply demo_dir_node; vm_compute.
  - cbn. lia.
Defined.

Lemma devfs_register_get_witness : exists node,
  devfs_get_node "tty0" (snd (devfs_register "tty0" VFS_CHARDEV tty_ops demo_fs_boot)) = Some node /\ n_ops node = Some tty_ops.
Proof.
  assert (devfs_register "tty0" VFS_CHARDEV tty_ops demo_fs_boot = (0, snd (devfs_register "tty0" VFS_CHARDEV tty_ops demo_fs_boot))) as E
    by (rewrite (surjective_pairing (devfs_register _ _ _ _)) at 1; f_equal; vm_compute; reflexivity).
  destruct (devfs_register_get demo_fs_boot "tty0" VFS_CHARDEV tty_ops _
    ltac:(by apply demo_dirs; vm_compute) ltac:(by apply demo_dir_node; vm_compute) ltac:(by vm_compute) ltac:(cbn; lia)
    ltac:(by vm_compute) ltac:(vm_compute; repeat constructor; discriminate) E) as ((node & H1 & H2 & _) & _).
  exists node. exact (conj H1 H2).
Defined.

(** A file of 16 bytes, at address 0x500000 for the sake of the example. *)
Definition demo_wrap : fs_st (hst pmm_state) unit := set_inode demo_file 4 (mk_inode "motd" VFS_FILE 0x500000 16 [] true).
Lemma tmpfs_write_wraps_witness : exists f',
  tmpfs_write 0 (inode_to_node demo_wrap 4) (2 ^ 32 - 8) 16 4096 demo_wrap = Some (i32 16, inode_to_node demo_wrap 4, f').
Proof.
  assert (get_inode demo_wrap (n_inode (inode_to_node demo_wrap 4)) = mk_inode "motd" VFS_FILE 0x500000 16 [] true) as En
    by (vm_compute; reflexivity).
  assert (file_node demo_wrap (inode_to_node demo_wrap 4)) as Hf.
  { split; [split; [cbn; lia|by rewrite En]|by rewrite En]. }
  pose proof (tmpfs_write_wraps demo_wrap 0 (inode_to_node demo_wrap 4) (2 ^ 32 - 8) 16 4096 Hf ltac:(lia) ltac:(lia)) as Hw.
  cbv zeta in Hw. rewrite En in Hw. cbn [i_size i_data] in Hw. unfold TMPFS_MAX_FILE_SIZE in Hw.
  destruct (Hw ltac:(lia) ltac:(lia) ltac:(lia) ltac:(lia)) as (f' & E & _). exists f'. exact E.
Defined.
