(* ===== verification/Packet.v ===== *)
(** * Packets: byte buffers, byte order and checksums

    A packet is the list of its bytes.  A field of a packed struct is read and
    written at its offset in the native (little-endian) order of the machine,
    and the code converts with [htons]/[ntohs]/[htonl]/[ntohl] of
    [src/net/ethernet/ethernet_internal.h]; the three checksum routines of the
    stack ([ip_checksum], [udp_checksum], [tcp_checksum]) are written here with
    their loops, together with the reference definition they are compared with:
    the one's complement sum of big-endian 16-bit words (RFC 1071). *)

From S2P Require Import Prelude Mem.

(** ** Native accesses *)

Definition rd8 (l : list Z) (i : Z) : Z := nth (Z.to_nat i) l 0.
Definition rd16 (l : list Z) (i : Z) : Z := rd8 l i + 2 ^ 8 * rd8 l (i + 1).
Definition rd32 (l : list Z) (i : Z) : Z := rd16 l i + 2 ^ 16 * rd16 l (i + 2).

Definition le16 (v : Z) : list Z := [u8 v; u8 (v >>b 8)].
Definition le32 (v : Z) : list Z := [u8 v; u8 (v >>b 8); u8 (v >>b 16); u8 (v >>b 24)].

(** Overwrite the bytes from [i] on; [n] bytes from [i] on. *)
Definition wr (l : list Z) (i : Z) (bs : list Z) : list Z :=
  take (Z.to_nat i) l ++ bs ++ drop (Z.to_nat i + length bs) l.
Definition sub (l : list Z) (i n : Z) : list Z := take (Z.to_nat n) (drop (Z.to_nat i) l).

Definition len (l : list Z) : Z := Z.of_nat (length l).
Definition zeros (n : Z) : list Z := replicate (Z.to_nat n) 0.

(** Every element is a byte. *)
Definition is_byte (b : Z) : Prop := 0 <= b < 2 ^ 8.
Definition bytes_list (l : list Z) : Prop := Forall is_byte l.

(** ** Byte order ([ethernet_internal.h]) *)

Definition htons (v : Z) : Z := u16 ((v >>b 8) |b (v <<b 8)).
Definition ntohs (v : Z) : Z := u16 ((v >>b 8) |b (v <<b 8)).
Definition htonl (v : Z) : Z :=
  u32 ((v &b 0x000000FF) <<b 24) |b ((v &b 0x0000FF00) <<b 8) |b
  ((v &b 0x00FF0000) >>b 8) |b ((v &b 0xFF000000) >>b 24).
Definition ntohl (v : Z) : Z := htonl v.

(** ** Checksums *)

(** [while (n--) sum += *p++;] of [ip_checksum]. *)
Fixpoint sum_words (n : nat) (sum : Z) (l : list Z) : Z :=
  match n with
  | O => sum
  | S n => sum_words n (u32 (sum + rd16 l 0)) (drop 2 l)
  end.

(** [while (sum >> 16) sum = (sum & 0xFFFF) + (sum >> 16);]: a 32-bit sum is
    folded at most twice. *)
Fixpoint fold_sum (n : nat) (sum : Z) : Z :=
  match n with
  | O => sum
  | S n => if sum >>b 16 =? 0 then sum else fold_sum n (u32 ((sum &b 0xFFFF) + (sum >>b 16)))
  end.

Definition ip_checksum (data : list Z) (n : Z) : Z :=
  let words := u16 (n >>b 1) in
  let sum := sum_words (Z.to_nat words) 0 data in
  let sum := if has n 1 then u32 (sum + rd8 data (2 * words)) else sum in
  not16 (fold_sum 3 sum).

(** [udp.c]: native 16-bit reads, the odd byte in the low position. *)
Fixpoint csum_native (n : nat) (sum : Z) (l : list Z) (len : Z) : Z :=
  match n with
  | O => sum
  | S n =>
      if 2 <=? len then csum_native n (u32 (sum + rd16 l 0)) (drop 2 l) (u16 (len - 2))
      else if negb (len =? 0) then u32 (sum + rd8 l 0) else sum
  end.

(** [tcp.c]: big-endian reads, the odd byte in the high position. *)
Fixpoint csum_add (n : nat) (sum : Z) (l : list Z) (len : Z) : Z :=
  match n with
  | O => sum
  | S n =>
      if 1 <? len
      then csum_add n (u32 (sum + ((rd8 l 0 <<b 8) |b rd8 l 1))) (drop 2 l) (u16 (len - 2))
      else if negb (len =? 0) then u32 (sum + (rd8 l 0 <<b 8)) else sum
  end.

(** The 12 bytes [ph] both build for the pseudo-header. *)
Definition pseudo_hdr (src_ip dst_ip proto seg_len : Z) : list Z :=
  [u8 (src_ip >>b 24); u8 (src_ip >>b 16); u8 (src_ip >>b 8); u8 src_ip;
   u8 (dst_ip >>b 24); u8 (dst_ip >>b 16); u8 (dst_ip >>b 8); u8 dst_ip;
   0; proto; u8 (seg_len >>b 8); u8 seg_len].

Definition IPPROTO_ICMP : Z := 1.
Definition IPPROTO_TCP : Z := 6.
Definition IPPROTO_UDP : Z := 17.

(** The final step of both: [result ? result : 0xFFFF]. *)
Definition finish_sum (sum : Z) : Z :=
  let result := not16 (fold_sum 3 sum) in
  if negb (result =? 0) then result else 0xFFFF.

(** The loop counter of the sums never exceeds the 16-bit length. *)
Definition sum_fuel : nat := Z.to_nat 32769.

Definition udp_checksum (src_ip dst_ip : Z) (hdr data : list Z) (data_len : Z) : Z :=
  let udp_len := u16 (8 + data_len) in
  let ph := pseudo_hdr src_ip dst_ip IPPROTO_UDP udp_len in
  let sum := csum_native sum_fuel 0 ph 12 in
  let sum := csum_native sum_fuel sum hdr 8 in
  let sum := if negb (data_len =? 0) then csum_native sum_fuel sum data data_len else sum in
  finish_sum sum.

Definition tcp_checksum (src_ip dst_ip : Z) (seg : list Z) (seg_len : Z) : Z :=
  let ph := pseudo_hdr src_ip dst_ip IPPROTO_TCP seg_len in
  let sum := csum_add sum_fuel 0 ph 12 in
  let sum := csum_add sum_fuel sum seg seg_len in
  finish_sum sum.

(** ** Reference: the RFC 1071 sum *)

(** Sum of the big-endian 16-bit words, an odd last byte padded with zero. *)
Fixpoint be_sum (l : list Z) : Z :=
  match l with
  | [] => 0
  | [a] => a * 256
  | a :: b :: l => a * 256 + b + be_sum l
  end.

(** A checksummed byte string is valid when its words sum to zero in one's
    complement, that is to a multiple of 65535 that is not 0. *)
Definition rfc_valid (l : list Z) : Prop := be_sum l mod 65535 = 0 /\ be_sum l <> 0.

(** ** Bytes and byte order: lemmas *)

Lemma byte_u8 v : is_byte (u8 v).
Proof. apply u8_range. Qed.

Lemma le16_bytes v : 0 <= v < 2 ^ 16 -> le16 v = [v mod 256; v / 256].
Proof.
  intros Hv. unfold le16, u8. rewrite Z.shiftr_div_pow2 by lia. change (2 ^ 8) with 256.
  rewrite (Z.mod_small (v / 256)) by zlia. done.
Qed.

Lemma htons_eq v : 0 <= v < 2 ^ 16 -> htons v = v mod 256 * 256 + v / 256.
Proof.
  intros Hv. unfold htons. rewrite Z.shiftr_div_pow2, Z.shiftl_mul_pow2, Z.lor_comm by lia.
  rewrite lor_add by zlia. unfold u16. change (2 ^ 8) with 256. change (2 ^ 16) with 65536 in *. zlia.
Qed.

Lemma htons_range v : 0 <= htons v < 2 ^ 16.
Proof. apply u16_range. Qed.

(** Storing [htons v] puts [v] on the wire big-endian. *)
Lemma le16_htons v : 0 <= v < 2 ^ 16 -> le16 (htons v) = [v / 256; v mod 256].
Proof.
  intros Hv. rewrite le16_bytes by apply htons_range. rewrite htons_eq by done.
  f_equal; [zlia|]. f_equal. zlia.
Qed.

(** Reading a stored field back. *)
Lemma ntohs_bytes a b : is_byte a -> is_byte b -> ntohs (a + 2 ^ 8 * b) = a * 256 + b.
Proof.
  intros Ha Hb. unfold is_byte in *. change (2 ^ 8) with 256 in *.
  change (ntohs (a + 256 * b)) with (htons (a + 256 * b)). rewrite htons_eq by lia. zlia.
Qed.

Lemma land_field v w k : 0 <= w -> 0 <= k -> v &b (Z.ones w <<b k) = ((v / 2 ^ k) mod 2 ^ w) * 2 ^ k.
Proof.
  intros Hw Hk. rewrite <- Z.land_ones, <- Z.shiftr_div_pow2, <- Z.shiftl_mul_pow2 by lia.
  apply Z.bits_inj'. intros i Hi. rewrite Z.land_spec, !Z.shiftl_spec, Z.land_spec by lia.
  destruct (Z.ltb_spec i k).
  - rewrite (Z.testbit_neg_r (Z.ones w)) by lia. by rewrite !andb_false_r.
  - rewrite Z.shiftr_spec by lia. by replace (i - k + k) with i by lia.
Qed.

Lemma htonl_eq v : 0 <= v < 2 ^ 32 ->
  htonl v = (v mod 256) * 2 ^ 24 + (v / 2 ^ 8 mod 256) * 2 ^ 16 + (v / 2 ^ 16 mod 256) * 2 ^ 8 + v / 2 ^ 24.
Proof.
  intros Hv. unfold htonl.
  change 0x000000FF with (Z.ones 8 <<b 0). change 0x0000FF00 with (Z.ones 8 <<b 8).
  change 0x00FF0000 with (Z.ones 8 <<b 16). change 0xFF000000 with (Z.ones 8 <<b 24).
  rewrite !land_field by lia. rewrite !Z.shiftl_mul_pow2, !Z.shiftr_div_pow2 by lia.
  change (2 ^ 0) with 1. rewrite Z.div_1_r, Z.mul_1_r. change (2 ^ 8) with 256.
  pose proof (Z.mod_pos_bound v 256 ltac:(lia)). pose proof (Z.mod_pos_bound (v / 256) 256 ltac:(lia)).
  pose proof (Z.mod_pos_bound (v / 2 ^ 16) 256 ltac:(lia)).
  assert (0 <= v / 2 ^ 24 < 256) by zlia.
  rewrite (Z.mod_small (v / 2 ^ 24) 256) by lia.
  replace (u32 (v mod 256 * 2 ^ 24)) with (v mod 256 * 2 ^ 24) by (symmetry; apply u32_small; lia).
  replace (v / 256 mod 256 * 256 * 256) with (v / 256 mod 256 * 2 ^ 16) by lia.
  replace (v / 2 ^ 16 mod 256 * 2 ^ 16 / 256) with (v / 2 ^ 16 mod 256 * 2 ^ 8) by zlia.
  rewrite Z.div_mul by lia.
  rewrite (lor_add 8 (v / 2 ^ 16 mod 256) (v / 2 ^ 24)) by lia.
  rewrite (lor_add 16 (v / 256 mod 256)) by lia. rewrite (lor_add 24 (v mod 256)) by lia. lia.
Qed.

Lemma htonl_range v : 0 <= v < 2 ^ 32 -> 0 <= htonl v < 2 ^ 32.
Proof. intros Hv. rewrite htonl_eq by done. zlia. Qed.

Lemma le32_htonl v : 0 <= v < 2 ^ 32 ->
  le32 (htonl v) = [v / 2 ^ 24; v / 2 ^ 16 mod 256; v / 2 ^ 8 mod 256; v mod 256].
Proof.
  intros Hv. rewrite htonl_eq by done. unfold le32, u8. rewrite !Z.shiftr_div_pow2 by lia.
  change (2 ^ 8) with 256. f_equal; [zlia|]. f_equal; [zlia|]. f_equal; [zlia|]. f_equal. zlia.
Qed.

Lemma ntohl_bytes a b c d : is_byte a -> is_byte b -> is_byte c -> is_byte d ->
  ntohl ((a + 2 ^ 8 * b) + 2 ^ 16 * (c + 2 ^ 8 * d)) = a * 2 ^ 24 + b * 2 ^ 16 + c * 2 ^ 8 + d.
Proof.
  unfold is_byte. intros Ha Hb Hc Hd. change (2 ^ 8) with 256 in *. unfold ntohl.
  rewrite htonl_eq by lia. zlia.
Qed.

(** ** Checksums: lemmas *)

(** Sum of the native words, an odd last byte in the low position. *)
Fixpoint le_sum (l : list Z) : Z :=
  match l with
  | [] => 0
  | [a] => a
  | a :: b :: l => a + 256 * b + le_sum l
  end.

(** Induction two bytes at a time. *)
Lemma pair_ind (P : list Z -> Prop) :
  P [] -> (forall a, P [a]) -> (forall a b l, P l -> P (a :: b :: l)) -> forall l, P l.
Proof.
  intros H0 H1 H2 l. enough (forall n l, (length l <= n)%nat -> P l) as H by (by apply (H (length l))).
  clear l. induction n as [|n IH]; intros l Hl; destruct l as [|a l]; [done|simpl in Hl; lia|done|].
  destruct l as [|c l]; [done|]. simpl in Hl. apply H2, IH. lia.
Qed.

(** One's complement sums do not depend on the byte order up to a rotation. *)
Lemma be_le_sum l : (be_sum l - 256 * le_sum l) mod 65535 = 0.
Proof.
  induction l as [|a|a b l IH] using pair_ind; simpl; [done| |].
  - rewrite Z.mul_comm, Z.sub_diag. done.
  - replace (a * 256 + b + be_sum l - 256 * (a + 256 * b + le_sum l))
      with (be_sum l - 256 * le_sum l + (- b) * 65535) by lia.
    by rewrite Z.mod_add.
Qed.

Lemma be_sum_app l1 l2 : (length l1 mod 2 = 0)%nat -> be_sum (l1 ++ l2) = be_sum l1 + be_sum l2.
Proof.
  induction l1 as [|a|a b l IH] using pair_ind; intros Hl; [done|done|].
  assert (length l mod 2 = 0)%nat as Hl'.
  { simpl length in Hl. replace (S (S (length l))) with (length l + 1 * 2)%nat in Hl by lia.
    by rewrite Nat.Div0.mod_add in Hl. }
  simpl. rewrite IH by done. lia.
Qed.

Lemma le_sum_app l1 l2 : (length l1 mod 2 = 0)%nat -> le_sum (l1 ++ l2) = le_sum l1 + le_sum l2.
Proof.
  induction l1 as [|a|a b l IH] using pair_ind; intros Hl; [done|done|].
  assert (length l mod 2 = 0)%nat as Hl'.
  { simpl length in Hl. replace (S (S (length l))) with (length l + 1 * 2)%nat in Hl by lia.
    by rewrite Nat.Div0.mod_add in Hl. }
  cbn [app le_sum]. rewrite IH by done. lia.
Qed.

Lemma be_sum_range l : bytes_list l -> 0 <= be_sum l <= 65535 * (len l).
Proof.
  unfold bytes_list, len. induction l as [|a|a b l IH] using pair_ind; intros Hl; [done| |].
  - apply Forall_cons in Hl as [Ha _]. unfold is_byte in Ha. simpl. lia.
  - apply Forall_cons in Hl as [Ha Hl]. apply Forall_cons in Hl as [Hb Hl]. specialize (IH Hl).
    unfold is_byte in *. cbn [be_sum length]. lia.
Qed.

Lemma le_sum_range l : bytes_list l -> 0 <= le_sum l <= 65535 * (len l).
Proof.
  unfold bytes_list, len. induction l as [|a|a b l IH] using pair_ind; intros Hl; [done| |].
  - apply Forall_cons in Hl as [Ha _]. unfold is_byte in Ha. cbn [le_sum length]. lia.
  - apply Forall_cons in Hl as [Ha Hl]. apply Forall_cons in Hl as [Hb Hl]. specialize (IH Hl).
    unfold is_byte in *. cbn [le_sum length]. lia.
Qed.

(** Folding keeps the sum modulo 65535 and ends within 16 bits. *)
Lemma fold_sum_spec sum : 0 <= sum < 2 ^ 32 ->
  0 <= fold_sum 3 sum < 2 ^ 16 /\ (sum - fold_sum 3 sum) mod 65535 = 0 /\ (fold_sum 3 sum = 0 <-> sum = 0).
Proof.
  assert (forall x, 0 <= x < 2 ^ 32 -> u32 ((x &b 0xFFFF) + (x >>b 16)) = x mod 65536 + x / 65536) as Hstep.
  { intros x Hx. change 0xFFFF with (Z.ones 16). rewrite Z.land_ones, Z.shiftr_div_pow2 by lia.
    change (2 ^ 16) with 65536. rewrite u32_small by zlia. done. }
  assert (forall x, (x >>b 16 =? 0) = (x / 65536 =? 0)) as Htest.
  { intros x. by rewrite Z.shiftr_div_pow2 by lia. }
  intros Hs. cbn [fold_sum]. rewrite !Htest.
  destruct (Z.eqb_spec (sum / 65536) 0); [split; [zlia|]; split; [by rewrite Z.sub_diag|done]|].
  rewrite Hstep by done. set (s1 := sum mod 65536 + sum / 65536). assert (0 <= s1 <= 131070) as H1 by (subst s1; zlia).
  assert (exists k, sum - s1 = k * 65535) as [k1 Hk1] by (exists (sum / 65536); subst s1; zlia).
  assert (s1 = 0 <-> sum = 0) as Hz by (subst s1; zlia). clearbody s1.
  destruct (Z.eqb_spec (s1 / 65536) 0).
  { split; [zlia|]. split; [rewrite Hk1; by apply Z_mod_mult|done]. }
  rewrite Hstep by lia. set (s2 := s1 mod 65536 + s1 / 65536). assert (0 < s2 < 65536) as H2 by (subst s2; zlia).
  assert (s1 - s2 = (s1 / 65536) * 65535) as Hk2 by (subst s2; zlia). clearbody s2.
  destruct (Z.eqb_spec (s2 / 65536) 0); [|zlia].
  split; [lia|]. split; [|zlia]. replace (sum - s2) with ((k1 + s1 / 65536) * 65535) by lia. by apply Z_mod_mult.
Qed.

Lemma not16_eq x : 0 <= x < 2 ^ 16 -> not16 x = 65535 - x.
Proof. intros Hx. unfold not16, u16, Z.lnot. change (2 ^ 16) with 65536 in *. zlia. Qed.

(** The value [finish_sum] appends makes the sum a multiple of 65535. *)
Lemma finish_sum_spec sum : 0 <= sum < 2 ^ 32 ->
  0 < finish_sum sum < 2 ^ 16 /\ (sum + finish_sum sum) mod 65535 = 0.
Proof.
  intros Hs. destruct (fold_sum_spec sum Hs) as (Hr & Hm & _). unfold finish_sum. cbv zeta.
  rewrite not16_eq by done. set (f := fold_sum 3 sum) in *. clearbody f.
  apply Z.mod_divide in Hm as [k Hk]; [|lia].
  destruct (Z.eqb_spec (65535 - f) 0) as [E|E]; cbn [negb]; (split; [lia|]).
  - replace (sum + 65535) with ((k + 2) * 65535) by lia. by apply Z_mod_mult.
  - replace (sum + (65535 - f)) with ((k + 1) * 65535) by lia. by apply Z_mod_mult.
Qed.

(** The three summing loops. *)
Lemma sum_words_spec n sum l : bytes_list l -> (2 * n <= length l)%nat -> 0 <= sum ->
  sum + 65535 * Z.of_nat n < 2 ^ 32 -> sum_words n sum l = sum + le_sum (take (2 * n) l).
Proof.
  revert sum l. induction n as [|n IH]; intros sum l Hl Hn Hs Hb; [simpl; lia|].
  destruct l as [|a l]; simpl length in Hn; [lia|]. destruct l as [|c l]; simpl length in Hn; [lia|].
  apply Forall_cons in Hl as [Ha Hl]. apply Forall_cons in Hl as [Hbb Hl]. unfold is_byte in *.
  cbn [sum_words]. change (drop 2 (a :: c :: l)) with l.
  assert (u32 (sum + rd16 (a :: c :: l) 0) = sum + (a + 256 * c)) as ->.
  { apply u32_small. unfold rd16, rd8. simpl. lia. }
  rewrite IH by (done || lia). replace (2 * S n)%nat with (S (S (2 * n))) by lia. cbn [take le_sum]. lia.
Qed.

Lemma le_sum_odd l k : length l = (2 * k + 1)%nat ->
  le_sum l = le_sum (take (2 * k) l) + nth (2 * k) l 0.
Proof.
  revert l. induction k as [|k IH]; intros l Hl.
  - destruct l as [|a l]; [done|]. destruct l; [|done]. cbn. lia.
  - destruct l as [|a l]; [simpl in Hl; lia|]. destruct l as [|c l]; [simpl in Hl; lia|].
    replace (2 * S k)%nat with (S (S (2 * k))) by lia. cbn [take le_sum nth].
    rewrite (IH l) by (simpl in Hl; lia). lia.
Qed.

Lemma ip_checksum_spec l : bytes_list l -> len l < 2 ^ 16 ->
  ip_checksum l (len l) = not16 (fold_sum 3 (le_sum l)).
Proof.
  intros Hl Hn. unfold ip_checksum, len in *.
  rewrite Z.shiftr_div_pow2 by lia. change (2 ^ 1) with 2.
  pose proof (Nat.div_mod_eq (length l) 2) as E. pose proof (Nat.mod_upper_bound (length l) 2 ltac:(lia)) as Hm.
  set (k := (length l / 2)%nat) in *.
  assert (Z.of_nat (length l) / 2 = Z.of_nat k) as Hk by zlia. rewrite Hk, u16_small by lia.
  rewrite Nat2Z.id, sum_words_spec by (done || lia).
  change (has (Z.of_nat (length l)) 1) with (has (Z.of_nat (length l)) (2 ^ 0)).
  rewrite has_bit, Z.bit0_odd by lia. rewrite Z.add_0_l.
  assert (length l mod 2 = 0 \/ length l mod 2 = 1)%nat as [H0|H1] by lia.
  - replace (Z.odd (Z.of_nat (length l))) with false; [rewrite take_ge by lia; done|].
    symmetry. replace (Z.of_nat (length l)) with (2 * Z.of_nat k) by lia. by rewrite Z.odd_mul.
  - replace (Z.odd (Z.of_nat (length l))) with true.
    2:{ symmetry. replace (Z.of_nat (length l)) with (1 + 2 * Z.of_nat k) by lia. by rewrite Z.odd_add_mul_2. }
    rewrite (le_sum_odd l k) by lia. unfold rd8. replace (Z.to_nat (2 * Z.of_nat k)) with (2 * k)%nat by lia.
    rewrite u32_small; [done|].
    pose proof (le_sum_range (take (2 * k) l) (Forall_take _ _ _ Hl)) as Hr. unfold len in Hr.
    rewrite length_take in Hr.
    assert (is_byte (nth (2 * k) l 0)) as Hb.
    { rewrite nth_lookup. destruct (l !! (2 * k)%nat) eqn:El; [|simpl; unfold is_byte; lia].
      by eapply Forall_lookup_1 in Hl. }
    unfold is_byte in Hb. lia.
Qed.

(** Storing the checksum makes the native sum a positive multiple of 65535. *)
Lemma ip_checksum_sum l : bytes_list l -> len l < 2 ^ 16 ->
  let c := ip_checksum l (len l) in
  0 <= c < 2 ^ 16 /\ (le_sum l + c) mod 65535 = 0 /\ le_sum l + c <> 0.
Proof.
  intros Hl Hn c. subst c. rewrite ip_checksum_spec by done. pose proof (le_sum_range l Hl) as Hr.
  destruct (fold_sum_spec (le_sum l)) as (Hf & Hm & Hz); [unfold len in *; lia|].
  rewrite not16_eq by done. set (f := fold_sum 3 (le_sum l)) in *. clearbody f.
  apply Z.mod_divide in Hm as [k Hk]; [|lia]. split; [lia|]. split.
  - replace (le_sum l + (65535 - f)) with ((k + 1) * 65535) by lia. by apply Z_mod_mult.
  - intros E. assert (le_sum l = 0 /\ f = 65535) as [H0 H1] by lia. apply Hz in H0. lia.
Qed.

Lemma be_le_zero l : bytes_list l -> be_sum l = 0 -> le_sum l = 0.
Proof.
  unfold bytes_list. induction l as [|a|a b l IH] using pair_ind; intros Hl; [done| |].
  - apply Forall_cons in Hl as [Ha _]. unfold is_byte in Ha. cbn. lia.
  - apply Forall_cons in Hl as [Ha Hl]. apply Forall_cons in Hl as [Hb Hl].
    pose proof (be_sum_range l Hl). unfold is_byte in *. cbn [be_sum le_sum]. intros E.
    rewrite IH by (done || lia). lia.
Qed.

(** A byte string whose native sum is such a multiple is valid in any order. *)
Lemma rfc_valid_le l : bytes_list l -> le_sum l mod 65535 = 0 -> le_sum l <> 0 -> rfc_valid l.
Proof.
  intros Hl Hm H0. split; [|intros E; by apply H0, be_le_zero].
  pose proof (be_le_sum l) as Hd. apply Z.mod_divide in Hd as [k Hk]; [|lia].
  apply Z.mod_divide in Hm as [j Hj]; [|lia].
  replace (be_sum l) with ((k + 256 * j) * 65535) by lia. by apply Z_mod_mult.
Qed.

Lemma csum_native_spec fuel sum l n : bytes_list l -> n = len l -> (length l < 2 * fuel)%nat -> n < 2 ^ 16 ->
  0 <= sum -> sum + 65535 * n < 2 ^ 32 -> csum_native fuel sum l n = sum + le_sum l.
Proof.
  intros Hl -> Hf Hn. revert sum fuel Hf. unfold len in *. induction l as [|a|a b l IH] using pair_ind;
    intros sum fuel Hf Hs Hb; (destruct fuel as [|fuel]; [simpl in Hf; lia|]); cbn [csum_native].
  - simpl. lia.
  - apply Forall_cons in Hl as [Ha _]. unfold is_byte in *. simpl length in *.
    change (2 <=? Z.of_nat 1) with false. change (Z.of_nat 1 =? 0) with false. cbn [negb le_sum].
    apply u32_small. unfold rd8. simpl. lia.
  - apply Forall_cons in Hl as [Ha Hl]. apply Forall_cons in Hl as [Hbb Hl]. unfold is_byte in *.
    simpl length in *. destruct (Z.leb_spec 2 (Z.of_nat (S (S (length l))))); [|lia].
    change (drop 2 (a :: b :: l)) with l.
    replace (u16 (Z.of_nat (S (S (length l))) - 2)) with (Z.of_nat (length l))
      by (rewrite u16_small by lia; lia).
    assert (u32 (sum + rd16 (a :: b :: l) 0) = sum + (a + 256 * b)) as ->.
    { apply u32_small. unfold rd16, rd8. simpl. lia. }
    rewrite IH by (done || lia). cbn [le_sum]. lia.
Qed.

Lemma csum_add_spec fuel sum l n : bytes_list l -> n = len l -> (length l < 2 * fuel)%nat -> n < 2 ^ 16 ->
  0 <= sum -> sum + 65535 * n < 2 ^ 32 -> csum_add fuel sum l n = sum + be_sum l.
Proof.
  intros Hl -> Hf Hn. revert sum fuel Hf. unfold len in *. induction l as [|a|a b l IH] using pair_ind;
    intros sum fuel Hf Hs Hb; (destruct fuel as [|fuel]; [simpl in Hf; lia|]); cbn [csum_add].
  - simpl. lia.
  - apply Forall_cons in Hl as [Ha _]. unfold is_byte in *. simpl length in *.
    change (1 <? Z.of_nat 1) with false. change (Z.of_nat 1 =? 0) with false. cbn [negb be_sum].
    rewrite Z.shiftl_mul_pow2 by lia. apply u32_small. unfold rd8. simpl. lia.
  - apply Forall_cons in Hl as [Ha Hl]. apply Forall_cons in Hl as [Hbb Hl]. unfold is_byte in *.
    simpl length in *. destruct (Z.ltb_spec 1 (Z.of_nat (S (S (length l))))); [|lia].
    change (drop 2 (a :: b :: l)) with l.
    replace (u16 (Z.of_nat (S (S (length l))) - 2)) with (Z.of_nat (length l))
      by (rewrite u16_small by lia; lia).
    change (rd8 (a :: b :: l) 0) with a. change (rd8 (a :: b :: l) 1) with b.
    rewrite Z.shiftl_mul_pow2, lor_add by lia.
    rewrite u32_small by lia. rewrite IH by (done || lia). cbn [be_sum]. lia.
Qed.

(** The fuel of the sums covers every 16-bit length. *)
Lemma sum_fuel_ok l : len l < 2 ^ 16 -> (length l < 2 * sum_fuel)%nat.
Proof.
  unfold len, sum_fuel. intros Hl. apply Nat2Z.inj_lt. rewrite Nat2Z.inj_mul, Z2Nat.id by lia. lia.
Qed.

(** Byte lists written out element by element. *)
Ltac bytes_solve :=
  unfold bytes_list;
  repeat (apply Forall_cons; split; [first [apply byte_u8 | assumption | unfold is_byte; lia]|]);
  try (by apply Forall_nil).

Lemma pseudo_hdr_bytes src dst proto n : is_byte proto -> bytes_list (pseudo_hdr src dst proto n).
Proof.
  intros Hp. unfold pseudo_hdr, bytes_list. repeat (apply Forall_cons; split; [first [apply byte_u8|done]|]). done.
Qed.
