(* ===== verification/NetState.v ===== *)
(** * State of the network stack

    The static variables of the files under [src/net/] as one record, one
    sub-record per layer, with the function pointers the layers register with
    each other as inductive types (each table can only hold the functions the
    program registers).  The two parts of the machine the stack runs on are
    interfaces: the kernel heap it takes buffers from ([Kheap]) and the 82540EM
    network card ([NicHw]).  A heap buffer is used by one function between its
    [kmalloc] and its [kfree] and never shared, so its contents are a value
    (a byte list) and only the two calls touch the heap state. *)

From S2P Require Import Prelude Mem Packet.

(** ** Interfaces *)

(** [kmalloc] and [kfree] (0 is NULL). *)
Class Kheap (H : Type) := {
  kh_alloc : Z -> H -> Z * H;
  kh_free : Z -> H -> H
}.

(** Descriptors of the card ([e1000_internal.h]). *)
Record e1000_rx_desc := mk_rxd { rxd_addr : Z; rxd_length : Z; rxd_status : Z }.
Record e1000_tx_desc := mk_txd {
  txd_addr : Z; txd_length : Z; txd_cso : Z; txd_cmd : Z; txd_status : Z; txd_css : Z; txd_special : Z
}.

(** The card: register reads and writes, and [nic_dma], what it does to the
    rings and receive buffers in memory before the driver looks at them again. *)
Class NicHw (D : Type) := {
  nic_rd : Z -> D -> Z * D;
  nic_wr : Z -> Z -> D -> D;
  nic_dma : D -> list e1000_rx_desc -> list (list Z) -> list e1000_tx_desc ->
            D * list e1000_rx_desc * list (list Z) * list e1000_tx_desc
}.

(** ** Registered functions *)

Inductive eth_handler := h_arp_rx | h_ipv4_rx.
Inductive ip_handler := h_icmp_rx | h_udp_rx | h_tcp_rx.
Inductive udp_handler := h_udp_sock_rx | h_dhcp_rx.
Inductive tcp_cb := cb_null | cb_tcp_sock_data | cb_tcp_sock_close.

(** ** Driver and layers *)

(** [e1000_dev_t], with the statics of [e1000.c]; the contents of the rings and
    buffers stand for the heap memory they live in. *)
Record e1000_st := mk_e1000 {
  e_mmio : Z;
  e_mac : list Z;
  rx_descs : list e1000_rx_desc;
  rx_descs_phys : Z;
  rx_bufs : list (list Z);
  rx_bufs_phys : list Z;
  e_rx_tail : Z;
  tx_descs : list e1000_tx_desc;
  tx_descs_phys : Z;
  tx_bufs : list (list Z);
  tx_bufs_phys : list Z;
  e_tx_tail : Z;
  e1000_ready : bool;
  rx_callback : bool
}.

Definition es_e_mmio (s : e1000_st) (v : Z) : e1000_st := mk_e1000 v (e_mac s) (rx_descs s) (rx_descs_phys s) (rx_bufs s) (rx_bufs_phys s) (e_rx_tail s) (tx_descs s) (tx_descs_phys s) (tx_bufs s) (tx_bufs_phys s) (e_tx_tail s) (e1000_ready s) (rx_callback s).
Definition es_e_mac (s : e1000_st) (v : list Z) : e1000_st := mk_e1000 (e_mmio s) v (rx_descs s) (rx_descs_phys s) (rx_bufs s) (rx_bufs_phys s) (e_rx_tail s) (tx_descs s) (tx_descs_phys s) (tx_bufs s) (tx_bufs_phys s) (e_tx_tail s) (e1000_ready s) (rx_callback s).
Definition es_rx_descs (s : e1000_st) (v : list e1000_rx_desc) : e1000_st := mk_e1000 (e_mmio s) (e_mac s) v (rx_descs_phys s) (rx_bufs s) (rx_bufs_phys s) (e_rx_tail s) (tx_descs s) (tx_descs_phys s) (tx_bufs s) (tx_bufs_phys s) (e_tx_tail s) (e1000_ready s) (rx_callback s).
Definition es_rx_descs_phys (s : e1000_st) (v : Z) : e1000_st := mk_e1000 (e_mmio s) (e_mac s) (rx_descs s) v (rx_bufs s) (rx_bufs_phys s) (e_rx_tail s) (tx_descs s) (tx_descs_phys s) (tx_bufs s) (tx_bufs_phys s) (e_tx_tail s) (e1000_ready s) (rx_callback s).
Definition es_rx_bufs (s : e1000_st) (v : list (list Z)) : e1000_st := mk_e1000 (e_mmio s) (e_mac s) (rx_descs s) (rx_descs_phys s) v (rx_bufs_phys s) (e_rx_tail s) (tx_descs s) (tx_descs_phys s) (tx_bufs s) (tx_bufs_phys s) (e_tx_tail s) (e1000_ready s) (rx_callback s).
Definition es_rx_bufs_phys (s : e1000_st) (v : list Z) : e1000_st := mk_e1000 (e_mmio s) (e_mac s) (rx_descs s) (rx_descs_phys s) (rx_bufs s) v (e_rx_tail s) (tx_descs s) (tx_descs_phys s) (tx_bufs s) (tx_bufs_phys s) (e_tx_tail s) (e1000_ready s) (rx_callback s).
Definition es_e_rx_tail (s : e1000_st) (v : Z) : e1000_st := mk_e1000 (e_mmio s) (e_mac s) (rx_descs s) (rx_descs_phys s) (rx_bufs s) (rx_bufs_phys s) v (tx_descs s) (tx_descs_phys s) (tx_bufs s) (tx_bufs_phys s) (e_tx_tail s) (e1000_ready s) (rx_callback s).
Definition es_tx_descs (s : e1000_st) (v : list e1000_tx_desc) : e1000_st := mk_e1000 (e_mmio s) (e_mac s) (rx_descs s) (rx_descs_phys s) (rx_bufs s) (rx_bufs_phys s) (e_rx_tail s) v (tx_descs_phys s) (tx_bufs s) (tx_bufs_phys s) (e_tx_tail s) (e1000_ready s) (rx_callback s).
Definition es_tx_descs_phys (s : e1000_st) (v : Z) : e1000_st := mk_e1000 (e_mmio s) (e_mac s) (rx_descs s) (rx_descs_phys s) (rx_bufs s) (rx_bufs_phys s) (e_rx_tail s) (tx_descs s) v (tx_bufs s) (tx_bufs_phys s) (e_tx_tail s) (e1000_ready s) (rx_callback s).
Definition es_tx_bufs (s : e1000_st) (v : list (list Z)) : e1000_st := mk_e1000 (e_mmio s) (e_mac s) (rx_descs s) (rx_descs_phys s) (rx_bufs s) (rx_bufs_phys s) (e_rx_tail s) (tx_descs s) (tx_descs_phys s) v (tx_bufs_phys s) (e_tx_tail s) (e1000_ready s) (rx_callback s).
Definition es_tx_bufs_phys (s : e1000_st) (v : list Z) : e1000_st := mk_e1000 (e_mmio s) (e_mac s) (rx_descs s) (rx_descs_phys s) (rx_bufs s) (rx_bufs_phys s) (e_rx_tail s) (tx_descs s) (tx_descs_phys s) (tx_bufs s) v (e_tx_tail s) (e1000_ready s) (rx_callback s).
Definition es_e_tx_tail (s : e1000_st) (v : Z) : e1000_st := mk_e1000 (e_mmio s) (e_mac s) (rx_descs s) (rx_descs_phys s) (rx_bufs s) (rx_bufs_phys s) (e_rx_tail s) (tx_descs s) (tx_descs_phys s) (tx_bufs s) (tx_bufs_phys s) v (e1000_ready s) (rx_callback s).
Definition es_e1000_ready (s : e1000_st) (v : bool) : e1000_st := mk_e1000 (e_mmio s) (e_mac s) (rx_descs s) (rx_descs_phys s) (rx_bufs s) (rx_bufs_phys s) (e_rx_tail s) (tx_descs s) (tx_descs_phys s) (tx_bufs s) (tx_bufs_phys s) (e_tx_tail s) v (rx_callback s).
Definition es_rx_callback (s : e1000_st) (v : bool) : e1000_st := mk_e1000 (e_mmio s) (e_mac s) (rx_descs s) (rx_descs_phys s) (rx_bufs s) (rx_bufs_phys s) (e_rx_tail s) (tx_descs s) (tx_descs_phys s) (tx_bufs s) (tx_bufs_phys s) (e_tx_tail s) (e1000_ready s) v.

Record arp_entry := mk_arp { arp_e_ip : Z; arp_e_mac : list Z }.

Inductive tcp_state :=
  | TCP_CLOSED | TCP_LISTEN | TCP_SYN_SENT | TCP_SYN_RCVD | TCP_ESTABLISHED | TCP_FIN_WAIT_1
  | TCP_FIN_WAIT_2 | TCP_CLOSE_WAIT | TCP_CLOSING | TCP_LAST_ACK | TCP_TIME_WAIT.
#[export] Instance tcp_state_eq_dec : EqDecision tcp_state.
Proof. solve_decision. Defined.
#[export] Instance tcp_cb_eq_dec : EqDecision tcp_cb.
Proof. solve_decision. Defined.

(** [c->state == st] as a condition. *)
Definition st_eqb (a b : tcp_state) : bool := bool_decide (a = b).

(** [tcp_conn_t]; [retx_data] is the content of the heap block [retx_buf]. *)
Record tcp_conn := mk_conn {
  c_state : tcp_state;
  local_ip : Z;
  local_port : Z;
  remote_ip : Z;
  remote_port : Z;
  snd_una : Z;
  snd_nxt : Z;
  snd_wnd : Z;
  rcv_nxt : Z;
  retx_buf : Z;
  retx_data : list Z;
  retx_len : Z;
  retx_deadline : Z;
  retx_count : Z;
  rx_buf : list Z;
  rx_head : Z;
  rx_tail : Z;
  on_data : tcp_cb;
  on_close : tcp_cb
}.

Definition cs_c_state (s : tcp_conn) (v : tcp_state) : tcp_conn := mk_conn v (local_ip s) (local_port s) (remote_ip s) (remote_port s) (snd_una s) (snd_nxt s) (snd_wnd s) (rcv_nxt s) (retx_buf s) (retx_data s) (retx_len s) (retx_deadline s) (retx_count s) (rx_buf s) (rx_head s) (rx_tail s) (on_data s) (on_close s).
Definition cs_local_ip (s : tcp_conn) (v : Z) : tcp_conn := mk_conn (c_state s) v (local_port s) (remote_ip s) (remote_port s) (snd_una s) (snd_nxt s) (snd_wnd s) (rcv_nxt s) (retx_buf s) (retx_data s) (retx_len s) (retx_deadline s) (retx_count s) (rx_buf s) (rx_head s) (rx_tail s) (on_data s) (on_close s).
Definition cs_local_port (s : tcp_conn) (v : Z) : tcp_conn := mk_conn (c_state s) (local_ip s) v (remote_ip s) (remote_port s) (snd_una s) (snd_nxt s) (snd_wnd s) (rcv_nxt s) (retx_buf s) (retx_data s) (retx_len s) (retx_deadline s) (retx_count s) (rx_buf s) (rx_head s) (rx_tail s) (on_data s) (on_close s).
Definition cs_remote_ip (s : tcp_conn) (v : Z) : tcp_conn := mk_conn (c_state s) (local_ip s) (local_port s) v (remote_port s) (snd_una s) (snd_nxt s) (snd_wnd s) (rcv_nxt s) (retx_buf s) (retx_data s) (retx_len s) (retx_deadline s) (retx_count s) (rx_buf s) (rx_head s) (rx_tail s) (on_data s) (on_close s).
Definition cs_remote_port (s : tcp_conn) (v : Z) : tcp_conn := mk_conn (c_state s) (local_ip s) (local_port s) (remote_ip s) v (snd_una s) (snd_nxt s) (snd_wnd s) (rcv_nxt s) (retx_buf s) (retx_data s) (retx_len s) (retx_deadline s) (retx_count s) (rx_buf s) (rx_head s) (rx_tail s) (on_data s) (on_close s).
Definition cs_snd_una (s : tcp_conn) (v : Z) : tcp_conn := mk_conn (c_state s) (local_ip s) (local_port s) (remote_ip s) (remote_port s) v (snd_nxt s) (snd_wnd s) (rcv_nxt s) (retx_buf s) (retx_data s) (retx_len s) (retx_deadline s) (retx_count s) (rx_buf s) (rx_head s) (rx_tail s) (on_data s) (on_close s).
Definition cs_snd_nxt (s : tcp_conn) (v : Z) : tcp_conn := mk_conn (c_state s) (local_ip s) (local_port s) (remote_ip s) (remote_port s) (snd_una s) v (snd_wnd s) (rcv_nxt s) (retx_buf s) (retx_data s) (retx_len s) (retx_deadline s) (retx_count s) (rx_buf s) (rx_head s) (rx_tail s) (on_data s) (on_close s).
Definition cs_snd_wnd (s : tcp_conn) (v : Z) : tcp_conn := mk_conn (c_state s) (local_ip s) (local_port s) (remote_ip s) (remote_port s) (snd_una s) (snd_nxt s) v (rcv_nxt s) (retx_buf s) (retx_data s) (retx_len s) (retx_deadline s) (retx_count s) (rx_buf s) (rx_head s) (rx_tail s) (on_data s) (on_close s).
Definition cs_rcv_nxt (s : tcp_conn) (v : Z) : tcp_conn := mk_conn (c_state s) (local_ip s) (local_port s) (remote_ip s) (remote_port s) (snd_una s) (snd_nxt s) (snd_wnd s) v (retx_buf s) (retx_data s) (retx_len s) (retx_deadline s) (retx_count s) (rx_buf s) (rx_head s) (rx_tail s) (on_data s) (on_close s).
Definition cs_retx_buf (s : tcp_conn) (v : Z) : tcp_conn := mk_conn (c_state s) (local_ip s) (local_port s) (remote_ip s) (remote_port s) (snd_una s) (snd_nxt s) (snd_wnd s) (rcv_nxt s) v (retx_data s) (retx_len s) (retx_deadline s) (retx_count s) (rx_buf s) (rx_head s) (rx_tail s) (on_data s) (on_close s).
Definition cs_retx_data (s : tcp_conn) (v : list Z) : tcp_conn := mk_conn (c_state s) (local_ip s) (local_port s) (remote_ip s) (remote_port s) (snd_una s) (snd_nxt s) (snd_wnd s) (rcv_nxt s) (retx_buf s) v (retx_len s) (retx_deadline s) (retx_count s) (rx_buf s) (rx_head s) (rx_tail s) (on_data s) (on_close s).
Definition cs_retx_len (s : tcp_conn) (v : Z) : tcp_conn := mk_conn (c_state s) (local_ip s) (local_port s) (remote_ip s) (remote_port s) (snd_una s) (snd_nxt s) (snd_wnd s) (rcv_nxt s) (retx_buf s) (retx_data s) v (retx_deadline s) (retx_count s) (rx_buf s) (rx_head s) (rx_tail s) (on_data s) (on_close s).
Definition cs_retx_deadline (s : tcp_conn) (v : Z) : tcp_conn := mk_conn (c_state s) (local_ip s) (local_port s) (remote_ip s) (remote_port s) (snd_una s) (snd_nxt s) (snd_wnd s) (rcv_nxt s) (retx_buf s) (retx_data s) (retx_len s) v (retx_count s) (rx_buf s) (rx_head s) (rx_tail s) (on_data s) (on_close s).
Definition cs_retx_count (s : tcp_conn) (v : Z) : tcp_conn := mk_conn (c_state s) (local_ip s) (local_port s) (remote_ip s) (remote_port s) (snd_una s) (snd_nxt s) (snd_wnd s) (rcv_nxt s) (retx_buf s) (retx_data s) (retx_len s) (retx_deadline s) v (rx_buf s) (rx_head s) (rx_tail s) (on_data s) (on_close s).
Definition cs_rx_buf (s : tcp_conn) (v : list Z) : tcp_conn := mk_conn (c_state s) (local_ip s) (local_port s) (remote_ip s) (remote_port s) (snd_una s) (snd_nxt s) (snd_wnd s) (rcv_nxt s) (retx_buf s) (retx_data s) (retx_len s) (retx_deadline s) (retx_count s) v (rx_head s) (rx_tail s) (on_data s) (on_close s).
Definition cs_rx_head (s : tcp_conn) (v : Z) : tcp_conn := mk_conn (c_state s) (local_ip s) (local_port s) (remote_ip s) (remote_port s) (snd_una s) (snd_nxt s) (snd_wnd s) (rcv_nxt s) (retx_buf s) (retx_data s) (retx_len s) (retx_deadline s) (retx_count s) (rx_buf s) v (rx_tail s) (on_data s) (on_close s).
Definition cs_rx_tail (s : tcp_conn) (v : Z) : tcp_conn := mk_conn (c_state s) (local_ip s) (local_port s) (remote_ip s) (remote_port s) (snd_una s) (snd_nxt s) (snd_wnd s) (rcv_nxt s) (retx_buf s) (retx_data s) (retx_len s) (retx_deadline s) (retx_count s) (rx_buf s) (rx_head s) v (on_data s) (on_close s).
Definition cs_on_data (s : tcp_conn) (v : tcp_cb) : tcp_conn := mk_conn (c_state s) (local_ip s) (local_port s) (remote_ip s) (remote_port s) (snd_una s) (snd_nxt s) (snd_wnd s) (rcv_nxt s) (retx_buf s) (retx_data s) (retx_len s) (retx_deadline s) (retx_count s) (rx_buf s) (rx_head s) (rx_tail s) v (on_close s).
Definition cs_on_close (s : tcp_conn) (v : tcp_cb) : tcp_conn := mk_conn (c_state s) (local_ip s) (local_port s) (remote_ip s) (remote_port s) (snd_una s) (snd_nxt s) (snd_wnd s) (rcv_nxt s) (retx_buf s) (retx_data s) (retx_len s) (retx_deadline s) (retx_count s) (rx_buf s) (rx_head s) (rx_tail s) (on_data s) v.

Inductive sock_type := SOCK_FREE | SOCK_TCP | SOCK_UDP.
#[export] Instance sock_type_eq_dec : EqDecision sock_type.
Proof. solve_decision. Defined.
Definition ty_eqb (a b : sock_type) : bool := bool_decide (a = b).

(** [sock_t] *)
Record sock := mk_sock {
  s_type : sock_type;
  conn_id : Z;
  bound_port : Z;
  peer_ip : Z;
  peer_port : Z;
  s_rx_buf : list Z;
  s_rx_head : Z;
  s_rx_tail : Z
}.

Definition ss_s_type (s : sock) (v : sock_type) : sock := mk_sock v (conn_id s) (bound_port s) (peer_ip s) (peer_port s) (s_rx_buf s) (s_rx_head s) (s_rx_tail s).
Definition ss_conn_id (s : sock) (v : Z) : sock := mk_sock (s_type s) v (bound_port s) (peer_ip s) (peer_port s) (s_rx_buf s) (s_rx_head s) (s_rx_tail s).
Definition ss_bound_port (s : sock) (v : Z) : sock := mk_sock (s_type s) (conn_id s) v (peer_ip s) (peer_port s) (s_rx_buf s) (s_rx_head s) (s_rx_tail s).
Definition ss_peer_ip (s : sock) (v : Z) : sock := mk_sock (s_type s) (conn_id s) (bound_port s) v (peer_port s) (s_rx_buf s) (s_rx_head s) (s_rx_tail s).
Definition ss_peer_port (s : sock) (v : Z) : sock := mk_sock (s_type s) (conn_id s) (bound_port s) (peer_ip s) v (s_rx_buf s) (s_rx_head s) (s_rx_tail s).
Definition ss_s_rx_buf (s : sock) (v : list Z) : sock := mk_sock (s_type s) (conn_id s) (bound_port s) (peer_ip s) (peer_port s) v (s_rx_head s) (s_rx_tail s).
Definition ss_s_rx_head (s : sock) (v : Z) : sock := mk_sock (s_type s) (conn_id s) (bound_port s) (peer_ip s) (peer_port s) (s_rx_buf s) v (s_rx_tail s).
Definition ss_s_rx_tail (s : sock) (v : Z) : sock := mk_sock (s_type s) (conn_id s) (bound_port s) (peer_ip s) (peer_port s) (s_rx_buf s) (s_rx_head s) v.

Inductive dhcp_state :=
  | DHCP_STATE_IDLE | DHCP_STATE_SELECTING | DHCP_STATE_REQUESTING | DHCP_STATE_BOUND | DHCP_STATE_FAILED.
#[export] Instance dhcp_state_eq_dec : EqDecision dhcp_state.
Proof. solve_decision. Defined.

(** ** The whole stack *)

(** [eth_h], [ip_h], [udp_h] are the used prefixes of the handler tables. *)
Record nst (H D : Type) := mk_nst {
  heap : H;
  hw : D;
  nic : e1000_st;
  eth_h : list (Z * eth_handler);
  our_mac : list Z;
  arp_table : list arp_entry;
  arp_our_ip : Z;
  ip_h : list (Z * ip_handler);
  our_ip : Z;
  our_netmask : Z;
  our_gateway : Z;
  pkt_id : Z;
  udp_h : list (Z * udp_handler);
  conns : list tcp_conn;
  isn_counter : Z;
  socks : list sock;
  d_state : dhcp_state;
  offered_ip : Z;
  server_ip : Z;
  retry_count : Z;
  d_deadline : Z;
  ticks : Z;
  timer_net_poll : bool;
  umem : mem
}.
Arguments heap {H D} _.
Arguments hw {H D} _.
Arguments nic {H D} _.
Arguments eth_h {H D} _.
Arguments our_mac {H D} _.
Arguments arp_table {H D} _.
Arguments arp_our_ip {H D} _.
Arguments ip_h {H D} _.
Arguments our_ip {H D} _.
Arguments our_netmask {H D} _.
Arguments our_gateway {H D} _.
Arguments pkt_id {H D} _.
Arguments udp_h {H D} _.
Arguments conns {H D} _.
Arguments isn_counter {H D} _.
Arguments socks {H D} _.
Arguments d_state {H D} _.
Arguments offered_ip {H D} _.
Arguments server_ip {H D} _.
Arguments retry_count {H D} _.
Arguments d_deadline {H D} _.
Arguments ticks {H D} _.
Arguments timer_net_poll {H D} _.
Arguments umem {H D} _.
Arguments mk_nst {H D} _ _ _ _ _ _ _ _ _ _ _ _ _ _ _ _ _ _ _ _ _ _ _ _.

Definition with_heap {H D} (s : nst H D) (v : H) : nst H D := mk_nst v (hw s) (nic s) (eth_h s) (our_mac s) (arp_table s) (arp_our_ip s) (ip_h s) (our_ip s) (our_netmask s) (our_gateway s) (pkt_id s) (udp_h s) (conns s) (isn_counter s) (socks s) (d_state s) (offered_ip s) (server_ip s) (retry_count s) (d_deadline s) (ticks s) (timer_net_poll s) (umem s).
Definition with_hw {H D} (s : nst H D) (v : D) : nst H D := mk_nst (heap s) v (nic s) (eth_h s) (our_mac s) (arp_table s) (arp_our_ip s) (ip_h s) (our_ip s) (our_netmask s) (our_gateway s) (pkt_id s) (udp_h s) (conns s) (isn_counter s) (socks s) (d_state s) (offered_ip s) (server_ip s) (retry_count s) (d_deadline s) (ticks s) (timer_net_poll s) (umem s).
Definition with_nic {H D} (s : nst H D) (v : e1000_st) : nst H D := mk_nst (heap s) (hw s) v (eth_h s) (our_mac s) (arp_table s) (arp_our_ip s) (ip_h s) (our_ip s) (our_netmask s) (our_gateway s) (pkt_id s) (udp_h s) (conns s) (isn_counter s) (socks s) (d_state s) (offered_ip s) (server_ip s) (retry_count s) (d_deadline s) (ticks s) (timer_net_poll s) (umem s).
Definition with_eth_h {H D} (s : nst H D) (v : list (Z * eth_handler)) : nst H D := mk_nst (heap s) (hw s) (nic s) v (our_mac s) (arp_table s) (arp_our_ip s) (ip_h s) (our_ip s) (our_netmask s) (our_gateway s) (pkt_id s) (udp_h s) (conns s) (isn_counter s) (socks s) (d_state s) (offered_ip s) (server_ip s) (retry_count s) (d_deadline s) (ticks s) (timer_net_poll s) (umem s).
Definition with_our_mac {H D} (s : nst H D) (v : list Z) : nst H D := mk_nst (heap s) (hw s) (nic s) (eth_h s) v (arp_table s) (arp_our_ip s) (ip_h s) (our_ip s) (our_netmask s) (our_gateway s) (pkt_id s) (udp_h s) (conns s) (isn_counter s) (socks s) (d_state s) (offered_ip s) (server_ip s) (retry_count s) (d_deadline s) (ticks s) (timer_net_poll s) (umem s).
Definition with_arp_table {H D} (s : nst H D) (v : list arp_entry) : nst H D := mk_nst (heap s) (hw s) (nic s) (eth_h s) (our_mac s) v (arp_our_ip s) (ip_h s) (our_ip s) (our_netmask s) (our_gateway s) (pkt_id s) (udp_h s) (conns s) (isn_counter s) (socks s) (d_state s) (offered_ip s) (server_ip s) (retry_count s) (d_deadline s) (ticks s) (timer_net_poll s) (umem s).
Definition with_arp_our_ip {H D} (s : nst H D) (v : Z) : nst H D := mk_nst (heap s) (hw s) (nic s) (eth_h s) (our_mac s) (arp_table s) v (ip_h s) (our_ip s) (our_netmask s) (our_gateway s) (pkt_id s) (udp_h s) (conns s) (isn_counter s) (socks s) (d_state s) (offered_ip s) (server_ip s) (retry_count s) (d_deadline s) (ticks s) (timer_net_poll s) (umem s).
Definition with_ip_h {H D} (s : nst H D) (v : list (Z * ip_handler)) : nst H D := mk_nst (heap s) (hw s) (nic s) (eth_h s) (our_mac s) (arp_table s) (arp_our_ip s) v (our_ip s) (our_netmask s) (our_gateway s) (pkt_id s) (udp_h s) (conns s) (isn_counter s) (socks s) (d_state s) (offered_ip s) (server_ip s) (retry_count s) (d_deadline s) (ticks s) (timer_net_poll s) (umem s).
Definition with_our_ip {H D} (s : nst H D) (v : Z) : nst H D := mk_nst (heap s) (hw s) (nic s) (eth_h s) (our_mac s) (arp_table s) (arp_our_ip s) (ip_h s) v (our_netmask s) (our_gateway s) (pkt_id s) (udp_h s) (conns s) (isn_counter s) (socks s) (d_state s) (offered_ip s) (server_ip s) (retry_count s) (d_deadline s) (ticks s) (timer_net_poll s) (umem s).
Definition with_our_netmask {H D} (s : nst H D) (v : Z) : nst H D := mk_nst (heap s) (hw s) (nic s) (eth_h s) (our_mac s) (arp_table s) (arp_our_ip s) (ip_h s) (our_ip s) v (our_gateway s) (pkt_id s) (udp_h s) (conns s) (isn_counter s) (socks s) (d_state s) (offered_ip s) (server_ip s) (retry_count s) (d_deadline s) (ticks s) (timer_net_poll s) (umem s).
Definition with_our_gateway {H D} (s : nst H D) (v : Z) : nst H D := mk_nst (heap s) (hw s) (nic s) (eth_h s) (our_mac s) (arp_table s) (arp_our_ip s) (ip_h s) (our_ip s) (our_netmask s) v (pkt_id s) (udp_h s) (conns s) (isn_counter s) (socks s) (d_state s) (offered_ip s) (server_ip s) (retry_count s) (d_deadline s) (ticks s) (timer_net_poll s) (umem s).
Definition with_pkt_id {H D} (s : nst H D) (v : Z) : nst H D := mk_nst (heap s) (hw s) (nic s) (eth_h s) (our_mac s) (arp_table s) (arp_our_ip s) (ip_h s) (our_ip s) (our_netmask s) (our_gateway s) v (udp_h s) (conns s) (isn_counter s) (socks s) (d_state s) (offered_ip s) (server_ip s) (retry_count s) (d_deadline s) (ticks s) (timer_net_poll s) (umem s).
Definition with_udp_h {H D} (s : nst H D) (v : list (Z * udp_handler)) : nst H D := mk_nst (heap s) (hw s) (nic s) (eth_h s) (our_mac s) (arp_table s) (arp_our_ip s) (ip_h s) (our_ip s) (our_netmask s) (our_gateway s) (pkt_id s) v (conns s) (isn_counter s) (socks s) (d_state s) (offered_ip s) (server_ip s) (retry_count s) (d_deadline s) (ticks s) (timer_net_poll s) (umem s).
Definition with_conns {H D} (s : nst H D) (v : list tcp_conn) : nst H D := mk_nst (heap s) (hw s) (nic s) (eth_h s) (our_mac s) (arp_table s) (arp_our_ip s) (ip_h s) (our_ip s) (our_netmask s) (our_gateway s) (pkt_id s) (udp_h s) v (isn_counter s) (socks s) (d_state s) (offered_ip s) (server_ip s) (retry_count s) (d_deadline s) (ticks s) (timer_net_poll s) (umem s).
Definition with_isn_counter {H D} (s : nst H D) (v : Z) : nst H D := mk_nst (heap s) (hw s) (nic s) (eth_h s) (our_mac s) (arp_table s) (arp_our_ip s) (ip_h s) (our_ip s) (our_netmask s) (our_gateway s) (pkt_id s) (udp_h s) (conns s) v (socks s) (d_state s) (offered_ip s) (server_ip s) (retry_count s) (d_deadline s) (ticks s) (timer_net_poll s) (umem s).
Definition with_socks {H D} (s : nst H D) (v : list sock) : nst H D := mk_nst (heap s) (hw s) (nic s) (eth_h s) (our_mac s) (arp_table s) (arp_our_ip s) (ip_h s) (our_ip s) (our_netmask s) (our_gateway s) (pkt_id s) (udp_h s) (conns s) (isn_counter s) v (d_state s) (offered_ip s) (server_ip s) (retry_count s) (d_deadline s) (ticks s) (timer_net_poll s) (umem s).
Definition with_d_state {H D} (s : nst H D) (v : dhcp_state) : nst H D := mk_nst (heap s) (hw s) (nic s) (eth_h s) (our_mac s) (arp_table s) (arp_our_ip s) (ip_h s) (our_ip s) (our_netmask s) (our_gateway s) (pkt_id s) (udp_h s) (conns s) (isn_counter s) (socks s) v (offered_ip s) (server_ip s) (retry_count s) (d_deadline s) (ticks s) (timer_net_poll s) (umem s).
Definition with_offered_ip {H D} (s : nst H D) (v : Z) : nst H D := mk_nst (heap s) (hw s) (nic s) (eth_h s) (our_mac s) (arp_table s) (arp_our_ip s) (ip_h s) (our_ip s) (our_netmask s) (our_gateway s) (pkt_id s) (udp_h s) (conns s) (isn_counter s) (socks s) (d_state s) v (server_ip s) (retry_count s) (d_deadline s) (ticks s) (timer_net_poll s) (umem s).
Definition with_server_ip {H D} (s : nst H D) (v : Z) : nst H D := mk_nst (heap s) (hw s) (nic s) (eth_h s) (our_mac s) (arp_table s) (arp_our_ip s) (ip_h s) (our_ip s) (our_netmask s) (our_gateway s) (pkt_id s) (udp_h s) (conns s) (isn_counter s) (socks s) (d_state s) (offered_ip s) v (retry_count s) (d_deadline s) (ticks s) (timer_net_poll s) (umem s).
Definition with_retry_count {H D} (s : nst H D) (v : Z) : nst H D := mk_nst (heap s) (hw s) (nic s) (eth_h s) (our_mac s) (arp_table s) (arp_our_ip s) (ip_h s) (our_ip s) (our_netmask s) (our_gateway s) (pkt_id s) (udp_h s) (conns s) (isn_counter s) (socks s) (d_state s) (offered_ip s) (server_ip s) v (d_deadline s) (ticks s) (timer_net_poll s) (umem s).
Definition with_d_deadline {H D} (s : nst H D) (v : Z) : nst H D := mk_nst (heap s) (hw s) (nic s) (eth_h s) (our_mac s) (arp_table s) (arp_our_ip s) (ip_h s) (our_ip s) (our_netmask s) (our_gateway s) (pkt_id s) (udp_h s) (conns s) (isn_counter s) (socks s) (d_state s) (offered_ip s) (server_ip s) (retry_count s) v (ticks s) (timer_net_poll s) (umem s).
Definition with_ticks {H D} (s : nst H D) (v : Z) : nst H D := mk_nst (heap s) (hw s) (nic s) (eth_h s) (our_mac s) (arp_table s) (arp_our_ip s) (ip_h s) (our_ip s) (our_netmask s) (our_gateway s) (pkt_id s) (udp_h s) (conns s) (isn_counter s) (socks s) (d_state s) (offered_ip s) (server_ip s) (retry_count s) (d_deadline s) v (timer_net_poll s) (umem s).
Definition with_timer_net_poll {H D} (s : nst H D) (v : bool) : nst H D := mk_nst (heap s) (hw s) (nic s) (eth_h s) (our_mac s) (arp_table s) (arp_our_ip s) (ip_h s) (our_ip s) (our_netmask s) (our_gateway s) (pkt_id s) (udp_h s) (conns s) (isn_counter s) (socks s) (d_state s) (offered_ip s) (server_ip s) (retry_count s) (d_deadline s) (ticks s) v (umem s).
Definition with_umem {H D} (s : nst H D) (v : mem) : nst H D := mk_nst (heap s) (hw s) (nic s) (eth_h s) (our_mac s) (arp_table s) (arp_our_ip s) (ip_h s) (our_ip s) (our_netmask s) (our_gateway s) (pkt_id s) (udp_h s) (conns s) (isn_counter s) (socks s) (d_state s) (offered_ip s) (server_ip s) (retry_count s) (d_deadline s) (ticks s) (timer_net_poll s) v.

(** ** Tables *)

Definition conn_default : tcp_conn :=
  mk_conn TCP_CLOSED 0 0 0 0 0 0 0 0 0 [] 0 0 0 (zeros 4096) 0 0 cb_null cb_null.
Definition get_conn {H D} (s : nst H D) (i : Z) : tcp_conn := nth (Z.to_nat i) (conns s) conn_default.
Definition set_conn {H D} (s : nst H D) (i : Z) (c : tcp_conn) : nst H D :=
  with_conns s (<[Z.to_nat i := c]> (conns s)).

Definition sock_default : sock := mk_sock SOCK_FREE (-1) 0 0 0 (zeros 2048) 0 0.
Definition get_sock {H D} (s : nst H D) (i : Z) : sock := nth (Z.to_nat i) (socks s) sock_default.
Definition set_sock {H D} (s : nst H D) (i : Z) (k : sock) : nst H D :=
  with_socks s (<[Z.to_nat i := k]> (socks s)).

(** The heap calls on the stack's state. *)
Definition kmalloc {H D} `{!Kheap H} (n : Z) (s : nst H D) : Z * nst H D :=
  let '(p, h) := kh_alloc n (heap s) in (p, with_heap s h).
Definition kfree {H D} `{!Kheap H} (p : Z) (s : nst H D) : nst H D :=
  with_heap s (kh_free p (heap s)).

(** [timer_get_ticks] converted to the [u32] the callers use. *)
Definition timer_ticks32 {H D} (s : nst H D) : Z := u32 (ticks s).

(** ** Sending changes only what is below the connection tables *)

(** [s'] differs from [s] at most in the heap, the card, its driver and the
    datagram counter. *)
Definition sent {H D} (s s' : nst H D) : Prop :=
  exists h d n p, s' = with_pkt_id (with_nic (with_hw (with_heap s h) d) n) p.

Section sent.
Context {H D : Type} `{!Kheap H}.
Implicit Types s : nst H D.

Lemma sent_refl s : sent s s.
Proof. exists (heap s), (hw s), (nic s), (pkt_id s). by destruct s. Qed.
Lemma sent_trans s1 s2 s3 : sent s1 s2 -> sent s2 s3 -> sent s1 s3.
Proof. intros (h & d & n & p & ->) (h' & d' & n' & p' & ->). by exists h', d', n', p'. Qed.
Lemma sent_heap s h : sent s (with_heap s h).
Proof. exists h, (hw s), (nic s), (pkt_id s). by destruct s. Qed.
Lemma sent_hw s d : sent s (with_hw s d).
Proof. exists (heap s), d, (nic s), (pkt_id s). by destruct s. Qed.
Lemma sent_nic s n : sent s (with_nic s n).
Proof. exists (heap s), (hw s), n, (pkt_id s). by destruct s. Qed.
Lemma sent_pkt_id s p : sent s (with_pkt_id s p).
Proof. exists (heap s), (hw s), (nic s), p. by destruct s. Qed.
Lemma sent_kmalloc n s : sent s (snd (kmalloc n s)).
Proof. unfold kmalloc. destruct (kh_alloc n (heap s)). apply sent_heap. Qed.
Lemma sent_kfree p s : sent s (kfree p s).
Proof. apply sent_heap. Qed.

Lemma sent_conns s s' : sent s s' -> conns s' = conns s.
Proof. by intros (h & d & n & p & ->). Qed.
Lemma sent_socks s s' : sent s s' -> socks s' = socks s.
Proof. by intros (h & d & n & p & ->). Qed.
Lemma sent_arp s s' : sent s s' -> arp_table s' = arp_table s.
Proof. by intros (h & d & n & p & ->). Qed.
Lemma sent_ticks s s' : sent s s' -> ticks s' = ticks s.
Proof. by intros (h & d & n & p & ->). Qed.
Lemma sent_conn s s' i : sent s s' -> get_conn s' i = get_conn s i.
Proof. intros Hs. unfold get_conn. by rewrite (sent_conns _ _ Hs). Qed.
End sent.
#[export] Hint Resolve sent_refl sent_heap sent_hw sent_nic sent_pkt_id sent_kmalloc sent_kfree : kernel.

(** ** A concrete machine for the witnesses *)

(** A heap that always has a block (the state counts allocations) and a card
    that has sent every frame by the time the driver looks. *)
#[export] Instance demo_kheap : Kheap Z := {| kh_alloc n h := (4096 * (Z.abs h + 1), Z.abs h + 1); kh_free p h := h |}.
#[export] Instance demo_nichw : NicHw Z := {|
  nic_rd reg d := (0, d);
  nic_wr reg v d := d;
  nic_dma d rd rb td :=
    (d, rd, rb, map (fun t => mk_txd (txd_addr t) (txd_length t) (txd_cso t) (txd_cmd t) 1 (txd_css t) (txd_special t)) td)
|}.

Definition demo_nic : e1000_st :=
  mk_e1000 0 [2; 0; 0; 0; 0; 1] (replicate 32 (mk_rxd 0 0 0)) 0 (replicate 32 (zeros 64)) (replicate 32 0) 0
    (replicate 32 (mk_txd 0 0 0 0 1 0 0)) 0 (replicate 32 (zeros 64)) (replicate 32 0) 0 true true.

(** Address 10.0.2.15/24, gateway 10.0.2.2 known to ARP. *)
Definition demo_net : nst Z Z :=
  mk_nst 0 0 demo_nic [(0x0806, h_arp_rx); (0x0800, h_ipv4_rx)] [2; 0; 0; 0; 0; 1]
    (mk_arp 0x0A000202 [2; 0; 0; 0; 0; 2] :: replicate 15 (mk_arp 0 (zeros 6))) 0x0A00020F
    [(1, h_icmp_rx); (17, h_udp_rx); (6, h_tcp_rx)] 0x0A00020F 0xFFFFFF00 0x0A000202 1 [(68, h_dhcp_rx)]
    (replicate 8 conn_default) 0x12345678 (replicate 16 sock_default) DHCP_STATE_BOUND 0x0A00020F 0x0A000202 0 0
    5000 true (fun _ => 0).
