(* ===== verification/E1000.v ===== *)
(** * Network card driver: src/net/e1000/e1000.c

    The driver programs the 82540EM through memory-mapped registers and shares
    two descriptor rings with it; the card is the [NicHw] interface, whose
    [nic_dma] stands for what the card does to rings and buffers between two
    looks of the driver.  The rings and buffers are lists in the driver's state
    ([kzalloc] gives their addresses, [v2p] is [vmm_get_phys]). *)

From S2P Require Import Prelude Mem Io Pci Packet NetState.

Definition E1000_VENDOR_ID : Z := 0x8086.
Definition E1000_DEVICE_ID : Z := 0x100E.
Definition E1000_REG_CTRL : Z := 0x0000.
Definition E1000_REG_STATUS : Z := 0x0008.
Definition E1000_REG_EERD : Z := 0x0014.
Definition E1000_REG_ICR : Z := 0x00C0.
Definition E1000_REG_IMC : Z := 0x00D8.
Definition E1000_REG_RCTL : Z := 0x0100.
Definition E1000_REG_TCTL : Z := 0x0400.
Definition E1000_REG_TIPG : Z := 0x0410.
Definition E1000_REG_RDBAL : Z := 0x2800.
Definition E1000_REG_RDBAH : Z := 0x2804.
Definition E1000_REG_RDLEN : Z := 0x2808.
Definition E1000_REG_RDH : Z := 0x2810.
Definition E1000_REG_RDT : Z := 0x2818.
Definition E1000_REG_TDBAL : Z := 0x3800.
Definition E1000_REG_TDBAH : Z := 0x3804.
Definition E1000_REG_TDLEN : Z := 0x3808.
Definition E1000_REG_TDH : Z := 0x3810.
Definition E1000_REG_TDT : Z := 0x3818.
Definition E1000_REG_MTA : Z := 0x5200.
Definition E1000_REG_RAL0 : Z := 0x5400.
Definition E1000_REG_RAH0 : Z := 0x5404.
Definition E1000_CTRL_RST : Z := 1 <<b 26.
Definition E1000_CTRL_ASDE : Z := 1 <<b 5.
Definition E1000_CTRL_SLU : Z := 1 <<b 6.
Definition E1000_RCTL_EN : Z := 1 <<b 1.
Definition E1000_RCTL_UPE : Z := 1 <<b 3.
Definition E1000_RCTL_MPE : Z := 1 <<b 4.
Definition E1000_RCTL_BAM : Z := 1 <<b 15.
Definition E1000_RCTL_BSIZE_2K : Z := 0 <<b 16.
Definition E1000_RCTL_SECRC : Z := 1 <<b 26.
Definition E1000_TCTL_EN : Z := 1 <<b 1.
Definition E1000_TCTL_PSP : Z := 1 <<b 3.
Definition E1000_TCTL_CT_SHIFT : Z := 4.
Definition E1000_TCTL_COLD_SHIFT : Z := 12.
Definition E1000_EERD_START : Z := 1 <<b 0.
Definition E1000_EERD_DONE : Z := 1 <<b 4.
Definition E1000_EERD_ADDR_SHIFT : Z := 8.
Definition E1000_EERD_DATA_SHIFT : Z := 16.
Definition E1000_RAH_AV : Z := 1 <<b 31.
Definition E1000_NUM_RX_DESC : Z := 32.
Definition E1000_NUM_TX_DESC : Z := 32.
Definition E1000_RX_BUF_SIZE : Z := 2048.
Definition E1000_MAX_FRAME : Z := 1518.
Definition E1000_RXD_STAT_DD : Z := 1 <<b 0.
Definition E1000_RXD_STAT_EOP : Z := 1 <<b 1.
Definition E1000_TXD_CMD_EOP : Z := 1 <<b 0.
Definition E1000_TXD_CMD_FCS : Z := 1 <<b 1.
Definition E1000_TXD_CMD_RS : Z := 1 <<b 3.
Definition E1000_TXD_STAT_DD : Z := 1 <<b 0.
Definition E1000_POLLS : Z := 100000.

Definition rxd_zero : e1000_rx_desc := mk_rxd 0 0 0.
Definition txd_zero : e1000_tx_desc := mk_txd 0 0 0 0 0 0 0.

Section e1000.
Context {H D : Type} `{!Kheap H} `{!NicHw D} `{!Bus D}.
Implicit Types s : nst H D.

(** ** Registers *)

Definition e1000_write (reg val : Z) s : nst H D := with_hw s (nic_wr reg (u32 val) (hw s)).
Definition e1000_read (reg : Z) s : Z * nst H D :=
  let '(v, d) := nic_rd reg (hw s) in (u32 v, with_hw s d).

(** What the card has done to the shared memory since the last look. *)
Definition dma_sync s : nst H D :=
  let e := nic s in
  let '(d, rd, rb, td) := nic_dma (hw s) (rx_descs e) (rx_bufs e) (tx_descs e) in
  with_nic (with_hw s d) (es_tx_descs (es_rx_bufs (es_rx_descs e rd) rb) td).

Fixpoint eeprom_poll (n : nat) s : Z * nst H D :=
  match n with
  | O => (0, s)
  | S n =>
      let '(v, s) := e1000_read E1000_REG_EERD s in
      if has v E1000_EERD_DONE then (u16 (v >>b E1000_EERD_DATA_SHIFT), s) else eeprom_poll n s
  end.

Definition eeprom_read (addr : Z) s : Z * nst H D :=
  let s := e1000_write E1000_REG_EERD (E1000_EERD_START |b (addr <<b E1000_EERD_ADDR_SHIFT)) s in
  eeprom_poll (Z.to_nat E1000_POLLS) s.

Definition read_mac s : nst H D :=
  let '(w0, s) := eeprom_read 0 s in
  if negb (w0 =? 0) then
    let '(w1, s) := eeprom_read 1 s in
    let '(w2, s) := eeprom_read 2 s in
    with_nic s (es_e_mac (nic s)
      [u8 (w0 &b 0xFF); u8 (w0 >>b 8); u8 (w1 &b 0xFF); u8 (w1 >>b 8); u8 (w2 &b 0xFF); u8 (w2 >>b 8)])
  else
    let '(ral, s) := e1000_read E1000_REG_RAL0 s in
    let '(rah, s) := e1000_read E1000_REG_RAH0 s in
    with_nic s (es_e_mac (nic s)
      [u8 (ral &b 0xFF); u8 ((ral >>b 8) &b 0xFF); u8 ((ral >>b 16) &b 0xFF); u8 ((ral >>b 24) &b 0xFF);
       u8 (rah &b 0xFF); u8 ((rah >>b 8) &b 0xFF)]).

(** ** Rings *)

Section init.
Variable v2p : Z -> Z.

Definition align16 (raw : Z) : Z := u64 (raw + 15) &b not64 15.

(** The loop of [init_rx]: [None] is the early [return -1]. *)
Fixpoint init_rx_loop (n : nat) (i : Z) s : option unit * nst H D :=
  match n with
  | O => (Some tt, s)
  | S n =>
      let '(b, s) := kmalloc E1000_RX_BUF_SIZE s in
      if b =? 0 then (None, s)
      else
        let e := nic s in
        let e := es_rx_bufs e (<[Z.to_nat i := zeros E1000_RX_BUF_SIZE]> (rx_bufs e)) in
        let e := es_rx_bufs_phys e (<[Z.to_nat i := v2p b]> (rx_bufs_phys e)) in
        let d := nth (Z.to_nat i) (rx_descs e) rxd_zero in
        let e := es_rx_descs e (<[Z.to_nat i := mk_rxd (v2p b) (rxd_length d) 0]> (rx_descs e)) in
        init_rx_loop n (i + 1) (with_nic s e)
  end.

Definition init_rx s : Z * nst H D :=
  let '(raw, s) := kmalloc (16 * E1000_NUM_RX_DESC + 16) s in
  if raw =? 0 then (-1, s)
  else
    let e := es_rx_descs (nic s) (replicate 32 rxd_zero) in
    let e := es_rx_descs_phys e (v2p (align16 raw)) in
    let '(r, s) := init_rx_loop 32 0 (with_nic s e) in
    match r with
    | None => (-1, s)
    | Some _ =>
        let s := with_nic s (es_e_rx_tail (nic s) 0) in
        let s := e1000_write E1000_REG_RDBAL (u32 (rx_descs_phys (nic s) &b 0xFFFFFFFF)) s in
        let s := e1000_write E1000_REG_RDBAH (u32 (rx_descs_phys (nic s) >>b 32)) s in
        let s := e1000_write E1000_REG_RDLEN (E1000_NUM_RX_DESC * 16) s in
        let s := e1000_write E1000_REG_RDH 0 s in
        let s := e1000_write E1000_REG_RDT (E1000_NUM_RX_DESC - 1) s in
        let rctl := E1000_RCTL_EN |b E1000_RCTL_BAM |b E1000_RCTL_BSIZE_2K |b E1000_RCTL_SECRC |b
                    E1000_RCTL_UPE |b E1000_RCTL_MPE in
        (0, e1000_write E1000_REG_RCTL rctl s)
    end.

Fixpoint init_tx_loop (n : nat) (i : Z) s : option unit * nst H D :=
  match n with
  | O => (Some tt, s)
  | S n =>
      let '(b, s) := kmalloc E1000_RX_BUF_SIZE s in
      if b =? 0 then (None, s)
      else
        let e := nic s in
        let e := es_tx_bufs e (<[Z.to_nat i := zeros E1000_RX_BUF_SIZE]> (tx_bufs e)) in
        let e := es_tx_bufs_phys e (<[Z.to_nat i := v2p b]> (tx_bufs_phys e)) in
        let d := nth (Z.to_nat i) (tx_descs e) txd_zero in
        let e := es_tx_descs e (<[Z.to_nat i := mk_txd (txd_addr d) (txd_length d) (txd_cso d) (txd_cmd d)
                                                E1000_TXD_STAT_DD (txd_css d) (txd_special d)]> (tx_descs e)) in
        init_tx_loop n (i + 1) (with_nic s e)
  end.

Definition init_tx s : Z * nst H D :=
  let '(raw, s) := kmalloc (16 * E1000_NUM_TX_DESC + 16) s in
  if raw =? 0 then (-1, s)
  else
    let e := es_tx_descs (nic s) (replicate 32 txd_zero) in
    let e := es_tx_descs_phys e (v2p (align16 raw)) in
    let '(r, s) := init_tx_loop 32 0 (with_nic s e) in
    match r with
    | None => (-1, s)
    | Some _ =>
        let s := with_nic s (es_e_tx_tail (nic s) 0) in
        let s := e1000_write E1000_REG_TDBAL (u32 (tx_descs_phys (nic s) &b 0xFFFFFFFF)) s in
        let s := e1000_write E1000_REG_TDBAH (u32 (tx_descs_phys (nic s) >>b 32)) s in
        let s := e1000_write E1000_REG_TDLEN (E1000_NUM_TX_DESC * 16) s in
        let s := e1000_write E1000_REG_TDH 0 s in
        let s := e1000_write E1000_REG_TDT 0 s in
        let tctl := E1000_TCTL_EN |b E1000_TCTL_PSP |b (15 <<b E1000_TCTL_CT_SHIFT) |b
                    (63 <<b E1000_TCTL_COLD_SHIFT) in
        let s := e1000_write E1000_REG_TCTL tctl s in
        (0, e1000_write E1000_REG_TIPG ((6 <<b 20) |b (8 <<b 10) |b 10) s)
    end.

(** [for (i = 0; i < 128; i++) e1000_write(E1000_REG_MTA + i * 4, 0);] *)
Fixpoint clear_mta (n : nat) (i : Z) s : nst H D :=
  match n with O => s | S n => clear_mta n (i + 1) (e1000_write (E1000_REG_MTA + i * 4) 0 s) end.

Definition e1000_dev_zero (e : e1000_st) : e1000_st :=
  mk_e1000 0 (zeros 6) [] 0 (replicate 32 []) (replicate 32 0) 0 [] 0 (replicate 32 []) (replicate 32 0) 0
    (e1000_ready e) (rx_callback e).

Definition e1000_init_impl (devs : list pci_device) s : Z * nst H D :=
  let s := with_nic s (e1000_dev_zero (nic s)) in
  match pci_find_device devs E1000_VENDOR_ID E1000_DEVICE_ID with
  | None => (-1, s)
  | Some pci =>
      let mmio_phys := nth 0 (bar pci) 0 &b not32 0xF in
      let mmio_va := u64 (0xFFFFFFFF40000000 + (mmio_phys - 0xC0000000)) in
      let s := with_nic s (es_e_mmio (nic s) mmio_va) in
      let '(cmd, d) := pci_read32 pci 0x04 (hw s) in
      let s := with_hw s (pci_write32 pci 0x04 (cmd |b (1 <<b 2)) d) in
      let '(ctrl, s) := e1000_read E1000_REG_CTRL s in
      let s := e1000_write E1000_REG_CTRL (ctrl |b E1000_CTRL_RST) s in
      let '(ctrl, s) := e1000_read E1000_REG_CTRL s in
      if has ctrl E1000_CTRL_RST then (-1, s)
      else
        let '(ctrl, s) := e1000_read E1000_REG_CTRL s in
        let s := e1000_write E1000_REG_CTRL (ctrl |b E1000_CTRL_SLU |b E1000_CTRL_ASDE) s in
        let s := clear_mta 128 0 s in
        let s := read_mac s in
        let m i := nth i (e_mac (nic s)) 0 in
        let ral := m 0%nat |b (m 1%nat <<b 8) |b (m 2%nat <<b 16) |b (m 3%nat <<b 24) in
        let rah := m 4%nat |b (m 5%nat <<b 8) |b E1000_RAH_AV in
        let s := e1000_write E1000_REG_RAL0 ral s in
        let s := e1000_write E1000_REG_RAH0 rah s in
        let s := e1000_write E1000_REG_IMC 0xFFFFFFFF s in
        let '(_, s) := e1000_read E1000_REG_ICR s in
        let '(r, s) := init_rx s in
        if r <? 0 then (-1, s)
        else
          let '(r, s) := init_tx s in
          if r <? 0 then (-1, s)
          else
            let s := with_nic s (es_e1000_ready (nic s) true) in
            let '(_, s) := e1000_read E1000_REG_STATUS s in
            (0, s)
  end.
End init.

(** ** Sending and receiving *)

Fixpoint tx_wait (n : nat) (idx : Z) s : bool * nst H D :=
  match n with
  | O => (false, s)
  | S n =>
      let s := dma_sync s in
      if has (txd_status (nth (Z.to_nat idx) (tx_descs (nic s)) txd_zero)) E1000_TXD_STAT_DD then (true, s)
      else tx_wait n idx s
  end.

Definition e1000_send (buf : list Z) (n : Z) s : Z * nst H D :=
  if negb (e1000_ready (nic s)) then (-1, s)
  else if E1000_MAX_FRAME <? n then (-1, s)
  else
    let idx := e_tx_tail (nic s) mod E1000_NUM_TX_DESC in
    let '(free, s) := tx_wait (Z.to_nat E1000_POLLS) idx s in
    if negb free then (-1, s)
    else
      let e := nic s in
      let old := nth (Z.to_nat idx) (tx_bufs e) [] in
      let e := es_tx_bufs e (<[Z.to_nat idx := wr old 0 (sub buf 0 n)]> (tx_bufs e)) in
      let d := mk_txd (nth (Z.to_nat idx) (tx_bufs_phys e) 0) n 0
                 (E1000_TXD_CMD_EOP |b E1000_TXD_CMD_FCS |b E1000_TXD_CMD_RS) 0 0 0 in
      let e := es_tx_descs e (<[Z.to_nat idx := d]> (tx_descs e)) in
      let e := es_e_tx_tail e ((idx + 1) mod E1000_NUM_TX_DESC) in
      let s := with_nic s e in
      (0, e1000_write E1000_REG_TDT (e_tx_tail (nic s)) s).

Definition e1000_register_rx_callback s : nst H D := with_nic s (es_rx_callback (nic s) true).

Definition e1000_get_mac s : list Z := e_mac (nic s).

(** [e1000_poll]: [cb] is the registered callback.  The loop ends when the next
    descriptor is not done; [None] when it has not within [fuel] frames. *)
Fixpoint e1000_poll_loop (cb : Z -> list Z -> Z -> nst H D -> nst H D) (fuel : nat) s : option (nst H D) :=
  match fuel with
  | O => None
  | S fuel =>
      let s := dma_sync s in
      let idx := e_rx_tail (nic s) mod E1000_NUM_RX_DESC in
      let d := nth (Z.to_nat idx) (rx_descs (nic s)) rxd_zero in
      if negb (has (rxd_status d) E1000_RXD_STAT_DD) then Some s
      else
        let n := rxd_length d in
        let s :=
          if (0 <? n) && has (rxd_status d) E1000_RXD_STAT_EOP then
            if rx_callback (nic s) then
              let '(frame, s) := kmalloc n s in
              if negb (frame =? 0) then cb frame (sub (nth (Z.to_nat idx) (rx_bufs (nic s)) []) 0 n) n s else s
            else s
          else s in
        let e := nic s in
        let d := nth (Z.to_nat idx) (rx_descs e) rxd_zero in
        let e := es_rx_descs e (<[Z.to_nat idx := mk_rxd (nth (Z.to_nat idx) (rx_bufs_phys e) 0) (rxd_length d) 0]> (rx_descs e)) in
        let e := es_e_rx_tail e ((idx + 1) mod E1000_NUM_RX_DESC) in
        e1000_poll_loop cb fuel (e1000_write E1000_REG_RDT idx (with_nic s e))
  end.

Definition e1000_poll (cb : Z -> list Z -> Z -> nst H D -> nst H D) (fuel : nat) s : option (nst H D) :=
  if negb (e1000_ready (nic s)) then Some s else e1000_poll_loop cb fuel s.
End e1000.

(** Transmitting touches only the card, its driver and the heap. *)
Section frame.
Context {H D : Type} `{!Kheap H} `{!NicHw D}.
Implicit Types s : nst H D.

Lemma sent_dma s : sent s (dma_sync s).
Proof.
  unfold dma_sync. destruct (nic_dma _ _ _ _) as [[[d rd] rb] td].
  eapply sent_trans; [apply sent_hw|apply sent_nic].
Qed.

Lemma sent_tx_wait n idx s : sent s (snd (tx_wait n idx s)).
Proof.
  revert s. induction n as [|n IH]; intros s; [apply sent_refl|]. cbn [tx_wait].
  destruct (has _ _); [apply sent_dma|]. eapply sent_trans; [apply sent_dma|apply IH].
Qed.

Lemma sent_e1000_send buf n s : sent s (snd (e1000_send buf n s)).
Proof.
  unfold e1000_send. destruct (negb _); [apply sent_refl|]. destruct (_ <? n); [apply sent_refl|].
  generalize (Z.to_nat E1000_POLLS). intros k.
  pose proof (sent_tx_wait k (e_tx_tail (nic s) mod E1000_NUM_TX_DESC) s) as Hw.
  destruct (tx_wait _ _ s) as [free s']. cbn [snd] in Hw. destruct (negb free); [exact Hw|].
  eapply sent_trans; [exact Hw|]. eapply sent_trans; [apply sent_nic|apply sent_hw].
Qed.
End frame.
