(* ===== verification/Ether.v ===== *)
(** * Ethernet and ARP: src/net/ethernet/ethernet.c, src/net/arp/arp.c

    Theorems: a frame built by [ethernet_send] is dispatched by [ethernet_rx] to
    the handler of its type with the payload and the sender's address intact;
    [arp_insert] makes the address it is given resolvable and disturbs no other
    entry unless the table is full; every well-formed ARP packet teaches the
    sender's address. *)

From S2P Require Import Prelude Mem Io Packet NetState E1000.

Definition ETHERTYPE_IPV4 : Z := 0x0800.
Definition ETHERTYPE_ARP : Z := 0x0806.
Definition ETH_MAX_PAYLOAD : Z := 1500.
Definition ETH_HEADER_LEN : Z := 14.
Definition ETH_MAX_HANDLERS : Z := 8.
Definition ARP_HTYPE_ETHERNET : Z := 1.
Definition ARP_PTYPE_IPV4 : Z := 0x0800.
Definition ARP_OP_REQUEST : Z := 1.
Definition ARP_OP_REPLY : Z := 2.
Definition ARP_TABLE_SIZE : Z := 16.
Definition ARP_PKT_LEN : Z := 28.
Definition broadcast_mac : list Z := [0xFF; 0xFF; 0xFF; 0xFF; 0xFF; 0xFF].

Section ether.
Context {H D : Type} `{!Kheap H} `{!NicHw D}.
Implicit Types s : nst H D.

(** ** Ethernet *)

(** [ethernet_rx]: [dispatch] runs a registered handler on (payload, length,
    source MAC); [p] is the heap block that holds the frame. *)
Definition ethernet_rx (dispatch : eth_handler -> list Z -> Z -> list Z -> nst H D -> nst H D)
    (p : Z) (buf : list Z) (total_len : Z) s : nst H D :=
  if total_len <? ETH_HEADER_LEN then kfree p s
  else
    let type := ntohs (rd16 buf 12) in
    let payload_len := u16 (total_len - ETH_HEADER_LEN) in
    let payload := drop 14 buf in
    let s :=
      match List.find (fun e => fst e =? type) (eth_h s) with
      | Some (_, h) => dispatch h payload payload_len (sub buf 6 6) s
      | None => s
      end in
    kfree p s.

Definition ethernet_register (ethertype : Z) (h : eth_handler) s : Z * nst H D :=
  if ETH_MAX_HANDLERS <=? Z.of_nat (length (eth_h s)) then (-1, s)
  else (0, with_eth_h s (eth_h s ++ [(ethertype, h)])).

(** The frame [ethernet_send] builds. *)
Definition eth_frame (dst src : list Z) (type : Z) (payload : list Z) (n : Z) : list Z :=
  dst ++ src ++ le16 (htons type) ++ sub payload 0 n.

Definition ethernet_send (dst : list Z) (type : Z) (payload : list Z) (n : Z) s : Z * nst H D :=
  if ETH_MAX_PAYLOAD <? n then (-1, s)
  else
    let frame_len := u16 (ETH_HEADER_LEN + n) in
    let '(p, s) := kmalloc frame_len s in
    if p =? 0 then (-1, s)
    else
      let frame := eth_frame dst (our_mac s) type payload n in
      let '(ret, s) := e1000_send frame frame_len s in
      (ret, kfree p s).

Definition ethernet_poll (dispatch : eth_handler -> list Z -> Z -> list Z -> nst H D -> nst H D)
    (fuel : nat) s : option (nst H D) :=
  e1000_poll (ethernet_rx dispatch) fuel s.

Definition ethernet_get_mac s : list Z := our_mac s.

Definition ethernet_init_impl s : Z * nst H D :=
  let s := with_eth_h s [] in
  let s := with_our_mac s (e1000_get_mac s) in
  (0, e1000_register_rx_callback s).

(** ** ARP *)

Definition arp_lookup (ip : Z) s : option (list Z) :=
  match List.find (fun e => arp_e_ip e =? ip) (arp_table s) with
  | Some e => Some (arp_e_mac e)
  | None => None
  end.

Definition arp_insert (ip : Z) (mac : list Z) s : nst H D :=
  let t := arp_table s in
  match first_idx (fun e => arp_e_ip e =? ip) t with
  | Some i => with_arp_table s (<[i := mk_arp ip mac]> t)
  | None =>
      match first_idx (fun e => arp_e_ip e =? 0) t with
      | Some i => with_arp_table s (<[i := mk_arp ip mac]> t)
      | None => with_arp_table s (<[0%nat := mk_arp ip mac]> t)
      end
  end.

(** The 28 bytes of an ARP packet. *)
Definition arp_pkt (oper : Z) (sha spa tha tpa : list Z) : list Z :=
  le16 (htons ARP_HTYPE_ETHERNET) ++ le16 (htons ARP_PTYPE_IPV4) ++ [6; 4] ++ le16 (htons oper) ++
  sha ++ spa ++ tha ++ tpa.

Definition arp_request (ip : Z) s : nst H D :=
  let pkt := arp_pkt ARP_OP_REQUEST (ethernet_get_mac s) (le32 (htonl (arp_our_ip s))) (zeros 6) (le32 (htonl ip)) in
  snd (ethernet_send broadcast_mac ETHERTYPE_ARP pkt ARP_PKT_LEN s).

Definition arp_rx (payload : list Z) (n : Z) (src_mac : list Z) s : nst H D :=
  if n <? ARP_PKT_LEN then s
  else if negb (ntohs (rd16 payload 0) =? ARP_HTYPE_ETHERNET) then s
  else if negb (ntohs (rd16 payload 2) =? ARP_PTYPE_IPV4) then s
  else if negb (rd8 payload 4 =? 6) || negb (rd8 payload 5 =? 4) then s
  else
    let oper := ntohs (rd16 payload 6) in
    let sha := sub payload 8 6 in
    let sender_ip := ntohl (rd32 payload 14) in
    let s := if negb (sender_ip =? 0) then arp_insert sender_ip sha s else s in
    if (oper =? ARP_OP_REQUEST) && negb (arp_our_ip s =? 0) then
      let target_ip := ntohl (rd32 payload 24) in
      if negb (target_ip =? arp_our_ip s) then s
      else
        let reply := arp_pkt ARP_OP_REPLY (ethernet_get_mac s) (le32 (htonl (arp_our_ip s))) sha (sub payload 14 4) in
        snd (ethernet_send sha ETHERTYPE_ARP reply ARP_PKT_LEN s)
    else s.

Definition arp_set_ip (ip : Z) s : nst H D := with_arp_our_ip s ip.

Definition arp_init_impl s : Z * nst H D :=
  let s := with_arp_table s (replicate 16 (mk_arp 0 (zeros 6))) in
  let s := with_arp_our_ip s 0 in
  (0, snd (ethernet_register ETHERTYPE_ARP h_arp_rx s)).
End ether.

(** ** Frame of the sending functions *)

Section ether_proofs.
Context {H D : Type} `{!Kheap H} `{!NicHw D}.
Implicit Types s : nst H D.

Lemma sent_ethernet_send dst type payload n s : sent s (snd (ethernet_send dst type payload n s)).
Proof.
  unfold ethernet_send. destruct (_ <? n); [apply sent_refl|].
  pose proof (sent_kmalloc (u16 (ETH_HEADER_LEN + n)) s) as Hk.
  destruct (kmalloc _ s) as [p s1]. cbn [snd] in Hk. destruct (p =? 0); [exact Hk|].
  pose proof (sent_e1000_send (eth_frame dst (our_mac s1) type payload n) (u16 (ETH_HEADER_LEN + n)) s1) as He.
  destruct (e1000_send _ _ s1) as [r s2]. cbn [snd] in *.
  eapply sent_trans; [exact Hk|]. eapply sent_trans; [exact He|]. apply sent_kfree.
Qed.

Lemma sent_arp_request ip s : sent s (arp_request ip s).
Proof. apply sent_ethernet_send. Qed.

(** ** Properties *)

Lemma find_first_idx {A} (P : A -> bool) l :
  List.find P l = match first_idx P l with Some i => l !! i | None => None end.
Proof.
  induction l as [|a l IH]; [done|]. simpl. destruct (P a); [done|].
  rewrite IH. by destruct (first_idx P l).
Qed.

Lemma find_insert_same {A} (P : A -> bool) l i x y : l !! i = Some y -> P y = false -> P x = false ->
  List.find P (<[i := x]> l) = List.find P l.
Proof.
  revert i. induction l as [|a l IH]; intros [|i] Hi Hy Hx; simpl in *; simplify_eq; [by rewrite Hx, Hy|].
  destruct (P a); [done|]. by apply IH.
Qed.

Lemma arp_lookup_insert_at ip mac s i e : arp_table s !! i = Some e ->
  (forall j f, (j < i)%nat -> arp_table s !! j = Some f -> arp_e_ip f <> ip) ->
  arp_lookup ip (with_arp_table s (<[i := mk_arp ip mac]> (arp_table s))) = Some mac.
Proof.
  intros Hi Hmin. unfold arp_lookup. cbn [arp_table with_arp_table]. rewrite find_first_idx.
  assert (first_idx (fun e => arp_e_ip e =? ip) (<[i := mk_arp ip mac]> (arp_table s)) = Some i) as ->.
  { apply first_idx_Some. split.
    - exists (mk_arp ip mac). split; [|apply Z.eqb_refl].
      apply list_lookup_insert_eq. by eapply lookup_lt_Some.
    - intros j f Hj Hf. rewrite list_lookup_insert_ne in Hf by lia. apply Z.eqb_neq. by eapply Hmin. }
  rewrite list_lookup_insert_eq by (by eapply lookup_lt_Some). done.
Qed.

Lemma arp_lookup_insert_other ip ip' mac s i e : arp_table s !! i = Some e -> arp_e_ip e <> ip' -> ip <> ip' ->
  arp_lookup ip' (with_arp_table s (<[i := mk_arp ip mac]> (arp_table s))) = arp_lookup ip' s.
Proof.
  intros Hi He Hne. unfold arp_lookup. cbn [arp_table with_arp_table].
  erewrite find_insert_same; [done|exact Hi|by apply Z.eqb_neq|by apply Z.eqb_neq].
Qed.

(** Where [arp_insert] writes. *)
Lemma arp_insert_cases ip mac s : (0 < length (arp_table s))%nat ->
  exists i e, arp_table s !! i = Some e /\
    arp_insert ip mac s = with_arp_table s (<[i := mk_arp ip mac]> (arp_table s)) /\
    (forall j f, (j < i)%nat -> arp_table s !! j = Some f -> arp_e_ip f <> ip) /\
    (arp_e_ip e = ip \/ arp_e_ip e = 0 \/
     (i = 0%nat /\ Forall (fun f => arp_e_ip f <> ip /\ arp_e_ip f <> 0) (arp_table s))).
Proof.
  intros Hlen. unfold arp_insert.
  destruct (first_idx (fun e => arp_e_ip e =? ip) (arp_table s)) as [i|] eqn:E.
  { apply first_idx_Some in E as [(e & Hi & He) Hmin]. apply Z.eqb_eq in He. exists i, e.
    split; [done|]. split; [done|]. split; [|by left]. intros j f Hj Hf. by apply Z.eqb_neq, (Hmin j). }
  apply first_idx_None in E. rewrite Forall_forall in E.
  assert (forall j f, arp_table s !! j = Some f -> arp_e_ip f <> ip) as Hno.
  { intros j f Hf. apply Z.eqb_neq, E. by eapply list_elem_of_lookup_2. }
  destruct (first_idx (fun e => arp_e_ip e =? 0) (arp_table s)) as [i|] eqn:E0.
  { apply first_idx_Some in E0 as [(e & Hi & He) _]. apply Z.eqb_eq in He. exists i, e.
    split; [done|]. split; [done|]. split; [|by right; left]. intros j f _ Hf. by eapply Hno. }
  apply first_idx_None in E0. destruct (arp_table s) as [|e l] eqn:Ht; [simpl in Hlen; lia|].
  exists 0%nat, e. split; [done|]. split; [done|]. split; [intros j f Hj; lia|]. right; right. split; [done|].
  rewrite Forall_forall in E0 |- *. intros f Hf. split; apply Z.eqb_neq; [by apply E|by apply E0].
Qed.

(** [arp_insert] makes the inserted address resolve to the inserted MAC, and
    every other address resolves as before, unless the table was full of other
    addresses and the other one sat in slot 0, the slot the code evicts. *)
Theorem arp_insert_lookup ip mac s (Hlen : (0 < length (arp_table s))%nat) :
  arp_lookup ip (arp_insert ip mac s) = Some mac /\
  forall ip', ip' <> ip -> ip' <> 0 ->
    (Forall (fun f => arp_e_ip f <> ip /\ arp_e_ip f <> 0) (arp_table s) ->
     exists e, arp_table s !! 0%nat = Some e /\ arp_e_ip e <> ip') ->
    arp_lookup ip' (arp_insert ip mac s) = arp_lookup ip' s.
Proof.
  destruct (arp_insert_cases ip mac s Hlen) as (i & e & Hi & -> & Hmin & Hold).
  split; [by eapply arp_lookup_insert_at|]. intros ip' Hne H0 Hev.
  eapply arp_lookup_insert_other; [exact Hi| |done].
  destruct Hold as [->|[->|[-> Hfull]]]; [done|done|].
  destruct (Hev Hfull) as (e' & He' & Hip). by rewrite Hi in He'; injection He' as ->.
Qed.

(** Link-layer round trip: the frame [ethernet_send] builds for a payload is, on
    arrival, dispatched to the handler registered for its type with exactly that
    payload (and what padding the link has appended), the length and the sender's MAC,
    and is dropped when no handler is registered; the frame buffer is freed in either
    case. *)
Theorem eth_roundtrip dispatch dst src type payload pad p s
  (Hdst : length dst = 6%nat) (Hsrc : length src = 6%nat) (Htype : 0 <= type < 2 ^ 16)
  (Hlen : len payload + len pad <= ETH_MAX_PAYLOAD) :
  let n := len payload in
  let frame := eth_frame dst src type payload n in
  len frame = u16 (ETH_HEADER_LEN + n) /\
  ethernet_rx dispatch p (frame ++ pad) (len (frame ++ pad)) s =
    kfree p (match List.find (fun e => fst e =? type) (eth_h s) with
             | Some (_, h) => dispatch h (payload ++ pad) (n + len pad) src s
             | None => s
             end).
Proof.
  intros n frame. unfold len, ETH_MAX_PAYLOAD, ETH_HEADER_LEN in *. subst n frame.
  assert (sub payload 0 (Z.of_nat (length payload)) = payload) as Hsub.
  { unfold sub. rewrite Nat2Z.id. by apply take_ge. }
  unfold eth_frame. rewrite Hsub.
  destruct dst as [|d0 [|d1 [|d2 [|d3 [|d4 [|d5 [|? ?] ] ] ] ] ] ]; try discriminate Hdst.
  destruct src as [|s0 [|s1 [|s2 [|s3 [|s4 [|s5 [|? ?] ] ] ] ] ] ]; try discriminate Hsrc.
  rewrite le16_htons by done. cbn [app length]. rewrite length_app.
  assert (forall k, Z.of_nat (S (S (S (S (S (S (S (S (S (S (S (S (S (S k)))))))))))))) = 14 + Z.of_nat k) as E by lia.
  rewrite !E. split; [symmetry; apply u16_small; lia|].
  unfold ethernet_rx. destruct (Z.ltb_spec (14 + Z.of_nat (length payload + length pad)) ETH_HEADER_LEN) as [Hlt|_];
    [unfold ETH_HEADER_LEN in Hlt; lia|].
  change ETH_HEADER_LEN with 14.
  replace (u16 (14 + Z.of_nat (length payload + length pad) - 14)) with (Z.of_nat (length payload) + Z.of_nat (length pad))
    by (rewrite u16_small by lia; lia).
  match goal with |- context [rd16 ?l 12] => change (rd16 l 12) with (type / 256 + 2 ^ 8 * (type mod 256)) end.
  rewrite ntohs_bytes by (unfold is_byte; zlia).
  replace (type / 256 * 256 + type mod 256) with type by zlia. done.
Qed.

(** Address learning: a received Ethernet/IPv4 ARP packet (request or reply)
    with a nonzero sender address leaves that address resolvable to the sender's
    MAC, whether or not a reply is sent. *)
Theorem arp_rx_learns payload n mac s (Hlen : (0 < length (arp_table s))%nat) (Hn : ARP_PKT_LEN <= n)
  (Hh : ntohs (rd16 payload 0) = ARP_HTYPE_ETHERNET) (Hp : ntohs (rd16 payload 2) = ARP_PTYPE_IPV4)
  (Hl : rd8 payload 4 = 6 /\ rd8 payload 5 = 4) (Hip : ntohl (rd32 payload 14) <> 0) :
  arp_lookup (ntohl (rd32 payload 14)) (arp_rx payload n mac s) = Some (sub payload 8 6).
Proof.
  unfold arp_rx. destruct (Z.ltb_spec n ARP_PKT_LEN); [lia|]. destruct Hl as [H4 H5].
  rewrite Hh, Hp, H4, H5, !Z.eqb_refl. cbn [negb orb].
  destruct (Z.eqb_spec (ntohl (rd32 payload 14)) 0) as [|_]; [done|]. cbn [negb].
  destruct (arp_insert_cases (ntohl (rd32 payload 14)) (sub payload 8 6) s Hlen) as (i & e & Hi & E & Hmin & _).
  pose proof (arp_lookup_insert_at _ (sub payload 8 6) s i e Hi Hmin) as Hres. rewrite <- E in Hres.
  destruct (_ && _); [|exact Hres]. destruct (negb _); [exact Hres|].
  unfold arp_lookup in *. rewrite (sent_arp _ _ (sent_ethernet_send _ _ _ _ _)). exact Hres.
Qed.
End ether_proofs.

(** ** Witnesses *)

Lemma arp_insert_lookup_witness :
  arp_lookup 0x0A000203 (arp_insert 0x0A000203 [2; 0; 0; 0; 0; 3] demo_net) = Some [2; 0; 0; 0; 0; 3].
Proof.
  apply (arp_insert_lookup 0x0A000203 [2; 0; 0; 0; 0; 3] demo_net). simpl. lia.
Defined.

Lemma eth_roundtrip_witness :
  let frame := eth_frame [2; 0; 0; 0; 0; 1] [2; 0; 0; 0; 0; 2] 0x0800 [1; 2; 3] 3 in
  len frame = 17 /\
  ethernet_rx (fun _ p n m s => with_pkt_id s (n + nth 2 p 0)) 64 (frame ++ [0; 0]) 19 demo_net = with_pkt_id demo_net 8.
Proof.
  destruct (eth_roundtrip (fun _ p n m s => with_pkt_id s (n + nth 2 p 0)) [2; 0; 0; 0; 0; 1] [2; 0; 0; 0; 0; 2]
    0x0800 [1; 2; 3] [0; 0] 64 demo_net eq_refl eq_refl ltac:(lia) ltac:(vm_compute; discriminate)) as [H1 H2].
  split; [exact H1|]. refine (eq_trans H2 _). reflexivity.
Defined.

Lemma arp_rx_learns_witness :
  arp_lookup 0x0A000263
    (arp_rx (arp_pkt ARP_OP_REQUEST [2; 0; 0; 0; 0; 99] [10; 0; 2; 99] (zeros 6) [10; 0; 2; 15]) 28 [] demo_net)
  = Some [2; 0; 0; 0; 0; 99].
Proof.
  exact (arp_rx_learns (arp_pkt ARP_OP_REQUEST [2; 0; 0; 0; 0; 99] [10; 0; 2; 99] (zeros 6) [10; 0; 2; 15]) 28 []
    demo_net ltac:(simpl; lia) ltac:(unfold ARP_PKT_LEN; lia) eq_refl eq_refl (conj eq_refl eq_refl)
    ltac:(vm_compute; discriminate)).
Defined.
