(* ===== verification/Ipv4.v ===== *)
(** * IPv4 and ICMP: src/net/ipv4/ipv4.c, src/net/icmp/icmp.c

    Theorems: a datagram built by [ipv4_send] has a valid header checksum and is
    delivered by [ipv4_rx] of a host that accepts its destination to the handler
    of its protocol with payload, length and addresses intact; of arbitrary bytes, exactly
    the whole datagrams with a well-formed header for this host reach a handler; an echo
    reply is the request with type 0 and a valid checksum. *)

From S2P Require Import Prelude Mem Io Packet NetState E1000 Ether.

Definition IP_VERSION : Z := 4.
Definition IP_VER_IHL : Z := 0x45.
Definition IP_DEFAULT_TTL : Z := 64.
Definition IP_HDR_LEN : Z := 20.
Definition IP_FLAG_DF : Z := 0x4000.
Definition IPV4_MAX_HANDLERS : Z := 8.
Definition ICMP_TYPE_ECHO_REPLY : Z := 0.
Definition ICMP_TYPE_ECHO_REQUEST : Z := 8.
Definition ICMP_HDR_LEN : Z := 8.

Section ipv4.
Context {H D : Type} `{!Kheap H} `{!NicHw D}.
Implicit Types s : nst H D.

(** ** Receiving *)

(** The checks of [ipv4_rx] before dispatch: [None] when the datagram is
    dropped, else header length, total length, source and destination. *)
Definition ipv4_accept (payload : list Z) (n : Z) s : option (Z * Z * Z * Z) :=
  if n <? IP_HDR_LEN then None
  else if negb (rd8 payload 0 >>b 4 =? IP_VERSION) then None
  else
    let ihl := u8 ((rd8 payload 0 &b 0x0F) * 4) in
    if (ihl <? IP_HDR_LEN) || (n <? ihl) then None
    else
      let total := ntohs (rd16 payload 2) in
      if (total <? ihl) || (n <? total) then None
      else
        let frag := ntohs (rd16 payload 6) in
        if negb (frag &b 0x1FFF =? 0) then None
        else if has frag 0x2000 then None
        else
          let src := ntohl (rd32 payload 12) in
          let dst := ntohl (rd32 payload 16) in
          let bcast := (our_ip s &b our_netmask s) |b not32 (our_netmask s) in
          if negb (our_ip s =? 0) &&
             (negb (dst =? our_ip s) && negb (dst =? bcast) && negb (dst =? 0xFFFFFFFF))
          then None
          else Some (ihl, total, src, dst).

Definition ipv4_rx (dispatch : ip_handler -> list Z -> Z -> Z -> Z -> nst H D -> nst H D)
    (payload : list Z) (n : Z) (src_mac : list Z) s : nst H D :=
  match ipv4_accept payload n s with
  | None => s
  | Some (ihl, total, src, dst) =>
      match List.find (fun e => fst e =? rd8 payload 9) (ip_h s) with
      | Some (_, h) => dispatch h (drop (Z.to_nat ihl) payload) (u16 (total - ihl)) src dst s
      | None => s
      end
  end.

Definition ipv4_register (proto : Z) (h : ip_handler) s : Z * nst H D :=
  if IPV4_MAX_HANDLERS <=? Z.of_nat (length (ip_h s)) then (-1, s)
  else (0, with_ip_h s (ip_h s ++ [(proto, h)])).

Definition ipv4_set_addr (ip netmask gateway : Z) s : nst H D :=
  let s := with_our_ip s ip in
  let s := with_our_netmask s netmask in
  let s := with_our_gateway s gateway in
  arp_set_ip ip s.

Definition ipv4_get_addr s : Z := our_ip s.

(** ** Sending *)

(** The 20 header bytes with the checksum field given. *)
Definition ip_hdr (total id proto csum src dst : Z) : list Z :=
  [IP_VER_IHL; 0] ++ le16 (htons total) ++ le16 (htons id) ++ le16 (htons IP_FLAG_DF) ++
  [IP_DEFAULT_TTL; proto] ++ le16 csum ++ le32 (htonl src) ++ le32 (htonl dst).

(** The datagram [ipv4_send] hands to the link layer. *)
Definition ip_datagram (id proto src dst : Z) (payload : list Z) (n : Z) : list Z :=
  let total := u16 (IP_HDR_LEN + n) in
  let csum := ip_checksum (ip_hdr total id proto 0 src dst) IP_HDR_LEN in
  ip_hdr total id proto csum src dst ++ sub payload 0 n.

Definition next_hop (dst_ip : Z) s : Z :=
  if negb (our_ip s =? 0) && negb (our_netmask s =? 0) then
    if negb (dst_ip &b our_netmask s =? our_ip s &b our_netmask s) then our_gateway s else dst_ip
  else dst_ip.

Definition ipv4_send (dst_ip proto : Z) (payload : list Z) (n : Z) s : Z * nst H D :=
  if u16 (1500 - IP_HDR_LEN) <? n then (-1, s)
  else
    let hop := next_hop dst_ip s in
    let mac := if (hop =? 0xFFFFFFFF) || (dst_ip =? 0xFFFFFFFF) then Some broadcast_mac else arp_lookup hop s in
    match mac with
    | None => (-1, arp_request hop s)
    | Some dst_mac =>
        let id := pkt_id s in
        let s := with_pkt_id s (u16 (pkt_id s + 1)) in
        ethernet_send dst_mac ETHERTYPE_IPV4 (ip_datagram id proto (our_ip s) dst_ip payload n) (u16 (IP_HDR_LEN + n)) s
    end.

Definition ipv4_init_impl s : Z * nst H D :=
  let s := with_ip_h s [] in
  let s := with_our_gateway (with_our_netmask (with_our_ip s 0) 0) 0 in
  let s := with_pkt_id s 1 in
  (0, snd (ethernet_register ETHERTYPE_IPV4 h_ipv4_rx s)).

(** ** ICMP *)

(** The echo reply: the request with type 0 and a fresh checksum. *)
Definition icmp_reply (payload : list Z) (n : Z) : list Z :=
  let r := sub payload 0 n in
  let r := wr r 0 [ICMP_TYPE_ECHO_REPLY] in
  let r := wr r 2 (le16 0) in
  wr r 2 (le16 (ip_checksum r n)).

Definition icmp_rx (payload : list Z) (n : Z) (src_ip dst_ip : Z) s : nst H D :=
  if n <? ICMP_HDR_LEN then s
  else if (rd8 payload 0 =? ICMP_TYPE_ECHO_REQUEST) && (rd8 payload 1 =? 0) then
    let '(p, s) := kmalloc n s in
    if p =? 0 then s
    else
      let '(_, s) := ipv4_send src_ip IPPROTO_ICMP (icmp_reply payload n) n s in
      kfree p s
  else s.

(** The echo request; [data] is [None] for a NULL pointer, the block then keeps
    the bytes it was allocated with ([junk]). *)
Definition icmp_request (id seq : Z) (data : option (list Z)) (junk : list Z) (n : Z) : list Z :=
  let total := u16 (ICMP_HDR_LEN + n) in
  let body := match data with Some l => if negb (n =? 0) then sub l 0 n else [] | None => sub junk 0 n end in
  let r := [ICMP_TYPE_ECHO_REQUEST; 0] ++ le16 0 ++ le16 (htons id) ++ le16 (htons seq) ++ body in
  wr r 2 (le16 (ip_checksum r total)).

Definition icmp_ping (dst_ip id seq : Z) (data : option (list Z)) (junk : list Z) (n : Z) s : Z * nst H D :=
  let total := u16 (ICMP_HDR_LEN + n) in
  let '(p, s) := kmalloc total s in
  if p =? 0 then (-1, s)
  else
    let '(ret, s) := ipv4_send dst_ip IPPROTO_ICMP (icmp_request id seq data junk n) total s in
    (ret, kfree p s).

Definition icmp_init_impl s : Z * nst H D := (0, snd (ipv4_register IPPROTO_ICMP h_icmp_rx s)).
End ipv4.

Section ipv4_proofs.
Context {H D : Type} `{!Kheap H} `{!NicHw D}.
Implicit Types s : nst H D.

Lemma sent_ipv4_send dst proto payload n s : sent s (snd (ipv4_send dst proto payload n s)).
Proof.
  unfold ipv4_send. destruct (_ <? n); [apply sent_refl|].
  cbv zeta. destruct (if (_ || _) then Some broadcast_mac else _) as [mac|]; [|apply sent_arp_request].
  eapply sent_trans; [apply sent_pkt_id|apply sent_ethernet_send].
Qed.

(** ** The header *)

Lemma ip_hdr_bytes total id proto csum src dst : is_byte proto -> bytes_list (ip_hdr total id proto csum src dst).
Proof.
  intros Hp. unfold ip_hdr, le16, le32, IP_VER_IHL, IP_DEFAULT_TTL. cbn [app]. bytes_solve.
Qed.

Lemma ip_hdr_sum total id proto csum src dst : 0 <= csum < 2 ^ 16 ->
  le_sum (ip_hdr total id proto csum src dst) = le_sum (ip_hdr total id proto 0 src dst) + csum.
Proof.
  intros Hc. unfold ip_hdr. rewrite (le16_bytes csum) by done. change (le16 0) with [0; 0].
  unfold le16, le32. cbn [app le_sum]. pose proof (Z.div_mod csum 256 ltac:(lia)). lia.
Qed.

Lemma ip_hdr_valid total id proto src dst : is_byte proto ->
  rfc_valid (ip_hdr total id proto (ip_checksum (ip_hdr total id proto 0 src dst) IP_HDR_LEN) src dst).
Proof.
  intros Hp. pose proof (ip_hdr_bytes total id proto 0 src dst Hp) as Hb.
  destruct (ip_checksum_sum _ Hb) as (Hr & Hm & Hz); [by vm_compute|].
  change (len (ip_hdr total id proto 0 src dst)) with IP_HDR_LEN in *.
  apply rfc_valid_le; [by apply ip_hdr_bytes|by rewrite ip_hdr_sum..].
Qed.

(** The fields [ipv4_rx] reads back. *)
Definition dst_ok (dst : Z) s : Prop :=
  our_ip s = 0 \/ dst = our_ip s \/ dst = (our_ip s &b our_netmask s) |b not32 (our_netmask s) \/ dst = 0xFFFFFFFF.

Lemma ipv4_accept_hdr total id proto csum src dst rest n s :
  20 <= total < 2 ^ 16 -> total <= n -> 0 <= id < 2 ^ 16 -> 0 <= src < 2 ^ 32 -> 0 <= dst < 2 ^ 32 -> dst_ok dst s ->
  ipv4_accept (ip_hdr total id proto csum src dst ++ rest) n s = Some (20, total, src, dst).
Proof.
  intros Ht Hn Hid Hsrc Hdst Hok. unfold ip_hdr.
  rewrite !le16_htons, !le32_htonl by (done || lia). unfold ipv4_accept. cbn [app].
  match goal with |- context [rd8 ?l 0] => set (pkt := l) end.
  change (rd8 pkt 0) with 0x45. change (negb (0x45 >>b 4 =? IP_VERSION)) with false.
  change (u8 ((0x45 &b 0x0F) * 4)) with 20. change IP_HDR_LEN with 20.
  destruct (Z.ltb_spec n 20); [lia|]. change (20 <? 20) with false.
  destruct (Z.ltb_spec n 20); [lia|]. cbn [orb].
  change (rd16 pkt 2) with (total / 256 + 2 ^ 8 * (total mod 256)).
  rewrite ntohs_bytes by (unfold is_byte; zlia). replace (total / 256 * 256 + total mod 256) with total by zlia.
  destruct (Z.ltb_spec total 20); [lia|]. destruct (Z.ltb_spec n total); [lia|]. cbn [orb].
  change (ntohs (rd16 pkt 6)) with 0x4000. change (negb (0x4000 &b 0x1FFF =? 0)) with false.
  change (has 0x4000 0x2000) with false. cbv iota.
  change (rd32 pkt 12) with ((src / 2 ^ 24 + 2 ^ 8 * (src / 2 ^ 16 mod 256)) + 2 ^ 16 * (src / 2 ^ 8 mod 256 + 2 ^ 8 * (src mod 256))).
  change (rd32 pkt 16) with ((dst / 2 ^ 24 + 2 ^ 8 * (dst / 2 ^ 16 mod 256)) + 2 ^ 16 * (dst / 2 ^ 8 mod 256 + 2 ^ 8 * (dst mod 256))).
  rewrite !ntohl_bytes by (unfold is_byte; zlia).
  replace (src / 2 ^ 24 * 2 ^ 24 + src / 2 ^ 16 mod 256 * 2 ^ 16 + src / 2 ^ 8 mod 256 * 2 ^ 8 + src mod 256) with src by zlia.
  replace (dst / 2 ^ 24 * 2 ^ 24 + dst / 2 ^ 16 mod 256 * 2 ^ 16 + dst / 2 ^ 8 mod 256 * 2 ^ 8 + dst mod 256) with dst by zlia.
  replace (_ && _) with false; [done|]. symmetry. destruct Hok as [->|[->|[->| ->]]]; rewrite ?Z.eqb_refl; cbn [negb].
  - done.
  - apply andb_false_r.
  - rewrite andb_false_r. apply andb_false_r.
  - rewrite !andb_false_r. done.
Qed.

(** A datagram on arrival. *)
Lemma ipv4_rx_datagram dispatch id proto src dst payload pad mac s :
  0 <= id < 2 ^ 16 -> 0 <= src < 2 ^ 32 -> 0 <= dst < 2 ^ 32 -> len payload <= 1480 -> dst_ok dst s ->
  let d := ip_datagram id proto src dst payload (len payload) in
  len d = 20 + len payload /\
  ipv4_rx dispatch (d ++ pad) (len d + len pad) mac s =
    match List.find (fun e => fst e =? proto) (ip_h s) with
    | Some (_, h) => dispatch h (payload ++ pad) (len payload) src dst s
    | None => s
    end.
Proof.
  intros Hid Hsrc Hdst Hlen Hok d. subst d. unfold ip_datagram.
  assert (sub payload 0 (len payload) = payload) as ->.
  { unfold sub, len. rewrite Nat2Z.id. by apply take_ge. }
  assert (0 <= len payload) by (unfold len; lia). assert (0 <= len pad) by (unfold len; lia).
  change IP_HDR_LEN with 20. rewrite (u16_small (20 + len payload)) by lia.
  set (csum := ip_checksum _ _).
  assert (len (ip_hdr (20 + len payload) id proto csum src dst ++ payload) = 20 + len payload) as ->.
  { unfold len. rewrite length_app. change (length (ip_hdr _ _ _ _ _ _)) with 20%nat. lia. }
  split; [done|]. rewrite <- app_assoc. unfold ipv4_rx.
  rewrite ipv4_accept_hdr by (done || lia).
  match goal with |- context [rd8 ?l 9] => change (rd8 l 9) with proto end.
  replace (u16 (20 + len payload - 20)) with (len payload) by (rewrite u16_small by lia; lia).
  change (drop (Z.to_nat 20) (ip_hdr ?t ?i ?p ?c ?a ?b ++ ?r)) with r. done.
Qed.

(** ** Properties *)

(** C12. Network-layer round trip: the datagram [ipv4_send] builds for a payload of
    at most 1480 bytes has a valid header checksum (RFC 1071) and, arriving at a
    host that accepts its destination, is handed to the handler of its protocol
    with payload, length, source and destination intact, also when the link
    layer padded the frame. *)
Theorem ipv4_roundtrip dispatch id proto src dst payload pad mac s
  (Hid : 0 <= id < 2 ^ 16) (Hproto : is_byte proto) (Hsrc : 0 <= src < 2 ^ 32) (Hdst : 0 <= dst < 2 ^ 32)
  (Hlen : len payload <= 1480) (Hok : dst_ok dst s) :
  let d := ip_datagram id proto src dst payload (len payload) in
  rfc_valid (take 20 d) /\
  ipv4_rx dispatch (d ++ pad) (len d + len pad) mac s =
    match List.find (fun e => fst e =? proto) (ip_h s) with
    | Some (_, h) => dispatch h (payload ++ pad) (len payload) src dst s
    | None => s
    end.
Proof.
  intros d. split; [|by apply ipv4_rx_datagram]. unfold d, ip_datagram. change IP_HDR_LEN with 20.
  assert (0 <= len payload) by (unfold len; lia). rewrite (u16_small (20 + len payload)) by lia.
  change (rfc_valid (ip_hdr (20 + len payload) id proto
    (ip_checksum (ip_hdr (20 + len payload) id proto 0 src dst) 20) src dst)). by apply ip_hdr_valid.
Qed.

(** Fields in network byte order. *)
Definition be16 (p : list Z) (o : Z) : Z := rd8 p o * 256 + rd8 p (o + 1).
Definition be32 (p : list Z) (o : Z) : Z := be16 p o * 2 ^ 16 + be16 p (o + 2).

(** The first entry of a handler table with the key [k]. *)
Definition first_entry {A} (k : Z) (l : list (Z * A)) (h : A) : Prop :=
  exists pre post, l = pre ++ (k, h) :: post /\ Forall (fun e => fst e <> k) pre.

(** What RFC 791 has in the header of a whole datagram for this host, in a frame of [n] bytes. *)
Record deliverable (p : list Z) (n : Z) s : Prop := {
  dl_version : rd8 p 0 / 16 = 4;
  dl_header : 20 <= rd8 p 0 mod 16 * 4 <= n;
  dl_total : rd8 p 0 mod 16 * 4 <= be16 p 2 <= n;
  dl_whole : be16 p 6 mod 0x4000 = 0;
  dl_dst : dst_ok (be32 p 16) s
}.

Lemma rd8_byte p o : bytes_list p -> is_byte (rd8 p o).
Proof.
  intros Hb. unfold rd8. rewrite nth_lookup. destruct (p !! _) eqn:El; [|simpl; unfold is_byte; lia].
  by eapply Forall_lookup_1 in Hb.
Qed.
Lemma ntohs_be p o : bytes_list p -> ntohs (rd16 p o) = be16 p o.
Proof. intros Hb. unfold rd16. by rewrite ntohs_bytes by by apply rd8_byte. Qed.
Lemma ntohl_be p o : bytes_list p -> ntohl (rd32 p o) = be32 p o.
Proof.
  intros Hb. unfold rd32, rd16. rewrite ntohl_bytes by by apply rd8_byte. unfold be32, be16. lia.
Qed.

(** [ipv4_accept] decides [deliverable]. *)
Lemma ipv4_accept_iff p n s : bytes_list p -> 0 <= n < 2 ^ 16 ->
  (deliverable p n s /\ ipv4_accept p n s = Some (rd8 p 0 mod 16 * 4, be16 p 2, be32 p 12, be32 p 16)) \/
  (~ deliverable p n s /\ ipv4_accept p n s = None).
Proof.
  intros Hb Hn. unfold ipv4_accept. rewrite !ntohs_be, !ntohl_be by done. pose proof (rd8_byte p 0 Hb) as Hb0. unfold is_byte in Hb0.
  change IP_HDR_LEN with 20. change IP_VERSION with 4.
  destruct (Z.ltb_spec n 20); [right; split; [intros []; lia|done]|]. rewrite Z.shiftr_div_pow2 by lia. change (2 ^ 4) with 16.
  destruct (Z.eqb_spec (rd8 p 0 / 16) 4) as [Hv|]; [|right; by split; [intros []|]]. cbn [negb].
  change 0x0F with (Z.ones 4). rewrite (Z.land_ones _ 4) by lia. change (2 ^ 4) with 16.
  rewrite (u8_small (rd8 p 0 mod 16 * 4)) by zlia.
  destruct (Z.ltb_spec (rd8 p 0 mod 16 * 4) 20); [right; split; [intros []; lia|done]|].
  destruct (Z.ltb_spec n (rd8 p 0 mod 16 * 4)); [right; split; [intros []; lia|done]|]. cbn [orb].
  destruct (Z.ltb_spec (be16 p 2) (rd8 p 0 mod 16 * 4)); [right; split; [intros []; lia|done]|].
  destruct (Z.ltb_spec n (be16 p 2)); [right; split; [intros []; lia|done]|]. cbn [orb].
  assert (0 <= be16 p 6) as H6 by (pose proof (rd8_byte p 6 Hb); pose proof (rd8_byte p (6 + 1) Hb); unfold is_byte, be16 in *; lia).
  change 0x1FFF with (Z.ones 13). rewrite (Z.land_ones _ 13) by lia. change (2 ^ 13) with 8192.
  destruct (Z.eqb_spec (be16 p 6 mod 8192) 0) as [Hfr|]; [|right; split; [intros [_ _ _ Hw _]; zlia|done]]. cbn [negb].
  change 0x2000 with (2 ^ 13). rewrite has_bit by lia.
  destruct (Z.testbit (be16 p 6) 13) eqn:Hmf.
  { right. split; [|done]. intros [_ _ _ Hw _]. rewrite Z.testbit_true in Hmf by lia. change (2 ^ 13) with 8192 in Hmf. zlia. }
  rewrite Z.testbit_false in Hmf by lia. change (2 ^ 13) with 8192 in Hmf.
  destruct (negb (our_ip s =? 0) && _) eqn:Hc.
  - right. split; [|done]. intros [_ _ _ _ Hd]. bool_hyps. unfold dst_ok in Hd. tauto.
  - left. split; [|done]. split; [done|lia|lia|zlia|]. unfold dst_ok.
    destruct (Z.eqb_spec (our_ip s) 0); [tauto|]. destruct (Z.eqb_spec (be32 p 16) (our_ip s)); [tauto|].
    match type of Hc with context [be32 p 16 =? ?b] => destruct (Z.eqb_spec (be32 p 16) b); [tauto|] end.
    match type of Hc with context [be32 p 16 =? 0xFFFFFFFF] => destruct (Z.eqb_spec (be32 p 16) 0xFFFFFFFF); [tauto|] end. done.
Qed.

Lemma find_first {A} k (l : list (Z * A)) h : first_entry k l h -> List.find (fun e => fst e =? k) l = Some (k, h).
Proof.
  intros (pre & post & -> & Hpre). induction Hpre as [|[j g] pre Hj _ IH]; cbn [app List.find fst] in *; [by rewrite Z.eqb_refl|].
  by rewrite (proj2 (Z.eqb_neq _ _) Hj).
Qed.
Lemma find_none {A} k (l : list (Z * A)) : Forall (fun e => fst e <> k) l -> List.find (fun e => fst e =? k) l = None.
Proof. induction 1 as [|[j g] l Hj _ IH]; cbn [List.find fst] in *; [done|]. by rewrite (proj2 (Z.eqb_neq _ _) Hj). Qed.

(** C36. What gets in and what never does: for arbitrary bytes in a frame of [n] bytes, a
    datagram is dropped unless it is [deliverable] (version 4, a header of at least 20
    bytes inside the frame, a total length inside the frame, no fragment offset and no more-fragments flag, and the
    destination field at offset 16 is an address the host accepts); a deliverable one goes to the first handler registered for its
    protocol field, with the bytes after the header, the rest of the total length, and the source and destination
    fields, and is dropped when there is none.  The header checksum is not
    looked at. *)
Theorem ipv4_rx_guard dispatch payload n mac s (Hb : bytes_list payload) (Hn : 0 <= n < 2 ^ 16) :
  let ihl := rd8 payload 0 mod 16 * 4 in
  (~ deliverable payload n s -> ipv4_rx dispatch payload n mac s = s) /\
  (deliverable payload n s -> forall h, first_entry (rd8 payload 9) (ip_h s) h ->
     ipv4_rx dispatch payload n mac s =
       dispatch h (drop (Z.to_nat ihl) payload) (be16 payload 2 - ihl) (be32 payload 12) (be32 payload 16) s) /\
  (Forall (fun e => fst e <> rd8 payload 9) (ip_h s) -> ipv4_rx dispatch payload n mac s = s).
Proof.
  intros ihl. unfold ipv4_rx. destruct (ipv4_accept_iff payload n s Hb Hn) as [[Hd ->]|[Hd ->]]; [|done].
  split; [done|]. split; [|intros Hf; by rewrite find_none].
  intros _ h Hh. rewrite (find_first _ _ h Hh). destruct Hd as [_ Hh1 Ht _ _]. rewrite u16_small by (unfold ihl; lia). done.
Qed.

(** The echo reply is the echo request with its type changed to 0 and its
    checksum recomputed so that the whole message is valid (RFC 1071): same
    length, same code, identifier, sequence number and data, for messages of
    even and odd length alike. *)
Theorem icmp_reply_correct payload (Hb : bytes_list payload) (Hlen : 8 <= len payload < 2 ^ 16) :
  let r := icmp_reply payload (len payload) in
  length r = length payload /\ rd8 r 0 = ICMP_TYPE_ECHO_REPLY /\ rfc_valid r /\
  (forall i, 0 <= i -> i <> 0 -> i <> 2 -> i <> 3 -> rd8 r i = rd8 payload i).
Proof.
  intros r. subst r. unfold icmp_reply.
  assert (sub payload 0 (len payload) = payload) as ->.
  { unfold sub, len. rewrite Nat2Z.id. by apply take_ge. }
  destruct payload as [|x0 [|x1 [|x2 [|x3 rest] ] ] ]; try (unfold len in Hlen; simpl in Hlen; lia).
  do 4 (apply Forall_cons in Hb as [? Hb]).
  change (wr (wr (x0 :: x1 :: x2 :: x3 :: rest) 0 [ICMP_TYPE_ECHO_REPLY]) 2 (le16 0)) with (0 :: x1 :: 0 :: 0 :: rest).
  set (z := 0 :: x1 :: 0 :: 0 :: rest).
  assert (bytes_list z) as Hz by (subst z; bytes_solve; done).
  change (len (x0 :: x1 :: x2 :: x3 :: rest)) with (len z) in *.
  destruct (ip_checksum_sum z Hz ltac:(lia)) as (Hc & Hm & Hnz).
  set (c := ip_checksum z (len z)) in *. clearbody c.
  rewrite le16_bytes by done. subst z.
  change (wr (0 :: x1 :: 0 :: 0 :: rest) 2 [c mod 256; c / 256]) with (0 :: x1 :: c mod 256 :: c / 256 :: rest).
  assert (le_sum (0 :: x1 :: c mod 256 :: c / 256 :: rest) = le_sum (0 :: x1 :: 0 :: 0 :: rest) + c) as Hsum.
  { cbn [le_sum]. pose proof (Z.div_mod c 256 ltac:(lia)). lia. }
  split; [done|]. split; [done|]. split.
  - apply rfc_valid_le; [|by rewrite Hsum..]. unfold bytes_list. do 2 (apply Forall_cons; split; [done|]).
    do 2 (apply Forall_cons; split; [unfold is_byte; zlia|]). done.
  - intros i Hi Hi0 Hi2 Hi3. unfold rd8.
    destruct (Z.to_nat i) as [|[|[|[|k] ] ] ] eqn:Ek; [lia|done|lia|lia|done].
Qed.
End ipv4_proofs.

(** ** Witnesses *)

Lemma ipv4_roundtrip_witness :
  ipv4_rx (fun _ p n src dst s => with_pkt_id s (src + n + nth 1 p 0))
    (ip_datagram 7 17 0x0A000202 0x0A00020F [5; 6; 7] 3 ++ [0; 0]) 25 [] demo_net
  = with_pkt_id demo_net (0x0A000202 + 3 + 6).
Proof.
  refine (eq_trans (proj2 (ipv4_roundtrip (fun _ p n src dst s => with_pkt_id s (src + n + nth 1 p 0))
    7 17 0x0A000202 0x0A00020F [5; 6; 7] [0; 0] [] demo_net ltac:(lia) ltac:(unfold is_byte; lia) ltac:(lia) ltac:(lia)
    ltac:(vm_compute; discriminate) ltac:(right; left; reflexivity))) _).
  reflexivity.
Defined.

(** A datagram with the more-fragments flag is dropped, the whole one reaches the UDP handler. *)
Lemma ipv4_rx_guard_witness :
  ipv4_rx (fun _ p n src dst s => with_pkt_id s n) (wr (ip_datagram 7 17 0x0A000202 0x0A00020F [5; 6; 7] 3) 6 [0x20; 0]) 23 [] demo_net
    = demo_net /\
  ipv4_rx (fun _ p n src dst s => with_pkt_id s (n + src + dst)) (ip_datagram 7 17 0x0A000202 0x0A00020F [5; 6; 7] 3) 23 [] demo_net
    = with_pkt_id demo_net (3 + 0x0A000202 + 0x0A00020F).
Proof.
  assert (forall l, forallb (fun b => (0 <=? b) && (b <? 256)) l = true -> bytes_list l) as Hok.
  { intros l Hl. apply Forall_forall. intros b Hb%list_elem_of_In. rewrite forallb_forall in Hl. specialize (Hl b Hb). unfold is_byte. bool_hyps. lia. }
  split.
  - refine (proj1 (ipv4_rx_guard _ _ 23 [] demo_net _ _) _); [apply Hok; by vm_compute|lia|]. intros [_ _ _ Hf _]. vm_compute in Hf. discriminate Hf.
  - refine (eq_trans (proj1 (proj2 (ipv4_rx_guard _ _ 23 [] demo_net _ _)) _ h_udp_rx _) _); [apply Hok; by vm_compute|lia| | |by vm_compute].
    + split; [by vm_compute|by vm_compute|by vm_compute|by vm_compute|right; left; by vm_compute].
    + exists [(1, h_icmp_rx)], [(6, h_tcp_rx)]. split; [by vm_compute|]. apply Forall_singleton. by vm_compute.
Defined.

Lemma icmp_reply_correct_witness : rfc_valid (icmp_reply [8; 0; 1; 2; 0; 7; 0; 1; 65] 9).
Proof.
  apply (icmp_reply_correct [8; 0; 1; 2; 0; 7; 0; 1; 65]).
  - bytes_solve.
  - vm_compute. split; [discriminate|reflexivity].
Defined.
