(* ===== verification/Udp.v ===== *)
(** * UDP and DHCP: src/net/udp/udp.c, src/net/dhcp/dhcp.c

    Theorems: a datagram built by [udp_send] carries a valid checksum and is
    delivered by [udp_rx] to the handler of its port, else to the last catch-all, with ports and data intact;
    [parse_options] reads back any well-formed option list; an acknowledged
    lease configures exactly the address, mask and gateway it names; a client
    nobody answers retransmits five times and then stops. *)

From S2P Require Import Prelude Mem Io Packet NetState E1000 Ether Ipv4.

Definition UDP_HDR_LEN : Z := 8.
Definition UDP_MAX_HANDLERS : Z := 16.

Section udp.
Context {H D : Type} `{!Kheap H} `{!NicHw D}.
Implicit Types s : nst H D.

(** ** UDP *)

(** The dispatch loop: the first entry for the port, else the last catch-all. *)
Fixpoint udp_find (l : list (Z * udp_handler)) (dst_port : Z) (catch_all : option udp_handler) : option udp_handler :=
  match l with
  | [] => catch_all
  | (port, h) :: l =>
      if port =? dst_port then Some h
      else udp_find l dst_port (if port =? 0 then Some h else catch_all)
  end.

Definition udp_rx (dispatch : udp_handler -> list Z -> Z -> Z -> Z -> Z -> nst H D -> nst H D)
    (payload : list Z) (n src_ip dst_ip : Z) s : nst H D :=
  if n <? UDP_HDR_LEN then s
  else
    let src_port := ntohs (rd16 payload 0) in
    let dst_port := ntohs (rd16 payload 2) in
    let udp_len := ntohs (rd16 payload 4) in
    if (udp_len <? UDP_HDR_LEN) || (n <? udp_len) then s
    else
      let data_len := u16 (udp_len - UDP_HDR_LEN) in
      let data := drop 8 payload in
      match udp_find (udp_h s) dst_port None with
      | Some h => dispatch h data data_len src_ip src_port dst_port s
      | None => s
      end.

Definition udp_register (dst_port : Z) (h : udp_handler) s : Z * nst H D :=
  if UDP_MAX_HANDLERS <=? Z.of_nat (length (udp_h s)) then (-1, s)
  else (0, with_udp_h s (udp_h s ++ [(dst_port, h)])).

Definition udp_hdr (src_port dst_port total csum : Z) : list Z :=
  le16 (htons src_port) ++ le16 (htons dst_port) ++ le16 (htons total) ++ le16 csum.

(** The datagram [udp_send] builds. *)
Definition udp_datagram (src_ip dst_ip src_port dst_port : Z) (data : list Z) (n : Z) : list Z :=
  let total := u16 (UDP_HDR_LEN + n) in
  let body := sub data 0 n in
  let csum := udp_checksum src_ip dst_ip (udp_hdr src_port dst_port total 0) body n in
  udp_hdr src_port dst_port total csum ++ body.

Definition udp_send (dst_ip src_port dst_port : Z) (data : list Z) (n : Z) s : Z * nst H D :=
  let total := u16 (UDP_HDR_LEN + n) in
  let '(p, s) := kmalloc total s in
  if p =? 0 then (-1, s)
  else
    let pkt := udp_datagram (ipv4_get_addr s) dst_ip src_port dst_port data n in
    let '(ret, s) := ipv4_send dst_ip IPPROTO_UDP pkt total s in
    (ret, kfree p s).

Definition udp_init_impl s : Z * nst H D := (0, snd (ipv4_register IPPROTO_UDP h_udp_rx s)).
End udp.

(** ** DHCP *)

Definition DHCP_CLIENT_PORT : Z := 68.
Definition DHCP_SERVER_PORT : Z := 67.
Definition DHCP_OP_REQUEST : Z := 1.
Definition DHCP_OP_REPLY : Z := 2.
Definition DHCP_DISCOVER : Z := 1.
Definition DHCP_OFFER : Z := 2.
Definition DHCP_REQUEST : Z := 3.
Definition DHCP_ACK : Z := 5.
Definition DHCP_NAK : Z := 6.
Definition DHCP_OPT_SUBNET : Z := 1.
Definition DHCP_OPT_ROUTER : Z := 3.
Definition DHCP_OPT_DNS : Z := 6.
Definition DHCP_OPT_REQIP : Z := 50.
Definition DHCP_OPT_MSGTYPE : Z := 53.
Definition DHCP_OPT_SERVERID : Z := 54.
Definition DHCP_OPT_PARAMREQ : Z := 55.
Definition DHCP_OPT_END : Z := 255.
Definition DHCP_MAGIC_COOKIE : Z := 0x63825363.
Definition DHCP_HDR_LEN : Z := 240.
Definition DHCP_MIN_SIZE : Z := 548.
Definition DHCP_PKT_LEN : Z := DHCP_MIN_SIZE.
Definition DHCP_XID : Z := 0xDEADBEEF.
Definition DHCP_MAX_RETRIES : Z := 5.
Definition DHCP_RETRY_MS : Z := 3000.

Definition opt_u8 (code val : Z) : list Z := [code; 1; val].
Definition opt_u32 (code val : Z) : list Z :=
  [code; 4; u8 (val >>b 24); u8 (val >>b 16); u8 (val >>b 8); u8 val].

(** The fixed header of a request: op, htype, hlen, xid, flags, chaddr, magic;
    everything else zero. *)
Definition dhcp_hdr (mac : list Z) : list Z :=
  [DHCP_OP_REQUEST; 1; 6; 0] ++ le32 (htonl DHCP_XID) ++ le16 0 ++ le16 (htons 0) ++
  zeros 16 ++ mac ++ zeros (208 - 6) ++ le32 (htonl DHCP_MAGIC_COOKIE).

(** Header and options in a zeroed packet of 548 bytes. *)
Definition dhcp_packet (mac opts : list Z) : list Z :=
  let l := dhcp_hdr mac ++ opts in l ++ zeros (DHCP_PKT_LEN - len l).

Definition dhcp_tail : list Z :=
  [DHCP_OPT_PARAMREQ; 3; DHCP_OPT_SUBNET; DHCP_OPT_ROUTER; DHCP_OPT_DNS; DHCP_OPT_END].

(** [u16 len = p - pkt; if (len < DHCP_MIN_SIZE) len = DHCP_MIN_SIZE;] *)
Definition dhcp_send_len (opts : list Z) : Z :=
  let n := u16 (DHCP_HDR_LEN + len opts) in if n <? DHCP_MIN_SIZE then DHCP_MIN_SIZE else n.

(** [parse_options]: message type, and server, mask and router through the out
    parameters.  Every turn of the loop consumes a byte. *)
Record dhcp_opts := mk_opts { o_msgtype : Z; o_srv : Z; o_mask : Z; o_gw : Z }.

Definition be_ip (p : list Z) : Z :=
  (rd8 p 0 <<b 24) |b (rd8 p 1 <<b 16) |b (rd8 p 2 <<b 8) |b rd8 p 3.

Definition parse_option (code olen : Z) (p : list Z) (o : dhcp_opts) : dhcp_opts :=
  if code =? DHCP_OPT_MSGTYPE then
    if 1 <=? olen then mk_opts (rd8 p 0) (o_srv o) (o_mask o) (o_gw o) else o
  else if code =? DHCP_OPT_SERVERID then
    if 4 <=? olen then mk_opts (o_msgtype o) (be_ip p) (o_mask o) (o_gw o) else o
  else if code =? DHCP_OPT_SUBNET then
    if 4 <=? olen then mk_opts (o_msgtype o) (o_srv o) (be_ip p) (o_gw o) else o
  else if code =? DHCP_OPT_ROUTER then
    if 4 <=? olen then mk_opts (o_msgtype o) (o_srv o) (o_mask o) (be_ip p) else o
  else o.

Fixpoint parse_options (fuel : nat) (p : list Z) (o : dhcp_opts) : dhcp_opts :=
  match fuel with
  | O => o
  | S fuel =>
      match p with
      | [] => o
      | code :: p =>
          if code =? DHCP_OPT_END then o
          else if code =? 0 then parse_options fuel p o
          else
            match p with
            | [] => o
            | olen :: p =>
                if len p <? olen then o
                else parse_options fuel (drop (Z.to_nat olen) p) (parse_option code olen p o)
            end
      end
  end.

Section dhcp.
Context {H D : Type} `{!Kheap H} `{!NicHw D}.
Implicit Types s : nst H D.

Definition send_discover s : nst H D :=
  let opts := opt_u8 DHCP_OPT_MSGTYPE DHCP_DISCOVER ++ dhcp_tail in
  let pkt := dhcp_packet (ethernet_get_mac s) opts in
  snd (udp_send 0xFFFFFFFF DHCP_CLIENT_PORT DHCP_SERVER_PORT pkt (dhcp_send_len opts) s).

Definition send_request (req_ip srv_ip : Z) s : nst H D :=
  let opts := opt_u8 DHCP_OPT_MSGTYPE DHCP_REQUEST ++ opt_u32 DHCP_OPT_REQIP req_ip ++
              opt_u32 DHCP_OPT_SERVERID srv_ip ++ dhcp_tail in
  let pkt := dhcp_packet (ethernet_get_mac s) opts in
  snd (udp_send 0xFFFFFFFF DHCP_CLIENT_PORT DHCP_SERVER_PORT pkt (dhcp_send_len opts) s).

Definition dhcp_rx (data : list Z) (n src_ip src_port dst_port : Z) s : nst H D :=
  if n <? DHCP_HDR_LEN then s
  else if negb (rd8 data 0 =? DHCP_OP_REPLY) then s
  else if negb (ntohl (rd32 data 4) =? DHCP_XID) then s
  else if negb (ntohl (rd32 data 236) =? DHCP_MAGIC_COOKIE) then s
  else
    let yiaddr := ntohl (rd32 data 16) in
    if yiaddr =? 0 then s
    else
      let opts_len := u16 (n - DHCP_HDR_LEN) in
      let o := parse_options (Z.to_nat opts_len) (sub data DHCP_HDR_LEN opts_len) (mk_opts 0 0 0xFFFFFF00 0) in
      if bool_decide (d_state s = DHCP_STATE_SELECTING) && (o_msgtype o =? DHCP_OFFER) then
        let s := with_offered_ip s yiaddr in
        let s := with_server_ip s (o_srv o) in
        let s := send_request (offered_ip s) (server_ip s) s in
        let s := with_d_state s DHCP_STATE_REQUESTING in
        with_d_deadline s (u32 (ticks s + DHCP_RETRY_MS))
      else if bool_decide (d_state s = DHCP_STATE_REQUESTING) && (o_msgtype o =? DHCP_ACK) then
        let gw := if o_gw o =? 0 then server_ip s else o_gw o in
        let s := ipv4_set_addr yiaddr (o_mask o) gw s in
        with_d_state s DHCP_STATE_BOUND
      else if o_msgtype o =? DHCP_NAK then
        let s := with_d_state s DHCP_STATE_SELECTING in
        let s := with_offered_ip s 0 in
        let s := with_server_ip s 0 in
        let s := with_retry_count s 0 in
        let s := send_discover s in
        with_d_deadline s (u32 (ticks s + DHCP_RETRY_MS))
      else s.

Definition dhcp_tick s : Z * nst H D :=
  match d_state s with
  | DHCP_STATE_BOUND => (1, s)
  | DHCP_STATE_IDLE => (0, s)
  | DHCP_STATE_FAILED => (-1, s)
  | DHCP_STATE_SELECTING | DHCP_STATE_REQUESTING =>
      let now := timer_ticks32 s in
      if i32 (now - d_deadline s) <? 0 then (0, s)
      else if DHCP_MAX_RETRIES <=? retry_count s then (-1, with_d_state s DHCP_STATE_FAILED)
      else
        let s := with_retry_count s (retry_count s + 1) in
        let s := with_d_deadline s (u32 (now + DHCP_RETRY_MS)) in
        match d_state s with
        | DHCP_STATE_SELECTING => (0, send_discover s)
        | _ => (0, send_request (offered_ip s) (server_ip s) s)
        end
  end.

Definition dhcp_bound s : Z := if bool_decide (d_state s = DHCP_STATE_BOUND) then 1 else 0.

Definition dhcp_init_impl s : Z * nst H D :=
  let s := with_d_state s DHCP_STATE_IDLE in
  let s := with_offered_ip s 0 in
  let s := with_server_ip s 0 in
  let s := with_retry_count s 0 in
  let '(_, s) := udp_register DHCP_CLIENT_PORT h_dhcp_rx s in
  let s := with_timer_net_poll s true in
  let s := send_discover s in
  let s := with_d_state s DHCP_STATE_SELECTING in
  (0, with_d_deadline s (u32 (ticks s + DHCP_RETRY_MS))).
End dhcp.

Section udp_proofs.
Context {H D : Type} `{!Kheap H} `{!NicHw D}.
Implicit Types s : nst H D.

Lemma sent_udp_send dst sp dp data n s : sent s (snd (udp_send dst sp dp data n s)).
Proof.
  unfold udp_send. pose proof (sent_kmalloc (u16 (UDP_HDR_LEN + n)) s) as Hk.
  destruct (kmalloc _ s) as [p s1]. cbn [snd] in Hk. destruct (p =? 0); [exact Hk|].
  match goal with |- context [ipv4_send ?a ?b ?c ?d s1] => pose proof (sent_ipv4_send a b c d s1) as He;
    destruct (ipv4_send a b c d s1) as [r s2] end. cbn [snd] in *.
  eapply sent_trans; [exact Hk|]. eapply sent_trans; [exact He|]. apply sent_kfree.
Qed.

(** ** The datagram *)

Lemma sub_all l : sub l 0 (len l) = l.
Proof. unfold sub, len. rewrite Nat2Z.id. by apply take_ge. Qed.

Lemma udp_hdr_bytes sp dp t c : bytes_list (udp_hdr sp dp t c).
Proof. unfold udp_hdr, le16. cbn [app]. bytes_solve. Qed.

Lemma udp_checksum_spec src dst sp dp data : bytes_list data -> len data < 2 ^ 15 ->
  let t := 8 + len data in
  let c := udp_checksum src dst (udp_hdr sp dp t 0) data (len data) in
  0 < c < 2 ^ 16 /\
  (le_sum (pseudo_hdr src dst IPPROTO_UDP t ++ udp_hdr sp dp t 0 ++ data) + c) mod 65535 = 0.
Proof.
  intros Hb Hn t c. assert (0 <= len data) as H0 by (unfold len; lia).
  assert (bytes_list (pseudo_hdr src dst IPPROTO_UDP t)) as Hph
    by (apply pseudo_hdr_bytes; unfold is_byte, IPPROTO_UDP; lia).
  pose proof (udp_hdr_bytes sp dp t 0) as Hhd.
  pose proof (le_sum_range _ Hph) as R1. pose proof (le_sum_range _ Hhd) as R2. pose proof (le_sum_range _ Hb) as R3.
  change (len (pseudo_hdr src dst IPPROTO_UDP t)) with 12 in R1. change (len (udp_hdr sp dp t 0)) with 8 in R2.
  rewrite !le_sum_app by done. subst c. unfold udp_checksum. fold t. rewrite (u16_small t) by lia.
  rewrite (csum_native_spec sum_fuel 0 (pseudo_hdr src dst IPPROTO_UDP t) 12);
    [|done|done|by apply sum_fuel_ok|lia..]. rewrite Z.add_0_l.
  rewrite (csum_native_spec sum_fuel _ (udp_hdr sp dp t 0) 8); [|done|done|by apply sum_fuel_ok|lia..].
  assert ((if negb (len data =? 0)
           then csum_native sum_fuel (le_sum (pseudo_hdr src dst IPPROTO_UDP t) + le_sum (udp_hdr sp dp t 0)) data (len data)
           else le_sum (pseudo_hdr src dst IPPROTO_UDP t) + le_sum (udp_hdr sp dp t 0))
          = le_sum (pseudo_hdr src dst IPPROTO_UDP t) + le_sum (udp_hdr sp dp t 0) + le_sum data) as ->.
  { destruct (Z.eqb_spec (len data) 0) as [E|E]; cbn [negb].
    - assert (data = []) as -> by (by destruct data). simpl. lia.
    - apply csum_native_spec; try done; [apply sum_fuel_ok; lia|lia..]. }
  rewrite Z.add_assoc. apply finish_sum_spec. lia.
Qed.

Lemma udp_hdr_sum sp dp t c : 0 <= c < 2 ^ 16 -> le_sum (udp_hdr sp dp t c) = le_sum (udp_hdr sp dp t 0) + c.
Proof.
  intros Hc. unfold udp_hdr. rewrite (le16_bytes c) by done. change (le16 0) with [0; 0]. unfold le16.
  cbn [app le_sum]. pose proof (Z.div_mod c 256 ltac:(lia)). lia.
Qed.

(** ** Properties *)

(** The handler of a port in the table of handlers: the first entry for the port, and when there is none
    the last entry for port 0, which stands for every port. *)
Definition udp_target (l : list (Z * udp_handler)) (port : Z) (h : udp_handler) : Prop :=
  first_entry port l h \/
  (Forall (fun e => fst e <> port) l /\ exists pre post, l = pre ++ (0, h) :: post /\ Forall (fun e => fst e <> 0) post).

Lemma udp_find_first l port h c : first_entry port l h -> udp_find l port c = Some h.
Proof.
  intros (pre & post & -> & Hpre). revert c. induction Hpre as [|[j g] pre Hj _ IH]; intros c; cbn [app udp_find fst] in *; [by rewrite Z.eqb_refl|].
  by rewrite (proj2 (Z.eqb_neq _ _) Hj).
Qed.
Lemma udp_find_rest l port c : Forall (fun e => fst e <> port) l -> Forall (fun e => fst e <> 0) l -> udp_find l port c = c.
Proof.
  intros H1 H2. revert c. induction H1 as [|[j g] l Hj _ IH]; intros c; cbn [udp_find]; [done|]. apply Forall_cons in H2 as [H0 H2]. cbn [fst] in *.
  rewrite (proj2 (Z.eqb_neq _ _) Hj), (proj2 (Z.eqb_neq _ _) H0). by apply IH.
Qed.
Lemma udp_find_target l port h : udp_target l port h -> udp_find l port None = Some h.
Proof.
  intros [Hf|(Hno & pre & post & -> & Hpost)]; [by apply udp_find_first|]. generalize (@None udp_handler).
  apply Forall_app in Hno as [Hpre [H0 Hno]%Forall_cons]. cbn [fst] in H0.
  induction Hpre as [|[j g] pre Hj _ IH]; intros c; cbn [app udp_find].
  - rewrite (proj2 (Z.eqb_neq _ _) H0), Z.eqb_refl. by apply udp_find_rest.
  - cbn [fst] in Hj. rewrite (proj2 (Z.eqb_neq _ _) Hj). apply IH.
Qed.

(** C37. Transport round trip: the datagram [udp_send] builds is valid under the
    UDP checksum (RFC 768: pseudo-header, header and data sum to zero in one's
    complement, never transmitted as 0), and [udp_rx] hands exactly the data,
    its length and the ports to the handler of the destination port: the first registered for that
    port, also when a catch-all entry (port 0) precedes it, else the last catch-all; without either
    it is dropped. *)
Theorem udp_roundtrip dispatch src dst sp dp data pad s (Hb : bytes_list data)
  (Hlen : len data < 2 ^ 15) (Hsp : 0 <= sp < 2 ^ 16) (Hdp : 0 <= dp < 2 ^ 16) :
  let d := udp_datagram src dst sp dp data (len data) in
  rfc_valid (pseudo_hdr src dst IPPROTO_UDP (len d) ++ d) /\ rd16 d 6 <> 0 /\
  (forall h, udp_target (udp_h s) dp h ->
     udp_rx dispatch (d ++ pad) (len d + len pad) src dst s = dispatch h (data ++ pad) (len data) src sp dp s) /\
  (Forall (fun e => fst e <> dp /\ fst e <> 0) (udp_h s) ->
     udp_rx dispatch (d ++ pad) (len d + len pad) src dst s = s).
Proof.
  intros d. assert (0 <= len data) as H0 by (unfold len; lia). assert (0 <= len pad) by (unfold len; lia).
  subst d. unfold udp_datagram. rewrite sub_all. change UDP_HDR_LEN with 8. rewrite (u16_small (8 + len data)) by lia.
  destruct (udp_checksum_spec src dst sp dp data Hb Hlen) as [Hc Hm]. cbv zeta in *.
  set (c := udp_checksum _ _ _ _ _) in *. clearbody c.
  assert (len (udp_hdr sp dp (8 + len data) c ++ data) = 8 + len data) as ->
    by (unfold len; rewrite length_app; simpl length; lia).
  assert (bytes_list (pseudo_hdr src dst IPPROTO_UDP (8 + len data) ++ udp_hdr sp dp (8 + len data) c ++ data)) as Hall.
  { apply Forall_app. split; [apply pseudo_hdr_bytes; unfold is_byte, IPPROTO_UDP; lia|].
    apply Forall_app. split; [apply udp_hdr_bytes|done]. }
  assert (le_sum (pseudo_hdr src dst IPPROTO_UDP (8 + len data) ++ udp_hdr sp dp (8 + len data) c ++ data) =
    le_sum (pseudo_hdr src dst IPPROTO_UDP (8 + len data) ++ udp_hdr sp dp (8 + len data) 0 ++ data) + c) as Hs.
  { rewrite !le_sum_app by done. rewrite (udp_hdr_sum sp dp _ c) by lia. lia. }
  split; [|split].
  - apply rfc_valid_le; [done|by rewrite Hs|]. rewrite Hs. rewrite !le_sum_app by done.
    pose proof (le_sum_range _ (pseudo_hdr_bytes src dst IPPROTO_UDP (8 + len data) ltac:(unfold is_byte, IPPROTO_UDP; lia))).
    pose proof (le_sum_range _ (udp_hdr_bytes sp dp (8 + len data) 0)). pose proof (le_sum_range _ Hb). lia.
  - unfold udp_hdr. rewrite (le16_bytes c) by lia.
    change (c mod 256 + 2 ^ 8 * (c / 256) <> 0). pose proof (Z.div_mod c 256 ltac:(lia)). lia.
  - assert (udp_rx dispatch ((udp_hdr sp dp (8 + len data) c ++ data) ++ pad) (8 + len data + len pad) src dst s =
      match udp_find (udp_h s) dp None with Some h => dispatch h (data ++ pad) (len data) src sp dp s | None => s end) as ->.
    { rewrite <- app_assoc. unfold udp_hdr. rewrite !le16_htons by lia. unfold udp_rx. change UDP_HDR_LEN with 8.
    destruct (Z.ltb_spec (8 + len data + len pad) 8); [lia|]. cbn [app].
    match goal with |- context [rd16 ?l 0] => set (pkt := l) end.
    change (rd16 pkt 0) with (sp / 256 + 2 ^ 8 * (sp mod 256)). change (rd16 pkt 2) with (dp / 256 + 2 ^ 8 * (dp mod 256)).
    change (rd16 pkt 4) with ((8 + len data) / 256 + 2 ^ 8 * ((8 + len data) mod 256)).
    rewrite !ntohs_bytes by (unfold is_byte; zlia).
    replace (sp / 256 * 256 + sp mod 256) with sp by zlia. replace (dp / 256 * 256 + dp mod 256) with dp by zlia.
    replace ((8 + len data) / 256 * 256 + (8 + len data) mod 256) with (8 + len data) by zlia.
    destruct (Z.ltb_spec (8 + len data) 8); [lia|]. destruct (Z.ltb_spec (8 + len data + len pad) (8 + len data)); [lia|].
    cbn [orb]. replace (u16 (8 + len data - 8)) with (len data) by (rewrite u16_small by lia; lia). done. }
    split; [intros h Hh; by rewrite (udp_find_target _ _ h)|]. intros Hf. rewrite udp_find_rest; [done|eapply Forall_impl; [exact Hf|]; by intros e []..].
Qed.
End udp_proofs.

(** ** DHCP options *)

(** The wire form of an option list, closed by END; PAD bytes may precede an
    option. *)
Definition enc_opt (o : Z * list Z) : list Z := fst o :: len (snd o) :: snd o.
Definition enc_opts (l : list (Z * list Z)) : list Z := flat_map enc_opt l ++ [DHCP_OPT_END].

(** Codes other than PAD and END, at most 255 bytes of value. *)
Definition opt_ok (o : Z * list Z) : Prop := fst o <> 0 /\ fst o <> DHCP_OPT_END /\ len (snd o) <= 255.

(** What an option list says. *)
Definition opts_value (l : list (Z * list Z)) (o : dhcp_opts) : dhcp_opts :=
  fold_left (fun o cp => parse_option (fst cp) (len (snd cp)) (snd cp) o) l o.

Lemma rd8_app l r i : 0 <= i < len l -> rd8 (l ++ r) i = rd8 l i.
Proof. intros Hi. unfold rd8, len in *. apply app_nth1. lia. Qed.

Lemma parse_option_app c p r o : parse_option c (len p) (p ++ r) o = parse_option c (len p) p o.
Proof.
  unfold parse_option, be_ip.
  destruct (Z.leb_spec 1 (len p)) as [H1|H1]; [rewrite (rd8_app p r 0) by lia|];
    (destruct (Z.leb_spec 4 (len p)) as [H4|H4]; [rewrite ?(rd8_app p r) by lia|]); done.
Qed.

Lemma parse_options_enc l junk o fuel : Forall opt_ok l -> (length (enc_opts l ++ junk) <= fuel)%nat ->
  parse_options fuel (enc_opts l ++ junk) o = opts_value l o.
Proof.
  unfold enc_opts. revert o fuel. induction l as [|[c p] l IH]; intros o fuel Hok Hf.
  - destruct fuel as [|fuel]; [simpl in Hf; lia|]. done.
  - apply Forall_cons in Hok as [(Hc0 & Hc & Hlen) Hok]. cbn [fst snd] in *.
    destruct fuel as [|fuel]; [simpl in Hf; lia|]. cbn [flat_map enc_opt fst snd app parse_options].
    destruct (Z.eqb_spec c DHCP_OPT_END); [done|]. destruct (Z.eqb_spec c 0); [done|].
    rewrite <- !app_assoc. rewrite <- !app_assoc in IH. cbn [app] in *.
    set (rest := flat_map enc_opt l ++ DHCP_OPT_END :: junk) in *.
    destruct (Z.ltb_spec (len (p ++ rest)) (len p)) as [Hlt|_];
      [unfold len in Hlt; rewrite length_app in Hlt; lia|].
    rewrite parse_option_app. unfold len at 1. rewrite Nat2Z.id, drop_app_length.
    rewrite IH; [done|done|]. cbn [flat_map enc_opt fst snd app length] in Hf.
    rewrite <- !app_assoc, !length_app in Hf. cbn [app length] in *. subst rest. rewrite length_app. simpl. lia.
Qed.

(** A server reply: op, xid, the offered address and the cookie at their offsets,
    the other header fields arbitrary. *)
Record dhcp_reply (data : list Z) (yiaddr : Z) (l : list (Z * list Z)) : Prop := {
  dr_op : rd8 data 0 = DHCP_OP_REPLY;
  dr_xid : ntohl (rd32 data 4) = DHCP_XID;
  dr_magic : ntohl (rd32 data 236) = DHCP_MAGIC_COOKIE;
  dr_yiaddr : ntohl (rd32 data 16) = yiaddr;
  dr_opts : exists junk, drop 240 data = enc_opts l ++ junk;
  dr_ok : Forall opt_ok l;
  dr_nz : yiaddr <> 0;
  dr_len : 240 <= len data < 2 ^ 16
}.

Section dhcp_proofs.
Context {H D : Type} `{!Kheap H} `{!NicHw D}.
Implicit Types s : nst H D.

(** The options [dhcp_rx] computes for such a reply. *)
Lemma dhcp_reply_opts data yiaddr l o : dhcp_reply data yiaddr l ->
  parse_options (Z.to_nat (u16 (len data - DHCP_HDR_LEN))) (sub data DHCP_HDR_LEN (u16 (len data - DHCP_HDR_LEN))) o
    = opts_value l o.
Proof.
  intros [_ _ _ _ (junk & Hj) Hok _ Hlen]. change DHCP_HDR_LEN with 240. rewrite u16_small by lia.
  assert (sub data 240 (len data - 240) = enc_opts l ++ junk) as ->.
  { unfold sub. change (Z.to_nat 240) with 240%nat. rewrite Hj. apply take_ge. rewrite <- Hj, length_drop.
    unfold len. lia. }
  apply parse_options_enc; [done|]. rewrite <- Hj, length_drop. unfold len. lia.
Qed.

(** A lease: when the client has requested an address, an acknowledgement from
    the server configures exactly the acknowledged address with the mask and
    router of the options (255.255.255.0 and the server itself when the options
    do not say), tells ARP about the address, and binds the client; nothing else
    of the stack changes. *)
Theorem dhcp_ack_configures data yiaddr l src_ip sp dp s (Hr : dhcp_reply data yiaddr l)
  (Hst : d_state s = DHCP_STATE_REQUESTING)
  (Hack : o_msgtype (opts_value l (mk_opts 0 0 0xFFFFFF00 0)) = DHCP_ACK) :
  let o := opts_value l (mk_opts 0 0 0xFFFFFF00 0) in
  let s' := dhcp_rx data (len data) src_ip sp dp s in
  our_ip s' = yiaddr /\ arp_our_ip s' = yiaddr /\ our_netmask s' = o_mask o /\
  our_gateway s' = (if o_gw o =? 0 then server_ip s else o_gw o) /\ dhcp_bound s' = 1 /\
  s' = with_d_state (ipv4_set_addr yiaddr (o_mask o) (our_gateway s') s) DHCP_STATE_BOUND.
Proof.
  intros o s'. assert (s' = with_d_state (ipv4_set_addr yiaddr (o_mask o)
    (if o_gw o =? 0 then server_ip s else o_gw o) s) DHCP_STATE_BOUND) as E.
  { subst s'. unfold dhcp_rx. rewrite (dhcp_reply_opts _ _ _ _ Hr). fold o.
    pose proof Hr as [Hop Hx Hm Hy _ _ Hnz Hlen]. change DHCP_HDR_LEN with 240.
    destruct (Z.ltb_spec (len data) 240); [lia|]. rewrite Hop, Hx, Hm, Hy, !Z.eqb_refl. cbn [negb].
    destruct (Z.eqb_spec yiaddr 0); [done|]. rewrite Hst. cbn [bool_decide andb].
    change (o_msgtype o) with (o_msgtype (opts_value l (mk_opts 0 0 0xFFFFFF00 0))). rewrite Hack. done. }
  clearbody s'. subst s'. done.
Qed.

(** ** Retransmission *)

Lemma sent_d s s' : sent s s' -> d_state s' = d_state s /\ retry_count s' = retry_count s /\
  d_deadline s' = d_deadline s /\ ticks s' = ticks s.
Proof. by intros (h & d & n & p & ->). Qed.

(** [t] ticks later, the client's timer has run out. *)
Definition waiting s : Prop := d_state s = DHCP_STATE_SELECTING \/ d_state s = DHCP_STATE_REQUESTING.

Lemma dhcp_tick_fire s : waiting s -> 0 <= i32 (timer_ticks32 s - d_deadline s) ->
  let s' := snd (dhcp_tick s) in
  if DHCP_MAX_RETRIES <=? retry_count s then d_state s' = DHCP_STATE_FAILED
  else d_state s' = d_state s /\ retry_count s' = retry_count s + 1 /\
       d_deadline s' = u32 (timer_ticks32 s + DHCP_RETRY_MS).
Proof.
  intros Hw Hf. unfold dhcp_tick.
  destruct Hw as [E|E]; rewrite E; (destruct (Z.ltb_spec (i32 (timer_ticks32 s - d_deadline s)) 0); [lia|]);
    (destruct (DHCP_MAX_RETRIES <=? retry_count s); [done|]); cbv zeta;
    cbn [d_state with_d_deadline with_retry_count]; rewrite E; cbn [snd].
  - unfold send_discover.
    match goal with |- context [udp_send ?a ?b ?c ?d ?e ?st] =>
      destruct (sent_d _ _ (sent_udp_send a b c d e st)) as (-> & -> & -> & _) end. done.
  - unfold send_request.
    match goal with |- context [udp_send ?a ?b ?c ?d ?e ?st] =>
      destruct (sent_d _ _ (sent_udp_send a b c d e st)) as (-> & -> & -> & _) end. done.
Qed.

(** Calls of [dhcp_tick] at the given times. *)
Definition dhcp_run s (ts : list Z) : nst H D := fold_left (fun s t => snd (dhcp_tick (with_ticks s t))) ts s.

(** Every time is at least one retry interval after the one before. *)
Fixpoint spaced_times (t0 : Z) (ts : list Z) : Prop :=
  match ts with [] => True | t :: ts => 0 <= t0 /\ t0 + DHCP_RETRY_MS <= t < t0 + 2 ^ 31 /\ spaced_times t ts end.

Lemma i32_elapsed t t0 : 0 <= t - t0 < 2 ^ 31 -> i32 (u32 t - u32 t0) = t - t0.
Proof.
  intros Ht. unfold i32, sint, u32. rewrite <- Zminus_mod. rewrite (Z.mod_small (t - t0)) by lia.
  change (2 ^ (32 - 1)) with (2 ^ 31). destruct (Z.ltb_spec (t - t0) (2 ^ 31)); lia.
Qed.

(** One expiry after another: the state is kept and the counter counts. *)
Lemma dhcp_run_waits ts t0 s : waiting s -> d_deadline s = u32 (t0 + DHCP_RETRY_MS) -> spaced_times t0 ts ->
  retry_count s + Z.of_nat (length ts) <= DHCP_MAX_RETRIES ->
  d_state (dhcp_run s ts) = d_state s /\ retry_count (dhcp_run s ts) = retry_count s + Z.of_nat (length ts) /\
  d_deadline (dhcp_run s ts) = u32 (default t0 (last ts) + DHCP_RETRY_MS).
Proof.
  revert t0 s. induction ts as [|t ts IH]; intros t0 s Hw Hd Hts Hn.
  { simpl. rewrite Z.add_0_r. done. }
  destruct Hts as (H0 & Ht & Hts). change DHCP_RETRY_MS with 3000 in Ht.
  pose proof (dhcp_tick_fire (with_ticks s t)) as Hfire. unfold timer_ticks32 in Hfire.
  cbn [with_ticks ticks d_deadline retry_count d_state] in Hfire.
  rewrite Hd, i32_elapsed in Hfire by (change DHCP_RETRY_MS with 3000; lia).
  specialize (Hfire Hw ltac:(change DHCP_RETRY_MS with 3000; lia)). cbn [length] in Hn.
  destruct (Z.leb_spec DHCP_MAX_RETRIES (retry_count s)) as [?|_]; [lia|].
  cbn [dhcp_run fold_left]. fold (dhcp_run (snd (dhcp_tick (with_ticks s t))) ts).
  revert Hfire. generalize (snd (dhcp_tick (with_ticks s t))). intros s' (Hs & Hr & Hdl).
  rewrite u32_add_l in Hdl.
  destruct (IH t s') as (H1 & H2 & H3); [|done|done|lia|].
  { unfold waiting in *. by rewrite Hs. }
  rewrite H1, H2, H3. split; [done|]. split; [cbn [length]; lia|].
  rewrite last_cons. by destruct (last ts).
Qed.

(** A client nobody answers gives up: with [r] retries already spent, every
    expiry of the three second timer retransmits and counts one retry, and the
    expiry after the fifth retry stops the client for good in the FAILED state;
    the timer arithmetic is right across the wrap-around of the 32-bit tick
    counter. *)
Theorem dhcp_gives_up ts t t0 s (Hw : waiting s) (Hd : d_deadline s = u32 (t0 + DHCP_RETRY_MS))
  (Hts : spaced_times t0 (ts ++ [t])) (Hn : retry_count s + Z.of_nat (length ts) = DHCP_MAX_RETRIES) :
  d_state (dhcp_run s ts) = d_state s /\ retry_count (dhcp_run s ts) = DHCP_MAX_RETRIES /\
  d_state (dhcp_run s (ts ++ [t])) = DHCP_STATE_FAILED /\
  (forall t', let s' := dhcp_run s (ts ++ [t]) in dhcp_tick (with_ticks s' t') = (-1, with_ticks s' t')).
Proof.
  assert (spaced_times t0 ts /\ exists tl, tl = default t0 (last ts) /\ 0 <= tl /\ tl + DHCP_RETRY_MS <= t < tl + 2 ^ 31) as [Hsp (tl & Htl & H0 & Ht)].
  { clear Hd Hn Hw. revert t0 Hts. induction ts as [|u ts IH]; intros t0 Hts.
    - destruct Hts as (H0 & Ht & _). split; [done|]. by exists t0.
    - destruct Hts as (H0 & Ht & Hts). destruct (IH u Hts) as [H1 (tl & -> & H2)].
      split; [done|]. eexists. split; [reflexivity|]. rewrite last_cons. by destruct (last ts). }
  destruct (dhcp_run_waits ts t0 s Hw Hd Hsp ltac:(lia)) as (H1 & H2 & H3). rewrite <- Htl in H3. rewrite Hn in H2.
  assert (dhcp_run s (ts ++ [t]) = snd (dhcp_tick (with_ticks (dhcp_run s ts) t))) as E.
  { unfold dhcp_run. by rewrite fold_left_app. }
  revert H1 H2 H3 E. generalize (dhcp_run s ts). intros s1 H1 H2 H3 E.
  assert (d_state (dhcp_run s (ts ++ [t])) = DHCP_STATE_FAILED) as HF.
  { rewrite E. pose proof (dhcp_tick_fire (with_ticks s1 t)) as Hfire. unfold timer_ticks32 in Hfire.
    cbn [with_ticks ticks d_deadline retry_count d_state] in Hfire. change DHCP_RETRY_MS with 3000 in *.
    rewrite H3, i32_elapsed, H2 in Hfire by lia. apply Hfire; [|lia]. unfold waiting in *. cbn. by rewrite H1. }
  split; [done|]. split; [done|]. split; [done|]. intros t' s'. subst s'. unfold dhcp_tick.
  cbn [with_ticks d_state]. by rewrite HF.
Qed.
End dhcp_proofs.

(** ** Witnesses *)

(** A catch-all entry does not keep the datagram from the handler of its port. *)
Lemma udp_roundtrip_witness :
  udp_rx (fun h d n ip sp dp s => match h with h_dhcp_rx => with_pkt_id s (sp + n + nth 0 d 0) | _ => s end)
    (udp_datagram 0x0A000202 0x0A00020F 67 68 [9; 8; 7] 3 ++ []) 11 0x0A000202 0x0A00020F
    (with_udp_h demo_net [(0, h_udp_sock_rx); (68, h_dhcp_rx)])
  = with_pkt_id (with_udp_h demo_net [(0, h_udp_sock_rx); (68, h_dhcp_rx)]) (67 + 3 + 9).
Proof.
  refine (eq_trans (proj1 (proj2 (proj2 (udp_roundtrip _
    0x0A000202 0x0A00020F 67 68 [9; 8; 7] [] (with_udp_h demo_net [(0, h_udp_sock_rx); (68, h_dhcp_rx)]) _ _ _ _))) h_dhcp_rx _) _);
    [bytes_solve|vm_compute; reflexivity|lia|lia| |reflexivity].
  left. exists [(0, h_udp_sock_rx)], []. split; [reflexivity|]. apply Forall_singleton. cbn. lia.
Defined.

(** 10.0.2.15 acknowledged by 10.0.2.2, with a mask and no router. *)
Definition demo_ack_opts : list (Z * list Z) :=
  [(DHCP_OPT_MSGTYPE, [DHCP_ACK]); (DHCP_OPT_SERVERID, [10; 0; 2; 2]); (DHCP_OPT_SUBNET, [255; 255; 0; 0])].
Definition demo_ack : list Z :=
  [2; 1; 6; 0] ++ le32 (htonl DHCP_XID) ++ zeros 8 ++ [10; 0; 2; 15] ++ zeros 216 ++
  le32 (htonl DHCP_MAGIC_COOKIE) ++ enc_opts demo_ack_opts.

Lemma dhcp_ack_configures_witness :
  let s' := dhcp_rx demo_ack (len demo_ack) 0 67 68 (with_d_state (with_our_ip demo_net 0) DHCP_STATE_REQUESTING) in
  our_ip s' = 0x0A00020F /\ our_netmask s' = 0xFFFF0000 /\ our_gateway s' = 0x0A000202.
Proof.
  assert (dhcp_reply demo_ack 0x0A00020F demo_ack_opts) as Hr.
  { split; try (vm_compute; reflexivity); try discriminate.
    - exists []. vm_compute. reflexivity.
    - repeat (apply Forall_cons; split; [vm_compute; repeat split; discriminate|]). by apply Forall_nil.
    - vm_compute. split; [discriminate|reflexivity]. }
  destruct (dhcp_ack_configures demo_ack 0x0A00020F demo_ack_opts 0 67 68
    (with_d_state (with_our_ip demo_net 0) DHCP_STATE_REQUESTING) Hr eq_refl ltac:(vm_compute; reflexivity))
    as (H1 & _ & H2 & H3 & _).
  split; [exact H1|]. split; [exact H2|exact H3].
Defined.

Lemma dhcp_gives_up_witness :
  d_state (dhcp_run (with_d_deadline (with_d_state demo_net DHCP_STATE_SELECTING) 8000)
    [9000; 13000; 17000; 21000; 25000; 29000]) = DHCP_STATE_FAILED.
Proof.
  destruct (dhcp_gives_up [9000; 13000; 17000; 21000; 25000] 29000 5000
    (with_d_deadline (with_d_state demo_net DHCP_STATE_SELECTING) 8000) (or_introl eq_refl) eq_refl
    ltac:(simpl; unfold DHCP_RETRY_MS; lia) eq_refl) as (_ & _ & E & _).
  exact E.
Defined.
