(* ===== verification/Tcp.v ===== *)
(** * TCP: src/net/tcp/tcp.c

    Connections are the entries of the table [conns]; a pointer to one is its
    index.  [tcp_rx] is split the way its body is: look-up, passive open, reset,
    SYN_SENT, SYN_RCVD, then acknowledgement, data and FIN processing.  The
    callbacks [on_data]/[on_close] run the two functions the socket layer
    registers ([tcp_sock_data], [tcp_sock_close] of src/net/socket/socket.c). *)

From S2P Require Import Prelude Mem Io Ring Packet NetState E1000 Ether Ipv4.

Definition TCP_HDR_LEN : Z := 20.
Definition TCP_FIN : Z := 0x01.
Definition TCP_SYN : Z := 0x02.
Definition TCP_RST : Z := 0x04.
Definition TCP_PSH : Z := 0x08.
Definition TCP_ACK : Z := 0x10.
Definition TCP_DATA_OFF_MIN : Z := 0x50.
Definition TCP_RX_BUF_SIZE : Z := 4096.
Definition TCP_RTO_MS : Z := 1000.
Definition TCP_MAX_RETRIES : Z := 5.
Definition TCP_TIME_WAIT_MS : Z := 4000.
Definition TCP_WINDOW : Z := TCP_RX_BUF_SIZE.
Definition TCP_MAX_CONN : Z := 8.

(** Sequence number arithmetic. *)
Definition seq_lt (a b : Z) : bool := i32 (a - b) <? 0.
Definition seq_leq (a b : Z) : bool := i32 (a - b) <=? 0.

(** The 20 header bytes. *)
Definition tcp_hdr (src_port dst_port seq ack flags window csum : Z) : list Z :=
  le16 (htons src_port) ++ le16 (htons dst_port) ++ le32 (htonl seq) ++ le32 (htonl ack) ++
  [TCP_DATA_OFF_MIN; flags] ++ le16 (htons window) ++ le16 csum ++ le16 0.

(** Receive buffer. *)
Definition rx_free (c : tcp_conn) : Z :=
  u16 (TCP_RX_BUF_SIZE - 1 - u16 ((rx_tail c - rx_head c + TCP_RX_BUF_SIZE) mod TCP_RX_BUF_SIZE)).

Definition rx_push (c : tcp_conn) (data : list Z) (n : Z) : tcp_conn :=
  let '(buf, t) := ring_write TCP_RX_BUF_SIZE (rx_buf c) (rx_tail c) (sub data 0 n) in
  cs_rx_tail (cs_rx_buf c buf) t.

Section tcp.
Context {H D : Type} `{!Kheap H} `{!NicHw D}.
Implicit Types s : nst H D.

(** ** Callbacks of the socket layer *)

Definition tcp_sock_data (id : Z) s : nst H D := s.

Definition tcp_sock_close (id : Z) s : nst H D :=
  match first_idx (fun k => ty_eqb (s_type k) SOCK_TCP && (conn_id k =? id)) (socks s) with
  | Some i => set_sock s (Z.of_nat i) (ss_conn_id (get_sock s (Z.of_nat i)) (-1))
  | None => s
  end.

(** [if (cb) cb(id);] *)
Definition run_cb (cb : tcp_cb) (id : Z) s : nst H D :=
  match cb with
  | cb_null => s
  | cb_tcp_sock_data => tcp_sock_data id s
  | cb_tcp_sock_close => tcp_sock_close id s
  end.

(** ** Helpers *)

Definition next_isn s : Z * nst H D :=
  let v := u32 (isn_counter s * 1664525 + 1013904223) in (v, with_isn_counter s v).

Definition conn_alloc s : Z :=
  match first_idx (fun c => st_eqb (c_state c) TCP_CLOSED) (take 8 (conns s)) with
  | Some i => Z.of_nat i
  | None => -1
  end.

(** The segment is modified in place: its new bytes are the second result. *)
Definition tcp_send_raw (i : Z) (seg : list Z) (n : Z) s : Z * list Z * nst H D :=
  let c := get_conn s i in
  let seg := wr seg 16 (le16 0) in
  let seg := wr seg 16 (le16 (tcp_checksum (local_ip c) (remote_ip c) seg n)) in
  let '(ret, s) := ipv4_send (remote_ip c) IPPROTO_TCP seg n s in
  (ret, seg, s).

Definition send_ctrl (i flags seq ack : Z) s : nst H D :=
  let c := get_conn s i in
  let seg := tcp_hdr (local_port c) (remote_port c) seq ack flags TCP_WINDOW 0 in
  let '(_, _, s) := tcp_send_raw i seg TCP_HDR_LEN s in s.

Definition rst_segment (src_ip src_port dst_ip dst_port seq ack flags : Z) : list Z :=
  let seg :=
    if has flags TCP_ACK then tcp_hdr dst_port src_port ack 0 TCP_RST 0 0
    else tcp_hdr dst_port src_port 0 (u32 (seq + 1)) (TCP_RST |b TCP_ACK) 0 0 in
  let ph := pseudo_hdr dst_ip src_ip IPPROTO_TCP TCP_HDR_LEN in
  let sum := csum_add sum_fuel 0 ph 12 in
  let sum := csum_add sum_fuel sum seg TCP_HDR_LEN in
  wr seg 16 (le16 (finish_sum sum)).

Definition send_rst_reply (src_ip src_port dst_ip dst_port seq ack flags : Z) s : nst H D :=
  snd (ipv4_send src_ip IPPROTO_TCP (rst_segment src_ip src_port dst_ip dst_port seq ack flags) TCP_HDR_LEN s).

(** ** Retransmission buffer *)

Definition retx_free (i : Z) s : nst H D :=
  let c := get_conn s i in
  if negb (retx_buf c =? 0) then
    let s := kfree (retx_buf c) s in set_conn s i (cs_retx_buf (get_conn s i) 0)
  else s.

Definition retx_arm (i : Z) (seg : list Z) (n : Z) s : nst H D :=
  let s := retx_free i s in
  let '(p, s) := kmalloc n s in
  let s := set_conn s i (cs_retx_buf (get_conn s i) p) in
  if p =? 0 then s
  else
    let c := get_conn s i in
    let c := cs_retx_data c (sub seg 0 n) in
    let c := cs_retx_len c n in
    let c := cs_retx_deadline c (u32 (ticks s + TCP_RTO_MS)) in
    set_conn s i (cs_retx_count c 0).

Definition retx_clear (i : Z) s : nst H D :=
  let s := retx_free i s in
  set_conn s i (cs_retx_count (cs_retx_len (get_conn s i) 0) 0).

(** ** Receiving *)

(** The look-up loop: the matching connection and the last matching listener
    seen before it. *)
Fixpoint tcp_lookup (l : list tcp_conn) (i : Z) (dst_port src_port src_ip : Z) (lstn : option Z) :
    option Z * option Z :=
  match l with
  | [] => (None, lstn)
  | t :: l =>
      if st_eqb (c_state t) TCP_CLOSED then tcp_lookup l (i + 1) dst_port src_port src_ip lstn
      else if st_eqb (c_state t) TCP_LISTEN && (local_port t =? dst_port) then
        tcp_lookup l (i + 1) dst_port src_port src_ip (Some i)
      else if (local_port t =? dst_port) && (remote_port t =? src_port) && (remote_ip t =? src_ip) then
        (Some i, lstn)
      else tcp_lookup l (i + 1) dst_port src_port src_ip lstn
  end.

(** A decoded segment. *)
Record seg := mk_seg {
  g_src_port : Z; g_dst_port : Z; g_seq : Z; g_ack : Z; g_wnd : Z; g_flags : Z; g_data : list Z; g_len : Z
}.

Definition tcp_decode (payload : list Z) (n : Z) : option seg :=
  if n <? TCP_HDR_LEN then None
  else
    let hdr_words := u8 (rd8 payload 12 >>b 4) in
    let hdr_len := u16 (hdr_words * 4) in
    if (hdr_len <? TCP_HDR_LEN) || (n <? hdr_len) then None
    else Some (mk_seg (ntohs (rd16 payload 0)) (ntohs (rd16 payload 2)) (ntohl (rd32 payload 4))
                 (ntohl (rd32 payload 8)) (ntohs (rd16 payload 14)) (rd8 payload 13)
                 (drop (Z.to_nat hdr_len) payload) (u16 (n - hdr_len))).

(** A SYN for a listener [l]. *)
Definition passive_open (l : Z) (g : seg) (src_ip dst_ip : Z) s : nst H D :=
  let id := conn_alloc s in
  if id <? 0 then
    send_rst_reply src_ip (g_src_port g) dst_ip (g_dst_port g) (g_seq g) (g_ack g) (g_flags g) s
  else
    let '(isn, s) := next_isn s in
    let c := get_conn s id in
    let lc := get_conn s l in
    let c := mk_conn TCP_SYN_RCVD dst_ip (g_dst_port g) src_ip (g_src_port g) isn (u32 (isn + 1)) (g_wnd g)
               (u32 (g_seq g + 1)) 0 (retx_data c) 0 (retx_deadline c) (retx_count c) (rx_buf c) 0 0
               (on_data lc) (on_close lc) in
    let s := set_conn s id c in
    let synack := tcp_hdr (local_port c) (remote_port c) (snd_una c) (rcv_nxt c) (TCP_SYN |b TCP_ACK) TCP_WINDOW 0 in
    let s := retx_arm id synack TCP_HDR_LEN s in
    let '(_, _, s) := tcp_send_raw id synack TCP_HDR_LEN s in s.

Definition no_conn (lstn : option Z) (g : seg) (src_ip dst_ip : Z) s : nst H D :=
  let rst := send_rst_reply src_ip (g_src_port g) dst_ip (g_dst_port g) (g_seq g) (g_ack g) (g_flags g) s in
  match lstn with
  | Some l =>
      if has (g_flags g) TCP_SYN && negb (has (g_flags g) TCP_ACK) then passive_open l g src_ip dst_ip s
      else if negb (has (g_flags g) TCP_RST) then rst else s
  | None => if negb (has (g_flags g) TCP_RST) then rst else s
  end.

(** Close a connection: clear the retransmission, tell the owner, free the slot. *)
Definition close_conn (i : Z) s : nst H D :=
  let s := retx_clear i s in
  let s := run_cb (on_close (get_conn s i)) i s in
  set_conn s i (cs_c_state (get_conn s i) TCP_CLOSED).

Definition rx_rst (i : Z) (g : seg) s : nst H D :=
  let c := get_conn s i in
  if st_eqb (c_state c) TCP_SYN_SENT then close_conn i s
  else if negb (seq_lt (g_seq g) (rcv_nxt c)) && negb (seq_leq (u32 (rcv_nxt c + TCP_WINDOW)) (g_seq g))
  then close_conn i s
  else s.

Definition rx_syn_sent (i : Z) (g : seg) (src_ip dst_ip : Z) s : nst H D :=
  let c := get_conn s i in
  if negb (has (g_flags g) TCP_ACK) then s
  else if negb (g_ack g =? snd_nxt c) then
    send_rst_reply src_ip (g_src_port g) dst_ip (g_dst_port g) (g_seq g) (g_ack g) (g_flags g) s
  else if negb (has (g_flags g) TCP_SYN) then s
  else
    let c := cs_rcv_nxt (cs_snd_wnd (cs_snd_una c (g_ack g)) (g_wnd g)) (u32 (g_seq g + 1)) in
    let s := retx_clear i (set_conn s i c) in
    let s := set_conn s i (cs_c_state (get_conn s i) TCP_ESTABLISHED) in
    let c := get_conn s i in
    send_ctrl i TCP_ACK (snd_nxt c) (rcv_nxt c) s.

(** SYN_RCVD: [true] when processing goes on with the data. *)
Definition rx_syn_rcvd (i : Z) (g : seg) s : bool * nst H D :=
  let c := get_conn s i in
  if negb (has (g_flags g) TCP_ACK) then (false, s)
  else if g_ack g =? snd_nxt c then
    let s := retx_clear i (set_conn s i (cs_snd_wnd (cs_snd_una c (g_ack g)) (g_wnd g))) in
    (true, set_conn s i (cs_c_state (get_conn s i) TCP_ESTABLISHED))
  else (false, s).

Definition ack_states (st : tcp_state) : bool :=
  st_eqb st TCP_ESTABLISHED || st_eqb st TCP_FIN_WAIT_1 || st_eqb st TCP_CLOSE_WAIT || st_eqb st TCP_CLOSING.

Definition rx_ack_window (i : Z) (g : seg) s : nst H D :=
  let c := get_conn s i in
  if ack_states (c_state c) && (seq_leq (snd_una c) (g_ack g) && seq_leq (g_ack g) (snd_nxt c)) then
    let s := set_conn s i (cs_snd_wnd (cs_snd_una c (g_ack g)) (g_wnd g)) in
    let c := get_conn s i in
    if negb (retx_buf c =? 0) && seq_leq (snd_nxt c) (snd_una c) then retx_clear i s else s
  else s.

(** Acknowledgement processing: [true] when the handler returns. *)
Definition rx_ack (i : Z) (g : seg) s : bool * nst H D :=
  if has (g_flags g) TCP_ACK then
    let s := rx_ack_window i g s in
    let acked s := g_ack g =? snd_nxt (get_conn s i) in
    let s := if st_eqb (c_state (get_conn s i)) TCP_FIN_WAIT_1 && acked s
             then set_conn s i (cs_c_state (get_conn s i) TCP_FIN_WAIT_2) else s in
    let s := if st_eqb (c_state (get_conn s i)) TCP_CLOSING && acked s
             then set_conn s i (cs_retx_deadline (cs_c_state (get_conn s i) TCP_TIME_WAIT)
                                  (u32 (ticks s + TCP_TIME_WAIT_MS))) else s in
    if st_eqb (c_state (get_conn s i)) TCP_LAST_ACK && acked s then (true, close_conn i s) else (false, s)
  else (false, s).

Definition rx_data (i : Z) (g : seg) s : nst H D :=
  let c := get_conn s i in
  if (0 <? g_len g) && (st_eqb (c_state c) TCP_ESTABLISHED || st_eqb (c_state c) TCP_FIN_WAIT_1 ||
                        st_eqb (c_state c) TCP_FIN_WAIT_2) then
    let s :=
      if g_seq g =? rcv_nxt c then
        let free := rx_free c in
        let accept := if free <? g_len g then free else g_len g in
        if 0 <? accept then
          let c := rx_push c (g_data g) accept in
          let s := set_conn s i (cs_rcv_nxt c (u32 (rcv_nxt c + accept))) in
          run_cb (on_data (get_conn s i)) i s
        else s
      else s in
    let c := get_conn s i in
    send_ctrl i TCP_ACK (snd_nxt c) (rcv_nxt c) s
  else s.

Definition rx_fin (i : Z) (g : seg) s : nst H D :=
  if has (g_flags g) TCP_FIN then
    let c := get_conn s i in
    let s := set_conn s i (cs_rcv_nxt c (u32 (rcv_nxt c + 1))) in
    let ack s := let c := get_conn s i in send_ctrl i TCP_ACK (snd_nxt c) (rcv_nxt c) s in
    match c_state (get_conn s i) with
    | TCP_ESTABLISHED =>
        let s := ack (set_conn s i (cs_c_state (get_conn s i) TCP_CLOSE_WAIT)) in
        run_cb (on_close (get_conn s i)) i s
    | TCP_FIN_WAIT_1 => ack (set_conn s i (cs_c_state (get_conn s i) TCP_CLOSING))
    | TCP_FIN_WAIT_2 =>
        ack (set_conn s i (cs_retx_deadline (cs_c_state (get_conn s i) TCP_TIME_WAIT)
                             (u32 (ticks s + TCP_TIME_WAIT_MS))))
    | _ => s
    end
  else s.

(** ESTABLISHED and beyond. *)
Definition rx_established (i : Z) (g : seg) s : nst H D :=
  let '(ret, s) := rx_ack i g s in
  if ret then s else rx_fin i g (rx_data i g s).

Definition rx_conn (i : Z) (g : seg) (src_ip dst_ip : Z) s : nst H D :=
  if has (g_flags g) TCP_RST then rx_rst i g s
  else
    match c_state (get_conn s i) with
    | TCP_SYN_SENT => rx_syn_sent i g src_ip dst_ip s
    | TCP_SYN_RCVD =>
        let '(go, s) := rx_syn_rcvd i g s in
        if go then rx_established i g s else s
    | _ => rx_established i g s
    end.

Definition tcp_rx (payload : list Z) (n src_ip dst_ip : Z) s : nst H D :=
  match tcp_decode payload n with
  | None => s
  | Some g =>
      match tcp_lookup (take 8 (conns s)) 0 (g_dst_port g) (g_src_port g) src_ip None with
      | (Some i, _) => rx_conn i g src_ip dst_ip s
      | (None, lstn) => no_conn lstn g src_ip dst_ip s
      end
  end.

(** ** The interface used by the socket layer *)

Definition tcp_listen (local_port : Z) (on_data on_close : tcp_cb) s : Z * nst H D :=
  let id := conn_alloc s in
  if id <? 0 then (-1, s)
  else
    let c := get_conn s id in
    let c := mk_conn TCP_LISTEN (ipv4_get_addr s) local_port 0 0 (snd_una c) (snd_nxt c) (snd_wnd c) (rcv_nxt c)
               0 (retx_data c) 0 (retx_deadline c) (retx_count c) (rx_buf c) 0 0 on_data on_close in
    (id, set_conn s id c).

Definition tcp_connect (remote_ip remote_port local_port : Z) (on_data on_close : tcp_cb) s : Z * nst H D :=
  let id := conn_alloc s in
  if id <? 0 then (-1, s)
  else
    let '(isn, s) := next_isn s in
    let c := get_conn s id in
    let c := mk_conn TCP_SYN_SENT (ipv4_get_addr s) local_port remote_ip remote_port isn (u32 (isn + 1)) 0 0
               0 (retx_data c) 0 (retx_deadline c) (retx_count c) (rx_buf c) 0 0 on_data on_close in
    let s := set_conn s id c in
    let syn := tcp_hdr local_port remote_port (snd_una c) 0 TCP_SYN TCP_WINDOW 0 in
    let s := retx_arm id syn TCP_HDR_LEN s in
    let '(_, _, s) := tcp_send_raw id syn TCP_HDR_LEN s in
    (id, s).

Definition tcp_send (id : Z) (data : list Z) (n : Z) s : Z * nst H D :=
  if (id <? 0) || (TCP_MAX_CONN <=? id) then (-1, s)
  else
    let c := get_conn s id in
    if negb (st_eqb (c_state c) TCP_ESTABLISHED) && negb (st_eqb (c_state c) TCP_CLOSE_WAIT) then (-1, s)
    else if n =? 0 then (0, s)
    else
      let total := u16 (TCP_HDR_LEN + n) in
      let '(p, s) := kmalloc total s in
      if p =? 0 then (-1, s)
      else
        let c := get_conn s id in
        let seg := tcp_hdr (local_port c) (remote_port c) (snd_nxt c) (rcv_nxt c) (TCP_PSH |b TCP_ACK) TCP_WINDOW 0 ++
                   sub data 0 n in
        let s := set_conn s id (cs_snd_nxt c (u32 (snd_nxt c + n))) in
        let s := retx_arm id seg total s in
        let '(ret, _, s) := tcp_send_raw id seg total s in
        (ret, kfree p s).

(** [send_ctrl(c, FIN | ACK, ...); c->snd_nxt++; c->state = st;] *)
Definition send_fin (id : Z) (st : tcp_state) s : nst H D :=
  let c := get_conn s id in
  let s := send_ctrl id (TCP_FIN |b TCP_ACK) (snd_nxt c) (rcv_nxt c) s in
  let c := get_conn s id in
  set_conn s id (cs_c_state (cs_snd_nxt c (u32 (snd_nxt c + 1))) st).

Definition tcp_close (id : Z) s : Z * nst H D :=
  if (id <? 0) || (TCP_MAX_CONN <=? id) then (-1, s)
  else
    match c_state (get_conn s id) with
    | TCP_ESTABLISHED | TCP_SYN_RCVD => (0, send_fin id TCP_FIN_WAIT_1 s)
    | TCP_CLOSE_WAIT => (0, send_fin id TCP_LAST_ACK s)
    | TCP_LISTEN | TCP_SYN_SENT =>
        let s := retx_clear id s in
        (0, set_conn s id (cs_c_state (get_conn s id) TCP_CLOSED))
    | _ => (0, s)
    end.

(** One turn of the loop of [tcp_tick]. *)
Definition tick_conn (now i : Z) s : nst H D :=
  let c := get_conn s i in
  if st_eqb (c_state c) TCP_TIME_WAIT then
    if 0 <=? i32 (now - retx_deadline c) then set_conn s i (cs_c_state c TCP_CLOSED) else s
  else if (retx_buf c =? 0) || (retx_len c =? 0) then s
  else if i32 (now - retx_deadline c) <? 0 then s
  else if TCP_MAX_RETRIES <=? retx_count c then close_conn i s
  else
    let c := cs_retx_count c (retx_count c + 1) in
    let c := cs_retx_deadline c (u32 (now + TCP_RTO_MS * (1 <<b retx_count c))) in
    let s := set_conn s i c in
    let '(_, seg, s) := tcp_send_raw i (retx_data c) (retx_len c) s in
    set_conn s i (cs_retx_data (get_conn s i) seg).

Definition tcp_tick s : nst H D :=
  let now := timer_ticks32 s in
  fold_left (fun s i => tick_conn now (Z.of_nat i) s) (seq 0 8) s.

Definition tcp_accept (listen_port : Z) s : Z * nst H D :=
  match first_idx (fun c => st_eqb (c_state c) TCP_ESTABLISHED && (local_port c =? listen_port) &&
                            negb (remote_port c =? 0)) (take 8 (conns s)) with
  | Some i => let i := Z.of_nat i in (i, set_conn s i (cs_on_data (get_conn s i) cb_null))
  | None => (-1, s)
  end.

(** [tcp_read]: the bytes stored at [buf]; their number is the result. *)
Definition tcp_read (id n : Z) s : list Z * nst H D :=
  if (id <? 0) || (TCP_MAX_CONN <=? id) then ([], s)
  else
    let c := get_conn s id in
    let avail := u16 ((rx_tail c - rx_head c + TCP_RX_BUF_SIZE) mod TCP_RX_BUF_SIZE) in
    if avail =? 0 then ([], s)
    else
      let k := u16 (if avail <? n then avail else n) in
      let '(out, h) := ring_read (Z.to_nat k) TCP_RX_BUF_SIZE (rx_buf c) (rx_head c) in
      (out, set_conn s id (cs_rx_head c h)).

Definition tcp_get_peer (id : Z) s : Z * Z :=
  if (id <? 0) || (TCP_MAX_CONN <=? id) then (0, 0)
  else (remote_ip (get_conn s id), remote_port (get_conn s id)).

Definition tcp_init_impl s : Z * nst H D :=
  let s := with_conns s (map (fun c => cs_c_state c TCP_CLOSED) (conns s)) in
  (0, snd (ipv4_register IPPROTO_TCP h_tcp_rx s)).
End tcp.
