(* ===== verification/TcpSpec.v ===== *)
(** * TCP: theorems about src/net/tcp/tcp.c

    What each operation does to the connection table, up to the parts no other
    connection sees, and from it the state machine: every operation moves a connection
    only along the transitions of TCP, and all but the timer move at most one. *)

From S2P Require Import Prelude Mem Io Ring Packet NetState E1000 Ether Ipv4 Tcp.

(** ** The connection table *)

Section table.
Context {H D : Type} `{!Kheap H} `{!NicHw D}.
Implicit Types s : nst H D.

Definition states s : list tcp_state := map c_state (conns s).

Lemma get_set_conn s i c : 0 <= i < Z.of_nat (length (conns s)) -> get_conn (set_conn s i c) i = c.
Proof.
  intros Hi. unfold get_conn, set_conn. cbn [conns with_conns].
  rewrite nth_lookup, list_lookup_insert_eq by lia. done.
Qed.
Lemma get_set_conn_ne s i j c : 0 <= i -> 0 <= j -> i <> j -> get_conn (set_conn s i c) j = get_conn s j.
Proof.
  intros Hi Hj Hne. unfold get_conn, set_conn. cbn [conns with_conns].
  rewrite !nth_lookup, list_lookup_insert_ne by lia. done.
Qed.
Lemma length_set_conn s i c : length (conns (set_conn s i c)) = length (conns s).
Proof. unfold set_conn. cbn [conns with_conns]. apply length_insert. Qed.

Lemma state_nth s i : 0 <= i < Z.of_nat (length (conns s)) -> states s !! Z.to_nat i = Some (c_state (get_conn s i)).
Proof.
  intros Hi. unfold states, get_conn. rewrite list_lookup_fmap.
  destruct (lookup_lt_is_Some_2 (conns s) (Z.to_nat i)) as [c Hc]; [lia|].
  rewrite nth_lookup, Hc. done.
Qed.

Lemma states_set s i c : states (set_conn s i c) = <[Z.to_nat i := c_state c]> (states s).
Proof. unfold states, set_conn. cbn [conns with_conns]. by rewrite list_fmap_insert. Qed.

(** A field of every connection, or several of them. *)
Definition view {A} (f : tcp_conn -> A) s : list A := map f (conns s).

Lemma view_keep {A} (f : tcp_conn -> A) s i c : f c = f (get_conn s i) -> view f (set_conn s i c) = view f s.
Proof.
  intros Hc. unfold view, set_conn, get_conn in *. cbn [conns with_conns].
  rewrite (list_fmap_insert f), Hc.
  destruct (decide (Z.to_nat i < length (conns s))%nat) as [Hi|Hi].
  - apply list_insert_id. rewrite list_lookup_fmap.
    destruct (lookup_lt_is_Some_2 (conns s) (Z.to_nat i) Hi) as [d Hd]. by rewrite nth_lookup, Hd.
  - apply list_insert_ge. rewrite length_map. lia.
Qed.
Lemma view_sent {A} (f : tcp_conn -> A) s s' : sent s s' -> view f s' = view f s.
Proof. intros Hs. unfold view. by rewrite (sent_conns _ _ Hs). Qed.
Lemma view_get {A} (f : tcp_conn -> A) s s' i : view f s' = view f s -> f (get_conn s' i) = f (get_conn s i).
Proof.
  intros E. unfold view, get_conn in *. rewrite <- !(map_nth f).
  by rewrite E.
Qed.

Lemma states_keep s i c : c_state c = c_state (get_conn s i) -> states (set_conn s i c) = states s.
Proof. apply (view_keep c_state). Qed.
Lemma states_sent s s' : sent s s' -> states s' = states s.
Proof. apply (view_sent c_state). Qed.
Lemma states_length s : length (states s) = length (conns s).
Proof. apply length_map. Qed.

Lemma conns_run_cb cb i s : conns (run_cb cb i s) = conns s.
Proof.
  destruct cb; [done|done|]. cbn [run_cb]. unfold tcp_sock_close. by destruct (first_idx _ _).
Qed.
Lemma states_run_cb cb i s : states (run_cb cb i s) = states s.
Proof. unfold states. by rewrite conns_run_cb. Qed.
Lemma get_run_cb cb i j s : get_conn (run_cb cb i s) j = get_conn s j.
Proof. unfold get_conn. by rewrite conns_run_cb. Qed.

(** ** Sending leaves the table alone *)

Lemma sent_tcp_send_raw i seg n s : sent s (snd (tcp_send_raw i seg n s)).
Proof.
  unfold tcp_send_raw. match goal with |- context [ipv4_send ?a ?b ?c ?d s] =>
    pose proof (sent_ipv4_send a b c d s) as He; destruct (ipv4_send a b c d s) as [r s2] end. exact He.
Qed.
Lemma sent_send_ctrl i f q a s : sent s (send_ctrl i f q a s).
Proof.
  unfold send_ctrl. match goal with |- context [tcp_send_raw i ?b ?c s] =>
    pose proof (sent_tcp_send_raw i b c s) as He; destruct (tcp_send_raw i b c s) as [[r sg] s2] end. exact He.
Qed.
Lemma sent_rst a b c d e f g s : sent s (send_rst_reply a b c d e f g s).
Proof. apply sent_ipv4_send. Qed.

Lemma states_send_ctrl i f q a s : states (send_ctrl i f q a s) = states s.
Proof. apply states_sent, sent_send_ctrl. Qed.
Lemma get_send_ctrl i f q a j s : get_conn (send_ctrl i f q a s) j = get_conn s j.
Proof. apply sent_conn, sent_send_ctrl. Qed.

(** ** The retransmission buffer keeps every other field *)

Class RetxInv {A} (f : tcp_conn -> A) := {
  ri_buf : forall c v, f (cs_retx_buf c v) = f c;
  ri_data : forall c v, f (cs_retx_data c v) = f c;
  ri_len : forall c v, f (cs_retx_len c v) = f c;
  ri_deadline : forall c v, f (cs_retx_deadline c v) = f c;
  ri_count : forall c v, f (cs_retx_count c v) = f c
}.

Section retx.
Context {A : Type} (f : tcp_conn -> A) `{!RetxInv f}.

Lemma view_retx_free i s : view f (retx_free i s) = view f s.
Proof.
  unfold retx_free. destruct (negb _); [|done]. rewrite view_keep by apply ri_buf. done.
Qed.
Lemma view_retx_arm i seg n s : view f (retx_arm i seg n s) = view f s.
Proof.
  unfold retx_arm. pose proof (view_retx_free i s) as Hf. revert Hf. generalize (retx_free i s). intros s1 Hf.
  pose proof (sent_kmalloc n s1) as Hk. destruct (kmalloc n s1) as [p s2]. cbn [snd] in Hk.
  apply (view_sent f) in Hk. destruct (p =? 0).
  - rewrite view_keep by apply ri_buf. congruence.
  - rewrite view_keep by (by rewrite ri_count, ri_deadline, ri_len, ri_data).
    rewrite view_keep by apply ri_buf. congruence.
Qed.
Lemma view_retx_clear i s : view f (retx_clear i s) = view f s.
Proof. unfold retx_clear. rewrite view_keep by (by rewrite ri_count, ri_len). apply view_retx_free. Qed.
End retx.

#[export] Instance state_retx_inv : RetxInv c_state.
Proof. by split. Qed.
Lemma states_retx_arm i seg n s : states (retx_arm i seg n s) = states s.
Proof. apply (view_retx_arm c_state). Qed.
Lemma states_retx_clear i s : states (retx_clear i s) = states s.
Proof. apply (view_retx_clear c_state). Qed.
Lemma states_close_conn i s : states (close_conn i s) = <[Z.to_nat i := TCP_CLOSED]> (states s).
Proof. unfold close_conn. by rewrite states_set, states_run_cb, states_retx_clear. Qed.
End table.

(** ** The state machine *)

(** What one operation may do to the state of one connection: nothing, an edge of
    the TCP diagram, the two places where one segment takes two edges
    (ACK and FIN together), or an abort. *)
Inductive tcp_trans : tcp_state -> tcp_state -> Prop :=
  | tt_stay st : tcp_trans st st
  | tt_listen : tcp_trans TCP_CLOSED TCP_LISTEN
  | tt_connect : tcp_trans TCP_CLOSED TCP_SYN_SENT
  | tt_passive : tcp_trans TCP_CLOSED TCP_SYN_RCVD
  | tt_active_est : tcp_trans TCP_SYN_SENT TCP_ESTABLISHED
  | tt_passive_est : tcp_trans TCP_SYN_RCVD TCP_ESTABLISHED
  | tt_est_fin : tcp_trans TCP_SYN_RCVD TCP_CLOSE_WAIT
  | tt_close_rcvd : tcp_trans TCP_SYN_RCVD TCP_FIN_WAIT_1
  | tt_close_est : tcp_trans TCP_ESTABLISHED TCP_FIN_WAIT_1
  | tt_fin : tcp_trans TCP_ESTABLISHED TCP_CLOSE_WAIT
  | tt_fin_acked : tcp_trans TCP_FIN_WAIT_1 TCP_FIN_WAIT_2
  | tt_fin_both : tcp_trans TCP_FIN_WAIT_1 TCP_CLOSING
  | tt_fin_acked_fin : tcp_trans TCP_FIN_WAIT_1 TCP_TIME_WAIT
  | tt_fin2 : tcp_trans TCP_FIN_WAIT_2 TCP_TIME_WAIT
  | tt_closing : tcp_trans TCP_CLOSING TCP_TIME_WAIT
  | tt_last : tcp_trans TCP_CLOSE_WAIT TCP_LAST_ACK
  | tt_abort st : tcp_trans st TCP_CLOSED.
#[export] Hint Constructors tcp_trans : kernel.

(** The operations of the component. *)
Inductive tcp_op :=
  | op_rx (payload : list Z) (n src_ip dst_ip : Z)
  | op_listen (port : Z) (d c : tcp_cb)
  | op_connect (ip port lport : Z) (d c : tcp_cb)
  | op_send (id : Z) (data : list Z) (n : Z)
  | op_close (id : Z)
  | op_tick
  | op_accept (port : Z)
  | op_read (id n : Z).

Section machine.
Context {H D : Type} `{!Kheap H} `{!NicHw D}.
Implicit Types s : nst H D.

Definition tcp_exec (o : tcp_op) s : nst H D :=
  match o with
  | op_rx p n a b => tcp_rx p n a b s
  | op_listen port d c => snd (tcp_listen port d c s)
  | op_connect ip port lport d c => snd (tcp_connect ip port lport d c s)
  | op_send id data n => snd (tcp_send id data n s)
  | op_close id => snd (tcp_close id s)
  | op_tick => tcp_tick s
  | op_accept port => snd (tcp_accept port s)
  | op_read id n => snd (tcp_read id (u16 n) s)
  end.

(** At most connection [i] moves, and along an allowed transition. *)
Definition moves (i : Z) s s' : Prop :=
  exists st, states s' = <[Z.to_nat i := st]> (states s) /\ tcp_trans (c_state (get_conn s i)) st.

Lemma moves_stay i s s' : 0 <= i < Z.of_nat (length (conns s)) -> states s' = states s -> moves i s s'.
Proof.
  intros Hi E. exists (c_state (get_conn s i)). split; [|constructor]. rewrite E. symmetry.
  apply list_insert_id, state_nth, Hi.
Qed.

(** State of connection [i] in a table of states. *)
Lemma state_of s s' i st : 0 <= i < Z.of_nat (length (conns s)) ->
  states s' = <[Z.to_nat i := st]> (states s) -> c_state (get_conn s' i) = st.
Proof.
  intros Hi E. assert (length (conns s') = length (conns s)) as Hl.
  { rewrite <- !states_length, E. apply length_insert. }
  pose proof (state_nth s' i ltac:(lia)) as Hn. rewrite E, list_lookup_insert_eq in Hn; [by injection Hn|].
  rewrite states_length. lia.
Qed.

Lemma states_rx_ack_window i g s : states (rx_ack_window i g s) = states s.
Proof.
  unfold rx_ack_window. destruct (_ && _); [|done].
  assert (states (set_conn s i (cs_snd_wnd (cs_snd_una (get_conn s i) (g_ack g)) (g_wnd g))) = states s) as E
    by (by apply states_keep).
  destruct (_ && _); [|done]. by rewrite states_retx_clear.
Qed.

Lemma states_rx_data i g s : states (rx_data i g s) = states s.
Proof.
  unfold rx_data. destruct (_ && _); [|done]. rewrite states_send_ctrl.
  destruct (_ =? _); [|done]. destruct (0 <? _); [|done]. rewrite states_run_cb.
  apply states_keep. unfold rx_push. by destruct (ring_write _ _ _ _).
Qed.

(** Connection [i] is in state [st] and the others are as in [s]. *)
Definition at_state (i : Z) s (st : tcp_state) s' : Prop := states s' = <[Z.to_nat i := st]> (states s).

Section one.
Context (i : Z) (s : nst H D) (Hi : 0 <= i < Z.of_nat (length (conns s))).

Lemma at_refl : at_state i s (c_state (get_conn s i)) s.
Proof. symmetry. apply list_insert_id, state_nth, Hi. Qed.
Lemma at_same st s1 s2 : at_state i s st s1 -> states s2 = states s1 -> at_state i s st s2.
Proof. unfold at_state. congruence. Qed.
Lemma at_set st s1 c : at_state i s st s1 -> at_state i s (c_state c) (set_conn s1 i c).
Proof. unfold at_state. intros E. rewrite states_set, E. apply list_insert_insert_eq. Qed.
Lemma at_get st s1 : at_state i s st s1 -> c_state (get_conn s1 i) = st.
Proof. by apply state_of. Qed.
Lemma at_close st s1 : at_state i s st s1 -> at_state i s TCP_CLOSED (close_conn i s1).
Proof. unfold at_state. intros E. rewrite states_close_conn, E. apply list_insert_insert_eq. Qed.

Lemma at_rx_ack g st s1 : at_state i s st s1 ->
  let '(ret, s2) := rx_ack i g s1 in
  exists st', at_state i s st' s2 /\
    if ret then st' = TCP_CLOSED
    else st' = st \/ (st = TCP_FIN_WAIT_1 /\ st' = TCP_FIN_WAIT_2) \/ (st = TCP_CLOSING /\ st' = TCP_TIME_WAIT).
Proof.
  intros E. unfold rx_ack. destruct (has _ _); [|exists st; auto].
  apply (at_same _ _ (rx_ack_window i g s1)) in E; [|apply states_rx_ack_window].
  revert E. generalize (rx_ack_window i g s1). intros s2 E. rewrite (at_get _ _ E).
  set (s3 := if st_eqb st TCP_FIN_WAIT_1 && _ then _ else s2).
  assert (exists st3, at_state i s st3 s3 /\ (st3 = st \/ (st = TCP_FIN_WAIT_1 /\ st3 = TCP_FIN_WAIT_2))) as (st3 & E3 & H3).
  { subst s3. unfold st_eqb. case_bool_decide as Hst; cbn [andb]; [|by exists st; auto].
    destruct (_ =? _); [|by exists st; auto]. exists TCP_FIN_WAIT_2. split; [|auto]. by apply (at_set st s2). }
  clearbody s3. rewrite (at_get _ _ E3).
  set (s4 := if st_eqb st3 TCP_CLOSING && _ then _ else s3).
  assert (exists st4, at_state i s st4 s4 /\
    (st4 = st \/ (st = TCP_FIN_WAIT_1 /\ st4 = TCP_FIN_WAIT_2) \/ (st = TCP_CLOSING /\ st4 = TCP_TIME_WAIT))) as (st4 & E4 & H4).
  { subst s4. unfold st_eqb. case_bool_decide as Hst; cbn [andb]; [|exists st3; split; [done|tauto]].
    destruct (_ =? _); [|exists st3; split; [done|tauto]]. exists TCP_TIME_WAIT. split; [by apply (at_set st3 s3)|].
    right; right. split; [|done]. destruct H3 as [->|[_ ->]]; [done|discriminate Hst]. }
  clearbody s4. destruct (_ && _).
  - exists TCP_CLOSED. split; [|done]. by apply (at_close st4).
  - by exists st4.
Qed.

Lemma at_rx_fin g st s1 : at_state i s st s1 ->
  exists st', at_state i s st' (rx_fin i g s1) /\
    (st' = st \/ (st = TCP_ESTABLISHED /\ st' = TCP_CLOSE_WAIT) \/ (st = TCP_FIN_WAIT_1 /\ st' = TCP_CLOSING) \/
     (st = TCP_FIN_WAIT_2 /\ st' = TCP_TIME_WAIT)).
Proof.
  intros E. unfold rx_fin. destruct (has _ _); [|exists st; auto].
  apply (at_same _ _ (set_conn s1 i (cs_rcv_nxt (get_conn s1 i) (u32 (rcv_nxt (get_conn s1 i) + 1))))) in E;
    [|by apply states_keep].
  revert E. generalize (set_conn s1 i (cs_rcv_nxt (get_conn s1 i) (u32 (rcv_nxt (get_conn s1 i) + 1)))).
  intros s2 E. rewrite (at_get _ _ E).
  destruct st; try (by eexists; split; [exact E|by left]).
  - exists TCP_CLOSE_WAIT. split; [|tauto]. eapply at_same; [|by rewrite states_run_cb, states_send_ctrl].
    by apply (at_set TCP_ESTABLISHED s2).
  - exists TCP_CLOSING. split; [|tauto]. eapply at_same; [|by rewrite states_send_ctrl].
    by apply (at_set TCP_FIN_WAIT_1 s2).
  - exists TCP_TIME_WAIT. split; [|tauto]. eapply at_same; [|by rewrite states_send_ctrl].
    by apply (at_set TCP_FIN_WAIT_2 s2).
Qed.

Lemma at_rx_established g st s1 : at_state i s st s1 ->
  exists st', at_state i s st' (rx_established i g s1) /\ tcp_trans st st' /\
    (st = TCP_ESTABLISHED -> st' = TCP_ESTABLISHED \/ st' = TCP_CLOSE_WAIT \/ st' = TCP_CLOSED).
Proof.
  intros E. unfold rx_established. pose proof (at_rx_ack g st s1 E) as Ha.
  destruct (rx_ack i g s1) as [ret s2]. destruct Ha as (st2 & E2 & H2). destruct ret.
  { exists st2. subst st2. split; [done|]. split; [constructor|auto]. }
  destruct (at_rx_fin g st2 (rx_data i g s2)) as (st3 & E3 & H3).
  { eapply at_same; [exact E2|apply states_rx_data]. }
  exists st3. split; [done|].
  destruct H2 as [?|[[? ?]|[? ?]]]; destruct H3 as [?|[[? ?]|[[? ?]|[? ?]]]]; simplify_eq;
    (split; [eauto with kernel|naive_solver]).
Qed.

Lemma moves_rx_conn g src_ip dst_ip : moves i s (rx_conn i g src_ip dst_ip s).
Proof.
  pose proof at_refl as E0. unfold rx_conn. destruct (has _ TCP_RST).
  { unfold rx_rst. destruct (st_eqb _ _); [|destruct (_ && _)].
    - exists TCP_CLOSED. split; [eapply at_close, E0|constructor].
    - exists TCP_CLOSED. split; [eapply at_close, E0|constructor].
    - by apply moves_stay. }
  assert (moves i s (rx_established i g s)) as Hest.
  { destruct (at_rx_established g _ s E0) as (st & E & Ht & _). by exists st. }
  destruct (c_state (get_conn s i)) eqn:Est; try exact Hest.
  - unfold rx_syn_sent. destruct (negb _); [by apply moves_stay|].
    destruct (negb _); [apply moves_stay; [done|apply states_sent, sent_rst]|].
    destruct (negb _); [by apply moves_stay|].
    exists TCP_ESTABLISHED. split; [|rewrite Est; constructor].
    eapply at_same; [|apply states_send_ctrl]. eapply (at_set TCP_SYN_SENT).
    eapply at_same; [exact E0|]. rewrite states_retx_clear. by apply states_keep.
  - unfold rx_syn_rcvd. destruct (negb _); [by apply moves_stay|]. destruct (_ =? _); [|by apply moves_stay].
    set (s1 := set_conn (retx_clear _ _) i _).
    assert (at_state i s TCP_ESTABLISHED s1) as E1.
    { subst s1. eapply (at_set TCP_SYN_RCVD). eapply at_same; [exact E0|].
      rewrite states_retx_clear. by apply states_keep. }
    clearbody s1. destruct (at_rx_established g _ s1 E1) as (st & E & _ & Hst).
    exists st. split; [done|]. rewrite Est. destruct (Hst eq_refl) as [->|[->| ->]]; constructor.
Qed.
End one.

(** ** The operations *)

Section ops.
Context (s : nst H D) (Hlen : length (conns s) = 8%nat).

(** At most one connection moves. *)
Definition one_moves s' : Prop := exists i, 0 <= i < 8 /\ moves i s s'.

Lemma one_stay s' : states s' = states s -> one_moves s'.
Proof. intros E. exists 0. split; [lia|]. apply moves_stay; [lia|done]. Qed.
Lemma one_at i st s' : 0 <= i < 8 -> at_state i s st s' -> tcp_trans (c_state (get_conn s i)) st -> one_moves s'.
Proof. intros Hi E Ht. exists i. split; [done|]. by exists st. Qed.

Lemma conn_alloc_spec : conn_alloc s = -1 \/
  (0 <= conn_alloc s < 8 /\ c_state (get_conn s (conn_alloc s)) = TCP_CLOSED).
Proof.
  unfold conn_alloc. destruct (first_idx _ _) as [i|] eqn:Hf; [right|by left].
  pose proof (first_idx_lt _ _ _ Hf) as Hi. rewrite length_take in Hi. split; [lia|].
  apply first_idx_Some in Hf as [(c & Hc & Hs) _]. rewrite lookup_take_lt in Hc by lia.
  unfold get_conn. rewrite Nat2Z.id, nth_lookup, Hc. by apply bool_decide_eq_true in Hs.
Qed.

Lemma tcp_lookup_range l j a b c lstn i r : tcp_lookup l j a b c lstn = (Some i, r) ->
  j <= i < j + Z.of_nat (length l).
Proof.
  revert j lstn. induction l as [|t l IH]; intros j lstn; simpl; [done|].
  destruct (st_eqb _ TCP_CLOSED); [|destruct (_ && _); [|destruct (_ && _)]];
    try (intros E%IH; lia). intros [= -> ->]. lia.
Qed.

(** A new connection in slot [i]: its first segment is armed and sent. *)
Lemma at_open i st s1 c sg n : 0 <= i < 8 -> at_state i s st s1 ->
  at_state i s (c_state c) (let '(_, _, s2) := tcp_send_raw i sg n (retx_arm i sg n (set_conn s1 i c)) in s2).
Proof.
  intros Hi E. eapply at_same; [by apply (at_set i s st s1 c)|].
  transitivity (states (retx_arm i sg n (set_conn s1 i c))); [|apply states_retx_arm].
  apply states_sent. match goal with |- context [tcp_send_raw i sg n ?x] =>
    pose proof (sent_tcp_send_raw i sg n x) as He; by destruct (tcp_send_raw i sg n x) as [[r sg2] s2] end.
Qed.

Lemma one_listen port d c : one_moves (snd (tcp_listen port d c s)).
Proof.
  unfold tcp_listen. destruct conn_alloc_spec as [->|[Hr Hc]]; [by apply one_stay|].
  rewrite (proj2 (Z.ltb_ge _ _)) by lia. cbn [snd]. eapply (one_at (conn_alloc s) TCP_LISTEN); [done| |].
  - eapply at_set. apply at_refl. lia.
  - rewrite Hc. constructor.
Qed.

Lemma one_connect ip port lport d c : one_moves (snd (tcp_connect ip port lport d c s)).
Proof.
  unfold tcp_connect. destruct conn_alloc_spec as [->|[Hr Hc]]; [by apply one_stay|].
  rewrite (proj2 (Z.ltb_ge _ _)) by lia. cbn [next_isn].
  match goal with |- context [tcp_send_raw ?i ?sg ?n (retx_arm _ _ _ (set_conn ?s1 _ ?c))] =>
    pose proof (at_open i _ s1 c sg n Hr (at_refl i s ltac:(lia))) as E;
    destruct (tcp_send_raw i sg n _) as [[r sg2] s2] end.
  eapply one_at; [exact Hr|exact E|]. rewrite Hc. constructor.
Qed.

Lemma one_rx p n a b : one_moves (tcp_rx p n a b s).
Proof.
  unfold tcp_rx. destruct (tcp_decode p n) as [g|]; [|by apply one_stay].
  destruct (tcp_lookup _ _ _ _ _ _) as [[i|] lstn] eqn:Hl.
  { apply tcp_lookup_range in Hl. rewrite length_take in Hl. exists i. split; [lia|].
    apply moves_rx_conn. lia. }
  assert (one_moves (if negb (has (g_flags g) TCP_RST) then send_rst_reply a (g_src_port g) b
            (g_dst_port g) (g_seq g) (g_ack g) (g_flags g) s else s)) as Hrst.
  { destruct (negb _); apply one_stay; [apply states_sent, sent_rst|done]. }
  unfold no_conn. destruct lstn as [l|]; [|exact Hrst].
  destruct (_ && _); [|exact Hrst].
  unfold passive_open. destruct conn_alloc_spec as [->|[Hr Hc]]; [apply one_stay, states_sent, sent_rst|].
  rewrite (proj2 (Z.ltb_ge _ _)) by lia. cbn [next_isn].
  match goal with |- context [tcp_send_raw ?i ?sg ?n (retx_arm _ _ _ (set_conn ?s1 _ ?c))] =>
    pose proof (at_open i _ s1 c sg n Hr (at_refl i s ltac:(lia))) as E;
    destruct (tcp_send_raw i sg n _) as [[r sg2] s2] end.
  eapply one_at; [exact Hr|exact E|]. rewrite Hc. constructor.
Qed.

Lemma one_send id data n : one_moves (snd (tcp_send id data n s)).
Proof.
  unfold tcp_send. destruct (_ || _); [by apply one_stay|]. destruct (_ && _); [by apply one_stay|].
  destruct (n =? 0); [by apply one_stay|]. pose proof (sent_kmalloc (u16 (TCP_HDR_LEN + n)) s) as Hk.
  destruct (kmalloc _ s) as [p s1]. apply states_sent in Hk. cbn [snd] in Hk.
  destruct (p =? 0); [by apply one_stay|].
  match goal with |- context [tcp_send_raw ?i ?sg ?n ?x] =>
    pose proof (sent_tcp_send_raw i sg n x) as He; destruct (tcp_send_raw i sg n x) as [[r sg2] s2] end.
  apply one_stay. cbn [snd] in *. etransitivity; [apply states_sent, sent_kfree|].
  etransitivity; [apply states_sent, He|]. rewrite states_retx_arm. by rewrite states_keep.
Qed.

Lemma one_close id : one_moves (snd (tcp_close id s)).
Proof.
  unfold tcp_close. destruct (_ || _) eqn:Hid; [by apply one_stay|].
  apply orb_false_elim in Hid as [H1%Z.ltb_ge H2%Z.leb_gt]. change TCP_MAX_CONN with 8 in H2.
  assert (at_state id s (c_state (get_conn s id)) s) as E0 by (apply at_refl; lia).
  assert (forall st s1, at_state id s (c_state (get_conn s id)) s1 -> at_state id s st (send_fin id st s1)) as Hfin.
  { intros st s1 E. unfold send_fin. eapply (at_set id s (c_state (get_conn s id))).
    eapply at_same; [exact E|apply states_send_ctrl]. }
  assert (one_moves (set_conn (retx_clear id s) id (cs_c_state (get_conn (retx_clear id s) id) TCP_CLOSED))) as Hcl.
  { eapply (one_at id TCP_CLOSED); [lia| |constructor]. eapply at_set, at_same; [exact E0|apply states_retx_clear]. }
  destruct (c_state (get_conn s id)) eqn:Hst; cbn [snd]; try (by apply one_stay); try exact Hcl;
    (eapply (one_at id); [lia|by apply Hfin|rewrite Hst; constructor]).
Qed.

Lemma one_accept port : one_moves (snd (tcp_accept port s)).
Proof.
  unfold tcp_accept. destruct (first_idx _ _); apply one_stay; [|done]. by apply states_keep.
Qed.
Lemma one_read id n : one_moves (snd (tcp_read id n s)).
Proof.
  unfold tcp_read. destruct (_ || _); [by apply one_stay|]. destruct (_ =? 0); [by apply one_stay|].
  destruct (ring_read _ _ _ _) as [out h]. apply one_stay. by apply states_keep.
Qed.
End ops.

Lemma moves_tick now i s : 0 <= i < Z.of_nat (length (conns s)) -> moves i s (tick_conn now i s).
Proof.
  intros Hi. pose proof (at_refl i s Hi) as E0. unfold tick_conn.
  destruct (st_eqb _ _); [destruct (0 <=? _); [|by apply moves_stay]|].
  { eexists. split; [eapply at_set, E0|constructor]. }
  destruct (_ || _); [by apply moves_stay|]. destruct (_ <? 0); [by apply moves_stay|].
  destruct (_ <=? _); [eexists; split; [eapply at_close, E0|constructor]|].
  match goal with |- context [tcp_send_raw ?i ?sg ?n ?x] =>
    pose proof (sent_tcp_send_raw i sg n x) as He; destruct (tcp_send_raw i sg n x) as [[r sg2] s2] end.
  apply moves_stay; [done|]. rewrite states_keep by done.
  etransitivity; [apply states_sent, He|]. by apply states_keep.
Qed.

(** The turns of [tcp_tick] from connection [j] on. *)
Lemma tick_range now m : forall j s, (j + m <= length (conns s))%nat ->
  let s' := fold_left (fun s i => tick_conn now (Z.of_nat i) s) (seq j m) s in
  length (states s') = length (states s) /\
  forall k x, states s !! k = Some x ->
    exists y, states s' !! k = Some y /\ tcp_trans x y /\ ((k < j)%nat -> y = x).
Proof.
  induction m as [|m IH]; intros j s Hm; cbn [seq fold_left].
  { split; [done|]. intros k x Hx. exists x. split; [done|]. split; [constructor|done]. }
  destruct (moves_tick now (Z.of_nat j) s ltac:(lia)) as (st & E & Ht). rewrite Nat2Z.id in E.
  assert (length (conns (tick_conn now (Z.of_nat j) s)) = length (conns s)) as Hl.
  { rewrite <- !states_length, E. apply length_insert. }
  destruct (IH (S j) (tick_conn now (Z.of_nat j) s) ltac:(lia)) as [HL HF].
  split; [rewrite HL, !states_length; done|]. intros k x Hx.
  pose proof (state_nth s (Z.of_nat j) ltac:(lia)) as Hj. rewrite Nat2Z.id in Hj.
  destruct (decide (k = j)) as [->|Hk].
  - destruct (HF j st) as (y & Hy & _ & Heq).
    { rewrite E. apply list_lookup_insert_eq. by eapply lookup_lt_Some. }
    exists y. rewrite (Heq ltac:(lia)). split; [by rewrite <- (Heq ltac:(lia))|].
    split; [congruence|lia].
  - destruct (HF k x) as (y & Hy & Ht' & Heq).
    { rewrite E. by rewrite list_lookup_insert_ne by done. }
    exists y. split; [done|]. split; [done|]. intros ?. apply Heq. lia.
Qed.

Lemma moves_trans i s s' : 0 <= i < Z.of_nat (length (conns s)) -> moves i s s' -> Forall2 tcp_trans (states s) (states s').
Proof.
  intros Hi (st & E & Ht). apply Forall2_same_length_lookup_2.
  { by rewrite E, length_insert. }
  intros k x y Hx Hy. rewrite E in Hy. pose proof (state_nth s i Hi) as Hn.
  destruct (decide (k = Z.to_nat i)) as [->|Hk].
  - rewrite list_lookup_insert_eq in Hy by (by eapply lookup_lt_Some). congruence.
  - rewrite list_lookup_insert_ne in Hy by done. assert (x = y) as -> by congruence. constructor.
Qed.

Lemma tick_trans s : length (conns s) = 8%nat -> Forall2 tcp_trans (states s) (states (tcp_tick s)).
Proof.
  intros Hl. unfold tcp_tick. pose proof (tick_range (timer_ticks32 s) 8 0 s ltac:(lia)) as Hr. revert Hr.
  generalize (fold_left (fun s0 i => tick_conn (timer_ticks32 s) (Z.of_nat i) s0) (seq 0 8) s).
  intros s'. cbv zeta. intros [HL HF]. apply Forall2_same_length_lookup_2; [by symmetry|].
  intros k x y Hx Hy. destruct (HF k x Hx) as (y' & Hy' & Ht & _). congruence.
Qed.

(** C11. TCP state machine: whatever operation runs (a received segment, listen,
    connect, send, close, accept, read, or a timer tick over the whole table),
    every connection either keeps its state or moves along an edge of the TCP
    diagram (or is aborted to CLOSED); and except for the timer, at most one
    connection of the table moves. *)
Theorem tcp_state_machine o s : length (conns s) = 8%nat ->
  Forall2 tcp_trans (states s) (states (tcp_exec o s)) /\
  (o = op_tick \/ exists i, 0 <= i < 8 /\ moves i s (tcp_exec o s)).
Proof.
  intros Hl. assert (o = op_tick \/ one_moves s (tcp_exec o s)) as Hone.
  { destruct o; cbn [tcp_exec]; [right..|by left|right|right].
    all: auto using one_rx, one_listen, one_connect, one_send, one_close, one_accept, one_read. }
  split; [|exact Hone]. destruct Hone as [->|(i & Hi & Hm)]; [|apply (moves_trans i); [lia|done]].
  by apply tick_trans.
Qed.
End machine.

Lemma tcp_state_machine_witness :
  length (conns demo_net) = 8%nat /\
  Forall2 tcp_trans (states demo_net) (states (tcp_exec (op_listen 80 cb_null cb_null) demo_net)).
Proof.
  split; [reflexivity|]. exact (proj1 (tcp_state_machine (op_listen 80 cb_null cb_null) demo_net eq_refl)).
Defined.
