(* ===== verification/TcpStream.v ===== *)
(** * TCP: the byte stream a connection delivers

    The receive buffer of every connection stays a well-formed ring under every
    operation of src/net/tcp/tcp.c; a connection that receives data segments in
    any order, with losses and duplicates, delivers to its reader a prefix of
    the peer's byte stream, and an in-order segment that fits makes progress. *)

From S2P Require Import Prelude Mem Io Ring Packet NetState E1000 Ether Ipv4 Tcp TcpSpec.

(** ** Well-formed connections *)

Record conn_ok (c : tcp_conn) : Prop := {
  co_ring : ring_ok TCP_RX_BUF_SIZE (rx_buf c) (rx_head c) (rx_tail c);
  co_rcv : 0 <= rcv_nxt c < 2 ^ 32;
  co_snd : 0 <= snd_nxt c < 2 ^ 32;
  co_retx : 0 <= retx_count c <= TCP_MAX_RETRIES
}.

(** The bytes waiting in the receive buffer. *)
Definition rx_queue (c : tcp_conn) : list Z := ring_list TCP_RX_BUF_SIZE (rx_buf c) (rx_head c) (rx_tail c).

Lemma used_eq r w : 0 <= r < TCP_RX_BUF_SIZE -> 0 <= w < TCP_RX_BUF_SIZE ->
  u16 ((w - r + TCP_RX_BUF_SIZE) mod TCP_RX_BUF_SIZE) = ring_used TCP_RX_BUF_SIZE r w.
Proof.
  intros Hr Hw. unfold ring_used. replace (w - r + TCP_RX_BUF_SIZE) with (w - r + 1 * TCP_RX_BUF_SIZE) by lia.
  rewrite Z_mod_plus_full. unfold TCP_RX_BUF_SIZE. apply u16_small. zlia.
Qed.

Lemma rx_free_eq c : conn_ok c -> rx_free c = 4095 - len (rx_queue c).
Proof.
  intros [[Hn Hl Hr Hw] _ _ _]. unfold rx_free, len, rx_queue. rewrite ring_list_length by done.
  rewrite used_eq by done. pose proof (ring_used_range TCP_RX_BUF_SIZE (rx_head c) (rx_tail c) Hn) as Hu.
  unfold TCP_RX_BUF_SIZE in *. rewrite u16_small; lia.
Qed.

(** Storing [n] bytes that fit appends them. *)
Lemma rx_push_spec c data n : conn_ok c -> 0 <= n <= rx_free c ->
  conn_ok (rx_push c data n) /\ rx_queue (rx_push c data n) = rx_queue c ++ sub data 0 n /\
  rcv_nxt (rx_push c data n) = rcv_nxt c /\ c_state (rx_push c data n) = c_state c.
Proof.
  intros Hok Hn. rewrite rx_free_eq in Hn by done. destruct Hok as [Hring Hrcv Hsnd Hretx].
  unfold rx_push. pose proof (ring_write_spec _ _ _ _ (sub data 0 n) Hring) as Hw.
  assert (Z.of_nat (length (sub data 0 n)) <= n) as Hs.
  { unfold sub. rewrite length_take. lia. }
  unfold len, rx_queue in Hn. rewrite ring_list_length in Hn by (by destruct Hring).
  specialize (Hw ltac:(unfold TCP_RX_BUF_SIZE in *; lia)).
  destruct (ring_write _ _ _ _) as [buf t]. destruct Hw as [H1 H2].
  split; [by split|]. split; [exact H2|done].
Qed.

Section wf.
Context {H D : Type} `{!Kheap H} `{!NicHw D}.
Implicit Types s : nst H D.

Definition tcp_wf s : Prop := Forall conn_ok (conns s).

Lemma conn_default_ok : conn_ok conn_default.
Proof. split; [split|..]; vm_compute; intuition discriminate. Qed.

Lemma wf_get s i : tcp_wf s -> conn_ok (get_conn s i).
Proof.
  intros Hw. unfold get_conn. rewrite nth_lookup. destruct (conns s !! Z.to_nat i) as [c|] eqn:Hc.
  - by eapply Forall_lookup_1 in Hc.
  - apply conn_default_ok.
Qed.
Lemma wf_set s i c : tcp_wf s -> conn_ok c -> tcp_wf (set_conn s i c).
Proof. intros Hw Hc. unfold tcp_wf, set_conn. cbn [conns with_conns]. by apply Forall_insert. Qed.
Lemma wf_sent s s' : sent s s' -> tcp_wf s -> tcp_wf s'.
Proof. intros Hs. unfold tcp_wf. by rewrite (sent_conns _ _ Hs). Qed.
Lemma wf_run_cb cb i s : tcp_wf s -> tcp_wf (run_cb cb i s).
Proof. unfold tcp_wf. by rewrite conns_run_cb. Qed.
Lemma wf_send_ctrl i f q a s : tcp_wf s -> tcp_wf (send_ctrl i f q a s).
Proof. apply wf_sent, sent_send_ctrl. Qed.
Lemma wf_isn s v : tcp_wf s -> tcp_wf (with_isn_counter s v).
Proof. done. Qed.

(** Updates that leave the ring and the numbers alone. *)
Lemma ok_retx c b d n t k : conn_ok c -> 0 <= k <= TCP_MAX_RETRIES ->
  conn_ok (cs_retx_count (cs_retx_deadline (cs_retx_len (cs_retx_data (cs_retx_buf c b) d) n) t) k).
Proof. intros [? ? ? ?] ?. by split. Qed.
Lemma ok_same c c' : conn_ok c -> rx_buf c' = rx_buf c -> rx_head c' = rx_head c -> rx_tail c' = rx_tail c ->
  rcv_nxt c' = rcv_nxt c -> snd_nxt c' = snd_nxt c -> retx_count c' = retx_count c -> conn_ok c'.
Proof. intros [? ? ? ?] E1 E2 E3 E4 E5 E6. split; rewrite ?E1, ?E2, ?E3, ?E4, ?E5, ?E6; done. Qed.
Lemma ok_rcv c v : conn_ok c -> conn_ok (cs_rcv_nxt c (u32 v)).
Proof. intros [? ? ? ?]. split; [done|apply u32_range|done|done]. Qed.
Lemma ok_snd c v : conn_ok c -> conn_ok (cs_snd_nxt c (u32 v)).
Proof. intros [? ? ? ?]. split; [done|done|apply u32_range|done]. Qed.
Lemma ok_count0 c v : conn_ok c -> conn_ok (cs_retx_count (cs_retx_len c v) 0).
Proof. intros [? ? ? ?]. split; [done|done|done|]. unfold TCP_MAX_RETRIES. simpl. lia. Qed.

(** A freshly opened connection. *)
Lemma ok_open c st lip lp rip rp una nxt wnd rcv rd rl dl d cl : conn_ok c -> 0 <= nxt < 2 ^ 32 -> 0 <= rcv < 2 ^ 32 ->
  conn_ok (mk_conn st lip lp rip rp una nxt wnd rcv 0 rd rl dl (retx_count c) (rx_buf c) 0 0 d cl).
Proof. intros [[? ? ? ?] ? ? ?] Hn Hr. split; [|done..]. split; [done|done|simpl; lia|simpl; lia]. Qed.

Lemma wf_retx_free i s : tcp_wf s -> tcp_wf (retx_free i s).
Proof.
  intros Hw. unfold retx_free. destruct (negb _); [|done]. apply wf_set; [done|].
  eapply ok_same; [by apply (wf_get (kfree (retx_buf (get_conn s i)) s) i)|done..].
Qed.
Lemma wf_retx_clear i s : tcp_wf s -> tcp_wf (retx_clear i s).
Proof. intros Hw%(wf_retx_free i). unfold retx_clear. apply wf_set; [done|]. by apply ok_count0, wf_get. Qed.
Lemma wf_retx_arm i seg n s : tcp_wf s -> tcp_wf (retx_arm i seg n s).
Proof.
  intros Hw%(wf_retx_free i). unfold retx_arm. revert Hw. generalize (retx_free i s). intros s1 Hw.
  pose proof (sent_kmalloc n s1) as Hk. destruct (kmalloc n s1) as [p s2]. cbn [snd] in Hk.
  apply wf_sent in Hk; [|done].
  assert (tcp_wf (set_conn s2 i (cs_retx_buf (get_conn s2 i) p))) as Hw2.
  { apply wf_set; [done|]. by eapply ok_same; [apply (wf_get s2 i)|..]. }
  destruct (p =? 0); [done|]. apply wf_set; [done|].
  destruct (wf_get _ i Hw2) as [? ? ? ?]. split; [done|done|done|]. unfold TCP_MAX_RETRIES. simpl. lia.
Qed.
Lemma wf_close_conn i s : tcp_wf s -> tcp_wf (close_conn i s).
Proof.
  intros Hw. unfold close_conn. assert (tcp_wf (run_cb (on_close (get_conn (retx_clear i s) i)) i (retx_clear i s)))
    as Hw1 by by apply wf_run_cb, wf_retx_clear.
  apply wf_set; [done|]. by eapply ok_same; [apply (wf_get _ i Hw1)|..].
Qed.
Lemma wf_raw i sg n s : tcp_wf s -> tcp_wf (snd (tcp_send_raw i sg n s)).
Proof. apply wf_sent, sent_tcp_send_raw. Qed.
End wf.
Create HintDb tcpwf.
#[export] Hint Resolve wf_get wf_set wf_run_cb wf_send_ctrl wf_retx_free wf_retx_clear wf_retx_arm wf_close_conn
  ok_rcv ok_snd wf_isn wf_raw : tcpwf.

(** An update of other fields of a connection of the table. *)
Ltac ok_same :=
  match goal with |- conn_ok _ =>
    match goal with |- context [get_conn ?x ?i] =>
      apply (ok_same (get_conn x i)); [apply wf_get; eauto with tcpwf|reflexivity..] end
  end.

Section ops.
Context {H D : Type} `{!Kheap H} `{!NicHw D}.
Implicit Types s : nst H D.

Lemma wf_rx_ack_window i g s : tcp_wf s -> tcp_wf (rx_ack_window i g s).
Proof.
  intros Hw. unfold rx_ack_window. destruct (_ && _); [|done].
  assert (tcp_wf (set_conn s i (cs_snd_wnd (cs_snd_una (get_conn s i) (g_ack g)) (g_wnd g)))).
  { apply wf_set; [done|]. ok_same. }
  destruct (_ && _); eauto with tcpwf.
Qed.

Lemma wf_rx_ack i g s : tcp_wf s -> tcp_wf (snd (rx_ack i g s)).
Proof.
  intros Hw. unfold rx_ack. destruct (has _ _); [|done]. cbv zeta.
  apply (wf_rx_ack_window i g) in Hw. revert Hw. generalize (rx_ack_window i g s). intros s1 Hw.
  set (s2 := if st_eqb (c_state (get_conn s1 i)) TCP_FIN_WAIT_1 && _ then _ else s1).
  assert (tcp_wf s2) as Hw2.
  { subst s2. destruct (_ && _); [|done]. apply wf_set; [done|]. ok_same. }
  clearbody s2. set (s3 := if st_eqb (c_state (get_conn s2 i)) TCP_CLOSING && _ then _ else s2).
  assert (tcp_wf s3) as Hw3.
  { subst s3. destruct (_ && _); [|done]. apply wf_set; [done|]. ok_same. }
  clearbody s3. destruct (_ && _); cbn [snd]; eauto with tcpwf.
Qed.

Lemma wf_rx_data i g s : tcp_wf s -> tcp_wf (rx_data i g s).
Proof.
  intros Hw. unfold rx_data. destruct (_ && _); [|done]. apply wf_send_ctrl.
  destruct (_ =? _); [|done]. destruct (Z.ltb_spec 0 (if rx_free (get_conn s i) <? g_len g then rx_free (get_conn s i) else g_len g))
    as [Hp|Hp]; [|done]. apply wf_run_cb, wf_set; [done|]. apply ok_rcv, rx_push_spec; [by apply wf_get|].
  revert Hp. destruct (Z.ltb_spec (rx_free (get_conn s i)) (g_len g)); lia.
Qed.

Lemma wf_rx_fin i g s : tcp_wf s -> tcp_wf (rx_fin i g s).
Proof.
  intros Hw. unfold rx_fin. destruct (has _ _); [|done].
  assert (tcp_wf (set_conn s i (cs_rcv_nxt (get_conn s i) (u32 (rcv_nxt (get_conn s i) + 1))))) as Hw1
    by eauto with tcpwf.
  revert Hw1. generalize (set_conn s i (cs_rcv_nxt (get_conn s i) (u32 (rcv_nxt (get_conn s i) + 1)))).
  intros s1 Hw1. destruct (c_state (get_conn s1 i)); try done;
    repeat first [apply wf_run_cb | apply wf_send_ctrl | apply wf_set; [done|ok_same]].
Qed.

Lemma wf_rx_established i g s : tcp_wf s -> tcp_wf (rx_established i g s).
Proof.
  intros Hw%(wf_rx_ack i g). unfold rx_established. destruct (rx_ack i g s) as [[] s1]; [done|].
  by apply wf_rx_fin, wf_rx_data.
Qed.

Lemma wf_rx_conn i g a b s : tcp_wf s -> tcp_wf (rx_conn i g a b s).
Proof.
  intros Hw. unfold rx_conn. destruct (has _ TCP_RST).
  { unfold rx_rst. destruct (st_eqb _ _); [|destruct (_ && _)]; eauto with tcpwf. }
  destruct (c_state (get_conn s i)); try by apply wf_rx_established.
  - unfold rx_syn_sent. destruct (negb _); [done|].
    destruct (negb _); [by eapply wf_sent; [apply sent_rst|]|]. destruct (negb _); [done|].
    assert (tcp_wf (retx_clear i (set_conn s i (cs_rcv_nxt (cs_snd_wnd (cs_snd_una (get_conn s i) (g_ack g)) (g_wnd g))
      (u32 (g_seq g + 1)))))) as Hw1 by (apply wf_retx_clear, wf_set; [done|]; apply ok_rcv; ok_same).
    apply wf_send_ctrl, wf_set; [done|]. ok_same.
  - unfold rx_syn_rcvd. destruct (negb _); [done|]. destruct (_ =? _); [|done]. apply wf_rx_established.
    assert (tcp_wf (set_conn s i (cs_snd_wnd (cs_snd_una (get_conn s i) (g_ack g)) (g_wnd g)))) as Hw1.
    { apply wf_set; [done|]. ok_same. }
    apply wf_set; [by apply wf_retx_clear|]. ok_same.
Qed.

(** Opening slot [i] and sending its first segment. *)
Lemma wf_open i c sg n s : tcp_wf s -> conn_ok c ->
  tcp_wf (let '(_, _, s2) := tcp_send_raw i sg n (retx_arm i sg n (set_conn s i c)) in s2).
Proof.
  intros Hw Hc. pose proof (wf_raw i sg n (retx_arm i sg n (set_conn s i c)) ltac:(by apply wf_retx_arm, wf_set)) as Hr.
  by destruct (tcp_send_raw _ _ _ _) as [[r sg2] s2].
Qed.

Lemma wf_tcp_rx p n a b s : tcp_wf s -> tcp_wf (tcp_rx p n a b s).
Proof.
  intros Hw. unfold tcp_rx. destruct (tcp_decode p n) as [g|]; [|done].
  destruct (tcp_lookup _ _ _ _ _ _) as [[i|] lstn]; [by apply wf_rx_conn|]. unfold no_conn.
  assert (forall x, tcp_wf (send_rst_reply a (g_src_port g) b (g_dst_port g) (g_seq g) (g_ack g) x s)) as Hrst.
  { intros x. eapply wf_sent; [apply sent_rst|done]. }
  destruct lstn as [l|]; [|by destruct (negb _)]. destruct (_ && _); [|by destruct (negb _)].
  unfold passive_open. destruct (_ <? 0); [apply Hrst|]. cbn [next_isn]. apply wf_open; [done|].
  apply (ok_open (get_conn s (conn_alloc s))); [by apply wf_get|apply u32_range..].
Qed.

Lemma wf_tcp_connect ip port lport d c s : tcp_wf s -> tcp_wf (snd (tcp_connect ip port lport d c s)).
Proof.
  intros Hw. unfold tcp_connect. destruct (_ <? 0); [done|]. cbn [next_isn].
  match goal with |- context [tcp_send_raw ?i ?sg ?n (retx_arm _ _ _ (set_conn ?s1 _ ?c))] =>
    pose proof (wf_open i c sg n s1 Hw) as Ho; destruct (tcp_send_raw i sg n _) as [[r sg2] s2] end.
  apply Ho. apply (ok_open (get_conn s (conn_alloc s))); [by apply wf_get|apply u32_range|lia].
Qed.

Lemma wf_tcp_send id data n s : tcp_wf s -> tcp_wf (snd (tcp_send id data n s)).
Proof.
  intros Hw. unfold tcp_send. destruct (_ || _); [done|]. destruct (_ && _); [done|]. destruct (n =? 0); [done|].
  pose proof (sent_kmalloc (u16 (TCP_HDR_LEN + n)) s) as Hk. destruct (kmalloc _ s) as [p s1].
  apply wf_sent in Hk; [|done]. cbn [snd] in Hk. destruct (p =? 0); [done|].
  match goal with |- context [tcp_send_raw ?i ?sg ?n ?x] =>
    pose proof (wf_raw i sg n x ltac:(eauto 6 with tcpwf)) as He; destruct (tcp_send_raw i sg n x) as [[r sg2] s2] end.
  exact He.
Qed.

Lemma wf_send_fin id st s : tcp_wf s -> tcp_wf (send_fin id st s).
Proof.
  intros Hw. unfold send_fin. apply wf_set; [by apply wf_send_ctrl|].
  apply (ok_same (cs_snd_nxt (get_conn (send_ctrl id (TCP_FIN |b TCP_ACK) (snd_nxt (get_conn s id)) (rcv_nxt (get_conn s id)) s) id)
    (u32 (snd_nxt (get_conn (send_ctrl id (TCP_FIN |b TCP_ACK) (snd_nxt (get_conn s id)) (rcv_nxt (get_conn s id)) s) id) + 1))));
    [|done..]. eauto with tcpwf.
Qed.

Lemma wf_tcp_close id s : tcp_wf s -> tcp_wf (snd (tcp_close id s)).
Proof.
  intros Hw. unfold tcp_close. destruct (_ || _); [done|].
  destruct (c_state (get_conn s id)); cbn [snd]; try done; try by apply wf_send_fin.
  all: apply wf_set; [by apply wf_retx_clear|]; ok_same.
Qed.

Lemma wf_tick_conn now i s : tcp_wf s -> tcp_wf (tick_conn now i s).
Proof.
  intros Hw. pose proof (wf_get s i Hw) as Hc. unfold tick_conn.
  destruct (st_eqb _ _); [destruct (0 <=? _); [|done]; apply wf_set; [done|]; ok_same|].
  destruct (_ || _); [done|]. destruct (_ <? 0); [done|].
  destruct (Z.leb_spec TCP_MAX_RETRIES (retx_count (get_conn s i))) as [Hm|Hm]; [by apply wf_close_conn|].
  match goal with |- context [tcp_send_raw ?i ?sg ?n (set_conn s i ?c)] => assert (conn_ok c) as Hc' end.
  { destruct Hc as [? ? ? ?]. split; [done|done|done|]. cbn. lia. }
  match goal with |- context [tcp_send_raw ?i ?sg ?n ?x] =>
    pose proof (wf_raw i sg n x ltac:(by apply wf_set)) as He; destruct (tcp_send_raw i sg n x) as [[r sg2] s2] end.
  cbn [snd] in He. apply wf_set; [done|]. ok_same.
Qed.

Lemma wf_tcp_tick s : tcp_wf s -> tcp_wf (tcp_tick s).
Proof.
  unfold tcp_tick. generalize (timer_ticks32 s). intros now. generalize (seq 0 8). intros l. revert s.
  induction l as [|i l IH]; intros s Hw; cbn [fold_left]; [done|]. by apply IH, wf_tick_conn.
Qed.

Lemma wf_tcp_accept port s : tcp_wf s -> tcp_wf (snd (tcp_accept port s)).
Proof.
  intros Hw. unfold tcp_accept. destruct (first_idx _ _) as [i|]; [|done]. apply wf_set; [done|].
  apply (ok_same (get_conn s (Z.of_nat i))); [by apply wf_get|done..].
Qed.

(** Reading takes a prefix of the queue. *)
Lemma tcp_read_spec id n s : tcp_wf s -> 0 <= id < 8 -> 0 <= n < 2 ^ 16 -> length (conns s) = 8%nat ->
  let '(out, s') := tcp_read id n s in
  tcp_wf s' /\ length (conns s') = 8%nat /\ len out = Z.min n (len (rx_queue (get_conn s id))) /\
  out ++ rx_queue (get_conn s' id) = rx_queue (get_conn s id) /\
  rcv_nxt (get_conn s' id) = rcv_nxt (get_conn s id) /\ c_state (get_conn s' id) = c_state (get_conn s id) /\
  (forall j, 0 <= j -> j <> id -> get_conn s' j = get_conn s j).
Proof.
  intros Hw Hid Hn Hl. unfold tcp_read. rewrite (proj2 (Z.ltb_ge _ _)), (proj2 (Z.leb_gt _ _)) by (unfold TCP_MAX_CONN; lia).
  cbn [orb]. pose proof (wf_get s id Hw) as Hc. set (c := get_conn s id) in *. destruct (co_ring c Hc) as [Hs Hb Hr Ht].
  rewrite used_eq by done. assert (len (rx_queue c) = ring_used TCP_RX_BUF_SIZE (rx_head c) (rx_tail c)) as Hq
    by (by apply ring_list_length).
  destruct (Z.eqb_spec (ring_used TCP_RX_BUF_SIZE (rx_head c) (rx_tail c)) 0) as [E|E].
  { split; [done|]. split; [done|]. split; [|done]. unfold len at 1. simpl. lia. }
  pose proof (ring_used_range TCP_RX_BUF_SIZE (rx_head c) (rx_tail c) Hs) as Hu.
  set (k := u16 _). assert (k = Z.min n (len (rx_queue c))) as Hk.
  { subst k. rewrite u16_small; destruct (Z.ltb_spec (ring_used TCP_RX_BUF_SIZE (rx_head c) (rx_tail c)) n); lia. }
  pose proof (ring_read_spec (Z.to_nat k) _ _ _ _ (co_ring c Hc) ltac:(lia)) as Hrd.
  destruct (ring_read _ _ _ _) as [out h]. destruct Hrd as (H1 & H2 & H3).
  split. { apply wf_set; [done|]. destruct Hc. by split. }
  split; [by rewrite length_set_conn|]. rewrite get_set_conn by lia.
  split; [unfold len at 1; lia|]. split; [symmetry; exact H3|]. split; [done|]. split; [done|].
  intros j Hj Hne. apply get_set_conn_ne; lia.
Qed.

Lemma wf_tcp_read id n s : 0 <= n -> tcp_wf s -> tcp_wf (snd (tcp_read id n s)).
Proof.
  intros Hn Hw. unfold tcp_read. destruct (_ || _); [done|]. pose proof (wf_get s id Hw) as Hc.
  set (c := get_conn s id) in *. destruct (co_ring c Hc) as [Hs Hb Hr Ht]. rewrite used_eq by done.
  destruct (_ =? 0); [done|]. set (a := ring_used _ _ _). set (k := u16 _).
  assert (0 <= k <= a) as Hk.
  { subst k. pose proof (ring_used_range TCP_RX_BUF_SIZE (rx_head c) (rx_tail c) Hs) as Hu. fold a in Hu.
    unfold TCP_RX_BUF_SIZE in Hu. unfold u16. destruct (Z.ltb_spec a n); zlia. }
  pose proof (ring_read_spec (Z.to_nat k) _ _ _ _ (co_ring c Hc) ltac:(lia)) as Hrd.
  destruct (ring_read _ _ _ _) as [out h]. destruct Hrd as (H1 & _).
  cbn [snd]. apply wf_set; [done|]. destruct Hc. by split.
Qed.

(** Every operation of the TCP component, whatever its arguments, keeps every
    connection well formed: ring indices inside a buffer of 4096 bytes, sequence
    numbers in 32 bits, at most TCP_MAX_RETRIES retransmissions counted. *)
Theorem tcp_wf_preserved o s : tcp_wf s -> tcp_wf (tcp_exec o s).
Proof.
  intros Hw. destruct o; cbn [tcp_exec]; auto using wf_tcp_rx, wf_tcp_connect, wf_tcp_send, wf_tcp_close,
    wf_tcp_tick, wf_tcp_accept; [|apply wf_tcp_read; [apply u16_range|done]].
  unfold tcp_listen. destruct (_ <? 0); [done|]. apply wf_set; [done|].
  pose proof (wf_get s (conn_alloc s) Hw) as Hc. apply (ok_open (get_conn s (conn_alloc s))); [done|apply Hc..].
Qed.
End ops.

Lemma demo_tcp_wf : tcp_wf demo_net.
Proof. apply Forall_replicate, conn_default_ok. Qed.
Lemma tcp_wf_preserved_witness :
  tcp_wf demo_net /\ tcp_wf (tcp_exec (op_connect 0x0A000202 80 40000 cb_null cb_null) demo_net).
Proof. split; [exact demo_tcp_wf|]. exact (tcp_wf_preserved _ demo_net demo_tcp_wf). Defined.

(** ** What a reader receives *)

(** The receive side of a connection. *)
Definition rx_side (c : tcp_conn) := (rx_buf c, rx_head c, rx_tail c, rcv_nxt c, c_state c).
#[export] Instance rx_side_retx_inv : RetxInv rx_side.
Proof. by split. Qed.

Lemma rx_side_queue c c' : rx_side c' = rx_side c ->
  rx_queue c' = rx_queue c /\ rcv_nxt c' = rcv_nxt c /\ c_state c' = c_state c /\ rx_free c' = rx_free c.
Proof. intros [= E1 E2 E3 E4 E5]. unfold rx_queue, rx_free. by rewrite E1, E2, E3. Qed.

(** Abstract receiver: the queued bytes and the next expected sequence number;
    an in-order segment is accepted as far as there is room, any other segment
    is ignored. *)
Record receiver := mk_receiver { q_bytes : list Z; q_next : Z }.
Definition receive (r : receiver) (sq : Z) (data : list Z) : receiver :=
  if sq =? q_next r then
    let k := Z.min (len data) (4095 - len (q_bytes r)) in
    mk_receiver (q_bytes r ++ sub data 0 k) (u32 (q_next r + k))
  else r.
Definition abs (c : tcp_conn) : receiver := mk_receiver (rx_queue c) (rcv_nxt c).

(** What happens to a connection: a segment from the peer, or a read. *)
Inductive rx_ev :=
  | ev_seg (g : seg) (src_ip dst_ip : Z)
  | ev_read (n : Z).

Definition spec_step (r : receiver) (e : rx_ev) : list Z * receiver :=
  match e with
  | ev_seg g _ _ => ([], receive r (g_seq g) (g_data g))
  | ev_read n => (sub (q_bytes r) 0 n, mk_receiver (drop (Z.to_nat n) (q_bytes r)) (q_next r))
  end.
Fixpoint spec_run (es : list rx_ev) (r : receiver) : list Z * receiver :=
  match es with
  | [] => ([], r)
  | e :: es => let '(o1, r) := spec_step r e in let '(o2, r) := spec_run es r in (o1 ++ o2, r)
  end.

Section stream.
Context {H D : Type} `{!Kheap H} `{!NicHw D}.
Implicit Types s : nst H D.

(** A data segment: no RST, no FIN, its payload as long as it says. *)
Record data_seg (g : seg) : Prop := {
  ds_rst : has (g_flags g) TCP_RST = false;
  ds_fin : has (g_flags g) TCP_FIN = false;
  ds_len : len (g_data g) = g_len g
}.

Lemma side_rx_ack_window i g s : view rx_side (rx_ack_window i g s) = view rx_side s.
Proof.
  unfold rx_ack_window. destruct (_ && _); [|done].
  assert (view rx_side (set_conn s i (cs_snd_wnd (cs_snd_una (get_conn s i) (g_ack g)) (g_wnd g))) = view rx_side s) as E
    by (by apply view_keep).
  destruct (_ && _); [|done]. rewrite (view_retx_clear rx_side). exact E.
Qed.

Lemma rx_ack_established i g s : c_state (get_conn s i) = TCP_ESTABLISHED ->
  rx_ack i g s = (false, if has (g_flags g) TCP_ACK then rx_ack_window i g s else s).
Proof.
  intros Hst. unfold rx_ack. destruct (has _ _); [|done]. cbv zeta.
  pose proof (view_get rx_side _ _ i (side_rx_ack_window i g s)) as [= _ _ _ _ Est].
  rewrite Hst in Est. revert Est. generalize (rx_ack_window i g s). intros s1 Est.
  rewrite Est. change (st_eqb TCP_ESTABLISHED TCP_FIN_WAIT_1) with false. cbn [andb].
  rewrite Est. change (st_eqb TCP_ESTABLISHED TCP_CLOSING) with false. cbn [andb].
  rewrite Est. change (st_eqb TCP_ESTABLISHED TCP_LAST_ACK) with false. done.
Qed.

Lemma data_rx_data i g s : tcp_wf s -> 0 <= i < Z.of_nat (length (conns s)) ->
  c_state (get_conn s i) = TCP_ESTABLISHED -> data_seg g ->
  abs (get_conn (rx_data i g s) i) = receive (abs (get_conn s i)) (g_seq g) (g_data g) /\
  c_state (get_conn (rx_data i g s) i) = TCP_ESTABLISHED.
Proof.
  intros Hw Hi Hst [_ _ Hl]. pose proof (wf_get s i Hw) as Hc. pose proof (rx_free_eq _ Hc) as Hf.
  unfold rx_data, receive. rewrite Hst. change (st_eqb TCP_ESTABLISHED TCP_ESTABLISHED) with true. cbn [orb]. rewrite andb_true_r. cbn [abs q_bytes q_next].
  destruct (Z.ltb_spec 0 (g_len g)) as [Hp|Hp].
  2: { split; [|done]. destruct (_ =? _); [|done]. assert (g_len g = 0) as E0 by (unfold len in *; lia).
       assert (0 <= rx_free (get_conn s i)) as Hf0 by apply u16_range.
       rewrite Hl, E0, Z.min_l by lia. unfold abs. rewrite app_nil_r, Z.add_0_r.
       by rewrite u32_small by apply Hc. }
  rewrite get_send_ctrl. destruct (Z.eqb_spec (g_seq g) (rcv_nxt (get_conn s i))) as [Hs|Hs]; [|done].
  rewrite Hl, <- Hf. set (k := if rx_free _ <? _ then _ else _).
  assert (k = Z.min (g_len g) (rx_free (get_conn s i))) as Hk.
  { subst k. destruct (Z.ltb_spec (rx_free (get_conn s i)) (g_len g)); lia. }
  rewrite <- Hk. assert (0 <= k) as Hk0 by (pose proof (u16_range (TCP_RX_BUF_SIZE - 1 - u16 ((rx_tail (get_conn s i) -
    rx_head (get_conn s i) + TCP_RX_BUF_SIZE) mod TCP_RX_BUF_SIZE))); unfold rx_free in Hk; lia).
  clearbody k. destruct (Z.ltb_spec 0 k) as [Hkp|Hkp].
  - rewrite get_run_cb, get_set_conn by done.
    destruct (rx_push_spec (get_conn s i) (g_data g) k Hc ltac:(lia)) as (_ & Hq & Hr & Hs2).
    unfold abs, rx_queue in *. cbn [rx_buf rx_head rx_tail rcv_nxt cs_rcv_nxt c_state].
    rewrite Hr. split; [by f_equal|]. by rewrite Hs2.
  - assert (k = 0) as -> by lia. split; [|done]. unfold abs.
    rewrite app_nil_r, Z.add_0_r. by rewrite u32_small by apply Hc.
Qed.

Lemma abs_side c c' : rx_side c' = rx_side c -> abs c' = abs c.
Proof. intros (E1 & E2 & _)%rx_side_queue. unfold abs. by rewrite E1, E2. Qed.

(** Processing of a data segment by an established connection. *)
Lemma rx_conn_data i g a b s : tcp_wf s -> 0 <= i < Z.of_nat (length (conns s)) ->
  c_state (get_conn s i) = TCP_ESTABLISHED -> data_seg g ->
  abs (get_conn (rx_conn i g a b s) i) = receive (abs (get_conn s i)) (g_seq g) (g_data g) /\
  c_state (get_conn (rx_conn i g a b s) i) = TCP_ESTABLISHED.
Proof.
  intros Hw Hi Hst Hg. unfold rx_conn, rx_established, rx_fin. rewrite (ds_rst _ Hg), (ds_fin _ Hg), Hst.
  pose proof (wf_rx_ack i g s Hw) as Hw1. rewrite (rx_ack_established i g s Hst) in *. cbn [snd] in Hw1.
  assert (view rx_side (if has (g_flags g) TCP_ACK then rx_ack_window i g s else s) = view rx_side s) as Es.
  { destruct (has _ _); [apply side_rx_ack_window|done]. }
  revert Hw1 Es. generalize (if has (g_flags g) TCP_ACK then rx_ack_window i g s else s). intros s1 Hw1 Es.
  pose proof (view_get rx_side _ _ i Es) as E. rewrite <- (abs_side _ _ E).
  apply rx_side_queue in E as (_ & _ & E & _).
  apply data_rx_data; [done| |congruence|done].
  assert (length (view rx_side s1) = length (view rx_side s)) as Hl by (by rewrite Es).
  unfold view in Hl. rewrite !length_map in Hl. lia.
Qed.

Definition ev_step (i : Z) (e : rx_ev) s : list Z * nst H D :=
  match e with
  | ev_seg g a b => ([], rx_conn i g a b s)
  | ev_read n => tcp_read i n s
  end.
Fixpoint ev_run (i : Z) (es : list rx_ev) s : list Z * nst H D :=
  match es with
  | [] => ([], s)
  | e :: es => let '(o1, s) := ev_step i e s in let '(o2, s) := ev_run i es s in (o1 ++ o2, s)
  end.

Definition ev_ok (e : rx_ev) : Prop :=
  match e with ev_seg g _ _ => data_seg g | ev_read n => 0 <= n < 2 ^ 16 end.

(** A connection ready to receive. *)
Record receiving (i : Z) s : Prop := {
  rc_wf : tcp_wf s;
  rc_len : length (conns s) = 8%nat;
  rc_id : 0 <= i < 8;
  rc_st : c_state (get_conn s i) = TCP_ESTABLISHED
}.

Lemma app_prefix (out q rest : list Z) n : out ++ rest = q -> len out = Z.min n (len q) -> 0 <= n ->
  out = sub q 0 n /\ rest = drop (Z.to_nat n) q.
Proof.
  intros <- Hl Hn. unfold len, sub in *. rewrite length_app in Hl. rewrite drop_0.
  destruct (decide (Z.to_nat n <= length out)%nat) as [Hle|Hle].
  - assert (Z.to_nat n = length out) as -> by lia. by rewrite take_app_length, drop_app_length.
  - assert (length rest = 0)%nat as E by lia. apply nil_length_inv in E as ->. rewrite app_nil_r.
    rewrite take_ge, drop_ge by lia. done.
Qed.

Lemma step_refines i e s : receiving i s -> ev_ok e ->
  let '(out, s') := ev_step i e s in
  spec_step (abs (get_conn s i)) e = (out, abs (get_conn s' i)) /\ receiving i s'.
Proof.
  intros [Hw Hl Hi Hst] He. destruct e as [g a b'|n]; cbn [ev_step spec_step ev_ok] in *.
  - destruct (rx_conn_data i g a b' s Hw ltac:(lia) Hst He) as [E Est]. split; [by rewrite E|].
    split; [by apply wf_rx_conn| |done|done].
    destruct (moves_rx_conn i s ltac:(lia) g a b') as (st & Es & _).
    rewrite <- states_length, Es, length_insert, states_length. done.
  - pose proof (tcp_read_spec i n s Hw Hi He Hl) as Hr. destruct (tcp_read i n s) as [out s'].
    destruct Hr as (Hw' & Hl' & Hlen & Hq & Hrcv & Hst' & _). split; [|split; congruence].
    cbn [abs q_bytes q_next]. destruct (app_prefix _ _ _ n Hq Hlen ltac:(lia)) as [-> Erest].
    unfold abs. by rewrite <- Erest, Hrcv.
Qed.

Lemma run_refines i es s : receiving i s -> Forall ev_ok es ->
  let '(out, s') := ev_run i es s in
  spec_run es (abs (get_conn s i)) = (out, abs (get_conn s' i)) /\ receiving i s'.
Proof.
  revert s. induction es as [|e es IH]; intros s Hr Hes; cbn [ev_run spec_run]; [done|].
  apply Forall_cons in Hes as [He Hes]. pose proof (step_refines i e s Hr He) as H1.
  destruct (ev_step i e s) as [o1 s1]. destruct H1 as [E1 Hr1]. rewrite E1.
  specialize (IH s1 Hr1 Hes). destruct (ev_run i es s1) as [o2 s2]. destruct IH as [E2 Hr2]. by rewrite E2.
Qed.

(** C22. Refinement: an established connection implements the abstract receiver.
    For every sequence of data segments (any sequence numbers, lengths and
    acknowledgements) and reads, the bytes returned by [tcp_read] and the final
    receive state are those of the abstract receiver, which accepts exactly the
    in-order bytes that fit into 4095 and hands them out in order. *)
Theorem tcp_refines_receiver i es s : receiving i s -> Forall ev_ok es ->
  spec_run es (abs (get_conn s i)) = (fst (ev_run i es s), abs (get_conn (snd (ev_run i es s)) i)) /\
  receiving i (snd (ev_run i es s)).
Proof.
  intros Hr He. pose proof (run_refines i es s Hr He) as Hx. by destruct (ev_run i es s).
Qed.

(** ** Reliable delivery *)

(** A segment that carries a piece of the byte stream [W] that starts at
    sequence number [base]. *)
Definition carries (base : Z) (W : list Z) (e : rx_ev) : Prop :=
  match e with
  | ev_seg g _ _ => exists k, 0 <= k /\ k + len (g_data g) <= len W /\ g_seq g = u32 (base + k) /\
                              g_data g = sub W k (len (g_data g))
  | ev_read n => 0 <= n
  end.

Lemma sub_extend (W : list Z) k n m : 0 <= k -> 0 <= m <= n -> k + n <= len W ->
  take (Z.to_nat k) W ++ sub (sub W k n) 0 m = take (Z.to_nat (k + m)) W.
Proof.
  intros Hk Hm Hn. unfold sub, len in *. rewrite drop_0, take_take. rewrite Nat.min_l by lia.
  rewrite Z2Nat.inj_add by lia. by rewrite take_take_drop.
Qed.

(** The invariant of the abstract receiver: read bytes and queued bytes are the
    first [k] bytes of the stream. *)
Definition delivered (base : Z) (W d : list Z) (r : receiver) : Prop :=
  exists k, 0 <= k <= len W /\ d ++ q_bytes r = take (Z.to_nat k) W /\ q_next r = u32 (base + k) /\
            len (q_bytes r) <= 4095.

Lemma delivered_step base W d r e : len W < 2 ^ 32 -> delivered base W d r -> carries base W e ->
  let '(o, r') := spec_step r e in delivered base W (d ++ o) r'.
Proof.
  intros HW (k & Hk & Hd & Hn & Hq) He. destruct e as [g a b'|n]; cbn [spec_step carries] in *.
  - destruct He as (j & Hj & Hjl & Hsq & Hdata). rewrite app_nil_r. unfold receive.
    destruct (Z.eqb_spec (g_seq g) (q_next r)) as [E|_]; [|by exists k].
    assert (j = k) as ->.
    { rewrite Hsq, Hn in E. unfold u32 in E. unfold len in *. zlia. }
    set (m := Z.min _ _). assert (0 <= m <= len (g_data g)) as Hm by (unfold len in *; lia).
    exists (k + m). split; [lia|]. split; [|split].
    + cbn [q_bytes]. rewrite Hdata, app_assoc, Hd. apply sub_extend; lia.
    + cbn [q_next]. rewrite Hn, u32_add_l. f_equal. lia.
    + cbn [q_bytes]. unfold len, sub in *. rewrite length_app, length_take. lia.
  - exists k. split; [done|]. cbn [q_bytes q_next]. split; [|split; [done|]].
    + unfold sub. by rewrite drop_0, <- app_assoc, take_drop.
    + unfold len in *. rewrite length_drop. lia.
Qed.

Lemma delivered_run base W es : len W < 2 ^ 32 -> Forall (carries base W) es -> forall d r,
  delivered base W d r -> let '(o, r') := spec_run es r in delivered base W (d ++ o) r'.
Proof.
  intros HW Hes. induction es as [|e es IH]; intros d r Hd; cbn [spec_run]; [by rewrite app_nil_r|].
  apply Forall_cons in Hes as [He Hes]. pose proof (delivered_step base W d r e HW Hd He) as H1.
  destruct (spec_step r e) as [o1 r1]. specialize (IH Hes (d ++ o1) r1 H1).
  destruct (spec_run es r1) as [o2 r2]. by rewrite app_assoc.
Qed.

(** C1. Reliable delivery: when every segment that arrives carries some piece of
    the peer's byte stream [W] (in any order, with losses, duplicates and
    overlaps), whatever the reader has read so far followed by what is queued is
    a prefix of [W], and the next expected sequence number is its length: no
    byte is lost, duplicated or reordered. *)
Theorem tcp_reliable_delivery i base W es s : receiving i s -> len W < 2 ^ 32 ->
  rx_queue (get_conn s i) = [] -> rcv_nxt (get_conn s i) = u32 base ->
  Forall ev_ok es -> Forall (carries base W) es ->
  exists k, 0 <= k <= len W /\
    fst (ev_run i es s) ++ rx_queue (get_conn (snd (ev_run i es s)) i) = take (Z.to_nat k) W /\
    rcv_nxt (get_conn (snd (ev_run i es s)) i) = u32 (base + k).
Proof.
  intros Hr HW Hq Hn Hok Hc. pose proof (run_refines i es s Hr Hok) as H1.
  pose proof (delivered_run base W es HW Hc [] (abs (get_conn s i))) as H2.
  destruct (ev_run i es s) as [out s']. destruct H1 as [E _]. rewrite E in H2.
  destruct H2 as (k & Hk & Hd & Hnx & _).
  { exists 0. unfold abs. rewrite Hq, Hn, Z.add_0_r. unfold len. cbn [q_bytes q_next length]. split; [lia|]. split; [done|]. split; [done|lia]. }
  by exists k.
Qed.
End stream.

(** ** Witnesses *)

Definition demo_est : tcp_conn :=
  mk_conn TCP_ESTABLISHED 0x0A00020F 40000 0x0A000202 80 7 7 4096 0xFFFFFFFE 0 [] 0 0 0 (zeros 4096) 0 0
    cb_tcp_sock_data cb_tcp_sock_close.
Definition demo_tcp : nst Z Z := set_conn demo_net 0 demo_est.
Definition demo_seg (k : Z) (data : list Z) : rx_ev :=
  ev_seg (mk_seg 80 40000 (u32 (0xFFFFFFFE + k)) 7 4096 (TCP_PSH |b TCP_ACK) data (len data)) 0x0A000202 0x0A00020F.
(** Bytes 3-4 early, bytes 1-3, a read, bytes 3-5 (byte 3 again), bytes 4-5, a read. *)
Definition demo_evs : list rx_ev :=
  [demo_seg 2 [3; 4]; demo_seg 0 [1; 2; 3]; ev_read 2; demo_seg 2 [3; 4; 5]; demo_seg 3 [4; 5]; ev_read 16].

Lemma demo_receiving : receiving 0 demo_tcp.
Proof.
  split; [|done|lia|done]. apply wf_set; [exact demo_tcp_wf|]. split; [split|..]; vm_compute; intuition discriminate.
Qed.
Lemma demo_evs_ok : Forall ev_ok demo_evs.
Proof. repeat (apply Forall_cons; split; [first [by split|cbn; lia]|]). by apply Forall_nil. Qed.
Lemma demo_carries : Forall (carries 0xFFFFFFFE [1; 2; 3; 4; 5]) demo_evs.
Proof.
  repeat (apply Forall_cons; split;
    [first [ by exists 0 | by exists 2 | by exists 3 | cbn; lia ]|]). by apply Forall_nil.
Qed.

Lemma tcp_refines_receiver_witness :
  receiving 0 demo_tcp /\ Forall ev_ok demo_evs /\
  fst (ev_run 0 demo_evs demo_tcp) = [1; 2; 3; 4; 5] /\
  spec_run demo_evs (abs (get_conn demo_tcp 0)) =
    (fst (ev_run 0 demo_evs demo_tcp), abs (get_conn (snd (ev_run 0 demo_evs demo_tcp)) 0)) /\
  receiving 0 (snd (ev_run 0 demo_evs demo_tcp)).
Proof.
  split; [exact demo_receiving|]. split; [exact demo_evs_ok|]. split; [vm_compute; reflexivity|].
  exact (tcp_refines_receiver 0 demo_evs demo_tcp demo_receiving demo_evs_ok).
Defined.

Lemma tcp_reliable_delivery_witness :
  Forall (carries 0xFFFFFFFE [1; 2; 3; 4; 5]) demo_evs /\
  exists k, 0 <= k <= len [1; 2; 3; 4; 5] /\
    fst (ev_run 0 demo_evs demo_tcp) ++ rx_queue (get_conn (snd (ev_run 0 demo_evs demo_tcp)) 0) =
      take (Z.to_nat k) [1; 2; 3; 4; 5] /\
    rcv_nxt (get_conn (snd (ev_run 0 demo_evs demo_tcp)) 0) = u32 (0xFFFFFFFE + k).
Proof.
  split; [exact demo_carries|].
  exact (tcp_reliable_delivery 0 0xFFFFFFFE [1; 2; 3; 4; 5] demo_evs demo_tcp demo_receiving eq_refl eq_refl eq_refl
           demo_evs_ok demo_carries).
Defined.
