(* ===== verification/TcpProto.v ===== *)
(** * TCP: the protocol exchanges of src/net/tcp/tcp.c

    The steps of the three-way handshake, which TcpWire.v puts together; the number of
    retransmissions before a connection is given up; and two places where the
    code does not do what it means to: the checksum is stored in host byte order,
    and [tcp_accept] returns a connection it has already returned. *)

From S2P Require Import Prelude Mem Io Ring Packet NetState E1000 Ether Ipv4 Tcp TcpSpec TcpStream.

(** ** Checksum *)

Lemma wr_sum (l : list Z) (x y : Z) : (18 <= length l)%nat ->
  be_sum (wr l 16 [x; y]) = be_sum (wr l 16 [0; 0]) + x * 256 + y.
Proof.
  intros Hl. unfold wr. assert (length (take (Z.to_nat 16) l) = 16%nat) as Ha by (rewrite length_take; lia).
  rewrite (be_sum_app _ ([x; y] ++ _)), (be_sum_app _ ([0; 0] ++ _)) by (by rewrite Ha). cbn [app be_sum length]. lia.
Qed.

Lemma wr_bytes l x y : bytes_list l -> is_byte x -> is_byte y -> bytes_list (wr l 16 [x; y]).
Proof.
  intros Hl Hx Hy. unfold wr, bytes_list. apply Forall_app. split; [by apply Forall_take|].
  apply Forall_app. split; [|by apply Forall_drop]. by repeat (apply Forall_cons; split; [done|]).
Qed.
Lemma wr_length (l : list Z) x y : (18 <= length l)%nat -> length (wr l 16 [x; y]) = length l.
Proof. intros Hl. unfold wr. rewrite !length_app, length_take, length_drop. cbn [length]. lia. Qed.

Lemma ph_length a b c d : length (pseudo_hdr a b c d) = 12%nat.
Proof. done. Qed.

(** Byte order of the TCP checksum: the sum is taken over big-endian words but
    stored with a native (little-endian) store, so the segment [tcp_send_raw]
    hands to IPv4 satisfies the RFC 1071 check of a receiver exactly when the
    two bytes of the checksum are equal. *)
Theorem tcp_checksum_byte_order src dst seg :
  bytes_list seg -> TCP_HDR_LEN <= len seg <= 65515 ->
  let c := tcp_checksum src dst (wr seg 16 (le16 0)) (len seg) in
  rfc_valid (pseudo_hdr src dst IPPROTO_TCP (len seg) ++ wr seg 16 (le16 c)) <-> c / 256 = c mod 256.
Proof.
  intros Hb Hlen. unfold TCP_HDR_LEN in Hlen. assert (18 <= length seg)%nat as H18 by (unfold len in *; lia).
  change (le16 0) with [0; 0]. cbv zeta. unfold tcp_checksum.
  set (ph := pseudo_hdr src dst IPPROTO_TCP (len seg)). set (seg0 := wr seg 16 [0; 0]).
  assert (bytes_list ph) as Hph by (by apply pseudo_hdr_bytes).
  assert (bytes_list seg0) as Hs0 by (by apply wr_bytes).
  assert (len seg0 = len seg) as Hl0 by (unfold len, seg0; by rewrite wr_length).
  assert (len ph = 12) as Hl12 by done.
  pose proof (be_sum_range ph Hph) as R1. pose proof (be_sum_range seg0 Hs0) as R2.
  rewrite (csum_add_spec sum_fuel 0 ph 12) by first [done | apply sum_fuel_ok; lia | lia].
  rewrite csum_add_spec by first [done | apply sum_fuel_ok; lia | lia].
  destruct (finish_sum_spec (0 + be_sum ph + be_sum seg0)) as [Hr Hm]; [lia|].
  set (c := finish_sum _) in *. clearbody c. rewrite le16_bytes by lia.
  unfold rfc_valid. rewrite be_sum_app by done. rewrite wr_sum by done. fold seg0.
  assert (0 <= c mod 256 < 256 /\ 0 <= c / 256 < 256 /\ c = 256 * (c / 256) + c mod 256) as (Hx & Hy & Hc) by zlia.
  set (x := c mod 256) in *. set (y := c / 256) in *. clearbody x y.
  apply Z.mod_divide in Hm as [k Hk]; [|lia]. split.
  - intros [Hv _]. apply Z.mod_divide in Hv as [j Hj]; [|lia].
    assert (255 * (x - y) = (j - k) * 65535) as E by lia. assert (x - y = (j - k) * 257) as E2 by lia.
    assert (j - k = 0) by lia. lia.
  - intros ->. split; [|lia]. replace (be_sum ph + (be_sum seg0 + x * 256 + x)) with (k * 65535) by lia.
    by apply Z_mod_mult.
Qed.

Definition demo_syn : list Z := tcp_hdr 40000 80 1 0 TCP_SYN TCP_WINDOW 0.
Lemma tcp_checksum_byte_order_witness :
  bytes_list demo_syn /\
  ~ rfc_valid (pseudo_hdr 0x0A00020F 0x0A000202 IPPROTO_TCP (len demo_syn) ++
      wr demo_syn 16 (le16 (tcp_checksum 0x0A00020F 0x0A000202 (wr demo_syn 16 (le16 0)) (len demo_syn)))).
Proof.
  assert (bytes_list demo_syn) as Hb by (vm_compute; repeat (apply Forall_cons; split; [split; [intros E; discriminate E|reflexivity]|]); by apply Forall_nil).
  split; [exact Hb|]. intros Hv.
  apply (tcp_checksum_byte_order 0x0A00020F 0x0A000202 demo_syn Hb ltac:(vm_compute; split; discriminate)) in Hv.
  vm_compute in Hv. discriminate Hv.
Defined.

(** ** Retransmission *)

Section retx.
Context {H D : Type} `{!Kheap H} `{!NicHw D}.
Implicit Types s : nst H D.

(** Connection [i] waits for an acknowledgement. *)
Record pending (i : Z) s : Prop := {
  pd_id : 0 <= i < Z.of_nat (length (conns s));
  pd_state : c_state (get_conn s i) <> TCP_TIME_WAIT;
  pd_buf : retx_buf (get_conn s i) <> 0;
  pd_len : retx_len (get_conn s i) <> 0;
  pd_count : 0 <= retx_count (get_conn s i)
}.

(** Timer ticks at the times [nows], each at or after the deadline then set. *)
Fixpoint expiries (i : Z) (nows : list Z) s : Prop :=
  match nows with
  | [] => True
  | now :: nows => 0 <= i32 (now - retx_deadline (get_conn s i)) /\ expiries i nows (tick_conn now i s)
  end.
Definition ticks_at (i : Z) (nows : list Z) s : nst H D := fold_left (fun s now => tick_conn now i s) nows s.

Lemma st_eqb_false a b : a <> b -> st_eqb a b = false.
Proof. intros Hne. unfold st_eqb. by apply bool_decide_eq_false. Qed.

(** An expiry that retransmits. *)
Lemma tick_retx now i s : pending i s -> 0 <= i32 (now - retx_deadline (get_conn s i)) ->
  retx_count (get_conn s i) < TCP_MAX_RETRIES ->
  pending i (tick_conn now i s) /\
  retx_count (get_conn (tick_conn now i s) i) = retx_count (get_conn s i) + 1 /\
  retx_deadline (get_conn (tick_conn now i s) i) = u32 (now + TCP_RTO_MS * 2 ^ (retx_count (get_conn s i) + 1)) /\
  c_state (get_conn (tick_conn now i s) i) = c_state (get_conn s i).
Proof.
  intros [Hi Hst Hb Hl Hc] He Hm. unfold tick_conn. rewrite st_eqb_false by done.
  rewrite (proj2 (Z.eqb_neq _ _) Hb), (proj2 (Z.eqb_neq _ _) Hl). cbn [orb].
  rewrite (proj2 (Z.ltb_ge _ _)) by lia. rewrite (proj2 (Z.leb_gt _ _)) by lia.
  set (c := get_conn s i) in *.
  match goal with |- context [tcp_send_raw i ?sg ?n ?x] =>
    pose proof (sent_tcp_send_raw i sg n x) as Hs; destruct (tcp_send_raw i sg n x) as [[r sg2] s2] end.
  cbn [snd] in Hs. pose proof (sent_conns _ _ Hs) as Hcn. pose proof (sent_conn _ _ i Hs) as Hg.
  rewrite get_set_conn in Hg by done.
  assert (0 <= i < Z.of_nat (length (conns s2))) as Hi2 by (by rewrite Hcn, length_set_conn).
  rewrite get_set_conn by done. rewrite Hg. cbn.
  split; [|split; [done|split; [|done]]].
  - split; [by rewrite length_set_conn|..]; rewrite get_set_conn by done; cbn; [done..|lia].
  - by rewrite Z.shiftl_1_l.
Qed.

(** The expiry after the last retransmission. *)
Lemma tick_abort now i s : pending i s -> 0 <= i32 (now - retx_deadline (get_conn s i)) ->
  TCP_MAX_RETRIES <= retx_count (get_conn s i) -> tick_conn now i s = close_conn i s.
Proof.
  intros [Hi Hst Hb Hl Hc] He Hm. unfold tick_conn. rewrite st_eqb_false by done.
  rewrite (proj2 (Z.eqb_neq _ _) Hb), (proj2 (Z.eqb_neq _ _) Hl). cbn [orb].
  rewrite (proj2 (Z.ltb_ge _ _)) by lia. by rewrite (proj2 (Z.leb_le _ _)) by lia.
Qed.

Lemma close_conn_spec i s : 0 <= i < Z.of_nat (length (conns s)) ->
  c_state (get_conn (close_conn i s) i) = TCP_CLOSED /\ retx_buf (get_conn (close_conn i s) i) = 0.
Proof.
  intros Hi. unfold close_conn, retx_clear.
  assert (length (conns (retx_free i s)) = length (conns s) /\ retx_buf (get_conn (retx_free i s) i) = 0) as [Hl Hb].
  { unfold retx_free. destruct (Z.eqb_spec (retx_buf (get_conn s i)) 0) as [E|E]; cbn [negb]; [done|].
    rewrite length_set_conn. split; [done|]. by rewrite get_set_conn. }
  set (s1 := set_conn (retx_free i s) i _).
  assert (length (conns s1) = length (conns s) /\ retx_buf (get_conn s1 i) = 0) as [Hl1 Hb1].
  { subst s1. rewrite length_set_conn, get_set_conn by lia. done. }
  clearbody s1. rewrite get_set_conn by (rewrite conns_run_cb; lia). rewrite get_run_cb. done.
Qed.

(** Bounded retransmission with back-off: while nothing is acknowledged, each
    expiry retransmits the segment and doubles the time-out (1 s * 2^n), and
    the expiry after TCP_MAX_RETRIES of them closes the connection and frees the
    buffer. *)
Theorem retx_bounded i nows s : pending i s -> expiries i nows s ->
  let n := retx_count (get_conn s i) + Z.of_nat (length nows) in
  (n <= TCP_MAX_RETRIES ->
     retx_count (get_conn (ticks_at i nows s) i) = n /\
     c_state (get_conn (ticks_at i nows s) i) = c_state (get_conn s i) /\
     (forall now, last nows = Some now ->
        retx_deadline (get_conn (ticks_at i nows s) i) = u32 (now + TCP_RTO_MS * 2 ^ n))) /\
  (n = TCP_MAX_RETRIES + 1 -> nows <> [] ->
     c_state (get_conn (ticks_at i nows s) i) = TCP_CLOSED /\ retx_buf (get_conn (ticks_at i nows s) i) = 0).
Proof.
  revert s. induction nows as [|now nows IH]; intros s Hp He; cbv zeta.
  { split; [|done]. intros _. cbn. rewrite Z.add_0_r. done. }
  destruct He as [Hn He]. cbn [ticks_at fold_left length]. rewrite Nat2Z.inj_succ.
  destruct (decide (retx_count (get_conn s i) < TCP_MAX_RETRIES)) as [Hm|Hm].
  - destruct (tick_retx now i s Hp Hn Hm) as (Hp' & Hc' & Hd' & Hs').
    destruct (IH _ Hp' He) as [H1 H2]. rewrite Hc' in H1, H2.
    replace (retx_count (get_conn s i) + Z.succ (Z.of_nat (length nows)))
      with (retx_count (get_conn s i) + 1 + Z.of_nat (length nows)) by lia. split.
    + intros Hle. destruct (H1 Hle) as (E1 & E2 & E3). split; [exact E1|]. split; [unfold ticks_at in *; congruence|].
      intros t Ht. destruct nows as [|n2 nows].
      * injection Ht as ->. cbn [ticks_at fold_left length]. rewrite Z.add_0_r. exact Hd'.
      * apply E3. exact Ht.
    + intros Heq _. destruct nows as [|n2 nows]; [cbn in *; lia|]. by apply H2.
  - split; [intros; lia|]. intros Heq _. destruct nows as [|n2 nows]; [|cbn in *; lia].
    cbn [fold_left]. rewrite tick_abort by (done || lia). apply close_conn_spec, Hp.
Qed.
End retx.

(** The retransmission of a SYN, from its first deadline on. *)
Definition demo_connecting : nst Z Z := snd (tcp_connect 0x0A000202 80 40000 cb_null cb_null demo_net).
Lemma demo_pending : pending 0 demo_connecting.
Proof. split; vm_compute; intuition discriminate. Qed.
Definition demo_nows : list Z := [6000; 8000; 12000; 20000; 36000; 68000].
Lemma demo_expiries : expiries 0 demo_nows demo_connecting.
Proof. vm_compute. intuition discriminate. Qed.

Lemma retx_bounded_witness :
  pending 0 demo_connecting /\ expiries 0 demo_nows demo_connecting /\
  c_state (get_conn (ticks_at 0 demo_nows demo_connecting) 0) = TCP_CLOSED.
Proof.
  split; [exact demo_pending|]. split; [exact demo_expiries|].
  exact (proj1 (proj2 (retx_bounded 0 demo_nows demo_connecting demo_pending demo_expiries)
                  ltac:(vm_compute; reflexivity) ltac:(discriminate))).
Defined.

(** ** Segments *)

(** The segment the stack builds decodes to its fields, also when more bytes follow it. *)
Lemma tcp_decode_hdr sp dp sq ack fl wnd cs data n :
  0 <= sp < 2 ^ 16 -> 0 <= dp < 2 ^ 16 -> 0 <= sq < 2 ^ 32 -> 0 <= ack < 2 ^ 32 -> 0 <= wnd < 2 ^ 16 ->
  0 <= n -> TCP_HDR_LEN + n < 2 ^ 16 ->
  tcp_decode (tcp_hdr sp dp sq ack fl wnd cs ++ data) (TCP_HDR_LEN + n) =
  Some (mk_seg sp dp sq ack wnd fl data (n)).
Proof.
  intros Hsp Hdp Hsq Hack Hw H0 Hl. unfold TCP_HDR_LEN in *.
  unfold tcp_hdr, tcp_decode. rewrite !le16_htons, !le32_htonl by done. cbn [app le16].
  change TCP_HDR_LEN with 20. rewrite (proj2 (Z.ltb_ge (20 + n) 20)) by lia.
  match goal with |- context [rd8 ?l 12] => set (pkt := l) end.
  change (rd8 pkt 12) with 0x50. change (u16 (u8 (0x50 >>b 4) * 4)) with 20.
  rewrite (proj2 (Z.ltb_ge (20 + n) 20)) by lia. cbn [Z.ltb orb]. change (20 <? 20) with false. cbn [orb].
  rewrite (u16_small (20 + n - 20)) by lia. f_equal.
  assert (forall v, 0 <= v < 2 ^ 16 -> is_byte (v / 256) /\ is_byte (v mod 256)) as Hb2
    by (unfold is_byte; intros; zlia).
  change (rd16 pkt 0) with (sp / 256 + 2 ^ 8 * (sp mod 256)). change (rd16 pkt 2) with (dp / 256 + 2 ^ 8 * (dp mod 256)).
  change (rd16 pkt 14) with (wnd / 256 + 2 ^ 8 * (wnd mod 256)).
  rewrite !ntohs_bytes by (by apply Hb2). change (rd8 pkt 13) with fl.
  assert (forall v, 0 <= v < 2 ^ 32 ->
    ntohl ((v / 2 ^ 24 + 2 ^ 8 * (v / 2 ^ 16 mod 256)) + 2 ^ 16 * (v / 2 ^ 8 mod 256 + 2 ^ 8 * (v mod 256))) = v) as H4.
  { intros v Hv. rewrite ntohl_bytes by (unfold is_byte; zlia). zlia. }
  pose proof (H4 sq Hsq) as E1. pose proof (H4 ack Hack) as E2.
  change (ntohl (rd32 pkt 4) = sq) in E1. change (ntohl (rd32 pkt 8) = ack) in E2. rewrite E1, E2.
  replace (sp / 256 * 256 + sp mod 256) with sp by zlia. replace (dp / 256 * 256 + dp mod 256) with dp by zlia.
  replace (wnd / 256 * 256 + wnd mod 256) with wnd by zlia. f_equal; lia.
Qed.

(** ** The look-up of a segment's connection *)

Definition conn_match (dst_port src_port src_ip : Z) (t : tcp_conn) : bool :=
  negb (st_eqb (c_state t) TCP_CLOSED) && negb (st_eqb (c_state t) TCP_LISTEN && (local_port t =? dst_port)) &&
  ((local_port t =? dst_port) && (remote_port t =? src_port) && (remote_ip t =? src_ip)).
Definition listens (dst_port : Z) (t : tcp_conn) : bool :=
  st_eqb (c_state t) TCP_LISTEN && (local_port t =? dst_port).

Lemma tcp_lookup_conn l j dp sp ip lstn : fst (tcp_lookup l j dp sp ip lstn) =
  (fun k => j + Z.of_nat k) <$> first_idx (conn_match dp sp ip) l.
Proof.
  revert j lstn. induction l as [|t l IH]; intros j lstn; [done|]. cbn [tcp_lookup first_idx].
  unfold conn_match at 1. destruct (st_eqb (c_state t) TCP_CLOSED); cbn [negb andb];
    [|destruct (_ && (local_port t =? dp)); cbn [negb andb]; [|destruct (_ && _)]].
  3: { cbn. f_equal. lia. }
  all: rewrite IH; destruct (first_idx _ l); cbn; [f_equal; lia|done].
Qed.

Lemma tcp_lookup_lstn l j dp sp ip lstn : first_idx (conn_match dp sp ip) l = None ->
  snd (tcp_lookup l j dp sp ip lstn) = lstn \/
  exists k t, snd (tcp_lookup l j dp sp ip lstn) = Some (j + Z.of_nat k) /\ l !! k = Some t /\ listens dp t = true.
Proof.
  revert j lstn. induction l as [|t l IH]; intros j lstn Hn; [by left|]. cbn [first_idx] in Hn.
  destruct (conn_match dp sp ip t) eqn:Hm; [done|].
  assert (first_idx (conn_match dp sp ip) l = None) as Hn' by (by destruct (first_idx _ l)).
  assert (forall lstn', snd (tcp_lookup l (j + 1) dp sp ip lstn') = lstn' \/
    exists k t', snd (tcp_lookup l (j + 1) dp sp ip lstn') = Some (j + Z.of_nat k) /\ (t :: l) !! k = Some t' /\
      listens dp t' = true) as IH'.
  { intros lstn'. destruct (IH (j + 1) lstn' Hn') as [?|(k & t' & E & Hk & Ht)]; [by left|right].
    exists (S k), t'. split; [|done]. rewrite E. f_equal. lia. }
  cbn [tcp_lookup]. unfold conn_match in Hm. destruct (st_eqb (c_state t) TCP_CLOSED) eqn:Hc; [apply IH'|].
  destruct (st_eqb (c_state t) TCP_LISTEN && (local_port t =? dp)) eqn:Hl; cbn [negb andb] in Hm.
  - destruct (IH' (Some j)) as [E|?]; [|by right]. right. exists 0%nat, t. split; [|done]. rewrite E. f_equal. lia.
  - rewrite Hm. apply IH'.
Qed.

(** With a listener in the table and no connection, one listener is found. *)
Lemma tcp_lookup_listener l dp sp ip : first_idx (conn_match dp sp ip) l = None ->
  existsb (listens dp) l = true ->
  exists k t, tcp_lookup l 0 dp sp ip None = (None, Some (Z.of_nat k)) /\ l !! k = Some t /\ listens dp t = true.
Proof.
  intros Hn He. pose proof (tcp_lookup_conn l 0 dp sp ip None) as H1. rewrite Hn in H1.
  destruct (tcp_lookup_lstn l 0 dp sp ip None Hn) as [H2|(k & t & H2 & Hk & Ht)].
  - exfalso. enough (forall j lstn, snd (tcp_lookup l j dp sp ip lstn) = None -> lstn = None /\ existsb (listens dp) l = false)
      as Hx by (destruct (Hx 0 None H2); congruence).
    clear H1 H2 He. induction l as [|t l IH]; intros j lstn; [done|]. cbn [tcp_lookup existsb first_idx] in *.
    destruct (conn_match dp sp ip t) eqn:Hm; [done|].
    assert (first_idx (conn_match dp sp ip) l = None) as Hn' by (by destruct (first_idx _ l)).
    specialize (IH Hn'). unfold conn_match in Hm. unfold listens at 1.
    destruct (st_eqb (c_state t) TCP_CLOSED) eqn:Hc.
    + intros E. destruct (IH _ _ E) as [-> ->]. split; [done|]. apply bool_decide_eq_true in Hc. by rewrite Hc.
    + destruct (st_eqb (c_state t) TCP_LISTEN && (local_port t =? dp)) eqn:Hl; cbn [negb andb] in Hm.
      * intros E. by destruct (IH _ _ E).
      * rewrite Hm. intros E. apply IH in E as [-> ->]. done.
  - exists k, t. destruct (tcp_lookup l 0 dp sp ip None) as [a b']. cbn in H1, H2. by rewrite H1, H2.
Qed.

(** ** The three-way handshake *)

(** The fields of a connection the handshake is about. *)
Definition core (c : tcp_conn) : tcp_conn :=
  mk_conn (c_state c) (local_ip c) (local_port c) (remote_ip c) (remote_port c) (snd_una c) (snd_nxt c) (snd_wnd c)
    (rcv_nxt c) 0 [] 0 0 0 [] 0 0 (on_data c) (on_close c).
#[export] Instance core_retx_inv : RetxInv core.
Proof. by split. Qed.

Lemma first_idx_map {A B} (f : A -> B) (P : B -> bool) (Q : A -> bool) l :
  (forall x, P (f x) = Q x) -> first_idx P (map f l) = first_idx Q l.
Proof. intros Hf. induction l as [|x l IH]; [done|]. cbn [map first_idx]. by rewrite Hf, IH. Qed.

Lemma first_idx_insert {A} (P : A -> bool) l i x : first_idx P l = None -> P x = true -> (i < length l)%nat ->
  first_idx P (<[i := x]> l) = Some i.
Proof.
  intros Hn Hx Hi. apply first_idx_Some. apply first_idx_None in Hn. split.
  - exists x. split; [|done]. by apply list_lookup_insert_eq.
  - intros j y Hj Hy. rewrite list_lookup_insert_ne in Hy by lia. exact (Forall_lookup_1 _ _ _ _ Hn Hy).
Qed.

Section handshake.
Context {H D : Type} `{!Kheap H} `{!NicHw D}.
Implicit Types s : nst H D.

Lemma get_core s s' i t : view core s' = <[Z.to_nat i := t]> (view core s) ->
  0 <= i < Z.of_nat (length (conns s)) -> core (get_conn s' i) = t /\ length (conns s') = length (conns s).
Proof.
  intros E Hi. assert (length (conns s') = length (conns s)) as Hl.
  { apply (f_equal length) in E. rewrite length_insert in E. unfold view in E. by rewrite !length_map in E. }
  split; [|done]. unfold view in E. unfold get_conn. rewrite nth_lookup.
  destruct (lookup_lt_is_Some_2 (conns s') (Z.to_nat i)) as [c Hc]; [lia|]. rewrite Hc. cbn.
  apply (f_equal (fun l => l !! Z.to_nat i)) in E. rewrite list_lookup_fmap, Hc in E. cbn in E.
  rewrite list_lookup_insert_eq in E by (rewrite length_map; lia). by injection E.
Qed.

(** The look-up after a connection was added to the table. *)
Lemma lookup_added s s' i t dp sp ip lstn : length (conns s) = 8%nat -> 0 <= i < 8 ->
  view core s' = <[Z.to_nat i := t]> (view core s) ->
  first_idx (conn_match dp sp ip) (conns s) = None -> conn_match dp sp ip t = true ->
  fst (tcp_lookup (take 8 (conns s')) 0 dp sp ip lstn) = Some i.
Proof.
  intros Hl Hi E Hn Ht. destruct (get_core s s' i t E ltac:(lia)) as [_ Hl'].
  rewrite take_ge by lia. rewrite tcp_lookup_conn.
  rewrite <- (first_idx_map core (conn_match dp sp ip) (conn_match dp sp ip)) by done.
  change (map core (conns s')) with (view core s'). rewrite E.
  rewrite first_idx_insert; [cbn; f_equal; lia| |done|unfold view; rewrite length_map; lia].
  unfold view. by rewrite (first_idx_map core (conn_match dp sp ip) (conn_match dp sp ip)).
Qed.

Lemma core_open i c sg n s :
  view core (let '(_, _, s2) := tcp_send_raw i sg n (retx_arm i sg n (set_conn s i c)) in s2) =
  <[Z.to_nat i := core c]> (view core s).
Proof.
  match goal with |- context [tcp_send_raw i sg n ?x] =>
    pose proof (sent_tcp_send_raw i sg n x) as Hs; destruct (tcp_send_raw i sg n x) as [[r sg2] s2] end.
  cbn [snd] in Hs. rewrite (view_sent core _ _ Hs), (view_retx_arm core). unfold view, set_conn. cbn [conns with_conns].
  apply list_fmap_insert.
Qed.

(** Connection [i] is the newest entry and everything else is as in [s]. *)
Definition opened i c s s' : Prop := view core s' = <[Z.to_nat i := core c]> (view core s).

Lemma connect_core ip port lport d c s i : conn_alloc s = i -> 0 <= i < 8 ->
  let isn := fst (next_isn s) in
  opened i (mk_conn TCP_SYN_SENT (our_ip s) lport ip port isn (u32 (isn + 1)) 0 0 0 [] 0 0 0 [] 0 0 d c)
    s (snd (tcp_connect ip port lport d c s)) /\ fst (tcp_connect ip port lport d c s) = i.
Proof.
  intros Ha Hi. unfold tcp_connect, opened. rewrite Ha, (proj2 (Z.ltb_ge i 0)) by lia. cbn [next_isn fst].
  match goal with |- context [tcp_send_raw i ?sg ?n (retx_arm _ _ _ (set_conn ?s1 _ ?c))] =>
    pose proof (core_open i c sg n s1) as E; destruct (tcp_send_raw i sg n _) as [[r sg2] s2] end.
  cbn [snd]. split; [exact E|done].
Qed.

(** A SYN for a listener opens a connection. *)
Lemma rx_syn_core g p n a b s i l :
  tcp_decode p n = Some g -> g_flags g = TCP_SYN -> conn_alloc s = i -> 0 <= i < 8 ->
  tcp_lookup (take 8 (conns s)) 0 (g_dst_port g) (g_src_port g) a None = (None, Some l) ->
  let isn := fst (next_isn s) in
  opened i (mk_conn TCP_SYN_RCVD b (g_dst_port g) a (g_src_port g) isn (u32 (isn + 1)) (g_wnd g) (u32 (g_seq g + 1))
              0 [] 0 0 0 [] 0 0 (on_data (get_conn s l)) (on_close (get_conn s l))) s (tcp_rx p n a b s).
Proof.
  intros Hd Hf Ha Hi Hl. unfold tcp_rx, opened. rewrite Hd, Hl. unfold no_conn. rewrite Hf.
  change (has TCP_SYN TCP_SYN && negb (has TCP_SYN TCP_ACK)) with true. cbv iota beta zeta.
  unfold passive_open. rewrite Ha, (proj2 (Z.ltb_ge i 0)) by lia. cbn [next_isn fst].
  match goal with |- context [tcp_send_raw i ?sg ?n (retx_arm _ _ _ (set_conn ?s1 _ ?c))] =>
    exact (core_open i c sg n s1) end.
Qed.

Lemma get_retx_clear i s : 0 <= i < Z.of_nat (length (conns s)) ->
  core (get_conn (retx_clear i s) i) = core (get_conn s i) /\ retx_buf (get_conn (retx_clear i s) i) = 0 /\
  length (conns (retx_clear i s)) = length (conns s).
Proof.
  intros Hi. pose proof (view_retx_clear core i s) as E. pose proof (view_get core _ _ i E) as Ec.
  split; [exact Ec|]. split.
  - unfold retx_clear, retx_free. destruct (Z.eqb_spec (retx_buf (get_conn s i)) 0) as [E0|E0]; cbn [negb].
    + by rewrite get_set_conn.
    + rewrite get_set_conn by (by rewrite length_set_conn).
      cbn [retx_buf cs_retx_count cs_retx_len]. by rewrite get_set_conn.
  - apply (f_equal length) in E. unfold view in E. by rewrite !length_map in E.
Qed.

(** The SYN-ACK of the peer establishes the active side. *)
Lemma rx_synack_core g i a b s : 0 <= i < Z.of_nat (length (conns s)) ->
  c_state (get_conn s i) = TCP_SYN_SENT -> g_flags g = TCP_SYN |b TCP_ACK -> g_ack g = snd_nxt (get_conn s i) ->
  let c := get_conn s i in let c' := get_conn (rx_conn i g a b s) i in
  core c' = core (cs_c_state (cs_rcv_nxt (cs_snd_wnd (cs_snd_una c (g_ack g)) (g_wnd g)) (u32 (g_seq g + 1))) TCP_ESTABLISHED) /\
  retx_buf c' = 0.
Proof.
  intros Hi Hst Hf Hack. cbv zeta. unfold rx_conn. rewrite Hf, Hst.
  change (has (TCP_SYN |b TCP_ACK) TCP_RST) with false. cbv iota. unfold rx_syn_sent. rewrite Hf.
  change (has (TCP_SYN |b TCP_ACK) TCP_ACK) with true. change (has (TCP_SYN |b TCP_ACK) TCP_SYN) with true.
  rewrite Hack, Z.eqb_refl. cbn [negb]. rewrite get_send_ctrl.
  set (c1 := cs_rcv_nxt (cs_snd_wnd (cs_snd_una (get_conn s i) (snd_nxt (get_conn s i))) (g_wnd g)) (u32 (g_seq g + 1))).
  destruct (get_retx_clear i (set_conn s i c1)) as (E1 & E2 & E3).
  { by rewrite length_set_conn. }
  rewrite length_set_conn in E3. rewrite get_set_conn in E1 by done. rewrite get_set_conn by lia.
  split; [|exact E2]. revert E1. generalize (get_conn (retx_clear i (set_conn s i c1)) i). intros c2.
  clearbody c1. unfold core. cbn. intros [=]. f_equal; congruence.
Qed.

(** The ACK of the peer establishes the passive side. *)
Lemma rx_ack_core g i a b s : 0 <= i < Z.of_nat (length (conns s)) ->
  c_state (get_conn s i) = TCP_SYN_RCVD -> g_flags g = TCP_ACK -> g_len g = 0 -> g_ack g = snd_nxt (get_conn s i) ->
  let c := get_conn s i in let c' := get_conn (rx_conn i g a b s) i in
  core c' = core (cs_c_state (cs_snd_wnd (cs_snd_una c (g_ack g)) (g_wnd g)) TCP_ESTABLISHED) /\
  retx_buf c' = 0.
Proof.
  intros Hi Hst Hf Hg Hack. cbv zeta. unfold rx_conn. rewrite Hf, Hst.
  change (has TCP_ACK TCP_RST) with false. cbv iota. unfold rx_syn_rcvd. rewrite Hf.
  change (has TCP_ACK TCP_ACK) with true. rewrite Hack, Z.eqb_refl. cbn [negb].
  set (c1 := cs_snd_wnd (cs_snd_una (get_conn s i) (snd_nxt (get_conn s i))) (g_wnd g)).
  destruct (get_retx_clear i (set_conn s i c1)) as (E1 & E2 & E3).
  { by rewrite length_set_conn. }
  rewrite length_set_conn in E3. rewrite get_set_conn in E1 by done.
  set (s2 := set_conn _ _ _). assert (get_conn s2 i = cs_c_state (get_conn (retx_clear i (set_conn s i c1)) i) TCP_ESTABLISHED) as E4.
  { subst s2. by rewrite get_set_conn by lia. }
  assert (length (conns s2) = length (conns s)) as Hl2 by (subst s2; by rewrite length_set_conn).
  clearbody s2. revert E4 E1 E2. generalize (get_conn (retx_clear i (set_conn s i c1)) i). intros c2 E4 E1 E2.
  unfold rx_established. rewrite rx_ack_established by (by rewrite E4). rewrite Hf. change (has TCP_ACK TCP_ACK) with true.
  unfold rx_data, rx_fin. rewrite Hf, Hg. change (has TCP_ACK TCP_FIN) with false. cbn [Z.ltb Z.compare andb].
  assert (snd_una c1 = g_ack g /\ snd_wnd c1 = g_wnd g) as [Hu Hwn] by (by rewrite Hack).
  clearbody c1. unfold core in E1. injection E1 as ? ? ? ? ? ? ? ? ? ? ?.
  assert (forall x, x = cs_c_state c2 TCP_ESTABLISHED \/
    x = cs_snd_wnd (cs_snd_una (cs_c_state c2 TCP_ESTABLISHED) (g_ack g)) (g_wnd g) ->
    core x = core (cs_c_state c1 TCP_ESTABLISHED) /\ retx_buf x = 0) as Hx.
  { intros x Hx. split; [|by destruct Hx as [->| ->]]. unfold core. destruct Hx as [->| ->]; cbn; f_equal; congruence. }
  apply Hx. unfold rx_ack_window. rewrite E4.
  destruct (_ && _); [right|left; exact E4]. rewrite get_set_conn by lia. cbn [retx_buf cs_snd_wnd cs_snd_una cs_c_state].
  rewrite E2. cbn [Z.eqb negb andb]. by rewrite get_set_conn by lia.
Qed.

(** The three segments, with the checksum bytes they happen to carry. *)
Definition hs_syn (pA pB isnA cs : Z) : list Z := tcp_hdr pA pB isnA 0 TCP_SYN TCP_WINDOW cs.
Definition hs_synack (pA pB isnA isnB cs : Z) : list Z :=
  tcp_hdr pB pA isnB (u32 (isnA + 1)) (TCP_SYN |b TCP_ACK) TCP_WINDOW cs.
Definition hs_ack (pA pB isnA isnB cs : Z) : list Z :=
  tcp_hdr pA pB (u32 (isnA + 1)) (u32 (isnB + 1)) TCP_ACK TCP_WINDOW cs.

(** A connection between the two ends whose sequence numbers are these. *)
Record synced (c : tcp_conn) (lport rport rip snd rcv : Z) : Prop := {
  sy_state : c_state c = TCP_ESTABLISHED;
  sy_lport : local_port c = lport;
  sy_rport : remote_port c = rport;
  sy_rip : remote_ip c = rip;
  sy_una : snd_una c = snd;
  sy_nxt : snd_nxt c = snd;
  sy_rcv : rcv_nxt c = rcv;
  sy_wnd : snd_wnd c = TCP_WINDOW;
  sy_retx : retx_buf c = 0
}.

Lemma synced_core c c0 lp rp rip sn rc : core c = core c0 -> retx_buf c = 0 ->
  c_state c0 = TCP_ESTABLISHED -> local_port c0 = lp -> remote_port c0 = rp -> remote_ip c0 = rip ->
  snd_una c0 = sn -> snd_nxt c0 = sn -> rcv_nxt c0 = rc -> snd_wnd c0 = TCP_WINDOW -> synced c lp rp rip sn rc.
Proof. unfold core. intros [= E1 E2 E3 E4 E5 E6 E7 E8 E9 E10 E11] Hb. intros. split; congruence. Qed.

(** A segment without data, as it arrives: the link may have padded the frame. *)
Lemma decode20 sp dp sq ack fl cs pad : 0 <= sp < 2 ^ 16 -> 0 <= dp < 2 ^ 16 -> 0 <= sq < 2 ^ 32 -> 0 <= ack < 2 ^ 32 ->
  tcp_decode (tcp_hdr sp dp sq ack fl TCP_WINDOW cs ++ pad) TCP_HDR_LEN = Some (mk_seg sp dp sq ack TCP_WINDOW fl pad 0).
Proof.
  intros H1 H2 H3 H4. by apply (tcp_decode_hdr sp dp sq ack fl TCP_WINDOW cs pad 0).
Qed.

(** A segment of a connection that was just opened reaches it. *)
Lemma rx_opened p g a b i c s s1 : length (conns s) = 8%nat -> 0 <= i < 8 -> opened i c s s1 ->
  tcp_decode p TCP_HDR_LEN = Some g -> first_idx (conn_match (g_dst_port g) (g_src_port g) a) (conns s) = None ->
  conn_match (g_dst_port g) (g_src_port g) a (core c) = true ->
  tcp_rx p TCP_HDR_LEN a b s1 = rx_conn i g a b s1.
Proof.
  intros Hl Hi Ho Hd Hn Hm. unfold tcp_rx. rewrite Hd.
  pose proof (lookup_added s s1 i (core c) _ _ a None Hl Hi Ho Hn Hm) as E.
  destruct (tcp_lookup _ _ _ _ _ _) as [r x]. cbn in E. by rewrite E.
Qed.

(** ** Accepting *)

(** A connection is returned by [tcp_accept] again and again: clearing
    [on_data] does not take the connection out of the search, so the second call
    on the same port returns the same connection (the comment in the code says it
    does not). *)
Theorem tcp_accept_repeats port s : 0 <= fst (tcp_accept port s) ->
  fst (tcp_accept port (snd (tcp_accept port s))) = fst (tcp_accept port s).
Proof.
  set (P := fun c => st_eqb (c_state c) TCP_ESTABLISHED && (local_port c =? port) && negb (remote_port c =? 0)).
  assert (forall s, fst (tcp_accept port s) = match first_idx id (take 8 (view P s)) with Some i => Z.of_nat i | None => -1 end) as E.
  { intros s0. unfold tcp_accept, view. fold P. rewrite <- (fmap_take P), (first_idx_map P id P) by done.
    by destruct (first_idx P _). }
  intros _. rewrite !E. replace (view P (snd (tcp_accept port s))) with (view P s); [done|].
  unfold tcp_accept. destruct (first_idx _ _) as [i|]; [|done]. cbn [snd]. symmetry. by apply view_keep.
Qed.

End handshake.

(** ** Witnesses of the exchanges *)

Lemma tcp_accept_repeats_witness :
  fst (tcp_accept 40000 demo_tcp) = 0 /\ fst (tcp_accept 40000 (snd (tcp_accept 40000 demo_tcp))) = 0.
Proof.
  assert (fst (tcp_accept 40000 demo_tcp) = 0) as E by (vm_compute; reflexivity).
  split; [exact E|]. refine (eq_trans (tcp_accept_repeats 40000 demo_tcp _) E). rewrite E. lia.
Defined.
