(* ===== verification/Socket.v ===== *)
(** * Sockets and the composition of the stack: src/net/socket/socket.c

    The eight socket system calls over the socket table, reading and writing
    [sockaddr_in] and buffers in the caller's memory ([umem]); then the receive
    path of the whole stack, [e1000_poll] to [udp_sock_rx]/[tcp_rx]/[dhcp_rx],
    with every registered handler interpreted, and [net_poll] of dhcp.c, the
    timer callback that drives it. *)

From S2P Require Import Prelude Mem Io Ring Packet NetState E1000 Ether Ipv4 Udp Tcp.

Definition AF_INET : Z := 2.
Definition SOCK_STREAM : Z := 1.
Definition SOCK_DGRAM : Z := 2.
Definition SYS_SOCKET : Z := 41.
Definition SYS_CONNECT : Z := 42.
Definition SYS_ACCEPT : Z := 43.
Definition SYS_SENDTO : Z := 44.
Definition SYS_RECVFROM : Z := 45.
Definition SYS_SHUTDOWN : Z := 48.
Definition SYS_BIND : Z := 49.
Definition SYS_LISTEN : Z := 50.
Definition EINVAL : Z := 22.
Definition ENOMEM : Z := 12.
Definition EAFNOSUPPORT : Z := 97.
Definition EPROTONOSUPPORT : Z := 93.
Definition ENOTSOCK : Z := 88.
Definition ENOTCONN : Z := 107.
Definition EISCONN : Z := 106.
Definition EADDRINUSE : Z := 98.
Definition EOPNOTSUPP : Z := 95.
Definition EAGAIN : Z := 11.
Definition SOCK_MAX : Z := 16.
Definition SOCK_FD_BASE : Z := 64.
Definition SOCK_RX_SIZE : Z := 2048.

(** [(u64)(i64)(-e)] *)
Definition err (e : Z) : Z := u64 (- e).

(** The fields of a [sockaddr_in_t] in memory. *)
Definition sin_family (m : mem) (a : Z) : Z := load 2 m a.
Definition sin_port (m : mem) (a : Z) : Z := load 2 m (a + 2).
Definition sin_addr (m : mem) (a : Z) : Z := load 4 m (a + 4).
Definition store_sockaddr (m : mem) (a port ip : Z) : mem :=
  let m := store 2 m a AF_INET in
  let m := store 2 m (a + 2) (htons port) in
  store 4 m (a + 4) (htonl ip).

Definition fd_to_idx (fd : Z) : Z :=
  let idx := fd - SOCK_FD_BASE in
  if (idx <? 0) || (SOCK_MAX <=? idx) then -1 else idx.

Section socket.
Context {H D : Type} `{!Kheap H} `{!NicHw D}.
Implicit Types s : nst H D.

Definition alloc_sock s : Z :=
  match first_idx (fun k => ty_eqb (s_type k) SOCK_FREE) (take 16 (socks s)) with
  | Some i => Z.of_nat i
  | None => -1
  end.

(** ** UDP receive callback *)

Definition udp_sock_rx (data : list Z) (n src_ip src_port dst_port : Z) s : nst H D :=
  match first_idx (fun k => ty_eqb (s_type k) SOCK_UDP && (bound_port k =? dst_port)) (take 16 (socks s)) with
  | None => s
  | Some i =>
      let i := Z.of_nat i in
      let k := get_sock s i in
      let k := ss_peer_port (ss_peer_ip k src_ip) src_port in
      let free := u16 (SOCK_RX_SIZE - 1 - u16 (u64 (s_rx_tail k - s_rx_head k + SOCK_RX_SIZE) mod SOCK_RX_SIZE)) in
      let n := if free <? n then free else n in
      let '(buf, t) := ring_write SOCK_RX_SIZE (s_rx_buf k) (s_rx_tail k) (sub data 0 n) in
      set_sock s i (ss_s_rx_tail (ss_s_rx_buf k buf) t)
  end.

(** ** System calls *)

Definition sys_socket (domain type : Z) s : Z * nst H D :=
  if negb (domain =? AF_INET) then (err EAFNOSUPPORT, s)
  else if negb (type =? SOCK_STREAM) && negb (type =? SOCK_DGRAM) then (err EPROTONOSUPPORT, s)
  else
    let idx := alloc_sock s in
    if idx <? 0 then (err ENOMEM, s)
    else
      let k := get_sock s idx in
      let k := mk_sock (if type =? SOCK_STREAM then SOCK_TCP else SOCK_UDP) (-1) 0 0 0 (s_rx_buf k) 0 0 in
      (SOCK_FD_BASE + idx, set_sock s idx k).

(** The port reuse loop. *)
Definition port_in_use (idx port : Z) (l : list sock) : bool :=
  existsb (fun i => negb (Z.of_nat i =? idx) &&
                    match l !! i with
                    | Some k => negb (ty_eqb (s_type k) SOCK_FREE) && (bound_port k =? port)
                    | None => false
                    end) (seq 0 16).

Definition sys_bind (fd addr : Z) s : Z * nst H D :=
  let idx := fd_to_idx (i32 fd) in
  if idx <? 0 then (err ENOTSOCK, s)
  else
    let k := get_sock s idx in
    if ty_eqb (s_type k) SOCK_FREE then (err ENOTSOCK, s)
    else if negb (sin_family (umem s) addr =? AF_INET) then (err EAFNOSUPPORT, s)
    else
      let port := ntohs (sin_port (umem s) addr) in
      if port_in_use idx port (socks s) then (err EADDRINUSE, s)
      else
        let s := set_sock s idx (ss_bound_port k port) in
        let s := if ty_eqb (s_type k) SOCK_UDP then snd (udp_register port h_udp_sock_rx s) else s in
        (0, s).

Definition sys_listen (fd : Z) s : Z * nst H D :=
  let idx := fd_to_idx (i32 fd) in
  if idx <? 0 then (err ENOTSOCK, s)
  else
    let k := get_sock s idx in
    if negb (ty_eqb (s_type k) SOCK_TCP) then (err EOPNOTSUPP, s)
    else if bound_port k =? 0 then (err EINVAL, s)
    else
      let '(id, s) := tcp_listen (bound_port k) cb_tcp_sock_data cb_tcp_sock_close s in
      if id <? 0 then (err EINVAL, s)
      else (0, set_sock s idx (ss_conn_id (get_sock s idx) id)).

Definition sys_accept (fd addr : Z) s : Z * nst H D :=
  let idx := fd_to_idx (i32 fd) in
  if idx <? 0 then (err ENOTSOCK, s)
  else
    let k := get_sock s idx in
    if negb (ty_eqb (s_type k) SOCK_TCP) then (err EOPNOTSUPP, s)
    else
      let '(found, s) := tcp_accept (bound_port k) s in
      if found <? 0 then (err EAGAIN, s)
      else
        let nidx := alloc_sock s in
        if nidx <? 0 then (err ENOMEM, s)
        else
          let nk := get_sock s nidx in
          let nk := mk_sock SOCK_TCP found (bound_port k) (peer_ip nk) (peer_port nk) (s_rx_buf nk) 0 0 in
          let s := set_sock s nidx nk in
          let s :=
            if negb (addr =? 0) then
              let '(pip, pport) := tcp_get_peer found s in
              with_umem s (store_sockaddr (umem s) addr pport pip)
            else s in
          (SOCK_FD_BASE + nidx, s).

Definition sys_connect (fd addr : Z) s : Z * nst H D :=
  let idx := fd_to_idx (i32 fd) in
  if idx <? 0 then (err ENOTSOCK, s)
  else
    let k := get_sock s idx in
    if negb (ty_eqb (s_type k) SOCK_TCP) then (err EOPNOTSUPP, s)
    else if 0 <=? conn_id k then (err EISCONN, s)
    else
      let dst_ip := ntohl (sin_addr (umem s) addr) in
      let dst_port := ntohs (sin_port (umem s) addr) in
      let src_port := if negb (bound_port k =? 0) then bound_port k else u16 (49152 + i32 fd) in
      let '(id, s) := tcp_connect dst_ip dst_port src_port cb_tcp_sock_data cb_tcp_sock_close s in
      if id <? 0 then (err EINVAL, s)
      else (0, set_sock s idx (ss_conn_id (get_sock s idx) id)).

Definition sys_sendto (fd buf n addr : Z) s : Z * nst H D :=
  let idx := fd_to_idx (i32 fd) in
  if idx <? 0 then (err ENOTSOCK, s)
  else
    let k := get_sock s idx in
    let data := bytes (Z.to_nat (u16 n)) (umem s) buf in
    match s_type k with
    | SOCK_TCP =>
        if conn_id k <? 0 then (err ENOTCONN, s)
        else
          let '(ret, s) := tcp_send (conn_id k) data (u16 n) s in
          (if ret <? 0 then err EINVAL else n, s)
    | SOCK_UDP =>
        let dst :=
          if negb (addr =? 0) then Some (ntohl (sin_addr (umem s) addr), ntohs (sin_port (umem s) addr))
          else if negb (peer_ip k =? 0) then Some (peer_ip k, peer_port k)
          else None in
        match dst with
        | None => (err ENOTCONN, s)
        | Some (dst_ip, dst_port) =>
            let '(ret, s) := udp_send dst_ip (bound_port k) dst_port data (u16 n) s in
            (if ret <? 0 then err EINVAL else n, s)
        end
    | SOCK_FREE => (err ENOTSOCK, s)
    end.

Definition sys_recvfrom (fd buf n addr : Z) s : Z * nst H D :=
  let idx := fd_to_idx (i32 fd) in
  if idx <? 0 then (err ENOTSOCK, s)
  else
    let k := get_sock s idx in
    match s_type k with
    | SOCK_TCP =>
        if conn_id k <? 0 then (err ENOTCONN, s)
        else
          let '(out, s) := tcp_read (conn_id k) (u16 n) s in
          let s := with_umem s (put (umem s) buf out) in
          if len out =? 0 then (err EAGAIN, s) else (len out, s)
    | SOCK_UDP =>
        let avail := u16 (u64 (s_rx_tail k - s_rx_head k + SOCK_RX_SIZE) mod SOCK_RX_SIZE) in
        if avail =? 0 then (err EAGAIN, s)
        else
          let m := u16 (if avail <? u16 n then avail else u16 n) in
          let '(out, h) := ring_read (Z.to_nat m) SOCK_RX_SIZE (s_rx_buf k) (s_rx_head k) in
          let s := set_sock s idx (ss_s_rx_head k h) in
          let s := with_umem s (put (umem s) buf out) in
          let s := if negb (addr =? 0)
                   then with_umem s (store_sockaddr (umem s) addr (peer_port k) (peer_ip k)) else s in
          (m, s)
    | SOCK_FREE => (err ENOTSOCK, s)
    end.

Definition sys_shutdown (fd : Z) s : Z * nst H D :=
  let idx := fd_to_idx (i32 fd) in
  if idx <? 0 then (err ENOTSOCK, s)
  else
    let k := get_sock s idx in
    let s := if ty_eqb (s_type k) SOCK_TCP && (0 <=? conn_id k) then snd (tcp_close (conn_id k) s) else s in
    (0, set_sock s idx (ss_conn_id (ss_s_type (get_sock s idx) SOCK_FREE) (-1))).

(** The system calls [socket_init] registers. *)
Inductive socket_call :=
  | c_socket | c_bind | c_listen | c_accept | c_connect | c_sendto | c_recvfrom | c_shutdown.

Definition socket_calls : list (Z * socket_call) :=
  [(SYS_SOCKET, c_socket); (SYS_BIND, c_bind); (SYS_LISTEN, c_listen); (SYS_ACCEPT, c_accept);
   (SYS_CONNECT, c_connect); (SYS_SENDTO, c_sendto); (SYS_RECVFROM, c_recvfrom); (SYS_SHUTDOWN, c_shutdown)].

(** One call with its six arguments. *)
Definition run_socket_call (c : socket_call) (a0 a1 a2 a3 a4 a5 : Z) s : Z * nst H D :=
  match c with
  | c_socket => sys_socket a0 a1 s
  | c_bind => sys_bind a0 a1 s
  | c_listen => sys_listen a0 s
  | c_accept => sys_accept a0 a1 s
  | c_connect => sys_connect a0 a1 s
  | c_sendto => sys_sendto a0 a1 a2 a4 s
  | c_recvfrom => sys_recvfrom a0 a1 a2 a4 s
  | c_shutdown => sys_shutdown a0 s
  end.

Definition socket_init_impl s : Z * nst H D :=
  (0, with_socks s (map (fun k => ss_conn_id (ss_s_type k SOCK_FREE) (-1)) (socks s))).

(** ** The stack as one machine *)

Definition udp_dispatch (h : udp_handler) (data : list Z) (n src_ip src_port dst_port : Z) s : nst H D :=
  match h with
  | h_udp_sock_rx => udp_sock_rx data n src_ip src_port dst_port s
  | h_dhcp_rx => dhcp_rx data n src_ip src_port dst_port s
  end.

Definition ip_dispatch (h : ip_handler) (payload : list Z) (n src_ip dst_ip : Z) s : nst H D :=
  match h with
  | h_icmp_rx => icmp_rx payload n src_ip dst_ip s
  | h_udp_rx => udp_rx udp_dispatch payload n src_ip dst_ip s
  | h_tcp_rx => tcp_rx payload n src_ip dst_ip s
  end.

Definition eth_dispatch (h : eth_handler) (payload : list Z) (n : Z) (src_mac : list Z) s : nst H D :=
  match h with
  | h_arp_rx => arp_rx payload n src_mac s
  | h_ipv4_rx => ipv4_rx ip_dispatch payload n src_mac s
  end.

Definition net_poll (fuel : nat) s : option (nst H D) :=
  match ethernet_poll eth_dispatch fuel s with
  | None => None
  | Some s => let '(_, s) := dhcp_tick s in Some (tcp_tick s)
  end.

(** The module initialisers in the order of the module table. *)
Definition net_init s : nst H D :=
  let s := snd (ethernet_init_impl s) in
  let s := snd (arp_init_impl s) in
  let s := snd (ipv4_init_impl s) in
  let s := snd (icmp_init_impl s) in
  let s := snd (udp_init_impl s) in
  let s := snd (tcp_init_impl s) in
  let s := snd (socket_init_impl s) in
  snd (dhcp_init_impl s).
End socket.
