(* ===== verification/TcpWire.v ===== *)
(** * TCP on the wire

    The three-way handshake through all the layers of src/net: what [tcp_connect] and
    [tcp_rx] hand to the driver is read from the card's transmit ring and given, as a
    received frame, to [ethernet_rx] of the other host, which passes it through
    [ipv4_rx] to [tcp_rx].

    The heap and the card are parameters of the network stack (NetState.v); the theorem
    assumes that the heap has memory for a frame and that the card completes a
    transmission while the driver polls for it. *)

From S2P Require Import Prelude Mem Io Ring Packet NetState E1000 Ether Ipv4 Tcp TcpSpec TcpStream TcpProto Socket.

Section wire.
Context {H D : Type} `{!Kheap H} `{!NicHw D}.
Implicit Types s : nst H D.

(** The frame the driver has queued last: the descriptor before the tail. *)
Definition last_frame s : list Z :=
  let e := nic s in
  let i := Z.to_nat ((e_tx_tail e - 1) mod E1000_NUM_TX_DESC) in
  sub (nth i (tx_bufs e) []) 0 (txd_length (nth i (tx_descs e) txd_zero)).
(** A frame arrives, in the heap block [p], as [e1000_poll] hands it to its callback. *)
Definition receive (p : Z) (frame : list Z) s : nst H D := ethernet_rx eth_dispatch p frame (len frame) s.

(** The driver is initialised, the datagram counter is a [u16]. *)
Record up s : Prop := {
  up_ready : e1000_ready (nic s) = true;
  up_bufs : length (tx_bufs (nic s)) = 32%nat;
  up_descs : length (tx_descs (nic s)) = 32%nat;
  up_id : 0 <= pkt_id s < 2 ^ 16
}.

Hypothesis heap_has : forall n (h : H), 0 < n <= E1000_MAX_FRAME -> fst (kh_alloc n h) <> 0.
Hypothesis card_ring : forall (d : D) rd rb td, length (snd (nic_dma d rd rb td)) = length td.
Hypothesis card_sends : forall s i, up s -> 0 <= i < E1000_NUM_TX_DESC -> fst (tx_wait (Z.to_nat E1000_POLLS) i s) = true.

(** ** What is sent *)

Lemma up_tx_wait n i : forall s, up s -> up (snd (tx_wait n i s)) /\ e_tx_tail (nic (snd (tx_wait n i s))) = e_tx_tail (nic s).
Proof.
  induction n as [|n IH]; intros s Hu; [done|]. cbn [tx_wait].
  assert (up (dma_sync s) /\ e_tx_tail (nic (dma_sync s)) = e_tx_tail (nic s)) as [Hd Ht].
  { unfold dma_sync. pose proof (card_ring (hw s) (rx_descs (nic s)) (rx_bufs (nic s)) (tx_descs (nic s))) as Hl.
    destruct (nic_dma _ _ _ _) as [[[d rd] rb] td]. cbn [snd] in Hl. destruct Hu as [H1 H2 H3 H4]. split; [|done].
    split; [exact H1|exact H2|cbn; lia|exact H4]. }
  destruct (has _ _); [done|]. rewrite <- Ht. by apply IH.
Qed.

Lemma e1000_emits buf s : up s -> len buf <= E1000_MAX_FRAME ->
  let s' := snd (e1000_send buf (len buf) s) in up s' /\ last_frame s' = buf.
Proof.
  intros Hu Hn. unfold e1000_send. rewrite (up_ready _ Hu), (proj2 (Z.ltb_ge _ _)) by lia. cbn [negb].
  set (i := e_tx_tail (nic s) mod E1000_NUM_TX_DESC). assert (0 <= i < E1000_NUM_TX_DESC) as Hi by (apply Z.mod_pos_bound; done).
  pose proof (card_sends s i Hu Hi) as Hf. destruct (up_tx_wait (Z.to_nat E1000_POLLS) i s Hu) as [Hu1 _].
  destruct (tx_wait _ _ s) as [free s1]. cbn [fst snd] in Hf, Hu1. subst free. cbn [negb snd]. destruct Hu1 as [H1 H2 H3 H4].
  unfold E1000_NUM_TX_DESC in Hi. split.
  - split; [exact H1|cbn; by rewrite length_insert|cbn; by rewrite length_insert|exact H4].
  - unfold last_frame, e1000_write. cbn [nic with_hw with_nic es_e_tx_tail es_tx_descs es_tx_bufs e_tx_tail tx_bufs tx_descs].
    replace (((i + 1) mod E1000_NUM_TX_DESC - 1) mod E1000_NUM_TX_DESC) with i by (unfold E1000_NUM_TX_DESC; zlia).
    rewrite !nth_lookup, !list_lookup_insert_eq by lia. cbn [default from_option id txd_length].
    unfold wr, sub, len. rewrite !Nat2Z.id. change (Z.to_nat 0) with 0%nat. rewrite !drop_0, (take_ge buf) by lia.
    exact (take_app_length buf _).
Qed.

Lemma kmalloc_has n s : 0 < n <= E1000_MAX_FRAME -> exists p h, kmalloc n s = (p, with_heap s h) /\ p <> 0.
Proof.
  intros Hn. unfold kmalloc. pose proof (heap_has n (heap s) Hn) as Hp. destruct (kh_alloc n (heap s)) as [p h]. by exists p, h.
Qed.
Lemma up_heap s h : up s -> up (with_heap s h).
Proof. by intros []. Qed.

Lemma len_frame dst src type payload : length dst = 6%nat -> length src = 6%nat -> len (eth_frame dst src type payload (len payload)) = 14 + len payload.
Proof.
  intros Hd Hs. unfold eth_frame, len, sub. rewrite !length_app, Hd, Hs, length_take, Nat2Z.id. change (Z.to_nat 0) with 0%nat.
  rewrite drop_0. change (length (le16 _)) with 2%nat. lia.
Qed.

Lemma ethernet_emits dst type payload s : up s -> length dst = 6%nat -> length (our_mac s) = 6%nat -> len payload <= ETH_MAX_PAYLOAD ->
  let s' := snd (ethernet_send dst type payload (len payload) s) in
  up s' /\ last_frame s' = eth_frame dst (our_mac s) type payload (len payload).
Proof.
  intros Hu Hd Hm Hn. assert (0 <= len payload) by (unfold len; lia). unfold ETH_MAX_PAYLOAD in *. unfold ethernet_send.
  change ETH_MAX_PAYLOAD with 1500. rewrite (proj2 (Z.ltb_ge _ _)) by lia. change ETH_HEADER_LEN with 14. rewrite u16_small by lia.
  destruct (kmalloc_has (14 + len payload) s) as (p & h & -> & Hp); [unfold E1000_MAX_FRAME; lia|]. rewrite (proj2 (Z.eqb_neq p 0)) by done.
  cbn [our_mac with_heap]. rewrite <- (len_frame dst (our_mac s) type payload) by done.
  pose proof (e1000_emits (eth_frame dst (our_mac s) type payload (len payload)) (with_heap s h) (up_heap s h Hu)) as He.
  rewrite len_frame in He at 1 by done. specialize (He ltac:(unfold E1000_MAX_FRAME; lia)).
  destruct (e1000_send _ _ _) as [r s1]. cbn [snd] in *. destruct He as [Hu1 Hl]. split; [by apply up_heap|exact Hl].
Qed.

(** The next hop's MAC, as [ipv4_send] finds it. *)
Definition route (dst : Z) s : option (list Z) :=
  let hop := next_hop dst s in if (hop =? 0xFFFFFFFF) || (dst =? 0xFFFFFFFF) then Some broadcast_mac else arp_lookup hop s.

(** A host that speaks TCP with [peer]: driver up, handlers registered, addresses known. *)
Record host (ip peer : Z) s : Prop := {
  ho_up : up s;
  ho_eth : List.find (fun e => fst e =? ETHERTYPE_IPV4) (eth_h s) = Some (ETHERTYPE_IPV4, h_ipv4_rx);
  ho_tcp : List.find (fun e => fst e =? IPPROTO_TCP) (ip_h s) = Some (IPPROTO_TCP, h_tcp_rx);
  ho_ip : our_ip s = ip;
  ho_range : 0 <= ip < 2 ^ 32;
  ho_mac : length (our_mac s) = 6%nat;
  ho_route : exists mac, route peer s = Some mac /\ length mac = 6%nat
}.
Lemma host_sent ip peer s s' : host ip peer s -> sent s s' -> up s' -> host ip peer s'.
Proof. intros [? ? ? ? ? ? ?] (h & d & n & p & ->) Hu. by split. Qed.
Lemma host_conns ip peer s c : host ip peer s -> host ip peer (with_conns s c).
Proof. by intros [[] ? ? ? ? ? ?]. Qed.
Lemma host_heap ip peer s h : host ip peer s -> host ip peer (with_heap s h).
Proof. by intros [[] ? ? ? ? ? ?]. Qed.
Lemma host_isn ip peer s v : host ip peer s -> host ip peer (with_isn_counter s v).
Proof. by intros [[] ? ? ? ? ? ?]. Qed.

Lemma host_retx_free ip peer i s : host ip peer s -> host ip peer (retx_free i s).
Proof. intros Hh. unfold retx_free. destruct (negb _); [|done]. by apply host_conns, host_heap. Qed.
Lemma host_retx_arm ip peer i sg n s : host ip peer s -> host ip peer (retx_arm i sg n s).
Proof.
  intros Hh. apply (host_retx_free _ _ i) in Hh. unfold retx_arm. revert Hh. generalize (retx_free i s). clear s. intros s Hh.
  unfold kmalloc. destruct (kh_alloc n (heap s)) as [p h]. apply (host_heap _ _ _ h) in Hh.
  destruct (p =? 0); by repeat apply host_conns.
Qed.
Lemma host_retx_clear ip peer i s : host ip peer s -> host ip peer (retx_clear i s).
Proof. intros Hh. by apply host_conns, host_retx_free. Qed.

(** The last frame of [s] is a TCP segment [sg] from [src] to [dst]. *)
Definition carries_seg s (src dst : Z) (sg : list Z) : Prop :=
  exists id mac mac', 0 <= id < 2 ^ 16 /\ length mac = 6%nat /\ length mac' = 6%nat /\
    last_frame s = eth_frame mac mac' ETHERTYPE_IPV4 (ip_datagram id IPPROTO_TCP src dst sg (len sg))
      (len (ip_datagram id IPPROTO_TCP src dst sg (len sg))).

Lemma ipv4_emits ip peer sg s : host ip peer s -> len sg <= 1480 ->
  let s' := snd (ipv4_send peer IPPROTO_TCP sg (len sg) s) in host ip peer s' /\ carries_seg s' ip peer sg.
Proof.
  intros Hh Hn. assert (0 <= len sg) by (unfold len; lia). destruct (ho_route _ _ _ Hh) as (mac & Hr & Hm).
  pose proof (sent_ipv4_send peer IPPROTO_TCP sg (len sg) s) as Hs.
  unfold ipv4_send in *. change (u16 (1500 - IP_HDR_LEN)) with 1480 in *. rewrite (proj2 (Z.ltb_ge _ _)) in * by lia.
  cbv zeta in *. unfold route in Hr. cbv zeta in Hr. rewrite Hr in *. cbn [our_ip with_pkt_id] in *. rewrite (ho_ip _ _ _ Hh) in *.
  set (s1 := with_pkt_id s (u16 (pkt_id s + 1))) in *. set (dg := ip_datagram _ _ _ _ _ _) in *.
  assert (len dg = 20 + len sg) as Hl.
  { unfold dg, ip_datagram, len, sub. rewrite length_app, length_take, Nat2Z.id. change (length (ip_hdr _ _ _ _ _ _)) with 20%nat.
    change (Z.to_nat 0) with 0%nat. rewrite drop_0. lia. }
  change IP_HDR_LEN with 20 in *. rewrite (u16_small (20 + len sg)) in * by lia. rewrite <- Hl in *.
  assert (up s1) as Hu1 by (destruct (ho_up _ _ _ Hh); split; [done..|apply u16_range]).
  destruct (ethernet_emits mac ETHERTYPE_IPV4 dg s1 Hu1 Hm (ho_mac _ _ _ Hh) ltac:(unfold ETH_MAX_PAYLOAD; lia)) as [Hu2 Hf].
  split; [by apply (host_sent ip peer s)|]. exists (pkt_id s), mac, (our_mac s).
  split; [apply (ho_up _ _ _ Hh)|]. split; [done|]. split; [apply Hh|]. exact Hf.
Qed.

(** A header with the checksum [tcp_send_raw] puts in. *)
Lemma hdr_checksum a b q k f w c : wr (tcp_hdr a b q k f w 0) 16 (le16 c) = tcp_hdr a b q k f w c.
Proof. reflexivity. Qed.
Lemma len_hdr a b q k f w c : len (tcp_hdr a b q k f w c) = TCP_HDR_LEN.
Proof. reflexivity. Qed.

Lemma raw_emits ip peer i a b q k f w s : host ip peer s -> remote_ip (get_conn s i) = peer ->
  let s' := snd (tcp_send_raw i (tcp_hdr a b q k f w 0) TCP_HDR_LEN s) in
  host ip peer s' /\ exists c, carries_seg s' ip peer (tcp_hdr a b q k f w c).
Proof.
  intros Hh Hr. unfold tcp_send_raw. rewrite Hr, !hdr_checksum. set (c := tcp_checksum _ _ _ _).
  pose proof (ipv4_emits ip peer (tcp_hdr a b q k f w c) s Hh ltac:(rewrite len_hdr; unfold TCP_HDR_LEN; lia)) as He.
  rewrite len_hdr in He. destruct (ipv4_send _ _ _ _ s) as [r s1]. cbn [snd] in *. destruct He as [Hh1 He]. split; [done|by exists c].
Qed.

(** A connection is opened and its first segment sent. *)
Lemma open_emits ip peer i c a b q k f w s : host ip peer s -> remote_ip c = peer -> 0 <= i < Z.of_nat (length (conns s)) ->
  let sg := tcp_hdr a b q k f w 0 in
  let s' := (let '(_, _, s2) := tcp_send_raw i sg TCP_HDR_LEN (retx_arm i sg TCP_HDR_LEN (set_conn s i c)) in s2) in
  host ip peer s' /\ exists cs, carries_seg s' ip peer (tcp_hdr a b q k f w cs).
Proof.
  intros Hh Hr Hi sg. assert (host ip peer (retx_arm i sg TCP_HDR_LEN (set_conn s i c))) as Hh1 by (by apply host_retx_arm, host_conns).
  pose proof (raw_emits ip peer i a b q k f w _ Hh1) as He. fold sg in He.
  assert (remote_ip (get_conn (retx_arm i sg TCP_HDR_LEN (set_conn s i c)) i) = peer) as Hp.
  { pose proof (view_get core _ _ i (view_retx_arm core i sg TCP_HDR_LEN (set_conn s i c))) as E.
    apply (f_equal remote_ip) in E. rewrite get_set_conn in E by done. cbn [remote_ip core] in E. by rewrite E. }
  specialize (He Hp). destruct (tcp_send_raw _ _ _ _) as [[r sg'] s2]. exact He.
Qed.

(** ** What arrives *)

Lemma receive_seg s r src ip peer p sg pad : carries_seg s src ip sg -> host ip peer r -> 0 <= src < 2 ^ 32 -> len sg = TCP_HDR_LEN -> len pad <= 1460 ->
  receive p (last_frame s ++ pad) r = kfree p (tcp_rx (sg ++ pad) TCP_HDR_LEN src ip r).
Proof.
  intros (id & mac & mac' & Hid & Hm & Hm' & ->) Hh Hs Hl Hp. unfold receive. unfold TCP_HDR_LEN in Hl.
  pose proof (ho_range _ _ _ Hh) as Hir.
  destruct (ipv4_rx_datagram ip_dispatch id IPPROTO_TCP src ip sg pad mac' r Hid Hs Hir ltac:(lia)) as [Hd Hrx].
  { right. left. by rewrite (ho_ip _ _ _ Hh). }
  set (dg := ip_datagram _ _ _ _ _ _) in *.
  destruct (eth_roundtrip eth_dispatch mac mac' ETHERTYPE_IPV4 dg pad p r Hm Hm' ltac:(unfold ETHERTYPE_IPV4; lia)
    ltac:(unfold ETH_MAX_PAYLOAD; lia)) as [_ ->].
  rewrite (ho_eth _ _ _ Hh). cbn [eth_dispatch]. rewrite Hrx, (ho_tcp _ _ _ Hh), Hl. done.
Qed.

(** ** The handshake *)

Lemma isn_range s : 0 <= fst (next_isn s) < 2 ^ 32.
Proof. apply u32_range. Qed.
Lemma alloc_range s : length (conns s) = 8%nat -> 0 <= conn_alloc s -> 0 <= conn_alloc s < 8.
Proof. intros Hl Ha. destruct (conn_alloc_spec s Hl) as [E|[E _]]; lia. Qed.
Lemma opened_fields i c s s' : length (conns s) = 8%nat -> 0 <= i < 8 -> opened i c s s' ->
  core (get_conn s' i) = core c /\ length (conns s') = 8%nat.
Proof. intros Hl Hi Ho. destruct (get_core s s' i _ Ho ltac:(lia)) as [E Hl']. split; [done|]. lia. Qed.

Section ends.
Context (sA sB : nst H D) (ipA ipB pA pB : Z) (d cl : tcp_cb) (p1 p2 p3 : Z) (pad1 pad2 pad3 : list Z).
Context (HhA : host ipA ipB sA) (HhB : host ipB ipA sB).
Context (HlA : length (conns sA) = 8%nat) (HlB : length (conns sB) = 8%nat).
Context (HpA : 0 <= pA < 2 ^ 16) (HpB : 0 <= pB < 2 ^ 16).
Context (HaA : 0 <= conn_alloc sA) (HnA : first_idx (conn_match pA pB ipB) (conns sA) = None).
Context (HaB : 0 <= conn_alloc sB) (HnB : first_idx (conn_match pB pA ipA) (conns sB) = None).
Context (HL : existsb (listens pB) (conns sB) = true).
Context (Hpad : len pad1 <= 1460 /\ len pad2 <= 1460 /\ len pad3 <= 1460).

Let isnA := fst (next_isn sA).
Let isnB := fst (next_isn sB).
Let idA := conn_alloc sA.
Let idB := conn_alloc sB.
Let sA1 := snd (tcp_connect ipB pB pA d cl sA).
Let sB1 := receive p1 (last_frame sA1 ++ pad1) sB.
Let sA2 := receive p2 (last_frame sB1 ++ pad2) sA1.
Let sB2 := receive p3 (last_frame sA2 ++ pad3) sB1.

Let HidA : 0 <= idA < 8 := alloc_range sA HlA HaA.
Let HidB : 0 <= idB < 8 := alloc_range sB HlB HaB.

(** A connects: its SYN is in the ring. *)
Definition connA : tcp_conn := mk_conn TCP_SYN_SENT ipA pA ipB pB isnA (u32 (isnA + 1)) 0 0 0 [] 0 0 0 [] 0 0 d cl.
Lemma step_syn : opened idA connA sA sA1 /\ host ipA ipB sA1 /\ exists cs, carries_seg sA1 ipA ipB (hs_syn pA pB isnA cs).
Proof.
  destruct (connect_core ipB pB pA d cl sA idA eq_refl HidA) as [Ho _]. rewrite (ho_ip _ _ _ HhA) in Ho. fold isnA sA1 in Ho.
  split; [exact Ho|]. clear Ho. unfold sA1, tcp_connect. fold idA. rewrite (proj2 (Z.ltb_ge idA 0)) by lia. cbn [next_isn].
  match goal with |- context [retx_arm idA _ _ (set_conn ?s1 _ ?c)] =>
    pose proof (open_emits ipA ipB idA c pA pB isnA 0 TCP_SYN TCP_WINDOW s1 (host_isn _ _ _ _ HhA) eq_refl
      ltac:(cbn [conns with_isn_counter]; lia)) as He end.
  cbv zeta in He. cbn [snd_una]. fold isnA. change (u32 (isn_counter sA * 1664525 + 1013904223)) with isnA.
  change (u32 (isn_counter sA * 1664525 + 1013904223)) with isnA in He.
  destruct (tcp_send_raw idA _ _ _) as [[r sg] s2]. exact He.
Qed.

(** B receives it: a connection is opened, and the SYN-ACK is in the ring. *)
Lemma step_synack : exists dB clB,
  opened idB (mk_conn TCP_SYN_RCVD ipB pB ipA pA isnB (u32 (isnB + 1)) TCP_WINDOW (u32 (isnA + 1)) 0 [] 0 0 0 [] 0 0 dB clB) sB sB1 /\
  host ipB ipA sB1 /\ exists cs, carries_seg sB1 ipB ipA (hs_synack pA pB isnA isnB cs).
Proof.
  destruct step_syn as (_ & _ & cs1 & Hc). unfold sB1.
  rewrite (receive_seg sA1 sB ipA ipB ipA p1 _ pad1 Hc HhB (ho_range _ _ _ HhA) eq_refl (proj1 Hpad)).
  destruct (tcp_lookup_listener _ _ _ _ HnB HL) as (l & t & Hlk & _).
  pose proof (decode20 pA pB isnA 0 TCP_SYN cs1 pad1 HpA HpB (isn_range _) ltac:(lia)) as Hd1.
  pose proof (rx_syn_core _ _ _ ipA ipB sB idB (Z.of_nat l) Hd1 eq_refl eq_refl HidB) as Ho.
  rewrite take_ge in Ho by lia. specialize (Ho Hlk). fold isnB in Ho. cbn [g_dst_port g_src_port g_wnd g_seq] in Ho.
  eexists _, _. split; [exact Ho|]. clear Ho. unfold hs_syn, tcp_rx. rewrite Hd1. cbn [g_dst_port g_src_port]. rewrite take_ge, Hlk by lia. unfold no_conn. cbn [g_flags].
  change (has TCP_SYN TCP_SYN && negb (has TCP_SYN TCP_ACK)) with true. cbv iota beta zeta.
  unfold passive_open. fold idB. rewrite (proj2 (Z.ltb_ge idB 0)) by lia. cbn [next_isn g_dst_port g_src_port g_seq g_wnd].
  match goal with |- context [retx_arm idB _ _ (set_conn ?s1 _ ?c)] =>
    pose proof (open_emits ipB ipA idB c pB pA isnB (u32 (isnA + 1)) (TCP_SYN |b TCP_ACK) TCP_WINDOW s1 (host_isn _ _ _ _ HhB) eq_refl
      ltac:(cbn [conns with_isn_counter]; lia)) as He end.
  cbv zeta in He. cbn [snd_una local_port remote_port rcv_nxt]. change (u32 (isn_counter sB * 1664525 + 1013904223)) with isnB.
  change (u32 (isn_counter sB * 1664525 + 1013904223)) with isnB in He.
  destruct (tcp_send_raw idB _ _ _) as [[r sg] s2]. destruct He as [Hh He]. split; [by apply host_heap|exact He].
Qed.

(** A receives the SYN-ACK: its side is established, and the ACK is in the ring. *)
Lemma step_ack : synced (get_conn sA2 idA) pA pB ipB (u32 (isnA + 1)) (u32 (isnB + 1)) /\
  exists cs, carries_seg sA2 ipA ipB (hs_ack pA pB isnA isnB cs).
Proof.
  destruct step_syn as (Ho & Hh1 & _). destruct step_synack as (_ & _ & _ & _ & cs2 & Hc). unfold sA2.
  rewrite (receive_seg sB1 sA1 ipB ipA ipB p2 _ pad2 Hc Hh1 (ho_range _ _ _ HhB) eq_refl (proj1 (proj2 Hpad))).
  pose proof (decode20 pB pA isnB (u32 (isnA + 1)) (TCP_SYN |b TCP_ACK) cs2 pad2 HpB HpA (isn_range _) (u32_range _)) as Hd.
  unfold hs_synack. erewrite rx_opened; [|exact HlA|exact HidA|exact Ho|exact Hd|exact HnA|].
  2: { unfold conn_match. cbn. by rewrite !Z.eqb_refl. }
  destruct (opened_fields _ _ _ _ HlA HidA Ho) as [E Hl1].
  set (g := mk_seg _ _ _ _ _ _ _ _). change (get_conn (kfree p2 ?x) idA) with (get_conn x idA).
  unfold core in E. cbn in E. injection E as E1 E2 E3 E4 E5 E6 E7 E8 E9 E10 E11.
  destruct (rx_synack_core g idA ipB ipA sA1 ltac:(lia) E1 eq_refl) as [Ec Er]; [by rewrite E7|]. split.
  { eapply synced_core; [exact Ec|exact Er|cbn; done..]. }
  assert (exists s2, rx_conn idA g ipB ipA sA1 = send_ctrl idA TCP_ACK (snd_nxt (get_conn s2 idA)) (rcv_nxt (get_conn s2 idA)) s2 /\
    host ipA ipB s2) as (s2 & Es & Hh2).
  { unfold rx_conn. rewrite E1. cbn [g_flags g]. change (has (TCP_SYN |b TCP_ACK) TCP_RST) with false. cbv iota.
    unfold rx_syn_sent. cbn [g_flags g g_ack]. change (has (TCP_SYN |b TCP_ACK) TCP_ACK) with true.
    change (has (TCP_SYN |b TCP_ACK) TCP_SYN) with true. rewrite E7, Z.eqb_refl. cbn [negb]. cbv zeta. eexists. split; [reflexivity|].
    by apply host_conns, host_retx_clear, host_conns. }
  rewrite Es in Ec |- *. rewrite get_send_ctrl in Ec. unfold core in Ec. cbn in Ec. injection Ec as F1 F2 F3 F4 F5 F6 F7 F8 F9 F10 F11.
  unfold send_ctrl. rewrite F3, F5, F7, F9, E3, E5, E7.
  pose proof (raw_emits ipA ipB idA pA pB (u32 (isnA + 1)) (u32 (isnB + 1)) TCP_ACK TCP_WINDOW s2 Hh2 ltac:(by rewrite F4, E4)) as He.
  destruct (tcp_send_raw idA _ _ _) as [[r sg] s3]. exact (proj2 He).
Qed.

(** B receives the ACK. *)
Lemma step_done : synced (get_conn sB2 idB) pB pA ipA (u32 (isnB + 1)) (u32 (isnA + 1)).
Proof.
  destruct step_synack as (dB & clB & Ho & Hh1 & _). destruct step_ack as (_ & cs3 & Hc). unfold sB2.
  rewrite (receive_seg sA2 sB1 ipA ipB ipA p3 _ pad3 Hc Hh1 (ho_range _ _ _ HhA) eq_refl (proj2 (proj2 Hpad))).
  pose proof (decode20 pA pB (u32 (isnA + 1)) (u32 (isnB + 1)) TCP_ACK cs3 pad3 HpA HpB (u32_range _) (u32_range _)) as Hd.
  unfold hs_ack. erewrite rx_opened; [|exact HlB|exact HidB|exact Ho|exact Hd|exact HnB|].
  2: { unfold conn_match. cbn. by rewrite !Z.eqb_refl. }
  destruct (opened_fields _ _ _ _ HlB HidB Ho) as [E Hl1]. set (g := mk_seg _ _ _ _ _ _ _ _).
  change (get_conn (kfree p3 ?x) idB) with (get_conn x idB).
  unfold core in E. cbn in E. injection E as E1 E2 E3 E4 E5 E6 E7 E8 E9 E10 E11.
  destruct (rx_ack_core g idB ipA ipB sB1 ltac:(lia) E1 eq_refl eq_refl) as [Ec Er]; [by rewrite E7|].
  eapply synced_core; [exact Ec|exact Er|cbn; done..].
Qed.
End ends.

End wire.

(** ** Two hosts: 10.0.2.15 connects to port 80 of 10.0.2.2 *)

Definition demo_peer : nst Z Z :=
  with_arp_table (with_our_ip demo_net 0x0A000202) (mk_arp 0x0A00020F [2; 0; 0; 0; 0; 1] :: replicate 15 (mk_arp 0 (zeros 6))).
Definition demo_server : nst Z Z := snd (tcp_listen 80 cb_tcp_sock_data cb_tcp_sock_close demo_peer).

Lemma demo_heap_has n (h : Z) : 0 < n <= E1000_MAX_FRAME -> fst (kh_alloc n h) <> 0.
Proof. intros _. cbn [kh_alloc demo_kheap fst]. lia. Qed.
Lemma demo_card_ring (d : Z) rd rb td : length (snd (nic_dma d rd rb td)) = length td.
Proof. apply length_map. Qed.
Lemma demo_card_sends (s : nst Z Z) i : up s -> 0 <= i < E1000_NUM_TX_DESC -> fst (tx_wait (Z.to_nat E1000_POLLS) i s) = true.
Proof.
  intros Hu Hi. replace (Z.to_nat E1000_POLLS) with (S (Z.to_nat (E1000_POLLS - 1))) by (unfold E1000_POLLS; lia).
  generalize (Z.to_nat (E1000_POLLS - 1)). intros n. cbn [tx_wait].
  destruct (lookup_lt_is_Some_2 (tx_descs (nic s)) (Z.to_nat i)) as [t Ht]; [rewrite (up_descs _ Hu); unfold E1000_NUM_TX_DESC in Hi; lia|].
  unfold dma_sync. cbn [nic_dma demo_nichw nic with_nic es_tx_descs tx_descs]. rewrite nth_lookup, list_lookup_fmap, Ht. done.
Qed.
Lemma demo_host_a : host 0x0A00020F 0x0A000202 demo_net.
Proof. split; try reflexivity; [|lia|by eexists]. split; [reflexivity..|by vm_compute]. Qed.
Lemma demo_host_b : host 0x0A000202 0x0A00020F demo_server.
Proof. split; try reflexivity; [|lia|by eexists]. split; [reflexivity..|by vm_compute]. Qed.

