(* ===== verification/SocketSpec.v ===== *)
(** * Sockets: theorems about src/net/socket/socket.c

    A datagram that fits is read back byte for byte with its sender's address;
    and the connection's close callback makes data that is already received
    unreadable. *)

From S2P Require Import Prelude Mem Io Ring Packet NetState E1000 Ether Ipv4 Udp Tcp TcpSpec TcpStream Socket.

Section sockets.
Context {H D : Type} `{!Kheap H} `{!NicHw D}.
Implicit Types s : nst H D.

Lemma get_set_sock s i k : 0 <= i < Z.of_nat (length (socks s)) -> get_sock (set_sock s i k) i = k.
Proof.
  intros Hi. unfold get_sock, set_sock. cbn [socks with_socks].
  rewrite nth_lookup, list_lookup_insert_eq by lia. done.
Qed.

Lemma fd_to_idx_ok i : 0 <= i < 16 -> fd_to_idx (i32 (SOCK_FD_BASE + i)) = i.
Proof.
  intros Hi. unfold fd_to_idx, SOCK_FD_BASE, SOCK_MAX.
  assert (i32 (64 + i) = 64 + i) as -> by (unfold i32, sint; rewrite Z.mod_small by lia; case_match; lia).
  replace (64 + i - 64) with i by lia.
  destruct (Z.ltb_spec i 0); [lia|]. destruct (Z.leb_spec 16 i); [lia|]. done.
Qed.

(** Used bytes of a UDP socket's ring, as the code computes them. *)
Lemma sock_used r w : 0 <= r < SOCK_RX_SIZE -> 0 <= w < SOCK_RX_SIZE ->
  u16 (u64 (w - r + SOCK_RX_SIZE) mod SOCK_RX_SIZE) = ring_used SOCK_RX_SIZE r w.
Proof.
  intros Hr Hw. unfold ring_used, SOCK_RX_SIZE in *. rewrite u64_small by lia.
  replace (w - r + 2048) with (w - r + 1 * 2048) by lia. rewrite Z_mod_plus_full. apply u16_small. zlia.
Qed.

(** The receive queue of a socket. *)
Definition sock_queue (k : sock) : list Z := ring_list SOCK_RX_SIZE (s_rx_buf k) (s_rx_head k) (s_rx_tail k).
Definition sock_ring_ok (k : sock) : Prop := ring_ok SOCK_RX_SIZE (s_rx_buf k) (s_rx_head k) (s_rx_tail k).

(** A datagram is appended to the queue of its socket as far as it fits. *)
Lemma udp_sock_rx_spec data ip sp dp i s : length (socks s) = 16%nat ->
  first_idx (fun k => ty_eqb (s_type k) SOCK_UDP && (bound_port k =? dp)) (socks s) = Some i ->
  sock_ring_ok (get_sock s (Z.of_nat i)) ->
  let k := get_sock s (Z.of_nat i) in
  let s' := udp_sock_rx data (len data) ip sp dp s in
  let k' := get_sock s' (Z.of_nat i) in
  sock_ring_ok k' /\ sock_queue k' = sock_queue k ++ sub data 0 (Z.min (len data) (2047 - len (sock_queue k))) /\
  peer_ip k' = ip /\ peer_port k' = sp /\ s_type k' = SOCK_UDP /\ umem s' = umem s /\ length (socks s') = 16%nat.
Proof.
  intros Hl Hf Hok. cbv zeta. unfold udp_sock_rx. rewrite take_ge by lia. rewrite Hf.
  pose proof (first_idx_lt _ _ _ Hf) as Hi. apply first_idx_Some in Hf as [(k0 & Hk0 & Hp) _].
  assert (get_sock s (Z.of_nat i) = k0) as E by (unfold get_sock; by rewrite Nat2Z.id, nth_lookup, Hk0).
  rewrite E in *. clear E. apply andb_prop in Hp as [Hty%bool_decide_eq_true _].
  cbn [ss_peer_port ss_peer_ip s_rx_tail s_rx_head s_rx_buf]. destruct Hok as [Hn Hlen Hr Hw].
  pose proof (ring_list_length SOCK_RX_SIZE (s_rx_buf k0) (s_rx_head k0) (s_rx_tail k0) Hn) as Hq.
  pose proof (ring_used_range SOCK_RX_SIZE (s_rx_head k0) (s_rx_tail k0) Hn) as Hu.
  rewrite sock_used by done. set (n := if _ <? len data then _ else _).
  assert (n = Z.min (len data) (2047 - len (sock_queue k0))) as En.
  { subst n. change (len (sock_queue k0)) with
      (Z.of_nat (length (ring_list SOCK_RX_SIZE (s_rx_buf k0) (s_rx_head k0) (s_rx_tail k0)))). rewrite Hq. unfold SOCK_RX_SIZE in *. rewrite u16_small by lia.
    destruct (Z.ltb_spec (2048 - 1 - ring_used 2048 (s_rx_head k0) (s_rx_tail k0)) (len data)); lia. }
  rewrite <- En. clearbody n.
  pose proof (ring_write_spec SOCK_RX_SIZE (s_rx_buf k0) (s_rx_head k0) (s_rx_tail k0) (sub data 0 n)
                (Build_ring_ok _ _ _ _ Hn Hlen Hr Hw)) as Hwr.
  assert (ring_used SOCK_RX_SIZE (s_rx_head k0) (s_rx_tail k0) + Z.of_nat (length (sub data 0 n)) <= SOCK_RX_SIZE - 1) as Hfit.
  { unfold sub. rewrite length_take. unfold len, sock_queue in En. rewrite Hq in En. unfold SOCK_RX_SIZE in *. lia. }
  specialize (Hwr Hfit). destruct (ring_write _ _ _ _) as [buf t]. destruct Hwr as [Hok' Hq'].
  rewrite get_set_sock by lia. split; [exact Hok'|]. split; [exact Hq'|].
  split; [done|]. split; [done|]. split; [exact Hty|]. split; [done|].
  unfold set_sock. cbn [socks with_socks]. by rewrite length_insert.
Qed.

(** Datagram delivery: a datagram of at most 2047 bytes that reaches the socket
    bound to its port while the socket's queue is empty is returned by
    recvfrom with a buffer large enough: exactly its bytes are stored at the
    buffer, its length is the result, the sender's address and port are
    stored, and a second recvfrom reports EAGAIN. *)
Theorem udp_socket_delivery data ip sp dp i buf n addr s :
  length (socks s) = 16%nat ->
  first_idx (fun k => ty_eqb (s_type k) SOCK_UDP && (bound_port k =? dp)) (socks s) = Some i ->
  sock_ring_ok (get_sock s (Z.of_nat i)) -> sock_queue (get_sock s (Z.of_nat i)) = [] ->
  0 < len data <= 2047 -> len data <= n < 2 ^ 16 -> addr <> 0 ->
  let fd := SOCK_FD_BASE + Z.of_nat i in
  let '(ret, s') := sys_recvfrom fd buf n addr (udp_sock_rx data (len data) ip sp dp s) in
  ret = len data /\ umem s' = store_sockaddr (put (umem s) buf data) addr sp ip /\
  fst (sys_recvfrom fd buf n addr s') = err EAGAIN.
Proof.
  intros Hl Hf Hok He Hd Hn Ha. cbv zeta. pose proof (first_idx_lt _ _ _ Hf) as Hi.
  pose proof (udp_sock_rx_spec data ip sp dp i s Hl Hf Hok) as Hrx. cbv zeta in Hrx.
  destruct Hrx as (Hok1 & Hq1 & Hip & Hsp & Hty & Hum & Hl1). rewrite He in Hq1.
  change (len []) with 0 in Hq1. rewrite Z.min_l in Hq1 by lia.
  assert (sub data 0 (len data) = data) as Es by (unfold sub, len; rewrite drop_0, Nat2Z.id; apply take_ge; lia).
  rewrite Es in Hq1. cbn [app] in Hq1.
  revert Hok1 Hq1 Hip Hsp Hty Hum Hl1. generalize (udp_sock_rx data (len data) ip sp dp s). intros s1 Hok1 Hq1 Hip Hsp Hty Hum Hl1.
  unfold sys_recvfrom at 1. rewrite fd_to_idx_ok by lia. destruct (Z.ltb_spec (Z.of_nat i) 0); [lia|].
  set (k := get_sock s1 (Z.of_nat i)) in *. rewrite Hty. destruct Hok1 as [Hs Hb Hr Hw].
  rewrite sock_used by done. pose proof (ring_list_length SOCK_RX_SIZE (s_rx_buf k) (s_rx_head k) (s_rx_tail k) Hs) as Hlen.
  fold (sock_queue k) in Hlen. rewrite Hq1 in Hlen. fold (len data) in Hlen. rewrite <- Hlen.
  destruct (Z.eqb_spec (len data) 0); [lia|]. rewrite (u16_small n) by lia.
  assert (u16 (if len data <? n then len data else n) = len data) as ->.
  { destruct (Z.ltb_spec (len data) n); rewrite u16_small by lia; lia. }
  pose proof (ring_read_spec (Z.to_nat (len data)) _ _ _ _ (Build_ring_ok _ _ _ _ Hs Hb Hr Hw) ltac:(lia)) as Hrd.
  destruct (ring_read _ _ _ _) as [out h]. destruct Hrd as (Hok2 & Ho & Hsplit).
  fold (sock_queue k) in Hsplit. rewrite Hq1 in Hsplit.
  assert (out = data /\ ring_list SOCK_RX_SIZE (s_rx_buf k) h (s_rx_tail k) = []) as [-> Hnil].
  { assert (length out = length data) as El by (unfold len in Ho; lia).
    apply app_inj_1; [done|]. by rewrite app_nil_r. }
  rewrite (proj2 (Z.eqb_neq addr 0) Ha). cbn [negb]. split; [done|]. split.
  { cbn. by rewrite Hum, Hip, Hsp. }
  unfold sys_recvfrom. rewrite fd_to_idx_ok by lia. destruct (Z.ltb_spec (Z.of_nat i) 0); [lia|].
  set (s2 := with_umem _ _). assert (get_sock s2 (Z.of_nat i) = ss_s_rx_head k h) as E2.
  { subst s2. change (get_sock (set_sock s1 (Z.of_nat i) (ss_s_rx_head k h)) (Z.of_nat i) = ss_s_rx_head k h).
    apply get_set_sock. lia. }
  rewrite E2. cbn [s_type ss_s_rx_head s_rx_tail s_rx_head]. rewrite Hty. destruct Hok2 as [_ _ Hr2 Hw2].
  rewrite sock_used by done. pose proof (ring_list_length SOCK_RX_SIZE (s_rx_buf k) h (s_rx_tail k) Hs) as Hz.
  rewrite Hnil in Hz. cbn [length Z.of_nat] in Hz. by rewrite <- Hz.
Qed.

#[local] Instance on_close_retx_inv : RetxInv on_close.
Proof. by split. Qed.

Lemma on_close_rx_ack_window i g s : view on_close (rx_ack_window i g s) = view on_close s.
Proof.
  unfold rx_ack_window. destruct (_ && _); [|done].
  assert (view on_close (set_conn s i (cs_snd_wnd (cs_snd_una (get_conn s i) (g_ack g)) (g_wnd g))) = view on_close s) as E
    by (by apply view_keep).
  destruct (_ && _); [|done]. rewrite (view_retx_clear on_close). exact E.
Qed.
Lemma socks_retx_clear i s : socks (retx_clear i s) = socks s.
Proof. unfold retx_clear, retx_free. by destruct (negb _). Qed.
Lemma socks_rx_ack_window i g s : socks (rx_ack_window i g s) = socks s.
Proof.
  unfold rx_ack_window. destruct (_ && _); [|done]. destruct (_ && _); [|done]. by rewrite socks_retx_clear.
Qed.

(** A FIN makes received data unreadable: when a FIN reaches an established
    connection of a socket, the close callback disconnects the socket from the
    connection; the bytes received before it are still in the connection's
    buffer, but recvfrom on the socket fails with ENOTCONN. *)
Theorem fin_disconnects_socket i g a b j buf n addr s : receiving i s -> length (socks s) = 16%nat ->
  on_close (get_conn s i) = cb_tcp_sock_close ->
  first_idx (fun k => ty_eqb (s_type k) SOCK_TCP && (conn_id k =? i)) (socks s) = Some j ->
  has (g_flags g) TCP_RST = false -> has (g_flags g) TCP_FIN = true -> g_len g = 0 ->
  let s' := rx_conn i g a b s in
  c_state (get_conn s' i) = TCP_CLOSE_WAIT /\ rx_queue (get_conn s' i) = rx_queue (get_conn s i) /\
  sys_recvfrom (SOCK_FD_BASE + Z.of_nat j) buf n addr s' = (err ENOTCONN, s').
Proof.
  intros [Hw Hl Hi Hst] Hls Hcb Hf Hrst Hfin Hg. cbv zeta. unfold rx_conn, rx_established. rewrite Hrst, Hst.
  rewrite (rx_ack_established i g s Hst). set (s1 := if has (g_flags g) TCP_ACK then _ else s).
  assert (view rx_side s1 = view rx_side s /\ view on_close s1 = view on_close s /\ socks s1 = socks s) as (E1 & E2 & E3).
  { subst s1. destruct (has (g_flags g) TCP_ACK); [|done].
    split; [apply side_rx_ack_window|]. split; [apply on_close_rx_ack_window|apply socks_rx_ack_window]. }
  clearbody s1. assert (length (conns s1) = 8%nat) as Hl1.
  { apply (f_equal length) in E1. unfold view in E1. rewrite !length_map in E1. lia. }
  pose proof (view_get rx_side _ _ i E1) as (Eq & _ & Es & _)%rx_side_queue.
  pose proof (view_get on_close _ _ i E2) as Ec. rewrite Hst in Es. rewrite Hcb in Ec.
  unfold rx_data. rewrite Hg. cbn [Z.ltb Z.compare andb]. unfold rx_fin. rewrite Hfin.
  set (s2 := set_conn s1 i _). assert (get_conn s2 i = cs_rcv_nxt (get_conn s1 i) (u32 (rcv_nxt (get_conn s1 i) + 1))) as G2
    by (apply get_set_conn; lia).
  assert (length (conns s2) = 8%nat) as Hl2 by (subst s2; by rewrite length_set_conn).
  assert (socks s2 = socks s) as K2 by exact E3. clearbody s2. rewrite G2. cbn [c_state cs_rcv_nxt]. rewrite Es.
  set (s3 := set_conn s2 i _). assert (get_conn s3 i = cs_c_state (cs_rcv_nxt (get_conn s1 i) (u32 (rcv_nxt (get_conn s1 i) + 1))) TCP_CLOSE_WAIT) as G3
    by (apply get_set_conn; lia).
  assert (socks s3 = socks s) as K3 by exact K2. clearbody s3.
  set (s4 := send_ctrl _ _ _ _ s3). assert (sent s3 s4) as Hs by apply sent_send_ctrl. clearbody s4.
  pose proof (sent_conn _ _ i Hs) as G4. pose proof (sent_socks _ _ Hs) as K4.
  rewrite !get_run_cb, G4, G3. split; [done|]. split; [exact Eq|].
  cbn [on_close cs_c_state cs_rcv_nxt]. rewrite Ec. cbn [run_cb]. unfold tcp_sock_close. rewrite K4, K3, Hf.
  pose proof (first_idx_lt _ _ _ Hf) as Hj. apply first_idx_Some in Hf as [(k & Hk & Hp) _].
  apply andb_prop in Hp as [Hty%bool_decide_eq_true _].
  assert (get_sock s4 (Z.of_nat j) = k) as Gk by (unfold get_sock; by rewrite Nat2Z.id, nth_lookup, K4, K3, Hk).
  unfold sys_recvfrom. rewrite fd_to_idx_ok by lia. destruct (Z.ltb_spec (Z.of_nat j) 0); [lia|].
  rewrite get_set_sock by (rewrite K4, K3; lia). rewrite Gk. cbn [s_type conn_id ss_conn_id]. rewrite Hty. done.
Qed.
End sockets.

(** ** Witnesses *)

Definition demo_udp : nst Z Z := set_sock demo_net 3 (mk_sock SOCK_UDP (-1) 5000 0 0 (zeros 2048) 2047 2047).
Lemma udp_socket_delivery_witness :
  let '(ret, s') := sys_recvfrom (SOCK_FD_BASE + Z.of_nat 3) 0x1000 100 0x2000
                      (udp_sock_rx [7; 8; 9] (len [7; 8; 9]) 0x0A000202 53 5000 demo_udp) in
  ret = len [7; 8; 9] /\ umem s' = store_sockaddr (put (umem demo_udp) 0x1000 [7; 8; 9]) 0x2000 53 0x0A000202 /\
  fst (sys_recvfrom (SOCK_FD_BASE + Z.of_nat 3) 0x1000 100 0x2000 s') = err EAGAIN.
Proof.
  exact (udp_socket_delivery [7; 8; 9] 0x0A000202 53 5000 3 0x1000 100 0x2000 demo_udp eq_refl eq_refl
    (Build_ring_ok 2048 (zeros 2048) 2047 2047 ltac:(lia) ltac:(vm_compute; reflexivity) ltac:(lia) ltac:(lia))
    ltac:(vm_compute; reflexivity) ltac:(vm_compute; split; congruence) ltac:(vm_compute; split; congruence)
    ltac:(discriminate)).
Defined.

(** Two bytes received, then a FIN. *)
Definition demo_buffered : tcp_conn :=
  cs_rcv_nxt (cs_rx_tail (cs_rx_buf demo_est ([1; 2] ++ zeros 4094)) 2) 0.
Definition demo_connected : nst Z Z :=
  set_sock (set_conn demo_net 0 demo_buffered) 5 (mk_sock SOCK_TCP 0 0 0 0 (zeros 2048) 0 0).
Definition demo_fin : seg := mk_seg 80 40000 0 7 4096 (TCP_FIN |b TCP_ACK) [] 0.
Lemma demo_connected_receiving : receiving 0 demo_connected.
Proof.
  split; [|reflexivity|lia|reflexivity]. apply (wf_set demo_net 0 demo_buffered demo_tcp_wf).
  split; [split|..]; vm_compute; intuition discriminate.
Qed.
Lemma fin_disconnects_socket_witness :
  rx_queue (get_conn demo_connected 0) = [1; 2] /\
  rx_queue (get_conn (rx_conn 0 demo_fin 0x0A000202 0x0A00020F demo_connected) 0) = rx_queue (get_conn demo_connected 0) /\
  sys_recvfrom (SOCK_FD_BASE + Z.of_nat 5) 0x1000 16 0 (rx_conn 0 demo_fin 0x0A000202 0x0A00020F demo_connected) =
    (err ENOTCONN, rx_conn 0 demo_fin 0x0A000202 0x0A00020F demo_connected).
Proof.
  split; [vm_compute; reflexivity|].
  exact (proj2 (fin_disconnects_socket 0 demo_fin 0x0A000202 0x0A00020F 5 0x1000 16 0 demo_connected
    demo_connected_receiving ltac:(vm_compute; reflexivity) ltac:(vm_compute; reflexivity)
    ltac:(vm_compute; reflexivity) eq_refl eq_refl eq_refl)).
Defined.
