(* ===== verification/Syscall.v ===== *)
(** * System calls: src/syscall

    [syscall_entry] (syscall_entry.asm) and the SYSCALL and SYSRET instructions around
    it, as functions on the registers and on the kernel stack in memory; the model
    specific registers [syscall_init] programs; the dispatch table of syscall.c and its
    handlers, over the process table and scheduler (Proc.v), the file descriptors
    (Fs.v), the loader and anonymous memory (Elf.v).  Handlers that other modules
    register (sockets) are numbers passed to a parameter.  Interrupts that arrive while a
    handler runs are not part of the model. *)

From Stdlib Require Import String.
From S2P Require Import Prelude Mem Io Irq Pmm Vmm Heap BlockHeap Proc Elf Fs.
Open Scope list_scope.

Definition MSR_EFER : Z := 0xC0000080.
Definition MSR_STAR : Z := 0xC0000081.
Definition MSR_LSTAR : Z := 0xC0000082.
Definition MSR_SFMASK : Z := 0xC0000084.
Definition EFER_SCE : Z := 1 <<b 0.
Definition SFMASK_VALUE : Z := 0x200 |b 0x400.
Definition SYSCALL_MAX : Z := 320.

Definition SYS_READ : Z := 0.
Definition SYS_WRITE : Z := 1.
Definition SYS_OPEN : Z := 2.
Definition SYS_CLOSE : Z := 3.
Definition SYS_MMAP : Z := 9.
Definition SYS_MUNMAP : Z := 11.
Definition SYS_BRK : Z := 12.
Definition SYS_GETPID : Z := 39.
Definition SYS_FORK : Z := 57.
Definition SYS_EXECVE : Z := 59.
Definition SYS_EXIT : Z := 60.
Definition SYS_WAITPID : Z := 61.

Definition ENOENT : Z := 2.
Definition ESRCH : Z := 3.
Definition ENOEXEC : Z := 8.
Definition ENOMEM : Z := 12.
Definition EINVAL : Z := 22.
Definition ENOSYS : Z := 38.

(** ** The instructions and the entry stub *)

(** The registers the path uses. *)
Record regs := mk_regs {
  rax : Z; rcx : Z; rdx : Z; rsi : Z; rdi : Z; r8 : Z; r9 : Z; r10 : Z; r11 : Z;
  rsp : Z; rip : Z; rflags : Z; cs : Z; ss : Z
}.
Definition msrs := Z -> Z.
Definition wrmsr (ms : msrs) (msr val : Z) : msrs :=
  let lo := u32 (val &b 0xFFFFFFFF) in
  let hi := u32 (val >>b 32) in
  fun x => if x =? msr then (hi <<b 32) |b lo else ms x.
Definition rdmsr (ms : msrs) (msr : Z) : Z := ms msr.

(** [syscall]: LSTAR is the target, the old RIP and RFLAGS go to RCX and R11, RFLAGS
    loses the bits of SFMASK, CS and SS come from STAR. *)
Definition syscall_insn (ms : msrs) (g : regs) (next_rip : Z) : regs :=
  let sel := (rdmsr ms MSR_STAR >>b 32) &b 0xFFFF in
  mk_regs (rax g) next_rip (rdx g) (rsi g) (rdi g) (r8 g) (r9 g) (r10 g) (rflags g)
    (rsp g) (rdmsr ms MSR_LSTAR) (rflags g &b not64 (rdmsr ms MSR_SFMASK)) (sel &b 0xFFFC) (sel + 8).
(** The flags [sysret] can set, and the bit that always reads as one. *)
Definition SYSRET_FLAGS : Z := 0x3C7FD7.
Definition RFLAGS_ONE : Z := 2.
(** [o64 sysret]: back to RCX with the flags of R11. *)
Definition sysret_insn (ms : msrs) (g : regs) : regs :=
  let sel := (rdmsr ms MSR_STAR >>b 48) &b 0xFFFF in
  mk_regs (rax g) (rcx g) (rdx g) (rsi g) (rdi g) (r8 g) (r9 g) (r10 g) (r11 g)
    (rsp g) (rcx g) ((r11 g &b SYSRET_FLAGS) |b RFLAGS_ONE) ((sel + 16) |b 3) ((sel + 8) |b 3).

(** The globals of syscall_entry.asm that hold the user context. *)
Record saved_ctx := mk_saved { saved_user_rip : Z; saved_user_rsp : Z; saved_user_rflags : Z }.

Definition set_rsp (g : regs) (v : Z) : regs :=
  mk_regs (rax g) (rcx g) (rdx g) (rsi g) (rdi g) (r8 g) (r9 g) (r10 g) (r11 g) v (rip g) (rflags g) (cs g) (ss g).
Definition push (v : Z) (x : regs * mem) : regs * mem :=
  let '(g, m) := x in let sp := u64 (rsp g - 8) in (set_rsp g sp, store64 m sp v).

(** [syscall_entry] up to [call syscall_dispatch], interrupts on again. *)
Definition entry_prologue (kernel_rsp : Z) (g : regs) (m : mem) : saved_ctx * (regs * mem) :=
  let sv := mk_saved (rcx g) (rsp g) (r11 g) in
  let x := (set_rsp g kernel_rsp, m) in
  let x := push (r11 g) x in
  let x := push (rcx g) x in
  let '(g, m) := push (saved_user_rsp sv) x in
  (sv, (mk_regs (rax g) (rdx g) (rsi g) (rdi g) (rax g) (r10 g) (r8 g) (r10 g) (r11 g)
          (rsp g) (rip g) (rflags g |b 0x200) (cs g) (ss g), m)).
(** From the return of [syscall_dispatch] with its result, the stack pointer as it was at the call. *)
Definition entry_epilogue (g : regs) (m : mem) (result : Z) : regs :=
  let sp := rsp g in
  mk_regs result (load64 m (sp + 8)) (rdx g) (rsi g) (rdi g) (r8 g) (r9 g) (r10 g) (load64 m (sp + 16))
    (load64 m sp) (rip g) (rflags g &b not64 0x200) (cs g) (ss g).

(** ** The dispatch table *)

Inductive handler :=
  | h_read | h_write | h_open | h_close | h_getpid | h_exit | h_fork | h_execve | h_waitpid | h_enosys
  | h_mmap | h_munmap | h_module (i : Z).

(** [dispatch_table[i] = h], inside its 320 entries. *)
Definition table_set (t : list (option handler)) (i : Z) (h : handler) : list (option handler) := <[Z.to_nat i := Some h]> t.

Definition syscall_register (nr : Z) (h : handler) (t : list (option handler)) : list (option handler) :=
  if nr <? SYSCALL_MAX then table_set t nr h else t.

(** [syscall_init]; [entry] is the address of [syscall_entry]. *)
Definition syscall_init (entry : Z) (ms : msrs) (t : list (option handler)) : Z * msrs * list (option handler) :=
  let t := map (fun _ => Some h_enosys) t in
  let t := table_set t SYS_READ h_read in
  let t := table_set t SYS_WRITE h_write in
  let t := table_set t SYS_OPEN h_open in
  let t := table_set t SYS_CLOSE h_close in
  let t := table_set t SYS_GETPID h_getpid in
  let t := table_set t SYS_EXIT h_exit in
  let t := table_set t SYS_FORK h_fork in
  let t := table_set t SYS_EXECVE h_execve in
  let t := table_set t SYS_WAITPID h_waitpid in
  let t := table_set t SYS_MMAP h_enosys in
  let t := table_set t SYS_MUNMAP h_enosys in
  let t := table_set t SYS_BRK h_enosys in
  let efer := rdmsr ms MSR_EFER in
  let ms := wrmsr ms MSR_EFER (efer |b EFER_SCE) in
  let star := (Gdt.STAR_USER_BASE <<b 48) |b (Gdt.STAR_KERNEL_CS <<b 32) in
  let ms := wrmsr ms MSR_STAR star in
  let ms := wrmsr ms MSR_LSTAR entry in
  let ms := wrmsr ms MSR_SFMASK SFMASK_VALUE in
  (0, ms, t).

(** [dynlink_init] of src/dynlink/dynlink.c. *)
Definition dynlink_init (t : list (option handler)) : list (option handler) :=
  syscall_register 11 h_munmap (syscall_register 9 h_mmap t).

(** ** The handlers *)

Record kernel (A T : Type) := mk_kernel {
  k_ps : pst; k_fs : fs_st (hst A) T; k_saved : saved_ctx; k_table : list (option handler)
}.
Arguments mk_kernel {A T}. Arguments k_ps {A T}. Arguments k_fs {A T}. Arguments k_saved {A T}. Arguments k_table {A T}.

(** The frame [iretq] pops. *)
Record user_entry := mk_entry { e_rip : Z; e_cs : Z; e_rflags : Z; e_rsp : Z; e_ss : Z }.

(** A handler returns to its caller, enters user mode itself, or gives up the CPU for good. *)
Inductive outcome (A T : Type) :=
  | Ret (v : Z) (k : kernel A T)
  | Enter (u : user_entry) (k : kernel A T)
  | Gone (k : kernel A T).
Arguments Ret {A T}. Arguments Enter {A T}. Arguments Gone {A T}.

Definition EXEC_USTACK_TOP : Z := 0x7FFFF000.
Definition EXEC_USTACK_PAGES : Z := 4.
Definition EXEC_USER_RFLAGS : Z := 0x202.
Definition EXEC_SEG_USER_CODE : Z := 0x23.
Definition EXEC_SEG_USER_DATA : Z := 0x1B.

(** What the first half of [sys_execve] comes to. *)
Inductive exec_result := exec_err (e : Z) | exec_ok (new_pml4 entry : Z).

(** [while ( *p && *q && *p == *q) { p++; q++; }] then [!*p && !*q], [q] a literal. *)
Fixpoint path_is (m : mem) (p : Z) (q : list Z) : bool :=
  match q with
  | [] => m p =? 0
  | c :: q => if negb (m p =? 0) && (m p =? c) then path_is m (p + 1) q else false
  end.

(** The [push]es of the inline assembly, from stack pointer [sp]. *)
Fixpoint push_words (m : mem) (sp : Z) (l : list Z) : mem :=
  match l with
  | [] => m
  | v :: l => let sp := u64 (sp - 8) in push_words (store64 m sp v) sp l
  end.

Section handlers.
Context {A T : Type} `{!FrameAlloc A} `{!CharDev T}.
Implicit Types k : kernel A T.

(** What happens while a waiting process is switched out; the address of the fork
    trampoline; the embedded programs (address and size); the other modules' handlers. *)
Variable (resume : pst * hst A -> pst * hst A) (tramp : Z) (shell_elf httpd_elf : Z * Z).
Variable module_call : Z -> list Z -> kernel A T -> option (outcome A T).

Definition k_heap k : hst A := f_heap (k_fs k).
Definition set_ps k s : kernel A T := mk_kernel s (k_fs k) (k_saved k) (k_table k).
Definition set_fs k f : kernel A T := mk_kernel (k_ps k) f (k_saved k) (k_table k).
Definition set_heap k h : kernel A T := set_fs k (fs_heap (k_fs k) h).
Definition err (e : Z) : Z := u64 (- e).

Definition sys_read (fuel : nat) (fd buf count : Z) k : option (outcome A T) :=
  match vfs_fd_read fuel (i32 fd) (u32 count) buf (k_fs k) with
  | Some (ret, f) => Some (Ret (u64 ret) (set_fs k f))
  | None => None
  end.
Definition sys_write (fuel : nat) (fd buf count : Z) k : option (outcome A T) :=
  match vfs_fd_write fuel (i32 fd) (u32 count) buf (k_fs k) with
  | Some (ret, f) => Some (Ret (u64 ret) (set_fs k f))
  | None => None
  end.
Definition sys_open k : option (outcome A T) := Some (Ret (err EINVAL) k).
Definition sys_close (fd : Z) k : option (outcome A T) :=
  match vfs_fd_close (i32 fd) (k_fs k) with
  | Some f => Some (Ret 0 (set_fs k f))
  | None => None
  end.
Definition sys_getpid k : option (outcome A T) :=
  Some (Ret (match current_proc (k_ps k) with Some c => p_pid (get_proc (k_ps k) c) | None => 0 end) k).
Definition sys_exit (fuel : nat) (status : Z) k : option (outcome A T) :=
  let s := match current_proc (k_ps k) with
           | Some c => upd_proc (k_ps k) c (fun p => set_p_exit p (i32 (i64 status)))
           | None => k_ps k
           end in
  match process_exit fuel s (k_heap k) with
  | Some (s, h) => Some (Gone (set_heap (set_ps k s) h))
  | None => None
  end.
Definition sys_fork (fuel : nat) k : option (outcome A T) :=
  match process_fork fuel tramp (k_ps k) (k_heap k) with
  | Some (ret, s, h) => Some (Ret (u64 ret) (set_heap (set_ps k s) h))
  | None => None
  end.

(** The stack of a new image: [EXEC_USTACK_PAGES] zeroed pages below [EXEC_USTACK_TOP]. *)
Fixpoint stack_loop (n : nat) (k : kst A) (pml4 i : Z) : bool * kst A :=
  match n with
  | O => (true, k)
  | S n =>
      let '(frame, k) := alloc_frame k in
      if frame =? 0 then (false, k)
      else
        let k := set_mm k (memset (mm k) (PHYS_TO_VIRT frame) 0 PAGE_SIZE) in
        let vaddr := u64 (EXEC_USTACK_TOP - (EXEC_USTACK_PAGES - i) * PAGE_SIZE) in
        let '(_, k) := vmm_map_user_page k pml4 vaddr frame (PTE_USER |b PTE_WRITE) in
        stack_loop n k pml4 (i + 1)
  end.

(** The first half of [sys_execve]: an address space with the program and its stack, or
    an error number. *)
Definition exec_space (fuel : nat) (k : kst A) (elf_data elf_size : Z) : option (exec_result * kst A) :=
  let '(new_pml4, k) := vmm_create_user_pml4 k in
  if new_pml4 =? 0 then Some (exec_err ENOMEM, k)
  else match elf_load fuel k elf_data elf_size new_pml4 with
       | None => None
       | Some (rc, entry, k) =>
           if negb (rc =? 0) then Some (exec_err ENOEXEC, vmm_destroy_user_pml4 k new_pml4)
           else
             let '(ok, k) := stack_loop (Z.to_nat EXEC_USTACK_PAGES) k new_pml4 0 in
             if ok then Some (exec_ok new_pml4 entry, k) else Some (exec_err ENOMEM, vmm_destroy_user_pml4 k new_pml4)
       end.

Definition sys_execve (fuel : nat) (path : Z) k : option (outcome A T) :=
  let m := mm (hk (k_heap k)) in
  let elf :=
    if path =? 0 then None
    else if path_is m path (str "/bin/shell") then Some shell_elf
    else if path_is m path (str "/bin/httpd") then Some httpd_elf
    else None in
  match elf with
  | None => Some (Ret (err ENOENT) k)
  | Some (elf_data, elf_size) =>
      match current_proc (k_ps k) with
      | None => Some (Ret (err ESRCH) k)
      | Some c =>
          let old_pml4 := p_pml4 (get_proc (k_ps k) c) in
          let h := k_heap k in
          match exec_space fuel (hk h) elf_data elf_size with
          | None => None
          | Some (exec_err e, k1) => Some (Ret (err e) (set_heap k (set_hk h k1)))
          | Some (exec_ok new_pml4 entry, k1) =>
              let s := upd_proc (k_ps k) c (fun p => set_mmap_next (set_p_pml4 p new_pml4) 0) in
              let k1 := vmm_switch_to k1 new_pml4 in
              let k1 := if old_pml4 =? 0 then k1 else vmm_destroy_user_pml4 k1 old_pml4 in
              let '(new_kstack, h) := kmalloc (set_hk h k1) KSTACK_SIZE in
              if new_kstack =? 0 then
                Some (Ret (err ENOMEM) (set_heap (set_ps k s) (set_hk h (vmm_destroy_user_pml4 (hk h) new_pml4))))
              else
                let h := set_hk h (set_mm (hk h) (memset (mm (hk h)) new_kstack 0 KSTACK_SIZE)) in
                let s := upd_proc s c (fun p => set_p_kstack p new_kstack) in
                let top := u64 (new_kstack + KSTACK_SIZE) in
                let s := ps_syscall_kernel_rsp (ps_tss_rsp0 s top) top in
                let h := set_hk h (set_mm (hk h) (push_words (mm (hk h)) top
                           [EXEC_SEG_USER_DATA; EXEC_USTACK_TOP; EXEC_USER_RFLAGS; EXEC_SEG_USER_CODE; entry])) in
                Some (Enter (mk_entry entry EXEC_SEG_USER_CODE EXEC_USER_RFLAGS EXEC_USTACK_TOP EXEC_SEG_USER_DATA)
                        (set_heap (set_ps k s) h))
          end
      end
  end.

Definition sys_waitpid (fuel : nat) (pid status_ptr : Z) k : option (outcome A T) :=
  match process_waitpid fuel resume (u32 pid) (k_ps k) (k_heap k) with
  | None => None
  | Some (ret, status, s, h) =>
      let k := set_heap (set_ps k s) h in
      if ret <? 0 then Some (Ret (u64 (-1)) k)
      else
        let h := if status_ptr =? 0 then h else set_hk h (set_mm (hk h) (store32 (mm (hk h)) status_ptr (u32 status))) in
        Some (Ret (u32 ret) (set_heap k h))
  end.
Definition sys_enosys k : option (outcome A T) := Some (Ret (err ENOSYS) k).

(** The handlers of dynlink.c (Elf.v) as table entries. *)
Definition call_mmap (length flags : Z) k : option (outcome A T) :=
  let '(r, s, h) := sys_mmap length flags (k_ps k) (k_heap k) in Some (Ret r (set_heap (set_ps k s) h)).

Definition call_handler (fuel : nat) (hd : handler) (a1 a2 a3 a4 a5 : Z) k : option (outcome A T) :=
  match hd with
  | h_read => sys_read fuel a1 a2 a3 k
  | h_write => sys_write fuel a1 a2 a3 k
  | h_open => sys_open k
  | h_close => sys_close a1 k
  | h_getpid => sys_getpid k
  | h_exit => sys_exit fuel a1 k
  | h_fork => sys_fork fuel k
  | h_execve => sys_execve fuel a1 k
  | h_waitpid => sys_waitpid fuel a1 a2 k
  | h_enosys => sys_enosys k
  | h_mmap => call_mmap a2 a4 k
  | h_munmap => Some (Ret sys_munmap k)
  | h_module i => module_call i [a1; a2; a3; a4; a5; 0] k
  end.

Definition syscall_dispatch (fuel : nat) (nr a1 a2 a3 a4 a5 : Z) k : option (outcome A T) :=
  let sv := k_saved k in
  let k := set_ps k (process_save_user_ctx (saved_user_rip sv) (saved_user_rsp sv) (saved_user_rflags sv) (k_ps k)) in
  if SYSCALL_MAX <=? nr then Some (Ret (err ENOSYS) k)
  else match nth (Z.to_nat nr) (k_table k) None with
       | None => Some (Ret (err ENOSYS) k)
       | Some hd => call_handler fuel hd a1 a2 a3 a4 a5 k
       end.

(** ** A system call from user mode and back *)

(** The user registers [g] at a [syscall] whose next instruction is at [next_rip]:
    the registers on return to user mode, when the handler returns. *)
Definition system_call (fuel : nat) (ms : msrs) (g : regs) (next_rip : Z) k : option (regs * outcome A T) :=
  let g1 := syscall_insn ms g next_rip in
  let h := k_heap k in
  let '(sv, (g2, m)) := entry_prologue (syscall_kernel_rsp (k_ps k)) g1 (mm (hk h)) in
  let k := set_heap (mk_kernel (k_ps k) (k_fs k) sv (k_table k)) (set_hk h (set_mm (hk h) m)) in
  match syscall_dispatch fuel (rdi g2) (rsi g2) (rdx g2) (rcx g2) (r8 g2) (r9 g2) k with
  | Some (Ret v k') => Some (sysret_insn ms (entry_epilogue g2 (mm (hk (k_heap k'))) v), Ret v k')
  | Some o => Some (g2, o)
  | None => None
  end.
End handlers.
