(* ===== verification/SyscallSpec.v ===== *)
(** * What system calls promise

    Theorems about Syscall.v and the anonymous memory of Elf.v: the way from user mode
    into the kernel and back keeps the user's registers; [sys_mmap] and the stack of a
    new program give zeroed pages of their own; [sys_execve] builds an address space
    that holds the program. *)

From Stdlib Require Import String.
From S2P Require Import Prelude Mem Io Irq Pmm Vmm Heap BlockHeap Proc ProcSpec Elf ElfSpec Fs Syscall.
Open Scope list_scope.

(** ** Into the kernel and back *)

Lemma wrmsr_eq ms msr v : 0 <= v < 2 ^ 64 -> rdmsr (wrmsr ms msr v) msr = v.
Proof.
  intros Hv. unfold rdmsr, wrmsr. rewrite Z.eqb_refl. change 0xFFFFFFFF with (Z.ones 32). rewrite Z.land_ones by lia.
  assert (0 <= v >>b 32 < 2 ^ 32) as Hh.
  { rewrite Z.shiftr_div_pow2 by lia. split; [apply Z.div_pos; lia|apply Z.div_lt_upper_bound; lia]. }
  pose proof (Z.mod_pos_bound v (2 ^ 32) ltac:(lia)). rewrite !u32_small by lia.
  rewrite Z.shiftl_mul_pow2, lor_add by lia. rewrite Z.shiftr_div_pow2 by lia. pose proof (Z.div_mod v (2 ^ 32)). lia.
Qed.
Lemma wrmsr_ne ms msr v x : x <> msr -> rdmsr (wrmsr ms msr v) x = rdmsr ms x.
Proof. intros H. unfold rdmsr, wrmsr. by rewrite (proj2 (Z.eqb_neq x msr)). Qed.

(** The registers [syscall_init] leaves. *)
Lemma init_msrs entry ms t : 0 <= entry < 2 ^ 64 -> let ms' := snd (fst (syscall_init entry ms t)) in
  rdmsr ms' MSR_STAR = 0x0010000800000000 /\ rdmsr ms' MSR_LSTAR = entry /\ rdmsr ms' MSR_SFMASK = 0x600.
Proof.
  intros He. cbn [syscall_init fst snd]. split; [|split].
  - rewrite !wrmsr_ne by done. by rewrite wrmsr_eq.
  - rewrite wrmsr_ne by done. by rewrite wrmsr_eq.
  - by rewrite wrmsr_eq.
Qed.

Lemma push_frame sp m v1 v2 v3 : 24 <= sp < 2 ^ 64 -> 0 <= v1 < 2 ^ 64 -> 0 <= v2 < 2 ^ 64 -> 0 <= v3 < 2 ^ 64 ->
  let m' := store64 (store64 (store64 m (sp - 8) v1) (sp - 16) v2) (sp - 24) v3 in
  load64 m' (sp - 24) = v3 /\ load64 m' (sp - 16) = v2 /\ load64 m' (sp - 8) = v1 /\
  forall a, ~ (sp - 24 <= a < sp) -> m' a = m a.
Proof.
  intros Hsp H1 H2 H3 m'. unfold m'. change (Z.of_nat 8) with 8. repeat split.
  - rewrite load_store_eq. apply Z.mod_small. done.
  - rewrite load_store_ne by lia. rewrite load_store_eq. by apply Z.mod_small.
  - rewrite !load_store_ne by lia. rewrite load_store_eq. by apply Z.mod_small.
  - intros a Ha. rewrite !store_other by lia. done.
Qed.

Lemma prologue_eq top g m : 24 <= top < 2 ^ 64 -> entry_prologue top g m =
  (mk_saved (rcx g) (rsp g) (r11 g),
   (mk_regs (rax g) (rdx g) (rsi g) (rdi g) (rax g) (r10 g) (r8 g) (r10 g) (r11 g) (top - 24) (rip g) (rflags g |b 0x200) (cs g) (ss g),
    store64 (store64 (store64 m (top - 8) (r11 g)) (top - 16) (rcx g)) (top - 24) (rsp g))).
Proof.
  intros Ht. destruct g as [a c d si di g8 g9 g10 g11 sp ip fl s1 s2]. unfold entry_prologue.
  cbn [rax rcx rdx rsi rdi r8 r9 r10 r11 rsp rip rflags cs ss saved_user_rsp set_rsp push].
  rewrite (u64_small (top - 8)) by lia. replace (top - 8 - 8) with (top - 16) by lia. rewrite (u64_small (top - 16)) by lia.
  replace (top - 16 - 8) with (top - 24) by lia. by rewrite (u64_small (top - 24)) by lia.
Qed.

(** C25. The way into the kernel and back. After [syscall_init], a [syscall] instruction in
    user mode enters [syscall_entry] in the kernel's code segment with interrupts off; the stub hands number and
    arguments to [syscall_dispatch] in order, records the user's context, and writes
    only the 24 bytes below the kernel stack top; and when the dispatcher
    has left these bytes alone, [sysret] resumes the user after the instruction with
    its stack pointer and flags (if user mode can have them), the result in RAX and the user's segments. *)
Theorem syscall_roundtrip entry ms0 t0 g next top m0 : 0 <= entry < 2 ^ 64 -> 0 <= next < 2 ^ 64 -> 0 <= rsp g < 2 ^ 64 -> 0 <= rflags g < 2 ^ 64 ->
  (rflags g &b SYSRET_FLAGS) |b RFLAGS_ONE = rflags g -> 24 <= top < 2 ^ 64 ->
  let ms := snd (fst (syscall_init entry ms0 t0)) in
  let g1 := syscall_insn ms g next in
  let '(sv, (g2, m)) := entry_prologue top g1 m0 in
  rip g1 = entry /\ cs g1 = Gdt.SEG_KERNEL_CODE /\ ss g1 = Gdt.SEG_KERNEL_DATA /\ Z.testbit (rflags g1) 9 = false /\
  [rdi g2; rsi g2; rdx g2; rcx g2; r8 g2; r9 g2] = [rax g; rdi g; rsi g; rdx g; r10 g; r8 g] /\
  sv = mk_saved next (rsp g) (rflags g) /\ (forall a, ~ (top - 24 <= a < top) -> m a = m0 a) /\
  forall m' v, (forall a, top - 24 <= a < top -> m' a = m a) ->
    let g' := sysret_insn ms (entry_epilogue g2 m' v) in
    rip g' = next /\ rsp g' = rsp g /\ rflags g' = rflags g /\ rax g' = v /\
    cs g' = Gdt.SEG_USER_CODE /\ ss g' = Gdt.SEG_USER_DATA.
Proof.
  intros He Hn Hsp Hfl Hok Htop ms. destruct (init_msrs entry ms0 t0 He) as (Hstar & Hlstar & Hmask). fold ms in Hstar, Hlstar, Hmask. clearbody ms.
  cbv zeta. rewrite prologue_eq by done. unfold syscall_insn. rewrite Hstar, Hlstar, Hmask.
  cbn [rax rcx rdx rsi rdi r8 r9 r10 r11 rsp rip rflags cs ss saved_user_rsp].
  destruct (push_frame top m0 (rflags g) next (rsp g) Htop Hfl Hn Hsp) as (L1 & L2 & L3 & Hout).
  set (m := store64 _ (top - 24) _) in *. clearbody m. split; [done|]. split; [done|]. split; [done|]. split.
  { rewrite Z.land_spec. change (Z.testbit (not64 0x600) 9) with false. apply andb_false_r. }
  split; [done|]. split; [done|]. split; [done|]. intros m' v Hm.
  assert (forall d, 0 <= d -> d + 8 <= 24 -> load64 m' (top - 24 + d) = load64 m (top - 24 + d)) as Hl.
  { intros d Hd Hd8. apply load_ext. intros a Ha. change (Z.of_nat 8) with 8 in Ha. apply Hm. lia. }
  pose proof (Hl 0 ltac:(lia) ltac:(lia)) as H0. rewrite Z.add_0_r in H0.
  unfold sysret_insn, entry_epilogue. rewrite Hstar. cbn [rax rcx rdx rsi rdi r8 r9 r10 r11 rsp rip rflags cs ss].
  rewrite H0, !Hl by lia. replace (top - 24 + 8) with (top - 16) by lia. replace (top - 24 + 16) with (top - 8) by lia.
  rewrite L3. split; [done|]. split; [done|]. split; [exact Hok|]. done.
Qed.

Definition demo_user : regs := mk_regs 39 0 3 2 1 5 6 4 0 0x7FFFEF00 0x400010 0x246 0x23 0x1B.
Lemma syscall_roundtrip_witness :
  let ms := snd (fst (syscall_init 0xFFFFFFFF80101000 (fun _ => 0) [])) in
  let '(_, (g2, m)) := entry_prologue 0xFFFFFFFF80200000 (syscall_insn ms demo_user 0x400012) (fun _ => 0) in
  let g' := sysret_insn ms (entry_epilogue g2 m 7) in
  rdi g2 = 39 /\ rip g' = 0x400012 /\ rsp g' = 0x7FFFEF00 /\ rax g' = 7.
Proof.
  pose proof (syscall_roundtrip 0xFFFFFFFF80101000 (fun _ => 0) [] demo_user 0x400012 0xFFFFFFFF80200000 (fun _ => 0)
    ltac:(lia) ltac:(lia) ltac:(cbn; lia) ltac:(cbn; lia) eq_refl ltac:(lia)) as H. cbv zeta in *.
  destruct (entry_prologue _ _ _) as [sv [g2 m]]. destruct H as (_ & _ & _ & _ & Hargs & _ & _ & Hr).
  destruct (Hr m 7 (fun _ _ => eq_refl)) as (H1 & H2 & _ & H4 & _). injection Hargs as Hd _.
  split; [exact Hd|]. split; [exact H1|]. split; [exact H2|exact H4].
Defined.

(** ** Images in agreeing memories *)

Lemma prog_ok_ext m m' buf size : bytes_ok m -> prog_ok m buf size -> (forall a, buf <= a < buf + size -> m' a = m a) ->
  prog_ok m' buf size /\ e_phnum m' buf = e_phnum m buf /\ e_entry m' buf = e_entry m buf /\
  forall i, 0 <= i < e_phnum m buf -> phdr_at m' buf i = phdr_at m buf i.
Proof.
  intros Hb Hok E. pose proof (header_ext m m' buf size Hb Hok E) as (H1 & H2 & H3 & H4 & H5).
  destruct (check_facts m buf size Hb (po_check _ _ _ Hok)) as (Hsz & _).
  assert (forall i, 0 <= i < e_phnum m buf -> phdr_at m' buf i = phdr_at m buf i) as Hp.
  { intros i Hi. unfold phdr_at at 1. rewrite H1, H2. by apply H5. }
  split; [|done]. destruct Hok as [Hc Ht Hs Hd]. split.
  - rewrite <-Hc. unfold elf_check. rewrite H1, H2, H3. unfold e_ident, e_type, e_machine.
    rewrite !(load_ext 2 m' m) by (intros x Hx; apply E; lia). by rewrite !E by lia.
  - by rewrite H1, H2, H3.
  - intros i Hi. rewrite H3 in Hi. rewrite Hp by done. by apply Hs.
  - intros i j Hi Hj. rewrite H3 in Hj. rewrite !Hp by lia. by apply Hd.
Qed.

Lemma frames_needed_ext m m' buf N : (forall i, 0 <= i < N -> phdr_at m' buf i = phdr_at m buf i) ->
  forall n i, 0 <= i -> i + Z.of_nat n <= N -> frames_needed m' buf i n = frames_needed m buf i n.
Proof.
  intros E. induction n as [|n IH]; intros i Hi Hn; cbn [frames_needed]; [done|]. rewrite E by lia. by rewrite IH by lia.
Qed.

(** ** Zeroed pages *)

Section spaces.
Context {A T : Type} `{!FrameAlloc A} `{!FrameAllocLaws A} `{!CharDev T}.
Implicit Types (k : kst A) (L : levels).

(** One zeroed frame mapped at a page: what [sys_mmap] and [sys_execve] do in a turn of
    their loops. *)
Lemma zero_step k L r page : vm_inv k L -> L r = 4%nat -> user_small k r -> 0 <= page -> (page + 1) * 4096 <= 2 ^ 47 ->
  (alloc_frame k = (0, k) /\ forall m, ~ budget k (4 + m)) \/
  exists c k1 rc k', alloc_frame k = (c * PAGE_SIZE, k1) /\ 0 < c < WINDOW /\
    vmm_map_user_page (set_mm k1 (memset (mm k1) (PHYS_TO_VIRT (c * PAGE_SIZE)) 0 PAGE_SIZE)) (r * PAGE_SIZE) (page * 4096) (c * PAGE_SIZE)
      (PTE_USER |b PTE_WRITE) = (rc, k') /\
    ((rc = -1 /\ (forall m, ~ budget k (4 + m)) /\ exists L', vm_inv (free_frame k' (c * PAGE_SIZE)) L' /\ extends L L') \/
     (rc = 0 /\ (forall m, budget k (4 + m) -> budget k' m) /\
        exists L', stepped k L r page k' L' /\ mapped k' L' r page c /\
          forall o, 0 <= o < PAGE_SIZE -> mm k' (frame_va c + o) = 0)).
Proof.
  intros Hinv Hr Hsm Hp Hend. assert (user_va (page * 4096)) as Hv by (unfold user_va; lia).
  set (G := fun c => memset (mm k) (frame_va c) 0 PAGE_SIZE).
  assert (forall c, bytes_ok (G c) /\ (forall x, ~ (frame_va c <= x < frame_va c + PAGE_SIZE) -> G c x = mm k x) /\
     forall o, 0 <= o < PAGE_SIZE -> G c (frame_va c + o) = 0) as HG.
  { intros c. unfold G. split; [apply memset_bytes_ok, Hinv|]. split.
    - intros x Hx. rewrite memset_spec by (unfold PAGE_SIZE; lia).
      destruct (Z.leb_spec (frame_va c) x), (Z.ltb_spec x (frame_va c + PAGE_SIZE)); try done; lia.
    - intros o Ho. rewrite memset_spec by (unfold PAGE_SIZE; lia).
      by rewrite (proj2 (Z.leb_le _ _)), (proj2 (Z.ltb_lt _ _)) by lia. }
  assert (page * 4096 / 4096 = page) as Epg by (apply Z.div_mul; lia).
  pose proof (fill_map k L r (page * 4096) (PTE_USER |b PTE_WRITE) G _ Hinv Hr Hsm Hv ltac:(by vm_compute) eq_refl (fun c _ _ _ => HG c)) as Hfm.
  assert (forall m, budget k (4 + m) -> fst (alloc_frame k) <> 0 /\ forall c, fst (alloc_frame k) = c * PAGE_SIZE ->
    let x := vmm_map_user_page (set_mm (snd (alloc_frame k)) (G c)) (r * PAGE_SIZE) (page * 4096) (c * PAGE_SIZE) (PTE_USER |b PTE_WRITE) in
    fst x = 0 /\ budget (snd x) m) as Hbud.
  { intros m Hb. apply (fill_budget k L r (page * 4096) (PTE_USER |b PTE_WRITE) G m Hinv Hr Hsm Hv Hb). intros c _ _ _. destruct (HG c) as (? & ? & _). done. }
  rewrite Epg in Hfm. destruct Hfm as [[E1 E2]|(c & E1 & Hc & Em & Hcase)]; [left|right].
  { rewrite (surjective_pairing (alloc_frame k)), E1, E2. split; [done|]. intros m Hb. by destruct (Hbud m Hb). }
  assert (forall m, budget k (4 + m) ->
    fst (vmm_map_user_page (set_mm (snd (alloc_frame k)) (G c)) (r * PAGE_SIZE) (page * 4096) (c * PAGE_SIZE) (PTE_USER |b PTE_WRITE)) = 0 /\
    budget (snd (vmm_map_user_page (set_mm (snd (alloc_frame k)) (G c)) (r * PAGE_SIZE) (page * 4096) (c * PAGE_SIZE) (PTE_USER |b PTE_WRITE))) m) as Hb
    by (intros m Hb; by apply (Hbud m Hb)). clear Hbud HG. cbv zeta in Hcase.
  destruct (alloc_frame k) as [f k1]. cbn [fst snd] in *. subst f. exists c, k1. rewrite phys_to_virt, Em by lia. fold (G c).
  destruct (vmm_map_user_page _ _ _ _ _) as [rc k']. cbn [fst snd] in *. exists rc, k'. split; [done|]. split; [done|]. split; [done|].
  destruct Hcase as [(-> & HL)|(-> & HL)]; [left|right]; (split; [done|]); (split; [|exact HL]); intros m Hm; by destruct (Hb m Hm).
Qed.

(** [sys_mmap]'s loop over [n] pages from [page] on. *)
Lemma map_anon_spec r base n : forall k L i, vm_inv k L -> L r = 4%nat -> user_small k r -> 0 <= base -> 0 <= i ->
  (base + i + Z.of_nat n) * 4096 <= 2 ^ 47 ->
  exists b k' L', map_anon_loop n k (r * PAGE_SIZE) (base * 4096) i = (b, k') /\ vm_inv k' L' /\ extends L L' /\
    (forall m, budget k (4 * n + m) -> b = true /\ budget k' m) /\
    (b = true -> loaded k L r (fun _ => 0) (base + i) n k' L').
Proof.
  induction n as [|n IH]; intros k L i Hinv Hr Hsm Hb Hi Hend; cbn [map_anon_loop].
  { exists true, k, L. split; [done|]. split; [done|]. split; [done|]. split; [by intros m Hm|]. intros _. split; [apply framed_refl|].
    split; [|done]. intros j Hj. lia. }
  replace (u64 (base * 4096 + i * PAGE_SIZE)) with ((base + i) * 4096) by (rewrite u64_small; unfold PAGE_SIZE; lia).
  assert (forall m, (4 + (4 * n + m) = 4 * S n + m)%nat) as E4 by lia.
  destruct (zero_step k L r (base + i) Hinv Hr Hsm ltac:(lia) ltac:(lia)) as [[-> Hnb]|(c & k1 & rc & k2 & -> & Hc & Emap & Hcase)].
  { exists false, k, L. split; [done|]. split; [done|]. split; [done|].
    split; [|done]. intros m Hbk. rewrite <-E4 in Hbk. by destruct (Hnb (4 * n + m)%nat). }
  destruct (Z.eqb_spec (c * PAGE_SIZE) 0) as [E0|_]; [unfold PAGE_SIZE in E0; lia|]. rewrite Emap.
  destruct Hcase as [(-> & Hnb & L' & Hi' & He')|(-> & Hbk & L1 & Hst & Hmp & Hdata)].
  { exists false, (free_frame k2 (c * PAGE_SIZE)), L'. split; [done|]. split; [done|]. split; [done|]. split; [|done].
    intros m Hm. rewrite <-E4 in Hm. by destruct (Hnb (4 * n + m)%nat). }
  pose proof Hst as (Hi1 & He1 & _ & _). assert (L1 r = 4%nat) as Hr1 by (rewrite He1; lia).
  destruct (IH k2 L1 (i + 1) Hi1 Hr1 ltac:(by eapply stepped_small) Hb ltac:(lia) ltac:(lia)) as (b & k' & L' & E & Hi' & He' & Hb' & Hl).
  exists b, k', L'. split; [exact E|]. split; [done|]. split; [by eapply extends_trans|]. split.
  - intros m Hm. apply Hb', Hbk. by rewrite E4.
  - intros Ht. specialize (Hl Ht). replace (base + (i + 1)) with (base + i + 1) in Hl by lia.
    by apply (loaded_cons k L r _ (base + i) n k2 L1 _ L' c).
Qed.

(** The cursor [sys_mmap] starts from. *)
Definition mmap_cursor (p : process) : Z := if mmap_next p =? 0 then MMAP_BASE else mmap_next p.

(** C28. Anonymous memory: for a process with an address space of its own, [sys_mmap] of
    at most 2^32 bytes returns MAP_FAILED with its cursor in place, or the cursor,
    advanced by the pages mapped; then every byte of the area reads as zero in
    the process's space and every other user page is translated as before. It succeeds when
    the area is below MMAP_LIMIT and four frames per page are free. In either case paging stays well-formed
    and no other process changes. *)
Theorem mmap_zeroed s (h : hst A) c r L length flags : vm_inv (hk h) L -> L r = 4%nat -> user_small (hk h) r ->
  List.length (proc_table s) = 64%nat -> current_proc s = Some c -> 0 <= c < 64 -> p_pml4 (get_proc s c) = r * PAGE_SIZE ->
  let va := mmap_cursor (get_proc s c) in
  MMAP_BASE <= va <= MMAP_LIMIT -> va mod 4096 = 0 -> has flags MAP_ANONYMOUS = true -> 0 < length <= 2 ^ 32 ->
  let n := (length + 4095) / 4096 in
  let '(ret, s', h') := sys_mmap length flags s h in
  exists L', vm_inv (hk h') L' /\ extends L L' /\
    (forall j, 0 <= j -> j <> c -> get_proc s' j = get_proc s j) /\
    (va + n * 4096 <= MMAP_LIMIT -> budget (hk h) (4 * Z.to_nat n) -> ret = va) /\
    ((ret = MAP_FAILED /\ get_proc s' c = set_mmap_next (get_proc s c) va) \/
     (ret = va /\ get_proc s' c = set_mmap_next (get_proc s c) (va + n * 4096) /\
      (forall a, va <= a < va + length -> user_byte (hk h') r a = 0) /\
      forall a, user_va a -> ~ (va / 4096 <= a / 4096 < va / 4096 + n) ->
        get_phys_in (hk h') (r * PAGE_SIZE) a = get_phys_in (hk h) (r * PAGE_SIZE) a)).
Proof.
  intros Hinv Hr Hsm Hlen Hcur Hc Hpml va Hva Hal Hfl Hl n.
  destruct (pw_range _ _ (vi_wf _ _ Hinv) r) as [Hrw _]; [rewrite Hr; done|].
  assert (0 < n <= 2 ^ 20) as Hn by (unfold n; zlia).
  unfold sys_mmap. rewrite Hfl. cbn [negb]. rewrite (proj2 (Z.eqb_neq length 0)) by lia. rewrite Hcur, Hpml.
  rewrite (proj2 (Z.eqb_neq (r * PAGE_SIZE) 0)) by (unfold PAGE_SIZE; lia).
  rewrite (u64_small (length + PAGE_SIZE - 1)) by (unfold PAGE_SIZE; lia).
  replace ((length + PAGE_SIZE - 1) / PAGE_SIZE) with n by (unfold n, PAGE_SIZE; f_equal; lia).
  set (s1 := if mmap_next (get_proc s c) =? 0 then _ else s).
  assert (List.length (proc_table s1) = 64%nat /\ get_proc s1 c = set_mmap_next (get_proc s c) va /\
    forall j, 0 <= j -> j <> c -> get_proc s1 j = get_proc s j) as (Hlen1 & Hp1 & Ho1).
  { unfold s1, va, mmap_cursor. destruct (Z.eqb_spec (mmap_next (get_proc s c)) 0) as [E|E].
    - split; [by rewrite length_upd|]. split; [rewrite get_upd by lia; by rewrite decide_True|].
      intros j Hj Hne. rewrite get_upd by lia. by rewrite decide_False.
    - split; [done|]. split; [by destruct (get_proc s c)|done]. }
  clearbody s1. rewrite Hp1. cbn [mmap_next set_mmap_next p_pml4]. rewrite Hpml.
  unfold MMAP_BASE, MMAP_LIMIT in Hva. rewrite (u64_small (n * PAGE_SIZE)) by (unfold PAGE_SIZE; lia). rewrite (u64_small (va + n * PAGE_SIZE)) by (unfold PAGE_SIZE; lia).
  destruct (Z.ltb_spec MMAP_LIMIT (va + n * PAGE_SIZE)) as [Hgt|Hle].
  { exists L. split; [done|]. split; [done|]. split; [done|]. split; [unfold PAGE_SIZE in Hgt; lia|]. left. done. }
  assert (va = va / 4096 * 4096) as Evp by (pose proof (Z.div_mod va 4096); lia).
  destruct (map_anon_spec r (va / 4096) (Z.to_nat n) (hk h) L 0 Hinv Hr Hsm ltac:(zlia) ltac:(lia)
    ltac:(unfold MMAP_LIMIT, PAGE_SIZE in Hle; lia)) as (b & k' & L' & E & Hi' & He' & Hb & Hld).
  rewrite <-Evp in E. rewrite E. destruct b.
  2: { exists L'. split; [done|]. split; [done|]. split; [done|]. split; [|by left]. intros _ Hbk. destruct (Hb O); [|done].
       by rewrite Nat.add_0_r. }
  exists L'. split; [done|]. split; [done|]. split.
  { intros j Hj Hne. rewrite get_upd by lia. rewrite decide_False by done. by apply Ho1. }
  split; [done|]. right. split; [done|]. split.
  { rewrite get_upd by lia. rewrite decide_True by done. rewrite Hp1. cbn [mmap_next set_mmap_next]. by rewrite u64_small by (unfold PAGE_SIZE in *; lia). }
  destruct (Hld eq_refl) as (Hf & Hh & Hx). assert (L' r = 4%nat) as Hr' by (rewrite He'; lia). rewrite Z.add_0_r in Hh, Hx. split.
  - intros a Ha. apply (pages_hold_byte k' L' r (fun _ => 0) (va / 4096) (Z.to_nat n) a Hi' Hr' Hh); [unfold user_va; unfold MMAP_LIMIT, PAGE_SIZE in Hle; zlia|].
    rewrite Z2Nat.id by lia. unfold n in *. zlia.
  - intros a Ha Hout. cbn [hk set_hk]. rewrite !(get_phys_xlate _ _ r a) by (done || (by eapply vi_wf)). apply Hx; [done|]. by rewrite Z2Nat.id by lia.
Qed.

(** ** A new program *)

Definition STACK_PAGE : Z := EXEC_USTACK_TOP / 4096 - EXEC_USTACK_PAGES.

Lemma stack_spec r n : forall k L i m, vm_inv k L -> L r = 4%nat -> user_small k r -> 0 <= i -> i + Z.of_nat n = EXEC_USTACK_PAGES ->
  budget k (4 * n + m) ->
  exists k' L', stack_loop n k (r * PAGE_SIZE) i = (true, k') /\ vm_inv k' L' /\ extends L L' /\ budget k' m /\
    loaded k L r (fun _ => 0) (STACK_PAGE + i) n k' L'.
Proof.
  induction n as [|n IH]; intros k L i m Hinv Hr Hsm Hi Hin Hb; cbn [stack_loop].
  { exists k, L. split; [done|]. split; [done|]. split; [done|]. split; [done|]. split; [apply framed_refl|]. split; [|done]. intros j Hj. lia. }
  assert (STACK_PAGE = 0x7FFFB) as Esp by reflexivity. unfold EXEC_USTACK_PAGES in Hin.
  replace (u64 (EXEC_USTACK_TOP - (EXEC_USTACK_PAGES - i) * PAGE_SIZE)) with ((STACK_PAGE + i) * 4096)
    by (unfold EXEC_USTACK_TOP, EXEC_USTACK_PAGES, PAGE_SIZE; rewrite u64_small; lia).
  replace (4 * S n + m)%nat with (4 + (4 * n + m))%nat in Hb by lia.
  destruct (zero_step k L r (STACK_PAGE + i) Hinv Hr Hsm ltac:(lia) ltac:(lia)) as [[_ Hnb]|(c & k1 & rc & k2 & -> & Hc & Emap & Hcase)].
  { by destruct (Hnb (4 * n + m)%nat). }
  destruct (Z.eqb_spec (c * PAGE_SIZE) 0) as [E0|_]; [unfold PAGE_SIZE in E0; lia|]. rewrite Emap.
  destruct Hcase as [(_ & Hnb & _)|(_ & Hbk & L1 & Hst & Hmp & Hdata)]; [by destruct (Hnb (4 * n + m)%nat)|].
  pose proof Hst as (Hi1 & He1 & _ & _). assert (L1 r = 4%nat) as Hr1 by (rewrite He1; lia).
  destruct (IH k2 L1 (i + 1) m Hi1 Hr1 ltac:(by eapply stepped_small) ltac:(lia) ltac:(unfold EXEC_USTACK_PAGES; lia) (Hbk _ Hb))
    as (k' & L' & E & Hi' & He' & Hb' & Hl).
  exists k', L'. split; [exact E|]. split; [done|]. split; [by eapply extends_trans|]. split; [done|].
  replace (STACK_PAGE + (i + 1)) with (STACK_PAGE + i + 1) in Hl by lia. by apply (loaded_cons k L r _ (STACK_PAGE + i) n k2 L1 _ L' c).
Qed.

(** The address space being built: fresh, empty in the user half, the image in place. *)
Lemma new_space k L b data size m : vm_inv k L -> L b = 4%nat -> pml4_phys k = b * PAGE_SIZE -> image k L data size -> budget k (S m) ->
  exists c k1 L1, vmm_create_user_pml4 k = (c * PAGE_SIZE, k1) /\ 0 < c /\ L c = O /\ L1 c = 4%nat /\ vm_inv k1 L1 /\ extends L L1 /\
    user_small k1 c /\ image k1 L1 data size /\ (forall a, data <= a < data + size -> mm k1 a = mm k a) /\ budget k1 m /\
    (forall va, user_va va -> xlate (mm k1) c va = 0).
Proof.
  intros Hinv Hb Hroot Him Hbud. destruct (alloc_budget k L m Hinv Hbud) as [Hne Hb1].
  pose proof (create_cases k L b Hinv Hb Hroot) as H. destruct (vmm_create_user_pml4 k) as [p k1].
  destruct H as [(_ & _ & E)|(c & L1 & -> & Hc & Hc1 & Hi1 & He1 & _ & Hu & _ & _ & Hfr & Hnh & Hfa)]; [by rewrite E in Hne|].
  destruct (image_framed k L k1 L1 data size Him Hfr) as [Him1 Hmem].
  destruct (pw_range _ _ (vi_wf _ _ Hi1) c) as [Hcw _]; [rewrite Hc1; done|].
  exists c, k1, L1. split; [done|]. split; [lia|]. split; [done|]. split; [done|]. split; [done|]. split; [done|].
  split; [intros va Hva; apply Hnh, user_idx, Hva|]. split; [done|]. split; [done|]. split; [by apply (budget_fa _ k1 m Hfa)|].
  intros va Hva. apply Hu, user_idx, Hva.
Qed.

(** No segment has a page in the stack's four. *)
Definition clear_of_stack (m : mem) (buf : Z) : Prop := forall i, 0 <= i < e_phnum m buf ->
  let ph := phdr_at m buf i in p_type ph = PT_LOAD ->
  first_page ph + Z.of_nat (seg_pages ph) <= STACK_PAGE \/ STACK_PAGE + 4 <= first_page ph.

(** The image can be loaded: it is acceptable, has a segment, leaves the stack alone and [fuel]
    is above the pages of each segment. *)
Record loadable (m : mem) (data size : Z) (fuel : nat) : Prop := {
  lo_ok : prog_ok m data size;
  lo_some : exists i, 0 <= i < e_phnum m data /\ p_type (phdr_at m data i) = PT_LOAD;
  lo_stack : clear_of_stack m data;
  lo_fuel i : 0 <= i < e_phnum m data -> p_type (phdr_at m data i) = PT_LOAD -> (seg_pages (phdr_at m data i) < fuel)%nat
}.

(** C5. The address space of a new program: when the allocator has a frame for the root and
    four for every page of the program and of its stack, the first half of [sys_execve]
    returns the entry point and a root that was no table before; in that space every
    address of a segment reads as the file's byte, or zero after the file part, the
    16 KB below the stack top read as zero, and every other user address is unmapped. *)
Theorem exec_space_correct k L b data size fuel : vm_inv k L -> L b = 4%nat -> pml4_phys k = b * PAGE_SIZE ->
  image k L data size -> loadable (mm k) data size fuel ->
  budget k (S (frames_needed (mm k) data 0 (Z.to_nat (e_phnum (mm k) data)) + 16)) ->
  exists c k' L', exec_space fuel k data size = Some (exec_ok (c * PAGE_SIZE) (e_entry (mm k) data), k') /\
    L c = O /\ L' c = 4%nat /\ vm_inv k' L' /\ extends L L' /\
    (forall i va, 0 <= i < e_phnum (mm k) data -> let ph := phdr_at (mm k) data i in p_type ph = PT_LOAD ->
       p_vaddr ph <= va < p_vaddr ph + p_memsz ph ->
       user_byte k' c va = if va <? p_vaddr ph + p_filesz ph then mm k (data + p_offset ph + (va - p_vaddr ph)) else 0) /\
    (forall va, EXEC_USTACK_TOP - 16384 <= va < EXEC_USTACK_TOP -> user_byte k' c va = 0) /\
    (forall va, user_va va -> ~ (STACK_PAGE <= va / 4096 < STACK_PAGE + 4) ->
       (forall i, 0 <= i < e_phnum (mm k) data -> let ph := phdr_at (mm k) data i in p_type ph = PT_LOAD ->
          ~ (first_page ph <= va / 4096 < first_page ph + Z.of_nat (seg_pages ph))) ->
       get_phys_in k' (c * PAGE_SIZE) va = 0).
Proof.
  intros Hinv Hb Hroot Him [Hok Hsome Hstk Hfu] Hbud.
  destruct (new_space k L b data size _ Hinv Hb Hroot Him Hbud) as (c & k1 & L1 & E1 & Hc0 & Hc & Hc1 & Hi1 & He1 & Hsm1 & Him1 & Hm1 & Hb1 & Hx1).
  destruct (prog_ok_ext (mm k) (mm k1) data size (pw_bytes _ _ (vi_wf _ _ Hinv)) Hok Hm1) as (Hok1 & Hn1 & Hent1 & Hp1).
  destruct (elf_load_spec k1 L1 c data size fuel Hi1 Hc1 Hsm1 Him1 Hok1) as (rc & entry & k2 & L2 & E2 & Hi2 & He2 & _ & Hb2 & H2).
  { intros i Hi. rewrite Hn1 in Hi. rewrite Hp1 by done. by apply Hfu. }
  destruct (check_facts _ _ _ (pw_bytes _ _ (vi_wf _ _ Hinv)) (po_check _ _ _ Hok)) as (_ & _ & Hn16 & _).
  destruct (Hb2 16%nat) as [-> Hb16].
  { rewrite Hn1, (frames_needed_ext (mm k) (mm k1) data (e_phnum (mm k) data)); [exact Hb1|done|lia|lia]. }
  { destruct Hsome as (i & Hi & Hp). exists i. rewrite Hn1, Hp1 by done. done. }
  destruct (H2 eq_refl) as [-> Hld]. rewrite Hn1 in Hld.
  assert (L2 c = 4%nat) as Hc2 by (rewrite He2; lia).
  destruct (stack_spec c 4 k2 L2 0 0 Hi2 Hc2 (ld_small _ _ _ _ _ _ _ _ Hld) ltac:(lia) eq_refl Hb16) as (k3 & L3 & E3 & Hi3 & He3 & _ & Hl3).
  assert (L3 c = 4%nat) as Hc3 by (rewrite He3; lia). rewrite Z.add_0_r in Hl3.
  exists c, k3, L3. split.
  { unfold exec_space. rewrite E1. rewrite (proj2 (Z.eqb_neq (c * PAGE_SIZE) 0)) by (unfold PAGE_SIZE; lia). rewrite E2, Hent1.
    change (negb (0 =? 0)) with false. cbv iota. change (Z.to_nat EXEC_USTACK_PAGES) with 4%nat. by rewrite E3. }
  split; [done|]. split; [done|]. split; [done|]. split; [eapply extends_trans; [exact He1|by eapply extends_trans]|].
  pose proof Hl3 as (_ & Hh3 & Hx3). split; [|split].
  - intros i va Hi ph Hp Hva. pose proof (po_seg _ _ _ Hok i Hi Hp) as [_ (Ho & Hf & Hof) Hm (Hv & Hve)]. fold ph in Ho, Hf, Hof, Hm, Hv, Hve.
    pose proof (ld_held _ _ _ _ _ _ _ _ Hld i Hi) as Hh. rewrite Hp1 in Hh by done. fold ph in Hh.
    rewrite (pages_hold_byte k3 L3 c _ _ _ va Hi3 Hc3 (pages_hold_keep _ _ _ _ _ _ _ _ _ _ _ (Hh Hp) Hl3 (Hstk i Hi Hp))).
    + unfold seg_byte. rewrite (proj2 (Z.leb_le _ _)) by lia. cbn [andb]. destruct (Z.ltb_spec va (p_vaddr ph + p_filesz ph)); [|done]. apply Hm1. lia.
    + unfold user_va. lia.
    + unfold first_page, seg_pages. rewrite (proj2 (Z.eqb_neq (p_memsz ph) 0)) by lia. unfold first_page. zlia.
  - intros va Hva. unfold EXEC_USTACK_TOP in Hva. apply (pages_hold_byte k3 L3 c (fun _ => 0) STACK_PAGE 4 va Hi3 Hc3 Hh3); [unfold user_va; lia|].
    change STACK_PAGE with 0x7FFFB. zlia.
  - intros va Hva Hns Hout. rewrite (get_phys_xlate k3 L3 c va) by (done || apply Hi3). rewrite Hx3 by done.
    rewrite (ld_else _ _ _ _ _ _ _ _ Hld va Hva); [by apply Hx1|]. intros i Hi. rewrite Hp1 by done. by apply Hout.
Qed.
End spaces.

(** ** A machine with forty free frames *)

Section free.
Context {A : Type} `{!FrameAlloc A} `{!FrameAllocLaws A}.

Definition free_frames (l : list Z) (k : kst A) : kst A := fold_left (fun k c => free_frame k (c * PAGE_SIZE)) l k.

Lemma free_frames_inv l k L : vm_inv k L -> Forall (fun c => 0 < c < WINDOW /\ L c = O) l -> vm_inv (free_frames l k) L.
Proof.
  intros Hinv Hl. revert k Hinv. induction Hl as [|c l [Hc HL] Hl IH]; intros k Hinv; [done|]. apply IH. by apply free_frame_inv.
Qed.
Lemma free_frames_used l k L f : vm_inv k L -> Forall (fun c => 0 < c < WINDOW /\ L c = O) l -> 0 <= f < PMM_MAX_FRAMES ->
  fa_used (fa (free_frames l k)) f = if decide (f ∈ l) then false else fa_used (fa k) f.
Proof.
  intros Hinv Hl Hf. revert k Hinv. induction Hl as [|c l [Hc HL] Hl IH]; intros k Hinv; cbn [free_frames fold_left]; [done|].
  fold (free_frames l (free_frame k (c * PAGE_SIZE))). rewrite IH by (by apply free_frame_inv). cbn [fa free_frame set_fa].
  rewrite fa_free_used by (apply Hinv || lia || (unfold FRAME_SIZE, PAGE_SIZE; lia)).
  replace (c * PAGE_SIZE / FRAME_SIZE) with c by (unfold PAGE_SIZE, FRAME_SIZE; by rewrite Z.div_mul).
  destruct (decide (f ∈ l)) as [H1|H1]; [by rewrite decide_True by (by right)|].
  destruct (Z.eqb_spec c f) as [->|Hne]; [rewrite decide_True by (by left)|rewrite decide_False by (by apply not_elem_of_cons)].
  - by rewrite (proj2 (Z.ltb_lt f PMM_MAX_FRAMES)) by lia.
  - done.
Qed.
Lemma free_frames_budget l k L : vm_inv k L -> Forall (fun c => 0 < c < WINDOW /\ L c = O) l -> NoDup l -> budget (free_frames l k) (List.length l).
Proof.
  intros Hinv Hl Hnd. exists l. split; [done|]. split; [done|]. apply Forall_forall. intros f Hf.
  pose proof (proj1 (Forall_forall _ _) Hl f Hf) as [Hc _]. unfold WINDOW in Hc. change PMM_MAX_FRAMES with 1048576. split; [lia|].
  rewrite (free_frames_used l k L f) by (done || (change PMM_MAX_FRAMES with 1048576; lia)). by rewrite decide_True.
Qed.
Lemma free_frames_mm l k : mm (free_frames l k) = mm k /\ pml4_phys (free_frames l k) = pml4_phys k.
Proof. revert k. induction l as [|c l IH]; intros k; [done|]. apply (IH (free_frame k (c * PAGE_SIZE))). Qed.
End free.

Definition demo_space : kst pmm_state := free_frames (seqZ 11 40) demo_elf.

Lemma demo_spare : Forall (fun c => 0 < c < WINDOW /\ demo_levels c = O) (seqZ 11 40).
Proof. apply Forall_forall. intros c Hc%elem_of_seqZ. split; [unfold WINDOW; lia|]. unfold demo_levels. repeat case_ltb; lia || done. Qed.
Lemma demo_space_inv : vm_inv demo_space demo_levels.
Proof. apply free_frames_inv; [exact demo_elf_inv|exact demo_spare]. Qed.
Lemma demo_space_budget n : (n <= 40)%nat -> budget demo_space n.
Proof. apply (budget_le _ 40), (free_frames_budget (seqZ 11 40) demo_elf demo_levels demo_elf_inv demo_spare). apply NoDup_seqZ. Qed.
Lemma demo_space_mm : mm demo_space = demo_elf_mem.
Proof. exact (proj1 (free_frames_mm (seqZ 11 40) demo_elf)). Qed.
Lemma demo_space_root : pml4_phys demo_space = 1 * PAGE_SIZE.
Proof. exact (proj2 (free_frames_mm (seqZ 11 40) demo_elf)). Qed.
Lemma demo_space_small : user_small demo_space 6.
Proof. intros va Hva. unfold nohuge. rewrite demo_space_mm. exact (demo_elf_small va Hva). Qed.
Lemma demo_space_image : image demo_space demo_levels (frame_va 10) 124.
Proof.
  intros a Ha. exists 10, (a - frame_va 10). split; [lia|]. split; [unfold PAGE_SIZE; lia|]. split; [lia|]. split; [done|].
  unfold demo_space. rewrite (free_frames_used _ _ demo_levels) by (exact demo_elf_inv || exact demo_spare || by vm_compute).
  rewrite decide_False by (rewrite elem_of_seqZ; lia).
  rewrite demo_elf_used by (vm_compute; done). by rewrite (proj2 demo_pmm_spec) by (vm_compute; done).
Qed.
Lemma demo_loadable : loadable demo_elf_mem (frame_va 10) 124 2.
Proof.
  assert (e_phnum demo_elf_mem (frame_va 10) = 1) as En by (vm_compute; reflexivity).
  split; rewrite ?En.
  - exact demo_elf_ok.
  - exists 0. split; [lia|]. vm_compute; reflexivity.
  - intros i Hi. cbv zeta. rewrite En in Hi. replace i with 0 by lia. intros _. left. by vm_compute.
  - intros i Hi _. replace i with 0 by lia. vm_compute. lia.
Qed.

Lemma exec_space_correct_witness : exists c k', exec_space 2 demo_space (frame_va 10) 124 = Some (exec_ok (c * PAGE_SIZE) 0x400000, k') /\
  user_byte k' c 0x400002 = 0xEB /\ user_byte k' c 0x400006 = 0 /\ user_byte k' c (EXEC_USTACK_TOP - 8) = 0.
Proof.
  destruct (exec_space_correct demo_space demo_levels 1 (frame_va 10) 124 2 demo_space_inv eq_refl demo_space_root demo_space_image)
    as (c & k' & L' & E & _ & _ & _ & _ & Hby & Hst & _).
  - rewrite demo_space_mm. exact demo_loadable.
  - apply demo_space_budget. rewrite demo_space_mm. vm_compute. lia.
  - exists c, k'. rewrite demo_space_mm in E. rewrite demo_space_mm in Hby. split; [exact E|]. split; [|split].
    + rewrite (Hby 0 0x400002); vm_compute; intuition discriminate.
    + rewrite (Hby 0 0x400006); vm_compute; intuition discriminate.
    + apply Hst. vm_compute. intuition discriminate.
Defined.

Definition demo_mapper : pst := upd_proc demo_two 0 (fun p => set_p_pml4 p (6 * PAGE_SIZE)).

Lemma mmap_zeroed_witness : exists s' h', sys_mmap 5000 0x22 demo_mapper (mk_hst demo_space []) = (MMAP_BASE, s', h') /\
  user_byte (hk h') 6 (MMAP_BASE + 4999) = 0.
Proof.
  pose proof (mmap_zeroed demo_mapper (mk_hst demo_space []) 0 6 demo_levels 5000 0x22 demo_space_inv eq_refl demo_space_small
    eq_refl eq_refl ltac:(lia) eq_refl ltac:(vm_compute; intuition discriminate) eq_refl eq_refl ltac:(lia)) as H.
  cbv zeta in H. destruct (sys_mmap 5000 0x22 demo_mapper _) as [[ret s'] h']. destruct H as (L' & _ & _ & _ & Hret & Hor).
  assert (ret = MMAP_BASE) as -> by (apply Hret; [vm_compute; discriminate|apply demo_space_budget; vm_compute; lia]).
  exists s', h'. split; [reflexivity|]. destruct Hor as [[Hf _]|(_ & _ & Hz & _)]; [discriminate Hf|].
  apply Hz. vm_compute. intuition discriminate.
Defined.
