(* ===== verification/Trap.v ===== *)
(** * Interrupts, page faults and exceptions: the entry stubs

    What the processor does when it delivers an interrupt or an exception through a
    gate, and [iretq]; the interrupt stubs of src/pic/irq_stubs.asm with the handlers
    of Irq.v, Tty.v and Proc.v behind them; [pf_stub] of src/vmm/vmm.c with
    [page_fault_handler_c] (Vmm.v); the exception stubs of src/idt/exceptions.asm and
    [exception_dispatch] of src/idt/exceptions.c.

    A stub's stack is in the memory the handlers work on.  The C functions are called
    by the System V convention: they return with the stack pointer they were called
    with and keep the callee-saved registers, which are therefore not part of [regs] but
    in [cpu] (Proc.v), where [context_switch] saves and loads them; the scratch registers after
    a call are those the stub restores from its stack.

    [scheduler_yield] runs on the stub's stack; the return address [yret] of its call of
    [context_switch], and the distance [depth] it has moved the stack pointer by then, are
    choices of the compiler and parameters here.  A switched-out stub goes on at
    [resume_stub], with the registers [context_switch] loads.

    Theorems: an interrupt calls the handler of its line and leaves every register of the
    interrupted code as it was, at once or when the process is switched in again; a timer interrupt at the end of a slice switches to
    the next process, and the interrupted one goes on with its registers when it is
    switched in again; a write to a copy-on-write page resumes with the
    page private and writable; every exception is reported with its own vector, error
    code and interrupted context. *)

From Stdlib Require Import String.
From S2P Require Import Prelude Mem Io Ring Irq Tty Pmm Vmm Heap Boot Proc ProcSpec Elf ElfSpec Syscall.
Open Scope list_scope.
Open Scope Z_scope.

(** ** Delivery and return (SDM vol. 3A, 6.14) *)

Definition pushes (l : list Z) (x : regs * mem) : regs * mem := fold_left (fun x v => push v x) l x.

(** TF, IF, NT, RF and VM, which an interrupt gate clears. *)
Definition GATE_FLAGS : Z := 0x100 |b 0x200 |b 0x4000 |b 0x10000 |b 0x20000.
Definition from_user (g : regs) : bool := (cs g &b 3) =? 3.
(** The stack the frame goes to: RSP0 of the TSS when the privilege level changes, the
    current stack otherwise; aligned to 16 bytes. *)
Definition frame_base (rsp0 : Z) (g : regs) : Z := (if from_user g then rsp0 else rsp g) &b not64 15.
(** Delivery to the stub at [gate], with the error code of the exceptions that have one. *)
Definition deliver (gate rsp0 : Z) (err : option Z) (x : regs * mem) : regs * mem :=
  let '(g, m) := x in
  let frame := [ss g; rsp g; rflags g; cs g; rip g] ++ match err with Some e => [e] | None => [] end in
  let '(g', m) := pushes frame (set_rsp g (frame_base rsp0 g), m) in
  (mk_regs (rax g) (rcx g) (rdx g) (rsi g) (rdi g) (r8 g) (r9 g) (r10 g) (r11 g) (rsp g') gate
     (rflags g &b not64 GATE_FLAGS) Idt.IDT_KERNEL_CS (if from_user g then 0 else ss g), m).
Definition iretq (g : regs) (m : mem) : regs :=
  let sp := rsp g in
  mk_regs (rax g) (rcx g) (rdx g) (rsi g) (rdi g) (r8 g) (r9 g) (r10 g) (r11 g)
    (load64 m (sp + 24)) (load64 m sp) (load64 m (sp + 16)) (load64 m (sp + 8)) (load64 m (sp + 32)).

(** [push rax] to [push r11], and the pops in the opposite order. *)
Definition save_scratch (x : regs * mem) : regs * mem :=
  let g := fst x in pushes [rax g; rcx g; rdx g; rsi g; rdi g; r8 g; r9 g; r10 g; r11 g] x.
Definition restore_scratch (g : regs) (m : mem) : regs :=
  let sp := rsp g in
  mk_regs (load64 m (sp + 64)) (load64 m (sp + 56)) (load64 m (sp + 48)) (load64 m (sp + 40)) (load64 m (sp + 32))
    (load64 m (sp + 24)) (load64 m (sp + 16)) (load64 m (sp + 8)) (load64 m sp)
    (u64 (sp + 72)) (rip g) (rflags g) (cs g) (ss g).

(** ** Interrupts: src/pic/irq_stubs.asm *)

(** What the handlers of the two registered interrupt lines work on: timer, terminal
    with keyboard, processes with memory, and the network's state. *)
Record ist (A N : Type) := mk_ist {
  i_timer : Timer.timer_st; i_tty : Tty.tty_st; i_ps : pst; i_heap : hst A; i_net : N
}.
Arguments mk_ist {A N}. Arguments i_timer {A N}. Arguments i_tty {A N}. Arguments i_ps {A N}.
Arguments i_heap {A N}. Arguments i_net {A N}.

Section irq.
Context {A N D : Type} `{!FrameAlloc A} `{!Bus D}.
Implicit Types s : ist A N.
(** [net_poll] as the other modules' code.  [yret] is the return address of the call of
    [context_switch] in [scheduler_yield], and [depth] the distance from the stack
    pointer at the stub's [call scheduler_yield] down to where that return address is:
    the stack frame the compiler gives [scheduler_yield]. *)
Variable net_poll : hst A * N * D -> hst A * N * D.
Variable (yret depth : Z).

Definition is_tty s t : ist A N := mk_ist (i_timer s) t (i_ps s) (i_heap s) (i_net s).
Definition is_ps s p : ist A N := mk_ist (i_timer s) (i_tty s) p (i_heap s) (i_net s).
Definition is_sched s p h : ist A N := mk_ist (i_timer s) (i_tty s) p h (i_net s).
Definition i_mem s : mem := mm (hk (i_heap s)).
Definition is_mem s m : ist A N :=
  is_sched s (i_ps s) (set_hk (i_heap s) (set_mm (hk (i_heap s)) m)).

(** The timer callbacks; [None] is [tty_poll] out of fuel. *)
Definition timer_call (f : Timer.timer_fn) (x : option (ist A N * D)) : option (ist A N * D) :=
  match x with
  | None => None
  | Some (s, d) =>
      match f with
      | Timer.tty_poll_fn => match Tty.tty_poll (i_tty s) d with Some (t, d) => Some (is_tty s t, d) | None => None end
      | Timer.scheduler_tick_fn => Some (is_ps s (scheduler_tick (i_ps s)), d)
      | Timer.net_poll_fn =>
          let '(h, n, d) := net_poll (i_heap s, i_net s, d) in
          Some (mk_ist (i_timer s) (i_tty s) (i_ps s) h n, d)
      end
  end.
(** [timer_irq_handler] and [keyboard_irq_handler] as entries of the handler table. *)
Definition irq_call (f : Pic.irq_fn) (x : option (ist A N) * D) : option (ist A N) * D :=
  let '(s, d) := x in
  match s with
  | None => (None, d)
  | Some s =>
      match f with
      | Pic.timer_irq_fn =>
          let '(t, x) := Timer.timer_irq_handler timer_call (i_timer s) (Some (s, d)) in
          match x with
          | Some (s, d) => (Some (mk_ist t (i_tty s) (i_ps s) (i_heap s) (i_net s)), d)
          | None => (None, d)
          end
      | Pic.keyboard_irq_fn =>
          let '(k, d) := Keyboard.keyboard_irq_handler (Tty.kb (i_tty s)) d in
          (Some (is_tty s (Tty.ts_kb (i_tty s) k)), d)
      end
  end.

(** [call scheduler_yield] and, in it, the call of [context_switch]: the stack pointer
    and the return address that [context_switch] finds. *)
Definition ctx_at (c : cpu_context) (sp : Z) : cpu_context :=
  mk_ctx (Proc.rbx c) (Proc.rbp c) (Proc.r12 c) (Proc.r13 c) (Proc.r14 c) (Proc.r15 c) sp (Proc.rip c).
Definition call_yield (sp : Z) s : ist A N :=
  let a := u64 (sp - depth) in
  let s := is_mem s (store64 (i_mem s) a yret) in
  is_ps s (ps_cpu (i_ps s) (ctx_at (cpu (i_ps s)) a)).
(** How the stub ends: with [iretq], or in [context_switch], which has jumped to the
    context of another process. *)
Inductive irq_end := Returned (g : regs) | Switched.
(** The deferred preemption point, reached with the stack pointer [sp]:
    [scheduler_yield_pending] is cleared and the scheduler called. *)
Definition yield_point (fuel : nat) (sp : Z) s : option (bool * ist A N) :=
  if yield_pending (i_ps s) =? 0 then Some (false, s)
  else
    let s := call_yield sp (is_ps s (ps_yield_pending (i_ps s) 0)) in
    match scheduler_yield fuel (i_ps s) (i_heap s) with
    | None => None
    | Some (p', h') => Some (negb (bool_decide (current_proc p' = current_proc (i_ps s))), is_sched s p' h')
    end.
(** From [.no_yield] on. *)
Definition irq_tail (g : regs) (m : mem) : regs :=
  let g := restore_scratch g m in
  let g := set_rsp g (u64 (rsp g + 8)) in
  iretq g m.
(** The stub goes on when [context_switch] has loaded a context that was saved in its
    call: [scheduler_yield] returns, by the System V convention with the stack pointer
    its caller had; [gx] is what it leaves in the scratch registers. *)
Definition resume_stub (gx : regs) (p : pst) (m : mem) : option regs :=
  if Proc.rip (cpu p) =? yret
  then Some (irq_tail (set_rsp gx (u64 (Proc.rsp (cpu p) + (depth - 8)))) m)
  else None.

(** [irq_common], entered with the stub's stack in memory. *)
Definition irq_common (fuel : nat) (handlers : list (option Pic.irq_fn)) (g : regs) s (d : D) :
    option (irq_end * ist A N * D) :=
  let '(g, m) := save_scratch (g, i_mem s) in
  let edi := load32 m (rsp g + 72) &b 0xFF in
  let g := set_rsp g (u64 (rsp g - 8)) in
  match Pic.irq_dispatch irq_call handlers (u8 edi) (Some (is_mem s m)) d with
  | (None, _) => None
  | (Some s, d) =>
      let g := set_rsp g (u64 (rsp g + 8)) in
      match yield_point fuel (rsp g) s with
      | None => None
      | Some (true, s) => Some (Switched, s, d)
      | Some (false, s) => Some (Returned (irq_tail g (i_mem s)), s, d)
      end
  end.
(** [irq_stub<n>]: [push qword n] and the common part. *)
Definition irq_stub (n : Z) (fuel : nat) (handlers : list (option Pic.irq_fn)) (g : regs) s (d : D) :
    option (irq_end * ist A N * D) :=
  let '(g, m) := push n (g, i_mem s) in irq_common fuel handlers g (is_mem s m) d.
(** An interrupt on line [n] while the CPU has the registers [g] and, in [cpu], the
    callee-saved ones. *)
Definition interrupt (gate n : Z) (fuel : nat) (handlers : list (option Pic.irq_fn)) (g : regs) s (d : D) :
    option (irq_end * ist A N * D) :=
  let '(g, m) := deliver gate (tss_rsp0 (i_ps s)) None (g, i_mem s) in irq_stub n fuel handlers g (is_mem s m) d.
End irq.

(** ** Page faults: [pf_stub] of src/vmm/vmm.c *)

Section pf.
Context {A : Type} `{!FrameAlloc A}.
Implicit Types k : kst A.
(** From the delivery on; [cr2] is the faulting address.  [None]: the handler halts. *)
Definition pf_stub (g : regs) k (cr2 : Z) : option (regs * kst A) :=
  let '(g, m) := save_scratch (g, mm k) in
  let err := load64 m (rsp g + 72) in
  let g := set_rsp g (u64 (rsp g - 8)) in
  match page_fault_handler_c (set_mm k m) err cr2 with
  | None => None
  | Some k =>
      let g := set_rsp g (u64 (rsp g + 8)) in
      let g := restore_scratch g (mm k) in
      let g := set_rsp g (u64 (rsp g + 8)) in
      Some (iretq g (mm k), k)
  end.
(** A page fault with error code [err] on [cr2]. *)
Definition page_fault (gate rsp0 err cr2 : Z) (g : regs) k : option (regs * kst A) :=
  let '(g, m) := deliver gate rsp0 (Some err) (g, mm k) in pf_stub g (set_mm k m) cr2.
End pf.

(** ** Exceptions: src/idt/exceptions.asm, src/idt/exceptions.c *)

Definition exc_names : list (list Z) := map str
  [ "Divide Error"; "Debug"; "NMI"; "Breakpoint"; "Overflow"; "Bound Range Exceeded"; "Invalid Opcode";
    "Device Not Available"; "Double Fault"; "Coprocessor Segment"; "Invalid TSS"; "Segment Not Present";
    "Stack-Segment Fault"; "General Protection Fault"; "Page Fault"; "Reserved"; "x87 FP Exception";
    "Alignment Check"; "Machine Check"; "SIMD FP Exception"; "Virtualization Exception"; "Control Protection";
    "Reserved"; "Reserved"; "Reserved"; "Reserved"; "Reserved"; "Reserved"; "Hypervisor Injection";
    "VMM Communication"; "Security Exception"; "Reserved" ]%string.

(** The arguments of [exception_dispatch]. *)
Record exc_args := mk_exc { x_vector : Z; x_error : Z; x_rip : Z; x_cs : Z; x_rflags : Z; x_rsp : Z }.

(** The exceptions for which the processor pushes an error code (SDM vol. 3A, table 6-1;
    #VC and #SX: AMD64 APM vol. 2, table 8-1): #DF, #TS, #NP, #SS, #GP, #PF, #AC, #CP,
    #VC, #SX.  [exception] is their delivery. *)
Definition cpu_error_vectors : list Z := [8; 10; 11; 12; 13; 14; 17; 21; 29; 30].
Definition cpu_pushes_error (v : Z) : bool := existsb (Z.eqb v) cpu_error_vectors.
Definition exception (gate rsp0 v err : Z) (x : regs * mem) : regs * mem :=
  deliver gate rsp0 (if cpu_pushes_error v then Some err else None) x.

(** [ISR_ERR] and [ISR_NOERR]: the vectors whose stub expects the CPU's error code. *)
Definition isr_has_err (v : Z) : bool :=
  (v =? 8) || (v =? 10) || (v =? 11) || (v =? 12) || (v =? 13) || (v =? 14) || (v =? 17) || (v =? 21) || (v =? 29) || (v =? 30).
Definition isr (v : Z) (x : regs * mem) : regs * mem := pushes (if isr_has_err v then [v] else [0; v]) x.
(** [exception_common], up to the call: the stack pointer there and the arguments. *)
Definition exception_common (x : regs * mem) : Z * exc_args :=
  let '(g, m) := x in
  let rdi := load64 m (rsp g) in
  let rsi := load64 m (rsp g + 8) in
  let sp := u64 (rsp g + 16) in
  (u64 (sp - 8), mk_exc rdi rsi (load64 m sp) (load64 m (sp + 8)) (load64 m (sp + 16)) (load64 m (sp + 24))).

Definition exc_name (v : Z) : list Z := if v <? 32 then nth (Z.to_nat v) exc_names [] else str "Unknown".

(** The calls of [kprintf] on the serial port and then on the screen. *)
Definition exc_serial (a : exc_args) : list (list Z * list va_arg) :=
  let num x := A_uint (u32 x) in
  [ ([10] ++ str "*** CPU EXCEPTION ***" ++ [10], []);
    (str "  Vec    : %u (%s)" ++ [10], [num (x_vector a); A_str (Some (exc_name (x_vector a)))]);
    (str "  Error  : 0x%x" ++ [10], [num (x_error a)]);
    (str "  RIP    : 0x%x" ++ [10], [num (x_rip a)]);
    (str "  CS     : 0x%x" ++ [10], [num (x_cs a)]);
    (str "  RFLAGS : 0x%x" ++ [10], [num (x_rflags a)]);
    (str "  RSP    : 0x%x" ++ [10], [num (x_rsp a)]) ].
Definition exc_screen (a : exc_args) : list (list Z * list va_arg) :=
  let num x := A_uint (u32 x) in
  [ ([10] ++ str "*** CPU EXCEPTION: %s ***" ++ [10], [A_str (Some (exc_name (x_vector a)))]);
    (str "  Vec=%u Err=0x%x RIP=0x%x" ++ [10], [num (x_vector a); num (x_error a); num (x_rip a)]) ].

Section exceptions.
Context {D : Type} `{!Bus D}.
Import Console.
(** [exception_dispatch]: the console when the CPU halts. *)
Definition exception_dispatch (fuel : nat) (a : exc_args) (c : console D) : option (console D) :=
  match kprintfs fuel (exc_serial a) (kprintf_set_output serial_output c) with
  | None => None
  | Some c => kprintfs fuel (exc_screen a) (kprintf_set_output vga_output c)
  end.
End exceptions.

(** ** The stack *)

(** The registers hold 64-bit values. *)
Definition regs_ok (g : regs) : Prop :=
  Forall (fun v => 0 <= v < 2 ^ 64)
    [rax g; rcx g; rdx g; rsi g; rdi g; r8 g; r9 g; r10 g; r11 g; rsp g; rip g; rflags g; cs g; ss g].

Lemma push_words_out l : forall m sp x, 8 * Z.of_nat (List.length l) <= sp <= 2 ^ 64 ->
  ~ (sp - 8 * Z.of_nat (List.length l) <= x < sp) -> push_words m sp l x = m x.
Proof.
  induction l as [|v l IH]; intros m sp x Hsp Hx; cbn [push_words List.length] in *; [done|].
  rewrite u64_small by lia. rewrite IH by lia. apply store_other. lia.
Qed.
Lemma push_words_load l : forall m sp i v, 8 * Z.of_nat (List.length l) <= sp <= 2 ^ 64 ->
  l !! i = Some v -> 0 <= v < 2 ^ 64 -> load64 (push_words m sp l) (sp - 8 * (Z.of_nat i + 1)) = v.
Proof.
  induction l as [|w l IH]; intros m sp i v Hsp Hi Hv; [done|]. cbn [push_words List.length] in *.
  rewrite u64_small by lia. destruct i as [|i].
  - injection Hi as ->. rewrite (load_ext 8 _ (store64 m (sp - 8) v)).
    + replace (sp - 8 * (Z.of_nat 0 + 1)) with (sp - 8) by lia. rewrite load_store_eq. apply Z.mod_small. lia.
    + intros y Hy. apply push_words_out; lia.
  - replace (sp - 8 * (Z.of_nat (S i) + 1)) with (sp - 8 - 8 * (Z.of_nat i + 1)) by lia. apply IH; [lia|done|done].
Qed.
Lemma push_words_app l1 : forall l2 m sp, 8 * Z.of_nat (List.length (l1 ++ l2)) <= sp <= 2 ^ 64 ->
  push_words (push_words m sp l1) (sp - 8 * Z.of_nat (List.length l1)) l2 = push_words m sp (l1 ++ l2).
Proof.
  induction l1 as [|v l1 IH]; intros l2 m sp Hsp; cbn [push_words List.length app] in *.
  - f_equal. lia.
  - rewrite length_app in *. rewrite u64_small by lia. rewrite <- IH by (rewrite ?length_app; lia). f_equal. lia.
Qed.
Lemma push_words_bytes l : forall m sp, bytes_ok m -> bytes_ok (push_words m sp l).
Proof. induction l as [|v l IH]; intros m sp Hm; cbn [push_words]; [done|]. by apply IH, store_bytes_ok. Qed.

Lemma set_rsp_twice g a b : set_rsp (set_rsp g a) b = set_rsp g b.
Proof. done. Qed.
Lemma pushes_eq l : forall g m, 8 * Z.of_nat (List.length l) <= rsp g < 2 ^ 64 ->
  pushes l (g, m) = (set_rsp g (rsp g - 8 * Z.of_nat (List.length l)), push_words m (rsp g) l).
Proof.
  unfold pushes. induction l as [|v l IH]; intros g m Hg; cbn [fold_left push_words List.length] in *.
  - f_equal. replace (rsp g - 8 * Z.of_nat 0) with (rsp g) by lia. by destruct g.
  - cbn [push]. cbv zeta. rewrite u64_small by lia. rewrite IH by (cbn; lia). cbn [set_rsp rsp].
    rewrite set_rsp_twice. f_equal. f_equal. lia.
Qed.

Lemma push_one v g m : 8 <= rsp g < 2 ^ 64 -> push v (g, m) = (set_rsp g (rsp g - 8), push_words m (rsp g) [v]).
Proof. intros Hg. change (push v (g, m)) with (pushes [v] (g, m)). rewrite pushes_eq by (cbn; lia). done. Qed.

(** What a stub finds on its stack: the words of the frame, whatever else has changed
    as long as the frame has not. *)
Definition frame_kept (m0 m : mem) (lo hi : Z) : Prop := forall x, lo <= x < hi -> m x = m0 x.
Lemma frame_word l m0 m sp i v a : 8 * Z.of_nat (List.length l) <= sp <= 2 ^ 64 ->
  frame_kept (push_words m0 sp l) m (sp - 8 * Z.of_nat (List.length l)) sp ->
  l !! i = Some v -> 0 <= v < 2 ^ 64 -> a = sp - 8 * (Z.of_nat i + 1) -> load64 m a = v.
Proof.
  intros Hsp Hk Hi Hv ->. pose proof (lookup_lt_Some _ _ _ Hi) as Hlt.
  rewrite (load_ext 8 m (push_words m0 sp l)); [by apply push_words_load|]. intros y Hy. apply Hk. lia.
Qed.

(** The CPU's frame, the word the stub pushes or the error code, and the scratch registers. *)
Definition frame_words (g : regs) (w : Z) : list Z :=
  [ss g; rsp g; rflags g; cs g; rip g; w; rax g; rcx g; rdx g; rsi g; rdi g; r8 g; r9 g; r10 g; r11 g].

Lemma align16 x : 0 <= x < 2 ^ 64 -> 0 <= x &b not64 15 <= x /\ (x &b not64 15) mod 16 = 0.
Proof.
  intros Hx. change (not64 15) with (Z.ldiff (Z.ones 64) (Z.ones 4)).
  assert (x &b Z.ldiff (Z.ones 64) (Z.ones 4) = x - x mod 16) as ->; [|zlia].
  transitivity (Z.shiftl (Z.shiftr x 4) 4).
  - apply Z.bits_inj'. intros i Hi. rewrite Z.land_spec, Z.ldiff_spec.
    destruct (Z.ltb_spec i 4).
    + rewrite Z.shiftl_spec_low by lia. rewrite (Z.ones_spec_low 4) by lia. by rewrite !andb_false_r.
    + rewrite Z.shiftl_spec_high, Z.shiftr_spec by lia. rewrite (Z.ones_spec_high 4) by lia.
      replace (i - 4 + 4) with i by lia. destruct (Z.ltb_spec i 64).
      * rewrite Z.ones_spec_low by lia. by rewrite !andb_true_r.
      * rewrite (Z.bits_above_log2 x i); [done|lia|]. destruct (decide (x = 0)) as [->|]; [cbn; lia|].
        enough (Z.log2 x < 64) by lia. apply Z.log2_lt_pow2; lia.
  - rewrite Z.shiftr_div_pow2, Z.shiftl_mul_pow2 by lia. change (2 ^ 4) with 16. pose proof (Z.div_mod x 16). lia.
Qed.

Lemma deliver_eq gate rsp0 err g m : 48 <= frame_base rsp0 g < 2 ^ 64 ->
  let words := [ss g; rsp g; rflags g; cs g; rip g] ++ match err with Some e => [e] | None => [] end in
  deliver gate rsp0 err (g, m) =
    (mk_regs (rax g) (rcx g) (rdx g) (rsi g) (rdi g) (r8 g) (r9 g) (r10 g) (r11 g)
       (frame_base rsp0 g - 8 * Z.of_nat (List.length words)) gate
       (rflags g &b not64 GATE_FLAGS) Idt.IDT_KERNEL_CS (if from_user g then 0 else ss g),
     push_words m (frame_base rsp0 g) words).
Proof.
  intros Hb words. unfold deliver. fold words. rewrite pushes_eq; [done|].
  cbn [rsp set_rsp]. destruct err; cbn in *; lia.
Qed.

(** The memory and the stack pointer once the scratch registers are saved. *)
Lemma saved_frame g g' w m base : 120 <= base < 2 ^ 64 -> rsp g' = base - 48 ->
  [rax g'; rcx g'; rdx g'; rsi g'; rdi g'; r8 g'; r9 g'; r10 g'; r11 g'] =
    [rax g; rcx g; rdx g; rsi g; rdi g; r8 g; r9 g; r10 g; r11 g] ->
  save_scratch (g', push_words m base [ss g; rsp g; rflags g; cs g; rip g; w]) =
    (set_rsp g' (base - 120), push_words m base (frame_words g w)).
Proof.
  intros Hb Hr Hl. unfold save_scratch. cbn [fst]. rewrite Hl, pushes_eq by (cbn; lia). cbn [List.length].
  f_equal; [f_equal; lia|]. rewrite Hr.
  replace (base - 48) with (base - 8 * Z.of_nat (List.length [ss g; rsp g; rflags g; cs g; rip g; w])) by (cbn; lia).
  rewrite push_words_app by (cbn; lia). done.
Qed.

(** [sub rsp, 8] before a call, [add rsp, 8] after it. *)
Lemma align_slot x : 0 <= x < 2 ^ 64 -> u64 (u64 (x - 8) + 8) = x.
Proof. unfold u64. intros. zlia. Qed.

(** The way out: pops, the word skipped, [iretq]. *)
Lemma return_frame g gx w m0 m base : regs_ok g -> 0 <= w < 2 ^ 64 -> 120 <= base < 2 ^ 64 ->
  rsp gx = base - 120 -> frame_kept (push_words m0 base (frame_words g w)) m (base - 120) base ->
  iretq (set_rsp (restore_scratch gx m) (u64 (rsp (restore_scratch gx m) + 8))) m = g.
Proof.
  intros Hg Hw Hb Hr Hk.
  assert (forall i v a, frame_words g w !! i = Some v -> a = base - 8 * (Z.of_nat i + 1) -> load64 m a = v) as Hword.
  { intros i v a Hi Ha. apply (frame_word (frame_words g w) m0 m base i); [cbn; lia|exact Hk|done| |done].
    unfold regs_ok in Hg. repeat apply Forall_cons in Hg as [? Hg]. clear Hk Ha.
    do 15 (destruct i as [|i]; [injection Hi as <-; done|]). done. }
  unfold iretq, restore_scratch. rewrite Hr. cbn [rsp set_rsp rax rcx rdx rsi rdi r8 r9 r10 r11 rip rflags cs ss].
  rewrite (u64_small (base - 120 + 72)) by lia. rewrite u64_small by lia.
  rewrite (Hword 6%nat (rax g)), (Hword 7%nat (rcx g)), (Hword 8%nat (rdx g)), (Hword 9%nat (rsi g)), (Hword 10%nat (rdi g)),
    (Hword 11%nat (r8 g)), (Hword 12%nat (r9 g)), (Hword 13%nat (r10 g)), (Hword 14%nat (r11 g)), (Hword 1%nat (rsp g)),
    (Hword 4%nat (rip g)), (Hword 2%nat (rflags g)), (Hword 3%nat (cs g)), (Hword 0%nat (ss g)) by (done || lia).
  by destruct g.
Qed.

(** ** Interrupts *)

Import Keyboard.

Lemma load32_low m a : bytes_ok m -> load32 m a = load64 m a mod 2 ^ 32.
Proof. intros Hm. rewrite load64_split. pose proof (load_range 4 m a Hm). pose proof (load_range 4 m (a + 4) Hm). zlia. Qed.

Lemma keyboard_handler_ok {D} `{!Bus D} k (d : D) : kb_inv k -> Forall (fun c => 0 <= c < 256) (kb_queue k) ->
  let k' := fst (Keyboard.keyboard_irq_handler k d) in kb_inv k' /\ Forall (fun c => 0 <= c < 256) (kb_queue k').
Proof.
  intros Hk Hq. unfold Keyboard.keyboard_irq_handler. destruct (inb _ d) as [sc d']. cbv zeta.
  destruct (has sc 0x80); [done|]. destruct (sc =? 0xE0); [done|]. destruct (sc <? KB_SC_MAX); [|done].
  set (ch := nth (Z.to_nat sc) sc_to_ascii 0). destruct (negb (ch =? 0)); [|done]. cbn [fst].
  destruct (buf_push_spec k ch Hk) as [Hi ->]. split; [done|]. destruct (_ <? 255); [|done].
  apply Forall_app. split; [done|]. apply Forall_singleton.
  assert (Forall (fun c => 0 <= c < 256) sc_to_ascii) as Hall by (unfold sc_to_ascii; repeat constructor; lia).
  unfold ch. destruct (nth_in_or_default (Z.to_nat sc) sc_to_ascii 0) as [Hin| ->]; [|lia].
  rewrite Forall_forall in Hall. apply Hall. by apply list_elem_of_In.
Qed.

(** The registers a C function keeps. *)
Definition callee (c : cpu_context) : list Z :=
  [Proc.rbx c; Proc.rbp c; Proc.r12 c; Proc.r13 c; Proc.r14 c; Proc.r15 c].

Section irq_spec.
Context {A N D : Type} `{!FrameAlloc A} `{!Bus D}.
Implicit Types s : ist A N.
Variable net_poll : hst A * N * D -> hst A * N * D.
Variable (yret depth : Z).
(** Addresses the network code leaves alone. *)
Variable K : Z -> Prop.
Hypothesis net_keeps : forall h n d x, K x -> mm (hk (fst (fst (net_poll (h, n, d))))) x = mm (hk h) x.

(** What an interrupt handler finds and leaves: the terminal and the run queue are
    well-formed, the callee-saved registers and the memory the network does not use
    are as they were. *)
Record irq_inv (m : mem) (c0 : cpu_context) (q : list Z) s : Prop := {
  ii_tty : Tty.tty_ok (i_tty s);
  ii_sched : sched_inv (i_ps s) q;
  ii_cpu : cpu (i_ps s) = c0;
  ii_mem x : K x -> i_mem s x = m x
}.

Lemma tick_inv p q : sched_inv p q -> sched_inv (scheduler_tick p) q /\ cpu (scheduler_tick p) = cpu p.
Proof.
  intros H. unfold scheduler_tick. cbv zeta. destruct (_ <=? _); [|split; [|done]; by apply (sched_inv_ext p); [|apply H|..]].
  destruct (current_proc _) as [c|] eqn:Ec; [destruct (negb _)|];
    (split; [|done]); by apply (sched_inv_ext p); [|apply H|..].
Qed.
Lemma timer_call_ok m c0 q f s d : irq_inv m c0 q s ->
  exists s' d', timer_call net_poll f (Some (s, d)) = Some (s', d') /\ irq_inv m c0 q s'.
Proof.
  intros [Ht Hs Hc Hf]. destruct f; cbn [timer_call].
  - destruct (Tty.tty_poll_ok (i_tty s) d Ht) as (t' & d' & E & Ht' & _).
    rewrite E. by eexists _, _.
  - destruct (tick_inv _ _ Hs) as [Hs' Hc']. eexists _, _. split; [done|]. split; [done|done| |done]. cbn. by rewrite Hc'.
  - pose proof (net_keeps (i_heap s) (i_net s) d) as Hn. destruct (net_poll _) as [[h n] d']. cbn [fst snd] in Hn.
    eexists _, _. split; [done|]. split; [done|done|done|]. intros x Hx. unfold i_mem. cbn. rewrite Hn by done. by apply Hf.
Qed.
Lemma timer_calls_ok m c0 q l : forall s d, irq_inv m c0 q s ->
  exists s' d', fold_left (fun x f => timer_call net_poll f x) l (Some (s, d)) = Some (s', d') /\ irq_inv m c0 q s'.
Proof.
  induction l as [|f l IH]; intros s d Hi; cbn [fold_left]; [by eexists _, _|].
  destruct (timer_call_ok m c0 q f s d Hi) as (s' & d' & -> & Hi'). by apply IH.
Qed.
Lemma dispatch_ok m c0 q handlers n s d : irq_inv m c0 q s ->
  exists s' d', Pic.irq_dispatch (irq_call net_poll) handlers n (Some s) d = (Some s', d') /\ irq_inv m c0 q s'.
Proof.
  intros Hi. unfold Pic.irq_dispatch. generalize (Pic.pic_eoi n d). clear d. intros d.
  destruct (n <? Pic.IRQ_COUNT); [|by eexists _, _]. destruct (handlers !! _) as [[f|]|]; [|by eexists _, _..].
  destruct f; cbn [irq_call].
  - unfold Timer.timer_irq_handler. destruct (timer_calls_ok m c0 q (Timer.callbacks (i_timer s)) s d Hi) as (s' & d' & -> & Hi').
    eexists _, _. split; [done|]. by destruct Hi'; split.
  - destruct Hi as [Ht Hs Hc Hf]. pose proof (keyboard_handler_ok (Tty.kb (i_tty s)) d (Tty.to_kb _ Ht) (Tty.to_bytes _ Ht)) as Hk.
    destruct (Keyboard.keyboard_irq_handler _ d) as [k d']. destruct Hk as [Hk1 Hk2].
    eexists _, _. split; [done|]. split; [|done|done|done]. by destruct Ht; split.
Qed.

(** The preemption point with a yield pending: nobody else can run and the stub goes on,
    or the context is saved and the next process's loaded. *)
Lemma yield_point_pending sp s c t : sched_inv (i_ps s) (c :: t) -> yield_pending (i_ps s) <> 0 ->
  let sy := call_yield yret depth sp (is_ps s (ps_yield_pending (i_ps s) 0)) in
  sched_inv (i_ps sy) (c :: t) /\
  match first_idx (fun p => runnable (get_proc (i_ps s) p)) t with
  | None => yield_point yret depth 64 sp s = Some (false, sy)
  | Some i => exists n p' h', t !! i = Some n /\ scheduler_yield 64 (i_ps sy) (i_heap sy) = Some (p', h') /\
      yield_post (i_ps sy) (i_heap sy) c n p' h' /\ current_proc p' <> Some c /\
      yield_point yret depth 64 sp s = Some (true, is_sched sy p' h')
  end.
Proof.
  intros Hs Hp sy. assert (sched_inv (i_ps sy) (c :: t)) as Hsy by (by apply (sched_inv_ext (i_ps s)); [|apply Hs|..]).
  split; [done|]. pose proof (yield_spec (i_ps sy) (i_heap sy) c t 64 Hsy ltac:(lia)) as Hy.
  change (fun p => runnable (get_proc (i_ps sy) p)) with (fun p => runnable (get_proc (i_ps s) p)) in Hy.
  unfold yield_point. rewrite (proj2 (Z.eqb_neq _ 0) Hp). cbv zeta. fold sy.
  pose proof (sv_ring _ _ Hsy) as (c' & t' & [= <- <-] & _ & Hcur & _).
  destruct (first_idx _ t) as [i|].
  - destruct Hy as (n & p' & h' & Hn & E & Hpost). exists n, p', h'. rewrite E, (yp_cur _ _ _ _ _ _ Hpost), Hcur.
    assert (n <> c) as Hne.
    { intros ->. pose proof (sv_nodup _ _ Hs) as Hnd. apply NoDup_cons in Hnd as [Hnd _].
      apply Hnd. by eapply list_elem_of_lookup_2. }
    rewrite bool_decide_eq_false_2 by congruence. splits; done || congruence.
  - rewrite Hy, bool_decide_eq_true_2 by done. cbn [negb]. by destruct sy.
Qed.
(** [call_yield] writes the return address below the stack pointer, nothing else. *)
Lemma call_yield_mem sp s x : depth <= sp < 2 ^ 64 -> 8 <= depth -> ~ (sp - depth <= x < sp) ->
  i_mem (call_yield yret depth sp s) x = i_mem s x.
Proof.
  intros Hsp Hd Hx. unfold call_yield. cbv zeta. rewrite u64_small by lia.
  change (store64 (i_mem s) (sp - depth) yret x = i_mem s x). apply store_other. lia.
Qed.

Lemma call_yield_slot sp s : depth <= sp < 2 ^ 64 -> 16 <= depth -> 0 <= yret < 2 ^ 64 ->
  let sy := call_yield yret depth sp s in
  Proc.rsp (cpu (i_ps sy)) = sp - depth /\ load64 (i_mem sy) (sp - depth) = yret /\ callee (cpu (i_ps sy)) = callee (cpu (i_ps s)).
Proof.
  intros Hsp Hd Hy sy. unfold sy, call_yield. cbv zeta. rewrite u64_small by lia. split; [done|]. split; [|done].
  change (load64 (store64 (i_mem s) (sp - depth) yret) (sp - depth) = yret). rewrite load_store_eq. apply Z.mod_small. lia.
Qed.

Lemma i_mem_is_mem s m : i_mem (is_mem s m) = m.
Proof. done. Qed.
Lemma is_mem_is_mem s m m' : is_mem (is_mem s m) m' = is_mem s m'.
Proof. done. Qed.
(** The whole path as dispatch, preemption point and return. *)
Lemma interrupt_eq gate n fuel handlers g s d : regs_ok g -> 0 <= n < 16 -> bytes_ok (i_mem s) ->
  120 <= frame_base (tss_rsp0 (i_ps s)) g < 2 ^ 64 ->
  let base := frame_base (tss_rsp0 (i_ps s)) g in
  exists gx, rsp gx = base - 120 /\
  interrupt net_poll yret depth gate n fuel handlers g s d =
    match Pic.irq_dispatch (irq_call net_poll) handlers n (Some (is_mem s (push_words (i_mem s) base (frame_words g n)))) d with
    | (None, _) => None
    | (Some s, d) =>
        match yield_point yret depth fuel (base - 120) s with
        | None => None
        | Some (true, s) => Some (Switched, s, d)
        | Some (false, s) => Some (Returned (irq_tail gx (i_mem s)), s, d)
        end
    end.
Proof.
  intros Hg Hn Hm Hb base. unfold interrupt. rewrite deliver_eq by lia. fold base. cbn [List.length app].
  unfold irq_stub. rewrite i_mem_is_mem, push_one by (cbn; lia). cbn [rsp].
  replace (base - 8 * Z.of_nat 5) with (base - 8 * Z.of_nat (List.length [ss g; rsp g; rflags g; cs g; rip g])) by (cbn; lia).
  rewrite push_words_app by (cbn; lia). cbn [app]. unfold irq_common. rewrite !i_mem_is_mem, !is_mem_is_mem.
  rewrite (saved_frame g) by (done || (cbn; lia)). rewrite is_mem_is_mem. cbn [rsp set_rsp].
  assert (bytes_ok (push_words (i_mem s) base (frame_words g n))) as Hm1 by (by apply push_words_bytes).
  assert (load64 (push_words (i_mem s) base (frame_words g n)) (base - 120 + 72) = n) as E.
  { apply (frame_word (frame_words g n) (i_mem s) _ base 5); [cbn; lia|done|done|lia|cbn; lia]. }
  revert E Hm1. generalize (push_words (i_mem s) base (frame_words g n)). intros m1 E Hm1.
  assert (u8 (load32 m1 (base - 120 + 72) &b 0xFF) = n) as ->.
  { rewrite load32_low by done. rewrite E. change 0xFF with (Z.ones 8). rewrite Z.land_ones by lia.
    unfold u8. rewrite (Z.mod_small n (2 ^ 32)), (Z.mod_small n (2 ^ 8)) by lia. apply Z.mod_small. lia. }
  rewrite align_slot by lia.
  eexists. split; [|reflexivity]. done.
Qed.

(** Switched out in the stub and in again later: the stub goes on where it was and
    returns to the interrupted code. *)
Lemma stub_resumes g n m0 base (sy : ist A N) c t x1 x2 x3 gx : regs_ok g -> 0 <= n < 16 ->
  depth + 120 <= base < 2 ^ 64 -> 16 <= depth -> 0 <= yret < 2 ^ 64 ->
  sched_inv (i_ps sy) (c :: t) -> Proc.rsp (cpu (i_ps sy)) = base - 120 - depth ->
  load64 (i_mem sy) (base - 120 - depth) = yret ->
  scheduler_yield 64 (i_ps sy) (i_heap sy) = Some x1 -> current_proc (fst x1) <> Some c ->
  rtc (away c) x1 x2 -> scheduler_yield 64 (fst x2) (snd x2) = Some x3 -> current_proc (fst x3) = Some c ->
  frame_kept (push_words m0 base (frame_words g n)) (mm (hk (snd x3))) (base - 120) base ->
  callee (cpu (fst x3)) = callee (cpu (i_ps sy)) /\ resume_stub yret depth gx (fst x3) (mm (hk (snd x3))) = Some g.
Proof.
  intros Hg Hn Hb Hd Hyr Hs Hsp Hret Hy Hc1 Haw Hy3 Hc3 Hk.
  destruct (switched_back c t (i_ps sy) (i_heap sy) x1 x2 x3 Hs Hy Hc1 Haw Hy3 Hc3) as [Hcpu _].
  split; [by rewrite Hcpu|]. unfold resume_stub. rewrite Hcpu. unfold Proc.saved_ctx. cbn [Proc.rip Proc.rsp]. rewrite Hsp.
  change (mm (hk (i_heap sy))) with (i_mem sy). rewrite Hret, Z.eqb_refl. f_equal.
  rewrite (u64_small (base - 120 - depth + 8)) by lia. rewrite u64_small by lia. unfold irq_tail.
  apply (return_frame g _ n m0 (mm (hk (snd x3))) base); [done|lia|lia| |done]. cbn [rsp set_rsp]. lia.
Qed.
End irq_spec.

Section irq_theorems.
Context {A N D : Type} `{!FrameAlloc A} `{!Bus D}.
Implicit Types s : ist A N.
Variable net_poll : hst A * N * D -> hst A * N * D.
Variable (yret depth : Z).

(** The interrupted process [c], switched out in the state [s], is in the stub of an
    interrupt of code with the registers [g] and the callee-saved registers [cs]:
    however the other processes run meanwhile, if they leave its kernel stack's frame
    alone, then when it is switched in again the stub returns to the interrupted
    code with all these registers. *)
Definition resumes (g : regs) (cs : list Z) (base c : Z) s : Prop :=
  forall x2 x3 gx, rtc (away c) (i_ps s, i_heap s) x2 -> scheduler_yield 64 (fst x2) (snd x2) = Some x3 ->
    current_proc (fst x3) = Some c -> frame_kept (i_mem s) (mm (hk (snd x3))) (base - 120) base ->
    callee (cpu (fst x3)) = cs /\ resume_stub yret depth gx (fst x3) (mm (hk (snd x3))) = Some g.

Section one_interrupt.
Variable (K : Z -> Prop) (g : regs) (n : Z) (s : ist A N) (c : Z) (t : list Z).
Hypothesis (net_keeps : forall h n d x, K x -> mm (hk (fst (fst (net_poll (h, n, d))))) x = mm (hk h) x).
Hypothesis (Hg : regs_ok g) (Hn : 0 <= n < 16) (Hyret : 0 <= yret < 2 ^ 64) (Hdepth : 16 <= depth).
Let base := frame_base (tss_rsp0 (i_ps s)) g.
Hypothesis (Hb : depth + 120 <= base < 2 ^ 64) (HK : forall x, base - 120 <= x < base -> K x).
Let m1 := push_words (i_mem s) base (frame_words g n).

(** After the dispatch: the rest of the stub. *)
Lemma after_dispatch gx s1 : rsp gx = base - 120 -> irq_inv K m1 (cpu (i_ps s)) (c :: t) s1 ->
  let next := if yield_pending (i_ps s1) =? 0 then None else first_idx (fun p => runnable (get_proc (i_ps s1) p)) t in
  exists s', (forall x, K x -> ~ (base - 120 - depth <= x < base) -> i_mem s' x = i_mem s x) /\
  match next with
  | None => yield_point yret depth 64 (base - 120) s1 = Some (false, s') /\ irq_tail gx (i_mem s') = g /\
      callee (cpu (i_ps s')) = callee (cpu (i_ps s)) /\ current_proc (i_ps s') = Some c
  | Some i => yield_point yret depth 64 (base - 120) s1 = Some (true, s') /\ resumes g (callee (cpu (i_ps s))) base c s' /\
      i_timer s' = i_timer s1 /\ i_tty s' = i_tty s1 /\
      exists nx, t !! i = Some nx /\
        let p1 := i_ps (call_yield yret depth (base - 120) (is_ps s1 (ps_yield_pending (i_ps s1) 0))) in
        sched_inv p1 (c :: t) /\ exists h1, yield_post p1 h1 c nx (i_ps s') (i_heap s')
  end.
Proof.
  intros Hgx [Ht Hs Hc Hm] next.
  assert (forall x, ~ (base - 120 <= x < base) -> m1 x = i_mem s x) as Hout by (intros x Hx; apply push_words_out; cbn; lia).
  assert (forall m, frame_kept m1 m (base - 120) base -> irq_tail gx m = g) as Hret.
  { intros m Hk. apply (return_frame g gx n (i_mem s) m base); [done|lia|lia|done|exact Hk]. }
  pose proof (sv_ring _ _ Hs) as (c' & t' & [= <- <-] & _ & Hcur & _). unfold next. destruct (Z.eqb_spec (yield_pending (i_ps s1)) 0) as [Hp|Hp].
  { exists s1. split; [intros x Hx Ho; rewrite Hm by done; apply Hout; lia|].
    unfold yield_point. rewrite Hp. splits; try done; [apply Hret; intros x Hx; by apply Hm, HK|by rewrite Hc]. }
  destruct (yield_point_pending yret depth (base - 120) s1 c t Hs Hp) as [Hsy Hy].
  pose proof (fun x => call_yield_mem yret depth (base - 120) (is_ps s1 (ps_yield_pending (i_ps s1) 0)) x ltac:(lia) ltac:(lia)) as Hym.
  pose proof (call_yield_slot yret depth (base - 120) (is_ps s1 (ps_yield_pending (i_ps s1) 0)) ltac:(lia) Hdepth Hyret) as (Hsp & Hslot & Hcal).
  set (sy := call_yield _ _ _ _) in *. change (i_mem (is_ps s1 _)) with (i_mem s1) in Hym. cbn [is_ps i_ps ps_yield_pending cpu] in Hcal. rewrite Hc in Hcal.
  assert (frame_kept m1 (i_mem sy) (base - 120) base) as Hfr by (intros x Hx; rewrite Hym by lia; by apply Hm, HK).
  assert (forall x, K x -> ~ (base - 120 - depth <= x < base) -> i_mem sy x = i_mem s x) as Hkeep.
  { intros x Hx Ho. rewrite Hym by lia. rewrite Hm by done. apply Hout. lia. }
  destruct (first_idx _ t) as [i|].
  - destruct Hy as (nx & p' & h' & Hnx & Ey & Hpost & Hne & Eyp). exists (is_sched sy p' h').
    assert (i_mem (is_sched sy p' h') = i_mem sy) as Em by apply (yp_mem _ _ _ _ _ _ Hpost).
    split; [by rewrite Em|]. split; [done|]. split; [|split; [done|split; [done|]]].
    + intros x2 x3 gy Haw Hy3 Hc3 Hk. rewrite Em in Hk. rewrite <- Hcal.
      apply (stub_resumes yret depth g n (i_mem s) base sy c t (p', h') x2 x3 gy); try done.
      intros x Hx. rewrite Hk by done. by apply Hfr.
    + exists nx. split; [done|]. split; [done|]. by exists (i_heap sy).
  - exists sy. split; [done|]. splits; try done. by apply Hret.
Qed.
End one_interrupt.

(** C20. Interrupts are transparent: an interrupt on line [n], whatever it interrupts (a
    process in user mode or the kernel), calls [irq_dispatch] with exactly [n] and keeps
    terminal and run queue well-formed.  Unless a yield is pending then and another
    process can run, it returns with all the registers (general, callee-saved, stack
    pointer, instruction pointer, flags, segments) the interrupted code had;
    otherwise another process is switched to, and the interrupted one goes on with all these
    registers when it is switched in again.  Memory that [net_poll] leaves alone is
    unchanged but for the stack below the interrupted frame. *)
Theorem irq_transparent (K : Z -> Prop) gate n handlers g s d c t
    (Hg : regs_ok g) (Hn : 0 <= n < 16) (Hm : bytes_ok (i_mem s))
    (Ht : Tty.tty_ok (i_tty s)) (Hs : sched_inv (i_ps s) (c :: t)) (Hyret : 0 <= yret < 2 ^ 64) (Hdepth : 16 <= depth) :
  let base := frame_base (tss_rsp0 (i_ps s)) g in
  depth + 120 <= base < 2 ^ 64 ->
  (forall h n d x, K x -> mm (hk (fst (fst (net_poll (h, n, d))))) x = mm (hk h) x) ->
  (forall x, base - 120 <= x < base -> K x) ->
  exists s1 d1 s' e,
    Pic.irq_dispatch (irq_call net_poll) handlers n (Some (is_mem s (push_words (i_mem s) base (frame_words g n)))) d = (Some s1, d1) /\
    Tty.tty_ok (i_tty s1) /\ sched_inv (i_ps s1) (c :: t) /\
    interrupt net_poll yret depth gate n 64 handlers g s d = Some (e, s', d1) /\
    (forall x, K x -> ~ (base - 120 - depth <= x < base) -> i_mem s' x = i_mem s x) /\
    (yield_pending (i_ps s1) = 0 \/ Forall (fun p => runnable (get_proc (i_ps s1) p) = false) t ->
       e = Returned g /\ callee (cpu (i_ps s')) = callee (cpu (i_ps s)) /\ current_proc (i_ps s') = Some c) /\
    (yield_pending (i_ps s1) <> 0 /\ Exists (fun p => runnable (get_proc (i_ps s1) p) = true) t ->
       e = Switched /\ resumes g (callee (cpu (i_ps s))) base c s').
Proof.
  intros base Hb Hnet HK. set (m1 := push_words (i_mem s) base (frame_words g n)).
  destruct (interrupt_eq net_poll yret depth gate n 64 handlers g s d Hg Hn Hm ltac:(lia)) as (gx & Hgx & ->). fold base. fold m1.
  destruct (dispatch_ok net_poll K Hnet m1 (cpu (i_ps s)) (c :: t) handlers n (is_mem s m1) d) as (s1 & d1 & -> & Hi); [by split|].
  destruct (after_dispatch K g n s c t Hg Hn Hyret Hdepth Hb HK gx s1 Hgx Hi) as (s' & Hmem & Hrest). fold base in Hrest, Hmem.
  destruct Hi as [Ht1 Hs1 _ _]. destruct (Z.eqb_spec (yield_pending (i_ps s1)) 0) as [Hp|Hp].
  { destruct Hrest as (E & Hr & Hcal & Hcur). exists s1, d1, s', (Returned g). rewrite E, Hr. splits; try done. by intros [? _]. }
  destruct (first_idx _ t) as [i|] eqn:Ei.
  - destruct Hrest as (E & Hr & _). exists s1, d1, s', Switched. rewrite E. splits; try done.
    intros [?|Hall]; [done|]. apply first_idx_Some in Ei as [(p & Hp1 & Hp2) _].
    pose proof (Forall_lookup_1 _ _ _ _ Hall Hp1) as Hf. cbn in Hf, Hp2. congruence.
  - destruct Hrest as (E & Hr & Hcal & Hcur). exists s1, d1, s', (Returned g). rewrite E, Hr. splits; try done.
    intros [_ Hex]. apply first_idx_None in Ei. apply Exists_exists in Hex as (p & Hin & Hrun).
    rewrite Forall_forall in Ei. specialize (Ei p Hin). cbn in Ei. congruence.
Qed.

(** The dispatch of the timer line with the callbacks the modules register. *)
Lemma timer_dispatch handlers s d t' d1 h n d2 : handlers !! 0%nat = Some (Some Pic.timer_irq_fn) ->
  Timer.callbacks (i_timer s) = [Timer.tty_poll_fn; Timer.scheduler_tick_fn; Timer.net_poll_fn] ->
  Tty.tty_poll (i_tty s) (Pic.pic_eoi 0 d) = Some (t', d1) -> net_poll (i_heap s, i_net s, d1) = (h, n, d2) ->
  Pic.irq_dispatch (irq_call net_poll) handlers 0 (Some s) d =
    (Some (mk_ist (Timer.mk_timer (u64 (Timer.ticks (i_timer s) + 1)) (Timer.callbacks (i_timer s)))
             t' (scheduler_tick (i_ps s)) h n), d2).
Proof.
  intros Hh Hcb Ht Hn. unfold Pic.irq_dispatch. change (Z.to_nat 0) with 0%nat. rewrite Hh. change (0 <? Pic.IRQ_COUNT) with true. cbn [irq_call].
  unfold Timer.timer_irq_handler. rewrite Hcb. cbn [fold_left timer_call]. rewrite Ht.
  cbn [timer_call]. unfold is_tty, is_ps. cbn [i_timer i_tty i_ps i_heap i_net]. by rewrite Hn.
Qed.
Lemma slice_over p c : tick_counter p = SCHED_TICKS_PER_SLICE - 1 -> current_proc p = Some c -> p_pid (get_proc p c) <> 0 ->
  scheduler_tick p = ps_yield_pending (ps_tick_counter p 0) 1.
Proof.
  intros Ht Hc Hp. unfold scheduler_tick. rewrite Ht. cbv zeta. cbn [tick_counter ps_tick_counter current_proc]. rewrite Hc.
  change (_ <=? _) with true. cbv iota. cbn [ps_tick_counter proc_table get_proc]. by rewrite (proj2 (Z.eqb_neq _ 0)).
Qed.

(** C17. Preemption: the timer interrupt that ends the slice of a running process (not the
    idle one) while another process can run counts a tick, gives the typed characters to
    the terminal, and switches to the first runnable process after the current one in
    the run queue, whose context is loaded into the CPU; the interrupted process is left ready
    and goes to its place at the end of the rotated queue.  However the other processes
    run and yield from then on, short of writing to its kernel stack's frame, when
    [context_switch] loads its context again, the stub goes on and returns to the
    interrupted code with all the registers this had: callee-saved, scratch, stack
    pointer, instruction pointer, flags and segments. *)
Theorem timer_preempts gate handlers g s d c t i nx
    (Hg : regs_ok g) (Hm : bytes_ok (i_mem s)) (Ht : Tty.tty_ok (i_tty s)) (Hs : sched_inv (i_ps s) (c :: t))
    (Hh : handlers !! 0%nat = Some (Some Pic.timer_irq_fn))
    (Hcb : Timer.callbacks (i_timer s) = [Timer.tty_poll_fn; Timer.scheduler_tick_fn; Timer.net_poll_fn])
    (Hlast : tick_counter (i_ps s) = SCHED_TICKS_PER_SLICE - 1)
    (Hc : p_pid (get_proc (i_ps s) c) <> 0 /\ p_state (get_proc (i_ps s) c) = PROC_RUNNING)
    (Hi : first_idx (fun p => runnable (get_proc (i_ps s) p)) t = Some i) (Hnx : t !! i = Some nx)
    (Hyret : 0 <= yret < 2 ^ 64) (Hdepth : 16 <= depth) :
  let base := frame_base (tss_rsp0 (i_ps s)) g in
  depth + 120 <= base < 2 ^ 64 ->
  (forall h n d, frame_kept (mm (hk h)) (mm (hk (fst (fst (net_poll (h, n, d)))))) (base - 120) base) ->
  exists s1 d1,
    interrupt net_poll yret depth gate 0 64 handlers g s d = Some (Switched, s1, d1) /\
    Timer.ticks (i_timer s1) = u64 (Timer.ticks (i_timer s) + 1) /\
    Tty.abs (i_tty s1) = fold_left Tty.cook (kb_queue (Tty.kb (i_tty s))) (Tty.abs (i_tty s)) /\
    current_proc (i_ps s1) = Some nx /\ cpu (i_ps s1) = p_ctx (get_proc (i_ps s) nx) /\
    p_state (get_proc (i_ps s1) c) = PROC_READY /\ sched_inv (i_ps s1) (drop i t ++ c :: take i t) /\
    forall x2 x3 gx, rtc (away c) (i_ps s1, i_heap s1) x2 -> scheduler_yield 64 (fst x2) (snd x2) = Some x3 ->
      current_proc (fst x3) = Some c -> frame_kept (i_mem s1) (mm (hk (snd x3))) (base - 120) base ->
      callee (cpu (fst x3)) = callee (cpu (i_ps s)) /\ resume_stub yret depth gx (fst x3) (mm (hk (snd x3))) = Some g.
Proof.
  intros base Hb Hnet. set (m1 := push_words (i_mem s) base (frame_words g 0)).
  pose proof (sv_ring _ _ Hs) as (c' & t' & [= <- <-] & _ & Hcur & _). pose proof (Forall_inv (sv_range _ _ Hs)) as Hcr.
  destruct (interrupt_eq net_poll yret depth gate 0 64 handlers g s d Hg ltac:(lia) Hm ltac:(lia)) as (gx & Hgx & ->). fold base. fold m1.
  set (K := fun x => base - 120 <= x < base).
  assert (forall h n d x, K x -> mm (hk (fst (fst (net_poll (h, n, d))))) x = mm (hk h) x) as HnetK by (intros h n d' x Hx; by apply Hnet).
  destruct (dispatch_ok net_poll K HnetK m1 (cpu (i_ps s)) (c :: t) handlers 0 (is_mem s m1) d) as (s0 & d0 & E0 & Hi0); [by split|].
  destruct (Tty.tty_poll_ok (i_tty s) (Pic.pic_eoi 0 d) Ht) as (tt' & d1 & Et & _ & _ & Habs).
  destruct (net_poll (i_heap (is_mem s m1), i_net s, d1)) as [[h n] d2] eqn:En.
  pose proof (timer_dispatch handlers (is_mem s m1) d tt' d1 h n d2 Hh Hcb Et En) as E1. rewrite E0 in E1.
  cbn [is_mem is_sched i_timer i_ps i_tty] in E1. rewrite (slice_over _ c) in E1 by (done || apply Hc).
  rewrite E0. destruct (after_dispatch K g 0 s c t Hg ltac:(lia) Hyret Hdepth Hb ltac:(done) gx s0 Hgx Hi0) as (s' & _ & Hrest).
  injection E1 as -> ->. fold base in Hrest. cbn [i_ps yield_pending ps_yield_pending] in Hrest. change (1 =? 0) with false in Hrest. cbv iota in Hrest.
  change (first_idx _ t) with (first_idx (fun p => runnable (get_proc (i_ps s) p)) t) in Hrest. rewrite Hi in Hrest.
  destruct Hrest as (-> & Hres & Htim & Htty & nx' & Hnx' & Hs1 & h1 & Hpost). rewrite Hnx in Hnx'. injection Hnx' as <-.
  exists s', d2. split; [done|]. rewrite Htim, Htty. split; [done|]. split; [done|].
  split; [apply Hpost|]. split; [apply (yp_cpu _ _ _ _ _ _ Hpost)|].
  assert (nx <> c) as Hne.
  { intros ->. pose proof (sv_nodup _ _ Hs) as Hnd. apply NoDup_cons in Hnd as [Hnd _].
    apply Hnd. by eapply list_elem_of_lookup_2. }
  split; [|split; [by eapply yield_inv|exact Hres]].
  rewrite (yp_proc _ _ _ _ _ _ Hpost) by done. unfold switched. rewrite decide_False, decide_True by done.
  change (get_proc (i_ps (call_yield _ _ _ _)) c) with (get_proc (i_ps s) c). by rewrite (proj2 Hc).
Qed.
End irq_theorems.

(** ** Page faults *)

Section pf_spec.
Context {A : Type} `{!FrameAlloc A} `{!FrameAllocLaws A}.
Implicit Types k : kst A.

(** The fault path as the handler between two views of the stack. *)
Lemma page_fault_eq gate rsp0 err cr2 g k : regs_ok g -> 0 <= err < 2 ^ 64 -> 120 <= frame_base rsp0 g < 2 ^ 64 ->
  let base := frame_base rsp0 g in
  exists gx, rsp gx = base - 120 /\
  page_fault gate rsp0 err cr2 g k =
    match page_fault_handler_c (set_mm k (push_words (mm k) base (frame_words g err))) err cr2 with
    | None => None
    | Some k => let gy := restore_scratch gx (mm k) in Some (iretq (set_rsp gy (u64 (rsp gy + 8))) (mm k), k)
    end.
Proof.
  intros Hg He Hb base. unfold page_fault. rewrite deliver_eq by lia. fold base. cbn [List.length app]. unfold pf_stub. cbn [mm set_mm].
  rewrite (saved_frame g) by (done || (cbn; lia)). cbn [rsp set_rsp].
  assert (load64 (push_words (mm k) base (frame_words g err)) (base - 120 + 72) = err) as ->.
  { apply (frame_word (frame_words g err) (mm k) _ base 5); [cbn; lia|done|done|lia|cbn; lia]. }
  generalize (push_words (mm k) base (frame_words g err)). intros m1. rewrite align_slot by lia.
  eexists. split; [|reflexivity]. done.
Qed.

(** Writing the frame of the kernel stack keeps the address spaces. *)
Lemma stack_write_ok k L d m : vm_inv k L -> cow_pages_ok k L -> L d = O -> bytes_ok m ->
  (forall x, ~ (frame_va d <= x < frame_va d + PAGE_SIZE) -> m x = mm k x) ->
  vm_inv (set_mm k m) L /\ cow_pages_ok (set_mm k m) L /\
  (forall f i, L f <> O -> 0 <= i < 512 -> ent m f i = ent (mm k) f i) /\
  (forall r va, L r = 4%nat -> walkn 4 m r va = walkn 4 (mm k) r va /\ xlate m r va = xlate (mm k) r va).
Proof.
  intros Hinv Hcow Hd Hm Hx. assert (forall f i, L f <> O -> 0 <= i < 512 -> ent m f i = ent (mm k) f i) as He.
  { intros f i Hf Hi. apply (ent_frame_ext _ _ d); [by intros ->|done|done]. }
  split; [by apply (frame_write_inv k L d)|]. split; [|split; [done|]].
  - intros f i Hf Hi. cbn [mm set_mm fa]. rewrite He by (done || lia). by apply Hcow.
  - intros r va Hr. split; [|by apply (frame_write_xlate k L d)].
    apply (walkn_ext (mm k) m L); [apply Hinv|done|lia|]. intros f i Hf. apply He. lia.
Qed.

End pf_spec.

(** ** Exceptions *)

(** The report on the serial port and on the screen. *)
Definition nl : list Z := [10].
Definition dec (x : Z) : list Z := emit_uint (u32 x) 10 false.
Definition hex (x : Z) : list Z := str "0x" ++ emit_uint (u32 x) 16 false.
Definition exc_text (a : exc_args) : list Z := concat
  [ nl ++ str "*** CPU EXCEPTION ***" ++ nl;
    str "  Vec    : " ++ dec (x_vector a) ++ str " (" ++ exc_name (x_vector a) ++ str ")" ++ nl;
    str "  Error  : " ++ hex (x_error a) ++ nl; str "  RIP    : " ++ hex (x_rip a) ++ nl;
    str "  CS     : " ++ hex (x_cs a) ++ nl; str "  RFLAGS : " ++ hex (x_rflags a) ++ nl;
    str "  RSP    : " ++ hex (x_rsp a) ++ nl ].
Definition exc_banner (a : exc_args) : list Z := concat
  [ nl ++ str "*** CPU EXCEPTION: " ++ exc_name (x_vector a) ++ str " ***" ++ nl;
    str "  Vec=" ++ dec (x_vector a) ++ str " Err=" ++ hex (x_error a) ++ str " RIP=" ++ hex (x_rip a) ++ nl ].

Lemma u32_u32 x : u32 (u32 x) = u32 x.
Proof. apply Z.mod_mod. lia. Qed.
Ltac print_line := cbv -[emit_uint u32 exc_name]; rewrite ?u32_u32; reflexivity.
Lemma texts_cons fmt ap l a b : vkprintf fmt ap = Some a -> Console.texts l = Some (concat b) ->
  Console.texts ((fmt, ap) :: l) = Some (concat (a :: b)).
Proof. intros H1 H2. cbn [Console.texts]. by rewrite H1, H2. Qed.
Lemma exc_texts a : Console.texts (exc_serial a) = Some (exc_text a) /\ Console.texts (exc_screen a) = Some (exc_banner a).
Proof.
  unfold exc_serial, exc_screen, exc_text, exc_banner. cbv zeta.
  destruct a as [v e ri c f sp]. cbn [x_vector x_error x_rip x_cs x_rflags x_rsp].
  split; repeat (apply texts_cons; [print_line|]); reflexivity.
Qed.

(** The stubs agree with the processor on which exceptions have an error code. *)
Lemma stub_matches_cpu v : 0 <= v < 32 -> isr_has_err v = cpu_pushes_error v.
Proof. intros Hv. unfold isr_has_err, cpu_pushes_error. cbn [existsb cpu_error_vectors]. by rewrite orb_false_r, !orb_assoc. Qed.

(** What the stub's stack gives [exception_common]. *)
Lemma exception_args gate rsp0 v err g m : regs_ok g -> 0 <= v < 32 -> 0 <= err < 2 ^ 64 -> 56 <= frame_base rsp0 g < 2 ^ 64 ->
  exception_common (isr v (exception gate rsp0 v err (g, m))) =
    (frame_base rsp0 g - 48, mk_exc v (if cpu_pushes_error v then err else 0) (rip g) (cs g) (rflags g) (rsp g)).
Proof.
  intros Hg Hv He Hb. set (base := frame_base rsp0 g) in *. unfold exception, isr.
  rewrite <- stub_matches_cpu by done. rewrite deliver_eq by lia. fold base.
  set (words := [ss g; rsp g; rflags g; cs g; rip g; (if isr_has_err v then err else 0); v]).
  assert (exists g', rsp g' = base - 56 /\
    pushes (if isr_has_err v then [v] else [0; v])
      (mk_regs (rax g) (rcx g) (rdx g) (rsi g) (rdi g) (r8 g) (r9 g) (r10 g) (r11 g)
         (base - 8 * Z.of_nat (List.length ([ss g; rsp g; rflags g; cs g; rip g] ++ match (if isr_has_err v then Some err else None) with Some e => [e] | None => [] end))) gate
         (rflags g &b not64 GATE_FLAGS) Idt.IDT_KERNEL_CS (if from_user g then 0 else ss g),
       push_words m base ([ss g; rsp g; rflags g; cs g; rip g] ++ match (if isr_has_err v then Some err else None) with Some e => [e] | None => [] end)) =
    (g', push_words m base words)) as (g' & Hg' & ->).
  { unfold words. destruct (isr_has_err v); rewrite pushes_eq by (cbn; lia); cbn [rsp]; rewrite push_words_app by (cbn; lia);
      eexists; (split; [|reflexivity]); cbn; lia. }
  assert (forall i w a, words !! i = Some w -> a = base - 8 * (Z.of_nat i + 1) -> load64 (push_words m base words) a = w) as Hword.
  { intros i w a Hi Ha. apply (frame_word words m _ base i); [cbn; lia|done|done| |done].
    unfold regs_ok in Hg. repeat apply Forall_cons in Hg as [? Hg].
    do 7 (destruct i as [|i]; [injection Hi as <-; (done || lia || (destruct (isr_has_err v); lia))|]). done. }
  unfold exception_common. rewrite Hg', (u64_small (base - 56 + 16)), u64_small by lia.
  rewrite (Hword 6%nat v), (Hword 5%nat (if isr_has_err v then err else 0)), (Hword 4%nat (rip g)), (Hword 3%nat (cs g)),
    (Hword 2%nat (rflags g)), (Hword 1%nat (rsp g)) by (done || lia). f_equal. lia.
Qed.

(** C39. Exceptions are reported as they happened: for each of the 32 vectors, with an error
    code on the stack exactly where the processor pushes one (its table, not the
    stubs'), [exception_dispatch] is called with the vector, the error code (0 if there
    is none) and the interrupted RIP, CS, RFLAGS and RSP, on a stack aligned to 16
    bytes; it writes the exception's name and all six values to the serial port, then
    name, vector, error code and RIP to the screen, and the CPU halts.  (Numbers are
    printed modulo 2^32.) *)
Theorem exception_reported {D} `{!Bus D} gate rsp0 v err g m fuel (c : Console.console D)
    (Hg : regs_ok g) (Hv : 0 <= v < 32) (Herr : 0 <= err < 2 ^ 64) (Hsp : 0 <= rsp0 < 2 ^ 64) (Hb : 56 <= frame_base rsp0 g) :
  let '(sp, a) := exception_common (isr v (exception gate rsp0 v err (g, m))) in
  a = mk_exc v (if cpu_pushes_error v then err else 0) (rip g) (cs g) (rflags g) (rsp g) /\ sp mod 16 = 0 /\
  exception_dispatch fuel a c =
    match serial_write fuel (exc_text a) (Console.con_dev c) with
    | None => None
    | Some d => let '(s, d) := Vga.vga_write (exc_banner a) (Console.con_vga c) d in Some (Console.mk_console Console.vga_output s d)
    end.
Proof.
  assert (0 <= frame_base rsp0 g < 2 ^ 64 /\ frame_base rsp0 g mod 16 = 0) as [Hr Hal].
  { unfold frame_base. unfold regs_ok in Hg. repeat apply Forall_cons in Hg as [? Hg]. destruct (from_user g);
      [destruct (align16 rsp0)|destruct (align16 (rsp g))]; try done; (split; [lia|done]). }
  rewrite exception_args by (done || lia). split; [done|]. split; [zlia|].
  set (a := mk_exc _ _ _ _ _ _). destruct (exc_texts a) as [H1 H2]. unfold exception_dispatch.
  rewrite (Console.kprintfs_texts fuel _ _ _ H1), Console.emit_all_serial by done. cbn [Console.con_dev Console.con_vga Console.kprintf_set_output].
  destruct (serial_write fuel (exc_text a) (Console.con_dev c)) as [d|]; [|done].
  rewrite (Console.kprintfs_texts fuel _ _ _ H2), Console.emit_all_vga by done. done.
Qed.

(** ** Concrete machines *)

#[local] Instance trap_bus : Bus unit := {| bus_in _ _ d := (0, d); bus_out _ _ _ d := d |}.
(** A process in user mode. *)
Definition demo_user : regs := mk_regs 1 2 3 4 5 6 7 8 9 0x7FFFEFF0 0x401000 0x202 0x23 0x1B.
Lemma demo_user_ok : regs_ok demo_user.
Proof. unfold regs_ok. repeat constructor; cbn; lia. Qed.
(** Process 1 at the end of its slice, idle ready; the kernel stack is frame 5's. *)
Definition demo_sched : pst :=
  let s := upd_proc (upd_proc demo_two 0 (fun p => set_p_state p PROC_READY)) 1 (fun p => set_p_state p PROC_RUNNING) in
  mk_pst (proc_table s) (Some 1) (Some 1) 9 0 (frame_va 6) 0 (cpu s).
Lemma demo_sched_inv : sched_inv demo_sched [1; 0].
Proof. split; [done|repeat constructor; lia|repeat constructor; set_solver|]. exists 1, [0]. by vm_compute. Qed.
Definition demo_ist : ist pmm_state unit :=
  mk_ist (Timer.mk_timer 41 [Timer.tty_poll_fn; Timer.scheduler_tick_fn; Timer.net_poll_fn]) Tty.demo_tty demo_sched
    (mk_hst demo_vm []) tt.
Definition demo_lines : list (option Pic.irq_fn) := [Some Pic.timer_irq_fn; Some Pic.keyboard_irq_fn] ++ replicate 14 None.
Definition demo_net_poll (x : hst pmm_state * unit * unit) := x.

(** The keyboard's line: process 1 goes on. *)
Lemma irq_transparent_witness : exists s' d',
  interrupt demo_net_poll 0x5000 64 0x1000 1 64 demo_lines demo_user demo_ist tt = Some (Returned demo_user, s', d') /\
  i_mem s' 0x401000 = i_mem demo_ist 0x401000.
Proof.
  destruct (irq_transparent demo_net_poll 0x5000 64 (fun _ => True) 0x1000 1 demo_lines demo_user demo_ist tt 1 [0] demo_user_ok)
    as (s1 & d1 & s' & e & E1 & _ & _ & E & Hm & Hr & _).
  - lia.
  - apply demo_wf.
  - apply Tty.demo_tty_ok.
  - apply demo_sched_inv.
  - lia.
  - lia.
  - split; [by vm_compute|reflexivity].
  - intros h n d x _. reflexivity.
  - intros x _. exact I.
  - assert (yield_pending (i_ps s1) = 0) as Hp by (injection E1 as <- _; reflexivity).
    destruct (Hr (or_introl Hp)) as [-> _]. exists s', d1. split; [exact E|]. apply Hm; [exact I|]. intros [H _]. apply H. vm_compute. reflexivity.
Defined.

(** The end of the slice of process 1: idle is switched to, runs, and yields back. *)
Lemma timer_preempts_witness : exists s1 d1 x3,
  interrupt demo_net_poll 0x5000 64 0x1000 0 64 demo_lines demo_user demo_ist tt = Some (Switched, s1, d1) /\
  current_proc (i_ps s1) = Some 0 /\ Timer.ticks (i_timer s1) = 42 /\
  scheduler_yield 64 (i_ps s1) (i_heap s1) = Some x3 /\ current_proc (fst x3) = Some 1 /\
  callee (cpu (fst x3)) = [1; 2; 3; 4; 5; 6] /\ resume_stub 0x5000 64 demo_user (fst x3) (mm (hk (snd x3))) = Some demo_user.
Proof.
  destruct (timer_preempts demo_net_poll 0x5000 64 0x1000 demo_lines demo_user demo_ist tt 1 [0] 0 0 demo_user_ok)
    as (s1 & d1 & E & Ht & _ & Hc & _ & Hrd & Hs & Hr).
  - apply demo_wf.
  - apply Tty.demo_tty_ok.
  - apply demo_sched_inv.
  - reflexivity.
  - reflexivity.
  - reflexivity.
  - split; [by vm_compute|reflexivity].
  - reflexivity.
  - reflexivity.
  - lia.
  - lia.
  - split; [by vm_compute|reflexivity].
  - intros h n d x _. reflexivity.
  - change (drop 0 [0] ++ 1 :: take 0 [0]) with [0; 1] in Hs.
    pose proof (yield_spec (i_ps s1) (i_heap s1) 0 [1] 64 Hs ltac:(lia)) as Hy. cbn [first_idx] in Hy.
    unfold runnable in Hy. rewrite Hrd in Hy. cbv beta iota delta [orb Z.eqb PROC_READY Pos.eqb] in Hy.
    destruct Hy as (n & p' & h' & [= <-] & Ey & Hpost).
    destruct (Hr (i_ps s1, i_heap s1) (p', h') demo_user (rtc_refl _ _) Ey (yp_cur _ _ _ _ _ _ Hpost)) as [Hcal Hg].
    { intros x _. cbn [snd]. by rewrite (proj1 (yp_mem _ _ _ _ _ _ Hpost)). }
    exists s1, d1, (p', h'). split; [exact E|]. split; [exact Hc|]. split; [exact Ht|]. split; [exact Ey|].
    split; [exact (yp_cur _ _ _ _ _ _ Hpost)|]. split; [exact Hcal|exact Hg].
Defined.


Lemma exception_reported_witness :
  exception_common (isr 13 (exception 0x1000 (frame_va 11) 13 0x18 (demo_user, fun _ => 0))) =
    (frame_va 11 - 48, mk_exc 13 0x18 0x401000 0x23 0x202 0x7FFFEFF0).
Proof.
  pose proof (exception_reported 0x1000 (frame_va 11) 13 0x18 demo_user (fun _ => 0) 1
    (Console.mk_console Console.no_output (Vga.mk_vga [] 0 0) tt) demo_user_ok ltac:(lia) ltac:(lia) ltac:(unfold frame_va, KERNEL_VMA, PAGE_SIZE; lia)
    ltac:(vm_compute; discriminate)) as H.
  destruct (exception_common _) as [sp a] eqn:E. destruct H as (-> & _ & _). rewrite <- E. vm_compute. reflexivity.
Defined.
