(* ===== verification/Launch.v ===== *)
(** * The first user processes: src/init_launch

    [alloc_user_stack], [launch_user_process] and [init_launch_impl] of
    src/init_launch/init_launch.c over the loader, the paging code, the heap, the process
    table and the file descriptors; the trampoline of init_launch_entry.asm that enters
    user mode.  The embedded programs are arguments (address and size).

    While the modules are initialised CR3 is still the boot PML4, which maps the low
    4 GB one to one and the window at [KERNEL_VMA] to the same memory (Boot.v), so an
    access through the physical address of a frame is written as the access through the
    window.

    Theorem: with enough free memory [init_launch_impl] leaves a process in the run queue; the
    next [scheduler_yield] switches to it and enters the program at its entry point in user mode, on its own stack. *)

From Stdlib Require Import String.
From S2P Require Import Prelude Mem Irq Pmm Vmm Heap BlockHeap Boot Proc ProcSpec Elf ElfSpec Fs Syscall SyscallSpec Trap.
Open Scope list_scope.
Open Scope Z_scope.

Definition USTACK_TOP : Z := 0x7FFFF000.
Definition USTACK_PAGES : Z := 4.
Definition USER_RFLAGS : Z := 0x202.

(** The words of the frame [iretq] pops, in the order they are stored. *)
Definition iret_words (entry ustack_top : Z) : list Z :=
  [Gdt.SEG_USER_DATA; ustack_top; USER_RFLAGS; Gdt.SEG_USER_CODE; entry].

(** [init_iretq_trampoline]: the registers [context_switch] has loaded, and memory as the
    process sees it; the scratch registers and the callee-saved ones are cleared. *)
Definition init_iretq_trampoline (c : cpu_context) (m : mem) : regs * cpu_context :=
  let g := iretq (mk_regs 0 0 0 0 0 0 0 0 0 (Proc.rsp c) (Proc.rip c) 0 Idt.IDT_KERNEL_CS 0) m in
  (g, mk_ctx 0 0 0 0 0 0 (rsp g) (rip g)).

Section launch.
Context {A T : Type} `{!FrameAlloc A} `{!CharDev T}.
Implicit Types (k : kst A) (h : hst A) (s : pst) (f : fs_st (hst A) T).
(** The address of [init_iretq_trampoline], and the embedded programs. *)
Variable (tramp : Z) (init_elf httpd_elf : Z * Z).

Fixpoint ustack_loop (n : nat) k (pml4_phys i : Z) : Z * kst A :=
  match n with
  | O => (USTACK_TOP, k)
  | S n =>
      let '(frame, k) := alloc_frame k in
      if frame =? 0 then (0, k)
      else
        let k := set_mm k (memset (mm k) (PHYS_TO_VIRT frame) 0 PAGE_SIZE) in
        let vaddr := u64 (USTACK_TOP - (USTACK_PAGES - i) * PAGE_SIZE) in
        let '(rc, k) := vmm_map_user_page k pml4_phys vaddr frame (PTE_USER |b PTE_WRITE) in
        if negb (rc =? 0) then (0, free_frame k frame) else ustack_loop n k pml4_phys (i + 1)
  end.
Definition alloc_user_stack k (pml4_phys : Z) : Z * kst A := ustack_loop (Z.to_nat USTACK_PAGES) k pml4_phys 0.

(** The steps both launchers begin with: address space, program, user stack.  The
    result is the PML4, the entry point and the stack top. *)
Definition load_program (fuel : nat) k (elf : Z * Z) : option (option (Z * Z * Z) * kst A) :=
  let '(pml4_phys, k) := vmm_create_user_pml4 k in
  if pml4_phys =? 0 then Some (None, k)
  else match elf_load fuel k (fst elf) (snd elf) pml4_phys with
       | None => None
       | Some (rc, entry, k) =>
           if negb (rc =? 0) then Some (None, k)
           else
             let '(ustack_top, k) := alloc_user_stack k pml4_phys in
             if ustack_top =? 0 then Some (None, k) else Some (Some (pml4_phys, entry, ustack_top), k)
       end.

(** The steps both end with, on the slot [kthread_create] has filled: its stack is freed, the
    given one and the context that enters user mode take its place. *)
Definition install_process (fuel : nat) (pid kstack pml4_phys kstack_rsp : Z) s h : option (Z * pst * hst A) :=
  match process_get s pid with
  | None => None
  | Some p =>
      match kfree fuel h (p_kstack (get_proc s p)) with
      | None => None
      | Some h =>
          let s := upd_proc s p (fun q =>
            let c := p_ctx q in
            set_p_ctx (set_p_pml4 (set_p_kstack q kstack) pml4_phys)
              (mk_ctx (rbx c) (rbp c) (r12 c) (r13 c) (r14 c) (r15 c) kstack_rsp tramp)) in
          Some (p, s, h)
      end
  end.

Definition launch_user_process (fuel : nat) (name : string) (elf : Z * Z) s h : option (Z * pst * hst A) :=
  match load_program fuel (hk h) elf with
  | None => None
  | Some (None, k) => Some (-1, s, set_hk h k)
  | Some (Some (pml4_phys, entry, ustack_top), k) =>
      let '(kstack, h) := kmalloc (set_hk h k) KSTACK_SIZE in
      if kstack =? 0 then Some (-1, s, h)
      else
        let m := memset (mm (hk h)) kstack 0 KSTACK_SIZE in
        let kstack_top := u64 (kstack + KSTACK_SIZE) in
        let h := set_hk h (set_mm (hk h) (push_words m kstack_top (iret_words entry ustack_top))) in
        let '(pid, s, h) := kthread_create name tramp s h in
        if pid <? 0 then match kfree fuel h kstack with Some h => Some (-1, s, h) | None => None end
        else match install_process fuel (u32 pid) kstack pml4_phys (u64 (kstack_top - 40)) s h with
             | None => None
             | Some (p, s, h) => Some (0, scheduler_add s p, h)
             end
  end.

(** Step 1 of [init_launch_impl]: the terminal as descriptors [i], ..., 2. *)
Fixpoint open_std (n : nat) (node : vfs_node) (i : Z) f : option (bool * fs_st (hst A) T) :=
  match n with
  | O => Some (true, f)
  | S n =>
      match vfs_fd_open node f with
      | None => None
      | Some (fd, f) => if negb (fd =? i) then Some (false, f) else open_std n node (i + 1) f
      end
  end.

(** Steps 5 and 5b: the kernel stack in two frames, its [iretq] frame, and both frames
    mapped in the process's space at their physical addresses.  The result is
    [kstack_frame0] and [kstack_top]. *)
Definition init_kstack k (pml4_phys entry ustack_top : Z) : option (Z * Z) * kst A :=
  let '(frame0, k) := alloc_frame k in
  let '(frame1, k) := alloc_frame k in
  if (frame0 =? 0) || (frame1 =? 0) then
    (None, if negb (frame0 =? 0) then free_frame k frame0 else k)
  else
    let m := memset (mm k) (PHYS_TO_VIRT frame0) 0 PAGE_SIZE in
    let m := memset m (PHYS_TO_VIRT frame1) 0 PAGE_SIZE in
    let kstack_top := u64 (frame1 + PAGE_SIZE) in
    let k := set_mm k (push_words m (PHYS_TO_VIRT kstack_top) (iret_words entry ustack_top)) in
    let '(rc, k) := vmm_map_kernel_in_user_pml4 k pml4_phys frame0 frame0 (PTE_WRITE |b PTE_NX) in
    if negb (rc =? 0) then (None, k)
    else
      let '(rc, k) := vmm_map_kernel_in_user_pml4 k pml4_phys frame1 frame1 (PTE_WRITE |b PTE_NX) in
      if negb (rc =? 0) then (None, k) else (Some (frame0, kstack_top), k).

(** Steps 2 to 8. *)
Definition launch_init (fuel : nat) s h : option (Z * pst * hst A) :=
  match load_program fuel (hk h) init_elf with
  | None => None
  | Some (None, k) => Some (-1, s, set_hk h k)
  | Some (Some (pml4_phys, entry, ustack_top), k) =>
      match init_kstack k pml4_phys entry ustack_top with
      | (None, k) => Some (-1, s, set_hk h k)
      | (Some (kstack, kstack_top), k) =>
          let '(pid, s, h) := kthread_create "init" tramp s (set_hk h k) in
          if pid <? 0 then Some (-1, s, h)
          else match install_process fuel (u32 pid) kstack pml4_phys (u64 (kstack_top - 40)) s h with
               | None => None
               | Some (p, s, h) =>
                   let s := ps_syscall_kernel_rsp (ps_tss_rsp0 s kstack_top) kstack_top in
                   Some (0, scheduler_add s p, h)
               end
      end
  end.

Definition init_launch_impl (fuel : nat) s f : option (Z * pst * fs_st (hst A) T) :=
  match devfs_get_node "tty0" f with
  | None => Some (-1, s, f)
  | Some tty_node =>
      match open_std 3 tty_node 0 f with
      | None => None
      | Some (false, f) => Some (-1, s, f)
      | Some (true, f) =>
          match launch_init fuel s (f_heap f) with
          | None => None
          | Some (rc, s, h) =>
              if negb (rc =? 0) then Some (-1, s, fs_heap f h)
              else match launch_user_process fuel "httpd" httpd_elf s h with
                   | None => None
                   | Some (_, s, h) => Some (0, s, fs_heap f h)
                   end
          end
      end
  end.
End launch.

(** ** What the steps keep *)

Section spec.
Context {A : Type} `{!FrameAlloc A} `{!FrameAllocLaws A}.
Implicit Types (k : kst A) (L : levels).

(** The invariant, the frames in use and the pages of the space [r] outside [P] are kept. *)
Definition later k L r (P : Z -> Prop) k' L' : Prop :=
  vm_inv k' L' /\ extends L L' /\ framed k L k' L' /\
  (forall va, user_va va -> ~ P (va / 4096) -> xlate (mm k') r va = xlate (mm k) r va).

Lemma later_refl k L r P : vm_inv k L -> later k L r P k L.
Proof. intros H. split; [done|]. split; [done|]. split; [apply framed_refl|done]. Qed.
Lemma later_trans k1 L1 k2 L2 k3 L3 r P : later k1 L1 r P k2 L2 -> later k2 L2 r P k3 L3 -> later k1 L1 r P k3 L3.
Proof.
  intros (Hi1 & He1 & Hf1 & Hx1) (Hi2 & He2 & Hf2 & Hx2). split; [done|]. split; [by eapply extends_trans|].
  split; [by eapply framed_trans|]. intros va Hva HP. rewrite Hx2 by done. by apply Hx1.
Qed.
Lemma later_mono k L k' L' r (P Q : Z -> Prop) : (forall p, P p -> Q p) -> later k L r P k' L' -> later k L r Q k' L'.
Proof. intros HPQ (Hi & He & Hf & Hx). split; [done|]. split; [done|]. split; [done|]. intros va Hva HQ. apply Hx; auto. Qed.
Lemma later_small k L k' L' r P : later k L r P k' L' -> L r = 4%nat -> user_small k r -> user_small k' r.
Proof. intros (_ & _ & Hf & _) Hr Hsm va Hva. apply (proj2 Hf); [done|]. by apply Hsm. Qed.
Lemma stepped_later k L r page k' L' : stepped k L r page k' L' -> later k L r (eq page) k' L'.
Proof. intros (Hi & He & Hf & Hx). split; [done|]. split; [done|]. split; [done|]. intros va Hva Hne. apply Hx; auto. Qed.
Lemma pages_hold_later k L r b page n P k' L' : later k L r P k' L' -> pages_hold k L r b page n ->
  (forall j, page <= j < page + Z.of_nat n -> ~ P j) -> pages_hold k' L' r b page n.
Proof.
  intros (_ & _ & Hf & Hx) Hh HP j Hj. destruct (Hh j Hj) as (c & [(Hc & HLc & Hcu) Hmx] & Hb).
  destruct (proj1 Hf c HLc ltac:(lia) Hcu) as (H1 & H2 & H3). exists c. split.
  - split; [done|]. intros va Hva E. rewrite Hx; [by apply Hmx|done|]. rewrite E. by apply HP.
  - intros o Ho. rewrite H3 by done. by apply Hb.
Qed.
Lemma mapped_later k L r page c P k' L' : later k L r P k' L' -> mapped k L r page c -> ~ P page -> mapped k' L' r page c.
Proof.
  intros (_ & _ & Hf & Hx) [(Hc & HLc & Hcu) Hmx] HP. destruct (proj1 Hf c HLc ltac:(lia) Hcu) as (H1 & H2 & _).
  split; [done|]. intros va Hva E. rewrite Hx; [by apply Hmx|done|]. by rewrite E.
Qed.

(** Taking a frame and writing in it. *)
Lemma alloc_later k L r m' n : vm_inv k L -> L r = 4%nat -> budget k (S n) ->
  exists c k1, alloc_frame k = (c * PAGE_SIZE, k1) /\ 0 < c < WINDOW /\ L c = O /\ mm k1 = mm k /\
    fa_used (fa k) c = false /\ fa_used (fa k1) c = true /\ budget k1 n /\
    (bytes_ok (m' c) -> (forall x, ~ (frame_va c <= x < frame_va c + PAGE_SIZE) -> m' c x = mm k x) ->
     later k L r (fun _ => False) (set_mm k1 (m' c)) L).
Proof.
  intros Hinv Hr Hb. destruct (alloc_budget k L n Hinv Hb) as [Hne Hb1].
  destruct (alloc_frame_fresh k L Hinv) as [E|(c & Hc & HLc & Hr1 & Hm1 & _ & _ & Hok & Hcu & Hu')]; [by rewrite E in Hne|].
  destruct (alloc_frame k) as [p k1]. cbn [fst snd] in *. subst p. exists c, k1.
  do 5 (split; [done|]). split; [rewrite Hu' by lia; by rewrite Z.eqb_refl|]. split; [done|]. intros Hbm Hx.
  assert (vm_inv k1 L) as Hinv1.
  { apply (vm_inv_grow k _ L); [done|rewrite Hm1; apply Hinv|done| |by left]. intros g Hg Hgu. by rewrite Hu', Hgu, orb_true_r. }
  split; [apply (frame_write_inv k1 L c); [done|done|done|]; intros x Hxx; rewrite Hm1; by apply Hx|]. split; [done|]. split; [split|].
  - intros d Hd Hd0 Hdu. split; [done|]. split; [cbn; rewrite Hu' by done; by rewrite Hdu, orb_true_r|]. intros o Ho. cbn. apply Hx.
    assert (d <> c) by (intros ->; congruence). unfold frame_va, PAGE_SIZE in *. lia.
  - intros r1 va Hr1'. by apply (frame_write_nohuge k L c).
  - intros va _ _. by apply (frame_write_xlate k L c).
Qed.

(** Writing in a frame that was free at the beginning. *)
Lemma write_later k L r P k' L' c m : later k L r P k' L' -> L r = 4%nat -> L' c = O -> fa_used (fa k) c = false -> bytes_ok m ->
  (forall x, ~ (frame_va c <= x < frame_va c + PAGE_SIZE) -> m x = mm k' x) -> later k L r P (set_mm k' m) L'.
Proof.
  intros (Hi & He & [Hf1 Hf2] & Hx) Hr HLc Hcu Hm Hout. split; [by apply (frame_write_inv k' L' c)|]. split; [done|]. split; [split|].
  - intros d Hd Hd0 Hdu. destruct (Hf1 d Hd Hd0 Hdu) as (H1 & H2 & H3). split; [done|]. split; [done|]. intros o Ho. rewrite <- H3 by done.
    cbn. apply Hout. assert (d <> c) by (intros ->; congruence). unfold frame_va, PAGE_SIZE in *. lia.
  - intros r1 va Hr1 Hn. apply (frame_write_nohuge k' L' c); [done|done|rewrite He; lia|done|]. by apply Hf2.
  - intros va Hva HP. cbn. rewrite (frame_write_xlate k' L' c m r va) by (done || rewrite He; lia). by apply Hx.
Qed.

(** Giving back a frame that was free at the beginning. *)
Lemma free_later k L r P k' L' c : later k L r P k' L' -> 0 < c < WINDOW -> L' c = O -> fa_used (fa k) c = false ->
  later k L r P (free_frame k' (c * PAGE_SIZE)) L'.
Proof.
  intros (Hi & He & [Hf1 Hf2] & Hx) Hc HLc Hcu. split; [by apply free_frame_inv|]. split; [done|]. split; [|done]. split; [|done].
  intros d Hd Hd0 Hdu. destruct (Hf1 d Hd Hd0 Hdu) as (H1 & H2 & H3). split; [done|]. split; [|done].
  cbn [fa free_frame set_fa]. assert (c <> d) by (intros ->; congruence).
  rewrite fa_free_used by (apply Hi || unfold FRAME_SIZE, PAGE_SIZE; lia).
  unfold PAGE_SIZE, FRAME_SIZE. rewrite Z.div_mul by lia. by rewrite (proj2 (Z.eqb_neq c d)).
Qed.

(** ** The program and its stack *)

Lemma ustack_spec r n : forall k L i m, vm_inv k L -> L r = 4%nat -> user_small k r -> 0 <= i -> i + Z.of_nat n = USTACK_PAGES ->
  budget k (4 * n + m) ->
  exists k' L', ustack_loop n k (r * PAGE_SIZE) i = (USTACK_TOP, k') /\ vm_inv k' L' /\ extends L L' /\ budget k' m /\
    loaded k L r (fun _ => 0) (STACK_PAGE + i) n k' L'.
Proof.
  induction n as [|n IH]; intros k L i m Hinv Hr Hsm Hi Hin Hb; cbn [ustack_loop].
  { exists k, L. split; [done|]. split; [done|]. split; [done|]. split; [done|]. split; [apply framed_refl|]. split; [|done]. intros j Hj. lia. }
  assert (STACK_PAGE = 0x7FFFB) as Esp by reflexivity. unfold USTACK_PAGES in Hin.
  replace (u64 (USTACK_TOP - (USTACK_PAGES - i) * PAGE_SIZE)) with ((STACK_PAGE + i) * 4096)
    by (unfold USTACK_TOP, USTACK_PAGES, PAGE_SIZE; rewrite u64_small; lia).
  replace (4 * S n + m)%nat with (4 + (4 * n + m))%nat in Hb by lia.
  destruct (zero_step k L r (STACK_PAGE + i) Hinv Hr Hsm ltac:(lia) ltac:(lia)) as [[_ Hnb]|(c & k1 & rc & k2 & -> & Hc & Emap & Hcase)].
  { by destruct (Hnb (4 * n + m)%nat). }
  destruct (Z.eqb_spec (c * PAGE_SIZE) 0) as [E0|_]; [unfold PAGE_SIZE in E0; lia|]. rewrite Emap.
  destruct Hcase as [(_ & Hnb & _)|(-> & Hbk & L1 & Hst & Hmp & Hdata)]; [by destruct (Hnb (4 * n + m)%nat)|].
  change (negb (0 =? 0)) with false. cbv iota.
  pose proof Hst as (Hi1 & He1 & _ & _). assert (L1 r = 4%nat) as Hr1 by (rewrite He1; lia).
  destruct (IH k2 L1 (i + 1) m Hi1 Hr1 ltac:(by eapply stepped_small) ltac:(lia) ltac:(unfold USTACK_PAGES; lia) (Hbk _ Hb))
    as (k' & L' & E & Hi' & He' & Hb' & Hl).
  exists k', L'. split; [exact E|]. split; [done|]. split; [by eapply extends_trans|]. split; [done|].
  replace (STACK_PAGE + (i + 1)) with (STACK_PAGE + i + 1) in Hl by lia. by apply (loaded_cons k L r _ (STACK_PAGE + i) n k2 L1 _ L' c).
Qed.

Lemma pages_hold_ext k L r b b' page n : (forall va, page * 4096 <= va < (page + Z.of_nat n) * 4096 -> b va = b' va) ->
  pages_hold k L r b page n -> pages_hold k L r b' page n.
Proof.
  intros E Hh j Hj. destruct (Hh j Hj) as (c & Hm & Hb). exists c. split; [done|]. intros o Ho. rewrite Hb by done. apply E.
  unfold PAGE_SIZE in Ho. lia.
Qed.

(** What [load_program] leaves in the space [c]: the segments, the zeroed stack, nothing
    else in the user half. *)
Record program_at (m : mem) (data c : Z) k L : Prop := {
  pa_root : L c = 4%nat;
  pa_inv : vm_inv k L;
  pa_small : user_small k c;
  pa_seg i : 0 <= i < e_phnum m data -> p_type (phdr_at m data i) = PT_LOAD ->
    pages_hold k L c (seg_byte m data (phdr_at m data i)) (first_page (phdr_at m data i)) (seg_pages (phdr_at m data i));
  pa_stack : pages_hold k L c (fun _ => 0) STACK_PAGE 4
}.

Lemma load_program_spec k L b data size fuel m : vm_inv k L -> L b = 4%nat -> pml4_phys k = b * PAGE_SIZE ->
  image k L data size -> loadable (mm k) data size fuel ->
  budget k (S (frames_needed (mm k) data 0 (Z.to_nat (e_phnum (mm k) data)) + (16 + m))) ->
  exists c k' L', load_program fuel k (data, size) = Some (Some (c * PAGE_SIZE, e_entry (mm k) data, USTACK_TOP), k') /\
    0 < c /\ L c = O /\ extends L L' /\ budget k' m /\ program_at (mm k) data c k' L'.
Proof.
  intros Hinv Hb Hroot Him [Hok Hsome Hstk Hfu] Hbud.
  destruct (new_space k L b data size _ Hinv Hb Hroot Him Hbud) as (c & k1 & L1 & E1 & Hc0 & Hc & Hc1 & Hi1 & He1 & Hsm1 & Him1 & Hm1 & Hb1 & Hx1).
  destruct (prog_ok_ext (mm k) (mm k1) data size (pw_bytes _ _ (vi_wf _ _ Hinv)) Hok Hm1) as (Hok1 & Hn1 & Hent1 & Hp1).
  destruct (elf_load_spec k1 L1 c data size fuel Hi1 Hc1 Hsm1 Him1 Hok1) as (rc & entry & k2 & L2 & E2 & Hi2 & He2 & _ & Hb2 & H2).
  { intros i Hi. rewrite Hn1 in Hi. rewrite Hp1 by done. by apply Hfu. }
  destruct (check_facts _ _ _ (pw_bytes _ _ (vi_wf _ _ Hinv)) (po_check _ _ _ Hok)) as (_ & _ & Hn16 & _).
  destruct (Hb2 (16 + m)%nat) as [-> Hb16].
  { rewrite Hn1, (frames_needed_ext (mm k) (mm k1) data (e_phnum (mm k) data)); [exact Hb1|done|lia|lia]. }
  { destruct Hsome as (i & Hi & Hp). exists i. rewrite Hn1, Hp1 by done. done. }
  destruct (H2 eq_refl) as [-> Hld]. rewrite Hn1 in Hld. assert (L2 c = 4%nat) as Hc2 by (rewrite He2; lia).
  destruct (ustack_spec c 4 k2 L2 0 m Hi2 Hc2 (ld_small _ _ _ _ _ _ _ _ Hld) ltac:(lia) eq_refl Hb16) as (k3 & L3 & E3 & Hi3 & He3 & Hb3 & Hl3).
  rewrite Z.add_0_r in Hl3. exists c, k3, L3. split.
  { unfold load_program. rewrite E1. rewrite (proj2 (Z.eqb_neq (c * PAGE_SIZE) 0)) by (unfold PAGE_SIZE; lia). cbn [fst snd]. rewrite E2, Hent1.
    change (negb (0 =? 0)) with false. cbv iota. unfold alloc_user_stack. change (Z.to_nat USTACK_PAGES) with 4%nat. by rewrite E3. }
  split; [done|]. split; [done|]. split; [eapply extends_trans; [exact He1|by eapply extends_trans]|]. split; [done|].
  pose proof Hl3 as (Hf3 & Hh3 & _). split; [rewrite He3; lia|done| | |done].
  - intros va Hva. apply (proj2 Hf3); [done|]. by apply (ld_small _ _ _ _ _ _ _ _ Hld).
  - intros i Hi Hp. pose proof (ld_held _ _ _ _ _ _ _ _ Hld i Hi) as Hh. rewrite Hp1 in Hh by done.
    apply (pages_hold_ext _ _ _ (seg_byte (mm k1) data (phdr_at (mm k) data i))).
    { intros va _. apply (seg_byte_ext (mm k) (mm k1) data size); [exact (po_seg _ _ _ Hok i Hi Hp)|done]. }
    by apply (pages_hold_keep k2 L2 c _ _ _ (fun _ => 0) STACK_PAGE 4 k3 L3 (Hh Hp) Hl3), Hstk.
Qed.

(** ** The kernel stack of init *)

Lemma push_words_u64 m sp v l : push_words m (u64 sp) (v :: l) = push_words m sp (v :: l).
Proof. cbn [push_words]. replace (u64 (u64 sp - 8)) with (u64 (sp - 8)); [done|]. unfold u64. by rewrite Zminus_mod_idemp_l. Qed.
Lemma tflags_rw : tflags_ok PTE_WRITE.
Proof. by repeat split. Qed.

Lemma alloc_set_mm k m : alloc_frame (set_mm k m) = let '(p, k') := alloc_frame k in (p, set_mm k' m).
Proof. unfold alloc_frame. cbn [fa set_mm]. by destruct (fa_alloc (fa k)). Qed.
Lemma alloc_mm k p k' : alloc_frame k = (p, k') -> mm k' = mm k.
Proof. unfold alloc_frame. destruct (fa_alloc (fa k)). by intros [= _ <-]. Qed.

(** The two frames before they are mapped. *)
Lemma kstack_frames k L r words n : vm_inv k L -> L r = 4%nat -> budget k (2 + n) ->
  exists c0 c1 k1 k2 m, alloc_frame k = (c0 * PAGE_SIZE, k1) /\ alloc_frame k1 = (c1 * PAGE_SIZE, k2) /\
    mm k2 = mm k /\ (0 < c0 < WINDOW /\ L c0 = O /\ fa_used (fa k2) c0 = true) /\ (0 < c1 < WINDOW /\ L c1 = O /\ fa_used (fa k2) c1 = true) /\
    c0 <> c1 /\ budget k2 n /\
    m = push_words (memset (memset (mm k) (frame_va c0) 0 PAGE_SIZE) (frame_va c1) 0 PAGE_SIZE) (frame_va c1 + PAGE_SIZE) words /\
    (8 * Z.of_nat (List.length words) <= PAGE_SIZE -> later k L r (fun _ => False) (set_mm k2 m) L).
Proof.
  intros Hinv Hr Hb. pose proof (pw_bytes _ _ (vi_wf _ _ Hinv)) as Hbm.
  destruct (alloc_later k L r (fun c => memset (mm k) (frame_va c) 0 PAGE_SIZE) (S n) Hinv Hr Hb)
    as (c0 & k1 & E1 & Hc0 & HL0 & Hm1 & Hf0 & Hu0 & Hb1 & Hl1).
  specialize (Hl1 ltac:(by apply memset_bytes_ok)).
  assert (forall c m x, ~ (frame_va c <= x < frame_va c + PAGE_SIZE) -> memset m (frame_va c) 0 PAGE_SIZE x = m x) as Hms.
  { intros c m x Hx. rewrite memset_spec by (unfold PAGE_SIZE; lia).
    destruct (Z.leb_spec (frame_va c) x), (Z.ltb_spec x (frame_va c + PAGE_SIZE)); try done; lia. }
  specialize (Hl1 (Hms c0 (mm k))). assert (bytes_ok (memset (mm k) (frame_va c0) 0 PAGE_SIZE)) as Hbm1 by (by apply memset_bytes_ok).
  remember (memset (mm k) (frame_va c0) 0 PAGE_SIZE) as m1 eqn:Em1.
  pose proof Hl1 as (Hi1 & _ & _ & _).
  destruct (alloc_later (set_mm k1 m1) L r (fun c => push_words (memset m1 (frame_va c) 0 PAGE_SIZE) (frame_va c + PAGE_SIZE) words) n Hi1 Hr
              ltac:(by apply (budget_fa k1)))
    as (c1 & k2' & E2 & Hc1 & HL1 & Hm2 & Hf1 & Hu1 & Hb2 & Hl2).
  rewrite alloc_set_mm in E2. destruct (alloc_frame k1) as [p k2] eqn:E1'. injection E2 as -> <-. cbn [mm set_mm fa] in *.
  assert (c0 <> c1) as Hne by (intros ->; congruence).
  exists c0, c1, k1, k2, (push_words (memset m1 (frame_va c1) 0 PAGE_SIZE) (frame_va c1 + PAGE_SIZE) words).
  assert (mm k2 = mm k1 /\ (fa_used (fa k1) c0 = true -> fa_used (fa k2) c0 = true)) as [Hmm Hu].
  { pose proof (alloc_frame_fresh (set_mm k1 m1) L Hi1) as Hfr. rewrite alloc_set_mm, E1' in Hfr.
    destruct Hfr as [E|(c & _ & _ & _ & _ & _ & _ & _ & _ & Hu')]; [apply (f_equal fst) in E; cbn [fst] in E; unfold PAGE_SIZE in E; lia|]. cbn [fst snd fa set_mm] in Hu'.
    split; [by eapply alloc_mm|]. intros H0. rewrite Hu' by lia. by rewrite H0, orb_true_r. }
  split; [exact E1|]. split; [exact E1'|]. split; [congruence|]. split; [by auto|]. split; [exact (conj Hc1 (conj HL1 Hu1))|]. split; [exact Hne|].
  split; [by apply (budget_fa (set_mm k2 m1) k2)|]. split; [by rewrite Em1|]. intros Hlen. apply (later_trans k L (set_mm k1 m1) L); [done|].
  apply Hl2; [by apply push_words_bytes, memset_bytes_ok|]. intros x Hx.
  rewrite push_words_out; [by apply Hms|unfold frame_va, KERNEL_VMA, WINDOW, PAGE_SIZE in *; lia|unfold PAGE_SIZE in *; lia].
Qed.

(** Mapping a frame of the kernel at its own physical address. *)
Lemma map_ident k L r c n : vm_inv k L -> L r = 4%nat -> user_small k r -> 0 < c < WINDOW -> L c = O -> fa_used (fa k) c = true ->
  budget k (3 + n) ->
  exists k' L', vmm_map_kernel_in_user_pml4 k (r * PAGE_SIZE) (c * PAGE_SIZE) (c * PAGE_SIZE) (PTE_WRITE |b PTE_NX) = (0, k') /\
    stepped k L r c k' L' /\ mapped k' L' r c c /\ budget k' n.
Proof.
  intros Hinv Hr Hsm Hc HLc Hcu Hb. assert (user_va (c * PAGE_SIZE)) as Hv by (unfold user_va, PAGE_SIZE, WINDOW in *; lia).
  destruct (map_space_ok PTE_WRITE k L r c (c * PAGE_SIZE) (PTE_WRITE |b PTE_NX) tflags_rw Hinv Hr Hsm Hv Hc HLc Hcu ltac:(by vm_compute) eq_refl)
    as (L' & Hst & _ & Hmp).
  destruct (map_space_budget PTE_WRITE k L r (c * PAGE_SIZE) (c * PAGE_SIZE) (PTE_WRITE |b PTE_NX) n tflags_rw Hinv Hr (Hsm _ Hv) Hb) as [E Hb'].
  replace (c * PAGE_SIZE / 4096) with c in * by (unfold PAGE_SIZE; by rewrite Z.div_mul).
  change (vmm_map_kernel_in_user_pml4 k) with (map_space PTE_WRITE k). specialize (Hmp E).
  destruct (map_space PTE_WRITE k _ _ _ _) as [rc k']. cbn [fst snd] in *. subst rc. by exists k', L'.
Qed.

Lemma init_kstack_spec k L r entry top n : vm_inv k L -> L r = 4%nat -> user_small k r -> budget k (8 + n) ->
  exists c0 c1 k' L', init_kstack k (r * PAGE_SIZE) entry top = (Some (c0 * PAGE_SIZE, (c1 + 1) * PAGE_SIZE), k') /\
    later k L r (fun p => p = c0 \/ p = c1) k' L' /\ budget k' n /\ c0 <> c1 /\ mapped k' L' r c0 c0 /\ mapped k' L' r c1 c1 /\
    (forall i v, iret_words entry top !! i = Some v -> 0 <= v < 2 ^ 64 -> load64 (mm k') (frame_va c1 + PAGE_SIZE - 8 * (Z.of_nat i + 1)) = v).
Proof.
  intros Hinv Hr Hsm Hb.
  destruct (kstack_frames k L r (iret_words entry top) (6 + n) Hinv Hr Hb)
    as (c0 & c1 & k1 & k2 & m & E1 & E2 & Hm2 & Hf0 & Hf1 & Hne & Hb2 & Em & Hl2). specialize (Hl2 ltac:(cbn; unfold PAGE_SIZE; lia)).
  pose proof Hl2 as (Hi2 & _ & _ & _). pose proof (later_small _ _ _ _ _ _ Hl2 Hr Hsm) as Hsm2.
  destruct (map_ident (set_mm k2 m) L r c0 (3 + n) Hi2 Hr Hsm2 (proj1 Hf0) (proj1 (proj2 Hf0)) (proj2 (proj2 Hf0)) ltac:(by apply (budget_fa k2)))
    as (k3 & L3 & E3 & Hst3 & Hmp3 & Hb3).
  pose proof Hst3 as (Hi3 & He3 & Hfr3 & _). assert (L3 r = 4%nat) as Hr3 by (rewrite He3; lia).
  destruct (proj1 Hfr3 c1 (proj1 (proj2 Hf1)) ltac:(lia) (proj2 (proj2 Hf1))) as (HL3 & Hu3 & Hd3).
  destruct (map_ident k3 L3 r c1 n Hi3 Hr3 (stepped_small _ _ _ _ _ _ Hst3 Hr Hsm2) (proj1 Hf1) HL3 Hu3 Hb3)
    as (k4 & L4 & E4 & Hst4 & Hmp4 & Hb4).
  pose proof Hst4 as (_ & _ & Hfr4 & _). destruct (proj1 Hfr4 c1 HL3 ltac:(lia) Hu3) as (_ & _ & Hd4).
  exists c0, c1, k4, L4. split.
  { unfold init_kstack. rewrite E1, E2. destruct Hf0 as (Hc0 & _), Hf1 as (Hc1 & _).
    rewrite (proj2 (Z.eqb_neq (c0 * PAGE_SIZE) 0)), (proj2 (Z.eqb_neq (c1 * PAGE_SIZE) 0)) by (unfold PAGE_SIZE; lia). cbn [orb]. cbv zeta.
    rewrite (phys_to_virt c0), (phys_to_virt c1) by lia. rewrite (u64_small (c1 * PAGE_SIZE + PAGE_SIZE)) by (unfold PAGE_SIZE, WINDOW in *; lia).
    unfold PHYS_TO_VIRT. replace (KERNEL_VMA + (c1 * PAGE_SIZE + PAGE_SIZE)) with (frame_va c1 + PAGE_SIZE) by (unfold frame_va; lia).
    unfold iret_words at 1. rewrite push_words_u64. fold (iret_words entry top). rewrite Hm2, <- Em, E3. change (negb (0 =? 0)) with false.
    cbv iota. rewrite E4. change (negb (0 =? 0)) with false. cbv iota. do 3 f_equal. lia. }
  split; [|split; [done|split; [done|split; [|split; [done|]]]]].
  - apply (later_trans k L (set_mm k2 m) L); [by eapply later_mono; [|exact Hl2]|].
    apply (later_trans _ _ k3 L3); (eapply later_mono; [|by apply stepped_later]); intros p <-; auto.
  - eapply mapped_later; [by apply stepped_later|done|]. cbn. congruence.
  - intros i v Hi Hv. rewrite (load_ext 8 (mm k4) m).
    + rewrite Em. apply push_words_load; [cbn; unfold frame_va, KERNEL_VMA, PAGE_SIZE, WINDOW in *; lia|done|done].
    + intros x Hx. pose proof (lookup_lt_Some _ _ _ Hi) as Hlt. cbn in Hlt.
      replace x with (frame_va c1 + (x - frame_va c1)) by lia. rewrite Hd4, Hd3 by (unfold PAGE_SIZE in *; lia). done.
Qed.

(** ** The stack [kthread_create] allocates *)

Lemma alloc_plain k L r n : vm_inv k L -> L r = 4%nat -> budget k (S n) ->
  exists c k1, alloc_frame k = (c * PAGE_SIZE, k1) /\ 0 < c < WINDOW /\ L c = O /\ mm k1 = mm k /\ fa_used (fa k) c = false /\
    fa_used (fa k1) c = true /\ budget k1 n /\ later k L r (fun _ => False) k1 L.
Proof.
  intros Hinv Hr Hb. destruct (alloc_later k L r (fun _ => mm k) n Hinv Hr Hb) as (c & k1 & E & Hc & HL & Hm & Hf & Hu & Hb1 & Hl).
  exists c, k1. do 7 (split; [done|]). specialize (Hl (pw_bytes _ _ (vi_wf _ _ Hinv)) ltac:(done)).
  by replace k1 with (set_mm k1 (mm k)) by (destruct k1; cbn in Hm; by subst).
Qed.
Lemma kmalloc_kstack (h : hst A) L r n : vm_inv (hk h) L -> L r = 4%nat -> budget (hk h) (3 + n) ->
  exists c h', kmalloc h KSTACK_SIZE = (frame_va c + 8, h') /\ 0 < c < WINDOW /\ L c = O /\ fa_used (fa (hk h)) c = false /\
    fa_used (fa (hk h')) c = true /\ budget (hk h') n /\ later (hk h) L r (fun _ => False) (hk h') L.
Proof.
  intros Hinv Hr Hb. destruct (alloc_plain (hk h) L r (2 + n) Hinv Hr Hb) as (c & k1 & E1 & Hc & HLc & Hm1 & Hf & Hu1 & Hb1 & Hl1).
  pose proof Hl1 as (Hi1 & _). destruct (alloc_plain k1 L r (1 + n) Hi1 Hr Hb1) as (c2 & k2 & E2 & Hc2 & _ & Hm2 & _ & _ & Hb2 & Hl2).
  pose proof Hl2 as (Hi2 & _). destruct (alloc_plain k2 L r n Hi2 Hr Hb2) as (c3 & k3 & E3 & Hc3 & _ & Hm3 & _ & _ & Hb3 & Hl3).
  pose proof (later_trans _ _ _ _ _ _ _ _ (later_trans _ _ _ _ _ _ _ _ Hl1 Hl2) Hl3) as Hl.
  assert (fa_used (fa k3) c = true) as Hu3.
  { destruct (proj1 (proj1 (proj2 (proj2 Hl2))) c HLc ltac:(lia) Hu1) as (_ & H2 & _).
    by destruct (proj1 (proj1 (proj2 (proj2 Hl3))) c HLc ltac:(lia) H2) as (_ & H3 & _). }
  exists c, (set_hk h (set_mm k3 (store64 (mm k3) (frame_va c) 3))). split.
  { unfold kmalloc. change (KSTACK_SIZE =? 0) with false. change (KSTACK_SIZE >? 1 <<b HEAP_MAX_ORDER) with true. cbv iota.
    unfold large_alloc. change (Z.to_nat (u64 (u64 (KSTACK_SIZE + sizeof_large_hdr) + SLAB_SIZE - 1) / SLAB_SIZE)) with 3%nat.
    change (u64 (u64 (KSTACK_SIZE + sizeof_large_hdr) + SLAB_SIZE - 1) / SLAB_SIZE) with 3. cbn [large_loop].
    assert (forall f, 0 < f -> (f * PAGE_SIZE =? 0) = false) as Hnz by (intros f Hf0; apply Z.eqb_neq; unfold PAGE_SIZE; lia).
    rewrite E1, Hnz by lia. change (0 =? 0) with true. change (0 + 1 =? 0) with false. change (0 + 1 + 1 =? 0) with false. cbv iota.
    rewrite E2, Hnz by lia. rewrite E3, Hnz by lia. rewrite phys_to_virt by lia.
    f_equal. apply u64_small. unfold sizeof_large_hdr, frame_va, KERNEL_VMA, PAGE_SIZE, WINDOW in *. lia. }
  do 4 (split; [done|]). split; [by apply (budget_fa k3)|]. cbn [hk set_hk].
  apply (write_later _ _ _ _ k3 L c); [done|done|done|done|apply store_bytes_ok, Hl|].
  intros x Hx. apply store_other. unfold PAGE_SIZE in Hx. lia.
Qed.

(** [kfree] of that block, whose first page does not look like a slab. *)
Lemma kfree_kstack fuel (h : hst A) c : 0 < c < WINDOW -> slab_like (mm (hk h)) (frame_va c) = false ->
  kfree fuel h (frame_va c + 8) = Some (set_hk h (free_frame (hk h) (c * PAGE_SIZE))).
Proof.
  intros Hc Hs. unfold kfree. rewrite (proj2 (Z.eqb_neq _ 0)) by (unfold frame_va, KERNEL_VMA, PAGE_SIZE in *; lia).
  assert (slab_of (frame_va c + 8) = frame_va c) as ->.
  { unfold slab_of. change (not64 (SLAB_SIZE - 1)) with (not64 (Z.ones 12)). unfold frame_va, PAGE_SIZE, WINDOW, KERNEL_VMA in *.
    rewrite land_not64_ones by lia. change (2 ^ 12) with 4096. zlia. }
  rewrite Hs. do 2 f_equal. unfold large_free, sizeof_large_hdr. f_equal. unfold VIRT_TO_PHYS, frame_va.
  rewrite (u64_small (_ - 8)), u64_small by (unfold KERNEL_VMA, PAGE_SIZE, WINDOW in *; lia). lia.
Qed.

(** ** The process *)

(** What [kthread_create], [install_process] and [scheduler_add] make of a free slot. *)
Record launched (s : pst) (c : Z) (t : list Z) (pid kstack pml4 ksp tramp : Z) (s' : pst) : Prop := {
  la_inv : sched_inv s' (c :: pid :: t);
  la_ready : p_state (get_proc s' pid) = PROC_READY;
  la_pid : p_pid (get_proc s' pid) = pid;
  la_pml4 : p_pml4 (get_proc s' pid) = pml4;
  la_kstack : p_kstack (get_proc s' pid) = kstack;
  la_ctx : p_ctx (get_proc s' pid) = mk_ctx 0 0 0 0 0 0 ksp tramp;
  la_other j : 0 <= j < 64 -> j <> c -> j <> pid -> get_proc s' j = get_proc s j
}.

Lemma add_proc x c t pid : sched_inv x (c :: t) -> 0 <= pid < 64 -> pid ∉ c :: t ->
  sched_inv (scheduler_add x pid) (c :: pid :: t) /\
  (exists n, get_proc (scheduler_add x pid) pid = set_p_next (get_proc x pid) n) /\
  (forall j, 0 <= j < 64 -> j <> c -> j <> pid -> get_proc (scheduler_add x pid) j = get_proc x j).
Proof.
  intros Hi Hp Hn. split; [by apply scheduler_add_spec|]. pose proof (sv_len _ _ Hi) as Hl. apply not_elem_of_cons in Hn as [Hpc _].
  pose proof (sv_ring _ _ Hi) as (c' & t' & [= <- <-] & Hrq & _ & _). pose proof (Forall_inv (sv_range _ _ Hi)) as Hc. cbn in Hc.
  unfold scheduler_add. rewrite Hrq. split.
  - rewrite !get_upd by (rewrite ?length_upd; lia). rewrite decide_False, decide_True by done. by eexists.
  - intros j Hj Hjc Hjp. rewrite !get_upd by (rewrite ?length_upd; lia). by rewrite !decide_False by done.
Qed.

Lemma tss_add x pid : tss_rsp0 (scheduler_add x pid) = tss_rsp0 x.
Proof. unfold scheduler_add. by destruct (run_queue x). Qed.

Lemma launched_ok fuel tramp name s (h h1 h2 : hst A) c t kstack0 kstack pml4 ksp : sched_inv s (c :: t) ->
  Forall (fun p => p_state (get_proc s p) <> PROC_UNUSED) (c :: t) -> alloc_pid s <> -1 -> kstack0 <> 0 ->
  kmalloc h KSTACK_SIZE = (kstack0, h1) -> kfree fuel h1 kstack0 = Some h2 ->
  let pid := alloc_pid s in
  exists s1 s2, kthread_create name tramp s h = (pid, s1, h1) /\ (pid <? 0) = false /\
    install_process tramp fuel (u32 pid) kstack pml4 ksp s1 h1 = Some (pid, s2, h2) /\
    forall rsp0, launched s c t pid kstack pml4 ksp tramp (scheduler_add (ps_syscall_kernel_rsp (ps_tss_rsp0 s2 rsp0) rsp0) pid).
Proof.
  intros Hs Hused Hpid Hk0 Ek Ef pid. pose proof (sv_len _ _ Hs) as Hl. destruct (alloc_pid_spec s Hl Hpid) as [Hp Hpu]. fold pid in Hp, Hpu.
  assert (pid ∉ c :: t) as Hnin. { intros Hin. rewrite Forall_forall in Hused. by destruct (Hused pid Hin). }
  unfold kthread_create. fold pid. rewrite (proj2 (Z.ltb_ge pid 0)) by lia. rewrite Ek, (proj2 (Z.eqb_neq kstack0 0)) by done. cbv zeta.
  set (f1 := fun p : process => set_p_name _ _). set (f3 := fun p : process => set_p_ctx _ _).
  set (s0 := upd_proc s pid f1). set (s1 := upd_proc (upd_proc s0 pid _) pid f3).
  assert (get_proc s1 pid = f3 (set_p_kstack (f1 (get_proc s pid)) kstack0) /\ List.length (proc_table s1) = 64%nat) as [Eg Hl1].
  { unfold s1, s0. rewrite !get_upd by (rewrite ?length_upd; lia). rewrite !decide_True by done. by rewrite !length_upd. }
  assert (sched_inv s1 (c :: t)) as Hs1 by (by repeat apply sched_inv_out).
  assert (forall j, 0 <= j < 64 -> j <> pid -> get_proc s1 j = get_proc s j) as Ho1.
  { intros j Hj Hne. unfold s1, s0. rewrite !get_upd by (rewrite ?length_upd; lia). by rewrite !decide_False. }
  exists s1. clearbody s1. clear s0.
  set (f4 := fun q : process => set_p_ctx (set_p_pml4 (set_p_kstack q kstack) pml4)
    (mk_ctx (rbx (p_ctx q)) (rbp (p_ctx q)) (r12 (p_ctx q)) (r13 (p_ctx q)) (r14 (p_ctx q)) (r15 (p_ctx q)) ksp tramp)).
  exists (upd_proc s1 pid f4). split; [reflexivity|]. split; [reflexivity|]. unfold install_process. rewrite (u32_small pid) by lia. unfold process_get. rewrite (proj2 (Z.leb_gt PROC_MAX pid)) by (unfold PROC_MAX; lia).
  assert (p_state (get_proc s1 pid) = PROC_READY) as -> by (by rewrite Eg). change (PROC_READY =? PROC_UNUSED) with false. cbv iota.
  assert (p_kstack (get_proc s1 pid) = kstack0) as -> by (by rewrite Eg). rewrite Ef.
  split; [reflexivity|]. intros rsp0.
  set (x := ps_syscall_kernel_rsp _ _).
  assert (sched_inv x (c :: t)) as Hx by (apply (sched_inv_ext (upd_proc s1 pid f4)); [by apply sched_inv_out|change (proc_table x) with (proc_table (upd_proc s1 pid f4)); by rewrite length_upd|done..]).
  destruct (add_proc x c t pid Hx Hp Hnin) as (Hi & (n & Eadd) & Ho).
  assert (get_proc x pid = f4 (get_proc s1 pid)) as Ex.
  { change (get_proc x pid) with (get_proc (upd_proc s1 pid f4) pid). rewrite get_upd by lia. by rewrite decide_True. }
  rewrite Ex, Eg in Eadd. split; rewrite ?Eadd; try done. intros j Hj Hjc Hjp. rewrite Ho by done.
  change (get_proc x j) with (get_proc (upd_proc s1 pid f4) j). rewrite get_upd by lia. rewrite decide_False by done. by apply Ho1.
Qed.

(** ** The first process *)

Lemma load_rel n : forall m1 m2 a b, (forall i, 0 <= i < Z.of_nat n -> m1 (a + i) = m2 (b + i)) -> load n m1 a = load n m2 b.
Proof.
  induction n as [|n IH]; intros m1 m2 a b H; [done|]. rewrite !load_S. f_equal.
  - pose proof (H 0 ltac:(lia)) as H0. by rewrite !Z.add_0_r in H0.
  - f_equal. apply IH. intros i Hi. replace (a + 1 + i) with (a + (1 + i)) by lia. replace (b + 1 + i) with (b + (1 + i)) by lia. apply H. lia.
Qed.
(** The kernel stack through the process's own space. *)
Lemma ident_load n k L r c o : vm_inv k L -> L r = 4%nat -> mapped k L r c c -> 0 <= o -> o + Z.of_nat n <= PAGE_SIZE ->
  load n (user_byte k r) (c * PAGE_SIZE + o) = load n (mm k) (frame_va c + o).
Proof.
  intros Hinv Hr [(Hc & _) Hx] Ho Hn. apply load_rel. intros i Hi. unfold user_byte. rewrite (get_phys_xlate k L) by (done || apply Hinv).
  unfold PAGE_SIZE, WINDOW in *. replace (c * 4096 + o + i) with (c * 4096 + (o + i)) by lia.
  rewrite Hx by (unfold user_va; zlia). unfold PHYS_TO_VIRT, PAGE_SIZE. rewrite u64_small by (unfold KERNEL_VMA; zlia). f_equal. unfold frame_va, PAGE_SIZE. zlia.
Qed.

Lemma trampoline_enters m sp entry top tramp : 0 <= entry < 2 ^ 64 -> 0 <= top < 2 ^ 64 ->
  (forall i v, iret_words entry top !! i = Some v -> 0 <= v < 2 ^ 64 -> load64 m (sp - 8 * (Z.of_nat i + 1)) = v) ->
  init_iretq_trampoline (mk_ctx 0 0 0 0 0 0 (sp - 40) tramp) m =
    (mk_regs 0 0 0 0 0 0 0 0 0 top entry USER_RFLAGS Gdt.SEG_USER_CODE Gdt.SEG_USER_DATA, mk_ctx 0 0 0 0 0 0 top entry).
Proof.
  intros He Ht Hw. unfold init_iretq_trampoline, iretq. cbn [Proc.rsp Proc.rip rsp rip rax rcx rdx rsi rdi r8 r9 r10 r11].
  replace (sp - 40) with (sp - 8 * (Z.of_nat 4 + 1)) by lia.
  replace (sp - 8 * (Z.of_nat 4 + 1) + 24) with (sp - 8 * (Z.of_nat 1 + 1)) by lia.
  replace (sp - 8 * (Z.of_nat 4 + 1) + 16) with (sp - 8 * (Z.of_nat 2 + 1)) by lia.
  replace (sp - 8 * (Z.of_nat 4 + 1) + 8) with (sp - 8 * (Z.of_nat 3 + 1)) by lia.
  replace (sp - 8 * (Z.of_nat 4 + 1) + 32) with (sp - 8 * (Z.of_nat 0 + 1)) by lia.
  rewrite (Hw 0%nat Gdt.SEG_USER_DATA), (Hw 1%nat top), (Hw 2%nat USER_RFLAGS), (Hw 3%nat Gdt.SEG_USER_CODE), (Hw 4%nat entry)
    by (done || by vm_compute). done.
Qed.

(** The block [kthread_create] gets for the stack it is going to lose again is not taken
    for a slab page when it is freed ([kfree] decides by a word of the block's contents). *)
Definition spare_stack_ok (init_elf : Z * Z) fuel (h : hst A) : Prop := forall pml4 entry top k4 fr k5 d h1,
  load_program fuel (hk h) init_elf = Some (Some (pml4, entry, top), k4) ->
  init_kstack k4 pml4 entry top = (Some fr, k5) ->
  kmalloc (set_hk h k5) KSTACK_SIZE = (frame_va d + 8, h1) -> slab_like (mm (hk h1)) (frame_va d) = false.

(** The first switch to a launched process: it stands right behind the current one. *)
Lemma first_switch s c t pid kstack pml4 ksp tramp s' h' L r : launched s c t pid kstack pml4 ksp tramp s' ->
  pml4 = r * PAGE_SIZE -> vm_inv (hk h') L -> L r = 4%nat ->
  exists s2 h2, scheduler_yield 64 s' h' = Some (s2, h2) /\ current_proc s2 = Some pid /\ p_state (get_proc s2 pid) = PROC_RUNNING /\
    read_cr3 (hk h2) &b PTE_ADDR_MASK = r * PAGE_SIZE /\ (forall va, user_byte (hk h2) r va = user_byte (hk h') r va) /\
    cpu s2 = mk_ctx 0 0 0 0 0 0 ksp tramp.
Proof.
  intros Hla -> Hinv Hr. pose proof (yield_spec s' h' c (pid :: t) 64 (la_inv _ _ _ _ _ _ _ _ _ Hla) ltac:(lia)) as Hy.
  cbn [first_idx] in Hy. unfold runnable in Hy. rewrite (la_ready _ _ _ _ _ _ _ _ _ Hla), Z.eqb_refl in Hy. cbn [orb] in Hy.
  destruct Hy as (n & s2 & h2 & [= <-] & E & Hp). exists s2, h2.
  pose proof (pw_range _ _ (vi_wf _ _ Hinv) r ltac:(lia)) as Hrr.
  assert (0 <= pid < 64) as Hpid by apply (Forall_inv (Forall_inv_tail (sv_range _ _ (la_inv _ _ _ _ _ _ _ _ _ Hla)))).
  split; [done|]. split; [apply Hp|]. split; [rewrite (yp_proc _ _ _ _ _ _ Hp) by done; unfold switched; by rewrite decide_True|].
  split; [|split].
  - pose proof (yp_cr3 _ _ _ _ _ _ Hp) as Hc. rewrite (la_pml4 _ _ _ _ _ _ _ _ _ Hla) in Hc. apply Hc; [unfold PAGE_SIZE; lia|].
    change 0xffffffffff000 with PTE_ADDR_MASK. rewrite addr_mask, nxt_frame by (unfold WINDOW in Hrr; lia). done.
  - intros va. unfold user_byte. rewrite !(get_phys_xlate _ L) by (rewrite ?(proj1 (yp_mem _ _ _ _ _ _ Hp)); done || apply Hinv).
    by rewrite (proj1 (yp_mem _ _ _ _ _ _ Hp)).
  - by rewrite (yp_cpu _ _ _ _ _ _ Hp), (la_ctx _ _ _ _ _ _ _ _ _ Hla).
Qed.

End spec.

(** ** A launch on the machine of SyscallSpec.v *)

Definition demo_launch_heap : hst pmm_state := mk_hst demo_space [].
Lemma demo_spare_stack : spare_stack_ok (frame_va 10, 124) 2 demo_launch_heap.
Proof.
  assert (match load_program 2 demo_space (frame_va 10, 124) with
          | Some (Some (p, e, t), k4) =>
              match init_kstack k4 p e t with
              | (Some _, k5) => let '(q, h1) := kmalloc (set_hk demo_launch_heap k5) KSTACK_SIZE in slab_like (mm (hk h1)) (q - 8)
              | _ => true
              end
          | _ => true
          end = false) as H by (vm_compute; reflexivity).
  intros pml4 entry top k4 fr k5 d h1 E1 E2 E3. change (hk demo_launch_heap) with demo_space in E1. rewrite E1, E2, E3 in H.
  by replace (frame_va d + 8 - 8) with (frame_va d) in H by lia.
Qed.

