(* ===== verification/Modules.v ===== *)
(** * The module table and the kernel's entry: src/core

    [kernel_module_t], the 32 module descriptors in the order of the table of
    src/core/module_registry.c, [modules_init_all], and [kernel_main] of
    src/core/kernel.c up to its idle loop.  The state is the union of the states of the
    components; each initialiser runs the component's own definition on its part,
    and does what its C function does to the others: the callbacks it registers with the
    timer, its interrupt line, its gate, its system calls.  The heap and the
    devices are shared by the file systems and the network stack.

    Theorem: started on zeroed static data, the table up to the launcher leaves the kernel wired
    as its run-time code expects it. *)

From Stdlib Require Import String.
From S2P Require Import Prelude Mem Io Irq Tty Pci Ata Pmm Vmm Heap BlockHeap Boot Smp Proc ProcSpec Fs Packet NetState E1000 Ether Ipv4 Udp Tcp Socket Syscall SyscallSpec Launch.
Open Scope list_scope.
Open Scope Z_scope.

(** The whole kernel: devices, tables, the state of each component. *)
Record sys (D : Type) := mk_sys {
  y_dev : D; y_gdt : Gdt.gdt_st; y_idt : Idt.idt_st; y_irq : list (option Pic.irq_fn); y_timer : Timer.timer_st; y_pci : list pci_device; y_ata : ata_st; y_fs : fs_st (hst pmm_state) Tty.tty_st; y_ps : pst; y_msrs : msrs; y_table : list (option handler); y_net : nst (hst pmm_state) D; y_smp : Smp.smp_st
}.
Arguments mk_sys {D}. Arguments y_dev {D}. Arguments y_gdt {D}. Arguments y_idt {D}. Arguments y_irq {D}. Arguments y_timer {D}. Arguments y_pci {D}. Arguments y_ata {D}. Arguments y_fs {D}. Arguments y_ps {D}. Arguments y_msrs {D}. Arguments y_table {D}. Arguments y_net {D}. Arguments y_smp {D}.
Definition sy_dev {D} (s : sys D) (v : D) : sys D := mk_sys v (y_gdt s) (y_idt s) (y_irq s) (y_timer s) (y_pci s) (y_ata s) (y_fs s) (y_ps s) (y_msrs s) (y_table s) (y_net s) (y_smp s).
Definition sy_gdt {D} (s : sys D) (v : Gdt.gdt_st) : sys D := mk_sys (y_dev s) v (y_idt s) (y_irq s) (y_timer s) (y_pci s) (y_ata s) (y_fs s) (y_ps s) (y_msrs s) (y_table s) (y_net s) (y_smp s).
Definition sy_idt {D} (s : sys D) (v : Idt.idt_st) : sys D := mk_sys (y_dev s) (y_gdt s) v (y_irq s) (y_timer s) (y_pci s) (y_ata s) (y_fs s) (y_ps s) (y_msrs s) (y_table s) (y_net s) (y_smp s).
Definition sy_irq {D} (s : sys D) (v : list (option Pic.irq_fn)) : sys D := mk_sys (y_dev s) (y_gdt s) (y_idt s) v (y_timer s) (y_pci s) (y_ata s) (y_fs s) (y_ps s) (y_msrs s) (y_table s) (y_net s) (y_smp s).
Definition sy_timer {D} (s : sys D) (v : Timer.timer_st) : sys D := mk_sys (y_dev s) (y_gdt s) (y_idt s) (y_irq s) v (y_pci s) (y_ata s) (y_fs s) (y_ps s) (y_msrs s) (y_table s) (y_net s) (y_smp s).
Definition sy_pci {D} (s : sys D) (v : list pci_device) : sys D := mk_sys (y_dev s) (y_gdt s) (y_idt s) (y_irq s) (y_timer s) v (y_ata s) (y_fs s) (y_ps s) (y_msrs s) (y_table s) (y_net s) (y_smp s).
Definition sy_ata {D} (s : sys D) (v : ata_st) : sys D := mk_sys (y_dev s) (y_gdt s) (y_idt s) (y_irq s) (y_timer s) (y_pci s) v (y_fs s) (y_ps s) (y_msrs s) (y_table s) (y_net s) (y_smp s).
Definition sy_fs {D} (s : sys D) (v : fs_st (hst pmm_state) Tty.tty_st) : sys D := mk_sys (y_dev s) (y_gdt s) (y_idt s) (y_irq s) (y_timer s) (y_pci s) (y_ata s) v (y_ps s) (y_msrs s) (y_table s) (y_net s) (y_smp s).
Definition sy_ps {D} (s : sys D) (v : pst) : sys D := mk_sys (y_dev s) (y_gdt s) (y_idt s) (y_irq s) (y_timer s) (y_pci s) (y_ata s) (y_fs s) v (y_msrs s) (y_table s) (y_net s) (y_smp s).
Definition sy_msrs {D} (s : sys D) (v : msrs) : sys D := mk_sys (y_dev s) (y_gdt s) (y_idt s) (y_irq s) (y_timer s) (y_pci s) (y_ata s) (y_fs s) (y_ps s) v (y_table s) (y_net s) (y_smp s).
Definition sy_table {D} (s : sys D) (v : list (option handler)) : sys D := mk_sys (y_dev s) (y_gdt s) (y_idt s) (y_irq s) (y_timer s) (y_pci s) (y_ata s) (y_fs s) (y_ps s) (y_msrs s) v (y_net s) (y_smp s).
Definition sy_net {D} (s : sys D) (v : nst (hst pmm_state) D) : sys D := mk_sys (y_dev s) (y_gdt s) (y_idt s) (y_irq s) (y_timer s) (y_pci s) (y_ata s) (y_fs s) (y_ps s) (y_msrs s) (y_table s) v (y_smp s).
Definition sy_smp {D} (s : sys D) (v : Smp.smp_st) : sys D := mk_sys (y_dev s) (y_gdt s) (y_idt s) (y_irq s) (y_timer s) (y_pci s) (y_ata s) (y_fs s) (y_ps s) (y_msrs s) (y_table s) (y_net s) v.

(** Where the linker puts what the initialisers take the address of, and what [cpuid]
    answers. *)
Record layout := mk_layout {
  isr_table : list Z; irq_stub_table : list Z; gdt_addr : Z; tss_addr : Z; idt_addr : Z; pf_stub : Z;
  kernel_end : Z; bitmap_addr : Z; syscall_entry_addr : Z; cpus_addr : Z; iretq_tramp : Z;
  init_elf : Z * Z; httpd_elf : Z * Z; cpuid : Z -> Z * Z
}.

(** [kernel_module_t]; [init] is [None] for a NULL pointer and does not return when it gives
    [None].  The dump and shutdown functions are never called. *)
Record kernel_module (D : Type) := mk_module { name : string; initialized : bool; init : option (sys D -> option (Z * sys D)) }.
Arguments mk_module {D}. Arguments name {D}. Arguments initialized {D}. Arguments init {D}.

(** ** Frame of the card's initialiser *)

Section e1000_frame.
Context {H D : Type} `{!Kheap H} `{!NicHw D} `{!Bus D}.
Implicit Types n : nst H D.

Lemma sent_read reg n : sent n (snd (e1000_read reg n)).
Proof. unfold e1000_read. destruct (nic_rd _ _). apply sent_hw. Qed.
Lemma sent_write reg v n : sent n (e1000_write reg v n).
Proof. apply sent_hw. Qed.
Lemma sent_eeprom_poll k : forall n, sent n (snd (eeprom_poll k n)).
Proof.
  induction k as [|k IH]; intros n; cbn [eeprom_poll]; [apply sent_refl|].
  pose proof (sent_read E1000_REG_EERD n) as Hr. destruct (e1000_read _ n) as [v n1]. destruct (has _ _); [exact Hr|].
  eapply sent_trans; [exact Hr|apply IH].
Qed.
Lemma sent_eeprom addr n : sent n (snd (eeprom_read addr n)).
Proof. unfold eeprom_read. eapply sent_trans; [apply sent_write|]. apply sent_eeprom_poll. Qed.
Lemma sent_clear_mta k : forall i n, sent n (clear_mta k i n).
Proof. induction k as [|k IH]; intros i n; cbn [clear_mta]; [apply sent_refl|]. eapply sent_trans; [apply sent_write|apply IH]. Qed.

(** Closes a goal whose last steps are writes to the card or its driver's record. *)
Ltac frame := cbn [snd]; repeat first [eassumption|apply sent_refl|eapply sent_trans; [|first [apply sent_write|apply sent_nic|apply sent_hw|apply sent_clear_mta]]].
(** The next call with a result: its frame as a hypothesis, the result destructed. *)
Ltac frame_call e lem :=
  match goal with |- sent ?n _ =>
    let H := fresh "Hs" in assert (sent n (snd e)) as H by (eapply sent_trans; [|apply lem]; frame); destruct e; cbn [snd] in H
  end.
Ltac step :=
  match goal with
  | |- sent _ ?g =>
      match g with
      | context [e1000_read ?r ?k] => frame_call (e1000_read r k) sent_read
      | context [eeprom_read ?r ?k] => frame_call (eeprom_read r k) sent_eeprom
      end
  end.

Lemma sent_read_mac n : sent n (read_mac n).
Proof. unfold read_mac. step. destruct (negb _); do 2 step; frame. Qed.
Lemma sent_init_rx_loop v2p k : forall i n, sent n (snd (init_rx_loop v2p k i n)).
Proof.
  induction k as [|k IH]; intros i n; cbn [init_rx_loop]; [apply sent_refl|].
  pose proof (sent_kmalloc E1000_RX_BUF_SIZE n) as Hk. destruct (kmalloc _ n) as [b n1]. cbn [snd] in Hk. destruct (b =? 0); [exact Hk|].
  eapply sent_trans; [exact Hk|]. eapply sent_trans; [apply sent_nic|apply IH].
Qed.
Lemma sent_init_tx_loop v2p k : forall i n, sent n (snd (init_tx_loop v2p k i n)).
Proof.
  induction k as [|k IH]; intros i n; cbn [init_tx_loop]; [apply sent_refl|].
  pose proof (sent_kmalloc E1000_RX_BUF_SIZE n) as Hk. destruct (kmalloc _ n) as [b n1]. cbn [snd] in Hk. destruct (b =? 0); [exact Hk|].
  eapply sent_trans; [exact Hk|]. eapply sent_trans; [apply sent_nic|apply IH].
Qed.
Lemma sent_init_rx v2p n : sent n (snd (init_rx v2p n)).
Proof.
  unfold init_rx. pose proof (sent_kmalloc (16 * E1000_NUM_RX_DESC + 16) n) as Hk. destruct (kmalloc _ n) as [b n1]. cbn [snd] in Hk.
  destruct (b =? 0); [exact Hk|]. set (n2 := with_nic n1 _).
  pose proof (sent_trans _ _ _ (sent_trans _ _ n2 Hk (sent_nic _ _)) (sent_init_rx_loop v2p 32 0 n2)) as Hl.
  destruct (init_rx_loop _ _ _ n2) as [r n3]. cbn [snd] in Hl. destruct r; cbv zeta; frame.
Qed.
Lemma sent_init_tx v2p n : sent n (snd (init_tx v2p n)).
Proof.
  unfold init_tx. pose proof (sent_kmalloc (16 * E1000_NUM_TX_DESC + 16) n) as Hk. destruct (kmalloc _ n) as [b n1]. cbn [snd] in Hk.
  destruct (b =? 0); [exact Hk|]. set (n2 := with_nic n1 _).
  pose proof (sent_trans _ _ _ (sent_trans _ _ n2 Hk (sent_nic _ _)) (sent_init_tx_loop v2p 32 0 n2)) as Hl.
  destruct (init_tx_loop _ _ _ n2) as [r n3]. cbn [snd] in Hl. destruct r; cbv zeta; frame.
Qed.
Lemma sent_e1000_init v2p devs n : sent n (snd (e1000_init_impl v2p devs n)).
Proof.
  unfold e1000_init_impl. destruct (pci_find_device _ _ _) as [pci|]; [|frame]. cbv zeta.
  destruct (pci_read32 _ _ _) as [cmd d]. do 2 step. destruct (has _ _); [frame|]. step.
  set (k := read_mac _). assert (sent n k) as Hk by (eapply sent_trans; [|apply sent_read_mac]; frame). clearbody k.
  step. match goal with |- context [init_rx v2p ?k] => frame_call (init_rx v2p k) sent_init_rx end. destruct (_ <? 0); [frame|].
  match goal with |- context [init_tx v2p ?k] => frame_call (init_tx v2p k) sent_init_tx end. destruct (_ <? 0); [frame|].
  step. frame.
Qed.
End e1000_frame.

Section modules.
Context {D : Type} `{!Bus D} `{!NicHw D} `{!Smp.Mmio32 D} `{!CharDev Tty.tty_st}.
(** [fuel] bounds the loops that wait for a device or walk a list. *)
Context (img : layout) (fuel : nat).
Implicit Types s : sys D.

(** ** Shared parts *)

Definition y_heap s : hst pmm_state := f_heap (y_fs s).
Definition sy_heap s (h : hst pmm_state) : sys D := sy_fs s (fs_heap (y_fs s) h).
Definition y_tty s : Tty.tty_st := f_tty (y_fs s).
Definition sy_tty s (t : Tty.tty_st) : sys D := sy_fs s (fs_tty (y_fs s) t).

(** The kernel heap as the network stack calls it; a release that does not end within the
    fuel leaves the heap as it is. *)
Local Instance slab_kheap : Kheap (hst pmm_state) := {|
  kh_alloc n h := Heap.kmalloc h n;
  kh_free p h := default h (Heap.kfree fuel h p)
|}.

(** The network stack on the shared heap, devices and clock. *)
Definition net_view s : nst (hst pmm_state) D :=
  with_ticks (with_hw (with_heap (y_net s) (y_heap s)) (y_dev s)) (Timer.ticks (y_timer s)).
Definition net_init (g : nst (hst pmm_state) D -> Z * nst (hst pmm_state) D) s : Z * sys D :=
  let '(r, n) := g (net_view s) in (r, sy_net (sy_dev (sy_heap s (heap n)) (hw n)) n).

(** Memory by physical address, through the window. *)
Definition phys_mem (m : mem) : mem := fun p => m (KERNEL_VMA + p).

(** ** The initialisers *)

Definition init_serial s : option (Z * sys D) :=
  match serial_init fuel (y_dev s) with Some d => Some (0, sy_dev s d) | None => None end.

Definition init_vga s : option (Z * sys D) :=
  let '(r, (v, d)) := Vga.vga_init (Tty.vga (y_tty s)) (y_dev s) in
  Some (r, sy_dev (sy_tty s (Tty.ts_vga (y_tty s) v)) d).

Definition init_gdt s : option (Z * sys D) :=
  let '(r, g) := Gdt.gdt_init (gdt_addr img) (tss_addr img) in
  Some (r, sy_ps (sy_gdt s g) (ps_tss_rsp0 (y_ps s) (Gdt.tss_rsp0 g))).

Definition init_idt s : option (Z * sys D) :=
  let '(r, t) := Idt.idt_init (isr_table img) (idt_addr img) in Some (r, sy_idt s t).

Definition set_gates_of s (t : list Idt.idt_entry) : sys D :=
  sy_idt s (Idt.mk_idt t (Idt.idtr_limit (y_idt s)) (Idt.idtr_base (y_idt s))).

Definition init_pic s : option (Z * sys D) :=
  let '(r, h, t, d) := Pic.pic_init (Idt.idt (y_idt s)) (irq_stub_table img) (y_dev s) in
  Some (r, sy_dev (sy_irq (set_gates_of s t) h) d).

Definition init_pmm s : option (Z * sys D) :=
  let k := hk (y_heap s) in
  match pmm_init fuel (phys_mem (mm k)) (kernel_end img) (bitmap_addr img) (fa k) with
  | Some (r, st) => Some (r, sy_heap s (set_hk (y_heap s) (mk_kst (mm k) st (cr3 k) (pml4_phys k) (kernel_pml4_phys k) (cpu_log k))))
  | None => None
  end.

Definition init_vmm s : option (Z * sys D) :=
  let '(r, k) := vmm_init (hk (y_heap s)) in
  Some (r, set_gates_of (sy_heap s (set_hk (y_heap s) k)) (Idt.idt_set_gate (Idt.idt (y_idt s)) 14 (pf_stub img) 0)).

Definition init_heap s : option (Z * sys D) :=
  let '(r, h) := heap_init (y_heap s) in Some (r, sy_heap s h).

Definition init_timer s : option (Z * sys D) :=
  let '(r, h, d) := Timer.timer_init (y_irq s) (y_dev s) in Some (r, sy_dev (sy_irq s h) d).

Definition init_keyboard s : option (Z * sys D) :=
  let '(r, h, d) := Keyboard.keyboard_init (y_irq s) (y_dev s) in Some (r, sy_dev (sy_irq s h) d).

Definition init_pci s : option (Z * sys D) :=
  let '(r, l, d) := pci_init (y_dev s) in Some (r, sy_dev (sy_pci s l) d).

Definition init_ata s : option (Z * sys D) :=
  let '(r, a, d) := ata_init (y_ata s) (y_dev s) in Some (r, sy_dev (sy_ata s a) d).

Definition init_vfs s : option (Z * sys D) :=
  let '(r, f) := vfs_init (y_fs s) in Some (r, sy_fs s f).

Definition init_tmpfs s : option (Z * sys D) :=
  match tmpfs_init (y_fs s) with Some (r, f) => Some (r, sy_fs s f) | None => None end.

Definition init_devfs s : option (Z * sys D) :=
  let '(r, f) := devfs_init (y_fs s) in Some (r, sy_fs s f).

(** [timer_register_callback(f)] *)
Definition on_tick (f : Timer.timer_fn) s : Z * sys D :=
  let '(r, t) := Timer.timer_register_callback (y_timer s) f in (r, sy_timer s t).

Definition init_tty s : option (Z * sys D) :=
  let t := y_tty s in
  let s := sy_tty s (Tty.ts_rbuf (Tty.ts_lbuf t (Tty.lbuf t) 0) (Tty.rbuf t) 0 0) in
  let '(_, s) := on_tick Timer.tty_poll_fn s in
  let '(r, f) := tty_register (y_fs s) in
  Some (r, sy_fs s f).

Definition init_process s : option (Z * sys D) :=
  let '(r, p) := process_init (y_ps s) in Some (r, sy_ps s p).

(** The callback is registered once the idle process has been found. *)
Definition init_scheduler s : option (Z * sys D) :=
  let '(reg, s) := match process_get (y_ps s) 0 with None => (-1, s) | Some _ => on_tick Timer.scheduler_tick_fn s end in
  let '(r, p) := scheduler_init reg (y_ps s) in
  Some (r, sy_ps s p).

Definition init_syscall s : option (Z * sys D) :=
  let '(r, ms, t) := syscall_init (syscall_entry_addr img) (y_msrs s) (y_table s) in
  Some (r, sy_table (sy_msrs s ms) t).

Definition init_e1000 s : option (Z * sys D) :=
  Some (net_init (e1000_init_impl (fun p => vmm_get_phys (hk (y_heap s)) p) (y_pci s)) s).
Definition init_ethernet s : option (Z * sys D) := Some (net_init ethernet_init_impl s).
Definition init_arp s : option (Z * sys D) := Some (net_init arp_init_impl s).
Definition init_ipv4 s : option (Z * sys D) := Some (net_init ipv4_init_impl s).
Definition init_icmp s : option (Z * sys D) := Some (net_init icmp_init_impl s).
Definition init_udp s : option (Z * sys D) := Some (net_init udp_init_impl s).
Definition init_tcp s : option (Z * sys D) := Some (net_init tcp_init_impl s).

(** The socket calls are known to the system call table by their numbers. *)
Definition init_socket s : option (Z * sys D) :=
  let '(r, s) := net_init socket_init_impl s in
  Some (r, sy_table s (fold_left (fun t c => syscall_register (fst c) (h_module (fst c)) t) socket_calls (y_table s))).

Definition init_dhcp s : option (Z * sys D) :=
  let '(_, s) := on_tick Timer.net_poll_fn s in Some (net_init dhcp_init_impl s).

Definition init_smp s : option (Z * sys D) :=
  let '(r, c, k, d) := Smp.smp_init_impl (cpuid img) (cpus_addr img) (y_smp s) (hk (y_heap s)) (y_dev s) in
  Some (r, sy_dev (sy_smp (sy_heap s (set_hk (y_heap s) k)) c) d).

Definition init_dynlink s : option (Z * sys D) := Some (0, sy_table s (dynlink_init (y_table s))).

Definition init_init_launch s : option (Z * sys D) :=
  match init_launch_impl (iretq_tramp img) (init_elf img) (httpd_elf img) fuel (y_ps s) (y_fs s) with
  | Some (r, p, f) => Some (r, sy_fs (sy_ps s p) f)
  | None => None
  end.

(** ** The descriptors *)

Definition mod_serial := mk_module "serial" false (Some init_serial).
Definition mod_vga := mk_module "vga" false (Some init_vga).
Definition mod_gdt := mk_module "gdt" false (Some init_gdt).
Definition mod_idt := mk_module "idt" false (Some init_idt).
Definition mod_pic := mk_module "pic" false (Some init_pic).
Definition mod_pmm := mk_module "pmm" false (Some init_pmm).
Definition mod_vmm := mk_module "vmm" false (Some init_vmm).
Definition mod_heap := mk_module "heap" false (Some init_heap).
Definition mod_timer := mk_module "timer" false (Some init_timer).
Definition mod_keyboard := mk_module "keyboard" false (Some init_keyboard).
Definition mod_pci := mk_module "pci" false (Some init_pci).
Definition mod_ata := mk_module "ata" false (Some init_ata).
Definition mod_vfs := mk_module "vfs" false (Some init_vfs).
Definition mod_tmpfs := mk_module "tmpfs" false (Some init_tmpfs).
Definition mod_devfs := mk_module "devfs" false (Some init_devfs).
Definition mod_tty := mk_module "tty" false (Some init_tty).
Definition mod_process := mk_module "process" false (Some init_process).
Definition mod_scheduler := mk_module "scheduler" false (Some init_scheduler).
Definition mod_syscall := mk_module "syscall" false (Some init_syscall).
Definition mod_elf : kernel_module D := mk_module "elf" false None.
Definition mod_e1000 := mk_module "e1000" false (Some init_e1000).
Definition mod_ethernet := mk_module "ethernet" false (Some init_ethernet).
Definition mod_arp := mk_module "arp" false (Some init_arp).
Definition mod_ipv4 := mk_module "ipv4" false (Some init_ipv4).
Definition mod_icmp := mk_module "icmp" false (Some init_icmp).
Definition mod_udp := mk_module "udp" false (Some init_udp).
Definition mod_tcp := mk_module "tcp" false (Some init_tcp).
Definition mod_socket := mk_module "socket" false (Some init_socket).
Definition mod_dhcp := mk_module "dhcp" false (Some init_dhcp).
Definition mod_smp := mk_module "smp" false (Some init_smp).
Definition mod_dynlink := mk_module "dynlink" false (Some init_dynlink).
Definition mod_init_launch := mk_module "init_launch" false (Some init_init_launch).

(** The table without its last entry, the launcher. *)
Definition drivers : list (kernel_module D) :=
  [mod_serial; mod_vga; mod_gdt; mod_idt; mod_pic; mod_pmm; mod_vmm; mod_heap; mod_timer; mod_keyboard; mod_pci; mod_ata;
   mod_vfs; mod_tmpfs; mod_devfs; mod_tty; mod_process; mod_scheduler; mod_syscall; mod_elf; mod_e1000; mod_ethernet;
   mod_arp; mod_ipv4; mod_icmp; mod_udp; mod_tcp; mod_socket; mod_dhcp; mod_smp; mod_dynlink].
Definition modules : list (kernel_module D) := drivers ++ [mod_init_launch].

(** [modules_init_all]: the descriptors with their flags, and the state. *)
Fixpoint modules_init_all (ms : list (kernel_module D)) s : option (list (kernel_module D) * sys D) :=
  match ms with
  | [] => Some ([], s)
  | m :: ms =>
      match (match init m with
             | Some f => match f s with Some (ret, s) => Some (mk_module (name m) (ret =? 0) (init m), s) | None => None end
             | None => Some (mk_module (name m) true (init m), s)
             end) with
      | None => None
      | Some (m, s) =>
          match modules_init_all ms s with Some (ms, s) => Some (m :: ms, s) | None => None end
      end
  end.

(** [pmm_set_mb2] on the whole state. *)
Definition pass_mb2 (mb2 : Z) s : sys D :=
  let k := hk (y_heap s) in
  sy_heap s (set_hk (y_heap s) (mk_kst (mm k) (pmm_set_mb2 (fa k) mb2) (cr3 k) (pml4_phys k) (kernel_pml4_phys k) (cpu_log k))).

(** [kernel_main] up to the loop that yields and halts. *)
Definition kernel_main (mb2 : Z) s : option (list (kernel_module D) * sys D) := modules_init_all modules (pass_mb2 mb2 s).

(** ** Power on *)

Definition cache_zero : slab_cache := mk_cache 0 0 0.
Definition node_zero : vfs_node := fd_node fd_default.

(** The static data of the image as the boot loader leaves it (zero unless the source
    says otherwise), over the memory, the devices and the registers of the machine. *)
Definition fs_blank (h : hst pmm_state) (t : Tty.tty_st) : fs_st (hst pmm_state) Tty.tty_st :=
  mk_fs h t (replicate 64 inode_default) node_zero false [] (replicate 64 fd_default) [] node_zero.
Definition heap_blank (m : mem) (root : Z) : hst pmm_state :=
  mk_hst (mk_kst m (mk_pmm (replicate (Z.to_nat PMM_BITMAP_WORDS) 0) 0 0 0) root 0 0 []) (replicate (Z.to_nat HEAP_NUM_CACHES) cache_zero).
Definition tty_blank (screen : list Z) : Tty.tty_st :=
  Tty.mk_tty (zeros 256) 0 (zeros 1024) 0 0 (Keyboard.mk_kb (zeros 256) 0 0) (Vga.mk_vga screen 0 0).
Definition ps_blank (c : cpu_context) : pst := mk_pst (replicate 64 proc_default) None None 0 0 0 0 c.
Definition net_blank (h : hst pmm_state) (d : D) (um : mem) : nst (hst pmm_state) D :=
  mk_nst h d (mk_e1000 0 (zeros 6) [] 0 (replicate 32 []) (replicate 32 0) 0 [] 0 (replicate 32 []) (replicate 32 0) 0 false false)
    [] (zeros 6) (replicate 16 (mk_arp 0 (zeros 6))) 0 [] 0 0 0 1 [] (replicate 8 conn_default) 0x12345678
    (replicate 16 (mk_sock SOCK_FREE 0 0 0 0 (zeros 2048) 0 0)) DHCP_STATE_IDLE 0 0 0 0 0 false um.

Definition power_on (m : mem) (root : Z) (screen : list Z) (d : D) (ms : msrs) (c : cpu_context) (um : mem) : sys D :=
  mk_sys d (Gdt.mk_gdt (replicate 7 0) 0 0 0 0 0 0 0) (Idt.mk_idt (replicate 256 Idt.gate_zero) 0 0) (replicate 16 None)
    (Timer.mk_timer 0 []) [] (mk_ata 0 0) (fs_blank (heap_blank m root) (tty_blank screen)) (ps_blank c) ms
    (replicate 320 None) (net_blank (heap_blank m root) d um) (Smp.mk_smp (replicate 8 (Smp.mk_cpu 0 0 0 0 0 0)) 0 0).

(** ** What the table leaves *)

(** The handler of each system call: those of syscall.c, dynlink.c and socket.c. *)
Definition call_handlers : list (Z * handler) :=
  [(0, h_read); (1, h_write); (2, h_open); (3, h_close); (9, h_mmap); (11, h_munmap); (39, h_getpid); (57, h_fork);
   (59, h_execve); (60, h_exit); (61, h_waitpid)] ++ map (fun c => (fst c, h_module (fst c))) socket_calls.
Definition handler_of (nr : Z) : handler :=
  match List.find (fun c => fst c =? nr) call_handlers with Some (_, h) => h | None => h_enosys end.

(** Exceptions, the page fault, the interrupt lines; nothing else. *)
Definition vector_of (v : Z) : option Z :=
  if v =? 14 then Some (pf_stub img)
  else if v <? 32 then isr_table img !! Z.to_nat v
  else if v <? 48 then irq_stub_table img !! Z.to_nat (v - 32)
  else None.

Definition closed_fd (e : fd_entry) : bool := negb (fd_open e).

(** The kernel as its run-time code expects it. *)
Record wired s : Prop := {
  w_vectors v : 0 <= v < 256 -> Idt.vector (Idt.idt (y_idt s)) v = vector_of v;
  w_lines : y_irq s = [Some Pic.timer_irq_fn; Some Pic.keyboard_irq_fn] ++ replicate 14 None;
  w_ticks : Timer.callbacks (y_timer s) = [Timer.tty_poll_fn; Timer.scheduler_tick_fn; Timer.net_poll_fn];
  w_calls nr : 0 <= nr < SYSCALL_MAX -> y_table s !! Z.to_nat nr = Some (Some (handler_of nr));
  w_entry : rdmsr (y_msrs s) MSR_LSTAR = syscall_entry_addr img;
  w_ether : eth_h (y_net s) = [(0x0806, h_arp_rx); (0x0800, h_ipv4_rx)];
  w_ip : ip_h (y_net s) = [(1, h_icmp_rx); (17, h_udp_rx); (6, h_tcp_rx)];
  w_udp : udp_h (y_net s) = [(68, h_dhcp_rx)];
  w_dhcp : d_state (y_net s) = DHCP_STATE_SELECTING;
  w_conns : Forall (fun c => c_state c = TCP_CLOSED) (conns (y_net s));
  w_socks : Forall (fun k => s_type k = SOCK_FREE) (socks (y_net s));
  w_root : vfs_root (y_fs s) = true;
  w_devs : map fst (dev_table (y_fs s)) = ["null"; "zero"; "tty0"]%string;
  w_fds : forallb closed_fd (fd_table (y_fs s)) = true;
  w_std : exists n f, devfs_get_node "tty0" (y_fs s) = Some n /\ n_ops n = Some tty_ops /\ open_std 3 n 0 (y_fs s) = Some (true, f);
  w_sched : sched_inv (y_ps s) [0];
  w_pid : alloc_pid (y_ps s) = 1;
  w_cpus : Smp.smp_cpu_count (y_smp s) = 1
}.

(** ** Running the table *)

Definition started (ms : list (kernel_module D)) : list (kernel_module D) := map (fun m => mk_module (name m) true (init m)) ms.

Lemma init_app a b s : modules_init_all (a ++ b) s =
  match modules_init_all a s with
  | Some (a, s) => match modules_init_all b s with Some (b, s) => Some (a ++ b, s) | None => None end
  | None => None
  end.
Proof.
  revert s. induction a as [|m a IH]; intros s; cbn [app modules_init_all].
  - by destruct (modules_init_all b s) as [[]|].
  - destruct (match init m with Some _ => _ | None => _ end) as [[m' s']|]; [|done]. rewrite IH.
    destruct (modules_init_all a s') as [[a' s'']|]; [|done]. by destruct (modules_init_all b s'') as [[]|].
Qed.

Lemma init_ok m f ms s s1 s2 : init m = Some f -> f s = Some (0, s1) -> modules_init_all ms s1 = Some (started ms, s2) ->
  modules_init_all (m :: ms) s = Some (started (m :: ms), s2).
Proof. intros E1 E2 E3. cbn [modules_init_all]. by rewrite E1, E2, E3, <- E1. Qed.

(** The initialisers that return 0, on any state: what they change, by field. *)

Lemma run_vga s : exists t d, init_vga s = Some (0, sy_dev (sy_tty s t) d).
Proof. unfold init_vga. cbn [Vga.vga_init]. destruct (Vga.vga_clear _ _) as [v d]. by do 2 eexists. Qed.
Lemma run_gdt s : exists g, init_gdt s = Some (0, sy_ps (sy_gdt s g) (ps_tss_rsp0 (y_ps s) 0)).
Proof. unfold init_gdt, Gdt.gdt_init. destruct (Gdt.gdt_set_tss _ _) as [lo hi]. by eexists. Qed.
Lemma run_pic s : exists d, init_pic s =
  Some (0, sy_dev (sy_irq (set_gates_of s (Idt.set_gates (Idt.idt (y_idt s)) 32 (irq_stub_table img))) (replicate 16 None)) d).
Proof.
  unfold init_pic, Pic.pic_init. destruct (inb Pic.PIC1_DATA _) as [m1 d3]. destruct (inb Pic.PIC2_DATA d3) as [m2 d4].
  by eexists.
Qed.
Lemma run_keyboard s : exists d, init_keyboard s = Some (0, sy_dev (sy_irq s (Pic.irq_register (y_irq s) 1 Pic.keyboard_irq_fn)) d).
Proof. unfold init_keyboard, Keyboard.keyboard_init. destruct (inb _ _) as [st d]. by eexists. Qed.
Lemma run_pci s : exists l d, init_pci s = Some (0, sy_dev (sy_pci s l) d).
Proof. unfold init_pci, pci_init. destruct (probe_buses _ _ _ _) as [l d]. by do 2 eexists. Qed.
Lemma run_ata s : exists a d, init_ata s = Some (0, sy_dev (sy_ata s a) d).
Proof.
  unfold init_ata, ata_init. destruct (try_identify _ _ _) as [n1 e1]. destruct (negb _); [by do 2 eexists|].
  destruct (try_identify _ _ _) as [n2 e2]. destruct (negb _); by do 2 eexists.
Qed.

(** The table in groups. *)
Definition cpu_group := [mod_serial; mod_vga; mod_gdt; mod_idt; mod_pic].
Definition memory_group := [mod_pmm; mod_vmm; mod_heap].
Definition driver_group := [mod_timer; mod_keyboard; mod_pci; mod_ata].

Lemma up_cpu s d0 : serial_init fuel (y_dev s) = Some d0 ->
  exists d t g, modules_init_all cpu_group s = Some (started cpu_group,
      sy_dev (sy_irq (sy_idt (sy_ps (sy_gdt (sy_tty s t) g) (ps_tss_rsp0 (y_ps s) 0))
        (Idt.mk_idt (Idt.set_gates (Idt.idt (snd (Idt.idt_init (isr_table img) (idt_addr img)))) 32 (irq_stub_table img)) 4095 (idt_addr img)))
        (replicate 16 None)) d).
Proof.
  intros E. destruct (run_vga (sy_dev s d0)) as (t & d1 & E1). destruct (run_gdt (sy_dev (sy_tty (sy_dev s d0) t) d1)) as (g & E2).
  edestruct run_pic as (d2 & E3). exists d2, t, g.
  eapply init_ok; [done|unfold init_serial; by rewrite E|]. eapply init_ok; [done|exact E1|]. eapply init_ok; [done|exact E2|].
  eapply init_ok; [done|done|]. eapply init_ok; [done|exact E3|]. done.
Qed.

Lemma up_memory s st k : k = hk (y_heap s) ->
  pmm_init fuel (phys_mem (mm k)) (kernel_end img) (bitmap_addr img) (fa k) = Some (0, st) ->
  exists h, modules_init_all memory_group s = Some (started memory_group,
      sy_idt (sy_heap s h) (Idt.mk_idt (Idt.idt_set_gate (Idt.idt (y_idt s)) 14 (pf_stub img) 0) (Idt.idtr_limit (y_idt s)) (Idt.idtr_base (y_idt s)))).
Proof.
  intros -> E. eexists. eapply init_ok; [done|unfold init_pmm; by rewrite E|]. eapply init_ok; [done|done|].
  by eapply init_ok.
Qed.

Lemma up_drivers s : exists d l a, modules_init_all driver_group s = Some (started driver_group,
    sy_dev (sy_ata (sy_pci (sy_irq s (Pic.irq_register (Pic.irq_register (y_irq s) 0 Pic.timer_irq_fn) 1 Pic.keyboard_irq_fn)) l) a) d).
Proof.
  edestruct run_keyboard as (d1 & E1). edestruct run_pci as (l & d2 & E2). edestruct run_ata as (a & d3 & E3).
  exists d3, l, a. eapply init_ok; [done|done|]. eapply init_ok; [done|exact E1|]. eapply init_ok; [done|exact E2|].
  eapply init_ok; [done|exact E3|]. done.
Qed.

(** One more callback, while the table has room. *)
Lemma on_tick_app f s cs : Timer.callbacks (y_timer s) = cs -> (length cs < 8)%nat ->
  on_tick f s = (0, sy_timer s (Timer.mk_timer (Timer.ticks (y_timer s)) (cs ++ [f]))).
Proof.
  intros <- Hl. unfold on_tick, Timer.timer_register_callback.
  by rewrite (proj2 (Z.leb_gt _ _)) by (unfold Timer.TIMER_MAX_CALLBACKS; lia).
Qed.

(** *** File systems *)

(** The file systems after their initialisers, over a heap and a terminal. *)
Definition fs_up (h : hst pmm_state) (t : Tty.tty_st) : fs_st (hst pmm_state) Tty.tty_st :=
  match tmpfs_init (snd (vfs_init (fs_blank h t))) with
  | Some (_, f) => snd (tty_register (snd (devfs_init f)))
  | None => fs_blank h t
  end.
Lemma fs_up_heap h h' t : fs_heap (fs_up h t) h' = fs_up h' t.
Proof. by vm_compute. Qed.
Lemma fs_up_ready h t : vfs_root (fs_up h t) = true /\ map fst (dev_table (fs_up h t)) = ["null"; "zero"; "tty0"]%string /\
  forallb closed_fd (fd_table (fs_up h t)) = true /\
  exists n f, devfs_get_node "tty0" (fs_up h t) = Some n /\ n_ops n = Some tty_ops /\ open_std 3 n 0 (fs_up h t) = Some (true, f).
Proof. split; [by vm_compute|]. split; [by vm_compute|]. split; [by vm_compute|]. do 2 eexists. split; [by vm_compute|]. split; by vm_compute. Qed.

Lemma fs_up_steps h t : exists f1 f2, tmpfs_init (snd (vfs_init (fs_blank h t))) = Some (0, f1) /\ devfs_init f1 = (0, f2) /\
  f_tty f2 = t /\ forall t', tty_register (fs_tty f2 t') = (0, fs_up h t').
Proof. do 2 eexists. split; [by vm_compute|]. split; [by vm_compute|]. split; [done|]. intros t'. by vm_compute. Qed.

Definition fs_group := [mod_vfs; mod_tmpfs; mod_devfs; mod_tty].
Lemma up_fs s h t : y_fs s = fs_blank h t -> Timer.callbacks (y_timer s) = [] ->
  exists t', modules_init_all fs_group s = Some (started fs_group,
    sy_fs (sy_timer s (Timer.mk_timer (Timer.ticks (y_timer s)) [Timer.tty_poll_fn])) (fs_up h t')).
Proof.
  intros Ef Ec. destruct (fs_up_steps h t) as (f1 & f2 & E1 & E2 & Et & E3). rewrite <- Ef in E1. eexists.
  eapply (init_ok _ _ _ _ (sy_fs s (snd (vfs_init (y_fs s))))); [done|done|].
  eapply (init_ok _ _ _ _ (sy_fs s f1)); [done|unfold init_tmpfs; cbn [y_fs sy_fs]; by rewrite E1|].
  eapply (init_ok _ _ _ _ (sy_fs s f2)); [done|unfold init_devfs; cbn [y_fs sy_fs]; by rewrite E2|].
  eapply init_ok; [done| |done]. unfold init_tty. cbv zeta. rewrite (on_tick_app _ _ []) by first [exact Ec|cbn; lia].
  unfold sy_tty. cbn [y_fs sy_timer sy_fs]. by rewrite E3.
Qed.

(** *** Processes and system calls *)

Definition ps_up (c : cpu_context) : pst := snd (scheduler_init 0 (snd (process_init (ps_blank c)))).
Lemma ps_up_ready c : sched_inv (ps_up c) [0] /\ alloc_pid (ps_up c) = 1.
Proof.
  split; [|by vm_compute]. split; [done|repeat constructor; lia|apply NoDup_singleton|]. exists 0, []. by split_and!.
Qed.

Lemma run_scheduler s c cs : y_ps s = snd (process_init (ps_blank c)) -> Timer.callbacks (y_timer s) = cs -> (length cs < 8)%nat ->
  init_scheduler s = Some (0, sy_ps (sy_timer s (Timer.mk_timer (Timer.ticks (y_timer s)) (cs ++ [Timer.scheduler_tick_fn]))) (ps_up c)).
Proof.
  intros Ep Ec Hl. unfold init_scheduler. rewrite (on_tick_app _ _ _ Ec Hl), Ep.
  assert (process_get (snd (process_init (ps_blank c))) 0 = Some 0) as -> by by vm_compute. cbn [y_ps sy_timer]. rewrite Ep.
  by assert (scheduler_init 0 (snd (process_init (ps_blank c))) = (0, ps_up c)) as -> by by vm_compute.
Qed.

Definition table_up (entry : Z) (ms : msrs) : list (option handler) := snd (syscall_init entry ms (replicate 320 None)).

Definition task_group := [mod_process; mod_scheduler; mod_syscall; mod_elf].
Lemma up_tasks s c cs : y_ps s = ps_blank c -> Timer.callbacks (y_timer s) = cs -> (length cs < 8)%nat -> y_table s = replicate 320 None ->
  0 <= syscall_entry_addr img < 2 ^ 64 ->
  exists ms ms0, modules_init_all task_group s = Some (started task_group,
    sy_table (sy_msrs (sy_ps (sy_timer s (Timer.mk_timer (Timer.ticks (y_timer s)) (cs ++ [Timer.scheduler_tick_fn]))) (ps_up c)) ms)
      (table_up (syscall_entry_addr img) ms0)) /\
    rdmsr ms MSR_LSTAR = syscall_entry_addr img.
Proof.
  intros Ep Ec Hl Et He. exists (snd (fst (syscall_init (syscall_entry_addr img) (y_msrs s) (y_table s)))), (y_msrs s). split; [|by apply init_msrs].
  eapply (init_ok _ _ _ _ (sy_ps s (snd (process_init (y_ps s))))); [done|done|].
  eapply init_ok; [done|apply (run_scheduler _ c cs); [by rewrite <- Ep|exact Ec|exact Hl]|].
  eapply init_ok; [done|done|]. unfold table_up. rewrite <- Et. reflexivity.
Qed.

(** *** The network stack *)

(** The tables the initialisers of the stack fill. *)
Definition net_tables (n : nst (hst pmm_state) D) := (eth_h n, ip_h n, udp_h n, conns n, socks n).

Lemma sent_tables n n' : sent n n' -> net_tables n' = net_tables n.
Proof. by intros (h & d & c & p & ->). Qed.

(** Running an initialiser of the stack touches the heap, the devices and the stack. *)
Lemma run_net g s : exists h d, net_init g s = (fst (g (net_view s)), sy_net (sy_dev (sy_heap s h) d) (snd (g (net_view s)))).
Proof. unfold net_init. destruct (g (net_view s)) as [r n]. by exists (heap n), (hw n). Qed.

(** States that differ from [s] only there. *)
Definition net_only s s' : Prop := exists h d, s' = sy_net (sy_dev (sy_heap s h) d) (y_net s').
Lemma net_only_refl s : net_only s s.
Proof. exists (y_heap s), (y_dev s). by destruct s as [???????[]]. Qed.
Lemma net_only_trans s1 s2 s3 : net_only s1 s2 -> net_only s2 s3 -> net_only s1 s3.
Proof. intros (h & d & E) (h' & d' & E'). exists h', d'. rewrite E', E. reflexivity. Qed.

(** An initialiser of the stack, by what it does to the tables. *)
Lemma net_step g s0 s T T' : (forall n, net_tables n = T -> fst (g n) = 0 /\ net_tables (snd (g n)) = T') ->
  net_only s0 s -> net_tables (y_net s) = T ->
  exists s', Some (net_init g s) = Some (0, s') /\ net_only s0 s' /\ net_tables (y_net s') = T'.
Proof.
  intros Hg Hs HT. destruct (run_net g s) as (h & d & E). destruct (Hg (net_view s) HT) as [Hr HT1]. rewrite Hr in E.
  eexists. split; [by rewrite E|]. split; [|exact HT1]. eapply net_only_trans; [exact Hs|]. by exists h, d.
Qed.

(** What each does, from the tables its predecessors leave. *)
Lemma step_ethernet n e i u c k : net_tables n = (e, i, u, c, k) ->
  fst (ethernet_init_impl n) = 0 /\ net_tables (snd (ethernet_init_impl n)) = ([], i, u, c, k).
Proof. destruct n. cbn. intros [= -> -> -> -> ->]. done. Qed.
Lemma step_arp n i u c k : net_tables n = ([], i, u, c, k) ->
  fst (arp_init_impl n) = 0 /\ net_tables (snd (arp_init_impl n)) = ([(0x0806, h_arp_rx)], i, u, c, k).
Proof. destruct n. cbn. intros [= -> -> -> -> ->]. done. Qed.
Lemma step_ipv4 n e i u c k : net_tables n = ([e], i, u, c, k) ->
  fst (ipv4_init_impl n) = 0 /\ net_tables (snd (ipv4_init_impl n)) = ([e; (0x0800, h_ipv4_rx)], [], u, c, k).
Proof.
  intros HT. unfold ipv4_init_impl, ethernet_register. set (n1 := with_pkt_id _ 1). injection HT as He _ <- <- <-.
  assert (eth_h n1 = [e]) as -> by exact He. cbn [length]. change (ETH_MAX_HANDLERS <=? Z.of_nat 1) with false. done.
Qed.
Lemma step_icmp n e u c k : net_tables n = (e, [], u, c, k) ->
  fst (icmp_init_impl n) = 0 /\ net_tables (snd (icmp_init_impl n)) = (e, [(1, h_icmp_rx)], u, c, k).
Proof. destruct n. cbn. intros [= -> -> -> -> ->]. done. Qed.
Lemma step_udp n e i u c k : net_tables n = (e, [i], u, c, k) ->
  fst (udp_init_impl n) = 0 /\ net_tables (snd (udp_init_impl n)) = (e, [i; (17, h_udp_rx)], u, c, k).
Proof. destruct n. cbn. intros [= -> -> -> -> ->]. done. Qed.
Lemma step_tcp n e i j u c k : net_tables n = (e, [i; j], u, c, k) ->
  fst (tcp_init_impl n) = 0 /\
  net_tables (snd (tcp_init_impl n)) = (e, [i; j; (6, h_tcp_rx)], u, map (fun c => cs_c_state c TCP_CLOSED) c, k).
Proof. destruct n. cbn. intros [= -> -> -> -> ->]. done. Qed.
Lemma step_socket n e i u c k : net_tables n = (e, i, u, c, k) ->
  fst (socket_init_impl n) = 0 /\
  net_tables (snd (socket_init_impl n)) = (e, i, u, c, map (fun k => ss_conn_id (ss_s_type k SOCK_FREE) (-1)) k).
Proof. destruct n. cbn. intros [= -> -> -> -> ->]. done. Qed.
Lemma sent_discover (n : nst (hst pmm_state) D) : sent n (send_discover n).
Proof. apply sent_udp_send. Qed.
Lemma step_dhcp n e i c k : net_tables n = (e, i, [], c, k) ->
  fst (dhcp_init_impl n) = 0 /\ d_state (snd (dhcp_init_impl n)) = DHCP_STATE_SELECTING /\
  net_tables (snd (dhcp_init_impl n)) = (e, i, [(68, h_dhcp_rx)], c, k).
Proof.
  intros HT. unfold dhcp_init_impl. set (n1 := with_retry_count _ 0).
  assert (udp_h n1 = []) as Eu by by injection HT. unfold udp_register. rewrite Eu. cbn [length app]. cbv zeta.
  change (UDP_MAX_HANDLERS <=? Z.of_nat 0) with false. cbv iota. set (n2 := with_timer_net_poll _ true).
  pose proof (sent_tables _ _ (sent_discover n2)) as Es. revert Es. generalize (send_discover n2). intros n3 Es.
  split; [done|]. split; [done|]. change (net_tables n3 = (e, i, [(68, h_dhcp_rx)], c, k)). rewrite Es.
  change (net_tables n2) with (eth_h n, ip_h n, [(68, h_dhcp_rx)], conns n, socks n). by injection HT as -> -> _ -> ->.
Qed.

Lemma up_card s : exists b s', modules_init_all [mod_e1000] s = Some ([mk_module "e1000" b (Some init_e1000)], s') /\
  net_only s s' /\ net_tables (y_net s') = net_tables (y_net s).
Proof.
  set (g := e1000_init_impl (fun p => vmm_get_phys (hk (y_heap s)) p) (y_pci s)).
  destruct (run_net g s) as (h & d & E).
  exists (fst (g (net_view s)) =? 0), (sy_net (sy_dev (sy_heap s h) d) (snd (g (net_view s)))). split; [|split].
  - cbn [modules_init_all init mod_e1000 name]. unfold init_e1000. change (net_init _ s) with (net_init g s). rewrite E. done.
  - by exists h, d.
  - change (net_tables (snd (g (net_view s))) = net_tables (net_view s)). apply sent_tables, sent_e1000_init.
Qed.

Definition eth_up : list (Z * eth_handler) := [(0x0806, h_arp_rx); (0x0800, h_ipv4_rx)].
Definition ip_up : list (Z * ip_handler) := [(1, h_icmp_rx); (17, h_udp_rx); (6, h_tcp_rx)].
Definition stack_group := [mod_ethernet; mod_arp; mod_ipv4; mod_icmp; mod_udp; mod_tcp].
Lemma up_stack s e i u c k : net_tables (y_net s) = (e, i, u, c, k) ->
  exists s', modules_init_all stack_group s = Some (started stack_group, s') /\ net_only s s' /\
    net_tables (y_net s') = (eth_up, ip_up, u, map (fun c => cs_c_state c TCP_CLOSED) c, k).
Proof.
  intros H0. pose proof (net_only_refl s) as N0.
  destruct (net_step _ s s _ _ (fun n => step_ethernet n _ _ _ _ _) N0 H0) as (s1 & E1 & N1 & H1).
  destruct (net_step _ s s1 _ _ (fun n => step_arp n _ _ _ _) N1 H1) as (s2 & E2 & N2 & H2).
  destruct (net_step _ s s2 _ _ (fun n => step_ipv4 n _ _ _ _ _) N2 H2) as (s3 & E3 & N3 & H3).
  destruct (net_step _ s s3 _ _ (fun n => step_icmp n _ _ _ _) N3 H3) as (s4 & E4 & N4 & H4).
  destruct (net_step _ s s4 _ _ (fun n => step_udp n _ _ _ _ _) N4 H4) as (s5 & E5 & N5 & H5).
  destruct (net_step _ s s5 _ _ (fun n => step_tcp n _ _ _ _ _ _) N5 H5) as (s6 & E6 & N6 & H6).
  exists s6. split; [|by split]. eapply init_ok; [done|exact E1|]. eapply init_ok; [done|exact E2|]. eapply init_ok; [done|exact E3|].
  eapply init_ok; [done|exact E4|]. eapply init_ok; [done|exact E5|]. by eapply init_ok; [done|exact E6|].
Qed.

Definition socket_table (t : list (option handler)) : list (option handler) :=
  fold_left (fun t c => syscall_register (fst c) (h_module (fst c)) t) socket_calls t.
Lemma run_socket s e i u c k : net_tables (y_net s) = (e, i, u, c, k) ->
  exists h d n, init_socket s = Some (0, sy_table (sy_net (sy_dev (sy_heap s h) d) n) (socket_table (y_table s))) /\
    net_tables n = (e, i, u, c, map (fun k => ss_conn_id (ss_s_type k SOCK_FREE) (-1)) k).
Proof.
  intros H0. destruct (run_net socket_init_impl s) as (h & d & E). destruct (step_socket (net_view s) _ _ _ _ _ H0) as [R H1].
  exists h, d, (snd (socket_init_impl (net_view s))). split; [|exact H1]. unfold init_socket. rewrite E, R. reflexivity.
Qed.
Lemma run_dhcp s e i c k cs : net_tables (y_net s) = (e, i, [], c, k) -> Timer.callbacks (y_timer s) = cs -> (length cs < 8)%nat ->
  exists h d n, init_dhcp s = Some (0, sy_net (sy_dev (sy_heap (sy_timer s (Timer.mk_timer (Timer.ticks (y_timer s)) (cs ++ [Timer.net_poll_fn]))) h) d) n) /\
    net_tables n = (e, i, [(68, h_dhcp_rx)], c, k) /\ d_state n = DHCP_STATE_SELECTING.
Proof.
  intros H0 Hc Hl. set (s1 := sy_timer s _). destruct (run_net dhcp_init_impl s1) as (h & d & E).
  destruct (step_dhcp (net_view s1) _ _ _ _ H0) as (R & Hd & H1). exists h, d, (snd (dhcp_init_impl (net_view s1))).
  split; [|by split]. unfold init_dhcp. rewrite (on_tick_app _ s cs Hc Hl). fold s1. rewrite E, R. reflexivity.
Qed.
Lemma run_smp s : exists h d p, init_smp s = Some (0, sy_dev (sy_smp (sy_heap s h) p) d) /\ Smp.cpu_count p = 1.
Proof.
  unfold init_smp. pose proof (Smp.one_cpu (cpuid img) (cpus_addr img) (y_smp s) (hk (y_heap s)) (y_dev s)) as Hc.
  assert (fst (fst (fst (Smp.smp_init_impl (cpuid img) (cpus_addr img) (y_smp s) (hk (y_heap s)) (y_dev s)))) = 0) as Hr by reflexivity.
  destruct (Smp.smp_init_impl _ _ _ _ _) as [[[r p] k] d]. cbn [fst snd] in *. subst r. by exists (set_hk (y_heap s) k), d, p.
Qed.

Definition service_group := [mod_socket; mod_dhcp; mod_smp; mod_dynlink].
Lemma up_services s e i c k cs : net_tables (y_net s) = (e, i, [], c, k) -> Timer.callbacks (y_timer s) = cs -> (length cs < 8)%nat ->
  exists h d n p, modules_init_all service_group s = Some (started service_group,
      sy_smp (sy_timer (sy_table (sy_net (sy_dev (sy_heap s h) d) n) (dynlink_init (socket_table (y_table s))))
        (Timer.mk_timer (Timer.ticks (y_timer s)) (cs ++ [Timer.net_poll_fn]))) p) /\
    net_tables n = (e, i, [(68, h_dhcp_rx)], c, map (fun k => ss_conn_id (ss_s_type k SOCK_FREE) (-1)) k) /\
    d_state n = DHCP_STATE_SELECTING /\ Smp.cpu_count p = 1.
Proof.
  intros H0 Hc Hl. destruct (run_socket s _ _ _ _ _ H0) as (h1 & d1 & n1 & E1 & H1). set (s1 := sy_table _ _) in E1.
  destruct (run_dhcp s1 _ _ _ _ cs H1 Hc Hl) as (h2 & d2 & n2 & E2 & H2 & Hd). set (s2 := sy_net _ n2) in E2.
  destruct (run_smp s2) as (h3 & d3 & p & E3 & Hp). exists h3, d3, n2, p. split; [|by split].
  eapply init_ok; [reflexivity|exact E1|]. eapply init_ok; [reflexivity|exact E2|]. eapply init_ok; [reflexivity|exact E3|].
  eapply init_ok; [reflexivity|reflexivity|]. subst s2 s1. generalize (socket_table (y_table s)). reflexivity.
Qed.

(** ** The whole table *)

(** The assembler stubs: their number, and 64-bit addresses. *)
Record layout_ok : Prop := {
  lo_isr : length (isr_table img) = 32%nat;
  lo_irq : length (irq_stub_table img) = 16%nat;
  lo_stubs : Forall (fun h => 0 <= h < 2 ^ 64) (pf_stub img :: syscall_entry_addr img :: isr_table img ++ irq_stub_table img)
}.

Lemma vectors_up a v : layout_ok -> 0 <= v < 256 ->
  Idt.vector (Idt.idt_set_gate (Idt.set_gates (Idt.idt (snd (Idt.idt_init (isr_table img) a))) 32 (irq_stub_table img)) 14 (pf_stub img) 0) v = vector_of v.
Proof.
  intros [H1 H2 H3] Hv. rewrite !Forall_cons, Forall_app in H3. destruct H3 as (Hp & _ & Hi & Hs). cbn [Idt.idt_init snd Idt.idt].
  rewrite Idt.vector_set by (rewrite ?Idt.length_set_gates, ?length_replicate; unfold Idt.IDT_ENTRIES; done || lia).
  unfold vector_of. destruct (v =? 14); [done|].
  rewrite Idt.vector_set_gates by (rewrite ?Idt.length_set_gates, ?H2, ?length_replicate; unfold Idt.IDT_ENTRIES; done || lia).
  rewrite Idt.vector_set_gates by (rewrite ?H1, ?length_replicate; unfold Idt.IDT_ENTRIES; done || lia).
  rewrite H1, H2, Z.sub_0_r. destruct (Z.ltb_spec v 32), (Z.leb_spec 32 v), (Z.leb_spec 0 v); try lia; cbn [andb].
  - by rewrite (proj2 (Z.ltb_lt v _)) by lia.
  - destruct (Z.ltb_spec v (32 + Z.of_nat 16)), (Z.ltb_spec v 48); try lia; [done|].
    rewrite (proj2 (Z.ltb_ge v (0 + _))) by lia. unfold Idt.vector. by rewrite lookup_replicate_2 by lia.
Qed.

Lemma calls_up entry ms0 nr : 0 <= nr < SYSCALL_MAX ->
  dynlink_init (socket_table (table_up entry ms0)) !! Z.to_nat nr = Some (Some (handler_of nr)).
Proof.
  intros Hn. change (table_up entry ms0) with (table_up 0 (fun _ => 0)).
  assert (dynlink_init (socket_table (table_up 0 (fun _ => 0))) = (fun i => Some (handler_of i)) <$> seqZ 0 320) as -> by by vm_compute.
  rewrite list_lookup_fmap, lookup_seqZ_lt by (unfold SYSCALL_MAX in Hn; lia). cbn. do 3 f_equal. lia.
Qed.

Lemma then_init a b a' b' s s1 s2 : modules_init_all a s = Some (a', s1) -> modules_init_all b s1 = Some (b', s2) ->
  modules_init_all (a ++ b) s = Some (a' ++ b', s2).
Proof. intros E1 E2. by rewrite init_app, E1, E2. Qed.

Lemma started_flags ms : Forall (fun x => initialized x = true \/ name x = "e1000"%string) (started ms).
Proof. induction ms as [|m ms IH]; constructor; [by left|exact IH]. Qed.

(** The part of the state the card and the stack do not touch. *)
Definition core s := (y_idt s, y_irq s, y_timer s, y_table s, y_msrs s, y_ps s).
Lemma net_only_core s s' : net_only s s' -> core s' = core s /\ exists h, y_fs s' = fs_heap (y_fs s) h.
Proof. intros (h & d & E). rewrite E. split; [done|by exists h]. Qed.

(** Up to the last module before the card. *)
Definition base_group := cpu_group ++ memory_group ++ driver_group ++ fs_group ++ task_group.
Lemma up_base s d0 st c h0 t0 : serial_init fuel (y_dev s) = Some d0 ->
  pmm_init fuel (phys_mem (mm (hk (y_heap s)))) (kernel_end img) (bitmap_addr img) (fa (hk (y_heap s))) = Some (0, st) ->
  y_fs s = fs_blank h0 t0 -> y_ps s = ps_blank c -> y_timer s = Timer.mk_timer 0 [] -> y_table s = replicate 320 None -> layout_ok ->
  exists s1 ms ms0 h t, modules_init_all base_group s = Some (started base_group, s1) /\
    core s1 = (Idt.mk_idt (Idt.idt_set_gate (Idt.set_gates (Idt.idt (snd (Idt.idt_init (isr_table img) (idt_addr img)))) 32 (irq_stub_table img)) 14 (pf_stub img) 0) 4095 (idt_addr img),
      [Some Pic.timer_irq_fn; Some Pic.keyboard_irq_fn] ++ replicate 14 None,
      Timer.mk_timer 0 [Timer.tty_poll_fn; Timer.scheduler_tick_fn], table_up (syscall_entry_addr img) ms0, ms, ps_up c) /\
    rdmsr ms MSR_LSTAR = syscall_entry_addr img /\ y_fs s1 = fs_up h t /\ y_net s1 = y_net s.
Proof.
  intros Es Ep Ef Eps Et Etb Hlo. destruct (up_cpu s d0 Es) as (d1 & t1 & g & E1). set (s1 := sy_dev _ d1) in E1.
  destruct (up_memory s1 st _ eq_refl Ep) as (h & E2). set (s2 := sy_idt _ _) in E2.
  destruct (up_drivers s2) as (d3 & l & a & E3). set (s3 := sy_dev _ d3) in E3.
  assert (y_fs s3 = fs_blank h t1) as Ef3.
  { change (y_fs s3) with (fs_heap (fs_tty (y_fs s) t1) h). by rewrite Ef. }
  assert (y_timer s3 = Timer.mk_timer 0 []) as Et3 by exact Et.
  destruct (up_fs s3 h t1 Ef3 ltac:(by rewrite Et3)) as (t & E4). set (s4 := sy_fs _ _) in E4.
  assert (y_ps s4 = ps_blank c) as Eps4.
  { change (y_ps s4) with (ps_tss_rsp0 (y_ps s) 0). by rewrite Eps. }
  assert (0 <= syscall_entry_addr img < 2 ^ 64) as He by (destruct Hlo as [_ _ Hf]; rewrite !Forall_cons in Hf; apply Hf).
  destruct (up_tasks s4 c [Timer.tty_poll_fn] Eps4 eq_refl ltac:(cbn; lia) Etb He) as (ms & ms0 & E5 & Hms). set (s5 := sy_table _ _) in E5.
  exists s5, ms, ms0, h, t. split; [|split; [|by split]].
  - unfold base_group, started. rewrite !map_app. eapply (then_init cpu_group); [exact E1|]. eapply (then_init memory_group); [exact E2|].
    eapply (then_init driver_group); [exact E3|]. by eapply (then_init fs_group); [exact E4|].
  - unfold core. subst s5 s4. cbn [y_idt y_irq y_timer y_table y_msrs y_ps sy_table sy_msrs sy_ps sy_timer sy_fs Timer.ticks]. rewrite Et3. reflexivity.
Qed.

(** The card, the stack and what follows. *)
Definition net_group := [mod_e1000] ++ stack_group ++ service_group.
Definition net_flags (b : bool) : list (kernel_module D) := [mk_module "e1000" b (Some init_e1000)] ++ started (stack_group ++ service_group).
Lemma up_net s c k cs : net_tables (y_net s) = ([], [], [], c, k) -> Timer.callbacks (y_timer s) = cs -> (length cs < 8)%nat ->
  exists b h s', modules_init_all net_group s = Some (net_flags b, s') /\
    core s' = (y_idt s, y_irq s, Timer.mk_timer (Timer.ticks (y_timer s)) (cs ++ [Timer.net_poll_fn]),
      dynlink_init (socket_table (y_table s)), y_msrs s, y_ps s) /\
    y_fs s' = fs_heap (y_fs s) h /\ Smp.cpu_count (y_smp s') = 1 /\ d_state (y_net s') = DHCP_STATE_SELECTING /\
    net_tables (y_net s') = (eth_up, ip_up, [(68, h_dhcp_rx)], map (fun c => cs_c_state c TCP_CLOSED) c,
      map (fun k => ss_conn_id (ss_s_type k SOCK_FREE) (-1)) k).
Proof.
  intros HT Hc Hl. destruct (up_card s) as (b & s1 & E1 & N1 & H1). rewrite HT in H1.
  destruct (up_stack s1 _ _ _ _ _ H1) as (s2 & E2 & N2 & H2).
  destruct (net_only_core _ _ (net_only_trans _ _ _ N1 N2)) as [Hcore [h2 Hfs]]. injection Hcore as Ei Eq Et Etb Em Ep.
  destruct (up_services s2 _ _ _ _ cs H2 ltac:(by rewrite Et) Hl) as (h & d & n & p & E3 & H3 & Hd & Hp). set (s3 := sy_smp _ p) in E3.
  exists b, h, s3. split; [|split; [|split; [|by split]]].
  - unfold net_group, net_flags, started. rewrite map_app. eapply (then_init [mod_e1000]); [exact E1|]. eapply (then_init stack_group); [exact E2|exact E3].
  - unfold core, s3. cbn [y_idt y_irq y_timer y_table y_msrs y_ps sy_smp sy_timer sy_table sy_net sy_dev sy_heap sy_fs].
    by rewrite Ei, Eq, Et, Etb, Em, Ep.
  - change (y_fs s3) with (fs_heap (y_fs s2) h). by rewrite Hfs.
Qed.

Lemma up_wired s c k h t ms ms0 cc a : core s = (Idt.mk_idt (Idt.idt_set_gate (Idt.set_gates (Idt.idt (snd (Idt.idt_init (isr_table img) a))) 32 (irq_stub_table img)) 14 (pf_stub img) 0) 4095 a,
      [Some Pic.timer_irq_fn; Some Pic.keyboard_irq_fn] ++ replicate 14 None,
      Timer.mk_timer 0 [Timer.tty_poll_fn; Timer.scheduler_tick_fn; Timer.net_poll_fn],
      dynlink_init (socket_table (table_up (syscall_entry_addr img) ms0)), ms, ps_up cc) ->
  rdmsr ms MSR_LSTAR = syscall_entry_addr img -> y_fs s = fs_up h t -> Smp.cpu_count (y_smp s) = 1 -> d_state (y_net s) = DHCP_STATE_SELECTING ->
  net_tables (y_net s) = (eth_up, ip_up, [(68, h_dhcp_rx)], map (fun c => cs_c_state c TCP_CLOSED) c,
      map (fun k => ss_conn_id (ss_s_type k SOCK_FREE) (-1)) k) -> layout_ok -> wired s.
Proof.
  intros [= Ei Eq Et Etb Em Ep] Hms Hfs Hcpu Hd [= He Hip Hu Hc Hk] Hlo. destruct (fs_up_ready h t) as (F1 & F2 & F3 & F4). rewrite <- Hfs in F1, F2, F3, F4.
  destruct (ps_up_ready cc) as [P1 P2]. split; try assumption.
  - intros v Hv. rewrite Ei. exact (vectors_up a v Hlo Hv).
  - by rewrite Et.
  - intros nr Hn. rewrite Etb. by apply (calls_up _ ms0).
  - by rewrite Em.
  - rewrite Hc. apply Forall_forall. intros x Hx. apply list_elem_of_In, in_map_iff in Hx as (y & <- & _). done.
  - rewrite Hk. apply Forall_forall. intros x Hx. apply list_elem_of_In, in_map_iff in Hx as (y & <- & _). done.
  - by rewrite Ep.
  - by rewrite Ep.
Qed.

(** C15. The module table brings the kernel up: on zeroed static data, when the serial line
    accepts the first message and the boot loader's memory map is well-formed, every
    initialiser before the launcher returns, all but the network card's report success, and what they leave
    together is the kernel its run-time code expects ([wired]): the processor's vectors lead to the
    exception stubs, the page fault handler and the interrupt stubs, with the timer and
    the keyboard on their lines; each tick runs the terminal, the scheduler and the network in
    this order; every system call number has its handler; ARP, IPv4, ICMP, UDP, TCP and DHCP packets reach
    their protocols, with no connection open; the root file system holds the three devices and the
    launcher's three descriptors open on the terminal; the idle process runs alone, pid 1 is
    next; one processor is in use.  [kernel_main] is the launcher in this state. *)
Theorem kernel_wired m root screen d d0 ms c um mb2 : serial_init fuel d = Some d0 -> bytes_ok (phys_mem m) -> mb2_ok (phys_mem m) mb2 ->
  load32 (phys_mem m) mb2 <= Z.of_nat fuel -> layout_ok ->
  let s0 := power_on m root screen d ms c um in
  exists l s, modules_init_all drivers (pass_mb2 mb2 s0) = Some (l, s) /\ map name l = map name drivers /\
    Forall (fun x => initialized x = true \/ name x = "e1000"%string) l /\ wired s /\
    kernel_main mb2 s0 = match init_init_launch s with
                         | Some (r, s) => Some (l ++ [mk_module "init_launch" (r =? 0) (Some init_init_launch)], s)
                         | None => None
                         end.
Proof.
  intros Es Hm [Hp Hwf _] Hf Hlo s0.
  destruct (pmm_init_frames fuel (phys_mem m) (kernel_end img) (bitmap_addr img) (pmm_set_mb2 (fa (hk (heap_blank m root))) mb2)) as (st & E & _);
    cbn [pmm_set_mb2 mb2_info_phys]; try done; [lia|lia|].
  destruct (up_base (pass_mb2 mb2 s0) d0 st c _ _ Es E eq_refl eq_refl eq_refl eq_refl Hlo) as (s1 & ms1 & ms0 & h & t & E1 & Hc1 & Hms & Hfs & Hn).
  injection Hc1 as Ei Eq Et Etb Em Ep.
  destruct (up_net s1 (replicate 8 conn_default) (replicate 16 (mk_sock SOCK_FREE 0 0 0 0 (zeros 2048) 0 0)) [Timer.tty_poll_fn; Timer.scheduler_tick_fn]) as (b & h2 & s2 & E2 & Hc2 & Hfs2 & Hcpu & Hd & HT);
    [by rewrite Hn|by rewrite Et|cbn; lia|].
  assert (modules_init_all drivers (pass_mb2 mb2 s0) = Some (started base_group ++ net_flags b, s2)) as E3.
  { change drivers with (base_group ++ net_group). by eapply then_init. }
  exists (started base_group ++ net_flags b), s2. split; [exact E3|]. split; [reflexivity|]. split; [|split].
  - unfold net_flags. rewrite !Forall_app, Forall_singleton. split; [apply started_flags|]. split; [by right|apply started_flags].
  - rewrite Ei, Eq, Et, Etb, Em, Ep in Hc2. eapply up_wired; try eassumption. rewrite Hfs2, Hfs. apply fs_up_heap.
  - unfold kernel_main, modules. rewrite init_app, E3. cbn [modules_init_all init mod_init_launch name]. by destruct (init_init_launch s2) as [[r s3]|].
Qed.
End modules.

(** ** A machine that boots *)

(** A bus whose every port reads 0x20: the transmitter is ready, no device answers as one. *)
#[local] Instance ready_bus : Bus unit := {| bus_in _ _ d := (0x20, d); bus_out _ _ _ d := d |}.
#[local] Instance no_card : NicHw unit := {| nic_rd _ d := (0, d); nic_wr _ _ d := d; nic_dma d rd rb td := (d, rd, rb, td) |}.
#[local] Instance quiet_apic : Smp.Mmio32 unit := {| Smp.mmio_rd _ d := (0, d); Smp.mmio_wr _ _ d := d |}.
#[local] Instance no_typing : CharDev Tty.tty_st := {| cd_read _ _ t := Some ([], t); cd_write _ t := t |}.

Definition demo_layout : layout :=
  mk_layout (map (fun i => 0xFFFFFFFF80100000 + 16 * i) (seqZ 0 32)) (map (fun i => 0xFFFFFFFF80101000 + 16 * i) (seqZ 0 16))
    0xFFFFFFFF80110000 0xFFFFFFFF80110100 0xFFFFFFFF80111000 0xFFFFFFFF80102000 (KERNEL_VMA + 0x200000) (KERNEL_VMA + 0x120000)
    0xFFFFFFFF80103000 0xFFFFFFFF80112000 0xFFFFFFFF80104000 (0xFFFFFFFF80150000, 100) (0xFFFFFFFF80160000, 100) (fun _ => (1, 0)).

Lemma demo_layout_ok : layout_ok demo_layout.
Proof. split; [done|done|]. apply (bool_decide_eq_true_1 _). by vm_compute. Qed.
Lemma demo_phys a : phys_mem (window demo_mb2) a = demo_mb2 a.
Proof. unfold phys_mem, window. f_equal. lia. Qed.

Lemma kernel_wired_witness : exists l s,
  modules_init_all (drivers demo_layout 100) (pass_mb2 0x1000 (power_on (window demo_mb2) 0x110000 [] tt (fun _ => 0) zero_ctx (fun _ => 0))) = Some (l, s) /\
  Idt.vector (Idt.idt (y_idt s)) 14 = Some 0xFFFFFFFF80102000 /\ y_table s !! 41%nat = Some (Some (h_module 41)) /\
  Timer.callbacks (y_timer s) = [Timer.tty_poll_fn; Timer.scheduler_tick_fn; Timer.net_poll_fn].
Proof.
  destruct (kernel_wired demo_layout 100 (window demo_mb2) 0x110000 [] tt tt (fun _ => 0) zero_ctx (fun _ => 0) 0x1000)
    as (l & s & E & _ & _ & Hw & _).
  - by vm_compute.
  - intros a. rewrite demo_phys. apply demo_mb2_ok.
  - apply demo_map_ok. intros a _. apply demo_phys.
  - by vm_compute.
  - exact demo_layout_ok.
  - exists l, s. split; [exact E|]. split; [exact (w_vectors _ _ Hw 14 ltac:(lia))|]. split; [exact (w_calls _ _ Hw 41 ltac:(unfold SYSCALL_MAX; lia))|exact (w_ticks _ _ Hw)].
Defined.
