(* ===== verification/Libc.v ===== *)
(** * The user library: userspace/libc

    [string.c], [printf.c] and [malloc.c] of the library the user programs are linked
    with, over the byte memory of Mem.v (here the program's own).  Formats and string
    arguments are given by their contents, arguments by the [va_arg] of Io.v; the
    system calls ([write], [brk]) are parameters.

    Shown: [vsnprintf] stores exactly the rendering of the format cut to the buffer,
    with its NUL, and nothing else; [atoi] reads back what [snprintf] prints; where
    [strncmp] and [malloc] go wrong. *)

From Stdlib Require Import String Ascii.
From S2P Require Import Prelude Mem Io.
Open Scope list_scope.

(** ** string.c *)

Module Ustring.

(** [memset], [memcpy], [memcmp], [strlen], [strcmp], [strcpy] and [strncpy] are the
    loops of the kernel's string.c (Mem.v); [memmove] differs when the areas coincide. *)
Definition memmove (m : mem) (dst src n : Z) : mem :=
  if dst <? src then memcpy_loop (Z.to_nat n) m dst src
  else memmove_down (Z.to_nat n) m (dst + n) (src + n).

(** [while (n-- && *a && *a == *b) { a++; b++; }]: [n] as it is left, and the places. *)
Fixpoint strncmp_loop (k : nat) (m : mem) (a b : Z) : Z * Z * Z :=
  match k with
  | O => (u64 (-1), a, b)
  | S k =>
      if negb (m a =? 0) && (m a =? m b) then strncmp_loop k m (a + 1) (b + 1)
      else (Z.of_nat k, a, b)
  end.
Definition strncmp (m : mem) (a b n : Z) : Z :=
  let '(n, a, b) := strncmp_loop (Z.to_nat n) m a b in
  if n =? 0 then 0 else m a - m b.

Fixpoint str_end (fuel : nat) (m : mem) (p : Z) : option Z :=
  match fuel with
  | O => None
  | S fuel => if m p =? 0 then Some p else str_end fuel m (p + 1)
  end.
Definition strcat (fuel : nat) (m : mem) (dst src : Z) : option mem :=
  match str_end fuel m dst with None => None | Some p => strcpy fuel m p src end.

Fixpoint strchr (fuel : nat) (m : mem) (s c : Z) : option Z :=
  match fuel with
  | O => None
  | S fuel =>
      if m s =? 0 then Some (if c =? 0 then s else 0)
      else if m s =? u8 c then Some s else strchr fuel m (s + 1) c
  end.

(** The strings agree, without a NUL, in their first [k] places. *)
Definition same_prefix (m : mem) (a b : Z) (k : nat) : Prop :=
  forall i, 0 <= i < Z.of_nat k -> m (a + i) = m (b + i) /\ m (a + i) <> 0.

Lemma same_prefix_S m a b k : same_prefix m a b (S k) <-> (m a = m b /\ m a <> 0) /\ same_prefix m (a + 1) (b + 1) k.
Proof.
  split.
  - intros H. split; [specialize (H 0 ltac:(lia)); by rewrite !Z.add_0_r in H|].
    intros i Hi. rewrite <-!Z.add_assoc. apply H. lia.
  - intros [H0 H] i Hi. destruct (decide (i = 0)) as [->|]; [by rewrite !Z.add_0_r|].
    specialize (H (i - 1) ltac:(lia)). by replace (a + 1 + (i - 1)) with (a + i) in H by lia; replace (b + 1 + (i - 1)) with (b + i) in H by lia.
Qed.

Lemma strncmp_loop_all k m a b : same_prefix m a b k ->
  strncmp_loop k m a b = (u64 (-1), a + Z.of_nat k, b + Z.of_nat k).
Proof.
  revert a b. induction k as [|k IH]; intros a b H; cbn [strncmp_loop]; [by rewrite !Z.add_0_r|].
  apply same_prefix_S in H as [[E Hz] H]. rewrite E, Z.eqb_refl, <-E, (proj2 (Z.eqb_neq _ _) Hz). cbn [negb andb].
  rewrite IH by done. f_equal; [f_equal|]; lia.
Qed.
Lemma strncmp_loop_diff j k m a b : (j < k)%nat -> same_prefix m a b j -> m (a + Z.of_nat j) <> m (b + Z.of_nat j) ->
  strncmp_loop k m a b = (Z.of_nat (k - S j), a + Z.of_nat j, b + Z.of_nat j).
Proof.
  revert k a b. induction j as [|j IH]; intros [|k] a b Hj H Hd; try lia; cbn [strncmp_loop].
  - rewrite !Z.add_0_r in *. rewrite (proj2 (Z.eqb_neq _ _) Hd), andb_false_r. by replace (S k - 1)%nat with k by lia.
  - apply same_prefix_S in H as [[E Hz] H]. rewrite E, Z.eqb_refl, <-E, (proj2 (Z.eqb_neq _ _) Hz). cbn [negb andb].
    rewrite IH; [|lia|done|].
    + cbn [Nat.sub]. f_equal; [f_equal|]; lia.
    + replace (a + 1 + Z.of_nat j) with (a + Z.of_nat (S j)) by lia. by replace (b + 1 + Z.of_nat j) with (b + Z.of_nat (S j)) by lia.
Qed.
Lemma kernel_strncmp_diff j k m a b : (j < k)%nat -> same_prefix m a b j -> m (a + Z.of_nat j) <> m (b + Z.of_nat j) ->
  Mem.strncmp_loop k m a b = m (a + Z.of_nat j) - m (b + Z.of_nat j).
Proof.
  revert k a b. induction j as [|j IH]; intros [|k] a b Hj H Hd; try lia; cbn [Mem.strncmp_loop].
  - rewrite !Z.add_0_r in *. rewrite (proj2 (Z.eqb_neq (m a - m b) 0)) by lia. done.
  - apply same_prefix_S in H as [[E Hz] H]. rewrite E, Z.sub_diag, Z.eqb_refl, <-E, (proj2 (Z.eqb_neq _ _) Hz). cbn [negb orb].
    rewrite IH; [|lia|done|].
    + f_equal; f_equal; lia.
    + replace (a + 1 + Z.of_nat j) with (a + Z.of_nat (S j)) by lia. by replace (b + 1 + Z.of_nat j) with (b + Z.of_nat (S j)) by lia.
Qed.
Lemma kernel_strncmp_all k m a b : same_prefix m a b k -> Mem.strncmp_loop k m a b = 0.
Proof.
  revert a b. induction k as [|k IH]; intros a b H; cbn [Mem.strncmp_loop]; [done|].
  apply same_prefix_S in H as [[E Hz] H]. rewrite E, Z.sub_diag, Z.eqb_refl, <-E, (proj2 (Z.eqb_neq _ _) Hz). by apply IH.
Qed.

(** The user library's [strncmp] is not the kernel's.  On two strings that first
    differ at place [j]: with a limit above [j + 1] both return the difference of the
    two characters; with limit [j + 1], where the strings still differ within the
    limit, the user version returns 0; with limit [j], where they agree within the
    limit, it returns the difference and the kernel's returns 0. *)
Theorem strncmp_limit m a b j n : same_prefix m a b j -> m (a + Z.of_nat j) <> m (b + Z.of_nat j) -> (j + 1 < n)%nat -> Z.of_nat n < 2 ^ 64 ->
  let d := m (a + Z.of_nat j) - m (b + Z.of_nat j) in
  (strncmp m a b (Z.of_nat n) = d /\ Mem.strncmp m a b (Z.of_nat n) = d) /\
  (strncmp m a b (Z.of_nat (j + 1)) = 0 /\ Mem.strncmp m a b (Z.of_nat (j + 1)) = d) /\
  (strncmp m a b (Z.of_nat j) = d /\ Mem.strncmp m a b (Z.of_nat j) = 0) /\ d <> 0.
Proof.
  intros H Hd Hn Hmax d. unfold strncmp, Mem.strncmp. rewrite !Nat2Z.id. split; [|split; [|split]].
  - rewrite (strncmp_loop_diff j), (kernel_strncmp_diff j) by (done || lia). by rewrite (proj2 (Z.eqb_neq _ 0)) by lia.
  - rewrite (strncmp_loop_diff j), (kernel_strncmp_diff j) by (done || lia). by rewrite (proj2 (Z.eqb_eq _ 0)) by lia.
  - by rewrite strncmp_loop_all, kernel_strncmp_all by done.
  - lia.
Qed.

(** "ab" and "ac". *)
Definition demo_strs : mem := put (put (fun _ => 0) 100 [97; 98; 0]) 200 [97; 99; 0].
Lemma strncmp_limit_witness : strncmp demo_strs 100 200 2 = 0 /\ Mem.strncmp demo_strs 100 200 2 = -1.
Proof.
  refine (proj1 (proj2 (strncmp_limit demo_strs 100 200 1 3 _ _ _ _))); try lia; try (vm_compute; discriminate).
  intros i Hi. replace i with 0 by lia. split; vm_compute; [reflexivity|discriminate].
Defined.
End Ustring.

(** ** printf.c *)

Module Uprintf.

(** [buf_append]: the memory and the position. *)
Definition buf_append (buf max c : Z) (st : mem * Z) : mem * Z :=
  let '(m, pos) := st in if u64 (pos + 1) <? max then (upd m (buf + pos) c, u64 (pos + 1)) else st.
Definition buf_all (buf max : Z) (s : list Z) (st : mem * Z) : mem * Z := fold_left (fun st c => buf_append buf max c st) s st.

Definition buf_str (buf max : Z) (s : option (list Z)) (st : mem * Z) : mem * Z :=
  buf_all buf max (match s with None => str "(null)" | Some s => s end) st.

(** [tmp] is filled from the lowest digit and emptied from its end. *)
Definition buf_uint (buf max val base : Z) (upper : bool) (st : mem * Z) : mem * Z :=
  let digits := if upper then str "0123456789ABCDEF" else str "0123456789abcdef" in
  if val =? 0 then buf_append buf max (chr "0") st
  else buf_all buf max (rev (digit_loop 64 val base digits)) st.

(** The loop over the format; [None]: the format ends after a [%], where the code reads
    past its NUL. *)
Fixpoint vsnprintf_loop (buf n : Z) (fmt : list Z) (ap : list va_arg) (st : mem * Z) : option (mem * Z) :=
  match fmt with
  | [] => Some st
  | c :: fmt =>
      if negb (c =? chr "%") then vsnprintf_loop buf n fmt ap (buf_append buf n c st)
      else
        match fmt with
        | [] => None
        | c :: fmt =>
            let '(a, ap') := next_arg ap in
            if c =? chr "c" then vsnprintf_loop buf n fmt ap' (buf_append buf n (u8 (arg_num a)) st)
            else if c =? chr "s" then vsnprintf_loop buf n fmt ap' (buf_str buf n (arg_str a) st)
            else if (c =? chr "d") || (c =? chr "i") then
              let v := i32 (arg_num a) in
              let '(st, v) := if v <? 0 then (buf_append buf n (chr "-") st, - v) else (st, v) in
              vsnprintf_loop buf n fmt ap' (buf_uint buf n (u64 v) 10 false st)
            else if c =? chr "u" then vsnprintf_loop buf n fmt ap' (buf_uint buf n (u32 (arg_num a)) 10 false st)
            else if c =? chr "x" then vsnprintf_loop buf n fmt ap' (buf_uint buf n (u32 (arg_num a)) 16 false st)
            else if c =? chr "X" then vsnprintf_loop buf n fmt ap' (buf_uint buf n (u32 (arg_num a)) 16 true st)
            else if c =? chr "p" then
              vsnprintf_loop buf n fmt ap' (buf_uint buf n (u64 (arg_num a)) 16 false (buf_append buf n (chr "x") (buf_append buf n (chr "0") st)))
            else if c =? chr "%" then vsnprintf_loop buf n fmt ap (buf_append buf n (chr "%") st)
            else vsnprintf_loop buf n fmt ap (buf_append buf n (chr "?") st)
        end
  end.

Definition vsnprintf (m : mem) (buf n : Z) (fmt : list Z) (ap : list va_arg) : option (Z * mem) :=
  if n =? 0 then Some (0, m)
  else match vsnprintf_loop buf n fmt ap (m, 0) with
       | None => None
       | Some (m, pos) => Some (i32 pos, upd m (buf + pos) 0)
       end.
Definition vsprintf (m : mem) (buf : Z) (fmt : list Z) (ap : list va_arg) : option (Z * mem) :=
  vsnprintf m buf (u64 (-1)) fmt ap.
Definition snprintf (m : mem) (buf n : Z) (fmt : list Z) (ap : list va_arg) : option (Z * mem) := vsnprintf m buf n fmt ap.
Definition sprintf (m : mem) (buf : Z) (fmt : list Z) (ap : list va_arg) : option (Z * mem) := vsprintf m buf fmt ap.

(** [vprintf]: the bytes written to stdout, from the 1024-byte buffer at [buf]. *)
Definition vprintf (m : mem) (buf : Z) (fmt : list Z) (ap : list va_arg) : option (Z * list Z) :=
  match vsnprintf m buf 1024 fmt ap with
  | None => None
  | Some (n, m) => Some (n, if 0 <? n then bytes (Z.to_nat n) m buf else [])
  end.
Definition printf (m : mem) (buf : Z) (fmt : list Z) (ap : list va_arg) : option (Z * list Z) := vprintf m buf fmt ap.
Definition putchar (c : Z) : Z * list Z := (c, [u8 c]).
Definition puts (s : list Z) : Z * list Z := (i32 (Z.of_nat (List.length s)) + 1, s ++ [10]).

(** *** The text a format stands for *)

Definition digits_of (upper : bool) : list Z := if upper then str "0123456789ABCDEF" else str "0123456789abcdef".
Definition render_uint (val base : Z) (upper : bool) : list Z :=
  if val =? 0 then [chr "0"] else rev (digit_loop 64 val base (digits_of upper)).
Definition render_int (v : Z) : list Z := if v <? 0 then chr "-" :: render_uint (- v) 10 false else render_uint v 10 false.

(** One conversion: its text and whether it takes an argument. *)
Definition conversion (c : Z) (a : va_arg) : list Z * bool :=
  if c =? chr "c" then ([u8 (arg_num a)], true)
  else if c =? chr "s" then (match arg_str a with None => str "(null)" | Some s => s end, true)
  else if (c =? chr "d") || (c =? chr "i") then (render_int (i32 (arg_num a)), true)
  else if c =? chr "u" then (render_uint (u32 (arg_num a)) 10 false, true)
  else if c =? chr "x" then (render_uint (u32 (arg_num a)) 16 false, true)
  else if c =? chr "X" then (render_uint (u32 (arg_num a)) 16 true, true)
  else if c =? chr "p" then (str "0x" ++ render_uint (u64 (arg_num a)) 16 false, true)
  else if c =? chr "%" then (str "%", false)
  else (str "?", false).

Fixpoint render (fmt : list Z) (ap : list va_arg) : option (list Z) :=
  match fmt with
  | [] => Some []
  | c :: fmt =>
      if negb (c =? chr "%") then app [c] <$> render fmt ap
      else match fmt with
           | [] => None
           | c :: fmt =>
               let '(a, ap') := next_arg ap in
               let '(s, takes) := conversion c a in app s <$> render fmt (if takes then ap' else ap)
           end
  end.

(** *** Appending to a bounded buffer *)

Lemma put_snoc m a l c : put m a (l ++ [c]) = upd (put m a l) (a + Z.of_nat (List.length l)) c.
Proof.
  revert m a. induction l as [|x l IH]; intros m a; cbn [put app List.length]; [by rewrite Z.add_0_r|].
  rewrite IH. f_equal. lia.
Qed.

(** The text of a NUL-terminated buffer. *)
Lemma bytes_put_text m buf t : bytes (List.length t) (put m buf (t ++ [0])) buf = t.
Proof.
  apply list_eq. intros i. destruct (decide (i < List.length t)%nat) as [Hi|Hi].
  - rewrite lookup_bytes by done. destruct (lookup_lt_is_Some_2 _ _ Hi) as [y Hy].
    rewrite (put_in _ _ _ i y); [done|]. by apply lookup_app_l_Some.
  - rewrite !lookup_ge_None_2; [done|lia|rewrite length_bytes; lia].
Qed.

(** The buffer after the text [s] has been appended to an empty one of [n] bytes. *)
Definition holds (m0 : mem) (buf n : Z) (s : list Z) : mem * Z :=
  (put m0 buf (take (Z.to_nat (n - 1)) s), Z.of_nat (List.length (take (Z.to_nat (n - 1)) s))).

Lemma append_holds m0 buf n s c : 0 < n < 2 ^ 64 -> buf_append buf n c (holds m0 buf n s) = holds m0 buf n (s ++ [c]).
Proof.
  intros Hn. unfold buf_append, holds. destruct (decide (Z.of_nat (List.length s) < n - 1)) as [Hl|Hl].
  - rewrite !take_ge by (rewrite ?length_app; cbn [List.length]; lia). rewrite u64_small by lia.
    rewrite (proj2 (Z.ltb_lt _ _)) by lia. rewrite put_snoc, length_app. f_equal. cbn [List.length]. lia.
  - rewrite take_app_le by lia. rewrite length_take_le by lia. rewrite Z2Nat.id, u64_small by lia.
    by rewrite (proj2 (Z.ltb_ge _ _)) by lia.
Qed.
Lemma all_holds m0 buf n l s : 0 < n < 2 ^ 64 -> buf_all buf n l (holds m0 buf n s) = holds m0 buf n (s ++ l).
Proof.
  intros Hn. unfold buf_all. revert s. induction l as [|c l IH]; intros s; cbn [fold_left]; [by rewrite app_nil_r|].
  by rewrite append_holds, IH, <-app_assoc by done.
Qed.
Lemma uint_holds m0 buf n val base upper s : 0 < n < 2 ^ 64 ->
  buf_uint buf n val base upper (holds m0 buf n s) = holds m0 buf n (s ++ render_uint val base upper).
Proof. intros Hn. unfold buf_uint, render_uint. destruct (val =? 0); [by apply append_holds|by apply all_holds]. Qed.
Lemma int_holds m0 buf n v s : 0 < n < 2 ^ 64 -> - 2 ^ 31 <= v < 2 ^ 31 ->
  (let '(st, v) := if v <? 0 then (buf_append buf n (chr "-") (holds m0 buf n s), - v) else (holds m0 buf n s, v) in
   buf_uint buf n (u64 v) 10 false st) = holds m0 buf n (s ++ render_int v).
Proof.
  intros Hn Hv. unfold render_int. destruct (Z.ltb_spec v 0).
  - rewrite append_holds, uint_holds, u64_small, <-app_assoc by (done || lia). done.
  - by rewrite uint_holds, u64_small by lia.
Qed.

Lemma i32_range x : - 2 ^ 31 <= i32 x < 2 ^ 31.
Proof. unfold i32, sint. pose proof (Z.mod_pos_bound x (2 ^ 32) ltac:(lia)). destruct (Z.ltb_spec (x mod 2 ^ 32) (2 ^ (32 - 1))); lia. Qed.

Lemma i32_small x : 0 <= x < 2 ^ 31 -> i32 x = x.
Proof. intros Hx. unfold i32, sint. rewrite Z.mod_small by lia. by rewrite (proj2 (Z.ltb_lt _ _)) by lia. Qed.

(** One conversion of the loop is one conversion of the reference. *)
Lemma loop_conversion m0 buf n c fmt ap s : 0 < n < 2 ^ 64 ->
  vsnprintf_loop buf n (chr "%" :: c :: fmt) ap (holds m0 buf n s) =
    let '(a, ap') := next_arg ap in
    let '(t, takes) := conversion c a in vsnprintf_loop buf n fmt (if takes then ap' else ap) (holds m0 buf n (s ++ t)).
Proof.
  intros Hn. cbn [vsnprintf_loop]. change (negb (chr "%" =? chr "%")) with false. cbv iota.
  destruct (next_arg ap) as [a ap']. unfold conversion.
  destruct (c =? chr "c"); [by rewrite append_holds|].
  destruct (c =? chr "s"); [unfold buf_str; by rewrite all_holds|].
  destruct ((c =? chr "d") || (c =? chr "i")).
  { rewrite <-(int_holds m0 buf n (i32 (arg_num a)) s Hn (i32_range _)). by destruct (_ <? 0). }
  destruct (c =? chr "u"); [by rewrite uint_holds|]. destruct (c =? chr "x"); [by rewrite uint_holds|].
  destruct (c =? chr "X"); [by rewrite uint_holds|].
  destruct (c =? chr "p"); [rewrite !append_holds, uint_holds, <-!app_assoc by done; done|].
  destruct (c =? chr "%"); by rewrite append_holds.
Qed.

Lemma loop_renders m0 buf n : 0 < n < 2 ^ 64 -> forall fmt ap s,
  vsnprintf_loop buf n fmt ap (holds m0 buf n s) = (fun t => holds m0 buf n (s ++ t)) <$> render fmt ap.
Proof.
  intros Hn fmt. induction fmt as [fmt IH] using (induction_ltof1 _ (@List.length Z)). unfold ltof in IH.
  destruct fmt as [|c fmt]; intros ap s; [cbn; by rewrite app_nil_r|].
  destruct (Z.eqb_spec c (chr "%")) as [->|Hc].
  - destruct fmt as [|c fmt]; [done|]. rewrite loop_conversion by done. cbn [render].
    change (negb (chr "%" =? chr "%")) with false. cbv iota. destruct (next_arg ap) as [a ap'].
    destruct (conversion c a) as [t takes]. rewrite IH by (cbn [List.length]; lia).
    destruct (render fmt _); cbn; [by rewrite <-app_assoc|done].
  - cbn [vsnprintf_loop render]. rewrite (proj2 (Z.eqb_neq _ _) Hc). cbn [negb]. rewrite append_holds by done.
    rewrite IH by (cbn [List.length]; lia). destruct (render fmt ap); cbn; [by rewrite <-app_assoc|done].
Qed.

Lemma vsnprintf_put m buf n fmt ap s : 0 < n < 2 ^ 64 -> render fmt ap = Some s ->
  let t := take (Z.to_nat (n - 1)) s in
  vsnprintf m buf n fmt ap = Some (i32 (Z.of_nat (List.length t)), put m buf (t ++ [0])).
Proof.
  intros Hn Hs t. unfold vsnprintf. rewrite (proj2 (Z.eqb_neq n 0)) by lia.
  pose proof (loop_renders m buf n Hn fmt ap []) as E. rewrite Hs in E. cbn [fmap option_fmap option_map app] in E.
  assert (holds m buf n [] = (m, 0)) as E0 by (unfold holds; by rewrite take_nil).
  rewrite E0 in E. rewrite E. unfold holds. fold t. by rewrite put_snoc.
Qed.



(** *** Digits *)

(** The value of a digit string, highest digit first. *)
Definition dec_value (l : list Z) : Z := fold_left (fun n c => n * 10 + (c - 48)) l 0.

Lemma digit_nth d : 0 <= d < 10 -> nth (Z.to_nat d) (digits_of false) 0 = 48 + d.
Proof.
  intros Hd. assert (d ∈ [0; 1; 2; 3; 4; 5; 6; 7; 8; 9]) as H.
  { rewrite !elem_of_cons. lia. }
  by repeat (apply elem_of_cons in H as [->|H]; [done|]); apply elem_of_nil in H.
Qed.

Lemma digit_loop_dec k v : 0 <= v < 10 ^ Z.of_nat k ->
  let l := rev (digit_loop k v 10 (digits_of false)) in
  dec_value l = v /\ Forall (fun c => 48 <= c <= 57) l /\ (List.length l <= k)%nat.
Proof.
  revert v. induction k as [|k IH]; intros v Hv; cbn [digit_loop].
  { cbn in Hv. assert (v = 0) as -> by lia. cbn. done. }
  destruct (Z.eqb_spec v 0) as [->|Hne]; [cbn; split; [done|]; split; [constructor|lia]|].
  pose proof (Z.mod_pos_bound v 10 ltac:(lia)) as Hm. rewrite digit_nth by done. cbn [rev].
  destruct (IH (v / 10)) as (Hval & Hdig & Hlen).
  { split; [apply Z.div_pos; lia|]. apply Z.div_lt_upper_bound; [lia|]. replace (Z.of_nat (S k)) with (Z.of_nat k + 1) in Hv by lia.
    rewrite Z.pow_add_r in Hv by lia. lia. }
  split; [|split].
  - unfold dec_value in *. rewrite fold_left_app. cbn [fold_left]. rewrite Hval. pose proof (Z.div_mod v 10). lia.
  - apply Forall_app. split; [done|]. constructor; [lia|constructor].
  - rewrite length_app. cbn [List.length]. lia.
Qed.
Lemma digit_loop_length k j v ds : 0 <= v < 10 ^ Z.of_nat j -> (List.length (digit_loop k v 10 ds) <= j)%nat.
Proof.
  revert j v. induction k as [|k IH]; intros j v Hv; cbn [digit_loop]; [cbn; lia|].
  destruct (Z.eqb_spec v 0); [cbn; lia|]. destruct j as [|j]; [cbn in Hv; lia|]. cbn [List.length]. apply le_n_S, IH.
  split; [apply Z.div_pos; lia|]. apply Z.div_lt_upper_bound; [lia|]. replace (Z.of_nat (S j)) with (Z.of_nat j + 1) in Hv by lia.
  rewrite Z.pow_add_r in Hv by lia. lia.
Qed.
Lemma render_uint_length j v : 0 <= v < 10 ^ Z.of_nat (S j) -> (List.length (render_uint v 10 false) <= S j)%nat.
Proof. intros Hv. unfold render_uint. destruct (v =? 0); [cbn; lia|]. rewrite length_rev. by apply digit_loop_length. Qed.
Lemma render_uint_dec v : 0 <= v < 2 ^ 64 ->
  dec_value (render_uint v 10 false) = v /\ Forall (fun c => 48 <= c <= 57) (render_uint v 10 false) /\
  (0 < List.length (render_uint v 10 false))%nat.
Proof.
  intros Hv. unfold render_uint. destruct (Z.eqb_spec v 0) as [->|Hne].
  { split; [done|]. split; [apply Forall_cons; split; [by vm_compute|constructor]|cbn; lia]. }
  destruct (digit_loop_dec 64 v) as (H1 & H2 & _); [change (Z.of_nat 64) with 64; lia|]. split; [done|]. split; [done|].
  destruct (rev _) as [|]; [|cbn; lia]. cbn in H1. lia.
Qed.
End Uprintf.

(** ** malloc.c: [atoi], [atol] *)

Module Ustdlib.
Import Uprintf.

Fixpoint skip_blank (fuel : nat) (m : mem) (s : Z) : option Z :=
  match fuel with
  | O => None
  | S fuel => if (m s =? 32) || (m s =? 9) then skip_blank fuel m (s + 1) else Some s
  end.
(** [while ( *s >= '0' && *s <= '9') n = n * 10 + ( *s++ - '0')], at the width [w]. *)
Fixpoint digits_loop (fuel : nat) (w : Z) (m : mem) (s n : Z) : option Z :=
  match fuel with
  | O => None
  | S fuel => if (48 <=? m s) && (m s <=? 57) then digits_loop fuel w m (s + 1) (sint w (n * 10 + (m s - 48))) else Some n
  end.
Definition ato (w : Z) (fuel : nat) (m : mem) (s : Z) : option Z :=
  match skip_blank fuel m s with
  | None => None
  | Some s =>
      let '(neg, s) := if m s =? chr "-" then (true, s + 1) else if m s =? chr "+" then (false, s + 1) else (false, s) in
      (fun n => if neg then sint w (- n) else n) <$> digits_loop fuel w m s 0
  end.
Definition atoi : nat -> mem -> Z -> option Z := ato 32.
Definition atol : nat -> mem -> Z -> option Z := ato 64.

Lemma dec_acc_le n l : 0 <= n -> Forall (fun c => 48 <= c <= 57) l -> n <= fold_left (fun n c => n * 10 + (c - 48)) l n.
Proof.
  intros Hn Hl. revert n Hn. induction Hl as [|c l Hc Hl IH]; intros n Hn; cbn [fold_left]; [lia|].
  etrans; [|apply IH; lia]. lia.
Qed.
Lemma digits_loop_value m l : Forall (fun c => 48 <= c <= 57) l -> forall fuel s n, (List.length l < fuel)%nat ->
  bytes (List.length l) m s = l -> ~ (48 <= m (s + Z.of_nat (List.length l)) <= 57) -> 0 <= n ->
  fold_left (fun n c => n * 10 + (c - 48)) l n < 2 ^ 31 ->
  digits_loop fuel 32 m s n = Some (fold_left (fun n c => n * 10 + (c - 48)) l n).
Proof.
  induction 1 as [|c l Hc Hl IH]; intros [|fuel] s n Hf Hb He Hn Hmax; cbn [List.length bytes digits_loop fold_left] in *; try lia.
  - rewrite Z.add_0_r in He. destruct (Z.leb_spec 48 (m s)); [|done]. by rewrite (proj2 (Z.leb_gt _ _)) by lia.
  - injection Hb as E Hb. rewrite E. rewrite (proj2 (Z.leb_le 48 c)), (proj2 (Z.leb_le c 57)) by lia. cbn [andb].
    pose proof (dec_acc_le (n * 10 + (c - 48)) l ltac:(lia) Hl) as Hle.
    assert (sint 32 (n * 10 + (c - 48)) = n * 10 + (c - 48)) as ->.
    { unfold sint. rewrite Z.mod_small by lia. by rewrite (proj2 (Z.ltb_lt _ _)) by lia. }
    apply IH; try done; try lia. by replace (s + 1 + Z.of_nat (List.length l)) with (s + Z.of_nat (S (List.length l))) by lia.
Qed.

Lemma digits_at fuel m s v : 0 <= v < 2 ^ 31 -> (11 < fuel)%nat ->
  bytes (List.length (render_uint v 10 false) + 1) m s = render_uint v 10 false ++ [0] -> digits_loop fuel 32 m s 0 = Some v.
Proof.
  intros Hv Hf Hb. destruct (render_uint_dec v) as (Hval & Hdig & _); [lia|].
  pose proof (render_uint_length 9 v ltac:(change (10 ^ Z.of_nat 10) with 10000000000; lia)) as Hlen.
  set (l := render_uint v 10 false) in *. unfold dec_value in Hval. rewrite <-Hval at 1.
  assert (m (s + Z.of_nat (List.length l)) = 0) as Hz.
  { assert (bytes (List.length l + 1) m s !! List.length l = Some 0) as E by (rewrite Hb; by apply list_lookup_middle).
    rewrite lookup_bytes in E by lia. congruence. }
  apply digits_loop_value; [done|lia| |lia|lia|lia].
  apply (f_equal (take (List.length l))) in Hb. rewrite take_app_length in Hb. rewrite <-Hb at 2.
  clear. apply list_eq. intros i. destruct (decide (i < List.length l)%nat).
  - rewrite lookup_take_lt, !lookup_bytes by lia. done.
  - rewrite !lookup_ge_None_2; [done|rewrite length_take; lia|rewrite length_bytes; lia].
Qed.

Lemma bytes_cons n m a x l : bytes (S n) m a = x :: l -> m a = x /\ bytes n m (a + 1) = l.
Proof. cbn [bytes]. by intros [= -> ->]. Qed.

Lemma atoi_text m buf x : - 2 ^ 31 < x < 2 ^ 31 -> bytes (List.length (render_int x) + 1) m buf = render_int x ++ [0] ->
  atoi 16 m buf = Some x.
Proof.
  intros Hx Hb. unfold atoi, ato. unfold render_int in Hb. destruct (Z.ltb_spec x 0) as [Hneg|Hpos].
  - cbn [List.length Nat.add app] in Hb. apply bytes_cons in Hb as [E Hb]. cbn [skip_blank]. rewrite E.
    change ((chr "-" =? 32) || (chr "-" =? 9)) with false. cbv iota. rewrite E. change (chr "-" =? chr "-") with true. cbv iota.
    rewrite (digits_at 16 m (buf + 1) (- x)) by (done || lia). cbn. f_equal. unfold sint.
    destruct (Z.ltb_spec (- - x mod 2 ^ 32) (2 ^ (32 - 1))); rewrite Z.opp_involutive in *; zlia.
  - destruct (render_uint_dec x) as (_ & Hdig & Hlen); [lia|].
    assert (48 <= m buf <= 57) as Hc.
    { destruct (render_uint x 10 false) as [|c l]; [cbn in Hlen; lia|]. cbn [List.length Nat.add app] in Hb.
      apply bytes_cons in Hb as [-> _]. by apply Forall_inv in Hdig. }
    cbn [skip_blank]. rewrite (proj2 (Z.eqb_neq (m buf) 32)), (proj2 (Z.eqb_neq (m buf) 9)) by lia. cbv iota beta. cbn [orb].
    rewrite (proj2 (Z.eqb_neq (m buf) (chr "-"))), (proj2 (Z.eqb_neq (m buf) (chr "+"))) by (vm_compute chr; lia).
    by rewrite (digits_at 16 m buf x) by (done || lia).
Qed.

(** Printing and reading a number: after [snprintf(buf, n, "%d", x)] with room for
    twelve bytes, [atoi(buf)] is [x], for every int but the least. *)
Theorem snprintf_atoi m buf n x : - 2 ^ 31 < x < 2 ^ 31 -> 12 <= n < 2 ^ 64 ->
  exists r m', snprintf m buf n (str "%d") [A_int x] = Some (r, m') /\ atoi 16 m' buf = Some x.
Proof.
  intros Hx Hn. assert (render (str "%d") [A_int x] = Some (render_int (i32 x) ++ [])) as Hr by reflexivity.
  assert (i32 x = x) as Ex by (unfold i32, sint; destruct (Z.ltb_spec (x mod 2 ^ 32) (2 ^ (32 - 1))); zlia).
  rewrite Ex, app_nil_r in Hr. unfold snprintf. rewrite (vsnprintf_put m buf n _ _ _ ltac:(lia) Hr).
  assert (List.length (render_int x) <= 11)%nat as Hlen.
  { pose proof (render_uint_length 9 (Z.abs x) ltac:(change (10 ^ Z.of_nat 10) with 10000000000; lia)) as H.
    unfold render_int. destruct (Z.ltb_spec x 0); [rewrite Z.abs_neq in H by lia; cbn [List.length]; lia|rewrite Z.abs_eq in H by lia; lia]. }
  rewrite take_ge by lia. do 2 eexists. split; [reflexivity|]. apply atoi_text; [done|].
  rewrite <-(bytes_put m buf (render_int x ++ [0])) at 2. by rewrite length_app.
Qed.
Lemma snprintf_atoi_witness : exists r m', snprintf (fun _ => 0) 4096 16 (str "%d") [A_int (-1207)] = Some (r, m') /\ atoi 16 m' 4096 = Some (-1207).
Proof. apply (snprintf_atoi (fun _ => 0) 4096 16 (-1207)); lia. Defined.
End Ustdlib.

(** ** malloc.c: the bump allocator over brk *)

Module Umalloc.

Record uheap := mk_uheap { heap_start : Z; heap_cur : Z; heap_end : Z }.
Definition uheap_blank : uheap := mk_uheap 0 0 0.
Definition HEAP_INIT_SIZE : Z := 64 * 1024.
Definition HEAP_GROW_SIZE : Z := 64 * 1024.
Definition ALIGN8 (x : Z) : Z := u64 (x + 7) &b not64 7.

Section malloc.
Context {K : Type} (brk_syscall : Z -> K -> Z * K).
Implicit Types (h : uheap) (k : K).

Definition heap_init h k : Z * uheap * K :=
  let '(cur, k) := brk_syscall 0 k in
  if cur =? 0 then (-1, h, k)
  else
    let h := mk_uheap cur cur (heap_end h) in
    let '(new_end, k) := brk_syscall (u64 (cur + HEAP_INIT_SIZE)) k in
    if new_end <? u64 (cur + HEAP_INIT_SIZE) then (-1, h, k)
    else (0, mk_uheap cur cur new_end, k).

Definition heap_grow (needed : Z) h k : Z * uheap * K :=
  let grow := if HEAP_GROW_SIZE <? needed then needed else HEAP_GROW_SIZE in
  let '(new_end, k) := brk_syscall (u64 (heap_end h + grow)) k in
  if new_end <? u64 (heap_end h + grow) then (-1, h, k)
  else (0, mk_uheap (heap_start h) (heap_cur h) new_end, k).

Definition malloc (size : Z) h k : Z * uheap * K :=
  if size =? 0 then (0, h, k)
  else
    let '(rc, h, k) := if heap_start h =? 0 then heap_init h k else (0, h, k) in
    if negb (rc =? 0) then (0, h, k)
    else
      let size := ALIGN8 size in
      let '(rc, h, k) := if heap_end h <? u64 (heap_cur h + size) then heap_grow size h k else (0, h, k) in
      if negb (rc =? 0) then (0, h, k)
      else (heap_cur h, mk_uheap (heap_start h) (u64 (heap_cur h + size)) (heap_end h), k).

(** [calloc] and [realloc] also write the block: the memory is the last argument. *)
Definition calloc (nmemb size : Z) h k (m : mem) : Z * uheap * K * mem :=
  let total := u64 (nmemb * size) in
  let '(p, h, k) := malloc total h k in
  (p, h, k, if p =? 0 then m else memset m p 0 total).
Definition realloc (ptr size : Z) h k (m : mem) : Z * uheap * K * mem :=
  let '(p, h, k) := malloc size h k in
  (p, h, k, if (p =? 0) || (ptr =? 0) then m else memcpy m p ptr size).
End malloc.

(** *** Over a kernel with a program break *)

(** [brk] as malloc.c uses it: it returns the break, which is the address asked for,
    or the old one when that is refused or 0 is asked for. *)
Class Break (K : Type) (brk : Z -> K -> Z * K) := {
  the_break : K -> Z;
  break_range k : 0 < the_break k < 2 ^ 47;
  brk_result a k : fst (brk a k) = the_break (snd (brk a k));
  brk_cases a k : the_break (snd (brk a k)) = the_break k \/ the_break (snd (brk a k)) = a /\ a <> 0
}.

Section fresh.
Context {K : Type} {brk : Z -> K -> Z * K} `{B : !Break K brk}.
Implicit Types (h : uheap) (k : K).

(** The heap lies below the break. *)
Definition uheap_ok h k : Prop := 0 < heap_start h <= heap_cur h /\ heap_cur h <= heap_end h <= the_break k.

Lemma align8 x : 0 <= x < 2 ^ 63 -> x <= ALIGN8 x < x + 8 /\ ALIGN8 x mod 8 = 0.
Proof.
  intros Hx. unfold ALIGN8. rewrite u64_small by lia. change (not64 7) with (Z.ldiff (Z.ones 64) (Z.ones 3)).
  rewrite Z.ldiff_land, Z.land_assoc, Z.land_ones, Z.mod_small, <-Z.ldiff_land, Z.ldiff_ones_r by lia.
  rewrite Z.shiftl_mul_pow2, Z.shiftr_div_pow2 by lia. change (2 ^ 3) with 8. split; [zlia|]. apply Z.mod_mul. lia.
Qed.
Lemma brk_ask a k : 0 < a -> let '(r, k') := brk a k in
  r = the_break k' /\ (the_break k' = the_break k \/ the_break k' = a).
Proof. intros Ha. pose proof (brk_result a k). pose proof (brk_cases a k). destruct (brk a k). cbn in *. intuition. Qed.

(** With a kernel that implements [brk], a block [malloc] returns from an
    initialised heap starts at or above every address handed out before, has room for
    the size asked for below the program break, and the heap stays well-formed; a NULL
    leaves the heap as it was. *)
Theorem malloc_fresh size h k : uheap_ok h k -> 0 < size < 2 ^ 46 ->
  let '(p, h', k') := malloc brk size h k in
  (p = 0 /\ h' = h) \/ (heap_cur h <= p /\ p + size <= heap_cur h' <= the_break k' /\ uheap_ok h' k').
Proof.
  intros [Hs Hc] Hsz. unfold malloc. rewrite (proj2 (Z.eqb_neq size 0)), (proj2 (Z.eqb_neq (heap_start h) 0)) by lia.
  change (negb (0 =? 0)) with false. cbv iota beta zeta. destruct (align8 size ltac:(lia)) as [Ha _]. pose proof (break_range k) as Hb.
  rewrite (u64_small (heap_cur h + ALIGN8 size)) by lia. destruct (Z.ltb_spec (heap_end h) (heap_cur h + ALIGN8 size)) as [Hlt|Hge].
  - unfold heap_grow. set (grow := if _ <? _ then _ else _).
    assert (ALIGN8 size <= grow < 2 ^ 47) as Hg by (unfold grow, HEAP_GROW_SIZE; destruct (Z.ltb_spec (64 * 1024) (ALIGN8 size)); lia).
    rewrite (u64_small (heap_end h + grow)) by lia. pose proof (brk_ask (heap_end h + grow) k ltac:(lia)) as H.
    destruct (brk (heap_end h + grow) k) as [r k']. destruct H as [-> H]. pose proof (break_range k').
    destruct (Z.ltb_spec (the_break k') (heap_end h + grow)); cbn [negb]; [by left|]. change (0 =? 0) with true. cbn [negb].
    right. cbn [heap_cur heap_start heap_end]. rewrite u64_small by lia. unfold uheap_ok. cbn [heap_cur heap_start heap_end]. lia.
  - cbn. right. rewrite u64_small by lia. unfold uheap_ok. cbn [heap_cur heap_start heap_end]. lia.
Qed.
End fresh.

(** A kernel whose break can be moved up to 1 GB. *)
Definition demo_brk (a k : Z) : Z * Z := if (0 <? a) && (a <=? 2 ^ 30) then (a, a) else (k, k).
#[local] Instance demo_break : Break Z (fun a k => demo_brk a (Z.max 1 (Z.min k (2 ^ 30)))).
Proof.
  refine {| the_break k := Z.max 1 (Z.min k (2 ^ 30)) |}.
  - intros k. lia.
  - intros a k. unfold demo_brk. destruct (Z.ltb_spec 0 a), (Z.leb_spec a (2 ^ 30)); cbn; lia.
  - intros a k. unfold demo_brk. destruct (Z.ltb_spec 0 a), (Z.leb_spec a (2 ^ 30)); cbn; lia.
Defined.
Lemma malloc_fresh_demo : fst (fst (malloc (fun a k => demo_brk a (Z.max 1 (Z.min k (2 ^ 30)))) 100 (mk_uheap 4096 4200 8192) 8192)) = 4200.
Proof. by vm_compute. Qed.

(** *** Over this kernel *)

(** System call 12 is [sys_enosys] in the kernel's table: [brk] returns -ENOSYS. *)
Definition brk_enosys (a : Z) (k : unit) : Z * unit := (u64 (-38), k).

(** On this kernel [malloc] never notices that there is no memory: -ENOSYS passes for
    a break at the top of the address space. The first call returns that address, which
    is neither NULL nor a user address, and every later call succeeds with the next
    address, counted from there with wrap-around through zero. *)
Theorem malloc_without_brk size : 0 < size < 2 ^ 46 ->
  malloc brk_enosys size uheap_blank tt =
    (2 ^ 64 - 38, mk_uheap (2 ^ 64 - 38) (u64 (2 ^ 64 - 38 + ALIGN8 size)) (2 ^ 64 - 38), tt) /\
  forall cur, malloc brk_enosys size (mk_uheap (2 ^ 64 - 38) cur (2 ^ 64 - 38)) tt =
    (cur, mk_uheap (2 ^ 64 - 38) (u64 (cur + ALIGN8 size)) (2 ^ 64 - 38), tt).
Proof.
  intros Hsz. destruct (align8 size ltac:(lia)) as [Ha _].
  assert (forall cur, malloc brk_enosys size (mk_uheap (2 ^ 64 - 38) cur (2 ^ 64 - 38)) tt =
    (cur, mk_uheap (2 ^ 64 - 38) (u64 (cur + ALIGN8 size)) (2 ^ 64 - 38), tt)) as H.
  { intros cur. unfold malloc. rewrite (proj2 (Z.eqb_neq size 0)) by lia. cbn [heap_start heap_cur heap_end].
    change (2 ^ 64 - 38 =? 0) with false. cbv iota beta zeta. change (negb (0 =? 0)) with false. cbv iota.
    cbn [heap_start heap_cur heap_end]. destruct (2 ^ 64 - 38 <? u64 (cur + ALIGN8 size)); [|done]. unfold heap_grow, brk_enosys. cbn [heap_start heap_cur heap_end].
    set (grow := if HEAP_GROW_SIZE <? _ then _ else _).
    assert (65536 <= grow < 2 ^ 47) as Hg by (unfold grow, HEAP_GROW_SIZE; destruct (Z.ltb_spec (64 * 1024) (ALIGN8 size)); lia).
    assert (u64 (2 ^ 64 - 38 + grow) = grow - 38) as -> by (unfold u64; symmetry; apply (Z.mod_unique_pos _ _ 1); lia).
    change (u64 (-38)) with (2 ^ 64 - 38). by rewrite (proj2 (Z.ltb_ge (2 ^ 64 - 38) (grow - 38))) by lia. }
  split; [|exact H]. rewrite <-(H (2 ^ 64 - 38)). unfold malloc. by rewrite (proj2 (Z.eqb_neq size 0)) by lia.
Qed.
Lemma malloc_without_brk_witness :
  fst (fst (malloc brk_enosys 64 uheap_blank tt)) = 0xFFFFFFFFFFFFFFDA /\
  fst (fst (malloc brk_enosys 64 (mk_uheap (2 ^ 64 - 38) 26 (2 ^ 64 - 38)) tt)) = 26.
Proof.
  destruct (malloc_without_brk 64 ltac:(lia)) as [H1 H2]. rewrite H1, (H2 26). split; reflexivity.
Defined.
End Umalloc.
