(* ===== verification/Programs.v ===== *)
(** * User programs: userspace/programs

    The shell (shell/shell.c) reads a line from standard input, splits it into words in
    place and runs a built-in command or a program; init (init/init.c) starts the shell
    again and again; the web server's [handle_client] (httpd/httpd.c) reads a request and
    sends a fixed answer.  The line buffer is in the program's memory (Mem.v); output and
    process calls are events; the results of the system calls are parameters.

    Shown: the shell's [parse] leaves in [argv] exactly the words of the line, the
    first fifteen of them; a session's output and process calls are those of its lines
    one by one; the web server answers once the headers have ended, and sends the whole of
    its answer however the connection accepts it. *)

From Stdlib Require Import String Ascii.
From S2P Require Import Prelude Mem Io Libc.
Open Scope list_scope.

(** What the outside sees of a program: bytes written to standard output and the process
    calls it makes. *)
Inductive event := Write (s : list Z) | Fork (pid : Z) | Execve (path : list Z) (argv : list (list Z)) | Waitpid (pid : Z) | Exit (status : Z).

(** A [printf] whose result is not used, its buffer at [buf]. *)
Definition say (m : mem) (buf : Z) (fmt : list Z) (ap : list va_arg) : list event :=
  match Uprintf.printf m buf fmt ap with
  | Some (n, s) => if 0 <? n then [Write s] else []
  | None => []
  end.

Lemma say_text m buf fmt ap s : Uprintf.render fmt ap = Some s -> s <> [] -> (List.length s < 1024)%nat -> say m buf fmt ap = [Write s].
Proof.
  intros Hr Hne Hl. unfold say, Uprintf.printf, Uprintf.vprintf. rewrite (Uprintf.vsnprintf_put m buf 1024 fmt ap s ltac:(lia) Hr).
  rewrite take_ge by lia. assert (0 < List.length s)%nat by (destruct s; [done|cbn; lia]). rewrite Uprintf.i32_small by lia.
  rewrite (proj2 (Z.ltb_lt 0 _)) by lia. by rewrite Nat2Z.id, Uprintf.bytes_put_text.
Qed.

Module Shell.

Definition LINE_MAX : Z := 256.
Definition ARG_MAX : Z := 16.

Definition blank (c : Z) : bool := (c =? 32) || (c =? 9).

Fixpoint skip_blanks (fuel : nat) (m : mem) (p : Z) : option Z :=
  match fuel with
  | O => None
  | S fuel => if blank (m p) then skip_blanks fuel m (p + 1) else Some p
  end.
Fixpoint skip_word (fuel : nat) (m : mem) (p : Z) : option Z :=
  match fuel with
  | O => None
  | S fuel => if negb (m p =? 0) && negb (blank (m p)) then skip_word fuel m (p + 1) else Some p
  end.

(** The loop of [parse]: [argv] so far, in order. *)
Fixpoint parse_loop (fuel : nat) (m : mem) (p : Z) (argv : list Z) (max_args : Z) : option (list Z * mem) :=
  match fuel with
  | O => None
  | S fuel' =>
      if negb (m p =? 0) && (Z.of_nat (List.length argv) <? max_args - 1) then
        match skip_blanks fuel m p with
        | None => None
        | Some p =>
            if m p =? 0 then Some (argv, m)
            else
              let argv := argv ++ [p] in
              match skip_word fuel m p with
              | None => None
              | Some p =>
                  if m p =? 0 then parse_loop fuel' m p argv max_args
                  else parse_loop fuel' (upd m p 0) (p + 1) argv max_args
              end
        end
      else Some (argv, m)
  end.
(** [parse]: the entries of [argv] before its NULL; their number is the result. *)
Definition parse (fuel : nat) (m : mem) (line max_args : Z) : option (list Z * mem) := parse_loop fuel m line [] max_args.

(** *** The words of a line *)

Fixpoint drop_blanks (s : list Z) : list Z :=
  match s with [] => [] | c :: t => if blank c then drop_blanks t else s end.
Fixpoint take_word (s : list Z) : list Z :=
  match s with [] => [] | c :: s => if blank c then [] else c :: take_word s end.

Fixpoint split (s cur : list Z) : list (list Z) :=
  match s with
  | [] => if decide (cur = []) then [] else [cur]
  | c :: s =>
      if blank c then (if decide (cur = []) then split s [] else cur :: split s [])
      else split s (cur ++ [c])
  end.
(** The maximal runs of characters other than blank and tab. *)
Definition words (s : list Z) : list (list Z) := split s [].

Lemma split_word s cur : cur <> [] -> split s cur = (cur ++ take_word s) :: words (drop (S (List.length (take_word s))) s).
Proof.
  revert cur. induction s as [|c s IH]; intros cur Hc; cbn [split take_word].
  - rewrite decide_False by done. by rewrite app_nil_r.
  - destruct (blank c); [rewrite decide_False by done; by rewrite app_nil_r|].
    rewrite IH by (by destruct cur). by rewrite <-app_assoc.
Qed.
Lemma words_blanks s : words s = words (drop_blanks s).
Proof. induction s as [|c s IH]; [done|]. unfold words in *. cbn [split drop_blanks]. by destruct (blank c) eqn:E; [|cbn [split]; rewrite E]. Qed.
Lemma words_word s : s <> [] -> (forall c, head s = Some c -> blank c = false) ->
  words s = take_word s :: words (drop (S (List.length (take_word s))) s).
Proof.
  destruct s as [|c s]; [done|]. intros _ Hb. specialize (Hb c eq_refl). unfold words at 1. cbn [split take_word]. rewrite Hb.
  by rewrite split_word.
Qed.
Lemma drop_blanks_head s c : head (drop_blanks s) = Some c -> blank c = false.
Proof. induction s as [|d s IH]; [done|]. cbn [drop_blanks]. destruct (blank d) eqn:E; [done|]. by intros [= <-]. Qed.
Lemma drop_blanks_suffix s : exists n, (n <= List.length s)%nat /\ drop_blanks s = drop n s.
Proof.
  induction s as [|d s (n & Hn & E)]; [by exists O|]. cbn [drop_blanks]. destruct (blank d); [exists (S n)|exists O]; cbn; split; done || lia.
Qed.

(** *** The loops on a stored string *)

Lemma cstr_drop m p s n : cstr m p s -> (n <= List.length s)%nat -> cstr m (p + Z.of_nat n) (drop n s).
Proof.
  revert p s. induction n as [|n IH]; intros p s Hs Hn; [by rewrite Z.add_0_r|].
  destruct s as [|c s]; [cbn in Hn; lia|]. destruct Hs as (_ & _ & Hs). cbn [drop].
  replace (p + Z.of_nat (S n)) with (p + 1 + Z.of_nat n) by lia. apply IH; [done|cbn in Hn; lia].
Qed.
Lemma cstr_head m p s : cstr m p s -> m p = match s with [] => 0 | c :: _ => c end /\ (s <> [] -> m p <> 0).
Proof. destruct s as [|c s]; cbn [cstr]; [done|]. intros (-> & ? & _). done. Qed.

Lemma skip_blanks_spec s : forall fuel m p, cstr m p s -> (List.length s < fuel)%nat ->
  skip_blanks fuel m p = Some (p + Z.of_nat (List.length s - List.length (drop_blanks s))).
Proof.
  induction s as [|c s IH]; intros [|fuel] m p Hs Hf; cbn [List.length cstr] in *; try lia; cbn [skip_blanks drop_blanks].
  - rewrite Hs. cbn. f_equal. lia.
  - destruct Hs as (-> & Hc & Hs). destruct (blank c) eqn:E; [|cbn [List.length]; f_equal; lia].
    rewrite (IH fuel m (p + 1) Hs) by lia. destruct (drop_blanks_suffix s) as (n & Hn & ->). rewrite length_drop. f_equal. lia.
Qed.
Lemma take_word_length s : (List.length (take_word s) <= List.length s)%nat.
Proof. induction s as [|c s IH]; cbn; [done|]. destruct (blank c); cbn; lia. Qed.
Lemma skip_word_spec s : forall fuel m p, cstr m p s -> (List.length s < fuel)%nat ->
  skip_word fuel m p = Some (p + Z.of_nat (List.length (take_word s))).
Proof.
  induction s as [|c s IH]; intros [|fuel] m p Hs Hf; cbn [List.length cstr] in *; try lia; cbn [skip_word take_word].
  - rewrite Hs. cbn. f_equal. lia.
  - destruct Hs as (-> & Hc & Hs). rewrite (proj2 (Z.eqb_neq c 0) Hc). cbn [negb andb].
    destruct (blank c); cbn [negb List.length]; [f_equal; lia|]. rewrite (IH fuel m (p + 1) Hs) by lia. f_equal. lia.
Qed.

(** The word at the head of a string becomes a string when the byte after it does. *)
Lemma cstr_word m m' p s : cstr m p s -> m' (p + Z.of_nat (List.length (take_word s))) = 0 ->
  (forall a, p <= a < p + Z.of_nat (List.length (take_word s)) -> m' a = m a) -> cstr m' p (take_word s).
Proof.
  revert p. induction s as [|c s IH]; intros p Hs Hz He; cbn [take_word] in *.
  - cbn in *. by rewrite Z.add_0_r in Hz.
  - destruct Hs as (Hp & Hc & Hs). destruct (blank c); cbn [List.length cstr] in *; [by rewrite Z.add_0_r in Hz|].
    split; [rewrite He by lia; done|]. split; [done|]. apply IH; [done| |].
    + by replace (p + 1 + Z.of_nat (List.length (take_word s))) with (p + Z.of_nat (S (List.length (take_word s)))) by lia.
    + intros a Ha. apply He. lia.
Qed.

Definition parsed (m : mem) (p : Z) (s : list Z) (k : nat) (args : list Z) (m' : mem) : Prop :=
  Forall2 (cstr m') args (take k (words s)) /\ forall a, ~ (p <= a < p + Z.of_nat (List.length s)) -> m' a = m a.

(** One word [q] of the string at [p], then the string [s2] at [p2] in the memory [m2]. *)
Lemma parsed_cons m p s k q w m2 p2 s2 args m' : words s = w :: words s2 -> p <= q -> q + Z.of_nat (List.length w) <= p2 ->
  p2 + Z.of_nat (List.length s2) <= p + Z.of_nat (List.length s) ->
  cstr m2 q w -> (forall a, ~ (p <= a < p2) -> m2 a = m a) ->
  (forall a, a = q + Z.of_nat (List.length w) -> p2 <= a -> List.length s2 = O) ->
  parsed m2 p2 s2 k args m' -> parsed m p s (S k) (q :: args) m'.
Proof.
  intros Hw Hq Hp2 Hle Hc Hm Hend [Hf He]. split.
  - rewrite Hw. cbn [take]. apply Forall2_cons. split; [|done]. eapply cstr_ext; [|exact Hc]. intros x Hx. symmetry. apply He.
    destruct (decide (x = q + Z.of_nat (List.length w))) as [->|]; [|lia]. intros Ha. rewrite (Hend _ eq_refl) in Ha by lia. lia.
  - intros a Ha. destruct (decide (p2 <= a < p2 + Z.of_nat (List.length s2))); [lia|]. rewrite He by done. apply Hm. lia.
Qed.

(** The string at [p] has no word, or its first word is at [q]. *)
Lemma first_word m p s : cstr m p s -> let s1 := drop_blanks s in let q := p + Z.of_nat (List.length s - List.length s1) in
  cstr m q s1 /\ p <= q /\ q + Z.of_nat (List.length s1) = p + Z.of_nat (List.length s) /\
  (s1 = [] /\ words s = [] \/ s1 <> [] /\ (0 < List.length (take_word s1))%nat /\
     words s = take_word s1 :: words (drop (S (List.length (take_word s1))) s1)).
Proof.
  intros Hs s1 q. destruct (drop_blanks_suffix s) as (nb & Hnb & Hs1). fold s1 in Hs1.
  assert (q = p + Z.of_nat nb) as -> by (unfold q; rewrite Hs1, length_drop; lia).
  split; [rewrite Hs1; by apply cstr_drop|]. split; [lia|]. split; [rewrite Hs1, length_drop; lia|].
  pose proof (words_blanks s) as Hw. fold s1 in Hw. pose proof (drop_blanks_head s) as Hh. fold s1 in Hh. clearbody s1. clear Hs1.
  destruct s1 as [|c s1]; [by left|right]. split; [done|]. rewrite Hw. split; [|by apply words_word].
  cbn [take_word]. rewrite (Hh c eq_refl). cbn. lia.
Qed.

Lemma parse_loop_spec max : forall fuel s m p argv, cstr m p s -> (List.length s < fuel)%nat -> Z.of_nat (List.length argv) <= max - 1 ->
  exists args m', parse_loop fuel m p argv max = Some (argv ++ args, m') /\
    parsed m p s (Z.to_nat (max - 1) - List.length argv) args m'.
Proof.
  induction fuel as [|fuel IH]; intros s m p argv Hs Hf Hk; [lia|]. cbn [parse_loop].
  assert (words s = [] \/ Z.of_nat (List.length argv) = max - 1 ->
    exists args m', Some (argv, m) = Some (argv ++ args, m') /\ parsed m p s (Z.to_nat (max - 1) - List.length argv) args m') as Hdone.
  { intros Hd. exists [], m. rewrite app_nil_r. split; [done|]. split; [|done].
    destruct Hd as [->|Hd]; [by rewrite take_nil|]. by replace (_ - _)%nat with O by lia. }
  destruct (cstr_head m p s Hs) as [Hp Hp0]. destruct (decide (s = [])) as [->|Hne]; [rewrite Hp; cbn; apply Hdone; by left|].
  rewrite (proj2 (Z.eqb_neq (m p) 0)) by auto. cbn [negb andb].
  destruct (Z.ltb_spec (Z.of_nat (List.length argv)) (max - 1)) as [Hlt|Hge]; [|apply Hdone; right; lia].
  rewrite (skip_blanks_spec s) by done. destruct (first_word m p s Hs) as (Hq & Hpq & Hqe & Hw).
  set (s1 := drop_blanks s) in *. set (q := p + Z.of_nat (List.length s - List.length s1)) in *. clearbody q s1.
  destruct (cstr_head m q s1 Hq) as [Hmq Hmq0]. destruct Hw as [[-> Hw]|(Hne1 & Hw0 & Hw)]; [rewrite Hmq; cbn; apply Hdone; by left|].
  rewrite (proj2 (Z.eqb_neq (m q) 0)) by auto. rewrite (skip_word_spec s1) by (done || lia).
  pose proof (take_word_length s1) as Hwl. pose proof (cstr_drop m q s1 _ Hq Hwl) as Hce. pose proof (cstr_word m) as Hcw.
  set (w := take_word s1) in *. set (e := q + Z.of_nat (List.length w)) in *.
  replace (Z.to_nat (max - 1) - List.length argv)%nat
    with (S (Z.to_nat (max - 1) - List.length (argv ++ [q])))%nat by (rewrite length_app; cbn [List.length]; lia).
  assert (Z.of_nat (List.length (argv ++ [q])) <= max - 1) as Hk' by (rewrite length_app; cbn [List.length]; lia).
  destruct (cstr_head m e _ Hce) as [Hme Hme0]. destruct (decide (drop (List.length w) s1 = [])) as [Hd|Hd].
  - rewrite Hd in Hme, Hce. rewrite Hme. cbn [Z.eqb].
    assert (drop (S (List.length w)) s1 = []) as Hd2 by (apply (f_equal List.length) in Hd; rewrite length_drop in Hd; cbn in Hd; apply drop_ge; lia). rewrite Hd2 in Hw.
    destruct (IH [] m e (argv ++ [q]) Hce ltac:(cbn; lia) Hk') as (args & m' & -> & Hpar). exists (q :: args), m'. rewrite <-app_assoc. split; [done|].
    eapply (parsed_cons m p s _ q w m e []); [done|done|done| |by apply Hcw|done|done|done].
    cbn [List.length]. unfold e. lia.
  - rewrite (proj2 (Z.eqb_neq (m e) 0)) by auto.
    assert (List.length w < List.length s1)%nat as Hlen.
    { destruct (decide (List.length s1 <= List.length w)%nat); [|lia]. destruct Hd. apply drop_ge. lia. }
    pose proof (cstr_drop m q s1 (S (List.length w)) Hq ltac:(lia)) as Hc2.
    replace (q + Z.of_nat (S (List.length w))) with (e + 1) in Hc2 by (unfold e; lia).
    set (s2 := drop (S (List.length w)) s1) in *.
    assert (List.length s2 = List.length s1 - S (List.length w))%nat as Hl2 by apply length_drop.
    destruct (IH s2 (upd m e 0) (e + 1) (argv ++ [q])) as (args & m' & -> & Hpar).
    { eapply cstr_ext; [|exact Hc2]. intros x Hx. symmetry. apply upd_ne. lia. }
    { lia. } { done. }
    exists (q :: args), m'. rewrite <-app_assoc. split; [done|].
    eapply (parsed_cons m p s _ q w (upd m e 0) (e + 1) s2); [done|done|unfold e; lia|unfold e; lia| | | |done].
    + apply Hcw; [done|apply upd_eq|]. intros a Ha. apply upd_ne. unfold e. fold w in Ha. lia.
    + intros a Ha. apply upd_ne. unfold e in *. lia.
    + intros a -> Ha. unfold e in Ha. lia.
Qed.

(** The shell splits a command line into its words: whatever the line, [parse]
    returns (fuel above the length of the line is enough) with [argv] pointing, in order,
    at the first fifteen maximal runs of non-blank characters, each now a NUL-terminated
    string of its own, and changes no byte outside the line. *)
Theorem parse_words m line s fuel : cstr m line s -> (List.length s < fuel)%nat ->
  exists argv m', parse fuel m line ARG_MAX = Some (argv, m') /\ Forall2 (cstr m') argv (take 15 (words s)) /\
    forall a, ~ (line <= a < line + Z.of_nat (List.length s)) -> m' a = m a.
Proof.
  intros Hs Hf. destruct (parse_loop_spec ARG_MAX fuel s m line [] Hs Hf ltac:(by vm_compute)) as (argv & m' & E & H1 & H2).
  exists argv, m'. split; [exact E|]. split; [exact H1|exact H2].
Qed.

(** *** The command loop

    Standard input is the list of bytes still to be read; [read] fails at its end. *)

(** [readline]: the result, the memory and the rest of the input. *)
Fixpoint readline (input : list Z) (m : mem) (buf i max : Z) : Z * mem * list Z :=
  if i <? max - 1 then
    match input with
    | [] => (-1, m, [])
    | c :: rest =>
        if c =? 10 then (i, upd m (buf + i) 0, rest)
        else if c =? 13 then readline rest m buf i max
        else readline rest (upd m (buf + i) c) buf (i + 1) max
    end
  else (i, upd m (buf + i) 0, input).

(** [strcmp( *a, lit)] of a string in memory and a literal. *)
Fixpoint strcmp_lit (m : mem) (a : Z) (lit : list Z) : Z :=
  match lit with
  | [] => m a
  | c :: lit => if negb (m a =? 0) && (m a =? c) then strcmp_lit m (a + 1) lit else m a - c
  end.

(** The string at [p]. *)
Fixpoint string_at (fuel : nat) (m : mem) (p : Z) : list Z :=
  match fuel with
  | O => []
  | S fuel => if m p =? 0 then [] else m p :: string_at fuel m (p + 1)
  end.

Section shell.
(** The buffer of [printf]; what the n-th [fork] returns; whether [execve] comes back. *)
Variable (out : Z) (fork : nat -> Z) (execve_fails : bool).

Definition builtin_cd (m : mem) (argv : list Z) : list event :=
  match argv with
  | _ :: p :: _ => say m out (str "cd: %s (not yet implemented)" ++ [10]) [A_str (Some (string_at 256 m p))]
  | _ => say m out (str "cd: missing argument" ++ [10]) []
  end.
Definition builtin_ls (m : mem) : list event := say m out (str "ls: (not yet implemented)" ++ [10]) [].
Definition builtin_cat (m : mem) (argv : list Z) : list event :=
  match argv with
  | _ :: p :: _ => say m out (str "cat: %s (not yet implemented)" ++ [10]) [A_str (Some (string_at 256 m p))]
  | _ => say m out (str "cat: missing argument" ++ [10]) []
  end.
(** [run], the [n]-th fork of the program, seen by the process that returns from it: whether
    it goes on. *)
Definition run (m : mem) (n : nat) (argv : list Z) : bool * list event :=
  let pid := fork n in
  if pid <? 0 then (true, Fork pid :: say m out (str "shell: fork failed" ++ [10]) [])
  else if pid =? 0 then
    let args := map (string_at 256 m) argv in
    let path := hd [] args in
    (false, Fork pid :: Execve path args ::
      if execve_fails then say m out (str "shell: exec failed: %s" ++ [10]) [A_str (Some path)] ++ [Exit 127] else [])
  else (true, [Fork pid; Waitpid pid]).

(** The choice [main] makes on the first word, with [n] forks made before: whether it
    goes on, what it does, the forks made. *)
Definition dispatch (m : mem) (n : nat) (a : Z) (argv : list Z) : bool * list event * nat :=
  if strcmp_lit m a (str "exit") =? 0 then (false, [], n)
  else if strcmp_lit m a (str "cd") =? 0 then (true, builtin_cd m argv, n)
  else if strcmp_lit m a (str "ls") =? 0 then (true, builtin_ls m, n)
  else if strcmp_lit m a (str "cat") =? 0 then (true, builtin_cat m argv, n)
  else let '(go, ev) := run m n argv in (go, ev, S n).

(** One turn of [main]'s loop, with the line buffer at [line]. *)
Definition shell_turn (line : Z) (m : mem) (n : nat) (input : list Z) : option (bool * list event * mem * nat * list Z) :=
  let prompt := Write (str "$ ") in
  let '(r, m, input) := readline input m line 0 LINE_MAX in
  if r <? 0 then Some (false, [prompt], m, n, input)
  else if m line =? 0 then Some (true, [prompt], m, n, input)
  else match parse 256 m line ARG_MAX with
       | None => None
       | Some ([], m) => Some (true, [prompt], m, n, input)
       | Some ((a :: _) as argv, m) => let '(go, ev, n) := dispatch m n a argv in Some (go, prompt :: ev, m, n, input)
       end.
Fixpoint shell_loop (fuel : nat) (line : Z) (m : mem) (n : nat) (input : list Z) : option (list event) :=
  match fuel with
  | O => None
  | S fuel =>
      match shell_turn line m n input with
      | None => None
      | Some (false, ev, _, _, _) => Some ev
      | Some (true, ev, m, n, input) => app ev <$> shell_loop fuel line m n input
      end
  end.
Definition shell_main (fuel : nat) (line : Z) (m : mem) (input : list Z) : option (list event) :=
  app (say m out (str "NamelessOS shell - type 'exit' to quit" ++ [10]) []) <$> shell_loop fuel line m 0 input.

(** *** What a session is *)

(** What the [n]-th program started, with the words [ws], comes to. *)
Definition launch (n : nat) (ws : list (list Z)) : bool * list event :=
  let pid := fork n in
  if decide (pid < 0) then (true, [Fork pid; Write (str "shell: fork failed" ++ [10])])
  else if decide (pid = 0) then
    (false, [Fork pid; Execve (hd [] ws) ws] ++
      if execve_fails then [Write (str "shell: exec failed: " ++ hd [] ws ++ [10]); Exit 127] else [])
  else (true, [Fork pid; Waitpid pid]).
(** The command a list of words stands for. *)
Definition command (n : nat) (ws : list (list Z)) : bool * list event * nat :=
  match ws with
  | [] => (true, [], n)
  | w :: args =>
      if decide (w = str "exit") then (false, [], n)
      else if decide (w = str "cd") then
        (true, [Write (match args with a :: _ => str "cd: " ++ a ++ str " (not yet implemented)" ++ [10] | [] => str "cd: missing argument" ++ [10] end)], n)
      else if decide (w = str "ls") then (true, [Write (str "ls: (not yet implemented)" ++ [10])], n)
      else if decide (w = str "cat") then
        (true, [Write (match args with a :: _ => str "cat: " ++ a ++ str " (not yet implemented)" ++ [10] | [] => str "cat: missing argument" ++ [10] end)], n)
      else let '(go, ev) := launch n ws in (go, ev, S n)
  end.
(** The events of a session typed line by line, until [exit], a child's end or the end of
    the input. *)
Fixpoint session (n : nat) (lines : list (list Z)) : list event :=
  Write (str "$ ") ::
  match lines with
  | [] => []
  | l :: lines => let '(go, ev, n) := command n (take 15 (words l)) in if go then ev ++ session n lines else ev
  end.

Lemma readline_line l : forall rest m buf i, Forall (fun c => c <> 10 /\ c <> 13) l -> 0 <= i -> i + Z.of_nat (List.length l) < LINE_MAX - 1 ->
  readline (l ++ 10 :: rest) m buf i LINE_MAX = (i + Z.of_nat (List.length l), put m (buf + i) (l ++ [0]), rest).
Proof.
  induction l as [|c l IH]; intros rest m buf i Hl Hi Hmax; cbn [app readline put List.length] in *;
    rewrite (proj2 (Z.ltb_lt i (LINE_MAX - 1))) by lia.
  - change (10 =? 10) with true. cbv iota. do 2 f_equal. lia.
  - apply Forall_cons in Hl as [[H1 H2] Hl]. rewrite (proj2 (Z.eqb_neq c 10)), (proj2 (Z.eqb_neq c 13)) by done.
    rewrite IH by (done || lia). replace (buf + (i + 1)) with (buf + i + 1) by lia. do 2 f_equal. lia.
Qed.

Lemma cstr_put m buf l : Forall (fun c => c <> 0) l -> cstr (put m buf (l ++ [0])) buf l.
Proof.
  intros Hl. revert m buf. induction Hl as [|c l Hc Hl IH]; intros m buf; cbn [app put cstr]; [apply upd_eq|].
  split; [|split; [done|apply IH]]. rewrite put_other by lia. apply upd_eq.
Qed.
Lemma string_at_cstr m s : forall fuel p, cstr m p s -> (List.length s < fuel)%nat -> string_at fuel m p = s.
Proof.
  induction s as [|c s IH]; intros [|fuel] p Hs Hf; cbn [List.length cstr string_at] in *; try lia.
  - by rewrite Hs.
  - destruct Hs as (-> & Hc & Hs). rewrite (proj2 (Z.eqb_neq c 0) Hc). f_equal. apply IH; [done|lia].
Qed.
Lemma strcmp_lit_eq lit m a s : cstr m a s -> Forall (fun c => c <> 0) lit -> (strcmp_lit m a lit =? 0) = bool_decide (s = lit).
Proof.
  revert a s. induction lit as [|c lit IH]; intros a s Hs Hl; cbn [strcmp_lit].
  - destruct s as [|d s]; cbn [cstr] in Hs; [by rewrite Hs|]. destruct Hs as (-> & Hd & _).
    rewrite bool_decide_false by done. by apply Z.eqb_neq.
  - apply Forall_cons in Hl as [Hc Hl]. destruct s as [|d s]; cbn [cstr] in Hs.
    + rewrite Hs. cbn [Z.eqb negb andb]. rewrite bool_decide_false by done. apply Z.eqb_neq. lia.
    + destruct Hs as (-> & Hd & Hs). rewrite (proj2 (Z.eqb_neq d 0) Hd). cbn [negb andb]. destruct (Z.eqb_spec d c) as [->|Hne].
      * rewrite (IH (a + 1) s Hs Hl). apply bool_decide_ext. split; congruence.
      * rewrite bool_decide_false by congruence. apply Z.eqb_neq. lia.
Qed.

Lemma split_length s cur : Forall (fun w => (List.length w <= List.length cur + List.length s)%nat) (split s cur).
Proof.
  revert cur. induction s as [|c s IH]; intros cur; cbn [split List.length].
  - case_decide; [constructor|]. apply Forall_cons. split; [lia|constructor].
  - destruct (blank c).
    + assert (Forall (fun w => (List.length w <= List.length cur + S (List.length s))%nat) (split s [])) as H.
      { eapply Forall_impl; [apply IH|]. intros w Hw. cbn in Hw. lia. }
      case_decide; [done|]. apply Forall_cons. split; [lia|done].
    + eapply Forall_impl; [apply IH|]. intros w Hw. cbn in Hw. rewrite length_app in Hw. cbn in Hw. lia.
Qed.

(** What the program sees of its words is what they are. *)
Lemma strings_at m argv ws : Forall2 (cstr m) argv ws -> Forall (fun w => (List.length w < 256)%nat) ws ->
  map (string_at 256 m) argv = ws.
Proof.
  induction 1 as [|p w argv ws Hp _ IH]; intros Hl; [done|]. apply Forall_cons in Hl as [Hw Hl]. cbn [map].
  by rewrite (string_at_cstr m w), IH.
Qed.

Lemma launch_run m n argv ws : map (string_at 256 m) argv = ws -> ws <> [] -> Forall (fun w => (List.length w < 256)%nat) ws ->
  run m n argv = launch n ws.
Proof.
  intros <- Hne Hl. unfold run, launch. destruct (Z.ltb_spec (fork n) 0); [rewrite decide_True by done|rewrite decide_False by lia].
  { by rewrite (say_text m out _ [] (str "shell: fork failed" ++ [10])) by (done || (vm_compute; lia)). }
  destruct (Z.eqb_spec (fork n) 0); [rewrite decide_True by done|by rewrite decide_False]. destruct execve_fails; [|done].
  set (ws := map _ argv) in *. destruct ws as [|w ws]; [done|]. apply Forall_cons in Hl as [Hw _]. cbn [hd] in *.
  rewrite (say_text m out _ _ (str "shell: exec failed: " ++ w ++ [10])); [done|vm_compute; reflexivity|done|].
  rewrite !length_app. change (List.length (str "shell: exec failed: ")) with 20%nat. cbn [List.length]. lia.
Qed.

(** What the built-in commands with an argument print. *)
Lemma say_stub m name s : (List.length s < 256)%nat -> (List.length name < 10)%nat -> Forall (fun c => c <> chr "%") name ->
  say m out (name ++ str ": %s (not yet implemented)" ++ [10]) [A_str (Some s)] = [Write (name ++ str ": " ++ s ++ str " (not yet implemented)" ++ [10])].
Proof.
  intros Hs Hn Hp. apply say_text.
  - induction Hp as [|c name Hc Hp IH]; [vm_compute; reflexivity|]. cbn [List.length app Uprintf.render] in *.
    rewrite (proj2 (Z.eqb_neq c (chr "%")) Hc). cbn [negb]. by rewrite IH by lia.
  - by destruct name.
  - rewrite !length_app. change (List.length (str ": ")) with 2%nat. change (List.length (str " (not yet implemented)")) with 22%nat. cbn [List.length]. lia.
Qed.

(** The dispatch of [main] on the words in [argv]. *)
Lemma dispatch_command m n a argv ws : Forall2 (cstr m) (a :: argv) ws -> Forall (fun w => (List.length w < 256)%nat) ws ->
  dispatch m n a (a :: argv) = command n ws.
Proof.
  intros Hf Hl. pose proof (strings_at m (a :: argv) ws Hf Hl) as Hst. destruct ws as [|w args]; [inversion Hf|].
  apply Forall2_cons in Hf as [Ha Hargs]. pose proof (launch_run m n (a :: argv) (w :: args) Hst ltac:(done) Hl) as Hrun.
  unfold dispatch, command. rewrite Hrun. clear Hrun. apply Forall_cons in Hl as [_ Hl].
  rewrite !(strcmp_lit_eq _ m a _ Ha) by (repeat constructor; by vm_compute). unfold builtin_cd, builtin_cat, builtin_ls.
  assert (forall name, (List.length name < 10)%nat -> Forall (fun c => c <> chr "%") name ->
    Uprintf.render (name ++ str ": missing argument" ++ [10]) [] = Some (name ++ str ": missing argument" ++ [10]) ->
    match argv with p :: _ => say m out (name ++ str ": %s (not yet implemented)" ++ [10]) [A_str (Some (string_at 256 m p))]
                  | [] => say m out (name ++ str ": missing argument" ++ [10]) [] end =
    [Write (match args with a :: _ => name ++ str ": " ++ a ++ str " (not yet implemented)" ++ [10] | [] => name ++ str ": missing argument" ++ [10] end)]) as Hev.
  { intros name Hn Hp Hr. destruct Hargs as [|p v argv args Hp' _].
    - apply say_text; [done|by destruct name|]. rewrite !length_app. change (List.length (str ": missing argument")) with 18%nat. cbn [List.length]. lia.
    - apply Forall_cons in Hl as [Hv _]. rewrite (string_at_cstr m v 256 p Hp' Hv). by apply say_stub. }
  pose proof (Hev (str "cd") ltac:(cbn; lia) ltac:(repeat constructor; done) eq_refl) as Hcd.
  pose proof (Hev (str "cat") ltac:(cbn; lia) ltac:(repeat constructor; done) eq_refl) as Hcat. clear Hev.
  rewrite (say_text m out (str "ls: (not yet implemented)" ++ [10]) [] (str "ls: (not yet implemented)" ++ [10])) by (done || (vm_compute; lia)).
  repeat case_decide; subst; rewrite ?bool_decide_true by done; repeat (rewrite bool_decide_false by done); rewrite ?bool_decide_true by done; try done.
  - f_equal. f_equal. exact Hcd.
  - f_equal. f_equal. exact Hcat.
Qed.

Definition typed (l : list Z) : Prop := Forall (fun c => c <> 0 /\ c <> 10 /\ c <> 13) l /\ (List.length l < 255)%nat.

Lemma turn_line line m n l rest : typed l -> exists m',
  shell_turn line m n (l ++ 10 :: rest) =
    let '(go, ev, n) := command n (take 15 (words l)) in Some (go, Write (str "$ ") :: ev, m', n, rest).
Proof.
  intros [Hl Hlen]. unfold shell_turn. rewrite readline_line; [|eapply Forall_impl; [exact Hl|]; cbn; tauto|lia|unfold LINE_MAX; lia].
  rewrite Z.add_0_l, Z.add_0_r. rewrite (proj2 (Z.ltb_ge _ 0)) by lia.
  pose proof (cstr_put m line l ltac:(eapply Forall_impl; [exact Hl|]; cbn; tauto)) as Hc. set (m1 := put m line (l ++ [0])) in *. clearbody m1.
  destruct (cstr_head m1 line l Hc) as [Hm Hm0]. destruct (decide (l = [])) as [->|Hne]; [rewrite Hm; by exists m1|].
  rewrite (proj2 (Z.eqb_neq (m1 line) 0)) by auto.
  destruct (parse_loop_spec ARG_MAX 256 l m1 line [] Hc ltac:(lia) ltac:(by vm_compute)) as (argv & m' & E & Hf & _).
  unfold parse. rewrite E. cbn [app]. change (Z.to_nat (ARG_MAX - 1) - List.length (@nil Z))%nat with 15%nat in Hf. exists m'.
  assert (Forall (fun w => (List.length w < 256)%nat) (take 15 (words l))) as Hws.
  { apply Forall_take. eapply Forall_impl; [apply split_length|]. intros w Hw. cbn in Hw. lia. }
  set (ws := take 15 (words l)) in *. clearbody ws. destruct argv as [|a argv]; [by inversion Hf|].
  by rewrite (dispatch_command m' n a argv ws Hf Hws).
Qed.

(** C30. A shell session: when the lines typed have fewer than 255 characters (and no
    carriage return or NUL), what the shell prints and the process calls it makes (forks,
    programs executed with their argument vectors, waits, exits), in the parent and in
    a child, are those of the lines taken one by one as lists of words, up to
    [exit], a child's end or the end of the input; one turn of fuel per line is enough. *)
Theorem shell_session line m lines fuel : Forall typed lines -> (List.length lines < fuel)%nat ->
  shell_main fuel line m (concat (map (fun l => l ++ [10]) lines)) =
    Some (Write (str "NamelessOS shell - type 'exit' to quit" ++ [10]) :: session 0 lines).
Proof.
  intros Hl Hf. unfold shell_main.
  rewrite (say_text m out _ [] (str "NamelessOS shell - type 'exit' to quit" ++ [10])) by (done || (vm_compute; lia)).
  assert (forall n, shell_loop fuel line m n (concat (map (fun l => l ++ [10]) lines)) = Some (session n lines)) as ->; [|done].
  revert m fuel Hf. induction Hl as [|l lines Ht Hl IH]; intros m [|fuel] Hf n; cbn [List.length] in Hf; try lia; cbn [shell_loop map concat session].
  - done.
  - rewrite <-app_assoc. cbn [app]. destruct (turn_line line m n l (concat (map (fun l => l ++ [10]) lines)) Ht) as [m' ->].
    destruct (command _ _) as [[go ev] n']. destruct go; [|done]. by rewrite IH by lia.
Qed.
End shell.

Lemma shell_session_witness : shell_main 5000 (fun _ => 7) true 3 500 (fun _ => 0) (str "/bin/httpd -v" ++ [10] ++ str "exit" ++ [10]) =
    Some [Write (str "NamelessOS shell - type 'exit' to quit" ++ [10]); Write (str "$ "); Fork 7; Waitpid 7; Write (str "$ ")] /\
  shell_main 5000 (fun _ => 0) true 3 500 (fun _ => 0) (str "/bin/httpd -v" ++ [10] ++ str "exit" ++ [10]) =
    Some [Write (str "NamelessOS shell - type 'exit' to quit" ++ [10]); Write (str "$ "); Fork 0;
          Execve (str "/bin/httpd") [str "/bin/httpd"; str "-v"]; Write (str "shell: exec failed: /bin/httpd" ++ [10]); Exit 127].
Proof.
  assert (Forall typed [str "/bin/httpd -v"; str "exit"]) as Ht by (repeat constructor; vm_compute; intuition (discriminate || lia)).
  split.
  - refine (shell_session 5000 (fun _ => 7) true 500 (fun _ => 0) [str "/bin/httpd -v"; str "exit"] 3 Ht _). cbn. lia.
  - refine (shell_session 5000 (fun _ => 0) true 500 (fun _ => 0) [str "/bin/httpd -v"; str "exit"] 3 Ht _). cbn. lia.
Defined.

Definition demo_line : mem := put (fun _ => 0) 500 (str " cat  /etc/motd " ++ [0]).
Lemma parse_words_witness : exists p1 p2 m', parse 20 demo_line 500 ARG_MAX = Some ([p1; p2], m') /\
  cstr m' p1 (str "cat") /\ cstr m' p2 (str "/etc/motd").
Proof.
  destruct (parse_words demo_line 500 (str " cat  /etc/motd ") 20) as (argv & m' & E & Hw & _).
  - vm_compute. intuition discriminate.
  - vm_compute. lia.
  - change (take 15 (words (str " cat  /etc/motd "))) with [str "cat"; str "/etc/motd"] in Hw.
    inversion Hw as [|p1 w1 l1 k1 H1 Hw1]; subst. inversion Hw1 as [|p2 w2 l2 k2 H2 Hw2]; subst. inversion Hw2; subst.
    exists p1, p2, m'. split; [exact E|]. split; [exact H1|exact H2].
Defined.
End Shell.

(** ** init *)

Module Init.
Definition SHELL_PATH : list Z := str "/bin/shell".
Definition shell_argv : list (list Z) := [SHELL_PATH].

Section init.
(** As for the shell; [getpid] is the number of the process. *)
Variable (out : Z) (fork : nat -> Z) (execve_fails : bool) (getpid : Z) (m : mem).

(** The [n]-th turn of [main]'s loop, as seen by the process that returns from its [fork]. *)
Definition init_turn (n : nat) : bool * list event :=
  let pid := fork n in
  if pid <? 0 then (true, Fork pid :: say m out (str "init: fork failed" ++ [10]) [])
  else if pid =? 0 then
    (false, Fork pid :: Execve SHELL_PATH shell_argv ::
      if execve_fails then say m out (str "init: execve failed" ++ [10]) [] ++ [Exit 1] else [])
  else (true, Fork pid :: Waitpid pid :: say m out (str "init: shell exited, respawning" ++ [10]) []).

(** The first [k] turns from the [n]-th. *)
Fixpoint init_turns (k n : nat) : list event :=
  match k with
  | O => []
  | S k => let '(go, ev) := init_turn n in if go then ev ++ init_turns k (S n) else ev
  end.
Definition init_main (k : nat) : list event :=
  say m out (str "init: PID %d starting" ++ [10]) [A_int (i32 getpid)] ++ init_turns k 0.

(** As long as the forks succeed, init starts one shell after the other, each when the one before
    has ended. *)
Lemma init_respawns k n : (forall i, 0 < fork i) ->
  init_turns k n = concat (map (fun i => [Fork (fork i); Waitpid (fork i); Write (str "init: shell exited, respawning" ++ [10])]) (seq n k)).
Proof.
  intros Hf. revert n. induction k as [|k IH]; intros n; cbn [init_turns seq map concat]; [done|]. unfold init_turn.
  rewrite (proj2 (Z.ltb_ge (fork n) 0)) by (specialize (Hf n); lia). rewrite (proj2 (Z.eqb_neq (fork n) 0)) by (specialize (Hf n); lia).
  rewrite (say_text m out _ [] (str "init: shell exited, respawning" ++ [10])) by (done || (vm_compute; lia)). by rewrite IH.
Qed.
End init.
End Init.

(** ** httpd *)

Module Httpd.
Definition RBUF_SIZE : Z := 512.
Definition SBUF_SIZE : Z := 1024.

Definition INDEX_BODY : list Z :=
  str "<!DOCTYPE html><html><head><title>NamelessOS</title></head>" ++
  str "<body><h1>NamelessOS</h1>" ++
  str "<p>Kernel-served HTTP/1.0 from bare metal.</p>" ++
  str "</body></html>" ++ [13; 10].
Definition header_fmt : list Z :=
  str "HTTP/1.0 200 OK" ++ [13; 10] ++ str "Content-Type: text/html" ++ [13; 10] ++
  str "Content-Length: %d" ++ [13; 10] ++ str "Connection: close" ++ [13; 10] ++ [13; 10].

(** The scan for the end of the headers: [for (j = 0; j + 3 < n; j++)]. *)
Fixpoint headers_end (r : list Z) : bool :=
  match r with
  | a :: ((b :: c :: d :: _) as t) =>
      if (a =? 13) && (b =? 10) && (c =? 13) && (d =? 10) then true
      else if (a =? 10) && (b =? 10) then true
      else headers_end t
  | _ => false
  end.

(** The socket calls: [recv] gives the bytes received (or none with a result of 0 or
    less), [send] the count accepted. *)
Class Sock (K : Type) := {
  recv : Z -> K -> Z * list Z * K;
  send : list Z -> K -> Z * K;
  hang_up : K -> K      (** [shutdown] and [close] *)
}.

Section httpd.
Context {K : Type} `{!Sock K}.
Implicit Types k : K.

(** [while (n < sizeof(rbuf) - 1)]: [false] is [goto done]. *)
Fixpoint recv_loop (fuel : nat) (rbuf : list Z) k : option (bool * K) :=
  match fuel with
  | O => None
  | S fuel =>
      let n := Z.of_nat (List.length rbuf) in
      if n <? RBUF_SIZE - 1 then
        let '(got, data, k) := recv (RBUF_SIZE - 1 - n) k in
        if got <=? 0 then Some (false, k)
        else
          let rbuf := rbuf ++ data in
          if headers_end rbuf then Some (true, k) else recv_loop fuel rbuf k
      else Some (true, k)
  end.
(** [while (sent < len)]. *)
Fixpoint send_loop (fuel : nat) (data : list Z) k : option (bool * K) :=
  match fuel with
  | O => None
  | S fuel =>
      match data with
      | [] => Some (true, k)
      | _ => let '(w, k) := send data k in
             if w <=? 0 then Some (false, k) else send_loop fuel (drop (Z.to_nat w) data) k
      end
  end.

Definition handle_client (fuel : nat) (m : mem) (sbuf : Z) k : option K :=
  match recv_loop fuel [] k with
  | None => None
  | Some (false, k) => Some (hang_up k)
  | Some (true, k) =>
      match Uprintf.snprintf m sbuf SBUF_SIZE header_fmt [A_int (Z.of_nat (List.length INDEX_BODY))] with
      | None => None
      | Some (hdr_len, m) =>
          match send_loop fuel (bytes (Z.to_nat hdr_len) m sbuf) k with
          | None => None
          | Some (false, k) => Some (hang_up k)
          | Some (true, k) =>
              match send_loop fuel INDEX_BODY k with
              | None => None
              | Some (_, k) => Some (hang_up k)
              end
          end
      end
  end.
End httpd.

(** A connection: [wire] is what the peer will get and [inbox] what it has sent and the
    server has not read; a send accepts a prefix of its data, a receive returns a
    prefix of [inbox], at most what was asked for. *)
Class SockLaws (K : Type) `{!Sock K} := {
  wire : K -> list Z;
  inbox : K -> list Z;
  send_law data k : data <> [] -> let '(w, k') := send data k in
    (w <= 0 /\ wire k' = wire k) \/
    (0 < w <= Z.of_nat (List.length data) /\ wire k' = wire k ++ take (Z.to_nat w) data);
  recv_law n k : 0 < n -> let '(got, data, k') := recv n k in
    wire k' = wire k /\
    (got <= 0 \/ 0 < got <= n /\ Z.of_nat (List.length data) = got /\ inbox k = data ++ inbox k');
  hang_law k : wire (hang_up k) = wire k
}.

(** A request the server answers: its headers end within the first 511 bytes, with
    CR LF CR LF or with LF LF and two more bytes, or it has 511 bytes. *)
Definition headers_in (r : list Z) : Prop := exists pre post,
  r = pre ++ [13; 10; 13; 10] ++ post \/ exists a b, r = pre ++ [10; 10; a; b] ++ post.
Definition answered (r : list Z) : Prop :=
  RBUF_SIZE - 1 <= Z.of_nat (List.length r) \/ headers_in (take (Z.to_nat (RBUF_SIZE - 1)) r).

Lemma headers_end_iff r : headers_end r = true <-> headers_in r.
Proof.
  split.
  - induction r as [|a t IH]; [done|]. cbn [headers_end]. destruct t as [|y [|c [|d t] ] ]; try done.
    destruct ((a =? 13) && (y =? 10) && (c =? 13) && (d =? 10)) eqn:E1.
    { bool_hyps. subst. intros _. exists [], t. by left. }
    destruct ((a =? 10) && (y =? 10)) eqn:E2.
    { bool_hyps. subst. intros _. exists [], t. right. by exists c, d. }
    intros H. destruct (IH H) as (pre & post & [E|(u & v & E)]); exists (a :: pre), post; [left|right; exists u, v]; by rewrite E.
  - intros (pre & post & H). revert r H. induction pre as [|z pre IH]; intros r H.
    + destruct H as [->|(a & b & ->)]; [done|]. cbn [app headers_end]. change ((10 =? 13) && _) with false. done.
    + assert (headers_end (tail r) = true /\ (4 <= List.length (tail r))%nat) as [Ht Hl].
      { destruct H as [->|(a & b & ->)]; cbn [app tail]; (split; [apply IH; eauto|rewrite length_app; cbn [app List.length]; lia]). }
      assert (exists a, r = a :: tail r) as [a ->] by (destruct H as [->|(? & ? & ->)]; cbn [app tail]; by eexists).
      cbn [tail] in *. destruct (tail r) as [|y [|c [|d t] ] ]; cbn [List.length] in Hl; try lia.
      change (headers_end (a :: y :: c :: d :: t)) with (if (a =? 13) && (y =? 10) && (c =? 13) && (d =? 10) then true
        else if (a =? 10) && (y =? 10) then true else headers_end (y :: c :: d :: t)).
      rewrite Ht. by repeat destruct (_ && _).
Qed.
Lemma headers_in_app r t : headers_in r -> headers_in (r ++ t).
Proof. intros (pre & post & [->|(a & b & ->)]); exists pre, (post ++ t); [left|right; exists a, b]; by rewrite <- !app_assoc. Qed.

Definition HTTP_HEADER : list Z :=
  str "HTTP/1.0 200 OK" ++ [13; 10] ++ str "Content-Type: text/html" ++ [13; 10] ++
  str "Content-Length: 146" ++ [13; 10] ++ str "Connection: close" ++ [13; 10] ++ [13; 10].

Section laws.
Context {K : Type} `{!Sock K} `{!SockLaws K}.
Implicit Types k : K.

(** The receive loop ends; it succeeds on the requests that are answered, and on all of
    them if the connection delivers what the peer sends. *)
Lemma recv_loop_spec fuel rbuf k : Z.of_nat (List.length rbuf) <= RBUF_SIZE - 1 -> RBUF_SIZE - Z.of_nat (List.length rbuf) <= Z.of_nat fuel ->
  headers_end rbuf = false ->
  exists b k', recv_loop fuel rbuf k = Some (b, k') /\ wire k' = wire k /\ (b = true -> answered (rbuf ++ inbox k)) /\
    ((forall n k, 0 < n -> inbox k <> [] -> 0 < fst (fst (recv n k))) -> answered (rbuf ++ inbox k) -> b = true).
Proof.
  revert rbuf k. induction fuel as [|fuel IH]; intros rbuf k Hr Hf Hh; [unfold RBUF_SIZE in *; lia|]. cbn [recv_loop].
  destruct (Z.ltb_spec (Z.of_nat (List.length rbuf)) (RBUF_SIZE - 1)) as [Hlt|Hge].
  2: { exists true, k. splits; try done. intros _. left. rewrite length_app. lia. }
  pose proof (recv_law (RBUF_SIZE - 1 - Z.of_nat (List.length rbuf)) k ltac:(lia)) as Hl.
  assert ((forall n k, 0 < n -> inbox k <> [] -> 0 < fst (fst (recv n k))) ->
    inbox k = [] \/ 0 < fst (fst (recv (RBUF_SIZE - 1 - Z.of_nat (List.length rbuf)) k))) as Hlive.
  { intros Hlv. destruct (decide (inbox k = [])); [by left|right]. apply Hlv; [lia|done]. }
  destruct (recv _ k) as [[got data] k']. cbn [fst] in Hlive. destruct Hl as [Hw Hg].
  destruct (Z.leb_spec got 0) as [Hz|Hp].
  { exists false, k'. splits; try done. intros Hlv. destruct (Hlive Hlv) as [->|?]; [|lia]. rewrite app_nil_r. intros [?|Hin]; [lia|].
    rewrite take_ge in Hin by lia. apply headers_end_iff in Hin. congruence. }
  destruct Hg as [?|(Hgn & Hd & Hi)]; [lia|]. rewrite Hi, app_assoc.
  assert (Z.of_nat (List.length (rbuf ++ data)) <= RBUF_SIZE - 1) as Hl by (rewrite length_app; lia).
  destruct (headers_end (rbuf ++ data)) eqn:He.
  - exists true, k'. splits; try done. intros _. right. apply headers_end_iff in He. rewrite take_app_ge by lia. by apply headers_in_app.
  - destruct (IH (rbuf ++ data) k' Hl ltac:(rewrite length_app in *; lia) He) as (b & k2 & E & Hw2 & Hb).
    exists b, k2. split; [exact E|]. split; [congruence|exact Hb].
Qed.

Lemma send_loop_spec fuel data k : (List.length data < fuel)%nat ->
  exists b k' n, send_loop fuel data k = Some (b, k') /\ wire k' = wire k ++ take n data /\ (b = true -> take n data = data).
Proof.
  revert data k. induction fuel as [|fuel IH]; intros data k Hf; [lia|]. cbn [send_loop].
  destruct data as [|c data]; [exists true, k, O; by rewrite app_nil_r|]. set (l := c :: data) in *.
  pose proof (send_law l k ltac:(done)) as H. destruct (send l k) as [w k1]. destruct H as [[Hw Hk]|[Hw Hk]].
  - rewrite (proj2 (Z.leb_le w 0)) by done. exists false, k1, O. by rewrite app_nil_r.
  - rewrite (proj2 (Z.leb_gt w 0)) by lia. destruct (IH (drop (Z.to_nat w) l) k1) as (b & k2 & n & E & Hk2 & Hb); [rewrite length_drop; lia|].
    exists b, k2, (Z.to_nat w + n)%nat. rewrite E. split; [done|].
    assert (take (Z.to_nat w + n) l = take (Z.to_nat w) l ++ take n (drop (Z.to_nat w) l)) as ->.
    { rewrite <-(take_drop (Z.to_nat w) l) at 1. rewrite take_app_add' by (rewrite length_take_le; lia). done. }
    rewrite Hk2, Hk, <-app_assoc. split; [done|]. intros Hb'. rewrite Hb by done. apply take_drop.
Qed.

Lemma send_loop_all fuel data k b k' : (forall data k, data <> [] -> 0 < fst (send data k)) -> send_loop fuel data k = Some (b, k') -> b = true.
Proof.
  intros Hs. revert data k. induction fuel as [|fuel IH]; intros data k E; [done|]. cbn [send_loop] in E.
  destruct data as [|c data]; [by injection E|]. pose proof (Hs (c :: data) k ltac:(done)) as Hw. destruct (send _ k) as [w k1]. cbn in Hw.
  rewrite (proj2 (Z.leb_gt w 0)) in E by done. by eapply IH.
Qed.

End laws.

(** A connection whose request is "GET /", accepting 10 bytes at a time. *)
Record demo_conn := mk_demo { d_in : list Z; d_out : list Z }.
#[local] Instance demo_sock : Sock demo_conn := {|
  recv n c := let l := take (Z.to_nat n) (d_in c) in (Z.of_nat (List.length l), l, mk_demo (drop (Z.to_nat n) (d_in c)) (d_out c));
  send data c := (Z.of_nat (List.length (take 10 data)), mk_demo (d_in c) (d_out c ++ take 10 data));
  hang_up c := c
|}.
#[local] Instance demo_sock_laws : SockLaws demo_conn.
Proof.
  refine {| wire := d_out; inbox := d_in |}.
  - intros data k Hd. cbn [send demo_sock]. right. rewrite Nat2Z.id. cbn [d_out]. destruct data as [|c data]; [done|]. cbn [take List.length].
    split; [pose proof (length_take data 9); lia|]. f_equal. cbn [take]. f_equal. rewrite length_take.
    destruct (decide (9 <= List.length data)%nat); [by rewrite Nat.min_l by lia|]. rewrite Nat.min_r by lia. by rewrite !take_ge by lia.
  - intros n k Hn. cbn [recv demo_sock]. cbv zeta. split; [done|]. destruct (decide (d_in k = [])) as [->|Hne]; [left; by rewrite take_nil|].
    right. cbn [d_in]. rewrite take_drop, length_take. split; [|done]. destruct (d_in k); [done|]. cbn [List.length]. lia.
  - done.
Defined.
Lemma demo_delivers n (k : demo_conn) : 0 < n -> inbox k <> [] -> 0 < fst (fst (recv n k)).
Proof.
  intros Hn Hne. cbn [recv demo_sock fst]. cbn [inbox demo_sock_laws] in Hne. rewrite length_take. destruct (d_in k); [done|].
  cbn [List.length]. lia.
Qed.
Lemma demo_accepts data (k : demo_conn) : data <> [] -> 0 < fst (send data k).
Proof. intros Hd. cbn [send demo_sock fst]. destruct data; [done|]. cbn [take List.length]. lia. Qed.
End Httpd.
